(* ===== verification/_CoqProject ===== *)
-Q . S2P
Prelude.v
GoStrings.v
GoTime.v
GoNet.v
GoFloat.v
GoRegexp.v
Effects.v
Programs.v
Authz.v
GoChan.v
RateLimit.v
RangeParser.v
AlertTypes.v
Evaluator.v
EvaluatorLoop.v
Notifier.v
UpdatePolicy.v
AutoUpdate.v
Tenancy.v
Settings.v
OverrideMap.v
SettingsCodec.v
SettingsResolver.v
SettingsApi.v
TenancyCalls.v
TenancyApi.v
RegistrationApi.v
TenancyAccess.v
TenancyAudit.v
TenancyMemory.v
GoUrl.v
AuditLog.v
AccountCalls.v
Sessions.v
Users.v
Sso.v
AccountAccess.v
AccountTokens.v
AccountUsers.v
GoText.v
FleetCalls.v
AgentsApi.v
ProxyText.v
ProxyApi.v
DevicesApi.v
Dashboard.v
MetricsApi.v
FleetRoutes.v
FleetAccess.v
FleetListings.v
FloatBounds.v
Downsample.v
AgentSettings.v
UploadWorker.v
Hub.v
AgentMessages.v
AgentSockets.v
AgentSocketsSafe.v
WsClient.v
AgentProxy.v
ScanPool.v
Evidence.v
Supplies.v
Detectors.v
CapabilityRegistry.v
MetricRelevance.v
Oids.v
VendorModules.v
VendorParse.v
SnmpQuery.v
ScanPipeline.v
PduText.v
DeviceText.v
ParsePdus.v
DeviceReport.v
MergeMetrics.v
EpsonSt2.v
EpsonRemote.v
ReportSchedule.v
ReportRuns.v
