(* ===== verification/Prelude.v ===== *)
(** * PrintMaster: a verification development

    PrintMaster is a fleet manager for printers: an agent on each site discovers and
    polls printers and reports to a server, which stores the data, raises alerts, sends
    notifications, hands out settings and updates, and serves a user interface. Both
    are Go programs. This library translates the parts with logic of their own into
    Gallina and proves what makes them correct. It is shallow: a Go function is a
    function here, with the source's names, branches and order of effects.

    ** How the code is modelled

    - Go's [int] and [time.Duration] are 64-bit ([wrap64] where the code can overflow),
      [uint32] is [wrapU32]; a [time.Time] is nanoseconds since year 1 (GoTime).
    - Strings are bytes (GoStrings). ASCII behaviour is defined; Unicode case tables
      are the class [GoUnicode], consulted only on bytes above 127.
    - [net.ParseIP], [ParseCIDR] and the private ranges are in GoNet; [float64] is the
      Standard Library's executable IEEE specification in GoFloat; calendar dates and
      zones are in GoTime, regular expressions in GoRegexp (proved against their
      languages), channels with their capacity and panics in GoChan.
    - [(T, error)] is [result]; a panic or a loop that never ends is a constructor of
      the value, so that theorems speak about it.
    - A component that calls a store, a clock, the network or the file system is a
      computation of the monad [M] of Effects: it runs against an arbitrary
      environment and records each call with its answer. A theorem then says what must
      have happened before a call, however the environment behaves and whatever other
      processes do in between. In Programs a computation with many kinds of calls is a
      tree, so that it can also be compared with the answers of a given environment.
      Interfaces of the source (stores, policy providers) are
      classes or records of operations.
    - Locks: a method that holds its mutex throughout is one step of a step relation;
      where the code releases a lock in between, the pieces are separate steps.

    ** The parts

    Server:
    - Authz ([server/authz/authz.go]): roles, wildcard patterns, tenant scoping.
      Characterization of [Authorize], the order of the roles, the actions only an
      administrator has.
    - RateLimit ([server/auth_ratelimit.go]): the limiter of failed logins, its cleanup
      goroutine included, as a state and events. Invariant of all reachable states; when
      a block starts, that it starts, that nothing shortens it, that cleanup is
      invisible.
    - AlertTypes, Evaluator, EvaluatorLoop ([server/alerts/evaluator.go],
      [server/storage/alert_types.go]): an evaluation pass (created and resolved alerts
      are justified by what was read), and the life cycle of its goroutine as a step
      relation over channels.
    - Notifier ([server/alerts/notifier.go]): which channels an alert reaches, counts,
      spacing by the rate limit (a limit above 60 an hour spaces nothing), sanitized mail
      headers, the filter of private addresses.
    - Tenancy ([server/tenancy/store.go], [NormalizeTenantDomain] of
      [server/storage/types.go]): the tenant store under interleaved calls, the life of
      a join token, canonical login domains.
    - TenancyCalls, TenancyApi, RegistrationApi, TenancyAccess, TenancyAudit, TenancyMemory
      ([server/tenancy/handlers.go], [sites.go], [subresources.go], [authorize.go]): the
      handlers of tenants, join tokens, sites, pending and accepted registrations and
      install packages, as trees of calls (Programs). What each call comes after; what
      users who are not administrators can change; that changes, those of sites excepted, are
      audited; a token and a hosted script followed over the in-memory store.
    - GoUrl, AuditLog, AccountCalls, Sessions, Users, Sso ([server/main.go],
      [server/oidc_handlers.go], [server/auth_tenant_hints.go], the password policy of
      [server/config.go]): the middleware for agents and users, login, callback tokens,
      users, sessions, password reset, invitations, identity providers and the OpenID
      Connect flow, as trees of calls behind the routes. AccountAccess: what each call
      comes after, where administrators come from, the three checks of a tenant agree.
      AccountTokens: against the interfaces [Limits], which RateLimit implements, and
      [CallbackTable], that the guesses of agent tokens which share their first eight bytes
      are bounded and that a callback token is good once. AccountUsers: what is written is well formed. Examples beside the
      theorems show what the handlers allow and should not.
    - GoText, FleetCalls, AgentsApi, ProxyText, ProxyApi, DevicesApi, Dashboard, MetricsApi,
      FleetRoutes ([server/main.go], [sendProxyRequest] of [server/websocket.go]): the
      handlers of agents, devices, metrics and the dashboard, and the proxy to the
      interface of an agent or a printer over the agent's connection, with its paths and the
      pages it rewrites. FleetAccess: what each call comes after, which for the handlers that
      have no check is only a signed-in user. FleetListings: the lists of agents, the page of an
      agent and the dashboard show a user with tenants what is of them, the list of devices
      if one of these tenants has an agent. FloatBounds, Downsample: the reduction of a history of metrics stays in
      range, although its buckets are computed in floating point, and selects points in
      order, both ends included. ProxyText: rewriting a page ends, a request without the serial
      number is redirected once. FleetRoutes shows on a small fleet what the handlers allow and should not.
    - Sessions, AgentMessages, AgentSockets, AgentSocketsSafe ([server/websocket.go]): the
      endpoint to which agents connect. How a connection is authenticated (its guesses count
      in AccountTokens), what the messages of an agent make the server do, and the table of
      connections with the proxy requests that wait, as a step relation. In every
      interleaving the entry of an agent is its live connection, and a handler gets only
      messages with its identifier and at most one final answer; only readers panic, on a late
      answer and on a progress message without data. An example shows an agent that
      answers for another.
    - Settings, OverrideMap, SettingsCodec, SettingsResolver, SettingsApi
      ([common/settings], [server/settings]): the settings records and their ranges; the
      override maps, their merge and difference; the conversion through JSON; the three
      layers of resolution and the snapshot for agents; the HTTP handlers. Agent
      overrides are confined to managed sections that the tenant does not enforce; the
      handlers write only what is authorized, permitted and valid; an accepted change is
      what the agent then gets; cleaning overrides keeps their effect.

    - ReportSchedule, ReportRuns ([server/reports/scheduler.go],
      [server/storage/base_reports.go], [calculateInitialNextRun] of
      [server/api_reports.go]): the next run of a schedule; scheduled and immediate
      runs against any store; one check of the schedule table, which starts each due
      schedule whose report exists once and leaves only those due whose report is gone.
    - Hub ([common/ws/hub.go], [handleUIWebSocket] of [server/main.go]): the hub
      goroutine and its connections over channels (GoChan). No reachable state panics;
      a queued message is delivered under a fair schedule.

    Agent:
    - Evidence, Detectors, CapabilityRegistry
      ([agent/scanner/capabilities], [detectCapabilities] of
      [agent/scanner/query.go]): what a device can do, from its SNMP data. The
      floating-point scores agree with exact counts at every threshold; the flags, the
      device type and what makes a query see a printer.
    - MetricRelevance ([agent/scanner/capabilities/metrics.go]): the table of metrics
      and its filters, which agree with each other.
    - ScanPool, ScanPipeline ([agent/scanner/pipeline.go], [agent/scanner_api.go]): the
      worker pools of a scan as a step relation over workers, unbuffered channels and
      cancellation, and the quick and full discovery composed of them. A discovery that
      is not cancelled returns, with exactly one outcome for each job; results are sound
      in every reachable state; what a cancelled scan leaves behind.
    - SnmpQuery ([agent/scanner/query.go], [snmp.go], [snmp_batch.go], [detector.go]): a
      query against any device and context: what it may ask for and when, the limit of
      its walks, where its results come from; detection, deep scan and refresh.
    - Oids, VendorModules, VendorParse ([common/snmp/oids], [agent/scanner/vendor]): the
      object identifiers, the registry of vendor modules and what a hint does to it, and
      what the modules make of the answers: counters by priority, supply levels and paper
      trays, for every order in which Go visits a map.
    - Supplies ([agent/supplies/normalize.go]): the names of supplies, through four
      regular expressions and word lists; the name does not depend on the case.
    - PduText, DeviceText, ParsePdus, DeviceReport, MergeMetrics
      ([agent/agent/parse.go], [common/util/helpers.go]): the report on a device that
      [ParsePDUs] makes of the answers, and the merge of the metrics of its vendor. Where a
      serial number comes from; reported addresses are valid; what the order of the map
      iterations can change and what it cannot; the page count after the merge. The web
      probe, the asset pattern of the settings and the ASN.1 type tags are parameters.
    - EpsonSt2, EpsonRemote ([agent/scanner/vendor/epson_remote.go], [epson_st2.go]): the
      remote mode of Epson printers. The parser of a status frame reads every report the
      frame declares and never past its end; the readings of the remote mode fill gaps
      and lower no counter.
    - RangeParser ([agent/agent/rangeparser.go]): the lines of the scan ranges. Results
      are distinct and bounded, the parser terminates except on one input shape, a dash
      range yields exactly its addresses.
    - UpdatePolicy ([common/updatepolicy/types.go], [agent/update_policy.go],
      [agent/autoupdate/policy_adapter.go], [server/updatepolicy/api.go]): validation
      and storage of update policies; the adapter refines the effective policy.
    - AutoUpdate ([agent/autoupdate/manager.go], [types.go]): the update manager from
      the check to the restart. A file is installed when a manifest offered it, its
      digest agreed and a look found the run not cancelled (a request to cancel can be
      lost); upgrades only; maintenance windows;
      the schedule of checks and its overflow; bounded downloads.

    - AgentSettings ([agent/settings_manager.go], [loadUnifiedSettings] and the
      [/settings] handler of [agent/main.go]): the settings of the agent and the snapshot
      of the server. A local save changes only sections the server does not manage, and
      is read back; what the server resolved is what the agent uses.
    - UploadWorker ([agent/upload_worker.go], [agent/agent/server_client.go]):
      registration, heartbeats and uploads with retries. Which token is presented, kept
      and saved; the payloads built field by field from the stored devices and snapshots, that
      an upload sends them all; how often and how long it retries.
    - WsClient ([agent/agent/ws_client.go]): the connection of the agent to the server as a
      step relation over its manager, readers, ping loops and [Stop]. One reader and one open
      connection in every interleaving; a client that was connected gets back in a bounded
      number of steps; the delay between attempts. The examples show a first connection that
      is never tried again, ping loops that add up and a connection that survives [Stop].
    - AgentProxy (the same file): the requests that the server proxies to the agent, handed to
      its local handler. With ProxyApi, the server's side: status, headers and body make the
      round trip through JSON and base64, and a streamed answer is the buffered one, write by
      write, when no message is lost; what arrives of one when some are. The examples show a lost chunk that nobody notices and a path parsed twice.

    The alert evaluator feeds the notifier; the settings handlers call the authorizer
    (Authz) and the resolver; the update manager uses the policy of UpdatePolicy; the
    clock and windows of GoTime are shared by the evaluator and the update manager.

    ** Fuel and bounds

    The loop over a dash range counts in 32 bits and does not end when its last address
    is 255.255.255.255: [dash_loop] has fuel, [Diverges] is its exhaustion, and
    [maxAddrs + 2] is proved enough whenever the loop of the code ends. [batches] has the
    length of its list as fuel; the matcher of GoRegexp is structural in the pattern and
    bounded by the text; that a discovery ends is a measure on its steps. Downloads are
    structural in [maxRetries]; every other recursion is structural in its data.
    Integers that pass through JSON are exact up to 2^53 ([json_safe]).

    ** What is not modelled

    The Unicode tables, the zone database, semantic version parsing, the shortest
    decimal text of a float and SHA-256 are classes with an instance each, so that the
    model runs. SQL, HTTP transport, JSON syntax, mail and SNMP are behind interfaces.
    Go's map order is a list order that the theorems do not fix. Logging, contexts and
    the Windows restart helper are left out. The merge of observations ([agent/agent/merge.go])
    is not called by the program. Not modelled yet, in the order in which they would
    follow: the copies of the hub that serve server-sent events, the site
    filters of a tenant, the alert API, the server's configuration and
    self-update. The generators of reports and the formatters are SQL and text. Of the
    proxy, compression, the types of file names and the check of a status code by
    [net/http] are left to the libraries; the answers of an agent are calls. *)
From stdpp Require Export base tactics list gmap strings pretty fin_maps.
From Stdlib Require Export ZArith Lia.

Declare Scope go_scope.
Delimit Scope go_scope with go.

(** ** Results

    A Go function that returns [(T, error)] and whose callers ignore the value
    when the error is non-nil is a [result]. *)

Inductive result (E A : Type) : Type :=
| Ok (a : A)
| Err (e : E).
Arguments Ok {E A} a.
Arguments Err {E A} e.

Definition is_ok {E A} (r : result E A) : bool :=
  match r with Ok _ => true | Err _ => false end.

(** The value of a call whose error the code discards ([x, _ := f()]): the
    zero value of the type when the call failed. *)
Definition value_or {E A} (zero : A) (r : result E A) : A :=
  match r with Ok a => a | Err _ => zero end.

Definition rbind {E A B} (r : result E A) (f : A -> result E B) : result E B :=
  match r with Ok a => f a | Err e => Err e end.

Notation "x <-? r ;; k" := (rbind r (fun x => k))
  (at level 100, r at next level, right associativity) : go_scope.

Lemma rbind_Ok_inv {E A B} (r : result E A) (f : A -> result E B) b :
  rbind r f = Ok b -> exists a, r = Ok a /\ f a = Ok b.
Proof. destruct r; simpl; [eauto | discriminate]. Qed.

(** ** Machine integers

    Go's [int], [int64] and [time.Duration] are 64-bit two's complement; [uint32]
    is 32-bit unsigned. *)

Open Scope Z_scope.

Definition int64_min : Z := - 2 ^ 63.
Definition int64_max : Z := 2 ^ 63 - 1.
Definition in_int64 (z : Z) : Prop := int64_min <= z <= int64_max.
Definition wrap64 (z : Z) : Z := (z + 2 ^ 63) mod 2 ^ 64 - 2 ^ 63.
Definition wrapU32 (z : Z) : Z := z mod 2 ^ 32.

Lemma wrap64_id z : in_int64 z -> wrap64 z = z.
Proof.
  unfold in_int64, int64_min, int64_max, wrap64. intros H.
  rewrite Z.mod_small; lia.
Qed.

Lemma wrap64_range z : in_int64 (wrap64 z).
Proof.
  unfold in_int64, int64_min, int64_max, wrap64.
  pose proof (Z.mod_pos_bound (z + 2 ^ 63) (2 ^ 64)). lia.
Qed.

Lemma wrapU32_id z : 0 <= z < 2 ^ 32 -> wrapU32 z = z.
Proof. intros H. apply Z.mod_small, H. Qed.

Lemma wrapU32_range z : 0 <= wrapU32 z < 2 ^ 32.
Proof. apply Z.mod_pos_bound. lia. Qed.

(** A sum that wraps around once or twice is the same. *)
Lemma wrap64_add_l x y : wrap64 (wrap64 x + y) = wrap64 (x + y).
Proof.
  unfold wrap64. f_equal.
  replace ((x + 2 ^ 63) mod 2 ^ 64 - 2 ^ 63 + y + 2 ^ 63) with ((x + 2 ^ 63) mod 2 ^ 64 + y) by lia.
  rewrite Z.add_mod_idemp_l by lia. f_equal. lia.
Qed.

(** A shifted value and what fits below it share no bits. *)
Lemma lor_shiftl_low a b k : 0 <= k -> 0 <= b < 2 ^ k -> Z.lor (Z.shiftl a k) b = a * 2 ^ k + b.
Proof.
  intros Hk Hb. rewrite Z.shiftl_mul_pow2 by done.
  rewrite <- (Z.add_lor_land (a * 2 ^ k) b).
  assert (Hland : Z.land (a * 2 ^ k) b = 0); [|lia].
  apply Z.bits_inj'. intros n Hn. rewrite Z.land_spec, Z.bits_0.
  destruct (Z.ltb_spec n k).
  - by rewrite Z.mul_pow2_bits_low.
  - rewrite <- (Z.mod_small b (2 ^ k)), Z.mod_pow2_bits_high by lia. apply andb_false_r.
Qed.

(** ** Booleans and membership in Go slices *)

(** [for _, x := range l { if x == y { found = true; break } }] *)
Definition mem_str (y : string) (l : list string) : bool :=
  existsb (fun x => String.eqb x y) l.

Lemma mem_str_spec y l : mem_str y l = true <-> y ∈ l.
Proof.
  unfold mem_str. rewrite existsb_exists. split.
  - intros (x & Hin & ->%String.eqb_eq). by apply list_elem_of_In.
  - intros Hin. exists y. split; [by apply list_elem_of_In | apply String.eqb_refl].
Qed.

Lemma existsb_false_forall {A} (f : A -> bool) l :
  existsb f l = false <-> forall x, x ∈ l -> f x = false.
Proof.
  induction l as [|a l IH]; simpl.
  - split; [intros _ x Hx; by apply not_elem_of_nil in Hx | done].
  - rewrite orb_false_iff, IH. split.
    + intros [Ha Hl] x [->|Hx]%elem_of_cons; auto.
    + intros H. split; [apply H; left | intros x Hx; apply H; by right].
Qed.

Lemma forallb_elem_of {A} (f : A -> bool) l :
  forallb f l = true <-> forall x, x ∈ l -> f x = true.
Proof.
  rewrite forallb_forall. by setoid_rewrite list_elem_of_In.
Qed.

Lemma existsb_elem_of {A} (f : A -> bool) l :
  existsb f l = true <-> exists x, x ∈ l /\ f x = true.
Proof.
  rewrite existsb_exists. by setoid_rewrite list_elem_of_In.
Qed.

(** ** Loops whose order does not matter *)

Lemma foldl_perm {A B} (f : B -> A -> B) b l1 l2 :
  (forall x y b, x ∈ l1 -> y ∈ l1 -> f (f b x) y = f (f b y) x) ->
  l1 ≡ₚ l2 -> foldl f b l1 = foldl f b l2.
Proof.
  intros Hc Hp. revert b Hc.
  induction Hp as [|x l1 l2 Hp IH|x y l|l1 l2 l3 Hp1 IH1 Hp2 IH2]; intros b Hc; simpl.
  - done.
  - apply IH. intros. apply Hc; by right.
  - rewrite Hc by (try (by left); right; by left). done.
  - rewrite IH1 by done. apply IH2. intros. apply Hc; by rewrite Hp1.
Qed.

Lemma filter_perm {A} (f : A -> bool) l1 l2 : l1 ≡ₚ l2 -> List.filter f l1 ≡ₚ List.filter f l2.
Proof.
  induction 1 as [|x l1 l2 Hp IH|x y l|l1 l2 l3 Hp1 IH1 Hp2 IH2]; simpl; [done| | |by rewrite IH1].
  - destruct (f x); [by rewrite IH | done].
  - destruct (f x), (f y); try done. apply perm_swap.
Qed.

Lemma existsb_perm {A} (f : A -> bool) l1 l2 : l1 ≡ₚ l2 -> existsb f l1 = existsb f l2.
Proof.
  intros Hp. apply eq_true_iff_eq. rewrite !existsb_elem_of. by setoid_rewrite Hp.
Qed.

(** ** Automation *)

(** Turns the boolean tests of the code into the propositions they decide. *)
Ltac reflect_bools :=
  repeat match goal with
  | H : _ && _ = true |- _ => apply andb_true_iff in H; destruct H
  | H : _ || _ = false |- _ => apply orb_false_iff in H; destruct H
  | H : negb _ = true |- _ => apply negb_true_iff in H
  | H : negb _ = false |- _ => apply negb_false_iff in H
  | H : (_ <? _) = true |- _ => apply Z.ltb_lt in H
  | H : (_ <? _) = false |- _ => apply Z.ltb_ge in H
  | H : (_ <=? _) = true |- _ => apply Z.leb_le in H
  | H : (_ <=? _) = false |- _ => apply Z.leb_gt in H
  | H : (_ =? _) = true |- _ => apply Z.eqb_eq in H
  | H : (_ =? _) = false |- _ => apply Z.eqb_neq in H
  | H : String.eqb _ _ = true |- _ => apply String.eqb_eq in H
  | H : String.eqb _ _ = false |- _ => apply String.eqb_neq in H
  end.

(** Case analysis on the first conditional or match of the goal, keeping its
    equation. *)
Ltac case_goal :=
  match goal with
  | |- context [if ?b then _ else _] => destruct b eqn:?
  | |- context [match ?x with _ => _ end] => destruct x eqn:?
  end.

Ltac case_hyp H :=
  match type of H with
  | context [if ?b then _ else _] => destruct b eqn:?
  | context [match ?x with _ => _ end] => destruct x eqn:?
  end.

Lemma sum_insert {A} (f : A -> nat) (l : list A) i x y :
  l !! i = Some x -> (sum_list_with f (<[i := y]> l) + f x = sum_list_with f l + f y)%nat.
Proof.
  revert i. induction l as [|z l IH]; intros [|i] Hi; [done|done|cbn in *; injection Hi as ->; lia|].
  change (<[S i:=y]> (z :: l)) with (z :: <[i:=y]> l). specialize (IH i Hi). cbn [sum_list_with]. lia.
Qed.
