(* ===== verification/GoStrings.v ===== *)
(** * The part of Go's [strings] package that the modelled code uses.

    A Go string is a sequence of bytes, [String.string]. The functions that only
    compare bytes are total definitions. Case mapping is defined on ASCII strings,
    where Go has a fast path; on a string with a byte above 127 Go consults the
    Unicode tables, which are the parameters of the class [GoUnicode]. *)
From S2P Require Import Prelude.
From Stdlib Require Import Ascii.

Definition byte_of (c : ascii) : Z := Z.of_N (N_of_ascii c).
Definition chr (z : Z) : ascii := ascii_of_N (Z.to_N z).

Lemma byte_of_chr z : 0 <= z < 256 -> byte_of (chr z) = z.
Proof. intros Hz. unfold byte_of, chr. rewrite N_ascii_embedding by lia. lia. Qed.

Lemma byte_of_range c : 0 <= byte_of c < 256.
Proof. unfold byte_of. pose proof (N_ascii_bounded c). lia. Qed.

Lemma chr_byte_of c : chr (byte_of c) = c.
Proof. unfold chr, byte_of. rewrite N2Z.id. apply ascii_N_embedding. Qed.

(** ** Prefixes, suffixes, substrings *)

Fixpoint sdrop (n : nat) (s : string) : string :=
  match n, s with
  | O, _ => s
  | S n', String _ s' => sdrop n' s'
  | S _, EmptyString => EmptyString
  end.

Fixpoint stake (n : nat) (s : string) : string :=
  match n, s with
  | S n', String c s' => String c (stake n' s')
  | _, _ => EmptyString
  end.

Definition HasPrefix (s p : string) : bool := String.prefix p s.
Definition HasSuffix (s p : string) : bool := String.prefix (String.rev p) (String.rev s).
Definition TrimPrefix (s p : string) : string :=
  if HasPrefix s p then sdrop (String.length p) s else s.
Definition TrimSuffix (s p : string) : string :=
  if HasSuffix s p then stake (String.length s - String.length p) s else s.

(** [strings.Index]: the first position where [sub] occurs. *)
Fixpoint Index (s sub : string) : option nat :=
  if HasPrefix s sub then Some O
  else match s with
       | EmptyString => None
       | String _ s' => S <$> Index s' sub
       end.

Definition Contains (s sub : string) : bool := bool_decide (is_Some (Index s sub)).

(** [strings.LastIndexByte] *)
Fixpoint LastIndexByte (s : string) (c : ascii) : option nat :=
  match s with
  | EmptyString => None
  | String d s' =>
      match LastIndexByte s' c with
      | Some n => Some (S n)
      | None => if Ascii.eqb c d then Some O else None
      end
  end.

(** [strings.IndexAny] for a set of ASCII bytes. *)
Fixpoint IndexAny (s : string) (cs : list ascii) : option nat :=
  match s with
  | EmptyString => None
  | String d s' =>
      if existsb (fun c => Ascii.eqb c d) cs then Some O else S <$> IndexAny s' cs
  end.

(** ** Split and Join *)

Fixpoint split_go (sep : ascii) (cur : string) (s : string) : list string :=
  match s with
  | EmptyString => [String.rev cur]
  | String c s' =>
      if Ascii.eqb c sep then String.rev cur :: split_go sep EmptyString s'
      else split_go sep (String c cur) s'
  end.

(** [strings.Split(s, sep)] for a one-byte separator. *)
Definition Split (s : string) (sep : ascii) : list string := split_go sep EmptyString s.

(** [strings.SplitN(s, sep, 2)]: the parts before and after the first separator. *)
Fixpoint splitN2_go (sep : ascii) (cur : string) (s : string) : string * option string :=
  match s with
  | EmptyString => (String.rev cur, None)
  | String c s' =>
      if Ascii.eqb c sep then (String.rev cur, Some s')
      else splitN2_go sep (String c cur) s'
  end.
Definition SplitN2 (s : string) (sep : ascii) : string * option string :=
  splitN2_go sep EmptyString s.

Fixpoint Join (l : list string) (sep : string) : string :=
  match l with
  | [] => EmptyString
  | [s] => s
  | s :: l' => (s +:+ sep +:+ Join l' sep)%string
  end.

(** ** White space *)

Definition ascii_space (c : ascii) : bool :=
  let b := byte_of c in (b =? 32) || ((9 <=? b) && (b <=? 13)).

(** The UTF-8 encodings of the non-ASCII runes that [unicode.IsSpace] accepts:
    U+0085, U+00A0; U+1680, U+2000..U+200A, U+2028, U+2029, U+202F, U+205F, U+3000. *)
Definition space2 (c1 c2 : ascii) : bool :=
  (byte_of c1 =? 0xC2) && ((byte_of c2 =? 0x85) || (byte_of c2 =? 0xA0)).
Definition space3 (c1 c2 c3 : ascii) : bool :=
  let b1 := byte_of c1 in let b2 := byte_of c2 in let b3 := byte_of c3 in
  ((b1 =? 0xE1) && (b2 =? 0x9A) && (b3 =? 0x80))
  || ((b1 =? 0xE2) && (b2 =? 0x80)
      && (((0x80 <=? b3) && (b3 <=? 0x8A)) || (b3 =? 0xA8) || (b3 =? 0xA9) || (b3 =? 0xAF)))
  || ((b1 =? 0xE2) && (b2 =? 0x81) && (b3 =? 0x9F))
  || ((b1 =? 0xE3) && (b2 =? 0x80) && (b3 =? 0x80)).

(** Drops leading white space; with [bwd] the string is read backwards. *)
Fixpoint trim_front (bwd : bool) (s : string) : string :=
  match s with
  | EmptyString => EmptyString
  | String c1 s1 =>
      if ascii_space c1 then trim_front bwd s1
      else match s1 with
           | EmptyString => s
           | String c2 s2 =>
               if (if bwd then space2 c2 c1 else space2 c1 c2) then trim_front bwd s2
               else match s2 with
                    | EmptyString => s
                    | String c3 s3 =>
                        if (if bwd then space3 c3 c2 c1 else space3 c1 c2 c3)
                        then trim_front bwd s3 else s
                    end
           end
  end.

Definition TrimSpace (s : string) : string :=
  String.rev (trim_front true (String.rev (trim_front false s))).

(** [strings.Trim(s, cut)] for a one-byte cutset. *)
Fixpoint trim_byte_front (cut : ascii) (s : string) : string :=
  match s with
  | String c s' => if Ascii.eqb c cut then trim_byte_front cut s' else s
  | EmptyString => EmptyString
  end.
Definition TrimByte (s : string) (cut : ascii) : string :=
  String.rev (trim_byte_front cut (String.rev (trim_byte_front cut s))).

(** ** Case *)

Fixpoint is_ascii (s : string) : bool :=
  match s with
  | EmptyString => true
  | String c s' => (byte_of c <? 128) && is_ascii s'
  end.

Definition lower_byte (c : ascii) : ascii :=
  let b := byte_of c in if (65 <=? b) && (b <=? 90) then chr (b + 32) else c.
Definition upper_byte (c : ascii) : ascii :=
  let b := byte_of c in if (97 <=? b) && (b <=? 122) then chr (b - 32) else c.

Fixpoint map_string (f : ascii -> ascii) (s : string) : string :=
  match s with
  | EmptyString => EmptyString
  | String c s' => String (f c) (map_string f s')
  end.

(** The Unicode tables, used on strings with a byte above 127 only. *)
Class GoUnicode := {
  uni_to_lower : string -> string;
  uni_to_upper : string -> string;
  uni_to_title : string -> string;
  uni_equal_fold : string -> string -> bool;
}.

Section case.
Context `{GoUnicode}.

Definition ToLower (s : string) : string :=
  if is_ascii s then map_string lower_byte s else uni_to_lower s.
Definition ToUpper (s : string) : string :=
  if is_ascii s then map_string upper_byte s else uni_to_upper s.
Definition ToTitle (s : string) : string :=
  if is_ascii s then map_string upper_byte s else uni_to_title s.

(** [strings.EqualFold]: bytes up to the first non-ASCII one are compared by
    ASCII case folding, the rest by the Unicode tables. *)
Fixpoint EqualFold (s t : string) : bool :=
  match s, t with
  | String a s', String b t' =>
      if (128 <=? byte_of a) || (128 <=? byte_of b) then uni_equal_fold s t
      else if Ascii.eqb (lower_byte a) (lower_byte b) then EqualFold s' t' else false
  | EmptyString, EmptyString => true
  | _, _ => false
  end.
End case.

(** An instance that leaves non-ASCII strings alone: enough to run the model on
    ASCII inputs, where the tables are not consulted. *)
#[export] Instance ascii_only : GoUnicode | 100 := {
  uni_to_lower s := s;
  uni_to_upper s := s;
  uni_to_title s := s;
  uni_equal_fold s t := String.eqb s t;
}.

(** ** Strings whose bytes all satisfy a test *)

Fixpoint all_bytes (f : ascii -> bool) (s : string) : bool :=
  match s with EmptyString => true | String c s' => f c && all_bytes f s' end.

(** ** Lemmas *)

Lemma append_cons c s t : (String c s +:+ t = String c (s +:+ t))%string.
Proof. reflexivity. Qed.

Lemma append_empty_l s : ("" +:+ s = s)%string.
Proof. reflexivity. Qed.

Lemma append_empty_r s : (s +:+ "" = s)%string.
Proof. induction s as [|c s IH]; [done|]. by rewrite append_cons, IH. Qed.

Lemma append_assoc s t u : ((s +:+ t) +:+ u = s +:+ t +:+ u)%string.
Proof. induction s as [|c s IH]; [done|]. by rewrite !append_cons, IH. Qed.

Lemma HasPrefix_app p s : HasPrefix (p +:+ s)%string p = true.
Proof.
  unfold HasPrefix. induction p as [|c p IH]; simpl; [by destruct s|].
  destruct (ascii_dec c c); [done | congruence].
Qed.

Lemma prefix_split p s : String.prefix p s = true -> exists t, s = (p +:+ t)%string.
Proof.
  revert s. induction p as [|c p IH]; intros s; [by exists s|].
  destruct s as [|d s]; simpl; [done|]. destruct (ascii_dec c d) as [->|]; [|done].
  intros [t ->]%IH. by exists t.
Qed.

Lemma all_bytes_app f s t : all_bytes f (s +:+ t)%string = all_bytes f s && all_bytes f t.
Proof. induction s as [|c s IH]; simpl; [done|]. by rewrite IH, andb_assoc. Qed.

Lemma all_bytes_impl (f g : ascii -> bool) s :
  (forall c, f c = true -> g c = true) -> all_bytes f s = true -> all_bytes g s = true.
Proof.
  intros Hfg. induction s as [|c s IH]; simpl; [done|].
  intros [Hc Hs]%andb_true_iff. by rewrite Hfg, IH.
Qed.

Definition not_byte (c : ascii) (d : ascii) : bool := negb (Ascii.eqb d c).

Lemma rev_app_rev_app a b c :
  String.rev_app (String.rev_app a b) c = String.rev_app b (a +:+ c)%string.
Proof. revert b. induction a as [|x a IH]; intros b; simpl; [done|]. by rewrite IH. Qed.

Lemma rev_rev_app a : String.rev (String.rev_app a "") = a.
Proof.
  unfold String.rev. rewrite rev_app_rev_app. simpl.
  apply append_empty_r.
Qed.

Lemma split_go_sep sep cur a s :
  all_bytes (not_byte sep) a = true ->
  split_go sep cur (a +:+ String sep s)%string
  = String.rev (String.rev_app a cur) :: split_go sep "" s.
Proof.
  revert cur. induction a as [|x a IH]; intros cur; simpl.
  - by rewrite Ascii.eqb_refl.
  - unfold not_byte at 1. intros [Hx Ha]%andb_true_iff. apply negb_true_iff in Hx.
    rewrite Hx. by apply IH.
Qed.

Lemma split_go_end sep cur a :
  all_bytes (not_byte sep) a = true -> split_go sep cur a = [String.rev (String.rev_app a cur)].
Proof.
  revert cur. induction a as [|x a IH]; intros cur; simpl; [done|].
  unfold not_byte at 1. intros [Hx Ha]%andb_true_iff. apply negb_true_iff in Hx.
  rewrite Hx. by apply IH.
Qed.

Lemma Split_cons sep a s :
  all_bytes (not_byte sep) a = true -> Split (a +:+ String sep s)%string sep = a :: Split s sep.
Proof. intros Ha. unfold Split. by rewrite split_go_sep, rev_rev_app. Qed.

Lemma Split_one sep a : all_bytes (not_byte sep) a = true -> Split a sep = [a].
Proof. intros Ha. unfold Split. by rewrite split_go_end, rev_rev_app. Qed.

Lemma Split_Join sep (l : list string) :
  l <> [] -> Forall (fun s => all_bytes (not_byte sep) s = true) l ->
  Split (Join l (String sep "")) sep = l.
Proof.
  intros Hne Hl. induction Hl as [|s l Hs Hl IH]; [done|]. destruct l as [|s' l]; [by apply Split_one|].
  change (Join (s :: s' :: l) (String sep "")) with (s +:+ String sep "" +:+ Join (s' :: l) (String sep ""))%string.
  rewrite append_cons, append_empty_l, Split_cons by done. by rewrite IH.
Qed.

Lemma TrimPrefix_app p s : TrimPrefix (p +:+ s)%string p = s.
Proof.
  unfold TrimPrefix. rewrite HasPrefix_app. induction p as [|c p IH]; [by destruct s|]. exact IH.
Qed.

Lemma Contains_byte s c :
  Contains s (String c "") = negb (all_bytes (not_byte c) s).
Proof.
  unfold Contains. induction s as [|d s IH]; simpl.
  - reflexivity.
  - unfold HasPrefix. simpl. unfold not_byte at 1.
    destruct (ascii_dec c d) as [->|Hne].
    + destruct s; simpl; rewrite Ascii.eqb_refl; reflexivity.
    + rewrite (proj2 (Ascii.eqb_neq d c)) by congruence. simpl. rewrite <- IH.
      apply bool_decide_ext. by rewrite fmap_is_Some.
Qed.

(** A string without white space and without bytes above 127 is its own trim. *)
Definition plain_byte (c : ascii) : bool := (byte_of c <? 128) && negb (ascii_space c).

Lemma all_bytes_rev_app f s t : all_bytes f (String.rev_app s t) = all_bytes f s && all_bytes f t.
Proof.
  revert t. induction s as [|c s IH]; intros t; simpl; [done|].
  rewrite IH. simpl. by rewrite andb_assoc, (andb_comm (f c)).
Qed.

Lemma trim_front_plain bwd s : all_bytes plain_byte s = true -> trim_front bwd s = s.
Proof.
  destruct s as [|c1 s1]; [done|]. simpl. unfold plain_byte at 1.
  intros [[H1 Hs1]%andb_true_iff H2]%andb_true_iff.
  apply Z.ltb_lt in H1. apply negb_true_iff in Hs1. rewrite Hs1.
  destruct s1 as [|c2 s2]; [done|]. simpl in H2. unfold plain_byte at 1 in H2.
  apply andb_true_iff in H2 as [[H3 Hs3]%andb_true_iff H4]. apply Z.ltb_lt in H3.
  assert (E2 : (if bwd then space2 c2 c1 else space2 c1 c2) = false).
  { unfold space2. destruct bwd; rewrite (proj2 (Z.eqb_neq _ _)) by lia; done. }
  rewrite E2. destruct s2 as [|c3 s3]; [done|]. simpl in H4. unfold plain_byte at 1 in H4.
  apply andb_true_iff in H4 as [[H5 _]%andb_true_iff _]. apply Z.ltb_lt in H5.
  assert (E3 : (if bwd then space3 c3 c2 c1 else space3 c1 c2 c3) = false).
  { unfold space3. destruct bwd; rewrite !(proj2 (Z.eqb_neq _ _)) by lia; done. }
  by rewrite E3.
Qed.

Lemma TrimSpace_plain s : all_bytes plain_byte s = true -> TrimSpace s = s.
Proof.
  intros Hs. unfold TrimSpace. rewrite (trim_front_plain false) by done.
  rewrite trim_front_plain; [apply rev_rev_app|].
  unfold String.rev. by rewrite all_bytes_rev_app, Hs.
Qed.

Lemma splitN2_go_sep sep cur a s :
  all_bytes (not_byte sep) a = true ->
  splitN2_go sep cur (a +:+ String sep s)%string = (String.rev (String.rev_app a cur), Some s).
Proof.
  revert cur. induction a as [|x a IH]; intros cur; simpl.
  - by rewrite Ascii.eqb_refl.
  - unfold not_byte at 1. intros [Hx Ha]%andb_true_iff. apply negb_true_iff in Hx.
    rewrite Hx. by apply IH.
Qed.

Lemma SplitN2_sep sep a s :
  all_bytes (not_byte sep) a = true -> SplitN2 (a +:+ String sep s)%string sep = (a, Some s).
Proof. intros Ha. unfold SplitN2. by rewrite splitN2_go_sep, rev_rev_app. Qed.

Lemma map_string_idem f s :
  (forall c, f (f c) = f c) -> map_string f (map_string f s) = map_string f s.
Proof. intros Hf. induction s; simpl; f_equal; auto. Qed.

Lemma lower_byte_idem c : lower_byte (lower_byte c) = lower_byte c.
Proof. destruct c as [[][][][][][][][]]; reflexivity. Qed.

Lemma is_ascii_map_lower s : is_ascii s = true -> is_ascii (map_string lower_byte s) = true.
Proof.
  induction s as [|c s IH]; simpl; [done|]. intros [Hc Hs]%andb_true_iff.
  rewrite IH by done. rewrite andb_true_r. revert Hc.
  destruct c as [[][][][][][][][]]; vm_compute; congruence.
Qed.

Lemma ToLower_idem_ascii `{GoUnicode} s :
  is_ascii s = true -> ToLower (ToLower s) = ToLower s.
Proof.
  intros Hs. unfold ToLower. rewrite Hs, is_ascii_map_lower by done.
  apply map_string_idem, lower_byte_idem.
Qed.

Lemma map_lower_fixed s :
  forallb (fun c => negb ((65 <=? byte_of c) && (byte_of c <=? 90))) (String.list_ascii_of_string s) = true ->
  map_string lower_byte s = s.
Proof.
  induction s as [|c s IH]; simpl; [done|].
  intros [Hc Hs]%andb_true_iff. rewrite IH by done.
  unfold lower_byte. apply negb_true_iff in Hc. by rewrite Hc.
Qed.

(** Trimming keeps what holds of all bytes. *)
Lemma trim_front_all f bwd s : all_bytes f s = true -> all_bytes f (trim_front bwd s) = true.
Proof.
  revert s. fix IH 1. intros [|c1 s1]; [done|]. cbn [trim_front]. intros Hs.
  pose proof Hs as Hs'. cbn [all_bytes] in Hs. apply andb_true_iff in Hs as [_ H1].
  destruct (ascii_space c1); [by apply IH|].
  destruct s1 as [|c2 s2]; [done|].
  pose proof H1 as H1'. cbn [all_bytes] in H1. apply andb_true_iff in H1 as [_ H2].
  destruct (if bwd then _ else _); [by apply IH|].
  destruct s2 as [|c3 s3]; [done|].
  cbn [all_bytes] in H2. apply andb_true_iff in H2 as [_ H3].
  destruct (if bwd then _ else _); [by apply IH | done].
Qed.

Lemma TrimSpace_all f s : all_bytes f s = true -> all_bytes f (TrimSpace s) = true.
Proof.
  intros Hs. unfold TrimSpace, String.rev. rewrite all_bytes_rev_app, andb_true_r.
  apply trim_front_all. unfold String.rev. rewrite all_bytes_rev_app, andb_true_r.
  by apply trim_front_all.
Qed.

(** ** Cutting at a byte *)

Lemma rev_app_app a b : String.rev_app a b = (String.rev a +:+ b)%string.
Proof.
  unfold String.rev. revert b. induction a as [|c a IH]; intros b; simpl; [done|].
  rewrite IH, (IH (String c "")). by rewrite append_assoc.
Qed.

Lemma rev_append a b : String.rev (a +:+ b)%string = (String.rev b +:+ String.rev a)%string.
Proof.
  unfold String.rev at 1. induction a as [|c a IH]; simpl.
  - by rewrite append_empty_r.
  - rewrite !rev_app_app. rewrite rev_app_app, append_empty_r in IH. rewrite IH.
    rewrite append_assoc. f_equal. unfold String.rev at 2. simpl. by rewrite rev_app_app.
Qed.

Lemma rev_involutive a : String.rev (String.rev a) = a.
Proof. apply rev_rev_app. Qed.

Lemma string_length_app a b : String.length (a +:+ b)%string = (String.length a + String.length b)%nat.
Proof. induction a as [|c a IH]; [done|]. rewrite append_cons. simpl. by rewrite IH. Qed.

Lemma sdrop_all f n s : all_bytes f s = true -> all_bytes f (sdrop n s) = true.
Proof.
  revert s. induction n as [|n IH]; intros [|c s]; simpl; try done.
  intros [_ Hs]%andb_true_iff. by apply IH.
Qed.

Lemma stake_all f n s : all_bytes f s = true -> all_bytes f (stake n s) = true.
Proof.
  revert s. induction n as [|n IH]; intros [|c s]; simpl; try done.
  intros [Hc Hs]%andb_true_iff. by rewrite Hc, IH.
Qed.

Lemma rev_all f s : all_bytes f s = true -> all_bytes f (String.rev s) = true.
Proof. intros Hs. unfold String.rev. by rewrite all_bytes_rev_app, Hs. Qed.

Lemma LastIndexByte_None c s : LastIndexByte s c = None <-> all_bytes (not_byte c) s = true.
Proof.
  induction s as [|d s IH]; simpl; [done|]. unfold not_byte at 1. rewrite Ascii.eqb_sym.
  destruct (LastIndexByte s c).
  - split; [done|]. intros [_ Hs]%andb_true_iff. by apply IH in Hs.
  - rewrite (proj1 IH eq_refl), andb_true_r. by destruct (Ascii.eqb d c).
Qed.

(** What follows the last occurrence of a byte is free of it. *)
Lemma LastIndexByte_rest c s n :
  LastIndexByte s c = Some n -> all_bytes (not_byte c) (sdrop (n + 1) s) = true.
Proof.
  revert n. induction s as [|d s IH]; intros n; simpl; [done|].
  destruct (LastIndexByte s c) as [k|] eqn:Hk.
  - intros [= <-]. by apply IH.
  - destruct (Ascii.eqb c d); [|done]. intros [= <-]. by apply LastIndexByte_None.
Qed.

Lemma IndexAny_None cs s :
  IndexAny s cs = None <-> all_bytes (fun d => negb (existsb (fun c => Ascii.eqb c d) cs)) s = true.
Proof.
  induction s as [|d s IH]; simpl; [done|]. destruct (existsb _ cs); simpl; [done|].
  by rewrite fmap_None, IH.
Qed.

(** What precedes the first occurrence of some bytes is free of them. *)
Lemma IndexAny_front cs s n :
  IndexAny s cs = Some n ->
  all_bytes (fun d => negb (existsb (fun c => Ascii.eqb c d) cs)) (stake n s) = true.
Proof.
  revert n. induction s as [|d s IH]; intros n; simpl; [done|].
  destruct (existsb _ cs) eqn:He; [by intros [= <-]|].
  destruct (IndexAny s cs) as [k|] eqn:Hk; [|done]. intros [= <-]. simpl. by rewrite He, IH.
Qed.

Lemma Index_byte_IndexAny s c : Index s (String c "") = IndexAny s [c].
Proof.
  induction s as [|d s IH]; simpl; [done|]. unfold HasPrefix. simpl. rewrite orb_false_r, IH.
  destruct (ascii_dec c d) as [->|Hne].
  - rewrite Ascii.eqb_refl. by destruct s.
  - by rewrite (proj2 (Ascii.eqb_neq c d)).
Qed.

(** A string without the first byte of [sub] does not contain [sub]. *)
Lemma Index_None_first c sub s : all_bytes (not_byte c) s = true -> Index s (String c sub) = None.
Proof.
  induction s as [|d s IH]; [done|]. cbn [all_bytes]. unfold not_byte at 1.
  intros [Hd Hs]%andb_true_iff. apply negb_true_iff, Ascii.eqb_neq in Hd. cbn [Index].
  rewrite IH by done. unfold HasPrefix. simpl. by destruct (ascii_dec c d).
Qed.

Lemma trim_byte_front_split c s :
  exists w, s = (w +:+ trim_byte_front c s)%string /\
    (trim_byte_front c s = ""%string \/
     exists d u, trim_byte_front c s = String d u /\ Ascii.eqb d c = false).
Proof.
  induction s as [|d s IH]; simpl; [exists ""%string; by split; [|left]|].
  destruct (Ascii.eqb d c) eqn:Hd.
  - destruct IH as (w & Hw & Hr). exists (String d w). split; [by rewrite append_cons, <- Hw|done].
  - exists ""%string. split; [done|]. right. eauto.
Qed.

Lemma trim_byte_front_idem c s : trim_byte_front c (trim_byte_front c s) = trim_byte_front c s.
Proof.
  destruct (trim_byte_front_split c s) as (_ & _ & [->|(d & u & -> & Hd)]); [done|].
  simpl. by rewrite Hd.
Qed.

Lemma trim_byte_front_all f c s : all_bytes f s = true -> all_bytes f (trim_byte_front c s) = true.
Proof.
  induction s as [|d s IH]; simpl; [done|]. intros [Hd Hs]%andb_true_iff.
  destruct (Ascii.eqb d c); [by apply IH|]. simpl. by rewrite Hd, Hs.
Qed.

Lemma TrimByte_all f c s : all_bytes f s = true -> all_bytes f (TrimByte s c) = true.
Proof. intros Hs. by apply rev_all, trim_byte_front_all, rev_all, trim_byte_front_all. Qed.

Lemma TrimByte_idem c s : TrimByte (TrimByte s c) c = TrimByte s c.
Proof.
  unfold TrimByte. set (u := trim_byte_front c s).
  destruct (trim_byte_front_split c (String.rev u)) as (w & Hw & _).
  set (v := trim_byte_front c (String.rev u)) in *.
  assert (Hr : trim_byte_front c (String.rev v) = String.rev v).
  { assert (Hu : u = (String.rev v +:+ String.rev w)%string)
      by (rewrite <- rev_append, <- Hw; symmetry; apply rev_involutive).
    destruct (String.rev v) as [|d r]; [done|].
    assert (Hi : trim_byte_front c u = u) by apply trim_byte_front_idem.
    rewrite Hu in Hi. simpl in *. destruct (Ascii.eqb d c) eqn:Hd; [|done].
    exfalso. apply (f_equal String.length) in Hi. simpl in Hi.
    destruct (trim_byte_front_split c (r +:+ String.rev w)%string) as (x & Hx & _).
    apply (f_equal String.length) in Hx. rewrite (string_length_app x) in Hx. lia. }
  rewrite Hr, rev_involutive. f_equal. apply trim_byte_front_idem.
Qed.

Lemma all_bytes_and f g s :
  all_bytes (fun c => f c && g c) s = all_bytes f s && all_bytes g s.
Proof.
  induction s as [|c s IH]; simpl; [done|]. rewrite IH.
  by destruct (f c), (g c), (all_bytes f s).
Qed.

Lemma all_bytes_map f (g : ascii -> ascii) s :
  all_bytes (fun c => f (g c)) s = true -> all_bytes f (map_string g s) = true.
Proof. induction s as [|c s IH]; simpl; [done|]. intros [Hc Hs]%andb_true_iff. by rewrite Hc, IH. Qed.

Lemma map_string_fixed f s : all_bytes (fun c => Ascii.eqb (f c) c) s = true -> map_string f s = s.
Proof.
  induction s as [|c s IH]; simpl; [done|]. intros [Hc%Ascii.eqb_eq Hs]%andb_true_iff.
  by rewrite Hc, IH.
Qed.

Lemma all_bytes_is_ascii s : all_bytes (fun c => byte_of c <? 128) s = true -> is_ascii s = true.
Proof. induction s as [|c s IH]; simpl; [done|]. intros [Hc Hs]%andb_true_iff. by rewrite Hc, IH. Qed.

(** On ASCII strings [EqualFold] is equality of the lower-cased strings. *)
Lemma EqualFold_ascii `{GoUnicode} s t :
  is_ascii s = true -> is_ascii t = true ->
  EqualFold s t = true <-> map_string lower_byte s = map_string lower_byte t.
Proof.
  revert t. induction s as [|a s IH]; intros [|b t]; simpl; try done.
  intros [Ha Hs]%andb_true_iff [Hb Ht]%andb_true_iff.
  apply Z.ltb_lt in Ha, Hb.
  rewrite (proj2 (Z.leb_gt 128 (byte_of a))), (proj2 (Z.leb_gt 128 (byte_of b))) by lia.
  simpl. destruct (Ascii.eqb_spec (lower_byte a) (lower_byte b)) as [->|Hne].
  - rewrite IH by done. split; [by intros -> | by intros [= ->]].
  - split; [done|]. intros [= ?]. done.
Qed.
