(* ===== verification/GoTime.v ===== *)
(** * The part of Go's [time] package that the modelled code uses.

    A [time.Time] is the number of nanoseconds since the zero time (January 1 of
    year 1, 00:00 UTC), so [IsZero] is equality with 0. A [time.Duration] is an
    [int64] of nanoseconds: [Sub] saturates, products of durations wrap. *)
From S2P Require Import Prelude.

Notation Time := Z (only parsing).
Notation Duration := Z (only parsing).

Definition zero_time : Time := 0.
Definition IsZero (t : Time) : bool := t =? 0.

Definition Nanosecond : Duration := 1.
Definition Millisecond : Duration := 1000000.
Definition Second : Duration := 1000000000.
Definition Minute : Duration := 60000000000.
Definition Hour : Duration := 3600000000000.

Definition Before (t u : Time) : bool := t <? u.
Definition After (t u : Time) : bool := u <? t.

(** [t.Sub(u)]: saturates at the bounds of [int64]. *)
Definition Sub (t u : Time) : Duration := Z.max int64_min (Z.min int64_max (t - u)).
(** [t.Add(d)] *)
Definition Add (t : Time) (d : Duration) : Time := t + d.
(** [time.Since(t)], given the current time. *)
Definition Since (now t : Time) : Duration := Sub now t.
(** Multiplication of durations wraps around at 64 bits. *)
Definition dmul (a b : Duration) : Duration := wrap64 (a * b).
(** [d.Milliseconds()], [int(d.Minutes())]: division truncates toward zero. *)
Definition Milliseconds (d : Duration) : Z := Z.quot d Millisecond.

Lemma Sub_id t u : in_int64 (t - u) -> Sub t u = t - u.
Proof. unfold in_int64, Sub, int64_min, int64_max. lia. Qed.

Lemma Sub_gt t u d : 0 <= d < int64_max -> (d < Sub t u <-> d < t - u).
Proof. unfold Sub, int64_min, int64_max. lia. Qed.

Lemma Sub_le t u d : 0 <= d < int64_max -> (Sub t u <= d <-> t - u <= d).
Proof. unfold Sub, int64_min, int64_max. lia. Qed.

(** ** Time zones

    A location maps an instant (in seconds since the Unix epoch) to the zone in
    force: its offset east of UTC in seconds and the instants where it starts and
    ends. The zone database is read from the system: [LoadLocation] is a
    parameter. *)

Record zone_span := { zone_offset : Z; zone_start : Z; zone_end : Z }.
Record Location := { zone_at : Z -> zone_span }.

Definition UTC : Location :=
  {| zone_at _ := {| zone_offset := 0; zone_start := int64_min; zone_end := int64_max |} |}.

Class TzDatabase := { LoadLocation : string -> option Location }.

(** The database of a system without zone files. *)
#[export] Instance no_tzdata : TzDatabase | 100 := { LoadLocation _ := None }.

Definition unix_epoch : Z := 62135596800.
Definition Unix (t : Time) : Z := t / Second - unix_epoch.

(** Seconds since the zero time on the wall clock of the location. *)
Definition wall_seconds (loc : Location) (t : Time) : Z :=
  t / Second + zone_offset (zone_at loc (Unix t)).

Definition wall_day (loc : Location) (t : Time) : Z := wall_seconds loc t / 86400.
Definition clock_hour (loc : Location) (t : Time) : Z := (wall_seconds loc t mod 86400) / 3600.
Definition clock_minute (loc : Location) (t : Time) : Z := (wall_seconds loc t mod 3600) / 60.
(** January 1 of year 1 was a Monday; Sunday is 0. *)
Definition Weekday (loc : Location) (t : Time) : Z := (wall_day loc t + 1) mod 7.

(** Minutes since midnight. *)
Definition minute_of_day (loc : Location) (t : Time) : Z :=
  clock_hour loc t * 60 + clock_minute loc t.

Lemma clock_hour_range loc t : 0 <= clock_hour loc t < 24.
Proof.
  unfold clock_hour. pose proof (Z.mod_pos_bound (wall_seconds loc t) 86400).
  split; [apply Z.div_pos | apply Z.div_lt_upper_bound]; lia.
Qed.

Lemma clock_minute_range loc t : 0 <= clock_minute loc t < 60.
Proof.
  unfold clock_minute. pose proof (Z.mod_pos_bound (wall_seconds loc t) 3600).
  split; [apply Z.div_pos | apply Z.div_lt_upper_bound]; lia.
Qed.

Lemma minute_of_day_range loc t : 0 <= minute_of_day loc t < 1440.
Proof.
  unfold minute_of_day.
  pose proof (clock_hour_range loc t). pose proof (clock_minute_range loc t). lia.
Qed.

Lemma Weekday_range loc t : 0 <= Weekday loc t < 7.
Proof. apply Z.mod_pos_bound. lia. Qed.

(** ** Daily windows

    The same-day or overnight test that the update manager and the alert
    evaluator both write out, and the circular interval it stands for. *)

Definition in_daily_window (current start finish : Z) : bool :=
  if start <=? finish then (start <=? current) && (current <? finish)
  else (start <=? current) || (current <? finish).

(** The minutes from [start] to the current time, going forward around the clock,
    are fewer than those from [start] to [finish]. *)
Lemma in_daily_window_circular current start finish :
  0 <= current < 1440 -> 0 <= start < 1440 -> 0 <= finish < 1440 ->
  in_daily_window current start finish = true <->
  (current - start) mod 1440 < (finish - start) mod 1440.
Proof.
  intros Hc Hs Hf. unfold in_daily_window.
  assert (Hm : forall x, - 1440 < x < 1440 ->
    x mod 1440 = if x <? 0 then x + 1440 else x).
  { intros x Hx. destruct (Z.ltb_spec x 0) as [Hneg|Hpos].
    - symmetry. apply (Z.mod_unique _ _ (-1)); lia.
    - apply Z.mod_small. lia. }
  rewrite !Hm by lia.
  destruct (Z.leb_spec start finish), (Z.leb_spec start current),
    (Z.ltb_spec current finish), (Z.ltb_spec (current - start) 0),
    (Z.ltb_spec (finish - start) 0); simpl; split; intros; try lia; done.
Qed.

(** ** The calendar

    Days are numbered from January 1 of year 1 of the proleptic Gregorian calendar,
    which is day 0. [Date] normalizes months, days, hours and minutes out of their
    ranges and finds the zone offset by the two lookups of the package. *)

(** ** Days and dates *)

Definition is_leap (y : Z) : bool :=
  (y mod 4 =? 0) && (negb (y mod 100 =? 0) || (y mod 400 =? 0)).

(** Days before January 1 of the year. *)
Definition days_before_year (y : Z) : Z :=
  365 * (y - 1) + (y - 1) / 4 - (y - 1) / 100 + (y - 1) / 400.

Definition leap_day (y : Z) : Z := if is_leap y then 1 else 0.

(** Days of the year before the first of the month, 1 to 13. *)
Definition days_before_month (y m : Z) : Z :=
  match m with
  | 1 => 0
  | 2 => 31
  | 3 => 59 + leap_day y
  | 4 => 90 + leap_day y
  | 5 => 120 + leap_day y
  | 6 => 151 + leap_day y
  | 7 => 181 + leap_day y
  | 8 => 212 + leap_day y
  | 9 => 243 + leap_day y
  | 10 => 273 + leap_day y
  | 11 => 304 + leap_day y
  | 12 => 334 + leap_day y
  | _ => 365 + leap_day y
  end.

Definition days_in_month (y m : Z) : Z := days_before_month y (m + 1) - days_before_month y m.

(** The day of a date whose month and day may be out of range. *)
Definition day_of_date (y m d : Z) : Z :=
  let y' := y + (m - 1) / 12 in
  let m' := (m - 1) mod 12 + 1 in
  days_before_year y' + days_before_month y' m' + (d - 1).

Definition year_of_day (n : Z) : Z :=
  let y := 400 * n / 146097 + 1 in
  if n <? days_before_year y then y - 1
  else if days_before_year (y + 1) <=? n then y + 1
  else y.

(** The last month, counted from [m] down, that starts by the day of the year. *)
Fixpoint month_of_yday (y yday : Z) (m : nat) : Z :=
  match m with
  | O => 1
  | S m' => if days_before_month y (Z.of_nat m) <=? yday then Z.of_nat m else month_of_yday y yday m'
  end.

Definition date_of_day (n : Z) : Z * Z * Z :=
  let y := year_of_day n in
  let yday := n - days_before_year y in
  let m := month_of_yday y yday 12 in
  (y, m, yday - days_before_month y m + 1).

(** ** Instants *)

Definition DateOf (loc : Location) (t : Time) : Z * Z * Z := date_of_day (wall_day loc t).

(** The instant whose wall clock in [loc] shows the given second: the offset in force
    at the reading taken as UTC, or at the resulting instant when that is not in the
    same zone span. *)
Definition of_wall (loc : Location) (wall : Z) : Z :=
  let span := zone_at loc (wall - unix_epoch) in
  if zone_offset span =? 0 then wall
  else
    let utc := wall - unix_epoch - zone_offset span in
    if (utc <? zone_start span) || (zone_end span <=? utc)
    then wall - zone_offset (zone_at loc utc)
    else wall - zone_offset span.

(** [time.Date(y, m, d, hour, min, sec, nsec, loc)] *)
Definition Date (y m d hour min sec nsec : Z) (loc : Location) : Time :=
  of_wall loc (day_of_date y m d * 86400 + hour * 3600 + min * 60 + sec) * Second + nsec.

Definition clock_second (loc : Location) (t : Time) : Z := wall_seconds loc t mod 60.

(** [t.AddDate(years, months, days)] of a time in [loc]. *)
Definition AddDate (loc : Location) (t : Time) (years months days : Z) : Time :=
  let '(y, m, d) := DateOf loc t in
  Date (y + years) (m + months) (d + days) (clock_hour loc t) (clock_minute loc t)
    (clock_second loc t) (t mod Second) loc.

(** ** The calendar is a bijection *)

Lemma leap_day_range y : 0 <= leap_day y <= 1.
Proof. unfold leap_day. destruct (is_leap y); lia. Qed.

Lemma days_before_year_succ y : days_before_year (y + 1) = days_before_year y + 365 + leap_day y.
Proof.
  unfold days_before_year, leap_day, is_leap.
  replace (y + 1 - 1) with y by lia.
  destruct (Z.eqb_spec (y mod 4) 0), (Z.eqb_spec (y mod 100) 0), (Z.eqb_spec (y mod 400) 0); simpl;
    Z.to_euclidean_division_equations; lia.
Qed.

Lemma days_before_year_bounds y :
  146097 * (y - 1) - 800 <= 400 * days_before_year y <= 146097 * (y - 1) + 400.
Proof.
  unfold days_before_year.
  Z.to_euclidean_division_equations; lia.
Qed.

Lemma year_of_day_spec n :
  days_before_year (year_of_day n) <= n < days_before_year (year_of_day n + 1).
Proof.
  unfold year_of_day. set (y := 400 * n / 146097 + 1).
  assert (Hy : 146097 * (y - 1) <= 400 * n < 146097 * y).
  { unfold y. Z.to_euclidean_division_equations; lia. }
  pose proof (days_before_year_bounds (y - 1)). pose proof (days_before_year_bounds y).
  pose proof (days_before_year_bounds (y + 1)). pose proof (days_before_year_bounds (y + 2)).
  destruct (Z.ltb_spec n (days_before_year y)).
  { replace (y - 1 + 1) with y by lia. lia. }
  destruct (Z.leb_spec (days_before_year (y + 1)) n); [|lia].
  replace (y + 1 + 1) with (y + 2) by lia. lia.
Qed.

Lemma days_before_year_mono y y' : y <= y' -> days_before_year y <= days_before_year y'.
Proof. unfold days_before_year. intros H. Z.to_euclidean_division_equations; lia. Qed.

Lemma year_of_day_unique n y :
  days_before_year y <= n < days_before_year (y + 1) -> year_of_day n = y.
Proof.
  intros Hn. pose proof (year_of_day_spec n) as Hs.
  assert (~ year_of_day n + 1 <= y).
  { intros H%days_before_year_mono. lia. }
  assert (~ y + 1 <= year_of_day n).
  { intros H1%days_before_year_mono. lia. }
  lia.
Qed.

(** The cases of a month number. *)
Lemma month_cases m : 1 <= m <= 12 -> m ∈ [1; 2; 3; 4; 5; 6; 7; 8; 9; 10; 11; 12].
Proof.
  intros Hm. assert (Hc : m = 1 \/ m = 2 \/ m = 3 \/ m = 4 \/ m = 5 \/ m = 6 \/ m = 7 \/ m = 8 \/
    m = 9 \/ m = 10 \/ m = 11 \/ m = 12) by lia.
  repeat destruct Hc as [->|Hc]; try subst m; repeat constructor.
Qed.

Ltac each_month Hm :=
  apply month_cases in Hm;
  repeat (apply elem_of_cons in Hm as [->|Hm]; [|]); [.. | by apply not_elem_of_nil in Hm].

Lemma days_in_month_range y m : 1 <= m <= 12 -> 28 <= days_in_month y m <= 31.
Proof.
  intros Hm. pose proof (leap_day_range y). unfold days_in_month.
  each_month Hm; simpl; lia.
Qed.

Lemma days_before_month_range y m : 1 <= m <= 12 -> 0 <= days_before_month y m <= 335.
Proof. intros Hm. pose proof (leap_day_range y). each_month Hm; simpl; lia. Qed.

Lemma month_of_yday_spec y yday :
  0 <= yday < 365 + leap_day y ->
  let m := month_of_yday y yday 12 in
  1 <= m <= 12 /\ days_before_month y m <= yday < days_before_month y (m + 1).
Proof.
  intros Hy. pose proof (leap_day_range y). cbv zeta.
  cbn [month_of_yday]. change (days_before_month y (Z.of_nat 1)) with 0.
  repeat match goal with
  | |- context [?a <=? yday] => destruct (Z.leb_spec a yday)
  end; simpl in *; lia.
Qed.

Lemma month_of_yday_unique y m yday :
  1 <= m <= 12 -> days_before_month y m <= yday < days_before_month y (m + 1) ->
  month_of_yday y yday 12 = m.
Proof.
  intros Hm Hy. pose proof (leap_day_range y).
  each_month Hm; cbn [month_of_yday]; simpl in Hy;
    repeat match goal with
    | |- context [?a <=? yday] => destruct (Z.leb_spec a yday); simpl in *; try lia
    end.
Qed.

Lemma day_of_date_in_range y m d :
  1 <= m <= 12 -> day_of_date y m d = days_before_year y + days_before_month y m + (d - 1).
Proof.
  intros Hm. unfold day_of_date.
  rewrite (Z.div_small (m - 1) 12), (Z.mod_small (m - 1) 12) by lia.
  by replace (y + 0) with y by lia; replace (m - 1 + 1) with m by lia.
Qed.

(** A month past the last is the first of the next year. *)
Lemma day_of_date_next_month y m d :
  1 <= m <= 12 -> day_of_date y (m + 1) d = days_before_year y + days_before_month y (m + 1) + (d - 1).
Proof.
  intros Hm. destruct (decide (m = 12)) as [->|Hne]; [|apply day_of_date_in_range; lia].
  unfold day_of_date. change ((12 + 1 - 1) / 12) with 1. change ((12 + 1 - 1) mod 12 + 1) with 1.
  rewrite days_before_year_succ. simpl. lia.
Qed.

Lemma day_of_date_carry y d : day_of_date y 13 d = day_of_date (y + 1) 1 d.
Proof.
  unfold day_of_date. change ((13 - 1) / 12) with 1. change ((13 - 1) mod 12) with 0.
  change ((1 - 1) / 12) with 0. change ((1 - 1) mod 12) with 0.
  cbv zeta. by rewrite (Z.add_0_r (y + 1)).
Qed.

(** Every day is the day of its date, which is in range; and only of that date. *)
Theorem date_of_day_spec n :
  let '(y, m, d) := date_of_day n in
  1 <= m <= 12 /\ 1 <= d <= days_in_month y m /\ day_of_date y m d = n.
Proof.
  unfold date_of_day. pose proof (year_of_day_spec n) as Hy. rewrite days_before_year_succ in Hy.
  destruct (month_of_yday_spec (year_of_day n) (n - days_before_year (year_of_day n))) as [Hm Hd]; [lia|].
  unfold days_in_month. split; [done|]. split; [lia|].
  rewrite day_of_date_in_range by done. lia.
Qed.

Theorem date_of_day_of_date y m d :
  1 <= m <= 12 -> 1 <= d <= days_in_month y m -> date_of_day (day_of_date y m d) = (y, m, d).
Proof.
  intros Hm Hd. unfold days_in_month in Hd. pose proof (leap_day_range y).
  assert (Hmax : 0 <= days_before_month y m /\ days_before_month y (m + 1) <= 365 + leap_day y).
  { split; [by apply days_before_month_range|]. each_month Hm; simpl; lia. }
  rewrite day_of_date_in_range by done. unfold date_of_day.
  assert (Hyear : year_of_day (days_before_year y + days_before_month y m + (d - 1)) = y).
  { apply year_of_day_unique. rewrite days_before_year_succ. lia. }
  rewrite Hyear.
  assert (Hmonth : month_of_yday y (days_before_year y + days_before_month y m + (d - 1) - days_before_year y) 12 = m).
  { apply month_of_yday_unique; [done | lia]. }
  rewrite Hmonth. f_equal. lia.
Qed.

(** A day up to 28 exists in the next month. *)
Lemma date_of_next_month y m d :
  1 <= m <= 12 -> 1 <= d <= 28 -> exists y' m', date_of_day (day_of_date y (m + 1) d) = (y', m', d).
Proof.
  intros Hm Hd. destruct (decide (m = 12)) as [->|Hne].
  - pose proof (days_in_month_range (y + 1) 1 ltac:(lia)). exists (y + 1), 1.
    change (12 + 1) with 13. rewrite day_of_date_carry. apply date_of_day_of_date; lia.
  - pose proof (days_in_month_range y (m + 1) ltac:(lia)). exists y, (m + 1).
    apply date_of_day_of_date; lia.
Qed.

Example leap_february : date_of_day (day_of_date 2024 2 29) = (2024, 2, 29).
Proof. reflexivity. Qed.
Example overflowing_february : date_of_day (day_of_date 2025 2 31) = (2025, 3, 3).
Proof. reflexivity. Qed.

(** ** Locations with one offset *)

(** The spans of a location with one zone cover all instants. *)
Definition fixed_zone (off : Z) : Location :=
  {| zone_at _ := {| zone_offset := off; zone_start := int64_min; zone_end := int64_max |} |}.

Lemma of_wall_fixed off wall : of_wall (fixed_zone off) wall = wall - off.
Proof.
  unfold of_wall. simpl. destruct (Z.eqb_spec off 0) as [->|]; [lia|]. by destruct (_ || _).
Qed.

Lemma wall_seconds_fixed off t : wall_seconds (fixed_zone off) t = t / Second + off.
Proof. reflexivity. Qed.

Lemma UTC_fixed : UTC = fixed_zone 0.
Proof. reflexivity. Qed.

Lemma Date_fixed off y m d hour min sec nsec :
  Date y m d hour min sec nsec (fixed_zone off) =
  (day_of_date y m d * 86400 + hour * 3600 + min * 60 + sec - off) * Second + nsec.
Proof. unfold Date. by rewrite of_wall_fixed. Qed.
