(* ===== verification/GoNet.v ===== *)
(** * The part of Go's [net] and [net/netip] packages that the modelled code uses.

    An address is its list of bytes (4 or 16), each in 0..255. [ParseIP] and
    [ParseCIDR] follow [netip.ParseAddr]: the IPv4 fields reject leading zeros, the
    IPv6 loop handles the ellipsis and a trailing dotted quad, zones are refused. *)
From S2P Require Import Prelude GoStrings.
From Stdlib Require Import Ascii.

Definition is_digit (c : ascii) : bool := (48 <=? byte_of c) && (byte_of c <=? 57).

Fixpoint decimal_go (acc : Z) (s : string) : Z :=
  match s with
  | EmptyString => acc
  | String c s' => decimal_go (acc * 10 + (byte_of c - 48)) s'
  end.

(** A non-empty string of decimal digits. *)
Definition decimal (s : string) : option Z :=
  match s with
  | EmptyString => None
  | _ => if all_bytes is_digit s then Some (decimal_go 0 s) else None
  end.

(** ** Parsing addresses *)

Definition parse_octet (s : string) : option Z :=
  match s with
  | String c (String _ _) => if Ascii.eqb c "0" then None else
      match decimal s with Some v => if v <=? 255 then Some v else None | None => None end
  | _ => match decimal s with Some v => if v <=? 255 then Some v else None | None => None end
  end.

(** [parseIPv4Fields] *)
Definition parseIPv4 (s : string) : option (list Z) :=
  match Split s "." with
  | [a; b; c; d] =>
      a' ← parse_octet a; b' ← parse_octet b; c' ← parse_octet c; d' ← parse_octet d;
      Some [a'; b'; c'; d']
  | _ => None
  end.

Definition hex_digit (c : ascii) : option Z :=
  let b := byte_of c in
  if (48 <=? b) && (b <=? 57) then Some (b - 48)
  else if (97 <=? b) && (b <=? 102) then Some (b - 87)
  else if (65 <=? b) && (b <=? 70) then Some (b - 55)
  else None.

(** Reads the hexadecimal digits of a group: their number, value, and the rest. *)
Fixpoint hex_run (off acc : Z) (s : string) : Z * Z * string :=
  match s with
  | EmptyString => (off, acc, s)
  | String c s' =>
      match hex_digit c with
      | Some d => hex_run (off + 1) (acc * 16 + d) s'
      | None => (off, acc, s)
      end
  end.

(** The loop of [parseIPv6]; [groups] counts the groups there is still room for,
    [ip] the bytes read so far, [ell] the position of the ellipsis. *)
Fixpoint v6_loop (groups : nat) (ip : list Z) (ell : option nat) (s : string) :
    option (list Z * option nat * string) :=
  match groups with
  | O => Some (ip, ell, s)
  | S groups' =>
      let '(off, acc, rest) := hex_run 0 0 s in
      if (off =? 0) || (4 <? off) then None
      else
        match rest with
        | EmptyString => Some (ip ++ [acc / 256; acc mod 256], ell, EmptyString)
        | String c rest' =>
            if Ascii.eqb c "." then
              if (match ell with None => negb (Nat.eqb (length ip) 12) | Some _ => false end)
                 || (Nat.ltb 16 (length ip + 4))
              then None
              else q ← parseIPv4 s; Some (ip ++ q, ell, EmptyString)
            else
              let ip' := ip ++ [acc / 256; acc mod 256] in
              if negb (Ascii.eqb c ":") then None
              else match rest' with
                   | EmptyString => None
                   | String c2 rest'' =>
                       if Ascii.eqb c2 ":" then
                         match ell with
                         | Some _ => None
                         | None =>
                             match rest'' with
                             | EmptyString => Some (ip', Some (length ip'), EmptyString)
                             | _ => v6_loop groups' ip' (Some (length ip')) rest''
                             end
                         end
                       else v6_loop groups' ip' ell rest'
                   end
        end
  end.

(** What follows the loop: the whole string must be used, and the ellipsis is
    expanded to at least one group of zeros. *)
Definition v6_finish (r : option (list Z * option nat * string)) : option (list Z) :=
  match r with
  | Some (ip, ell, EmptyString) =>
      if Nat.ltb (length ip) 16 then
        match ell with
        | None => None
        | Some e => Some (take e ip ++ replicate (16 - length ip) 0 ++ drop e ip)
        end
      else match ell with None => Some ip | Some _ => None end
  | _ => None
  end.

Definition parseIPv6 (s : string) : option (list Z) :=
  match s with
  | String ":" (String ":" EmptyString) => Some (replicate 16 0)
  | String ":" (String ":" s') => v6_finish (v6_loop 8 [] (Some O) s')
  | _ => v6_finish (v6_loop 8 [] None s)
  end.

(** [netip.ParseAddr] without zones: 4 bytes for a dotted quad, else 16. *)
Fixpoint addr_kind (s : string) : option bool :=
  match s with
  | EmptyString => None
  | String c s' =>
      if Ascii.eqb c "." then Some true
      else if Ascii.eqb c ":" then Some false
      else if Ascii.eqb c "%" then None
      else addr_kind s'
  end.

Definition ParseAddr (s : string) : option (list Z) :=
  if Contains s "%" then None
  else match addr_kind s with
       | Some true => parseIPv4 s
       | Some false => parseIPv6 s
       | None => None
       end.

Definition v4InV6Prefix : list Z := replicate 10 0 ++ [255; 255].
Definition As16 (ip : list Z) : list Z :=
  if Nat.eqb (length ip) 4 then v4InV6Prefix ++ ip else ip.

(** [net.ParseIP]: always the 16-byte form. *)
Definition ParseIP (s : string) : option (list Z) := As16 <$> ParseAddr s.

(** [IP.To4] *)
Definition To4 (ip : list Z) : option (list Z) :=
  if Nat.eqb (length ip) 4 then Some ip
  else if Nat.eqb (length ip) 16 && bool_decide (take 12 ip = v4InV6Prefix)
  then Some (drop 12 ip) else None.

(** ** Networks *)

Fixpoint CIDRMask (len : nat) (n : Z) : list Z :=
  match len with
  | O => []
  | S len' =>
      if 8 <=? n then 255 :: CIDRMask len' (n - 8)
      else (255 - Z.shiftr 255 n) :: CIDRMask len' 0
  end.

Record IPNet := { net_IP : list Z; net_ones : Z; net_bits : Z }.

Definition mask_of (n : IPNet) : list Z := CIDRMask (Z.to_nat (net_bits n / 8)) (net_ones n).

Definition land_bytes (a b : list Z) : list Z := zip_with Z.land a b.

(** [net.ParseCIDR], its second result. *)
Definition ParseCIDR (s : string) : option IPNet :=
  match SplitN2 s "/" with
  | (_, None) => None
  | (addr, Some mask) =>
      ip ← ParseAddr addr;
      n ← decimal mask;
      let bits := Z.of_nat (length ip) * 8 in
      if bits <? n then None
      else Some {| net_IP := land_bytes ip (CIDRMask (length ip) n);
                   net_ones := n; net_bits := bits |}
  end.

(** [IPNet.Contains] *)
Definition NetContains (n : IPNet) (ip : list Z) : bool :=
  let ip' := default ip (To4 ip) in
  let nn := default (net_IP n) (To4 (net_IP n)) in
  let m := if (Nat.eqb (length nn) 4) && (net_bits n =? 128)
           then drop 12 (mask_of n) else mask_of n in
  Nat.eqb (length ip') (length nn)
  && bool_decide (land_bytes nn m = land_bytes ip' m).

(** ** Printing *)

(** [IP.String] on a 4-byte address. *)
Definition ip4_string (ip : list Z) : string := Join (map pretty ip) ".".

(** ** Lemmas *)

(** A byte of the text is known to be 0..255; checking a property of all of them
    is a computation. *)
Lemma bytes_forall (P : Z -> bool) :
  forallb P (map Z.of_nat (seq 0 256)) = true -> forall b, 0 <= b <= 255 -> P b = true.
Proof.
  rewrite forallb_forall. intros H b Hb. apply H, in_map_iff.
  exists (Z.to_nat b). split; [lia|]. apply in_seq. lia.
Qed.

Definition octet_checks (b : Z) : bool :=
  let s : string := pretty b in
  all_bytes is_digit s && bool_decide (parse_octet s = Some b) && negb (String.eqb s "").

Lemma pretty_octet b : 0 <= b <= 255 ->
  all_bytes is_digit (pretty b) = true /\ parse_octet (pretty b) = Some b.
Proof.
  intros Hb. assert (H : octet_checks b = true) by (revert b Hb; apply bytes_forall; vm_compute; reflexivity).
  unfold octet_checks in H. reflect_bools.
  rename select (bool_decide _ = true) into Hd. by apply bool_decide_eq_true in Hd.
Qed.

Definition is_dot_digit (c : ascii) : bool := is_digit c || Ascii.eqb c ".".

Definition octets (ip : list Z) : Prop :=
  length ip = 4%nat /\ forall b, b ∈ ip -> 0 <= b <= 255.

Lemma octets_inv ip : octets ip -> exists a b c d, ip = [a; b; c; d] /\
  0 <= a <= 255 /\ 0 <= b <= 255 /\ 0 <= c <= 255 /\ 0 <= d <= 255.
Proof.
  intros [Hlen Hin]. destruct ip as [|a [|b [|c [|d [|]]]]]; try done.
  exists a, b, c, d. split_and!; try done; apply Hin; rewrite !elem_of_cons; tauto.
Qed.

Lemma digits_not_dot s : all_bytes is_digit s = true -> all_bytes (not_byte ".") s = true.
Proof.
  apply all_bytes_impl. intros c. destruct c as [[][][][][][][][]]; vm_compute; congruence.
Qed.

Lemma digits_dot_digit s : all_bytes is_digit s = true -> all_bytes is_dot_digit s = true.
Proof. apply all_bytes_impl. intros c Hc. unfold is_dot_digit. by rewrite Hc. Qed.

Lemma ip4_string_quad a b c d :
  ip4_string [a; b; c; d] =
  (pretty a +:+ String "." (pretty b +:+ String "." (pretty c +:+ String "." (pretty d))))%string.
Proof. reflexivity. Qed.

Lemma ip4_string_bytes ip : octets ip -> all_bytes is_dot_digit (ip4_string ip) = true.
Proof.
  intros (a & b & c & d & -> & Ha & Hb & Hc & Hd)%octets_inv.
  rewrite ip4_string_quad.
  repeat (rewrite all_bytes_app || cbn [all_bytes]).
  pose proof (digits_dot_digit _ (proj1 (pretty_octet a Ha))) as ->.
  pose proof (digits_dot_digit _ (proj1 (pretty_octet b Hb))) as ->.
  pose proof (digits_dot_digit _ (proj1 (pretty_octet c Hc))) as ->.
  by pose proof (digits_dot_digit _ (proj1 (pretty_octet d Hd))) as ->.
Qed.

Lemma parseIPv4_string ip : octets ip -> parseIPv4 (ip4_string ip) = Some ip.
Proof.
  intros (a & b & c & d & -> & Ha & Hb & Hc & Hd)%octets_inv.
  destruct (pretty_octet a Ha) as [Da Pa], (pretty_octet b Hb) as [Db Pb],
    (pretty_octet c Hc) as [Dc Pc], (pretty_octet d Hd) as [Dd Pd].
  unfold parseIPv4. rewrite ip4_string_quad.
  rewrite !Split_cons, Split_one by (apply digits_not_dot; assumption).
  by rewrite Pa, Pb, Pc, Pd.
Qed.

Lemma addr_kind_digits s t :
  all_bytes is_digit s = true -> addr_kind (s +:+ String "." t)%string = Some true.
Proof.
  induction s as [|c s IH]; [done|]. rewrite append_cons. cbn [all_bytes addr_kind].
  intros [Hc Hs]%andb_true_iff. rewrite (IH Hs).
  revert Hc. destruct c as [[][][][][][][][]]; vm_compute; congruence.
Qed.

(** Printing then parsing a 4-byte address gives it back. *)
Lemma ParseIP_string ip : octets ip -> ParseIP (ip4_string ip) = Some (v4InV6Prefix ++ ip).
Proof.
  intros Hip. unfold ParseIP, ParseAddr. rewrite Contains_byte.
  rewrite (all_bytes_impl is_dot_digit (not_byte "%")); [|
    intros c; destruct c as [[][][][][][][][]]; vm_compute; congruence |
    by apply ip4_string_bytes]. simpl.
  assert (Hk : addr_kind (ip4_string ip) = Some true).
  { destruct (octets_inv ip Hip) as (a & b & c & d & -> & Ha & _).
    rewrite ip4_string_quad. apply addr_kind_digits, pretty_octet, Ha. }
  rewrite Hk, parseIPv4_string by done. simpl. unfold As16.
  by rewrite (proj1 Hip).
Qed.

Lemma To4_mapped ip : octets ip -> To4 (v4InV6Prefix ++ ip) = Some ip.
Proof.
  intros (a & b & c & d & -> & _)%octets_inv. reflexivity.
Qed.

Lemma ip4_string_inj ip1 ip2 :
  octets ip1 -> octets ip2 -> ip4_string ip1 = ip4_string ip2 -> ip1 = ip2.
Proof.
  intros H1 H2 Heq. apply parseIPv4_string in H1, H2. congruence.
Qed.

(** ** Bytes of parsed addresses *)

Definition bytes_ok (ip : list Z) : Prop := forall b, b ∈ ip -> 0 <= b <= 255.

Lemma bytes_ok_app a b : bytes_ok a -> bytes_ok b -> bytes_ok (a ++ b).
Proof. intros Ha Hb x [Hx|Hx]%elem_of_app; auto. Qed.

Lemma bytes_ok_sub a b : (forall x, x ∈ a -> x ∈ b) -> bytes_ok b -> bytes_ok a.
Proof. intros Hsub Hb x Hx. auto. Qed.

Lemma elem_of_take_weaken (x : Z) n l : x ∈ take n l -> x ∈ l.
Proof. intros (i & Hi & _)%elem_of_take. by eapply list_elem_of_lookup_2. Qed.

Lemma elem_of_drop_weaken (x : Z) n l : x ∈ drop n l -> x ∈ l.
Proof.
  intros (i & Hi)%list_elem_of_lookup. rewrite lookup_drop in Hi.
  by eapply list_elem_of_lookup_2.
Qed.

Lemma bytes_ok_zeros n : bytes_ok (replicate n 0).
Proof. intros x [-> _]%elem_of_replicate. lia. Qed.

Lemma decimal_go_nonneg s acc :
  all_bytes is_digit s = true -> 0 <= acc -> 0 <= decimal_go acc s.
Proof.
  revert acc. induction s as [|c s IH]; intros acc; simpl; [done|].
  intros [Hc Hs]%andb_true_iff Hacc. apply IH; [done|].
  unfold is_digit in Hc. reflect_bools. lia.
Qed.

Lemma parse_octet_range s v : parse_octet s = Some v -> 0 <= v <= 255.
Proof.
  assert (Hd : forall w, match decimal s with Some v => if v <=? 255 then Some v else None
    | None => None end = Some w -> 0 <= w <= 255).
  { intros w. destruct (decimal s) as [u|] eqn:E; [|done].
    destruct (Z.leb_spec u 255); [|done]. intros [= <-]. split; [|done].
    unfold decimal in E. destruct s as [|c s]; [done|].
    destruct (all_bytes is_digit (String c s)) eqn:Ea; [|done]. injection E as <-.
    apply (decimal_go_nonneg (String c s) 0); [done|lia]. }
  unfold parse_octet. destruct s as [|c [|c' s']]; [apply Hd..|].
  destruct (Ascii.eqb c "0"); [done | apply Hd].
Qed.

Lemma parseIPv4_bytes s ip : parseIPv4 s = Some ip -> bytes_ok ip /\ length ip = 4%nat.
Proof.
  unfold parseIPv4. repeat case_match; try done.
  intros (a & Ha & (b & Hb & (c & Hc & (d & Hd & [= <-])%bind_Some)%bind_Some)%bind_Some)%bind_Some.
  apply parse_octet_range in Ha, Hb, Hc, Hd. split; [|done].
  intros x. rewrite !elem_of_cons, elem_of_nil. intuition lia.
Qed.

Lemma hex_digit_range c d : hex_digit c = Some d -> 0 <= d < 16.
Proof.
  unfold hex_digit. repeat case_match; intros [= <-]; reflect_bools; lia.
Qed.

Lemma hex_run_range s off acc off' acc' rest :
  hex_run off acc s = (off', acc', rest) -> 0 <= acc -> 0 <= off ->
  off <= off' /\ 0 <= acc' < (acc + 1) * 16 ^ (off' - off).
Proof.
  revert off acc. induction s as [|c s IH]; intros off acc; simpl.
  - intros [= <- <- <-] Hacc Hoff. rewrite Z.sub_diag. lia.
  - destruct (hex_digit c) as [d|] eqn:Hd.
    + intros Hrun Hacc Hoff. apply hex_digit_range in Hd.
      apply IH in Hrun as [Hle Hrange]; [|lia..]. split; [lia|].
      replace (off' - off) with (1 + (off' - (off + 1))) by lia.
      rewrite Z.pow_add_r by lia. pose proof (Z.pow_pos_nonneg 16 (off' - (off + 1))). nia.
    + intros [= <- <- <-] Hacc Hoff. rewrite Z.sub_diag. lia.
Qed.

Lemma group_bytes s off acc rest :
  hex_run 0 0 s = (off, acc, rest) -> (off =? 0) || (4 <? off) = false ->
  bytes_ok [acc / 256; acc mod 256].
Proof.
  intros Hrun Hoff. apply hex_run_range in Hrun as [Hle Hacc]; [|lia..]. reflect_bools.
  assert (16 ^ (off - 0) <= 16 ^ 4) by (apply Z.pow_le_mono_r; lia).
  change (16 ^ 4) with 65536 in *.
  intros x. rewrite !elem_of_cons, elem_of_nil. intros [-> | [-> | []]].
  - split; [apply Z.div_pos; lia|]. apply Zlt_succ_le, Z.div_lt_upper_bound; lia.
  - pose proof (Z.mod_pos_bound acc 256). lia.
Qed.

Lemma v6_loop_bytes groups ip ell s ip' ell' rest :
  v6_loop groups ip ell s = Some (ip', ell', rest) -> bytes_ok ip -> bytes_ok ip'.
Proof.
  revert ip ell s. induction groups as [|n IH]; intros ip ell s; simpl.
  { by intros [= <- <- <-]. }
  destruct (hex_run 0 0 s) as [[off acc] r] eqn:Hrun.
  destruct ((off =? 0) || (4 <? off)) eqn:Hoff; [done|].
  pose proof (group_bytes _ _ _ _ Hrun Hoff) as Hg. intros Heq Hip.
  pose proof (bytes_ok_app _ _ Hip Hg) as Hip'.
  destruct r as [|c r']; [by injection Heq as <- _ _|].
  destruct (Ascii.eqb c ".").
  - case_match; [done|]. apply bind_Some in Heq as (q & Hq & [= <- <- <-]).
    apply bytes_ok_app; [done | by apply parseIPv4_bytes in Hq as [? _]].
  - case_match; [done|]. destruct r' as [|c2 r'']; [done|].
    destruct (Ascii.eqb c2 ":").
    + destruct ell; [done|]. destruct r'' as [|c3 r3].
      * by injection Heq as <- _ _.
      * by eapply IH.
    + by eapply IH.
Qed.

Lemma v6_finish_bytes groups ell s ip :
  v6_finish (v6_loop groups [] ell s) = Some ip -> bytes_ok ip.
Proof.
  destruct (v6_loop groups [] ell s) as [[[ip1 ell1] [|]]|] eqn:Hl; try done.
  apply v6_loop_bytes in Hl; [|intros x Hx; by apply not_elem_of_nil in Hx].
  simpl. destruct (Nat.ltb (length ip1) 16), ell1 as [e|]; try done; intros [= <-]; [|done].
  apply bytes_ok_app; [|apply bytes_ok_app; [apply bytes_ok_zeros|]];
    eapply bytes_ok_sub; try exact Hl; intros x Hx.
  - by eapply elem_of_take_weaken.
  - by eapply elem_of_drop_weaken.
Qed.

Lemma parseIPv6_bytes s ip : parseIPv6 s = Some ip -> bytes_ok ip.
Proof.
  unfold parseIPv6. repeat case_match; try apply v6_finish_bytes.
  intros [= <-]. apply (bytes_ok_zeros 16).
Qed.

Lemma ParseAddr_bytes s ip : ParseAddr s = Some ip -> bytes_ok ip.
Proof.
  unfold ParseAddr. destruct (Contains s "%"); [done|].
  destruct (addr_kind s) as [[]|]; [|apply parseIPv6_bytes|done].
  intros H. by apply parseIPv4_bytes in H as [? _].
Qed.

Lemma ParseIP_bytes s ip : ParseIP s = Some ip -> bytes_ok ip.
Proof.
  unfold ParseIP. intros (a & Ha & ->)%fmap_Some. apply ParseAddr_bytes in Ha.
  unfold As16. case_match; [|done]. apply bytes_ok_app; [|done].
  apply bytes_ok_app; [apply (bytes_ok_zeros 10)|].
  intros x. rewrite !elem_of_cons, elem_of_nil. intuition lia.
Qed.

Lemma To4_octets ip q : To4 ip = Some q -> bytes_ok ip -> octets q.
Proof.
  unfold To4. destruct (Nat.eqb_spec (length ip) 4) as [H4|_]; [by intros [= <-]|].
  destruct (Nat.eqb_spec (length ip) 16) as [H16|_]; simpl; [|done].
  case_bool_decide; [|done]. intros [= <-] Hb. split; [rewrite length_drop; lia|].
    intros x Hx. apply Hb. by eapply elem_of_drop_weaken.
Qed.

Lemma To4_self q : octets q -> To4 q = Some q.
Proof. intros [Hlen _]. unfold To4. by rewrite Hlen. Qed.
