(* ===== verification/GoFloat.v ===== *)
(** * Go's [float64] and the numeric parsing the modelled code uses.

    A [float64] is an IEEE 754 binary64 value, represented by the Standard Library's
    executable specification [spec_float] with 53 bits of precision; literals are
    correctly rounded quotients. Also [strconv.ParseInt] in base 10 and the
    [fmt.Sscanf] of ["%d:%d"]. *)
From S2P Require Import Prelude GoStrings GoNet.
From Stdlib Require Import Ascii.
From Stdlib Require Import Floats.SpecFloat.

Notation float64 := spec_float.

Definition prec64 : Z := 53.
Definition emax64 : Z := 1024.

Definition fadd (x y : float64) : float64 := SFadd prec64 emax64 x y.
Definition fmul (x y : float64) : float64 := SFmul prec64 emax64 x y.
Definition fdiv (x y : float64) : float64 := SFdiv prec64 emax64 x y.
Definition feqb (x y : float64) : bool := SFeqb x y.
Definition fltb (x y : float64) : bool := SFltb x y.
Definition fleb (x y : float64) : bool := SFleb x y.

(** [float64(n)] of an integer: rounded to nearest even. *)
Definition float_of_Z (n : Z) : float64 := binary_normalize prec64 emax64 n 0 false.

(** The literal [n / d]: Go rounds constants exactly once. *)
Definition flit (n d : Z) : float64 := fdiv (float_of_Z n) (float_of_Z d).

(** [int(f)]: truncation toward zero. The result for NaN, infinities and values
    that do not fit is implementation-specific; here it is the smallest [int64], as
    on amd64. *)
Definition int_of_float (f : float64) : Z :=
  match f with
  | S754_zero _ => 0
  | S754_infinity _ | S754_nan => int64_min
  | S754_finite s m e =>
      let mag := match e with
                 | Z0 => Zpos m
                 | Zpos p => Zpos m * 2 ^ (Zpos p)
                 | Zneg p => Zpos m / 2 ^ (Zpos p)
                 end in
      let v := if s then - mag else mag in
      if (int64_min <=? v) && (v <=? int64_max) then v else int64_min
  end.

(** ** Integers in text *)

(** [strconv.ParseInt(s, 10, 64)] *)
Definition ParseInt10 (s : string) : option Z :=
  let body neg t :=
    match decimal t with
    | None => None
    | Some v =>
        let v' := if neg : bool then - v else v in
        if (int64_min <=? v') && (v' <=? int64_max) then Some v' else None
    end in
  match s with
  | String "-" t => body true t
  | String "+" t => body false t
  | _ => body false s
  end.

(** [SkipSpace] of the scanner of [Sscanf]: white space other than a newline;
    [None] at a newline. *)
Fixpoint skip_space (s : string) : option string :=
  match s with
  | EmptyString => Some s
  | String c1 s1 =>
      if Ascii.eqb c1 "010" then None
      else if Ascii.eqb c1 "013" then
        match s1 with
        | String "010" _ => None
        | _ => skip_space s1
        end
      else if ascii_space c1 then skip_space s1
      else match s1 with
           | String c2 s2 =>
               if space2 c1 c2 then skip_space s2
               else match s2 with
                    | String c3 s3 => if space3 c1 c2 c3 then skip_space s3 else Some s
                    | _ => Some s
                    end
           | _ => Some s
           end
  end.

Fixpoint digit_run (s : string) : string * string :=
  match s with
  | String c s' =>
      if is_digit c then let '(d, r) := digit_run s' in (String c d, r) else (EmptyString, s)
  | EmptyString => (EmptyString, EmptyString)
  end.

(** The verb [%d]: the value read and the rest of the input. *)
Definition scan_d (s : string) : option (Z * string) :=
  match skip_space s with
  | None => None
  | Some t =>
      let '(sign, u) := match t with
                        | String "-" u => ("-", u)
                        | String "+" u => ("+", u)
                        | _ => ("", t)
                        end in
      let '(d, r) := digit_run u in
      match ParseInt10 (sign +:+ d)%string with
      | Some v => Some (v, r)
      | None => None
      end
  end.

(** [fmt.Sscanf(s, "%d:%d", &a, &b)] with [a] and [b] zero before: a variable that
    is not reached keeps 0. *)
Definition sscanf_d_colon_d (s : string) : Z * Z :=
  match scan_d s with
  | None => (0, 0)
  | Some (a, r) =>
      match r with
      | String ":" r' =>
          match scan_d r' with
          | Some (b, _) => (a, b)
          | None => (a, 0)
          end
      | _ => (a, 0)
      end
  end.
