(* ===== verification/GoRegexp.v ===== *)
(** * Unanchored matching of regular expressions ([regexp.MatchString]).

    Expressions are over bytes; the ones the program uses are ASCII, with the two
    non-ASCII letters that case folding adds to a class written out. [MatchString] is
    executable, by derivatives, and agrees with the language of the expression. *)
From S2P Require Import Prelude GoStrings.
From Stdlib Require Import Ascii.

Inductive re :=
| Eps
| Cls (f : ascii -> bool)
| Cat (r1 r2 : re)
| Alt (r1 r2 : re)
| Star (r : re)
| Never.

Inductive lang : re -> string -> Prop :=
| lang_eps : lang Eps ""
| lang_cls f c : f c = true -> lang (Cls f) (String c "")
| lang_cat r1 r2 s t : lang r1 s -> lang r2 t -> lang (Cat r1 r2) (s +:+ t)%string
| lang_alt_l r1 r2 s : lang r1 s -> lang (Alt r1 r2) s
| lang_alt_r r1 r2 s : lang r2 s -> lang (Alt r1 r2) s
| lang_star_nil r : lang (Star r) ""
| lang_star_cons r s t : lang r s -> lang (Star r) t -> lang (Star r) (s +:+ t)%string.

Fixpoint nullable (r : re) : bool :=
  match r with
  | Eps | Star _ => true
  | Cls _ | Never => false
  | Cat r1 r2 => nullable r1 && nullable r2
  | Alt r1 r2 => nullable r1 || nullable r2
  end.

Fixpoint deriv (c : ascii) (r : re) : re :=
  match r with
  | Eps | Never => Never
  | Cls f => if f c then Eps else Never
  | Cat r1 r2 =>
      if nullable r1 then Alt (Cat (deriv c r1) r2) (deriv c r2) else Cat (deriv c r1) r2
  | Alt r1 r2 => Alt (deriv c r1) (deriv c r2)
  | Star r => Cat (deriv c r) (Star r)
  end.

(** Some prefix of [s] matches. *)
Fixpoint match_prefix (r : re) (s : string) : bool :=
  nullable r || match s with EmptyString => false | String c s' => match_prefix (deriv c r) s' end.

Fixpoint MatchString (r : re) (s : string) : bool :=
  match_prefix r s || match s with EmptyString => false | String _ s' => MatchString r s' end.

(** ** The notations of the syntax *)

Definition Byte (c : ascii) : re := Cls (Ascii.eqb c).
Fixpoint Text (s : string) : re :=
  match s with
  | EmptyString => Eps
  | String c EmptyString => Byte c
  | String c s' => Cat (Byte c) (Text s')
  end.
Definition Opt (r : re) : re := Alt r Eps.
Fixpoint Times (n : nat) (r : re) : re :=
  match n with O => Eps | S O => r | S n' => Cat r (Times n' r) end.

(** [\d], [\s] (without the vertical tab, unlike [unicode.IsSpace]) and [[0-9A-Za-z_]] *)
Definition Digit : re := Cls (fun c => (48 <=? byte_of c) && (byte_of c <=? 57)).
Definition White : re := Cls (fun c =>
  (byte_of c =? 9) || (byte_of c =? 10) || (byte_of c =? 12) || (byte_of c =? 13) || (byte_of c =? 32)).
Definition word_byte (c : ascii) : bool :=
  ((48 <=? byte_of c) && (byte_of c <=? 57)) || ((65 <=? byte_of c) && (byte_of c <=? 90)) ||
  ((97 <=? byte_of c) && (byte_of c <=? 122)) || (byte_of c =? 95).

(** [(?i)[a-z]]: the letters, and the two runes that fold to one: the long s (C5 BF)
    and the Kelvin sign (E2 84 AA). *)
Definition Letter : re :=
  Alt (Cls (fun c => ((65 <=? byte_of c) && (byte_of c <=? 90)) || ((97 <=? byte_of c) && (byte_of c <=? 122))))
  (Alt (Cat (Byte (chr 197)) (Byte (chr 191)))
       (Cat (Byte (chr 226)) (Cat (Byte (chr 132)) (Byte (chr 170))))).

(** [\bt] for a text [t] that starts with a letter or a digit: at the start, or after
    a byte that is not a word byte. *)
Definition MatchAtWord (t : string) (s : string) : bool :=
  HasPrefix s t || MatchString (Cat (Cls (fun c => negb (word_byte c))) (Text t)) s.

(** ** The matcher agrees with the language *)

Lemma nullable_lang r : nullable r = true <-> lang r "".
Proof.
  split.
  - induction r as [|f|r1 IH1 r2 IH2|r1 IH1 r2 IH2|r IH|]; simpl; intros Hn; try done.
    + constructor.
    + apply andb_true_iff in Hn as [H1 H2].
      exact (lang_cat r1 r2 "" "" (IH1 H1) (IH2 H2)).
    + apply orb_true_iff in Hn as [H1|H2]; [apply lang_alt_l | apply lang_alt_r]; auto.
    + constructor.
  - intros Hl. remember "" as e eqn:He. induction Hl; simpl; try done.
    + apply (f_equal String.length) in He. rewrite string_length_app in He. simpl in He.
      destruct s, t; try (simpl in He; lia). by rewrite IHHl1, IHHl2.
    + by rewrite IHHl.
    + rewrite IHHl by done. apply orb_true_r.
Qed.

Lemma deriv_lang c r s : lang (deriv c r) s <-> lang r (String c s).
Proof.
  split.
  - revert s. induction r as [|f|r1 IH1 r2 IH2|r1 IH1 r2 IH2|r IH|]; simpl; intros s Hl.
    + inversion Hl.
    + destruct (f c) eqn:Hf; inversion Hl; subst. by constructor.
    + assert (Hcat : lang (Cat (deriv c r1) r2) s -> lang (Cat r1 r2) (String c s)).
      { intros Hc. inversion Hc as [| |? ? a b Ha Hb| | | |]; subst.
        exact (lang_cat r1 r2 (String c a) b (IH1 a Ha) Hb). }
      destruct (nullable r1) eqn:Hn; [|by apply Hcat].
      inversion Hl as [| | |? ? ? Hx|? ? ? Hx| |]; subst; [by apply Hcat|].
      apply nullable_lang in Hn. exact (lang_cat r1 r2 "" _ Hn (IH2 _ Hx)).
    + inversion Hl as [| | |? ? ? Hx|? ? ? Hx| |]; subst;
        [apply lang_alt_l | apply lang_alt_r]; auto.
    + inversion Hl as [| |? ? a b Ha Hb| | | |]; subst.
      exact (lang_star_cons r (String c a) b (IH a Ha) Hb).
    + inversion Hl.
  - intros Hl. remember (String c s) as t eqn:Ht. revert s Ht.
    induction Hl as [|f d Hf|r1 r2 a b Ha IHa Hb IHb|r1 r2 a Ha IHa|r1 r2 a Ha IHa|r|r a b Ha IHa Hb IHb];
      intros s Ht; simpl; try done.
    + injection Ht as -> <-. rewrite Hf. constructor.
    + destruct a as [|d a].
      * assert (Hn : nullable r1 = true) by by apply nullable_lang. rewrite Hn.
        apply lang_alt_r, IHb, Ht.
      * injection Ht as -> <-. destruct (nullable r1); [apply lang_alt_l|];
          constructor; auto.
    + apply lang_alt_l; auto.
    + apply lang_alt_r; auto.
    + destruct a as [|d a]; [by apply IHb|]. injection Ht as -> <-. constructor; auto.
Qed.

Lemma match_prefix_lang r s :
  match_prefix r s = true <-> exists a b, s = (a +:+ b)%string /\ lang r a.
Proof.
  revert r. induction s as [|c s IH]; intros r; simpl.
  - rewrite orb_false_r, nullable_lang. split; [by exists "", ""|].
    intros (a & b & Hab & Ha). destruct a; [done | by rewrite append_cons in Hab].
  - rewrite orb_true_iff, nullable_lang, IH. split.
    + intros [Hn|(a & b & -> & Ha)]; [by exists "", (String c s)|].
      exists (String c a), b. split; [by rewrite append_cons | by apply deriv_lang].
    + intros (a & b & Hab & Ha). destruct a as [|d a]; [by left|].
      rewrite append_cons in Hab. injection Hab as <- ->. right. exists a, b.
      split; [done | by apply deriv_lang].
Qed.

Lemma MatchString_unfold r s :
  MatchString r s =
  match_prefix r s || match s with EmptyString => false | String _ s' => MatchString r s' end.
Proof. by destruct s. Qed.

Lemma MatchString_lang r s :
  MatchString r s = true <-> exists a b c, s = (a +:+ b +:+ c)%string /\ lang r b.
Proof.
  induction s as [|d s IH]; rewrite MatchString_unfold, orb_true_iff, match_prefix_lang.
  - split.
    + intros [(a & b & Hab & Ha)|?]; [by exists "", a, b | done].
    + intros (a & b & c & Habc & Hb). left. exists b, c. split; [|done].
      destruct a; [done | by rewrite append_cons in Habc].
  - rewrite IH. split.
    + intros [(a & b & Hab & Ha)|(a & b & c & -> & Hb)]; [by exists "", a, b|].
      exists (String d a), b, c. by rewrite append_cons.
    + intros (a & b & c & Habc & Hb). destruct a as [|d' a]; [left; by exists b, c|].
      rewrite append_cons in Habc. injection Habc as <- ->. right. by exists a, b, c.
Qed.

(** ** Captured groups ([regexp.FindStringSubmatch])

    Go returns the leftmost match, and among those the one that a backtracking search
    finds first: alternatives in their order, repetitions as long as possible. The
    matcher is that search, with the rest of the pattern as its continuation. The
    groups are in the order in which they close. *)

Inductive pat :=
| POne (f : ascii -> bool)
| PText (t : string)
| PSeq (p q : pat)
| POr (p q : pat)
| PRun (f : ascii -> bool) (lo : nat) (extra : option nat) (** [f{lo,lo+extra}], or without end *)
| PGroup (p : pat)
| PStart
| PEnd
| PWord. (** [\b] *)

Definition PMaybe (p : pat) : pat := POr p (PText "").

Definition at_word (before : option ascii) (s : string) : bool :=
  let w c := match c with Some d => word_byte d | None => false end in
  negb (Bool.eqb (w before) (w (match s with String c _ => Some c | EmptyString => None end))).

Section Search.
Context {A : Type}.
Notation rest_of_match := (option ascii -> string -> list string -> option A).

Definition or_else (o : option A) (o' : option A) : option A :=
  match o with Some _ => o | None => o' end.

Fixpoint run_class (f : ascii -> bool) (lo : nat) (extra : option nat) (before : option ascii)
    (s : string) (caps : list string) (k : rest_of_match) : option A :=
  let stop := match lo with O => k before s caps | S _ => None end in
  match s with
  | EmptyString => stop
  | String c s' =>
      if f c then
        match lo, extra with
        | S lo', _ => run_class f lo' extra (Some c) s' caps k
        | O, Some O => stop
        | O, Some (S n) => or_else (run_class f 0 (Some n) (Some c) s' caps k) stop
        | O, None => or_else (run_class f 0 None (Some c) s' caps k) stop
        end
      else stop
  end.

(** The byte before what follows [t]. *)
Fixpoint last_byte (before : option ascii) (t : string) : option ascii :=
  match t with EmptyString => before | String c t' => last_byte (Some c) t' end.

Fixpoint search (p : pat) (before : option ascii) (s : string) (caps : list string)
    (k : rest_of_match) : option A :=
  match p with
  | POne f =>
      match s with
      | String c s' => if f c then k (Some c) s' caps else None
      | EmptyString => None
      end
  | PText t =>
      if HasPrefix s t then k (last_byte before t) (sdrop (String.length t) s) caps else None
  | PSeq p q => search p before s caps (fun b s' caps' => search q b s' caps' k)
  | POr p q => or_else (search p before s caps k) (search q before s caps k)
  | PRun f lo extra => run_class f lo extra before s caps k
  | PGroup p =>
      search p before s caps (fun b s' caps' =>
        k b s' (caps' ++ [stake (String.length s - String.length s') s]))
  | PStart => match before with None => k before s caps | Some _ => None end
  | PEnd => match s with EmptyString => k before s caps | String _ _ => None end
  | PWord => if at_word before s then k before s caps else None
  end.
End Search.

Fixpoint find_from (p : pat) (before : option ascii) (s : string) : option (list string) :=
  or_else (search p before s [] (fun _ _ caps => Some caps))
    match s with
    | EmptyString => None
    | String c s' => find_from p (Some c) s'
    end.

(** The groups of the match. *)
Definition FindStringSubmatch (p : pat) (s : string) : option (list string) := find_from p None s.

Definition is_match (p : pat) (s : string) : bool :=
  match FindStringSubmatch p s with Some _ => true | None => false end.

(** A letter under [(?i)], with the rune above 127 that folds to it. *)
Definition Fold (c : ascii) : pat :=
  let one := POne (fun d => Ascii.eqb (lower_byte d) c) in
  if Ascii.eqb c "k" then POr one (PText (String (chr 226) (String (chr 132) (String (chr 170) ""))))
  else if Ascii.eqb c "s" then POr one (PText (String (chr 197) (String (chr 191) "")))
  else one.

Fixpoint FoldText (t : string) : pat :=
  match t with
  | EmptyString => PText ""
  | String c EmptyString => Fold c
  | String c t' => PSeq (Fold c) (FoldText t')
  end.

Fixpoint PAny (l : list pat) : pat :=
  match l with
  | [] => POne (fun _ => false)
  | [p] => p
  | p :: l' => POr p (PAny l')
  end.

Definition digit_byte (c : ascii) : bool := (48 <=? byte_of c) && (byte_of c <=? 57).

(** A class under [(?i)] that contains [k] and [s] contains the two runes that fold to
    them, which are several bytes. *)
Definition FoldClass (f : ascii -> bool) : pat :=
  PAny [POne f; PText (String (chr 226) (String (chr 132) (String (chr 170) "")));
        PText (String (chr 197) (String (chr 191) ""))].

(** [p{0,n}] and [p{lo,lo+extra}] *)
Fixpoint Upto (p : pat) (n : nat) : pat :=
  match n with O => PText "" | S n' => PMaybe (PSeq p (Upto p n')) end.
Fixpoint Rep (p : pat) (lo extra : nat) : pat :=
  match lo with O => Upto p extra | S lo' => PSeq p (Rep p lo' extra) end.

Definition white_byte (c : ascii) : bool :=
  (byte_of c =? 9) || (byte_of c =? 10) || (byte_of c =? 12) || (byte_of c =? 13) || (byte_of c =? 32).
Definition alnum_byte (c : ascii) : bool := word_byte c && negb (byte_of c =? 95).

(** *** Texts that differ in the case of ASCII letters *)

Notation lower_all := (map_string lower_byte).

(** The classes do not tell cases apart, and literal texts are not ASCII. *)
Fixpoint caseless (p : pat) : Prop :=
  match p with
  | POne f | PRun f _ _ => forall c, f (lower_byte c) = f c
  | PText t => match t with EmptyString => True | String c _ => 128 <= byte_of c end
  | PSeq p q | POr p q => caseless p /\ caseless q
  | PGroup p => caseless p
  | PStart | PEnd | PWord => True
  end.

Lemma word_byte_lower c : word_byte (lower_byte c) = word_byte c.
Proof. by destruct c as [[] [] [] [] [] [] [] []]. Qed.

Lemma lower_byte_ascii c : (byte_of c <? 128) = true -> (byte_of (lower_byte c) <? 128) = true.
Proof. by destruct c as [[] [] [] [] [] [] [] []]. Qed.

Lemma map_string_length f s : String.length (map_string f s) = String.length s.
Proof. induction s as [|c s IH]; simpl; [done|]. by rewrite IH. Qed.

Lemma map_string_stake f n s : stake n (map_string f s) = map_string f (stake n s).
Proof. revert s. induction n as [|n IH]; intros [|c s]; simpl; try done. by rewrite IH. Qed.

Lemma is_ascii_all s : is_ascii s = all_bytes (fun c => byte_of c <? 128) s.
Proof. induction s as [|c s IH]; simpl; [done|]. by rewrite IH. Qed.

Lemma is_ascii_sdrop n s : is_ascii s = true -> is_ascii (sdrop n s) = true.
Proof. rewrite !is_ascii_all. apply sdrop_all. Qed.

Lemma is_ascii_stake n s : is_ascii s = true -> is_ascii (stake n s) = true.
Proof. rewrite !is_ascii_all. apply stake_all. Qed.

(** A text that starts outside ASCII is not the start of an ASCII text. *)
Lemma caseless_text t s :
  caseless (PText t) -> is_ascii s = true -> HasPrefix s t = true -> t = "".
Proof.
  intros Hc Hs (u & ->)%prefix_split. destruct t as [|c t]; [done|].
  rewrite append_cons in Hs. simpl in Hc, Hs. apply andb_true_iff in Hs as [Hd _].
  apply Z.ltb_lt in Hd. lia.
Qed.

Lemma at_word_lower b s : at_word (lower_byte <$> b) (lower_all s) = at_word b s.
Proof. unfold at_word. destruct b, s; simpl; by rewrite ?word_byte_lower. Qed.

Section Lower.
Context {A : Type} (g : A -> A).
Notation cont := (option ascii -> string -> list string -> option A).
Notation lower_caps := (map (map_string lower_byte)).

(** A continuation gives for the lowered rest what it gives for the rest. *)
Definition lowers (k' k : cont) : Prop :=
  forall b s caps, is_ascii s = true ->
    k' (lower_byte <$> b) (lower_all s) (lower_caps caps) = g <$> k b s caps.

Lemma or_else_fmap (o o' : option A) : g <$> or_else o o' = or_else (g <$> o) (g <$> o').
Proof. by destruct o. Qed.

Lemma run_class_lower f lo extra b s caps (k' k : cont) :
  (forall c, f (lower_byte c) = f c) -> lowers k' k -> is_ascii s = true ->
  run_class f lo extra (lower_byte <$> b) (lower_all s) (lower_caps caps) k' =
  g <$> run_class f lo extra b s caps k.
Proof.
  intros Hf Hk. revert lo extra b. induction s as [|c s IH]; intros lo extra b Hs.
  - simpl. destruct lo; [by apply (Hk b "") | done].
  - pose proof Hs as Hs'. simpl in Hs'. apply andb_true_iff in Hs' as [_ Hs'].
    assert (Hstop : match lo with O => k' (lower_byte <$> b) (lower_all (String c s)) (lower_caps caps) | S _ => None end =
      g <$> match lo with O => k b (String c s) caps | S _ => None end).
    { destruct lo; [by apply Hk | done]. }
    pose proof (fun lo extra => IH lo extra (Some c) Hs') as IH'. simpl in IH', Hstop |- *. rewrite Hf.
    destruct (f c); [|done]. destruct lo as [|lo]; [|apply IH'].
    destruct extra as [[|n]|]; [done | |]; by rewrite or_else_fmap, IH', Hstop.
Qed.

Lemma search_lower p b s caps (k' k : cont) :
  caseless p -> lowers k' k -> is_ascii s = true ->
  search p (lower_byte <$> b) (lower_all s) (lower_caps caps) k' = g <$> search p b s caps k.
Proof.
  revert b s caps k' k.
  induction p as [f|t|p IHp q IHq|p IHp q IHq|f lo extra|p IHp| | |]; intros b s caps k' k Hp Hk Hs; simpl in *.
  - destruct s as [|c s]; simpl; [done|]. rewrite Hp. simpl in Hs. apply andb_true_iff in Hs as [_ Hs].
    destruct (f c); [|done]. by apply (Hk (Some c)).
  - assert (Hlow : is_ascii (lower_all s) = true) by by apply is_ascii_map_lower.
    destruct (HasPrefix s t) eqn:He.
    + pose proof (caseless_text _ _ Hp Hs He) as ->. simpl. destruct (lower_all s) eqn:Hl; simpl; rewrite <- Hl; by apply Hk.
    + destruct (HasPrefix (lower_all s) t) eqn:He'; [|done].
      pose proof (caseless_text _ _ Hp Hlow He') as ->. by destruct s.
  - destruct Hp. apply IHp; [done | |done]. intros b' s' caps' Hs'. by apply IHq.
  - destruct Hp. rewrite or_else_fmap. f_equal; [by apply IHp | by apply IHq].
  - by apply run_class_lower.
  - apply IHp; [done | |done]. intros b' s' caps' Hs'.
    rewrite !map_string_length, map_string_stake.
    specialize (Hk b' s' (caps' ++ [stake (String.length s - String.length s') s]) Hs').
    by rewrite map_app in Hk.
  - destruct b; [done | by apply (Hk None)].
  - destruct s; [by apply (Hk b "") | done].
  - rewrite at_word_lower. destruct (at_word b s); [by apply Hk | done].
Qed.
End Lower.

Lemma find_from_lower p b s :
  caseless p -> is_ascii s = true ->
  find_from p (lower_byte <$> b) (lower_all s) = map (map_string lower_byte) <$> find_from p b s.
Proof.
  intros Hp. revert b. induction s as [|c s IH]; intros b Hs.
  - change (or_else (search p (lower_byte <$> b) (lower_all "") (map lower_all []) (fun _ _ caps => Some caps)) None =
      map lower_all <$> or_else (search p b "" [] (fun _ _ caps => Some caps)) None).
    rewrite (search_lower (map lower_all) p b "" [] _ (fun _ _ caps => Some caps) Hp); [|by intros ????|done].
    by destruct (search p b "" [] _).
  - change (or_else (search p (lower_byte <$> b) (lower_all (String c s)) (map lower_all []) (fun _ _ caps => Some caps))
        (find_from p (lower_byte <$> Some c) (lower_all s)) =
      map lower_all <$> or_else (search p b (String c s) [] (fun _ _ caps => Some caps)) (find_from p (Some c) s)).
    rewrite (search_lower (map lower_all) p b (String c s) [] _ (fun _ _ caps => Some caps) Hp); [|by intros ????|done].
    rewrite IH by (simpl in Hs; by apply andb_true_iff in Hs as [_ ?]).
    by destruct (search p b (String c s) [] _).
Qed.

Lemma FindStringSubmatch_lower p s :
  caseless p -> is_ascii s = true ->
  FindStringSubmatch p (lower_all s) = map (map_string lower_byte) <$> FindStringSubmatch p s.
Proof. apply (find_from_lower p None). Qed.

(** The groups of an ASCII text are ASCII. *)
Section Groups.
Context {A : Type} (P : A -> Prop).

Definition gives (k : option ascii -> string -> list string -> option A) : Prop :=
  forall b s caps r, is_ascii s = true -> Forall (fun t => is_ascii t = true) caps ->
    k b s caps = Some r -> P r.

Lemma run_class_gives f lo extra b s caps k r :
  gives k -> is_ascii s = true -> Forall (fun t => is_ascii t = true) caps ->
  run_class f lo extra b s caps k = Some r -> P r.
Proof.
  intros Hk. revert lo extra b. induction s as [|c s IH]; intros lo extra b Hs Hc; simpl.
  - destruct lo; [by apply Hk | done].
  - pose proof Hs as Hs'. simpl in Hs'. apply andb_true_iff in Hs' as [_ Hs'].
    assert (Hstop : match lo with O => k b (String c s) caps | S _ => None end = Some r -> P r)
      by (destruct lo; [by apply Hk | done]).
    destruct (f c); [|done]. destruct lo as [|lo]; [|by apply IH].
    destruct extra as [[|n]|]; [done | |];
      (destruct (run_class f _ _ (Some c) s caps k) eqn:Hr; simpl; [|done]);
      intros [= ->]; by eapply IH.
Qed.

Lemma search_gives p b s caps k r :
  gives k -> is_ascii s = true -> Forall (fun t => is_ascii t = true) caps ->
  search p b s caps k = Some r -> P r.
Proof.
  revert b s caps k r.
  induction p as [f|t|p IHp q IHq|p IHp q IHq|f lo extra|p IHp| | |]; intros b s caps k r Hk Hs Hc; simpl.
  - destruct s as [|c s]; [done|]. simpl in Hs. apply andb_true_iff in Hs as [_ Hs].
    destruct (f c); [by apply Hk | done].
  - destruct (HasPrefix s t); [|done]. apply Hk; [by apply is_ascii_sdrop | done].
  - apply IHp; [|done..]. intros b' s' caps' r' Hs' Hc'. by apply IHq.
  - destruct (search p b s caps k) eqn:Hr; simpl; [intros [= ->]; by eapply IHp | by apply IHq].
  - by apply run_class_gives.
  - apply IHp; [|done..]. intros b' s' caps' r' Hs' Hc' Hkr. eapply Hk; [done | |done].
    apply Forall_app. split; [done|]. constructor; [by apply is_ascii_stake | done].
  - destruct b; [done | by apply Hk].
  - destruct s; [by apply Hk | done].
  - destruct (at_word b s); [by apply Hk | done].
Qed.
End Groups.

Lemma FindStringSubmatch_ascii p s groups :
  is_ascii s = true -> FindStringSubmatch p s = Some groups ->
  Forall (fun t => is_ascii t = true) groups.
Proof.
  unfold FindStringSubmatch. generalize (@None ascii). induction s as [|c s IH]; intros b Hs; simpl.
  - destruct (search p b "" [] _) eqn:Hr; simpl; [|done]. intros [= <-].
    eapply (search_gives (Forall (fun t => is_ascii t = true))), Hr; [|done..].
    intros b' s' caps r' _ Hc [= <-]. done.
  - destruct (search p b (String c s) [] _) eqn:Hr; simpl.
    + intros [= <-]. eapply (search_gives (Forall (fun t => is_ascii t = true))), Hr; [|done..].
      intros b' s' caps r' _ Hc [= <-]. done.
    + apply IH. simpl in Hs. by apply andb_true_iff in Hs as [_ ?].
Qed.
