(* ===== verification/Effects.v ===== *)
(** * Interaction with the outside: a state monad with a history.

    A component that calls a store, a clock, a network client or the file system is
    a computation that runs against an environment: the state [W] of everything
    outside, and one operation per call. Every call is recorded with its arguments
    and its answer. The operations are arbitrary functions of the environment, so
    what the theorems say holds however the outside behaves and whatever other
    processes do to it between two calls.

    [Spec P h m Q]: run after the history [h], every call [c] that [m] makes
    satisfies [P] of the history so far and [c], and [Q] holds of the history at
    the end and the value. *)
From S2P Require Import Prelude.

Definition M (C W A : Type) : Type := W -> A * (list C * W).

#[export] Instance M_ret {C W} : MRet (M C W) := fun A a w => (a, ([], w)).
#[export] Instance M_bind {C W} : MBind (M C W) := fun A B f m w =>
  let '(a, (tr, w')) := m w in
  let '(b, (tr', w'')) := f a w' in
  (b, (tr ++ tr', w'')).

(** One call: the operation [op] of the environment, recorded as [rec answer]. *)
Definition call {C W A} (rec : A -> C) (op : W -> A * W) : M C W A := fun w =>
  let '(a, w') := op w in (a, ([rec a], w')).

(** [for _, x := range l { f(x) }], where [continue] ends [f]. *)
Fixpoint for_each {C W A} (l : list A) (f : A -> M C W unit) : M C W unit :=
  match l with
  | [] => mret tt
  | x :: l' => _ ← f x; for_each l' f
  end.

Definition value {C W A} (m : M C W A) (w : W) : A := fst (m w).
Definition trace {C W A} (m : M C W A) (w : W) : list C := fst (snd (m w)).
Definition final {C W A} (m : M C W A) (w : W) : W := snd (snd (m w)).

(** [P] holds of every call of [tr] and the history before it. *)
Fixpoint calls_ok {C} (P : list C -> C -> Prop) (h tr : list C) : Prop :=
  match tr with
  | [] => True
  | c :: tr' => P h c /\ calls_ok P (h ++ [c]) tr'
  end.

Definition Spec {C W A} (P : list C -> C -> Prop) (h : list C) (m : M C W A)
    (Q : list C -> A -> Prop) : Prop :=
  forall w, calls_ok P h (trace m w) /\ Q (h ++ trace m w) (value m w).

Lemma calls_ok_app {C} (P : list C -> C -> Prop) h tr tr' :
  calls_ok P h (tr ++ tr') <-> calls_ok P h tr /\ calls_ok P (h ++ tr) tr'.
Proof.
  revert h. induction tr as [|c tr IH]; intros h; simpl.
  - rewrite app_nil_r. tauto.
  - rewrite IH, <- app_assoc. tauto.
Qed.

Lemma calls_ok_elem {C} (P : list C -> C -> Prop) h tr c :
  calls_ok P h tr -> c ∈ tr ->
  exists tr1 tr2, tr = tr1 ++ c :: tr2 /\ P (h ++ tr1) c.
Proof.
  revert h. induction tr as [|d tr IH]; intros h Hok Hin.
  - by apply not_elem_of_nil in Hin.
  - destruct Hok as [Hd Hok]. apply elem_of_cons in Hin as [->|Hin].
    + exists [], tr. by rewrite app_nil_r.
    + destruct (IH _ Hok Hin) as (tr1 & tr2 & -> & HP).
      exists (d :: tr1), tr2. split; [done|]. by rewrite <- app_assoc in HP.
Qed.

Lemma bind_run {C W A B} (m : M C W A) (f : A -> M C W B) w :
  value (m ≫= f) w = value (f (value m w)) (final m w) /\
  trace (m ≫= f) w = trace m w ++ trace (f (value m w)) (final m w) /\
  final (m ≫= f) w = final (f (value m w)) (final m w).
Proof.
  unfold value, trace, final, mbind, M_bind.
  destruct (m w) as [a [tr w']]. simpl. by destruct (f a w') as [b [tr' w'']].
Qed.

Section Rules.
Context {C W : Type} (P : list C -> C -> Prop).

Lemma Spec_ret {A} h (a : A) (Q : list C -> A -> Prop) :
  Q h a -> Spec (W := W) P h (mret a) Q.
Proof. intros HQ w. simpl. rewrite app_nil_r. done. Qed.

Lemma Spec_bind {A B} h (m : M C W A) (f : A -> M C W B) R Q :
  Spec P h m R ->
  (forall h' a, h `prefix_of` h' -> R h' a -> Spec P h' (f a) Q) ->
  Spec P h (m ≫= f) Q.
Proof.
  intros Hm Hf w. destruct (bind_run m f w) as (-> & -> & _).
  destruct (Hm w) as [Hok HR].
  destruct (Hf _ _ (prefix_app_r _ _ _ ltac:(done)) HR (final m w)) as [Hok' HQ].
  split; [by apply calls_ok_app | by rewrite app_assoc].
Qed.

Lemma Spec_call {A} h (rec : A -> C) (op : W -> A * W) (Q : list C -> A -> Prop) :
  (forall a, P h (rec a) /\ Q (h ++ [rec a]) a) -> Spec P h (call rec op) Q.
Proof.
  intros H w. unfold trace, value, call. destruct (op w) as [a w']. simpl.
  destruct (H a). split; [split; done | done].
Qed.

(** A call followed by the rest: the rest runs after the recorded answer. *)
Lemma Spec_bind_call {A B} h (rec : A -> C) (op : W -> A * W) (f : A -> M C W B) Q :
  (forall a, P h (rec a)) ->
  (forall a, Spec P (h ++ [rec a]) (f a) Q) ->
  Spec P h (call rec op ≫= f) Q.
Proof.
  intros HP Hf w. destruct (bind_run (call rec op) f w) as (-> & -> & _).
  unfold trace at 1 3, value at 2, final, call.
  destruct (op w) as [a w'] eqn:Ho.
  destruct (Hf a w') as [Hok HQ].
  assert (Hv : value (fun w0 => let '(a0, w'0) := op w0 in (a0, ([rec a0], w'0))) w = a)
    by (unfold value; by rewrite Ho).
  rewrite Hv. simpl. split; [done|]. by rewrite <- app_assoc in HQ.
Qed.

Lemma Spec_bind_ret {A B} h (a : A) (f : A -> M C W B) Q :
  Spec P h (f a) Q -> Spec P h (mret a ≫= f) Q.
Proof.
  intros Hf w. destruct (Hf w) as [Hok HQ].
  destruct (bind_run (mret a : M C W A) f w) as (-> & -> & _). by split.
Qed.

Lemma Spec_bind_assoc {A B D} h (m : M C W A) (f : A -> M C W B) (g : B -> M C W D) Q :
  Spec P h (m ≫= fun a => f a ≫= g) Q -> Spec P h ((m ≫= f) ≫= g) Q.
Proof.
  intros Hs w. destruct (Hs w) as [Hok HQ].
  destruct (bind_run m (fun a => f a ≫= g) w) as (Hv & Ht & _).
  destruct (bind_run (f (value m w)) g (final m w)) as (Hv' & Ht' & _).
  destruct (bind_run (m ≫= f) g w) as (Hv2 & Ht2 & _).
  destruct (bind_run m f w) as (Hv3 & Ht3 & Hf3).
  rewrite Hv2, Ht2, Hv3, Ht3, Hf3, <- app_assoc. rewrite <- Ht', <- Ht, <- Hv', <- Hv.
  by split.
Qed.

Lemma Spec_weaken {A} h (m : M C W A) R (Q : list C -> A -> Prop) :
  Spec P h m R -> (forall h' a, h `prefix_of` h' -> R h' a -> Q h' a) -> Spec P h m Q.
Proof.
  intros Hm HRQ w. destruct (Hm w) as [Hok HR]. split; [done|].
  apply HRQ; [by apply prefix_app_r | done].
Qed.

Lemma Spec_for_each {A} h (l : list A) (f : A -> M C W unit) :
  (forall h' x, h `prefix_of` h' -> x ∈ l -> Spec P h' (f x) (fun _ _ => True)) ->
  Spec P h (for_each l f) (fun _ _ => True).
Proof.
  revert h. induction l as [|x l IH]; intros h Hf; simpl.
  - by apply Spec_ret.
  - eapply Spec_bind; [apply Hf; [done | left] |]. intros h' [] Hp _.
    apply IH. intros h'' y Hp' Hy. apply Hf; [by etrans | by right].
Qed.

End Rules.

(** The calls of the body for one element are among those of the loop. *)
Lemma for_each_calls {C W A} (l : list A) (f : A -> M C W unit) x w :
  x ∈ l -> exists w', forall c, c ∈ trace (f x) w' -> c ∈ trace (for_each l f) w.
Proof.
  intros Hx. revert w. induction l as [|y l IH]; intros w; [by apply not_elem_of_nil in Hx|].
  simpl. destruct (bind_run (f y) (fun _ => for_each l f) w) as (_ & Htr & _).
  rewrite Htr. apply elem_of_cons in Hx as [->|Hx].
  - exists w. intros c Hc. apply elem_of_app. by left.
  - destruct (IH Hx (final (f y) w)) as [w' Hw']. exists w'. intros c Hc.
    apply elem_of_app. right. by apply Hw'.
Qed.

(** A computation whose [Spec] holds makes each call after a history that satisfies
    [P]. *)
Lemma Spec_call_ok {C W A} P (m : M C W A) Q w c :
  Spec P [] m Q -> c ∈ trace m w ->
  exists before after, trace m w = before ++ c :: after /\ P before c.
Proof. intros Hs Hc. destruct (Hs w) as [Hok _]. exact (calls_ok_elem P [] _ _ Hok Hc). Qed.

Lemma call_run {C W A} (rec : A -> C) (op : W -> A * W) w :
  value (call rec op) w = fst (op w) /\ trace (call rec op) w = [rec (fst (op w))] /\
  final (call rec op) w = snd (op w).
Proof. unfold value, trace, final, call. by destruct (op w). Qed.

Lemma prefix_elem_of {A} (h h' : list A) (c : A) : h `prefix_of` h' -> c ∈ h -> c ∈ h'.
Proof. intros [k ->] Hc. apply elem_of_app. by left. Qed.

Create HintDb history.
#[export] Hint Resolve prefix_elem_of : history.
#[export] Hint Extern 2 (_ ∈ _ ++ [_]) => apply elem_of_app; right; apply list_elem_of_singleton; reflexivity : history.
#[export] Hint Extern 3 (_ ∈ _ :: _) => constructor : history.
#[export] Hint Extern 4 (_ ∈ _ ++ _) => apply elem_of_app; left : history.

(** One step of the symbolic execution of a computation against its [Spec]. *)
Ltac spec_step :=
  match goal with
  | |- Spec _ _ (mret _) _ => apply Spec_ret
  | |- Spec _ _ (call _ _ ≫= _) _ => apply Spec_bind_call; intros ?
  | |- Spec _ _ (mret _ ≫= _) _ => apply Spec_bind_ret
  | |- Spec _ _ ((_ ≫= _) ≫= _) _ => apply Spec_bind_assoc
  | |- Spec _ _ (if ?b then _ else _) _ => destruct b eqn:?
  | |- Spec _ _ (match ?x with _ => _ end) _ => destruct x eqn:?
  end.

Lemma trace_bind {C W A B} (m : M C W A) (f : A -> M C W B) w :
  trace (m ≫= f) w = trace m w ++ trace (f (value m w)) (final m w).
Proof. apply bind_run. Qed.

(** Splits the run of a bind, whose value and trace the goal mentions. *)
Ltac run_bind :=
  cbv beta iota;
  match goal with
  | |- context [value (?m ≫= ?f) ?w] => destruct (bind_run m f w) as (-> & -> & _)
  end.

(** Running a computation that starts with a call. *)
Lemma value_call {C W A B} (rec : A -> C) (op : W -> A * W) (f : A -> M C W B) w :
  value (call rec op ≫= f) w = value (f (op w).1) (op w).2.
Proof.
  destruct (bind_run (call rec op) f w) as (-> & _ & _).
  destruct (call_run rec op w) as (-> & _ & ->). reflexivity.
Qed.

Lemma value_ret {C W A} (a : A) w : value (mret a : M C W A) w = a.
Proof. reflexivity. Qed.

Lemma value_bind {C W A B} (m : M C W A) (f : A -> M C W B) w :
  value (m ≫= f) w = value (f (value m w)) (final m w).
Proof. apply bind_run. Qed.

Lemma final_call {C W A B} (rec : A -> C) (op : W -> A * W) (f : A -> M C W B) w :
  final (call rec op ≫= f) w = final (f (op w).1) (op w).2.
Proof.
  destruct (bind_run (call rec op) f w) as (_ & _ & ->).
  destruct (call_run rec op w) as (-> & _ & ->). reflexivity.
Qed.

Lemma final_bind {C W A B} (m : M C W A) (f : A -> M C W B) w :
  final (m ≫= f) w = final (f (value m w)) (final m w).
Proof. apply bind_run. Qed.
