(* ===== verification/Programs.v ===== *)
(** * Programs as trees of calls.

    A handler that makes many kinds of calls, each with an answer of its own type, is a
    tree: it has returned, or it makes a call and goes on with the answer. The calls are
    a type family [op], indexed by the type of the answer. A tree runs against an
    environment, an arbitrary function from calls and a state of the outside to answers;
    what holds of all answers ([wp]) holds in every environment, and every answer in a
    trace is one the environment gave ([run_answers]). *)
From S2P Require Import Prelude Effects.

Section Programs.
Context {op : Type -> Type}.

Inductive prog (A : Type) : Type :=
| Ret (a : A)
| Do {B} (o : op B) (k : B -> prog A).

(** A call and its answer. *)
Inductive event : Type :=
| Did {B} (o : op B) (b : B).

Definition environment (W : Type) : Type := forall B, op B -> W -> B * W.
End Programs.
Arguments prog : clear implicits.
Arguments Ret {op A} a.
Arguments Do {op A B} o k.
Arguments event : clear implicits.
Arguments environment : clear implicits.

#[export] Instance prog_ret {op} : MRet (prog op) := fun A => Ret.
#[export] Instance prog_bind {op} : MBind (prog op) := fun A B f =>
  fix go m := match m with Ret a => f a | Do o k => Do o (fun b => go (k b)) end.

(** One call. *)
Definition ask {op B} (o : op B) : prog op B := Do o Ret.

(** [for _, x := range l { f(x) }] *)
Fixpoint each {op A} (l : list A) (f : A -> prog op unit) : prog op unit :=
  match l with
  | [] => mret tt
  | x :: l' => _ ← f x; each l' f
  end.

Section Run.
Context {op : Type -> Type} {W : Type} (env : environment op W).

Fixpoint run {A} (m : prog op A) (w : W) : A * (list (event op) * W) :=
  match m with
  | Ret a => (a, ([], w))
  | Do o k =>
      let '(b, w') := env _ o w in
      let '(a, (tr, w'')) := run (k b) w' in
      (a, (Did o b :: tr, w''))
  end.

Definition outcome {A} (m : prog op A) (w : W) : A := (run m w).1.
Definition history {A} (m : prog op A) (w : W) : list (event op) := (run m w).2.1.
Definition after {A} (m : prog op A) (w : W) : W := (run m w).2.2.

(** The environment gave the answer. *)
Definition answered (e : event op) : Prop :=
  match e with Did o b => exists w, b = (env _ o w).1 end.

Lemma run_answers {A} (m : prog op A) w e : e ∈ history m w -> answered e.
Proof.
  unfold history. revert w. induction m as [a|B o k IH]; intros w; simpl.
  - intros He. by apply not_elem_of_nil in He.
  - destruct (env B o w) as [b w'] eqn:Ho. specialize (IH b w').
    destruct (run (k b) w') as [a [tr w'']]. simpl in *.
    intros [->|He]%elem_of_cons; [|auto]. exists w. by rewrite Ho.
Qed.

Lemma run_bind {A B} (m : prog op A) (f : A -> prog op B) w :
  outcome (m ≫= f) w = outcome (f (outcome m w)) (after m w) /\
  history (m ≫= f) w = history m w ++ history (f (outcome m w)) (after m w) /\
  after (m ≫= f) w = after (f (outcome m w)) (after m w).
Proof.
  unfold outcome, history, after. revert w. induction m as [a|C o k IH]; intros w; [done|].
  assert (Hdo : run (Do o k ≫= f) w =
    let '(b, w') := env _ o w in
    let '(a, (tr, w'')) := run (k b ≫= f) w' in (a, (Did o b :: tr, w''))) by reflexivity.
  rewrite Hdo. simpl. destruct (env C o w) as [b w']. specialize (IH b w').
  destruct (run (k b) w') as [a [tr w'']], (run (k b ≫= f) w') as [a' [tr' w''']]. simpl in *.
  destruct IH as (-> & -> & ->). done.
Qed.
End Run.

(** ** The calls of a program, whatever the answers

    [wp P h m Q]: run after the history [h], every call of [m] satisfies [P] of the
    history so far, and [Q] holds of the history at the end and the value. *)
Section Wp.
Context {op : Type -> Type} (P : list (event op) -> event op -> Prop).

Fixpoint wp {A} (h : list (event op)) (m : prog op A) (Q : list (event op) -> A -> Prop) : Prop :=
  match m with
  | Ret a => Q h a
  | Do o k => forall b, P h (Did o b) /\ wp (h ++ [Did o b]) (k b) Q
  end.

Lemma wp_bind {A B} h (m : prog op A) (f : A -> prog op B) Q :
  wp h m (fun h' a => wp h' (f a) Q) -> wp h (m ≫= f) Q.
Proof.
  revert h. induction m as [a|C o k IH]; intros h Hw; simpl in *; [done|].
  intros b. destruct (Hw b) as [HP Hk]. split; [done | by apply IH].
Qed.

Lemma wp_bind_assoc {A B D} h (m : prog op A) (f : A -> prog op B) (g : B -> prog op D) Q :
  wp h (m ≫= fun a => f a ≫= g) Q -> wp h ((m ≫= f) ≫= g) Q.
Proof.
  revert h. induction m as [a|C o k IH]; intros h Hw; simpl in *; [done|].
  intros b. destruct (Hw b) as [HP Hk]. split; [done | by apply IH].
Qed.

Lemma wp_ret {A} h (a : A) (Q : list (event op) -> A -> Prop) : Q h a -> wp h (mret a) Q.
Proof. done. Qed.

Lemma wp_ret_bind {A B} h (a : A) (f : A -> prog op B) Q : wp h (f a) Q -> wp h (mret a ≫= f) Q.
Proof. done. Qed.

Lemma wp_ask {B} h (o : op B) Q :
  (forall b, P h (Did o b) /\ Q (h ++ [Did o b]) b) -> wp h (ask o) Q.
Proof. done. Qed.

Lemma wp_ask_bind {A B} h (o : op B) (f : B -> prog op A) Q :
  (forall b, P h (Did o b)) -> (forall b, wp (h ++ [Did o b]) (f b) Q) -> wp h (ask o ≫= f) Q.
Proof. intros HP Hf b. split; [apply HP | apply Hf]. Qed.

Lemma wp_weaken {A} h (m : prog op A) (Q R : list (event op) -> A -> Prop) :
  wp h m Q -> (forall h' a, h `prefix_of` h' -> Q h' a -> R h' a) -> wp h m R.
Proof.
  revert h. induction m as [a|C o k IH]; intros h Hw HQ; simpl in *; [by apply HQ|].
  intros b. destruct (Hw b) as [HP Hk]. split; [done|]. apply (IH b _ Hk).
  intros h' a Hp. apply HQ. etrans; [by apply prefix_app_r | done].
Qed.

(** Before a program that is known, one that is specified. *)
Lemma wp_seq {A B} h (m : prog op A) (f : A -> prog op B) R Q :
  wp h m R -> (forall h' a, h `prefix_of` h' -> R h' a -> wp h' (f a) Q) -> wp h (m ≫= f) Q.
Proof. intros Hm Hf. apply wp_bind. by eapply wp_weaken. Qed.

Lemma wp_each {A} h (l : list A) (f : A -> prog op unit) :
  (forall h' x, h `prefix_of` h' -> x ∈ l -> wp h' (f x) (fun _ _ => True)) ->
  wp h (each l f) (fun _ _ => True).
Proof.
  revert h. induction l as [|x l IH]; intros h Hf; simpl; [done|].
  eapply wp_seq; [apply Hf; [done | left] |]. intros h' [] Hp _.
  apply IH. intros h'' y Hp' Hy. apply Hf; [by etrans | by right].
Qed.
End Wp.

(** What [wp] says holds in every environment. *)
Lemma wp_run {op W A} P (env : environment op W) (m : prog op A) Q h w :
  wp P h m Q ->
  calls_ok P h (history env m w) /\ Q (h ++ history env m w) (outcome env m w).
Proof.
  unfold history, outcome. revert h w. induction m as [a|C o k IH]; intros h w Hw; simpl in *.
  - by rewrite app_nil_r.
  - destruct (env C o w) as [b w']. destruct (Hw b) as [HP Hk]. specialize (IH b _ w' Hk).
    destruct (run env (k b) w') as [a [tr w'']]. simpl in *.
    destruct IH as [Hok HQ]. split; [done|]. by rewrite <- app_assoc in HQ.
Qed.

(** Each call of a run comes after a history that satisfies [P]. *)
Lemma wp_call {op W A} P (env : environment op W) (m : prog op A) Q w e :
  wp P [] m Q -> e ∈ history env m w ->
  exists before after, history env m w = before ++ e :: after /\ P before e.
Proof.
  intros Hw He. destruct (wp_run P env m Q [] w Hw) as [Hok _].
  exact (calls_ok_elem P [] _ _ Hok He).
Qed.

(** One step of the symbolic execution of a program. *)
Ltac wp_step :=
  match goal with
  | |- wp _ _ (mret _) _ => apply wp_ret
  | |- wp _ _ (mret _ ≫= _) _ => apply wp_ret_bind
  | |- wp _ _ (ask _ ≫= _) _ => apply wp_ask_bind; intros ?
  | |- wp _ _ (ask _) _ => apply wp_ask; intros ?
  | |- wp _ _ ((_ ≫= _) ≫= _) _ => apply wp_bind_assoc
  | |- wp _ _ (if ?b then _ else _) _ => destruct b eqn:?
  | |- wp _ _ ((if ?b then _ else _) ≫= _) _ => destruct b eqn:?
  | |- wp _ _ (match ?x with _ => _ end) _ => destruct x eqn:?
  | |- wp _ _ ((match ?x with _ => _ end) ≫= _) _ => destruct x eqn:?
  end.

(** A call is in the history: it is the last one, or was made before. *)
Ltac in_history :=
  match goal with
  | |- _ ∈ _ ++ [_] => apply elem_of_app; right; apply list_elem_of_singleton; reflexivity
  | |- _ ∈ _ ++ [_] => apply elem_of_app; left; in_history
  | H : _ `prefix_of` ?h |- _ ∈ ?h => apply (prefix_elem_of _ _ _ H); in_history
  | _ => eassumption
  end.

(** A history that goes on from another. *)
Ltac in_prefix :=
  match goal with
  | |- ?h `prefix_of` ?h => reflexivity
  | |- _ `prefix_of` _ ++ [_] => apply prefix_app_r; in_prefix
  | H : ?g `prefix_of` ?h |- _ `prefix_of` ?h => transitivity g; [in_prefix | exact H]
  end.
