(* ===== verification/Authz.v ===== *)
(** * Role-based authorization ([server/authz/authz.go]).

    [Authorize] decides whether a subject may perform an action on the tenants a
    resource names. The role policies are the pattern lists of the source, and
    [roleAllows] matches a pattern as the source does: the wildcard, a
    case-insensitive equality, or a ["prefix.*"] pattern. *)
From S2P Require Import Prelude GoStrings.

(** ** Data *)

(** [storage.Role], a string type with three declared values. *)
Definition RoleAdmin : string := "admin".
Definition RoleOperator : string := "operator".
Definition RoleViewer : string := "viewer".

(** The [Action] constants. *)
Definition ActionTenantsRead := "tenants.read".
Definition ActionTenantsWrite := "tenants.write".
Definition ActionJoinTokensRead := "join_tokens.read".
Definition ActionJoinTokensWrite := "join_tokens.write".
Definition ActionPackagesGenerate := "packages.generate".
Definition ActionConfigRead := "config.read".
Definition ActionEventsSubscribe := "events.subscribe".
Definition ActionUIWebsocketConnect := "ui.websocket.connect".
Definition ActionSSOProvidersRead := "sso.providers.read".
Definition ActionSSOProvidersWrite := "sso.providers.write".
Definition ActionUsersRead := "users.read".
Definition ActionUsersWrite := "users.write".
Definition ActionSessionsRead := "sessions.read".
Definition ActionSessionsWrite := "sessions.write".
Definition ActionAgentsRead := "agents.read".
Definition ActionAgentsWrite := "agents.write".
Definition ActionAgentsDelete := "agents.delete".
Definition ActionDevicesRead := "devices.read".
Definition ActionMetricsSummaryRead := "metrics.summary.read".
Definition ActionMetricsHistoryRead := "metrics.history.read".
Definition ActionProxyAgentConnect := "proxy.agent".
Definition ActionProxyDeviceConnect := "proxy.device".
Definition ActionSettingsServerRead := "settings.server.read".
Definition ActionSettingsServerWrite := "settings.server.write".
Definition ActionSettingsFleetRead := "settings.fleet.read".
Definition ActionSettingsFleetWrite := "settings.fleet.write".
Definition ActionSettingsAlertsRead := "settings.alerts.read".
Definition ActionSettingsAlertsWrite := "settings.alerts.write".
Definition ActionLogsRead := "logs.read".
Definition ActionAuditLogsRead := "audit.logs.read".
Definition ActionReleasesRead := "releases.read".
Definition ActionReleasesWrite := "releases.write".

(** All the declared actions, in the order of the source. *)
Definition Actions : list string :=
  [ ActionTenantsRead; ActionTenantsWrite; ActionJoinTokensRead; ActionJoinTokensWrite;
    ActionPackagesGenerate; ActionConfigRead; ActionEventsSubscribe;
    ActionUIWebsocketConnect; ActionSSOProvidersRead; ActionSSOProvidersWrite;
    ActionUsersRead; ActionUsersWrite; ActionSessionsRead; ActionSessionsWrite;
    ActionAgentsRead; ActionAgentsWrite; ActionAgentsDelete; ActionDevicesRead;
    ActionMetricsSummaryRead; ActionMetricsHistoryRead; ActionProxyAgentConnect;
    ActionProxyDeviceConnect; ActionSettingsServerRead; ActionSettingsServerWrite;
    ActionSettingsFleetRead; ActionSettingsFleetWrite; ActionSettingsAlertsRead;
    ActionSettingsAlertsWrite; ActionLogsRead; ActionAuditLogsRead; ActionReleasesRead;
    ActionReleasesWrite ].

Record ResourceRef := { TenantIDs : list string }.

Record Subject := {
  Role : string;
  AllowedTenantIDs : list string;
  IsAdmin : bool;
}.

(** The two shapes of the error, both wrapping [ErrForbidden]. *)
Inductive authz_error :=
| ForbiddenRole (role action : string)
| ForbiddenTenant (tid : string).

(** [rolePolicies] *)
Definition rolePolicies : gmap string (list string) :=
  {[ RoleAdmin := ["*"];
     RoleOperator :=
       [ "config.read"; "events.subscribe"; "ui.websocket.connect"; "agents.*";
         "packages.generate"; "devices.read"; "metrics.summary.read";
         "metrics.history.read"; "proxy.agent"; "proxy.device"; "logs.read";
         "settings.fleet.read"; "settings.fleet.write"; "settings.alerts.read";
         "settings.alerts.write" ];
     RoleViewer :=
       [ "config.read"; "events.subscribe"; "ui.websocket.connect"; "agents.read";
         "devices.read"; "metrics.summary.read"; "metrics.history.read"; "logs.read";
         "settings.fleet.read"; "settings.alerts.read" ] ]}.

(** ** Operations *)

Section authz.
Context `{GoUnicode}.

(** One iteration of the [switch] in [roleAllows]. *)
Definition pattern_matches (needle pattern : string) : bool :=
  if String.eqb pattern "*" then true
  else if EqualFold pattern needle then true
  else if HasSuffix pattern ".*"
  then HasPrefix needle (TrimSuffix (ToLower pattern) ".*" +:+ ".")%string
  else false.

Definition roleAllows (role action : string) : bool :=
  match rolePolicies !! role with
  | None => false
  | Some patterns =>
      let needle := ToLower action in
      existsb (pattern_matches needle) patterns
  end.

(** The loop over [resource.TenantIDs]: the first tenant that is neither empty
    nor in the allowed set. *)
Fixpoint first_denied (allowed : gset string) (tids : list string) : option string :=
  match tids with
  | [] => None
  | tid :: rest =>
      if String.eqb tid "" then first_denied allowed rest
      else if bool_decide (tid ∈ allowed) then first_denied allowed rest
      else Some tid
  end.

Definition Authorize (subject : Subject) (action : string) (resource : ResourceRef) :
    result authz_error () :=
  if negb (roleAllows (Role subject) action) then
    Err (ForbiddenRole (Role subject) action)
  else if (0 <? Z.of_nat (length (TenantIDs resource))) && negb (IsAdmin subject) then
    match first_denied (list_to_set (AllowedTenantIDs subject)) (TenantIDs resource) with
    | Some tid => Err (ForbiddenTenant tid)
    | None => Ok ()
    end
  else Ok ().
End authz.

(** ** Lemmas *)

Lemma first_denied_None allowed tids :
  first_denied allowed tids = None <->
  forall tid, tid ∈ tids -> tid <> "" -> tid ∈ allowed.
Proof.
  induction tids as [|t tids IH]; simpl.
  - split; [intros _ tid Hin; by apply not_elem_of_nil in Hin | done].
  - destruct (String.eqb_spec t "") as [->|Hne]; [|case_bool_decide as Ht].
    + rewrite IH. split.
      * intros Hall tid [->|Hin]%elem_of_cons; [done | eauto].
      * intros Hall tid Hin. apply Hall. by right.
    + rewrite IH. split.
      * intros Hall tid [->|Hin]%elem_of_cons; eauto.
      * intros Hall tid Hin. apply Hall. by right.
    + split; [done|]. intros Hall. exfalso. apply Ht, Hall; [by left | done].
Qed.

(** A role outside the policy table has no permission. *)
Lemma roleAllows_unknown `{GoUnicode} role action :
  role ∉ [RoleAdmin; RoleOperator; RoleViewer] -> roleAllows role action = false.
Proof.
  intros Hr. unfold roleAllows, rolePolicies.
  rewrite !lookup_insert_ne by (intros <-; apply Hr; set_solver).
  rewrite lookup_singleton_ne; [done|]. intros <-. apply Hr. set_solver.
Qed.

Lemma roleAllows_known `{GoUnicode} role action :
  roleAllows role action = true -> role ∈ [RoleAdmin; RoleOperator; RoleViewer].
Proof.
  intros Hr. destruct (decide (role ∈ [RoleAdmin; RoleOperator; RoleViewer])); [done|].
  by rewrite roleAllows_unknown in Hr.
Qed.

(** The patterns of a role, by computation on the policy table. *)
Lemma rolePolicies_admin : rolePolicies !! RoleAdmin = Some ["*"].
Proof. reflexivity. Qed.

Lemma roleAllows_admin `{GoUnicode} action : roleAllows RoleAdmin action = true.
Proof. reflexivity. Qed.

(** A lower-case ASCII pattern without wildcard. *)
Definition is_literal (p : string) : bool :=
  is_ascii p && String.eqb (map_string lower_byte p) p
  && negb (HasSuffix p ".*") && negb (String.eqb p "*").

Lemma literal_matches `{GoUnicode} p a :
  is_literal p = true -> is_ascii a = true ->
  pattern_matches (ToLower a) p = true <-> ToLower a = p.
Proof.
  intros Hlit Ha. unfold is_literal in Hlit. reflect_bools.
  rename select (HasSuffix p ".*" = false) into Hsuf.
  rename select (map_string lower_byte p = p) into Hlow.
  rename select (is_ascii p = true) into Hp.
  unfold pattern_matches. rewrite (proj2 (String.eqb_neq p "*")), Hsuf by done.
  assert (Hl : ToLower a = map_string lower_byte a) by (unfold ToLower; by rewrite Ha).
  assert (Hfold : EqualFold p (ToLower a) = true <-> p = ToLower a).
  { rewrite Hl, EqualFold_ascii, (map_string_idem lower_byte a), Hlow
      by (done || apply is_ascii_map_lower, Ha || apply lower_byte_idem). done. }
  destruct (EqualFold p (ToLower a)) eqn:E.
  - split; [intros _; symmetry; by apply Hfold | done].
  - split; [done|]. intros <-. exfalso.
    assert (false = true) by (by apply Hfold). done.
Qed.

(** The viewer's patterns are all literals. *)
Lemma viewer_literal `{GoUnicode} a :
  is_ascii a = true -> roleAllows RoleViewer a = true ->
  ToLower a ∈ default [] (rolePolicies !! RoleViewer).
Proof.
  intros Ha (p & Hin & Hm)%existsb_elem_of.
  assert (Hlit : is_literal p = true).
  { clear Hm. revert p Hin. by apply forallb_elem_of. }
  apply literal_matches in Hm; [|done..]. by rewrite Hm.
Qed.

(** ** Properties *)

(** The actions that change who may do what, or that expose the whole server. *)
Definition admin_only : list string :=
  [ ActionTenantsRead; ActionTenantsWrite; ActionJoinTokensRead; ActionJoinTokensWrite;
    ActionSSOProvidersRead; ActionSSOProvidersWrite; ActionUsersRead; ActionUsersWrite;
    ActionSessionsRead; ActionSessionsWrite; ActionSettingsServerRead;
    ActionSettingsServerWrite; ActionAuditLogsRead; ActionReleasesRead;
    ActionReleasesWrite ].

Lemma admin_action a : bool_decide (a ∈ admin_only) = true -> a ∈ admin_only.
Proof. apply bool_decide_eq_true. Qed.

(** What [Authorize] accepts. *)
Lemma Authorize_ok `{GoUnicode} subject action resource :
  Authorize subject action resource = Ok () <->
  roleAllows (Role subject) action = true /\
  (IsAdmin subject = true \/
   forall tid, tid ∈ TenantIDs resource -> tid <> "" -> tid ∈ AllowedTenantIDs subject).
Proof.
  unfold Authorize. destruct (roleAllows _ _); simpl; [|split; [done | by intros [? _]]].
  destruct (IsAdmin subject); rewrite ?andb_false_r, ?andb_true_r; [by split; auto|].
  assert (Hset : first_denied (list_to_set (AllowedTenantIDs subject)) (TenantIDs resource) = None
    <-> forall tid, tid ∈ TenantIDs resource -> tid <> "" -> tid ∈ AllowedTenantIDs subject).
  { rewrite first_denied_None. by setoid_rewrite elem_of_list_to_set. }
  destruct (Z.ltb_spec 0 (Z.of_nat (length (TenantIDs resource)))) as [Hlen|Hlen].
  - destruct (first_denied _ _) eqn:E.
    + split; [done|]. intros [_ [?|Hall]]; [done|]. by apply Hset in Hall.
    + split; [|done]. intros _. split; [done|]. right. by apply Hset.
  - split; [|done]. intros _. split; [done|]. right.
    destruct (TenantIDs resource); simpl in Hlen; [set_solver | lia].
Qed.

(** [Authorize] accepts exactly when the role's policy allows the action and,
    for a subject that is not an administrator, every non-empty tenant the
    resource names is among the subject's allowed tenants. *)
Theorem Authorize_iff `{GoUnicode} subject action resource :
  Authorize subject action resource = Ok () <->
  roleAllows (Role subject) action = true /\
  (IsAdmin subject = true \/
   forall tid, tid ∈ TenantIDs resource -> tid <> "" -> tid ∈ AllowedTenantIDs subject).
Proof. apply Authorize_ok. Qed.

(** The roles are ordered: for every ASCII action name, declared or not, what
    a viewer may do an operator may do, and what an operator may do an
    administrator may do. *)
Theorem roleAllows_hierarchy `{GoUnicode} action :
  is_ascii action = true ->
  (roleAllows RoleViewer action = true -> roleAllows RoleOperator action = true) /\
  (roleAllows RoleOperator action = true -> roleAllows RoleAdmin action = true).
Proof.
  intros Ha. split; [|by intros _]. intros Hv.
  pose proof (viewer_literal action Ha Hv) as Hin.
  unfold roleAllows. change (rolePolicies !! RoleOperator) with
    (Some (default [] (rolePolicies !! RoleOperator))). cbv beta iota zeta.
  revert Hin. generalize (ToLower action). intros n Hin.
  assert (Hall : forallb (fun n => existsb (pattern_matches n)
      (default [] (rolePolicies !! RoleOperator)))
      (default [] (rolePolicies !! RoleViewer)) = true) by (vm_compute; reflexivity).
  by apply (proj1 (forallb_elem_of _ _) Hall).
Qed.

Lemma roleAllows_hierarchy_witness :
  is_ascii "Agents.Read" = true /\ roleAllows RoleViewer "Agents.Read" = true /\
  roleAllows RoleOperator "Agents.Read" = true.
Proof.
  split; [reflexivity|]. split; [vm_compute; reflexivity|].
  apply (roleAllows_hierarchy "Agents.Read"); vm_compute; reflexivity.
Defined.

(** Tenant, join-token, SSO, user, session, server-settings, audit-log and
    release actions are reserved to administrators: whoever is authorized for one
    of them has the administrator role, whatever the resource. *)
Theorem Authorize_admin_only `{GoUnicode} subject action resource :
  action ∈ admin_only -> Authorize subject action resource = Ok () -> Role subject = RoleAdmin.
Proof.
  intros Hin HA. unfold Authorize in HA.
  destruct (roleAllows (Role subject) action) eqn:Hr; simpl in HA; [|done].
  assert (Hall : forallb (fun a => forallb (fun r => negb (roleAllows r a))
    [RoleOperator; RoleViewer]) admin_only = true) by (vm_compute; reflexivity).
  apply (proj1 (forallb_elem_of _ _) Hall) in Hin.
  pose proof (proj1 (forallb_elem_of _ _) Hin) as Hno.
  pose proof (roleAllows_known _ _ Hr) as Hk.
  apply elem_of_cons in Hk as [->|Hrole]; [done|].
  apply Hno in Hrole. by rewrite Hr in Hrole.
Qed.

Lemma Authorize_admin_only_witness :
  let s := {| Role := "admin"; AllowedTenantIDs := []; IsAdmin := true |} in
  Authorize s "users.write" {| TenantIDs := ["t1"] |} = Ok () /\ Role s = RoleAdmin.
Proof.
  split; [vm_compute; reflexivity|].
  apply (Authorize_admin_only _ "users.write" {| TenantIDs := ["t1"] |});
    [apply (bool_decide_unpack _); vm_compute; exact I | vm_compute; reflexivity].
Defined.
