(* ===== verification/GoChan.v ===== *)
(** * Channels of Go.

    Channels live in a heap, numbered in the order of their creation. A channel has
    its buffer, its capacity, the number of goroutines blocked in a receive and its
    closed flag. A message handed to a blocked receiver is in the buffer until that
    receiver resumes, so a send finds room while the buffer is shorter than the
    capacity and the receivers together. A nil channel is an index outside the heap:
    it is never ready, and closing it panics. *)
From S2P Require Import Prelude.

Record chan (A : Type) := Chan {
  buf : list A;
  capacity : nat;
  receivers : nat;
  chan_closed : bool;
}.
Arguments Chan {A}.
Arguments buf {A}.
Arguments capacity {A}.
Arguments receivers {A}.
Arguments chan_closed {A}.

Notation heap A := (list (chan A)).

(** [make(chan A, n)] *)
Definition make_chan {A} (n : nat) (h : heap A) : nat * heap A :=
  (length h, h ++ [Chan [] n 0 false]).

Definition room {A} (c : chan A) : bool :=
  (length (buf c) <? capacity c + receivers c)%nat.

Definition push {A} (m : A) (c : chan A) : chan A :=
  Chan (buf c ++ [m]) (capacity c) (receivers c) (chan_closed c).

(** What a non-blocking send leaves in an open channel. *)
Definition offer {A} (m : A) (c : chan A) : chan A := if room c then push m c else c.

(** [select { case ch <- m: default: }] *)
Definition try_send {A} (ch : nat) (m : A) (h : heap A) : result string (heap A) :=
  match h !! ch with
  | Some c => if chan_closed c then Err "send on closed channel"
              else Ok (<[ch := offer m c]> h)
  | None => Ok h
  end.

Definition shut {A} (c : chan A) : chan A := Chan (buf c) (capacity c) (receivers c) true.

(** [close(ch)] *)
Definition close_chan {A} (ch : nat) (h : heap A) : result string (heap A) :=
  match h !! ch with
  | Some c => if chan_closed c then Err "close of closed channel" else Ok (<[ch := shut c]> h)
  | None => Err "close of nil channel"
  end.

(** A receive, alone or as a case of a [select]: it blocks, takes the next message,
    ends because the channel is closed and empty, or is given up for another case. *)
Inductive recv {A} : chan A -> chan A -> Prop :=
| recv_block c : recv c (Chan (buf c) (capacity c) (S (receivers c)) (chan_closed c))
| recv_take c m ms n :
    buf c = m :: ms -> receivers c = S n -> recv c (Chan ms (capacity c) n (chan_closed c))
| recv_closed c n :
    buf c = [] -> chan_closed c = true -> receivers c = S n ->
    recv c (Chan [] (capacity c) n true)
| recv_leave c n :
    room c = true -> receivers c = S n ->
    recv c (Chan (buf c) (capacity c) n (chan_closed c)).

(** ** Lemmas *)

Definition is_open {A} (h : heap A) (ch : nat) : Prop :=
  exists c, h !! ch = Some c /\ chan_closed c = false.

(** A buffer holds no more than the capacity and what is on its way to receivers. *)
Definition chan_ok {A} (c : chan A) : Prop :=
  (length (buf c) <= capacity c + receivers c)%nat.

Section Lemmas.
Context {A : Type}.
Implicit Types (c : chan A) (h : heap A).

Lemma offer_ok m c : chan_ok c -> chan_ok (offer m c).
Proof.
  unfold offer, chan_ok. intros H. destruct (room c) eqn:Hr; [|done].
  apply Nat.ltb_lt in Hr. simpl. rewrite length_app. simpl. lia.
Qed.

Lemma offer_closed m c : chan_closed (offer m c) = chan_closed c.
Proof. unfold offer. by destruct (room c). Qed.

Lemma recv_ok c c' : recv c c' -> chan_ok c -> chan_ok c'.
Proof.
  unfold chan_ok. intros Hr H.
  destruct Hr as [c|c m ms n Hb Hn|c n Hb Hc Hn|c n Hroom Hn]; simpl.
  - lia.
  - rewrite Hb, Hn in H. simpl in H. lia.
  - lia.
  - apply Nat.ltb_lt in Hroom. lia.
Qed.

Lemma recv_keeps_closed c c' : recv c c' -> chan_closed c' = chan_closed c.
Proof. by destruct 1. Qed.

Lemma is_open_insert h ch c : is_open h ch -> chan_closed c = false -> is_open (<[ch := c]> h) ch.
Proof.
  intros (c0 & Hc & _) Hcl. exists c. split; [|done].
  apply list_lookup_insert_eq. by eapply lookup_lt_Some.
Qed.

Lemma is_open_insert_ne h ch ch' c : ch <> ch' -> is_open h ch -> is_open (<[ch' := c]> h) ch.
Proof. intros Hne (c0 & Hc & Hcl). exists c0. by rewrite list_lookup_insert_ne. Qed.

Lemma is_open_lt h ch : is_open h ch -> (ch < length h)%nat.
Proof. intros (c & Hc & _). by eapply lookup_lt_Some. Qed.

Lemma is_open_app h ch c : is_open h ch -> is_open (h ++ [c]) ch.
Proof. intros (c0 & Hc & Hcl). exists c0. split; [by apply lookup_app_l_Some | done]. Qed.

(** An insertion that keeps the closed flag keeps which channels are open. *)
Lemma is_open_same h ch ch' c c' :
  h !! ch' = Some c -> chan_closed c' = chan_closed c ->
  is_open (<[ch' := c']> h) ch <-> is_open h ch.
Proof.
  intros Hc Hcl. unfold is_open. destruct (decide (ch = ch')) as [->|Hne].
  - rewrite list_lookup_insert_eq by (by eapply lookup_lt_Some). rewrite Hc.
    split; intros (c0 & [= <-] & H0); eexists; (split; [done|]); congruence.
  - by rewrite list_lookup_insert_ne by done.
Qed.

Lemma Forall_insert (P : chan A -> Prop) h ch c :
  Forall P h -> P c -> Forall P (<[ch := c]> h).
Proof. intros. by apply Forall_insert. Qed.

Lemma close_chan_open h ch :
  is_open h ch -> exists c, h !! ch = Some c /\ close_chan ch h = Ok (<[ch := shut c]> h).
Proof.
  intros (c & Hc & Hcl). exists c. split; [done|]. unfold close_chan. by rewrite Hc, Hcl.
Qed.

Lemma try_send_open m h ch :
  is_open h ch -> exists c, h !! ch = Some c /\ try_send ch m h = Ok (<[ch := offer m c]> h).
Proof.
  intros (c & Hc & Hcl). exists c. split; [done|]. unfold try_send. by rewrite Hc, Hcl.
Qed.

(** ** Loops over channels: [range] over the values of a map of channels *)

Fixpoint send_all (m : A) (l : list nat) (h : heap A) : result string (heap A) :=
  match l with
  | [] => Ok h
  | ch :: l' => (h' <-? try_send ch m h;; send_all m l' h')%go
  end.

Fixpoint close_all (l : list nat) (h : heap A) : result string (heap A) :=
  match l with
  | [] => Ok h
  | ch :: l' => (h' <-? close_chan ch h;; close_all l' h')%go
  end.

Lemma send_all_spec m l h :
  NoDup l -> Forall (is_open h) l ->
  exists h', send_all m l h = Ok h' /\ length h' = length h /\
    (forall ch, ch ∉ l -> h' !! ch = h !! ch) /\
    (forall ch c, ch ∈ l -> h !! ch = Some c -> h' !! ch = Some (offer m c)).
Proof.
  revert h. induction l as [|ch l IH]; intros h Hnd Hop; simpl.
  { exists h. split_and!; [done | done | done | intros ch c []%not_elem_of_nil]. }
  apply NoDup_cons in Hnd as [Hni Hnd]. apply Forall_cons in Hop as [Ho Hop].
  pose proof (is_open_lt _ _ Ho) as Hlt.
  destruct (try_send_open m h ch Ho) as (c & Hc & ->). simpl.
  assert (Hop' : Forall (is_open (<[ch := offer m c]> h)) l).
  { eapply Forall_impl; [exact Hop|]. intros x Hx.
    apply (is_open_same _ _ _ c); [done | apply offer_closed | done]. }
  destruct (IH _ Hnd Hop') as (h' & Hs & Hlen & Hout & Hin). exists h'.
  split_and!; [done | by rewrite Hlen, length_insert | |].
  - intros x Hx. apply not_elem_of_cons in Hx as [Hne Hx].
    by rewrite Hout, list_lookup_insert_ne by done.
  - intros x cx [->|Hx]%elem_of_cons Hcx.
    + rewrite Hout by done. rewrite Hc in Hcx. injection Hcx as ->.
      by apply list_lookup_insert_eq.
    + apply Hin; [done|]. rewrite list_lookup_insert_ne; [done|]. by intros ->.
Qed.

Lemma close_all_spec l h :
  NoDup l -> Forall (is_open h) l ->
  exists h', close_all l h = Ok h' /\ length h' = length h /\
    (forall ch, ch ∉ l -> h' !! ch = h !! ch) /\
    (forall ch c, ch ∈ l -> h !! ch = Some c -> h' !! ch = Some (shut c)).
Proof.
  revert h. induction l as [|ch l IH]; intros h Hnd Hop; simpl.
  { exists h. split_and!; [done | done | done | intros ch c []%not_elem_of_nil]. }
  apply NoDup_cons in Hnd as [Hni Hnd]. apply Forall_cons in Hop as [Ho Hop].
  pose proof (is_open_lt _ _ Ho) as Hlt.
  destruct (close_chan_open h ch Ho) as (c & Hc & ->). simpl.
  assert (Hop' : Forall (is_open (<[ch := shut c]> h)) l).
  { rewrite Forall_forall in Hop |- *. intros x Hx. apply is_open_insert_ne; [|by apply Hop].
    by intros ->. }
  destruct (IH _ Hnd Hop') as (h' & Hs & Hlen & Hout & Hin). exists h'.
  split_and!; [done | by rewrite Hlen, length_insert | |].
  - intros x Hx. apply not_elem_of_cons in Hx as [Hne Hx].
    by rewrite Hout, list_lookup_insert_ne by done.
  - intros x cx [->|Hx]%elem_of_cons Hcx.
    + rewrite Hout by done. rewrite Hc in Hcx. injection Hcx as ->.
      by apply list_lookup_insert_eq.
    + apply Hin; [done|]. rewrite list_lookup_insert_ne; [done|]. by intros ->.
Qed.

(** What holds of every channel before a loop holds after it, when it survives an
    offer (a close). *)
Lemma pointwise_Forall (P : chan A -> Prop) (f : chan A -> chan A) (l : list nat) h h' :
  length h' = length h ->
  (forall ch, ch ∉ l -> h' !! ch = h !! ch) ->
  (forall ch c, ch ∈ l -> h !! ch = Some c -> h' !! ch = Some (f c)) ->
  (forall c, P c -> P (f c)) -> Forall P h -> Forall P h'.
Proof.
  intros Hlen Hout Hin Hf HP. apply Forall_lookup. intros ch c' Hc'.
  rewrite Forall_lookup in HP.
  destruct (decide (ch ∈ l)) as [Hl|Hl]; [|rewrite Hout in Hc' by done; by eapply HP].
  destruct (h !! ch) as [c|] eqn:Hc.
  - rewrite (Hin _ _ Hl Hc) in Hc'. injection Hc' as <-. by eapply Hf, HP.
  - apply lookup_ge_None in Hc. apply lookup_lt_Some in Hc'. lia.
Qed.

End Lemmas.
