(* ===== verification/RateLimit.v ===== *)
(** * Authentication rate limiter ([server/auth_ratelimit.go]).

    The limiter keeps one record per client key (address and token prefix). Its
    methods take the limiter's mutex for their whole body, so each is one atomic
    function of the limiter and of the value [time.Now()] returns. [step] is one
    method call or one run of the cleanup goroutine, with a clock that does not go
    backwards. *)
From S2P Require Import Prelude GoStrings GoTime.

(** ** State *)

Record authAttemptRecord := {
  firstAttempt : Time;
  lastAttempt : Time;
  failureCount : Z;
  blockedUntil : Time;
  lastLoggedCount : Z;
}.

Record AuthRateLimiter := {
  attempts : gmap string authAttemptRecord;
  maxAttempts : Z;
  blockDuration : Duration;
  cleanupInterval : Duration;
  attemptsWindow : Duration;
  stopCleanupClosed : bool;
}.

Definition with_attempts (rl : AuthRateLimiter) (m : gmap string authAttemptRecord) :
    AuthRateLimiter :=
  {| attempts := m; maxAttempts := maxAttempts rl; blockDuration := blockDuration rl;
     cleanupInterval := cleanupInterval rl; attemptsWindow := attemptsWindow rl;
     stopCleanupClosed := stopCleanupClosed rl |}.

Definition NewAuthRateLimiter (maxAttempts : Z) (blockDuration attemptsWindow : Duration) :
    AuthRateLimiter :=
  {| attempts := ∅; maxAttempts := maxAttempts; blockDuration := blockDuration;
     cleanupInterval := 1 * Minute; attemptsWindow := attemptsWindow;
     stopCleanupClosed := false |}.

(** ** Operations *)

Definition makeKey (ip tokenPrefix : string) : string := (ip +:+ ":" +:+ tokenPrefix)%string.

(** The body of [RecordFailure] on an existing record: the record it leaves and
    the triple (blocked, should log, count). *)
Definition fail_record (rl : AuthRateLimiter) (now : Time) (r : authAttemptRecord) :
    authAttemptRecord * (bool * bool * Z) :=
  if Before now (blockedUntil r) then
    let n := failureCount r + 1 in
    ({| firstAttempt := firstAttempt r; lastAttempt := now; failureCount := n;
        blockedUntil := blockedUntil r; lastLoggedCount := lastLoggedCount r |},
     (true, Z.rem n 10 =? 0, n))
  else if attemptsWindow rl <? Sub now (firstAttempt r) then
    ({| firstAttempt := now; lastAttempt := now; failureCount := 1;
        blockedUntil := blockedUntil r; lastLoggedCount := 0 |}, (false, true, 1))
  else
    let n := failureCount r + 1 in
    if maxAttempts rl <=? n then
      ({| firstAttempt := firstAttempt r; lastAttempt := now; failureCount := n;
          blockedUntil := Add now (blockDuration rl);
          lastLoggedCount := lastLoggedCount r |}, (true, true, n))
    else
      let shouldLog := (n <=? maxAttempts rl) || (5 <=? n - lastLoggedCount r) in
      ({| firstAttempt := firstAttempt r; lastAttempt := now; failureCount := n;
          blockedUntil := blockedUntil r;
          lastLoggedCount := if shouldLog then n else lastLoggedCount r |},
       (false, shouldLog, n)).

Definition RecordFailure (rl : AuthRateLimiter) (ip tokenPrefix : string) (now : Time) :
    AuthRateLimiter * (bool * bool * Z) :=
  let key := makeKey ip tokenPrefix in
  match attempts rl !! key with
  | None =>
      let r := {| firstAttempt := now; lastAttempt := now; failureCount := 1;
                  blockedUntil := zero_time; lastLoggedCount := 0 |} in
      (with_attempts rl (<[key := r]> (attempts rl)), (false, true, 1))
  | Some r =>
      let '(r', out) := fail_record rl now r in
      (with_attempts rl (<[key := r']> (attempts rl)), out)
  end.

Definition IsBlocked (rl : AuthRateLimiter) (ip tokenPrefix : string) (now : Time) :
    bool * Time :=
  match attempts rl !! makeKey ip tokenPrefix with
  | None => (false, zero_time)
  | Some r => if Before now (blockedUntil r) then (true, blockedUntil r) else (false, zero_time)
  end.

Definition RecordSuccess (rl : AuthRateLimiter) (ip tokenPrefix : string) : AuthRateLimiter :=
  with_attempts rl (delete (makeKey ip tokenPrefix) (attempts rl)).

(** The condition under which [cleanup] deletes a record. *)
Definition cleanup_expired (rl : AuthRateLimiter) (now : Time) (r : authAttemptRecord) : bool :=
  (After now (blockedUntil r) && (attemptsWindow rl <? Sub now (lastAttempt r)))
  || (dmul (blockDuration rl) 2 <? Sub now (lastAttempt r)).

Definition cleanup (rl : AuthRateLimiter) (now : Time) : AuthRateLimiter :=
  with_attempts rl (filter (fun kr => cleanup_expired rl now kr.2 = false) (attempts rl)).

(** [close] of a closed channel panics. *)
Definition Stop (rl : AuthRateLimiter) : result string AuthRateLimiter :=
  if stopCleanupClosed rl then Err "close of closed channel"
  else Ok {| attempts := attempts rl; maxAttempts := maxAttempts rl;
             blockDuration := blockDuration rl; cleanupInterval := cleanupInterval rl;
             attemptsWindow := attemptsWindow rl; stopCleanupClosed := true |}.

(** [GetStats]: the number of records and of blocked clients. *)
Definition GetStats (rl : AuthRateLimiter) (now : Time) : Z * Z :=
  (Z.of_nat (size (attempts rl)),
   Z.of_nat (size (filter (fun kr => Before now (blockedUntil kr.2) = true) (attempts rl)))).

(** ** Runs *)

Inductive event :=
| EvFailure (ip tok : string)
| EvSuccess (ip tok : string)
| EvCleanup
| EvStop.

(** One call or one tick of [cleanupLoop], which runs only until [Stop]. *)
Definition apply_event (ev : event) (now : Time) (rl : AuthRateLimiter) : option AuthRateLimiter :=
  match ev with
  | EvFailure ip tok => Some (fst (RecordFailure rl ip tok now))
  | EvSuccess ip tok => Some (RecordSuccess rl ip tok)
  | EvCleanup => if stopCleanupClosed rl then None else Some (cleanup rl now)
  | EvStop => match Stop rl with Ok rl' => Some rl' | Err _ => None end
  end.

Inductive step : Time * AuthRateLimiter -> event -> Time * AuthRateLimiter -> Prop :=
| step_event t t' ev rl rl' :
    t <= t' -> apply_event ev t' rl = Some rl' -> step (t, rl) ev (t', rl').

Inductive steps : Time * AuthRateLimiter -> list event -> Time * AuthRateLimiter -> Prop :=
| steps_nil s : steps s [] s
| steps_snoc s evs s' ev s'' : steps s evs s' -> step s' ev s'' -> steps s (evs ++ [ev]) s''.

(** ** The invariant *)

(** The configured durations are sane: a block is not negative and twice its
    length is representable. *)
Definition config_ok (rl : AuthRateLimiter) : Prop :=
  0 <= blockDuration rl /\ blockDuration rl * 2 < int64_max.

(** A record at time [t]: attempts are counted and ordered in time, and a block
    that is still running was earned by enough failures and ends at most one block
    duration after the last attempt. *)
Definition record_ok (rl : AuthRateLimiter) (t : Time) (r : authAttemptRecord) : Prop :=
  1 <= failureCount r /\
  firstAttempt r <= lastAttempt r <= t /\
  (t < blockedUntil r ->
   maxAttempts rl <= failureCount r /\ blockedUntil r <= lastAttempt r + blockDuration rl).

Definition limiter_ok (t : Time) (rl : AuthRateLimiter) : Prop :=
  zero_time <= t /\ config_ok rl /\ map_Forall (fun _ => record_ok rl t) (attempts rl).

Ltac unfold_time := unfold Before, After, Add, IsZero, zero_time in *.

Lemma record_ok_later rl t t' r : t <= t' -> record_ok rl t r -> record_ok rl t' r.
Proof. unfold record_ok. intros. split_and!; try tauto; try lia; intros; lia. Qed.

Lemma record_ok_config rl m t r :
  record_ok (with_attempts rl m) t r <-> record_ok rl t r.
Proof. reflexivity. Qed.

Lemma fail_record_ok rl t now r :
  t <= now -> record_ok rl t r -> record_ok rl now (fail_record rl now r).1.
Proof.
  intros Hle Hr. pose proof (record_ok_later rl t now r Hle Hr) as Hr'.
  unfold record_ok, fail_record in *. unfold_time.
  repeat case_goal; simpl; reflect_bools; lia.
Qed.

Lemma limiter_ok_later t t' rl : t <= t' -> limiter_ok t rl -> limiter_ok t' rl.
Proof.
  intros Hle (H0 & Hc & Hm). split_and!; [lia | done |].
  intros k r Hk. eapply record_ok_later; [exact Hle | exact (Hm k r Hk)].
Qed.

Lemma limiter_ok_insert t rl k r :
  limiter_ok t rl -> record_ok rl t r -> limiter_ok t (with_attempts rl (<[k := r]> (attempts rl))).
Proof.
  intros (H0 & Hc & Hm) Hr. split_and!; [done | exact Hc |].
  intros k' r'. simpl. rewrite lookup_insert_Some. intros [[-> <-] | [_ Hk']]; [exact Hr | exact (Hm _ _ Hk')].
Qed.

Lemma limiter_ok_sub t rl m :
  limiter_ok t rl -> m ⊆ attempts rl -> limiter_ok t (with_attempts rl m).
Proof.
  intros (H0 & Hc & Hm) Hsub. split_and!; [done | exact Hc |].
  intros k r Hk. apply (Hm k r). simpl in Hk. by eapply lookup_weaken.
Qed.

Lemma apply_event_ok t now ev rl rl' :
  t <= now -> limiter_ok t rl -> apply_event ev now rl = Some rl' -> limiter_ok now rl'.
Proof.
  intros Hle Hok Hev. apply (limiter_ok_later _ _ _ Hle) in Hok as Hok'.
  destruct ev as [ip tok|ip tok| |]; simpl in Hev.
  - injection Hev as <-. unfold RecordFailure.
    destruct (attempts rl !! makeKey ip tok) as [r|] eqn:Hk.
    + destruct (fail_record rl now r) as [r' out] eqn:Hf. simpl.
      apply limiter_ok_insert; [done|].
      change r' with (r', out).1. rewrite <- Hf.
      destruct Hok as (_ & _ & Hm). apply (fail_record_ok rl t); [done | by apply (Hm _ _ Hk)].
    + apply limiter_ok_insert; [done|]. destruct Hok' as (H0 & _ & _).
      unfold record_ok; simpl; unfold_time. lia.
  - injection Hev as <-. apply limiter_ok_sub; [done | apply delete_subseteq].
  - destruct (stopCleanupClosed rl); [done|]. injection Hev as <-.
    apply limiter_ok_sub; [done | apply map_filter_subseteq].
  - unfold Stop in Hev. destruct (stopCleanupClosed rl); [done|]. by injection Hev as <-.
Qed.

(** The configuration never changes. *)
Lemma apply_event_config ev now rl rl' :
  apply_event ev now rl = Some rl' ->
  maxAttempts rl' = maxAttempts rl /\ blockDuration rl' = blockDuration rl /\
  attemptsWindow rl' = attemptsWindow rl.
Proof.
  destruct ev as [ip tok|ip tok| |]; simpl.
  - intros [= <-]. unfold RecordFailure.
    destruct (attempts rl !! _); [destruct (fail_record _ _ _)|]; done.
  - by intros [= <-].
  - destruct (stopCleanupClosed rl); [done|]. by intros [= <-].
  - unfold Stop. destruct (stopCleanupClosed rl); [done|]. by intros [= <-].
Qed.

(** ** Blocks survive *)

(** What a block is, in the state: the key's record with its end. *)
Definition blocked_record (rl : AuthRateLimiter) (key : string) (u : Time) : Prop :=
  exists r, attempts rl !! key = Some r /\ blockedUntil r = u.

Definition clears (key : string) (ev : event) : Prop :=
  match ev with EvSuccess ip tok => makeKey ip tok = key | _ => False end.

(** While a block runs, cleanup does not consider its record expired. *)
Lemma running_block_not_expired rl now r :
  config_ok rl -> record_ok rl now r -> now < blockedUntil r ->
  cleanup_expired rl now r = false.
Proof.
  intros [Hb Hb2] (Hc & Ht & Hblk) Hnow. specialize (Hblk Hnow).
  unfold cleanup_expired, dmul. unfold_time.
  rewrite wrap64_id by (unfold in_int64, int64_min; lia).
  rewrite (proj2 (Z.ltb_ge (blockedUntil r) now)) by lia. simpl.
  apply Z.ltb_ge, Sub_le; lia.
Qed.

Lemma apply_event_blocked ev t now rl rl' key u :
  t <= now -> now < u -> limiter_ok t rl -> ~ clears key ev ->
  apply_event ev now rl = Some rl' ->
  blocked_record rl key u -> blocked_record rl' key u.
Proof.
  intros Hle Hu Hok Hnc Hev (r & Hk & Hbu).
  apply (limiter_ok_later _ _ _ Hle) in Hok as (H0 & Hc & Hm).
  destruct ev as [ip tok|ip tok| |]; simpl in Hev.
  - injection Hev as <-. unfold RecordFailure.
    destruct (decide (makeKey ip tok = key)) as [->|Hne].
    + rewrite Hk. destruct (fail_record rl now r) as [r' out] eqn:Hf. simpl.
      exists r'. split; [simpl; apply lookup_insert_eq|].
      unfold fail_record in Hf. unfold_time.
      rewrite (proj2 (Z.ltb_lt _ _)) in Hf by lia. by injection Hf as <- _.
    + exists r. split; [|done].
      destruct (attempts rl !! makeKey ip tok); [destruct (fail_record _ _ _)|];
        simpl; by rewrite lookup_insert_ne.
  - injection Hev as <-. exists r. split; [|done]. simpl. by rewrite lookup_delete_ne.
  - destruct (stopCleanupClosed rl); [done|]. injection Hev as <-. exists r. split; [|done].
    simpl. apply map_lookup_filter_Some. split; [done|]. simpl.
    apply running_block_not_expired; [done | by apply (Hm key r) | lia].
  - unfold Stop in Hev. destruct (stopCleanupClosed rl); [done|]. injection Hev as <-.
    by exists r.
Qed.

Lemma steps_ok s evs s' : steps s evs s' -> limiter_ok s.1 s.2 -> limiter_ok s'.1 s'.2.
Proof.
  induction 1 as [|s evs s' ev s'' _ IH Hstep]; [done|]. intros Hok%IH.
  destruct Hstep. simpl in *. by eapply apply_event_ok.
Qed.

Lemma steps_time s evs s' : steps s evs s' -> s.1 <= s'.1.
Proof.
  induction 1 as [|s evs s' ev s'' _ IH Hstep]; [lia|]. destruct Hstep; simpl in *; lia.
Qed.

(** ** Failures in a row *)

(** The state and the answers after failures of one client at the given times. *)
Fixpoint fail_at (rl : AuthRateLimiter) (ip tok : string) (ts : list Time) : AuthRateLimiter :=
  match ts with
  | [] => rl
  | t :: ts' => fail_at (fst (RecordFailure rl ip tok t)) ip tok ts'
  end.

Lemma fail_at_snoc rl ip tok ts t :
  fail_at rl ip tok (ts ++ [t]) = fst (RecordFailure (fail_at rl ip tok ts) ip tok t).
Proof. revert rl. induction ts; simpl; auto. Qed.

Lemma fail_at_config rl ip tok ts :
  maxAttempts (fail_at rl ip tok ts) = maxAttempts rl /\
  blockDuration (fail_at rl ip tok ts) = blockDuration rl /\
  attemptsWindow (fail_at rl ip tok ts) = attemptsWindow rl.
Proof.
  revert rl. induction ts as [|t ts IH]; intros rl; [done|]. simpl.
  destruct (apply_event_config (EvFailure ip tok) t rl _ eq_refl) as (E1 & E2 & E3).
  rewrite <- E1, <- E2, <- E3. apply IH.
Qed.

(** Below the limit and inside the window, failures only count. *)
Lemma fail_at_counts rl ip tok t0 ts :
  attempts rl !! makeKey ip tok = None ->
  zero_time <= t0 -> 0 <= attemptsWindow rl < int64_max ->
  (forall t, t ∈ ts -> t0 <= t <= t0 + attemptsWindow rl) ->
  1 + Z.of_nat (length ts) < Z.max 2 (maxAttempts rl) ->
  exists r, attempts (fail_at rl ip tok (t0 :: ts)) !! makeKey ip tok = Some r /\
    firstAttempt r = t0 /\ failureCount r = 1 + Z.of_nat (length ts) /\
    blockedUntil r = zero_time.
Proof.
  intros Hnone H0 Hw. induction ts as [|t ts IH] using rev_ind; intros Hts Hlen.
  - simpl. unfold RecordFailure. rewrite Hnone. simpl. rewrite lookup_insert_eq.
    eexists. split; [reflexivity|]. done.
  - rewrite length_app in Hlen. simpl in Hlen.
    destruct IH as (r & Hr & Hfirst & Hcount & Hblk); [intros; apply Hts; set_solver | lia |].
    rewrite app_comm_cons, fail_at_snoc.
    destruct (fail_at_config rl ip tok (t0 :: ts)) as (E1 & E2 & E3).
    unfold RecordFailure. rewrite Hr. destruct (fail_record _ t r) as [r' out] eqn:Hf. simpl.
    rewrite lookup_insert_eq. exists r'. split; [done|].
    assert (Ht : t0 <= t <= t0 + attemptsWindow rl) by (apply Hts; set_solver).
    unfold fail_record in Hf. unfold_time. rewrite E1, E3, Hfirst, Hblk, Hcount in Hf.
    rewrite (proj2 (Z.ltb_ge t 0)) in Hf by lia.
    rewrite (proj2 (Z.ltb_ge _ _)) in Hf by (apply Sub_le; lia).
    rewrite (proj2 (Z.leb_gt _ _)) in Hf by lia.
    injection Hf as <- _. simpl. rewrite length_app. simpl. split_and!; [done | lia | done].
Qed.

(** ** Properties *)

(** C1: whatever sequence of failures, successes, cleanups and stops a limiter
    goes through, every record it keeps counts at least one failure, has its
    attempts ordered in time, and is blocked only after the configured number of
    failures and for at most one block duration after the last attempt. *)
Theorem reachable_limiter_ok max bd win t0 evs t rl :
  zero_time <= t0 -> 0 <= bd -> bd * 2 < int64_max ->
  steps (t0, NewAuthRateLimiter max bd win) evs (t, rl) -> limiter_ok t rl.
Proof.
  intros H0 Hb Hb2 Hsteps. apply (steps_ok _ _ _ Hsteps). simpl.
  split_and!; [done | done | apply map_Forall_empty].
Qed.

Definition demo_limiter : AuthRateLimiter := NewAuthRateLimiter 2 (5 * Minute) (2 * Minute).
Definition demo_blocked : AuthRateLimiter := fail_at demo_limiter "10.0.0.1" "tok" [Second; 2 * Second].

Lemma demo_steps :
  steps (0, demo_limiter) [EvFailure "10.0.0.1" "tok"; EvFailure "10.0.0.1" "tok"] (2 * Second, demo_blocked).
Proof.
  apply (steps_snoc _ [EvFailure "10.0.0.1" "tok"] (Second, fail_at demo_limiter "10.0.0.1" "tok" [Second])).
  - apply (steps_snoc _ [] (0, demo_limiter)); [constructor|].
    constructor; [done | reflexivity].
  - constructor; [done | reflexivity].
Qed.

Lemma reachable_limiter_ok_witness : limiter_ok (2 * Second) demo_blocked.
Proof.
  apply (reachable_limiter_ok 2 (5 * Minute) (2 * Minute) 0
    [EvFailure "10.0.0.1" "tok"; EvFailure "10.0.0.1" "tok"]);
    [done | done | done | apply demo_steps].
Defined.

(** Lockout. A client without a record that fails at times [t0] and then [ts]
    inside the attempts window, as many times as the limit (at least twice), is
    blocked from the last failure on for the block duration, and [IsBlocked]
    returns the end of the block. *)
Theorem lockout rl ip tok t0 ts tn now :
  attempts rl !! makeKey ip tok = None ->
  zero_time <= t0 -> 0 <= attemptsWindow rl < int64_max ->
  (forall t, t ∈ ts ++ [tn] -> t0 <= t <= t0 + attemptsWindow rl) ->
  2 + Z.of_nat (length ts) = Z.max 2 (maxAttempts rl) ->
  now < tn + blockDuration rl ->
  IsBlocked (fail_at rl ip tok (t0 :: ts ++ [tn])) ip tok now = (true, tn + blockDuration rl).
Proof.
  intros Hnone H0 Hw Hts Hlen Hnow.
  destruct (fail_at_counts rl ip tok t0 ts Hnone H0 Hw) as (r & Hr & Hfirst & Hcount & Hblk).
  { intros t Ht. apply Hts, elem_of_app. by left. }
  { lia. }
  rewrite app_comm_cons, fail_at_snoc.
  destruct (fail_at_config rl ip tok (t0 :: ts)) as (E1 & E2 & E3).
  assert (Ht : t0 <= tn <= t0 + attemptsWindow rl).
  { apply Hts, elem_of_app. right. by apply list_elem_of_singleton. }
  unfold RecordFailure, IsBlocked. rewrite Hr.
  unfold fail_record. unfold_time. rewrite E1, E2, E3, Hfirst, Hblk, Hcount.
  rewrite (proj2 (Z.ltb_ge tn 0)) by lia.
  rewrite (proj2 (Z.ltb_ge _ (Sub tn t0))) by (apply Sub_le; lia).
  rewrite (proj2 (Z.leb_le (maxAttempts rl) _)) by lia.
  cbn [fst attempts with_attempts]. rewrite lookup_insert_eq. cbn [blockedUntil].
  by rewrite (proj2 (Z.ltb_lt _ _)) by lia.
Qed.

Lemma lockout_witness :
  IsBlocked (fail_at demo_limiter "10.0.0.1" "tok" [Second; 2 * Second]) "10.0.0.1" "tok"
    (3 * Minute) = (true, 2 * Second + 5 * Minute).
Proof.
  apply (lockout demo_limiter "10.0.0.1" "tok" Second [] (2 * Second) (3 * Minute));
    [reflexivity | done | done | | reflexivity | reflexivity].
  intros t Ht. apply list_elem_of_singleton in Ht as ->. done.
Defined.

(** A block cannot be shortened. From a well-formed state where a client is
    blocked until [u], any sequence of events without a success of that client
    (failures of anyone, successes of others, cleanups, stop) that ends before [u]
    leaves it blocked until exactly [u]. *)
Theorem block_persists t rl ip tok u evs t' rl' :
  limiter_ok t rl -> IsBlocked rl ip tok t = (true, u) ->
  Forall (fun ev => ~ clears (makeKey ip tok) ev) evs ->
  steps (t, rl) evs (t', rl') -> t' < u ->
  IsBlocked rl' ip tok t' = (true, u).
Proof.
  intros Hok Hblk Hev Hsteps Hu.
  assert (Hr : blocked_record rl (makeKey ip tok) u).
  { unfold IsBlocked in Hblk. destruct (attempts rl !! makeKey ip tok) as [r|] eqn:Hk; [|done].
    case_hyp Hblk; [|done]. injection Hblk as Hbu. by exists r. }
  assert (Hgoal : blocked_record rl' (makeKey ip tok) u).
  { clear Hblk. remember (t, rl) as s eqn:Hs. remember (t', rl') as s' eqn:Hs'.
    revert t' rl' Hs' Hu Hev. induction Hsteps as [s|s evs s1 ev s2 Hsteps IH Hstep];
      intros t' rl' Hs' Hu Hev; [congruence|].
    subst s s2. destruct s1 as [t1 rl1]. apply Forall_app in Hev as [Hev1 Hev2].
    inversion Hstep; subst.
    apply (apply_event_blocked ev t1 t' rl1 rl' _ u); [done | done | | | done |].
    - apply (steps_ok _ _ _ Hsteps). done.
    - by apply Forall_inv in Hev2.
    - apply (IH eq_refl t1 rl1); [done | lia | done]. }
  destruct Hgoal as (r & Hk & Hbu). unfold IsBlocked. rewrite Hk. unfold_time.
  rewrite Hbu. by rewrite (proj2 (Z.ltb_lt _ _)) by lia.
Qed.

Lemma block_persists_witness :
  IsBlocked (cleanup (fst (RecordFailure demo_blocked "10.0.0.1" "tok" Minute)) (4 * Minute))
    "10.0.0.1" "tok" (4 * Minute) = (true, 2 * Second + 5 * Minute).
Proof.
  apply (block_persists (2 * Second) demo_blocked "10.0.0.1" "tok" (2 * Second + 5 * Minute)
    [EvFailure "10.0.0.1" "tok"; EvCleanup] (4 * Minute)).
  - apply (steps_ok _ _ _ demo_steps). split_and!; [done | done | apply map_Forall_empty].
  - vm_compute. reflexivity.
  - repeat constructor; simpl; tauto.
  - apply (steps_snoc _ [EvFailure "10.0.0.1" "tok"]
      (Minute, fst (RecordFailure demo_blocked "10.0.0.1" "tok" Minute))).
    + apply (steps_snoc _ [] (2 * Second, demo_blocked)); [constructor|].
      constructor; [done | reflexivity].
    + constructor; [done | reflexivity].
  - reflexivity.
Defined.

(** Cleanup is invisible to clients and keeps no idle record: in a well-formed
    state it changes no answer of [IsBlocked] at that time, and every record it
    keeps had an attempt within the last two block durations. *)
Theorem cleanup_safe now rl :
  limiter_ok now rl ->
  (forall ip tok, IsBlocked (cleanup rl now) ip tok now = IsBlocked rl ip tok now) /\
  (forall key r, attempts (cleanup rl now) !! key = Some r ->
     attempts rl !! key = Some r /\ now - lastAttempt r <= blockDuration rl * 2).
Proof.
  intros (H0 & Hc & Hm). split.
  - intros ip tok. unfold IsBlocked, cleanup. simpl. rewrite map_lookup_filter.
    destruct (attempts rl !! makeKey ip tok) as [r|] eqn:Hk; [|done]. simpl.
    unfold_time. destruct (Z.ltb_spec now (blockedUntil r)).
    + rewrite option_guard_True by (by apply running_block_not_expired; [|apply (Hm _ _ Hk)|]).
      simpl. by rewrite (proj2 (Z.ltb_lt _ _)).
    + case_guard; simpl; [by rewrite (proj2 (Z.ltb_ge _ _))|done].
  - intros key r. unfold cleanup. simpl. intros [Hk Hf]%map_lookup_filter_Some.
    split; [done|]. simpl in Hf. unfold cleanup_expired, dmul in Hf.
    destruct Hc as [Hb Hb2]. reflect_bools.
    rewrite wrap64_id in * by (unfold in_int64, int64_min; lia).
    rename select (Sub now (lastAttempt r) <= _) into Hle. apply Sub_le in Hle; lia.
Qed.

Lemma cleanup_safe_witness :
  attempts (cleanup demo_blocked (3 * Second)) !! "10.0.0.1:tok" <> None /\
  IsBlocked (cleanup demo_blocked (3 * Second)) "10.0.0.1" "tok" (3 * Second) =
  IsBlocked demo_blocked "10.0.0.1" "tok" (3 * Second).
Proof.
  split; [vm_compute; discriminate|].
  apply (cleanup_safe (3 * Second) demo_blocked).
  apply (limiter_ok_later (2 * Second)); [done|].
  apply (steps_ok _ _ _ demo_steps). split_and!; [done | done | apply map_Forall_empty].
Defined.

(** Nobody is blocked early, and clients do not interfere. A failure that
    starts a block is at least the [maxAttempts]-th counted one and falls inside
    the attempts window of the first; and it changes the answers for no client
    with another key. *)
Theorem RecordFailure_blocks_at_limit rl ip tok now rl' shouldLog n :
  RecordFailure rl ip tok now = (rl', (true, shouldLog, n)) ->
  (IsBlocked rl ip tok now).1 = false ->
  maxAttempts rl <= n /\
  IsBlocked rl' ip tok now =
    (if now <? now + blockDuration rl then (true, now + blockDuration rl) else (false, zero_time)) /\
  (exists r, attempts rl' !! makeKey ip tok = Some r /\ Sub now (firstAttempt r) <= attemptsWindow rl) /\
  (forall ip' tok' t, makeKey ip' tok' <> makeKey ip tok ->
     IsBlocked rl' ip' tok' t = IsBlocked rl ip' tok' t).
Proof.
  unfold RecordFailure, IsBlocked. destruct (attempts rl !! makeKey ip tok) as [r|] eqn:Hk;
    [|intros [=]].
  destruct (fail_record rl now r) as [r' out] eqn:Hf. intros [= <- ->].
  unfold fail_record in Hf. unfold_time.
  destruct (now <? blockedUntil r) eqn:Hb; [done|]. intros _.
  destruct (attemptsWindow rl <? Sub now (firstAttempt r)) eqn:Hw; [by injection Hf|].
  destruct (maxAttempts rl <=? failureCount r + 1) eqn:Hmax; [|by injection Hf].
  injection Hf as <- _ <-. simpl. reflect_bools. rewrite lookup_insert_eq. simpl.
  split; [lia|]. split; [done|]. split; [eexists; split; [reflexivity | simpl; lia]|].
  intros ip' tok' t Hne. by rewrite lookup_insert_ne.
Qed.

Lemma RecordFailure_blocks_at_limit_witness :
  let rl1 := fail_at demo_limiter "10.0.0.1" "tok" [Second] in
  maxAttempts rl1 <= 2 /\
  IsBlocked demo_blocked "10.0.0.1" "tok" (2 * Second) = (true, 2 * Second + 5 * Minute).
Proof.
  destruct (RecordFailure_blocks_at_limit (fail_at demo_limiter "10.0.0.1" "tok" [Second])
    "10.0.0.1" "tok" (2 * Second) demo_blocked true 2) as (H1 & H2 & _);
    [vm_compute; reflexivity | vm_compute; reflexivity |].
  split; [exact H1 | rewrite H2; vm_compute; reflexivity].
Defined.
