(* ===== verification/RangeParser.v ===== *)
(** * The scan-range parser ([agent/agent/rangeparser.go]).

    [ParseRangeText] expands the user's list of addresses, CIDR blocks, dash ranges
    and last-octet wildcards into distinct address strings, with a limit on their
    number. The dash loop counts with a [uint32] that wraps, so it is run with fuel:
    running out of fuel is the outcome [Diverges], and the theorems say for which
    inputs some fuel is enough and for which none is. An index outside a nil
    address is the outcome [Panics]. *)
From S2P Require Import Prelude GoStrings GoNet.
From Stdlib Require Import Ascii.

(** ** Data *)

Record ParseError := { Line : Z; Msg : string }.

Record ParseResult := {
  IPs : list string;
  Count : Z;
  Errors : list ParseError;
  Normalized : list string;
}.

(** The locals of [ParseRangeText]: the result under construction and the set of
    addresses already in it. *)
Record pstate := { res : ParseResult; seen : gset string }.

Definition init_state : pstate :=
  {| res := {| IPs := []; Count := 0; Errors := []; Normalized := [] |}; seen := ∅ |}.

(** How one line ends: on to the next line, [return res, err], an endless loop, or
    a panic. *)
Inductive outcome :=
| Next (st : pstate)
| Returns (st : pstate) (err : string)
| Diverges
| Panics.

(** ** Helpers *)

(** [ipToUint32]: [None] is the out-of-range panic on a nil address. *)
Definition ipToUint32 (ip : list Z) : option Z :=
  match To4 ip with
  | Some [a; b; c; d] =>
      Some (Z.lor (Z.lor (Z.lor (Z.shiftl a 24) (Z.shiftl b 16)) (Z.shiftl c 8)) d)
  | _ => None
  end.

Definition uint32ToIP (n : Z) : list Z :=
  [Z.shiftr n 24 mod 256; Z.shiftr n 16 mod 256; Z.shiftr n 8 mod 256; n mod 256].

Definition expandCIDRCount (ipnet : IPNet) : Z :=
  let hostBits := net_bits ipnet - net_ones ipnet in
  if 31 <=? hostBits then Z.shiftl 1 30 else Z.shiftl 1 hostBits.

(** [res.Errors = append(res.Errors, ParseError{...})] *)
Definition add_error (lineNo : Z) (msg : string) (st : pstate) : pstate :=
  {| res := {| IPs := IPs (res st); Count := Count (res st);
               Errors := Errors (res st) ++ [{| Line := lineNo; Msg := msg |}];
               Normalized := Normalized (res st) |};
     seen := seen st |}.

Definition add_normalized (s : string) (st : pstate) : pstate :=
  {| res := {| IPs := IPs (res st); Count := Count (res st); Errors := Errors (res st);
               Normalized := Normalized (res st) ++ [s] |};
     seen := seen st |}.

(** [if _, ok := seen[ip]; !ok { append; mark; Count++ }] *)
Definition add_ip (ip : string) (st : pstate) : pstate :=
  if bool_decide (ip ∈ seen st) then st
  else {| res := {| IPs := IPs (res st) ++ [ip]; Count := Count (res st) + 1;
                    Errors := Errors (res st); Normalized := Normalized (res st) |};
          seen := {[ip]} ∪ seen st |}.

Definition over_max (lineNo n maxAddrs : Z) : string :=
  ("line " +:+ pretty lineNo +:+ ": expansion would produce " +:+ pretty n
   +:+ " addresses (over max " +:+ pretty maxAddrs +:+ ")")%string.
Definition exceed_max (lineNo maxAddrs : Z) : string :=
  ("line " +:+ pretty lineNo +:+ ": expansion would exceed max " +:+ pretty maxAddrs)%string.

(** ** The four kinds of lines *)

(** [for j := 0; j < total; j++] over the addresses of a block. *)
Fixpoint cidr_loop (n : nat) (j start : Z) (st : pstate) : pstate :=
  match n with
  | O => st
  | S n' =>
      cidr_loop n' (j + 1) start
        (add_ip (ip4_string (uint32ToIP (wrapU32 (start + wrapU32 j)))) st)
  end.

Definition cidr_line (maxAddrs lineNo : Z) (s : string) (st : pstate) : outcome :=
  match ParseCIDR s with
  | None => Next (add_error lineNo "invalid CIDR" st)
  | Some ipnet =>
      match To4 (net_IP ipnet) with
      | None => Next (add_error lineNo "IPv6 not supported" st)
      | Some _ =>
          let cnt := expandCIDRCount ipnet in
          if maxAddrs <? Count (res st) + cnt then
            Returns st (over_max lineNo (Count (res st) + cnt) maxAddrs)
          else
            match ipToUint32 (land_bytes (net_IP ipnet) (mask_of ipnet)) with
            | None => Panics
            | Some start =>
                let total := wrap64 (Z.shiftl 1 (net_bits ipnet - net_ones ipnet)) in
                Next (add_normalized s (cidr_loop (Z.to_nat total) 0 start st))
            end
      end
  end.

(** The address on the right of the dash: a full address, or the last octets of
    one whose first octets come from the left side. *)
Definition dash_end (left right : string) : result string (list Z) :=
  match ParseIP right ≫= To4 with
  | Some ip => Ok ip
  | None =>
      let lparts := Split left "." in
      let rparts := Split right "." in
      if negb (Nat.eqb (length lparts) 4) || Nat.ltb (length rparts) 1
         || Nat.ltb 3 (length rparts)
      then Err "invalid shorthand range"
      else
        let endStr := Join (take (4 - length rparts) lparts ++ rparts) "." in
        if Contains endStr "x" || Contains endStr "*"
        then Err "wildcard not allowed in shorthand right side"
        else match ParseIP endStr ≫= To4 with
             | Some ip => Ok ip
             | None => Err "invalid end IP after shorthand expansion"
             end
  end.

(** The two sides of a dash range, before they are compared: the text of the left
    side and the two addresses. *)
Definition dash_sides (s : string) : result string (string * list Z * list Z) :=
  let '(l, r) := SplitN2 s "-" in
  let left := TrimSpace l in
  let right := TrimSpace (default "" r) in
  match ParseIP left ≫= To4 with
  | None => Err "left side must be a full IPv4 address"
  | Some lip =>
      match dash_end left right with
      | Err e => Err e
      | Ok endIp => Ok (left, lip, endIp)
      end
  end.

(** [for v := startVal; v <= endVal; v++] with [uint32] arithmetic. *)
Fixpoint dash_loop (fuel : nat) (v endVal : Z) (st : pstate) : option pstate :=
  match fuel with
  | O => None
  | S fuel' =>
      if v <=? endVal then
        dash_loop fuel' (wrapU32 (v + 1)) endVal (add_ip (ip4_string (uint32ToIP v)) st)
      else Some st
  end.

Definition dash_line (fuel : nat) (maxAddrs lineNo : Z) (s : string) (st : pstate) : outcome :=
  match dash_sides s with
  | Err e => Next (add_error lineNo e st)
  | Ok (leftS, lip, endIp) =>
      match ipToUint32 lip, ipToUint32 endIp with
      | Some startVal, Some endVal =>
          if endVal <? startVal then
            Next (add_error lineNo "end address is before start address" st)
          else
            let cnt := wrapU32 (wrapU32 (endVal - startVal) + 1) in
            if maxAddrs <? Count (res st) + cnt then
              Returns st (over_max lineNo (Count (res st) + cnt) maxAddrs)
            else
              match dash_loop fuel startVal endVal st with
              | None => Diverges
              | Some st' => Next (add_normalized (leftS +:+ "-" +:+ ip4_string endIp)%string st')
              end
      | _, _ => Panics
      end
  end.

(** [for j := 0; j < 256; j++] over a last-octet wildcard. *)
Fixpoint wildcard_loop (n : nat) (j : Z) (prefix : string) (st : pstate) : pstate :=
  match n with
  | O => st
  | S n' => wildcard_loop n' (j + 1) prefix (add_ip (prefix +:+ pretty j)%string st)
  end.

Definition wildcard_line (maxAddrs lineNo : Z) (s : string) (st : pstate) : outcome :=
  let base := TrimSuffix (TrimSuffix s ".x") ".*" in
  if negb (Nat.eqb (length (Split base ".")) 3) then
    Next (add_error lineNo "wildcard allowed only on last octet like 192.168.1.x" st)
  else if maxAddrs <? Count (res st) + 256 then Returns st (exceed_max lineNo maxAddrs)
  else Next (add_normalized s (wildcard_loop 256 0 (base +:+ ".")%string st)).

Definition single_line (maxAddrs lineNo : Z) (s : string) (st : pstate) : outcome :=
  match ParseIP s ≫= To4 with
  | None => Next (add_error lineNo "unrecognized format or invalid IPv4" st)
  | Some ip =>
      let ipstr := ip4_string ip in
      if bool_decide (ipstr ∈ seen st) then Next (add_normalized ipstr st)
      else if maxAddrs <? Count (res st) + 1 then Returns st (exceed_max lineNo maxAddrs)
      else Next (add_normalized ipstr (add_ip ipstr st))
  end.

(** ** The parser *)

(** One iteration of the loop over the lines. *)
Definition parse_line (fuel : nat) (maxAddrs lineNo : Z) (raw : string) (st : pstate) : outcome :=
  let s := TrimSpace raw in
  if String.eqb s "" || HasPrefix s "#" then Next st
  else if Contains s "/" then cidr_line maxAddrs lineNo s st
  else if Contains s "-" then dash_line fuel maxAddrs lineNo s st
  else if HasSuffix s ".x" || HasSuffix s ".*" then wildcard_line maxAddrs lineNo s st
  else single_line maxAddrs lineNo s st.

Fixpoint parse_lines (fuel : nat) (maxAddrs lineNo : Z) (lines : list string) (st : pstate) : outcome :=
  match lines with
  | [] => Next st
  | raw :: rest =>
      match parse_line fuel maxAddrs lineNo raw st with
      | Next st' => parse_lines fuel maxAddrs (lineNo + 1) rest st'
      | o => o
      end
  end.

(** [ParseRangeText]: the result and the error, [None] for an endless loop or a
    panic. *)
Definition ParseRangeText (fuel : nat) (text : string) (maxAddrs : Z) :
    option (ParseResult * option string) :=
  match parse_lines fuel maxAddrs 1 (Split text "010"%char) init_state with
  | Next st => Some (res st, None)
  | Returns st e => Some (res st, Some e)
  | Diverges | Panics => None
  end.

(** ** Lemmas: 32-bit addresses *)

(** The value of a 4-byte address. *)
Definition ip_value (ip : list Z) : Z :=
  match ip with [a; b; c; d] => ((a * 256 + b) * 256 + c) * 256 + d | _ => 0 end.

Lemma ipToUint32_octets ip q :
  To4 ip = Some q -> octets q -> ipToUint32 ip = Some (ip_value q).
Proof.
  intros HT (a & b & c & d & -> & Ha & Hb & Hc & Hd)%octets_inv.
  unfold ipToUint32. rewrite HT. f_equal. unfold ip_value.
  rewrite <- !Z.lor_assoc, (lor_shiftl_low c d 8) by lia.
  rewrite (lor_shiftl_low b _ 16), (lor_shiftl_low a _ 24) by lia. lia.
Qed.

Lemma ip_value_range ip : octets ip -> 0 <= ip_value ip < 2 ^ 32.
Proof. intros (a & b & c & d & -> & ?)%octets_inv. simpl. lia. Qed.

Lemma octets_uint32ToIP n : octets (uint32ToIP n).
Proof.
  split; [done|]. intros x. unfold uint32ToIP. rewrite !elem_of_cons, elem_of_nil.
  assert (forall m, 0 <= m mod 256 <= 255) by (intros m; pose proof (Z.mod_pos_bound m 256); lia).
  intros [-> | [-> | [-> | [-> | []]]]]; done.
Qed.

Lemma ip_value_uint32ToIP n : 0 <= n < 2 ^ 32 -> ip_value (uint32ToIP n) = n.
Proof.
  intros Hn. unfold uint32ToIP, ip_value. rewrite !Z.shiftr_div_pow2 by lia.
  change (2 ^ 24) with (256 * 256 * 256). change (2 ^ 16) with (256 * 256). change (2 ^ 8) with 256.
  rewrite <- !Z.div_div by lia.
  pose proof (Z.div_mod n 256). pose proof (Z.div_mod (n / 256) 256).
  pose proof (Z.div_mod (n / 256 / 256) 256).
  assert (0 <= n / 256 / 256 / 256 < 256).
  { rewrite !Z.div_div by lia. split; [apply Z.div_pos | apply Z.div_lt_upper_bound]; lia. }
  rewrite (Z.mod_small (n / 256 / 256 / 256)) by lia. lia.
Qed.

Definition addr_string (n : Z) : string := ip4_string (uint32ToIP n).

Lemma addr_string_inj m n :
  0 <= m < 2 ^ 32 -> 0 <= n < 2 ^ 32 -> addr_string m = addr_string n -> m = n.
Proof.
  intros Hm Hn Heq. apply ip4_string_inj in Heq; [|apply octets_uint32ToIP..].
  rewrite <- (ip_value_uint32ToIP m), <- (ip_value_uint32ToIP n) by done. by f_equal.
Qed.

(** ** Lemmas: the result under construction *)

(** [Count] is the number of addresses, which are distinct and are the seen ones. *)
Definition state_ok (st : pstate) : Prop :=
  Count (res st) = Z.of_nat (length (IPs (res st))) /\ NoDup (IPs (res st)) /\
  seen st = list_to_set (IPs (res st)).

(** A step that keeps the invariant and adds at most [k] addresses. *)
Definition grows (k : Z) (st st' : pstate) : Prop :=
  state_ok st' /\ Count (res st') <= Count (res st) + k.

Lemma add_ip_grows ip st : state_ok st -> grows 1 st (add_ip ip st).
Proof.
  intros (Hc & Hnd & Hs). unfold grows, add_ip. case_bool_decide as Hin; simpl.
  - split; [done | lia].
  - split; [|simpl; lia]. rewrite Hs, elem_of_list_to_set in Hin.
    split_and!; simpl.
    + rewrite length_app. simpl. lia.
    + apply NoDup_app. split_and!; [done | | apply NoDup_singleton].
      intros x Hx Hx'. apply list_elem_of_singleton in Hx' as ->. done.
    + rewrite list_to_set_app_L, Hs. simpl. set_solver.
Qed.

Lemma grows_trans k k' st st' st'' : grows k st st' -> grows k' st' st'' -> grows (k + k') st st''.
Proof. unfold grows. intuition lia. Qed.

Lemma grows_weaken k k' st st' : grows k st st' -> k <= k' -> grows k' st st'.
Proof. unfold grows. intuition lia. Qed.

Lemma grows_normalized k s st st' : grows k st st' -> grows k st (add_normalized s st').
Proof. done. Qed.

Lemma cidr_loop_grows n j start st :
  state_ok st -> grows (Z.of_nat n) st (cidr_loop n j start st).
Proof.
  revert j st. induction n as [|n IH]; intros j st Hst; simpl.
  - split; [done | lia].
  - pose proof (add_ip_grows (ip4_string (uint32ToIP (wrapU32 (start + wrapU32 j)))) st Hst) as Hg.
    eapply grows_weaken; [eapply grows_trans; [exact Hg | apply IH, Hg] | lia].
Qed.

Lemma wildcard_loop_grows n j p st :
  state_ok st -> grows (Z.of_nat n) st (wildcard_loop n j p st).
Proof.
  revert j st. induction n as [|n IH]; intros j st Hst; simpl.
  - split; [done | lia].
  - pose proof (add_ip_grows (p +:+ pretty j)%string st Hst) as Hg.
    eapply grows_weaken; [eapply grows_trans; [exact Hg | apply IH, Hg] | lia].
Qed.

(** The dash loop up to the last address but one of the 32-bit space. *)
Lemma dash_loop_grows fuel v endVal st :
  0 <= v -> endVal < 2 ^ 32 - 1 -> state_ok st -> endVal - v + 2 <= Z.of_nat fuel -> 1 <= Z.of_nat fuel ->
  exists st', dash_loop fuel v endVal st = Some st' /\ grows (Z.max 0 (endVal - v + 1)) st st'.
Proof.
  revert v st. induction fuel as [|fuel IH]; intros v st Hv He Hst Hf Hf1; [lia|]. simpl.
  destruct (Z.leb_spec v endVal) as [Hle|Hgt].
  - rewrite wrapU32_id by lia.
    pose proof (add_ip_grows (ip4_string (uint32ToIP v)) st Hst) as Hg.
    destruct (IH (v + 1) (add_ip (ip4_string (uint32ToIP v)) st)) as (st' & Heq & Hg');
      [lia | lia | apply Hg | lia | lia |].
    exists st'. split; [done|]. eapply grows_weaken; [by eapply grows_trans | lia].
  - exists st. split; [done|]. split; [done | lia].
Qed.

(** Up to the very last address, it never ends. *)
Lemma dash_loop_last fuel v st : 0 <= v < 2 ^ 32 -> dash_loop fuel v (2 ^ 32 - 1) st = None.
Proof.
  revert v st. induction fuel as [|fuel IH]; intros v st Hv; [done|].
  cbn [dash_loop]. rewrite (proj2 (Z.leb_le _ _)) by lia. apply IH, wrapU32_range.
Qed.

(** ** Lemmas: the lines *)

Lemma dash_sides_octets s l lip e :
  dash_sides s = Ok (l, lip, e) -> octets lip /\ octets e.
Proof.
  unfold dash_sides. destruct (SplitN2 s "-") as [a b].
  destruct (ParseIP (TrimSpace a) ≫= To4) as [q|] eqn:Hq; [|done].
  destruct (dash_end _ _) as [e'|] eqn:He; [|done]. intros [= <- <- <-].
  assert (Hp : forall t q, ParseIP t ≫= To4 = Some q -> octets q).
  { intros t q' (ip & Hip & HT)%bind_Some. eapply To4_octets; [done | by eapply ParseIP_bytes]. }
  split; [by eapply Hp|]. unfold dash_end in He.
  destruct (ParseIP (TrimSpace (default "" b)) ≫= To4) eqn:E; [injection He as <-; by eapply Hp|].
  case_match; [done|]. case_match; [done|].
  destruct (ParseIP (Join _ _) ≫= To4) eqn:E2; [injection He as <-; by eapply Hp | done].
Qed.

(** What [dash_line] does with the two sides, arithmetic apart. *)
Lemma dash_line_values s l lip e :
  dash_sides s = Ok (l, lip, e) ->
  ipToUint32 lip = Some (ip_value lip) /\ ipToUint32 e = Some (ip_value e) /\
  0 <= ip_value lip < 2 ^ 32 /\ 0 <= ip_value e < 2 ^ 32.
Proof.
  intros [H1 H2]%dash_sides_octets.
  rewrite (ipToUint32_octets lip lip), (ipToUint32_octets e e) by (done || by apply To4_self).
  pose proof (ip_value_range _ H1). by pose proof (ip_value_range _ H2).
Qed.

Lemma dash_count v e : 0 <= v <= e -> e < 2 ^ 32 - 1 ->
  wrapU32 (wrapU32 (e - v) + 1) = e - v + 1.
Proof. intros. rewrite (wrapU32_id (e - v)), wrapU32_id by lia. done. Qed.

(** The end of the line's dash range is not 255.255.255.255. *)
Definition dash_end_ok (raw : string) : Prop :=
  forall l lip e, dash_sides (TrimSpace raw) = Ok (l, lip, e) -> ip_value e <> 2 ^ 32 - 1.

(** The invariant of the loop over the lines, for a given limit. *)
Definition within (maxAddrs : Z) (st : pstate) : Prop :=
  state_ok st /\ Count (res st) <= maxAddrs.

Definition outcome_within (maxAddrs : Z) (o : outcome) : Prop :=
  match o with
  | Next st | Returns st _ => within maxAddrs st
  | Diverges | Panics => True
  end.

Lemma grows_within maxAddrs k st st' :
  grows k st st' -> Count (res st) + k <= maxAddrs -> within maxAddrs st'.
Proof. unfold grows, within. intuition lia. Qed.

Lemma cidr_line_within maxAddrs lineNo s st :
  maxAddrs < 2 ^ 30 -> within maxAddrs st -> outcome_within maxAddrs (cidr_line maxAddrs lineNo s st).
Proof.
  intros Hmax Hst. unfold cidr_line. destruct (ParseCIDR s) as [net|]; [|exact Hst].
  destruct (To4 (net_IP net)); [|exact Hst].
  destruct (Z.ltb_spec maxAddrs (Count (res st) + expandCIDRCount net)) as [|Hle]; [exact Hst|].
  destruct (ipToUint32 _) as [start|]; [|done]. cbn [outcome_within].
  destruct Hst as [Hok Hc].
  apply (grows_within _ (expandCIDRCount net) st); [|lia].
  assert (Hpos : 0 <= Count (res st)) by (destruct Hok as [-> _]; lia).
  apply (grows_weaken (Z.of_nat (Z.to_nat (wrap64 (Z.shiftl 1 (net_bits net - net_ones net))))));
    [by apply cidr_loop_grows|].
  unfold expandCIDRCount in *. set (h := net_bits net - net_ones net) in *.
  destruct (Z.leb_spec 31 h) as [|Hh]; [change (Z.shiftl 1 30) with (2 ^ 30) in *; lia|].
  destruct (Z.ltb_spec h 0) as [Hneg|Hnn].
  - rewrite Z.shiftl_div_pow2 by lia.
    rewrite Z.div_small by (split; [lia | apply Z.pow_gt_1; lia]).
    rewrite wrap64_id by (unfold in_int64, int64_min, int64_max; lia). lia.
  - rewrite Z.shiftl_1_l. assert (2 ^ h <= 2 ^ 30) by (apply Z.pow_le_mono_r; lia).
    pose proof (Z.pow_pos_nonneg 2 h). rewrite wrap64_id by (unfold in_int64, int64_min, int64_max; lia). lia.
Qed.

Lemma dash_line_within fuel maxAddrs lineNo s st :
  within maxAddrs st -> outcome_within maxAddrs (dash_line fuel maxAddrs lineNo s st).
Proof.
  intros [Hok Hc]. unfold dash_line. destruct (dash_sides s) as [[[l lip] e]|msg] eqn:Hs; [|by split].
  destruct (dash_line_values s _ _ _ Hs) as (-> & -> & Hl & He).
  destruct (Z.ltb_spec (ip_value e) (ip_value lip)) as [|Hle]; [by split|].
  destruct (Z.ltb_spec maxAddrs (Count (res st) + wrapU32 (wrapU32 (ip_value e - ip_value lip) + 1)))
    as [|Hcnt]; [by split|].
  destruct (decide (ip_value e = 2 ^ 32 - 1)) as [->|Hlast]; [by rewrite dash_loop_last|].
  rewrite dash_count in Hcnt by lia.
  destruct (dash_loop fuel _ _ st) as [st'|] eqn:Hloop; [|done]. cbn [outcome_within].
  set (n := (fuel + Z.to_nat (ip_value e - ip_value lip + 2))%nat).
  assert (Hmono : forall k f v ev s s', dash_loop f v ev s = Some s' -> dash_loop (f + k) v ev s = Some s').
  { intros k f. induction f as [|f IH]; intros v ev s0 s0'; simpl; [done|].
    destruct (v <=? ev); [apply IH | done]. }
  apply (Hmono (Z.to_nat (ip_value e - ip_value lip + 2))) in Hloop. fold n in Hloop.
  destruct (dash_loop_grows n (ip_value lip) (ip_value e) st) as (st'' & Heq & Hg);
    [lia | lia | done | lia | lia |].
  rewrite Hloop in Heq. injection Heq as <-.
  apply (grows_within _ _ _ _ Hg). lia.
Qed.

Lemma wildcard_line_within maxAddrs lineNo s st :
  within maxAddrs st -> outcome_within maxAddrs (wildcard_line maxAddrs lineNo s st).
Proof.
  intros Hst. unfold wildcard_line. case_match; [exact Hst|].
  destruct (Z.ltb_spec maxAddrs (Count (res st) + 256)) as [|Hle]; [exact Hst|].
  cbn [outcome_within]. eapply (grows_within _ 256 st); [|lia].
  apply grows_normalized, (grows_weaken (Z.of_nat 256)); [apply wildcard_loop_grows, Hst | lia].
Qed.

Lemma single_line_within maxAddrs lineNo s st :
  within maxAddrs st -> outcome_within maxAddrs (single_line maxAddrs lineNo s st).
Proof.
  intros Hst. unfold single_line. destruct (ParseIP s ≫= To4); [|exact Hst].
  case_bool_decide; [exact Hst|].
  destruct (Z.ltb_spec maxAddrs (Count (res st) + 1)) as [|Hle]; [exact Hst|].
  cbn [outcome_within]. eapply (grows_within _ 1 st); [|lia]. apply add_ip_grows, Hst.
Qed.

Lemma parse_line_within fuel maxAddrs lineNo raw st :
  maxAddrs < 2 ^ 30 -> within maxAddrs st ->
  outcome_within maxAddrs (parse_line fuel maxAddrs lineNo raw st).
Proof.
  intros Hmax Hst. unfold parse_line.
  destruct (_ || _); [exact Hst|].
  destruct (Contains _ "/"); [by apply cidr_line_within|].
  destruct (Contains _ "-"); [by apply dash_line_within|].
  destruct (_ || _); [by apply wildcard_line_within | by apply single_line_within].
Qed.

Lemma parse_lines_within fuel maxAddrs lineNo lines st :
  maxAddrs < 2 ^ 30 -> within maxAddrs st ->
  outcome_within maxAddrs (parse_lines fuel maxAddrs lineNo lines st).
Proof.
  intros Hmax. revert lineNo st. induction lines as [|raw rest IH]; intros lineNo st Hst; [exact Hst|].
  simpl. pose proof (parse_line_within fuel maxAddrs lineNo raw st Hmax Hst) as Hl.
  destruct (parse_line _ _ _ _ _); try exact Hl. by apply IH.
Qed.

(** ** Lemmas: every line finishes *)

Definition finishes (o : outcome) : Prop :=
  match o with Next _ | Returns _ _ => True | Diverges | Panics => False end.

Lemma To4_length ip q : To4 ip = Some q -> length q = 4%nat.
Proof.
  unfold To4. destruct (Nat.eqb_spec (length ip) 4); [by intros [= <-]|].
  destruct (Nat.eqb_spec (length ip) 16); simpl; [|done].
  case_bool_decide; [|done]. intros [= <-]. rewrite length_drop. lia.
Qed.

Lemma land_bytes_idem a m : land_bytes (land_bytes a m) m = land_bytes a m.
Proof.
  unfold land_bytes. revert m. induction a as [|x a IH]; intros [|y m]; simpl; try done.
  f_equal; [|apply IH]. by rewrite <- Z.land_assoc, Z.land_diag.
Qed.

Lemma ParseCIDR_masked s net :
  ParseCIDR s = Some net -> land_bytes (net_IP net) (mask_of net) = net_IP net.
Proof.
  unfold ParseCIDR. destruct (SplitN2 s "/") as [addr [mask|]]; [|done].
  intros (ip & _ & (n & _ & H)%bind_Some)%bind_Some.
  case_match; [done|]. injection H as <-. unfold mask_of. simpl.
  rewrite Z.div_mul, Nat2Z.id by lia. apply land_bytes_idem.
Qed.

Lemma cidr_line_finishes maxAddrs lineNo s st : finishes (cidr_line maxAddrs lineNo s st).
Proof.
  unfold cidr_line. destruct (ParseCIDR s) as [net|] eqn:Hn; [|done].
  destruct (To4 (net_IP net)) as [q|] eqn:HT; [|done]. case_match; [done|].
  rewrite (ParseCIDR_masked _ _ Hn). unfold ipToUint32. rewrite HT.
  apply To4_length in HT. by destruct q as [|? [|? [|? [|? [|]]]]].
Qed.

Lemma dash_line_finishes fuel maxAddrs lineNo raw st :
  within maxAddrs st -> dash_end_ok raw -> maxAddrs + 2 <= Z.of_nat fuel ->
  finishes (dash_line fuel maxAddrs lineNo (TrimSpace raw) st).
Proof.
  intros [Hok Hc] Hend Hf. unfold dash_line.
  destruct (dash_sides (TrimSpace raw)) as [[[l lip] e]|msg] eqn:Hs; [|done].
  destruct (dash_line_values _ _ _ _ Hs) as (-> & -> & Hl & He).
  specialize (Hend _ _ _ Hs).
  destruct (Z.ltb_spec (ip_value e) (ip_value lip)); [done|].
  rewrite dash_count by lia.
  destruct (Z.ltb_spec maxAddrs (Count (res st) + (ip_value e - ip_value lip + 1))); [done|].
  assert (0 <= Count (res st)) by (destruct Hok as [-> _]; lia).
  destruct (dash_loop_grows fuel (ip_value lip) (ip_value e) st) as (st' & -> & _);
    [lia | lia | done | lia | lia | done].
Qed.

Lemma parse_line_finishes fuel maxAddrs lineNo raw st :
  within maxAddrs st -> dash_end_ok raw -> maxAddrs + 2 <= Z.of_nat fuel ->
  finishes (parse_line fuel maxAddrs lineNo raw st).
Proof.
  intros Hst Hend Hf. unfold parse_line. destruct (_ || _); [done|].
  destruct (Contains _ "/"); [apply cidr_line_finishes|].
  destruct (Contains _ "-"); [by apply dash_line_finishes|].
  destruct (_ || _).
  - unfold wildcard_line. by repeat case_match.
  - unfold single_line. by repeat case_match.
Qed.

Lemma parse_lines_finishes fuel maxAddrs lineNo lines st :
  maxAddrs < 2 ^ 30 -> within maxAddrs st -> Forall dash_end_ok lines ->
  maxAddrs + 2 <= Z.of_nat fuel ->
  finishes (parse_lines fuel maxAddrs lineNo lines st).
Proof.
  intros Hmax. revert lineNo st. induction lines as [|raw rest IH]; intros lineNo st Hst Hend Hf; [done|].
  apply Forall_cons in Hend as [Hr Hend]. simpl.
  pose proof (parse_line_finishes fuel maxAddrs lineNo raw st Hst Hr Hf) as Hfin.
  pose proof (parse_line_within fuel maxAddrs lineNo raw st Hmax Hst) as Hw.
  destruct (parse_line _ _ _ _ _); try done. by apply IH.
Qed.

Lemma within_init maxAddrs : 0 <= maxAddrs -> within maxAddrs init_state.
Proof. intros H. split; [|exact H]. split_and!; [done | apply NoDup_nil_2 | done]. Qed.

(** ** Lemmas: one dash range between two printed addresses *)

Definition addr_byte (c : ascii) : bool := is_dot_digit c || Ascii.eqb c "-".

Lemma addr_byte_facts c : addr_byte c = true ->
  plain_byte c = true /\ not_byte "/" c = true /\ not_byte "010" c = true.
Proof. destruct c as [[][][][][][][][]]; vm_compute; intros; try discriminate; done. Qed.

Lemma addr_string_bytes n : all_bytes is_dot_digit (addr_string n) = true.
Proof. apply ip4_string_bytes, octets_uint32ToIP. Qed.

Definition dash_text (a b : Z) : string := (addr_string a +:+ String "-" (addr_string b))%string.

Lemma dash_text_bytes a b : all_bytes addr_byte (dash_text a b) = true.
Proof.
  unfold dash_text. rewrite all_bytes_app. cbn [all_bytes].
  rewrite !(all_bytes_impl is_dot_digit addr_byte) by
    (apply addr_string_bytes || (intros c Hc; unfold addr_byte; by rewrite Hc)).
  reflexivity.
Qed.

Lemma addr_string_plain n : TrimSpace (addr_string n) = addr_string n.
Proof.
  apply TrimSpace_plain, (all_bytes_impl is_dot_digit); [|apply addr_string_bytes].
  intros c Hc. apply addr_byte_facts. unfold addr_byte. by rewrite Hc.
Qed.

Lemma addr_string_no_dash n : all_bytes (not_byte "-") (addr_string n) = true.
Proof.
  apply (all_bytes_impl is_dot_digit); [|apply addr_string_bytes].
  intros c. destruct c as [[][][][][][][][]]; vm_compute; congruence.
Qed.

Lemma addr_string_parse n : ParseIP (addr_string n) ≫= To4 = Some (uint32ToIP n).
Proof.
  unfold addr_string. rewrite ParseIP_string by apply octets_uint32ToIP. simpl.
  apply (To4_mapped (uint32ToIP n)), octets_uint32ToIP.
Qed.

Lemma dash_sides_text a b :
  dash_sides (dash_text a b) = Ok (addr_string a, uint32ToIP a, uint32ToIP b).
Proof.
  unfold dash_sides, dash_text. rewrite SplitN2_sep by apply addr_string_no_dash.
  cbv beta iota zeta. change (default "" (Some (addr_string b))) with (addr_string b).
  rewrite !addr_string_plain. unfold dash_end. by rewrite !addr_string_parse.
Qed.

Lemma ipToUint32_uint32ToIP n : 0 <= n < 2 ^ 32 -> ipToUint32 (uint32ToIP n) = Some n.
Proof.
  intros Hn. rewrite (ipToUint32_octets _ (uint32ToIP n)) by
    (apply octets_uint32ToIP || apply To4_self, octets_uint32ToIP).
  by rewrite ip_value_uint32ToIP.
Qed.

(** The loop from [v] to [endVal], from a state that has the addresses [pre]. *)
Lemma dash_loop_exact fuel v endVal st pre :
  0 <= v -> endVal < 2 ^ 32 - 1 -> v <= endVal + 1 -> endVal - v + 2 <= Z.of_nat fuel ->
  seen st = list_to_set (map addr_string pre) ->
  (forall p, p ∈ pre -> 0 <= p < v) ->
  exists st', dash_loop fuel v endVal st = Some st' /\
    IPs (res st') = IPs (res st) ++ map addr_string (seqZ v (endVal - v + 1)) /\
    Count (res st') = Count (res st) + (endVal - v + 1) /\
    Errors (res st') = Errors (res st) /\ Normalized (res st') = Normalized (res st).
Proof.
  revert v st pre. induction fuel as [|fuel IH]; intros v st pre Hv He Hle Hf Hseen Hpre; [lia|].
  cbn [dash_loop]. destruct (Z.leb_spec v endVal) as [Hin|Hout].
  - assert (Hnew : add_ip (ip4_string (uint32ToIP v)) st =
      {| res := {| IPs := IPs (res st) ++ [addr_string v]; Count := Count (res st) + 1;
                   Errors := Errors (res st); Normalized := Normalized (res st) |};
         seen := {[addr_string v]} ∪ seen st |}).
    { unfold add_ip. rewrite bool_decide_false; [done|]. rewrite Hseen, elem_of_list_to_set.
      intros (p & Heq & Hp)%list_elem_of_fmap. apply Hpre in Hp as Hp'.
      apply addr_string_inj in Heq; lia. }
    rewrite wrapU32_id, Hnew by lia.
    edestruct (IH (v + 1)) with (pre := v :: pre) as (st' & Hloop & HI & HC & HE & HN);
      [lia | done | lia | lia | | | exists st'; split; [exact Hloop|]].
    + simpl. by rewrite Hseen.
    + intros p [->|Hp]%elem_of_cons; [lia|]. specialize (Hpre p Hp). lia.
    + simpl in *. rewrite HI, HC, HE, HN. split_and!; [|lia|done|done].
      replace (endVal - (v + 1) + 1) with (Z.pred (endVal - v + 1)) by lia.
      rewrite (seqZ_cons v (endVal - v + 1)) by lia.
      replace (v + 1) with (Z.succ v) by lia. simpl. by rewrite <- app_assoc.
  - exists st. split; [done|]. replace (endVal - v + 1) with 0 by lia.
    rewrite seqZ_nil by lia. simpl. rewrite app_nil_r. split_and!; [done | lia | done | done].
Qed.

(** A line with the text of a dash range reaches [dash_line]. *)
Lemma dash_text_not_skipped a b :
  String.eqb (dash_text a b) "" || HasPrefix (dash_text a b) "#" = false.
Proof.
  unfold dash_text, addr_string. destruct (octets_inv _ (octets_uint32ToIP a))
    as (x & y & z & w & -> & Hx & _). rewrite ip4_string_quad.
  destruct (pretty_octet x Hx) as [Hd _]. destruct (pretty x : string) as [|c s]; [done|].
  cbn [all_bytes] in Hd. apply andb_true_iff in Hd as [Hc _].
  destruct c as [[][][][][][][][]]; vm_compute in Hc; done.
Qed.

Lemma dash_text_reaches fuel maxAddrs a b :
  ParseRangeText fuel (dash_text a b) maxAddrs =
  match dash_line fuel maxAddrs 1 (dash_text a b) init_state with
  | Next st => Some (res st, None)
  | Returns st e => Some (res st, Some e)
  | Diverges | Panics => None
  end.
Proof.
  pose proof (dash_text_bytes a b) as Hb. set (text := dash_text a b) in *.
  assert (Hall : forall f, (forall c, addr_byte c = true -> f c = true) -> all_bytes f text = true)
    by (intros f Hf; by apply (all_bytes_impl addr_byte)).
  unfold ParseRangeText. rewrite Split_one by (apply Hall, addr_byte_facts).
  cbn [parse_lines]. unfold parse_line. rewrite TrimSpace_plain by (apply Hall, addr_byte_facts).
  unfold text at 1 2. rewrite dash_text_not_skipped.
  rewrite Contains_byte, Hall by apply addr_byte_facts. cbn [negb].
  rewrite Contains_byte.
  assert (Hdash : all_bytes (not_byte "-") text = false).
  { unfold text, dash_text. rewrite all_bytes_app. cbn [all_bytes]. apply andb_false_r. }
  rewrite Hdash. cbn [negb]. by destruct (dash_line _ _ _ _ _).
Qed.

(** ** Properties *)

(** When the parser returns, with or without an error, for a limit below 2^30,
    the count is the number of addresses returned, they are distinct, and they do
    not exceed the limit. *)
Theorem ParseRangeText_bounded fuel text maxAddrs r err :
  0 <= maxAddrs < 2 ^ 30 ->
  ParseRangeText fuel text maxAddrs = Some (r, err) ->
  Count r = Z.of_nat (length (IPs r)) /\ NoDup (IPs r) /\ Count r <= maxAddrs.
Proof.
  intros Hmax Hp. unfold ParseRangeText in Hp.
  pose proof (parse_lines_within fuel maxAddrs 1 (Split text "010") init_state
    ltac:(lia) (within_init maxAddrs ltac:(lia))) as Hw.
  destruct (parse_lines _ _ _ _ _); try done; injection Hp as <- <-;
    destruct Hw as [(Hc & Hnd & _) Hle]; done.
Qed.

Lemma ParseRangeText_bounded_witness :
  exists r, ParseRangeText 100 "10.0.0.0/30" 4096 = Some (r, None) /\ Count r <= 4096.
Proof.
  eexists. split; [vm_compute; reflexivity|].
  apply (ParseRangeText_bounded 100 "10.0.0.0/30" 4096 _ None); [lia | vm_compute; reflexivity].
Defined.

(** The parser terminates without a panic on every text in which no dash range
    ends at 255.255.255.255, and two more loop turns than the limit are enough
    fuel. *)
Theorem ParseRangeText_terminates fuel text maxAddrs :
  0 <= maxAddrs < 2 ^ 30 -> maxAddrs + 2 <= Z.of_nat fuel ->
  Forall dash_end_ok (Split text "010") ->
  is_Some (ParseRangeText fuel text maxAddrs).
Proof.
  intros Hmax Hf Hend. unfold ParseRangeText.
  pose proof (parse_lines_finishes fuel maxAddrs 1 (Split text "010") init_state
    ltac:(lia) (within_init maxAddrs ltac:(lia)) Hend Hf) as Hfin.
  destruct (parse_lines _ _ _ _ _); done.
Qed.

Lemma ParseRangeText_terminates_witness :
  is_Some (ParseRangeText 300 "10.0.0.1-20" 256).
Proof.
  apply (ParseRangeText_terminates 300 "10.0.0.1-20" 256); [lia | lia |].
  assert (HS : Split "10.0.0.1-20" "010" = ["10.0.0.1-20"]) by (vm_compute; reflexivity).
  rewrite HS. apply Forall_singleton. intros l lip e.
  assert (H : dash_sides (TrimSpace "10.0.0.1-20") = Ok ("10.0.0.1", [10; 0; 0; 1], [10; 0; 0; 20]))
    by (vm_compute; reflexivity).
  rewrite H. intros [= <- <- <-]. vm_compute. discriminate.
Defined.

(** A dash range that ends at 255.255.255.255 and passes the size check never
    ends: the [uint32] loop variable wraps to 0 and stays below the end, whatever
    the fuel. The range of the whole address space passes the check for every
    limit, because its size wraps to 0. *)
Theorem ParseRangeText_diverges fuel maxAddrs a :
  0 <= a < 2 ^ 32 ->
  (a = 0 /\ 0 <= maxAddrs \/ 2 ^ 32 - a <= maxAddrs) ->
  ParseRangeText fuel (dash_text a (2 ^ 32 - 1)) maxAddrs = None.
Proof.
  intros Ha Hmax. rewrite dash_text_reaches. unfold dash_line. rewrite dash_sides_text.
  rewrite !ipToUint32_uint32ToIP by lia.
  rewrite (proj2 (Z.ltb_ge _ _)) by lia. rewrite dash_loop_last by done.
  destruct (Z.ltb_spec maxAddrs (Count (res init_state) + wrapU32 (wrapU32 (2 ^ 32 - 1 - a) + 1)))
    as [Hover|]; [exfalso|done].
  change (Count (res init_state)) with 0 in Hover.
  rewrite (wrapU32_id (_ - a)) in Hover by lia.
  assert (Hwrap : wrapU32 (2 ^ 32 - 1 - 0 + 1) = 0) by reflexivity.
  destruct (decide (a = 0)) as [->|Hne0]; [rewrite Hwrap in Hover; lia|].
  destruct Hmax as [[-> _]|Hm]; [done|].
  rewrite wrapU32_id in Hover by lia. lia.
Qed.

Lemma ParseRangeText_diverges_witness :
  ParseRangeText 5000 "0.0.0.0-255.255.255.255" 4096 = None /\
  ParseRangeText 5000 "255.255.255.250-255.255.255.255" 4096 = None.
Proof.
  split; [apply (ParseRangeText_diverges 5000 4096 0) |
          apply (ParseRangeText_diverges 5000 4096 (2 ^ 32 - 6))]; lia.
Defined.

(** A dash range between two printed addresses, not ending at 255.255.255.255
    and within the limit, expands to exactly the addresses between them, in order,
    without errors, and normalizes to itself. *)
Theorem ParseRangeText_dash fuel maxAddrs a b :
  0 <= a <= b -> b < 2 ^ 32 - 1 -> b - a + 1 <= maxAddrs -> b - a + 2 <= Z.of_nat fuel ->
  ParseRangeText fuel (dash_text a b) maxAddrs =
  Some ({| IPs := map addr_string (seqZ a (b - a + 1)); Count := b - a + 1;
           Errors := []; Normalized := [dash_text a b] |}, None).
Proof.
  intros Hab Hb Hmax Hf. rewrite dash_text_reaches. unfold dash_line.
  rewrite dash_sides_text, !ipToUint32_uint32ToIP by lia.
  rewrite (proj2 (Z.ltb_ge _ _)), dash_count by lia.
  change (Count (res init_state)) with 0. rewrite (proj2 (Z.ltb_ge _ _)) by lia.
  destruct (dash_loop_exact fuel a b init_state []) as (st' & Hl & HI & HC & HE & HN);
    [lia.. | done | intros p Hp; by apply not_elem_of_nil in Hp |].
  rewrite Hl. unfold add_normalized. cbn [res]. rewrite HI, HC, HE, HN. done.
Qed.

Lemma ParseRangeText_dash_witness :
  ParseRangeText 10 "10.0.0.254-10.0.1.1" 4096 =
  Some ({| IPs := ["10.0.0.254"; "10.0.0.255"; "10.0.1.0"; "10.0.1.1"]; Count := 4;
           Errors := []; Normalized := ["10.0.0.254-10.0.1.1"] |}, None).
Proof. apply (ParseRangeText_dash 10 4096 167772414 167772417); lia. Defined.

(** A last-octet wildcard is not validated: a line that names no address, such as
    ["not.an.ip.x"], is accepted without an error and yields 256 strings that are
    not addresses. *)
Theorem ParseRangeText_wildcard_unchecked :
  exists r, ParseRangeText 0 "not.an.ip.x" 4096 = Some (r, None) /\
    Errors r = [] /\ Count r = 256 /\
    forall s, s ∈ IPs r -> ParseIP s = None.
Proof.
  destruct (ParseRangeText 0 "not.an.ip.x" 4096) as [[r e]|] eqn:E;
    [|vm_compute in E; discriminate].
  assert (H : match ParseRangeText 0 "not.an.ip.x" 4096 with
    | Some (r, e) => bool_decide (e = None) && Nat.eqb (length (Errors r)) 0 && (Count r =? 256)
        && forallb (fun s => bool_decide (ParseIP s = None)) (IPs r)
    | None => false end = true) by (vm_compute; reflexivity).
  rewrite E in H. exists r. reflect_bools.
  rename select (bool_decide (e = None) = true) into He. apply bool_decide_eq_true in He as ->.
  rename select (Nat.eqb _ _ = true) into Hn. apply Nat.eqb_eq, nil_length_inv in Hn.
  split_and!; [done | done | done |]. intros s Hs.
  rename select (forallb _ _ = true) into Hf. eapply forallb_elem_of in Hf; [|exact Hs].
  by apply bool_decide_eq_true in Hf.
Qed.
