(* ===== verification/AlertTypes.v ===== *)
(** * The data of the alerting subsystem ([server/storage/alert_types.go],
    [server/storage/types.go], [common/storage/types.go]).

    The enumerations are type aliases of [string] in the code, so they are strings
    here; a pointer field is an option; a [map[string]interface{}] that the code
    only ranges over is the list of its entries in the order of the iteration, which
    Go leaves open, so a statement about such a record holds for every order. *)
From S2P Require Import Prelude GoStrings GoTime GoFloat.

(** ** Enumerations *)

Definition AlertStatusActive : string := "active".
Definition AlertStatusAcknowledged : string := "acknowledged".

Definition AlertScopeFleet : string := "fleet".
Definition AlertScopeTenant : string := "tenant".
Definition AlertScopeSite : string := "site".
Definition AlertScopeAgent : string := "agent".
Definition AlertScopeDevice : string := "device".

Definition AlertTypeDeviceOffline : string := "device_offline".
Definition AlertTypeAgentOffline : string := "agent_offline".
Definition AlertTypeSupplyLow : string := "supply_low".
Definition AlertTypeSupplyCritical : string := "supply_critical".
Definition AlertTypeDeviceError : string := "device_error".
Definition AlertTypeAgentOutdated : string := "agent_outdated".
Definition AlertTypeAgentStorageFull : string := "agent_storage_full".
Definition AlertTypeUsageHigh : string := "usage_high".
Definition AlertTypeSiteOutage : string := "site_outage".
Definition AlertTypeFleetMassOutage : string := "fleet_mass_outage".

Definition ChannelTypeEmail : string := "email".
Definition ChannelTypeWebhook : string := "webhook".
Definition ChannelTypeSlack : string := "slack".
Definition ChannelTypeTeams : string := "teams".
Definition ChannelTypePagerDuty : string := "pagerduty".
Definition ChannelTypeDiscord : string := "discord".
Definition ChannelTypeTelegram : string := "telegram".
Definition ChannelTypePushover : string := "pushover".
Definition ChannelTypeNtfy : string := "ntfy".

(** ** Records *)

Record Alert := {
  Alert_ID : Z;
  Alert_RuleID : Z;
  Alert_Type : string;
  Alert_Severity : string;
  Alert_Scope : string;
  Alert_Status : string;
  Alert_TenantID : string;
  Alert_SiteID : string;
  Alert_AgentID : string;
  Alert_DeviceSerial : string;
  Alert_Title : string;
  Alert_Message : string;
  Alert_Details : string;
  Alert_TriggeredAt : Time;
  Alert_AcknowledgedAt : option Time;
  Alert_AcknowledgedBy : string;
  Alert_ResolvedAt : option Time;
  Alert_SuppressedUntil : option Time;
  Alert_ExpiresAt : option Time;
  Alert_EscalationLevel : Z;
  Alert_LastEscalatedAt : option Time;
  Alert_StateChangeCount : Z;
  Alert_IsFlapping : bool;
  Alert_ParentAlertID : option Z;
  Alert_ChildCount : Z;
  Alert_NotificationsSent : Z;
  Alert_LastNotifiedAt : option Time;
  Alert_CreatedAt : Time;
  Alert_UpdatedAt : Time;
}.

Record AlertFilters := {
  Filter_Status : string;
  Filter_Severity : string;
  Filter_Scope : string;
  Filter_Type : string;
  Filter_TenantID : string;
  Filter_SiteID : string;
  Filter_AgentID : string;
  Filter_StartTime : option Time;
  Filter_EndTime : option Time;
  Filter_Since : option Time;
  Filter_Until : option Time;
  Filter_Limit : Z;
  Filter_Offset : Z;
}.

(** [storage.AlertFilters{}] *)
Definition no_filters : AlertFilters :=
  {| Filter_Status := ""; Filter_Severity := ""; Filter_Scope := ""; Filter_Type := "";
     Filter_TenantID := ""; Filter_SiteID := ""; Filter_AgentID := "";
     Filter_StartTime := None; Filter_EndTime := None; Filter_Since := None;
     Filter_Until := None; Filter_Limit := 0; Filter_Offset := 0 |}.

Record AlertRule := {
  Rule_ID : Z;
  Rule_Name : string;
  Rule_Description : string;
  Rule_Enabled : bool;
  Rule_Type : string;
  Rule_Severity : string;
  Rule_Scope : string;
  Rule_TenantIDs : list string;
  Rule_SiteIDs : list string;
  Rule_AgentIDs : list string;
  Rule_ConditionJSON : string;
  Rule_Threshold : float64;
  Rule_ThresholdUnit : string;
  Rule_DurationMinutes : Z;
  Rule_ChannelIDs : list Z;
  Rule_EscalationPolicyID : option Z;
  Rule_CooldownMinutes : Z;
  Rule_CreatedAt : Time;
  Rule_UpdatedAt : Time;
  Rule_CreatedBy : string;
}.

Record NotificationChannel := {
  Channel_ID : Z;
  Channel_Name : string;
  Channel_Type : string;
  Channel_Enabled : bool;
  Channel_ConfigJSON : string;
  Channel_MinSeverity : string;
  Channel_TenantIDs : list string;
  Channel_RateLimitPerHour : Z;
  Channel_LastSentAt : option Time;
  Channel_SentThisHour : Z;
  Channel_UseQuietHours : bool;
  Channel_CreatedAt : Time;
  Channel_UpdatedAt : Time;
}.

Record AlertMaintenanceWindow := {
  Window_ID : Z;
  Window_Name : string;
  Window_Description : string;
  Window_Scope : string;
  Window_TenantID : string;
  Window_SiteID : string;
  Window_AgentID : string;
  Window_DeviceSerial : string;
  Window_StartTime : Time;
  Window_EndTime : Time;
  Window_Timezone : string;
  Window_Recurring : bool;
  Window_RecurPattern : string;
  Window_RecurDays : list string;
  Window_AlertTypes : list string;
  Window_AllowCritical : bool;
  Window_CreatedAt : Time;
  Window_UpdatedAt : Time;
  Window_CreatedBy : string;
}.

Record QuietHours := {
  Quiet_Enabled : bool;
  Quiet_StartTime : string;
  Quiet_EndTime : string;
  Quiet_Timezone : string;
  Quiet_DaysOfWeek : list Z;
  Quiet_AllowCritical : bool;
}.

Record AlertSettings := {
  Settings_Enabled : bool;
  Settings_DefaultCooldownMins : Z;
  Settings_MaxAlertsPerHour : Z;
  Settings_AlertRetentionDays : Z;
  Settings_AggregationEnabled : bool;
  Settings_AggregationWindowMins : Z;
  Settings_QuietHours : QuietHours;
  Settings_FlappingEnabled : bool;
  Settings_FlappingThreshold : Z;
  Settings_FlappingWindowMins : Z;
  Settings_GroupingEnabled : bool;
  Settings_GroupingThreshold : Z;
  Settings_DependenciesEnabled : bool;
  Settings_UpdatedAt : Time;
}.

(** The dynamic type and value of an [interface{}]: the cases the code tells
    apart. *)
Inductive iface :=
| IInt (n : Z)
| IInt64 (n : Z)
| IFloat (f : float64)
| INumber (s : string)
| IOther.

Record MetricsSnapshot := {
  Metrics_ID : Z;
  Metrics_Serial : string;
  Metrics_AgentID : string;
  Metrics_Timestamp : Time;
  Metrics_PageCount : Z;
  Metrics_ColorPages : Z;
  Metrics_MonoPages : Z;
  Metrics_ScanCount : Z;
  Metrics_FaxPages : Z;
  Metrics_TonerLevels : list (string * iface);
  Metrics_Tier : string;
}.

(** A discovered printer: the embedded common device and the agent that reported
    it. *)
Record Device := {
  Device_Serial : string;
  Device_IP : string;
  Device_Manufacturer : string;
  Device_Model : string;
  Device_Hostname : string;
  Device_Firmware : string;
  Device_MACAddress : string;
  Device_SubnetMask : string;
  Device_Gateway : string;
  Device_Consumables : list string;
  Device_StatusMessages : list string;
  Device_LastSeen : Time;
  Device_CreatedAt : Time;
  Device_FirstSeen : Time;
  Device_DiscoveryMethod : string;
  Device_AssetNumber : string;
  Device_Location : string;
  Device_Description : string;
  Device_WebUIURL : string;
  Device_RawData : list (string * iface);
  Device_DeviceType : string;
  Device_SourceType : string;
  Device_IsUSB : bool;
  Device_InitialPageCount : Z;
  Device_PortName : string;
  Device_DriverName : string;
  Device_IsDefault : bool;
  Device_IsShared : bool;
  Device_SpoolerStatus : string;
  Device_UsbWebUIAvailable : bool;
  Device_AgentID : string;
}.

Record Agent := {
  Agent_ID : Z;
  Agent_AgentID : string;
  Agent_Name : string;
  Agent_Hostname : string;
  Agent_IP : string;
  Agent_Platform : string;
  Agent_Version : string;
  Agent_ProtocolVersion : string;
  Agent_Token : string;
  Agent_RegisteredAt : Time;
  Agent_LastSeen : Time;
  Agent_Status : string;
  Agent_OSVersion : string;
  Agent_GoVersion : string;
  Agent_Architecture : string;
  Agent_NumCPU : Z;
  Agent_TotalMemoryMB : Z;
  Agent_BuildType : string;
  Agent_GitCommit : string;
  Agent_LastHeartbeat : Time;
  Agent_DeviceCount : Z;
  Agent_LastDeviceSync : Time;
  Agent_LastMetricsSync : Time;
  Agent_TenantID : string;
  Agent_SiteIDs : list string;
}.

(** ** Quiet hours

    [isInQuietHours] is shared by the evaluator and the notifier. [time.Now()] is
    the argument [now], read on the wall clock of the server's own zone. *)

Definition parseTimeHHMM (s : string) : Z * Z :=
  if String.eqb s "" then (0, 0) else sscanf_d_colon_d s.

Definition isInQuietHours (local : Location) (settings : option AlertSettings) (now : Time) : bool :=
  match settings with
  | None => false
  | Some s =>
      let q := Settings_QuietHours s in
      if negb (Quiet_Enabled q) then false
      else
        let '(startHour, startMin) := parseTimeHHMM (Quiet_StartTime q) in
        let '(endHour, endMin) := parseTimeHHMM (Quiet_EndTime q) in
        if (startHour =? endHour) && (startMin =? endMin) then true
        else
          let currentMins := clock_hour local now * 60 + clock_minute local now in
          let startMins := wrap64 (wrap64 (startHour * 60) + startMin) in
          let endMins := wrap64 (wrap64 (endHour * 60) + endMin) in
          if startMins <=? endMins then (startMins <=? currentMins) && (currentMins <? endMins)
          else (startMins <=? currentMins) || (currentMins <? endMins)
  end.

(** The alert types that maintenance windows and quiet hours let through. *)
Definition isCriticalAlertType (t : string) : bool :=
  String.eqb t AlertTypeSupplyCritical || String.eqb t AlertTypeDeviceError
  || String.eqb t AlertTypeSiteOutage || String.eqb t AlertTypeFleetMassOutage.

(** Quiet hours given as two times of day [a] and [b], in minutes since midnight. *)
Definition clock_time (s : string) (m : Z) : Prop :=
  exists h mi, parseTimeHHMM s = (h, mi) /\ 0 <= h < 24 /\ 0 <= mi < 60 /\ m = h * 60 + mi.

Lemma clock_time_range s m : clock_time s m -> 0 <= m < 1440.
Proof. intros (h & mi & _ & ? & ? & ->). lia. Qed.

(** Quiet hours are the circular interval of minutes from the start to the end, the
    whole day when the two are equal. *)
Lemma isInQuietHours_circular local s now a b :
  Quiet_Enabled (Settings_QuietHours s) = true ->
  clock_time (Quiet_StartTime (Settings_QuietHours s)) a ->
  clock_time (Quiet_EndTime (Settings_QuietHours s)) b ->
  isInQuietHours local (Some s) now = true <->
  a = b \/ (minute_of_day local now - a) mod 1440 < (b - a) mod 1440.
Proof.
  intros Hen Ha Hb. pose proof (clock_time_range _ _ Ha). pose proof (clock_time_range _ _ Hb).
  destruct Ha as (h & mi & Hs & ? & ? & ->), Hb as (h' & mi' & He & ? & ? & ->).
  unfold isInQuietHours. rewrite Hen, Hs, He. simpl.
  rewrite !wrap64_id by (unfold in_int64, int64_min, int64_max; rewrite ?wrap64_id;
    unfold in_int64, int64_min, int64_max; lia).
  change (clock_hour local now * 60 + clock_minute local now) with (minute_of_day local now).
  change (if h * 60 + mi <=? h' * 60 + mi' then _ else _) with
    (in_daily_window (minute_of_day local now) (h * 60 + mi) (h' * 60 + mi')).
  destruct ((h =? h') && (mi =? mi')) eqn:E; reflect_bools.
  - split; [intros _; left; lia | done].
  - rewrite in_daily_window_circular by (done || apply minute_of_day_range).
    split; [by right | intros [Heq|]; [exfalso | done]].
    assert (h = h' /\ mi = mi') as [-> ->] by lia.
    by rewrite !Z.eqb_refl in E.
Qed.
