(* ===== verification/Evaluator.v ===== *)
(** * The alert evaluator ([server/alerts/evaluator.go]).

    One evaluation pass is a computation over the environment of Effects.v: the
    calls are the operations of [EvaluatorStore] and [time.Now]. An operation of
    the store answers with Go's pair of a value and an error, because the code
    looks at the value of some calls whose error it discards. Logging and the
    30-second context are left out: a timeout is an error the store answers. *)
From S2P Require Import Prelude GoStrings GoTime GoFloat Effects AlertTypes.

(** ** The store and the clock *)

(** [(T, error)] *)
Definition goret (A : Type) : Type := A * option string.

Inductive store_call :=
| ListAllDevices (r : goret (list Device))
| ListAgents (r : goret (list Agent))
| GetLatestMetrics (serial : string) (r : goret (option MetricsSnapshot))
| ListAlertRules (r : goret (list AlertRule))
| CreateAlert (alert : Alert) (r : goret Z)
| ListActiveAlerts (filters : AlertFilters) (r : goret (list Alert))
| ResolveAlert (id : Z) (r : option string)
| GetActiveAlertMaintenanceWindows (r : goret (list AlertMaintenanceWindow))
| GetAlertSettings (r : goret (option AlertSettings))
| Now (t : Time).

Record EvaluatorStore (W : Type) := {
  listAllDevices : W -> goret (list Device) * W;
  listAgents : W -> goret (list Agent) * W;
  getLatestMetrics : string -> W -> goret (option MetricsSnapshot) * W;
  listAlertRules : W -> goret (list AlertRule) * W;
  createAlert : Alert -> W -> goret Z * W;
  listActiveAlerts : AlertFilters -> W -> goret (list Alert) * W;
  resolveAlert : Z -> W -> option string * W;
  getActiveAlertMaintenanceWindows : W -> goret (list AlertMaintenanceWindow) * W;
  getAlertSettings : W -> goret (option AlertSettings) * W;
  timeNow : W -> Time * W;
}.
Arguments listAllDevices {W}. Arguments listAgents {W}. Arguments getLatestMetrics {W}.
Arguments listAlertRules {W}. Arguments createAlert {W}. Arguments listActiveAlerts {W}.
Arguments resolveAlert {W}. Arguments getActiveAlertMaintenanceWindows {W}.
Arguments getAlertSettings {W}. Arguments timeNow {W}.

(** ** Pure helpers *)

Definition alertKey (alertType scope deviceSerial agentID siteID tenantID : string) : string :=
  (alertType +:+ ":" +:+ scope +:+ ":" +:+ deviceSerial +:+ ":" +:+ agentID
   +:+ ":" +:+ siteID +:+ ":" +:+ tenantID)%string.

Definition hasDeviceRules (rules : list AlertRule) : bool :=
  existsb (fun r => String.eqb (Rule_Scope r) AlertScopeDevice) rules.

Definition hasAgentRules (rules : list AlertRule) : bool :=
  existsb (fun r => String.eqb (Rule_Scope r) AlertScopeAgent) rules.

Definition hasGlobalMaintenanceWindow (windows : list AlertMaintenanceWindow) : bool :=
  existsb (fun w => String.eqb (Window_Scope w) AlertScopeFleet || String.eqb (Window_Scope w) "")
    windows.

(** One filter of a rule: an empty list lets everything through. *)
Definition filter_ok (allowed : list string) (x : string) : bool :=
  if Nat.ltb 0 (length allowed) then mem_str x allowed else true.

Definition matchesScope (rule : AlertRule) (tenantID siteID agentID : string) : bool :=
  if negb (filter_ok (Rule_TenantIDs rule) tenantID) then false
  else if negb (filter_ok (Rule_SiteIDs rule) siteID) then false
  else if negb (filter_ok (Rule_AgentIDs rule) agentID) then false
  else true.

Definition matchesAgentScope (rule : AlertRule) (agent : Agent) : bool :=
  if negb (filter_ok (Rule_TenantIDs rule) (Agent_TenantID agent)) then false
  else if negb (filter_ok (Rule_AgentIDs rule) (Agent_AgentID agent)) then false
  else true.

Definition tonerLevelToInt (v : iface) : Z :=
  match v with
  | IInt n => n
  | IInt64 n => n
  | IFloat f => int_of_float f
  | INumber s => match ParseInt10 s with Some i => i | None => -1 end
  | IOther => -1
  end.

Definition getDeviceDisplayName (device : Device) : string :=
  if negb (String.eqb (Device_Hostname device) "") then Device_Hostname device
  else if negb (String.eqb (Device_Model device) "") then Device_Model device
  else Device_Serial device.

(** [int(d.Minutes())]: [Minutes] is a [float64]. *)
Definition int_minutes (d : Duration) : Z :=
  int_of_float (fadd (float_of_Z (Z.quot d Minute))
                     (fdiv (float_of_Z (Z.rem d Minute)) (float_of_Z 60000000000))).

(** The threshold of a rule, or the default when it is 0. *)
Definition threshold_or (rule : AlertRule) (dflt : Z) : float64 :=
  if feqb (Rule_Threshold rule) (float_of_Z 0) then float_of_Z dflt else Rule_Threshold rule.

(** [level >= 0 && float64(level) <= threshold] *)
Definition level_triggers (threshold : float64) (levelVal : iface) : bool :=
  let level := tonerLevelToInt levelVal in
  (0 <=? level) && fleb (float_of_Z level) threshold.

(** [level >= 0 && level < 20] *)
Definition still_low (levelVal : iface) : bool :=
  let level := tonerLevelToInt levelVal in (0 <=? level) && (level <? 20).

Definition error_like `{GoUnicode} (msg : string) : bool :=
  let lowerMsg := ToLower msg in
  Contains lowerMsg "error" || Contains lowerMsg "jam" || Contains lowerMsg "fault".

(** ** The evaluator *)

Section Evaluator.
  Context {W : Type} (store : EvaluatorStore W) (local : Location) `{GoUnicode}.
  Local Notation M := (M store_call W).

Definition now : M Time := call Now (timeNow store).

(** [evaluateDeviceRule]: [None] when the rule does not trigger, else the title and
    the message. The clock is read only where the code reads it. *)
Definition evaluateDeviceRule (rule : AlertRule) (device : Device)
    (metrics : option MetricsSnapshot) : M (option (string * string)) :=
  let name := getDeviceDisplayName device in
  if String.eqb (Rule_Type rule) AlertTypeDeviceOffline then
    let alert := Some (("Device Offline: " +:+ name)%string,
      ("Device " +:+ name +:+ " (" +:+ Device_Serial device +:+ ") has not reported metrics recently")%string) in
    match metrics with
    | None => mret alert
    | Some m =>
        t ← now;
        mret (if 10 * Minute <? Since t (Metrics_Timestamp m) then alert else None)
    end
  else if String.eqb (Rule_Type rule) AlertTypeSupplyLow then
    mret (match metrics with
    | None => None
    | Some m =>
        match find (fun e => level_triggers (threshold_or rule 20) e.2) (Metrics_TonerLevels m) with
        | Some (color, v) => Some
            (("Low " +:+ ToTitle color +:+ " Toner: " +:+ name)%string,
             (ToTitle color +:+ " toner is at " +:+ pretty (tonerLevelToInt v) +:+ "% on " +:+ name)%string)
        | None => None
        end
    end)
  else if String.eqb (Rule_Type rule) AlertTypeSupplyCritical then
    mret (match metrics with
    | None => None
    | Some m =>
        match find (fun e => level_triggers (threshold_or rule 5) e.2) (Metrics_TonerLevels m) with
        | Some (color, v) => Some
            (("Critical " +:+ ToTitle color +:+ " Toner: " +:+ name)%string,
             (ToTitle color +:+ " toner is critically low at " +:+ pretty (tonerLevelToInt v) +:+ "% on " +:+ name)%string)
        | None => None
        end
    end)
  else if String.eqb (Rule_Type rule) AlertTypeDeviceError then
    mret (match find error_like (Device_StatusMessages device) with
    | Some msg => Some (("Device Error: " +:+ name)%string,
                        ("Device " +:+ name +:+ " is reporting: " +:+ msg)%string)
    | None => None
    end)
  else if String.eqb (Rule_Type rule) AlertTypeUsageHigh then
    mret (match metrics with
    | None => None
    | Some m =>
        if fltb (fmul (threshold_or rule 1000) (float_of_Z 30)) (float_of_Z (Metrics_PageCount m)) then
          Some (("High Usage: " +:+ name)%string,
                ("Device " +:+ name +:+ " has high page count: " +:+ pretty (Metrics_PageCount m))%string)
        else None
    end)
  else mret None.

Definition evaluateAgentRule (rule : AlertRule) (agent : Agent) : M (option (string * string)) :=
  if String.eqb (Rule_Type rule) AlertTypeAgentOffline then
    let duration := if Rule_DurationMinutes rule =? 0 then 5 else Rule_DurationMinutes rule in
    offline ← (if negb (String.eqb (Agent_Status agent) "active") then mret true
               else t ← now; mret (dmul duration Minute <? Since t (Agent_LastHeartbeat agent)));
    if (offline : bool) then
      t ← now;
      mret (Some (("Agent Offline: " +:+ Agent_Name agent)%string,
        ("Agent " +:+ Agent_Name agent +:+ " has not sent a heartbeat in "
         +:+ pretty (int_minutes (Since t (Agent_LastHeartbeat agent))) +:+ " minutes")%string))
    else mret None
  else mret None.

(** The alert literal of both loops: the fields that are not set are zero. *)
Definition new_alert (rule : AlertRule) (tenantID agentID deviceSerial title message : string)
    (t : Time) : Alert :=
  {| Alert_ID := 0; Alert_RuleID := Rule_ID rule; Alert_Type := Rule_Type rule;
     Alert_Severity := Rule_Severity rule; Alert_Scope := Rule_Scope rule;
     Alert_Status := AlertStatusActive; Alert_TenantID := tenantID; Alert_SiteID := "";
     Alert_AgentID := agentID; Alert_DeviceSerial := deviceSerial; Alert_Title := title;
     Alert_Message := message; Alert_Details := ""; Alert_TriggeredAt := t;
     Alert_AcknowledgedAt := None; Alert_AcknowledgedBy := ""; Alert_ResolvedAt := None;
     Alert_SuppressedUntil := None; Alert_ExpiresAt := None; Alert_EscalationLevel := 0;
     Alert_LastEscalatedAt := None; Alert_StateChangeCount := 0; Alert_IsFlapping := false;
     Alert_ParentAlertID := None; Alert_ChildCount := 0; Alert_NotificationsSent := 0;
     Alert_LastNotifiedAt := None; Alert_CreatedAt := zero_time; Alert_UpdatedAt := zero_time |}.

Definition CreateAlert_ (alert : Alert) : M (goret Z) :=
  call (CreateAlert alert) (createAlert store alert).

(** The body of the loop over the rules for one device. *)
Definition device_rule_body (existing : gmap string Alert) (inMaint : bool) (device : Device)
    (metrics : option MetricsSnapshot) (rule : AlertRule) : M unit :=
  if negb (String.eqb (Rule_Scope rule) AlertScopeDevice) then mret tt
  else if negb (matchesScope rule "" "" (Device_AgentID device)) then mret tt
  else
    fired ← evaluateDeviceRule rule device metrics;
    match fired with
    | None => mret tt
    | Some (title, message) =>
        let key := alertKey (Rule_Type rule) (Rule_Scope rule) (Device_Serial device)
                            (Device_AgentID device) "" "" in
        match existing !! key with
        | Some _ => mret tt
        | None =>
            if inMaint && negb (isCriticalAlertType (Rule_Type rule)) then mret tt
            else
              t ← now;
              _ ← CreateAlert_ (new_alert rule "" (Device_AgentID device) (Device_Serial device)
                                  title message t);
              mret tt
        end
    end.

Definition evaluateDeviceRules (rules : list AlertRule) (existing : gmap string Alert)
    (inMaint inQuiet : bool) : M unit :=
  r ← call ListAllDevices (listAllDevices store);
  match r with
  | (_, Some _) => mret tt
  | (devices, None) =>
      for_each devices (fun device =>
        m ← call (GetLatestMetrics (Device_Serial device)) (getLatestMetrics store (Device_Serial device));
        for_each rules (device_rule_body existing inMaint device m.1))
  end.

Definition agent_rule_body (existing : gmap string Alert) (inMaint : bool) (agent : Agent)
    (rule : AlertRule) : M unit :=
  if negb (String.eqb (Rule_Scope rule) AlertScopeAgent) then mret tt
  else if negb (matchesAgentScope rule agent) then mret tt
  else
    fired ← evaluateAgentRule rule agent;
    match fired with
    | None => mret tt
    | Some (title, message) =>
        let key := alertKey (Rule_Type rule) (Rule_Scope rule) "" (Agent_AgentID agent) ""
                            (Agent_TenantID agent) in
        match existing !! key with
        | Some _ => mret tt
        | None =>
            if inMaint && negb (isCriticalAlertType (Rule_Type rule)) then mret tt
            else
              t ← now;
              _ ← CreateAlert_ (new_alert rule (Agent_TenantID agent) (Agent_AgentID agent) ""
                                  title message t);
              mret tt
        end
    end.

Definition evaluateAgentRules (rules : list AlertRule) (existing : gmap string Alert)
    (inMaint inQuiet : bool) : M unit :=
  r ← call ListAgents (listAgents store);
  match r with
  | (_, Some _) => mret tt
  | (agents, None) =>
      for_each agents (fun agent => for_each rules (agent_rule_body existing inMaint agent))
  end.

Definition isDeviceAlertCleared (alert : Alert) : M bool :=
  r ← call ListAllDevices (listAllDevices store);
  match find (fun d => String.eqb (Device_Serial d) (Alert_DeviceSerial alert)) r.1 with
  | None => mret true
  | Some device =>
      m ← call (GetLatestMetrics (Device_Serial device)) (getLatestMetrics store (Device_Serial device));
      let metrics := m.1 in
      if String.eqb (Alert_Type alert) AlertTypeDeviceOffline then
        match metrics with
        | None => mret false
        | Some s => t ← now; mret (Since t (Metrics_Timestamp s) <? 10 * Minute)
        end
      else if String.eqb (Alert_Type alert) AlertTypeSupplyLow
              || String.eqb (Alert_Type alert) AlertTypeSupplyCritical then
        match metrics with
        | None => mret false
        | Some s => mret (negb (existsb (fun e => still_low e.2) (Metrics_TonerLevels s)))
        end
      else if String.eqb (Alert_Type alert) AlertTypeDeviceError then
        t ← now; mret (Since t (Device_LastSeen device) <? 10 * Minute)
      else mret false
  end.

Definition isAgentAlertCleared (alert : Alert) : M bool :=
  r ← call ListAgents (listAgents store);
  match find (fun a => String.eqb (Agent_AgentID a) (Alert_AgentID alert)) r.1 with
  | None => mret true
  | Some a =>
      if String.eqb (Alert_Type alert) AlertTypeAgentOffline then
        if negb (String.eqb (Agent_Status a) "active") then mret false
        else t ← now; mret (Since t (Agent_LastHeartbeat a) <? 5 * Minute)
      else mret false
  end.

Definition resolve_body (alert : Alert) : M unit :=
  if negb (String.eqb (Alert_Status alert) AlertStatusActive) then mret tt
  else
    cleared ← (if String.eqb (Alert_Scope alert) AlertScopeDevice then
                 if negb (String.eqb (Alert_DeviceSerial alert) "")
                 then isDeviceAlertCleared alert else mret false
               else if String.eqb (Alert_Scope alert) AlertScopeAgent then
                 if negb (String.eqb (Alert_AgentID alert) "")
                 then isAgentAlertCleared alert else mret false
               else mret false);
    if (cleared : bool) then
      _ ← call (ResolveAlert (Alert_ID alert)) (resolveAlert store (Alert_ID alert)); mret tt
    else mret tt.

Definition autoResolveCleared (activeAlerts : list Alert) : M unit :=
  for_each activeAlerts resolve_body.

Definition alert_key (a : Alert) : string :=
  alertKey (Alert_Type a) (Alert_Scope a) (Alert_DeviceSerial a) (Alert_AgentID a)
           (Alert_SiteID a) (Alert_TenantID a).

(** The map of the active alerts by key: of two with the same key the last stays. *)
Definition existing_keys (activeAlerts : list Alert) : gmap string Alert :=
  fold_left (fun m a => <[alert_key a := a]> m) activeAlerts ∅.

(** [isInQuietHours(settings)]: the clock is read only when quiet hours are on. *)
Definition quiet_now (settings : option AlertSettings) : M bool :=
  match settings with
  | Some s =>
      if Quiet_Enabled (Settings_QuietHours s)
      then t ← now; mret (isInQuietHours local settings t) else mret false
  | None => mret false
  end.

Definition evaluate : M unit :=
  w ← call GetActiveAlertMaintenanceWindows (getActiveAlertMaintenanceWindows store);
  let inMaintenance := Nat.ltb 0 (length w.1) && hasGlobalMaintenanceWindow w.1 in
  settings ← call GetAlertSettings (getAlertSettings store);
  inQuietHours ← quiet_now settings.1;
  r ← call ListAlertRules (listAlertRules store);
  match r with
  | (_, Some _) => mret tt
  | (rules, None) =>
      let enabledRules := List.filter Rule_Enabled rules in
      if Nat.eqb (length enabledRules) 0 then mret tt
      else
        a ← call (ListActiveAlerts no_filters) (listActiveAlerts store no_filters);
        match a with
        | (_, Some _) => mret tt
        | (activeAlerts, None) =>
            let existingAlertKeys := existing_keys activeAlerts in
            _ ← (if hasDeviceRules enabledRules
                 then evaluateDeviceRules enabledRules existingAlertKeys inMaintenance inQuietHours
                 else mret tt);
            _ ← (if hasAgentRules enabledRules
                 then evaluateAgentRules enabledRules existingAlertKeys inMaintenance inQuietHours
                 else mret tt);
            autoResolveCleared activeAlerts
        end
  end.

(** ** What the history says *)

(** The rule was in the list the store answered without an error. *)
Definition listed_rule (h : list store_call) (r : AlertRule) : Prop :=
  exists rs, ListAlertRules (rs, None) ∈ h /\ r ∈ rs.
Definition listed_device (h : list store_call) (d : Device) : Prop :=
  exists ds, ListAllDevices (ds, None) ∈ h /\ d ∈ ds.
Definition listed_agent (h : list store_call) (a : Agent) : Prop :=
  exists l, ListAgents (l, None) ∈ h /\ a ∈ l.
Definition listed_active (h : list store_call) (a : Alert) : Prop :=
  exists l, ListActiveAlerts no_filters (l, None) ∈ h /\ a ∈ l.

(** The condition of a device rule, in terms of the data the pass has read. *)
Definition device_condition (h : list store_call) (rule : AlertRule) (device : Device)
    (metrics : option MetricsSnapshot) : Prop :=
  (Rule_Type rule = AlertTypeDeviceOffline /\
   (metrics = None \/
    exists m t, metrics = Some m /\ Now t ∈ h /\ 10 * Minute < Since t (Metrics_Timestamp m))) \/
  (Rule_Type rule = AlertTypeSupplyLow /\
   exists m e, metrics = Some m /\ e ∈ Metrics_TonerLevels m /\
     level_triggers (threshold_or rule 20) e.2 = true) \/
  (Rule_Type rule = AlertTypeSupplyCritical /\
   exists m e, metrics = Some m /\ e ∈ Metrics_TonerLevels m /\
     level_triggers (threshold_or rule 5) e.2 = true) \/
  (Rule_Type rule = AlertTypeDeviceError /\
   exists msg, msg ∈ Device_StatusMessages device /\ error_like msg = true) \/
  (Rule_Type rule = AlertTypeUsageHigh /\
   exists m, metrics = Some m /\
     fltb (fmul (threshold_or rule 1000) (float_of_Z 30)) (float_of_Z (Metrics_PageCount m)) = true).

Definition agent_condition (h : list store_call) (rule : AlertRule) (agent : Agent) : Prop :=
  Rule_Type rule = AlertTypeAgentOffline /\
  (Agent_Status agent <> "active" \/
   exists t, Now t ∈ h /\
     dmul (if Rule_DurationMinutes rule =? 0 then 5 else Rule_DurationMinutes rule) Minute
     < Since t (Agent_LastHeartbeat agent)).

(** What justifies the creation of an alert by a rule of device scope, of agent
    scope. *)
Definition device_grounds (h : list store_call) (rule : AlertRule) (alert : Alert) : Prop :=
  exists d m e, listed_device h d /\ GetLatestMetrics (Device_Serial d) (m, e) ∈ h /\
    Rule_Scope rule = AlertScopeDevice /\ matchesScope rule "" "" (Device_AgentID d) = true /\
    device_condition h rule d m /\
    Alert_DeviceSerial alert = Device_Serial d /\ Alert_AgentID alert = Device_AgentID d /\
    Alert_TenantID alert = "".

Definition agent_grounds (h : list store_call) (rule : AlertRule) (alert : Alert) : Prop :=
  exists a, listed_agent h a /\
    Rule_Scope rule = AlertScopeAgent /\ matchesAgentScope rule a = true /\
    agent_condition h rule a /\
    Alert_DeviceSerial alert = "" /\ Alert_AgentID alert = Agent_AgentID a /\
    Alert_TenantID alert = Agent_TenantID a.

Definition from_rule (rule : AlertRule) (alert : Alert) : Prop :=
  Alert_RuleID alert = Rule_ID rule /\ Alert_Type alert = Rule_Type rule /\
  Alert_Severity alert = Rule_Severity rule /\ Alert_Scope alert = Rule_Scope rule /\
  Alert_Status alert = AlertStatusActive.

(** No alert with this key was active, and in a fleet-wide maintenance window only
    critical types alert. *)
Definition unsuppressed (h : list store_call) (alert : Alert) : Prop :=
  (exists active, ListActiveAlerts no_filters (active, None) ∈ h /\
     forall a, a ∈ active -> alert_key a <> alert_key alert) /\
  (exists ws e, GetActiveAlertMaintenanceWindows (ws, e) ∈ h /\
     (hasGlobalMaintenanceWindow ws = true -> isCriticalAlertType (Alert_Type alert) = true)).

Definition created_ok (h : list store_call) (alert : Alert) : Prop :=
  exists rule, listed_rule h rule /\ Rule_Enabled rule = true /\ from_rule rule alert /\
    unsuppressed h alert /\ (device_grounds h rule alert \/ agent_grounds h rule alert).

(** What clears a device alert: the device is not in the list the store answered,
    or what was read of it shows that the condition is over. *)
Definition device_cleared (h : list store_call) (a : Alert) : Prop :=
  exists ds e, ListAllDevices (ds, e) ∈ h /\
    ((forall d, d ∈ ds -> Device_Serial d <> Alert_DeviceSerial a) \/
     (exists m e', GetLatestMetrics (Alert_DeviceSerial a) (Some m, e') ∈ h /\
        ((exists t, Alert_Type a = AlertTypeDeviceOffline /\ Now t ∈ h /\
            Since t (Metrics_Timestamp m) < 10 * Minute) \/
         ((Alert_Type a = AlertTypeSupplyLow \/ Alert_Type a = AlertTypeSupplyCritical) /\
          forall x, x ∈ Metrics_TonerLevels m -> still_low x.2 = false))) \/
     (exists d t, d ∈ ds /\ Device_Serial d = Alert_DeviceSerial a /\
        Alert_Type a = AlertTypeDeviceError /\ Now t ∈ h /\ Since t (Device_LastSeen d) < 10 * Minute)).

Definition agent_cleared (h : list store_call) (a : Alert) : Prop :=
  exists l e, ListAgents (l, e) ∈ h /\
    ((forall x, x ∈ l -> Agent_AgentID x <> Alert_AgentID a) \/
     (exists x t, x ∈ l /\ Agent_AgentID x = Alert_AgentID a /\
        Alert_Type a = AlertTypeAgentOffline /\ Agent_Status x = "active" /\
        Now t ∈ h /\ Since t (Agent_LastHeartbeat x) < 5 * Minute)).

(** An alert is resolved only when the pass listed it as active and read what clears
    it. *)
Definition cleared_ok (h : list store_call) (a : Alert) : Prop :=
  (Alert_Scope a = AlertScopeDevice /\ Alert_DeviceSerial a <> "" /\ device_cleared h a) \/
  (Alert_Scope a = AlertScopeAgent /\ Alert_AgentID a <> "" /\ agent_cleared h a).

Definition resolved_ok (h : list store_call) (id : Z) : Prop :=
  exists a, listed_active h a /\ Alert_ID a = id /\ Alert_Status a = AlertStatusActive /\
    cleared_ok h a.

(** What every call of a pass satisfies. *)
Definition pass_ok (h : list store_call) (c : store_call) : Prop :=
  match c with
  | CreateAlert alert _ => created_ok h alert
  | ResolveAlert id _ => resolved_ok h id
  | _ => True
  end.

End Evaluator.

(** ** Lemmas *)

Section Lemmas.
Context {W : Type} (store : EvaluatorStore W) (local : Location) `{GoUnicode}.

Lemma device_condition_mono h h' rule d m :
  h `prefix_of` h' -> device_condition h rule d m -> device_condition h' rule d m.
Proof.
  unfold device_condition. intros Hp [(? & [?|(s & t & ? & ? & ?)])|Hrest]; [by auto| |tauto].
  left. split; [done|]. right. exists s, t. eauto with history.
Qed.

Lemma agent_condition_mono h h' rule a :
  h `prefix_of` h' -> agent_condition h rule a -> agent_condition h' rule a.
Proof.
  unfold agent_condition. intros Hp (? & [?|(t & ? & ?)]); [by auto|].
  split; [done|]. right. exists t. eauto with history.
Qed.

Lemma listed_rule_mono h h' r : h `prefix_of` h' -> listed_rule h r -> listed_rule h' r.
Proof. intros Hp (l & ? & ?). exists l. eauto with history. Qed.
Lemma listed_device_mono h h' r : h `prefix_of` h' -> listed_device h r -> listed_device h' r.
Proof. intros Hp (l & ? & ?). exists l. eauto with history. Qed.
Lemma listed_agent_mono h h' r : h `prefix_of` h' -> listed_agent h r -> listed_agent h' r.
Proof. intros Hp (l & ? & ?). exists l. eauto with history. Qed.
Lemma listed_active_mono h h' r : h `prefix_of` h' -> listed_active h r -> listed_active h' r.
Proof. intros Hp (l & ? & ?). exists l. eauto with history. Qed.

Lemma find_Some_elem {A} (f : A -> bool) l x : find f l = Some x -> x ∈ l /\ f x = true.
Proof. intros [? ?]%find_some. split; [by apply list_elem_of_In | done]. Qed.

Lemma evaluateDeviceRule_spec h rule d m :
  Spec pass_ok h (evaluateDeviceRule store rule d m)
    (fun h' o => o <> None -> device_condition h' rule d m).
Proof.
  unfold evaluateDeviceRule, now, device_condition.
  destruct (String.eqb (Rule_Type rule) AlertTypeDeviceOffline) eqn:E1.
  { apply String.eqb_eq in E1. destruct m as [s|].
    - spec_step; [done|]. spec_step. case_match eqn:Hlt; [|done]. reflect_bools. intros _.
      left. split; [done|]. right. eexists s, _. eauto with history.
    - spec_step. intros _. left. auto. }
  destruct (String.eqb (Rule_Type rule) AlertTypeSupplyLow) eqn:E2.
  { apply String.eqb_eq in E2. spec_step. destruct m as [s|]; [|done].
    destruct (find _ _) as [[color v]|] eqn:Hf; [|done]. intros _.
    apply find_Some_elem in Hf as [? ?]. right. left. eauto 10. }
  destruct (String.eqb (Rule_Type rule) AlertTypeSupplyCritical) eqn:E3.
  { apply String.eqb_eq in E3. spec_step. destruct m as [s|]; [|done].
    destruct (find _ _) as [[color v]|] eqn:Hf; [|done]. intros _.
    apply find_Some_elem in Hf as [? ?]. do 2 right. left. eauto 10. }
  destruct (String.eqb (Rule_Type rule) AlertTypeDeviceError) eqn:E4.
  { apply String.eqb_eq in E4. spec_step. destruct (find _ _) as [msg|] eqn:Hf; [|done].
    intros _. apply find_Some_elem in Hf as [? ?]. do 3 right. left. eauto. }
  destruct (String.eqb (Rule_Type rule) AlertTypeUsageHigh) eqn:E5; [|by spec_step].
  apply String.eqb_eq in E5. spec_step. destruct m as [s|]; [|done].
  case_match; [|done]. intros _. do 4 right. eauto.
Qed.

Lemma evaluateAgentRule_spec h rule a :
  Spec pass_ok h (evaluateAgentRule store rule a)
    (fun h' o => o <> None -> agent_condition h' rule a).
Proof.
  unfold evaluateAgentRule, now.
  destruct (String.eqb (Rule_Type rule) AlertTypeAgentOffline) eqn:E1; [|by spec_step].
  apply String.eqb_eq in E1. eapply (Spec_bind _ _ _ _ (fun h' (b : bool) =>
    b = true -> agent_condition h' rule a)).
  - destruct (negb _) eqn:Es.
    + spec_step. intros _. split; [done|]. left. by reflect_bools.
    + spec_step; [done|]. spec_step. intros Hlt. reflect_bools. split; [done|]. right.
      eexists. eauto with history.
  - intros h' [] Hp Hc; [|by spec_step]. spec_step; [done|]. spec_step. intros _.
    eapply agent_condition_mono; [|by apply Hc]. by apply prefix_app_r.
Qed.

(** The last guard and the creation, shared by both loops. *)
Lemma create_spec h (existing : gmap string Alert) inMaint rule tenant agent serial title message :
  (forall t, existing !! alert_key (new_alert rule tenant agent serial title message t) = None ->
     (inMaint = true -> isCriticalAlertType (Rule_Type rule) = true) ->
     forall h', h `prefix_of` h' ->
     created_ok h' (new_alert rule tenant agent serial title message t)) ->
  Spec pass_ok h
    (match existing !! alertKey (Rule_Type rule) (Rule_Scope rule) serial agent "" tenant with
     | Some _ => mret tt
     | None =>
         if inMaint && negb (isCriticalAlertType (Rule_Type rule)) then mret tt
         else t ← now store;
              _ ← CreateAlert_ store (new_alert rule tenant agent serial title message t);
              mret tt
     end) (fun _ _ => True).
Proof.
  intros Hok. destruct (existing !! _) eqn:Hk; [by spec_step|].
  destruct (inMaint && _) eqn:Hm; [by spec_step|].
  unfold now, CreateAlert_. spec_step; [done|]. spec_step; [|by spec_step].
  simpl. apply Hok; [done | | by apply prefix_app_r].
  intros ->. by apply negb_false_iff in Hm.
Qed.

(** What the pass knows when it starts to evaluate rules. *)
Definition pass_ready (h : list store_call) (rules : list AlertRule)
    (existing : gmap string Alert) (inMaint : bool) : Prop :=
  (forall r, r ∈ rules -> listed_rule h r /\ Rule_Enabled r = true) /\
  (exists active, ListActiveAlerts no_filters (active, None) ∈ h /\ existing = existing_keys active) /\
  (exists ws e, GetActiveAlertMaintenanceWindows (ws, e) ∈ h /\
     inMaint = Nat.ltb 0 (length ws) && hasGlobalMaintenanceWindow ws).

Lemma pass_ready_mono h h' rules existing inMaint :
  h `prefix_of` h' -> pass_ready h rules existing inMaint -> pass_ready h' rules existing inMaint.
Proof.
  intros Hp (Hr & (l & ? & ?) & (ws & e & ? & ?)). split_and!.
  - intros r Hin. destruct (Hr r Hin). eauto using listed_rule_mono.
  - exists l. eauto with history.
  - exists ws, e. eauto with history.
Qed.

Lemma existing_keys_None active k :
  existing_keys active !! k = None -> forall a, a ∈ active -> alert_key a <> k.
Proof.
  unfold existing_keys. intros Hk.
  assert (Hgen : forall m : gmap string Alert, fold_left (fun m a => <[alert_key a := a]> m) active m !! k = None ->
    m !! k = None /\ forall a, a ∈ active -> alert_key a <> k).
  { clear Hk. induction active as [|a l IH]; simpl; intros m Hk.
    - split; [done | intros a Ha; by apply not_elem_of_nil in Ha].
    - apply IH in Hk as [Hi Hl]. apply lookup_insert_None in Hi as [Hm Hne].
      split; [done|]. intros b [->|Hb]%elem_of_cons; [done | auto]. }
  by apply Hgen in Hk as [_ ?].
Qed.

Lemma hasGlobal_nonempty ws :
  hasGlobalMaintenanceWindow ws = true ->
  Nat.ltb 0 (length ws) && hasGlobalMaintenanceWindow ws = true.
Proof. by destruct ws. Qed.

Lemma unsuppressed_new h rules existing inMaint rule tenant agent serial title message t :
  pass_ready h rules existing inMaint ->
  existing !! alert_key (new_alert rule tenant agent serial title message t) = None ->
  (inMaint = true -> isCriticalAlertType (Rule_Type rule) = true) ->
  unsuppressed h (new_alert rule tenant agent serial title message t).
Proof.
  intros (_ & (active & Ha & ->) & (ws & e & Hw & ->)) Hk Hm. split.
  - exists active. split; [done | by apply existing_keys_None].
  - exists ws, e. split; [done|]. intros Hg. by apply Hm, hasGlobal_nonempty.
Qed.

Lemma device_rule_body_spec h rules existing inMaint d m e rule :
  pass_ready h rules existing inMaint -> rule ∈ rules ->
  listed_device h d -> GetLatestMetrics (Device_Serial d) (m, e) ∈ h ->
  Spec pass_ok h (device_rule_body store existing inMaint d m rule) (fun _ _ => True).
Proof.
  intros Hready Hin Hd Hm. unfold device_rule_body.
  destruct (negb (String.eqb _ _)) eqn:Hs; [by spec_step|]. reflect_bools.
  destruct (negb (matchesScope _ _ _ _)) eqn:Hsc; [by spec_step|]. reflect_bools.
  eapply Spec_bind; [apply evaluateDeviceRule_spec|]. intros h' [[title message]|] Hp Hc; [|by spec_step].
  apply create_spec. intros t Hk Hmaint h'' Hp'.
  assert (Hpp : h `prefix_of` h'') by (by etrans).
  pose proof (pass_ready_mono _ h'' _ _ _ Hpp Hready) as Hready'.
  exists rule. destruct (proj1 Hready' rule Hin) as [Hl He].
  split_and!; [done | done | done | by eapply unsuppressed_new |].
  left. exists d, m, e. split_and!; [by eapply listed_device_mono | by eauto with history | done | done | | done..].
  eapply device_condition_mono; [exact Hp' | by apply Hc].
Qed.

Lemma agent_rule_body_spec h rules existing inMaint a rule :
  pass_ready h rules existing inMaint -> rule ∈ rules -> listed_agent h a ->
  Spec pass_ok h (agent_rule_body store existing inMaint a rule) (fun _ _ => True).
Proof.
  intros Hready Hin Ha. unfold agent_rule_body.
  destruct (negb (String.eqb _ _)) eqn:Hs; [by spec_step|]. reflect_bools.
  destruct (negb (matchesAgentScope _ _)) eqn:Hsc; [by spec_step|]. reflect_bools.
  eapply Spec_bind; [apply evaluateAgentRule_spec|]. intros h' [[title message]|] Hp Hc; [|by spec_step].
  apply create_spec. intros t Hk Hmaint h'' Hp'.
  assert (Hpp : h `prefix_of` h'') by (by etrans).
  pose proof (pass_ready_mono _ h'' _ _ _ Hpp Hready) as Hready'.
  exists rule. destruct (proj1 Hready' rule Hin) as [Hl He].
  split_and!; [done | done | done | by eapply unsuppressed_new |].
  right. exists a. split_and!; [by eapply listed_agent_mono | done | done | | done..].
  eapply agent_condition_mono; [exact Hp' | by apply Hc].
Qed.

Lemma evaluateDeviceRules_spec h rules existing inMaint inQuiet :
  pass_ready h rules existing inMaint ->
  Spec pass_ok h (evaluateDeviceRules store rules existing inMaint inQuiet) (fun _ _ => True).
Proof.
  intros Hready. unfold evaluateDeviceRules. spec_step; [done|].
  destruct a as [devices [e|]]; [by spec_step|].
  apply Spec_for_each. intros h' d Hp Hd. spec_step; [done|].
  assert (Hp1 : h `prefix_of` h') by (etrans; [|exact Hp]; by apply prefix_app_r).
  apply Spec_for_each. intros h'' rule Hp' Hr. destruct a as [m e].
  eapply device_rule_body_spec; [|exact Hr| |].
  - eapply pass_ready_mono; [|exact Hready]. etrans; [exact Hp1|]. etrans; [|exact Hp']. by apply prefix_app_r.
  - exists devices. split; [|done].
    eapply prefix_elem_of; [etrans; [exact Hp|]; etrans; [|exact Hp']; by apply prefix_app_r |].
    eauto with history.
  - eapply prefix_elem_of; [exact Hp'|]. eauto with history.
Qed.

Lemma evaluateAgentRules_spec h rules existing inMaint inQuiet :
  pass_ready h rules existing inMaint ->
  Spec pass_ok h (evaluateAgentRules store rules existing inMaint inQuiet) (fun _ _ => True).
Proof.
  intros Hready. unfold evaluateAgentRules. spec_step; [done|].
  destruct a as [agents [e|]]; [by spec_step|].
  apply Spec_for_each. intros h' x Hp Hx. apply Spec_for_each. intros h'' rule Hp' Hr.
  assert (Hp1 : h ++ [ListAgents (agents, None)] `prefix_of` h'') by (by etrans).
  eapply agent_rule_body_spec; [|exact Hr|].
  - eapply pass_ready_mono; [|exact Hready]. etrans; [|exact Hp1]. by apply prefix_app_r.
  - exists agents. split; [|done]. eapply prefix_elem_of; [exact Hp1|]. eauto with history.
Qed.

Lemma find_None_all {A} (f : A -> bool) l : find f l = None -> forall x, x ∈ l -> f x = false.
Proof. intros Hf x Hx. eapply find_none; [exact Hf | by apply list_elem_of_In]. Qed.

Lemma isDeviceAlertCleared_spec h a :
  Spec pass_ok h (isDeviceAlertCleared store a) (fun h' b => b = true -> device_cleared h' a).
Proof.
  unfold isDeviceAlertCleared, now. spec_step; [done|]. destruct a0 as [ds e]. simpl.
  destruct (find _ ds) as [d|] eqn:Hf.
  2: { spec_step. intros _. exists ds, e. split; [by eauto with history|]. left. intros d Hd.
       apply String.eqb_neq. exact (find_None_all _ _ Hf d Hd). }
  apply find_Some_elem in Hf as [Hd Hs]. apply String.eqb_eq in Hs.
  spec_step; [done|]. destruct a0 as [m e']. simpl.
  destruct (String.eqb (Alert_Type a) AlertTypeDeviceOffline) eqn:E1.
  { apply String.eqb_eq in E1. destruct m as [s|]; [|by spec_step].
    spec_step; [done|]. spec_step. intros Hlt. reflect_bools.
    exists ds, e. split; [by rewrite !elem_of_app; left; left; right; left|]. right. left.
    exists s, e'. split; [rewrite <- Hs, elem_of_app; left; by eauto with history|].
    left. eexists. eauto with history. }
  destruct (_ || _) eqn:E2.
  { destruct m as [s|]; [|by spec_step]. spec_step. intros Hlow. reflect_bools.
    exists ds, e. split; [rewrite elem_of_app; left; by eauto with history|]. right. left.
    exists s, e'. split; [rewrite <- Hs; by eauto with history|]. right. split.
    - apply orb_true_iff in E2 as [?%String.eqb_eq|?%String.eqb_eq]; auto.
    - by apply existsb_false_forall. }
  destruct (String.eqb (Alert_Type a) AlertTypeDeviceError) eqn:E3; [|by spec_step].
  apply String.eqb_eq in E3. spec_step; [done|]. spec_step. intros Hlt. reflect_bools.
  exists ds, e. split; [by rewrite !elem_of_app; left; left; right; left|]. do 2 right.
  eexists d, _. split_and!; [done | done | done | by eauto with history | done].
Qed.

Lemma isAgentAlertCleared_spec h a :
  Spec pass_ok h (isAgentAlertCleared store a) (fun h' b => b = true -> agent_cleared h' a).
Proof.
  unfold isAgentAlertCleared, now. spec_step; [done|]. destruct a0 as [l e]. simpl.
  destruct (find _ l) as [x|] eqn:Hf.
  2: { spec_step. intros _. exists l, e. split; [by eauto with history|]. left. intros d Hd.
       apply String.eqb_neq. exact (find_None_all _ _ Hf d Hd). }
  apply find_Some_elem in Hf as [Hd Hs]. apply String.eqb_eq in Hs.
  destruct (String.eqb (Alert_Type a) AlertTypeAgentOffline) eqn:E1; [|by spec_step].
  apply String.eqb_eq in E1. destruct (negb _) eqn:Est; [by spec_step|]. reflect_bools.
  spec_step; [done|]. spec_step. intros Hlt. reflect_bools.
  exists l, e. split; [rewrite elem_of_app; left; by eauto with history|]. right.
  eexists x, _. split_and!; [done | done | done | done | by eauto with history | done].
Qed.

Lemma resolve_body_spec h a :
  listed_active h a -> Spec pass_ok h (resolve_body store a) (fun _ _ => True).
Proof.
  intros Ha. unfold resolve_body. destruct (negb _) eqn:Est; [by spec_step|]. reflect_bools.
  eapply (Spec_bind _ _ _ _ (fun h' (b : bool) => b = true -> cleared_ok h' a)).
  - unfold cleared_ok. destruct (String.eqb (Alert_Scope a) AlertScopeDevice) eqn:Es.
    + apply String.eqb_eq in Es. destruct (negb _) eqn:En; [|by spec_step]. reflect_bools.
      eapply Spec_weaken; [apply isDeviceAlertCleared_spec|]. intros h' b _ Hb Hbt. auto.
    + destruct (String.eqb (Alert_Scope a) AlertScopeAgent) eqn:Es'; [|by spec_step].
      apply String.eqb_eq in Es'. destruct (negb _) eqn:En; [|by spec_step]. reflect_bools.
      eapply Spec_weaken; [apply isAgentAlertCleared_spec|]. intros h' b _ Hb Hbt. auto.
  - intros h' [] Hp Hc; [|by spec_step]. spec_step; [|by spec_step]. simpl.
    exists a. split_and!; [by eapply listed_active_mono | done | done | by apply Hc].
Qed.

Lemma evaluate_spec : Spec pass_ok [] (evaluate store local) (fun _ _ => True).
Proof.
  unfold evaluate. spec_step; [done|]. spec_step; [done|]. rename a into ws, a0 into settings.
  eapply (Spec_bind _ _ _ _ (fun _ _ => True)).
  { unfold quiet_now, now. destruct settings.1; [|by spec_step].
    case_goal; [|by spec_step]. spec_step; [done|]. by spec_step. }
  intros h1 inQuiet Hp1 _. spec_step; [done|]. destruct a as [rules [e|]]; [by spec_step|].
  destruct (Nat.eqb _ 0); [by spec_step|]. spec_step; [done|].
  destruct a as [active [e|]]; [by spec_step|].
  set (h2 := _ ++ [ListActiveAlerts _ _]).
  assert (Hready : pass_ready h2 (List.filter Rule_Enabled rules) (existing_keys active)
                     (Nat.ltb 0 (length ws.1) && hasGlobalMaintenanceWindow ws.1)).
  { split_and!.
    - intros r [Hin He]%list_elem_of_In%filter_In. apply list_elem_of_In in Hin.
      split; [|done]. exists rules. split; [|done]. unfold h2. rewrite elem_of_app. left.
      eauto with history.
    - exists active. split; [|done]. unfold h2. eauto with history.
    - destruct ws as [ws e]. exists ws, e. split; [|done]. unfold h2.
      rewrite !elem_of_app. do 2 left. eapply prefix_elem_of; [exact Hp1|].
      rewrite !elem_of_app. left. right. by left. }
  eapply (Spec_bind _ _ _ _ (fun _ _ => True)).
  { destruct (hasDeviceRules _); [by apply evaluateDeviceRules_spec | by spec_step]. }
  intros h3 [] Hp3 _. eapply (Spec_bind _ _ _ _ (fun _ _ => True)).
  { destruct (hasAgentRules _); [|by spec_step].
    apply evaluateAgentRules_spec. by eapply pass_ready_mono. }
  intros h4 [] Hp4 _. apply Spec_for_each. intros h5 a Hp5 Ha. apply resolve_body_spec.
  eapply listed_active_mono; [|exists active; split; [|exact Ha]].
  - etrans; [exact Hp3 | by etrans].
  - unfold h2. eauto with history.
Qed.
End Lemmas.

(** ** Sample data

    A device, a rule and a store with fixed answers, on which the properties are
    instantiated. *)

Module Samples.
Definition device (serial : string) (msgs : list string) : Device :=
  {| Device_Serial := serial; Device_IP := "10.0.0.9"; Device_Manufacturer := ""; Device_Model := "M400";
     Device_Hostname := ""; Device_Firmware := ""; Device_MACAddress := ""; Device_SubnetMask := "";
     Device_Gateway := ""; Device_Consumables := []; Device_StatusMessages := msgs;
     Device_LastSeen := 0; Device_CreatedAt := 0; Device_FirstSeen := 0; Device_DiscoveryMethod := "";
     Device_AssetNumber := ""; Device_Location := ""; Device_Description := ""; Device_WebUIURL := "";
     Device_RawData := []; Device_DeviceType := ""; Device_SourceType := ""; Device_IsUSB := false;
     Device_InitialPageCount := 0; Device_PortName := ""; Device_DriverName := ""; Device_IsDefault := false;
     Device_IsShared := false; Device_SpoolerStatus := ""; Device_UsbWebUIAvailable := false;
     Device_AgentID := "a1" |}.

Definition metrics (t : Time) (levels : list (string * iface)) : MetricsSnapshot :=
  {| Metrics_ID := 1; Metrics_Serial := "S1"; Metrics_AgentID := "a1"; Metrics_Timestamp := t;
     Metrics_PageCount := 10; Metrics_ColorPages := 0; Metrics_MonoPages := 10; Metrics_ScanCount := 0;
     Metrics_FaxPages := 0; Metrics_TonerLevels := levels; Metrics_Tier := "raw" |}.

Definition rule (typ : string) (tenants : list string) : AlertRule :=
  {| Rule_ID := 7; Rule_Name := "r"; Rule_Description := ""; Rule_Enabled := true; Rule_Type := typ;
     Rule_Severity := "warning"; Rule_Scope := AlertScopeDevice; Rule_TenantIDs := tenants;
     Rule_SiteIDs := []; Rule_AgentIDs := []; Rule_ConditionJSON := ""; Rule_Threshold := float_of_Z 0;
     Rule_ThresholdUnit := ""; Rule_DurationMinutes := 0; Rule_ChannelIDs := [];
     Rule_EscalationPolicyID := None; Rule_CooldownMinutes := 0; Rule_CreatedAt := 0;
     Rule_UpdatedAt := 0; Rule_CreatedBy := "" |}.

(** A store that always gives the same answers, at a fixed time. *)
Definition store (devices : goret (list Device)) (m : option MetricsSnapshot)
    (rules : list AlertRule) (active : list Alert) (t : Time) : EvaluatorStore unit :=
  {| listAllDevices w := (devices, w); listAgents w := (([], None), w);
     getLatestMetrics _ w := ((m, None), w); listAlertRules w := ((rules, None), w);
     createAlert _ w := ((1, None), w); listActiveAlerts _ w := ((active, None), w);
     resolveAlert _ w := (None, w); getActiveAlertMaintenanceWindows w := (([], None), w);
     getAlertSettings w := ((None, None), w); timeNow w := (t, w) |}.

(** The alert of the sample rule on the sample device. *)
Definition alert (typ title message : string) (t : Time) : Alert :=
  new_alert (rule typ []) "" "a1" "S1" title message t.
End Samples.

(** ** Properties of a pass *)



(** Whatever the store answers, an alert that a pass resolves was listed as
    active, concerns a named device or agent, and either that device or agent was
    missing from a list the store answered, or the data read of it shows that the
    condition of the alert's type is over. *)
Theorem evaluate_resolves {W} (store : EvaluatorStore W) local `{GoUnicode} w id r :
  ResolveAlert id r ∈ trace (evaluate store local) w ->
  exists before after,
    trace (evaluate store local) w = before ++ ResolveAlert id r :: after /\
    resolved_ok before id.
Proof. exact (Spec_call_ok pass_ok _ _ w _ (evaluate_spec store local)). Qed.

Lemma evaluate_resolves_witness :
  let store := Samples.store ([], None) None [Samples.rule AlertTypeDeviceOffline []]
                 [Samples.alert AlertTypeDeviceOffline "" "" 0] 1000 in
  exists before after,
    trace (evaluate store UTC) tt = before ++ ResolveAlert 0 None :: after /\
    resolved_ok before 0.
Proof.
  apply evaluate_resolves. eapply (list_elem_of_lookup_2 _ 6). vm_compute. reflexivity.
Defined.

(** When the store cannot list the devices, the discarded error makes every
    device look gone: each active device alert is resolved. *)
Theorem failed_listing_resolves {W} (store : EvaluatorStore W) active a w :
  (forall w', exists e, fst (listAllDevices store w') = ([], Some e)) ->
  a ∈ active -> Alert_Status a = AlertStatusActive ->
  Alert_Scope a = AlertScopeDevice -> Alert_DeviceSerial a <> "" ->
  exists r, ResolveAlert (Alert_ID a) r ∈ trace (autoResolveCleared store active) w.
Proof.
  intros Hfail Ha Hst Hsc Hser.
  destruct (for_each_calls active (resolve_body store) a w Ha) as [w' Hw'].
  destruct (listAllDevices store w') as [ans w1] eqn:Hl.
  destruct (Hfail w') as [e He]. rewrite Hl in He. simpl in He. subst ans.
  exists (fst (resolveAlert store (Alert_ID a) w1)). apply Hw'.
  unfold resolve_body. rewrite Hst, Hsc, (proj2 (String.eqb_neq _ _) Hser). simpl.
  unfold trace, isDeviceAlertCleared. cbn.
  unfold mbind, M_bind, call. simpl. rewrite Hl. simpl.
  destruct (resolveAlert store (Alert_ID a) w1) as [r w2]. simpl. by right; left.
Qed.

Lemma failed_listing_resolves_witness :
  let store := Samples.store ([], Some "database is locked") None [] [] 1000 in
  exists r, ResolveAlert 0 r ∈ trace (autoResolveCleared store
    [Samples.alert AlertTypeDeviceError "" "" 0]) tt.
Proof.
  apply (failed_listing_resolves _ _ (Samples.alert AlertTypeDeviceError "" "" 0));
    [by intros w'; exists "database is locked" | by left | done | done | done].
Defined.

(** A supply level that is not below 20 but within the rule's threshold (such
    as exactly 20 with the default threshold) both triggers the rule and clears its
    alert, so that an alert is created and resolved on the same data. *)
Theorem supply_alert_flaps {W} (store : EvaluatorStore W) `{GoUnicode} rule d m e a w :
  Rule_Type rule = AlertTypeSupplyLow -> Alert_Type a = AlertTypeSupplyLow ->
  e ∈ Metrics_TonerLevels m -> level_triggers (threshold_or rule 20) e.2 = true ->
  (forall x, x ∈ Metrics_TonerLevels m -> still_low x.2 = false) ->
  Alert_DeviceSerial a = Device_Serial d ->
  (forall w', fst (listAllDevices store w') = ([d], None)) ->
  (forall w', fst (getLatestMetrics store (Device_Serial d) w') = (Some m, None)) ->
  value (evaluateDeviceRule store rule d (Some m)) w <> None /\
  value (isDeviceAlertCleared store a) w = true.
Proof.
  intros Hr Ha He Htr Hlow Hser Hlist Hmet. split.
  - unfold evaluateDeviceRule. rewrite Hr. simpl.
    destruct (find _ _) as [[color v]|] eqn:Hf; [done|].
    pose proof (find_None_all _ _ Hf e He) as Hn. simpl in Hn. by rewrite Htr in Hn.
  - unfold isDeviceAlertCleared, value, mbind, M_bind, call.
    specialize (Hlist w). destruct (listAllDevices store w) as [ans w1]. simpl in Hlist. subst ans.
    simpl. rewrite Hser, String.eqb_refl.
    specialize (Hmet w1). destruct (getLatestMetrics store _ w1) as [ans w2]. simpl in Hmet. subst ans.
    rewrite Ha. simpl. apply negb_true_iff. by apply existsb_false_forall.
Qed.

Lemma supply_alert_flaps_witness :
  let m := Samples.metrics 0 [("black", IInt 20)] in
  let store := Samples.store ([Samples.device "S1" []], None) (Some m) [] [] 1000 in
  value (evaluateDeviceRule store (Samples.rule AlertTypeSupplyLow []) (Samples.device "S1" []) (Some m)) tt
    <> None /\
  value (isDeviceAlertCleared store (Samples.alert AlertTypeSupplyLow "" "" 0)) tt = true.
Proof.
  apply (supply_alert_flaps _ _ _ _ ("black", IInt 20));
    [done | done | by left | by vm_compute | | done | done | done].
  intros x ->%list_elem_of_singleton. by vm_compute.
Defined.

(** A device rule restricted to tenants or to sites never alerts, because the
    pass compares its filter with the empty name: on rules that are all restricted
    in this way, the evaluation of the devices creates no alert. *)
Theorem restricted_device_rules_never_alert {W} (store : EvaluatorStore W) `{GoUnicode}
    rules existing inMaint inQuiet w alert res :
  (forall r, r ∈ rules ->
     (Rule_TenantIDs r <> [] /\ "" ∉ Rule_TenantIDs r) \/ (Rule_SiteIDs r <> [] /\ "" ∉ Rule_SiteIDs r)) ->
  CreateAlert alert res ∉ trace (evaluateDeviceRules store rules existing inMaint inQuiet) w.
Proof.
  intros Hrules Hc.
  assert (Hno : forall l, l <> [] -> "" ∉ l -> filter_ok l "" = false).
  { intros l Hne Hnin. unfold filter_ok. destruct l as [|x l]; [done|]. cbn [length Nat.ltb Nat.leb].
    apply not_true_is_false. by rewrite mem_str_spec. }
  apply (Spec_call_ok (fun _ c => match c with CreateAlert _ _ => False | _ => True end)
           _ (fun _ _ => True)) in Hc as (? & ? & _ & Hok); [exact Hok|].
  unfold evaluateDeviceRules. spec_step; [done|]. destruct a as [ds [e|]]; [by spec_step|].
  apply Spec_for_each. intros h' d _ _. spec_step; [done|].
  apply Spec_for_each. intros h'' r _ Hr. unfold device_rule_body.
  destruct (negb (String.eqb _ _)); [by spec_step|].
  replace (matchesScope r "" "" (Device_AgentID d)) with false; [by spec_step|].
  unfold matchesScope. destruct (Hrules r Hr) as [[H1 H2]|[H1 H2]]; rewrite (Hno _ H1 H2); simpl;
    by repeat case_match.
Qed.

Lemma restricted_device_rules_never_alert_witness :
  CreateAlert (Samples.alert AlertTypeDeviceOffline "t" "m" 1000) (1, None) ∉
    trace (evaluateDeviceRules (Samples.store ([Samples.device "S1" []], None) None [] [] 1000)
             [Samples.rule AlertTypeDeviceOffline ["acme"]] ∅ false false) tt.
Proof.
  apply restricted_device_rules_never_alert.
  intros r ->%list_elem_of_singleton. left. split; [done|]. simpl.
  by intros [=]%list_elem_of_singleton.
Defined.
