(* ===== verification/EvaluatorLoop.v ===== *)
(** * The life cycle of the alert evaluator ([server/alerts/evaluator.go]: [Start],
    [Stop], [runLoop]).

    [Start] and [Stop] hold the mutex for the part that changes the state, so each
    is one step. A loop reads the field [stopChan] again, without the mutex, every
    time it comes to its [select]. *)
From S2P Require Import Prelude GoTime.

(** ** State *)

(** Where a loop goroutine is: in [evaluate], blocked in [select] on a channel, or
    returned. *)
Inductive loop_state :=
| Evaluating
| Waiting (ch : nat)
| Exited.

#[export] Instance loop_state_eq_dec : EqDecision loop_state.
Proof. solve_decision. Defined.

(** Channels are numbered in the order of their creation; [closed] has their
    closed flags. [loops] are the goroutines in the order they were started. *)
Record Evaluator := {
  interval : Duration;
  running : bool;
  stopChan : nat;
  closed : list bool;
  loops : list loop_state;
}.

Definition NewEvaluator (configInterval : Duration) : Evaluator :=
  {| interval := if configInterval =? 0 then 60 * Second else configInterval;
     running := false; stopChan := 0; closed := [false]; loops := [] |}.

(** ** Operations *)

Definition Start (e : Evaluator) : Evaluator :=
  if running e then e
  else {| interval := interval e; running := true; stopChan := length (closed e);
          closed := closed e ++ [false]; loops := loops e ++ [Evaluating] |}.

(** [close] of a closed channel panics. *)
Definition Stop (e : Evaluator) : result string Evaluator :=
  if negb (running e) then Ok e
  else match closed e !! stopChan e with
       | Some false =>
           Ok {| interval := interval e; running := false; stopChan := stopChan e;
                 closed := <[stopChan e := true]> (closed e); loops := loops e |}
       | _ => Err "close of closed channel"
       end.

Definition set_loop (i : nat) (l : loop_state) (e : Evaluator) : Evaluator :=
  {| interval := interval e; running := running e; stopChan := stopChan e;
     closed := closed e; loops := <[i := l]> (loops e) |}.

(** One step of [runLoop]: [evaluate] returns and the loop enters [select]; the
    ticker fires; the stop channel is closed. When both are ready Go picks either. *)
Inductive runLoop (i : nat) : Evaluator -> Evaluator -> Prop :=
| run_wait e :
    loops e !! i = Some Evaluating -> runLoop i e (set_loop i (Waiting (stopChan e)) e)
| run_tick e ch :
    loops e !! i = Some (Waiting ch) -> runLoop i e (set_loop i Evaluating e)
| run_stop e ch :
    loops e !! i = Some (Waiting ch) -> closed e !! ch = Some true ->
    runLoop i e (set_loop i Exited e).

Inductive step : Evaluator -> Evaluator -> Prop :=
| step_start e : step e (Start e)
| step_stop e e' : Stop e = Ok e' -> step e e'
| step_loop i e e' : runLoop i e e' -> step e e'.

Inductive reachable (d : Duration) : Evaluator -> Prop :=
| reach_new : reachable d (NewEvaluator d)
| reach_step e e' : reachable d e -> step e e' -> reachable d e'.

(** ** The invariant *)

(** While running, the current channel is open and the older ones are closed or
    were never used; when stopped, every channel a loop waits on is closed, and so
    is the one a loop that is still evaluating will wait on. *)
Definition lifecycle_ok (e : Evaluator) : Prop :=
  (stopChan e < length (closed e))%nat /\
  (running e = true -> closed e !! stopChan e = Some false) /\
  (running e = false -> loops e = [] \/ closed e !! stopChan e = Some true) /\
  (forall i ch, loops e !! i = Some (Waiting ch) ->
     ch = stopChan e \/ closed e !! ch = Some true).

Lemma Start_ok e : lifecycle_ok e -> lifecycle_ok (Start e).
Proof.
  intros (Hlt & Hrun & Hstop & Hw). unfold Start. destruct (running e) eqn:Hr.
  { split_and!; [done | by intros _; apply Hrun | by rewrite Hr | done]. }
  split_and!; simpl.
  - rewrite length_app. simpl. lia.
  - intros _. by rewrite lookup_app_r, Nat.sub_diag by lia.
  - done.
  - intros i ch Hi. right. apply lookup_app_Some in Hi as [Hi|[_ Hi]].
    + assert (Hc : closed e !! ch = Some true).
      { destruct (Hstop eq_refl) as [Hnil|Hc]; [by rewrite Hnil in Hi|].
        by destruct (Hw i ch Hi) as [->|]. }
      by apply lookup_app_l_Some.
    + by apply list_lookup_singleton_Some in Hi as [_ ?].
Qed.

Lemma Stop_ok e : lifecycle_ok e -> exists e', Stop e = Ok e' /\ lifecycle_ok e'.
Proof.
  intros (Hlt & Hrun & Hstop & Hw). unfold Stop. destruct (running e) eqn:Hr; simpl.
  2: { exists e. split; [done|]. split_and!; [done | by rewrite Hr | by intros _; apply Hstop | done]. }
  rewrite Hrun by done. eexists. split; [done|]. split_and!; simpl.
  - by rewrite length_insert.
  - done.
  - intros _. right. by apply list_lookup_insert_eq.
  - intros i ch Hi. destruct (Hw i ch Hi) as [->|Hc]; [by left|]. right.
    destruct (decide (ch = stopChan e)) as [->|Hne]; [by apply list_lookup_insert_eq|].
    by rewrite list_lookup_insert_ne by done.
Qed.

Lemma set_loop_ok i l e :
  lifecycle_ok e -> (forall ch, l = Waiting ch -> ch = stopChan e \/ closed e !! ch = Some true) ->
  lifecycle_ok (set_loop i l e).
Proof.
  intros (Hlt & Hrun & Hstop & Hw) Hl. split_and!; simpl; [done | done | |].
  - intros Hr. destruct (Hstop Hr) as [->|Hc]; [by left | by right].
  - intros j ch Hj. destruct (decide (i = j)) as [<-|Hne].
    + assert (Hlen : (i < length (loops e))%nat).
      { rewrite <- (length_insert (loops e) i l). by eapply lookup_lt_Some. }
      rewrite list_lookup_insert_eq in Hj by done. injection Hj as Hj. by apply Hl.
    + rewrite list_lookup_insert_ne in Hj by done. by eapply Hw.
Qed.

Lemma step_ok e e' : lifecycle_ok e -> step e e' -> lifecycle_ok e'.
Proof.
  intros Hok Hs. inversion Hs as [e0 | e0 e1 Hstop | i e0 e1 Hrun]; subst.
  - by apply Start_ok.
  - destruct (Stop_ok _ Hok) as (e1 & He1 & Hok1). rewrite Hstop in He1. by injection He1 as <-.
  - inversion Hrun as [e0 Hi | e0 ch Hi | e0 ch Hi Hc]; subst; apply set_loop_ok; try done.
    intros ch [= ->]. by left.
Qed.

Lemma reachable_ok d e : reachable d e -> lifecycle_ok e.
Proof.
  induction 1 as [|e e' _ IH Hs]; [|by eapply step_ok].
  split_and!; simpl; [lia | done | by left | done].
Qed.

(** ** Properties *)

(** In every reachable state [Stop] succeeds without closing a channel twice,
    and leaves a state in which every loop that waits, waits on a closed channel,
    and a loop that is evaluating will. *)
Theorem Stop_reaches_loops d e :
  reachable d e ->
  exists e', Stop e = Ok e' /\ running e' = false /\
    (forall i ch, loops e' !! i = Some (Waiting ch) -> closed e' !! ch = Some true) /\
    (forall i, loops e' !! i = Some Evaluating -> closed e' !! stopChan e' = Some true).
Proof.
  intros Hr%reachable_ok. destruct (Stop_ok e Hr) as (e' & Hs & Hok). exists e'.
  assert (Hrun : running e' = false).
  { unfold Stop in Hs. destruct (running e) eqn:Hre; simpl in Hs.
    - destruct (closed e !! stopChan e) as [[]|]; try done. by injection Hs as <-.
    - by injection Hs as <-. }
  destruct Hok as (_ & _ & Hstop & Hw). split_and!; [done | done | |].
  - intros i ch Hi. destruct (Hstop Hrun) as [Hnil|Hc]; [by rewrite Hnil in Hi|].
    by destruct (Hw i ch Hi) as [->|].
  - intros i Hi. by destruct (Hstop Hrun) as [Hnil|Hc]; [rewrite Hnil in Hi|].
Qed.

(** Start, stop during the first pass, start again, and let both passes end. *)
Lemma restart_run d :
  reachable d {| interval := interval (NewEvaluator d); running := true; stopChan := 2;
                 closed := [false; true; false]; loops := [Waiting 2; Waiting 2] |}.
Proof.
  pose proof (reach_step _ _ _ (reach_new d) (step_start _)) as H1.
  assert (H2 : exists e, Stop (Start (NewEvaluator d)) = Ok e) by (eexists; reflexivity).
  destruct H2 as [e2 Hs]. pose proof (reach_step _ _ _ H1 (step_stop _ _ Hs)) as H2.
  injection Hs as <-.
  pose proof (reach_step _ _ _ H2 (step_start _)) as H3.
  assert (H4 : reachable d (set_loop 0 (Waiting 2) (Start
    {| interval := interval (NewEvaluator d); running := false; stopChan := 1;
       closed := [false; true]; loops := [Evaluating] |}))).
  { eapply reach_step; [exact H3 | apply (step_loop 0)]. by apply run_wait. }
  eapply reach_step; [exact H4 | apply (step_loop 1)]. by apply run_wait.
Qed.

Lemma Stop_reaches_loops_witness :
  exists e', Stop {| interval := 60 * Second; running := true; stopChan := 2;
                 closed := [false; true; false]; loops := [Waiting 2; Waiting 2] |} = Ok e' /\
    running e' = false /\
    (forall i ch, loops e' !! i = Some (Waiting ch) -> closed e' !! ch = Some true) /\
    (forall i, loops e' !! i = Some Evaluating -> closed e' !! stopChan e' = Some true).
Proof. apply (Stop_reaches_loops 0), (restart_run 0). Defined.

(** A [Stop] followed by a [Start] while a pass is running loses the stop: the old
    loop picks up the new channel, and two loops evaluate the same rules from then
    on. *)
Theorem restart_leaks_loop d :
  exists e, reachable d e /\ running e = true /\
    loops e = [Waiting (stopChan e); Waiting (stopChan e)] /\ closed e !! stopChan e = Some false.
Proof. eexists. split; [apply restart_run | done]. Qed.
