(* ===== verification/Notifier.v ===== *)
(** * The notification dispatcher ([server/alerts/notifier.go]).

    [NotifyForAlert] decides which channels of an alert's rule are notified. It runs
    against the store, the clock and [dispatchToChannel]'s senders (operations of
    the environment, because what they do is network input and output), and owns
    the map of the last notification times, which every method uses under its
    mutex: the map is the second component of the state, and each look-up and
    update is recorded in the history. The validation of addresses and headers is
    modelled as functions. *)
From S2P Require Import Prelude GoStrings GoTime GoNet Effects AlertTypes Evaluator.
From Stdlib Require Import Ascii.

(** ** Sanitizing *)

(** [strings.ReplaceAll(s, old, new)] for a one-byte [old]. *)
Fixpoint ReplaceByte (s : string) (old : ascii) (new : string) : string :=
  match s with
  | EmptyString => EmptyString
  | String c s' =>
      if Ascii.eqb c old then (new +:+ ReplaceByte s' old new)%string
      else String c (ReplaceByte s' old new)
  end.

Definition CR : ascii := "013"%char.
Definition LF : ascii := "010"%char.
Definition NUL : ascii := "000"%char.

Definition sanitizeEmailHeader (s : string) : string :=
  let s := ReplaceByte s CR " " in
  let s := ReplaceByte s LF " " in
  let s := ReplaceByte s NUL "" in
  TrimSpace s.

Definition validateAndSanitizeEmail (email : string) : result string string :=
  if bool_decide (is_Some (IndexAny email [CR; LF; NUL])) then
    Err "email address contains invalid characters"
  else if negb (Contains email "@") || Nat.ltb (String.length email) 3 then
    Err "invalid email address format"
  else Ok (sanitizeEmailHeader email).

(** ** Private addresses *)

Definition privateRanges : list string :=
  ["10.0.0.0/8"; "172.16.0.0/12"; "192.168.0.0/16"; "fc00::/7"; "fe80::/10"; "169.254.0.0/16"].

(** [net.IP.IsLoopback], [IsLinkLocalUnicast], [IsLinkLocalMulticast] *)
Definition IsLoopback (ip : list Z) : bool :=
  match To4 ip with
  | Some ip4 => nth 0 ip4 0 =? 127
  | None => bool_decide (ip = replicate 15 0 ++ [1])
  end.
Definition IsLinkLocalUnicast (ip : list Z) : bool :=
  match To4 ip with
  | Some ip4 => (nth 0 ip4 0 =? 169) && (nth 1 ip4 0 =? 254)
  | None => Nat.eqb (length ip) 16 && (nth 0 ip 0 =? 254) && (Z.land (nth 1 ip 0) 192 =? 128)
  end.
Definition IsLinkLocalMulticast (ip : list Z) : bool :=
  match To4 ip with
  | Some ip4 => (nth 0 ip4 0 =? 224) && (nth 1 ip4 0 =? 0) && (nth 2 ip4 0 =? 0)
  | None => Nat.eqb (length ip) 16 && (nth 0 ip 0 =? 255) && (Z.land (nth 1 ip 0) 15 =? 2)
  end.

Definition isPrivateIP (ip : list Z) : bool :=
  if IsLoopback ip then true
  else if IsLinkLocalUnicast ip || IsLinkLocalMulticast ip then true
  else existsb (fun cidr =>
         match ParseCIDR cidr with
         | None => false
         | Some network => NetContains network ip
         end) privateRanges.

(** ** The environment *)

Inductive notify_call :=
| CallGetAlertSettings (r : goret (option AlertSettings))
| CallGetAlertRule (id : Z) (r : result string AlertRule)
| CallGetNotificationChannel (id : Z) (r : result string NotificationChannel)
| CallUpdateAlertNotificationStatus (id sent : Z) (lastNotified : Time) (err : option string)
| CallSend (kind : string) (channel : NotificationChannel) (alert : Alert) (err : option string)
| CallNow (t : Time)
| LookedUp (key : string) (r : option Time)
| Recorded (key : string) (t : Time).

Record NotifierStore (W : Type) := {
  storeGetNotificationChannel : Z -> W -> result string NotificationChannel * W;
  storeGetAlertRule : Z -> W -> result string AlertRule * W;
  storeUpdateAlertNotificationStatus : Z -> Z -> Time -> W -> option string * W;
  storeGetAlertSettings : W -> goret (option AlertSettings) * W;
  clockNow : W -> Time * W;
  (** [json.Unmarshal] of the channel's configuration: its error. *)
  unmarshalConfig : string -> option string;
  (** The sender of a kind of channel: its error. *)
  send : string -> NotificationChannel -> Alert -> W -> option string * W;
}.
Arguments storeGetNotificationChannel {W}. Arguments storeGetAlertRule {W}.
Arguments storeUpdateAlertNotificationStatus {W}. Arguments storeGetAlertSettings {W}.
Arguments clockNow {W}. Arguments unmarshalConfig {W}. Arguments send {W}.

Section Notifier.
  Context {W : Type} (store : NotifierStore W) (local : Location).

(** The environment and the map [lastNotified]. *)
Local Notation state := (W * gmap string Time)%type.
Local Notation M := (M notify_call state).

Definition on_env {A} (op : W -> A * W) : state -> A * state :=
  fun s => let '(a, w) := op s.1 in (a, (w, s.2)).

Definition notifier_now : M Time := call CallNow (on_env (clockNow store)).

(** [fmt.Sprintf("%d:%d", channelID, alertID)] *)
Definition notify_key (channelID alertID : Z) : string :=
  (pretty channelID +:+ ":" +:+ pretty alertID)%string.

Definition shouldNotify (channelID alertID rateLimitMins : Z) : M bool :=
  if rateLimitMins <=? 0 then mret true
  else
    let key := notify_key channelID alertID in
    last ← call (LookedUp key) (fun s => (s.2 !! key, s));
    match last with
    | None => mret true
    | Some lastTime => t ← notifier_now; mret (dmul rateLimitMins Minute <=? Since t lastTime)
    end.

Definition recordNotification (channelID alertID : Z) : M unit :=
  let key := notify_key channelID alertID in
  t ← notifier_now;
  call (fun _ => Recorded key t) (fun s => (tt, (s.1, <[key := t]> s.2))).

Definition sender_kinds : list string :=
  [ChannelTypeEmail; ChannelTypeWebhook; ChannelTypeSlack; ChannelTypeTeams; ChannelTypePagerDuty;
   ChannelTypeDiscord; ChannelTypeTelegram; ChannelTypePushover; ChannelTypeNtfy].

Definition dispatchToChannel (channel : NotificationChannel) (alert : Alert) : M (option string) :=
  match (if negb (String.eqb (Channel_ConfigJSON channel) "")
         then unmarshalConfig store (Channel_ConfigJSON channel) else None) with
  | Some e => mret (Some ("failed to parse channel config: " +:+ e)%string)
  | None =>
      if mem_str (Channel_Type channel) sender_kinds then
        call (CallSend (Channel_Type channel) channel alert)
             (on_env (send store (Channel_Type channel) channel alert))
      else mret (Some ("unsupported notification type: " +:+ Channel_Type channel)%string)
  end.

(** [60 / channel.RateLimitPerHour] in integers, 0 when there is no limit. *)
Definition rate_limit_mins (channel : NotificationChannel) : Z :=
  if 0 <? Channel_RateLimitPerHour channel then Z.quot 60 (Channel_RateLimitPerHour channel) else 0.

(** The body of the loop over the channels: the number of notifications sent so far
    and the last error. *)
Definition notify_channel (alert : Alert) (acc : Z * option string) (channelID : Z) :
    M (Z * option string) :=
  let '(notificationsSent, lastErr) := acc in
  c ← call (CallGetNotificationChannel channelID) (on_env (storeGetNotificationChannel store channelID));
  match c with
  | Err _ => mret acc
  | Ok channel =>
      if negb (Channel_Enabled channel) then mret acc
      else
        ok ← shouldNotify (Channel_ID channel) (Alert_ID alert) (rate_limit_mins channel);
        if negb ok then mret acc
        else
          err ← dispatchToChannel channel alert;
          match err with
          | Some e => mret (notificationsSent, Some e)
          | None =>
              _ ← recordNotification (Channel_ID channel) (Alert_ID alert);
              mret (notificationsSent + 1, lastErr)
          end
  end.

Fixpoint notify_channels (alert : Alert) (acc : Z * option string) (ids : list Z) :
    M (Z * option string) :=
  match ids with
  | [] => mret acc
  | id :: rest => acc' ← notify_channel alert acc id; notify_channels alert acc' rest
  end.

(** [isInQuietHours(settings)], reading the clock only when quiet hours are on. *)
Definition notifier_quiet (settings : option AlertSettings) : M bool :=
  match settings with
  | Some s =>
      if Quiet_Enabled (Settings_QuietHours s)
      then t ← notifier_now; mret (isInQuietHours local settings t) else mret false
  | None => mret false
  end.

Definition NotifyForAlert (alert : Alert) : M (option string) :=
  if Alert_RuleID alert =? 0 then mret None
  else
    settings ← call CallGetAlertSettings (on_env (storeGetAlertSettings store));
    quiet ← notifier_quiet settings.1;
    if quiet && negb (isCriticalAlertType (Alert_Type alert)) then mret None
    else
      r ← call (CallGetAlertRule (Alert_RuleID alert))
               (on_env (storeGetAlertRule store (Alert_RuleID alert)));
      match r with
      | Err e => mret (Some ("failed to get alert rule: " +:+ e)%string)
      | Ok rule =>
          if Nat.eqb (length (Rule_ChannelIDs rule)) 0 then mret None
          else
            acc ← notify_channels alert (0, None) (Rule_ChannelIDs rule);
            let '(notificationsSent, lastErr) := acc in
            if 0 <? notificationsSent then
              t ← notifier_now;
              let total := wrap64 (Alert_NotificationsSent alert + notificationsSent) in
              _ ← call (CallUpdateAlertNotificationStatus (Alert_ID alert) total t)
                       (on_env (storeUpdateAlertNotificationStatus store (Alert_ID alert) total t));
              mret lastErr
            else mret lastErr
      end.

(** [TestChannel]: no rate limit and no quiet hours. *)
Definition TestChannel (channel : NotificationChannel) (alert : Alert) : M (option string) :=
  dispatchToChannel channel alert.

(** ** What the history says *)

(** The rate limit let the notification through. Limits of 1 to 60 an hour space the
    notifications of one alert on one channel by [60 / limit] whole minutes: nothing
    was recorded for this channel and alert, or the recorded time is at least that
    far in the past. No limit, and a limit above 60 an hour, space nothing. *)
Definition within_rate (h : list notify_call) (channel : NotificationChannel) (alert : Alert) : Prop :=
  let limit := Channel_RateLimitPerHour channel in
  1 <= limit <= 60 ->
  LookedUp (notify_key (Channel_ID channel) (Alert_ID alert)) None ∈ h \/
  exists last t, LookedUp (notify_key (Channel_ID channel) (Alert_ID alert)) (Some last) ∈ h /\
    CallNow t ∈ h /\ 60 / limit * Minute <= Since t last.

(** The interval of an effective limit, in minutes and in nanoseconds. *)
Lemma rate_limit_mins_effective channel :
  1 <= Channel_RateLimitPerHour channel <= 60 ->
  rate_limit_mins channel = 60 / Channel_RateLimitPerHour channel /\
  0 < rate_limit_mins channel /\
  dmul (rate_limit_mins channel) Minute = 60 / Channel_RateLimitPerHour channel * Minute.
Proof.
  intros Hl. unfold rate_limit_mins. rewrite (proj2 (Z.ltb_lt _ _)), Z.quot_div_nonneg by lia.
  assert (Hq : 1 <= 60 / Channel_RateLimitPerHour channel <= 60).
  { split; [apply Z.div_le_lower_bound; lia | apply Z.div_le_upper_bound; nia]. }
  split_and!; [done | lia |]. unfold dmul.
  rewrite wrap64_id; [done|]. unfold in_int64, int64_min, int64_max, Minute. lia.
Qed.

(** It was not a quiet hour, or the type of the alert is critical. *)
Definition quiet_respected (h : list notify_call) (alert : Alert) : Prop :=
  isCriticalAlertType (Alert_Type alert) = true \/
  exists settings e, CallGetAlertSettings (settings, e) ∈ h /\
    (match settings with Some s => Quiet_Enabled (Settings_QuietHours s) = false | None => True end \/
     exists t, CallNow t ∈ h /\ isInQuietHours local settings t = false).

Definition send_ok (h : list notify_call) (kind : string) (channel : NotificationChannel)
    (alert : Alert) : Prop :=
  Alert_RuleID alert <> 0 /\ quiet_respected h alert /\ within_rate h channel alert /\
  kind = Channel_Type channel /\ Channel_Enabled channel = true /\
  exists rule id, CallGetAlertRule (Alert_RuleID alert) (Ok rule) ∈ h /\
    id ∈ Rule_ChannelIDs rule /\ CallGetNotificationChannel id (Ok channel) ∈ h.

Definition notify_ok (alert : Alert) (h : list notify_call) (c : notify_call) : Prop :=
  match c with
  | CallSend kind channel alert' _ => alert' = alert /\ send_ok h kind channel alert
  | _ => True
  end.

(** The notifications that went out, in a history. *)
Definition sent_count (tr : list notify_call) : Z :=
  Z.of_nat (length (List.filter
    (fun c => match c with CallSend _ _ _ None => true | _ => false end) tr)).

End Notifier.

(** ** Lemmas *)

Section Lemmas.
Context {W : Type} (store : NotifierStore W) (local : Location) (alert : Alert).

Lemma shouldNotify_spec h channel :
  Spec (notify_ok local alert) h
    (shouldNotify store (Channel_ID channel) (Alert_ID alert) (rate_limit_mins channel))
    (fun h' b => b = true -> within_rate h' channel alert).
Proof.
  unfold shouldNotify, within_rate, notifier_now.
  destruct (_ <=? 0) eqn:El.
  { spec_step. intros _ (_ & Hpos & _)%rate_limit_mins_effective. reflect_bools. lia. }
  spec_step; [done|]. destruct a as [last|].
  - spec_step; [done|]. spec_step. intros Hle (_ & _ & <-)%rate_limit_mins_effective.
    reflect_bools. right. eexists last, _. split; [by eauto with history|].
    eauto with history.
  - spec_step. intros _ _. left. eauto with history.
Qed.

Lemma quiet_respected_mono h h' :
  h `prefix_of` h' -> quiet_respected local h alert -> quiet_respected local h' alert.
Proof.
  intros Hp [?|(s & e & Hs & [?|(t & Ht & ?)])]; [by left | |]; right; exists s, e;
    (split; [by eauto with history|]); [by left|]. right. exists t. eauto with history.
Qed.

Lemma within_rate_mono h h' channel :
  h `prefix_of` h' -> within_rate h channel alert -> within_rate h' channel alert.
Proof.
  intros Hp Hr Hl. destruct (Hr Hl) as [?|(l & t & ? & ? & ?)]; [left; by eauto with history |].
  right. exists l, t. eauto with history.
Qed.

(** What is known when the channels are gone through. *)
Definition notify_ready (h : list notify_call) (rule : AlertRule) : Prop :=
  Alert_RuleID alert <> 0 /\ quiet_respected local h alert /\
  CallGetAlertRule (Alert_RuleID alert) (Ok rule) ∈ h.

Lemma notify_ready_mono h h' rule : h `prefix_of` h' -> notify_ready h rule -> notify_ready h' rule.
Proof.
  intros Hp (? & ? & ?). split_and!; [done | by eapply quiet_respected_mono | by eauto with history].
Qed.

Lemma notify_channel_spec h rule acc id :
  notify_ready h rule -> id ∈ Rule_ChannelIDs rule ->
  Spec (notify_ok local alert) h (notify_channel store alert acc id) (fun _ _ => True).
Proof.
  intros Hready Hid. unfold notify_channel. destruct acc as [n lastErr].
  spec_step; [done|]. destruct a as [channel|e]; [|by spec_step].
  destruct (negb (Channel_Enabled channel)) eqn:Hen; [by spec_step|]. reflect_bools.
  set (h0 := h ++ _). assert (Hp0 : h `prefix_of` h0) by by apply prefix_app_r.
  eapply Spec_bind; [apply shouldNotify_spec|]. intros h1 ok Hp1 Hok.
  destruct ok; simpl; [|by spec_step].
  eapply (Spec_bind _ _ _ _ (fun _ _ => True)).
  - unfold dispatchToChannel.
    destruct (if negb _ then _ else None); [by spec_step|].
    destruct (mem_str _ _); [|by spec_step]. apply Spec_call. intros err. split; [|done].
    assert (Hp : h `prefix_of` h1) by by etrans.
    destruct (notify_ready_mono _ _ _ Hp Hready) as (? & ? & ?).
    split; [done|]. split_and!; [done | done | by apply Hok | done | done |].
    exists rule, id. split_and!; [done | done|].
    eapply prefix_elem_of; [exact Hp1|]. unfold h0. eauto with history.
  - intros h2 [e|] Hp2 _; [by spec_step|]. eapply (Spec_bind _ _ _ _ (fun _ _ => True)).
    + unfold recordNotification, notifier_now. spec_step; [done|]. by apply Spec_call.
    + intros. by spec_step.
Qed.

Lemma notify_channels_spec h rule acc ids :
  notify_ready h rule -> (forall id, id ∈ ids -> id ∈ Rule_ChannelIDs rule) ->
  Spec (notify_ok local alert) h (notify_channels store alert acc ids) (fun _ _ => True).
Proof.
  revert h acc. induction ids as [|id ids IH]; intros h acc Hready Hids; simpl; [by spec_step|].
  eapply Spec_bind; [eapply notify_channel_spec; [exact Hready | apply Hids; left] |].
  intros h' acc' Hp _. apply IH; [by eapply notify_ready_mono|].
  intros id' Hid'. apply Hids. by right.
Qed.

Lemma NotifyForAlert_spec :
  Spec (notify_ok local alert) [] (NotifyForAlert store local alert) (fun _ _ => True).
Proof.
  unfold NotifyForAlert. destruct (Alert_RuleID alert =? 0) eqn:Hid; [by spec_step|].
  reflect_bools. spec_step; [done|]. destruct a as [settings e].
  eapply (Spec_bind _ _ _ _ (fun h' (b : bool) => b && negb (isCriticalAlertType (Alert_Type alert)) = false ->
    quiet_respected local h' alert)).
  { unfold notifier_quiet, quiet_respected, notifier_now. simpl.
    destruct settings as [s|].
    - destruct (Quiet_Enabled _) eqn:Hq.
      + spec_step; [done|]. spec_step.
        destruct (isCriticalAlertType _); [by left|]. rewrite andb_true_r. intros Hf. right.
        exists (Some s), e. split; [by eauto with history|].
        right. eexists. eauto with history.
      + spec_step. intros _. right. exists (Some s), e. split; [by eauto with history | by left].
    - spec_step. intros _. right. exists None, e. split; [by eauto with history | by left]. }
  intros h1 quiet Hp1 Hq. destruct (quiet && _) eqn:Hqc; [by spec_step|].
  spec_step; [done|]. destruct a as [rule|e']; [|by spec_step].
  destruct (Nat.eqb _ 0); [by spec_step|].
  eapply Spec_bind.
  { eapply (notify_channels_spec _ rule); [|done]. split_and!; [done | | by eauto with history].
    eapply quiet_respected_mono; [|by apply Hq]. by apply prefix_app_r. }
  intros h2 [n lastErr] Hp2 _. destruct (0 <? n); [|by spec_step].
  unfold notifier_now. spec_step; [done|]. spec_step; [done|]. by spec_step.
Qed.
End Lemmas.

(** ** Lemmas: strings *)

(** After a replacement, every byte satisfies [f] when the new text does and every
    byte before was either replaced or satisfied [f]. *)
Lemma ReplaceByte_all f s old new :
  all_bytes f new = true -> all_bytes (fun c => Ascii.eqb c old || f c) s = true ->
  all_bytes f (ReplaceByte s old new) = true.
Proof.
  intros Hn. induction s as [|c s IH]; [done|]. cbn [all_bytes ReplaceByte].
  intros [Hc Hs]%andb_true_iff. destruct (Ascii.eqb c old) eqn:E.
  - rewrite all_bytes_app, Hn. by apply IH.
  - cbn [all_bytes]. simpl in Hc. by rewrite Hc, IH.
Qed.

(** A byte that cannot end a header line. *)
Definition header_byte (c : ascii) : bool :=
  negb (Ascii.eqb c CR) && negb (Ascii.eqb c LF) && negb (Ascii.eqb c NUL).

Lemma sanitizeEmailHeader_bytes s : all_bytes header_byte (sanitizeEmailHeader s) = true.
Proof.
  unfold sanitizeEmailHeader. apply TrimSpace_all.
  apply ReplaceByte_all; [done|]. apply ReplaceByte_all; [done|]. apply ReplaceByte_all; [done|].
  induction s as [|c s IH]; [done|]. cbn [all_bytes]. rewrite IH, andb_true_r.
  unfold header_byte. by destruct (Ascii.eqb c CR), (Ascii.eqb c LF), (Ascii.eqb c NUL).
Qed.

(** ** Lemmas: addresses *)

Definition private_v4 (a b c : Z) : bool :=
  (a =? 127) || (a =? 10) || ((a =? 172) && (16 <=? b) && (b <=? 31))
  || ((a =? 192) && (b =? 168)) || ((a =? 169) && (b =? 254))
  || ((a =? 224) && (b =? 0) && (c =? 0)).

(** Membership in a net with a 4-byte address and mask. *)
Lemma NetContains_v4 n ip a b c d n0 n1 m0 m1 :
  To4 ip = Some [a; b; c; d] -> net_IP n = [n0; n1; 0; 0] -> mask_of n = [m0; m1; 0; 0] ->
  net_bits n = 32 -> Z.land n0 m0 = n0 -> Z.land n1 m1 = n1 ->
  NetContains n ip = (Z.land a m0 =? n0) && (Z.land b m1 =? n1).
Proof.
  intros HT Hn Hm Hbits H0 H1. unfold NetContains. rewrite HT, Hn, Hm, Hbits. simpl.
  rewrite !Z.land_0_r, H0, H1.
  destruct (Z.eqb_spec (Z.land a m0) n0), (Z.eqb_spec (Z.land b m1) n1);
    [apply bool_decide_true | apply bool_decide_false..]; congruence.
Qed.

Lemma NetContains_v6 n ip q :
  To4 ip = Some q -> length q = 4%nat -> To4 (net_IP n) = None -> length (net_IP n) = 16%nat ->
  NetContains n ip = false.
Proof. intros HT Hq Hn Hl. unfold NetContains. rewrite HT, Hn. simpl. by rewrite Hq, Hl. Qed.

(** A masked comparison of a byte is a range. *)
Lemma land_byte m n lo hi b :
  forallb (fun b => Bool.eqb (Z.land b m =? n) ((lo <=? b) && (b <=? hi))) (map Z.of_nat (seq 0 256)) = true ->
  0 <= b <= 255 -> (Z.land b m =? n) = (lo <=? b) && (b <=? hi).
Proof. intros H Hb. apply eqb_prop. by apply (bytes_forall _ H). Qed.

Lemma eqb_range n b : (n <=? b) && (b <=? n) = (b =? n).
Proof. lia. Qed.

Lemma existsb_map_opt {A B} (f : A -> option B) (g : B -> bool) l :
  existsb (fun x => match f x with None => false | Some y => g y end) l =
  existsb (fun o => match o with None => false | Some y => g y end) (map f l).
Proof. induction l as [|x l IH]; [done|]. simpl. by rewrite IH. Qed.

Definition net4 (a b ones : Z) : IPNet := {| net_IP := [a; b; 0; 0]; net_ones := ones; net_bits := 32 |}.
Definition net6 (a b ones : Z) : IPNet :=
  {| net_IP := a :: b :: replicate 14 0; net_ones := ones; net_bits := 128 |}.

Lemma private_nets :
  map ParseCIDR privateRanges =
  [Some (net4 10 0 8); Some (net4 172 16 12); Some (net4 192 168 16); Some (net6 252 0 7);
   Some (net6 254 128 10); Some (net4 169 254 16)].
Proof. vm_compute. reflexivity. Qed.

(** The six ranges on a 4-byte address. *)
Lemma ranges_v4 ip a b c d :
  To4 ip = Some [a; b; c; d] -> octets [a; b; c; d] ->
  existsb (fun cidr => match ParseCIDR cidr with
                       | None => false | Some network => NetContains network ip end) privateRanges
  = (a =? 10) || ((a =? 172) && (16 <=? b) && (b <=? 31))
    || ((a =? 192) && (b =? 168)) || ((a =? 169) && (b =? 254)).
Proof.
  intros HT (_ & Hb).
  assert (Ha : 0 <= a <= 255) by (apply Hb; left).
  assert (Hb' : 0 <= b <= 255) by (apply Hb; right; left).
  rewrite (existsb_map_opt ParseCIDR (fun network => NetContains network ip)), private_nets.
  cbn [existsb].
  assert (Hland : forall m n lo hi x,
    forallb (fun b => Bool.eqb (Z.land b m =? n) ((lo <=? b) && (b <=? hi))) (map Z.of_nat (seq 0 256)) = true ->
    0 <= x <= 255 -> (Z.land x m =? n) = (lo <=? x) && (x <=? hi)) by (intros; by apply land_byte).
  rewrite (NetContains_v4 (net4 10 0 8) ip a b c d 10 0 255 0),
    (NetContains_v4 (net4 172 16 12) ip a b c d 172 16 255 240),
    (NetContains_v4 (net4 192 168 16) ip a b c d 192 168 255 255),
    (NetContains_v4 (net4 169 254 16) ip a b c d 169 254 255 255),
    (NetContains_v6 (net6 252 0 7) ip [a; b; c; d]), (NetContains_v6 (net6 254 128 10) ip [a; b; c; d])
    by (exact HT || (vm_compute; reflexivity)).
  rewrite (Hland 255 10 10 10 a), (Hland 255 172 172 172 a), (Hland 255 192 192 192 a),
    (Hland 255 169 169 169 a), (Hland 0 0 0 255 b), (Hland 240 16 16 31 b), (Hland 255 168 168 168 b),
    (Hland 255 254 254 254 b) by (done || (vm_compute; reflexivity)).
  lia.
Qed.

(** ** Lemmas: the number of notifications *)

Section Count.
Context {W : Type} (store : NotifierStore W) (alert : Alert).

Lemma sent_count_app l l' : sent_count (l ++ l') = sent_count l + sent_count l'.
Proof. unfold sent_count. rewrite List.filter_app, length_app. lia. Qed.

(** A computation that sends nothing. *)
Definition silent {A} (m : M notify_call (W * gmap string Time) A) : Prop :=
  forall s, sent_count (trace m s) = 0.

Lemma silent_ret {A} (a : A) : silent (mret a).
Proof. done. Qed.

Lemma silent_call {A} rec (op : _ -> A * _) :
  (forall a, sent_count [rec a] = 0) -> silent (call rec op).
Proof. intros H s. destruct (call_run rec op s) as (_ & -> & _). apply H. Qed.

Lemma silent_bind {A B} (m : M notify_call _ A) (f : A -> M notify_call _ B) :
  silent m -> (forall a, silent (f a)) -> silent (m ≫= f).
Proof.
  intros Hm Hf s. destruct (bind_run m f s) as (_ & -> & _).
  rewrite sent_count_app, Hm, Hf. done.
Qed.

Lemma shouldNotify_silent ch al mins : silent (shouldNotify store ch al mins).
Proof.
  unfold shouldNotify. destruct (mins <=? 0); [apply silent_ret|].
  apply silent_bind; [by apply silent_call|]. intros [last|]; [|apply silent_ret].
  apply silent_bind; [by apply silent_call|]. intros t. apply silent_ret.
Qed.

Lemma recordNotification_silent ch al : silent (recordNotification store ch al).
Proof. apply silent_bind; [by apply silent_call|]. intros t. by apply silent_call. Qed.

(** [dispatchToChannel] reports success exactly when it sent. *)
Lemma dispatch_count channel s :
  sent_count (trace (dispatchToChannel store channel alert) s) =
  match value (dispatchToChannel store channel alert) s with None => 1 | Some _ => 0 end.
Proof.
  unfold dispatchToChannel. destruct (if negb _ then _ else None); [done|].
  destruct (mem_str _ _); [|done].
  match goal with |- context [call ?r ?o] => destruct (call_run r o s) as (-> & -> & _) end.
  set (err := fst _). clearbody err. unfold sent_count. by destruct err.
Qed.

Lemma notify_channel_count acc id s :
  (value (notify_channel store alert acc id) s).1 =
  acc.1 + sent_count (trace (notify_channel store alert acc id) s).
Proof.
  unfold notify_channel. destruct acc as [n lastErr].
  run_bind.
  rewrite sent_count_app, silent_call by (intros; reflexivity). simpl.
  set (c := value _ s). set (s1 := final _ s). clearbody c s1.
  destruct c as [channel|e]; [|simpl; unfold sent_count; simpl; lia].
  destruct (negb _); [simpl; unfold sent_count; simpl; lia|].
  run_bind.
  rewrite sent_count_app, shouldNotify_silent. simpl.
  set (ok := value _ s1). set (s2 := final _ s1). clearbody ok s2.
  destruct ok; [|simpl; unfold sent_count; simpl; lia].
  cbn [negb]. run_bind.
  rewrite sent_count_app, dispatch_count.
  set (err := value _ s2). set (s3 := final _ s2). clearbody err s3.
  destruct err as [e|]; [simpl; unfold sent_count; simpl; lia|].
  run_bind.
  rewrite sent_count_app, recordNotification_silent. simpl. unfold sent_count. simpl. lia.
Qed.

Lemma notify_channels_count acc ids s :
  (value (notify_channels store alert acc ids) s).1 =
  acc.1 + sent_count (trace (notify_channels store alert acc ids) s).
Proof.
  revert acc s. induction ids as [|id ids IH]; intros acc s; simpl.
  { change (acc.1 = acc.1 + 0). lia. }
  run_bind.
  rewrite sent_count_app, IH, notify_channel_count. lia.
Qed.

(** The counter on the alert is written nowhere in the loop. *)
Definition no_update (_ : list notify_call) (c : notify_call) : Prop :=
  match c with CallUpdateAlertNotificationStatus _ _ _ _ => False | _ => True end.

Lemma notify_channels_no_update h acc ids :
  Spec no_update h (notify_channels store alert acc ids) (fun _ _ => True).
Proof.
  revert h acc. induction ids as [|id ids IH]; intros h acc; simpl; [by spec_step|].
  eapply (Spec_bind _ _ _ _ (fun _ _ => True)); [|intros; apply IH].
  unfold notify_channel. destruct acc as [n lastErr]. spec_step; [done|].
  destruct a as [channel|e]; [|by spec_step]. spec_step; [by spec_step|].
  eapply (Spec_bind _ _ _ _ (fun _ _ => True)).
  { unfold shouldNotify, notifier_now. spec_step; [by spec_step|]. spec_step; [done|].
    spec_step; [spec_step; [done|]|]; by spec_step. }
  intros h1 ok _ _. spec_step; [by spec_step|].
  eapply (Spec_bind _ _ _ _ (fun _ _ => True)).
  { unfold dispatchToChannel. spec_step; [by spec_step|].
    destruct (mem_str _ _); [by apply Spec_call | by spec_step]. }
  intros h2 [e|] _ _; [by spec_step|]. eapply (Spec_bind _ _ _ _ (fun _ _ => True)).
  { unfold recordNotification, notifier_now. spec_step; [done|]. by apply Spec_call. }
  intros. by spec_step.
Qed.

Lemma no_update_trace {A} (m : M notify_call (W * gmap string Time) A) s id n t err :
  Spec no_update [] m (fun _ _ => True) ->
  CallUpdateAlertNotificationStatus id n t err ∉ trace m s.
Proof. intros Hs Hin. by destruct (Spec_call_ok _ _ _ _ _ Hs Hin) as (? & ? & _ & []). Qed.
End Count.

(** ** Sample data *)

Module NotifySamples.
Definition channel (limit : Z) : NotificationChannel :=
  {| Channel_ID := 3; Channel_Name := "ops"; Channel_Type := ChannelTypeSlack; Channel_Enabled := true;
     Channel_ConfigJSON := ""; Channel_MinSeverity := "critical"; Channel_TenantIDs := [];
     Channel_RateLimitPerHour := limit; Channel_LastSentAt := None; Channel_SentThisHour := 0;
     Channel_UseQuietHours := false; Channel_CreatedAt := 0; Channel_UpdatedAt := 0 |}.

Definition rule : AlertRule :=
  {| Rule_ID := 7; Rule_Name := "r"; Rule_Description := ""; Rule_Enabled := true;
     Rule_Type := AlertTypeDeviceOffline; Rule_Severity := "info"; Rule_Scope := AlertScopeDevice;
     Rule_TenantIDs := []; Rule_SiteIDs := []; Rule_AgentIDs := []; Rule_ConditionJSON := "";
     Rule_Threshold := GoFloat.float_of_Z 0; Rule_ThresholdUnit := ""; Rule_DurationMinutes := 0;
     Rule_ChannelIDs := [3]; Rule_EscalationPolicyID := None; Rule_CooldownMinutes := 0;
     Rule_CreatedAt := 0; Rule_UpdatedAt := 0; Rule_CreatedBy := "" |}.

Definition alert : Alert := new_alert rule "" "a1" "S1" "Device Offline" "gone" 0.

(** A store with one rule and one channel, whose senders succeed; the environment
    is the clock, which advances one minute per reading. *)
Definition store (limit : Z) : NotifierStore Z :=
  {| storeGetNotificationChannel _ w := (Ok (channel limit), w);
     storeGetAlertRule _ w := (Ok rule, w);
     storeUpdateAlertNotificationStatus _ _ _ w := (None, w);
     storeGetAlertSettings w := ((None, None), w);
     clockNow w := (w, w + Minute);
     unmarshalConfig _ := None;
     send _ _ _ w := (None, w) |}.
End NotifySamples.

(** ** Properties *)

(** C3: whatever the store, the clock and the senders answer, a notification goes out
    only for the given alert, when it has a rule, on an enabled channel of that
    rule, and outside quiet hours unless the alert's type is critical. On a channel
    whose limit is 1 to 60 an hour it goes out only when no notification of this
    alert is recorded for the channel or the recorded one is at least [60 / limit]
    whole minutes old; a limit above 60, such as the default of 100, and no limit do
    not space notifications (see [rate_limit_spacing]). *)
Theorem NotifyForAlert_sends {W} (store : NotifierStore W) local alert s kind channel alert' err :
  CallSend kind channel alert' err ∈ trace (NotifyForAlert store local alert) s ->
  exists before after,
    trace (NotifyForAlert store local alert) s = before ++ CallSend kind channel alert' err :: after /\
    alert' = alert /\ send_ok local before kind channel alert.
Proof. exact (Spec_call_ok (notify_ok local alert) _ _ s _ (NotifyForAlert_spec store local alert)). Qed.

Lemma NotifyForAlert_sends_witness :
  let tr := trace (NotifyForAlert (NotifySamples.store 4) UTC NotifySamples.alert) (0, ∅) in
  exists before after,
    tr = before ++ CallSend ChannelTypeSlack (NotifySamples.channel 4) NotifySamples.alert None :: after /\
    NotifySamples.alert = NotifySamples.alert /\
    send_ok UTC before ChannelTypeSlack (NotifySamples.channel 4) NotifySamples.alert.
Proof.
  apply NotifyForAlert_sends. eapply (list_elem_of_lookup_2 _ 4). vm_compute. reflexivity.
Defined.

(** The count that a run writes back on the alert is the previous count plus the
    number of notifications that went out. *)
Theorem NotifyForAlert_counts {W} (store : NotifierStore W) local alert s id sent t err :
  CallUpdateAlertNotificationStatus id sent t err ∈ trace (NotifyForAlert store local alert) s ->
  id = Alert_ID alert /\
  sent = wrap64 (Alert_NotificationsSent alert + sent_count (trace (NotifyForAlert store local alert) s)).
Proof.
  unfold NotifyForAlert. destruct (Alert_RuleID alert =? 0); [by intros ?%not_elem_of_nil|].
  rewrite ?trace_bind, ?sent_count_app, silent_call by (intros; reflexivity).
  rewrite elem_of_app. intros [Hin|Hin].
  { exfalso. revert Hin. by apply no_update_trace, Spec_call. }
  revert Hin. set (settings := value _ s). set (s1 := final _ s). clearbody settings s1.
  rewrite ?trace_bind, ?sent_count_app.
  assert (Hq : Spec no_update [] (notifier_quiet store local settings.1) (fun _ _ => True) /\
    silent (notifier_quiet store local settings.1)).
  { unfold notifier_quiet, notifier_now. destruct settings.1; [|split; [by spec_step | done]].
    case_goal; [|split; [by spec_step | done]]. split; [spec_step; [done | by spec_step]|].
    apply silent_bind; [by apply silent_call | done]. }
  destruct Hq as [Hqn ->]. rewrite elem_of_app.
  intros [Hin|Hin]; [exfalso; by apply (no_update_trace _ _ _ _ _ _ Hqn) in Hin|]. revert Hin.
  set (quiet := value _ s1). set (s2 := final _ s1). clearbody quiet s2.
  destruct (quiet && _); [by intros ?%not_elem_of_nil|].
  rewrite ?trace_bind, ?sent_count_app, silent_call by (intros; reflexivity). rewrite elem_of_app.
  intros [Hin|Hin].
  { exfalso. revert Hin. by apply no_update_trace, Spec_call. }
  revert Hin. set (r := value _ s2). set (s3 := final _ s2). clearbody r s3.
  destruct r as [rule|e]; [|by intros ?%not_elem_of_nil].
  destruct (Nat.eqb _ 0); [by intros ?%not_elem_of_nil|].
  rewrite ?trace_bind, ?sent_count_app, elem_of_app.
  pose proof (notify_channels_count store alert (0, None) (Rule_ChannelIDs rule) s3) as Hcount.
  intros [Hin|Hin].
  { exfalso. by apply (no_update_trace _ _ _ _ _ _ (notify_channels_no_update store alert _ _ _)) in Hin. }
  revert Hin. set (acc := value _ s3) in *. set (s4 := final _ s3). clearbody acc s4.
  destruct acc as [n lastErr]. cbn [fst] in Hcount. rewrite Z.add_0_l in Hcount.
  rewrite <- Hcount. cbv beta iota.
  destruct (0 <? n); [|by intros ?%not_elem_of_nil].
  rewrite ?trace_bind. intros Hin. rewrite ?sent_count_app.
  unfold notifier_now in *.
  rewrite ?silent_call by (intros; reflexivity).
  apply elem_of_app in Hin as [Hin|Hin]; [exfalso; revert Hin; by apply no_update_trace, Spec_call|].
  apply elem_of_app in Hin as [Hin|Hin]; [|by apply not_elem_of_nil in Hin].
  match type of Hin with _ ∈ trace (call ?rc ?o) ?w => destruct (call_run rc o w) as (_ & Ht & _) end.
  rewrite Ht in Hin. apply list_elem_of_singleton in Hin as [= -> -> _ _].
  split; [done|]. do 2 f_equal. unfold sent_count. simpl. lia.
Qed.

Lemma NotifyForAlert_counts_witness :
  let tr := trace (NotifyForAlert (NotifySamples.store 4) UTC NotifySamples.alert) (0, ∅) in
  0 = Alert_ID NotifySamples.alert /\ 1 = wrap64 (0 + sent_count tr).
Proof.
  apply (NotifyForAlert_counts (NotifySamples.store 4) UTC NotifySamples.alert (0, ∅) 0 1 Minute None).
  eapply (list_elem_of_lookup_2 _ 8). vm_compute. reflexivity.
Defined.

(** After a notification is recorded at time [t0], the rate limit lets the next
    one for the same channel and alert through exactly when [60 / limit] minutes have
    passed; with a limit above 60 an hour the quotient is 0 and every notification
    is let through. *)
Theorem rate_limit_spacing {W} (store : NotifierStore W) channel alert s t0 w1 w2 now :
  clockNow store s.1 = (t0, w1) -> clockNow store w1 = (now, w2) ->
  0 < Channel_RateLimitPerHour channel ->
  let s' := final (recordNotification store (Channel_ID channel) (Alert_ID alert)) s in
  value (shouldNotify store (Channel_ID channel) (Alert_ID alert) (rate_limit_mins channel)) s' =
  (60 <? Channel_RateLimitPerHour channel)
  || ((60 / Channel_RateLimitPerHour channel) * Minute <=? Since now t0).
Proof.
  intros H0 H1 Hpos. destruct s as [w m]. simpl in H0.
  unfold final, recordNotification, notifier_now, call, on_env, mbind, M_bind. simpl. rewrite H0. simpl.
  unfold shouldNotify, notifier_now, call, on_env, value, mbind, M_bind.
  destruct (Z.ltb_spec 60 (Channel_RateLimitPerHour channel)) as [Hbig|Hsmall].
  { unfold rate_limit_mins. rewrite (proj2 (Z.ltb_lt _ _) Hpos), Z.quot_div_nonneg by lia.
    by rewrite Z.div_small by lia. }
  destruct (rate_limit_mins_effective channel) as (_ & Hm & <-); [lia|].
  rewrite (proj2 (Z.leb_gt _ _) Hm). simpl.
  rewrite lookup_insert_eq. simpl. by rewrite H1.
Qed.

Lemma rate_limit_spacing_witness :
  let st := NotifySamples.store 4 in
  let s' := final (recordNotification st 3 0) (0, ∅) in
  value (shouldNotify st 3 0 (rate_limit_mins (NotifySamples.channel 4))) s' = false.
Proof.
  apply (rate_limit_spacing (NotifySamples.store 4) (NotifySamples.channel 4) NotifySamples.alert
    (0, ∅) 0 Minute (2 * Minute) Minute); [reflexivity | reflexivity | reflexivity].
Defined.

(** A sanitized header contains no carriage return, line feed or zero byte, and an
    address that is accepted contained none before. *)
Theorem validateAndSanitizeEmail_safe email s :
  validateAndSanitizeEmail email = Ok s ->
  all_bytes header_byte s = true /\ all_bytes header_byte email = true /\ Contains email "@" = true.
Proof.
  unfold validateAndSanitizeEmail. case_bool_decide as Hany; [done|].
  destruct (negb _ || _) eqn:E; [done|]. intros [= <-]. reflect_bools.
  split_and!; [apply sanitizeEmailHeader_bytes | | done].
  clear -Hany. induction email as [|c e IH]; [done|]. cbn [all_bytes IndexAny] in *.
  unfold header_byte at 1. unfold existsb in Hany.
  destruct (Ascii.eqb CR c) eqn:E1; [exfalso; apply Hany; by eexists|].
  destruct (Ascii.eqb LF c) eqn:E2; [exfalso; apply Hany; by eexists|].
  destruct (Ascii.eqb NUL c) eqn:E3; [exfalso; apply Hany; by eexists|].
  rewrite (Ascii.eqb_sym c CR), (Ascii.eqb_sym c LF), (Ascii.eqb_sym c NUL), E1, E2, E3. apply IH.
  intros [k Hk]. apply Hany. cbn. unfold existsb in Hk. rewrite Hk. by eexists.
Qed.

Lemma validateAndSanitizeEmail_safe_witness :
  all_bytes header_byte "ops@example.com" = true /\ all_bytes header_byte " ops@example.com" = true /\
  Contains " ops@example.com" "@" = true.
Proof. apply validateAndSanitizeEmail_safe. vm_compute. reflexivity. Defined.

(** On an IPv4 address, in either of its forms, the SSRF filter blocks exactly the
    loopback, private, link-local and local multicast ranges; the unspecified
    address 0.0.0.0 is let through. *)
Theorem isPrivateIP_v4 ip a b c d :
  To4 ip = Some [a; b; c; d] -> octets [a; b; c; d] -> isPrivateIP ip = private_v4 a b c.
Proof.
  intros HT Ho. unfold isPrivateIP. rewrite (ranges_v4 ip a b c d) by done.
  unfold IsLoopback, IsLinkLocalUnicast, IsLinkLocalMulticast, private_v4. rewrite HT. simpl.
  by destruct (a =? 127), (a =? 10), (a =? 172), (a =? 192), (a =? 169), (a =? 224), (b =? 168),
    (b =? 254), (b =? 0), (c =? 0), (16 <=? b), (b <=? 31).
Qed.

Lemma isPrivateIP_v4_witness :
  isPrivateIP [172; 31; 0; 1] = true /\ isPrivateIP [172; 32; 0; 1] = false /\
  isPrivateIP [0; 0; 0; 0] = false.
Proof.
  assert (Ho : forall a b c d, 0 <= a <= 255 /\ 0 <= b <= 255 /\ 0 <= c <= 255 /\ 0 <= d <= 255 ->
    octets [a; b; c; d]).
  { intros a b c d H. split; [done|]. intros x. rewrite !elem_of_cons, elem_of_nil. intuition lia. }
  split_and!.
  - apply (isPrivateIP_v4 _ 172 31 0 1); [reflexivity | apply Ho; lia].
  - apply (isPrivateIP_v4 _ 172 32 0 1); [reflexivity | apply Ho; lia].
  - apply (isPrivateIP_v4 _ 0 0 0 0); [reflexivity | apply Ho; lia].
Defined.
