(* ===== verification/UpdatePolicy.v ===== *)
(** * Update policies: the shared types ([common/updatepolicy/types.go]), their
    normalization and validation on the server ([server/updatepolicy/api.go]), and
    the choice of the effective policy on the agent ([agent/update_policy.go],
    [agent/autoupdate/policy_adapter.go]).

    The agent chooses the policy twice: [EffectivePolicy] of the configuration and
    the [PolicyAdapter] that the update manager uses. The adapter sees its
    configuration and the fleet policy through two interfaces, which are classes
    here. *)
From stdpp Require Import sorting.
From S2P Require Import Prelude GoStrings GoTime.

(** ** Types *)

Definition VersionPinMajor : string := "major".
Definition VersionPinMinor : string := "minor".
Definition VersionPinPatch : string := "patch".

Record MaintenanceWindow := {
  Enabled : bool;
  StartHour : Z;
  StartMin : Z;
  EndHour : Z;
  EndMin : Z;
  Timezone : string;
  DaysOfWeek : list Z;
}.

Record RolloutControl := {
  Staggered : bool;
  MaxConcurrent : Z;
  BatchSize : Z;
  DelayBetweenWaves : Z;
  JitterSeconds : Z;
  EmergencyAbort : bool;
}.

Record PolicySpec := {
  UpdateCheckDays : Z;
  VersionPinStrategy : string;
  AllowMajorUpgrade : bool;
  TargetVersion : string;
  Maintenance : MaintenanceWindow;
  Rollout : RolloutControl;
  CollectTelemetry : bool;
}.

Record FleetUpdatePolicy := {
  Fleet_PolicySpec : PolicySpec;
  Fleet_TenantID : string;
  Fleet_UpdatedAt : Time;
}.

Definition AgentOverrideInherit : string := "inherit".
Definition AgentOverrideLocal : string := "local".
Definition AgentOverrideNever : string := "disabled".

Definition PolicySourceFleet : string := "fleet".
Definition PolicySourceLocal : string := "local".
Definition PolicySourceFallback : string := "fallback".
Definition PolicySourceDisabled : string := "disabled".

(** The zero values of the structs. *)
Definition zero_window : MaintenanceWindow :=
  {| Enabled := false; StartHour := 0; StartMin := 0; EndHour := 0; EndMin := 0;
     Timezone := ""; DaysOfWeek := [] |}.
Definition zero_rollout : RolloutControl :=
  {| Staggered := false; MaxConcurrent := 0; BatchSize := 0; DelayBetweenWaves := 0;
     JitterSeconds := 0; EmergencyAbort := false |}.
Definition zero_spec : PolicySpec :=
  {| UpdateCheckDays := 0; VersionPinStrategy := ""; AllowMajorUpgrade := false; TargetVersion := "";
     Maintenance := zero_window; Rollout := zero_rollout; CollectTelemetry := false |}.

(** ** The server: normalization and validation *)

Section Server.
Context `{GoUnicode}.

Definition normalizePinStrategy (strategy : string) : string :=
  let s := ToLower (TrimSpace strategy) in
  if String.eqb s VersionPinMajor then VersionPinMajor
  else if String.eqb s VersionPinPatch then VersionPinPatch
  else VersionPinMinor.

(** A map removes the duplicates and [sort.Ints] orders the keys. *)
Definition normalizeDaysOfWeek (days : list Z) : list Z :=
  if Nat.eqb (length days) 0 then [] else merge_sort Z.le (remove_dups days).

Definition normalizeMaintenanceWindow (mw : MaintenanceWindow) : MaintenanceWindow :=
  {| Enabled := Enabled mw; StartHour := StartHour mw; StartMin := StartMin mw;
     EndHour := EndHour mw; EndMin := EndMin mw; Timezone := TrimSpace (Timezone mw);
     DaysOfWeek := normalizeDaysOfWeek (DaysOfWeek mw) |}.

(** A clone shares nothing that the code changes; slices are values here. *)
Definition clonePolicySpec (spec : PolicySpec) : PolicySpec := spec.

Definition normalizePolicySpec (spec : PolicySpec) : PolicySpec :=
  let normalized := clonePolicySpec spec in
  {| UpdateCheckDays := UpdateCheckDays normalized;
     VersionPinStrategy := normalizePinStrategy (VersionPinStrategy spec);
     AllowMajorUpgrade := AllowMajorUpgrade normalized;
     TargetVersion := TrimSpace (TargetVersion spec);
     Maintenance := normalizeMaintenanceWindow (Maintenance spec);
     Rollout := Rollout normalized; CollectTelemetry := CollectTelemetry normalized |}.
End Server.

(** [if bad { issues = append(issues, msg) }] *)
Definition issue (bad : bool) (msg : string) : list string := if bad then [msg] else [].

Definition window_issues (mw : MaintenanceWindow) : list string :=
  if Enabled mw then
    issue (String.eqb (Timezone mw) "") "maintenance_window.timezone is required when enabled" ++
    issue ((StartHour mw <? 0) || (23 <? StartHour mw)) "maintenance_window.start_hour must be between 0 and 23" ++
    issue ((StartMin mw <? 0) || (59 <? StartMin mw)) "maintenance_window.start_min must be between 0 and 59" ++
    issue ((EndHour mw <? 0) || (23 <? EndHour mw)) "maintenance_window.end_hour must be between 0 and 23" ++
    issue ((EndMin mw <? 0) || (59 <? EndMin mw)) "maintenance_window.end_min must be between 0 and 59" ++
    issue (Nat.eqb (length (DaysOfWeek mw)) 0) "maintenance_window.days_of_week must include at least one day" ++
    issue (existsb (fun day => (day <? 0) || (6 <? day)) (DaysOfWeek mw))
      "maintenance_window.days_of_week must be between 0 and 6"
  else [].

Definition validatePolicySpec (spec : PolicySpec) : list string :=
  issue (UpdateCheckDays spec <? 0) "update_check_days must be >= 0" ++
  issue (negb (mem_str (VersionPinStrategy spec) [VersionPinMajor; VersionPinMinor; VersionPinPatch]))
    "version_pin_strategy must be one of major, minor, patch" ++
  window_issues (Maintenance spec) ++
  issue (MaxConcurrent (Rollout spec) <? 0) "rollout_control.max_concurrent must be >= 0" ++
  issue (BatchSize (Rollout spec) <? 0) "rollout_control.batch_size must be >= 0" ++
  issue (DelayBetweenWaves (Rollout spec) <? 0) "rollout_control.delay_between_waves must be >= 0" ++
  issue (JitterSeconds (Rollout spec) <? 0) "rollout_control.jitter_seconds must be >= 0".

(** ** The agent's configuration *)

Record AutoUpdateConfig := {
  Mode : string;
  Channel : string;
  LocalPolicy : PolicySpec;
}.

Record EffectiveAutoUpdatePolicy := { Source : string; Policy : PolicySpec }.

Definition defaultLocalPolicySpec : PolicySpec :=
  {| UpdateCheckDays := 7; VersionPinStrategy := VersionPinMajor; AllowMajorUpgrade := false;
     TargetVersion := ""; Maintenance := zero_window;
     Rollout := {| Staggered := true; MaxConcurrent := 0; BatchSize := 0; DelayBetweenWaves := 0;
                   JitterSeconds := 0; EmergencyAbort := false |};
     CollectTelemetry := true |}.

Definition defaultAutoUpdateConfig : AutoUpdateConfig :=
  {| Mode := AgentOverrideInherit; Channel := ""; LocalPolicy := defaultLocalPolicySpec |}.

Section Agent.
Context `{GoUnicode}.

Definition normalizeAutoUpdateMode (value : string) : string :=
  let trimmed := ToLower (TrimSpace value) in
  if String.eqb trimmed "local" then AgentOverrideLocal
  else if mem_str trimmed ["disabled"; "never"; "off"] then AgentOverrideNever
  else AgentOverrideInherit.

Definition policyFromSpec (spec : PolicySpec) (source : string) : EffectiveAutoUpdatePolicy * bool :=
  let cloned := clonePolicySpec spec in
  if UpdateCheckDays cloned <=? 0 then ({| Source := source; Policy := zero_spec |}, false)
  else ({| Source := source; Policy := cloned |}, true).

Definition EffectivePolicy (cfg : AutoUpdateConfig) (fleet : option FleetUpdatePolicy) :
    EffectiveAutoUpdatePolicy * bool :=
  let mode := normalizeAutoUpdateMode (Mode cfg) in
  if String.eqb mode AgentOverrideNever then ({| Source := PolicySourceDisabled; Policy := zero_spec |}, false)
  else if String.eqb mode AgentOverrideLocal then policyFromSpec (LocalPolicy cfg) PolicySourceLocal
  else match fleet with
       | Some f => policyFromSpec (Fleet_PolicySpec f) PolicySourceFleet
       | None => policyFromSpec (LocalPolicy cfg) PolicySourceFallback
       end.
End Agent.

(** ** The policy adapter *)

Class AutoUpdateConfigProvider (T : Type) := {
  GetAutoUpdateMode : T -> string;
  GetLocalPolicy : T -> PolicySpec;
}.

Class FleetPolicyProvider (T : Type) := {
  GetFleetPolicy : T -> option FleetUpdatePolicy;
}.

#[export] Instance config_provider `{GoUnicode} : AutoUpdateConfigProvider AutoUpdateConfig := {
  GetAutoUpdateMode cfg := normalizeAutoUpdateMode (Mode cfg);
  GetLocalPolicy cfg := clonePolicySpec (LocalPolicy cfg);
}.

(** A provider that holds the last fleet policy it was given. *)
#[export] Instance snapshot_provider : FleetPolicyProvider (option FleetUpdatePolicy) := {
  GetFleetPolicy p := p;
}.

Record PolicyAdapter (C F : Type) := { configProvider : option C; fleetProvider : option F }.
Arguments configProvider {C F}. Arguments fleetProvider {C F}.

Section Adapter.
Context {C F : Type} `{AutoUpdateConfigProvider C} `{FleetPolicyProvider F}.

Definition NewPolicyAdapter (c : option C) (f : option F) : PolicyAdapter C F :=
  {| configProvider := c; fleetProvider := f |}.

Definition adapter_EffectivePolicy (a : PolicyAdapter C F) : PolicySpec * string * bool :=
  match configProvider a with
  | None => (zero_spec, PolicySourceDisabled, false)
  | Some c =>
      let mode := GetAutoUpdateMode c in
      if String.eqb mode AgentOverrideNever then (zero_spec, PolicySourceDisabled, false)
      else if String.eqb mode AgentOverrideLocal then
        let spec := GetLocalPolicy c in
        if UpdateCheckDays spec <=? 0 then (spec, PolicySourceLocal, false)
        else (spec, PolicySourceLocal, true)
      else
        match fleetProvider a ≫= GetFleetPolicy with
        | Some fleet =>
            if UpdateCheckDays (Fleet_PolicySpec fleet) <=? 0
            then (Fleet_PolicySpec fleet, PolicySourceFleet, false)
            else (Fleet_PolicySpec fleet, PolicySourceFleet, true)
        | None =>
            let spec := GetLocalPolicy c in
            if UpdateCheckDays spec <=? 0 then (spec, PolicySourceFallback, false)
            else (spec, PolicySourceFallback, true)
        end
  end.

(** What every user of an adapter may rely on: an enabled policy has a positive
    check interval and comes from a configuration. *)
Lemma adapter_enabled a spec source :
  adapter_EffectivePolicy a = (spec, source, true) ->
  0 < UpdateCheckDays spec /\ is_Some (configProvider a) /\ source <> PolicySourceDisabled.
Proof.
  unfold adapter_EffectivePolicy. destruct (configProvider a) as [c|]; [|done].
  repeat case_goal; intros [= <- <-]; reflect_bools; split_and!; done || lia.
Qed.
End Adapter.

(** ** Lemmas *)

Lemma issue_nil bad msg : issue bad msg = [] <-> bad = false.
Proof. by destruct bad. Qed.

Lemma normalizeDaysOfWeek_elem days d : d ∈ normalizeDaysOfWeek days <-> d ∈ days.
Proof.
  unfold normalizeDaysOfWeek. destruct days as [|x l]; [done|]. cbn [length Nat.eqb].
  rewrite merge_sort_Permutation. apply elem_of_remove_dups.
Qed.

Lemma normalizeDaysOfWeek_sorted days :
  Sorted Z.le (normalizeDaysOfWeek days) /\ NoDup (normalizeDaysOfWeek days).
Proof.
  unfold normalizeDaysOfWeek. destruct days as [|x l]; [split; [constructor | apply NoDup_nil_2]|].
  cbn [length Nat.eqb]. split; [apply (Sorted_merge_sort Z.le)|].
  rewrite merge_sort_Permutation. apply NoDup_remove_dups.
Qed.

(** ** Properties *)

(** The adapter that the update manager uses and the configuration's own choice
    of the policy agree: same source and same decision for every configuration and
    fleet policy, and the same policy whenever updates are enabled. *)
Theorem adapter_agrees `{GoUnicode} (cfg : AutoUpdateConfig) (fleet : option FleetUpdatePolicy) :
  let '(spec, source, ok) := adapter_EffectivePolicy (NewPolicyAdapter (Some cfg) (Some fleet)) in
  let '(eff, ok') := EffectivePolicy cfg fleet in
  source = Source eff /\ ok = ok' /\ (ok = true -> spec = Policy eff).
Proof.
  unfold adapter_EffectivePolicy, EffectivePolicy, policyFromSpec, clonePolicySpec. simpl.
  destruct (String.eqb _ AgentOverrideNever); [by split_and!|].
  destruct (String.eqb _ AgentOverrideLocal).
  - by destruct (_ <=? 0); split_and!.
  - destruct fleet as [f|]; simpl; by destruct (_ <=? 0); split_and!.
Qed.

(** The policies the server stores, normalized and valid, are well formed: the
    days of an enabled window are at least one of 0 to 6, each once and in order,
    and its start and end are times of day; no counter is negative; and normalizing
    again keeps the days and the pin strategy. *)
Theorem stored_policy_ok `{GoUnicode} spec :
  let s := normalizePolicySpec spec in
  validatePolicySpec s = [] ->
  0 <= UpdateCheckDays s /\
  VersionPinStrategy s ∈ [VersionPinMajor; VersionPinMinor; VersionPinPatch] /\
  normalizePinStrategy (VersionPinStrategy s) = VersionPinStrategy s /\
  Sorted Z.le (DaysOfWeek (Maintenance s)) /\ NoDup (DaysOfWeek (Maintenance s)) /\
  (Enabled (Maintenance s) = true ->
     Timezone (Maintenance s) <> "" /\ DaysOfWeek (Maintenance s) <> [] /\
     (forall d, d ∈ DaysOfWeek (Maintenance s) -> 0 <= d <= 6) /\
     0 <= StartHour (Maintenance s) <= 23 /\ 0 <= StartMin (Maintenance s) <= 59 /\
     0 <= EndHour (Maintenance s) <= 23 /\ 0 <= EndMin (Maintenance s) <= 59) /\
  0 <= MaxConcurrent (Rollout s) /\ 0 <= BatchSize (Rollout s) /\
  0 <= DelayBetweenWaves (Rollout s) /\ 0 <= JitterSeconds (Rollout s).
Proof.
  intros s Hv.
  assert (Hpin : normalizePinStrategy (VersionPinStrategy s) = VersionPinStrategy s).
  { unfold s, normalizePolicySpec. simpl. unfold normalizePinStrategy at 2 3. by repeat case_goal. }
  destruct (normalizeDaysOfWeek_sorted (DaysOfWeek (Maintenance spec))) as [Hsort Hnd].
  change (normalizeDaysOfWeek (DaysOfWeek (Maintenance spec))) with (DaysOfWeek (Maintenance s)) in *.
  clearbody s. unfold validatePolicySpec, window_issues in Hv.
  rewrite !app_nil, !issue_nil in Hv. destruct Hv as (H1 & H2 & Hw & H4 & H5 & H6 & H7).
  reflect_bools. rewrite mem_str_spec in H2. split_and!; try done.
  intros Hen. rewrite Hen, !app_nil, !issue_nil in Hw.
  destruct Hw as (W1 & W2 & W3 & W4 & W5 & W6 & W7). reflect_bools.
  split_and!; try lia; try done.
  - intros Hnil. by rewrite Hnil in W6.
  - intros d Hd. apply (proj1 (existsb_false_forall _ _) W7) in Hd. reflect_bools. lia.
Qed.

Definition sample_policy : PolicySpec :=
  {| UpdateCheckDays := 7; VersionPinStrategy := " Major"; AllowMajorUpgrade := false; TargetVersion := "";
     Maintenance := {| Enabled := true; StartHour := 22; StartMin := 0; EndHour := 4; EndMin := 30;
                       Timezone := "UTC"; DaysOfWeek := [6; 0; 6] |};
     Rollout := zero_rollout; CollectTelemetry := true |}.

Lemma stored_policy_ok_witness :
  VersionPinStrategy (normalizePolicySpec sample_policy) ∈ [VersionPinMajor; VersionPinMinor; VersionPinPatch] /\
  NoDup (DaysOfWeek (Maintenance (normalizePolicySpec sample_policy))).
Proof.
  assert (Hv : validatePolicySpec (normalizePolicySpec sample_policy) = []) by (vm_compute; reflexivity).
  split; apply (stored_policy_ok sample_policy Hv).
Defined.
