(* ===== verification/AutoUpdate.v ===== *)
(** * The agent's update manager ([agent/autoupdate/manager.go], [types.go]).

    One check-and-update is a computation over an environment: the server client,
    the file system, the clock, random numbers, the commands it runs. The fields of
    [Manager] that change are the second component of the state. [Cancel] may be
    called by another goroutine at any time, so every action is preceded by a point
    where the environment decides whether that happens ([interfere]).

    Files are named by their role ([path]): the code builds their names from the
    manifest's version, the platform and the architecture, in three directories of
    its own. The version library is a parameter ([Semver]). Windows installation
    (a helper script that replaces the binary after the process ends) is one action
    of the environment. *)
From S2P Require Import Prelude GoStrings GoTime GoFloat Effects UpdatePolicy.
From Stdlib Require Import Ascii.

(** ** Parameters *)

(** [github.com/Masterminds/semver]: [NewVersion] is [None] on an error. *)
Class Semver := {
  Version : Type;
  NewVersion : string -> option Version;
  GreaterThan : Version -> Version -> bool;
  VersionEqual : Version -> Version -> bool;
  Major : Version -> Z;
  Minor : Version -> Z;
}.

(** ** Data *)

Inductive Status :=
| StatusIdle | StatusChecking | StatusPending | StatusDownloading | StatusStaging
| StatusApplying | StatusRestarting | StatusSucceeded | StatusFailed | StatusSkipped
| StatusRolledBack | StatusCancelled.

#[export] Instance Status_eq_dec : EqDecision Status.
Proof. solve_decision. Defined.

Inductive ErrorCode :=
| NoErrorCode | ErrCodeDiskSpace | ErrCodeDownloadFailed | ErrCodeHashMismatch
| ErrCodeStagingFailed | ErrCodeApplyFailed | ErrCodeServerError.

Record UpdateManifest := {
  ManifestVersion : string;
  Component : string;
  Manifest_Version : string;
  MinorLine : string;
  Platform : string;
  Arch : string;
  Manifest_Channel : string;
  SHA256 : string;
  SizeBytes : Z;
  SourceURL : string;
  DownloadURL : string;
  PublishedAt : Time;
  GeneratedAt : Time;
  Signature : string;
}.

Record UpdateRun := {
  Run_ID : string;
  Run_Status : Status;
  Run_RequestedAt : Time;
  Run_StartedAt : Time;
  Run_CompletedAt : Time;
  Run_CurrentVersion : string;
  Run_TargetVersion : string;
  Run_Channel : string;
  Run_Platform : string;
  Run_Arch : string;
  Run_SizeBytes : Z;
  Run_DownloadedAt : Time;
  Run_DownloadTimeMs : Z;
  Run_ErrorCode : ErrorCode;
  Run_ErrorMessage : string;
}.

Record TelemetryPayload := {
  Tel_RunID : string;
  Tel_Status : Status;
  Tel_CurrentVersion : string;
  Tel_TargetVersion : string;
  Tel_DownloadTimeMs : Z;
  Tel_SizeBytes : Z;
  Tel_ErrorCode : ErrorCode;
  Tel_ErrorMessage : string;
  Tel_Timestamp : Time;
}.

Record PendingUpdateState := {
  Pending_TargetVersion : string;
  Pending_FromVersion : string;
  Pending_StartedAt : Time;
  Pending_Method : string;
}.

(** The fields of [Manager] that [NewManager] sets once. [None] for a parsed
    version, and [false] for a provider, is Go's [nil]. *)
Record Manager `{Semver} := {
  stateDir : string;
  enabled : bool;
  disabledReason : string;
  currentVersion : string;
  currentSemver : option Version;
  platform : string;
  arch : string;
  channel : string;
  binaryPath : string;
  serviceName : string;
  isService : bool;
  minDiskSpace : Z;
  maxRetries : Z;
  hasClient : bool;
  hasPolicyProvider : bool;
  hasTelemetry : bool;
  usePackageManager : bool;
  packageName : string;
  packageManager : string;
  useMSI : bool;
  goos : string;
}.

(** The fields that change, under the mutex. *)
Record MState := {
  status : Status;
  lastCheck : Time;
  nextCheck : Time;
  latestVersion : string;
  latestManifest : option UpdateManifest;
  currentRun : option UpdateRun;
  cancelled : bool;
}.

Definition initial_state : MState :=
  {| status := StatusIdle; lastCheck := zero_time; nextCheck := zero_time; latestVersion := "";
     latestManifest := None; currentRun := None; cancelled := false |}.

Definition with_status (s : Status) (ms : MState) : MState :=
  {| status := s; lastCheck := lastCheck ms; nextCheck := nextCheck ms;
     latestVersion := latestVersion ms; latestManifest := latestManifest ms;
     currentRun := currentRun ms; cancelled := cancelled ms |}.
Definition with_cancelled (b : bool) (ms : MState) : MState :=
  {| status := status ms; lastCheck := lastCheck ms; nextCheck := nextCheck ms;
     latestVersion := latestVersion ms; latestManifest := latestManifest ms;
     currentRun := currentRun ms; cancelled := b |}.
Definition with_run (r : option UpdateRun) (ms : MState) : MState :=
  {| status := status ms; lastCheck := lastCheck ms; nextCheck := nextCheck ms;
     latestVersion := latestVersion ms; latestManifest := latestManifest ms;
     currentRun := r; cancelled := cancelled ms |}.
Definition with_latest (t : Time) (mf : UpdateManifest) (ms : MState) : MState :=
  {| status := status ms; lastCheck := t; nextCheck := nextCheck ms;
     latestVersion := Manifest_Version mf; latestManifest := Some mf;
     currentRun := currentRun ms; cancelled := cancelled ms |}.

(** The files the manager works with. *)
Inductive path :=
| DownloadPath (version : string)
| PartialPath (version : string)
| StagingPath (version : string)
| BackupPath (version : string)
| BinaryPath
| PendingPath.

(** [Cancel]: refused once the update is being applied, and when there is nothing to
    cancel. *)
Definition Cancel (ms : MState) : MState * bool :=
  match status ms with
  | StatusRestarting | StatusApplying => (ms, false)
  | StatusIdle | StatusSucceeded | StatusFailed => (ms, false)
  | _ => (with_cancelled true ms, true)
  end.

(** ** Versions and policy *)

Section Versions.
Context `{Semver}.

Definition parseSemverVersion (raw : string) : option Version :=
  let trimmed := TrimSpace (TrimPrefix raw "v") in
  if String.eqb trimmed "" then None
  else match NewVersion trimmed with
  | Some ver => Some ver
  | None =>
      let '(core, build) := match Index trimmed "+" with
                            | Some plus => (stake plus trimmed, sdrop plus trimmed)
                            | None => (trimmed, "")
                            end in
      let '(core, prerelease) := match Index core "-" with
                                 | Some dash => (stake dash core, sdrop (dash + 1) core)
                                 | None => (core, "")
                                 end in
      let segments := Split core "." in
      if Nat.leb (length segments) 3 then NewVersion trimmed
      else
        let base := Join (take 3 segments) "." in
        let extra := Join (drop 3 segments) "." in
        let preParts := (if negb (String.eqb extra "") then [extra] else [])
                        ++ (if negb (String.eqb prerelease "") then [prerelease] else []) in
        let normalized := if Nat.ltb 0 (length preParts)
                          then (base +:+ "-" +:+ Join preParts ".")%string else base in
        NewVersion (if negb (String.eqb build "") then (normalized +:+ build)%string else normalized)
  end.

Definition isVersionAllowed (current target : Version) (spec : PolicySpec) : bool :=
  if negb (String.eqb (TargetVersion spec) "")
     && match NewVersion (TrimPrefix (TargetVersion spec) "v") with
        | Some pinned => negb (VersionEqual target pinned)
        | None => false
        end
  then false
  else if String.eqb (VersionPinStrategy spec) VersionPinMajor then
    if negb (Major target =? Major current) && negb (AllowMajorUpgrade spec) then false else true
  else if String.eqb (VersionPinStrategy spec) VersionPinMinor then
    if negb (Major target =? Major current) || negb (Minor target =? Minor current)
    then (if negb (AllowMajorUpgrade spec) then false else true) else true
  else if String.eqb (VersionPinStrategy spec) VersionPinPatch then false
  else true.

(** [policy] is the answer of the policy provider, [None] without a provider. *)
Definition isUpdateNeeded (m : Manager) (policy : option (PolicySpec * string * bool))
    (manifest : UpdateManifest) : bool :=
  if String.eqb (Manifest_Version manifest) "" then false
  else match currentSemver m with
  | None => negb (String.eqb (Manifest_Version manifest) (currentVersion m))
  | Some current =>
      match parseSemverVersion (Manifest_Version manifest) with
      | None => negb (String.eqb (Manifest_Version manifest) (currentVersion m))
      | Some target =>
          match policy with
          | Some (spec, _, true) =>
              if negb (isVersionAllowed current target spec) then false
              else GreaterThan target current
          | _ => GreaterThan target current
          end
      end
  end.

End Versions.

(** [isInMaintenanceWindow], given the provider's answer and the clock. *)
Definition isInMaintenanceWindow `{TzDatabase} (policy : option (PolicySpec * string * bool))
    (now : Time) : bool :=
  match policy with
  | None => true
  | Some (spec, _, ok) =>
      if negb ok || negb (Enabled (Maintenance spec)) then true
      else
        let window := Maintenance spec in
        let loc := if negb (String.eqb (Timezone window) "")
                   then default UTC (LoadLocation (Timezone window)) else UTC in
        if Nat.ltb 0 (length (DaysOfWeek window))
           && negb (existsb (fun d => d =? Weekday loc now) (DaysOfWeek window))
        then false
        else
          let currentMinutes := clock_hour loc now * 60 + clock_minute loc now in
          let startMinutes := wrap64 (wrap64 (StartHour window * 60) + StartMin window) in
          let endMinutes := wrap64 (wrap64 (EndHour window * 60) + EndMin window) in
          in_daily_window currentMinutes startMinutes endMinutes
  end.

(** ** Scheduling *)

Definition defaultCheckInterval : Duration := 24 * Hour.

Definition check_interval (policy : option (PolicySpec * string * bool)) : Duration :=
  match policy with
  | Some (spec, _, true) =>
      if 0 <? UpdateCheckDays spec then dmul (dmul (UpdateCheckDays spec) 24) Hour
      else defaultCheckInterval
  | _ => defaultCheckInterval
  end.

(** [rand.Int63n(n)] panics when [n <= 0]; otherwise it is the random number [r]
    reduced below [n]. *)
Definition Int63n (r n : Z) : option Z := if n <=? 0 then None else Some (r mod n).

(** [scheduleNextCheck]: the time of the next check, [None] for the panic. *)
Definition scheduleNextCheck (policy : option (PolicySpec * string * bool)) (r : Z) (now : Time) :
    option Time :=
  let interval := check_interval policy in
  match Int63n r (Z.quot interval 10) with
  | None => None
  | Some jitter => Some (Add now (wrap64 (interval + jitter)))
  end.

Definition timeUntilNextCheck (next now : Time) : Duration :=
  let until := Sub next now in if until <? 0 then Minute else until.

(** ** Retry delays *)

Definition defaultRetryBaseDelay : Duration := 2 * Second.
Definition defaultRetryMaxDelay : Duration := 5 * Minute.

(** One step of the exponential back-off, with the random number [r]; [None] for a
    panic of [Int63n]. *)
Definition next_delay (delay r : Z) : option Duration :=
  let delay := delay * 2 in
  let delay := if defaultRetryMaxDelay <? delay then defaultRetryMaxDelay else delay in
  match Int63n r (Z.quot delay 4) with
  | Some jitter => Some (delay + jitter)
  | None => None
  end.

(** ** The environment *)

(** An error of the file system: its text, and whether it is [EXDEV]. *)
Record os_error := { os_message : string; os_exdev : bool }.

Inductive pending_error := NotExist | ReadError (e : string) | ParseError (e : string).

Inductive event :=
| OtherCancel (r : option bool)
| GotManifest (r : result string (option UpdateManifest))
| GotPolicy (r : PolicySpec * string * bool)
| GotClock (t : Time)
| GotRand (r : Z)
| DiskSpace (r : result string Z)
| StatFile (f : path) (r : result bool Z)
| Downloaded (f : path) (resumeFrom : Z) (r : Z * option string)
| Slept (d : Duration) (ctxErr : option string)
| HashedFile (f : path) (r : result string string)
| MkdirAll (f : path) (r : option os_error)
| Chmod (f : path) (r : option os_error)
| Renamed (src dst : path) (r : option os_error)
| Copied (src dst : path) (r : option os_error)
| Removed (f : path)
| WrotePending (p : PendingUpdateState) (r : option string)
| PendingRead (r : result pending_error PendingUpdateState)
| WindowsInstall (staging : path) (r : option string)
| RanCommand (args : list string) (r : string * option string)
| StartedCommand (args : list string) (r : option string)
| Exited (code : Z)
| StatusSet (s : Status) (progress : Z) (message : string)
| StatusRead (s : Status)
| CancelledRead (b : bool)
| StateSet
| Reported (p : TelemetryPayload).

Record UpdateEnv (W : Type) := {
  env_cancel : W -> bool * W;
  env_manifest : W -> result string (option UpdateManifest) * W;
  env_policy : W -> (PolicySpec * string * bool) * W;
  env_clock : W -> Time * W;
  env_rand : W -> Z * W;
  env_disk : W -> result string Z * W;
  (** [os.Stat]: the size; [Err true] when the file does not exist. *)
  env_stat : path -> W -> result bool Z * W;
  env_download : UpdateManifest -> path -> Z -> W -> (Z * option string) * W;
  env_sleep : Duration -> W -> option string * W;
  env_sha256 : path -> W -> result string string * W;
  env_mkdir : path -> W -> option os_error * W;
  env_chmod : path -> W -> option os_error * W;
  env_rename : path -> path -> W -> option os_error * W;
  env_copy : path -> path -> W -> option os_error * W;
  env_remove : path -> W -> W;
  env_write_pending : PendingUpdateState -> W -> option string * W;
  (** [os.ReadFile] and [json.Unmarshal] of the pending-update file. *)
  env_read_pending : W -> result pending_error PendingUpdateState * W;
  env_windows_install : path -> W -> option string * W;
  env_run : list string -> W -> (string * option string) * W;
  env_start : list string -> W -> option string * W;
}.
Arguments env_cancel {W}. Arguments env_manifest {W}. Arguments env_policy {W}.
Arguments env_clock {W}. Arguments env_rand {W}. Arguments env_disk {W}. Arguments env_stat {W}.
Arguments env_download {W}. Arguments env_sleep {W}. Arguments env_sha256 {W}.
Arguments env_mkdir {W}. Arguments env_chmod {W}. Arguments env_rename {W}. Arguments env_copy {W}.
Arguments env_remove {W}. Arguments env_write_pending {W}. Arguments env_read_pending {W}.
Arguments env_windows_install {W}. Arguments env_run {W}. Arguments env_start {W}.

(** What a method returns: Go's [error], or a panic. *)
Inductive outcome := Returns (err : option string) | Panics.

Section Manager.
Context {W : Type} `{Semver} `{GoUnicode} `{TzDatabase} (env : UpdateEnv W) (m : Manager).
Local Notation state := (W * MState)%type.
Local Notation M := (M event state).

Definition binaryExtension : string :=
  if String.eqb (platform m) "windows" then (if useMSI m then ".msi" else ".exe") else "".

(** The file names the code builds. *)
Definition file_name (version : string) : string :=
  ("agent-" +:+ version +:+ "-" +:+ platform m +:+ "-" +:+ arch m +:+ binaryExtension)%string.
Definition path_string (f : path) : string :=
  (match f with
   | DownloadPath v => stateDir m +:+ "/downloads/" +:+ file_name v
   | PartialPath v => stateDir m +:+ "/downloads/" +:+ file_name v +:+ ".partial"
   | StagingPath v => stateDir m +:+ "/staging/" +:+ file_name v
   | BackupPath v => stateDir m +:+ "/backups/" +:+ file_name v
   | BinaryPath => binaryPath m
   | PendingPath => stateDir m +:+ "/pending_update.json"
   end)%string.

(** Another goroutine may call [Cancel] here. *)
Definition interfere : M unit :=
  _ ← call OtherCancel (fun s : state =>
        let '(c, w) := env_cancel env s.1 in
        if c then let '(ms, b) := Cancel s.2 in (Some b, (w, ms)) else (None, (w, s.2)));
  mret tt.

(** An action of the outside, and one on the shared fields. *)
Definition outside {A} (rec : A -> event) (op : W -> A * W) : M A :=
  _ ← interfere;
  call rec (fun s => let '(a, w) := op s.1 in (a, (w, s.2))).

Definition update_state (rec : unit -> event) (f : MState -> MState) : M unit :=
  _ ← interfere; call rec (fun s => (tt, (s.1, f s.2))).

Definition read_state {A} (rec : A -> event) (f : MState -> A) : M A :=
  _ ← interfere; call rec (fun s => (f s.2, s)).

Definition clock : M Time := outside GotClock (env_clock env).

Definition setStatusWithProgress (s : Status) (progress : Z) (message : string) : M unit :=
  update_state (fun _ => StatusSet s progress message) (with_status s).
Definition setStatus (s : Status) : M unit := setStatusWithProgress s (-1) "".
Definition setStatusWithError (s : Status) (code : ErrorCode) (msg : string) : M unit :=
  update_state (fun _ => StatusSet s (-1) msg) (with_status s).

Definition IsCancelled : M bool := read_state CancelledRead cancelled.

(** The policy provider's answer, [None] without a provider. *)
Definition policy : M (option (PolicySpec * string * bool)) :=
  if hasPolicyProvider m then p ← outside GotPolicy (env_policy env); mret (Some p) else mret None.

(** [run.Field = ...] on the run that [m.currentRun] points to. *)
Definition set_run (f : UpdateRun -> UpdateRun) : M unit :=
  update_state (fun _ => StateSet) (fun ms => with_run (f <$> currentRun ms) ms).

Definition run_status (s : Status) (r : UpdateRun) : UpdateRun :=
  {| Run_ID := Run_ID r; Run_Status := s; Run_RequestedAt := Run_RequestedAt r;
     Run_StartedAt := Run_StartedAt r; Run_CompletedAt := Run_CompletedAt r;
     Run_CurrentVersion := Run_CurrentVersion r; Run_TargetVersion := Run_TargetVersion r;
     Run_Channel := Run_Channel r; Run_Platform := Run_Platform r; Run_Arch := Run_Arch r;
     Run_SizeBytes := Run_SizeBytes r; Run_DownloadedAt := Run_DownloadedAt r;
     Run_DownloadTimeMs := Run_DownloadTimeMs r; Run_ErrorCode := Run_ErrorCode r;
     Run_ErrorMessage := Run_ErrorMessage r |}.
Definition run_error (code : ErrorCode) (msg : string) (r : UpdateRun) : UpdateRun :=
  {| Run_ID := Run_ID r; Run_Status := StatusFailed; Run_RequestedAt := Run_RequestedAt r;
     Run_StartedAt := Run_StartedAt r; Run_CompletedAt := Run_CompletedAt r;
     Run_CurrentVersion := Run_CurrentVersion r; Run_TargetVersion := Run_TargetVersion r;
     Run_Channel := Run_Channel r; Run_Platform := Run_Platform r; Run_Arch := Run_Arch r;
     Run_SizeBytes := Run_SizeBytes r; Run_DownloadedAt := Run_DownloadedAt r;
     Run_DownloadTimeMs := Run_DownloadTimeMs r; Run_ErrorCode := code; Run_ErrorMessage := msg |}.
Definition run_times (started completed downloaded : option Time) (ms : option Z) (r : UpdateRun) : UpdateRun :=
  {| Run_ID := Run_ID r; Run_Status := Run_Status r; Run_RequestedAt := Run_RequestedAt r;
     Run_StartedAt := default (Run_StartedAt r) started;
     Run_CompletedAt := default (Run_CompletedAt r) completed;
     Run_CurrentVersion := Run_CurrentVersion r; Run_TargetVersion := Run_TargetVersion r;
     Run_Channel := Run_Channel r; Run_Platform := Run_Platform r; Run_Arch := Run_Arch r;
     Run_SizeBytes := Run_SizeBytes r; Run_DownloadedAt := default (Run_DownloadedAt r) downloaded;
     Run_DownloadTimeMs := default (Run_DownloadTimeMs r) ms; Run_ErrorCode := Run_ErrorCode r;
     Run_ErrorMessage := Run_ErrorMessage r |}.

(** [reportTelemetry]: the payload that the goroutine sends. *)
Definition reportTelemetry (s : Status) (code : ErrorCode) (msg : string) : M unit :=
  if negb (hasTelemetry m) then mret tt
  else
    t ← clock;
    _ ← read_state Reported (fun ms =>
      let r := currentRun ms in
      {| Tel_RunID := default "" (Run_ID <$> r); Tel_Status := s; Tel_CurrentVersion := currentVersion m;
         Tel_TargetVersion := default "" (Run_TargetVersion <$> r);
         Tel_DownloadTimeMs := default 0 (Run_DownloadTimeMs <$> r);
         Tel_SizeBytes := default 0 (Run_SizeBytes <$> r); Tel_ErrorCode := code;
         Tel_ErrorMessage := match code with NoErrorCode => "" | _ => msg end; Tel_Timestamp := t |});
    mret tt.

(** ** Download, verification, installation *)

(** [select { case <-ctx.Done(): return ctx.Err(); case <-time.After(delay): }] *)
Definition sleep (delay : Duration) : M (option string) := outside (Slept delay) (env_sleep env delay).

(** The loop of [downloadWithRetry]: [left] attempts remain. The progress callback
    only sets the status [Downloading], which it already is. *)
Fixpoint download_loop (left : nat) (manifest : UpdateManifest) (delay : Duration)
    (lastErr : option string) : M outcome :=
  match left with
  | O => mret (Returns (Some ("download failed after " +:+ pretty (maxRetries m) +:+ " attempts: "
                              +:+ default "%!w(<nil>)" lastErr)%string))
  | S left' =>
      let v := Manifest_Version manifest in
      info ← outside (StatFile (PartialPath v)) (env_stat env (PartialPath v));
      let resumeFrom := value_or 0 info in
      r ← outside (Downloaded (PartialPath v) resumeFrom)
                  (env_download env manifest (PartialPath v) resumeFrom);
      let '(downloaded, err) := r in
      if match err with None => 0 <? downloaded | Some _ => false end then
        rn ← outside (Renamed (PartialPath v) (DownloadPath v))
                     (env_rename env (PartialPath v) (DownloadPath v));
        mret (Returns (match rn with
                       | Some e => Some ("failed to finalize download: " +:+ os_message e)%string
                       | None => None
                       end))
      else if Nat.ltb 0 left' then
        done ← sleep delay;
        match done with
        | Some e => mret (Returns (Some e))
        | None =>
            rnd ← outside GotRand (env_rand env);
            match next_delay delay rnd with
            | None => mret Panics
            | Some delay' => download_loop left' manifest delay' err
            end
        end
      else download_loop left' manifest delay err
  end.

Definition downloadWithRetry (manifest : UpdateManifest) : M outcome :=
  download_loop (Z.to_nat (maxRetries m)) manifest defaultRetryBaseDelay None.

Definition verifyHash (f : path) (expectedHash : string) : M (option string) :=
  r ← outside (HashedFile f) (env_sha256 env f);
  mret (match r with
        | Err e => Some e
        | Ok actualHash =>
            if negb (EqualFold actualHash expectedHash)
            then Some ("hash mismatch: expected " +:+ expectedHash +:+ ", got " +:+ actualHash)%string
            else None
        end).

Definition copyFile (src dst : path) : M (option string) :=
  r ← outside (Copied src dst) (env_copy env src dst); mret (os_message <$> r).

Definition stageBinary (src dst : path) : M (option string) :=
  r ← outside (MkdirAll dst) (env_mkdir env dst);
  match r with Some e => mret (Some (os_message e)) | None => copyFile src dst end.

Definition backupBinary (backup : path) : M (option string) :=
  if String.eqb (binaryPath m) "" then mret (Some "binary path not set")
  else
    r ← outside (MkdirAll backup) (env_mkdir env backup);
    match r with Some e => mret (Some (os_message e)) | None => copyFile BinaryPath backup end.

Definition rollback (backup : path) : M (option string) :=
  if String.eqb (binaryPath m) "" then mret (Some "rollback not possible: missing paths")
  else
    s ← outside (StatFile backup) (env_stat env backup);
    match s with
    | Err true => mret (Some ("backup file not found: " +:+ path_string backup)%string)
    | _ => copyFile backup BinaryPath
    end.

(** A hint is prepended to the error of a read-only file system. *)
Definition read_only_hint (e what : string) : string :=
  if Contains e "read-only file system"
  then ("failed to update binary: filesystem is read-only. "
    +:+ "If this agent was installed via apt/deb package, update using: sudo apt-get update && sudo apt-get upgrade printmaster-agent. "
    +:+ "If running in a container, rebuild the container image with the new version. Original error: " +:+ e)%string
  else (what +:+ ": " +:+ e)%string.

Definition applyUpdateUnix (staging : path) : M (option string) :=
  c ← outside (Chmod staging) (env_chmod env staging);
  match c with
  | Some e => mret (Some ("failed to set executable permission: " +:+ os_message e)%string)
  | None =>
      r ← outside (Renamed staging BinaryPath) (env_rename env staging BinaryPath);
      match r with
      | None => mret None
      | Some e =>
          if os_exdev e then
            cp ← copyFile staging BinaryPath;
            match cp with
            | Some ce => mret (Some (read_only_hint ce "failed to copy binary across filesystems"))
            | None =>
                ch ← outside (Chmod BinaryPath) (env_chmod env BinaryPath);
                match ch with
                | Some e' => mret (Some ("failed to set executable permission after copy: " +:+ os_message e')%string)
                | None =>
                    _ ← outside (fun _ : unit => Removed staging) (fun w => (tt, env_remove env staging w));
                    mret None
                end
            end
          else mret (Some (read_only_hint (os_message e) "failed to replace binary"))
      end
  end.

(** ** Package managers *)

Definition progressFn (percent : Z) (message : string) : M unit :=
  setStatusWithProgress StatusApplying percent message.

(** [exec.Command(args...)] run to its end: the output and the error. *)
Definition run_command (args : list string) : M (string * option string) :=
  outside (RanCommand args) (env_run env args).

Definition wrapSudoError (operation err out : string) : string :=
  if Contains out "a password is required" || Contains out "password for"
     || Contains out "Password:" || Contains out "Sorry, try again"
     || Contains out "usual lecture from the local System Administrator"
  then (operation +:+ " requires passwordless sudo. "
    +:+ "Ensure the agent is running as a systemd service (systemctl start printmaster-agent) "
    +:+ "and the sudoers file exists at /etc/sudoers.d/printmaster-agent. "
    +:+ "If running manually, you can update using: sudo " +:+ packageManager m +:+ " -y "
    +:+ packageName m)%string
  else (operation +:+ " failed: " +:+ err +:+ " (output: " +:+ out +:+ ")")%string.

Definition applyUpdateViaApt (targetVersion : string) : M (option string) :=
  _ ← progressFn 5 "Refreshing package metadata...";
  _ ← run_command ["sudo"; "apt-get"; "update"; "-qq"];
  _ ← progressFn 30 "Package metadata updated";
  let packageSpec := if negb (String.eqb targetVersion "")
                     then (packageName m +:+ "=" +:+ targetVersion +:+ "*")%string else packageName m in
  _ ← progressFn 35 ("Downloading " +:+ packageSpec +:+ "...")%string;
  r ← run_command ["sudo"; "apt-get"; "install"; "-y"; "-qq"; "--allow-downgrades"; packageSpec];
  match r with
  | (output, Some err) => mret (Some (wrapSudoError "apt-get install" err output))
  | (output, None) =>
      _ ← progressFn 90 "Package installed successfully";
      _ ← progressFn 95 "Finalizing update...";
      mret None
  end.

Definition dashed_spec (targetVersion : string) : string :=
  if negb (String.eqb targetVersion "") then (packageName m +:+ "-" +:+ targetVersion)%string
  else packageName m.

Definition finish_package : M (option string) :=
  _ ← progressFn 75 "Installing package...";
  _ ← progressFn 90 "Package installed successfully";
  _ ← progressFn 95 "Finalizing update...";
  mret None.

(** The install command, and the generic upgrade when it fails. *)
Definition install_or_upgrade (install upgrade : list string) (what : string) : M (option string) :=
  r ← run_command install;
  match r with
  | (_, None) => finish_package
  | (_, Some _) =>
      _ ← progressFn 40 "Specific version not found, trying upgrade...";
      u ← run_command upgrade;
      match u with
      | (output, Some err) => mret (Some (wrapSudoError what err output))
      | (_, None) => finish_package
      end
  end.

Definition applyUpdateViaDnf (targetVersion : string) : M (option string) :=
  _ ← progressFn 5 "Preparing dnf update...";
  let packageSpec := dashed_spec targetVersion in
  _ ← progressFn 10 "Refreshing repository metadata...";
  _ ← progressFn 25 ("Resolving dependencies for " +:+ packageSpec +:+ "...")%string;
  _ ← progressFn 35 ("Downloading " +:+ packageSpec +:+ "...")%string;
  install_or_upgrade
    ["sudo"; "dnf"; "--setopt=logdir=/tmp"; "--refresh"; "install"; "-y"; "--allowerasing"; packageSpec]
    ["sudo"; "dnf"; "--setopt=logdir=/tmp"; "--refresh"; "upgrade"; "-y"; packageName m]
    "dnf install/upgrade".

Definition applyUpdateViaYum (targetVersion : string) : M (option string) :=
  _ ← progressFn 5 "Cleaning yum cache...";
  _ ← run_command ["sudo"; "yum"; "clean"; "metadata"; "-q"];
  _ ← progressFn 20 "Cache cleaned";
  let packageSpec := dashed_spec targetVersion in
  _ ← progressFn 25 ("Resolving dependencies for " +:+ packageSpec +:+ "...")%string;
  _ ← progressFn 35 ("Downloading " +:+ packageSpec +:+ "...")%string;
  install_or_upgrade
    ["sudo"; "yum"; "install"; "-y"; "-q"; packageSpec]
    ["sudo"; "yum"; "upgrade"; "-y"; "-q"; packageName m]
    "yum install/upgrade".

Definition applyUpdateViaPackageManager (targetVersion : string) : M (option string) :=
  if String.eqb (packageManager m) "apt" then applyUpdateViaApt targetVersion
  else if String.eqb (packageManager m) "dnf" then applyUpdateViaDnf targetVersion
  else if String.eqb (packageManager m) "yum" then applyUpdateViaYum targetVersion
  else mret (Some ("unknown package manager: " +:+ packageManager m)%string).

Definition applyUpdate (staging : path) : M (option string) :=
  if String.eqb (binaryPath m) "" then mret (Some "binary path not set")
  else if usePackageManager m && negb (String.eqb (packageName m) "")
  then applyUpdateViaPackageManager ""
  else if String.eqb (goos m) "windows"
  then outside (WindowsInstall staging) (env_windows_install env staging)
  else applyUpdateUnix staging.

(** ** Restart and the pending-update file *)

Definition writePendingUpdateState (targetVersion method : string) : M (option string) :=
  t ← clock;
  let st := {| Pending_TargetVersion := targetVersion; Pending_FromVersion := currentVersion m;
               Pending_StartedAt := t; Pending_Method := method |} in
  outside (WrotePending st) (env_write_pending env st).

(** [restartService]: every branch ends the process. *)
Definition restartService : M (option string) :=
  if String.eqb (goos m) "linux" && isService m then
    let serviceName := if String.eqb (serviceName m) "" then "printmaster-agent" else serviceName m in
    let serviceName := if negb (HasSuffix serviceName ".service")
                       then (serviceName +:+ ".service")%string else serviceName in
    let args := ["sudo"; "systemctl"; "restart"; "--no-block"; serviceName] in
    e ← outside (StartedCommand args) (env_start env args);
    match e with
    | Some _ => _ ← outside (fun _ : unit => Exited 1) (fun w => (tt, w)); mret None
    | None => _ ← outside (fun _ : unit => Exited 0) (fun w => (tt, w)); mret None
    end
  else _ ← outside (fun _ : unit => Exited 0) (fun w => (tt, w)); mret None.

(** [ValidatePostUpdate]: was there an update, from which version, and the error. *)
Definition ValidatePostUpdate : M (bool * string * option string) :=
  r ← outside PendingRead (env_read_pending env);
  match r with
  | Err NotExist => mret (false, "", None)
  | Err (ReadError e) => mret (false, "", Some ("failed to read pending update state: " +:+ e)%string)
  | _ =>
      res ← (match r with
             | Ok st =>
                 if negb (String.eqb (currentVersion m) (Pending_TargetVersion st)) then
                   mret (true, Pending_FromVersion st,
                         Some ("update validation failed: expected version " +:+ Pending_TargetVersion st
                               +:+ " but running " +:+ currentVersion m)%string)
                 else t ← clock; mret (true, Pending_FromVersion st, None)
             | Err (ParseError e) =>
                 mret (false, "", Some ("failed to parse pending update state: " +:+ e)%string)
             | _ => mret (false, "", None)
             end);
      _ ← outside (fun _ : unit => Removed PendingPath) (fun w => (tt, env_remove env PendingPath w));
      mret res
  end.

(** ** One update *)

Definition cancelled_error : string := "update cancelled by user".

(** [run.Status = StatusCancelled ... return], removing a file first or not. *)
Definition cancel_run (remove : option path) : M outcome :=
  _ ← set_run (run_status StatusCancelled);
  t ← clock;
  _ ← set_run (run_times None (Some t) None None);
  _ ← setStatus StatusCancelled;
  _ ← match remove with
      | Some f => outside (fun _ : unit => Removed f) (fun w => (tt, env_remove env f w))
      | None => mret tt
      end;
  mret (Returns (Some cancelled_error)).

(** [run.Status = StatusFailed ...; setStatusWithError; reportTelemetry]. *)
Definition fail_run (code : ErrorCode) (err : string) : M unit :=
  _ ← set_run (run_error code err);
  t ← clock;
  _ ← set_run (run_times None (Some t) None None);
  _ ← setStatusWithError StatusFailed code err;
  reportTelemetry StatusFailed code err.

Definition new_run (manifest : UpdateManifest) (st : Status) (size idNano requested : Z) : UpdateRun :=
  {| Run_ID := ("run-" +:+ pretty idNano)%string; Run_Status := st; Run_RequestedAt := requested;
     Run_StartedAt := zero_time; Run_CompletedAt := zero_time; Run_CurrentVersion := currentVersion m;
     Run_TargetVersion := Manifest_Version manifest; Run_Channel := channel m;
     Run_Platform := platform m; Run_Arch := arch m; Run_SizeBytes := size;
     Run_DownloadedAt := zero_time; Run_DownloadTimeMs := 0; Run_ErrorCode := NoErrorCode;
     Run_ErrorMessage := "" |}.

(** [t.UnixNano()] *)
Definition UnixNano (t : Time) : Z := wrap64 (t - unix_epoch * Second).

Definition start_run (manifest : UpdateManifest) (st : Status) (size : Z) : M unit :=
  t1 ← clock;
  t2 ← clock;
  update_state (fun _ => StateSet)
    (fun ms => with_cancelled false (with_run (Some (new_run manifest st size (UnixNano t1) t2)) ms)).

Definition finish_run : M unit :=
  _ ← set_run (run_status StatusSucceeded);
  t ← clock;
  _ ← set_run (run_times None (Some t) None None);
  _ ← setStatusWithProgress StatusRestarting 80 "Restarting agent...";
  reportTelemetry StatusSucceeded NoErrorCode "".

Definition executeUpdateViaPackageManager (manifest : UpdateManifest) : M outcome :=
  _ ← start_run manifest StatusApplying 0;
  t ← clock;
  _ ← set_run (run_times (Some t) None None None);
  c ← IsCancelled;
  if (c : bool) then cancel_run None
  else
    _ ← progressFn 0 ("Starting update to " +:+ Manifest_Version manifest +:+ " via "
                      +:+ packageManager m +:+ "...")%string;
    _ ← set_run (run_status StatusApplying);
    _ ← reportTelemetry StatusApplying NoErrorCode "";
    e ← applyUpdateViaPackageManager (Manifest_Version manifest);
    match e with
    | Some err => _ ← fail_run ErrCodeApplyFailed err; mret (Returns (Some err))
    | None =>
        _ ← finish_run;
        _ ← writePendingUpdateState (Manifest_Version manifest) (packageManager m);
        r ← restartService; mret (Returns r)
    end.

(** The end of [executeUpdate]: from the backup on, it cannot be cancelled. *)
Definition apply_phase (manifest : UpdateManifest) : M outcome :=
  let staging := StagingPath (Manifest_Version manifest) in
  let backup := BackupPath (currentVersion m) in
  _ ← backupBinary backup;
  _ ← setStatusWithProgress StatusApplying 68 "Applying update (cannot cancel)...";
  _ ← set_run (run_status StatusApplying);
  _ ← reportTelemetry StatusApplying NoErrorCode "";
  e ← applyUpdate staging;
  match e with
  | Some err =>
      _ ← fail_run ErrCodeApplyFailed err;
      _ ← rollback backup;
      mret (Returns (Some err))
  | None =>
      _ ← finish_run;
      let updateMethod := if HasSuffix (path_string staging) ".msi" then "msi" else "binary" in
      _ ← writePendingUpdateState (Manifest_Version manifest) updateMethod;
      r ← restartService; mret (Returns r)
  end.

(** From the verified download to the last cancellation point. *)
Definition stage_phase (manifest : UpdateManifest) : M outcome :=
  let v := Manifest_Version manifest in
  _ ← setStatusWithProgress StatusStaging 58 "Staging update...";
  _ ← set_run (run_status StatusStaging);
  _ ← reportTelemetry StatusStaging NoErrorCode "";
  e ← stageBinary (DownloadPath v) (StagingPath v);
  match e with
  | Some err => _ ← fail_run ErrCodeStagingFailed err; mret (Returns (Some err))
  | None =>
      c ← IsCancelled;
      if (c : bool) then cancel_run (Some (StagingPath v)) else apply_phase manifest
  end.

(** From the end of the download to the verification. *)
Definition verify_phase (manifest : UpdateManifest) : M outcome :=
  let dl := DownloadPath (Manifest_Version manifest) in
  c ← IsCancelled;
  if (c : bool) then cancel_run (Some dl)
  else
    _ ← setStatusWithProgress StatusDownloading 52 "Verifying download...";
    e ← verifyHash dl (SHA256 manifest);
    match e with
    | Some err =>
        _ ← fail_run ErrCodeHashMismatch err;
        _ ← outside (fun _ : unit => Removed dl) (fun w => (tt, env_remove env dl w));
        mret (Returns (Some err))
    | None =>
        c ← IsCancelled;
        if (c : bool) then cancel_run (Some dl) else stage_phase manifest
    end.

Definition executeUpdate (manifest : UpdateManifest) : M outcome :=
  if usePackageManager m && negb (String.eqb (packageName m) "")
  then executeUpdateViaPackageManager manifest
  else
    _ ← start_run manifest StatusDownloading (SizeBytes manifest);
    _ ← setStatusWithProgress StatusDownloading 0 "Starting download...";
    t ← clock;
    _ ← set_run (run_times (Some t) None None None);
    _ ← reportTelemetry StatusDownloading NoErrorCode "";
    c ← IsCancelled;
    if (c : bool) then cancel_run None
    else
      downloadStart ← clock;
      d ← downloadWithRetry manifest;
      match d with
      | Panics => mret Panics
      | Returns (Some err) =>
          c ← IsCancelled;
          if (c : bool) then cancel_run (Some (DownloadPath (Manifest_Version manifest)))
          else _ ← fail_run ErrCodeDownloadFailed err; mret (Returns (Some err))
      | Returns None =>
          t ← clock;
          _ ← set_run (run_times None None (Some t) (Some (Milliseconds (Sub t downloadStart))));
          verify_phase manifest
      end.

(** ** Checks *)

Definition checkDiskSpace (requiredBytes : Z) : M (option string) :=
  let requiredMB := Z.quot (wrap64 (requiredBytes * 3)) (1024 * 1024) in
  let requiredMB := if requiredMB <? minDiskSpace m then minDiskSpace m else requiredMB in
  r ← outside DiskSpace (env_disk env);
  mret (match r with
        | Err _ => None
        | Ok available =>
            if available <? requiredMB
            then Some ("insufficient disk space: need " +:+ pretty requiredMB +:+ " MB, have "
                       +:+ pretty available +:+ " MB")%string
            else None
        end).

(** The deferred reset of both entry points. *)
Definition reset_if_checking : M unit :=
  s ← read_state StatusRead status;
  if bool_decide (s = StatusChecking) then setStatus StatusIdle else mret tt.

Definition remember (manifest : UpdateManifest) : M unit :=
  t ← clock; update_state (fun _ => StateSet) (with_latest t manifest).

(** The disk check and the update, common to both entry points. *)
Definition check_and_execute (manifest : UpdateManifest) : M outcome :=
  e ← checkDiskSpace (SizeBytes manifest);
  match e with
  | Some err => _ ← reportTelemetry StatusFailed ErrCodeDiskSpace err; mret (Returns (Some err))
  | None => _ ← setStatus StatusPending; executeUpdate manifest
  end.

Definition inMaintenanceWindow : M bool :=
  p ← policy;
  match p with
  | Some (spec, _, true) =>
      if Enabled (Maintenance spec) then t ← clock; mret (isInMaintenanceWindow p t) else mret true
  | _ => mret true
  end.

(** [isUpdateNeeded]: the policy is asked only when both versions parse. *)
Definition updateNeeded (manifest : UpdateManifest) : M bool :=
  if negb (String.eqb (Manifest_Version manifest) "")
     && bool_decide (is_Some (currentSemver m))
     && bool_decide (is_Some (parseSemverVersion (Manifest_Version manifest)))
  then p ← policy; mret (isUpdateNeeded m p manifest)
  else mret (isUpdateNeeded m None manifest).

Definition performCheck_body : M outcome :=
  w ← inMaintenanceWindow;
  if negb w then _ ← setStatus StatusIdle; mret (Returns None)
  else
    p ← policy;
    if match p with Some (_, _, ok) => negb ok | None => false end
    then _ ← setStatus StatusIdle; mret (Returns None)
    else
      if negb (hasClient m) then mret Panics else
      r ← outside GotManifest (env_manifest env);
      match r with
      | Err e =>
          _ ← reportTelemetry StatusFailed ErrCodeServerError e;
          mret (Returns (Some ("failed to fetch manifest: " +:+ e)%string))
      | Ok None => mret Panics
      | Ok (Some manifest) =>
          _ ← remember manifest;
          needed ← updateNeeded manifest;
          if negb needed then mret (Returns None) else check_and_execute manifest
      end.

Definition performCheck : M outcome :=
  _ ← setStatus StatusChecking;
  r ← performCheck_body;
  _ ← reset_if_checking;
  mret r.

(** The text of a status. *)
Definition status_string (s : Status) : string :=
  match s with
  | StatusIdle => "idle" | StatusChecking => "checking" | StatusPending => "pending"
  | StatusDownloading => "downloading" | StatusStaging => "staging" | StatusApplying => "applying"
  | StatusRestarting => "restarting" | StatusSucceeded => "succeeded" | StatusFailed => "failed"
  | StatusSkipped => "skipped" | StatusRolledBack => "rolled_back" | StatusCancelled => "cancelled"
  end.

Definition busy (s : Status) : bool :=
  bool_decide (s <> StatusIdle) && bool_decide (s <> StatusPending).

Definition in_progress (s : Status) : outcome :=
  Returns (Some ("update operation already in progress: " +:+ status_string s)%string).

Definition CheckNow : M outcome :=
  s ← read_state StatusRead status;
  if busy s then mret (in_progress s) else performCheck.

(** Under one lock, the status is read and set to [Checking] unless it is busy. *)
Definition claim : M Status :=
  _ ← interfere;
  call StatusRead (fun s => (status s.2,
    (s.1, if busy (status s.2) then s.2 else with_status StatusChecking s.2))).

Definition ForceInstallLatest (reason : string) : M outcome :=
  if negb (enabled m) then
    mret (Returns (Some (if negb (String.eqb (disabledReason m) "")
                         then ("auto-update disabled: " +:+ disabledReason m)%string
                         else "auto-update disabled")))
  else if negb (hasClient m) then mret (Returns (Some "update client not configured"))
  else
    s ← claim;
    if busy s then mret (in_progress s)
    else
      res ← (r ← outside GotManifest (env_manifest env);
             match r with
             | Err e =>
                 _ ← reportTelemetry StatusFailed ErrCodeServerError e;
                 mret (Returns (Some ("failed to fetch manifest: " +:+ e)%string))
             | Ok None => mret (Returns (Some "no manifest available"))
             | Ok (Some manifest) => _ ← remember manifest; check_and_execute manifest
             end);
      _ ← reset_if_checking;
      mret res.

End Manager.

(** ** What the history says *)

Section History.
Context `{Semver} `{GoUnicode} `{TzDatabase} (m : Manager).

(** The file was hashed to the digest of the manifest, which the server had sent. *)
Definition verified (h : list event) (mf : UpdateManifest) : Prop :=
  exists h1 digest,
    (h1 ++ [HashedFile (DownloadPath (Manifest_Version mf)) (Ok digest)]) `prefix_of` h /\
    EqualFold digest (SHA256 mf) = true /\ GotManifest (Ok (Some mf)) ∈ h1.

(** After that the verified file was copied to the staging directory. *)
Definition staged (h : list event) (mf : UpdateManifest) : Prop :=
  exists h1,
    (h1 ++ [Copied (DownloadPath (Manifest_Version mf)) (StagingPath (Manifest_Version mf)) None])
      `prefix_of` h /\ verified h1 mf.

(** After that the cancellation flag was read and was clear. *)
Definition cleared (h : list event) (mf : UpdateManifest) : Prop :=
  exists h1, (h1 ++ [CancelledRead false]) `prefix_of` h /\ staged h1 mf.

(** The provider's answer to a policy question of this run. *)
Definition policy_answer (h : list event) (p : option (PolicySpec * string * bool)) : Prop :=
  match p with
  | None => hasPolicyProvider m = false
  | Some a => GotPolicy a ∈ h
  end.

Definition disk_ok (h : list event) (mf : UpdateManifest) : Prop :=
  exists r, DiskSpace r ∈ h /\
    match r with
    | Ok available =>
        Z.max (minDiskSpace m) (Z.quot (wrap64 (SizeBytes mf * 3)) (1024 * 1024)) <= available
    | Err _ => True
    end.

(** What [performCheck] establishes before it updates. *)
Definition check_ok (h : list event) (mf : UpdateManifest) : Prop :=
  (exists p, policy_answer h p /\
     match p with
     | Some (spec, _, true) =>
         Enabled (Maintenance spec) = false \/
         exists t, GotClock t ∈ h /\ isInMaintenanceWindow p t = true
     | _ => True
     end) /\
  (exists p, policy_answer h p /\ match p with Some (_, _, ok) => ok = true | None => True end) /\
  (exists p, isUpdateNeeded m p mf = true /\
     (policy_answer h p \/ currentSemver m = None \/ parseSemverVersion (Manifest_Version mf) = None)).

(** The file comes from the staging directory, where it was copied from a verified
    download, the last look at the cancellation flag after that found it clear, and
    [E] holds. *)
Definition install_ok (E : list event -> UpdateManifest -> Prop) (h : list event) (src : path) : Prop :=
  exists mf, src = StagingPath (Manifest_Version mf) /\ cleared h mf /\ E h mf.

(** The file is the backup of the running version, and the run that restores it had
    come as far as an installation. *)
Definition rollback_ok (E : list event -> UpdateManifest -> Prop) (h : list event) (src : path) : Prop :=
  src = BackupPath (currentVersion m) /\ exists mf, cleared h mf /\ E h mf.

(** Whatever touches the installed binary: an installation, a roll-back, or the
    command of a package manager that is in use, for a manifest that the server sent
    and for which [E] holds, with the cancellation flag found clear. *)
Definition update_ok (E : list event -> UpdateManifest -> Prop) (h : list event) (c : event) : Prop :=
  match c with
  | Renamed src BinaryPath _ => install_ok E h src
  | Copied src BinaryPath _ => install_ok E h src \/ rollback_ok E h src
  | WindowsInstall src _ => install_ok E h src
  | RanCommand _ _ =>
      usePackageManager m = true /\ CancelledRead false ∈ h /\
      exists mf, GotManifest (Ok (Some mf)) ∈ h /\ E h mf
  | _ => True
  end.

End History.

(** ** Lemmas *)

(** The verification chain is kept by a longer history. *)
Lemma verified_mono `{GoUnicode} h h' mf : h `prefix_of` h' -> verified h mf -> verified h' mf.
Proof. intros Hp (h1 & d & Hpre & ? & ?). exists h1, d. split_and!; [by etrans | done | done]. Qed.

Lemma staged_mono `{GoUnicode} h h' mf : h `prefix_of` h' -> staged h mf -> staged h' mf.
Proof. intros Hp (h1 & Hpre & ?). exists h1. split; [by etrans | done]. Qed.

Lemma cleared_mono `{GoUnicode} h h' mf : h `prefix_of` h' -> cleared h mf -> cleared h' mf.
Proof. intros Hp (h1 & Hpre & ?). exists h1. split; [by etrans | done]. Qed.

Lemma disk_ok_mono `{Semver} m h h' mf : h `prefix_of` h' -> disk_ok m h mf -> disk_ok m h' mf.
Proof. intros Hp (r & ? & ?). exists r. eauto with history. Qed.

Lemma policy_answer_mono `{Semver} m h h' p :
  h `prefix_of` h' -> policy_answer m h p -> policy_answer m h' p.
Proof. destruct p; simpl; eauto with history. Qed.

Section Lemmas.
Context {W : Type} `{Semver} `{GoUnicode} `{TzDatabase} (env : UpdateEnv W) (m : Manager).
Context (E : list event -> UpdateManifest -> Prop).
Hypothesis E_mono : forall h h' mf, h `prefix_of` h' -> E h mf -> E h' mf.
Local Notation M := (M event (W * MState)).
Local Notation P := (update_ok m E).

(** A computation that never touches the binary. *)
Definition harmless {A} (c : M A) : Prop := forall h, Spec P h c (fun _ _ => True).

Lemma harmless_ret {A} (a : A) : harmless (mret a).
Proof. intros h. by apply Spec_ret. Qed.

Lemma harmless_bind {A B} (c : M A) (f : A -> M B) :
  harmless c -> (forall a, harmless (f a)) -> harmless (c ≫= f).
Proof. intros Hc Hf h. eapply Spec_bind; [apply Hc | intros; apply Hf]. Qed.

Lemma Spec_seq {A B} h (c : M A) (f : A -> M B) Q :
  harmless c -> (forall h' a, h `prefix_of` h' -> Spec P h' (f a) Q) -> Spec P h (c ≫= f) Q.
Proof. intros Hc Hf. eapply Spec_bind; [apply Hc | intros; by apply Hf]. Qed.

Lemma harmless_interfere : harmless (interfere env).
Proof. intros h. unfold interfere. spec_step; [done|]. by spec_step. Qed.

(** One recorded action, preceded by the point of interference. *)
Lemma Spec_action {A} h (rec : A -> event) (op : W * MState -> A * (W * MState)) Q :
  (forall h' a, h `prefix_of` h' -> P h' (rec a) /\ Q (h' ++ [rec a]) a) ->
  Spec P h (interfere env ≫= fun _ => call rec op) Q.
Proof. intros Ha. apply Spec_seq; [apply harmless_interfere|]. intros h' _ Hp. apply Spec_call. auto. Qed.

Lemma harmless_action {A} (rec : A -> event) (op : W * MState -> A * (W * MState)) :
  (forall h a, P h (rec a)) -> harmless (interfere env ≫= fun _ => call rec op).
Proof. intros Hr h. apply Spec_action. auto. Qed.

Lemma Spec_outside {A} h (rec : A -> event) (op : W -> A * W) Q :
  (forall h' a, h `prefix_of` h' -> P h' (rec a) /\ Q (h' ++ [rec a]) a) ->
  Spec P h (outside env rec op) Q.
Proof. apply Spec_action. Qed.

Lemma Spec_read {A} h (rec : A -> event) f Q :
  (forall h' a, h `prefix_of` h' -> P h' (rec a) /\ Q (h' ++ [rec a]) a) ->
  Spec P h (read_state env rec f) Q.
Proof. apply Spec_action. Qed.

Lemma harmless_outside {A} (rec : A -> event) (op : W -> A * W) :
  (forall h a, P h (rec a)) -> harmless (outside env rec op).
Proof. apply harmless_action. Qed.

Lemma harmless_update rec f : (forall h, P h (rec tt)) -> harmless (update_state env rec f).
Proof. intros Hr. apply harmless_action. intros h []. apply Hr. Qed.

Lemma harmless_read {A} (rec : A -> event) f : (forall h a, P h (rec a)) -> harmless (read_state env rec f).
Proof. apply harmless_action. Qed.
End Lemmas.

#[local] Opaque outside update_state read_state.
Create HintDb harmless.

(** Decomposes a computation whose actions are all harmless. *)
Ltac harmless :=
  repeat first
    [ match goal with |- forall _, _ => intro end
    | solve [auto with harmless nocore]
    | apply harmless_ret
    | apply harmless_outside; solve [done | intros; left; done]
    | apply harmless_update; done
    | apply harmless_read; done
    | apply harmless_bind
    | match goal with
      | |- harmless _ _ (if ?b then _ else _) => destruct b
      | |- harmless _ _ (match ?x with _ => _ end) => destruct x
      end
    | done ].

Section Specs.
Context {W : Type} `{Semver} `{GoUnicode} `{TzDatabase} (env : UpdateEnv W) (m : Manager).
Context (E : list event -> UpdateManifest -> Prop).
Hypothesis E_mono : forall h h' mf, h `prefix_of` h' -> E h mf -> E h' mf.
Local Notation P := (update_ok m E).
Local Notation harmless := (harmless (W := W) m E).

Lemma clock_harmless : harmless (clock env).
Proof. unfold clock. by harmless. Qed.
Lemma set_run_harmless f : harmless (set_run env f).
Proof. unfold set_run. by harmless. Qed.
Lemma setStatus_harmless s p msg : harmless (setStatusWithProgress env s p msg).
Proof. unfold setStatusWithProgress. by harmless. Qed.
Lemma reportTelemetry_harmless s c msg : harmless (reportTelemetry env m s c msg).
Proof. unfold reportTelemetry, clock. harmless. Qed.
Lemma policy_harmless : harmless (policy env m).
Proof. unfold policy. harmless. Qed.
Lemma IsCancelled_harmless : harmless (IsCancelled env).
Proof. unfold IsCancelled. by harmless. Qed.
Hint Resolve clock_harmless set_run_harmless setStatus_harmless reportTelemetry_harmless
  policy_harmless IsCancelled_harmless : harmless.

Lemma cancel_run_harmless f : harmless (cancel_run env f).
Proof. unfold cancel_run, setStatus. harmless. Qed.
Lemma fail_run_harmless c e : harmless (fail_run env m c e).
Proof. unfold fail_run, setStatusWithError. harmless. Qed.
Lemma start_run_harmless mf s n : harmless (start_run env m mf s n).
Proof. unfold start_run. harmless. Qed.
Lemma finish_run_harmless : harmless (finish_run env m).
Proof. unfold finish_run. harmless. Qed.
Lemma writePending_harmless v k : harmless (writePendingUpdateState env m v k).
Proof. unfold writePendingUpdateState. harmless. Qed.
Lemma restart_harmless : harmless (restartService env m).
Proof. unfold restartService. harmless. Qed.
Lemma backup_harmless v : harmless (backupBinary env m (BackupPath v)).
Proof. unfold backupBinary, copyFile. harmless. Qed.
Lemma download_loop_harmless n mf d e : harmless (download_loop env m n mf d e).
Proof. revert d e. induction n as [|n IH]; intros d e; simpl; unfold sleep; harmless; apply IH. Qed.
Hint Resolve cancel_run_harmless fail_run_harmless start_run_harmless finish_run_harmless
  writePending_harmless restart_harmless backup_harmless
  download_loop_harmless : harmless.

Lemma Spec_true {A} h (c : Effects.M event (W * MState) A) : harmless c -> Spec P h c (fun _ _ => True).
Proof. intros Hc. apply Hc. Qed.

(** Every command of a package manager is justified by [E]. *)
Lemma package_spec h mf version :
  usePackageManager m = true -> CancelledRead false ∈ h -> GotManifest (Ok (Some mf)) ∈ h -> E h mf ->
  Spec P h (applyUpdateViaPackageManager env m version) (fun _ _ => True).
Proof.
  intros Hpk Hcl Hmf HE.
  assert (Hrun : forall h' args, h `prefix_of` h' -> Spec P h' (run_command env args) (fun _ _ => True)).
  { intros h' args Hp. apply Spec_outside. intros h'' a Hp'. split; [|done].
    assert (h `prefix_of` h'') by by etrans. split_and!; [done | by eapply prefix_elem_of |].
    exists mf. split; [by eapply prefix_elem_of | by apply (E_mono h)]. }
  assert (Hprog : forall n msg, harmless (progressFn env n msg)) by (intros; unfold progressFn; auto with harmless).
  assert (Hfin : harmless (finish_package env)) by (unfold finish_package; harmless; apply Hprog).
  assert (Hiu : forall h' a b w, h `prefix_of` h' -> Spec P h' (install_or_upgrade env m a b w) (fun _ _ => True)).
  { intros h' a b w Hp. unfold install_or_upgrade. eapply Spec_bind; [by apply Hrun|].
    intros h1 [out [e|]] Hp1 _; [|apply Hfin]. apply Spec_seq; [apply Hprog|]. intros h2 _ Hp2.
    eapply Spec_bind; [apply Hrun; etrans; [exact Hp|]; by etrans|].
    intros h3 [out' [e'|]] _ _; [by spec_step | apply Hfin]. }
  unfold applyUpdateViaPackageManager, applyUpdateViaApt, applyUpdateViaDnf, applyUpdateViaYum.
  destruct (String.eqb _ "apt"); [|destruct (String.eqb _ "dnf"); [|destruct (String.eqb _ "yum"); [|by spec_step]]].
  - apply Spec_seq; [apply Hprog|]. intros h1 _ Hp1.
    eapply Spec_bind; [by apply Hrun|]. intros h2 r Hp2 _.
    apply Spec_seq; [apply Hprog|]. intros h3 _ Hp3. apply Spec_seq; [apply Hprog|]. intros h4 _ Hp4.
    eapply Spec_bind; [apply Hrun; etrans; [exact Hp1|]; etrans; [exact Hp2|]; by etrans|].
    intros h5 [out [e|]] _ _; [by spec_step|]. apply Spec_true. harmless; apply Hprog.
  - repeat (apply Spec_seq; [apply Hprog|]; intros ? _ ?). apply Hiu. repeat (etrans; [eassumption|]). done.
  - apply Spec_seq; [apply Hprog|]. intros h1 _ Hp1.
    eapply Spec_bind; [by apply Hrun|]. intros h2 r Hp2 _.
    repeat (apply Spec_seq; [apply Hprog|]; intros ? _ ?). apply Hiu. repeat (etrans; [eassumption|]). done.
Qed.

(** The installation of a staged, verified and uncancelled update. *)
Lemma apply_spec h mf :
  (usePackageManager m && negb (String.eqb (packageName m) "") = false) ->
  cleared h mf -> E h mf ->
  Spec P h (applyUpdate env m (StagingPath (Manifest_Version mf))) (fun _ _ => True).
Proof.
  intros Hpk Hc HE. unfold applyUpdate. rewrite Hpk.
  assert (Hok : forall h', h `prefix_of` h' -> install_ok E h' (StagingPath (Manifest_Version mf))).
  { intros h' Hp. exists mf. split_and!; [done | by eapply cleared_mono | by eapply E_mono]. }
  destruct (String.eqb (binaryPath m) ""); [by spec_step|].
  destruct (String.eqb (goos m) "windows").
  { apply Spec_outside. intros h' a Hp. split; [by apply Hok | done]. }
  unfold applyUpdateUnix, copyFile. apply Spec_seq; [by harmless|]. intros h1 [e|] Hp1; [by spec_step|].
  eapply (Spec_bind _ _ _ _ (fun _ _ => True)).
  { apply Spec_outside. intros h' a Hp. split; [|done]. apply Hok. by etrans. }
  intros h2 [e|] Hp2 _; [|by spec_step]. destruct (os_exdev e); [|by spec_step].
  eapply (Spec_bind _ _ _ _ (fun _ _ => True)).
  { eapply (Spec_bind _ _ _ _ (fun _ _ => True)); [|intros; by spec_step].
    apply Spec_outside. intros h' a Hp. split; [|done]. left. apply Hok.
    etrans; [exact Hp1|]. by etrans. }
  intros h3 [ce|] _ _; [by spec_step|]. apply Spec_true. by harmless.
Qed.

(** The roll-back of a run that had come as far as an installation. *)
Lemma rollback_spec h mf :
  cleared h mf -> E h mf -> Spec P h (rollback env m (BackupPath (currentVersion m))) (fun _ _ => True).
Proof.
  intros Hc HE. unfold rollback, copyFile. destruct (String.eqb _ ""); [by spec_step|].
  apply Spec_seq; [by harmless|]. intros h1 s Hp1.
  assert (Hcopy : Spec P h1 (copyFile env (BackupPath (currentVersion m)) BinaryPath) (fun _ _ => True)).
  { unfold copyFile. eapply (Spec_bind _ _ _ _ (fun _ _ => True)); [|intros; by spec_step].
    apply Spec_outside. intros h2 a Hp2. split; [|done]. right. split; [done|]. exists mf.
    assert (h `prefix_of` h2) by by etrans.
    split; [by eapply cleared_mono | by eapply E_mono]. }
  destruct s as [|[]]; [exact Hcopy | by spec_step | exact Hcopy].
Qed.

Lemma apply_phase_spec h mf :
  (usePackageManager m && negb (String.eqb (packageName m) "") = false) ->
  cleared h mf -> E h mf -> Spec P h (apply_phase env m mf) (fun _ _ => True).
Proof.
  intros Hpk Hc HE. unfold apply_phase. apply Spec_seq; [by harmless|]. intros h1 _ Hp1.
  apply Spec_seq; [by harmless|]. intros h2 _ Hp2.
  apply Spec_seq; [by harmless|]. intros h3 _ Hp3.
  apply Spec_seq; [by harmless|]. intros h4 _ Hp4.
  assert (Hp : h `prefix_of` h4) by (repeat (etrans; [eassumption|]); done).
  eapply Spec_bind.
  { apply apply_spec; [done | by eapply cleared_mono | by eapply E_mono]. }
  intros h5 [e|] Hp5 _; [|apply Spec_true; by harmless].
  apply Spec_seq; [by harmless|]. intros h6 _ Hp6.
  assert (h `prefix_of` h6) by (etrans; [exact Hp|]; by etrans).
  eapply Spec_bind; [|intros; by spec_step].
  apply (rollback_spec _ mf); [by eapply cleared_mono | by eapply E_mono].
Qed.

Lemma IsCancelled_spec h :
  Spec P h (IsCancelled env) (fun h' b => exists h1, h `prefix_of` h1 /\ h' = h1 ++ [CancelledRead b]).
Proof. apply Spec_read. intros h' a Hp. split; [done|]. by exists h'. Qed.

Lemma stage_phase_spec h mf :
  (usePackageManager m && negb (String.eqb (packageName m) "") = false) ->
  verified h mf -> E h mf -> Spec P h (stage_phase env m mf) (fun _ _ => True).
Proof.
  intros Hpk Hv HE. unfold stage_phase. apply Spec_seq; [by harmless|]. intros h1 _ Hp1.
  apply Spec_seq; [by harmless|]. intros h2 _ Hp2.
  apply Spec_seq; [by harmless|]. intros h3 _ Hp3.
  assert (Hp : h `prefix_of` h3) by (repeat (etrans; [eassumption|]); done). clear Hp1 Hp2 Hp3 h1 h2.
  eapply (Spec_bind _ _ _ _ (fun h' (e : option string) => e = None -> staged h' mf)).
  { unfold stageBinary. apply Spec_seq; [by harmless|]. intros h4 [e|] Hp4; [by spec_step|].
    unfold copyFile.
    eapply (Spec_bind _ _ _ _ (fun h' (e : option os_error) => e = None -> staged h' mf)).
    - apply Spec_outside. intros h5 a Hp5. split; [done|]. intros ->. exists h5. split; [done|].
      eapply verified_mono; [|exact Hv]. etrans; [exact Hp|]. by etrans.
    - intros h5 a Hp5 Ha. spec_step. intros Hn. apply Ha. by destruct a. }
  intros h4 [e|] Hp4 Hs.
  { apply Spec_true. by harmless. }
  eapply Spec_bind; [apply IsCancelled_spec|]. intros h5 c _ (h6 & Hp6 & ->). destruct c.
  { apply Spec_true; by harmless. }
  apply apply_phase_spec; [done | | ].
  - exists h6. split; [done|]. eapply staged_mono; [exact Hp6 | by apply Hs].
  - eapply E_mono; [|exact HE]. etrans; [exact Hp|]. etrans; [exact Hp4|].
    etrans; [exact Hp6|]. by apply prefix_app_r.
Qed.

Lemma verify_phase_spec h mf :
  (usePackageManager m && negb (String.eqb (packageName m) "") = false) ->
  GotManifest (Ok (Some mf)) ∈ h -> E h mf -> Spec P h (verify_phase env m mf) (fun _ _ => True).
Proof.
  intros Hpk Hmf HE. unfold verify_phase. apply Spec_seq; [by harmless|].
  intros h1 [] Hp1; [apply Spec_true; by harmless|].
  apply Spec_seq; [by harmless|]. intros h2 _ Hp2.
  assert (Hp : h `prefix_of` h2) by by etrans.
  eapply (Spec_bind _ _ _ _ (fun h' (e : option string) => e = None -> verified h' mf)).
  { unfold verifyHash.
    eapply (Spec_bind _ _ _ _ (fun h' r => exists h3, h2 `prefix_of` h3 /\
      h' = h3 ++ [HashedFile (DownloadPath (Manifest_Version mf)) r])).
    - apply Spec_outside. intros h3 a Hp3. split; [done|]. by exists h3.
    - intros h' r _ (h3 & Hp3 & ->). spec_step. destruct r as [digest|e]; [|done].
      destruct (EqualFold digest (SHA256 mf)) eqn:Heq; [|done]. intros _.
      exists h3, digest. split_and!; [done | done |].
      eapply prefix_elem_of; [|exact Hmf]. by etrans. }
  intros h3 [e|] Hp3 Hv.
  { apply Spec_true. by harmless. }
  apply Spec_seq; [by harmless|].
  intros h4 [] Hp4; [apply Spec_true; by harmless|].
  apply stage_phase_spec; [done | eapply verified_mono; [exact Hp4 | by apply Hv] |].
  eapply E_mono; [|exact HE]. etrans; [exact Hp|]. by etrans.
Qed.

Lemma executeUpdate_spec h mf :
  GotManifest (Ok (Some mf)) ∈ h -> E h mf -> Spec P h (executeUpdate env m mf) (fun _ _ => True).
Proof.
  intros Hmf HE. unfold executeUpdate.
  destruct (usePackageManager m && _) eqn:Hpk.
  { unfold executeUpdateViaPackageManager. apply andb_true_iff in Hpk as [Hpk _].
    apply Spec_seq; [by harmless|]. intros h1 _ Hp1.
    apply Spec_seq; [by harmless|]. intros h2 t Hp2.
    apply Spec_seq; [by harmless|]. intros h3 _ Hp3.
    eapply Spec_bind; [apply IsCancelled_spec|]. intros h4 c Hp4 (h4' & _ & ->).
    destruct c; [apply Spec_true; by harmless|].
    apply Spec_seq; [by harmless|]. intros h5 _ Hp5.
    apply Spec_seq; [by harmless|]. intros h6 _ Hp6.
    apply Spec_seq; [by harmless|]. intros h7 _ Hp7.
    assert (Hp : h `prefix_of` h7) by (repeat (etrans; [eassumption|]); done).
    assert (CancelledRead false ∈ h7).
    { eapply prefix_elem_of; [|apply elem_of_app; right; by left]. by repeat (etrans; [eassumption|]). }
    eapply Spec_bind; [apply (package_spec _ mf); [done | done | by eapply prefix_elem_of | by eapply E_mono]|].
    intros h8 [e|] _ _; apply Spec_true.
    - by harmless.
    - by harmless. }
  apply Spec_seq; [by harmless|]. intros h1 _ Hp1.
  apply Spec_seq; [by harmless|]. intros h2 _ Hp2.
  apply Spec_seq; [by harmless|]. intros h3 t Hp3.
  apply Spec_seq; [by harmless|]. intros h4 _ Hp4.
  apply Spec_seq; [by harmless|]. intros h5 _ Hp5.
  apply Spec_seq; [by harmless|]. intros h6 c Hp6.
  destruct c; [apply Spec_true; by harmless|].
  apply Spec_seq; [by harmless|]. intros h7 t0 Hp7.
  apply Spec_seq; [unfold downloadWithRetry; by harmless|]. intros h8 d Hp8.
  assert (Hp : h `prefix_of` h8) by (repeat (etrans; [eassumption|]); done).
  destruct d as [[e|]|]; [| |by spec_step].
  { apply Spec_true. by harmless. }
  apply Spec_seq; [by harmless|]. intros h9 t1 Hp9.
  apply Spec_seq; [by harmless|]. intros h10 _ Hp10.
  assert (Hp' : h `prefix_of` h10) by (etrans; [exact Hp|]; by etrans).
  apply verify_phase_spec; [done | by eapply prefix_elem_of | by eapply E_mono].
Qed.
End Specs.

Section Entry.
Context {W : Type} `{Semver} `{GoUnicode} `{TzDatabase} (env : UpdateEnv W) (m : Manager).

(** What is checked before an update, by [performCheck] and by
    [ForceInstallLatest]. *)
Definition checked (h : list event) (mf : UpdateManifest) : Prop := check_ok m h mf /\ disk_ok m h mf.

Lemma check_ok_mono h h' mf : h `prefix_of` h' -> check_ok m h mf -> check_ok m h' mf.
Proof.
  intros Hp ((p1 & Ha1 & H1') & (p2 & Ha2 & H2') & (p3 & H3' & Ha3)). split_and!.
  - exists p1. split; [by eapply policy_answer_mono|].
    destruct p1 as [[[s c] []]|]; [|done..]. destruct H1' as [?|(t & Ht & ?)]; [by left|].
    right. exists t. eauto with history.
  - exists p2. split; [by eapply policy_answer_mono | done].
  - exists p3. split; [done|]. destruct Ha3 as [?|?]; [left; by eapply policy_answer_mono | by right].
Qed.

Lemma checked_mono h h' mf : h `prefix_of` h' -> checked h mf -> checked h' mf.
Proof. intros Hp [? ?]. split; [by eapply check_ok_mono | by eapply disk_ok_mono]. Qed.

Lemma checkDiskSpace_spec E h mf :
  Spec (update_ok m E) h (checkDiskSpace env m (SizeBytes mf)) (fun h' e => e = None -> disk_ok m h' mf).
Proof.
  unfold checkDiskSpace.
  set (required := Z.max (minDiskSpace m) (Z.quot (wrap64 (SizeBytes mf * 3)) (1024 * 1024))).
  replace (if Z.quot _ _ <? minDiskSpace m then minDiskSpace m else _) with required
    by (unfold required; case_goal; reflect_bools; lia).
  eapply (Spec_bind _ _ _ _ (fun h' r => DiskSpace r ∈ h')).
  { apply Spec_outside. intros h' a _. split; [done|]. eauto with history. }
  intros h' r _ Hr. spec_step. intros He. exists r. split; [done|].
  destruct r as [available|]; [|done]. destruct (available <? required) eqn:Hlt; [done|].
  reflect_bools. exact Hlt.
Qed.

Lemma check_and_execute_spec E h mf :
  (forall h1 h2 mf', h1 `prefix_of` h2 -> E h1 mf' -> E h2 mf') ->
  (forall h1, h `prefix_of` h1 -> disk_ok m h1 mf -> E h1 mf) ->
  GotManifest (Ok (Some mf)) ∈ h ->
  Spec (update_ok m E) h (check_and_execute env m mf) (fun _ _ => True).
Proof.
  intros Hmono HE Hmf. unfold check_and_execute.
  eapply Spec_bind; [apply checkDiskSpace_spec|]. intros h1 [e|] Hp1 Hd.
  { apply Spec_seq; [apply reportTelemetry_harmless|]. intros. by spec_step. }
  apply Spec_seq; [apply setStatus_harmless|]. intros h2 _ Hp2.
  apply executeUpdate_spec; [exact Hmono | eapply prefix_elem_of; [|exact Hmf]; by etrans |].
  eapply Hmono; [exact Hp2|]. by apply HE; [|apply Hd].
Qed.

Lemma remember_spec E h mf :
  Spec (update_ok m E) h (remember env mf) (fun _ _ => True).
Proof.
  unfold remember. apply Spec_seq; [apply clock_harmless|]. intros h' t _. by apply harmless_update.
Qed.

Lemma reset_spec E h : Spec (update_ok m E) h (reset_if_checking env) (fun _ _ => True).
Proof.
  unfold reset_if_checking. apply Spec_seq; [by apply harmless_read|]. intros h' s _.
  case_bool_decide; [apply setStatus_harmless | by spec_step].
Qed.

Lemma policy_spec E h :
  Spec (update_ok m E) h (policy env m) (fun h' p => policy_answer m h' p).
Proof.
  unfold policy. destruct (hasPolicyProvider m) eqn:Hp; [|by spec_step].
  eapply (Spec_bind _ _ _ _ (fun h' a => GotPolicy a ∈ h')).
  { apply Spec_outside. intros h' a _. split; [done|]. eauto with history. }
  intros h' a _ Ha. by spec_step.
Qed.

(** The window test of [check_ok]. *)
Definition window_seen (h : list event) : Prop :=
  exists p, policy_answer m h p /\
    match p with
    | Some (spec, _, true) =>
        Enabled (Maintenance spec) = false \/
        exists t, GotClock t ∈ h /\ isInMaintenanceWindow p t = true
    | _ => True
    end.

Lemma window_spec E h :
  Spec (update_ok m E) h (inMaintenanceWindow env m) (fun h' b => b = true -> window_seen h').
Proof.
  unfold inMaintenanceWindow. eapply Spec_bind; [apply policy_spec|]. intros h1 p Hp1 Hp.
  destruct p as [[[spec src] []]|].
  - destruct (Enabled (Maintenance spec)) eqn:He.
    + eapply (Spec_bind _ _ _ _ (fun h' t => h1 `prefix_of` h' /\ GotClock t ∈ h')).
      { apply Spec_outside. intros h' a Hp'. split; [done|]. split; [|eauto with history].
        etrans; [exact Hp'|]. by apply prefix_app_r. }
      intros h2 t Hp2 [Hpp Ht]. spec_step. intros Hin.
      exists (Some (spec, src, true)). split; [by eapply policy_answer_mono|]. right. eauto.
    + spec_step. intros _. exists (Some (spec, src, true)). auto.
  - spec_step. intros _. exists (Some (spec, src, false)). auto.
  - spec_step. intros _. exists None. auto.
Qed.

Lemma updateNeeded_spec E h mf :
  Spec (update_ok m E) h (updateNeeded env m mf) (fun h' b => b = true ->
    exists p, isUpdateNeeded m p mf = true /\
      (policy_answer m h' p \/ currentSemver m = None \/ parseSemverVersion (Manifest_Version mf) = None)).
Proof.
  unfold updateNeeded. destruct (negb _ && _ && _) eqn:E1.
  - eapply Spec_bind; [apply policy_spec|]. intros h1 p _ Hp. spec_step. intros Hn. exists p. auto.
  - spec_step. intros Hn. exists None. split; [done|]. right.
    destruct (String.eqb (Manifest_Version mf) "") eqn:Ev.
    { unfold isUpdateNeeded in Hn. by rewrite Ev in Hn. }
    simpl in E1. apply andb_false_iff in E1 as [E1|E1]; apply bool_decide_eq_false in E1.
    + left. destruct (currentSemver m); [|done]. by destruct E1.
    + right. destruct (parseSemverVersion _); [|done]. by destruct E1.
Qed.

Lemma performCheck_spec : Spec (update_ok m checked) [] (performCheck env m) (fun _ _ => True).
Proof.
  unfold performCheck. apply Spec_seq; [apply setStatus_harmless|]. intros h0 _ _.
  eapply (Spec_bind _ _ _ _ (fun _ _ => True)).
  2: { intros h1 r _ _. eapply Spec_bind; [apply reset_spec|]. intros. by spec_step. }
  unfold performCheck_body. eapply Spec_bind; [apply window_spec|]. intros h1 w Hp1 Hw.
  destruct w; simpl; [|apply Spec_seq; [apply setStatus_harmless|]; intros; by spec_step].
  specialize (Hw eq_refl).
  eapply Spec_bind; [apply policy_spec|]. intros h2 p Hp2 Hp.
  destruct (match p with Some (_, _, ok) => negb ok | None => false end) eqn:Hok.
  { apply Spec_seq; [apply setStatus_harmless|]; intros; by spec_step. }
  destruct (negb (hasClient m)); [by spec_step|].
  eapply (Spec_bind _ _ _ _ (fun h' r => GotManifest r ∈ h')).
  { apply Spec_outside. intros h' a _. split; [done|]. eauto with history. }
  intros h3 [[mf|]|e] Hp3 Hmf; [| by spec_step |].
  2: { apply Spec_seq; [apply reportTelemetry_harmless|]. intros; by spec_step. }
  eapply Spec_bind; [apply remember_spec|]. intros h4 _ Hp4 _.
  eapply Spec_bind; [apply updateNeeded_spec|]. intros h5 needed Hp5 Hn.
  destruct needed; simpl; [|by spec_step]. specialize (Hn eq_refl).
  assert (Hp35 : h3 `prefix_of` h5) by by etrans.
  apply check_and_execute_spec; [by apply checked_mono | | by eapply prefix_elem_of].
  intros h6 Hp6 Hd. split; [|done]. eapply check_ok_mono; [exact Hp6|]. split_and!.
  - destruct Hw as (p1 & Ha1 & H1'). exists p1.
    assert (Hpp : h1 `prefix_of` h5) by (etrans; [exact Hp2|]; by etrans).
    split; [by eapply policy_answer_mono|].
    destruct p1 as [[[s c] []]|]; [|done..]. destruct H1' as [?|(t & Ht & ?)]; [by left|].
    right. exists t. eauto with history.
  - exists p. split; [eapply policy_answer_mono; [|exact Hp]; by etrans|].
    destruct p as [[[s c] ok]|]; [|done]. by apply negb_false_iff in Hok.
  - exact Hn.
Qed.

Lemma ForceInstallLatest_spec reason :
  Spec (update_ok m (disk_ok m)) [] (ForceInstallLatest env m reason) (fun _ _ => True).
Proof.
  unfold ForceInstallLatest. destruct (negb (enabled m)); [by spec_step|].
  destruct (negb (hasClient m)); [by spec_step|].
  apply Spec_seq; [by apply harmless_action|]. intros h0 s _. destruct (busy s); [by spec_step|].
  eapply (Spec_bind _ _ _ _ (fun _ _ => True)).
  2: { intros h1 r _ _. eapply Spec_bind; [apply reset_spec|]. intros. by spec_step. }
  eapply (Spec_bind _ _ _ _ (fun h' r => GotManifest r ∈ h')).
  { apply Spec_outside. intros h' a _. split; [done|]. eauto with history. }
  intros h3 [[mf|]|e] Hp3 Hmf; [| by spec_step |].
  2: { apply Spec_seq; [apply reportTelemetry_harmless|]. intros; by spec_step. }
  eapply Spec_bind; [apply remember_spec|]. intros h4 _ Hp4 _.
  apply check_and_execute_spec; [intros; by eapply disk_ok_mono | done | by eapply prefix_elem_of].
Qed.
End Entry.

(** ** Lemmas: downloads and delays *)

#[local] Transparent outside update_state read_state.

Section Downloads.
Context {W : Type} (env : UpdateEnv W) `{Semver} (m : Manager).

Definition is_download (c : event) : bool := match c with Downloaded _ _ _ => true | _ => false end.
Definition downloads (tr : list event) : nat := length (List.filter is_download tr).

Lemma downloads_app l l' : downloads (l ++ l') = (downloads l + downloads l')%nat.
Proof. unfold downloads. by rewrite List.filter_app, length_app. Qed.

Lemma interfere_no_download s : downloads (trace (interfere env) s) = 0%nat.
Proof.
  unfold interfere. rewrite trace_bind, downloads_app.
  match goal with |- context [call ?r ?o] => destruct (call_run r o s) as (_ & -> & _) end. done.
Qed.

Lemma outside_run {A} (rec : A -> event) (op : W -> A * W) s :
  (forall a, is_download (rec a) = false) -> downloads (trace (outside env rec op) s) = 0%nat.
Proof.
  intros Hr. unfold outside. rewrite trace_bind, downloads_app, interfere_no_download.
  match goal with |- context [call ?r ?o] => destruct (call_run r o (final (interfere env) s)) as (_ & -> & _) end.
  unfold downloads. simpl. by rewrite Hr.
Qed.

Lemma outside_one {A} (rec : A -> event) (op : W -> A * W) s :
  (downloads (trace (outside env rec op) s) <= 1)%nat.
Proof.
  unfold outside. rewrite trace_bind, downloads_app, interfere_no_download.
  match goal with |- context [call ?r ?o] => destruct (call_run r o (final (interfere env) s)) as (_ & -> & _) end.
  unfold downloads. simpl. case_match; simpl; lia.
Qed.

(** The delays stay between the base delay and the maximal delay plus a quarter, on
    which the random number never panics. *)
Definition delay_ok (d : Z) : Prop :=
  defaultRetryBaseDelay <= d <= defaultRetryMaxDelay + defaultRetryMaxDelay / 4.

Lemma next_delay_ok d r : delay_ok d -> exists d', next_delay d r = Some d' /\ delay_ok d'.
Proof.
  unfold delay_ok, next_delay, Int63n, defaultRetryBaseDelay, defaultRetryMaxDelay, Minute, Second.
  intros Hd. set (e := if _ <? d * 2 then _ else d * 2).
  assert (He : 2000000000 <= e <= 300000000000).
  { unfold e. case_goal; reflect_bools; lia. }
  clearbody e. rewrite Z.quot_div_nonneg by lia.
  assert (Hq : 500000000 <= e / 4 <= 75000000000).
  { split; [apply Z.div_le_lower_bound; lia | apply Z.div_le_upper_bound; lia]. }
  destruct (Z.leb_spec (e / 4) 0); [lia|]. eexists. split; [done|].
  pose proof (Z.mod_pos_bound r (e / 4)). change (5 * 60000000000 / 4) with 75000000000. lia.
Qed.

Lemma download_loop_bounded n mf d e s :
  delay_ok d ->
  (downloads (trace (download_loop env m n mf d e) s) <= n)%nat /\
  value (download_loop env m n mf d e) s <> Panics.
Proof.
  revert d e s. induction n as [|n IH]; intros d e s Hd; [done|].
  cbn [download_loop]. cbv zeta. run_bind. rewrite downloads_app, outside_run by done.
  set (info := value _ s). set (s1 := final _ s). clearbody info s1.
  run_bind. rewrite downloads_app.
  match goal with |- context [outside env ?r ?o] => pose proof (outside_one r o s1) as Hone end.
  set (r := value _ s1). set (s2 := final _ s1). clearbody r s2.
  destruct r as [got err].
  destruct (match err with None => _ | Some _ => _ end) eqn:Hgot.
  { run_bind. rewrite downloads_app, (outside_run (Renamed _ _)) by done. split; [|by intros [=]].
    unfold downloads at 2. simpl. lia. }
  destruct (Nat.ltb 0 n) eqn:Hn.
  2: { destruct (IH d err s2 Hd) as [Hle Hv]. split; [lia | done]. }
  run_bind. unfold sleep. rewrite downloads_app, (outside_run (Slept _)) by done.
  set (done_ := value _ s2). set (s3 := final _ s2). clearbody done_ s3.
  destruct done_ as [x|]; [split; [unfold downloads at 2; simpl; lia | done]|].
  run_bind. rewrite downloads_app, (outside_run GotRand) by done.
  set (rnd := value _ s3). set (s4 := final _ s3). clearbody rnd s4.
  destruct (next_delay_ok d rnd Hd) as (d' & -> & Hd').
  destruct (IH d' err s4 Hd') as [Hle Hv]. split; [lia | done].
Qed.
End Downloads.

(** ** Sample data *)

Module UpdateSamples.

(** Versions [a.b.c], compared in order. *)
Definition parse3 (s : string) : option (Z * Z * Z) :=
  match Split s "." with
  | [a; b; c] => a ← ParseInt10 a; b ← ParseInt10 b; c ← ParseInt10 c; Some (a, b, c)
  | _ => None
  end.

#[export] Instance semver : Semver := {
  Version := Z * Z * Z;
  NewVersion := parse3;
  GreaterThan v w := let '(a, b, c) := v in let '(d, e, f) := w in
    (d <? a) || ((d =? a) && ((e <? b) || ((e =? b) && (f <? c))));
  VersionEqual v w := bool_decide (v = w);
  Major v := v.1.1;
  Minor v := v.1.2;
}.

Definition manager : Manager :=
  {| stateDir := "/var/lib/pm/autoupdate"; enabled := true; disabledReason := ""; currentVersion := "1.2.0";
     currentSemver := NewVersion "1.2.0"; platform := "linux"; arch := "amd64"; channel := "stable";
     binaryPath := "/usr/local/bin/printmaster-agent"; serviceName := ""; isService := true;
     minDiskSpace := 200; maxRetries := 5; hasClient := true; hasPolicyProvider := true;
     hasTelemetry := false; usePackageManager := false; packageName := ""; packageManager := "";
     useMSI := false; goos := "linux" |}.

Definition manifest (version : string) : UpdateManifest :=
  {| ManifestVersion := "1"; Component := "agent"; Manifest_Version := version; MinorLine := "1.3";
     Platform := "linux"; Arch := "amd64"; Manifest_Channel := "stable"; SHA256 := "ABCD"; SizeBytes := 10;
     SourceURL := ""; DownloadURL := ""; PublishedAt := 0; GeneratedAt := 0; Signature := "" |}.

(** An environment where everything succeeds, except that the [cancel_at]-th point
    of interference is a [Cancel], that [backup_error] is the result of the copy to
    the backup, and [chmod_error] of making the staged file executable. The state
    counts the points of interference. *)
Definition env (cancel_at : Z) (backup_error chmod_error : option os_error) : UpdateEnv Z := {|
  env_cancel w := (w =? cancel_at, w + 1);
  env_manifest w := (Ok (Some (manifest "1.3.0")), w);
  env_policy w := ((defaultLocalPolicySpec, PolicySourceLocal, true), w);
  env_clock w := (0, w);
  env_rand w := (0, w);
  env_disk w := (Ok 1000, w);
  env_stat _ w := (Ok 4, w);
  env_download _ _ _ w := ((10, None), w);
  env_sleep _ w := (None, w);
  env_sha256 _ w := (Ok "abcd", w);
  env_mkdir _ w := (None, w);
  env_chmod _ w := (chmod_error, w);
  env_rename _ _ w := (None, w);
  env_copy src _ w := (match src with BinaryPath => backup_error | _ => None end, w);
  env_remove _ w := w;
  env_write_pending _ w := (None, w);
  env_read_pending w := (Err NotExist, w);
  env_windows_install _ w := (None, w);
  env_run _ w := (("", None), w);
  env_start _ w := (None, w);
|}.

(** The position of an event in a trace. *)
Fixpoint index_of (f : event -> bool) (tr : list event) : option nat :=
  match tr with
  | [] => None
  | c :: tr' => if f c then Some O else S <$> index_of f tr'
  end.

Definition is_install (c : event) : bool :=
  match c with Renamed (StagingPath _) BinaryPath None => true | _ => false end.
Definition is_cancel (c : event) : bool := match c with OtherCancel (Some true) => true | _ => false end.

Definition run cancel_at be ce : list event :=
  trace (performCheck (env cancel_at be ce) manager) (0, initial_state).
End UpdateSamples.

(** ** Properties *)

(** C4: whatever the server, the file system, the clock and concurrent [Cancel] calls
    do, a run touches the installed binary in three ways only: it installs a file from
    the staging directory that was copied from a download whose digest matched the
    server's manifest, the look at the cancellation flag that follows the staging
    having found it clear; it restores the backup, in a run that had come that far; or
    it runs a command of a package manager in use, for a manifest the server sent,
    having found the flag clear. In a background or manual check each of the three
    also had the maintenance window, an enabled policy that allows the version, and
    disk space; a forced installation keeps the disk check. A [Cancel] that comes
    after that look, or before the run resets the flag, is lost
    ([cancel_can_be_lost]). *)
Theorem installs_are_justified {W} `{Semver} `{GoUnicode} `{TzDatabase} (env : UpdateEnv W) m reason s :
  calls_ok (update_ok m (checked m)) [] (trace (performCheck env m) s) /\
  calls_ok (update_ok m (disk_ok m)) [] (trace (ForceInstallLatest env m reason) s).
Proof. split; [apply performCheck_spec | apply ForceInstallLatest_spec]. Qed.

(** With an enabled policy and versions that parse, an update is needed only when
    the new version is greater; a patch pin blocks every update, a major or minor
    pin without [AllowMajorUpgrade] keeps the pinned components, and a target
    version must be met. *)
Theorem isUpdateNeeded_upgrade `{Semver} m current target spec src mf :
  currentSemver m = Some current -> parseSemverVersion (Manifest_Version mf) = Some target ->
  isUpdateNeeded m (Some (spec, src, true)) mf = true ->
  GreaterThan target current = true /\
  VersionPinStrategy spec <> VersionPinPatch /\
  (VersionPinStrategy spec = VersionPinMajor \/ VersionPinStrategy spec = VersionPinMinor ->
     AllowMajorUpgrade spec = false -> Major target = Major current) /\
  (VersionPinStrategy spec = VersionPinMinor -> AllowMajorUpgrade spec = false ->
     Minor target = Minor current) /\
  (forall pinned, TargetVersion spec <> "" -> NewVersion (TrimPrefix (TargetVersion spec) "v") = Some pinned ->
     VersionEqual target pinned = true).
Proof.
  intros Hc Ht. unfold isUpdateNeeded. rewrite Hc, Ht.
  destruct (String.eqb (Manifest_Version mf) ""); [done|].
  destruct (isVersionAllowed current target spec) eqn:Ha; [|done]. simpl. intros Hg.
  unfold isVersionAllowed in Ha. destruct (_ && _) eqn:Hpin; [done|].
  split_and!; [done | | | |].
  - intros Heq. by rewrite Heq in Ha.
  - intros [Heq|Heq] Hmaj; rewrite Heq, Hmaj in Ha; simpl in Ha.
    + destruct (Major target =? Major current) eqn:E; [by apply Z.eqb_eq | done].
    + destruct (Major target =? Major current) eqn:E; [by apply Z.eqb_eq | done].
  - intros Heq Hmaj. rewrite Heq, Hmaj in Ha. simpl in Ha.
    destruct (Major target =? Major current); [|done].
    destruct (Minor target =? Minor current) eqn:E; [by apply Z.eqb_eq | done].
  - intros pinned Hne Hp. rewrite Hp, (proj2 (String.eqb_neq _ _) Hne) in Hpin. simpl in Hpin.
    by apply negb_false_iff.
Qed.

Lemma isUpdateNeeded_upgrade_witness :
  isUpdateNeeded UpdateSamples.manager (Some (defaultLocalPolicySpec, PolicySourceLocal, true))
    (UpdateSamples.manifest "1.3.0") = true /\
  GreaterThan (Semver := UpdateSamples.semver) (1, 3, 0) (1, 2, 0) = true.
Proof.
  split; [vm_compute; reflexivity|].
  apply (isUpdateNeeded_upgrade UpdateSamples.manager (1, 2, 0) (1, 3, 0) defaultLocalPolicySpec
    PolicySourceLocal (UpdateSamples.manifest "1.3.0")); vm_compute; reflexivity.
Defined.

(** For a window the server accepts, in a zone the system knows, checks run exactly
    on the listed days in the circular interval of minutes from the start to the
    end; a window that starts and ends at the same minute is never open. *)
Theorem maintenance_window_circular `{TzDatabase} spec src now loc :
  Enabled (Maintenance spec) = true -> window_issues (Maintenance spec) = [] ->
  LoadLocation (Timezone (Maintenance spec)) = Some loc ->
  let mw := Maintenance spec in
  let start := StartHour mw * 60 + StartMin mw in
  isInMaintenanceWindow (Some (spec, src, true)) now = true <->
  Weekday loc now ∈ DaysOfWeek mw /\
  (minute_of_day loc now - start) mod 1440 < (EndHour mw * 60 + EndMin mw - start) mod 1440.
Proof.
  intros Hen Hiss Hloc mw start. unfold window_issues in Hiss.
  rewrite Hen, !app_nil, !issue_nil in Hiss. destruct Hiss as (W1 & W2 & W3 & W4 & W5 & W6 & W7).
  reflect_bools. unfold isInMaintenanceWindow. rewrite Hen, Hloc, (proj2 (String.eqb_neq _ _) W1).
  change (negb true || negb true) with false. cbv iota. change (negb false) with true. cbv iota. simpl default.
  fold mw. destruct (Nat.ltb_spec 0 (length (DaysOfWeek mw))) as [Hlen|Hlen].
  2: { exfalso. apply Nat.eqb_neq in W6. fold mw in W6. lia. }
  rewrite !wrap64_id by (unfold in_int64, int64_min, int64_max; rewrite ?wrap64_id;
    unfold in_int64, int64_min, int64_max; unfold mw; lia).
  change (clock_hour loc now * 60 + clock_minute loc now) with (minute_of_day loc now).
  destruct (existsb _ (DaysOfWeek mw)) eqn:Hd; simpl.
  - apply existsb_elem_of in Hd as (d & Hd & ->%Z.eqb_eq).
    rewrite in_daily_window_circular by (apply minute_of_day_range || unfold mw; lia). tauto.
  - split; [done|]. intros [Hin _]. pose proof (proj1 (existsb_false_forall _ _) Hd _ Hin) as Hne.
    simpl in Hne. by rewrite Z.eqb_refl in Hne.
Qed.

Lemma maintenance_window_circular_witness :
  isInMaintenanceWindow (H := {| LoadLocation _ := Some UTC |})
    (Some (normalizePolicySpec sample_policy, "fleet", true)) (6 * 24 * Hour + 23 * Hour) = true.
Proof.
  apply (maintenance_window_circular (H := {| LoadLocation _ := Some UTC |})
    (normalizePolicySpec sample_policy) "fleet" _ UTC); [reflexivity | vm_compute; reflexivity | reflexivity |].
  split; [apply (bool_decide_unpack _); vm_compute; exact I | vm_compute; reflexivity].
Defined.

(** For a check interval of at most 97046 days, the next check is scheduled between
    one and 1.1 intervals from now. *)
Theorem scheduleNextCheck_bounds spec src r now :
  0 < UpdateCheckDays spec <= 97046 ->
  let interval := UpdateCheckDays spec * 24 * Hour in
  exists t, scheduleNextCheck (Some (spec, src, true)) r now = Some t /\
    now + interval <= t /\ 10 * (t - now - interval) < interval.
Proof.
  intros Hd interval. unfold scheduleNextCheck, check_interval, Int63n.
  rewrite (proj2 (Z.ltb_lt _ _)) by lia. unfold dmul.
  rewrite (wrap64_id (UpdateCheckDays spec * 24)) by (unfold in_int64, int64_min, int64_max; lia).
  rewrite (wrap64_id (_ * Hour)) by (unfold in_int64, int64_min, int64_max, Hour; lia).
  fold interval. assert (Hi : 864 * 10 ^ 11 <= interval <= 97046 * 864 * 10 ^ 11) by (unfold interval, Hour; lia).
  rewrite Z.quot_div_nonneg by lia.
  assert (Hq : 0 < interval / 10) by (apply Z.div_str_pos; lia).
  destruct (Z.leb_spec (interval / 10) 0); [lia|]. eexists. split; [done|].
  pose proof (Z.mod_pos_bound r (interval / 10) Hq). pose proof (Z.mul_div_le interval 10).
  unfold Add. rewrite wrap64_id by (unfold in_int64, int64_min, int64_max; lia). lia.
Qed.

Lemma scheduleNextCheck_bounds_witness :
  exists t, scheduleNextCheck (Some (defaultLocalPolicySpec, "local", true)) 12345 0 = Some t /\
    0 + 7 * 24 * Hour <= t /\ 10 * (t - 0 - 7 * 24 * Hour) < 7 * 24 * Hour.
Proof. apply (scheduleNextCheck_bounds defaultLocalPolicySpec "local" 12345 0). simpl. lia. Defined.

(** A policy that the server accepts can crash the agent: from 106752 to 213503
    days, the interval overflows to a negative duration and [rand.Int63n] panics,
    whatever the random number and the time. *)
Theorem scheduleNextCheck_panics `{GoUnicode} days src r now :
  106752 <= days <= 213503 ->
  exists spec, UpdateCheckDays spec = days /\ validatePolicySpec (normalizePolicySpec spec) = [] /\
    scheduleNextCheck (Some (normalizePolicySpec spec, src, true)) r now = None.
Proof.
  intros Hd. exists {| UpdateCheckDays := days; VersionPinStrategy := VersionPinMinor; AllowMajorUpgrade := false;
    TargetVersion := ""; Maintenance := zero_window; Rollout := zero_rollout; CollectTelemetry := false |}.
  split; [done|]. split.
  - unfold validatePolicySpec. simpl. rewrite (proj2 (Z.ltb_ge _ _)) by lia. reflexivity.
  - unfold scheduleNextCheck, check_interval, Int63n. simpl. rewrite (proj2 (Z.ltb_lt _ _)) by lia.
    unfold dmul. rewrite (wrap64_id (days * 24)) by (unfold in_int64, int64_min, int64_max; lia).
    assert (Hw : wrap64 (days * 24 * Hour) = days * 24 * Hour - 2 ^ 64).
    { unfold wrap64. assert (Hm : (days * 24 * Hour + 2 ^ 63) mod 2 ^ 64 = days * 24 * Hour + 2 ^ 63 - 2 ^ 64);
        [symmetry; apply (Z.mod_unique _ _ 1); unfold Hour; lia | rewrite Hm; ring]. }
    rewrite Hw. destruct (Z.leb_spec (Z.quot (days * 24 * Hour - 2 ^ 64) 10) 0) as [|Hpos]; [done|].
    exfalso. pose proof (Z.quot_le_mono (days * 24 * Hour - 2 ^ 64) 0 10 ltac:(lia) ltac:(unfold Hour; lia)) as Hq.
    rewrite Z.quot_0_l in Hq by lia. lia.
Qed.

Lemma scheduleNextCheck_panics_witness :
  exists spec, UpdateCheckDays spec = 200000 /\ validatePolicySpec (normalizePolicySpec spec) = [] /\
    scheduleNextCheck (Some (normalizePolicySpec spec, "fleet", true)) 5 0 = None.
Proof. apply (scheduleNextCheck_panics 200000 "fleet" 5 0). lia. Defined.

(** A download makes at most [maxRetries] attempts and never panics, whatever the
    server and the file system answer. *)
Theorem downloadWithRetry_bounded {W} `{Semver} (env : UpdateEnv W) m mf s :
  Z.of_nat (downloads (trace (downloadWithRetry env m mf) s)) <= Z.max 0 (maxRetries m) /\
  value (downloadWithRetry env m mf) s <> Panics.
Proof.
  destruct (download_loop_bounded env m (Z.to_nat (maxRetries m)) mf defaultRetryBaseDelay None s) as [Hle Hv].
  { split; vm_compute; discriminate. }
  unfold downloadWithRetry. split; [lia | exact Hv].
Qed.

(** A [Cancel] that reports success can be lost: when it comes before the download
    starts (the flag is reset by the new run), or between the last check of the flag
    and the applying phase, it returns true and the update is installed all the
    same. *)
Theorem cancel_can_be_lost :
  Forall (fun n => exists i j,
    UpdateSamples.run n None None !! i = Some (OtherCancel (Some true)) /\
    UpdateSamples.run n None None !! j = Some (Renamed (StagingPath "1.3.0") BinaryPath None) /\
    (i < j)%nat) [2; 31].
Proof.
  constructor; [exists 4%nat, 73%nat | constructor; [exists 62%nat, 73%nat | constructor]];
    (split_and!; [vm_compute; reflexivity | vm_compute; reflexivity | lia]).
Qed.

(** When the backup of the running binary fails and the update then cannot be
    applied, the roll-back copies the failed backup over the binary, which was still
    intact. *)
Theorem rollback_uses_failed_backup :
  let e := Some {| os_message := "no space left on device"; os_exdev := false |} in
  let tr := UpdateSamples.run (-1) e e in
  exists i j k,
    tr !! i = Some (Copied BinaryPath (BackupPath "1.2.0") e) /\
    tr !! j = Some (Chmod (StagingPath "1.3.0") e) /\
    tr !! k = Some (Copied (BackupPath "1.2.0") BinaryPath None) /\ (i < j < k)%nat /\
    Forall (fun c => UpdateSamples.is_install c = false) tr.
Proof.
  intros e tr. exists 65%nat, 71%nat, 83%nat.
  assert (Hall : forallb (fun c => negb (UpdateSamples.is_install c)) tr = true)
    by (vm_compute; reflexivity).
  split_and!; [vm_compute; reflexivity | vm_compute; reflexivity | vm_compute; reflexivity | lia | lia |].
  apply Forall_forall. intros c Hc. apply negb_true_iff. exact (proj1 (forallb_elem_of _ _) Hall c Hc).
Qed.
