(* ===== verification/Tenancy.v ===== *)
(** * The in-memory tenant store ([server/tenancy/store.go], [types.go]) and the
    canonical form of login domains ([server/storage/types.go]:
    [NormalizeTenantDomain]).

    Every method holds the mutex, except that [CreateJoinToken] releases it between
    its check of the tenant and the insertion of the token: those are two steps of
    the step relation. Random bytes and the clock are arguments. *)
From S2P Require Import Prelude GoStrings GoTime.
From Stdlib Require Import Ascii.

(** ** Login domains *)

Section Domain.
Context `{GoUnicode}.

Definition NormalizeTenantDomain (value : string) : string :=
  let trimmed := ToLower (TrimSpace value) in
  if String.eqb trimmed "" then ""
  else
    let trimmed := match Index trimmed "://" with Some idx => sdrop (idx + 3) trimmed | None => trimmed end in
    let trimmed := match LastIndexByte trimmed "@" with Some at_ => sdrop (at_ + 1) trimmed | None => trimmed end in
    let trimmed := match IndexAny trimmed ["/"; "?"]%char with Some slash => stake slash trimmed | None => trimmed end in
    let trimmed := match Index trimmed ":" with Some colon => stake colon trimmed | None => trimmed end in
    let trimmed := TrimByte trimmed "." in
    if String.eqb trimmed "" then "" else trimmed.

(** Lower-case ASCII without white space and without the bytes that the code cuts at. *)
Definition canon_byte (c : ascii) : bool :=
  plain_byte c && Ascii.eqb (lower_byte c) c
  && negb (existsb (Ascii.eqb c) ["/"; "?"; ":"; "@"]%char).

Lemma canon_fixed r :
  all_bytes canon_byte r = true -> TrimByte r "." = r -> NormalizeTenantDomain r = r.
Proof.
  intros Hr Ht. unfold NormalizeTenantDomain.
  assert (Hsub : forall f, (forall c, canon_byte c = true -> f c = true) -> all_bytes f r = true)
    by (intros f Hf; by eapply all_bytes_impl).
  rewrite TrimSpace_plain by (apply Hsub; by intros c [[? _]%andb_true_iff _]%andb_true_iff).
  assert (Hlow : ToLower r = r).
  { unfold ToLower. rewrite all_bytes_is_ascii.
    - apply map_string_fixed, Hsub. by intros c [[_ ?]%andb_true_iff _]%andb_true_iff.
    - apply Hsub. intros c [[[? _]%andb_true_iff _]%andb_true_iff _]%andb_true_iff. done. }
  assert (Hfree : forall c, c ∈ ["/"; "?"; ":"; "@"]%char -> all_bytes (not_byte c) r = true).
  { intros c Hc. apply Hsub. intros d [_ Hd]%andb_true_iff. apply negb_true_iff in Hd.
    unfold not_byte. by rewrite (proj1 (existsb_false_forall _ _) Hd c Hc). }
  rewrite Hlow. destruct (String.eqb_spec r "") as [->|Hne]; [done|].
  assert (Hcolon : forall sub, Index r (String ":" sub) = None)
    by (intros sub; apply Index_None_first, Hfree; set_solver).
  assert (Hat : LastIndexByte r "@" = None) by (apply LastIndexByte_None, Hfree; set_solver).
  assert (Hany : IndexAny r ["/"; "?"]%char = None).
  { apply IndexAny_None, Hsub. intros c. destruct c as [[][][][][][][][]]; vm_compute; congruence. }
  rewrite Hcolon, Hat, Hany, Hcolon, Ht. by rewrite (proj2 (String.eqb_neq _ _)).
Qed.

Lemma canon_result s :
  all_bytes plain_byte s = true ->
  all_bytes canon_byte (NormalizeTenantDomain s) = true /\
  TrimByte (NormalizeTenantDomain s) "." = NormalizeTenantDomain s.
Proof.
  intros Hs. unfold NormalizeTenantDomain. rewrite TrimSpace_plain by done.
  assert (Ha : is_ascii s = true).
  { apply all_bytes_is_ascii. eapply all_bytes_impl; [|exact Hs]. by intros c [? _]%andb_true_iff. }
  unfold ToLower. rewrite Ha.
  assert (H0 : all_bytes (fun c => plain_byte c && Ascii.eqb (lower_byte c) c) (map_string lower_byte s) = true).
  { apply all_bytes_map. eapply all_bytes_impl; [|exact Hs]. intros c.
    destruct c as [[][][][][][][][]]; vm_compute; congruence. }
  generalize (map_string lower_byte s), H0. clear. intros t H0.
  destruct (String.eqb t ""); [done|].
  set (t1 := match Index t "://" with Some _ => _ | None => _ end).
  assert (H1 : all_bytes (fun c => plain_byte c && Ascii.eqb (lower_byte c) c) t1 = true)
    by (unfold t1; case_match; [by apply sdrop_all | done]).
  set (t2 := match LastIndexByte t1 "@" with Some _ => _ | None => _ end).
  assert (H2 : all_bytes (fun c => plain_byte c && Ascii.eqb (lower_byte c) c) t2 = true
               /\ all_bytes (not_byte "@") t2 = true).
  { unfold t2. destruct (LastIndexByte t1 "@") as [n|] eqn:Hn; split; [by apply sdrop_all | | done |].
    - by apply LastIndexByte_rest.
    - by apply LastIndexByte_None. }
  set (t3 := match IndexAny t2 _ with Some _ => _ | None => _ end).
  set (low := fun c => plain_byte c && Ascii.eqb (lower_byte c) c) in *.
  set (cut := fun cs c => negb (existsb (fun d => Ascii.eqb d c) cs)).
  assert (H3 : all_bytes low t3 = true /\ all_bytes (not_byte "@") t3 = true
               /\ all_bytes (cut ["/"; "?"]%char) t3 = true).
  { unfold t3. destruct H2 as [H2 H2'], (IndexAny t2 _) as [n|] eqn:Hn.
    - split; [|split]; [by apply stake_all | by apply stake_all | by apply IndexAny_front].
    - split; [|split]; [done | done | by apply IndexAny_None]. }
  set (t4 := match Index t3 ":" with Some _ => _ | None => _ end).
  assert (H4 : all_bytes canon_byte t4 = true).
  { assert (H4 : all_bytes (fun c => (low c && not_byte "@" c)
                   && (cut ["/"; "?"]%char c && cut [":"]%char c)) t4 = true).
    { destruct H3 as (H3 & H3' & H3''). rewrite !all_bytes_and. unfold t4.
      rewrite Index_byte_IndexAny. destruct (IndexAny t3 [":"%char]) as [n|] eqn:Hn.
      - rewrite !stake_all by done. by apply IndexAny_front.
      - apply IndexAny_None in Hn. fold (cut [":"]%char) in Hn. by rewrite H3, H3', H3'', Hn. }
    eapply all_bytes_impl; [|exact H4]. intros c.
    destruct c as [[][][][][][][][]]; vm_compute; congruence. }
  assert (H5 : all_bytes canon_byte (TrimByte t4 ".") = true) by by apply TrimByte_all.
  destruct (String.eqb _ ""); [done|]. split; [done | apply TrimByte_idem].
Qed.
End Domain.

(** ** State *)

Record Tenant := {
  Tenant_ID : string;
  Tenant_Name : string;
  Tenant_Description : string;
  Tenant_ContactName : string;
  Tenant_ContactEmail : string;
  Tenant_ContactPhone : string;
  Tenant_BusinessUnit : string;
  Tenant_BillingCode : string;
  Tenant_Address : string;
  Tenant_LoginDomain : string;
  Tenant_CreatedAt : Time;
}.

Record JoinToken := {
  Token : string;
  Token_TenantID : string;
  ExpiresAt : Time;
  OneTime : bool;
  Token_CreatedAt : Time;
}.

Record InMemoryStore := {
  tokens : gmap string JoinToken;
  tenants : gmap string Tenant;
}.

Inductive StoreError := ErrTenantNotFound | ErrTokenNotFound | ErrTokenExpired | ErrTenantDomainConflict.

Definition with_domain (t : Tenant) (id : string) (created : Time) (domain : string) : Tenant :=
  {| Tenant_ID := id; Tenant_Name := Tenant_Name t; Tenant_Description := Tenant_Description t;
     Tenant_ContactName := Tenant_ContactName t; Tenant_ContactEmail := Tenant_ContactEmail t;
     Tenant_ContactPhone := Tenant_ContactPhone t; Tenant_BusinessUnit := Tenant_BusinessUnit t;
     Tenant_BillingCode := Tenant_BillingCode t; Tenant_Address := Tenant_Address t;
     Tenant_LoginDomain := domain; Tenant_CreatedAt := created |}.

Definition default_tenant (now : Time) : Tenant :=
  {| Tenant_ID := "default"; Tenant_Name := "default"; Tenant_Description := ""; Tenant_ContactName := "";
     Tenant_ContactEmail := ""; Tenant_ContactPhone := ""; Tenant_BusinessUnit := "";
     Tenant_BillingCode := ""; Tenant_Address := ""; Tenant_LoginDomain := ""; Tenant_CreatedAt := now |}.

Definition NewInMemoryStore (now : Time) : InMemoryStore :=
  {| tokens := ∅; tenants := {[ "default" := default_tenant now ]} |}.

(** ** Operations *)

Section Operations.
Context `{GoUnicode}.

(** [hex.EncodeToString] of the random bytes, or the constant when there are none. *)
Definition randomHex (random : option string) : string := default "runtoken" random.

(** [ensureUniqueDomainLocked]: does another tenant have the domain? *)
Definition domain_taken (id domain : string) (s : InMemoryStore) : bool :=
  existsb (fun kt => negb (String.eqb (Tenant_LoginDomain kt.2) "" || String.eqb kt.1 id)
                     && String.eqb (Tenant_LoginDomain kt.2) domain)
    (map_to_list (tenants s)).

Definition ensureUniqueDomainLocked (id domain : string) (s : InMemoryStore) : option StoreError :=
  if String.eqb domain "" then None
  else if domain_taken id domain s then Some ErrTenantDomainConflict else None.

Definition put_tenant (t : Tenant) (s : InMemoryStore) : InMemoryStore :=
  {| tokens := tokens s; tenants := <[Tenant_ID t := t]> (tenants s) |}.

Definition CreateTenant (t : Tenant) (random : option string) (now : Time) (s : InMemoryStore) :
    InMemoryStore * result StoreError Tenant :=
  let id := if String.eqb (Tenant_ID t) "" then randomHex random else Tenant_ID t in
  let created := if IsZero (Tenant_CreatedAt t) then now else Tenant_CreatedAt t in
  let t := with_domain t id created (NormalizeTenantDomain (Tenant_LoginDomain t)) in
  match ensureUniqueDomainLocked id (Tenant_LoginDomain t) s with
  | Some e => (s, Err e)
  | None => (put_tenant t s, Ok t)
  end.

Definition UpdateTenant (t : Tenant) (s : InMemoryStore) : InMemoryStore * result StoreError Tenant :=
  if String.eqb (Tenant_ID t) "" then (s, Err ErrTenantNotFound)
  else match tenants s !! Tenant_ID t with
  | None => (s, Err ErrTenantNotFound)
  | Some existing =>
      let created := if IsZero (Tenant_CreatedAt t) then Tenant_CreatedAt existing else Tenant_CreatedAt t in
      let t := with_domain t (Tenant_ID t) created (NormalizeTenantDomain (Tenant_LoginDomain t)) in
      match ensureUniqueDomainLocked (Tenant_ID t) (Tenant_LoginDomain t) s with
      | Some e => (s, Err e)
      | None => (put_tenant t s, Ok t)
      end
  end.

(** In some order: Go's map iteration. *)
Definition ListTenants (s : InMemoryStore) : list Tenant := snd <$> map_to_list (tenants s).

(** The first critical section of [CreateJoinToken]. *)
Definition tenant_exists (tenantID : string) (s : InMemoryStore) : bool :=
  bool_decide (is_Some (tenants s !! tenantID)).

(** The second: [random] is the token text, [now] and [now'] the two clock readings. *)
Definition insert_token (tenantID : string) (ttlMinutes : Z) (oneTime : bool) (random : string)
    (now now' : Time) (s : InMemoryStore) : InMemoryStore * JoinToken :=
  let jt := {| Token := random; Token_TenantID := tenantID;
               ExpiresAt := Add now (dmul ttlMinutes Minute); OneTime := oneTime;
               Token_CreatedAt := now' |} in
  ({| tokens := <[random := jt]> (tokens s); tenants := tenants s |}, jt).

(** Without anything in between; [Err None] is a failure of the random source. *)
Definition CreateJoinToken (tenantID : string) (ttlMinutes : Z) (oneTime : bool)
    (random : option string) (now now' : Time) (s : InMemoryStore) :
    InMemoryStore * result (option StoreError) JoinToken :=
  if negb (tenant_exists tenantID s) then (s, Err (Some ErrTenantNotFound))
  else match random with
  | None => (s, Err None)
  | Some r => let '(s', jt) := insert_token tenantID ttlMinutes oneTime r now now' s in (s', Ok jt)
  end.

Definition remove_token (token : string) (s : InMemoryStore) : InMemoryStore :=
  {| tokens := delete token (tokens s); tenants := tenants s |}.

Definition ValidateToken (token : string) (now : Time) (s : InMemoryStore) :
    InMemoryStore * result StoreError JoinToken :=
  match tokens s !! token with
  | None => (s, Err ErrTokenNotFound)
  | Some jt =>
      if After now (ExpiresAt jt) then (remove_token token s, Err ErrTokenExpired)
      else if OneTime jt then (remove_token token s, Ok jt)
      else (s, Ok jt)
  end.

(** ** Runs *)

(** What a step does to the tokens: draws the text of a new one, or validates one. *)
Inductive label := Quiet | Drew (tok : string) | Validated (tok : string).

(** The store and the tenants that calls of [CreateJoinToken] have checked but not
    yet inserted a token for. *)
Inductive step : InMemoryStore * list string -> label -> InMemoryStore * list string -> Prop :=
| step_create t r now s p : step (s, p) Quiet ((CreateTenant t r now s).1, p)
| step_update t s p : step (s, p) Quiet ((UpdateTenant t s).1, p)
| step_token_check tid s p : tenant_exists tid s = true -> step (s, p) Quiet (s, tid :: p)
| step_token_insert tid ttl one r now now' s p1 p2 :
    step (s, p1 ++ tid :: p2) (Drew r) ((insert_token tid ttl one r now now' s).1, p1 ++ p2)
| step_validate tok now s p : step (s, p) (Validated tok) ((ValidateToken tok now s).1, p).

Inductive run : InMemoryStore * list string -> list label -> InMemoryStore * list string -> Prop :=
| run_nil s : run s [] s
| run_step s ls s' l s'' : run s ls s' -> step s' l s'' -> run s (ls ++ [l]) s''.

End Operations.

(** ** The invariant *)

Record store_ok (s : InMemoryStore) : Prop := {
  ok_keys : map_Forall (fun k t => Tenant_ID t = k) (tenants s);
  ok_token_keys : map_Forall (fun k jt => Token jt = k) (tokens s);
  (** No two tenants share a non-empty login domain. *)
  ok_domains : forall i j t u, tenants s !! i = Some t -> tenants s !! j = Some u ->
    Tenant_LoginDomain t = Tenant_LoginDomain u -> Tenant_LoginDomain t <> "" -> i = j;
  (** Every token belongs to a tenant. *)
  ok_tokens : map_Forall (fun _ jt => is_Some (tenants s !! Token_TenantID jt)) (tokens s);
  ok_default : is_Some (tenants s !! "default");
}.

Lemma domain_free id domain s :
  domain <> "" -> ensureUniqueDomainLocked id domain s = None ->
  forall k t, tenants s !! k = Some t -> Tenant_LoginDomain t = domain -> k = id.
Proof.
  intros Hne. unfold ensureUniqueDomainLocked. rewrite (proj2 (String.eqb_neq _ _) Hne).
  destruct (domain_taken id domain s) eqn:Ht; [done|]. intros _ k t Hk Hd.
  apply (proj1 (existsb_false_forall _ _)) with (x := (k, t)) in Ht; [|by apply elem_of_map_to_list].
  simpl in Ht. rewrite Hd, String.eqb_refl, andb_true_r in Ht. apply negb_false_iff, orb_true_iff in Ht.
  destruct Ht as [Ht|Ht]; apply String.eqb_eq in Ht; [done|done].
Qed.

Lemma put_tenant_ok t s :
  store_ok s -> ensureUniqueDomainLocked (Tenant_ID t) (Tenant_LoginDomain t) s = None ->
  store_ok (put_tenant t s).
Proof.
  intros [Hk Htk Hd Ht Hdef] Hu. constructor; simpl.
  - by apply map_Forall_insert_2.
  - done.
  - intros i j u v Hi Hj Heq Hne. apply lookup_insert_Some in Hi as [[<- <-]|[Hni Hi]];
      apply lookup_insert_Some in Hj as [[<- <-]|[Hnj Hj]].
    + done.
    + symmetry. eapply domain_free; eauto.
    + eapply domain_free; [|exact Hu|exact Hi|done]. congruence.
    + eauto.
  - intros k jt Hjt. destruct (Ht k jt Hjt) as [u Hu'].
    destruct (decide (Tenant_ID t = Token_TenantID jt)) as [->|Hne];
      [by rewrite lookup_insert_eq | by rewrite lookup_insert_ne].
  - destruct (decide (Tenant_ID t = "default")) as [->|Hne];
      [by rewrite lookup_insert_eq | by rewrite lookup_insert_ne].
Qed.

Lemma remove_token_ok tok s : store_ok s -> store_ok (remove_token tok s).
Proof.
  intros [Hk Htk Hd Ht Hdef]. constructor; simpl; try done; by apply map_Forall_delete.
Qed.

Section Steps.
Context `{GoUnicode}.

Lemma CreateTenant_ok t r now s : store_ok s -> store_ok (CreateTenant t r now s).1.
Proof.
  intros Hs. unfold CreateTenant.
  match goal with |- context [ensureUniqueDomainLocked ?i ?d s] =>
    destruct (ensureUniqueDomainLocked i d s) eqn:Hu end; [done|]. by apply put_tenant_ok.
Qed.

Lemma UpdateTenant_ok t s : store_ok s -> store_ok (UpdateTenant t s).1.
Proof.
  intros Hs. unfold UpdateTenant. destruct (String.eqb _ _); [done|].
  destruct (tenants s !! Tenant_ID t); [|done].
  match goal with |- context [ensureUniqueDomainLocked ?i ?d s] =>
    destruct (ensureUniqueDomainLocked i d s) eqn:Hu end; [done|]. by apply put_tenant_ok.
Qed.

Lemma insert_token_ok tid ttl one r now now' s :
  store_ok s -> is_Some (tenants s !! tid) -> store_ok (insert_token tid ttl one r now now' s).1.
Proof.
  intros [Hk Htk Hd Ht Hdef] Htid. constructor; simpl; try done; by apply map_Forall_insert_2.
Qed.

Lemma ValidateToken_ok tok now s : store_ok s -> store_ok (ValidateToken tok now s).1.
Proof.
  intros Hs. unfold ValidateToken. destruct (tokens s !! tok) as [jt|]; [|done].
  destruct (After now (ExpiresAt jt)); [by apply remove_token_ok|].
  destruct (OneTime jt); [by apply remove_token_ok | done].
Qed.

(** Tenants are never removed. *)
Lemma tenants_mono s p l s' p' tid :
  step (s, p) l (s', p') -> is_Some (tenants s !! tid) -> is_Some (tenants s' !! tid).
Proof.
  assert (Hput : forall t, is_Some (tenants s !! tid) -> is_Some (tenants (put_tenant t s) !! tid)).
  { intros t Hs. simpl. destruct (decide (Tenant_ID t = tid)) as [->|Hne];
      [by rewrite lookup_insert_eq | by rewrite lookup_insert_ne]. }
  intros Hst Hs. inversion Hst; subst; try done.
  - unfold CreateTenant. repeat case_match; first [exact Hs | exact (Hput _ Hs)].
  - unfold UpdateTenant. repeat case_match; first [exact Hs | exact (Hput _ Hs)].
  - unfold ValidateToken. repeat case_match; exact Hs.
Qed.

(** The store is consistent, and the tenants that were checked still exist. *)
Definition pending_ok (sp : InMemoryStore * list string) : Prop :=
  store_ok sp.1 /\ Forall (fun tid => is_Some (tenants sp.1 !! tid)) sp.2.

Lemma new_ok now : store_ok (NewInMemoryStore now).
Proof.
  constructor; simpl.
  - by apply map_Forall_singleton.
  - apply map_Forall_empty.
  - intros i j t u Hi Hj _ _. apply lookup_singleton_Some in Hi as [<- _].
    by apply lookup_singleton_Some in Hj as [<- _].
  - apply map_Forall_empty.
  - rewrite lookup_singleton_eq. by eexists.
Qed.

Lemma store_step_ok sp l sp' : step sp l sp' -> pending_ok sp -> pending_ok sp'.
Proof.
  destruct sp as [s p], sp' as [s' p']. intros Hst [Hs Hp].
  assert (Hmono : Forall (fun tid => is_Some (tenants s' !! tid)) p).
  { eapply Forall_impl; [exact Hp|]. intros tid. by apply (tenants_mono _ _ _ _ _ _ Hst). }
  unfold pending_ok in *. simpl in *. inversion Hst; subst.
  - split; [by apply CreateTenant_ok | done].
  - split; [by apply UpdateTenant_ok | done].
  - split; [done|]. constructor; [|done]. by eapply bool_decide_unpack, Is_true_true_2.
  - apply Forall_app in Hp as [_ [Htid _]%Forall_cons].
    split; [by apply insert_token_ok|].
    apply Forall_app in Hmono as [? [_ ?]%Forall_cons]. by apply Forall_app.
  - split; [by apply ValidateToken_ok | done].
Qed.

Lemma run_ok sp ls sp' : run sp ls sp' -> pending_ok sp -> pending_ok sp'.
Proof. induction 1; [done|]. intros ?. eapply store_step_ok; eauto. Qed.

(** ** The life of a token *)

Lemma step_token_lookup s p l s' p' tok :
  step (s, p) l (s', p') -> l <> Drew tok ->
  tokens s' !! tok = tokens s !! tok \/ (l = Validated tok /\ tokens s' !! tok = None).
Proof.
  intros Hst Hl. inversion Hst; subst; simpl.
  - left. unfold CreateTenant. by case_match.
  - left. unfold UpdateTenant. by repeat case_match.
  - by left.
  - left. apply lookup_insert_ne. congruence.
  - unfold ValidateToken. destruct (tokens s !! tok0) as [jt|] eqn:Hj; [|by left].
    destruct (decide (tok0 = tok)) as [->|Hne].
    + destruct (After _ _); simpl; [right; by rewrite lookup_delete_eq|].
      destruct (OneTime jt); simpl; [right; by rewrite lookup_delete_eq | by left].
    + left. destruct (After _ _); simpl; [by apply lookup_delete_ne|].
      destruct (OneTime jt); simpl; [by apply lookup_delete_ne | done].
Qed.

Lemma run_token_lookup s p ls s' p' tok :
  run (s, p) ls (s', p') -> Drew tok ∉ ls ->
  tokens s' !! tok = tokens s !! tok \/ (Validated tok ∈ ls /\ tokens s' !! tok = None).
Proof.
  intros Hrun. remember (s, p) as sp eqn:E. remember (s', p') as sp' eqn:E'.
  revert s' p' E'. induction Hrun as [sp|sp ls [s1 p1] l sp2 Hrun IH Hst]; intros s' p' E' Hd; subst.
  - left. by injection E' as [= -> ->].
  - apply not_elem_of_app in Hd as [Hd Hl]. rewrite list_elem_of_singleton in Hl.
    specialize (IH eq_refl _ _ eq_refl Hd).
    destruct (step_token_lookup _ _ _ _ _ tok Hst) as [Heq|[-> Hn]]; [congruence| |].
    + rewrite Heq. destruct IH as [->|[Hin Hn]]; [by left|].
      right. split; [apply elem_of_app; by left | done].
    + right. split; [apply elem_of_app; right; by apply list_elem_of_singleton | done].
Qed.
End Steps.

(** ** What the store promises *)

Section Properties.
Context `{GoUnicode}.

(** C8: in every state that creations, updates, interleaved token creations and
    validations reach from a new store, no two tenants share a login domain, every
    entry is stored under its own identifier, every token belongs to a tenant, and
    the default tenant exists. *)
Theorem reachable_store_consistent now ls s p :
  run (NewInMemoryStore now, []) ls (s, p) -> store_ok s.
Proof. intros Hrun. apply (run_ok _ _ _ Hrun). by split; [apply new_ok|]. Qed.

(** As long as its random text is not drawn again, a token is accepted exactly as it
    was issued and never after its expiry; it is accepted until then if nobody has
    validated it before; and a one-time token that was accepted is never accepted
    again. *)
Theorem token_lifetime tid ttl one tok now now' s0 p0 ls s p at_ :
  let jt := (insert_token tid ttl one tok now now' s0).2 in
  run ((insert_token tid ttl one tok now now' s0).1, p0) ls (s, p) -> Drew tok ∉ ls ->
  (forall jt', (ValidateToken tok at_ s).2 = Ok jt' ->
     jt' = jt /\ at_ <= Add now (dmul ttl Minute) /\
     (one = true -> forall ls' s' p' later,
        run ((ValidateToken tok at_ s).1, p) ls' (s', p') -> Drew tok ∉ ls' ->
        (ValidateToken tok later s').2 = Err ErrTokenNotFound)) /\
  (Validated tok ∉ ls -> at_ <= Add now (dmul ttl Minute) -> (ValidateToken tok at_ s).2 = Ok jt).
Proof.
  intros jt Hrun Hd. pose proof (run_token_lookup _ _ _ _ _ tok Hrun Hd) as Hl.
  simpl in Hl. rewrite lookup_insert_eq in Hl. fold (snd (insert_token tid ttl one tok now now' s0)) in Hl.
  unfold ValidateToken. split.
  - destruct Hl as [-> | [_ ->]]; [|done]. unfold After. simpl. intros jt'.
    destruct (Z.ltb_spec (Add now (dmul ttl Minute)) at_) as [|Hle]; [done|].
    intros Hok. split; [by destruct one; injection Hok|]. split; [done|].
    intros -> ls' s' p' later Hrun' Hd'.
    destruct (run_token_lookup _ _ _ _ _ tok Hrun' Hd') as [Heq|[_ Heq]];
      simpl in Heq; [rewrite lookup_delete_eq in Heq|]; by rewrite Heq.
  - intros Hv Hle. destruct Hl as [-> | [? _]]; [|done]. unfold After. simpl.
    destruct (Z.ltb_spec (Add now (dmul ttl Minute)) at_); [lia|]. by destruct one.
Qed.

(** The canonical form of a domain given in ASCII without white space contains no
    scheme, user, port, path or query, and is its own canonical form: storing a tenant
    that was read back does not change its domain. *)
Theorem NormalizeTenantDomain_canonical s :
  all_bytes plain_byte s = true ->
  all_bytes (fun c => negb (existsb (Ascii.eqb c) ["/"; "?"; ":"; "@"]%char))
    (NormalizeTenantDomain s) = true /\
  NormalizeTenantDomain (NormalizeTenantDomain s) = NormalizeTenantDomain s.
Proof.
  intros Hs. destruct (canon_result s Hs) as [Hc Ht]. split; [|by apply canon_fixed].
  eapply all_bytes_impl; [|exact Hc]. by intros c [_ ?]%andb_true_iff.
Qed.
End Properties.

(** ** Witnesses *)

Definition acme : Tenant :=
  {| Tenant_ID := "acme"; Tenant_Name := "Acme"; Tenant_Description := ""; Tenant_ContactName := "";
     Tenant_ContactEmail := ""; Tenant_ContactPhone := ""; Tenant_BusinessUnit := "";
     Tenant_BillingCode := ""; Tenant_Address := ""; Tenant_LoginDomain := "https://Acme.example:8443/";
     Tenant_CreatedAt := 0 |}.

Definition acme_store : InMemoryStore := (CreateTenant acme None 7 (NewInMemoryStore 5)).1.

(** A tenant is created, another wants the same domain, and a token is created across
    another call's step. *)
Lemma reachable_store_consistent_witness :
  store_ok (insert_token "acme" 10 true "cafe" 8 9 (CreateTenant (default_tenant 3) None 8 acme_store).1).1
  /\ (CreateTenant (with_domain acme "" 0 "acme.example") (Some "f00d") 8 acme_store).2
     = Err ErrTenantDomainConflict.
Proof.
  split; [|reflexivity].
  refine (reachable_store_consistent 5 [Quiet; Quiet; Quiet; Drew "cafe"] _ [] _).
  apply (run_step _ [Quiet; Quiet; Quiet] ((CreateTenant (default_tenant 3) None 8 acme_store).1, ["acme"])).
  - apply (run_step _ [Quiet; Quiet] (acme_store, ["acme"]));
      [|exact (step_create (default_tenant 3) None 8 acme_store ["acme"])].
    apply (run_step _ [Quiet] (acme_store, [])); [|by apply step_token_check].
    apply (run_step _ [] (NewInMemoryStore 5, [])); [apply run_nil|].
    exact (step_create acme None 7 (NewInMemoryStore 5) []).
  - exact (step_token_insert "acme" 10 true "cafe" 8 9 _ [] []).
Defined.

(** A one-time token that is validated at once and tried again. *)
Lemma token_lifetime_witness :
  let issued := insert_token "acme" 10 true "cafe" 8 9 acme_store in
  (ValidateToken "cafe" 600000000008 issued.1).2 = Ok issued.2 /\
  (ValidateToken "cafe" 600000000009 issued.1).2 = Err ErrTokenExpired /\
  (ValidateToken "cafe" 21 (ValidateToken "cafe" 20 issued.1).1).2 = Err ErrTokenNotFound.
Proof.
  intros issued.
  assert (Hd : Drew "cafe" ∉ @nil label) by apply not_elem_of_nil.
  split; [|split].
  - apply (token_lifetime "acme" 10 true "cafe" 8 9 acme_store [] [] issued.1 [] 600000000008);
      [apply run_nil | exact Hd | apply not_elem_of_nil |].
    vm_compute. discriminate.
  - reflexivity.
  - destruct (token_lifetime "acme" 10 true "cafe" 8 9 acme_store [] [] issued.1 [] 20
      (run_nil _) Hd) as [Ha _].
    destruct (Ha issued.2 eq_refl) as (_ & _ & Hone).
    exact (Hone eq_refl [] _ [] 21 (run_nil _) Hd).
Defined.

Lemma NormalizeTenantDomain_canonical_witness :
  NormalizeTenantDomain "https://Joe@Example.COM:8443/login" = "example.com" /\
  NormalizeTenantDomain (NormalizeTenantDomain "https://Joe@Example.COM:8443/login") = "example.com".
Proof.
  split; [reflexivity|].
  exact (proj2 (NormalizeTenantDomain_canonical "https://Joe@Example.COM:8443/login" eq_refl)).
Defined.

(** The user part is cut off before the path: an at sign in a path or query hides the
    domain. *)
Lemma path_at_sign_wins :
  NormalizeTenantDomain "https://example.com/login?as=joe@other.org" = "other.org".
Proof. reflexivity. Qed.

(** White space after the at sign is trimmed by the second normalization only, so
    updating the tenant with the data just stored changes its domain. *)
Lemma inner_space_drifts :
  NormalizeTenantDomain "joe@ example.com" = " example.com" /\
  NormalizeTenantDomain " example.com" = "example.com".
Proof. split; reflexivity. Qed.
