(* ===== verification/Settings.v ===== *)
(** * The settings shared by the server and the agents
    ([common/settings/types.go], [defaults.go], [validate.go], [helpers.go]).

    The records have the fields of the Go structs in the same order. *)
From S2P Require Import Prelude.

(** ** Data *)

Record DiscoverySettings := {
  SubnetScan : bool;
  ManualRanges : bool;
  RangesText : string;
  DetectedSubnet : string;
  IPScanningEnabled : bool;
  Concurrency : Z;
  ARPEnabled : bool;
  ICMPEnabled : bool;
  TCPEnabled : bool;
  SNMPEnabled : bool;
  MDNSEnabled : bool;
  AutoDiscoverEnabled : bool;
  AutosaveDiscoveredDevices : bool;
  ShowDiscoverButtonAnyway : bool;
  ShowDiscoveredDevicesAnyway : bool;
  PassiveDiscoveryEnabled : bool;
  AutoDiscoverLiveMDNS : bool;
  AutoDiscoverLiveWSD : bool;
  AutoDiscoverLiveSSDP : bool;
  AutoDiscoverLiveSNMPTrap : bool;
  AutoDiscoverLiveLLMNR : bool;
  MetricsRescanEnabled : bool;
  MetricsRescanIntervalMinutes : Z;
  MetricsRescanIntervalSeconds : Z;
}.

Record SNMPSettings := {
  SNMP_Version : string;
  Community : string;
  TimeoutMS : Z;
  Retries : Z;
  SecurityLevel : string;
  Username : string;
  AuthProtocol : string;
  AuthPassword : string;
  PrivProtocol : string;
  PrivPassword : string;
  ContextName : string;
}.

Record FeaturesSettings := {
  EpsonRemoteModeEnabled : bool;
  CredentialsEnabled : bool;
  AssetIDRegex : string;
}.

Record LoggingSettings := { Level : string; DumpParseDebug : bool }.

Record SpoolerSettings := {
  Spooler_Enabled : bool;
  PollIntervalSeconds : Z;
  IncludeNetworkPrinters : bool;
  IncludeVirtualPrinters : bool;
}.

Record WebSettings := {
  EnableHTTP : bool;
  EnableHTTPS : bool;
  HTTPPort : string;
  HTTPSPort : string;
  RedirectHTTPToHTTPS : bool;
  CustomCertPath : string;
  CustomKeyPath : string;
}.

Record Settings := {
  Discovery : DiscoverySettings;
  SNMP : SNMPSettings;
  Features : FeaturesSettings;
  Spooler : SpoolerSettings;
  Logging : LoggingSettings;
  Web : WebSettings;
}.

Definition SchemaVersion : string := "v2".

Definition DefaultSettings : Settings :=
  {| Discovery :=
       {| SubnetScan := true; ManualRanges := false; RangesText := ""; DetectedSubnet := "";
          IPScanningEnabled := true; Concurrency := 50; ARPEnabled := true; ICMPEnabled := true;
          TCPEnabled := true; SNMPEnabled := true; MDNSEnabled := false;
          AutoDiscoverEnabled := false; AutosaveDiscoveredDevices := false;
          ShowDiscoverButtonAnyway := false; ShowDiscoveredDevicesAnyway := false;
          PassiveDiscoveryEnabled := true; AutoDiscoverLiveMDNS := true;
          AutoDiscoverLiveWSD := true; AutoDiscoverLiveSSDP := false;
          AutoDiscoverLiveSNMPTrap := false; AutoDiscoverLiveLLMNR := false;
          MetricsRescanEnabled := false; MetricsRescanIntervalMinutes := 60;
          MetricsRescanIntervalSeconds := 0 |};
     SNMP :=
       {| SNMP_Version := "2c"; Community := ""; TimeoutMS := 2000; Retries := 1;
          SecurityLevel := ""; Username := ""; AuthProtocol := ""; AuthPassword := "";
          PrivProtocol := ""; PrivPassword := ""; ContextName := "" |};
     Features :=
       {| EpsonRemoteModeEnabled := false; CredentialsEnabled := true; AssetIDRegex := "" |};
     Spooler :=
       {| Spooler_Enabled := true; PollIntervalSeconds := 30; IncludeNetworkPrinters := false;
          IncludeVirtualPrinters := false |};
     Logging := {| Level := "info"; DumpParseDebug := false |};
     Web :=
       {| EnableHTTP := true; EnableHTTPS := true; HTTPPort := "8080"; HTTPSPort := "8443";
          RedirectHTTPToHTTPS := false; CustomCertPath := ""; CustomKeyPath := "" |} |}.

(** ** Operations *)

(** [if x < lo { x = lo }; if x > hi { x = hi }] *)
Definition clamp (lo hi x : Z) : Z :=
  let x := if x <? lo then lo else x in if hi <? x then hi else x.

Definition sanitize_discovery (d : DiscoverySettings) : DiscoverySettings :=
  {| SubnetScan := SubnetScan d; ManualRanges := ManualRanges d; RangesText := RangesText d;
     DetectedSubnet := DetectedSubnet d; IPScanningEnabled := IPScanningEnabled d;
     Concurrency := clamp 1 200 (Concurrency d);
     ARPEnabled := ARPEnabled d; ICMPEnabled := ICMPEnabled d; TCPEnabled := TCPEnabled d;
     SNMPEnabled := SNMPEnabled d; MDNSEnabled := MDNSEnabled d;
     AutoDiscoverEnabled := AutoDiscoverEnabled d;
     AutosaveDiscoveredDevices := AutosaveDiscoveredDevices d;
     ShowDiscoverButtonAnyway := ShowDiscoverButtonAnyway d;
     ShowDiscoveredDevicesAnyway := ShowDiscoveredDevicesAnyway d;
     PassiveDiscoveryEnabled := PassiveDiscoveryEnabled d;
     AutoDiscoverLiveMDNS := AutoDiscoverLiveMDNS d; AutoDiscoverLiveWSD := AutoDiscoverLiveWSD d;
     AutoDiscoverLiveSSDP := AutoDiscoverLiveSSDP d;
     AutoDiscoverLiveSNMPTrap := AutoDiscoverLiveSNMPTrap d;
     AutoDiscoverLiveLLMNR := AutoDiscoverLiveLLMNR d;
     MetricsRescanEnabled := MetricsRescanEnabled d;
     MetricsRescanIntervalMinutes := clamp 1 1440 (MetricsRescanIntervalMinutes d);
     MetricsRescanIntervalSeconds :=
       if 0 <? MetricsRescanIntervalSeconds d
       then clamp 15 300 (MetricsRescanIntervalSeconds d) else MetricsRescanIntervalSeconds d |}.

Definition sanitize_snmp (s : SNMPSettings) : SNMPSettings :=
  {| SNMP_Version := SNMP_Version s; Community := Community s;
     TimeoutMS := clamp 500 60000 (TimeoutMS s); Retries := clamp 0 5 (Retries s);
     SecurityLevel := SecurityLevel s; Username := Username s; AuthProtocol := AuthProtocol s;
     AuthPassword := AuthPassword s; PrivProtocol := PrivProtocol s;
     PrivPassword := PrivPassword s; ContextName := ContextName s |}.

Definition sanitize_web (w : WebSettings) : WebSettings :=
  {| EnableHTTP := EnableHTTP w; EnableHTTPS := EnableHTTPS w;
     HTTPPort := if String.eqb (HTTPPort w) "" then HTTPPort (Web DefaultSettings) else HTTPPort w;
     HTTPSPort := if String.eqb (HTTPSPort w) "" then HTTPSPort (Web DefaultSettings) else HTTPSPort w;
     RedirectHTTPToHTTPS := RedirectHTTPToHTTPS w; CustomCertPath := CustomCertPath w;
     CustomKeyPath := CustomKeyPath w |}.

Definition Sanitize (s : Settings) : Settings :=
  {| Discovery := sanitize_discovery (Discovery s); SNMP := sanitize_snmp (SNMP s);
     Features := Features s; Spooler := Spooler s; Logging := Logging s;
     Web := sanitize_web (Web s) |}.

Record ValidationError := { Field : string; Message : string }.

Definition Validate (s : Settings) : list ValidationError :=
  let s := Sanitize s in
  if ManualRanges (Discovery s) && String.eqb (RangesText (Discovery s)) ""
  then [ {| Field := "discovery.ranges_text";
            Message := "manual ranges enabled but no ranges text provided" |} ]
  else [].

(** [if override.X != zero { result.X = override.X }] *)
Definition override_str (base override : string) : string :=
  if String.eqb override "" then base else override.
Definition override_int (base override : Z) : Z := if override =? 0 then base else override.

Definition MergeDiscovery (base override : DiscoverySettings) : DiscoverySettings :=
  {| SubnetScan := SubnetScan override; ManualRanges := ManualRanges override;
     RangesText := override_str (RangesText base) (RangesText override);
     DetectedSubnet := override_str (DetectedSubnet base) (DetectedSubnet override);
     IPScanningEnabled := IPScanningEnabled override;
     Concurrency := override_int (Concurrency base) (Concurrency override);
     ARPEnabled := ARPEnabled override; ICMPEnabled := ICMPEnabled override;
     TCPEnabled := TCPEnabled override; SNMPEnabled := SNMPEnabled override;
     MDNSEnabled := MDNSEnabled override; AutoDiscoverEnabled := AutoDiscoverEnabled override;
     AutosaveDiscoveredDevices := AutosaveDiscoveredDevices override;
     ShowDiscoverButtonAnyway := ShowDiscoverButtonAnyway override;
     ShowDiscoveredDevicesAnyway := ShowDiscoveredDevicesAnyway override;
     PassiveDiscoveryEnabled := PassiveDiscoveryEnabled override;
     AutoDiscoverLiveMDNS := AutoDiscoverLiveMDNS override;
     AutoDiscoverLiveWSD := AutoDiscoverLiveWSD override;
     AutoDiscoverLiveSSDP := AutoDiscoverLiveSSDP override;
     AutoDiscoverLiveSNMPTrap := AutoDiscoverLiveSNMPTrap override;
     AutoDiscoverLiveLLMNR := AutoDiscoverLiveLLMNR override;
     MetricsRescanEnabled := MetricsRescanEnabled override;
     MetricsRescanIntervalMinutes :=
       override_int (MetricsRescanIntervalMinutes base) (MetricsRescanIntervalMinutes override);
     MetricsRescanIntervalSeconds :=
       override_int (MetricsRescanIntervalSeconds base) (MetricsRescanIntervalSeconds override) |}.

(** As in the code, the spooler section of the base is kept. *)
Definition Merge (base override : Settings) : Settings :=
  Sanitize
    {| Discovery := MergeDiscovery (Discovery base) (Discovery override);
       SNMP := SNMP override; Features := Features override; Spooler := Spooler base;
       Logging := Logging override; Web := Web override |}.

Definition StripAgentLocalFields (cfg : Settings) : Settings :=
  {| Discovery := Discovery cfg; SNMP := SNMP cfg; Features := Features cfg;
     Spooler := Spooler cfg; Logging := Logging DefaultSettings; Web := Web DefaultSettings |}.

Definition CopyAgentLocalFields (src dst : Settings) : Settings :=
  {| Discovery := Discovery dst; SNMP := SNMP dst; Features := Features dst;
     Spooler := Spooler dst; Logging := Logging src; Web := Web src |}.

(** ** The range of sanitized settings *)

Record sanitized (s : Settings) : Prop := {
  san_concurrency : 1 <= Concurrency (Discovery s) <= 200;
  san_minutes : 1 <= MetricsRescanIntervalMinutes (Discovery s) <= 1440;
  san_seconds : MetricsRescanIntervalSeconds (Discovery s) <= 0
                \/ 15 <= MetricsRescanIntervalSeconds (Discovery s) <= 300;
  san_timeout : 500 <= TimeoutMS (SNMP s) <= 60000;
  san_retries : 0 <= Retries (SNMP s) <= 5;
  san_http : HTTPPort (Web s) <> "";
  san_https : HTTPSPort (Web s) <> "";
}.

Lemma clamp_range lo hi x : lo <= hi -> lo <= clamp lo hi x <= hi.
Proof.
  intros H. unfold clamp. destruct (Z.ltb_spec x lo); case_goal; reflect_bools; lia.
Qed.

Lemma clamp_id lo hi x : lo <= x <= hi -> clamp lo hi x = x.
Proof.
  intros H. unfold clamp. destruct (Z.ltb_spec x lo); case_goal; reflect_bools; lia.
Qed.

Lemma Sanitize_sanitized s : sanitized (Sanitize s).
Proof.
  constructor; simpl; try (apply clamp_range; lia).
  - destruct (Z.ltb_spec 0 (MetricsRescanIntervalSeconds (Discovery s))); [|lia].
    right. apply clamp_range. lia.
  - destruct (String.eqb_spec (HTTPPort (Web s)) ""); done.
  - destruct (String.eqb_spec (HTTPSPort (Web s)) ""); done.
Qed.

Lemma Sanitize_id s : sanitized s -> Sanitize s = s.
Proof.
  intros [H1 H2 H3 H4 H5 H6 H7]. destruct s as [d n f sp l w]. destruct d, n, w. simpl in *.
  unfold Sanitize, sanitize_discovery, sanitize_snmp, sanitize_web. simpl.
  rewrite (clamp_id 1 200), (clamp_id 1 1440), (clamp_id 500 60000), (clamp_id 0 5) by done.
  rewrite (proj2 (String.eqb_neq HTTPPort0 "")), (proj2 (String.eqb_neq HTTPSPort0 "")) by done.
  destruct (Z.ltb_spec 0 MetricsRescanIntervalSeconds0); [rewrite clamp_id by lia|]; reflexivity.
Qed.

Lemma DefaultSettings_sanitized : sanitized DefaultSettings.
Proof. constructor; simpl; try lia; done. Qed.

Lemma Strip_sanitized s : sanitized s -> sanitized (StripAgentLocalFields s).
Proof. intros []. constructor; simpl; done. Qed.
