(* ===== verification/OverrideMap.v ===== *)
(** * Override maps: decoded JSON objects and their merge and difference
    ([server/settings/codec.go]), and the sections an agent may override
    ([server/settings/resolver.go]).

    A [map[string]interface{}] holds what [encoding/json] decodes: null, booleans,
    [float64] numbers, strings, arrays and nested maps. The loops over Go maps are
    folds over finite maps: their results do not depend on the order (the lookup
    lemmas). The code merges into a deep clone of the base, and every map that a
    merge or a difference builds is new, so that values model the maps without a
    store. *)
From stdpp Require Import sorting.
From S2P Require Import Prelude GoStrings.
From Stdlib Require Import Ascii.

(** ** Values *)

(** A [float64] by its value: an integer, or a canonical [±m * 2^e] that is none.
    JSON has no NaN and no infinities. *)
Inductive jnum := Integral (z : Z) | Fractional (negative : bool) (m : positive) (e : Z).

Inductive jval :=
| JNull
| JBool (b : bool)
| JNum (n : jnum)
| JStr (s : string)
| JArr (l : list jval)
| JObj (m : gmap string jval).

Notation jobj := (gmap string jval).

#[export] Instance jnum_eq_dec : EqDecision jnum.
Proof. solve_decision. Defined.

(** [strconv]'s shortest decimal text of a [float64]: the digits that [%v] prints, and
    the value of the digits that the JSON encoder prints for an integer of at least
    2^53 and less than 10^21 (there they may differ from the exact value). *)
Class GoFloatText := {
  format_g : jnum -> string;
  shortest_int : Z -> Z;
}.

(** An instance that is exact: numbers below 2^53 do not consult it when decoded. *)
#[export] Instance exact_float_text : GoFloatText | 100 := {
  format_g n := match n with
                | Integral z => pretty z
                | Fractional s m e => ((if s then "-" else "") +:+ pretty (Zpos m) +:+ "p" +:+ pretty e)%string
                end;
  shortest_int z := z;
}.

(** Strings in the order of Go's [sort.Strings]. *)
Definition str_le (s t : string) : Prop := String.leb s t = true.
#[export] Instance str_le_dec : RelDecision str_le.
Proof. intros s t. unfold str_le. apply _. Defined.

Definition sort_strings (l : list string) : list string := merge_sort str_le l.
Definition key_le {A} (x y : string * A) : Prop := str_le x.1 y.1.
#[export] Instance key_le_dec {A} : RelDecision (@key_le A).
Proof. intros x y. unfold key_le. apply _. Defined.

(** The entries of a map in the order of its keys, as the JSON encoder and [fmt] print them. *)
Definition sorted_entries (m : jobj) : list (string * jval) := merge_sort key_le (map_to_list m).

Section Values.
Context `{GoFloatText}.

(** [fmt.Sprintf("%v", v)]; a map is given by the texts of its values. *)
Fixpoint Sprintf_v (v : jval) : string :=
  match v with
  | JNull => "<nil>"
  | JBool b => if b then "true" else "false"
  | JNum n => format_g n
  | JStr s => s
  | JArr l => "[" +:+ Join (map Sprintf_v l) " " +:+ "]"
  | JObj m =>
      "map[" +:+ Join ((fun kv => kv.1 +:+ ":" +:+ kv.2)
                       <$> merge_sort key_le (map_to_list (Sprintf_v <$> m))) " "
             +:+ "]"
  end%string.

Definition valuesEqual (a b : jval) : bool :=
  match a with
  | JNum x => match b with JNum y => bool_decide (x = y) | _ => false end
  | JStr x => match b with JStr y => String.eqb x y | _ => false end
  | JBool x => match b with JBool y => Bool.eqb x y | _ => false end
  | JNull => match b with JNull => true | _ => false end
  | JArr _ | JObj _ => String.eqb (Sprintf_v a) (Sprintf_v b)
  end.

(** ** Clone, merge, difference *)

Fixpoint clone_val (v : jval) : jval :=
  match v with JObj m => JObj (clone_val <$> m) | _ => v end.

Definition cloneMap (src : jobj) : jobj := clone_val <$> src.

(** [child, _ := v.(map[string]interface{})] *)
Definition child (v : option jval) : jobj :=
  match v with Some (JObj m) => m | _ => ∅ end.

(** The value that the loop of [mergeMaps] stores for the source value [v], where
    [dst] is the nested map it merges a map into. *)
Fixpoint merge_val (dst : jobj) (v : jval) : jval :=
  match v with
  | JObj vm => JObj (map_fold (fun k v acc => <[k := merge_val (child (acc !! k)) v]> acc) dst vm)
  | _ => v
  end.

Definition mergeMaps (dst src : jobj) : jobj :=
  map_fold (fun k v acc => <[k := merge_val (child (acc !! k)) v]> acc) dst src.

(** What the loop of [diffMaps] stores for one key, if anything. *)
Fixpoint diff_val (base : option jval) (updated : jval) : option jval :=
  match updated with
  | JObj um =>
      let childDiff := map_fold (fun k u acc =>
        match diff_val (child base !! k) u with Some d => <[k := d]> acc | None => acc end) ∅ um in
      if Nat.eqb (size childDiff) 0 then None else Some (JObj childDiff)
  | _ =>
      match base with
      | None => Some updated
      | Some b => if valuesEqual b updated then None else Some updated
      end
  end.

Definition diffMaps (base updated : jobj) : jobj :=
  map_fold (fun k u acc =>
    match diff_val (base !! k) u with Some d => <[k := d]> acc | None => acc end) ∅ updated.

(** [existing] is [None] for a nil map. *)
Definition MergeOverrideMaps (existing : option jobj) (patch : jobj) : jobj :=
  mergeMaps (match existing with None => ∅ | Some m => cloneMap m end) patch.

Definition next_path (path key : string) : string :=
  if String.eqb path "" then key else (path +:+ "." +:+ key)%string.

Fixpoint walk (path : string) (v : jval) : list string :=
  match v with
  | JObj m => map_fold (fun k c acc => acc ++ walk (next_path path k) c) [] m
  | _ => [path]
  end.

Definition collectOverridePaths (overrides : jobj) : list string :=
  sort_strings (map_fold (fun k v acc => acc ++ walk k v) [] overrides).
End Values.

(** ** Sections *)

Section Sections.
Context `{GoUnicode}.

Definition valid_sections : list string := ["discovery"; "snmp"; "features"; "spooler"].

Fixpoint normalize_go (seen : gset string) (sections : list string) : list string :=
  match sections with
  | [] => []
  | s :: rest =>
      let s := TrimSpace (ToLower s) in
      if String.eqb s "" || negb (mem_str s valid_sections) || bool_decide (s ∈ seen)
      then normalize_go seen rest
      else s :: normalize_go ({[s]} ∪ seen) rest
  end.

Definition normalizeSectionList (sections : list string) : list string :=
  if Nat.eqb (length sections) 0 then [] else sort_strings (normalize_go ∅ sections).

Definition allowedAgentOverrideSections (managedSections enforcedSections : list string) : gset string :=
  list_to_set (normalizeSectionList managedSections)
  ∖ list_to_set (normalizeSectionList enforcedSections).

Definition section_key (k : string) : string := TrimSpace (ToLower k).

(** The kept overrides, and the sections of the others. *)
Definition filterOverrideSections (overrides : jobj) (allowed : gset string) : jobj * list string :=
  (filter (fun kv => section_key kv.1 ∈ allowed) overrides,
   sort_strings (elements (list_to_set (C := gset string)
     (section_key ∘ fst <$> map_to_list (filter (fun kv => section_key kv.1 ∉ allowed) overrides))))).
End Sections.

(** ** Induction on values *)

Fixpoint jsize (v : jval) : nat :=
  match v with JObj m => S (map_fold (fun _ c n => (jsize c + n)%nat) O m) | _ => 1%nat end.

Lemma jsize_child m k v : m !! k = Some v -> (jsize v < jsize (JObj m))%nat.
Proof.
  simpl. revert k v.
  apply (map_fold_weak_ind (fun n (m : jobj) => forall k v, m !! k = Some v -> (jsize v < S n)%nat)).
  - intros k v Hk. by rewrite lookup_empty in Hk.
  - intros i x m' r _ IH k v [[<- <-]|[_ Hk]]%lookup_insert_Some; [lia|].
    specialize (IH k v Hk). lia.
Qed.

Definition is_obj (v : jval) : bool := match v with JObj _ => true | _ => false end.

Lemma jval_induction (P : jval -> Prop) :
  (forall v, is_obj v = false -> P v) ->
  (forall m, map_Forall (fun _ => P) m -> P (JObj m)) -> forall v, P v.
Proof.
  intros Hleaf Hobj v. remember (jsize v) as n eqn:Hn. revert v Hn.
  induction (lt_wf n) as [n _ IH]. intros v ->.
  destruct v as [| | | | |m]; try by apply Hleaf.
  apply Hobj. intros k v Hk. by apply (IH (jsize v)); [apply jsize_child in Hk|].
Qed.

(** ** Lookups in the results of the loops *)

(** A loop that stores one value per key of [m], computed from the value there and
    what [init] had under the key. *)
Lemma fold_insert_lookup (f : option jval -> jval -> jval) (init m : jobj) k :
  map_fold (fun k v acc => <[k := f (acc !! k) v]> acc) init m !! k
  = match m !! k with None => init !! k | Some v => Some (f (init !! k) v) end.
Proof.
  revert k. apply (map_fold_weak_ind (fun r (m : jobj) => forall k,
    r !! k = match m !! k with None => init !! k | Some v => Some (f (init !! k) v) end)).
  - intros k. by rewrite lookup_empty.
  - intros i x m' r Hi IH k. destruct (decide (i = k)) as [->|Hne].
    + by rewrite !lookup_insert_eq, IH, Hi.
    + rewrite !lookup_insert_ne by done. apply IH.
Qed.

(** A loop that stores at most one value per key in a new map. *)
Lemma fold_filter_lookup (f : string -> jval -> option jval) (m : jobj) k :
  (map_fold (fun k u acc => match f k u with Some d => <[k := d]> acc | None => acc end) ∅ m : jobj) !! k
  = m !! k ≫= f k.
Proof.
  revert k. apply (map_fold_weak_ind (fun r (m : jobj) => forall k, r !! k = m !! k ≫= f k)).
  - intros k. by rewrite !lookup_empty.
  - intros i x m' r Hi IH k. destruct (decide (i = k)) as [->|Hne].
    + rewrite lookup_insert_eq. simpl. destruct (f k x) eqn:Hf; [by rewrite lookup_insert_eq|].
      by rewrite IH, Hi.
    + rewrite (lookup_insert_ne m') by done. rewrite <- IH.
      destruct (f i x); [by rewrite lookup_insert_ne | done].
Qed.

Lemma merge_val_obj dst vm : merge_val dst (JObj vm) = JObj (mergeMaps dst vm).
Proof. reflexivity. Qed.

Lemma lookup_mergeMaps dst src k :
  mergeMaps dst src !! k
  = match src !! k with None => dst !! k | Some v => Some (merge_val (child (dst !! k)) v) end.
Proof. apply (fold_insert_lookup (fun o v => merge_val (child o) v)). Qed.

Section Difference.
Context `{GoFloatText}.

Lemma lookup_diffMaps base updated k :
  diffMaps base updated !! k = updated !! k ≫= diff_val (base !! k).
Proof. apply (fold_filter_lookup (fun k => diff_val (base !! k))). Qed.

Lemma diff_val_obj base um :
  diff_val base (JObj um)
  = if Nat.eqb (size (diffMaps (child base) um)) 0 then None else Some (JObj (diffMaps (child base) um)).
Proof. reflexivity. Qed.

Lemma clone_val_id v : clone_val v = v.
Proof.
  induction v as [v Hv|m IH] using jval_induction; [by destruct v|]. simpl. f_equal.
  apply map_eq. intros k. rewrite lookup_fmap. destruct (m !! k) as [v|] eqn:Hk; [|done].
  simpl. by rewrite (IH k v Hk).
Qed.

Lemma cloneMap_id m : cloneMap m = m.
Proof.
  unfold cloneMap. apply map_eq. intros k. rewrite lookup_fmap.
  destruct (m !! k); simpl; [by rewrite clone_val_id | done].
Qed.

Lemma valuesEqual_leaf a b : is_obj a = false -> (forall l, a <> JArr l) -> valuesEqual a b = true <-> a = b.
Proof.
  intros Ha Hl. destruct a; simpl; try done; try (exfalso; by eapply Hl).
  - destruct b; split; try done.
  - destruct b; try (split; [done | congruence]). rewrite Bool.eqb_true_iff. split; congruence.
  - destruct b; try (split; [done | congruence]). rewrite bool_decide_eq_true. split; congruence.
  - destruct b; try (split; [done | congruence]). rewrite String.eqb_eq. split; congruence.
Qed.

Lemma valuesEqual_refl v : valuesEqual v v = true.
Proof.
  destruct v; simpl; try done; try apply String.eqb_refl; [by destruct b | by rewrite bool_decide_eq_true].
Qed.

Lemma diff_val_self v : diff_val (Some v) v = None.
Proof.
  induction v as [v Hv|m IH] using jval_induction.
  - destruct v; try done; cbn [diff_val]; by rewrite valuesEqual_refl.
  - rewrite diff_val_obj. replace (diffMaps (child (Some (JObj m))) m) with (∅ : jobj).
    + by rewrite map_size_empty.
    + symmetry. apply map_eq. intros k. rewrite lookup_diffMaps, lookup_empty. simpl.
      destruct (m !! k) as [v|] eqn:Hk; [|done]. simpl. by apply (IH k v Hk).
Qed.

(** ** Overrides that fit a base

    A base is [scalar_base] when its leaves are no arrays (the maps that
    [settingsToMap] builds); an override fits it when it replaces no map of the base
    by another kind of value and an empty map of it stands for a map of the base. *)
Fixpoint fits (base : option jval) (v : jval) : bool :=
  match v with
  | JObj m =>
      (match base with Some (JObj _) => true | _ => negb (Nat.eqb (size m) 0) end)
      && map_fold (fun k c acc => fits (child base !! k) c && acc) true m
  | _ => match base with Some (JObj _) | Some (JArr _) => false | _ => true end
  end.

Definition fits_map (base o : jobj) : Prop := forall k v, o !! k = Some v -> fits (base !! k) v = true.

Lemma fits_obj base m :
  fits base (JObj m) = true ->
  (is_obj <$> base = Some true \/ m <> ∅) /\ fits_map (child base) m.
Proof.
  simpl. intros [H1 H2]%andb_true_iff. split.
  - destruct base as [[]|]; simpl; try (right; intros ->; by rewrite map_size_empty in H1). by left.
  - clear H1. revert H2.
    apply (map_fold_weak_ind (fun r (m : jobj) => r = true -> fits_map (child base) m)).
    + intros _ k v Hk. by rewrite lookup_empty in Hk.
    + intros i x m' r _ IH [Hx Hr]%andb_true_iff k v [[<- <-]|[_ Hk]]%lookup_insert_Some; [done|].
      by apply (IH Hr).
Qed.

(** Merging the difference gives the updated value back, for one key. *)
Lemma merge_diff_val base v :
  fits base v = true ->
  match diff_val base (merge_val (child base) v) with
  | None => base = Some (merge_val (child base) v)
  | Some d => merge_val (child base) d = merge_val (child base) v
  end.
Proof.
  revert base. induction v as [v Hv|m IH] using jval_induction; intros base Hf.
  - assert (Hm : forall b, merge_val b v = v) by (intros b; by destruct v).
    assert (Hd : diff_val base v = match base with None => Some v
      | Some b => if valuesEqual b v then None else Some v end) by (by destruct v).
    rewrite Hm, Hd. destruct base as [b|]; [|by apply Hm].
    destruct (valuesEqual b v) eqn:He; [|apply Hm]. f_equal. destruct v; try done;
      (apply valuesEqual_leaf in He; [done | by destruct b | by intros ? ->]).
  - apply fits_obj in Hf as [Hne Hf]. rewrite merge_val_obj, diff_val_obj.
    set (w := mergeMaps (child base) m).
    assert (Hback : mergeMaps (child base) (diffMaps (child base) w) = w).
    { apply map_eq. intros k. rewrite lookup_mergeMaps, lookup_diffMaps. unfold w.
      rewrite lookup_mergeMaps. destruct (m !! k) as [v|] eqn:Hk; simpl.
      - specialize (IH k v Hk (child base !! k) (Hf k v Hk)). simpl in IH.
        destruct (diff_val _ _); [by rewrite IH | done].
      - destruct (child base !! k) as [b|]; [|done]. simpl. by rewrite diff_val_self. }
    destruct (Nat.eqb_spec (size (diffMaps (child base) w)) 0) as [H0|H0].
    + apply map_size_empty_inv in H0. rewrite H0 in Hback.
      change (mergeMaps (child base) ∅) with (child base) in Hback.
      destruct Hne as [Hobj|Hne].
      * destruct base as [[]|]; try done. simpl in *. by rewrite <- Hback.
      * destruct (map_choose _ Hne) as (k & v & Hk).
        assert (Hw : is_Some (child base !! k)).
        { rewrite Hback. unfold w. rewrite lookup_mergeMaps, Hk. eauto. }
        destruct base as [[]|]; simpl in Hw; try (rewrite lookup_empty in Hw; by destruct Hw).
        simpl in *. by rewrite <- Hback.
    + by rewrite merge_val_obj, Hback.
Qed.
End Difference.

Lemma merge_diff `{GoFloatText} base o :
  fits_map base o -> mergeMaps base (diffMaps base (mergeMaps base o)) = mergeMaps base o.
Proof.
  intros Hf. apply map_eq. intros k. rewrite lookup_mergeMaps, lookup_diffMaps, lookup_mergeMaps.
  destruct (o !! k) as [v|] eqn:Hk; simpl.
  - pose proof (merge_diff_val (base !! k) v (Hf k v Hk)) as Hm. destruct (diff_val _ _); [by rewrite Hm | done].
  - destruct (base !! k) as [b|]; [|done]. simpl. by rewrite diff_val_self.
Qed.

Lemma mergeMaps_empty base : mergeMaps base ∅ = base.
Proof. apply map_fold_empty. Qed.

(** Only keys of the overrides are in the difference to the base. *)
Lemma diff_merge_keys `{GoFloatText} base o k v :
  diffMaps base (mergeMaps base o) !! k = Some v -> is_Some (o !! k).
Proof.
  rewrite lookup_diffMaps, lookup_mergeMaps. destruct (o !! k) as [u|]; [eauto|].
  destruct (base !! k) as [b|]; [|done]. simpl. by rewrite diff_val_self.
Qed.

(** ** Lemmas on sections *)

Section SectionLemmas.
Context `{GoUnicode}.

Lemma normalize_go_elem seen sections s :
  s ∈ normalize_go seen sections <->
  s ∉ seen /\ s ∈ valid_sections /\ exists x, x ∈ sections /\ section_key x = s.
Proof.
  revert seen. induction sections as [|x l IH]; intros seen; cbn [normalize_go].
  - split; [intros Hs; by apply not_elem_of_nil in Hs | intros (_ & _ & y & Hy & _); by apply not_elem_of_nil in Hy].
  - change (TrimSpace (ToLower x)) with (section_key x). cbv zeta.
    assert (Hv : forall t, mem_str t valid_sections = true <-> t ∈ valid_sections) by (intros; apply mem_str_spec).
    destruct (String.eqb (section_key x) "" || negb (mem_str (section_key x) valid_sections)
              || bool_decide (section_key x ∈ seen)) eqn:Hc.
    + rewrite IH. split; intros (Hs & Hval & y & Hy & Hk); (split; [done|]; split; [done|]).
      * exists y. split; [by right | done].
      * apply elem_of_cons in Hy as [->|Hy]; [|eauto]. exfalso. subst s.
        apply orb_true_iff in Hc as [Hc|Hc]; [apply orb_true_iff in Hc as [Hc|Hc]|].
        -- apply String.eqb_eq in Hc. rewrite Hc in Hval. revert Hval. apply (bool_decide_unpack (_ ∉ _)). by vm_compute.
        -- apply negb_true_iff in Hc. apply Hv in Hval. congruence.
        -- by apply bool_decide_eq_true in Hc.
    + apply orb_false_iff in Hc as [[_ Hc]%orb_false_iff Hseen%bool_decide_eq_false].
      apply negb_false_iff, Hv in Hc.
      rewrite elem_of_cons, IH, not_elem_of_union, not_elem_of_singleton. split.
      * intros [->|([Hne Hs] & Hval & y & Hy & Hk)].
        -- split; [done|]. split; [done|]. exists x. split; [by left | done].
        -- split; [done|]. split; [done|]. exists y. split; [by right | done].
      * intros (Hs & Hval & y & Hy & Hk). destruct (decide (s = section_key x)) as [->|Hne]; [by left|].
        right. split; [done|]. split; [done|]. apply elem_of_cons in Hy as [->|Hy]; [congruence | eauto].
Qed.

Lemma normalizeSectionList_elem sections s :
  s ∈ normalizeSectionList sections <->
  s ∈ valid_sections /\ exists x, x ∈ sections /\ section_key x = s.
Proof.
  unfold normalizeSectionList. destruct sections as [|x l]; cbn [length Nat.eqb].
  - split; [intros Hs; by apply not_elem_of_nil in Hs | intros (_ & y & Hy & _); by apply not_elem_of_nil in Hy].
  - unfold sort_strings. rewrite merge_sort_Permutation, normalize_go_elem.
    split; [by intros [_ ?] | intros ?; split; [apply not_elem_of_empty | done]].
Qed.

(** An agent may override the sections that are managed and not enforced. *)
Lemma allowed_elem managed enforced s :
  s ∈ allowedAgentOverrideSections managed enforced <->
  s ∈ valid_sections /\ (exists x, x ∈ managed /\ section_key x = s)
  /\ ~ exists x, x ∈ enforced /\ section_key x = s.
Proof.
  unfold allowedAgentOverrideSections. rewrite elem_of_difference, !elem_of_list_to_set,
    !normalizeSectionList_elem. tauto.
Qed.

(** Nothing blocked: everything is kept. *)
Lemma filterOverrideSections_unblocked o allowed :
  (filterOverrideSections o allowed).2 = [] -> (filterOverrideSections o allowed).1 = o.
Proof.
  unfold filterOverrideSections. simpl. intros Hb. apply map_filter_id. intros k v Hk.
  destruct (decide (section_key k ∈ allowed)) as [|Hn]; [done|]. exfalso.
  assert (Hin : section_key k ∈ @nil string); [|by apply not_elem_of_nil in Hin].
  rewrite <- Hb. unfold sort_strings. rewrite merge_sort_Permutation, elem_of_elements, elem_of_list_to_set.
  apply list_elem_of_fmap. exists (k, v). split; [done|].
  by apply elem_of_map_to_list, map_lookup_filter_Some.
Qed.

Lemma MergeOverrideMaps_default existing patch :
  MergeOverrideMaps existing patch = mergeMaps (default ∅ existing) patch.
Proof. destruct existing as [m|]; [|done]. unfold MergeOverrideMaps. by rewrite cloneMap_id. Qed.

Lemma section_key_valid s : s ∈ valid_sections -> section_key s = s.
Proof.
  unfold valid_sections. intros Hs.
  repeat (apply elem_of_cons in Hs as [->|Hs]; [reflexivity|]). by apply not_elem_of_nil in Hs.
Qed.

(** Normalizing the enforced sections first makes no difference. *)
Lemma allowed_normalized managed enforced :
  allowedAgentOverrideSections managed (normalizeSectionList enforced)
  = allowedAgentOverrideSections managed enforced.
Proof.
  apply leibniz_equiv. intros x. rewrite !allowed_elem.
  assert (He : x ∈ valid_sections -> (exists e, e ∈ normalizeSectionList enforced /\ section_key e = x)
                 <-> exists e, e ∈ enforced /\ section_key e = x).
  { intros Hx. split.
    - intros (e & (Hv & y & Hy & Hye)%normalizeSectionList_elem & Hk).
      exists y. split; [done|]. by rewrite Hye, <- Hk, section_key_valid.
    - intros He. exists x. split; [by apply normalizeSectionList_elem | by apply section_key_valid]. }
  tauto.
Qed.

(** Overrides that name permitted sections only pass the filter unchanged. *)
Lemma filterOverrideSections_id o allowed :
  (forall k v, o !! k = Some v -> section_key k ∈ allowed) -> (filterOverrideSections o allowed).1 = o.
Proof. intros Hk. apply map_filter_id. intros k v Hv. by eapply Hk. Qed.

Lemma filterOverrideSections_lookup o allowed k v :
  (filterOverrideSections o allowed).1 !! k = Some v <-> o !! k = Some v /\ section_key k ∈ allowed.
Proof. unfold filterOverrideSections. simpl. by rewrite map_lookup_filter_Some. Qed.
End SectionLemmas.
