(* ===== verification/SettingsCodec.v ===== *)
(** * Settings as JSON ([server/settings/codec.go]): the conversions between the
    settings and maps, and the application of overrides.

    [encoding/json]: a struct becomes an object of its fields by tag, [omitempty] leaves
    out an empty string, an [int] passes through [float64] and back; a key of an object
    sets the field whose tag it equals or, failing that, equals up to case; null leaves a
    field alone; a value of another kind is an error, which only shows at the end. All
    strings and keys here were themselves decoded from JSON, so they are valid UTF-8 and
    pass through unchanged. *)
From stdpp Require Import sorting.
From S2P Require Import Prelude GoStrings OverrideMap Settings.
From Stdlib Require Import Ascii.

(** ** Encoding *)

(** [float64(n)]: to nearest, ties to even. *)
Definition round53 (n : Z) : Z :=
  let a := Z.abs n in
  if a <=? 2 ^ 53 then n
  else
    let k := Z.log2 a - 52 in
    let q := a / 2 ^ k in
    let r := a mod 2 ^ k in
    let half := 2 ^ (k - 1) in
    let q := if (half <? r) || ((r =? half) && Z.odd q) then q + 1 else q in
    Z.sgn n * (q * 2 ^ k).

Definition encode_bool (k : string) (b : bool) : list (string * jval) := [(k, JBool b)].
Definition encode_str (k s : string) : list (string * jval) := [(k, JStr s)].
Definition encode_int (k : string) (n : Z) : list (string * jval) := [(k, JNum (Integral (round53 n)))].
Definition encode_omitempty (k s : string) : list (string * jval) :=
  if String.eqb s "" then [] else [(k, JStr s)].

Definition discovery_entries (d : DiscoverySettings) : list (string * jval) :=
  encode_bool "subnet_scan" (SubnetScan d) ++
  encode_bool "manual_ranges" (ManualRanges d) ++
  encode_str "ranges_text" (RangesText d) ++
  encode_str "detected_subnet" (DetectedSubnet d) ++
  encode_bool "ip_scanning_enabled" (IPScanningEnabled d) ++
  encode_int "concurrency" (Concurrency d) ++
  encode_bool "arp_enabled" (ARPEnabled d) ++
  encode_bool "icmp_enabled" (ICMPEnabled d) ++
  encode_bool "tcp_enabled" (TCPEnabled d) ++
  encode_bool "snmp_enabled" (SNMPEnabled d) ++
  encode_bool "mdns_enabled" (MDNSEnabled d) ++
  encode_bool "auto_discover_enabled" (AutoDiscoverEnabled d) ++
  encode_bool "autosave_discovered_devices" (AutosaveDiscoveredDevices d) ++
  encode_bool "show_discover_button_anyway" (ShowDiscoverButtonAnyway d) ++
  encode_bool "show_discovered_devices_anyway" (ShowDiscoveredDevicesAnyway d) ++
  encode_bool "passive_discovery_enabled" (PassiveDiscoveryEnabled d) ++
  encode_bool "auto_discover_live_mdns" (AutoDiscoverLiveMDNS d) ++
  encode_bool "auto_discover_live_wsd" (AutoDiscoverLiveWSD d) ++
  encode_bool "auto_discover_live_ssdp" (AutoDiscoverLiveSSDP d) ++
  encode_bool "auto_discover_live_snmptrap" (AutoDiscoverLiveSNMPTrap d) ++
  encode_bool "auto_discover_live_llmnr" (AutoDiscoverLiveLLMNR d) ++
  encode_bool "metrics_rescan_enabled" (MetricsRescanEnabled d) ++
  encode_int "metrics_rescan_interval_minutes" (MetricsRescanIntervalMinutes d) ++
  encode_int "metrics_rescan_interval_seconds" (MetricsRescanIntervalSeconds d).

Definition snmp_entries (s : SNMPSettings) : list (string * jval) :=
  encode_str "version" (SNMP_Version s) ++
  encode_str "community" (Community s) ++
  encode_int "timeout_ms" (TimeoutMS s) ++
  encode_int "retries" (Retries s) ++
  encode_omitempty "security_level" (SecurityLevel s) ++
  encode_omitempty "username" (Username s) ++
  encode_omitempty "auth_protocol" (AuthProtocol s) ++
  encode_omitempty "auth_password" (AuthPassword s) ++
  encode_omitempty "priv_protocol" (PrivProtocol s) ++
  encode_omitempty "priv_password" (PrivPassword s) ++
  encode_omitempty "context_name" (ContextName s).

Definition features_entries (f : FeaturesSettings) : list (string * jval) :=
  encode_bool "epson_remote_mode_enabled" (EpsonRemoteModeEnabled f) ++
  encode_bool "credentials_enabled" (CredentialsEnabled f) ++
  encode_str "asset_id_regex" (AssetIDRegex f).

Definition spooler_entries (s : SpoolerSettings) : list (string * jval) :=
  encode_bool "enabled" (Spooler_Enabled s) ++
  encode_int "poll_interval_seconds" (PollIntervalSeconds s) ++
  encode_bool "include_network_printers" (IncludeNetworkPrinters s) ++
  encode_bool "include_virtual_printers" (IncludeVirtualPrinters s).

Definition logging_entries (l : LoggingSettings) : list (string * jval) :=
  encode_str "level" (Level l) ++
  encode_bool "dump_parse_debug" (DumpParseDebug l).

Definition web_entries (w : WebSettings) : list (string * jval) :=
  encode_bool "enable_http" (EnableHTTP w) ++
  encode_bool "enable_https" (EnableHTTPS w) ++
  encode_str "http_port" (HTTPPort w) ++
  encode_str "https_port" (HTTPSPort w) ++
  encode_bool "redirect_http_to_https" (RedirectHTTPToHTTPS w) ++
  encode_str "custom_cert_path" (CustomCertPath w) ++
  encode_str "custom_key_path" (CustomKeyPath w).

Definition settings_entries (s : Settings) : list (string * jval) :=
  [ ("discovery", JObj (list_to_map (discovery_entries (Discovery s))));
    ("snmp", JObj (list_to_map (snmp_entries (SNMP s))));
    ("features", JObj (list_to_map (features_entries (Features s))));
    ("spooler", JObj (list_to_map (spooler_entries (Spooler s))));
    ("logging", JObj (list_to_map (logging_entries (Logging s))));
    ("web", JObj (list_to_map (web_entries (Web s)))) ].

Definition settingsToMap (s : Settings) : jobj := list_to_map (settings_entries s).

(** ** Decoding *)

Section Codec.
Context `{GoUnicode} `{GoFloatText}.

(** The values that the keys of the objects give to the field, in the order in which
    the decoder meets them. *)
Definition field_values (objs : list jobj) (name : string) : list jval :=
  objs ≫= fun o => snd <$> sorted_entries (filter (fun kv => EqualFold kv.1 name = true) o).

(** Storing the values in turn: [Some None] stores nothing, [None] is an error. *)
Definition decode_field {A} (one : jval -> option (option A)) (zero : A) (vals : list jval) : option A :=
  fold_left (fun acc v => a ← acc; r ← one v; Some (default a r)) vals (Some zero).

Definition one_bool (v : jval) : option (option bool) :=
  match v with JBool b => Some (Some b) | JNull => Some None | _ => None end.
Definition one_str (v : jval) : option (option string) :=
  match v with JStr s => Some (Some s) | JNull => Some None | _ => None end.

(** The text of a number is parsed as an [int]: no fraction, no exponent, 64 bits. *)
Definition int_of_number (n : jnum) : option Z :=
  match n with
  | Fractional _ _ _ => None
  | Integral z =>
      if Z.abs z <=? 2 ^ 53 then Some z
      else if Z.abs z <? 10 ^ 21 then
        let v := shortest_int z in
        if (int64_min <=? v) && (v <=? int64_max) then Some v else None
      else None
  end.
Definition one_int (v : jval) : option (option Z) :=
  match v with JNum n => Some <$> int_of_number n | JNull => Some None | _ => None end.

Definition decode_bool (objs : list jobj) (name : string) : option bool :=
  decode_field one_bool false (field_values objs name).
Definition decode_str (objs : list jobj) (name : string) : option string :=
  decode_field one_str "" (field_values objs name).
Definition decode_int (objs : list jobj) (name : string) : option Z :=
  decode_field one_int 0 (field_values objs name).

(** A struct field: the objects decoded into it, one after the other. *)
Definition one_obj (v : jval) : option (list jobj) :=
  match v with JObj m => Some [m] | JNull => Some [] | _ => None end.
Definition decode_objs (objs : list jobj) (name : string) : option (list jobj) :=
  mjoin <$> mapM one_obj (field_values objs name).

Definition decode_discovery (objs : list jobj) : option DiscoverySettings :=
  x0 ← decode_bool objs "subnet_scan";
  x1 ← decode_bool objs "manual_ranges";
  x2 ← decode_str objs "ranges_text";
  x3 ← decode_str objs "detected_subnet";
  x4 ← decode_bool objs "ip_scanning_enabled";
  x5 ← decode_int objs "concurrency";
  x6 ← decode_bool objs "arp_enabled";
  x7 ← decode_bool objs "icmp_enabled";
  x8 ← decode_bool objs "tcp_enabled";
  x9 ← decode_bool objs "snmp_enabled";
  x10 ← decode_bool objs "mdns_enabled";
  x11 ← decode_bool objs "auto_discover_enabled";
  x12 ← decode_bool objs "autosave_discovered_devices";
  x13 ← decode_bool objs "show_discover_button_anyway";
  x14 ← decode_bool objs "show_discovered_devices_anyway";
  x15 ← decode_bool objs "passive_discovery_enabled";
  x16 ← decode_bool objs "auto_discover_live_mdns";
  x17 ← decode_bool objs "auto_discover_live_wsd";
  x18 ← decode_bool objs "auto_discover_live_ssdp";
  x19 ← decode_bool objs "auto_discover_live_snmptrap";
  x20 ← decode_bool objs "auto_discover_live_llmnr";
  x21 ← decode_bool objs "metrics_rescan_enabled";
  x22 ← decode_int objs "metrics_rescan_interval_minutes";
  x23 ← decode_int objs "metrics_rescan_interval_seconds";
    Some {| SubnetScan := x0; ManualRanges := x1; RangesText := x2; DetectedSubnet := x3;
          IPScanningEnabled := x4; Concurrency := x5; ARPEnabled := x6; ICMPEnabled := x7;
          TCPEnabled := x8; SNMPEnabled := x9; MDNSEnabled := x10; AutoDiscoverEnabled := x11;
          AutosaveDiscoveredDevices := x12; ShowDiscoverButtonAnyway := x13;
          ShowDiscoveredDevicesAnyway := x14; PassiveDiscoveryEnabled := x15;
          AutoDiscoverLiveMDNS := x16; AutoDiscoverLiveWSD := x17; AutoDiscoverLiveSSDP := x18;
          AutoDiscoverLiveSNMPTrap := x19; AutoDiscoverLiveLLMNR := x20; MetricsRescanEnabled :=
          x21; MetricsRescanIntervalMinutes := x22; MetricsRescanIntervalSeconds := x23 |}.

Definition decode_snmp (objs : list jobj) : option SNMPSettings :=
  x0 ← decode_str objs "version";
  x1 ← decode_str objs "community";
  x2 ← decode_int objs "timeout_ms";
  x3 ← decode_int objs "retries";
  x4 ← decode_str objs "security_level";
  x5 ← decode_str objs "username";
  x6 ← decode_str objs "auth_protocol";
  x7 ← decode_str objs "auth_password";
  x8 ← decode_str objs "priv_protocol";
  x9 ← decode_str objs "priv_password";
  x10 ← decode_str objs "context_name";
    Some {| SNMP_Version := x0; Community := x1; TimeoutMS := x2; Retries := x3; SecurityLevel
          := x4; Username := x5; AuthProtocol := x6; AuthPassword := x7; PrivProtocol := x8;
          PrivPassword := x9; ContextName := x10 |}.

Definition decode_features (objs : list jobj) : option FeaturesSettings :=
  x0 ← decode_bool objs "epson_remote_mode_enabled";
  x1 ← decode_bool objs "credentials_enabled";
  x2 ← decode_str objs "asset_id_regex";
  Some {| EpsonRemoteModeEnabled := x0; CredentialsEnabled := x1; AssetIDRegex := x2 |}.

Definition decode_spooler (objs : list jobj) : option SpoolerSettings :=
  x0 ← decode_bool objs "enabled";
  x1 ← decode_int objs "poll_interval_seconds";
  x2 ← decode_bool objs "include_network_printers";
  x3 ← decode_bool objs "include_virtual_printers";
    Some {| Spooler_Enabled := x0; PollIntervalSeconds := x1; IncludeNetworkPrinters := x2;
          IncludeVirtualPrinters := x3 |}.

Definition decode_logging (objs : list jobj) : option LoggingSettings :=
  x0 ← decode_str objs "level";
  x1 ← decode_bool objs "dump_parse_debug";
  Some {| Level := x0; DumpParseDebug := x1 |}.

Definition decode_web (objs : list jobj) : option WebSettings :=
  x0 ← decode_bool objs "enable_http";
  x1 ← decode_bool objs "enable_https";
  x2 ← decode_str objs "http_port";
  x3 ← decode_str objs "https_port";
  x4 ← decode_bool objs "redirect_http_to_https";
  x5 ← decode_str objs "custom_cert_path";
  x6 ← decode_str objs "custom_key_path";
    Some {| EnableHTTP := x0; EnableHTTPS := x1; HTTPPort := x2; HTTPSPort := x3;
          RedirectHTTPToHTTPS := x4; CustomCertPath := x5; CustomKeyPath := x6 |}.

Definition decode_settings (objs : list jobj) : option Settings :=
  d ← decode_objs objs "discovery" ≫= decode_discovery;
  n ← decode_objs objs "snmp" ≫= decode_snmp;
  f ← decode_objs objs "features" ≫= decode_features;
  s ← decode_objs objs "spooler" ≫= decode_spooler;
  l ← decode_objs objs "logging" ≫= decode_logging;
  w ← decode_objs objs "web" ≫= decode_web;
  Some {| Discovery := d; SNMP := n; Features := f; Spooler := s; Logging := l; Web := w |}.

Definition mapToSettings (m : jobj) : option Settings := decode_settings [m].

(** ** Patches *)

(** [None] is the error of the decoder. The conversion of settings to a map does not fail. *)
Definition ApplyPatch (base : Settings) (overrides : jobj) : option Settings :=
  if Nat.eqb (size overrides) 0 then Some base
  else
    let merged := mergeMaps (cloneMap (settingsToMap base)) overrides in
    Sanitize <$> mapToSettings merged.

(** [overrides] is [None] for a nil map. *)
Definition CleanOverrides (base : Settings) (overrides : option jobj) : jobj :=
  match overrides with
  | None => ∅
  | Some o => let baseMap := settingsToMap base in diffMaps baseMap (mergeMaps (cloneMap baseMap) o)
  end.

End Codec.

(** ** Reading back an encoded struct *)

(** The keys of a struct: no two equal, and none equal to a tag only up to case. *)
Definition tags_ok `{GoUnicode} (tags : list string) : bool :=
  bool_decide (NoDup tags)
  && forallb (fun n => forallb (fun k => Bool.eqb (EqualFold k n) (String.eqb k n)) tags) tags.

Definition discovery_tags : list string := ["subnet_scan"; "manual_ranges"; "ranges_text";
    "detected_subnet"; "ip_scanning_enabled"; "concurrency"; "arp_enabled"; "icmp_enabled";
    "tcp_enabled"; "snmp_enabled"; "mdns_enabled"; "auto_discover_enabled";
    "autosave_discovered_devices"; "show_discover_button_anyway";
    "show_discovered_devices_anyway"; "passive_discovery_enabled"; "auto_discover_live_mdns";
    "auto_discover_live_wsd"; "auto_discover_live_ssdp"; "auto_discover_live_snmptrap";
    "auto_discover_live_llmnr"; "metrics_rescan_enabled"; "metrics_rescan_interval_minutes";
    "metrics_rescan_interval_seconds"].
Definition snmp_tags : list string := ["version"; "community"; "timeout_ms"; "retries";
    "security_level"; "username"; "auth_protocol"; "auth_password"; "priv_protocol";
    "priv_password"; "context_name"].
Definition features_tags : list string := ["epson_remote_mode_enabled"; "credentials_enabled";
    "asset_id_regex"].
Definition spooler_tags : list string := ["enabled"; "poll_interval_seconds";
    "include_network_printers"; "include_virtual_printers"].
Definition logging_tags : list string := ["level"; "dump_parse_debug"].
Definition web_tags : list string := ["enable_http"; "enable_https"; "http_port"; "https_port";
    "redirect_http_to_https"; "custom_cert_path"; "custom_key_path"].
Definition section_tags : list string := ["discovery"; "snmp"; "features"; "spooler"; "logging"; "web"].

Section Roundtrip.
Context `{GoUnicode} `{GoFloatText}.

Lemma sorted_entries_small (m : jobj) : (size m <= 1)%nat -> sorted_entries m = map_to_list m.
Proof.
  intros Hs. unfold sorted_entries. rewrite <- length_map_to_list in Hs.
  destruct (map_to_list m) as [|x [|y l]]; [done | done | simpl in Hs; lia].
Qed.

(** Only the tag itself folds to the tag: the field gets the value under its tag. *)
Lemma field_values_exact (o : jobj) name :
  (forall k, is_Some (o !! k) -> EqualFold k name = true -> k = name) -> EqualFold name name = true ->
  field_values [o] name = option_list (o !! name).
Proof.
  intros Hk Hn. unfold field_values. simpl. rewrite app_nil_r.
  assert (Hf : filter (fun kv => EqualFold kv.1 name = true) o
               = match o !! name with Some v => {[ name := v ]} | None => ∅ end).
  { apply map_eq. intros k. destruct (decide (k = name)) as [->|Hne].
    - destruct (o !! name) as [v|] eqn:Ho.
      + rewrite lookup_singleton_eq. by apply map_lookup_filter_Some.
      + rewrite lookup_empty. apply map_lookup_filter_None. by left.
    - transitivity (@None jval).
      + apply map_lookup_filter_None. destruct (o !! k) as [v|] eqn:Ho; [|by left]. right.
        intros v' _ Hfold. apply Hne, Hk; [by rewrite Ho | done].
      + destruct (o !! name); [by rewrite lookup_singleton_ne | by rewrite lookup_empty]. }
  rewrite Hf. destruct (o !! name) as [v|]; rewrite sorted_entries_small;
    rewrite ?map_size_singleton, ?map_size_empty, ?map_to_list_singleton, ?map_to_list_empty; done || lia.
Qed.

(** The value of a key in a list of entries with distinct keys. *)
Definition entry_values (l : list (string * jval)) (name : string) : list jval :=
  snd <$> filter (fun kv => kv.1 = name) l.

Lemma entry_values_app l1 l2 name :
  entry_values (l1 ++ l2) name = entry_values l1 name ++ entry_values l2 name.
Proof. unfold entry_values. by rewrite filter_app, fmap_app. Qed.

Lemma entry_values_lookup l name :
  NoDup l.*1 -> entry_values l name = option_list ((list_to_map l : jobj) !! name).
Proof.
  induction l as [|[k v] l IH]; simpl; [done|]. intros [Hk Hl]%NoDup_cons.
  unfold entry_values. rewrite filter_cons. simpl. case_decide as Hkn.
  - subst k. rewrite lookup_insert_eq. simpl. f_equal.
    change (entry_values l name = []). rewrite IH by done.
    by rewrite (not_elem_of_list_to_map_1 l name Hk).
  - rewrite lookup_insert_ne by done. by apply IH.
Qed.

Lemma field_values_entries tags l name :
  tags_ok tags = true -> l.*1 `sublist_of` tags -> name ∈ tags ->
  field_values [list_to_map l : jobj] name = entry_values l name.
Proof.
  intros [Hnd Ht]%andb_true_iff Hsub Hn. apply bool_decide_eq_true in Hnd.
  rewrite forallb_elem_of in Ht. specialize (Ht name Hn). rewrite forallb_elem_of in Ht.
  assert (Hfold : forall k, k ∈ tags -> EqualFold k name = String.eqb k name)
    by (intros k Hk; by apply eqb_prop, Ht).
  rewrite entry_values_lookup by (by eapply sublist_NoDup).
  apply field_values_exact; [|by rewrite Hfold, String.eqb_refl].
  intros k [v Hk] Hf. apply String.eqb_eq. rewrite <- Hfold; [done|].
  eapply elem_of_submseteq; [|by apply sublist_submseteq].
  apply elem_of_list_to_map_2 in Hk. by apply (list_elem_of_fmap_2 fst _ _ Hk).
Qed.

Lemma round53_id n : - 2 ^ 53 <= n <= 2 ^ 53 -> round53 n = n.
Proof. intros Hn. unfold round53. by rewrite (proj2 (Z.leb_le (Z.abs n) (2 ^ 53))) by lia. Qed.

Lemma int_of_number_id n : - 2 ^ 53 <= n <= 2 ^ 53 -> int_of_number (Integral n) = Some n.
Proof. intros Hn. unfold int_of_number. by rewrite (proj2 (Z.leb_le (Z.abs n) (2 ^ 53))) by lia. Qed.

(** What the entries of a struct give to one field. *)
Lemma entry_bool k b : decode_field one_bool false (entry_values (encode_bool k b) k) = Some b.
Proof. unfold entry_values, encode_bool. by rewrite filter_cons_True. Qed.

Lemma entry_str k s : decode_field one_str "" (entry_values (encode_str k s) k) = Some s.
Proof. unfold entry_values, encode_str. by rewrite filter_cons_True. Qed.

Lemma entry_omitempty k s : decode_field one_str "" (entry_values (encode_omitempty k s) k) = Some s.
Proof.
  unfold entry_values, encode_omitempty. destruct (String.eqb_spec s "") as [->|]; [done|].
  by rewrite filter_cons_True.
Qed.

Lemma entry_int k n :
  - 2 ^ 53 <= n <= 2 ^ 53 -> decode_field one_int 0 (entry_values (encode_int k n) k) = Some n.
Proof.
  intros Hn. unfold entry_values, encode_int. rewrite filter_cons_True by done. rewrite round53_id by done.
  unfold decode_field. cbn [fmap list_fmap snd fold_left mbind option_bind]. unfold one_int.
  by rewrite int_of_number_id.
Qed.

(** The entries of other fields give nothing. *)
Lemma entry_other_bool k k' b : k <> k' -> entry_values (encode_bool k b) k' = [].
Proof. intros Hk. unfold entry_values, encode_bool. by rewrite filter_cons_False. Qed.
Lemma entry_other_str k k' b : k <> k' -> entry_values (encode_str k b) k' = [].
Proof. intros Hk. unfold entry_values, encode_str. by rewrite filter_cons_False. Qed.
Lemma entry_other_int k k' b : k <> k' -> entry_values (encode_int k b) k' = [].
Proof. intros Hk. unfold entry_values, encode_int. by rewrite filter_cons_False. Qed.
Lemma entry_other_omitempty k k' b : k <> k' -> entry_values (encode_omitempty k b) k' = [].
Proof.
  intros Hk. unfold entry_values, encode_omitempty. destruct (String.eqb b ""); [done|].
  by rewrite filter_cons_False.
Qed.
End Roundtrip.

(** Reads the fields of a struct without [omitempty] back from its entries [l]: the
    values of the keys are computed. *)
Ltac read_plain_fields tags l :=
  unfold decode_bool, decode_str, decode_int;
  repeat match goal with
  | |- context [field_values [?o] ?name] =>
      let H := fresh in
      assert (H : field_values [o] name = entry_values l name);
      [ apply (field_values_entries tags l name);
        [by vm_compute | reflexivity | by apply (bool_decide_unpack (_ ∈ _)); vm_compute]
      | rewrite H; clear H ]
  end.

(** [k <> k'] for two literal strings. *)
Ltac literals_differ := by apply (bool_decide_unpack (_ <> _)); vm_compute.

(** Finds the values of the fields of a struct in its entries. *)
Ltac locate_fields tags :=
  repeat (rewrite (field_values_entries tags);
    [| by vm_compute | first [reflexivity | assumption] | by apply (bool_decide_unpack (_ ∈ _)); vm_compute]);
  rewrite ?entry_values_app;
  repeat match goal with
  | |- context [entry_values (encode_bool ?k ?b) ?k'] =>
      assert_fails (unify k k'); rewrite (entry_other_bool k k' b) by literals_differ
  | |- context [entry_values (encode_str ?k ?b) ?k'] =>
      assert_fails (unify k k'); rewrite (entry_other_str k k' b) by literals_differ
  | |- context [entry_values (encode_int ?k ?b) ?k'] =>
      assert_fails (unify k k'); rewrite (entry_other_int k k' b) by literals_differ
  | |- context [entry_values (encode_omitempty ?k ?b) ?k'] =>
      assert_fails (unify k k'); rewrite (entry_other_omitempty k k' b) by literals_differ
  end;
  rewrite ?app_nil_l, ?app_nil_r.

(** Reads the fields of a struct back from its entries. *)
Ltac read_fields tags :=
  unfold decode_bool, decode_str, decode_int; locate_fields tags;
  repeat first [rewrite entry_bool | rewrite entry_str | rewrite entry_omitempty
    | rewrite entry_int by (simpl in *; lia)]; cbn [mbind option_bind].

Section Sections.
Context `{GoUnicode} `{GoFloatText}.

Lemma decode_features_entries f : decode_features [list_to_map (features_entries f)] = Some f.
Proof. unfold decode_features. read_plain_fields features_tags (features_entries f). by destruct f. Qed.

Lemma decode_logging_entries l : decode_logging [list_to_map (logging_entries l)] = Some l.
Proof. unfold decode_logging. read_plain_fields logging_tags (logging_entries l). by destruct l. Qed.

Lemma decode_web_entries w : decode_web [list_to_map (web_entries w)] = Some w.
Proof. unfold decode_web. read_plain_fields web_tags (web_entries w). by destruct w. Qed.

Lemma decode_spooler_entries s :
  - 2 ^ 53 <= PollIntervalSeconds s <= 2 ^ 53 ->
  decode_spooler [list_to_map (spooler_entries s)] = Some s.
Proof. intros Hn. unfold decode_spooler, spooler_entries. read_fields spooler_tags. by destruct s. Qed.

Lemma snmp_tags_sublist n : (snmp_entries n).*1 `sublist_of` snmp_tags.
Proof.
  assert (Ho : forall k s, (encode_omitempty k s).*1 `sublist_of` [k])
    by (intros k s; unfold encode_omitempty; case_goal; [apply sublist_nil_l | done]).
  unfold snmp_entries. rewrite !fmap_app.
  change snmp_tags with (["version"] ++ ["community"] ++ ["timeout_ms"] ++ ["retries"]
    ++ ["security_level"] ++ ["username"] ++ ["auth_protocol"] ++ ["auth_password"]
    ++ ["priv_protocol"] ++ ["priv_password"] ++ ["context_name"]).
  repeat apply sublist_app; done || apply Ho.
Qed.

Lemma decode_snmp_entries n :
  - 2 ^ 53 <= TimeoutMS n <= 2 ^ 53 -> - 2 ^ 53 <= Retries n <= 2 ^ 53 ->
  decode_snmp [list_to_map (snmp_entries n)] = Some n.
Proof.
  intros Ht Hr. pose proof (snmp_tags_sublist n) as Hsub. unfold snmp_entries in Hsub.
  unfold decode_snmp, snmp_entries. read_fields snmp_tags. by destruct n.
Qed.

Lemma decode_discovery_entries d :
  - 2 ^ 53 <= Concurrency d <= 2 ^ 53 -> - 2 ^ 53 <= MetricsRescanIntervalMinutes d <= 2 ^ 53 ->
  - 2 ^ 53 <= MetricsRescanIntervalSeconds d <= 2 ^ 53 ->
  decode_discovery [list_to_map (discovery_entries d)] = Some d.
Proof.
  intros Hc Hm Hs. unfold decode_discovery. read_plain_fields discovery_tags (discovery_entries d).
  change (entry_values (discovery_entries d) "concurrency")
    with (entry_values (encode_int "concurrency" (Concurrency d)) "concurrency").
  change (entry_values (discovery_entries d) "metrics_rescan_interval_minutes")
    with (entry_values (encode_int "metrics_rescan_interval_minutes" (MetricsRescanIntervalMinutes d))
            "metrics_rescan_interval_minutes").
  change (entry_values (discovery_entries d) "metrics_rescan_interval_seconds")
    with (entry_values (encode_int "metrics_rescan_interval_seconds" (MetricsRescanIntervalSeconds d))
            "metrics_rescan_interval_seconds").
  rewrite !entry_int by done. by destruct d.
Qed.
End Sections.

(** ** The conversions are inverse *)

(** A [float64] holds these integers exactly. Sanitizing ensures it for all but the
    poll interval, which it does not bound. *)
Record json_safe (s : Settings) : Prop := {
  js_concurrency : - 2 ^ 53 <= Concurrency (Discovery s) <= 2 ^ 53;
  js_minutes : - 2 ^ 53 <= MetricsRescanIntervalMinutes (Discovery s) <= 2 ^ 53;
  js_seconds : - 2 ^ 53 <= MetricsRescanIntervalSeconds (Discovery s) <= 2 ^ 53;
  js_timeout : - 2 ^ 53 <= TimeoutMS (SNMP s) <= 2 ^ 53;
  js_retries : - 2 ^ 53 <= Retries (SNMP s) <= 2 ^ 53;
  js_poll : - 2 ^ 53 <= PollIntervalSeconds (Spooler s) <= 2 ^ 53;
}.

(** A section of the settings. *)
Inductive section_value :=
| SDiscovery (d : DiscoverySettings)
| SSNMP (n : SNMPSettings)
| SFeatures (f : FeaturesSettings)
| SSpooler (s : SpoolerSettings)
| SLogging (l : LoggingSettings)
| SWeb (w : WebSettings).

Definition section_of (name : string) (s : Settings) : option section_value :=
  if String.eqb name "discovery" then Some (SDiscovery (Discovery s))
  else if String.eqb name "snmp" then Some (SSNMP (SNMP s))
  else if String.eqb name "features" then Some (SFeatures (Features s))
  else if String.eqb name "spooler" then Some (SSpooler (Spooler s))
  else if String.eqb name "logging" then Some (SLogging (Logging s))
  else if String.eqb name "web" then Some (SWeb (Web s))
  else None.

Lemma section_tags_cases (P : string -> Prop) :
  P "discovery" -> P "snmp" -> P "features" -> P "spooler" -> P "logging" -> P "web" ->
  forall x, x ∈ section_tags -> P x.
Proof.
  intros H1 H2 H3 H4 H5 H6 x Hx. unfold section_tags in Hx.
  repeat (apply elem_of_cons in Hx as [->|Hx]; [assumption|]). by apply not_elem_of_nil in Hx.
Qed.

Lemma section_of_ext s t : (forall x, x ∈ section_tags -> section_of x s = section_of x t) -> s = t.
Proof.
  intros Hx. destruct s as [d n f p l w], t as [d' n' f' p' l' w']. unfold section_tags in Hx.
  assert (H1 := Hx "discovery"). assert (H2 := Hx "snmp"). assert (H3 := Hx "features").
  assert (H4 := Hx "spooler"). assert (H5 := Hx "logging"). assert (H6 := Hx "web"). clear Hx.
  repeat match goal with H : _ ∈ _ -> _ |- _ => specialize (H ltac:(by repeat constructor)) end.
  cbv in H1, H2, H3, H4, H5, H6. congruence.
Qed.

Lemma section_of_Sanitize x s t :
  x ∈ section_tags -> section_of x s = section_of x t -> section_of x (Sanitize s) = section_of x (Sanitize t).
Proof.
  intros Hx. revert x Hx. apply (section_tags_cases (fun x => section_of x s = section_of x t ->
    section_of x (Sanitize s) = section_of x (Sanitize t)));
    cbv [section_of String.eqb Ascii.eqb Bool.eqb]; intros [= Heq]; cbn; by rewrite ?Heq.
Qed.

Section Inverse.
Context `{GoUnicode} `{GoFloatText}.

Lemma settingsToMap_keys s k : is_Some (settingsToMap s !! k) -> k ∈ section_tags.
Proof.
  intros [v Hv]. apply elem_of_list_to_map_2 in Hv.
  by apply (list_elem_of_fmap_2 fst _ _ Hv).
Qed.

Lemma section_tags_fold x k :
  x ∈ section_tags -> k ∈ section_tags -> EqualFold k x = String.eqb k x.
Proof.
  intros Hx Hk. assert (Ht : tags_ok section_tags = true) by (vm_compute; reflexivity).
  apply andb_true_iff in Ht as [_ Ht]. rewrite forallb_elem_of in Ht.
  specialize (Ht x Hx). rewrite forallb_elem_of in Ht. by apply eqb_prop, Ht.
Qed.

(** The section [x] of a map that decodes, when only the key [x] names it and it holds
    the encoding of a section. *)
Lemma decode_section (m : jobj) s t x :
  json_safe s -> x ∈ section_tags -> m !! x = settingsToMap s !! x ->
  (forall k, is_Some (m !! k) -> EqualFold k x = true -> k = x) ->
  mapToSettings m = Some t -> section_of x t = section_of x s.
Proof.
  intros [J1 J2 J3 J4 J5 J6] Hx Hm Hk Ht.
  assert (Hv : field_values [m] x = option_list (settingsToMap s !! x)).
  { rewrite <- Hm. apply field_values_exact; [done|]. by rewrite section_tags_fold, String.eqb_refl. }
  unfold mapToSettings, decode_settings, decode_objs in Ht.
  apply bind_Some in Ht as (d & Hd & Ht). apply bind_Some in Ht as (n & Hn & Ht).
  apply bind_Some in Ht as (f & Hf & Ht). apply bind_Some in Ht as (p & Hp & Ht).
  apply bind_Some in Ht as (l & Hl & Ht). apply bind_Some in Ht as (w & Hw & Ht).
  injection Ht as <-. clear Hm Hk. revert x Hx Hv.
  apply (section_tags_cases (fun x => field_values [m] x = option_list (settingsToMap s !! x) -> section_of x _ = section_of x s));
    intros Hv; cbv [section_of String.eqb Ascii.eqb Bool.eqb]; cbn.
  - rewrite Hv in Hd. change (decode_discovery [list_to_map (discovery_entries (Discovery s))] = Some d) in Hd.
    rewrite decode_discovery_entries in Hd by done. by injection Hd as ->.
  - rewrite Hv in Hn. change (decode_snmp [list_to_map (snmp_entries (SNMP s))] = Some n) in Hn.
    rewrite decode_snmp_entries in Hn by done. by injection Hn as ->.
  - rewrite Hv in Hf. change (decode_features [list_to_map (features_entries (Features s))] = Some f) in Hf.
    rewrite decode_features_entries in Hf. by injection Hf as ->.
  - rewrite Hv in Hp. change (decode_spooler [list_to_map (spooler_entries (Spooler s))] = Some p) in Hp.
    rewrite decode_spooler_entries in Hp by done. by injection Hp as ->.
  - rewrite Hv in Hl. change (decode_logging [list_to_map (logging_entries (Logging s))] = Some l) in Hl.
    rewrite decode_logging_entries in Hl. by injection Hl as ->.
  - rewrite Hv in Hw. change (decode_web [list_to_map (web_entries (Web s))] = Some w) in Hw.
    rewrite decode_web_entries in Hw. by injection Hw as ->.
Qed.

Lemma field_values_settings s x :
  x ∈ section_tags -> field_values [settingsToMap s] x = option_list (settingsToMap s !! x).
Proof.
  intros Hx. apply field_values_exact; [|by rewrite section_tags_fold, String.eqb_refl].
  intros k Hk. rewrite section_tags_fold by eauto using settingsToMap_keys. apply String.eqb_eq.
Qed.

Lemma mapToSettings_settingsToMap s : json_safe s -> mapToSettings (settingsToMap s) = Some s.
Proof.
  intros [J1 J2 J3 J4 J5 J6]. unfold mapToSettings, decode_settings, decode_objs.
  rewrite !field_values_settings by (by apply (bool_decide_unpack (_ ∈ _)); vm_compute).
  change ((d ← decode_discovery [list_to_map (discovery_entries (Discovery s))];
           n ← decode_snmp [list_to_map (snmp_entries (SNMP s))];
           f ← decode_features [list_to_map (features_entries (Features s))];
           p ← decode_spooler [list_to_map (spooler_entries (Spooler s))];
           l ← decode_logging [list_to_map (logging_entries (Logging s))];
           w ← decode_web [list_to_map (web_entries (Web s))];
           Some {| Discovery := d; SNMP := n; Features := f; Spooler := p; Logging := l; Web := w |})
          = Some s).
  rewrite decode_discovery_entries, decode_snmp_entries, decode_features_entries,
    decode_spooler_entries, decode_logging_entries, decode_web_entries by done.
  by destruct s.
Qed.

Lemma ApplyPatch_sanitized base o s : sanitized base -> ApplyPatch base o = Some s -> sanitized s.
Proof.
  intros Hb. unfold ApplyPatch. destruct (Nat.eqb _ _); [by intros [= <-]|].
  intros (t & _ & ->)%fmap_Some. apply Sanitize_sanitized.
Qed.

(** An override changes no section that none of its keys names, in any spelling. *)
Lemma ApplyPatch_untouched base o s x :
  sanitized base -> json_safe base -> x ∈ section_tags ->
  (forall k, is_Some (o !! k) -> EqualFold k x = false) ->
  ApplyPatch base o = Some s -> section_of x s = section_of x base.
Proof.
  intros Hb Hj Hx Hk. unfold ApplyPatch. destruct (Nat.eqb _ _); [by intros [= <-]|].
  rewrite cloneMap_id. intros (t & Ht & ->)%fmap_Some.
  rewrite <- (Sanitize_id base) by done. apply section_of_Sanitize; [done|].
  assert (Hox : o !! x = None).
  { destruct (o !! x) as [v|] eqn:Ho; [|done]. pose proof (Hk x (mk_is_Some _ _ Ho)) as Hf.
    by rewrite section_tags_fold, String.eqb_refl in Hf. }
  eapply decode_section; [done | done | | | exact Ht].
  - by rewrite lookup_mergeMaps, Hox.
  - intros k Hm Hf. rewrite lookup_mergeMaps in Hm. destruct (o !! k) as [v|] eqn:Ho.
    + by rewrite Hk in Hf.
    + apply settingsToMap_keys in Hm. by rewrite section_tags_fold, String.eqb_eq in Hf.
Qed.

(** Cleaning keeps what the overrides do. *)
Lemma ApplyPatch_CleanOverrides base o :
  sanitized base -> json_safe base -> fits_map (settingsToMap base) o ->
  ApplyPatch base (CleanOverrides base (Some o)) = ApplyPatch base o.
Proof.
  intros Hb Hj Hf. unfold CleanOverrides, ApplyPatch. rewrite !cloneMap_id, merge_diff by done.
  set (c := diffMaps _ _).
  assert (Hbase : Sanitize <$> mapToSettings (settingsToMap base) = Some base).
  { rewrite mapToSettings_settingsToMap by done. simpl. by rewrite Sanitize_id. }
  assert (Hc : size c = 0%nat -> mergeMaps (settingsToMap base) o = settingsToMap base).
  { intros Hz%map_size_empty_inv. pose proof (merge_diff _ _ Hf) as Hm. fold c in Hm.
    by rewrite Hz, mergeMaps_empty in Hm. }
  destruct (Nat.eqb_spec (size c) 0) as [Hz|Hz], (Nat.eqb_spec (size o) 0) as [Ho|Ho].
  - reflexivity.
  - rewrite Hc by exact Hz. symmetry. exact Hbase.
  - apply map_size_empty_inv in Ho as ->. rewrite mergeMaps_empty. exact Hbase.
  - reflexivity.
Qed.

Lemma CleanOverrides_idem base o :
  fits_map (settingsToMap base) o ->
  CleanOverrides base (Some (CleanOverrides base (Some o))) = CleanOverrides base (Some o).
Proof. intros Hf. unfold CleanOverrides. by rewrite !cloneMap_id, merge_diff. Qed.
End Inverse.

(** ** Stored overrides *)

Section Properties.
Context `{GoUnicode} `{GoFloatText}.

Lemma diff_val_leaf_new base v d : diff_val base v = Some d -> is_obj d = false -> d = v /\ base <> Some v.
Proof.
  destruct v as [| | | | |m].
  6: { rewrite diff_val_obj. destruct (Nat.eqb _ _); [done|]. by intros [= <-]. }
  all: cbn [diff_val]; destruct base as [bv|]; [destruct (valuesEqual bv _) eqn:He; [done|]|];
    intros [= <-] _; (split; [done|]); [|done]; intros [= ->]; by rewrite valuesEqual_refl in He.
Qed.

(** Settings survive the conversion to a map and back; the cleaned overrides that are
    stored have the same effect on the base as the ones that were sent, none of them
    repeats a value of the base, and cleaning them again changes nothing. *)
Theorem cleaning_preserves_settings base o :
  sanitized base -> json_safe base -> fits_map (settingsToMap base) o ->
  mapToSettings (settingsToMap base) = Some base /\
  ApplyPatch base (CleanOverrides base (Some o)) = ApplyPatch base o /\
  (forall sec m k v, CleanOverrides base (Some o) !! sec = Some (JObj m) -> m !! k = Some v ->
     is_obj v = false -> child (settingsToMap base !! sec) !! k <> Some v) /\
  CleanOverrides base (Some (CleanOverrides base (Some o))) = CleanOverrides base (Some o).
Proof.
  intros Hb Hj Hf. split; [by apply mapToSettings_settingsToMap|].
  split; [by apply ApplyPatch_CleanOverrides|]. split; [|by apply CleanOverrides_idem].
  intros sec m k v Hsec Hk Hv. unfold CleanOverrides in Hsec. rewrite cloneMap_id, lookup_diffMaps in Hsec.
  apply bind_Some in Hsec as (u & _ & Hd). destruct u as [| | | | |um].
  6: { rewrite diff_val_obj in Hd. destruct (Nat.eqb _ _); [done|]. injection Hd as <-.
       rewrite lookup_diffMaps in Hk. apply bind_Some in Hk as (u & _ & Hd).
       by destruct (diff_val_leaf_new _ _ _ Hd Hv) as [-> Hne]. }
  all: exfalso; cbn [diff_val] in Hd; destruct (settingsToMap base !! sec);
    [destruct (valuesEqual _ _)|]; discriminate.
Qed.
End Properties.

(** Another timeout, and the retries that are the default already. *)
Definition example_overrides : jobj :=
  {[ "snmp" := JObj {[ "timeout_ms" := JNum (Integral 100); "retries" := JNum (Integral 1);
                       "username" := JStr "op" ]} ]}.

Lemma cleaning_preserves_settings_witness :
  CleanOverrides DefaultSettings (Some example_overrides)
  = {[ "snmp" := JObj {[ "timeout_ms" := JNum (Integral 100); "username" := JStr "op" ]} ]} /\
  ApplyPatch DefaultSettings (CleanOverrides DefaultSettings (Some example_overrides))
  = ApplyPatch DefaultSettings example_overrides /\
  (TimeoutMS ∘ SNMP <$> ApplyPatch DefaultSettings example_overrides) = Some 500.
Proof.
  split; [vm_compute; reflexivity|]. split; [|vm_compute; reflexivity].
  apply (cleaning_preserves_settings DefaultSettings example_overrides).
  - apply DefaultSettings_sanitized.
  - constructor; vm_compute; split; discriminate.
  - intros k v Hk. unfold example_overrides in Hk.
    apply lookup_singleton_Some in Hk as [<- <-]. vm_compute. reflexivity.
Defined.
