(* ===== verification/SettingsResolver.v ===== *)
(** * The settings resolver ([server/settings/resolver.go], [types.go]) and the snapshot
    sent to agents ([agent_payload.go]).

    Settings come in layers: defaults or the global record, the overrides of a tenant,
    the overrides of an agent. The store is the interface [Store] of the source, a
    class here; one resolution reads one state of it. Nil and empty slices are not
    told apart. *)
From S2P Require Import Prelude GoStrings GoTime OverrideMap Settings SettingsCodec.
From Stdlib Require Import Ascii.

(** ** Data *)

(** [storage.SettingsRecord] and the two override records. *)
Record SettingsRecord := {
  Rec_SchemaVersion : string;
  Rec_Settings : Settings;
  Rec_ManagedSections : list string;
  Rec_UpdatedAt : Time;
  Rec_UpdatedBy : string;
}.

Record TenantSettingsRecord := {
  TRec_TenantID : string;
  TRec_SchemaVersion : string;
  TRec_Overrides : jobj;
  TRec_EnforcedSections : list string;
  TRec_UpdatedAt : Time;
  TRec_UpdatedBy : string;
}.

Record AgentSettingsRecord := {
  ARec_AgentID : string;
  ARec_SchemaVersion : string;
  ARec_Overrides : jobj;
  ARec_UpdatedAt : Time;
  ARec_UpdatedBy : string;
}.

(** The two fields of [storage.Agent] that settings use. *)
Record StoredAgent := { Agent_AgentID : string; Agent_TenantID : string }.

(** The interface [Store]: reads of a state that may fail, and writes that may fail. A
    missing record is [Ok None]; [GetTenant] is only used for its error. *)
Class Store (W : Type) := {
  GetGlobalSettings : W -> result string (option SettingsRecord);
  UpsertGlobalSettings : SettingsRecord -> W -> W * option string;
  GetTenantSettings : string -> W -> result string (option TenantSettingsRecord);
  UpsertTenantSettings : TenantSettingsRecord -> W -> W * option string;
  DeleteTenantSettings : string -> W -> W * option string;
  GetAgentSettings : string -> W -> result string (option AgentSettingsRecord);
  UpsertAgentSettings : AgentSettingsRecord -> W -> W * option string;
  DeleteAgentSettings : string -> W -> W * option string;
  GetAgent : string -> W -> result string (option StoredAgent);
  GetTenant : string -> W -> option string;
}.

Record Snapshot := {
  Snap_SchemaVersion : string;
  Snap_Settings : Settings;
  Snap_ManagedSections : list string;
  Snap_UpdatedAt : Time;
  Snap_UpdatedBy : string;
}.

Record TenantSnapshot := {
  TSnap_TenantID : string;
  TSnap_Snapshot : Snapshot;
  TSnap_Overrides : jobj;
  TSnap_OverridePaths : list string;
  TSnap_EnforcedSections : list string;
  TSnap_OverridesUpdatedAt : option Time;
  TSnap_OverridesUpdatedBy : string;
}.

Record AgentSettingsSnapshot := {
  ASnap_AgentID : string;
  ASnap_TenantID : string;
  ASnap_Snapshot : Snapshot;
  ASnap_Overrides : jobj;
  ASnap_OverridePaths : list string;
  ASnap_EnforcedSections : list string;
  ASnap_OverridesUpdatedAt : option Time;
  ASnap_OverridesUpdatedBy : string;
}.

Record AgentSnapshot := {
  Payload_Version : string;
  Payload_SchemaVersion : string;
  Payload_UpdatedAt : Time;
  Payload_Settings : Settings;
  Payload_ManagedSections : list string;
}.

(** The hexadecimal SHA-256 of the JSON text of the version material. *)
Class MaterialHash := { hash_material : string -> Time -> Settings -> list string -> string }.

(** A stand-in that separates schema versions only, to run the model. *)
#[export] Instance schema_hash : MaterialHash | 100 := { hash_material v _ _ _ := v }.

(** The error of the decoder has a text that nothing depends on. *)
Definition decode_error : string := "failed to decode settings".
Definition or_decode_error {A} (o : option A) : result string A :=
  match o with Some a => Ok a | None => Err decode_error end.

Definition blank (s : string) : bool := String.eqb (TrimSpace s) "".

(** ** Resolution *)

Section Resolver.
Context `{GoUnicode} `{GoFloatText} {W : Type} `{Store W}.
Open Scope go_scope.

Definition ResolveGlobal (w : W) : result string Snapshot :=
  rec <-? GetGlobalSettings w ;;
  match rec with
  | None =>
      Ok {| Snap_SchemaVersion := SchemaVersion; Snap_Settings := Sanitize DefaultSettings;
            Snap_ManagedSections := ["discovery"; "snmp"; "features"; "spooler"];
            Snap_UpdatedAt := zero_time; Snap_UpdatedBy := "" |}
  | Some rec =>
      Ok {| Snap_SchemaVersion :=
              if blank (Rec_SchemaVersion rec) then SchemaVersion else Rec_SchemaVersion rec;
            Snap_Settings := Sanitize (Rec_Settings rec);
            Snap_ManagedSections := Rec_ManagedSections rec;
            Snap_UpdatedAt := Rec_UpdatedAt rec; Snap_UpdatedBy := Rec_UpdatedBy rec |}
  end.

Definition ResolveForTenant (tenantID : string) (w : W) : result string TenantSnapshot :=
  if blank tenantID then Err "tenant id required"
  else
    globalSnap <-? ResolveGlobal w ;;
    rec <-? GetTenantSettings tenantID w ;;
    let plain enforced :=
      {| TSnap_TenantID := tenantID; TSnap_Snapshot := globalSnap; TSnap_Overrides := ∅;
         TSnap_OverridePaths := []; TSnap_EnforcedSections := enforced;
         TSnap_OverridesUpdatedAt := None; TSnap_OverridesUpdatedBy := "" |} in
    match rec with
    | None => Ok (plain (normalizeSectionList []))
    | Some rec =>
        let enforced := normalizeSectionList (TRec_EnforcedSections rec) in
        if Nat.eqb (size (TRec_Overrides rec)) 0 then Ok (plain enforced)
        else
          merged <-? or_decode_error (ApplyPatch (Snap_Settings globalSnap) (TRec_Overrides rec)) ;;
          Ok {| TSnap_TenantID := tenantID;
                TSnap_Snapshot :=
                  {| Snap_SchemaVersion := if blank (TRec_SchemaVersion rec)
                                           then Snap_SchemaVersion globalSnap else TRec_SchemaVersion rec;
                     Snap_Settings := merged;
                     Snap_ManagedSections := Snap_ManagedSections globalSnap;
                     Snap_UpdatedAt := if IsZero (TRec_UpdatedAt rec)
                                       then Snap_UpdatedAt globalSnap else TRec_UpdatedAt rec;
                     Snap_UpdatedBy := if blank (TRec_UpdatedBy rec)
                                       then Snap_UpdatedBy globalSnap else TRec_UpdatedBy rec |};
                TSnap_Overrides := cloneMap (TRec_Overrides rec);
                TSnap_OverridePaths := collectOverridePaths (TRec_Overrides rec);
                TSnap_EnforcedSections := enforced;
                TSnap_OverridesUpdatedAt :=
                  if IsZero (TRec_UpdatedAt rec) then None else Some (TRec_UpdatedAt rec);
                TSnap_OverridesUpdatedBy :=
                  if blank (TRec_UpdatedBy rec) then "" else TRec_UpdatedBy rec |}
    end.

(** The layer below an agent's overrides: the snapshot of its tenant, or the global one,
    and the sections its tenant enforces. *)
Definition agent_base (tenantID : string) (w : W) : result string (Snapshot * list string) :=
  if String.eqb tenantID "" then snap <-? ResolveGlobal w ;; Ok (snap, [])
  else snap <-? ResolveForTenant tenantID w ;;
       Ok (TSnap_Snapshot snap, normalizeSectionList (TSnap_EnforcedSections snap)).

(** The snapshot of the base with the metadata of the agent's record. *)
Definition agent_metadata (base : Snapshot) (merged : Settings) (rec : AgentSettingsRecord) : Snapshot :=
  let updatedAt :=
    if negb (IsZero (ARec_UpdatedAt rec))
       && (IsZero (Snap_UpdatedAt base) || After (ARec_UpdatedAt rec) (Snap_UpdatedAt base))
    then ARec_UpdatedAt rec else Snap_UpdatedAt base in
  {| Snap_SchemaVersion := if blank (ARec_SchemaVersion rec)
                           then Snap_SchemaVersion base else ARec_SchemaVersion rec;
     Snap_Settings := merged;
     Snap_ManagedSections := Snap_ManagedSections base;
     Snap_UpdatedAt := updatedAt;
     Snap_UpdatedBy :=
       if negb (blank (ARec_UpdatedBy rec))
          && (String.eqb (Snap_UpdatedBy base) "" || (updatedAt =? ARec_UpdatedAt rec)
              || After (ARec_UpdatedAt rec) (Snap_UpdatedAt base))
       then ARec_UpdatedBy rec else Snap_UpdatedBy base |}.

Definition ResolveForAgent (agentID : string) (w : W) : result string AgentSettingsSnapshot :=
  let agentID := TrimSpace agentID in
  if String.eqb agentID "" then Err "agent id required"
  else
    agent <-? GetAgent agentID w ;;
    match agent with
    | None => Err "agent not found"
    | Some agent =>
        let tenantID := TrimSpace (Agent_TenantID agent) in
        base <-? agent_base tenantID w ;;
        let '(baseSnap, enforced) := base in
        let plain :=
          {| ASnap_AgentID := agentID; ASnap_TenantID := tenantID; ASnap_Snapshot := baseSnap;
             ASnap_Overrides := ∅; ASnap_OverridePaths := []; ASnap_EnforcedSections := enforced;
             ASnap_OverridesUpdatedAt := None; ASnap_OverridesUpdatedBy := "" |} in
        rec <-? GetAgentSettings agentID w ;;
        match rec with
        | None => Ok plain
        | Some rec =>
            if Nat.eqb (size (ARec_Overrides rec)) 0 then Ok plain
            else
              let allowed := allowedAgentOverrideSections (Snap_ManagedSections baseSnap) enforced in
              let filtered := (filterOverrideSections (ARec_Overrides rec) allowed).1 in
              if Nat.eqb (size filtered) 0 then Ok plain
              else
                merged <-? or_decode_error (ApplyPatch (Snap_Settings baseSnap) filtered) ;;
                Ok {| ASnap_AgentID := agentID; ASnap_TenantID := tenantID;
                      ASnap_Snapshot := agent_metadata baseSnap merged rec;
                      ASnap_Overrides := cloneMap filtered;
                      ASnap_OverridePaths := collectOverridePaths filtered;
                      ASnap_EnforcedSections := enforced;
                      ASnap_OverridesUpdatedAt :=
                        if IsZero (ARec_UpdatedAt rec) then None else Some (ARec_UpdatedAt rec);
                      ASnap_OverridesUpdatedBy :=
                        if blank (ARec_UpdatedBy rec) then "" else ARec_UpdatedBy rec |}
        end
    end.

Section Payload.
Context `{MaterialHash}.

Definition ComputeSettingsVersionWithManagedSections (schemaVersion : string) (updatedAt : Time)
    (cfg : Settings) (managedSections : list string) : string :=
  hash_material schemaVersion updatedAt cfg managedSections.

Definition agentSnapshotFromSnapshot (snapshot : Snapshot) : AgentSnapshot :=
  let settingsCopy := StripAgentLocalFields (Sanitize (Snap_Settings snapshot)) in
  let schemaVersion := TrimSpace (Snap_SchemaVersion snapshot) in
  let schemaVersion := if String.eqb schemaVersion "" then SchemaVersion else schemaVersion in
  {| Payload_Version := ComputeSettingsVersionWithManagedSections schemaVersion
       (Snap_UpdatedAt snapshot) settingsCopy (Snap_ManagedSections snapshot);
     Payload_SchemaVersion := schemaVersion; Payload_UpdatedAt := Snap_UpdatedAt snapshot;
     Payload_Settings := settingsCopy; Payload_ManagedSections := Snap_ManagedSections snapshot |}.

(** The resolution path without a usable agent. *)
Definition resolve_tenant_or_global (tenantID : string) (w : W) : result string Snapshot :=
  if blank tenantID then ResolveGlobal w
  else snap <-? ResolveForTenant tenantID w ;; Ok (TSnap_Snapshot snap).

Definition BuildAgentSnapshot (tenantID agentID : string) (w : W) : result string AgentSnapshot :=
  let agentID := TrimSpace agentID in
  snapshot <-? (if negb (String.eqb agentID "")
                then match ResolveForAgent agentID w with
                     | Ok agentSnap => Ok (ASnap_Snapshot agentSnap)
                     | Err _ => resolve_tenant_or_global tenantID w
                     end
                else resolve_tenant_or_global tenantID w) ;;
  Ok (agentSnapshotFromSnapshot snapshot).
End Payload.
End Resolver.

(** ** Lemmas *)

Section Lemmas.
Context `{GoUnicode} `{GoFloatText} {W : Type} `{Store W}.

(** The Unicode tables fold no key beyond ASCII to one section and lower it to another. *)
Definition sections_fold_apart : Prop :=
  forall k x, is_ascii k = false -> x ∈ section_tags -> EqualFold k x = true ->
    section_key k ∈ valid_sections -> section_key k = x.

Lemma key_names_section k x :
  sections_fold_apart -> x ∈ section_tags -> EqualFold k x = true ->
  section_key k ∈ valid_sections -> section_key k = x.
Proof.
  intros Hlaw Hx Hf Hv. destruct (is_ascii k) eqn:Hk; [|by apply Hlaw].
  assert (Hlow : map_string lower_byte x = x /\ is_ascii x = true /\ TrimSpace x = x).
  { clear - Hx. revert x Hx. apply (section_tags_cases (fun x =>
      map_string lower_byte x = x /\ is_ascii x = true /\ TrimSpace x = x)); by vm_compute. }
  destruct Hlow as (Hlow & Hax & Htrim). apply EqualFold_ascii in Hf; [|done|done].
  unfold section_key, ToLower. by rewrite Hk, Hf, Hlow.
Qed.

Lemma ResolveGlobal_sanitized w snap : ResolveGlobal w = Ok snap -> sanitized (Snap_Settings snap).
Proof.
  unfold ResolveGlobal. intros ([rec|] & _ & [= <-])%rbind_Ok_inv; apply Sanitize_sanitized.
Qed.

Lemma or_decode_error_Ok {A} (o : option A) a : or_decode_error o = Ok a -> o = Some a.
Proof. destruct o; [by intros [= ->] | done]. Qed.

Lemma ResolveForTenant_sanitized tenantID w snap :
  ResolveForTenant tenantID w = Ok snap -> sanitized (Snap_Settings (TSnap_Snapshot snap)).
Proof.
  unfold ResolveForTenant. destruct (blank tenantID); [done|].
  intros (g & Hg%ResolveGlobal_sanitized & (rec & _ & Ht)%rbind_Ok_inv)%rbind_Ok_inv.
  destruct rec as [rec|]; [|by injection Ht as <-].
  destruct (Nat.eqb _ _); [by injection Ht as <-|].
  apply rbind_Ok_inv in Ht as (m & Hm%or_decode_error_Ok & [= <-]). simpl.
  by eapply ApplyPatch_sanitized.
Qed.

Lemma agent_base_sanitized tenantID w base enforced :
  agent_base tenantID w = Ok (base, enforced) -> sanitized (Snap_Settings base).
Proof.
  unfold agent_base. destruct (String.eqb tenantID "").
  - intros (s & Hs & [= <- _])%rbind_Ok_inv. by eapply ResolveGlobal_sanitized.
  - intros (s & Hs & [= <- _])%rbind_Ok_inv. by eapply ResolveForTenant_sanitized.
Qed.

(** An agent's snapshot is its base, or its base with the permitted overrides applied. *)
Lemma ResolveForAgent_settings agentID w agent base enforced snap :
  GetAgent (TrimSpace agentID) w = Ok (Some agent) ->
  agent_base (TrimSpace (Agent_TenantID agent)) w = Ok (base, enforced) ->
  ResolveForAgent agentID w = Ok snap ->
  Snap_Settings (ASnap_Snapshot snap) = Snap_Settings base \/
  exists rec, GetAgentSettings (TrimSpace agentID) w = Ok (Some rec) /\
    ApplyPatch (Snap_Settings base)
      (filterOverrideSections (ARec_Overrides rec)
        (allowedAgentOverrideSections (Snap_ManagedSections base) enforced)).1
    = Some (Snap_Settings (ASnap_Snapshot snap)).
Proof.
  intros Ha Hb. unfold ResolveForAgent. destruct (String.eqb _ ""); [done|].
  rewrite Ha. cbn [rbind]. rewrite Hb. cbn [rbind]. intros (rec & Hrec & Hs)%rbind_Ok_inv.
  destruct rec as [rec|]; [|left; by injection Hs as <-].
  destruct (Nat.eqb _ _); [left; by injection Hs as <-|].
  destruct (Nat.eqb _ _); [left; by injection Hs as <-|].
  apply rbind_Ok_inv in Hs as (m & Hm%or_decode_error_Ok & [= <-]). right. eauto.
Qed.

(** The same by the record that was read: no record is no override. *)
Lemma ResolveForAgent_patch agentID w agent base enforced rec snap :
  GetAgent (TrimSpace agentID) w = Ok (Some agent) ->
  agent_base (TrimSpace (Agent_TenantID agent)) w = Ok (base, enforced) ->
  GetAgentSettings (TrimSpace agentID) w = Ok rec ->
  ResolveForAgent agentID w = Ok snap ->
  ApplyPatch (Snap_Settings base)
    (filterOverrideSections (default ∅ (ARec_Overrides <$> rec))
      (allowedAgentOverrideSections (Snap_ManagedSections base) enforced)).1
  = Some (Snap_Settings (ASnap_Snapshot snap)).
Proof.
  intros Ha Hb Hr. unfold ResolveForAgent. destruct (String.eqb _ ""); [done|].
  rewrite Ha. cbn [rbind]. rewrite Hb. cbn [rbind]. rewrite Hr. cbn [rbind].
  assert (Hnone : forall o, size o = 0%nat -> ApplyPatch (Snap_Settings base) o = Some (Snap_Settings base))
    by (intros o Ho; unfold ApplyPatch; by rewrite Ho).
  destruct rec as [rec|].
  - change (default ∅ (ARec_Overrides <$> Some rec)) with (ARec_Overrides rec).
    set (filtered := (filterOverrideSections _ _).1).
    destruct (Nat.eqb_spec (size (ARec_Overrides rec)) 0) as [Hz%map_size_empty_inv|_].
    { intros [= <-]. apply Hnone. unfold filtered. rewrite Hz. simpl.
      by rewrite map_filter_empty, map_size_empty. }
    destruct (Nat.eqb_spec (size filtered) 0) as [Hz|_]; [intros [= <-]; by apply Hnone|].
    by intros (m & Hm%or_decode_error_Ok & [= <-])%rbind_Ok_inv.
  - intros [= <-]. apply Hnone. simpl. by rewrite map_filter_empty, map_size_empty.
Qed.

Lemma ResolveForAgent_base agentID w snap :
  ResolveForAgent agentID w = Ok snap ->
  exists agent base enforced, GetAgent (TrimSpace agentID) w = Ok (Some agent) /\
    agent_base (TrimSpace (Agent_TenantID agent)) w = Ok (base, enforced).
Proof.
  unfold ResolveForAgent. destruct (String.eqb _ ""); [done|].
  intros ([agent|] & Ha & Hs)%rbind_Ok_inv; [|done].
  apply rbind_Ok_inv in Hs as ([base enforced] & Hb & _). eauto.
Qed.

Lemma ResolveForAgent_sanitized agentID w snap :
  ResolveForAgent agentID w = Ok snap -> sanitized (Snap_Settings (ASnap_Snapshot snap)).
Proof.
  intros Hs. destruct (ResolveForAgent_base _ _ _ Hs) as (agent & base & enforced & Ha & Hb).
  pose proof (agent_base_sanitized _ _ _ _ Hb) as Hsan.
  destruct (ResolveForAgent_settings _ _ _ _ _ _ Ha Hb Hs) as [->|(rec & _ & Hp)]; [done|].
  by eapply ApplyPatch_sanitized.
Qed.
End Lemmas.

(** ** What agents get *)

Section Properties.
Context `{GoUnicode} `{GoFloatText} {W : Type} `{Store W}.

(** C5: an agent's overrides change only sections that are managed by the server and not
    enforced by its tenant. Every other section has the value of the layer below, in
    particular logging and web, however the overrides spell their keys. *)
Theorem agent_overrides_confined agentID w agent base enforced snap x :
  sections_fold_apart ->
  GetAgent (TrimSpace agentID) w = Ok (Some agent) ->
  agent_base (TrimSpace (Agent_TenantID agent)) w = Ok (base, enforced) ->
  json_safe (Snap_Settings base) ->
  ResolveForAgent agentID w = Ok snap ->
  x ∈ section_tags ->
  x ∉ valid_sections \/ (forall m, m ∈ Snap_ManagedSections base -> section_key m <> x)
    \/ (exists e, e ∈ enforced /\ section_key e = x) ->
  section_of x (Snap_Settings (ASnap_Snapshot snap)) = section_of x (Snap_Settings base).
Proof.
  intros Hlaw Ha Hb Hj Hs Hx Hout.
  destruct (ResolveForAgent_settings _ _ _ _ _ _ Ha Hb Hs) as [->|(rec & _ & Hp)]; [done|].
  eapply ApplyPatch_untouched; [by eapply agent_base_sanitized | done | done | | exact Hp].
  intros k [v [_ Hk]%filterOverrideSections_lookup]. apply allowed_elem in Hk as (Hv & (m & Hm & Hmk) & Hne).
  destruct (EqualFold k x) eqn:Hf; [|done]. exfalso.
  pose proof (key_names_section k x Hlaw Hx Hf Hv) as Hkx. rewrite Hkx in *.
  destruct Hout as [Hout|[Hout|Hout]]; [done | by apply (Hout m) | done].
Qed.

(** Whatever the store holds and whichever reads fail, a snapshot sent to an agent has
    every number in its range and both ports set, leaves logging and web at their
    defaults, and names a schema version; and an agent whose own layer does not resolve
    still gets one when its tenant's or the global layer does. *)
Theorem agent_payload_safe `{MaterialHash} tenantID agentID w :
  match BuildAgentSnapshot tenantID agentID w with
  | Ok p =>
      sanitized (Payload_Settings p) /\
      Logging (Payload_Settings p) = Logging DefaultSettings /\
      Web (Payload_Settings p) = Web DefaultSettings /\
      Payload_SchemaVersion p <> ""
  | Err e => resolve_tenant_or_global tenantID w = Err e
  end.
Proof.
  unfold BuildAgentSnapshot.
  assert (Hok : forall snap,
    sanitized (Payload_Settings (agentSnapshotFromSnapshot snap)) /\
    Logging (Payload_Settings (agentSnapshotFromSnapshot snap)) = Logging DefaultSettings /\
    Web (Payload_Settings (agentSnapshotFromSnapshot snap)) = Web DefaultSettings /\
    Payload_SchemaVersion (agentSnapshotFromSnapshot snap) <> "").
  { intros snap. simpl. split; [apply Strip_sanitized, Sanitize_sanitized|]. split; [done|].
    split; [done|]. by destruct (String.eqb_spec (TrimSpace (Snap_SchemaVersion snap)) ""). }
  destruct (negb _); [destruct (ResolveForAgent _ w); [by apply Hok|]|];
    (destruct (resolve_tenant_or_global tenantID w); [by apply Hok | done]).
Qed.
End Properties.

(** ** Witnesses *)

(** A store with one global record, tenants and agents: the state is the store. *)
Record memory := {
  mem_global : option SettingsRecord;
  mem_tenants : gmap string TenantSettingsRecord;
  mem_overrides : gmap string AgentSettingsRecord;
  mem_agents : gmap string StoredAgent;
}.

#[export] Instance memory_store : Store memory := {
  GetGlobalSettings m := Ok (mem_global m);
  UpsertGlobalSettings r m :=
    ({| mem_global := Some r; mem_tenants := mem_tenants m; mem_overrides := mem_overrides m;
        mem_agents := mem_agents m |}, None);
  GetTenantSettings i m := Ok (mem_tenants m !! i);
  UpsertTenantSettings r m :=
    ({| mem_global := mem_global m; mem_tenants := <[TRec_TenantID r := r]> (mem_tenants m);
        mem_overrides := mem_overrides m; mem_agents := mem_agents m |}, None);
  DeleteTenantSettings i m :=
    ({| mem_global := mem_global m; mem_tenants := delete i (mem_tenants m);
        mem_overrides := mem_overrides m; mem_agents := mem_agents m |}, None);
  GetAgentSettings i m := Ok (mem_overrides m !! i);
  UpsertAgentSettings r m :=
    ({| mem_global := mem_global m; mem_tenants := mem_tenants m;
        mem_overrides := <[ARec_AgentID r := r]> (mem_overrides m); mem_agents := mem_agents m |}, None);
  DeleteAgentSettings i m :=
    ({| mem_global := mem_global m; mem_tenants := mem_tenants m;
        mem_overrides := delete i (mem_overrides m); mem_agents := mem_agents m |}, None);
  GetAgent i m := Ok (mem_agents m !! i);
  GetTenant _ _ := None;
}.

(** Agent a1 of tenant t1, which enforces the SNMP section; the agent's overrides ask
    for another community, in three spellings, and for other discovery settings. *)
Definition community (k : string) : string * jval :=
  (k, JObj {[ "community" := JStr "private"; "username" := JStr "eve" ]}).

Definition example_memory : memory :=
  {| mem_global := None;
     mem_tenants := {[ "t1" := {| TRec_TenantID := "t1"; TRec_SchemaVersion := "v2"; TRec_Overrides := ∅;
       TRec_EnforcedSections := [" SNMP"]; TRec_UpdatedAt := 5; TRec_UpdatedBy := "root" |} ]};
     mem_overrides := {[ "a1" := {| ARec_AgentID := "a1"; ARec_SchemaVersion := "v2";
       ARec_Overrides := list_to_map [community "snmp"; community "SNMP"; community "snmp ";
         ("discovery", JObj {[ "concurrency" := JNum (Integral 7); "arp_enabled" := JBool false ]})];
       ARec_UpdatedAt := 9; ARec_UpdatedBy := "eve" |} ]};
     mem_agents := {[ "a1" := {| Agent_AgentID := "a1"; Agent_TenantID := "t1" |} ]} |}.

Lemma ascii_only_fold k x : @EqualFold ascii_only k x = true -> is_ascii x = true -> is_ascii k = true.
Proof.
  revert x. induction k as [|a k IH]; intros [|b x]; cbn [EqualFold]; try done.
  destruct ((128 <=? byte_of a) || (128 <=? byte_of b)) eqn:Hab.
  - intros Heq Hx. cbn in Heq. by apply (String.eqb_eq (String a k) (String b x)) in Heq as ->.
  - apply orb_false_iff in Hab as [Ha _]. apply Z.leb_gt in Ha.
    destruct (Ascii.eqb _ _); [|done]. intros Hf. cbn [is_ascii]. intros [_ Hx]%andb_true_iff.
    apply andb_true_iff. split; [by apply Z.ltb_lt | by apply (IH x)].
Qed.

Lemma ascii_sections_fold_apart : @sections_fold_apart ascii_only.
Proof.
  intros k x Hk Hx Hf. exfalso. enough (is_ascii k = true) by congruence.
  apply (ascii_only_fold k x Hf). revert x Hx Hf.
  intros x Hx _. revert x Hx. by apply (section_tags_cases (fun x => is_ascii x = true)).
Qed.

Definition example_base : Snapshot :=
  {| Snap_SchemaVersion := "v2"; Snap_Settings := DefaultSettings;
     Snap_ManagedSections := ["discovery"; "snmp"; "features"; "spooler"];
     Snap_UpdatedAt := 0; Snap_UpdatedBy := "" |}.

(** The concurrency is the agent's, the community is not. *)
Lemma agent_overrides_confined_witness :
  match ResolveForAgent " a1" example_memory with
  | Ok snap =>
      section_of "snmp" (Snap_Settings (ASnap_Snapshot snap)) = Some (SSNMP (SNMP DefaultSettings)) /\
      Concurrency (Discovery (Snap_Settings (ASnap_Snapshot snap))) = 7
  | Err _ => False
  end.
Proof.
  assert (Hc : match ResolveForAgent " a1" example_memory with
    | Ok snap => Concurrency (Discovery (Snap_Settings (ASnap_Snapshot snap))) = 7
    | Err _ => False end) by (vm_compute; reflexivity).
  destruct (ResolveForAgent " a1" example_memory) as [snap|e] eqn:Hr; [|exact Hc].
  split; [|exact Hc].
  refine (agent_overrides_confined " a1" example_memory
    {| Agent_AgentID := "a1"; Agent_TenantID := "t1" |} example_base ["snmp"] snap "snmp"
    ascii_sections_fold_apart _ _ _ Hr _ _).
  - vm_compute; reflexivity.
  - vm_compute; reflexivity.
  - constructor; vm_compute; split; discriminate.
  - apply (bool_decide_unpack _). vm_compute. exact I.
  - right. right. exists "snmp". split; [apply list_elem_of_singleton; reflexivity | reflexivity].
Defined.

(** The filter accepts a section in any spelling, but the decoder meets the base's own
    key after an upper-case one: such an override is stored and reported as permitted,
    and every value the base has overwrites it. *)
Lemma case_variant_ignored :
  let o := {[ "SNMP" := JObj {[ "community" := JStr "private" ]} ]} in
  (filterOverrideSections o (allowedAgentOverrideSections ["snmp"] [])).2 = [] /\
  ApplyPatch DefaultSettings o = Some DefaultSettings.
Proof. split; vm_compute; reflexivity. Qed.

(** [Merge] drops the spooler section of the override. *)
Lemma Merge_drops_spooler base override : Spooler (Merge base override) = Spooler base.
Proof. reflexivity. Qed.
