(* ===== verification/SettingsApi.v ===== *)
(** * The HTTP handlers of the settings API ([server/settings/api.go]).

    A handler is a computation that calls the authorizer, the store, the resolver and
    the audit log; its argument is the decoded request and its value the response. The
    calls are arbitrary functions of the environment, so that other requests may run
    between any two of them. *)
From stdpp Require Import sorting.
From S2P Require Import Prelude GoStrings GoTime Effects Authz OverrideMap Settings SettingsCodec SettingsResolver.
From Stdlib Require Import Ascii.

(** ** Requests, responses, calls *)

(** [errors.Is(err, sql.ErrNoRows)] tells the first from the others. *)
Inductive store_error := NoRows | StoreErr (detail : string).
Definition store_result (A : Type) : Type := result store_error A.

Definition detail (e : store_error) : string :=
  match e with NoRows => "sql: no rows in result set" | StoreErr d => d end.

Inductive response :=
| ErrorReply (status : Z) (message : string)
| StoreFailure (detail : string)
| BlockedReply (sections : list string)
| LockedReply (keys : list string)
| InvalidReply (issues : list ValidationError)
| GlobalReply (snap : Snapshot)
| TenantReply (snap : TenantSnapshot)
| AgentReply (snap : AgentSettingsSnapshot)
| Panics.

Record AuditEntry := {
  Audit_Action : string;
  Audit_TargetID : string;
  Audit_TenantID : string;
  Audit_Details : string;
  Audit_Keys : list string;
}.

(** The calls of a handler, with their answers. *)
Inductive api_call :=
| Authorized (action : string) (tenants : list string) (allowed : bool)
| GotTenant (id : string) (err : option store_error)
| GotAgent (id : string) (r : store_result (option StoredAgent))
| ResolvedGlobal (r : store_result Snapshot)
| ResolvedTenant (id : string) (r : store_result TenantSnapshot)
| ResolvedAgent (id : string) (r : store_result AgentSettingsSnapshot)
| ReadTenant (id : string) (r : store_result (option TenantSettingsRecord))
| ReadAgent (id : string) (r : store_result (option AgentSettingsRecord))
| WroteGlobal (rec : SettingsRecord) (err : option store_error)
| WroteTenant (rec : TenantSettingsRecord) (err : option store_error)
| ClearedTenant (id : string) (err : option store_error)
| WroteAgent (rec : AgentSettingsRecord) (err : option store_error)
| ClearedAgent (id : string) (err : option store_error)
| Audited (entry : AuditEntry).

(** What the API object is built from. [env_authorize] is [None] when no authorizer is
    configured; otherwise its answer is the status of the refusal, if any. *)
Record ApiEnv (W : Type) := {
  env_authorize : option (string -> list string -> W -> option Z * W);
  env_locked : option (gset string);
  env_getTenant : string -> W -> option store_error * W;
  env_getAgent : string -> W -> store_result (option StoredAgent) * W;
  env_resolveGlobal : W -> store_result Snapshot * W;
  env_resolveTenant : string -> W -> store_result TenantSnapshot * W;
  env_resolveAgent : string -> W -> store_result AgentSettingsSnapshot * W;
  env_getTenantSettings : string -> W -> store_result (option TenantSettingsRecord) * W;
  env_getAgentSettings : string -> W -> store_result (option AgentSettingsRecord) * W;
  env_upsertGlobal : SettingsRecord -> W -> option store_error * W;
  env_upsertTenant : TenantSettingsRecord -> W -> option store_error * W;
  env_deleteTenant : string -> W -> option store_error * W;
  env_upsertAgent : AgentSettingsRecord -> W -> option store_error * W;
  env_deleteAgent : string -> W -> option store_error * W;
  env_audit : AuditEntry -> W -> W;
}.
Arguments env_authorize {W}.
Arguments env_locked {W}.
Arguments env_getTenant {W}.
Arguments env_getAgent {W}.
Arguments env_resolveGlobal {W}.
Arguments env_resolveTenant {W}.
Arguments env_resolveAgent {W}.
Arguments env_getTenantSettings {W}.
Arguments env_getAgentSettings {W}.
Arguments env_upsertGlobal {W}.
Arguments env_upsertTenant {W}.
Arguments env_deleteTenant {W}.
Arguments env_upsertAgent {W}.
Arguments env_deleteAgent {W}.
Arguments env_audit {W}.

Inductive method := GET | PUT | DELETE | OtherMethod.

(** ** Helpers *)

(** Unlike [collectOverridePaths] the walk starts with the map itself. *)
Fixpoint walk_keys (prefix : string) (v : jval) : list string :=
  match v with
  | JObj m => map_fold (fun k c acc => acc ++ walk_keys (next_path prefix k) c) [] m
  | _ => [prefix]
  end.
Definition collectOverrideKeys (m : jobj) : list string := sort_strings (walk_keys "" (JObj m)).

Fixpoint string_items (seen : gset string) (l : list jval) : list string :=
  match l with
  | [] => []
  | JStr s :: rest =>
      let s := TrimSpace s in
      if String.eqb s "" || bool_decide (s ∈ seen) then string_items seen rest
      else s :: string_items ({[s]} ∪ seen) rest
  | _ :: rest => string_items seen rest
  end.
Definition parseStringSlice (raw : jval) : list string :=
  match raw with JArr l => sort_strings (string_items ∅ l) | _ => [] end.

Section Helpers.
Context `{GoUnicode}.

Fixpoint managed_go (seen : gset string) (sections : list string) : list string :=
  match sections with
  | [] => []
  | s :: rest =>
      let s := TrimSpace (ToLower s) in
      if mem_str s valid_sections && negb (bool_decide (s ∈ seen))
      then s :: managed_go ({[s]} ∪ seen) rest else managed_go seen rest
  end.
Definition normalizeManagedSections (sections : list string) : list string :=
  if Nat.eqb (length sections) 0 then [] else sort_strings (managed_go ∅ sections).
End Helpers.

(** The keys of the payload that are locked; the checker may be absent. *)
Definition checkLockedKeys (locked : option (gset string)) (payload : jobj) : list string :=
  match locked with
  | None => []
  | Some l => if Nat.eqb (size l) 0 then [] else filter (fun k => k ∈ l) (fst <$> map_to_list payload)
  end.

(** The overrides and the enforced sections, if given, of the body of a tenant request;
    older clients send the overrides themselves. *)
Definition tenant_patch (body : jobj) : option (jobj * option (list string)) :=
  match body !! "overrides" with
  | Some (JObj m) => Some (m, parseStringSlice <$> body !! "enforced_sections")
  | Some _ => None
  | None =>
      match body !! "enforced_sections" with
      | Some es => Some (∅, Some (parseStringSlice es))
      | None => Some (body, None)
      end
  end.

Definition agent_patch (body : jobj) : option jobj :=
  match body !! "overrides" with Some (JObj m) => Some m | Some _ => None | None => Some body end.

(** ** Handlers *)

Section Handlers.
Context `{GoUnicode} `{GoFloatText} {W : Type} (env : ApiEnv W).
Notation M := (M api_call W).

Definition authorize (action : string) (tenants : list string) : M (option response) :=
  match env_authorize env with
  | None => mret (Some (ErrorReply 500 "authorization not configured"))
  | Some auth =>
      r ← call (fun r => Authorized action tenants (bool_decide (r = None))) (auth action tenants);
      mret (match r with
            | None => None
            | Some status => Some (ErrorReply status (if status =? 401 then "Unauthorized" else "Forbidden"))
            end)
  end.

Definition audit (entry : AuditEntry) : M unit :=
  call (fun _ : unit => Audited entry) (fun w => (tt, env_audit env entry w)).

Definition actorLabel (name : string) : string :=
  if blank name then "system" else TrimSpace name.

(** [writeStoreError], and the value of a call that may fail. *)
Definition store_failure (e : store_error) : response := StoreFailure (detail e).

(** The reply of a lookup that failed: not found, or a failure of the store. *)
Definition missing (what : string) (e : store_error) : response :=
  match e with NoRows => ErrorReply 404 (what +:+ " not found")%string | _ => store_failure e end.

Definition handleGlobalGet : M response :=
  denied ← authorize ActionSettingsFleetRead [];
  match denied with
  | Some r => mret r
  | None =>
      r ← call ResolvedGlobal (env_resolveGlobal env);
      mret (match r with Err e => store_failure e | Ok snap => GlobalReply snap end)
  end.

(** [body] is the decoded wrapper: the settings and the managed sections, if given. *)
Definition handleGlobalPut (actor : string) (body : option (Settings * option (list string))) : M response :=
  denied ← authorize ActionSettingsFleetWrite [];
  match denied, body with
  | Some r, _ => mret r
  | None, None => mret (ErrorReply 400 "invalid json")
  | None, Some (payload, sections) =>
      let locked := checkLockedKeys (env_locked env) (settingsToMap payload) in
      if negb (Nat.eqb (length locked) 0) then mret (LockedReply locked)
      else
        let issues := Validate payload in
        if negb (Nat.eqb (length issues) 0) then mret (InvalidReply issues)
        else
          let actor := actorLabel actor in
          let rec := {| Rec_SchemaVersion := SchemaVersion; Rec_Settings := Sanitize payload;
                        Rec_ManagedSections := normalizeManagedSections (default [] sections);
                        Rec_UpdatedAt := zero_time; Rec_UpdatedBy := actor |} in
          e ← call (WroteGlobal rec) (env_upsertGlobal env rec);
          match e with
          | Some e => mret (store_failure e)
          | None =>
              r ← call ResolvedGlobal (env_resolveGlobal env);
              match r with
              | Err e => mret (store_failure e)
              | Ok snap =>
                  _ ← audit {| Audit_Action := "settings.global.update"; Audit_TargetID := "global";
                               Audit_TenantID := "";
                               Audit_Details := "Global settings updated by " +:+ actor;
                               Audit_Keys := [] |};
                  mret (GlobalReply snap)
              end
          end
  end.

Definition ensureTenantExists (tenantID : string) : M (option store_error) :=
  call (GotTenant tenantID) (env_getTenant env tenantID).

Definition tenant_reply (tenantID : string) : M response :=
  r ← call (ResolvedTenant tenantID) (env_resolveTenant env tenantID);
  mret (match r with Err e => store_failure e | Ok snap => TenantReply snap end).

Definition writeTenantSnapshot (tenantID : string) : M response :=
  e ← ensureTenantExists tenantID;
  match e with Some e => mret (missing "tenant" e) | None => tenant_reply tenantID end.

Definition cleared_entry (action kind target tenantID : string) : AuditEntry :=
  {| Audit_Action := action; Audit_TargetID := target; Audit_TenantID := tenantID;
     Audit_Details := "Cleared overrides for " +:+ kind +:+ " " +:+ target; Audit_Keys := [] |}.

Definition updated_entry (action kind target tenantID : string) (keys : list string) : AuditEntry :=
  {| Audit_Action := action; Audit_TargetID := target; Audit_TenantID := tenantID;
     Audit_Details := "Updated " +:+ pretty (Z.of_nat (length keys)) +:+ " override(s) for "
                      +:+ kind +:+ " " +:+ target;
     Audit_Keys := keys |}.

(** The end of [saveTenantOverrides]: the record is removed or replaced. *)
Definition store_tenant (actor tenantID : string) (cleaned : jobj) (enforced : list string) : M response :=
  if Nat.eqb (size cleaned) 0 && Nat.eqb (length enforced) 0 then
    e ← call (ClearedTenant tenantID) (env_deleteTenant env tenantID);
    match e with
    | Some e => mret (store_failure e)
    | None =>
        _ ← audit (cleared_entry "settings.tenant.reset" "tenant" tenantID tenantID);
        tenant_reply tenantID
    end
  else
    let rec := {| TRec_TenantID := tenantID; TRec_SchemaVersion := SchemaVersion;
                  TRec_Overrides := cleaned; TRec_EnforcedSections := enforced;
                  TRec_UpdatedAt := zero_time; TRec_UpdatedBy := actorLabel actor |} in
    e ← call (WroteTenant rec) (env_upsertTenant env rec);
    match e with
    | Some e => mret (store_failure e)
    | None =>
        _ ← audit (updated_entry "settings.tenant.update" "tenant" tenantID tenantID
                     (collectOverrideKeys cleaned));
        tenant_reply tenantID
    end.

Definition saveTenantOverrides (actor tenantID : string) (body : option jobj) : M response :=
  e ← ensureTenantExists tenantID;
  match e with
  | Some e => mret (missing "tenant" e)
  | None =>
  match body with
  | None => mret (ErrorReply 400 "invalid json")
  | Some body =>
  if Nat.eqb (size body) 0 then mret (ErrorReply 400 "payload required")
  else match tenant_patch body with
  | None => mret (ErrorReply 400 "invalid overrides")
  | Some (patch, enforced) =>
      g ← call ResolvedGlobal (env_resolveGlobal env);
      match g with
      | Err e => mret (store_failure e)
      | Ok globalSnap =>
          rec ← call (ReadTenant tenantID) (env_getTenantSettings env tenantID);
          match rec with
          | Err e => mret (store_failure e)
          | Ok existing =>
              let enforced := match enforced with
                              | Some l => l
                              | None => default [] (TRec_EnforcedSections <$> existing)
                              end in
              let merged := MergeOverrideMaps (TRec_Overrides <$> existing) patch in
              let cleaned := CleanOverrides (Snap_Settings globalSnap) (Some merged) in
              match ApplyPatch (Snap_Settings globalSnap) cleaned with
              | None => mret (StoreFailure decode_error)
              | Some effective =>
                  let issues := Validate effective in
                  if negb (Nat.eqb (length issues) 0) then mret (InvalidReply issues)
                  else store_tenant actor tenantID cleaned (normalizeSectionList enforced)
              end
          end
      end
  end end end.

Definition handleTenantSettings (m : method) (actor tenantID : string) (body : option jobj) : M response :=
  let tenantID := TrimSpace tenantID in
  if String.eqb tenantID "" then mret (ErrorReply 400 "tenant id required")
  else match m with
  | GET =>
      denied ← authorize ActionSettingsFleetRead [tenantID];
      match denied with Some r => mret r | None => writeTenantSnapshot tenantID end
  | PUT =>
      denied ← authorize ActionSettingsFleetWrite [tenantID];
      match denied with Some r => mret r | None => saveTenantOverrides actor tenantID body end
  | DELETE =>
      denied ← authorize ActionSettingsFleetWrite [tenantID];
      match denied with
      | Some r => mret r
      | None =>
          e ← call (ClearedTenant tenantID) (env_deleteTenant env tenantID);
          match e with
          | Some e => mret (store_failure e)
          | None =>
              _ ← audit (cleared_entry "settings.tenant.reset" "tenant" tenantID tenantID);
              writeTenantSnapshot tenantID
          end
      end
  | OtherMethod => mret (ErrorReply 405 "method not allowed")
  end.

Definition agent_reply (agentID : string) : M response :=
  r ← call (ResolvedAgent agentID) (env_resolveAgent env agentID);
  mret (match r with Err e => store_failure e | Ok snap => AgentReply snap end).

(** The base layer of an agent, read from the resolver. *)
Definition base_layer (tenantID : string) : M (store_result (Snapshot * list string)) :=
  if blank tenantID then
    g ← call ResolvedGlobal (env_resolveGlobal env);
    mret (match g with Err e => Err e | Ok snap => Ok (snap, []) end)
  else
    t ← call (ResolvedTenant tenantID) (env_resolveTenant env tenantID);
    mret (match t with Err e => Err e | Ok snap => Ok (TSnap_Snapshot snap, TSnap_EnforcedSections snap) end).

Definition store_agent (actor agentID tenantID : string) (cleaned : jobj) : M response :=
  if Nat.eqb (size cleaned) 0 then
    e ← call (ClearedAgent agentID) (env_deleteAgent env agentID);
    match e with
    | Some e => mret (store_failure e)
    | None =>
        _ ← audit (cleared_entry "settings.agent.reset" "agent" agentID tenantID);
        agent_reply agentID
    end
  else
    let rec := {| ARec_AgentID := agentID; ARec_SchemaVersion := SchemaVersion;
                  ARec_Overrides := cleaned; ARec_UpdatedAt := zero_time;
                  ARec_UpdatedBy := actorLabel actor |} in
    e ← call (WroteAgent rec) (env_upsertAgent env rec);
    match e with
    | Some e => mret (store_failure e)
    | None =>
        _ ← audit (updated_entry "settings.agent.update" "agent" agentID tenantID
                     (collectOverrideKeys cleaned));
        agent_reply agentID
    end.

(** From the permitted patch on: it is merged into what is stored, filtered again,
    cleaned and validated against the base. *)
Definition merge_agent (actor agentID tenantID : string) (baseSnap : Snapshot) (allowed : gset string)
    (filtered : jobj) : M response :=
  rec ← call (ReadAgent agentID) (env_getAgentSettings env agentID);
  match rec with
  | Err e => mret (store_failure e)
  | Ok existing =>
      let merged := MergeOverrideMaps (ARec_Overrides <$> existing) filtered in
      let merged := (filterOverrideSections merged allowed).1 in
      let cleaned := CleanOverrides (Snap_Settings baseSnap) (Some merged) in
      match ApplyPatch (Snap_Settings baseSnap) cleaned with
      | None => mret (StoreFailure decode_error)
      | Some effective =>
          let issues := Validate effective in
          if negb (Nat.eqb (length issues) 0) then mret (InvalidReply issues)
          else store_agent actor agentID tenantID cleaned
      end
  end.

Definition saveAgentOverrides (actor : string) (agent : StoredAgent) (body : option jobj) : M response :=
  let agentID := TrimSpace (Agent_AgentID agent) in
  if String.eqb agentID "" then mret (ErrorReply 400 "agent id required")
  else match body with
  | None => mret (ErrorReply 400 "invalid json")
  | Some body =>
  if Nat.eqb (size body) 0 then mret (ErrorReply 400 "payload required")
  else match agent_patch body with
  | None => mret (ErrorReply 400 "invalid overrides")
  | Some patch =>
  if Nat.eqb (size patch) 0 then mret (ErrorReply 400 "payload required")
  else
    base ← base_layer (Agent_TenantID agent);
    match base with
    | Err e => mret (store_failure e)
    | Ok (baseSnap, enforced) =>
        let allowed := allowedAgentOverrideSections (Snap_ManagedSections baseSnap) enforced in
        let '(filtered, blocked) := filterOverrideSections patch allowed in
        if negb (Nat.eqb (length blocked) 0) then mret (BlockedReply blocked)
        else merge_agent actor agentID (Agent_TenantID agent) baseSnap allowed filtered
    end
  end end.

Definition handleAgentSettings (m : method) (actor agentID : string) (body : option jobj) : M response :=
  let agentID := TrimSpace agentID in
  if String.eqb agentID "" then mret (ErrorReply 400 "agent id required")
  else
    a ← call (GotAgent agentID) (env_getAgent env agentID);
    match a with
    | Err e => mret (missing "agent" e)
    | Ok None => mret Panics
    | Ok (Some agent) =>
        let tenants := if blank (Agent_TenantID agent) then [] else [Agent_TenantID agent] in
        match m with
        | GET =>
            denied ← authorize ActionSettingsFleetRead tenants;
            match denied with Some r => mret r | None => agent_reply agentID end
        | PUT =>
            denied ← authorize ActionSettingsFleetWrite tenants;
            match denied with Some r => mret r | None => saveAgentOverrides actor agent body end
        | DELETE =>
            denied ← authorize ActionSettingsFleetWrite tenants;
            match denied with
            | Some r => mret r
            | None =>
                e ← call (ClearedAgent agentID) (env_deleteAgent env agentID);
                match e with
                | Some e => mret (store_failure e)
                | None =>
                    _ ← audit (cleared_entry "settings.agent.reset" "agent" agentID (Agent_TenantID agent));
                    agent_reply agentID
                end
            end
        | OtherMethod => mret (ErrorReply 405 "method not allowed")
        end
    end.
End Handlers.

(** ** What must have happened before a change *)

Section Guards.
Context `{GoUnicode} `{GoFloatText}.

Definition write_allowed (h : list api_call) (tenants : list string) : Prop :=
  Authorized ActionSettingsFleetWrite tenants true ∈ h.

(** The base layer and the enforced sections came from the resolver. *)
Definition base_read (h : list api_call) (agent_tenant : string) (base : Snapshot) (enforced : list string) : Prop :=
  if blank agent_tenant then ResolvedGlobal (Ok base) ∈ h /\ enforced = []
  else exists snap, ResolvedTenant agent_tenant (Ok snap) ∈ h /\ base = TSnap_Snapshot snap /\
         enforced = TSnap_EnforcedSections snap.

(** The tenants a request for an agent is authorized for. *)
Definition agent_tenants (agent : StoredAgent) : list string :=
  if blank (Agent_TenantID agent) then [] else [Agent_TenantID agent].

(** The stored patch gives valid settings on top of the base. *)
Definition patch_valid (base : Settings) (overrides : jobj) : Prop :=
  exists effective, ApplyPatch base overrides = Some effective /\ Validate effective = [].

(** The audit entry of a change of an agent's overrides that succeeded. *)
Definition records (c : api_call) (entry : AuditEntry) : Prop :=
  match c with
  | WroteAgent rec None =>
      entry = updated_entry "settings.agent.update" "agent" (ARec_AgentID rec) (Audit_TenantID entry)
                (collectOverrideKeys (ARec_Overrides rec))
  | ClearedAgent i None => entry = cleared_entry "settings.agent.reset" "agent" i (Audit_TenantID entry)
  | _ => False
  end.

(** Neither an audit entry nor a change that succeeded. *)
Definition unrecorded (c : api_call) : Prop :=
  match c with
  | WroteAgent _ None | ClearedAgent _ None | Audited _ => False
  | _ => True
  end.

(** Every change that succeeded is followed at once by its entry, and there are no
    other entries. *)
Inductive exactly_audited : list api_call -> Prop :=
| Audited_nothing : exactly_audited []
| Audited_change c entry tr :
    records c entry -> exactly_audited tr -> exactly_audited (c :: Audited entry :: tr)
| Audited_other c tr : unrecorded c -> exactly_audited tr -> exactly_audited (c :: tr).

Definition agent_guard (id : string) (h : list api_call) (c : api_call) : Prop :=
  match c with
  | WroteAgent rec _ =>
      exists agent base enforced,
        GotAgent id (Ok (Some agent)) ∈ h /\ write_allowed h (agent_tenants agent) /\
        base_read h (Agent_TenantID agent) base enforced /\
        ARec_AgentID rec = TrimSpace (Agent_AgentID agent) /\
        (forall k v, ARec_Overrides rec !! k = Some v ->
           section_key k ∈ allowedAgentOverrideSections (Snap_ManagedSections base) enforced) /\
        ARec_Overrides rec <> ∅ /\ patch_valid (Snap_Settings base) (ARec_Overrides rec)
  | ClearedAgent i _ =>
      exists agent, GotAgent id (Ok (Some agent)) ∈ h /\ write_allowed h (agent_tenants agent) /\
        (i = id \/ i = TrimSpace (Agent_AgentID agent))
  | Audited entry =>
      exists agent, GotAgent id (Ok (Some agent)) ∈ h /\ Audit_TenantID entry = Agent_TenantID agent
  | WroteTenant _ _ | WroteGlobal _ _ | ClearedTenant _ _ => False
  | _ => True
  end.

Definition tenant_guard (id : string) (h : list api_call) (c : api_call) : Prop :=
  match c with
  | WroteTenant rec _ =>
      TRec_TenantID rec = id /\ write_allowed h [id] /\ GotTenant id None ∈ h /\
      (forall s, s ∈ TRec_EnforcedSections rec -> s ∈ valid_sections) /\
      exists base, ResolvedGlobal (Ok base) ∈ h /\ patch_valid (Snap_Settings base) (TRec_Overrides rec)
  | ClearedTenant i _ => i = id /\ write_allowed h [id]
  | Audited entry =>
      (exists rec, WroteTenant rec None ∈ h /\ Audit_Keys entry = collectOverrideKeys (TRec_Overrides rec))
      \/ (ClearedTenant id None ∈ h /\ Audit_Keys entry = [])
  | WroteAgent _ _ | WroteGlobal _ _ | ClearedAgent _ _ => False
  | _ => True
  end.

Context {W : Type} (env : ApiEnv W).

Lemma issues_nil {A} (l : list A) : negb (Nat.eqb (length l) 0) = false -> l = [].
Proof. by destruct l. Qed.

Lemma cleaned_allowed base merged allowed k v :
  CleanOverrides base (Some (filterOverrideSections merged allowed).1) !! k = Some v -> section_key k ∈ allowed.
Proof.
  unfold CleanOverrides. rewrite cloneMap_id. intros [u Hu]%diff_merge_keys.
  by apply filterOverrideSections_lookup in Hu as [_ ?].
Qed.

Lemma authorize_spec (P : list api_call -> api_call -> Prop) h action tenants Q :
  (forall allowed, P h (Authorized action tenants allowed)) ->
  (forall h' r, h `prefix_of` h' -> (r = None -> Authorized action tenants true ∈ h') -> Q h' r) ->
  Spec P h (authorize env action tenants) Q.
Proof.
  intros HP HQ. unfold authorize. destruct (env_authorize env) as [auth|].
  - apply Spec_bind_call; [intros r; apply HP|]. intros r. apply Spec_ret.
    apply HQ; [by eexists|]. destruct r; [done|]. intros _. auto with history.
  - apply Spec_ret, HQ; done.
Qed.

Lemma agent_reply_spec id h i : Spec (agent_guard id) h (agent_reply env i) (fun _ _ => True).
Proof. unfold agent_reply. by repeat spec_step. Qed.

Lemma tenant_reply_spec id h i : Spec (tenant_guard id) h (tenant_reply env i) (fun _ _ => True).
Proof. unfold tenant_reply. by repeat spec_step. Qed.

Lemma base_read_mono h h' t base enforced :
  h `prefix_of` h' -> base_read h t base enforced -> base_read h' t base enforced.
Proof.
  intros Hp. unfold base_read. destruct (blank t).
  - intros [? ?]. split; eauto with history.
  - intros (snap & ? & ?). exists snap. split; eauto with history.
Qed.

Lemma base_layer_spec id h t :
  Spec (agent_guard id) h (base_layer env t) (fun h' r =>
    h `prefix_of` h' /\ forall base enforced, r = Ok (base, enforced) -> base_read h' t base enforced).
Proof.
  unfold base_layer, base_read. destruct (blank t); spec_step; try done; apply Spec_ret;
    (split; [by eexists|]); destruct a; try done; intros ? ? [= <- <-].
  - split; auto with history.
  - eexists. split; [|done]. auto with history.
Qed.

Lemma store_agent_spec id h actor agent base enforced cleaned :
  GotAgent id (Ok (Some agent)) ∈ h -> write_allowed h (agent_tenants agent) ->
  base_read h (Agent_TenantID agent) base enforced ->
  (forall k v, cleaned !! k = Some v ->
     section_key k ∈ allowedAgentOverrideSections (Snap_ManagedSections base) enforced) ->
  patch_valid (Snap_Settings base) cleaned ->
  Spec (agent_guard id) h (store_agent env actor (TrimSpace (Agent_AgentID agent)) (Agent_TenantID agent) cleaned)
    (fun _ _ => True).
Proof.
  intros Ha Hw Hb Hk Hv. unfold store_agent, audit.
  destruct (Nat.eqb_spec (size cleaned) 0) as [Hz|Hz].
  - spec_step; [exists agent; split_and!; [done | done | by right]|].
    destruct a as [e|]; [by apply Spec_ret|].
    spec_step; [exists agent; split; [auto with history | done]|]. apply agent_reply_spec.
  - spec_step.
    + exists agent, base, enforced. split_and!; try done. intros Hn.
      simpl in Hn. by rewrite Hn, map_size_empty in Hz.
    + destruct a as [e|]; [by apply Spec_ret|].
      spec_step; [exists agent; split; [auto with history | done]|]. apply agent_reply_spec.
Qed.

Lemma merge_agent_spec id h actor agent base enforced filtered :
  GotAgent id (Ok (Some agent)) ∈ h -> write_allowed h (agent_tenants agent) ->
  base_read h (Agent_TenantID agent) base enforced ->
  Spec (agent_guard id) h
    (merge_agent env actor (TrimSpace (Agent_AgentID agent)) (Agent_TenantID agent) base
       (allowedAgentOverrideSections (Snap_ManagedSections base) enforced) filtered) (fun _ _ => True).
Proof.
  intros Ha Hw Hb. unfold merge_agent. spec_step; [done|].
  destruct a as [existing|e]; [|by apply Spec_ret].
  destruct (ApplyPatch _ _) as [effective|] eqn:Hp; [|by apply Spec_ret].
  destruct (negb _) eqn:Hi; [by apply Spec_ret|]. apply issues_nil in Hi.
  apply store_agent_spec with (base := base) (enforced := enforced).
  - eauto with history.
  - unfold write_allowed in *. eauto with history.
  - eapply base_read_mono; [by eexists | done].
  - intros k v Hk. by eapply cleaned_allowed.
  - by exists effective.
Qed.

Lemma handleAgentSettings_spec m actor agentID body :
  Spec (agent_guard (TrimSpace agentID)) [] (handleAgentSettings env m actor agentID body) (fun _ _ => True).
Proof.
  unfold handleAgentSettings. destruct (String.eqb _ ""); [by apply Spec_ret|].
  spec_step; [done|]. destruct a as [[agent|]|e]; [|by apply Spec_ret|by apply Spec_ret].
  fold (agent_tenants agent). destruct m; [| | |by apply Spec_ret].
  - eapply Spec_bind; [apply authorize_spec with (Q := fun _ _ => True); done|].
    intros h' [r|] _ _; [by apply Spec_ret | apply agent_reply_spec].
  - eapply Spec_bind; [apply authorize_spec with (Q := fun h' r =>
      r = None -> write_allowed h' (agent_tenants agent)); done|].
    intros h' [r|] Hp Hw; [by apply Spec_ret|]. specialize (Hw eq_refl).
    assert (Ha : GotAgent (TrimSpace agentID) (Ok (Some agent)) ∈ h') by eauto with history.
    unfold saveAgentOverrides. destruct (String.eqb _ ""); [by apply Spec_ret|].
    destruct body as [body|]; [|by apply Spec_ret]. destruct (Nat.eqb _ _); [by apply Spec_ret|].
    destruct (agent_patch body) as [patch|]; [|by apply Spec_ret].
    destruct (Nat.eqb _ _); [by apply Spec_ret|].
    eapply Spec_bind; [apply base_layer_spec|]. intros h'' r Hp' [_ Hb].
    destruct r as [[base enforced]|e]; [|by apply Spec_ret].
    destruct (filterOverrideSections _ _) as [filtered blocked].
    destruct (negb _); [by apply Spec_ret|].
    apply merge_agent_spec; [eauto with history | unfold write_allowed in *; eauto with history | by apply Hb].
  - eapply Spec_bind; [apply authorize_spec with (Q := fun h' r =>
      r = None -> write_allowed h' (agent_tenants agent)); done|].
    intros h' [r|] Hp Hw; [by apply Spec_ret|]. specialize (Hw eq_refl).
    spec_step; [exists agent; split_and!; [eauto with history | done | by left]|].
    destruct a as [e|]; [by apply Spec_ret|].
    unfold audit. spec_step; [exists agent; split; [eauto with history | done]|]. apply agent_reply_spec.
Qed.

(** ** The audit entries of a run *)

Definition settled {A} (m : Effects.M api_call W A) : Prop := forall w, exactly_audited (trace m w).

Lemma exactly_audited_app tr tr' :
  exactly_audited tr -> exactly_audited tr' -> exactly_audited (tr ++ tr').
Proof. induction 1; intros; cbn [app]; [done | by apply Audited_change; auto | by apply Audited_other; auto]. Qed.

Lemma settled_ret {A} (a : A) : settled (mret a).
Proof. intros w. apply Audited_nothing. Qed.

Lemma settled_bind {A B} (m : Effects.M api_call W A) (f : A -> Effects.M api_call W B) :
  settled m -> (forall a, settled (f a)) -> settled (m ≫= f).
Proof. intros Hm Hf w. rewrite trace_bind. apply exactly_audited_app; [apply Hm | apply Hf]. Qed.

Lemma settled_call {A} (rec : A -> api_call) op :
  (forall a, unrecorded (rec a)) -> settled (call rec op).
Proof.
  intros Hr w. destruct (call_run rec op w) as (_ & -> & _).
  apply Audited_other; [apply Hr | apply Audited_nothing].
Qed.

(** A change with its audit entry. *)
Lemma settled_change {B} (rec : option store_error -> api_call) op entry
    (f : option store_error -> Effects.M api_call W B) (k : unit -> Effects.M api_call W B) :
  f None = audit env entry ≫= k -> records (rec None) entry -> (forall e, unrecorded (rec (Some e))) ->
  (forall e, settled (f (Some e))) -> (forall a, settled (k a)) ->
  settled (call rec op ≫= f).
Proof.
  intros HN Hr Hu Hf Hk w. rewrite trace_bind. destruct (call_run rec op w) as (-> & -> & ->).
  destruct (op w) as [[e|] w']; cbn [fst snd app].
  - by apply Audited_other; [apply Hu | apply Hf].
  - rewrite HN, trace_bind. apply Audited_change; [done | apply Hk].
Qed.

(** Follows the code through binds, calls and branches. *)
Ltac settle :=
  repeat first
    [ apply settled_ret
    | eapply settled_change; [reflexivity | reflexivity | done | intros ? | intros ?]
    | apply settled_call; intros; exact I
    | match goal with
      | |- forall _, _ => intros ?
      | |- settled (match ?x with _ => _ end) => destruct x
      | |- settled (if ?b then _ else _) => destruct b
      | |- settled (_ ≫= _) => apply settled_bind
      end ].

Lemma agent_reply_settled i : settled (agent_reply env i).
Proof. unfold agent_reply. settle. Qed.

Lemma authorize_settled action tenants : settled (authorize env action tenants).
Proof. unfold authorize. settle. Qed.

Lemma store_agent_settled actor i t cleaned : settled (store_agent env actor i t cleaned).
Proof.
  unfold store_agent. settle; apply agent_reply_settled.
Qed.

Lemma merge_agent_settled actor i t base allowed filtered :
  settled (merge_agent env actor i t base allowed filtered).
Proof. unfold merge_agent. settle. apply store_agent_settled. Qed.

Lemma saveAgentOverrides_settled actor agent body : settled (saveAgentOverrides env actor agent body).
Proof. unfold saveAgentOverrides, base_layer. settle; apply merge_agent_settled. Qed.

Lemma handleAgentSettings_settled m actor agentID body : settled (handleAgentSettings env m actor agentID body).
Proof.
  unfold handleAgentSettings.
  settle; first [apply authorize_settled | apply agent_reply_settled | apply saveAgentOverrides_settled].
Qed.

Lemma store_tenant_spec h actor id base cleaned enforced :
  write_allowed h [id] -> GotTenant id None ∈ h -> ResolvedGlobal (Ok base) ∈ h ->
  patch_valid (Snap_Settings base) cleaned ->
  Spec (tenant_guard id) h (store_tenant env actor id cleaned (normalizeSectionList enforced)) (fun _ _ => True).
Proof.
  intros Hw Ht Hb Hv. unfold store_tenant, audit. destruct (_ && _).
  - spec_step; [by split|]. destruct a as [e|]; [by apply Spec_ret|].
    spec_step; [right; split; [auto with history | done]|]. apply tenant_reply_spec.
  - spec_step.
    + split; [done|]. split; [done|]. split; [done|]. split; [|by exists base].
      intros s Hs. by apply normalizeSectionList_elem in Hs as [? _].
    + destruct a as [e|]; [by apply Spec_ret|].
      spec_step; [left; eexists; split; [auto with history | done]|]. apply tenant_reply_spec.
Qed.

Lemma saveTenantOverrides_spec h actor id body :
  write_allowed h [id] -> Spec (tenant_guard id) h (saveTenantOverrides env actor id body) (fun _ _ => True).
Proof.
  intros Hw. unfold saveTenantOverrides, ensureTenantExists. spec_step; [done|].
  destruct a as [e|]; [by apply Spec_ret|]. destruct body as [body|]; [|by apply Spec_ret].
  destruct (Nat.eqb _ _); [by apply Spec_ret|].
  destruct (tenant_patch body) as [[patch enforced]|]; [|by apply Spec_ret].
  spec_step; [done|]. destruct a as [base|e]; [|by apply Spec_ret].
  spec_step; [done|]. destruct a as [existing|e]; [|by apply Spec_ret].
  destruct (ApplyPatch _ _) as [effective|] eqn:Hp; [|by apply Spec_ret].
  destruct (negb _) eqn:Hi; [by apply Spec_ret|]. apply issues_nil in Hi.
  apply store_tenant_spec with (base := base);
    [unfold write_allowed in *; eauto with history | auto with history | auto with history | by exists effective].
Qed.

Lemma writeTenantSnapshot_spec id h : Spec (tenant_guard id) h (writeTenantSnapshot env id) (fun _ _ => True).
Proof.
  unfold writeTenantSnapshot, ensureTenantExists. spec_step; [done|].
  destruct a; [by apply Spec_ret | apply tenant_reply_spec].
Qed.

Lemma handleTenantSettings_spec m actor tenantID body :
  Spec (tenant_guard (TrimSpace tenantID)) [] (handleTenantSettings env m actor tenantID body) (fun _ _ => True).
Proof.
  unfold handleTenantSettings. destruct (String.eqb _ ""); [by apply Spec_ret|].
  destruct m; [| | |by apply Spec_ret].
  - eapply Spec_bind; [apply authorize_spec with (Q := fun _ _ => True); done|].
    intros h' [r|] _ _; [by apply Spec_ret | apply writeTenantSnapshot_spec].
  - eapply Spec_bind; [apply authorize_spec with (Q := fun h' r =>
      r = None -> write_allowed h' [TrimSpace tenantID]); done|].
    intros h' [r|] Hp Hw; [by apply Spec_ret | by apply saveTenantOverrides_spec, Hw].
  - eapply Spec_bind; [apply authorize_spec with (Q := fun h' r =>
      r = None -> write_allowed h' [TrimSpace tenantID]); done|].
    intros h' [r|] Hp Hw; [by apply Spec_ret|]. specialize (Hw eq_refl).
    spec_step; [by split|]. destruct a as [e|]; [by apply Spec_ret|].
    unfold audit. spec_step; [right; split; [auto with history | done]|]. apply writeTenantSnapshot_spec.
Qed.
End Guards.

(** ** The handlers on a store *)

Definition store_failed {A} (r : result string A) : store_result A :=
  match r with Ok a => Ok a | Err e => Err (StoreErr e) end.

(** [NewAPI] with the resolver of the store. *)
Definition NewAPI {W} `{GoUnicode} `{GoFloatText} `{Store W}
    (authorizer : option (string -> list string -> W -> option Z * W)) (locked : option (gset string)) : ApiEnv W :=
  {| env_authorize := authorizer; env_locked := locked;
     env_getTenant i w := (StoreErr <$> GetTenant i w, w);
     env_getAgent i w := (store_failed (GetAgent i w), w);
     env_resolveGlobal w := (store_failed (ResolveGlobal w), w);
     env_resolveTenant i w := (store_failed (ResolveForTenant i w), w);
     env_resolveAgent i w := (store_failed (ResolveForAgent i w), w);
     env_getTenantSettings i w := (store_failed (GetTenantSettings i w), w);
     env_getAgentSettings i w := (store_failed (GetAgentSettings i w), w);
     env_upsertGlobal r w := let '(w', e) := UpsertGlobalSettings r w in (StoreErr <$> e, w');
     env_upsertTenant r w := let '(w', e) := UpsertTenantSettings r w in (StoreErr <$> e, w');
     env_deleteTenant i w := let '(w', e) := DeleteTenantSettings i w in (StoreErr <$> e, w');
     env_upsertAgent r w := let '(w', e) := UpsertAgentSettings r w in (StoreErr <$> e, w');
     env_deleteAgent i w := let '(w', e) := DeleteAgentSettings i w in (StoreErr <$> e, w');
     env_audit _ w := w |}.

(** ** The contract of a change *)

(** What the code relies on in a store: a record that was written is read back with its
    overrides, a removed one is gone, and the settings of an agent are apart from everything else. *)
Class LawfulStore (W : Type) `{Store W} := {
  upsert_agent_read r w w' : UpsertAgentSettings r w = (w', None) ->
    exists r', GetAgentSettings (ARec_AgentID r) w' = Ok (Some r') /\ ARec_Overrides r' = ARec_Overrides r;
  upsert_agent_frame r w w' : UpsertAgentSettings r w = (w', None) ->
    (forall i, GetAgent i w' = GetAgent i w) /\ (forall i, GetTenantSettings i w' = GetTenantSettings i w) /\
    GetGlobalSettings w' = GetGlobalSettings w;
  delete_agent_read i w w' : DeleteAgentSettings i w = (w', None) -> GetAgentSettings i w' = Ok None;
  delete_agent_frame i w w' : DeleteAgentSettings i w = (w', None) ->
    (forall i, GetAgent i w' = GetAgent i w) /\ (forall i, GetTenantSettings i w' = GetTenantSettings i w) /\
    GetGlobalSettings w' = GetGlobalSettings w;
}.

Section Contract.
Context `{GoUnicode} `{GoFloatText} {W : Type} `{LawfulStore W}.

Lemma agent_base_frame tenantID w w' :
  (forall i, GetTenantSettings i w' = GetTenantSettings i w) -> GetGlobalSettings w' = GetGlobalSettings w ->
  agent_base tenantID w' = agent_base tenantID w.
Proof.
  intros Ht Hg. unfold agent_base, ResolveForTenant, ResolveGlobal. by rewrite Ht, Hg.
Qed.

Lemma store_failed_Ok {A} (r : result string A) a : store_failed r = Ok a -> r = Ok a.
Proof. destruct r; simpl; congruence. Qed.

(** The base layer of the handler is that of the resolver, up to the spelling of the
    enforced sections. *)
Lemma base_layer_value auth locked tenantID w base enforced :
  TrimSpace tenantID = tenantID ->
  value (base_layer (NewAPI auth locked) tenantID) w = Ok (base, enforced) ->
  exists enforced', agent_base tenantID w = Ok (base, enforced') /\
    allowedAgentOverrideSections (Snap_ManagedSections base) enforced'
    = allowedAgentOverrideSections (Snap_ManagedSections base) enforced.
Proof.
  intros Ht. unfold base_layer, blank, agent_base. rewrite Ht. destruct (String.eqb tenantID "").
  - rewrite value_call. cbn. destruct (ResolveGlobal w); [|done]. intros [= <- <-]. by exists [].
  - rewrite value_call. cbn. destruct (ResolveForTenant tenantID w) as [t|]; [|done]. intros [= <- <-].
    eexists. split; [reflexivity | apply allowed_normalized].
Qed.

Lemma base_layer_final auth locked tenantID w : final (base_layer (NewAPI auth locked) tenantID) w = w.
Proof.
  unfold base_layer. by destruct (blank tenantID); rewrite final_call.
Qed.

(** The end of the handler: what is resolved is what was validated. *)
Lemma store_agent_resolves auth locked actor agentID agent w base enforced cleaned snap :
  TrimSpace agentID = agentID -> GetAgent agentID w = Ok (Some agent) ->
  agent_base (TrimSpace (Agent_TenantID agent)) w = Ok (base, enforced) ->
  (forall k v, cleaned !! k = Some v ->
     section_key k ∈ allowedAgentOverrideSections (Snap_ManagedSections base) enforced) ->
  value (store_agent (NewAPI auth locked) actor agentID (Agent_TenantID agent) cleaned) w = AgentReply snap ->
  ApplyPatch (Snap_Settings base) cleaned = Some (Snap_Settings (ASnap_Snapshot snap)).
Proof.
  intros Hid Ha Hb Hk. unfold store_agent, audit, agent_reply.
  destruct (Nat.eqb_spec (size cleaned) 0) as [Hz%map_size_empty_inv|Hz].
  - rewrite value_call. cbn [NewAPI env_deleteAgent].
    destruct (DeleteAgentSettings agentID w) as [w' e] eqn:Hw. cbn [fst snd].
    destruct e as [e|]; [done|]. cbn [fmap option_fmap option_map].
    rewrite value_call, value_call, value_ret. cbn [NewAPI env_audit env_resolveAgent fst snd].
    destruct (ResolveForAgent agentID w') as [snap'|] eqn:Hr; [|done]. intros [= <-].
    destruct (delete_agent_frame _ _ _ Hw) as (Hfa & Hft & Hfg).
    rewrite <- (agent_base_frame _ w w') in Hb by done. rewrite Hz.
    erewrite <- ResolveForAgent_patch; [|rewrite Hid, Hfa; exact Ha | exact Hb
      | rewrite Hid; by eapply delete_agent_read | exact Hr].
    simpl. by rewrite map_filter_empty.
  - rewrite value_call. cbn [NewAPI env_upsertAgent].
    match goal with |- context [UpsertAgentSettings ?r w] => destruct (UpsertAgentSettings r w) as [w' e] eqn:Hw end.
    cbn [fst snd]. destruct e as [e|]; [done|]. cbn [fmap option_fmap option_map].
    rewrite value_call, value_call, value_ret. cbn [NewAPI env_audit env_resolveAgent fst snd].
    destruct (ResolveForAgent agentID w') as [snap'|] eqn:Hr; [|done]. intros [= <-].
    destruct (upsert_agent_frame _ _ _ Hw) as (Hfa & Hft & Hfg).
    destruct (upsert_agent_read _ _ _ Hw) as (r' & Hread & Hov). simpl in Hread, Hov.
    rewrite <- (agent_base_frame _ w w') in Hb by done.
    erewrite <- ResolveForAgent_patch; [|rewrite Hid, Hfa; exact Ha | exact Hb
      | rewrite Hid; exact Hread | exact Hr].
    change (default ∅ (ARec_Overrides <$> Some r')) with (ARec_Overrides r').
    by rewrite Hov, (filterOverrideSections_id cleaned).
Qed.

(** C7: on a store that keeps what is written, an accepted change of an agent's overrides
    is exactly what the agent gets: its stored overrides with the patch merged in,
    without the sections it may not override, applied to the layer below; and these
    settings are valid. *)
Theorem saved_overrides_resolve auth locked actor agentID agent body w snap :
  TrimSpace agentID = agentID -> TrimSpace (Agent_TenantID agent) = Agent_TenantID agent ->
  GetAgent agentID w = Ok (Some agent) -> Agent_AgentID agent = agentID ->
  value (saveAgentOverrides (NewAPI auth locked) actor agent body) w = AgentReply snap ->
  exists patch base enforced existing,
    body ≫= agent_patch = Some patch /\
    agent_base (Agent_TenantID agent) w = Ok (base, enforced) /\
    GetAgentSettings agentID w = Ok existing /\
    let allowed := allowedAgentOverrideSections (Snap_ManagedSections base) enforced in
    let merged := (filterOverrideSections
                     (mergeMaps (default ∅ (ARec_Overrides <$> existing)) patch) allowed).1 in
    ApplyPatch (Snap_Settings base) (CleanOverrides (Snap_Settings base) (Some merged))
      = Some (Snap_Settings (ASnap_Snapshot snap)) /\
    Validate (Snap_Settings (ASnap_Snapshot snap)) = [].
Proof.
  intros Hid Ht Ha Hself. unfold saveAgentOverrides. rewrite Hself, Hid.
  destruct (String.eqb agentID ""); [done|]. destruct body as [body|]; [|done].
  destruct (Nat.eqb _ _); [done|]. cbn [mbind option_bind].
  destruct (agent_patch body) as [patch|]; [|done]. destruct (Nat.eqb _ _); [done|].
  rewrite value_bind, base_layer_final.
  match goal with |- value (match ?v with Ok _ => _ | Err _ => _ end) _ = _ -> _ =>
    destruct v as [[base enforced]|e] eqn:Hb end; [|done].
  apply base_layer_value in Hb as (enforced' & Hb & Hallowed); [|done].
  destruct (filterOverrideSections patch _) as [filtered blocked] eqn:Hf.
  destruct (negb _) eqn:Hblocked; [done|]. apply issues_nil in Hblocked.
  unfold merge_agent. rewrite value_call. cbn [NewAPI env_getAgentSettings fst snd].
  destruct (GetAgentSettings agentID w) as [existing|e] eqn:He; [|done]. cbn [store_failed].
  destruct (ApplyPatch _ _) as [effective|] eqn:Hp; [|done].
  destruct (negb _) eqn:Hi; [done|]. apply issues_nil in Hi. intros Hv.
  assert (Hpatch : filtered = patch).
  { pose proof (filterOverrideSections_unblocked patch
      (allowedAgentOverrideSections (Snap_ManagedSections base) enforced)) as Hu.
    rewrite Hf in Hu. by apply Hu. }
  rewrite Hpatch, MergeOverrideMaps_default in Hp, Hv.
  exists patch, base, enforced', existing. split; [done|]. split; [done|]. split; [done|].
  cbv zeta. rewrite Hallowed. eapply store_agent_resolves in Hv as Hres;
    [|exact Hid | exact Ha | rewrite Ht; exact Hb | rewrite Hallowed; intros k v; apply cleaned_allowed].
  rewrite Hp in Hres |- *.
  injection Hres as <-. by split.
Qed.
End Contract.

(** ** Properties *)

(** C6: whatever the environment does between the calls, an agent's overrides are only
    replaced or removed after the authorizer allowed the fleet-settings write for the
    tenant of the agent that the store returned for the identifier of the request, and
    it is this agent's overrides that change; what is written names only sections that
    are managed and not enforced in the layer just read, is not empty, and gives valid
    settings on that layer. Every change that succeeded is followed at once by its
    audit entry, with the identifier, the agent's tenant and the keys written, and
    there is no other audit entry. *)
Theorem agent_changes_guarded `{GoUnicode} `{GoFloatText} {W} (env : ApiEnv W) m actor agentID body w :
  let tr := trace (handleAgentSettings env m actor agentID body) w in
  calls_ok (agent_guard (TrimSpace agentID)) [] tr /\ exactly_audited tr.
Proof. split; [apply handleAgentSettings_spec | apply handleAgentSettings_settled]. Qed.

(** Likewise a tenant's overrides are only changed after the authorizer allowed it for
    that tenant; what is written belongs to the tenant of the request, which exists,
    enforces only known sections, and gives valid settings on the global layer just
    read. *)
Theorem tenant_changes_guarded `{GoUnicode} `{GoFloatText} {W} (env : ApiEnv W) m actor tenantID body w c :
  c ∈ trace (handleTenantSettings env m actor tenantID body) w ->
  exists before after, trace (handleTenantSettings env m actor tenantID body) w = before ++ c :: after /\
    tenant_guard (TrimSpace tenantID) before c.
Proof. apply Spec_call_ok with (Q := fun _ _ => True), handleTenantSettings_spec. Qed.

(** ** Witnesses *)

Definition open_api : ApiEnv memory := NewAPI (Some (fun _ _ w => (None, w))) (Some {["server.http_port"]}).

Definition example_put (name : string) : option jobj :=
  Some {[ name := JObj {[ "concurrency" := JNum (Integral 9) ]} ]}.

Definition example_record : AgentSettingsRecord :=
  {| ARec_AgentID := "a1"; ARec_SchemaVersion := "v2";
     ARec_Overrides := {[ "discovery" := JObj {[ "concurrency" := JNum (Integral 9); "arp_enabled" := JBool false ]} ]};
     ARec_UpdatedAt := 0; ARec_UpdatedBy := "eve" |}.

(** The request is merged into the stored overrides, less the enforced section; one that
    names the enforced section is refused. *)
Example agent_put_run :
  let tr := trace (handleAgentSettings open_api PUT "eve" "a1 " (example_put "discovery")) example_memory in
  tr !! 4%nat = Some (WroteAgent example_record None) /\
  tr !! 5%nat = Some (Audited (updated_entry "settings.agent.update" "agent" "a1" "t1"
    ["discovery.arp_enabled"; "discovery.concurrency"])) /\
  value (handleAgentSettings open_api PUT "eve" "a1" (example_put "Snmp")) example_memory = BlockedReply ["snmp"].
Proof. vm_compute. repeat split; reflexivity. Qed.

Definition example_tenant_record : TenantSettingsRecord :=
  {| TRec_TenantID := "t1"; TRec_SchemaVersion := "v2";
     TRec_Overrides := {[ "discovery" := JObj {[ "concurrency" := JNum (Integral 9) ]} ]};
     TRec_EnforcedSections := ["snmp"]; TRec_UpdatedAt := 0; TRec_UpdatedBy := "system" |}.

Lemma tenant_changes_guarded_witness :
  exists before after,
    trace (handleTenantSettings open_api PUT " " "t1" (example_put "discovery")) example_memory
    = before ++ WroteTenant example_tenant_record None :: after /\
    tenant_guard "t1" before (WroteTenant example_tenant_record None).
Proof.
  refine (tenant_changes_guarded open_api PUT " " "t1" (example_put "discovery") example_memory
    (WroteTenant example_tenant_record None) _).
  eapply (list_elem_of_lookup_2 _ 4). vm_compute. reflexivity.
Defined.

(** The locked keys are dotted names of server settings, and the keys of the payload are
    the sections: no global update is ever refused for a locked key. *)
Lemma locked_keys_never_match s (locked : gset string) :
  (forall k, k ∈ locked -> k ∉ section_tags) -> checkLockedKeys (Some locked) (settingsToMap s) = [].
Proof.
  intros Hl. unfold checkLockedKeys. destruct (Nat.eqb _ _); [done|].
  destruct (filter _ _) as [|k ks] eqn:Hf; [done|]. exfalso.
  assert (Hk : k ∈ k :: ks) by left. rewrite <- Hf in Hk.
  apply list_elem_of_filter in Hk as [Hlk Hk]. apply (Hl k Hlk).
  apply list_elem_of_fmap in Hk as ([k' v] & -> & Hkv). apply elem_of_map_to_list in Hkv.
  simpl. eauto using settingsToMap_keys.
Qed.

(** An empty list of managed sections stays empty. *)
Lemma no_managed_sections : normalizeManagedSections [] = [].
Proof. reflexivity. Qed.

#[export] Instance memory_lawful : LawfulStore memory.
Proof.
  split; simpl.
  - intros r w w' [= <-]. simpl. exists r. by rewrite lookup_insert_eq.
  - by intros r w w' [= <-].
  - intros i w w' [= <-]. simpl. by rewrite lookup_delete_eq.
  - by intros i w w' [= <-].
Qed.

(** The agent gets the new concurrency and keeps its stored ARP setting and the community
    of its tenant. *)
Lemma saved_overrides_resolve_witness :
  match value (saveAgentOverrides open_api "eve" {| Agent_AgentID := "a1"; Agent_TenantID := "t1" |}
                 (example_put "discovery")) example_memory with
  | AgentReply snap =>
      Validate (Snap_Settings (ASnap_Snapshot snap)) = [] /\
      Concurrency (Discovery (Snap_Settings (ASnap_Snapshot snap))) = 9 /\
      ARPEnabled (Discovery (Snap_Settings (ASnap_Snapshot snap))) = false /\
      SNMP (Snap_Settings (ASnap_Snapshot snap)) = SNMP DefaultSettings
  | _ => False
  end.
Proof.
  set (agent := {| Agent_AgentID := "a1"; Agent_TenantID := "t1" |}).
  assert (Hc : match value (saveAgentOverrides open_api "eve" agent (example_put "discovery")) example_memory with
    | AgentReply snap =>
        Concurrency (Discovery (Snap_Settings (ASnap_Snapshot snap))) = 9 /\
        ARPEnabled (Discovery (Snap_Settings (ASnap_Snapshot snap))) = false /\
        SNMP (Snap_Settings (ASnap_Snapshot snap)) = SNMP DefaultSettings
    | _ => False end) by (vm_compute; repeat split; reflexivity).
  destruct (value (saveAgentOverrides open_api "eve" agent (example_put "discovery")) example_memory)
    as [| | | | | | |snap|] eqn:Hr; try exact Hc.
  split; [|exact Hc].
  assert (Hg : GetAgent "a1" example_memory = Ok (Some agent)) by (vm_compute; reflexivity).
  destruct (saved_overrides_resolve (Some (fun _ _ w => (None, w))) (Some {["server.http_port"]}) "eve" "a1"
    agent (example_put "discovery") example_memory snap eq_refl eq_refl Hg eq_refl Hr)
    as (patch & base & enforced & existing & _ & _ & _ & _ & Hvalid).
  exact Hvalid.
Defined.
