(* ===== verification/TenancyCalls.v ===== *)
(** * Requests and calls of the tenancy handlers ([server/tenancy/handlers.go],
    [authorize.go], [server/storage/types.go]).

    A handler is a program (Programs) that calls the authorizer, the database or, when
    there is none, the in-memory store, the clock, the random source, the event sink and
    the audit log. Its argument is the request, whose body is given by what decoding it
    into each of the structures of the handlers yields. *)
From S2P Require Import Prelude GoStrings GoTime Effects Programs Authz Tenancy.

(** ** Data *)

Record tenantPayload := {
  Payload_ID : string;
  Payload_Name : string;
  Payload_Description : string;
  Payload_ContactName : string;
  Payload_ContactEmail : string;
  Payload_ContactPhone : string;
  Payload_BusinessUnit : string;
  Payload_BillingCode : string;
  Payload_Address : string;
  Payload_LoginDomain : string;
}.

(** [storage.JoinToken]: what the database keeps of a token. The token itself is
    returned once, when it is made. *)
Record DbToken := {
  DbToken_ID : string;
  DbToken_Hash : string;
  DbToken_TenantID : string;
  DbToken_ExpiresAt : Time;
  DbToken_OneTime : bool;
  DbToken_CreatedAt : Time;
  DbToken_UsedAt : Time;
  DbToken_Revoked : bool;
}.

(** The error of [ValidateJoinToken]: a [*TokenValidationError] or another. *)
Inductive token_failure := ErrInvalid | ErrExpired | ErrRevoked.
Inductive token_error :=
| TokenValidationError (Err : token_failure) (TenantID TokenID : string)
| OtherTokenError (detail : string).

Definition IsExpiredToken (e : token_error) : bool :=
  match e with TokenValidationError ErrExpired _ _ => true | _ => false end.

(** [storage.PendingAgentRegistration] without the fields of the review. *)
Record PendingAgentRegistration := {
  Pending_AgentID : string;
  Pending_Name : string;
  Pending_Hostname : string;
  Pending_IP : string;
  Pending_Platform : string;
  Pending_AgentVersion : string;
  Pending_ProtocolVersion : string;
  Pending_ExpiredTokenID : string;
  Pending_ExpiredTenantID : string;
  Pending_Status : string;
}.

Definition PendingStatusPending := "pending".
Definition PendingStatusApproved := "approved".
Definition PendingStatusRejected := "rejected".

(** [storage.Agent], the fields that a registration sets. *)
Record Agent := {
  Agent_AgentID : string;
  Agent_Name : string;
  Agent_Hostname : string;
  Agent_IP : string;
  Agent_Platform : string;
  Agent_Version : string;
  Agent_ProtocolVersion : string;
  Agent_Token : string;
  Agent_RegisteredAt : Time;
  Agent_LastSeen : Time;
  Agent_Status : string;
  Agent_OSVersion : string;
  Agent_GoVersion : string;
  Agent_Architecture : string;
  Agent_NumCPU : Z;
  Agent_TotalMemoryMB : Z;
  Agent_BuildType : string;
  Agent_GitCommit : string;
  Agent_TenantID : string;
}.

(** The body of a registration. *)
Record registration := {
  in_Token : string;
  in_AgentID : string;
  in_Name : string;
  in_AgentVersion : string;
  in_ProtocolVersion : string;
  in_Hostname : string;
  in_IP : string;
  in_Platform : string;
  in_OSVersion : string;
  in_GoVersion : string;
  in_Architecture : string;
  in_NumCPU : Z;
  in_TotalMemoryMB : Z;
  in_BuildType : string;
  in_GitCommit : string;
}.

Record SiteFilterRule := { Rule_Type : string; Rule_Pattern : string }.

Record Site := {
  Site_ID : string;
  Site_TenantID : string;
  Site_Name : string;
  Site_Description : string;
  Site_Address : string;
  Site_FilterRules : list SiteFilterRule;
  Site_CreatedAt : Time;
  Site_AgentCount : Z;
  Site_DeviceCount : Z;
}.

Record sitePayload := {
  site_Name : string;
  site_Description : string;
  site_Address : string;
  site_FilterRules : list SiteFilterRule;
}.

Record tokenRequest := { token_TenantID : string; token_TTLMinutes : Z; token_OneTime : bool }.
Record reviewRequest := { review_Action : string; review_TenantID : string; review_Notes : string }.

Record packageRequest := {
  package_TenantID : string;
  package_Platform : string;
  package_InstallerType : string;
  package_TTLMinutes : Z;
  package_Format : string;
}.

Record installEntry := {
  Script : string;
  Filename : string;
  Install_ExpiresAt : Time;
  Install_OneTime : bool;
}.

(** A value of a [map[string]interface{}]; a time is formatted as RFC 3339. *)
Inductive field :=
| FStr (s : string)
| FInt (z : Z)
| FBool (b : bool)
| FTime (t : Time)
| FStrs (l : list string)
| FMap (m : list (string * field)).
Notation fields := (list (string * field)).

(** [storage.AuditEntry], the fields that the handlers set. *)
Record AuditEntry := {
  Audit_ActorType : string;
  Audit_ActorID : string;
  Audit_ActorName : string;
  Audit_Action : string;
  Audit_TargetType : string;
  Audit_TargetID : string;
  Audit_TenantID : string;
  Audit_Severity : string;
  Audit_Details : string;
  Audit_Metadata : fields;
}.

(** ** Requests and responses *)

Inductive method := GET | POST | PUT | DELETE | OtherMethod.

(** What decoding the body into the structure of each handler gives. *)
Record body := {
  as_tenant : option tenantPayload;
  as_token : option tokenRequest;
  as_id : option string;
  as_review : option reviewRequest;
  as_registration : option registration;
  as_site : option sitePayload;
  as_agents : option (list string);
  as_package : option packageRequest;
}.

Record request := {
  Method : method;
  Path : string;
  Query : gmap string string;
  Body : body;
  RemoteAddr : string;
  Host : string;
  Header : string -> string;
  TLS : bool;
}.

Inductive payload :=
| NoBody
| ErrorBody (message : string)
| Text (s : string)
| TenantBody (t : Tenant)
| TenantsBody (l : list Tenant)
| TokensBody (l : list DbToken)
| MemTokensBody (l : list JoinToken)
| PendingBody (p : PendingAgentRegistration)
| PendingsBody (l : list PendingAgentRegistration)
| SiteBody (s : Site)
| SitesBody (l : list Site)
| ScriptBody (e : installEntry)
| Fields (m : fields).

Inductive response :=
| Reply (status : Z) (p : payload)
| Panics.

Definition NotFound : response := Reply 404 (Text "404 page not found").
Definition MethodNotAllowed : response := Reply 405 NoBody.
Definition failed (status : Z) (message : string) : response := Reply status (ErrorBody message).

(** ** Calls *)

(** [Db...] are the methods of [storage.Store], [Mem...] those of the in-memory store.
    A write of a structure behind a pointer answers with the structure as the store
    leaves it. A refusal of the authorizer is an error that is [ErrUnauthorized] or not. *)
Inductive op : Type -> Type :=
| Authorized (action : string) (resource : list string) : op (option bool)
| DbListTenants : op (result string (list Tenant))
| DbCreateTenant (t : Tenant) : op (result string Tenant)
| DbGetTenant (id : string) : op (result string Tenant)
| DbUpdateTenant (t : Tenant) : op (result string Tenant)
| DbCountTenantAgents (id : string) : op (result string Z)
| DbDeleteTenant (id : string) : op (option string)
| DbCreateJoinToken (tenantID : string) (ttl : Z) (oneTime : bool) : op (result string (DbToken * string))
| DbListJoinTokens (tenantID : string) : op (result string (list DbToken))
| DbRevokeJoinToken (id : string) : op (option string)
| DbValidateJoinToken (token : string) : op (result token_error DbToken)
| DbListPending (status : string) : op (result string (list PendingAgentRegistration))
| DbGetPending (id : Z) : op (result string PendingAgentRegistration)
| DbCreatePending (p : PendingAgentRegistration) : op (result string Z)
| DbApprovePending (id : Z) (tenantID username : string) : op (option string)
| DbRejectPending (id : Z) (username notes : string) : op (option string)
| DbDeletePending (id : Z) : op (option string)
| DbRegisterAgent (a : Agent) : op (option string)
| DbListSites (tenantID : string) : op (result string (list Site))
| DbGetSite (id : string) : op (result string Site)
| DbSiteAgents (id : string) : op (result string (list string))
| DbCreateSite (s : Site) : op (result string Site)
| DbUpdateSite (s : Site) : op (result string Site)
| DbDeleteSite (id : string) : op (option string)
| DbAssignAgent (agentID siteID : string) : op unit
| DbUnassignAgent (agentID siteID : string) : op unit
| MemListTenants : op (list Tenant)
| MemCreateTenant (t : Tenant) : op (result StoreError Tenant)
| MemGetTenant (id : string) : op (option Tenant)
| MemUpdateTenant (t : Tenant) : op (result StoreError Tenant)
| MemCreateJoinToken (tenantID : string) (ttl : Z) (oneTime : bool) : op (result (option StoreError) JoinToken)
| MemTokens : op (list JoinToken)
| MemRevoke (token : string) : op bool
| MemValidateToken (token : string) : op (result StoreError JoinToken)
| PutInstall (code : string) (e : installEntry) : op unit
| TakeInstall (code : string) : op (option installEntry)
| RandomBytes (n : Z) : op (option string)
| Now : op Time
| Emit (kind : string) (data : fields) : op unit
| TenantCreated (id : string) : op unit
| BuildSettings (tenantID agentID : string) : op (result string (string * option string))
| Audit (e : AuditEntry) : op unit.

(** What the server wired in: the database, the feature flag and the optional hooks. *)
Record Config := {
  has_db : bool;
  tenancyEnabled : bool;
  has_authorizer : bool;
  has_logger : bool;
  has_audit : bool;
  has_sink : bool;
  has_builder : bool;
  has_created_callback : bool;
}.

Notation M := (prog op).

(** ** Helpers *)

Section Handlers.
Context `{GoUnicode} (cfg : Config).

Definition getEffectiveScheme (r : request) : string :=
  if negb (String.eqb (Header r "X-Forwarded-Proto") "") then Header r "X-Forwarded-Proto"
  else if negb (String.eqb (Header r "X-Detected-Proto") "") then Header r "X-Detected-Proto"
  else if TLS r then "https" else "http".

Definition recordAudit (e : AuditEntry) : M unit :=
  if has_audit cfg then ask (Audit e) else mret tt.

Definition maskTokenValue (token : string) : string :=
  let token := TrimSpace token in
  if String.eqb token "" then ""
  else if (String.length token <=? 8)%nat then token
  else stake 4 token +:+ "..." +:+ sdrop (String.length token - 2) token.

Definition tenantAuditMetadata (t : Tenant) : fields :=
  [("name", FStr (Tenant_Name t)); ("description", FStr (Tenant_Description t));
   ("contact_name", FStr (Tenant_ContactName t)); ("contact_email", FStr (Tenant_ContactEmail t));
   ("contact_phone", FStr (Tenant_ContactPhone t)); ("business_unit", FStr (Tenant_BusinessUnit t));
   ("billing_code", FStr (Tenant_BillingCode t)); ("address", FStr (Tenant_Address t));
   ("login_domain", FStr (NormalizeTenantDomain (Tenant_LoginDomain t)))].

(** The snapshot is opaque here; an absent one leaves the response as it is. *)
Definition attachAgentSettings (resp : fields) (tenantID agentID : string) : M fields :=
  if negb (has_builder cfg) then mret resp
  else
    r ← ask (BuildSettings tenantID agentID);
    mret (match r with
          | Ok (version, Some snapshot) =>
              if String.eqb version "" then resp
              else resp ++ [("settings_version", FStr version); ("settings_snapshot", FStr snapshot)]
          | _ => resp
          end).

Definition emit (kind : string) (data : fields) : M unit :=
  if has_sink cfg then ask (Emit kind data) else mret tt.

(** [if x != "" { payload[key] = x }] and its integer form. *)
Definition unless_empty (key x : string) : fields :=
  if String.eqb x "" then [] else [(key, FStr x)].
Definition if_positive (key : string) (x : Z) : fields :=
  if 0 <? x then [(key, FInt x)] else [].

Definition emitAgentEvent (kind : string) (a : Agent) : M unit :=
  if negb (has_sink cfg) then mret tt
  else
    registeredAt ← (if IsZero (Agent_RegisteredAt a) then ask Now else mret (Agent_RegisteredAt a));
    let lastSeen := if IsZero (Agent_LastSeen a) then registeredAt else Agent_LastSeen a in
    ask (Emit kind
      ([("agent_id", FStr (Agent_AgentID a)); ("name", FStr (Agent_Name a));
        ("hostname", FStr (Agent_Hostname a)); ("ip", FStr (Agent_IP a));
        ("platform", FStr (Agent_Platform a)); ("version", FStr (Agent_Version a));
        ("protocol_version", FStr (Agent_ProtocolVersion a)); ("status", FStr (Agent_Status a));
        ("registered_at", FTime registeredAt); ("last_seen", FTime lastSeen);
        ("connection_type", FStr "none")]
       ++ unless_empty "tenant_id" (Agent_TenantID a) ++ unless_empty "os_version" (Agent_OSVersion a)
       ++ unless_empty "architecture" (Agent_Architecture a) ++ unless_empty "build_type" (Agent_BuildType a)
       ++ unless_empty "git_commit" (Agent_GitCommit a) ++ unless_empty "go_version" (Agent_GoVersion a)
       ++ if_positive "num_cpu" (Agent_NumCPU a) ++ if_positive "total_memory_mb" (Agent_TotalMemoryMB a))).

(** [None] lets the request through. *)
Definition authorizeOrReject (action : string) (resource : list string) : M (option response) :=
  if negb (has_authorizer cfg) then mret (Some (Reply 500 (Text "authorization not configured")))
  else
    r ← ask (Authorized action resource);
    mret (match r with
          | None => None
          | Some true => Some (Reply 401 (Text "Unauthorized"))
          | Some false => Some (Reply 403 (Text "Forbidden"))
          end).

(** [if !authorizeOrReject(...) { return }] *)
Definition authorized (action : string) (resource : list string) (k : M response) : M response :=
  denied ← authorizeOrReject action resource;
  match denied with Some r => mret r | None => k end.

(** [if !requireTenancyEnabled(w, r) { return }] *)
Definition requireTenancyEnabled (k : M response) : M response :=
  if tenancyEnabled cfg then k else mret NotFound.

(** A method call on [dbStore], which panics when it is nil. *)
Definition with_db (k : M response) : M response :=
  if has_db cfg then k else mret Panics.
End Handlers.
