(* ===== verification/TenancyApi.v ===== *)
(** * The HTTP handlers of tenants, join tokens and sites
    ([server/tenancy/handlers.go], [sites.go], [subresources.go]). *)
From S2P Require Import Prelude GoStrings GoTime Effects Programs Authz Tenancy TenancyCalls.
From Stdlib Require Import Ascii.

(** ** Tenants *)

Section Tenants.
Context `{GoUnicode} (cfg : Config).

Definition tenant_from (id : string) (created : Time) (i : tenantPayload) : Tenant :=
  {| Tenant_ID := id; Tenant_Name := Payload_Name i; Tenant_Description := Payload_Description i;
     Tenant_ContactName := Payload_ContactName i; Tenant_ContactEmail := Payload_ContactEmail i;
     Tenant_ContactPhone := Payload_ContactPhone i; Tenant_BusinessUnit := Payload_BusinessUnit i;
     Tenant_BillingCode := Payload_BillingCode i; Tenant_Address := Payload_Address i;
     Tenant_LoginDomain := NormalizeTenantDomain (Payload_LoginDomain i); Tenant_CreatedAt := created |}.

Definition tenant_audit (action verb id : string) (t : Tenant) (meta : fields) : AuditEntry :=
  {| Audit_ActorType := ""; Audit_ActorID := ""; Audit_ActorName := "";
     Audit_Action := action; Audit_TargetType := "tenant"; Audit_TargetID := id; Audit_TenantID := id;
     Audit_Severity := ""; Audit_Details := (verb +:+ " tenant " +:+ Tenant_Name t)%string;
     Audit_Metadata := meta |}.

Definition listTenants : M response :=
  authorized cfg ActionTenantsRead [] (
    if has_db cfg then
      list ← ask DbListTenants;
      mret (match list with
            | Err _ => failed 500 "failed to list tenants"
            | Ok list => Reply 200 (TenantsBody list)
            end)
    else list ← ask MemListTenants; mret (Reply 200 (TenantsBody list))).

Definition tenant_created (t : Tenant) : M response :=
  _ ← recordAudit cfg (tenant_audit "tenant.create" "Created" (Tenant_ID t) t (tenantAuditMetadata t));
  mret (Reply 200 (TenantBody t)).

Definition createTenant (r : request) : M response :=
  authorized cfg ActionTenantsWrite [] (
    match as_tenant (Body r) with
    | None => mret (failed 400 "invalid json")
    | Some i =>
        if String.eqb (TrimSpace (Payload_Name i)) "" then mret (failed 400 "name required")
        else if has_db cfg then
          res ← ask (DbCreateTenant (tenant_from (Payload_ID i) zero_time i));
          match res with
          | Err _ => mret (failed 500 "failed to create tenant")
          | Ok tn =>
              _ ← (if has_created_callback cfg then ask (TenantCreated (Tenant_ID tn)) else mret tt);
              tenant_created tn
          end
        else
          res ← ask (MemCreateTenant (tenant_from (Payload_ID i) zero_time i));
          match res with
          | Err _ => mret (failed 500 "failed to create tenant")
          | Ok t => tenant_created t
          end
    end).

Definition handleTenants (r : request) : M response :=
  requireTenancyEnabled cfg (
    match Method r with
    | GET => listTenants
    | POST => createTenant r
    | _ => mret MethodNotAllowed
    end).

Definition getTenant (id : string) : M response :=
  authorized cfg ActionTenantsRead [id] (
    if has_db cfg then
      tn ← ask (DbGetTenant id);
      mret (match tn with
            | Err _ => failed 404 "tenant not found"
            | Ok tn => Reply 200 (TenantBody tn)
            end)
    else
      existing ← ask (MemGetTenant id);
      mret (match existing with
            | None => failed 404 "tenant not found"
            | Some t => Reply 200 (TenantBody t)
            end)).

(** [before] is the tenant that was read, [t] the one that was written. *)
Definition tenant_updated (before t : Tenant) : M response :=
  _ ← recordAudit cfg (tenant_audit "tenant.update" "Updated" (Tenant_ID t) t
        [("before", FMap (tenantAuditMetadata before)); ("after", FMap (tenantAuditMetadata t))]);
  mret (Reply 200 (TenantBody t)).

Definition putTenant (id : string) (r : request) : M response :=
  authorized cfg ActionTenantsWrite [id] (
    match as_tenant (Body r) with
    | None => mret (failed 400 "invalid json")
    | Some i =>
        if String.eqb (TrimSpace (Payload_Name i)) "" then mret (failed 400 "name required")
        else if has_db cfg then
          tn ← ask (DbGetTenant id);
          match tn with
          | Err _ => mret (failed 404 "tenant not found")
          | Ok before =>
              res ← ask (DbUpdateTenant (tenant_from (Tenant_ID before) (Tenant_CreatedAt before) i));
              match res with
              | Err _ => mret (failed 500 "failed to update tenant")
              | Ok tn => tenant_updated before tn
              end
          end
        else
          existing ← ask (MemGetTenant id);
          match existing with
          | None => mret (failed 404 "tenant not found")
          | Some existing =>
              res ← ask (MemUpdateTenant (tenant_from (Tenant_ID existing) (Tenant_CreatedAt existing) i));
              match res with
              | Err _ => mret (failed 500 "failed to update tenant")
              | Ok t => tenant_updated existing t
              end
          end
    end).

Definition forced (r : request) : bool := bool_decide (Query r !! "force" = Some "true").

Definition deleteTenant (id : string) (r : request) : M response :=
  authorized cfg ActionTenantsWrite [id] (
    if negb (has_db cfg) then mret (failed 501 "tenant deletion requires database storage")
    else
      count ← ask (DbCountTenantAgents id);
      match count with
      | Err _ => mret (failed 500 "failed to check tenant dependencies")
      | Ok agentCount =>
          if (0 <? agentCount) && negb (forced r) then
            mret (Reply 409 (Fields [("error", FStr "tenant has assigned agents");
              ("agent_count", FInt agentCount);
              ("hint", FStr "Reassign or delete agents first, or use ?force=true to orphan them")]))
          else
            tn ← ask (DbGetTenant id);
            match tn with
            | Err _ => mret (failed 404 "tenant not found")
            | Ok tn =>
                res ← ask (DbDeleteTenant id);
                match res with
                | Some _ => mret (failed 500 "failed to delete tenant")
                | None =>
                    _ ← recordAudit cfg (tenant_audit "tenant.delete" "Deleted" id tn
                          [("name", FStr (Tenant_Name tn)); ("orphaned_agents", FInt agentCount);
                           ("force", FBool (forced r))]);
                    mret (Reply 204 NoBody)
                end
            end
      end).

(** The identifier of the path: up to the next slash, unless that is its first byte. *)
Definition tenant_path_id (path : string) : string :=
  let id := TrimByte (TrimPrefix path "/api/v1/tenants/") "/" in
  match Index id "/" with
  | Some idx => if (0 <? idx)%nat then stake idx id else id
  | None => id
  end.

Definition handleTenantByID (r : request) : M response :=
  requireTenancyEnabled cfg (
    let id := tenant_path_id (Path r) in
    if String.eqb id "" then mret (failed 400 "tenant id required")
    else match Method r with
         | GET => getTenant id
         | PUT => putTenant id r
         | DELETE => deleteTenant id r
         | _ => mret MethodNotAllowed
         end).
End Tenants.

(** ** Join tokens *)

Section JoinTokens.
Context `{GoUnicode} (cfg : Config).

Definition token_audit (action targetID tenantID details : string) (meta : fields) : AuditEntry :=
  {| Audit_ActorType := ""; Audit_ActorID := ""; Audit_ActorName := ""; Audit_Action := action;
     Audit_TargetType := "join_token"; Audit_TargetID := targetID; Audit_TenantID := tenantID;
     Audit_Severity := ""; Audit_Details := details; Audit_Metadata := meta |}.

Definition token_created (targetID raw tenantID : string) (expires : Time) (ttl : Z) (oneTime : bool) : M response :=
  _ ← recordAudit cfg (token_audit "join_token.create" targetID tenantID
        ("Join token created for tenant " +:+ tenantID)%string
        [("ttl_minutes", FInt ttl); ("one_time", FBool oneTime); ("expires_at", FTime expires)]);
  mret (Reply 200 (Fields [("token", FStr raw); ("tenant_id", FStr tenantID); ("expires_at", FTime expires)])).

Definition token_resource (tenantID : string) : list string :=
  if negb (String.eqb (TrimSpace tenantID) "") then [TrimSpace tenantID] else [].

Definition createJoinToken (i : tokenRequest) : M response :=
  let tenantID := token_TenantID i in
  let ttl := if token_TTLMinutes i <=? 0 then 60 else token_TTLMinutes i in
  authorized cfg ActionJoinTokensWrite (token_resource tenantID) (
    if has_db cfg then
      res ← ask (DbCreateJoinToken tenantID ttl (token_OneTime i));
      match res with
      | Err _ => mret (failed 500 "failed to create token")
      | Ok (jt, raw) =>
          token_created (DbToken_ID jt) raw (DbToken_TenantID jt) (DbToken_ExpiresAt jt) ttl (token_OneTime i)
      end
    else
      res ← ask (MemCreateJoinToken tenantID ttl (token_OneTime i));
      match res with
      | Err (Some ErrTenantNotFound) => mret (failed 404 "tenant not found")
      | Err _ => mret (failed 500 "failed to create token")
      | Ok jt =>
          token_created (maskTokenValue (Token jt)) (Token jt) (Token_TenantID jt) (ExpiresAt jt) ttl (token_OneTime i)
      end).

(** The warning on a malformed body is logged without the check for a logger. *)
Definition handleCreateJoinToken (r : request) : M response :=
  requireTenancyEnabled cfg (
    match Method r with
    | POST =>
        match as_token (Body r) with
        | None => mret (if has_logger cfg then failed 400 "invalid json" else Panics)
        | Some i => createJoinToken i
        end
    | _ => mret MethodNotAllowed
    end).

Definition handleListJoinTokens (r : request) : M response :=
  requireTenancyEnabled cfg (
    match Method r with
    | GET =>
        let tenantID := default "" (Query r !! "tenant_id") in
        if String.eqb tenantID "" then mret (failed 400 "tenant_id required")
        else authorized cfg ActionJoinTokensRead [tenantID] (
          if has_db cfg then
            list ← ask (DbListJoinTokens tenantID);
            mret (match list with
                  | Err _ => failed 500 "failed to list tokens"
                  | Ok list => Reply 200 (TokensBody list)
                  end)
          else
            all ← ask MemTokens;
            mret (Reply 200 (MemTokensBody
              (List.filter (fun jt => String.eqb (Token_TenantID jt) tenantID) all))))
    | _ => mret MethodNotAllowed
    end).

Definition token_revoked (targetID : string) : M response :=
  _ ← recordAudit cfg (token_audit "join_token.revoke" targetID "" "Join token revoked" []);
  mret (Reply 200 (Fields [("success", FBool true)])).

Definition handleRevokeJoinToken (r : request) : M response :=
  requireTenancyEnabled cfg (
    match Method r with
    | POST =>
        authorized cfg ActionJoinTokensWrite [] (
          match as_id (Body r) with
          | None => mret (failed 400 "invalid json")
          | Some id =>
              if String.eqb id "" then mret (failed 400 "id required")
              else if has_db cfg then
                res ← ask (DbRevokeJoinToken id);
                match res with
                | Some _ => mret (failed 500 "failed to revoke token")
                | None => token_revoked id
                end
              else
                found ← ask (MemRevoke id);
                if (found : bool) then token_revoked (maskTokenValue id)
                else mret (failed 404 "token not found")
          end)
    | _ => mret MethodNotAllowed
    end).
End JoinTokens.

(** ** Sites *)

Section Sites.
Context `{GoUnicode} (cfg : Config).

Definition with_site (s : Site) (i : sitePayload) : Site :=
  {| Site_ID := Site_ID s; Site_TenantID := Site_TenantID s; Site_Name := TrimSpace (site_Name i);
     Site_Description := TrimSpace (site_Description i); Site_Address := TrimSpace (site_Address i);
     Site_FilterRules := site_FilterRules i; Site_CreatedAt := Site_CreatedAt s;
     Site_AgentCount := Site_AgentCount s; Site_DeviceCount := Site_DeviceCount s |}.

Definition new_site (tenantID : string) (i : sitePayload) : Site :=
  with_site {| Site_ID := ""; Site_TenantID := tenantID; Site_Name := ""; Site_Description := "";
               Site_Address := ""; Site_FilterRules := []; Site_CreatedAt := zero_time;
               Site_AgentCount := 0; Site_DeviceCount := 0 |} i.

Definition with_count (s : Site) (agents : list string) : Site :=
  {| Site_ID := Site_ID s; Site_TenantID := Site_TenantID s; Site_Name := Site_Name s;
     Site_Description := Site_Description s; Site_Address := Site_Address s;
     Site_FilterRules := Site_FilterRules s; Site_CreatedAt := Site_CreatedAt s;
     Site_AgentCount := Z.of_nat (length agents); Site_DeviceCount := Site_DeviceCount s |}.

(** [agentIDs, _ := dbStore.GetSiteAgentIDs(...)]: none when the call fails. *)
Definition siteAgents (siteID : string) : M (list string) :=
  res ← ask (DbSiteAgents siteID);
  mret (value_or [] res).

Fixpoint count_agents (sites : list Site) : M (list Site) :=
  match sites with
  | [] => mret []
  | site :: rest =>
      agentIDs ← siteAgents (Site_ID site);
      rest ← count_agents rest;
      mret (with_count site agentIDs :: rest)
  end.

Definition listSites (tenantID : string) : M response :=
  authorized cfg ActionTenantsRead [tenantID] (with_db cfg (
    sites ← ask (DbListSites tenantID);
    match sites with
    | Err _ => mret (failed 500 "failed to list sites")
    | Ok sites => sites ← count_agents sites; mret (Reply 200 (SitesBody sites))
    end)).

Definition createSite (tenantID : string) (r : request) : M response :=
  authorized cfg ActionTenantsWrite [tenantID] (
    match as_site (Body r) with
    | None => mret (failed 400 "invalid JSON")
    | Some i =>
        if String.eqb (TrimSpace (site_Name i)) "" then mret (failed 400 "name is required")
        else with_db cfg (
          res ← ask (DbCreateSite (new_site tenantID i));
          mret (match res with
                | Err _ => failed 500 "failed to create site"
                | Ok site => Reply 201 (SiteBody site)
                end))
    end).

Definition handleSitesCollection (r : request) (tenantID : string) : M response :=
  match Method r with
  | GET => listSites tenantID
  | POST => createSite tenantID r
  | _ => mret MethodNotAllowed
  end.

(** The site of the tenant; a site of another tenant is not found. *)
Definition tenantSite (tenantID siteID : string) (k : Site -> M response) : M response :=
  with_db cfg (
    site ← ask (DbGetSite siteID);
    match site with
    | Err _ => mret NotFound
    | Ok site => if negb (String.eqb (Site_TenantID site) tenantID) then mret NotFound else k site
    end).

Definition getSite (tenantID siteID : string) : M response :=
  authorized cfg ActionTenantsRead [tenantID] (tenantSite tenantID siteID (fun site =>
    agentIDs ← siteAgents (Site_ID site);
    mret (Reply 200 (SiteBody (with_count site agentIDs))))).

Definition putSite (tenantID siteID : string) (r : request) : M response :=
  authorized cfg ActionTenantsWrite [tenantID] (tenantSite tenantID siteID (fun existing =>
    match as_site (Body r) with
    | None => mret (failed 400 "invalid JSON")
    | Some i =>
        if String.eqb (TrimSpace (site_Name i)) "" then mret (failed 400 "name is required")
        else
          res ← ask (DbUpdateSite (with_site existing i));
          mret (match res with
                | Err _ => failed 500 "failed to update site"
                | Ok site => Reply 200 (SiteBody site)
                end)
    end)).

Definition deleteSite (tenantID siteID : string) : M response :=
  authorized cfg ActionTenantsWrite [tenantID] (tenantSite tenantID siteID (fun _ =>
    res ← ask (DbDeleteSite siteID);
    mret (match res with
          | Some _ => failed 500 "failed to delete site"
          | None => Reply 204 NoBody
          end))).

Definition handleSiteByID (r : request) (tenantID siteID : string) : M response :=
  match Method r with
  | GET => getSite tenantID siteID
  | PUT => putSite tenantID siteID r
  | DELETE => deleteSite tenantID siteID
  | _ => mret MethodNotAllowed
  end.

Definition getSiteAgents (tenantID siteID : string) : M response :=
  authorized cfg ActionTenantsRead [tenantID] (
    res ← ask (DbSiteAgents siteID);
    mret (match res with
          | Err _ => failed 500 "failed to get agents"
          | Ok agentIDs => Reply 200 (Fields [("site_id", FStr siteID); ("agent_ids", FStrs agentIDs)])
          end)).

(** The errors of the single assignments are dropped. *)
Definition putSiteAgents (tenantID siteID : string) (r : request) : M response :=
  authorized cfg ActionTenantsWrite [tenantID] (
    match as_agents (Body r) with
    | None => mret (failed 400 "invalid JSON")
    | Some agentIDs =>
        currentAgentIDs ← siteAgents siteID;
        _ ← each currentAgentIDs (fun agentID =>
              if mem_str agentID agentIDs then mret tt else ask (DbUnassignAgent agentID siteID));
        _ ← each agentIDs (fun agentID =>
              if mem_str agentID currentAgentIDs then mret tt else ask (DbAssignAgent agentID siteID));
        mret (Reply 200 (Fields [("site_id", FStr siteID); ("agent_ids", FStrs agentIDs)]))
    end).

(** The site is read before the request is authorized. *)
Definition handleSiteAgents (r : request) (tenantID siteID : string) : M response :=
  tenantSite tenantID siteID (fun _ =>
    match Method r with
    | GET => getSiteAgents tenantID siteID
    | PUT => putSiteAgents tenantID siteID r
    | _ => mret MethodNotAllowed
    end).

Definition handleSitesSubresource (r : request) (tenantID rest : string) : M response :=
  requireTenancyEnabled cfg (
    let rest := TrimByte rest "/" in
    if String.eqb rest "" then handleSitesCollection r tenantID
    else
      let '(siteID, sub) := SplitN2 rest "/" in
      let subPath := default "" sub in
      if String.eqb subPath "" then handleSiteByID r tenantID siteID
      else if String.eqb subPath "agents" then handleSiteAgents r tenantID siteID
      else mret NotFound).
End Sites.

(** ** Routes below a tenant *)

Section Routes.
Context `{GoUnicode} (cfg : Config).

(** The handlers of other packages, by the name they registered under. *)
Definition Subresource : Type := request -> string -> string -> M response.

Definition normalizeSubresourceName (name : string) : string :=
  ToLower (TrimByte (TrimSpace name) "/").

Definition RegisterTenantSubresource (name : string) (handler : option Subresource)
    (m : gmap string Subresource) : gmap string Subresource :=
  let key := normalizeSubresourceName name in
  if String.eqb key "" then m
  else match handler with None => delete key m | Some h => <[key := h]> m end.

Definition getTenantSubresourceHandler (name : string) (m : gmap string Subresource) : option Subresource :=
  let key := normalizeSubresourceName name in
  if String.eqb key "" then None else m !! key.

(** What [init] registers. *)
Definition sites_registered : gmap string Subresource :=
  RegisterTenantSubresource "sites" (Some (handleSitesSubresource cfg)) ∅.

Definition handleTenantRoute (handlers : gmap string Subresource) (r : request) : M response :=
  requireTenancyEnabled cfg (
    let rest := TrimByte (TrimPrefix (Path r) "/api/v1/tenants/") "/" in
    if String.eqb rest "" then mret NotFound
    else
      let '(first, more) := SplitN2 rest "/" in
      let tenantID := TrimSpace first in
      if String.eqb tenantID "" then mret NotFound
      else match more with
           | None => handleTenantByID cfg r
           | Some more =>
               let subPath := TrimByte more "/" in
               if String.eqb subPath "" then handleTenantByID cfg r
               else
                 let '(resource, remainder) := SplitN2 subPath "/" in
                 match getTenantSubresourceHandler resource handlers with
                 | Some handler => handler r tenantID (default "" remainder)
                 | None => mret NotFound
                 end
           end).
End Routes.
