(* ===== verification/RegistrationApi.v ===== *)
(** * Registration of agents, its review, and install packages
    ([server/tenancy/handlers.go]). *)
From S2P Require Import Prelude GoStrings GoTime Effects Programs Authz Tenancy TenancyCalls TenancyApi.
From Stdlib Require Import Ascii.

(** ** Pending registrations *)

Section Pending.
Context `{GoUnicode} (cfg : Config).

Definition pending_audit (action : string) (id : Z) (details : string) : AuditEntry :=
  {| Audit_ActorType := ""; Audit_ActorID := ""; Audit_ActorName := ""; Audit_Action := action;
     Audit_TargetType := "pending_registration"; Audit_TargetID := pretty id; Audit_TenantID := "";
     Audit_Severity := ""; Audit_Details := details; Audit_Metadata := [] |}.

Definition handlePendingRegistrations (r : request) : M response :=
  requireTenancyEnabled cfg (
    match Method r with
    | GET =>
        authorized cfg ActionAgentsRead [] (
          if negb (has_db cfg) then mret (failed 503 "database not available")
          else
            list ← ask (DbListPending (default "" (Query r !! "status")));
            mret (match list with
                  | Err _ => failed 500 "failed to list pending registrations"
                  | Ok list => Reply 200 (PendingsBody list)
                  end))
    | _ => mret MethodNotAllowed
    end).

(** What the event says of the registration, if it could be read. *)
Definition reg_fields (reg : result string PendingAgentRegistration) : fields :=
  match reg with
  | Err _ => []
  | Ok reg => [("agent_id", FStr (Pending_AgentID reg)); ("name", FStr (Pending_Name reg));
               ("hostname", FStr (Pending_Hostname reg))]
  end.

Definition approvePending (id : Z) (tenantID : string) : M response :=
  if String.eqb tenantID "" then mret (failed 400 "tenant_id required for approval")
  else
    reg ← ask (DbGetPending id);
    res ← ask (DbApprovePending id tenantID "admin");
    match res with
    | Some _ => mret (failed 500 "failed to approve registration")
    | None =>
        jt ← ask (DbCreateJoinToken tenantID (60 * 24) true);
        _ ← emit cfg "pending_registration_approved"
              ([("id", FInt id); ("tenant_id", FStr tenantID); ("status", FStr PendingStatusApproved)]
               ++ reg_fields reg);
        _ ← recordAudit cfg (pending_audit "pending_registration.approve" id
              ("Pending registration approved for tenant " +:+ tenantID)%string);
        mret (Reply 200 (Fields ([("success", FBool true)] ++
          match jt with
          | Ok (jt, rawToken) => [("join_token", FStr rawToken); ("token_expires", FTime (DbToken_ExpiresAt jt))]
          | Err _ => []
          end)))
    end.

Definition rejectPending (id : Z) (notes : string) : M response :=
  reg ← ask (DbGetPending id);
  res ← ask (DbRejectPending id "admin" notes);
  match res with
  | Some _ => mret (failed 500 "failed to reject registration")
  | None =>
      _ ← emit cfg "pending_registration_rejected"
            ([("id", FInt id); ("status", FStr PendingStatusRejected)] ++ reg_fields reg);
      _ ← recordAudit cfg (pending_audit "pending_registration.reject" id "Pending registration rejected");
      mret (Reply 200 (Fields [("success", FBool true)]))
  end.

Definition deletePending (id : Z) : M response :=
  authorized cfg ActionAgentsWrite [] (
    res ← ask (DbDeletePending id);
    match res with
    | Some _ => mret (failed 500 "failed to delete registration")
    | None =>
        _ ← emit cfg "pending_registration_deleted" [("id", FInt id)];
        _ ← recordAudit cfg (pending_audit "pending_registration.delete" id "Pending registration deleted");
        mret (Reply 200 (Fields [("success", FBool true)]))
    end).

Definition getPending (id : Z) : M response :=
  authorized cfg ActionAgentsRead [] (
    reg ← ask (DbGetPending id);
    mret (match reg with
          | Err _ => failed 404 "registration not found"
          | Ok reg => Reply 200 (PendingBody reg)
          end)).

Definition reviewPending (id : Z) (r : request) : M response :=
  authorized cfg ActionAgentsWrite [] (
    match as_review (Body r) with
    | None => mret (failed 400 "invalid json")
    | Some i =>
        if String.eqb (review_Action i) "approve" then approvePending id (review_TenantID i)
        else if String.eqb (review_Action i) "reject" then rejectPending id (review_Notes i)
        else mret (failed 400 "action must be 'approve' or 'reject'")
    end).

(** [strconv.ParseInt(path, 10, 64)] is [parseInt]. *)
Definition handlePendingRegistrationByID (parseInt : string -> option Z) (r : request) : M response :=
  requireTenancyEnabled cfg (
    if negb (has_db cfg) then mret (failed 503 "database not available")
    else
      match parseInt (TrimPrefix (Path r) "/api/v1/pending-registrations/") with
      | None => mret (failed 400 "invalid registration id")
      | Some id =>
          if id <=? 0 then mret (failed 400 "invalid registration id")
          else match Method r with
               | GET => getPending id
               | POST => reviewPending id r
               | DELETE => deletePending id
               | _ => mret MethodNotAllowed
               end
      end).
End Pending.

(** ** Registration of agents *)

Section Registration.
Context `{GoUnicode} (cfg : Config).

Definition agent_audit (i : registration) (name : string -> string) (tenantID action severity details : string)
    (meta : fields) : AuditEntry :=
  {| Audit_ActorType := "agent"; Audit_ActorID := name (in_AgentID i); Audit_ActorName := name (in_Name i);
     Audit_Action := action; Audit_TargetType := ""; Audit_TargetID := ""; Audit_TenantID := tenantID;
     Audit_Severity := severity; Audit_Details := details; Audit_Metadata := meta |}.

(** The metadata of a refusal: never the token itself. *)
Definition denied_meta (i : registration) : fields :=
  [("token_prefix", FStr (maskTokenValue (in_Token i))); ("hostname", FStr (TrimSpace (in_Hostname i)));
   ("platform", FStr (TrimSpace (in_Platform i)))].

Definition denied_audit (i : registration) (details : string) : AuditEntry :=
  agent_audit i TrimSpace "" "agent.register.token" "warn" details (denied_meta i).

Definition registered_audit (i : registration) (tenantID : string) : AuditEntry :=
  agent_audit i (fun s => s) tenantID "agent.register.token" "" "Agent registered via join token"
    [("tenant_id", FStr tenantID); ("protocol_version", FStr (TrimSpace (in_ProtocolVersion i)));
     ("platform", FStr (TrimSpace (in_Platform i))); ("hostname", FStr (TrimSpace (in_Hostname i)));
     ("agent_version", FStr (TrimSpace (in_AgentVersion i)))].

Definition pending_of (r : request) (i : registration) (tokenID tenantID : string) : PendingAgentRegistration :=
  {| Pending_AgentID := in_AgentID i; Pending_Name := in_Name i; Pending_Hostname := in_Hostname i;
     Pending_IP := RemoteAddr r; Pending_Platform := in_Platform i; Pending_AgentVersion := in_AgentVersion i;
     Pending_ProtocolVersion := in_ProtocolVersion i; Pending_ExpiredTokenID := tokenID;
     Pending_ExpiredTenantID := tenantID; Pending_Status := PendingStatusPending |}.

(** A token that is known but expired: the attempt is kept for review. *)
Definition captureExpired (r : request) (i : registration) (tokenID tenantID : string) : M response :=
  res ← ask (DbCreatePending (pending_of r i tokenID tenantID));
  _ ← (match res with
       | Err _ => mret tt
       | Ok pendingID =>
           emit cfg "pending_registration_created"
             [("id", FInt pendingID); ("agent_id", FStr (in_AgentID i)); ("name", FStr (in_Name i));
              ("hostname", FStr (in_Hostname i)); ("platform", FStr (in_Platform i));
              ("agent_version", FStr (in_AgentVersion i)); ("expired_tenant", FStr tenantID);
              ("status", FStr PendingStatusPending)]
       end);
  _ ← recordAudit cfg (agent_audit i TrimSpace "" "agent.register.pending" "info"
        "Agent registration captured: expired token - pending admin review"
        (denied_meta i ++ [("expired_tenant_id", FStr tenantID)]));
  mret (failed 401 "token expired - registration pending admin approval").

Definition denyToken (i : registration) : M response :=
  _ ← recordAudit cfg (denied_audit i "Agent registration denied: invalid or unknown token");
  mret (failed 401 "invalid or expired token").

(** The error of the validation: [errors.As] finds the tenant of the expired token. *)
Definition refuseToken (r : request) (i : registration) (e : token_error) : M response :=
  if IsExpiredToken e then
    match e with
    | TokenValidationError _ tenantID tokenID =>
        if negb (String.eqb tenantID "") then captureExpired r i tokenID tenantID else denyToken i
    | OtherTokenError _ => denyToken i
    end
  else denyToken i.

Definition agent_from (i : registration) (token : string) (registered seen : Time) (tenantID : string) : Agent :=
  {| Agent_AgentID := in_AgentID i; Agent_Name := in_Name i; Agent_Hostname := in_Hostname i;
     Agent_IP := in_IP i; Agent_Platform := in_Platform i; Agent_Version := in_AgentVersion i;
     Agent_ProtocolVersion := in_ProtocolVersion i; Agent_Token := token; Agent_RegisteredAt := registered;
     Agent_LastSeen := seen; Agent_Status := "active"; Agent_OSVersion := in_OSVersion i;
     Agent_GoVersion := in_GoVersion i; Agent_Architecture := in_Architecture i; Agent_NumCPU := in_NumCPU i;
     Agent_TotalMemoryMB := in_TotalMemoryMB i; Agent_BuildType := in_BuildType i;
     Agent_GitCommit := in_GitCommit i; Agent_TenantID := tenantID |}.

Definition registered_fields (tenantID token : string) : fields :=
  [("success", FBool true); ("tenant_id", FStr tenantID); ("agent_token", FStr token)].

(** The response and the audit entry of an accepted registration. *)
Definition finishRegistration (i : registration) (tenantID : string) (resp : fields) : M response :=
  resp ← attachAgentSettings cfg resp tenantID (in_AgentID i);
  _ ← recordAudit cfg (registered_audit i tenantID);
  mret (Reply 200 (Fields resp)).

(** With a database. The token is 32 random bytes in base64. *)
Definition registerInDb (r : request) (i : registration) : M response :=
  res ← ask (DbValidateJoinToken (in_Token i));
  match res with
  | Err e => refuseToken r i e
  | Ok jt =>
      random ← ask (RandomBytes 32);
      match random with
      | None => mret (failed 500 "failed to generate agent token")
      | Some token =>
          registered ← ask Now;
          seen ← ask Now;
          let ag := agent_from i token registered seen (DbToken_TenantID jt) in
          err ← ask (DbRegisterAgent ag);
          match err with
          | Some _ => mret (failed 500 "failed to register agent")
          | None =>
              _ ← emitAgentEvent cfg "agent_registered" ag;
              tenant ← ask (DbGetTenant (DbToken_TenantID jt));
              finishRegistration i (DbToken_TenantID jt)
                (registered_fields (DbToken_TenantID jt) token ++
                 match tenant with Ok t => [("tenant_name", FStr (Tenant_Name t))] | Err _ => [] end)
          end
      end
  end.

(** Without: nothing is stored, and the event does not carry the token. *)
Definition registerInMemory (i : registration) : M response :=
  res ← ask (MemValidateToken (in_Token i));
  match res with
  | Err ErrTokenNotFound | Err ErrTokenExpired =>
      _ ← recordAudit cfg (denied_audit i "Agent registration denied: invalid or expired join token");
      mret (failed 401 "invalid or expired token")
  | Err _ => mret (failed 500 "token validation failed")
  | Ok jt =>
      random ← ask (RandomBytes 32);
      match random with
      | None => mret (failed 500 "failed to generate agent token")
      | Some placeholder =>
          now ← ask Now;
          _ ← emitAgentEvent cfg "agent_registered" (agent_from i "" now now (Token_TenantID jt));
          finishRegistration i (Token_TenantID jt) (registered_fields (Token_TenantID jt) placeholder)
      end
  end.

Definition handleRegisterWithToken (r : request) : M response :=
  match Method r with
  | POST =>
      match as_registration (Body r) with
      | None => mret (failed 400 "invalid json")
      | Some i =>
          if String.eqb (in_Token i) "" || String.eqb (in_AgentID i) ""
          then mret (failed 400 "token and agent_id required")
          else if has_db cfg then registerInDb r i else registerInMemory i
      end
  | _ => mret MethodNotAllowed
  end.
End Registration.

(** ** Packages *)

Section Packages.
Context `{GoUnicode} (cfg : Config).
(** The two script templates, with the server and the token filled in. *)
Context (windowsBootstrapScript unixBootstrapScript : string -> string -> string).

Definition normalizePlatform (input : string) : string :=
  let p := ToLower (TrimSpace input) in
  if mem_str p ["win"; "windows"; "windows_nt"] then "windows"
  else if mem_str p ["mac"; "darwin"; "osx"] then "darwin"
  else if mem_str p ["linux"; ""] then "linux"
  else p.

Definition buildBootstrapScript (platform serverURL token : string) : string * string :=
  if String.eqb (normalizePlatform platform) "windows"
  then (windowsBootstrapScript serverURL token, "install.ps1")
  else (unixBootstrapScript serverURL token, "install.sh").

Definition tenant_known (id : string) : M bool :=
  if has_db cfg then r ← ask (DbGetTenant id); mret (is_ok r)
  else r ← ask (MemGetTenant id); mret (bool_decide (is_Some r)).

(** A token for one use, by the raw text. *)
Definition one_time_token (tenantID : string) (ttl : Z) : M (option string) :=
  if has_db cfg then
    r ← ask (DbCreateJoinToken tenantID ttl true);
    mret (match r with Ok (_, raw) => Some raw | Err _ => None end)
  else
    r ← ask (MemCreateJoinToken tenantID ttl true);
    mret (match r with Ok jt => Some (Token jt) | Err _ => None end).

Definition package_audit (i : packageRequest) (tenantID platform installerType : string) (ttl : Z) : AuditEntry :=
  {| Audit_ActorType := ""; Audit_ActorID := ""; Audit_ActorName := ""; Audit_Action := "package.generate";
     Audit_TargetType := "install_package"; Audit_TargetID := tenantID; Audit_TenantID := tenantID;
     Audit_Severity := ""; Audit_Details := "Bootstrap package generated";
     Audit_Metadata := [("platform", FStr platform); ("installer_type", FStr installerType);
                        ("format", FStr (ToLower (TrimSpace (package_Format i)))); ("ttl_minutes", FInt ttl)] |}.

Definition one_time_download (r : request) : bool :=
  match Query r !! "one_time_download" with
  | Some v => let v := ToLower (TrimSpace v) in negb (String.eqb v "false" || String.eqb v "0")
  | None => true
  end.

(** The command line is left out of the response. *)
Definition hostScript (r : request) (serverURL script filename : string) (ttl : Z) : M response :=
  random ← ask (RandomBytes 12);
  now ← ask Now;
  let code := randomHex random in
  let e := {| Script := script; Filename := filename; Install_ExpiresAt := Add now (dmul ttl Minute);
              Install_OneTime := one_time_download r |} in
  _ ← ask (PutInstall code e);
  mret (Reply 200 (Fields [("script", FStr script); ("filename", FStr filename);
    ("download_url", FStr (serverURL +:+ "/install/" +:+ code)%string)])).

Definition generatePackage (i : packageRequest) (r : request) : M response :=
  let tenantID := TrimSpace (package_TenantID i) in
  if String.eqb tenantID "" then mret (failed 400 "tenant_id required")
  else
    let ttl := if package_TTLMinutes i <=? 0 then 10 else package_TTLMinutes i in
    let platform := normalizePlatform (package_Platform i) in
    let installerType := ToLower (TrimSpace (package_InstallerType i)) in
    let installerType := if String.eqb installerType "" then "script" else installerType in
    authorized cfg ActionPackagesGenerate [tenantID] (
      known ← tenant_known tenantID;
      if negb known then mret (failed 404 "tenant not found")
      else
        rawToken ← one_time_token tenantID ttl;
        match rawToken with
        | None => mret (failed 500 "failed to create token")
        | Some rawToken =>
            let serverURL := (getEffectiveScheme r +:+ "://" +:+ Host r)%string in
            _ ← recordAudit cfg (package_audit i tenantID platform installerType ttl);
            if String.eqb installerType "script" then
              let '(script, filename) := buildBootstrapScript platform serverURL rawToken in
              if String.eqb script "" || String.eqb filename ""
              then mret (failed 500 "unable to build bootstrap script")
              else hostScript r serverURL script filename ttl
            else mret (failed 400 "unsupported installer_type (only 'script' is supported)")
        end).

Definition handleGeneratePackage (r : request) : M response :=
  requireTenancyEnabled cfg (
    match Method r with
    | POST =>
        match as_package (Body r) with
        | None => mret (failed 400 "invalid json")
        | Some i => generatePackage i r
        end
    | _ => mret MethodNotAllowed
    end).

(** The entry is removed, if for one use, before its expiry is checked. *)
Definition handleInstall (r : request) : M response :=
  let '(code, _) := SplitN2 (TrimPrefix (Path r) "/install/") "/" in
  if String.eqb code "" then mret NotFound
  else
    entry ← ask (TakeInstall code);
    match entry with
    | None => mret NotFound
    | Some entry =>
        now ← ask Now;
        mret (if After now (Install_ExpiresAt entry) then NotFound else Reply 200 (ScriptBody entry))
    end.
End Packages.

(** ** The routes *)

(** The patterns of [RegisterRoutesOnMux]. *)
Inductive endpoint :=
| Tenants | TenantRoute | CreateToken | RegisterWithToken | ListTokens | RevokeToken
| PendingRegistrations | PendingRegistrationByID | GeneratePackage | Install.

Section Serve.
Context `{GoUnicode} (cfg : Config).
Context (windowsBootstrapScript unixBootstrapScript : string -> string -> string).
Context (parseInt : string -> option Z).

Definition serve (e : endpoint) (r : request) : M response :=
  match e with
  | Tenants => handleTenants cfg r
  | TenantRoute => handleTenantRoute cfg (sites_registered cfg) r
  | CreateToken => handleCreateJoinToken cfg r
  | RegisterWithToken => handleRegisterWithToken cfg r
  | ListTokens => handleListJoinTokens cfg r
  | RevokeToken => handleRevokeJoinToken cfg r
  | PendingRegistrations => handlePendingRegistrations cfg r
  | PendingRegistrationByID => handlePendingRegistrationByID cfg parseInt r
  | GeneratePackage => handleGeneratePackage cfg windowsBootstrapScript unixBootstrapScript r
  | Install => handleInstall r
  end.
End Serve.
