(* ===== verification/TenancyAccess.v ===== *)
(** * What the tenancy handlers may do.

    Every call of every handler comes after what allows it ([guarded]): the right
    authorization for the right tenant, the lookup that ties a site to its tenant, the
    token that an agent presented. With the authorizer of Authz this says what a user
    who is not an administrator can change. *)
From S2P Require Import Prelude GoStrings GoTime Effects Programs Authz Tenancy TenancyCalls TenancyApi RegistrationApi.

(** ** Guards *)

Definition may (action : string) (resource : list string) (h : list (event op)) : Prop :=
  Did (Authorized action resource) None ∈ h.

(** The agent presented a token of the tenant. *)
Definition joined (tenantID : string) (h : list (event op)) : Prop :=
  (exists raw jt, Did (DbValidateJoinToken raw) (Ok jt) ∈ h /\ DbToken_TenantID jt = tenantID)
  \/ (exists raw jt, Did (MemValidateToken raw) (Ok jt) ∈ h /\ Token_TenantID jt = tenantID).

(** The site was read and belongs to a tenant that the user may write. *)
Definition own_site (siteID : string) (h : list (event op)) : Prop :=
  exists site, Did (DbGetSite siteID) (Ok site) ∈ h /\ may ActionTenantsWrite [Site_TenantID site] h.

(** The site was found to belong to the tenant: it was read, or listed among the sites
    of the tenant. *)
Definition site_of (tenantID siteID : string) (h : list (event op)) : Prop :=
  (exists asked site, Did (DbGetSite asked) (Ok site) ∈ h /\ Site_TenantID site = tenantID
     /\ (asked = siteID \/ Site_ID site = siteID))
  \/ (exists sites site, Did (DbListSites tenantID) (Ok sites) ∈ h /\ site ∈ sites /\ Site_ID site = siteID).

(** A tenant may be looked up to be shown, changed or packaged, or once an agent
    presented its token. *)
Definition tenant_lookup (tenantID : string) (h : list (event op)) : Prop :=
  may ActionTenantsRead [tenantID] h \/ may ActionTenantsWrite [tenantID] h
  \/ may ActionPackagesGenerate [tenantID] h \/ joined tenantID h.

(** A token made for a package of the tenant. *)
Definition package_token (tenantID raw : string) (h : list (event op)) : Prop :=
  may ActionPackagesGenerate [tenantID] h /\
  ((exists ttl jt, Did (DbCreateJoinToken tenantID ttl true) (Ok (jt, raw)) ∈ h)
   \/ (exists ttl jt, Did (MemCreateJoinToken tenantID ttl true) (Ok jt) ∈ h /\ Token jt = raw)).

Section Guards.
Context `{GoUnicode} (win unix : string -> string -> string).

Definition token_allowed (tenantID : string) (ttl : Z) (oneTime : bool) (h : list (event op)) : Prop :=
  0 < ttl /\
  (may ActionJoinTokensWrite (token_resource tenantID) h
   \/ (oneTime = true /\ may ActionPackagesGenerate [tenantID] h)
   \/ (oneTime = true /\ may ActionAgentsWrite [] h
       /\ exists id, Did (DbApprovePending id tenantID "admin") None ∈ h)).

(** [r] is the request; [h] are the calls so far. *)
Definition guarded (r : request) (h : list (event op)) (e : event op) : Prop :=
  match e with Did o a =>
    match o in op A return A -> Prop with
    | DbListTenants | MemListTenants => fun _ => may ActionTenantsRead [] h
    | DbCreateTenant t | MemCreateTenant t => fun _ =>
        may ActionTenantsWrite [] h /\ TrimSpace (Tenant_Name t) <> ""
    | DbUpdateTenant t => fun _ => exists id old,
        may ActionTenantsWrite [id] h /\ Did (DbGetTenant id) (Ok old) ∈ h
        /\ Tenant_ID t = Tenant_ID old /\ Tenant_CreatedAt t = Tenant_CreatedAt old
        /\ TrimSpace (Tenant_Name t) <> ""
    | MemUpdateTenant t => fun _ => exists id old,
        may ActionTenantsWrite [id] h /\ Did (MemGetTenant id) (Some old) ∈ h
        /\ Tenant_ID t = Tenant_ID old /\ Tenant_CreatedAt t = Tenant_CreatedAt old
        /\ TrimSpace (Tenant_Name t) <> ""
    | DbDeleteTenant id => fun _ =>
        may ActionTenantsWrite [id] h
        /\ exists n, Did (DbCountTenantAgents id) (Ok n) ∈ h /\ (0 < n -> forced r = true)
    | DbGetTenant id | MemGetTenant id => fun _ => tenant_lookup id h
    | DbCountTenantAgents id => fun _ => may ActionTenantsWrite [id] h
    | DbListPending _ => fun _ => may ActionAgentsRead [] h
    | DbGetPending id => fun _ => (may ActionAgentsRead [] h \/ may ActionAgentsWrite [] h) /\ 0 < id
    | DbListJoinTokens id => fun _ => may ActionJoinTokensRead [id] h
    | MemTokens => fun _ => exists id, may ActionJoinTokensRead [id] h
    | DbCreateJoinToken tenantID ttl oneTime | MemCreateJoinToken tenantID ttl oneTime => fun _ =>
        token_allowed tenantID ttl oneTime h
    | DbRevokeJoinToken _ | MemRevoke _ => fun _ => may ActionJoinTokensWrite [] h
    | DbApprovePending id _ _ | DbRejectPending id _ _ | DbDeletePending id => fun _ =>
        may ActionAgentsWrite [] h /\ 0 < id
    | DbCreatePending p => fun _ => exists raw tokenID,
        Did (DbValidateJoinToken raw)
            (Err (TokenValidationError ErrExpired (Pending_ExpiredTenantID p) tokenID)) ∈ h
        /\ Pending_ExpiredTenantID p <> ""
    | DbRegisterAgent a => fun _ =>
        joined (Agent_TenantID a) h /\ Did (RandomBytes 32) (Some (Agent_Token a)) ∈ h
        /\ Agent_AgentID a <> ""
    | BuildSettings tenantID _ => fun _ => joined tenantID h
    | DbListSites id => fun _ => may ActionTenantsRead [id] h
    | DbSiteAgents id => fun _ =>
        exists tenantID, (may ActionTenantsRead [tenantID] h \/ may ActionTenantsWrite [tenantID] h)
          /\ site_of tenantID id h
    | DbCreateSite s => fun _ => may ActionTenantsWrite [Site_TenantID s] h /\ Site_Name s <> ""
    | DbUpdateSite s => fun _ => exists id old,
        Did (DbGetSite id) (Ok old) ∈ h /\ may ActionTenantsWrite [Site_TenantID old] h
        /\ Site_ID s = Site_ID old /\ Site_TenantID s = Site_TenantID old /\ Site_Name s <> ""
    | DbDeleteSite id => fun _ => own_site id h
    | DbAssignAgent _ id | DbUnassignAgent _ id => fun _ => own_site id h
    | PutInstall _ e => fun _ => exists tenantID raw platform server,
        package_token tenantID raw h
        /\ Script e = (buildBootstrapScript win unix platform server raw).1
    | _ => fun _ => True
    end a
  end.
End Guards.

Section Guarded.
Context `{GoUnicode} (cfg : Config) (win unix : string -> string -> string) (parseInt : string -> option Z).
Context (r : request).
Notation P := (guarded win unix r).
Notation ok m := (forall h, wp P h m (fun _ _ => True)).

Lemma wp_authorized h action resource k :
  wp P (h ++ [Did (Authorized action resource) None]) k (fun _ _ => True) ->
  wp P h (authorized cfg action resource k) (fun _ _ => True).
Proof.
  intros Hk. unfold authorized, authorizeOrReject. destruct (negb _); [done|].
  apply wp_bind. intros [[]|]; split; done.
Qed.

Lemma wp_recordAudit e : ok (recordAudit cfg e).
Proof. intros h. unfold recordAudit. by destruct (has_audit cfg). Qed.

Lemma wp_emit k d : ok (emit cfg k d).
Proof. intros h. unfold emit. by destruct (has_sink cfg). Qed.

Lemma wp_emitAgentEvent k a : ok (emitAgentEvent cfg k a).
Proof.
  intros h. unfold emitAgentEvent. destruct (negb _); [done|].
  apply wp_bind. by destruct (IsZero _).
Qed.

Lemma nonblank s : String.eqb s "" = false -> s <> "".
Proof. apply String.eqb_neq. Qed.
Hint Resolve nonblank : history.

Lemma delete_allowed n b : (0 <? n) && negb b = false -> 0 < n -> b = true.
Proof. intros [Hn|Hb]%andb_false_iff ?; [reflect_bools; lia | by apply negb_false_iff]. Qed.
Hint Resolve delete_allowed : history.

Lemma joined_db raw jt h : Did (DbValidateJoinToken raw) (Ok jt) ∈ h -> joined (DbToken_TenantID jt) h.
Proof. left. by exists raw, jt. Qed.
Lemma joined_mem raw jt h : Did (MemValidateToken raw) (Ok jt) ∈ h -> joined (Token_TenantID jt) h.
Proof. right. by exists raw, jt. Qed.

Lemma positive_id z : (z <=? 0) = false -> 0 < z.
Proof. apply Z.leb_gt. Qed.
Hint Resolve positive_id : history.

Lemma ttl_positive d z : 0 < d -> 0 < (if z <=? 0 then d else z).
Proof. destruct (z <=? 0) eqn:Hz; reflect_bools; lia. Qed.

(** A step that calls nothing of interest, and the history it leaves. *)
Ltac quiet L := eapply wp_seq; [apply L|]; intros ? [] ? _.

Ltac guard_step :=
  first
  [ wp_step
  | match goal with
    | |- wp _ _ (authorized _ _ _ _) _ => apply wp_authorized
    | |- wp _ _ (recordAudit _ _ ≫= _) _ => quiet wp_recordAudit
    | |- wp _ _ (emit _ _ _ ≫= _) _ => quiet wp_emit
    | |- wp _ _ (emitAgentEvent _ _ _ ≫= _) _ => quiet wp_emitAgentEvent
    | |- True => exact I
    | |- guarded _ _ _ _ _ => cbn [guarded]
    | |- _ /\ _ => split
    | |- String.eqb _ _ = false -> _ => intros ?%String.eqb_neq
    end ].
Ltac guards :=
  repeat guard_step; subst; unfold own_site, tenant_lookup; unfold may in *;
  repeat match goal with |- exists _, _ => eexists end; split_and?; try in_history; eauto 6 with history.


Lemma handleTenants_guarded : ok (handleTenants cfg r).
Proof.
  intros h. unfold handleTenants, requireTenancyEnabled, listTenants, createTenant, tenant_created.
  guards.
Qed.

Lemma handleTenantByID_guarded : ok (handleTenantByID cfg r).
Proof.
  intros h. unfold handleTenantByID, requireTenancyEnabled, getTenant, putTenant, deleteTenant, tenant_updated.
  guards.
Qed.

Lemma handleCreateJoinToken_guarded : ok (handleCreateJoinToken cfg r).
Proof.
  intros h. unfold handleCreateJoinToken, requireTenancyEnabled, createJoinToken, token_created.
  guards; (split; [by apply ttl_positive | unfold may; eauto with history]).
Qed.

Lemma handleListJoinTokens_guarded : ok (handleListJoinTokens cfg r).
Proof. intros h. unfold handleListJoinTokens, requireTenancyEnabled. guards. Qed.

Lemma handleRevokeJoinToken_guarded : ok (handleRevokeJoinToken cfg r).
Proof. intros h. unfold handleRevokeJoinToken, requireTenancyEnabled, token_revoked. guards. Qed.

Lemma handlePendingRegistrations_guarded : ok (handlePendingRegistrations cfg r).
Proof. intros h. unfold handlePendingRegistrations, requireTenancyEnabled. guards. Qed.

Lemma handlePendingRegistrationByID_guarded : ok (handlePendingRegistrationByID cfg parseInt r).
Proof.
  intros h. unfold handlePendingRegistrationByID, requireTenancyEnabled, getPending, reviewPending,
    deletePending, approvePending, rejectPending.
  guards. split; [done|]. right; right. unfold may. split_and!; eauto 8 with history.
Qed.

Lemma handleRegisterWithToken_guarded : ok (handleRegisterWithToken cfg r).
Proof.
  intros h. unfold handleRegisterWithToken, registerInDb, registerInMemory, refuseToken, captureExpired,
    denyToken, finishRegistration, attachAgentSettings.
  repeat guard_step; subst; cbn [agent_from pending_of Agent_TenantID Agent_Token Agent_AgentID
    Pending_ExpiredTenantID] in *; reflect_bools; auto 7 with history.
  - eapply joined_db. in_history.
  - right; right; right. eapply joined_db. in_history.
  - eapply joined_db. in_history.
  - destruct Err; try done. do 2 eexists. split; [in_history | done].
  - eapply joined_mem. in_history.
Qed.

(** What is known of the sites of a tenant does not get lost. *)
Lemma site_of_mono t id h h' : h `prefix_of` h' -> site_of t id h -> site_of t id h'.
Proof.
  intros Hp [(asked & site & Hs & Ht)|(sites & site & Hs & Hin)];
    [left; exists asked, site | right; exists sites, site]; (split; [|done]); eauto with history.
Qed.

Lemma wp_siteAgents h id (Q : list (event op) -> list string -> Prop) :
  (exists t, (may ActionTenantsRead [t] h \/ may ActionTenantsWrite [t] h) /\ site_of t id h) ->
  (forall h' l, h `prefix_of` h' -> Q h' l) -> wp P h (siteAgents id) Q.
Proof.
  intros Hm HQ. unfold siteAgents. apply wp_ask_bind; [done|]. intros b. apply wp_ret, HQ.
  by apply prefix_app_r.
Qed.

Lemma wp_count_agents h t sites :
  may ActionTenantsRead [t] h -> Forall (fun s => site_of t (Site_ID s) h) sites ->
  wp P h (count_agents sites) (fun _ _ => True).
Proof.
  revert h. induction sites as [|s sites IH]; intros h Hm Hall; cbn [count_agents]; [done|].
  apply Forall_cons in Hall as [Hs Hall].
  apply wp_bind. apply wp_siteAgents; [by exists t; auto|]. intros h' l Hp.
  eapply wp_seq; [|done]. apply IH; [unfold may in *; eauto with history|].
  eapply Forall_impl; [exact Hall|]. intros s' ?. by eapply site_of_mono.
Qed.

Lemma listSites_guarded t : ok (listSites cfg t).
Proof.
  intros h. unfold listSites, with_db. guards. eapply wp_seq; [|done].
  apply (wp_count_agents _ t); [unfold may; in_history|]. apply Forall_forall. intros s Hs.
  right. exists a, s. split_and!; [in_history | done | done].
Qed.

Lemma createSite_guarded t : ok (createSite cfg t r).
Proof. intros h. unfold createSite, with_db. guards. Qed.

(** The site that was found belongs to the tenant. *)
Lemma wp_tenantSite h t id k :
  (forall h' site, h `prefix_of` h' -> Did (DbGetSite id) (Ok site) ∈ h' -> Site_TenantID site = t ->
    wp P h' (k site) (fun _ _ => True)) ->
  wp P h (tenantSite cfg t id k) (fun _ _ => True).
Proof.
  intros Hk. unfold tenantSite, with_db. destruct (has_db cfg); [|done].
  apply wp_ask_bind; [done|]. intros [site|e]; [|done].
  destruct (negb _) eqn:Ht; [done|]. apply negb_false_iff, String.eqb_eq in Ht.
  apply Hk; [by apply prefix_app_r | auto with history | done].
Qed.

Lemma handleSiteByID_guarded t id : ok (handleSiteByID cfg r t id).
Proof.
  intros h. unfold handleSiteByID, getSite, putSite, deleteSite.
  destruct (Method r); guards; apply wp_tenantSite; intros h' site Hp Hsite Ht.
  - apply wp_bind. apply wp_siteAgents; [|done]. exists t. split; [left; unfold may; in_history|].
    left. exists id, site. auto.
  - guards.
  - guards.
Qed.

Lemma handleSiteAgents_guarded t id : ok (handleSiteAgents cfg r t id).
Proof.
  intros h. unfold handleSiteAgents. apply wp_tenantSite. intros h' site Hp Hsite Ht.
  assert (Hof : forall h2, h' `prefix_of` h2 -> site_of t id h2).
  { intros h2 Hp2. apply (site_of_mono t id h'); [done|]. left. exists id, site. auto. }
  unfold getSiteAgents, putSiteAgents. guards.
  { apply Hof. by apply prefix_app_r. }
  apply wp_bind. apply wp_siteAgents.
  { eexists. split; [right; unfold may; in_history|]. apply Hof. by apply prefix_app_r. }
  intros h2 current Hp2.
  do 2 (eapply wp_seq; [apply wp_each; intros ? x ? _; guards | intros ? [] ? _]). done.
Qed.

Lemma handleSitesSubresource_guarded t rest : ok (handleSitesSubresource cfg r t rest).
Proof.
  intros h. unfold handleSitesSubresource, requireTenancyEnabled, handleSitesCollection.
  guards; auto using listSites_guarded, createSite_guarded, handleSiteByID_guarded, handleSiteAgents_guarded.
Qed.

(** The only handler that the package registers. *)
Lemma registered_handler name f :
  getTenantSubresourceHandler name (sites_registered cfg) = Some f -> f = handleSitesSubresource cfg.
Proof.
  unfold getTenantSubresourceHandler, sites_registered, RegisterTenantSubresource.
  destruct (String.eqb _ _); [done|]. destruct (String.eqb _ _); [done|].
  intros [[_ <-]|[_ Hf]]%lookup_insert_Some; [done|]. by rewrite lookup_empty in Hf.
Qed.

Lemma handleTenantRoute_guarded : ok (handleTenantRoute cfg (sites_registered cfg) r).
Proof.
  intros h. unfold handleTenantRoute, requireTenancyEnabled.
  guards; auto using handleTenantByID_guarded.
  match goal with H : getTenantSubresourceHandler _ _ = _ |- _ => apply registered_handler in H as -> end.
  apply handleSitesSubresource_guarded.
Qed.

Lemma handleGeneratePackage_guarded : ok (handleGeneratePackage cfg win unix r).
Proof.
  intros h. unfold handleGeneratePackage, requireTenancyEnabled, generatePackage, tenant_known, one_time_token, hostScript.
  repeat guard_step; subst; unfold tenant_lookup, may in *; try in_history; auto.
  - right; right; left. in_history.
  - split; [by apply ttl_positive | right; left; split; [done | unfold may; in_history]].
  - do 4 eexists. split; [|match goal with E : buildBootstrapScript _ _ _ _ _ = _ |- _ => exact (eq_sym (f_equal fst E)) end].
    split; [unfold may; in_history | left].
    destruct b0 as [[jt ?]|?]; [simplify_eq; do 2 eexists; in_history | done].
  - right; right; left. in_history.
  - split; [by apply ttl_positive | right; left; split; [done | unfold may; in_history]].
  - do 4 eexists. split; [|match goal with E : buildBootstrapScript _ _ _ _ _ = _ |- _ => exact (eq_sym (f_equal fst E)) end].
    split; [unfold may; in_history | right].
    destruct b0 as [jt|?]; [simplify_eq; do 2 eexists; split; [in_history | done] | done].
Qed.

Lemma handleInstall_guarded : ok (handleInstall r).
Proof. intros h. unfold handleInstall. guards. Qed.

Lemma serve_guarded ep : ok (serve cfg win unix parseInt ep r).
Proof.
  destruct ep; simpl; auto using handleTenants_guarded, handleTenantRoute_guarded, handleCreateJoinToken_guarded,
    handleRegisterWithToken_guarded, handleListJoinTokens_guarded, handleRevokeJoinToken_guarded,
    handlePendingRegistrations_guarded, handlePendingRegistrationByID_guarded, handleGeneratePackage_guarded,
    handleInstall_guarded.
Qed.
End Guarded.

(** ** With the authorizer of Authz *)

(** The authorizer of the environment is [Authorize] for the subject of the request. *)
Definition authorizes `{GoUnicode} {W} (env : environment op W) (s : Subject) : Prop :=
  forall action resource w, (env _ (Authorized action resource) w).1 =
    match Authorize s action {| TenantIDs := resource |} with Ok _ => None | Err _ => Some false end.

Lemma may_granted `{GoUnicode} {W} (env : environment op W) s {A} (m : M A) w action resource :
  authorizes env s -> may action resource (history env m w) ->
  Authorize s action {| TenantIDs := resource |} = Ok ().
Proof.
  intros Henv Hm. apply run_answers in Hm as [w' Hw]. rewrite Henv in Hw.
  by destruct (Authorize s action _) as [[]|].
Qed.

(** The calls that change tenants and sites, revoke tokens or list tokens. *)
Definition admin_call (e : event op) : Prop :=
  match e with Did o _ =>
    match o with
    | DbListTenants | MemListTenants | DbCreateTenant _ | MemCreateTenant _ | DbUpdateTenant _
    | MemUpdateTenant _ | DbDeleteTenant _ | DbListJoinTokens _ | MemTokens | DbRevokeJoinToken _
    | MemRevoke _ | DbListSites _ | DbSiteAgents _ | DbCreateSite _ | DbUpdateSite _ | DbDeleteSite _
    | DbAssignAgent _ _ | DbUnassignAgent _ _ => True
    | _ => False
    end
  end.

Lemma admin_call_guard `{GoUnicode} win unix r h e :
  guarded win unix r h e -> admin_call e ->
  exists action resource, action ∈ admin_only /\ may action resource h.
Proof.
  destruct e as [B o b]. destruct o; simpl; try done; unfold own_site; intros Hg _; destruct_and?;
    repeat match goal with
      | H : exists _, _ |- _ => destruct H
      | H : _ /\ _ |- _ => destruct H
      | H : _ \/ _ |- _ => destruct H
      end;
    (do 2 eexists; split; [|eassumption]); apply admin_action; reflexivity.
Qed.

(** ** A database for examples

    It has every tenant, site and registration that is asked for, accepts the token
    ["good"] for tenant ["t1"], and knows ["old"] as expired. *)
Section Demo.
Context `{GoUnicode}.

Definition demo_tenant (id : string) : Tenant :=
  {| Tenant_ID := id; Tenant_Name := "Tenant"; Tenant_Description := ""; Tenant_ContactName := "";
     Tenant_ContactEmail := ""; Tenant_ContactPhone := ""; Tenant_BusinessUnit := "";
     Tenant_BillingCode := ""; Tenant_Address := ""; Tenant_LoginDomain := ""; Tenant_CreatedAt := 7 |}.

Definition demo_token (tenantID : string) (oneTime : bool) : DbToken :=
  {| DbToken_ID := "tok"; DbToken_Hash := "hash"; DbToken_TenantID := tenantID; DbToken_ExpiresAt := 90;
     DbToken_OneTime := oneTime; DbToken_CreatedAt := 10; DbToken_UsedAt := 0; DbToken_Revoked := false |}.

Definition demo_site (id : string) : Site :=
  {| Site_ID := id; Site_TenantID := "t1"; Site_Name := "Site"; Site_Description := ""; Site_Address := "";
     Site_FilterRules := []; Site_CreatedAt := 7; Site_AgentCount := 0; Site_DeviceCount := 0 |}.

Definition demo_pending : PendingAgentRegistration :=
  {| Pending_AgentID := "a9"; Pending_Name := "Nine"; Pending_Hostname := "h9"; Pending_IP := "10.0.0.9";
     Pending_Platform := "linux"; Pending_AgentVersion := "1.0"; Pending_ProtocolVersion := "1";
     Pending_ExpiredTokenID := "tok"; Pending_ExpiredTenantID := "t1"; Pending_Status := PendingStatusPending |}.

Definition demo_validate (raw : string) : result token_error DbToken :=
  if String.eqb raw "good" then Ok (demo_token "t1" true)
  else if String.eqb raw "old" then Err (TokenValidationError ErrExpired "t1" "tok")
  else Err (TokenValidationError ErrInvalid "" "").

Definition demo_env (s : Subject) : environment op unit := fun B o w =>
  (match o in op B return B with
   | Authorized action resource =>
       match Authorize s action {| TenantIDs := resource |} with Ok _ => None | Err _ => Some false end
   | DbListTenants => Ok [demo_tenant "t1"]
   | DbCreateTenant t | DbUpdateTenant t => Ok t
   | DbGetTenant id => Ok (demo_tenant id)
   | DbCountTenantAgents _ => Ok 0
   | DbCreateJoinToken tenantID _ oneTime => Ok (demo_token tenantID oneTime, "raw")
   | DbListJoinTokens tenantID => Ok [demo_token tenantID false]
   | DbValidateJoinToken raw => demo_validate raw
   | DbListPending _ => Ok [demo_pending]
   | DbGetPending _ => Ok demo_pending
   | DbCreatePending _ => Ok 5
   | DbListSites _ => Ok [demo_site "s1"]
   | DbGetSite id => Ok (demo_site id)
   | DbSiteAgents _ => Ok ["a1"; "a2"]
   | DbCreateSite s | DbUpdateSite s => Ok s
   | DbDeleteTenant _ | DbRevokeJoinToken _ | DbApprovePending _ _ _ | DbRejectPending _ _ _
   | DbDeletePending _ | DbRegisterAgent _ | DbDeleteSite _ => None
   | DbAssignAgent _ _ | DbUnassignAgent _ _ | PutInstall _ _ | Emit _ _ | TenantCreated _ | Audit _ => tt
   | MemListTenants => []
   | MemCreateTenant _ | MemUpdateTenant _ => Err ErrTenantNotFound
   | MemGetTenant _ => None
   | MemCreateJoinToken _ _ _ => Err None
   | MemTokens => []
   | MemRevoke _ => false
   | MemValidateToken _ => Err ErrTokenNotFound
   | TakeInstall _ => None
   | RandomBytes _ => Some "fresh"
   | Now => 40
   | BuildSettings _ _ => Ok ("v1", Some "{}")
   end, w).

Lemma demo_authorizes s : authorizes (demo_env s) s.
Proof. done. Qed.

Definition demo_config : Config :=
  {| has_db := true; tenancyEnabled := true; has_authorizer := true; has_logger := true; has_audit := true;
     has_sink := true; has_builder := true; has_created_callback := true |}.

Definition no_body : body :=
  {| as_tenant := None; as_token := None; as_id := None; as_review := None; as_registration := None;
     as_site := None; as_agents := None; as_package := None |}.

Definition demo_request (m : method) (path : string) (b : body) : request :=
  {| Method := m; Path := path; Query := ∅; Body := b; RemoteAddr := "10.0.0.5:4000"; Host := "server";
     Header := fun _ => ""; TLS := true |}.

Definition approve_for (tenantID : string) : request :=
  demo_request POST "/api/v1/pending-registrations/5"
    {| as_tenant := None; as_token := None; as_id := None;
       as_review := Some {| review_Action := "approve"; review_TenantID := tenantID; review_Notes := "" |};
       as_registration := None; as_site := None; as_agents := None; as_package := None |}.

Definition register_with (token : string) : request :=
  demo_request POST "/api/v1/agents/register-with-token"
    {| as_tenant := None; as_token := None; as_id := None; as_review := None;
       as_registration := Some {| in_Token := token; in_AgentID := "a9"; in_Name := "Nine"; in_AgentVersion := "1.0";
         in_ProtocolVersion := "1"; in_Hostname := "h9"; in_IP := "10.0.0.9"; in_Platform := "linux";
         in_OSVersion := ""; in_GoVersion := ""; in_Architecture := ""; in_NumCPU := 4; in_TotalMemoryMB := 0;
         in_BuildType := ""; in_GitCommit := "" |};
       as_site := None; as_agents := None; as_package := None |}.

Definition put_agents (agents : list string) : request :=
  demo_request PUT "/api/v1/tenants/t1/sites/s1/agents"
    {| as_tenant := None; as_token := None; as_id := None; as_review := None; as_registration := None;
       as_site := None; as_agents := Some agents; as_package := None |}.

Definition operator_of (tenants : list string) : Subject :=
  {| Role := RoleOperator; AllowedTenantIDs := tenants; IsAdmin := false |}.
Definition administrator : Subject := {| Role := RoleAdmin; AllowedTenantIDs := []; IsAdmin := true |}.

Definition demo_serve : endpoint -> request -> M response :=
  serve demo_config (fun _ _ => "ps1") (fun _ _ => "sh") (fun _ => Some 5).
End Demo.

Section Access.
Context `{GoUnicode} (cfg : Config) (win unix : string -> string -> string) (parseInt : string -> option Z).
Notation serve := (serve cfg win unix parseInt).

(** C9: Whatever the database, the authorizer and the clock answer and whatever other
    requests do in between, these calls of a request come only after what allows them:
    listing, reading and counting after the authorization for the list or the tenant (a
    tenant is also read for a package of it and for an agent that presented its token; a
    site's agents only where the site was found to belong to the tenant); a change of a
    tenant after the authorization for that tenant and with the identifier that was read,
    a deletion only without agents unless it is forced; a site and its assignments only
    within a tenant that may be written and that it was found to belong to; a join token
    only after the authorization for its trimmed tenant, for a package of the tenant or
    after an approval; the review of a pending registration after the permission to write
    agents; an agent only with the tenant of the token it presented and fresh random
    bytes as its own token; a pending registration only for an expired token of a
    tenant; a hosted script only with a token of the package's tenant. Nothing is asked
    before the check of a presented token, the lookup of a one-time script, the read of
    one site (for the agents of a site it comes before the authorization), and the audit
    entries and events. *)
Theorem requests_guarded {W} (env : environment op W) ep r w e :
  e ∈ history env (serve ep r) w ->
  exists before after, history env (serve ep r) w = before ++ e :: after /\ guarded win unix r before e.
Proof. apply wp_call with (Q := fun _ _ => True), serve_guarded. Qed.

(** C10: Who is not an administrator makes no request that reads or changes the list of
    tenants, a site or the assignments of agents, or lists or revokes tokens. A join
    token made for such a user is for one use, and for a tenant of the user or one that
    a registration was approved into; approving takes the permission to write agents. *)
Theorem users_confined {W} (env : environment op W) s ep r w :
  authorizes env s -> Role s <> RoleAdmin -> IsAdmin s = false ->
  let h := history env (serve ep r) w in
  (forall e, e ∈ h -> ~ admin_call e) /\
  (forall tenantID ttl oneTime res, Did (DbCreateJoinToken tenantID ttl oneTime) res ∈ h ->
    oneTime = true /\ (tenantID = "" \/ tenantID ∈ AllowedTenantIDs s
      \/ exists id, Did (DbApprovePending id tenantID "admin") None ∈ h)) /\
  (forall id tenantID name res, Did (DbApprovePending id tenantID name) res ∈ h ->
    roleAllows (Role s) ActionAgentsWrite = true).
Proof.
  intros Henv Hrole Hadmin h.
  assert (Hgrant : forall before e after action resource, h = before ++ e :: after ->
    may action resource before -> Authorize s action {| TenantIDs := resource |} = Ok ()).
  { intros before e after action resource Hh Hm. apply (may_granted env s (serve ep r) w); [done|].
    unfold may in *. fold h. rewrite Hh. apply elem_of_app. by left. }
  assert (Hguard : forall e, e ∈ h -> exists before after, h = before ++ e :: after /\ guarded win unix r before e)
    by (intros e; apply wp_call with (Q := fun _ _ => True), serve_guarded).
  split; [|split].
  - intros e He Ha. destruct (Hguard e He) as (before & after & Hh & Hg).
    destruct (admin_call_guard _ _ _ _ _ Hg Ha) as (action & resource & Hact & Hm).
    eapply Hrole, Authorize_admin_only; eauto.
  - intros tenantID ttl oneTime res He. destruct (Hguard _ He) as (before & after & Hh & _ & Hg).
    destruct Hg as [Hm|[[-> Hm]|(-> & _ & id & Hid)]].
    + exfalso. eapply Hrole, (Authorize_admin_only s ActionJoinTokensWrite); [|by eapply Hgrant].
      by apply admin_action.
    + split; [done|]. eapply Hgrant in Hm; [|done].
      apply Authorize_iff in Hm as [_ [?|Hall]]; [congruence|]. destruct (decide (tenantID = "")); [by left|].
      right; left. apply Hall; [set_solver | done].
    + split; [done|]. right; right. exists id. rewrite Hh. apply elem_of_app. by left.
  - intros id tenantID name res He. destruct (Hguard _ He) as (before & after & Hh & Hg & _).
    eapply Hgrant in Hg; [|done]. by apply Authorize_iff in Hg as [? _].
Qed.
End Access.

(** ** Examples *)

Lemma requests_guarded_witness :
  let h := history (demo_env administrator) (demo_serve RegisterWithToken (register_with "good")) tt in
  let e := Did (BuildSettings "t1" "a9") (Ok ("v1", Some "{}")) in
  e ∈ h /\ exists before after, h = before ++ e :: after
    /\ guarded (fun _ _ => "ps1") (fun _ _ => "sh") (register_with "good") before e.
Proof.
  assert (He : Did (BuildSettings "t1" "a9") (Ok ("v1", Some "{}"))
    ∈ history (demo_env administrator) (demo_serve RegisterWithToken (register_with "good")) tt).
  { vm_compute. do 7 right. left. }
  split; [exact He|].
  exact (requests_guarded demo_config _ _ (fun _ => Some 5) (demo_env administrator) RegisterWithToken _ tt _ He).
Defined.

Lemma users_confined_witness :
  let s := operator_of ["t1"] in
  let h := history (demo_env s) (demo_serve PendingRegistrationByID (approve_for "t1")) tt in
  authorizes (demo_env s) s /\ Role s <> RoleAdmin /\ IsAdmin s = false /\
  (forall e, e ∈ h -> ~ admin_call e).
Proof.
  split; [exact (demo_authorizes _)|]. split; [discriminate|]. split; [reflexivity|].
  exact (proj1 (users_confined demo_config _ _ (fun _ => Some 5) (demo_env (operator_of ["t1"]))
    (operator_of ["t1"]) PendingRegistrationByID (approve_for "t1") tt
    (demo_authorizes _) ltac:(discriminate) eq_refl)).
Defined.

(** An operator of one tenant approves a registration into another and gets a token for
    it, which the operator could not have made directly. *)
Lemma approval_crosses_tenants :
  let s := operator_of ["t1"] in
  outcome (demo_env s) (demo_serve PendingRegistrationByID (approve_for "t2")) tt
    = Reply 200 (Fields [("success", FBool true); ("join_token", FStr "raw"); ("token_expires", FTime 90)])
  /\ Did (DbCreateJoinToken "t2" 1440 true) (Ok (demo_token "t2" true, "raw"))
     ∈ history (demo_env s) (demo_serve PendingRegistrationByID (approve_for "t2")) tt
  /\ Authorize s ActionJoinTokensWrite {| TenantIDs := ["t2"] |} <> Ok ()
  /\ Authorize s ActionAgentsWrite {| TenantIDs := ["t2"] |} <> Ok ().
Proof. split; [reflexivity|]. split; [vm_compute; do 3 right; left | split; discriminate]. Qed.

(** The agents of a site are taken from the request: whether they belong to the tenant
    of the site is not looked up. *)
Lemma foreign_agents_assigned :
  history (demo_env administrator) (demo_serve TenantRoute (put_agents ["a2"; "a9"])) tt =
    [Did (DbGetSite "s1") (Ok (demo_site "s1")); Did (Authorized ActionTenantsWrite ["t1"]) None;
     Did (DbSiteAgents "s1") (Ok ["a1"; "a2"]); Did (DbUnassignAgent "a1" "s1") tt;
     Did (DbAssignAgent "a9" "s1") tt].
Proof. reflexivity. Qed.
