(* ===== verification/TenancyAudit.v ===== *)
(** * The audit trail of the tenancy handlers.

    With an audit log configured, a call that changed something ([audit_due]) is followed
    by an entry that names the change. Sites are the exception. *)
From S2P Require Import Prelude GoStrings GoTime Effects Programs Authz Tenancy TenancyCalls TenancyApi RegistrationApi TenancyAccess.

Definition entry_is (action target : string) (e : AuditEntry) : bool :=
  String.eqb (Audit_Action e) action && String.eqb (Audit_TargetID e) target.

(** What must be recorded after a successful change, if anything. A token is recorded as
    such, or with the package or the approval that it was made for. *)
Definition audit_due `{GoUnicode} (e : event op) : option (AuditEntry -> bool) :=
  match e with Did o a =>
    match o in op A return A -> option (AuditEntry -> bool) with
    | DbCreateTenant _ => fun r =>
        match r with Ok t => Some (entry_is "tenant.create" (Tenant_ID t)) | Err _ => None end
    | MemCreateTenant _ => fun r =>
        match r with Ok t => Some (entry_is "tenant.create" (Tenant_ID t)) | Err _ => None end
    | DbUpdateTenant _ => fun r =>
        match r with Ok t => Some (entry_is "tenant.update" (Tenant_ID t)) | Err _ => None end
    | MemUpdateTenant _ => fun r =>
        match r with Ok t => Some (entry_is "tenant.update" (Tenant_ID t)) | Err _ => None end
    | DbDeleteTenant id => fun r =>
        match r with None => Some (entry_is "tenant.delete" id) | Some _ => None end
    | DbCreateJoinToken tenantID _ _ => fun r =>
        match r with
        | Ok (jt, _) => Some (fun e => entry_is "join_token.create" (DbToken_ID jt) e
                              || entry_is "package.generate" tenantID e
                              || String.eqb (Audit_Action e) "pending_registration.approve")
        | Err _ => None
        end
    | MemCreateJoinToken tenantID _ _ => fun r =>
        match r with
        | Ok jt => Some (fun e => entry_is "join_token.create" (maskTokenValue (Token jt)) e
                         || entry_is "package.generate" tenantID e)
        | Err _ => None
        end
    | DbRevokeJoinToken id => fun r =>
        match r with None => Some (entry_is "join_token.revoke" id) | Some _ => None end
    | MemRevoke token => fun found =>
        if (found : bool) then Some (entry_is "join_token.revoke" (maskTokenValue token)) else None
    | DbApprovePending id _ _ => fun r =>
        match r with None => Some (entry_is "pending_registration.approve" (pretty id)) | Some _ => None end
    | DbRejectPending id _ _ => fun r =>
        match r with None => Some (entry_is "pending_registration.reject" (pretty id)) | Some _ => None end
    | DbDeletePending id => fun r =>
        match r with None => Some (entry_is "pending_registration.delete" (pretty id)) | Some _ => None end
    | DbCreatePending p => fun _ =>
        Some (fun e => String.eqb (Audit_Action e) "agent.register.pending"
                       && String.eqb (Audit_ActorID e) (TrimSpace (Pending_AgentID p)))
    | DbRegisterAgent a => fun r =>
        match r with
        | None => Some (fun e => String.eqb (Audit_Action e) "agent.register.token"
                                 && String.eqb (Audit_ActorID e) (Agent_AgentID a)
                                 && String.eqb (Audit_TenantID e) (Agent_TenantID a))
        | Some _ => None
        end
    | _ => fun _ => None
    end a
  end.

Definition recorded (f : AuditEntry -> bool) (e : event op) : Prop :=
  match e with Did o _ => match o with Audit entry => f entry = true | _ => False end end.

(** Every change of the history is recorded later in it. *)
Fixpoint audited `{GoUnicode} (h : list (event op)) : Prop :=
  match h with
  | [] => True
  | e :: rest =>
      match audit_due e with None => True | Some f => Exists (recorded f) rest end /\ audited rest
  end.

Definition quiet `{GoUnicode} (e : event op) : Prop := audit_due e = None.

Section Audited.
Context `{GoUnicode} (cfg : Config) (win unix : string -> string -> string) (parseInt : string -> option Z).
Context (r : request) (Haudit : has_audit cfg = true).

Lemma quiet_audited l : Forall quiet l -> audited l.
Proof. induction 1 as [|e l He Hl IH]; simpl; [done|]. unfold quiet in He. by rewrite He. Qed.

Notation audits m := (wp (fun _ _ => True) [] m (fun h _ => audited h)).

(** A program that makes no change. *)
Lemma quiet_program {A} (m : M A) : wp (fun _ e => quiet e) [] m (fun _ _ => True) -> audits m.
Proof.
  assert (Hgen : forall h, Forall quiet h -> wp (fun _ e => quiet e) h m (fun _ _ => True) ->
    wp (fun _ _ => True) h m (fun h _ => audited h)); [|intros Hm; by apply Hgen].
  induction m as [a|B o k IH]; intros h Hh Hm; simpl in *; [by apply quiet_audited|].
  intros b. split; [done|]. destruct (Hm b) as [He Hk]. apply IH; [|done].
  apply Forall_app. split; [done | by constructor].
Qed.

Ltac audit_step :=
  first
  [ wp_step
  | match goal with
    | |- True => exact I
    | |- _ /\ _ => split
    | |- quiet _ => reflexivity
    end ].
Ltac decide_audit :=
  cbn [app audited audit_due]; split_and?;
  repeat first
    [ exact I | discriminate
    | match goal with
      | |- match match ?x with _ => _ end with _ => _ end => destruct x
      | |- match match match ?x with _ => _ end with _ => _ end with _ => _ end => destruct x
      end
    | apply Exists_cons_hd; cbn [recorded]; unfold entry_is; cbn; rewrite ?String.eqb_refl, ?orb_true_r; reflexivity
    | apply Exists_cons_tl ].

Ltac audit_all :=
  unfold requireTenancyEnabled, authorized, authorizeOrReject, recordAudit, emit, with_db;
  rewrite ?Haudit; repeat audit_step; subst; decide_audit.

Lemma handleTenants_audited : audits (handleTenants cfg r).
Proof. unfold handleTenants, listTenants, createTenant, tenant_created. audit_all. Qed.

Lemma handleTenantByID_audited : audits (handleTenantByID cfg r).
Proof. unfold handleTenantByID, getTenant, putTenant, deleteTenant, tenant_updated. audit_all. Qed.

Lemma handleCreateJoinToken_audited : audits (handleCreateJoinToken cfg r).
Proof. unfold handleCreateJoinToken, createJoinToken, token_created. audit_all. Qed.

Lemma handleListJoinTokens_audited : audits (handleListJoinTokens cfg r).
Proof. unfold handleListJoinTokens. audit_all. Qed.

Lemma handleRevokeJoinToken_audited : audits (handleRevokeJoinToken cfg r).
Proof. unfold handleRevokeJoinToken, token_revoked. audit_all. Qed.

Lemma handlePendingRegistrations_audited : audits (handlePendingRegistrations cfg r).
Proof. unfold handlePendingRegistrations. audit_all. Qed.

Lemma handlePendingRegistrationByID_audited : audits (handlePendingRegistrationByID cfg parseInt r).
Proof.
  unfold handlePendingRegistrationByID, getPending, reviewPending, deletePending, approvePending, rejectPending.
  audit_all.
Qed.

Lemma handleRegisterWithToken_audited : audits (handleRegisterWithToken cfg r).
Proof.
  unfold handleRegisterWithToken, registerInDb, registerInMemory, refuseToken, captureExpired, denyToken,
    finishRegistration, attachAgentSettings, emitAgentEvent.
  audit_all.
Qed.

Lemma handleGeneratePackage_audited : audits (handleGeneratePackage cfg win unix r).
Proof.
  unfold handleGeneratePackage, generatePackage, tenant_known, one_time_token, hostScript.
  audit_all; done.
Qed.

Lemma handleInstall_audited : audits (handleInstall r).
Proof. unfold handleInstall. audit_all. Qed.

(** Sites are changed without an entry. *)
Notation quietly m := (forall h, wp (fun _ e => quiet e) h m (fun _ _ => True)).

Lemma handleSitesSubresource_quiet t rest : quietly (handleSitesSubresource cfg r t rest).
Proof.
  assert (Hagents : forall id (f : list string -> M response), (forall l, quietly (f l)) ->
    quietly (siteAgents id ≫= f)).
  { intros id f Hf h. unfold siteAgents. repeat audit_step. apply Hf. }
  assert (Hcount : forall sites (f : list Site -> M response), (forall l, quietly (f l)) ->
    quietly (count_agents sites ≫= f)).
  { induction sites as [|s sites IH]; intros f Hf h; cbn [count_agents]; [apply Hf|].
    apply wp_bind_assoc. unfold siteAgents. repeat audit_step. apply IH. intros l h'. apply Hf. }
  assert (Heach : forall l (f : string -> M unit) (k : unit -> M response),
    (forall x, quietly (f x)) -> (forall u, quietly (k u)) -> quietly (each l f ≫= k)).
  { intros l f k Hf Hk h. eapply wp_seq; [apply wp_each; intros; apply Hf | intros ? [] _ _; apply Hk]. }
  intros h. unfold handleSitesSubresource, handleSitesCollection, handleSiteByID, handleSiteAgents, listSites,
    createSite, getSite, putSite, deleteSite, getSiteAgents, putSiteAgents, tenantSite, with_db, authorized,
    authorizeOrReject, requireTenancyEnabled.
  repeat first [audit_step | apply Hagents; intros ? ? | apply Hcount; intros ? ? | apply Heach; intros ? ?].
Qed.

Lemma handleTenantRoute_audited : audits (handleTenantRoute cfg (sites_registered cfg) r).
Proof.
  unfold handleTenantRoute, requireTenancyEnabled.
  repeat wp_step; try done; try apply handleTenantByID_audited.
  match goal with H : getTenantSubresourceHandler _ _ = _ |- _ => apply registered_handler in H as -> end.
  apply quiet_program, handleSitesSubresource_quiet.
Qed.

Lemma serve_audited ep : audits (serve cfg win unix parseInt ep r).
Proof.
  destruct ep; simpl; auto using handleTenants_audited, handleTenantRoute_audited, handleCreateJoinToken_audited,
    handleRegisterWithToken_audited, handleListJoinTokens_audited, handleRevokeJoinToken_audited,
    handlePendingRegistrations_audited, handlePendingRegistrationByID_audited, handleGeneratePackage_audited,
    handleInstall_audited.
Qed.
End Audited.



(** A site is deleted, for one, without an entry. *)
Lemma site_changes_unaudited :
  history (demo_env administrator)
    (demo_serve TenantRoute (demo_request DELETE "/api/v1/tenants/t1/sites/s1" no_body)) tt
  = [Did (Authorized ActionTenantsWrite ["t1"]) None; Did (DbGetSite "s1") (Ok (demo_site "s1"));
     Did (DbDeleteSite "s1") None].
Proof. reflexivity. Qed.
