(* ===== verification/TenancyMemory.v ===== *)
(** * The tenancy handlers over the in-memory store.

    Without a database the handlers run on the store of Tenancy: each call is one of its
    methods. The theorems follow a token from the request that makes it to the agent
    that registers with it, and a hosted script from its package to its download. *)
From S2P Require Import Prelude GoStrings GoTime Effects Programs Authz Tenancy TenancyCalls TenancyApi RegistrationApi TenancyAccess.
From Stdlib Require Import Ascii.

Record world := {
  w_store : InMemoryStore;
  w_installs : gmap string installEntry;
  w_clock : Time;
  w_random : nat -> string;  (** the texts that the random source will give *)
  w_drawn : nat;             (** how many it has given *)
}.

Definition set_store (s : InMemoryStore) (w : world) : world :=
  {| w_store := s; w_installs := w_installs w; w_clock := w_clock w; w_random := w_random w; w_drawn := w_drawn w |}.
Definition set_installs (m : gmap string installEntry) (w : world) : world :=
  {| w_store := w_store w; w_installs := m; w_clock := w_clock w; w_random := w_random w; w_drawn := w_drawn w |}.
Definition fresh (w : world) : string := w_random w (w_drawn w).
Definition draw (w : world) : world :=
  {| w_store := w_store w; w_installs := w_installs w; w_clock := w_clock w; w_random := w_random w;
     w_drawn := S (w_drawn w) |}.

(** The cleanup of [installCleanupLoop] at one tick. *)
Definition cleanup (m : gmap string installEntry) (now : Time) : gmap string installEntry :=
  filter (fun kv => After now (Install_ExpiresAt kv.2) = false) m.

Section Memory.
Context `{GoUnicode} (s : Subject).

Definition stored {A} (w : world) (r : InMemoryStore * A) : A * world := (r.2, set_store r.1 w).

(** The store, the hosted scripts and the clock answer; there is no database. *)
Definition mem_env : environment op world := fun B o w =>
  match o in op B return B * world with
  | Authorized action resource =>
      (match Authorize s action {| TenantIDs := resource |} with Ok _ => None | Err _ => Some false end, w)
  | MemListTenants => (ListTenants (w_store w), w)
  | MemCreateTenant t => stored (draw w) (CreateTenant t (Some (fresh w)) (w_clock w) (w_store w))
  | MemGetTenant id => (tenants (w_store w) !! id, w)
  | MemUpdateTenant t => stored w (UpdateTenant t (w_store w))
  | MemCreateJoinToken tenantID ttl oneTime =>
      stored (draw w) (CreateJoinToken tenantID ttl oneTime (Some (fresh w)) (w_clock w) (w_clock w) (w_store w))
  | MemTokens => (snd <$> map_to_list (tokens (w_store w)), w)
  | MemRevoke token =>
      (bool_decide (is_Some (tokens (w_store w) !! token)), set_store (remove_token token (w_store w)) w)
  | MemValidateToken token => stored w (ValidateToken token (w_clock w) (w_store w))
  | PutInstall code e => (tt, set_installs (<[code := e]> (w_installs w)) w)
  | TakeInstall code =>
      (w_installs w !! code,
       match w_installs w !! code with
       | Some e => if Install_OneTime e then set_installs (delete code (w_installs w)) w else w
       | None => w
       end)
  | RandomBytes _ => (Some (fresh w), draw w)
  | Now => (w_clock w, w)
  | Emit _ _ | TenantCreated _ | Audit _ => (tt, w)
  | BuildSettings _ _ => (Err "no settings", w)
  | DbAssignAgent _ _ | DbUnassignAgent _ _ => (tt, w)
  | DbListTenants | DbCreateTenant _ | DbGetTenant _ | DbUpdateTenant _ | DbCountTenantAgents _
  | DbCreateJoinToken _ _ _ | DbListJoinTokens _ | DbListPending _ | DbGetPending _ | DbCreatePending _
  | DbListSites _ | DbGetSite _ | DbSiteAgents _ | DbCreateSite _ | DbUpdateSite _ => (Err "no database", w)
  | DbValidateJoinToken _ => (Err (OtherTokenError "no database"), w)
  | DbDeleteTenant _ | DbRevokeJoinToken _ | DbApprovePending _ _ _ | DbRejectPending _ _ _
  | DbDeletePending _ | DbRegisterAgent _ | DbDeleteSite _ => (Some "no database", w)
  end.
End Memory.

(** A server without a database, whose hooks may be set or not. *)
Record memory_config (cfg : Config) : Prop := {
  no_db : has_db cfg = false;
  enabled : tenancyEnabled cfg = true;
  authorizer_set : has_authorizer cfg = true;
}.

Section Tokens.
Context `{GoUnicode} (s : Subject) (cfg : Config) (Hcfg : memory_config cfg).
Context (win unix : string -> string -> string) (parseInt : string -> option Z).
Notation env := (mem_env s).
Notation serve := (serve cfg win unix parseInt).

(** The minutes that a request asks for. *)
Definition minutes (t : tokenRequest) : Z := if token_TTLMinutes t <=? 0 then 60 else token_TTLMinutes t.

Definition issued (t : tokenRequest) (w : world) : JoinToken :=
  {| Token := fresh w; Token_TenantID := token_TenantID t;
     ExpiresAt := Add (w_clock w) (dmul (minutes t) Minute); OneTime := token_OneTime t;
     Token_CreatedAt := w_clock w |}.

Lemma create_token_run r t w :
  Method r = POST -> as_token (Body r) = Some t -> is_Some (tenants (w_store w) !! token_TenantID t) ->
  Authorize s ActionJoinTokensWrite {| TenantIDs := token_resource (token_TenantID t) |} = Ok () ->
  outcome env (serve CreateToken r) w =
    Reply 200 (Fields [("token", FStr (fresh w)); ("tenant_id", FStr (token_TenantID t));
                       ("expires_at", FTime (ExpiresAt (issued t w)))])
  /\ tokens (w_store (after env (serve CreateToken r) w)) = <[fresh w := issued t w]> (tokens (w_store w)).
Proof.
  destruct Hcfg as [Hdb Hen Hau]. intros Hm Hb Ht HA.
  unfold serve, handleCreateJoinToken, requireTenancyEnabled. rewrite Hen, Hm, Hb.
  unfold createJoinToken, authorized, authorizeOrReject. rewrite Hau, Hdb. cbn [negb].
  unfold token_created, recordAudit, outcome, after. cbn. rewrite HA. cbn.
  unfold CreateJoinToken, tenant_exists. rewrite bool_decide_true by done. cbn.
  by destruct (has_audit cfg).
Qed.

Lemma register_run r i jt w :
  Method r = POST -> as_registration (Body r) = Some i -> in_Token i <> "" -> in_AgentID i <> "" ->
  (ValidateToken (in_Token i) (w_clock w) (w_store w)).2 = Ok jt ->
  outcome env (serve RegisterWithToken r) w = Reply 200 (Fields (registered_fields (Token_TenantID jt) (fresh w)))
  /\ w_store (after env (serve RegisterWithToken r) w) = (ValidateToken (in_Token i) (w_clock w) (w_store w)).1.
Proof.
  destruct Hcfg as [Hdb Hen Hau]. intros Hm Hb Htok Hid Hv.
  unfold serve, handleRegisterWithToken. rewrite Hm, Hb, Hdb.
  rewrite (proj2 (String.eqb_neq (in_Token i) "") Htok), (proj2 (String.eqb_neq (in_AgentID i) "") Hid). cbn [orb].
  unfold registerInMemory, emitAgentEvent, finishRegistration, attachAgentSettings, recordAudit, outcome, after.
  cbn. rewrite Hv. cbn.
  by destruct (has_sink cfg), (has_builder cfg), (has_audit cfg), (IsZero (w_clock w)).
Qed.

Lemma refuse_run r i e w :
  Method r = POST -> as_registration (Body r) = Some i -> in_Token i <> "" -> in_AgentID i <> "" ->
  (ValidateToken (in_Token i) (w_clock w) (w_store w)).2 = Err e -> e = ErrTokenNotFound \/ e = ErrTokenExpired ->
  outcome env (serve RegisterWithToken r) w = failed 401 "invalid or expired token".
Proof.
  destruct Hcfg as [Hdb Hen Hau]. intros Hm Hb Htok Hid Hv He.
  unfold serve, handleRegisterWithToken. rewrite Hm, Hb, Hdb.
  rewrite (proj2 (String.eqb_neq (in_Token i) "") Htok), (proj2 (String.eqb_neq (in_AgentID i) "") Hid). cbn [orb].
  unfold registerInMemory, recordAudit, outcome. cbn. rewrite Hv. cbn.
  by destruct He as [-> | ->], (has_audit cfg).
Qed.

(** C12: On a server without a database, where the in-memory store holds the tokens, a join
    token issued over HTTP is the one that registers: while the store keeps it and the
    time it was asked for (an hour by default) has not passed, an agent that
    presents it is given the tenant and fresh random bytes as its own token; presented
    again after that, a token for one use is refused; after the time, every token is. *)
Theorem issued_token_registers w w' r r' t i :
  Method r = POST -> as_token (Body r) = Some t -> is_Some (tenants (w_store w) !! token_TenantID t) ->
  Authorize s ActionJoinTokensWrite {| TenantIDs := token_resource (token_TenantID t) |} = Ok () ->
  Method r' = POST -> as_registration (Body r') = Some i ->
  in_Token i = fresh w -> fresh w <> "" -> in_AgentID i <> "" ->
  tokens (w_store w') !! fresh w = tokens (w_store (after env (serve CreateToken r) w)) !! fresh w ->
  let expires := Add (w_clock w) (dmul (minutes t) Minute) in
  let again := outcome env (serve RegisterWithToken r') (after env (serve RegisterWithToken r') w') in
  outcome env (serve CreateToken r) w =
    Reply 200 (Fields [("token", FStr (fresh w)); ("tenant_id", FStr (token_TenantID t)); ("expires_at", FTime expires)])
  /\ (After (w_clock w') expires = false ->
      outcome env (serve RegisterWithToken r') w' =
        Reply 200 (Fields (registered_fields (token_TenantID t) (fresh w')))
      /\ (token_OneTime t = true -> again = failed 401 "invalid or expired token"))
  /\ (After (w_clock w') expires = true ->
      outcome env (serve RegisterWithToken r') w' = failed 401 "invalid or expired token").
Proof.
  intros Hm Hb Ht HA Hm' Hb' Htok Hne Hid Hkept expires again.
  destruct (create_token_run r t w Hm Hb Ht HA) as [Hout Hstore].
  rewrite Hstore, lookup_insert_eq in Hkept. rewrite <- Htok in Hkept, Hne.
  split; [exact Hout|]. split; intros Hexp.
  - assert (Hv : (ValidateToken (in_Token i) (w_clock w') (w_store w')).2 = Ok (issued t w)).
    { unfold ValidateToken. rewrite Hkept. cbn. fold expires. rewrite Hexp. by destruct (token_OneTime t). }
    destruct (register_run r' i _ w' Hm' Hb' Hne Hid Hv) as [Hreg Hafter]. split; [exact Hreg|]. intros Hone.
    apply (refuse_run _ i ErrTokenNotFound); try done; [|by left].
    unfold ValidateToken at 1. rewrite Hafter. unfold ValidateToken. rewrite Hkept. cbn. fold expires.
    by rewrite Hexp, Hone; cbn; rewrite lookup_delete_eq.
  - apply (refuse_run _ i ErrTokenExpired); try done; [|by right].
    unfold ValidateToken. rewrite Hkept. cbn. fold expires. by rewrite Hexp.
Qed.

(** ** Hosted scripts *)

Definition package_minutes (i : packageRequest) : Z := if package_TTLMinutes i <=? 0 then 10 else package_TTLMinutes i.

(** The script that a package hosts: with the token that was drawn first. *)
Definition hosted (r : request) (i : packageRequest) (w : world) : installEntry :=
  let '(script, filename) := buildBootstrapScript win unix (normalizePlatform (package_Platform i))
    (getEffectiveScheme r +:+ "://" +:+ Host r)%string (fresh w) in
  {| Script := script; Filename := filename;
     Install_ExpiresAt := Add (w_clock w) (dmul (package_minutes i) Minute); Install_OneTime := one_time_download r |}.

Lemma package_run r i w :
  Method r = POST -> as_package (Body r) = Some i -> TrimSpace (package_TenantID i) <> "" ->
  is_Some (tenants (w_store w) !! TrimSpace (package_TenantID i)) ->
  Authorize s ActionPackagesGenerate {| TenantIDs := [TrimSpace (package_TenantID i)] |} = Ok () ->
  TrimSpace (package_InstallerType i) = "" -> Script (hosted r i w) <> "" ->
  w_installs (after env (serve GeneratePackage r) w) = <[fresh (draw w) := hosted r i w]> (w_installs w).
Proof.
  destruct Hcfg as [Hdb Hen Hau]. intros Hm Hb Hid Ht HA Htype Hscript.
  unfold serve, handleGeneratePackage, requireTenancyEnabled. rewrite Hen, Hm, Hb.
  unfold generatePackage, hosted, package_minutes in *. rewrite (proj2 (String.eqb_neq _ "") Hid), Htype.
  destruct (buildBootstrapScript _ _ _ _ _) as [script filename] eqn:Hbuild.
  assert (Hfile : String.eqb filename "" = false).
  { unfold buildBootstrapScript in Hbuild. by destruct (String.eqb _ _); simplify_eq. }
  unfold authorized, authorizeOrReject, tenant_known, one_time_token, recordAudit, hostScript, after.
  rewrite Hau, Hdb. cbn. rewrite HA. cbn. rewrite bool_decide_true by done. cbn.
  unfold CreateJoinToken, tenant_exists. rewrite bool_decide_true by done. cbn.
  simpl in Hscript. apply String.eqb_neq in Hscript.
  destruct (has_audit cfg); cbn; rewrite Hbuild, Hscript, Hfile; reflexivity.
Qed.

Lemma install_run r code rest w :
  SplitN2 (TrimPrefix (Path r) "/install/") "/" = (code, rest) -> code <> "" ->
  outcome env (serve Install r) w =
    match w_installs w !! code with
    | Some e => if After (w_clock w) (Install_ExpiresAt e) then NotFound else Reply 200 (ScriptBody e)
    | None => NotFound
    end
  /\ w_installs (after env (serve Install r) w) =
    match w_installs w !! code with
    | Some e => if Install_OneTime e then delete code (w_installs w) else w_installs w
    | None => w_installs w
    end.
Proof.
  intros Hp Hc. unfold serve, handleInstall. rewrite Hp, (proj2 (String.eqb_neq _ "") Hc).
  unfold outcome, after. cbn. destruct (w_installs w !! code) as [e|]; [|done]. cbn.
  by destruct (Install_OneTime e); cbn; destruct (After _ _).
Qed.

(** The script of a package is served under its code until it expires, once unless the
    request asked for more, and not after; a tick of the cleanup before that keeps it. *)
Theorem hosted_script_served r r' i rest w w' :
  Method r = POST -> as_package (Body r) = Some i -> TrimSpace (package_TenantID i) <> "" ->
  is_Some (tenants (w_store w) !! TrimSpace (package_TenantID i)) ->
  Authorize s ActionPackagesGenerate {| TenantIDs := [TrimSpace (package_TenantID i)] |} = Ok () ->
  TrimSpace (package_InstallerType i) = "" -> Script (hosted r i w) <> "" ->
  SplitN2 (TrimPrefix (Path r') "/install/") "/" = (fresh (draw w), rest) -> fresh (draw w) <> "" ->
  (exists tick, After tick (Install_ExpiresAt (hosted r i w)) = false /\
    w_installs w' = cleanup (w_installs (after env (serve GeneratePackage r) w)) tick) ->
  let served := outcome env (serve Install r') w' in
  let again := outcome env (serve Install r') (after env (serve Install r') w') in
  (After (w_clock w') (Install_ExpiresAt (hosted r i w)) = false -> served = Reply 200 (ScriptBody (hosted r i w)))
  /\ (After (w_clock w') (Install_ExpiresAt (hosted r i w)) = true -> served = NotFound)
  /\ (one_time_download r = true -> again = NotFound).
Proof.
  intros Hm Hb Hid Ht HA Htype Hscript Hp Hc (tick & Htick & Hw') served again.
  rewrite (package_run r i w) in Hw' by done.
  assert (Hlook : w_installs w' !! fresh (draw w) = Some (hosted r i w)).
  { rewrite Hw'. apply map_lookup_filter_Some. by rewrite lookup_insert_eq. }
  destruct (install_run r' _ rest w' Hp Hc) as [Hout Hafter]. rewrite Hlook in Hout, Hafter.
  split; [|split].
  - intros Hexp. unfold served. by rewrite Hout, Hexp.
  - intros Hexp. unfold served. by rewrite Hout, Hexp.
  - intros Hone. unfold again.
    destruct (install_run r' _ rest (after env (serve Install r') w') Hp Hc) as [-> _].
    assert (Ho : Install_OneTime (hosted r i w) = true) by (unfold hosted; by destruct (buildBootstrapScript _ _ _ _ _)).
    by rewrite Hafter, Ho, lookup_delete_eq.
Qed.
End Tokens.

(** ** Examples *)

Definition memory_server : Config :=
  {| has_db := false; tenancyEnabled := true; has_authorizer := true; has_logger := true; has_audit := true;
     has_sink := true; has_builder := false; has_created_callback := false |}.

Definition first_day : Time := Add 0 (dmul 10 Minute).
Definition new_world (now : Time) : world :=
  {| w_store := NewInMemoryStore 1; w_installs := ∅; w_clock := now;
     w_random := fun n => match n with 0%nat => "tok-0" | 1%nat => "tok-1" | _ => "tok-n" end; w_drawn := 0 |}.
Definition at_time (now : Time) (w : world) : world :=
  {| w_store := w_store w; w_installs := w_installs w; w_clock := now; w_random := w_random w; w_drawn := w_drawn w |}.

Definition token_for (tenantID : string) (ttl : Z) (oneTime : bool) : request :=
  demo_request POST "/api/v1/join-token"
    {| as_tenant := None;
       as_token := Some {| token_TenantID := tenantID; token_TTLMinutes := ttl; token_OneTime := oneTime |};
       as_id := None; as_review := None; as_registration := None; as_site := None; as_agents := None;
       as_package := None |}.

Lemma issued_token_registers_witness :
  let env := mem_env administrator in
  let serve := serve memory_server (fun _ _ => "ps1") (fun _ _ => "sh") (fun _ => None) in
  let w := new_world first_day in
  let w' := at_time (Add first_day (dmul 4 Minute)) (after env (serve CreateToken (token_for "default" 5 true)) w) in
  outcome env (serve RegisterWithToken (register_with "tok-0")) w'
    = Reply 200 (Fields (registered_fields "default" "tok-1"))
  /\ outcome env (serve RegisterWithToken (register_with "tok-0"))
       (after env (serve RegisterWithToken (register_with "tok-0")) w') = failed 401 "invalid or expired token".
Proof.
  intros env serve w w'.
  destruct (issued_token_registers administrator memory_server
    (Build_memory_config memory_server eq_refl eq_refl eq_refl)
    (fun _ _ => "ps1") (fun _ _ => "sh") (fun _ => None) w w'
    (token_for "default" 5 true) (register_with "tok-0")
    {| token_TenantID := "default"; token_TTLMinutes := 5; token_OneTime := true |} _
    eq_refl eq_refl (ex_intro _ _ eq_refl) eq_refl eq_refl eq_refl eq_refl
    ltac:(discriminate) ltac:(discriminate) eq_refl) as (_ & Hin & _).
  destruct (Hin ltac:(vm_compute; reflexivity)) as [Hreg Hagain].
  split; [exact Hreg | exact (Hagain eq_refl)].
Defined.
