(* ===== verification/GoUrl.v ===== *)
(** * Go's [net/url]: parsing and printing of references.

    [Parse] splits a reference into scheme, authority, path, query and fragment and
    undoes the percent-encoding of each part; [String_] puts the parts together again.
    The tables of [shouldEscape] are by mode. Errors are not told apart. *)
From S2P Require Import Prelude GoStrings.
From Stdlib Require Import Ascii.

(** ** Percent-encoding *)

Inductive encoding := encodePath | encodeHost | encodeZone | encodeUserPassword | encodeQueryComponent | encodeFragment.

Definition in_bytes (c : ascii) (s : list ascii) : bool := existsb (Ascii.eqb c) s.
Definition is_lower (c : ascii) : bool := (97 <=? byte_of c) && (byte_of c <=? 122).
Definition is_upper (c : ascii) : bool := (65 <=? byte_of c) && (byte_of c <=? 90).
Definition is_digit (c : ascii) : bool := (48 <=? byte_of c) && (byte_of c <=? 57).
Definition is_alnum (c : ascii) : bool := is_lower c || is_upper c || is_digit c.

Definition shouldEscape (c : ascii) (mode : encoding) : bool :=
  if is_alnum c then false
  else if match mode with encodeHost | encodeZone => true | _ => false end
          && in_bytes c ["!"; "$"; "&"; "'"; "("; ")"; "*"; "+"; ","; ";"; "="; ":"; "["; "]"; "<"; ">"; "034"]%char
  then false
  else if in_bytes c ["-"; "_"; "."; "~"]%char then false
  else if in_bytes c ["$"; "&"; "+"; ","; "/"; ":"; ";"; "="; "?"; "@"]%char then
    match mode with
    | encodePath => Ascii.eqb c "?"
    | encodeUserPassword => in_bytes c ["@"; "/"; "?"; ":"]%char
    | encodeFragment => false
    | encodeQueryComponent | encodeHost | encodeZone => true
    end
  else if match mode with encodeFragment => true | _ => false end && in_bytes c ["!"; "("; ")"; "*"]%char then false
  else true.

Definition hex_digit (z : Z) : ascii := if z <? 10 then chr (48 + z) else chr (55 + z).
Definition unhex (c : ascii) : option Z :=
  if is_digit c then Some (byte_of c - 48)
  else if (97 <=? byte_of c) && (byte_of c <=? 102) then Some (byte_of c - 87)
  else if (65 <=? byte_of c) && (byte_of c <=? 70) then Some (byte_of c - 55)
  else None.

Fixpoint escape (s : string) (mode : encoding) : string :=
  match s with
  | EmptyString => EmptyString
  | String c s' =>
      if shouldEscape c mode then
        if Ascii.eqb c " " && match mode with encodeQueryComponent => true | _ => false end
        then String "+" (escape s' mode)
        else String "%" (String (hex_digit (byte_of c / 16)) (String (hex_digit (byte_of c mod 16)) (escape s' mode)))
      else String c (escape s' mode)
  end.

(** [None] is an escape error or an invalid byte of a host. *)
Fixpoint unescape (s : string) (mode : encoding) : option string :=
  match s with
  | EmptyString => Some EmptyString
  | String "%" s' =>
      match s' with
      | String h (String l rest) =>
          match unhex h, unhex l with
          | Some a, Some b =>
              let v := 16 * a + b in
              let bad :=
                match mode with
                | encodeHost => (a <? 8) && negb (v =? 37)
                | encodeZone => negb (v =? 37) && negb (v =? 32) && shouldEscape (chr v) encodeHost
                | _ => false
                end in
              if bad then None else String (chr v) <$> unescape rest mode
          | _, _ => None
          end
      | _ => None
      end
  | String c s' =>
      let host := match mode with encodeHost | encodeZone => true | _ => false end in
      if host && (byte_of c <? 128) && shouldEscape c mode then None
      else if Ascii.eqb c "+" && match mode with encodeQueryComponent => true | _ => false end
      then String " " <$> unescape s' mode
      else String c <$> unescape s' mode
  end.

(** ** References *)

Record Userinfo := { user_name : string; user_password : option string }.

Record URL := {
  Scheme : string;
  Opaque : string;
  UUser : option Userinfo;
  UHost : string;
  UPath : string;
  RawPath : string;
  OmitHost : bool;
  ForceQuery : bool;
  RawQuery : string;
  Fragment : string;
  RawFragment : string;
}.

Definition IsAbs (u : URL) : bool := negb (String.eqb (Scheme u) "").

(** [strings.Cut]: before, after, found. *)
Definition Cut (s : string) (sep : ascii) : string * option string := SplitN2 s sep.

(** [getScheme]: [None] is the missing scheme before a colon. *)
Fixpoint scheme_at (seen s : string) : option (string * option string) :=
  match s with
  | EmptyString => Some ("", None)
  | String c s' =>
      if is_lower c || is_upper c then scheme_at (seen +:+ String c "") s'
      else if is_digit c || in_bytes c ["+"; "-"; "."]%char then
        if String.eqb seen "" then Some ("", None) else scheme_at (seen +:+ String c "") s'
      else if Ascii.eqb c ":" then if String.eqb seen "" then None else Some (seen, Some s')
      else Some ("", None)
  end.
Definition getScheme (raw : string) : option (string * string) :=
  match scheme_at "" raw with
  | None => None
  | Some (scheme, Some rest) => Some (scheme, rest)
  | Some (_, None) => Some ("", raw)
  end.

Definition validOptionalPort (port : string) : bool :=
  match port with
  | EmptyString => true
  | String c rest => Ascii.eqb c ":" && all_bytes is_digit rest
  end.

Definition validUserinfo (s : string) : bool :=
  all_bytes (fun c => is_alnum c || in_bytes c
    ["-"; "."; "_"; ":"; "~"; "!"; "$"; "&"; "'"; "("; ")"; "*"; "+"; ","; ";"; "="; "%"; "@"]%char) s.

Definition parseHost (host : string) : option string :=
  if HasPrefix host "[" then
    match LastIndexByte host "]" with
    | None => None
    | Some i =>
        if negb (validOptionalPort (sdrop (i + 1) host)) then None
        else match Index (stake i host) "%25" with
             | Some zone =>
                 h1 ← unescape (stake zone host) encodeHost;
                 h2 ← unescape (stake (i - zone) (sdrop zone host)) encodeZone;
                 h3 ← unescape (sdrop i host) encodeHost;
                 Some (h1 +:+ h2 +:+ h3)
             | None => unescape host encodeHost
             end
    end
  else match LastIndexByte host ":" with
       | Some i => if validOptionalPort (sdrop i host) then unescape host encodeHost else None
       | None => unescape host encodeHost
       end.

Definition parseAuthority (authority : string) : option (option Userinfo * string) :=
  match LastIndexByte authority "@" with
  | None => host ← parseHost authority; Some (None, host)
  | Some i =>
      host ← parseHost (sdrop (i + 1) authority);
      let userinfo := stake i authority in
      if negb (validUserinfo userinfo) then None
      else
        let '(name, password) := Cut userinfo ":" in
        name ← unescape name encodeUserPassword;
        match password with
        | None => Some (Some {| user_name := name; user_password := None |}, host)
        | Some p =>
            p ← unescape p encodeUserPassword;
            Some (Some {| user_name := name; user_password := Some p |}, host)
        end
  end.

Definition ctl_byte (c : ascii) : bool := (byte_of c <? 32) || (byte_of c =? 127).

(** [setPath] and [setFragment]: the decoded part, and the raw one if it is not the
    canonical encoding. *)
Definition decoded (s : string) (mode : encoding) : option (string * string) :=
  p ← unescape s mode; Some (p, if String.eqb s (escape p mode) then "" else s).

Section Parse.
Context `{GoUnicode}.

Definition count_byte (c : ascii) (s : string) : nat := (length (Split s c) - 1)%nat.

(** What follows the scheme, without the query. *)
Definition parse_hier (scheme rest query : string) (force : bool) : option URL :=
  let mk user host path raw omit opaque :=
    {| Scheme := scheme; Opaque := opaque; UUser := user; UHost := host; UPath := path; RawPath := raw;
       OmitHost := omit; ForceQuery := force; RawQuery := query; Fragment := ""; RawFragment := "" |} in
  if negb (HasPrefix rest "/") && negb (String.eqb scheme "") then Some (mk None "" "" "" false rest)
  else if negb (HasPrefix rest "/") && Contains (Cut rest "/").1 ":" then None
  else if (negb (String.eqb scheme "") || negb (HasPrefix rest "///")) && HasPrefix rest "//" then
    let authority := sdrop 2 rest in
    let '(authority, path) :=
      match Index authority "/" with Some i => (stake i authority, sdrop i authority) | None => (authority, "") end in
    '(user, host) ← parseAuthority authority;
    '(path, raw) ← decoded path encodePath;
    Some (mk user host path raw false "")
  else
    '(path, raw) ← decoded rest encodePath;
    Some (mk None "" path raw (negb (String.eqb scheme "") && HasPrefix rest "/") "").

Definition parse_ref (raw : string) : option URL :=
  if negb (all_bytes (fun c => negb (ctl_byte c)) raw) then None
  else if String.eqb raw "*" then
    Some {| Scheme := ""; Opaque := ""; UUser := None; UHost := ""; UPath := "*"; RawPath := ""; OmitHost := false;
            ForceQuery := false; RawQuery := ""; Fragment := ""; RawFragment := "" |}
  else
    '(scheme, rest) ← getScheme raw;
    let scheme := ToLower scheme in
    if HasSuffix rest "?" && (count_byte "?" rest =? 1)%nat
    then parse_hier scheme (stake (String.length rest - 1) rest) "" true
    else let '(rest, query) := Cut rest "?" in parse_hier scheme rest (default "" query) false.

Definition with_fragment (u : URL) (f : string * string) : URL :=
  {| Scheme := Scheme u; Opaque := Opaque u; UUser := UUser u; UHost := UHost u; UPath := UPath u; RawPath := RawPath u;
     OmitHost := OmitHost u; ForceQuery := ForceQuery u; RawQuery := RawQuery u; Fragment := f.1; RawFragment := f.2 |}.

Definition Parse (raw : string) : option URL :=
  let '(before, frag) := Cut raw "#" in
  u ← parse_ref before;
  match frag with
  | None | Some "" => Some u
  | Some frag => f ← decoded frag encodeFragment; Some (with_fragment u f)
  end.
End Parse.

(** ** Printing *)

Definition validEncoded (s : string) (mode : encoding) : bool :=
  all_bytes (fun c => in_bytes c ["!"; "$"; "&"; "'"; "("; ")"; "*"; "+"; ","; ";"; "="; ":"; "@"; "["; "]"; "%"]%char
                      || negb (shouldEscape c mode)) s.

(** [EscapedPath] and [EscapedFragment]. *)
Definition escaped (decoded_part raw : string) (mode : encoding) : string :=
  if negb (String.eqb raw "") && validEncoded raw mode && bool_decide (unescape raw mode = Some decoded_part)
  then raw else escape decoded_part mode.

Definition EscapedPath (u : URL) : string :=
  if negb (String.eqb (RawPath u) "") && validEncoded (RawPath u) encodePath
     && bool_decide (unescape (RawPath u) encodePath = Some (UPath u))
  then RawPath u
  else if String.eqb (UPath u) "*" then "*" else escape (UPath u) encodePath.

Definition userinfo_string (ui : Userinfo) : string :=
  escape (user_name ui) encodeUserPassword +:+
  match user_password ui with Some p => ":" +:+ escape p encodeUserPassword | None => "" end.

(** Scheme and authority. *)
Definition authority_string (u : URL) : string :=
  let no_user := bool_decide (UUser u = None) in
  if negb (negb (String.eqb (Scheme u) "") || negb (String.eqb (UHost u) "") || negb no_user) then ""
  else if OmitHost u && String.eqb (UHost u) "" && no_user then ""
  else
    (if negb (String.eqb (UHost u) "") || negb (String.eqb (UPath u) "") || negb no_user then "//" else "") +:+
    (match UUser u with Some ui => userinfo_string ui +:+ "@" | None => "" end) +:+
    (if negb (String.eqb (UHost u) "") then escape (UHost u) encodeHost else "").

Definition hier_string (u : URL) : string :=
  let start := (if negb (String.eqb (Scheme u) "") then Scheme u +:+ ":" else "") in
  if negb (String.eqb (Opaque u) "") then start +:+ Opaque u
  else
    let start := start +:+ authority_string u in
    let path := EscapedPath u in
    let slash := if negb (String.eqb path "") && negb (HasPrefix path "/") && negb (String.eqb (UHost u) "") then "/" else "" in
    let dot := if String.eqb (start +:+ slash) "" && Contains (Cut path "/").1 ":" then "./" else "" in
    start +:+ slash +:+ dot +:+ path.

Definition String_ (u : URL) : string :=
  hier_string u +:+
  (if ForceQuery u || negb (String.eqb (RawQuery u) "") then "?" +:+ RawQuery u else "") +:+
  (if negb (String.eqb (Fragment u) "") then "#" +:+ escaped (Fragment u) (RawFragment u) encodeFragment else "").

(** [Hostname]: without the port and the brackets. *)
Definition Hostname (u : URL) : string :=
  let host := match LastIndexByte (UHost u) ":" with
              | Some i => if validOptionalPort (sdrop i (UHost u)) then stake i (UHost u) else UHost u
              | None => UHost u
              end in
  if HasPrefix host "[" && HasSuffix host "]" then stake (String.length host - 2) (sdrop 1 host) else host.

(** ** Queries

    [Values] as an association list in the order of the keys; each key has its values in
    the order of the query. *)
Definition parse_pair (s : string) : option (string * string) :=
  if String.eqb s "" || Contains s ";" then None
  else
    let '(k, v) := Cut s "=" in
    k ← unescape k encodeQueryComponent;
    v ← unescape (default "" v) encodeQueryComponent;
    Some (k, v).
Definition parseQuery (q : string) : list (string * string) := omap parse_pair (Split q "&").

(** [q.Set(key, value)]: the first value of the key is replaced, the others go. *)
Definition Set_ (key value : string) (q : list (string * string)) : list (string * string) :=
  List.filter (fun kv => negb (String.eqb kv.1 key)) q ++ [(key, value)].

Definition sort_keys (q : list (string * string)) : list (string * string) :=
  let le (a b : string * string) := match String.compare a.1 b.1 with Gt => false | _ => true end in
  foldr (fun kv acc => (fix ins l := match l with [] => [kv] | x :: r => if le kv x then kv :: l else x :: ins r end) acc) [] q.
Definition Encode (q : list (string * string)) : string :=
  Join ((fun kv => escape kv.1 encodeQueryComponent +:+ "=" +:+ escape kv.2 encodeQueryComponent) <$> sort_keys q) "&".

Definition with_query (u : URL) (q : string) : URL :=
  {| Scheme := Scheme u; Opaque := Opaque u; UUser := UUser u; UHost := UHost u; UPath := UPath u; RawPath := RawPath u;
     OmitHost := OmitHost u; ForceQuery := ForceQuery u; RawQuery := q; Fragment := Fragment u;
     RawFragment := RawFragment u |}.
