(* ===== verification/AuditLog.v ===== *)
(** * Entries of the audit log ([AuditEntry] of [server/storage/types.go]).

    The fields that the handlers set, and the values of a [map[string]interface{}]: what
    [encoding/json] decodes, and what the handlers put in; a time is formatted as RFC 3339
    where it is printed. *)
From S2P Require Import Prelude GoTime GoFloat.

Inductive field :=
| FStr (s : string)
| FInt (z : Z)
| FBool (b : bool)
| FTime (t : Time)
| FStrs (l : list string)
| FMap (m : list (string * field))
| FNull
| FNum (f : float64)
| FList (l : list field).
Notation fields := (list (string * field)).

(** [m[k]] and [m[k] = v] *)
Fixpoint fget (k : string) (m : fields) : option field :=
  match m with
  | [] => None
  | (k', v) :: m' => if String.eqb k' k then Some v else fget k m'
  end.
Fixpoint fset (k : string) (v : field) (m : fields) : fields :=
  match m with
  | [] => [(k, v)]
  | (k', v') :: m' => if String.eqb k' k then (k, v) :: m' else (k', v') :: fset k v m'
  end.

(** [v, _ := m[k].(string)] and the like: the zero value for another type. *)
Definition get_str (k : string) (m : fields) : string :=
  match fget k m with Some (FStr s) => s | _ => "" end.
Definition get_bool (k : string) (m : fields) : bool :=
  match fget k m with Some (FBool b) => b | _ => false end.
(** [int(m[k].(float64))] *)
Definition get_num (k : string) (m : fields) : Z :=
  match fget k m with Some (FNum f) => int_of_float f | _ => 0 end.

Record AuditEntry := {
  Audit_ActorType : string;
  Audit_ActorID : string;
  Audit_ActorName : string;
  Audit_Action : string;
  Audit_TargetType : string;
  Audit_TargetID : string;
  Audit_TenantID : string;
  Audit_Severity : string;
  Audit_Details : string;
  Audit_Metadata : fields;
  Audit_IPAddress : string;
  Audit_UserAgent : string;
}.

Lemma fget_fset k v m : fget k (fset k v m) = Some v.
Proof.
  induction m as [|[k' v'] m IH]; simpl; [by rewrite String.eqb_refl|].
  destruct (String.eqb k' k) eqn:E; simpl; [by rewrite String.eqb_refl | by rewrite E].
Qed.

Lemma fget_fset_ne k k' v m : k <> k' -> fget k (fset k' v m) = fget k m.
Proof.
  intros Hne. apply String.eqb_neq in Hne. rewrite String.eqb_sym in Hne.
  induction m as [|[k1 v1] m IH]; simpl; [by rewrite Hne|].
  destruct (String.eqb k1 k') eqn:E; simpl.
  - apply String.eqb_eq in E as ->. by rewrite Hne.
  - by rewrite IH.
Qed.
