(* ===== verification/AccountCalls.v ===== *)
(** * Users, sessions and the calls of the account handlers ([server/main.go],
    [server/oidc_handlers.go], [server/storage/types.go], [server/config.go]).

    The handlers are programs over these calls (Programs). A request carries what the
    code reads from it; its body is given by what decoding it into the structure of each
    handler yields, and its address by what [getRealIP] makes of it. *)
From S2P Require Import Prelude GoStrings GoTime Effects Programs Authz OverrideMap AuditLog.
From Stdlib Require Import Ascii.

(** ** Data *)

Record User := {
  User_ID : Z;
  User_Username : string;
  User_PasswordHash : string;
  User_Role : string;
  User_TenantID : string;
  User_TenantIDs : list string;
  User_Email : string;
  User_CreatedAt : Time;
}.

Record Session := {
  Session_Token : string;
  Session_UserID : Z;
  Session_ExpiresAt : Time;
  Session_CreatedAt : Time;
  Session_Username : string;
}.

Record UserInvitation := {
  Inv_ID : Z;
  Inv_Email : string;
  Inv_Username : string;
  Inv_Role : string;
  Inv_TenantID : string;
  Inv_CreatedBy : string;
}.

Record OIDCProvider := {
  Slug : string;
  DisplayName : string;
  Issuer : string;
  ClientID : string;
  ClientSecret : string;
  Scopes : list string;
  Icon : string;
  ButtonText : string;
  ButtonStyle : string;
  AutoLogin : bool;
  Provider_TenantID : string;
  DefaultRole : string;
  Provider_CreatedAt : Time;
  Provider_UpdatedAt : Time;
}.

(** A pending login. *)
Record OIDCSession := {
  State_ID : string;
  State_ProviderSlug : string;
  State_TenantID : string;
  State_Nonce : string;
  State_State : string;
  State_RedirectURL : string;
  State_CreatedAt : Time;
}.

Record OIDCLink := {
  Link_ProviderSlug : string;
  Link_Subject : string;
  Link_Email : string;
  Link_UserID : Z;
}.

Record oidcClaims := {
  Subject : string;
  Email : string;
  EmailVerified : bool;
  PreferredUsername : string;
  Claims_Name : string;
}.

(** A verified identity token; its claims may fail to parse. *)
Record idToken := {
  id_Subject : string;
  id_Nonce : string;
  id_Claims : option oidcClaims;
}.

Record agentCallbackToken := {
  Callback_Token : string;
  Callback_UserID : Z;
  Callback_Username : string;
  Callback_Role : string;
  Callback_TenantID : string;
  Callback_TenantIDs : list string;
  Callback_AgentID : string;
  CallbackURL : string;
  Callback_ExpiresAt : Time;
  Callback_CreatedAt : Time;
}.

Record SecurityConfig := {
  PasswordMinLength : Z;
  PasswordRequireUpper : bool;
  PasswordRequireLower : bool;
  PasswordRequireNumber : bool;
  PasswordRequireSpecial : bool;
}.

(** What the code reads of a tenant. *)
Record TenantName := { Tenant_ID : string; Tenant_Name : string }.

(** The endpoints of an issuer, as discovery found them, and [oauth2.Config]. *)
Record Endpoint := { Endpoint_Issuer : string; AuthURL : string; TokenURL : string }.

Record oauthConfig := {
  OAuth_ClientID : string;
  OAuth_ClientSecret : string;
  OAuth_RedirectURL : string;
  OAuth_Endpoint : Endpoint;
  OAuth_Scopes : list string;
}.

(** The bodies of the requests. *)
Record loginBody := { login_Username : string; login_Password : string }.
Record userBody := {
  new_Username : string;
  new_Password : string;
  new_Role : string;
  new_TenantID : string;
  new_TenantIDs : list string;
  new_Email : string;
}.
Record callbackBody := { cb_AgentID : string; cb_URL : string }.
Record validateBody := { val_Token : string; val_AgentID : string }.
Record resetBody := { reset_Token : string; reset_Password : string }.
Record inviteBody := { invite_Email : string; invite_Username : string; invite_Role : string; invite_TenantID : string }.
Record acceptBody := { accept_Token : string; accept_Username : string; accept_Password : string }.
Record oidcProviderPayload := {
  p_Slug : string;
  p_DisplayName : string;
  p_Issuer : string;
  p_ClientID : string;
  p_ClientSecret : string;
  p_Scopes : list string;
  p_Icon : string;
  p_ButtonText : string;
  p_ButtonStyle : string;
  p_AutoLogin : bool;
  p_TenantID : string;
  p_DefaultRole : string;
}.

Record body := {
  as_login : option loginBody;
  as_user : option userBody;
  as_callback : option callbackBody;
  as_validate : option validateBody;
  as_email : option string;
  as_reset : option resetBody;
  as_invite : option inviteBody;
  as_accept : option acceptBody;
  as_provider : option oidcProviderPayload;
  as_hint : option string;
}.

(** ** Roles and tenants *)

Section Normal.
Context `{GoUnicode}.

Definition NormalizeRole (value : string) : string :=
  let v := ToLower (TrimSpace value) in
  if String.eqb v RoleAdmin then RoleAdmin
  else if String.eqb v RoleOperator then RoleOperator
  else if String.eqb v "user" then RoleOperator
  else RoleViewer.

Fixpoint distinct_ids (seen : gset string) (ids : list string) : list string :=
  match ids with
  | [] => []
  | id :: rest =>
      let id := TrimSpace id in
      if String.eqb id "" || bool_decide (id ∈ seen) then distinct_ids seen rest
      else id :: distinct_ids ({[id]} ∪ seen) rest
  end.
Definition SortTenantIDs (ids : list string) : list string := sort_strings (distinct_ids ∅ ids).

(** ** Principals *)

Record Principal := { P_User : User; P_Role : string; P_TenantIDs : list string }.

Definition newPrincipal (u : User) : Principal :=
  let ids := User_TenantIDs u in
  let ids := if Nat.eqb (length ids) 0 && negb (String.eqb (TrimSpace (User_TenantID u)) "")
             then [TrimSpace (User_TenantID u)] else ids in
  {| P_User := u; P_Role := NormalizeRole (User_Role u); P_TenantIDs := SortTenantIDs ids |}.
End Normal.

Definition P_IsAdmin (p : Principal) : bool := String.eqb (P_Role p) RoleAdmin.

Definition rolePriority (role : string) : Z :=
  if String.eqb role RoleAdmin then 3
  else if String.eqb role RoleOperator then 2
  else if String.eqb role RoleViewer then 1
  else 0.

Definition HasRole (p : Principal) (min : string) : bool := rolePriority min <=? rolePriority (P_Role p).

Definition P_AllowedTenantIDs (p : Principal) : list string := if P_IsAdmin p then [] else P_TenantIDs p.

Definition CanAccessTenant (p : option Principal) (tenantID : string) : bool :=
  match p with
  | None => false
  | Some p =>
      if String.eqb tenantID "" then P_IsAdmin p
      else if P_IsAdmin p then true
      else mem_str tenantID (P_TenantIDs p)
  end.

(** The tenants that a listing shows: [None] is all of them. The boolean is false when
    there is nothing to show. *)
Definition tenantScope (p : option Principal) : option (gset string) * bool :=
  match p with
  | None => (None, false)
  | Some p =>
      if P_IsAdmin p then (None, true)
      else if Nat.eqb (length (P_AllowedTenantIDs p)) 0 then (None, false)
      else (Some (list_to_set (P_AllowedTenantIDs p)), true)
  end.

Definition tenantAllowed (scope : option (gset string)) (tenantID : string) : bool :=
  match scope with None => true | Some s => bool_decide (tenantID ∈ s) end.

(** ** Requests and responses *)

Inductive method := GET | POST | PUT | PATCH | DELETE | OtherMethod.

Record request := {
  Method : method;
  Path : string;
  RequestURI : string;
  Query : gmap string string;
  Body : body;
  Host : string;
  TLS : bool;
  Authorization : string;
  SessionCookie : option string;
  TenantCookie : option string;
  ForwardedProto : string;
  ForwardedHost : string;
  UserAgent : string;
  clientIP : string;
  principal : option Principal;
}.

(** The flag of a cookie is its [Secure] attribute. *)
Inductive cookie :=
| SetSession (token : string) (expires : Time) (secure : bool)
| ClearSession (secure : bool)
| SetTenantHint (tenantID : string) (secure : bool)
| ClearTenantHint (secure : bool).

Inductive payload :=
| Text (s : string)
| Json (m : fields)
| UserJson (u : User)
| UsersJson (l : list User)
| SessionsJson (l : list Session)
| ListJson (l : list fields)
| OptionsJson (m : fields) (providers : list fields).

Inductive response :=
| Reply (status : Z) (cookies : list cookie) (p : payload)
| Redirect (target : string) (cookies : list cookie).

Definition http_error (status : Z) (message : string) : response := Reply status [] (Text message).
Definition ok_json (m : fields) : response := Reply 200 [] (Json m).
Definition NotFound : response := http_error 404 "404 page not found".
Definition bad_method : response := http_error 405 "method not allowed".

(** ** Calls *)

(** [errors.Is(err, sql.ErrNoRows)] tells the first from the others. *)
Inductive db_error := NoRows | DbErr (detail : string).
Notation db A := (result db_error A).

Definition err_text (e : db_error) : string :=
  match e with NoRows => "sql: no rows in result set" | DbErr d => d end.

(** The store; the rate limiter; the table of callback tokens; the random source and the
    clock; mail, given by its recipient, subject and link; the cache of issuers; the identity
    provider: discovery of its endpoints, exchange of a code for the raw identity token
    (which may be missing), verification of the token. A write of a structure behind a pointer answers with the
    structure as the store leaves it. *)
Inductive op : Type -> Type :=
| GetAgentByToken (token : string) : op (db string)
| GetSessionByToken (token : string) : op (db Session)
| GetUserByID (id : Z) : op (db User)
| GetUserByEmail (email : string) : op (db User)
| AuthenticateUser (username password : string) : op (db User)
| CreateSession (userID minutes : Z) : op (db Session)
| DeleteSession (token : string) : op unit
| ListSessions : op (db (list Session))
| DeleteSessionByHash (key : string) : op (db Z)
| ListUsers : op (db (list User))
| CreateUser (u : User) (password : string) : op (db User)
| UpdateUser (u : User) : op (option db_error)
| UpdateUserPassword (id : Z) (password : string) : op (option db_error)
| DeleteUser (id : Z) : op (option db_error)
| CreatePasswordResetToken (userID minutes : Z) : op (db string)
| ValidatePasswordResetToken (token : string) : op (db Z)
| DeletePasswordResetToken (token : string) : op unit
| CreateUserInvitation (inv : UserInvitation) (minutes : Z) : op (db string)
| GetUserInvitation (token : string) : op (db UserInvitation)
| MarkInvitationUsed (id : Z) : op unit
| GetTenantName (id : string) : op (db string)
| FindTenantByDomain (domain : string) : op (db (option TenantName))
| ListOIDCProviders (tenantID : string) : op (db (list OIDCProvider))
| GetOIDCProvider (slug : string) : op (db OIDCProvider)
| CreateOIDCProvider (p : OIDCProvider) : op (db OIDCProvider)
| UpdateOIDCProvider (p : OIDCProvider) : op (db OIDCProvider)
| DeleteOIDCProvider (slug : string) : op (option db_error)
| CreateOIDCSession (s : OIDCSession) : op (option db_error)
| GetOIDCSession (id : string) : op (db OIDCSession)
| DeleteOIDCSession (id : string) : op unit
| GetOIDCLink (slug subject : string) : op (db OIDCLink)
| CreateOIDCLink (l : OIDCLink) : op (option db_error)
| DeleteOIDCLink (slug subject : string) : op unit
| SaveAudit (e : AuditEntry) : op unit
| IsBlocked (ip key : string) : op bool
| RecordFailure (ip key : string) : op (bool * bool * Z)
| RecordSuccess (ip key : string) : op unit
| PutCallback (token : string) (t : agentCallbackToken) : op unit
| TakeCallback (token : string) : op (option agentCallbackToken)
| RandomText (n : Z) : op (option string)
| Now : op Time
| SendMail (recipient subject link : string) : op (option string)
| CachedIssuer (issuer : string) : op (option Endpoint)
| DiscoverIssuer (issuer : string) : op (option Endpoint)
| CacheIssuer (issuer : string) (e : Endpoint) : op unit
| ExchangeCode (c : oauthConfig) (code : string) : op (option (option string))
| VerifyToken (e : Endpoint) (clientID raw : string) : op (option idToken).

(** [serverConfig] may be nil, and so may the limiter. *)
Record Config := {
  security : option SecurityConfig;
  ProxyUseHTTPS : bool;
  has_limiter : bool;
}.

Notation M := (prog op).

(** ** Helpers *)

Section Helpers.
Context `{GoUnicode} (cfg : Config).

(** The entry with its defaults. *)
Definition audit_entry (e : AuditEntry) : AuditEntry :=
  let dflt x y := if String.eqb x "" then y else x in
  {| Audit_ActorType := dflt (Audit_ActorType e) "system"; Audit_ActorID := dflt (Audit_ActorID e) "UNKNOWN";
     Audit_ActorName := Audit_ActorName e; Audit_Action := Audit_Action e; Audit_TargetType := Audit_TargetType e;
     Audit_TargetID := Audit_TargetID e; Audit_TenantID := Audit_TenantID e;
     Audit_Severity := dflt (Audit_Severity e) "info"; Audit_Details := Audit_Details e;
     Audit_Metadata := Audit_Metadata e; Audit_IPAddress := Audit_IPAddress e; Audit_UserAgent := Audit_UserAgent e |}.

(** The error of [SaveAuditEntry] is only logged. *)
Definition logAuditEntry (e : AuditEntry) : M unit := ask (SaveAudit (audit_entry e)).

(** Type, identifier, name and tenant of the user of the request. *)
Definition auditActorFromPrincipal (r : request) : string * string * string * string :=
  match principal r with
  | Some p => ("user", User_Username (P_User p), User_Username (P_User p), User_TenantID (P_User p))
  | None => ("system", "UNKNOWN", "", "")
  end.

Definition maskSensitiveToken (token : string) : string :=
  if String.eqb token "" then ""
  else if (String.length token <=? 8)%nat then token
  else (stake 8 token +:+ "...")%string.

Definition requestIsHTTPS (r : request) : bool :=
  if TLS r then true
  else if negb (String.eqb (ForwardedProto r) "")
          && String.eqb (TrimSpace (ToLower (SplitN2 (ForwardedProto r) ",").1)) "https" then true
  else match security cfg with Some _ => ProxyUseHTTPS cfg | None => false end.

Definition subject_of (p : Principal) : Authz.Subject :=
  {| Role := P_Role p; AllowedTenantIDs := P_AllowedTenantIDs p; IsAdmin := P_IsAdmin p |}.

(** The status of the refusal, if any. *)
Definition authorizeRequest (r : request) (action : string) (resource : list string) : option Z :=
  match principal r with
  | None => Some 401
  | Some p =>
      match Authorize (subject_of p) action {| TenantIDs := resource |} with
      | Ok _ => None
      | Err _ => Some 403
      end
  end.

(** [if !authorizeOrReject(...) { return }] *)
Definition authorized (r : request) (action : string) (resource : list string) (k : M response) : M response :=
  match authorizeRequest r action resource with
  | None => k
  | Some status => mret (http_error status (if status =? 401 then "Unauthorized" else "Forbidden"))
  end.

(** ** Passwords *)

Definition has_byte (f : ascii -> bool) (s : string) : bool := negb (all_bytes (fun c => negb (f c)) s).
Definition between (lo hi : ascii) (c : ascii) : bool := (byte_of lo <=? byte_of c) && (byte_of c <=? byte_of hi).
Definition special (c : ascii) : bool :=
  between "!" "/" c || between ":" "@" c || between "[" "`" c || between "{" "~" c.

Definition min_length (c : SecurityConfig) : Z := if PasswordMinLength c <=? 0 then 8 else PasswordMinLength c.

(** The error, if any. The classes are ASCII, so that bytes and runes agree. *)
Definition ValidatePassword (c : SecurityConfig) (password : string) : option string :=
  if Z.of_nat (String.length password) <? min_length c
  then Some ("password must be at least " +:+ pretty (min_length c) +:+ " characters")%string
  else if PasswordRequireUpper c && negb (has_byte (between "A" "Z") password)
  then Some "password must contain at least one uppercase letter"
  else if PasswordRequireLower c && negb (has_byte (between "a" "z") password)
  then Some "password must contain at least one lowercase letter"
  else if PasswordRequireNumber c && negb (has_byte (between "0" "9") password)
  then Some "password must contain at least one number"
  else if PasswordRequireSpecial c && negb (has_byte special password)
  then Some "password must contain at least one special character"
  else None.

(** The check of the handlers: none without a configuration. *)
Definition policy_error (password : string) : option string :=
  match security cfg with Some c => ValidatePassword c password | None => None end.

Definition PasswordRequirements (c : SecurityConfig) : string :=
  let parts := (if PasswordRequireUpper c then ["uppercase letter"] else [])
    ++ (if PasswordRequireLower c then ["lowercase letter"] else [])
    ++ (if PasswordRequireNumber c then ["number"] else [])
    ++ (if PasswordRequireSpecial c then ["special character"] else []) in
  let first := ("Minimum " +:+ pretty (min_length c) +:+ " characters")%string in
  if Nat.eqb (length parts) 0 then first else (first +:+ ", requires: " +:+ Join parts ", ")%string.

Definition handlePasswordPolicy (r : request) : M response :=
  match Method r with
  | GET =>
      let dflt := {| PasswordMinLength := 8; PasswordRequireUpper := false; PasswordRequireLower := false;
                     PasswordRequireNumber := false; PasswordRequireSpecial := false |} in
      let c := default dflt (security cfg) in
      mret (ok_json [("min_length", FInt (min_length c)); ("require_upper", FBool (PasswordRequireUpper c));
        ("require_lower", FBool (PasswordRequireLower c)); ("require_number", FBool (PasswordRequireNumber c));
        ("require_special", FBool (PasswordRequireSpecial c)); ("description", FStr (PasswordRequirements c))])
  | _ => mret bad_method
  end.
End Helpers.
