(* ===== verification/Sessions.v ===== *)
(** * Authentication: agent tokens and connections, sessions, login and the callback tokens of agents
    ([server/main.go], [server/auth_tenant_hints.go]). *)
From S2P Require Import Prelude GoStrings GoTime Effects Programs Authz GoUrl AuditLog AccountCalls.
From Stdlib Require Import Ascii.

Section Middleware.
Context `{GoUnicode} (cfg : Config).

(** [if authRateLimiter != nil { ... }] *)
Definition limited {A} (absent : A) (o : op A) : M A := if has_limiter cfg then ask o else mret absent.

Definition token_prefix (token : string) : string := if (8 <? String.length token)%nat then stake 8 token else token.

(** The bearer token of the [Authorization] header. *)
Definition bearer (r : request) : option string :=
  match SplitN2 (Authorization r) " " with
  | (scheme, Some token) => if String.eqb scheme "Bearer" then Some token else None
  | _ => None
  end.

Definition blocked_audit (r : request) (prefix : string) (count : Z) (e : db_error) : AuditEntry :=
  {| Audit_ActorType := "agent"; Audit_ActorID := prefix; Audit_ActorName := ""; Audit_Action := "auth_blocked";
     Audit_TargetType := ""; Audit_TargetID := ""; Audit_TenantID := ""; Audit_Severity := "warn";
     Audit_Details := ("IP blocked after " +:+ pretty count +:+ " failed attempts with token " +:+ prefix
                       +:+ "... Error: " +:+ err_text e)%string;
     Audit_Metadata := [("attempt_count", FInt count); ("protocol", FStr "http")];
     Audit_IPAddress := clientIP r; Audit_UserAgent := UserAgent r |}.

(** A failed lookup: counted, and audited when it starts a block that is to be logged. *)
Definition rejectToken (r : request) (prefix : string) (e : db_error) : M response :=
  '(isBlocked, shouldLog, attemptCount) ← limited (false, true, 0) (RecordFailure (clientIP r) prefix);
  _ ← (if (shouldLog : bool) && (isBlocked : bool) then logAuditEntry (blocked_audit r prefix attemptCount e) else mret tt);
  mret (if (isBlocked : bool) then http_error 429 "Too many failed attempts. Try again later."
        else http_error 401 "Invalid token").

Definition requireAuth (next : string -> M response) (r : request) : M response :=
  if String.eqb (Authorization r) "" then mret (http_error 401 "Missing Authorization header")
  else match bearer r with
  | None => mret (http_error 401 "Invalid Authorization header format")
  | Some token =>
      let prefix := token_prefix token in
      blocked ← limited false (IsBlocked (clientIP r) prefix);
      if (blocked : bool) then mret (http_error 429 "Too many failed attempts. Try again later.")
      else
        agent ← ask (GetAgentByToken token);
        match agent with
        | Err e => rejectToken r prefix e
        | Ok agent => _ ← limited tt (RecordSuccess (clientIP r) prefix); next agent
        end
  end.

Definition sessionTokenFromRequest (r : request) : string :=
  match (if negb (String.eqb (Authorization r) "") then bearer r else None) with
  | Some token => token
  | None => default "" (SessionCookie r)
  end.

Inductive session_error := errSessionMissing | errSessionInvalid | errSessionUser.

Definition loadUserForSessionToken (token : string) : M (result session_error User) :=
  if String.eqb token "" then mret (Err errSessionMissing)
  else
    ses ← ask (GetSessionByToken token);
    match ses with
    | Err _ => mret (Err errSessionInvalid)
    | Ok ses =>
        user ← ask (GetUserByID (Session_UserID ses));
        mret (match user with Err _ => Err errSessionUser | Ok user => Ok user end)
    end.

(** [contextWithPrincipal] *)
Definition with_principal (r : request) (u : User) : request :=
  {| Method := Method r; Path := Path r; RequestURI := RequestURI r; Query := Query r; Body := Body r; Host := Host r;
     TLS := TLS r; Authorization := Authorization r; SessionCookie := SessionCookie r; TenantCookie := TenantCookie r;
     ForwardedProto := ForwardedProto r; ForwardedHost := ForwardedHost r; UserAgent := UserAgent r;
     clientIP := clientIP r; principal := Some (newPrincipal u) |}.

Definition requireWebAuth (next : request -> M response) (r : request) : M response :=
  let token := sessionTokenFromRequest r in
  if String.eqb token "" then mret (http_error 401 "unauthenticated")
  else
    user ← loadUserForSessionToken token;
    match user with
    | Err errSessionInvalid => mret (http_error 401 "invalid session")
    | Err errSessionUser => mret (http_error 401 "invalid session user")
    | Err _ => mret (http_error 401 "unauthenticated")
    | Ok user => next (with_principal r user)
    end.

Definition clearSessionCookie (r : request) : cookie := ClearSession (requestIsHTTPS cfg r).

Definition redirectToLogin (r : request) (cookies : list cookie) : response :=
  Redirect (if negb (String.eqb (RequestURI r) "") && negb (String.eqb (Path r) "/login")
            then "/login?redirect=" +:+ escape (RequestURI r) encodeQueryComponent else "/login")%string cookies.

(** The user, or the redirection. *)
Definition ensureInteractiveSession (r : request) : M (User + response) :=
  user ← loadUserForSessionToken (sessionTokenFromRequest r);
  mret (match user with
        | Ok user => inl user
        | Err errSessionMissing => inr (redirectToLogin r [])
        | Err _ => inr (redirectToLogin r [clearSessionCookie r])
        end).
End Middleware.

(** ** Login and logout *)

Section Login.
Context `{GoUnicode} (cfg : Config).

Definition createSessionCookie (r : request) (userID : Z) : M (db (Session * cookie)) :=
  ses ← ask (CreateSession userID (60 * 24));
  mret (match ses with
        | Err e => Err e
        | Ok ses => Ok (ses, SetSession (Session_Token ses) (Session_ExpiresAt ses) (requestIsHTTPS cfg r))
        end).

Definition primaryTenantID (u : User) : string :=
  match User_TenantIDs u with
  | id :: _ => TrimSpace id
  | [] => TrimSpace (User_TenantID u)
  end.

(** The cookie lives for 90 days. *)
Definition setTenantHintCookie (r : request) (tenantID : string) : cookie :=
  let tenantID := TrimSpace tenantID in
  if String.eqb tenantID "" then ClearTenantHint (requestIsHTTPS cfg r)
  else SetTenantHint tenantID (requestIsHTTPS cfg r).

Definition rememberUserTenantHint (r : request) (u : User) : cookie :=
  setTenantHintCookie r (TrimSpace (primaryTenantID u)).

Definition login_failed_audit (r : request) (username : string) : AuditEntry :=
  {| Audit_ActorType := "user"; Audit_ActorID := ToLower username; Audit_ActorName := username;
     Audit_Action := "auth.login"; Audit_TargetType := ""; Audit_TargetID := ""; Audit_TenantID := "";
     Audit_Severity := "warn"; Audit_Details := "Invalid username or password";
     Audit_Metadata := [("result", FStr "failure")]; Audit_IPAddress := clientIP r; Audit_UserAgent := UserAgent r |}.

Definition login_audit (r : request) (u : User) (ses : Session) : AuditEntry :=
  {| Audit_ActorType := "user"; Audit_ActorID := User_Username u; Audit_ActorName := User_Username u;
     Audit_Action := "auth.login"; Audit_TargetType := ""; Audit_TargetID := ""; Audit_TenantID := User_TenantID u;
     Audit_Severity := ""; Audit_Details := "User authenticated via local login";
     Audit_Metadata := [("result", FStr "success"); ("session_id", FStr (maskSensitiveToken (Session_Token ses)));
                        ("expires_at", FTime (Session_ExpiresAt ses))];
     Audit_IPAddress := clientIP r; Audit_UserAgent := UserAgent r |}.

Definition login (r : request) (i : loginBody) : M response :=
  user ← ask (AuthenticateUser (login_Username i) (login_Password i));
  match user with
  | Err _ =>
      _ ← limited cfg (false, true, 0) (RecordFailure (clientIP r) (login_Username i));
      _ ← logAuditEntry (login_failed_audit r (login_Username i));
      mret (http_error 401 "invalid credentials")
  | Ok user =>
      ses ← createSessionCookie r (User_ID user);
      match ses with
      | Err _ => mret (http_error 500 "failed to create session")
      | Ok (ses, cookie) =>
          _ ← logAuditEntry (login_audit r user ses);
          mret (Reply 200 [cookie; rememberUserTenantHint r user]
            (Json [("success", FBool true); ("token", FStr (Session_Token ses)); ("expires_at", FTime (Session_ExpiresAt ses))]))
      end
  end.

Definition handleAuthLogin (r : request) : M response :=
  match Method r with
  | POST =>
      match as_login (Body r) with
      | None => mret (http_error 400 "bad request")
      | Some i =>
          if String.eqb (login_Username i) "" || String.eqb (login_Password i) ""
          then mret (http_error 400 "username and password required")
          else login r i
      end
  | _ => mret bad_method
  end.

(** Entries of a user of the interface. *)
Definition actor_audit (r : request) (action targetType target severity details : string) (meta : fields)
    (agent : string) : AuditEntry :=
  let '(kind, id, name, tenant) := auditActorFromPrincipal r in
  {| Audit_ActorType := kind; Audit_ActorID := id; Audit_ActorName := name; Audit_Action := action;
     Audit_TargetType := targetType; Audit_TargetID := target; Audit_TenantID := tenant; Audit_Severity := severity;
     Audit_Details := details; Audit_Metadata := meta; Audit_IPAddress := clientIP r; Audit_UserAgent := agent |}.

(** Unlike [sessionTokenFromRequest] an empty bearer token gives way to the cookie. *)
Definition logout_token (r : request) : string :=
  let token := default "" (if negb (String.eqb (Authorization r) "") then bearer r else None) in
  if String.eqb token "" then default "" (SessionCookie r) else token.

Definition handleAuthLogout (r : request) : M response :=
  match Method r with
  | POST =>
      let token := logout_token r in
      if String.eqb token "" then mret (http_error 401 "unauthenticated")
      else
        _ ← ask (DeleteSession token);
        _ ← logAuditEntry (actor_audit r "auth.logout" "" "" "" "Session terminated"
              [("token_prefix", FStr (maskSensitiveToken token))] (UserAgent r));
        mret (Reply 200 [ClearSession (requestIsHTTPS cfg r)] (Json [("success", FBool true)]))
  | _ => mret bad_method
  end.

(** [storage.TokenHash] is [token_hash]. *)
Definition handleAuthMe (token_hash : string -> string) (r : request) : M response :=
  mret (match principal r with
        | None => http_error 401 "unauthenticated"
        | Some p =>
            let u := P_User p in
            let token := sessionTokenFromRequest r in
            ok_json [("id", FInt (User_ID u)); ("username", FStr (User_Username u)); ("role", FStr (User_Role u));
              ("tenant_id", FStr (User_TenantID u)); ("tenant_ids", FStrs (P_TenantIDs p));
              ("created_at", FTime (User_CreatedAt u));
              ("session_token_hash", FStr (if String.eqb token "" then "" else token_hash token))]
        end).
End Login.

(** ** Callback tokens *)

Section Callbacks.
Context `{GoUnicode} (cfg : Config).

Definition generateAgentCallbackToken (u : User) (agentID url : string) : M (option agentCallbackToken) :=
  random ← ask (RandomText 32);
  match random with
  | None => mret None
  | Some token =>
      now ← ask Now;
      let act := {| Callback_Token := token; Callback_UserID := User_ID u; Callback_Username := User_Username u;
                    Callback_Role := User_Role u; Callback_TenantID := User_TenantID u;
                    Callback_TenantIDs := User_TenantIDs u; Callback_AgentID := agentID; CallbackURL := url;
                    Callback_ExpiresAt := Add now (dmul 5 Minute); Callback_CreatedAt := now |} in
      _ ← ask (PutCallback token act);
      mret (Some act)
  end.

(** The token is removed whether or not it has expired. *)
Definition validateAgentCallbackToken (token : string) : M (option agentCallbackToken) :=
  act ← ask (TakeCallback token);
  match act with
  | None => mret None
  | Some act =>
      now ← ask Now;
      mret (if After now (Callback_ExpiresAt act) then None else Some act)
  end.

(** What the periodic sweep leaves of the table of tokens. *)
Definition cleanupExpiredAgentCallbackTokens (now : Time) (m : gmap string agentCallbackToken) : gmap string agentCallbackToken :=
  filter (fun ta => After now (Callback_ExpiresAt ta.2) = false) m.

Definition is_localhost (host : string) : bool := mem_str (ToLower host) ["localhost"; "127.0.0.1"; "::1"].

Definition callback_audit (r : request) (u : User) (agentID host : string) (expires : Time) : AuditEntry :=
  {| Audit_ActorType := "user"; Audit_ActorID := User_Username u; Audit_ActorName := User_Username u;
     Audit_Action := "auth.agent_callback.create"; Audit_TargetType := "agent"; Audit_TargetID := agentID;
     Audit_TenantID := User_TenantID u; Audit_Severity := "";
     Audit_Details := "Created agent callback token for remote authentication";
     Audit_Metadata := [("callback_host", FStr host); ("expires_at", FTime expires)];
     Audit_IPAddress := clientIP r; Audit_UserAgent := UserAgent r |}.

Definition createCallback (r : request) (p : Principal) (i : callbackBody) : M response :=
  let url := TrimSpace (cb_URL i) in
  if String.eqb url "" then mret (http_error 400 "callback_url required")
  else match Parse url with
  | None => mret (http_error 400 "invalid callback_url")
  | Some parsed =>
      if negb (is_localhost (Hostname parsed)) && negb (String.eqb (Scheme parsed) "https")
      then mret (http_error 400 "callback_url must use HTTPS for non-localhost addresses")
      else
        act ← generateAgentCallbackToken (P_User p) (cb_AgentID i) url;
        match act with
        | None => mret (http_error 500 "failed to generate callback token")
        | Some act =>
            _ ← logAuditEntry (callback_audit r (P_User p) (cb_AgentID i) (UHost parsed) (Callback_ExpiresAt act));
            mret (ok_json [("token", FStr (Callback_Token act)); ("expires_at", FTime (Callback_ExpiresAt act))])
        end
  end.

Definition handleAgentAuthCallback (r : request) : M response :=
  match Method r with
  | POST =>
      match principal r, as_callback (Body r) with
      | None, _ => mret (http_error 401 "unauthenticated")
      | Some _, None => mret (http_error 400 "bad request")
      | Some p, Some i => createCallback r p i
      end
  | _ => mret bad_method
  end.

Definition validate_audit (r : request) (agentID name tenant severity targetType target details : string)
    (meta : fields) : AuditEntry :=
  {| Audit_ActorType := "agent"; Audit_ActorID := agentID; Audit_ActorName := name;
     Audit_Action := "auth.agent_callback.validate"; Audit_TargetType := targetType; Audit_TargetID := target;
     Audit_TenantID := tenant; Audit_Severity := severity; Audit_Details := details; Audit_Metadata := meta;
     Audit_IPAddress := clientIP r; Audit_UserAgent := UserAgent r |}.

(** An agent other than the one the token was made for is only logged. *)
Definition handleAgentAuthCallbackValidate (r : request) : M response :=
  match Method r with
  | POST =>
      match as_validate (Body r) with
      | None => mret (http_error 400 "bad request")
      | Some i =>
          let token := TrimSpace (val_Token i) in
          if String.eqb token "" then mret (http_error 400 "token required")
          else
            act ← validateAgentCallbackToken token;
            match act with
            | None =>
                _ ← logAuditEntry (validate_audit r (val_AgentID i) "" "" "warn" "" ""
                      "Agent callback token validation failed (invalid or expired)"
                      [("result", FStr "failure"); ("token_prefix", FStr (maskSensitiveToken token))]);
                mret (http_error 401 "invalid or expired token")
            | Some act =>
                _ ← logAuditEntry (validate_audit r (val_AgentID i) (Callback_Username act) (Callback_TenantID act) ""
                      "user" (Callback_Username act)
                      ("Agent callback token validated for user " +:+ Callback_Username act)%string
                      [("result", FStr "success"); ("user_id", FInt (Callback_UserID act));
                       ("role", FStr (Callback_Role act)); ("agent_id", FStr (Callback_AgentID act))]);
                mret (ok_json [("valid", FBool true); ("user_id", FInt (Callback_UserID act));
                  ("username", FStr (Callback_Username act)); ("role", FStr (Callback_Role act));
                  ("tenant_id", FStr (Callback_TenantID act)); ("tenant_ids", FStrs (Callback_TenantIDs act));
                  ("expires_at", FTime (Callback_ExpiresAt act))])
            end
      end
  | _ => mret bad_method
  end.
End Callbacks.

(** ** The authentication of the connection of an agent ([server/websocket.go]) *)

#[local] Open Scope string_scope.

Section Authentication.
Context (cfg : Config).

Definition blocked_websocket_audit (r : request) (prefix : string) (count : Z) (e : db_error) : AuditEntry :=
  {| Audit_ActorType := "agent"; Audit_ActorID := prefix; Audit_ActorName := ""; Audit_Action := "auth_blocked_websocket";
     Audit_TargetType := ""; Audit_TargetID := ""; Audit_TenantID := ""; Audit_Severity := "warn";
     Audit_Details := "IP blocked after " +:+ pretty count +:+ " failed WebSocket auth attempts with token " +:+ prefix
                      +:+ "... Error: " +:+ err_text e;
     Audit_Metadata := [("attempt_count", FInt count); ("protocol", FStr "websocket")];
     Audit_IPAddress := clientIP r; Audit_UserAgent := UserAgent r |}.

(** [handleAgentWebSocket] before the upgrade: the identifier of the agent, or a response.
    The store returns an agent or an error. *)
Definition authenticateWebSocket (r : request) : M (result response string) :=
  let token := default "" (Query r !! "token") in
  if String.eqb token "" then mret (Err (http_error 401 "Missing authentication token"))
  else
    let prefix := token_prefix token in
    blocked ← limited cfg false (IsBlocked (clientIP r) prefix);
    if (blocked : bool) then mret (Err (http_error 429 "Too many failed attempts. Try again later."))
    else
      agent ← ask (GetAgentByToken token);
      match agent with
      | Ok agent => _ ← limited cfg tt (RecordSuccess (clientIP r) prefix); mret (Ok agent)
      | Err e =>
          '(isBlocked, shouldLog, attemptCount) ← limited cfg (false, true, 0) (RecordFailure (clientIP r) prefix);
          _ ← (if (shouldLog : bool) && (isBlocked : bool)
               then logAuditEntry (blocked_websocket_audit r prefix attemptCount e) else mret tt);
          mret (Err (if (isBlocked : bool) then http_error 429 "Too many failed attempts. Try again later."
                     else http_error 401 "Invalid authentication token"))
      end.
End Authentication.
