(* ===== verification/Users.v ===== *)
(** * User accounts: administration, sessions, password reset and invitations
    ([server/main.go]). *)
From S2P Require Import Prelude GoStrings GoTime Effects Programs Authz AuditLog AccountCalls Sessions.
From Stdlib Require Import Ascii.

(** ** Administration *)

Section Users.
Context `{GoUnicode} (cfg : Config).

Definition listUsers (r : request) : M response :=
  authorized r ActionSettingsServerRead [] (authorized r ActionUsersRead [] (
    users ← ask ListUsers;
    mret (match users with
          | Err _ => http_error 500 "failed to list users"
          | Ok users => Reply 200 [] (UsersJson users)
          end))).

(** The tenants of the body: the list, or else the single one. *)
Definition requested_tenants (ids : list string) (id : string) : list string :=
  let tenantIDs := SortTenantIDs ids in
  if Nat.eqb (length tenantIDs) 0 then
    let tid := TrimSpace id in if String.eqb tid "" then [] else [tid]
  else tenantIDs.

Definition new_user (i : userBody) : User :=
  let tenantIDs := requested_tenants (new_TenantIDs i) (new_TenantID i) in
  {| User_ID := 0; User_Username := new_Username i; User_PasswordHash := ""; User_Role := NormalizeRole (new_Role i);
     User_TenantID := default "" (head tenantIDs); User_TenantIDs := tenantIDs; User_Email := new_Email i;
     User_CreatedAt := zero_time |}.

Definition without_hash (u : User) : User :=
  {| User_ID := User_ID u; User_Username := User_Username u; User_PasswordHash := ""; User_Role := User_Role u;
     User_TenantID := User_TenantID u; User_TenantIDs := User_TenantIDs u; User_Email := User_Email u;
     User_CreatedAt := User_CreatedAt u |}.

Definition createUser (r : request) (i : userBody) : M response :=
  if String.eqb (new_Username i) "" || String.eqb (new_Password i) ""
  then mret (http_error 400 "username and password required")
  else match policy_error cfg (new_Password i) with
  | Some e => mret (http_error 400 e)
  | None =>
      res ← ask (CreateUser (new_user i) (new_Password i));
      match res with
      | Err e => mret (http_error 500 ("failed to create user: " +:+ err_text e)%string)
      | Ok u =>
          let u := without_hash u in
          _ ← logAuditEntry (actor_audit r "user.create" "user" (User_Username u) ""
                ("Created user " +:+ User_Username u +:+ " with role " +:+ User_Role u)%string
                [("role", FStr (User_Role u)); ("tenant_ids", FStrs (User_TenantIDs u)); ("email", FStr (User_Email u))] "");
          mret (Reply 201 [] (UserJson u))
      end
  end.

Definition handleUsers (r : request) : M response :=
  match Method r with
  | GET => listUsers r
  | POST =>
      authorized r ActionSettingsServerWrite [] (authorized r ActionUsersWrite [] (
        match as_user (Body r) with
        | None => mret (http_error 400 "bad request")
        | Some i => createUser r i
        end))
  | _ => mret bad_method
  end.

(** [if err != nil { "user not found" }] *)
Definition found_user (id : Z) (k : User -> M response) : M response :=
  u ← ask (GetUserByID id);
  match u with Err _ => mret (http_error 404 "user not found") | Ok u => k u end.

Definition getUser (r : request) (id : Z) : M response :=
  authorized r ActionUsersRead [] (found_user id (fun u => mret (Reply 200 [] (UserJson (without_hash u))))).

Definition deleteUser (r : request) (id : Z) : M response :=
  authorized r ActionUsersWrite [] (found_user id (fun u =>
    res ← ask (DeleteUser id);
    match res with
    | Some _ => mret (http_error 500 "failed to delete user")
    | None =>
        _ ← logAuditEntry (actor_audit r "user.delete" "user" (User_Username u) ""
              ("Deleted user " +:+ User_Username u)%string
              [("user_id", FInt (User_ID u)); ("role", FStr (User_Role u)); ("tenant_ids", FStrs (User_TenantIDs u))] "");
        mret (ok_json [("success", FBool true)])
    end)).

(** The tenants are replaced whenever a user is updated, by none if the body names none. *)
Definition edited_user (u : User) (i : userBody) : User :=
  let tenantIDs :=
    if negb (Nat.eqb (length (new_TenantIDs i)) 0) then SortTenantIDs (new_TenantIDs i)
    else let tid := TrimSpace (new_TenantID i) in if String.eqb tid "" then [] else [tid] in
  {| User_ID := User_ID u; User_Username := User_Username u; User_PasswordHash := User_PasswordHash u;
     User_Role := if String.eqb (new_Role i) "" then User_Role u else NormalizeRole (new_Role i);
     User_TenantID := default "" (head tenantIDs); User_TenantIDs := tenantIDs;
     User_Email := if String.eqb (new_Email i) "" then User_Email u else new_Email i;
     User_CreatedAt := User_CreatedAt u |}.

Definition update_meta (before after : User) : fields :=
  [("role_before", FStr (User_Role before)); ("role_after", FStr (User_Role after));
   ("tenant_ids_before", FStrs (User_TenantIDs before)); ("tenant_ids_after", FStrs (User_TenantIDs after));
   ("email_before", FStr (User_Email before)); ("email_after", FStr (User_Email after))].

(** After the user is updated: the new password, if the body has one. *)
Definition rotatePassword (r : request) (id : Z) (u : User) (password : string) : M response :=
  if String.eqb password "" then mret (Reply 200 [] (UserJson u))
  else match policy_error cfg password with
  | Some e => mret (http_error 400 e)
  | None =>
      res ← ask (UpdateUserPassword id password);
      match res with
      | Some _ => mret (http_error 500 "failed to update password")
      | None =>
          _ ← logAuditEntry (actor_audit r "user.password.rotate" "user" (User_Username u) "warn"
                ("Password reset for user " +:+ User_Username u)%string [("user_id", FInt (User_ID u))] "");
          mret (Reply 200 [] (UserJson u))
      end
  end.

Definition updateUser (r : request) (id : Z) : M response :=
  authorized r ActionUsersWrite [] (
    match as_user (Body r) with
    | None => mret (http_error 400 "bad request")
    | Some i =>
        found_user id (fun before =>
          let u := edited_user before i in
          res ← ask (UpdateUser u);
          match res with
          | Some _ => mret (http_error 500 "failed to update user")
          | None =>
              _ ← logAuditEntry (actor_audit r "user.update" "user" (User_Username u) ""
                    ("Updated user " +:+ User_Username u)%string (update_meta before u) "");
              rotatePassword r id u (new_Password i)
          end)
    end).

(** [strconv.ParseInt(s, 10, 64)] is [parseInt]. *)
Definition handleUser (parseInt : string -> option Z) (r : request) : M response :=
  let idStr := TrimPrefix (Path r) "/api/v1/users/" in
  if String.eqb idStr "" then mret (http_error 400 "user id required")
  else match parseInt (TrimByte idStr "/") with
  | None => mret (http_error 400 "invalid user id")
  | Some id =>
      match Method r with
      | GET => getUser r id
      | DELETE => deleteUser r id
      | PUT | PATCH => updateUser r id
      | _ => mret bad_method
      end
  end.

(** ** Sessions *)

Definition handleListSessions (parseInt : string -> option Z) (r : request) : M response :=
  match Method r with
  | GET =>
      authorized r ActionSessionsRead [] (
        sessions ← ask ListSessions;
        mret (match sessions with
              | Err _ => http_error 500 "failed to list sessions"
              | Ok sessions =>
                  let userIDStr := default "" (Query r !! "user_id") in
                  Reply 200 [] (SessionsJson
                    (match (if String.eqb userIDStr "" then None else parseInt userIDStr) with
                     | Some uid => List.filter (fun s => Session_UserID s =? uid) sessions
                     | None => sessions
                     end))
              end))
  | _ => mret bad_method
  end.

Definition handleDeleteSession (r : request) : M response :=
  match Method r with
  | DELETE =>
      authorized r ActionSessionsWrite [] (
        let key := TrimByte (TrimPrefix (Path r) "/api/v1/sessions/") "/" in
        if String.eqb key "" then mret (http_error 400 "session key required")
        else
          deleted ← ask (DeleteSessionByHash key);
          match deleted with
          | Err _ => mret (http_error 500 "failed to delete session")
          | Ok _ =>
              _ ← logAuditEntry (actor_audit r "session.delete" "session" key "" "Session revoked by administrator"
                    [("session_key", FStr key)] "");
              mret (ok_json [("success", FBool true)])
          end)
  | _ => mret bad_method
  end.

(** ** Password reset *)

Definition reset_request_audit (r : request) (u : User) (email token : string) : AuditEntry :=
  {| Audit_ActorType := "user"; Audit_ActorID := User_Username u; Audit_ActorName := User_Username u;
     Audit_Action := "password.reset.request"; Audit_TargetType := "user"; Audit_TargetID := User_Username u;
     Audit_TenantID := User_TenantID u; Audit_Severity := "warn"; Audit_Details := "Password reset link requested";
     Audit_Metadata := [("email", FStr (ToLower email)); ("token_prefix", FStr (maskSensitiveToken token))];
     Audit_IPAddress := clientIP r; Audit_UserAgent := UserAgent r |}.

Definition scheme_of (r : request) : string := if TLS r then "https" else "http".

(** The link names the host of the request. *)
Definition reset_url (r : request) (token : string) : string :=
  (scheme_of r +:+ "://" +:+ Host r +:+ "/reset?token=" +:+ token)%string.

Definition sent : response := ok_json [("sent", FBool true)].

Definition requestReset (r : request) (email : string) : M response :=
  u ← ask (GetUserByEmail email);
  match u with
  | Err _ => mret sent
  | Ok u =>
      token ← ask (CreatePasswordResetToken (User_ID u) 60);
      match token with
      | Err _ => mret (http_error 500 "failed to create token")
      | Ok token =>
          _ ← logAuditEntry (reset_request_audit r u email token);
          _ ← ask (SendMail email "PrintMaster Password Reset" (reset_url r token));
          mret sent
      end
  end.

(** Every request counts as a failure of its address and e-mail. *)
Definition handlePasswordResetRequest (r : request) : M response :=
  match Method r with
  | POST =>
      match as_email (Body r) with
      | None => mret (http_error 400 "bad request")
      | Some email =>
          if String.eqb email "" then mret (http_error 400 "email required")
          else
            blocked ← limited cfg false (IsBlocked (clientIP r) email);
            if (blocked : bool) then mret (http_error 429 "Too many requests. Try again later.")
            else
              _ ← limited cfg (false, true, 0) (RecordFailure (clientIP r) email);
              requestReset r email
      end
  | _ => mret bad_method
  end.

Definition reset_audit (r : request) (userID : Z) (u : db User) (token : string) : AuditEntry :=
  let actorID := match u with Ok u => User_Username u | Err _ => ("user:" +:+ pretty userID)%string end in
  {| Audit_ActorType := "user"; Audit_ActorID := actorID;
     Audit_ActorName := match u with Ok u => User_Username u | Err _ => "" end;
     Audit_Action := "password.reset.confirm"; Audit_TargetType := "user"; Audit_TargetID := actorID;
     Audit_TenantID := match u with Ok u => User_TenantID u | Err _ => "" end; Audit_Severity := "warn";
     Audit_Details := "Password reset completed via emailed token";
     Audit_Metadata := [("token_prefix", FStr (maskSensitiveToken token))];
     Audit_IPAddress := clientIP r; Audit_UserAgent := UserAgent r |}.

(** The policy is not consulted, and the sessions of the user stay. *)
Definition handlePasswordResetConfirm (r : request) : M response :=
  match Method r with
  | POST =>
      match as_reset (Body r) with
      | None => mret (http_error 400 "bad request")
      | Some i =>
          if String.eqb (reset_Token i) "" || String.eqb (reset_Password i) ""
          then mret (http_error 400 "token and password required")
          else
            userID ← ask (ValidatePasswordResetToken (reset_Token i));
            match userID with
            | Err _ => mret (http_error 400 "invalid or expired token")
            | Ok userID =>
                userRecord ← ask (GetUserByID userID);
                res ← ask (UpdateUserPassword userID (reset_Password i));
                match res with
                | Some _ => mret (http_error 500 "failed to reset password")
                | None =>
                    _ ← ask (DeletePasswordResetToken (reset_Token i));
                    _ ← logAuditEntry (reset_audit r userID userRecord (reset_Token i));
                    mret (ok_json [("success", FBool true)])
                end
            end
      end
  | _ => mret bad_method
  end.

(** ** Invitations *)

(** [if t, err := GetTenant(...); err == nil { tenantName = t.Name }] *)
Definition tenant_name (tenantID : string) : M string :=
  if String.eqb tenantID "" then mret ""
  else t ← ask (GetTenantName tenantID); mret (value_or "" t).

Definition invite_url (r : request) (token : string) : string :=
  (scheme_of r +:+ "://" +:+ Host r +:+ "/accept-invite?token=" +:+ token)%string.

Definition invitation_of (i : inviteBody) (createdBy : string) : UserInvitation :=
  {| Inv_ID := 0; Inv_Email := invite_Email i; Inv_Username := invite_Username i;
     Inv_Role := NormalizeRole (invite_Role i); Inv_TenantID := invite_TenantID i; Inv_CreatedBy := createdBy |}.

Definition sendInvite (r : request) (i : inviteBody) (token : string) : M response :=
  tenantName ← tenant_name (invite_TenantID i);
  let subject := if String.eqb tenantName "" then "You've been invited to PrintMaster"
                 else ("You've been invited to " +:+ tenantName +:+ " on PrintMaster")%string in
  err ← ask (SendMail (invite_Email i) subject (invite_url r token));
  match err with
  | Some e =>
      _ ← logAuditEntry (actor_audit r "user.invite.email_failed" "user" (invite_Email i) "warn"
            ("Invitation created but email failed: " +:+ e)%string [] "");
      mret (http_error 500 ("invitation created but email failed: " +:+ e)%string)
  | None =>
      _ ← logAuditEntry (actor_audit r "user.invite" "user" (invite_Email i) ""
            ("Sent invitation to " +:+ invite_Email i +:+ " with role " +:+ invite_Role i)%string
            [("role", FStr (invite_Role i)); ("tenant_id", FStr (invite_TenantID i))] "");
      mret (ok_json [("success", FBool true); ("message", FStr "Invitation sent")])
  end.

Definition invite (r : request) (i : inviteBody) : M response :=
  if String.eqb (invite_Email i) "" then mret (http_error 400 "email required")
  else
    existing ← ask (GetUserByEmail (invite_Email i));
    match existing with
    | Ok _ => mret (http_error 409 "a user with this email already exists")
    | Err _ =>
        token ← ask (CreateUserInvitation (invitation_of i (auditActorFromPrincipal r).1.2) (48 * 60));
        match token with
        | Err _ => mret (http_error 500 "failed to create invitation")
        | Ok token => sendInvite r i token
        end
    end.

Definition handleUserInvite (r : request) : M response :=
  match Method r with
  | POST =>
      authorized r ActionUsersWrite [] (
        match as_invite (Body r) with
        | None => mret (http_error 400 "bad request")
        | Some i => invite r i
        end)
  | _ => mret bad_method
  end.

Definition handleInviteValidate (r : request) : M response :=
  match Method r with
  | GET =>
      let token := default "" (Query r !! "token") in
      if String.eqb token "" then mret (http_error 400 "token required")
      else
        inv ← ask (GetUserInvitation token);
        match inv with
        | Err _ => mret (http_error 404 "Invalid or expired invitation")
        | Ok inv =>
            tenantName ← tenant_name (Inv_TenantID inv);
            mret (ok_json [("email", FStr (Inv_Email inv)); ("username", FStr (Inv_Username inv));
              ("role", FStr (Inv_Role inv)); ("tenant_id", FStr (Inv_TenantID inv)); ("tenant_name", FStr tenantName)])
        end
  | _ => mret (http_error 405 "GET only")
  end.

Definition invited_user (inv : UserInvitation) (username : string) (now : Time) : User :=
  {| User_ID := 0; User_Username := username; User_PasswordHash := ""; User_Role := Inv_Role inv;
     User_TenantID := Inv_TenantID inv; User_TenantIDs := []; User_Email := Inv_Email inv; User_CreatedAt := now |}.

Definition accept_audit (r : request) (inv : UserInvitation) (username : string) : AuditEntry :=
  {| Audit_ActorType := "system"; Audit_ActorID := "invitation"; Audit_ActorName := "Invitation System";
     Audit_Action := "user.created_from_invite"; Audit_TargetType := "user"; Audit_TargetID := username;
     Audit_TenantID := Inv_TenantID inv; Audit_Severity := "";
     Audit_Details := ("User " +:+ username +:+ " created from invitation (invited by " +:+ Inv_CreatedBy inv +:+ ")")%string;
     Audit_Metadata := [("email", FStr (Inv_Email inv)); ("role", FStr (Inv_Role inv)); ("invited_by", FStr (Inv_CreatedBy inv))];
     Audit_IPAddress := clientIP r; Audit_UserAgent := "" |}.

Definition acceptInvite (r : request) (i : acceptBody) (username : string) : M response :=
  inv ← ask (GetUserInvitation (accept_Token i));
  match inv with
  | Err _ => mret (http_error 404 "Invalid or expired invitation")
  | Ok inv =>
      existingUsers ← ask ListUsers;
      if existsb (fun u => EqualFold (User_Username u) username) (value_or [] existingUsers)
      then mret (http_error 409 "Username already taken")
      else
        now ← ask Now;
        res ← ask (CreateUser (invited_user inv username now) (accept_Password i));
        match res with
        | Err _ => mret (http_error 500 "Failed to create user")
        | Ok _ =>
            _ ← ask (MarkInvitationUsed (Inv_ID inv));
            _ ← logAuditEntry (accept_audit r inv username);
            mret (ok_json [("success", FBool true); ("message", FStr "Account created successfully")])
        end
  end.

(** The policy is not consulted. *)
Definition handleInviteAccept (r : request) : M response :=
  match Method r with
  | POST =>
      match as_accept (Body r) with
      | None => mret (http_error 400 "invalid request body")
      | Some i =>
          if String.eqb (accept_Token i) "" || String.eqb (accept_Username i) "" || String.eqb (accept_Password i) ""
          then mret (http_error 400 "token, username, and password are required")
          else
            let username := TrimSpace (accept_Username i) in
            if (String.length username <? 3)%nat
            then mret (http_error 400 "username must be at least 3 characters")
            else acceptInvite r i username
      end
  | _ => mret (http_error 405 "POST only")
  end.
End Users.
