(* ===== verification/Sso.v ===== *)
(** * Single sign-on: the tenant of a login, identity providers, and the OpenID Connect flow
    ([server/oidc_handlers.go], [server/auth_tenant_hints.go]). *)
From S2P Require Import Prelude GoStrings GoTime Effects Programs Authz Tenancy GoUrl AuditLog AccountCalls Sessions Users.
From Stdlib Require Import Ascii.

(** ** The tenant of a login *)

Record tenantResolution := { res_id : string; res_name : string; res_source : string }.

Section Resolution.
Context `{GoUnicode}.

Definition ensureName (tr : tenantResolution) : M tenantResolution :=
  if negb (String.eqb (res_name tr) "") || String.eqb (res_id tr) "" then mret tr
  else
    tenant ← ask (GetTenantName (res_id tr));
    mret (match tenant with
          | Ok name => {| res_id := res_id tr; res_name := name; res_source := res_source tr |}
          | Err _ => tr
          end).

Definition resolved (source : string) (tenant : db (option TenantName)) : option tenantResolution :=
  match tenant with
  | Ok (Some t) => Some {| res_id := Tenant_ID t; res_name := Tenant_Name t; res_source := source |}
  | _ => None
  end.

Definition resolveTenantByHintValue (raw source : string) : M (option tenantResolution) :=
  let norm := NormalizeTenantDomain raw in
  if String.eqb norm "" then mret None
  else tenant ← ask (FindTenantByDomain norm); mret (resolved source tenant).

(** The first candidate that resolves. *)
Fixpoint first_hint (candidates : list (string * string)) : M (option tenantResolution) :=
  match candidates with
  | [] => mret None
  | (value, source) :: rest =>
      res ← resolveTenantByHintValue value source;
      match res with Some res => mret (Some res) | None => first_hint rest end
  end.

Definition firstForwardedHost (raw : string) : string := (SplitN2 (TrimSpace raw) ",").1.

Definition query (r : request) (key : string) : string := default "" (Query r !! key).

Definition resolveTenantForAuthRequest (r : request) : M (option tenantResolution) :=
  let value := TrimSpace (query r "tenant") in
  if negb (String.eqb value "") then
    res ← ensureName {| res_id := value; res_name := ""; res_source := "query" |}; mret (Some res)
  else
    hint ← first_hint [(query r "domain_hint", "domain_hint"); (query r "login_hint", "login_hint")];
    match hint with
    | Some res => mret (Some res)
    | None =>
        host ← first_hint [(Host r, "host"); (firstForwardedHost (ForwardedHost r), "forwarded_host")];
        match host with
        | Some res => mret (Some res)
        | None =>
            let val := TrimSpace (default "" (TenantCookie r)) in
            if String.eqb val "" then mret None
            else res ← ensureName {| res_id := val; res_name := ""; res_source := "cookie" |}; mret (Some res)
        end
    end.

Definition firstNonEmpty (values : list string) : string :=
  default "" (List.find (fun v => negb (String.eqb (TrimSpace v) "")) values).

Definition publicProviderDTO (p : OIDCProvider) : fields :=
  [("slug", FStr (Slug p)); ("display_name", FStr (DisplayName p));
   ("button_text", FStr (firstNonEmpty [ButtonText p; DisplayName p])); ("button_style", FStr (ButtonStyle p));
   ("icon", FStr (Icon p)); ("auto_login", FBool (AutoLogin p)); ("tenant_id", FStr (Provider_TenantID p))].

Definition visible (tenantID : string) (p : OIDCProvider) : bool :=
  if String.eqb tenantID "" then String.eqb (Provider_TenantID p) ""
  else String.eqb (Provider_TenantID p) "" || String.eqb (Provider_TenantID p) tenantID.

Definition text_field (name value : string) : fields :=
  if String.eqb value "" then [] else [(name, FStr value)].

Definition handleAuthOptions (r : request) : M response :=
  resolution ← resolveTenantForAuthRequest r;
  let tenantID := from_option res_id "" resolution in
  providers ← ask (ListOIDCProviders tenantID);
  mret (match providers with
        | Err _ => http_error 500 "failed to load providers"
        | Ok providers =>
            Reply 200 [] (OptionsJson (("local_login", FBool true) ::
               match resolution with
               | Some res =>
                   if String.eqb (res_id res) "" then []
                   else ("tenant_id", FStr (res_id res)) :: text_field "tenant_name" (res_name res)
                        ++ text_field "tenant_source" (res_source res)
               | None => []
               end)
             (map publicProviderDTO (List.filter (visible tenantID) providers)))
        end).

Definition handleTenantLookup (r : request) : M response :=
  match Method r with
  | POST =>
      match as_hint (Body r) with
      | None => mret (http_error 400 "invalid json")
      | Some hint =>
          res ← resolveTenantByHintValue hint "lookup";
          mret (ok_json (match res with
                | Some res =>
                    if String.eqb (res_id res) "" then [("match", FBool false)]
                    else [("match", FBool true); ("tenant_id", FStr (res_id res))] ++ text_field "tenant_name" (res_name res)
                | None => [("match", FBool false)]
                end))
      end
  | _ => mret bad_method
  end.
End Resolution.

(** ** Identity providers *)

(** [regexp.ReplaceAllString] of a run of bytes outside [f] by [new]. *)
Fixpoint replace_runs (f : ascii -> bool) (inside : bool) (new : string) (s : string) : string :=
  match s with
  | EmptyString => EmptyString
  | String c s' =>
      if f c then String c (replace_runs f false new s')
      else if inside then replace_runs f true new s' else (new +:+ replace_runs f true new s')%string
  end.

Definition slug_start (c : ascii) : bool := is_lower c || is_digit c.
Definition slug_byte (c : ascii) : bool := slug_start c || Ascii.eqb c "-".

(** [slugPattern.MatchString]: a first byte and 2 to 63 more. *)
Definition slug_ok (s : string) : bool :=
  match s with
  | EmptyString => false
  | String c rest =>
      slug_start c && all_bytes slug_byte rest
      && (2 <=? String.length rest)%nat && (String.length rest <=? 63)%nat
  end.

Section Providers.
Context `{GoUnicode}.

(** [for scope := range set]: the order in which Go visits a set. *)
Context (range : gset string -> list string).

Definition slugify (input : string) : string :=
  let s := TrimByte (replace_runs slug_start false "-" (ToLower (TrimSpace input))) "-" in
  let s := if String.eqb s "" then "provider" else s in
  let s := if (String.length s <? 3)%nat then (s +:+ "-oidc")%string else s in
  if (64 <? String.length s)%nat then stake 64 s else s.

Definition normalizeScopes (scopes : list string) : list string :=
  match scopes with
  | [] => ["openid"; "profile"; "email"]
  | _ =>
      let set : gset string := list_to_set (List.filter (fun s => negb (String.eqb s "")) (TrimSpace <$> scopes)) in
      let wanted s := if bool_decide (s ∈ set) then [s] else [] in
      "openid" :: wanted "profile" ++ wanted "email" ++ range (set ∖ {["openid"; "profile"; "email"]})
  end.

(** The value of a field that an update may leave out. *)
Definition kept (existing : option OIDCProvider) (old : OIDCProvider -> string) (value : string) : option string :=
  if negb (String.eqb value "") then Some value else old <$> existing.

Definition payload_slug (p : oidcProviderPayload) (forcedSlug : string) : string :=
  let slug := if String.eqb forcedSlug "" then ToLower (TrimSpace (p_Slug p)) else forcedSlug in
  TrimSpace (if String.eqb slug "" then slugify (p_DisplayName p) else slug).

Definition buildProviderFromPayload (p : oidcProviderPayload) (existing : option OIDCProvider) (forcedSlug : string)
    : result string OIDCProvider :=
  let slug := payload_slug p forcedSlug in
  if negb (slug_ok slug) then Err "slug must be 3-64 characters (lowercase letters, numbers, hyphen)"
  else
    let display := TrimSpace (p_DisplayName p) in
    if String.eqb display "" then Err "display_name required"
    else match kept existing Issuer (TrimSpace (p_Issuer p)) with
    | None => Err "issuer required"
    | Some issuer =>
        match kept existing ClientID (TrimSpace (p_ClientID p)) with
        | None => Err "client_id required"
        | Some clientID =>
            match kept existing ClientSecret (TrimSpace (p_ClientSecret p)) with
            | None => Err "client_secret required"
            | Some secret =>
                Ok {| Slug := slug; DisplayName := display; Issuer := issuer; ClientID := clientID;
                      ClientSecret := secret; Scopes := normalizeScopes (p_Scopes p); Icon := TrimSpace (p_Icon p);
                      ButtonText := firstNonEmpty [TrimSpace (p_ButtonText p); display];
                      ButtonStyle := TrimSpace (p_ButtonStyle p); AutoLogin := p_AutoLogin p;
                      Provider_TenantID := TrimSpace (p_TenantID p);
                      DefaultRole := NormalizeRole
                        (let role := ToLower (TrimSpace (p_DefaultRole p)) in
                         if negb (String.eqb role "admin") then "user" else role);
                      Provider_CreatedAt := from_option Provider_CreatedAt zero_time existing;
                      Provider_UpdatedAt := from_option Provider_UpdatedAt zero_time existing |}
            end
        end
    end.

Definition adminProviderDTO (p : OIDCProvider) : fields :=
  [("slug", FStr (Slug p)); ("display_name", FStr (DisplayName p)); ("issuer", FStr (Issuer p));
   ("client_id", FStr (ClientID p)); ("has_secret", FBool (negb (String.eqb (ClientSecret p) "")));
   ("scopes", FStrs (Scopes p)); ("icon", FStr (Icon p)); ("button_text", FStr (ButtonText p));
   ("button_style", FStr (ButtonStyle p)); ("auto_login", FBool (AutoLogin p));
   ("tenant_id", FStr (Provider_TenantID p)); ("default_role", FStr (DefaultRole p));
   ("created_at", FTime (Provider_CreatedAt p)); ("updated_at", FTime (Provider_UpdatedAt p))].

Definition create_failed (e : db_error) : response :=
  http_error 500 ("failed to create provider: " +:+ err_text e)%string.
Definition update_failed (e : db_error) : response :=
  http_error 500 ("failed to update provider: " +:+ err_text e)%string.

Definition createProvider (r : request) : M response :=
  match as_provider (Body r) with
  | None => mret (http_error 400 "invalid json")
  | Some p =>
      match buildProviderFromPayload p None "" with
      | Err e => mret (http_error 400 e)
      | Ok provider =>
          res ← ask (CreateOIDCProvider provider);
          mret (match res with Err e => create_failed e | Ok p => ok_json (adminProviderDTO p) end)
      end
  end.

Definition handleOIDCProviders (r : request) : M response :=
  match Method r with
  | GET =>
      authorized r ActionSSOProvidersRead [] (
        providers ← ask (ListOIDCProviders (TrimSpace (query r "tenant")));
        mret (match providers with
              | Err _ => http_error 500 "failed to list providers"
              | Ok providers => Reply 200 [] (ListJson (map adminProviderDTO providers))
              end))
  | POST => authorized r ActionSSOProvidersWrite [] (createProvider r)
  | _ => mret bad_method
  end.

Definition updateProvider (r : request) (slug : string) (existing : OIDCProvider) : M response :=
  match as_provider (Body r) with
  | None => mret (http_error 400 "invalid json")
  | Some p =>
      match buildProviderFromPayload p (Some existing) slug with
      | Err e => mret (http_error 400 e)
      | Ok updated =>
          res ← ask (UpdateOIDCProvider updated);
          mret (match res with Err e => update_failed e | Ok p => ok_json (adminProviderDTO p) end)
      end
  end.

Definition deleteProvider (slug : string) : M response :=
  res ← ask (DeleteOIDCProvider slug);
  mret (match res with
        | Some e => http_error 500 ("failed to delete provider: " +:+ err_text e)%string
        | None => ok_json [("success", FBool true)]
        end).

Definition handleOIDCProvider (r : request) : M response :=
  let slug := TrimByte (TrimPrefix (Path r) "/api/v1/sso/providers/") "/" in
  if String.eqb slug "" then mret NotFound
  else
    existing ← ask (GetOIDCProvider slug);
    match existing with
    | Err _ => mret NotFound
    | Ok existing =>
        match Method r with
        | GET => authorized r ActionSSOProvidersRead [] (mret (ok_json (adminProviderDTO existing)))
        | PUT => authorized r ActionSSOProvidersWrite [] (updateProvider r slug existing)
        | DELETE => authorized r ActionSSOProvidersWrite [] (deleteProvider slug)
        | _ => mret bad_method
        end
    end.
End Providers.

(** ** The flow *)

Section Flow.
Context `{GoUnicode} (cfg : Config).

(** [oauth2.Config.AuthCodeURL] with the nonce as a parameter. *)
Context (AuthCodeURL : oauthConfig -> string -> string -> string).

Definition cachedOIDCProvider (issuer : string) : M (option Endpoint) :=
  cached ← ask (CachedIssuer issuer);
  match cached with
  | Some e => mret (Some e)
  | None =>
      found ← ask (DiscoverIssuer issuer);
      match found with
      | None => mret None
      | Some e => _ ← ask (CacheIssuer issuer e); mret (Some e)
      end
  end.

Definition buildExternalURL (r : request) : string :=
  ((if requestIsHTTPS cfg r then "https" else "http") +:+ "://"
   +:+ (if String.eqb (Host r) "" then "localhost" else Host r))%string.

Definition buildOAuthConfig (r : request) (provider : OIDCProvider) (e : Endpoint) : oauthConfig :=
  {| OAuth_ClientID := ClientID provider; OAuth_ClientSecret := ClientSecret provider;
     OAuth_RedirectURL := (buildExternalURL r +:+ "/auth/oidc/callback")%string;
     OAuth_Endpoint := e; OAuth_Scopes := Scopes provider |}.

Definition root_path (u : URL) : URL :=
  if String.eqb (UPath u) "" then
    {| Scheme := Scheme u; Opaque := Opaque u; UUser := UUser u; UHost := UHost u; UPath := "/"; RawPath := RawPath u;
       OmitHost := OmitHost u; ForceQuery := ForceQuery u; RawQuery := RawQuery u; Fragment := Fragment u;
       RawFragment := RawFragment u |}
  else u.

Definition sanitizeRedirectTarget (raw : string) : string :=
  let raw := TrimSpace raw in
  if String.eqb raw "" then "/"
  else match Parse raw with
  | None => "/"
  | Some u => if IsAbs u then "/" else String_ (root_path u)
  end.

(** The tenant of the login, unless it contradicts the provider's. *)
Definition effective_tenant (provider : OIDCProvider) (wanted : string) : option string :=
  if String.eqb (Provider_TenantID provider) "" then Some wanted
  else if String.eqb wanted "" then Some (Provider_TenantID provider)
  else if String.eqb wanted (Provider_TenantID provider) then Some wanted else None.

Definition pending_login (provider : OIDCProvider) (tenantID state nonce redirect : string) (now : Time) : OIDCSession :=
  {| State_ID := state; State_ProviderSlug := Slug provider; State_TenantID := tenantID; State_Nonce := nonce;
     State_State := state; State_RedirectURL := redirect; State_CreatedAt := now |}.

Definition startLogin (r : request) (provider : OIDCProvider) (tenantID : string) : M response :=
  let redirectURL := sanitizeRedirectTarget (query r "redirect") in
  state ← ask (RandomText 24);
  match state with
  | None => mret (http_error 500 "failed to create state")
  | Some state =>
      nonce ← ask (RandomText 24);
      match nonce with
      | None => mret (http_error 500 "failed to create nonce")
      | Some nonce =>
          e ← cachedOIDCProvider (Issuer provider);
          match e with
          | None => mret (http_error 502 "failed to load issuer")
          | Some e =>
              now ← ask Now;
              res ← ask (CreateOIDCSession (pending_login provider tenantID state nonce redirectURL now));
              mret (match res with
                    | Some _ => http_error 500 "failed to persist state"
                    | None => Redirect (AuthCodeURL (buildOAuthConfig r provider e) state nonce) []
                    end)
          end
      end
  end.

Definition handleOIDCStart (r : request) : M response :=
  let slug := TrimByte (TrimPrefix (Path r) "/auth/oidc/start/") "/" in
  if String.eqb slug "" then mret NotFound
  else
    provider ← ask (GetOIDCProvider slug);
    match provider with
    | Err _ => mret NotFound
    | Ok provider =>
        match effective_tenant provider (TrimSpace (query r "tenant")) with
        | None => mret (http_error 403 "tenant mismatch")
        | Some tenantID => startLogin r provider tenantID
        end
    end.

(** *** The user of a token *)

Definition user_byte (c : ascii) : bool :=
  is_lower c || is_digit c || in_bytes c ["."; "_"; "-"]%char.

Definition normalizeUsername (raw : string) : string :=
  let raw := replace_runs user_byte false "" (ToLower (TrimSpace raw)) in
  if String.eqb raw "" then "user" else if (64 <? String.length raw)%nat then stake 64 raw else raw.

Definition deriveUsername (c : oidcClaims) : string :=
  if negb (String.eqb (PreferredUsername c) "") then normalizeUsername (PreferredUsername c)
  else if negb (String.eqb (Email c) "") then normalizeUsername (SplitN2 (Email c) "@").1
  else if negb (String.eqb (Claims_Name c) "")
  then normalizeUsername (map_string (fun b => if Ascii.eqb b " " then "."%char else b) (Claims_Name c))
  else "user".

Definition provision_role (provider : OIDCProvider) : string :=
  let role := DefaultRole provider in
  if negb (String.eqb role RoleAdmin) && negb (String.eqb role RoleOperator) then RoleViewer else role.

Definition candidate_name (provider : OIDCProvider) (username : string) (i : nat) : string :=
  let candidate := TrimByte (if Nat.eqb i 0 then username
                             else (username +:+ "-" +:+ pretty (Z.of_nat i))%string) "-" in
  if String.eqb candidate "" then (Slug provider +:+ "-user")%string else candidate.

Definition provisioned_user (provider : OIDCProvider) (name email : string) : User :=
  {| User_ID := 0; User_Username := name; User_PasswordHash := ""; User_Role := provision_role provider;
     User_TenantID := Provider_TenantID provider;
     User_TenantIDs := if String.eqb (Provider_TenantID provider) "" then [] else [Provider_TenantID provider];
     User_Email := email; User_CreatedAt := zero_time |}.

(** Attempts [i], [i + 1], ..., of which [n] are left. *)
Fixpoint provision (provider : OIDCProvider) (username email : string) (i n : nat) : M (option User) :=
  match n with
  | O => mret None
  | S n =>
      pass ← ask (RandomText 18);
      match pass with
      | None => mret None
      | Some pass =>
          res ← ask (CreateUser (provisioned_user provider (candidate_name provider username i) email) pass);
          match res with
          | Ok user => mret (Some user)
          | Err e =>
              if Contains (ToLower (err_text e)) "unique" then provision provider username email (S i) n
              else mret None
          end
      end
  end.

Definition link_of (provider : OIDCProvider) (c : oidcClaims) (email : string) (u : User) : OIDCLink :=
  {| Link_ProviderSlug := Slug provider; Link_Subject := Subject c; Link_Email := email; Link_UserID := User_ID u |}.

Definition newUser (provider : OIDCProvider) (c : oidcClaims) (email : string) : M (option User) :=
  user ← provision provider (deriveUsername c) email 0 5;
  match user with
  | None => mret None
  | Some user =>
      res ← ask (CreateOIDCLink (link_of provider c email user));
      mret (match res with Some _ => None | None => Some user end)
  end.

(** The user with the address of the token, whether or not the address is verified. *)
Definition userByEmail (provider : OIDCProvider) (c : oidcClaims) : M (option User) :=
  let email := ToLower (TrimSpace (Email c)) in
  if String.eqb email "" then newUser provider c email
  else
    user ← ask (GetUserByEmail email);
    match user with
    | Ok user => _ ← ask (CreateOIDCLink (link_of provider c email user)); mret (Some user)
    | Err NoRows => newUser provider c email
    | Err _ => mret None
    end.

Definition resolveOIDCUser (provider : OIDCProvider) (c : oidcClaims) : M (option User) :=
  link ← ask (GetOIDCLink (Slug provider) (Subject c));
  match link with
  | Ok link =>
      user ← ask (GetUserByID (Link_UserID link));
      match user with
      | Ok user => mret (Some user)
      | Err NoRows => _ ← ask (DeleteOIDCLink (Slug provider) (Subject c)); userByEmail provider c
      | Err _ => mret None
      end
  | Err NoRows => userByEmail provider c
  | Err _ => mret None
  end.

(** *** The callback *)

Definition isAgentCallbackURL (rawURL : string) : bool :=
  match Parse rawURL with Some u => Contains (UPath u) "/api/v1/auth/callback" | None => false end.

Definition oidc_error (code : string) : response := Redirect ("/login?error=oidc_" +:+ code)%string [].

Definition with_token (redirectURL token : string) : string :=
  match Parse redirectURL with
  | None => redirectURL
  | Some u => String_ (with_query u (Encode (Set_ "token" token (parseQuery (RawQuery u)))))
  end.

Definition finishRedirect (user : User) (redirectURL : string) : M string :=
  let redirectURL := if String.eqb redirectURL "" then "/" else redirectURL in
  if isAgentCallbackURL redirectURL then
    act ← generateAgentCallbackToken user "" redirectURL;
    mret (match act with Some act => with_token redirectURL (Callback_Token act) | None => redirectURL end)
  else mret redirectURL.

Definition signIn (r : request) (sess : OIDCSession) (user : User) : M response :=
  ses ← createSessionCookie cfg r (User_ID user);
  match ses with
  | Err _ => mret (oidc_error "session")
  | Ok (_, cookie) =>
      target ← finishRedirect user (State_RedirectURL sess);
      mret (Redirect target [cookie; rememberUserTenantHint cfg r user])
  end.

Definition with_subject (c : oidcClaims) (subject : string) : oidcClaims :=
  {| Subject := subject; Email := Email c; EmailVerified := EmailVerified c; PreferredUsername := PreferredUsername c;
     Claims_Name := Claims_Name c |}.

(** The identity token of the code: exchanged, present, verified, with the nonce of the
    pending login and readable claims. The error is the code of the redirection. *)
Definition identify (r : request) (sess : OIDCSession) (provider : OIDCProvider) (e : Endpoint) (code : string)
    : M (result string oidcClaims) :=
  token ← ask (ExchangeCode (buildOAuthConfig r provider e) code);
  match token with
  | None => mret (Err "exchange")
  | Some None => mret (Err "token")
  | Some (Some raw) =>
      verified ← ask (VerifyToken e (ClientID provider) raw);
      mret (match verified with
            | None => Err "verify"
            | Some t =>
                if negb (String.eqb (id_Nonce t) (State_Nonce sess)) then Err "nonce"
                else match id_Claims t with None => Err "claims" | Some c => Ok (with_subject c (id_Subject t)) end
            end)
  end.

Definition completeLogin (r : request) (sess : OIDCSession) (code : string) : M response :=
  provider ← ask (GetOIDCProvider (State_ProviderSlug sess));
  match provider with
  | Err _ => mret (oidc_error "provider")
  | Ok provider =>
      e ← cachedOIDCProvider (Issuer provider);
      match e with
      | None => mret (oidc_error "discovery")
      | Some e =>
          claims ← identify r sess provider e code;
          match claims with
          | Err error => mret (oidc_error error)
          | Ok c =>
              user ← resolveOIDCUser provider c;
              match user with None => mret (oidc_error "user") | Some user => signIn r sess user end
          end
      end
  end.

(** The pending login is deleted on return. *)
Definition handleOIDCCallback (r : request) : M response :=
  let state := query r "state" in
  let code := query r "code" in
  if String.eqb state "" || String.eqb code "" then mret (oidc_error "invalid")
  else
    sess ← ask (GetOIDCSession state);
    match sess with
    | Err _ => mret (oidc_error "state")
    | Ok sess =>
        res ← completeLogin r sess code;
        _ ← ask (DeleteOIDCSession (State_ID sess));
        mret res
    end.

(** The hint of a secret in the log. *)
Definition maskSecret (s : string) : string :=
  if String.eqb s "" then "(empty)"
  else
    let n := String.length s in
    if (n <=? 4)%nat then ("len=" +:+ pretty n)%string
    else ("len=" +:+ pretty n +:+ " [" +:+ stake 2 s +:+ "..." +:+ sdrop (n - 2) s +:+ "]")%string.
End Flow.

(** ** Routes of the account handlers ([setupRoutes] of [server/main.go]) *)

Inductive endpoint :=
| Login | Options | TenantLookup | Logout | Me
| AgentCallback | AgentCallbackValidate
| Providers | Provider
| UserList | Invite | InviteValidate | InviteAccept | UserByID | PasswordPolicy
| SessionList | SessionByKey
| ResetRequest | ResetConfirm
| OIDCStart | OIDCCallback.

#[export] Instance endpoint_eq_dec : EqDecision endpoint.
Proof. solve_decision. Defined.

Definition routes : list (string * endpoint) :=
  [("/api/v1/auth/login", Login); ("/api/v1/auth/options", Options); ("/api/v1/auth/tenant-lookup", TenantLookup);
   ("/api/v1/auth/logout", Logout); ("/api/v1/auth/me", Me);
   ("/api/v1/auth/agent-callback", AgentCallback);
   ("/api/v1/auth/agent-callback/validate", AgentCallbackValidate);
   ("/api/v1/sso/providers", Providers); ("/api/v1/sso/providers/", Provider);
   ("/api/v1/users", UserList); ("/api/v1/users/invite", Invite);
   ("/api/v1/users/invite/validate", InviteValidate); ("/api/v1/users/invite/accept", InviteAccept);
   ("/api/v1/users/", UserByID); ("/api/v1/users/password-policy", PasswordPolicy);
   ("/api/v1/sessions", SessionList); ("/api/v1/sessions/", SessionByKey);
   ("/api/v1/users/reset/request", ResetRequest); ("/api/v1/users/reset/confirm", ResetConfirm);
   ("/auth/oidc/start/", OIDCStart); ("/auth/oidc/callback", OIDCCallback)].

(** A pattern of [http.ServeMux] matches its path, and when it ends in a slash every path
    below; the longest one wins. *)
Definition matches (path pattern : string) : bool :=
  String.eqb path pattern || (HasSuffix pattern "/" && HasPrefix path pattern).

Definition longer (path : string) (best : option (string * endpoint)) (p : string * endpoint) :=
  if negb (matches path p.1) then best
  else match best with
  | Some b => if (String.length b.1 <? String.length p.1)%nat then Some p else best
  | None => Some p
  end.

Definition route (path : string) : option endpoint := snd <$> foldl (longer path) None routes.

Section Serve.
Context `{GoUnicode} (cfg : Config) (range : gset string -> list string).
Context (AuthCodeURL : oauthConfig -> string -> string -> string).
Context (token_hash : string -> string) (parseInt : string -> option Z).

Definition serve (ep : endpoint) (r : request) : M response :=
  match ep with
  | Login => handleAuthLogin cfg r
  | Options => handleAuthOptions r
  | TenantLookup => handleTenantLookup r
  | Logout => requireWebAuth (handleAuthLogout cfg) r
  | Me => requireWebAuth (handleAuthMe token_hash) r
  | AgentCallback => requireWebAuth handleAgentAuthCallback r
  | AgentCallbackValidate => handleAgentAuthCallbackValidate r
  | Providers => requireWebAuth (handleOIDCProviders range) r
  | Provider => requireWebAuth (handleOIDCProvider range) r
  | UserList => requireWebAuth (handleUsers cfg) r
  | Invite => requireWebAuth handleUserInvite r
  | InviteValidate => handleInviteValidate r
  | InviteAccept => handleInviteAccept r
  | UserByID => requireWebAuth (handleUser cfg parseInt) r
  | PasswordPolicy => handlePasswordPolicy cfg r
  | SessionList => requireWebAuth (handleListSessions parseInt) r
  | SessionByKey => requireWebAuth handleDeleteSession r
  | ResetRequest => handlePasswordResetRequest cfg r
  | ResetConfirm => handlePasswordResetConfirm r
  | OIDCStart => handleOIDCStart cfg AuthCodeURL r
  | OIDCCallback => handleOIDCCallback cfg r
  end.

(** [None]: another component serves the path. *)
Definition serve_path (r : request) : option (M response) := (fun ep => serve ep r) <$> route (Path r).
End Serve.

Example route_user : route "/api/v1/users/17" = Some UserByID. Proof. reflexivity. Qed.
Example route_invite : route "/api/v1/users/invite" = Some Invite. Proof. reflexivity. Qed.
