(* ===== verification/AccountAccess.v ===== *)
(** * What the account handlers may do.

    Every call of every route comes after what allows it ([guarded]): a session is
    created for the user whose password was checked or whom a verified identity token
    names, an account is changed by a signed-in user whom [Authorize] lets change it, by
    an invitation or by a reset token. With the policies of Authz this says where
    administrators come from. *)
From S2P Require Import Prelude GoStrings GoTime GoUrl Effects Programs Authz OverrideMap AuditLog AccountCalls Sessions Users Sso.
From stdpp Require Import sorting.

(** ** Guards *)

Section Guards.
Context `{GoUnicode} (cfg : Config) (r : request).

(** The session of the request is one of the user. *)
Definition signed_in (u : User) (h : list (event op)) : Prop :=
  exists ses, Did (GetSessionByToken (sessionTokenFromRequest r)) (Ok ses) ∈ h
    /\ Did (GetUserByID (Session_UserID ses)) (Ok u) ∈ h.

(** A signed-in user has the permission. *)
Definition may (action : string) (h : list (event op)) : Prop :=
  exists u, signed_in u h /\ Authorize (subject_of (newPrincipal u)) action {| TenantIDs := [] |} = Ok tt.

Definition invited (inv : UserInvitation) (h : list (event op)) : Prop :=
  exists i, as_accept (Body r) = Some i /\ Did (GetUserInvitation (accept_Token i)) (Ok inv) ∈ h.

(** The identity provider of the pending login says who signs in: the code of the request
    was exchanged for a token that verifies for this client and has the stored nonce. *)
Definition identified (provider : OIDCProvider) (c : oidcClaims) (h : list (event op)) : Prop :=
  exists sess e raw t c0,
    Did (GetOIDCSession (query r "state")) (Ok sess) ∈ h
    /\ Did (GetOIDCProvider (State_ProviderSlug sess)) (Ok provider) ∈ h
    /\ Did (ExchangeCode (buildOAuthConfig cfg r provider e) (query r "code")) (Some (Some raw)) ∈ h
    /\ Did (VerifyToken e (ClientID provider) raw) (Some t) ∈ h
    /\ id_Nonce t = State_Nonce sess /\ id_Claims t = Some c0 /\ c = with_subject c0 (id_Subject t).

(** The user of an identity: linked, with its address, or new. *)
Definition sso_user (u : User) (h : list (event op)) : Prop :=
  exists provider c, identified provider c h /\
    ((exists link, Did (GetOIDCLink (Slug provider) (Subject c)) (Ok link) ∈ h
                   /\ Did (GetUserByID (Link_UserID link)) (Ok u) ∈ h)
     \/ Did (GetUserByEmail (ToLower (TrimSpace (Email c)))) (Ok u) ∈ h
     \/ (exists name pass, Did (CreateUser (provisioned_user provider name (ToLower (TrimSpace (Email c)))) pass) (Ok u) ∈ h)).

Definition password_user (u : User) (h : list (event op)) : Prop :=
  exists i, as_login (Body r) = Some i
    /\ Did (AuthenticateUser (login_Username i) (login_Password i)) (Ok u) ∈ h.

(** An account may be made with this password. *)
Definition account_allowed (u : User) (password : string) (h : list (event op)) : Prop :=
  (may ActionSettingsServerWrite h /\ may ActionUsersWrite h /\ policy_error cfg password = None)
  \/ (exists inv, invited inv h /\ User_Role u = Inv_Role inv /\ User_TenantID u = Inv_TenantID inv
                  /\ User_TenantIDs u = [] /\ User_Email u = Inv_Email inv)
  \/ (exists provider c name, identified provider c h
                  /\ u = provisioned_user provider name (ToLower (TrimSpace (Email c)))).

Definition password_allowed (id : Z) (password : string) (h : list (event op)) : Prop :=
  (may ActionUsersWrite h /\ policy_error cfg password = None)
  \/ (exists i, as_reset (Body r) = Some i /\ password = reset_Password i
                /\ Did (ValidatePasswordResetToken (reset_Token i)) (Ok id) ∈ h).

Definition guarded (h : list (event op)) (e : event op) : Prop :=
  match e with Did o a =>
    match o in op A return A -> Prop with
    | CreateSession id _ => fun _ => exists u, User_ID u = id /\ (password_user u h \/ sso_user u h)
    | DeleteSession _ => fun _ => exists u, signed_in u h
    | ListSessions => fun _ => may ActionSessionsRead h
    | DeleteSessionByHash _ => fun _ => may ActionSessionsWrite h
    | ListUsers => fun _ => may ActionUsersRead h \/ exists inv, invited inv h
    | CreateUser u password => fun _ => account_allowed u password h
    | UpdateUser u => fun _ => may ActionUsersWrite h /\
        exists id before, Did (GetUserByID id) (Ok before) ∈ h
          /\ User_ID u = User_ID before /\ User_Username u = User_Username before
    | UpdateUserPassword id password => fun _ => password_allowed id password h
    | DeleteUser _ => fun _ => may ActionUsersWrite h
    | CreatePasswordResetToken id _ => fun _ => exists email u,
        as_email (Body r) = Some email /\ Did (GetUserByEmail email) (Ok u) ∈ h /\ User_ID u = id
        /\ (has_limiter cfg = true -> Did (IsBlocked (clientIP r) email) false ∈ h)
    | DeletePasswordResetToken t => fun _ => exists id password,
        Did (ValidatePasswordResetToken t) (Ok id) ∈ h /\ Did (UpdateUserPassword id password) None ∈ h
    | CreateUserInvitation inv _ => fun _ => may ActionUsersWrite h /\
        exists e, Did (GetUserByEmail (Inv_Email inv)) (Err e) ∈ h
    | MarkInvitationUsed id => fun _ => exists inv u password made,
        invited inv h /\ Inv_ID inv = id /\ Did (CreateUser u password) (Ok made) ∈ h
    | CreateOIDCProvider _ | UpdateOIDCProvider _ | DeleteOIDCProvider _ => fun _ => may ActionSSOProvidersWrite h
    | CreateOIDCSession s => fun _ => exists slug provider,
        Did (GetOIDCProvider slug) (Ok provider) ∈ h /\ State_ProviderSlug s = Slug provider
        /\ Did (RandomText 24) (Some (State_ID s)) ∈ h /\ Did (RandomText 24) (Some (State_Nonce s)) ∈ h
        /\ (Provider_TenantID provider <> "" -> State_TenantID s = Provider_TenantID provider)
    | CreateOIDCLink l => fun _ => exists provider c,
        identified provider c h /\ Link_ProviderSlug l = Slug provider /\ Link_Subject l = Subject c
    | PutCallback t act => fun _ => exists u, (signed_in u h \/ sso_user u h)
        /\ Callback_UserID act = User_ID u /\ Did (RandomText 32) (Some t) ∈ h
    | _ => fun _ => True
    end a
  end.

(** Guards hold of longer histories. *)
Lemma signed_in_prefix u h h' : h `prefix_of` h' -> signed_in u h -> signed_in u h'.
Proof. intros Hp (ses & ? & ?). exists ses. eauto with history. Qed.
Lemma may_prefix action h h' : h `prefix_of` h' -> may action h -> may action h'.
Proof. intros Hp (u & Hu & HA). exists u. eauto using signed_in_prefix. Qed.
Lemma invited_prefix inv h h' : h `prefix_of` h' -> invited inv h -> invited inv h'.
Proof. intros Hp (i & ? & ?). exists i. eauto with history. Qed.
Lemma identified_prefix p c h h' : h `prefix_of` h' -> identified p c h -> identified p c h'.
Proof. intros Hp (s & e & raw & t & c0 & ?). exists s, e, raw, t, c0. intuition eauto with history. Qed.
Lemma sso_user_prefix u h h' : h `prefix_of` h' -> sso_user u h -> sso_user u h'.
Proof.
  intros Hp (p & c & Hi & Hu). exists p, c. split; [by eapply identified_prefix|].
  destruct Hu as [(l & ? & ?)|[?|(n & pw & ?)]]; eauto 8 with history.
Qed.
End Guards.

(** What was allowed before still is. *)
Ltac still :=
  match goal with
  | H : signed_in ?r ?u ?h |- signed_in ?r ?u _ => apply (signed_in_prefix r u h); [in_prefix | exact H]
  | H : may ?r ?a ?h |- may ?r ?a _ => apply (may_prefix r a h); [in_prefix | exact H]
  | H : invited ?r ?i ?h |- invited ?r ?i _ => apply (invited_prefix r i h); [in_prefix | exact H]
  | H : identified ?f ?r ?p ?c ?h |- identified ?f ?r ?p ?c _ =>
      apply (identified_prefix f r p c h); [in_prefix | exact H]
  | H : sso_user ?f ?r ?u ?h |- sso_user ?f ?r ?u _ => apply (sso_user_prefix f r u h); [in_prefix | exact H]
  | |- _ ∈ _ => in_history
  end.

Section Guarded.
Context `{GoUnicode} (cfg : Config) (range : gset string -> list string).
Context (AuthCodeURL : oauthConfig -> string -> string -> string).
Context (token_hash : string -> string) (parseInt : string -> option Z) (r : request).
Notation P := (guarded cfg r).
Notation runs h m := (wp P h m (fun _ _ => True)).

Lemma wp_logAuditEntry h e : runs h (logAuditEntry e).
Proof. by unfold logAuditEntry. Qed.

(** A call to the limiter, if there is one. *)
Lemma wp_limited {A} h (absent : A) (o : op A) (Q : list (event op) -> A -> Prop) :
  (forall a, P h (Did o a)) ->
  (forall h' a, h `prefix_of` h' -> (has_limiter cfg = true -> Did o a ∈ h') -> Q h' a) ->
  wp P h (limited cfg absent o) Q.
Proof.
  intros HP HQ. unfold limited. destruct (has_limiter cfg).
  - apply wp_ask. intros a. split; [done|]. apply HQ; [by apply prefix_app_r | intros _; in_history].
  - by apply wp_ret, HQ.
Qed.

Lemma wp_signed_authorized h u action k :
  signed_in r u h -> (may r action h -> runs h k) ->
  runs h (authorized (with_principal r u) action [] k).
Proof.
  intros Hu Hk. unfold authorized, authorizeRequest. cbn [principal with_principal].
  destruct (Authorize _ _ _) as [[]|] eqn:HA; [|done]. apply Hk. by exists u.
Qed.

(** The handler behind the session check sees the user of the session. *)
Lemma wp_requireWebAuth h next :
  (forall h' u, signed_in r u h' -> runs h' (next (with_principal r u))) -> runs h (requireWebAuth next r).
Proof.
  intros Hn. unfold requireWebAuth, loadUserForSessionToken. destruct (String.eqb _ ""); [done|].
  apply wp_bind, wp_ask_bind; [done|]. intros [ses|e]; [|done].
  apply wp_ask_bind; [done|]. intros [u|e]; [|done].
  apply wp_ret, Hn. exists ses. split; in_history.
Qed.

(** A step that makes no call of interest. *)
Ltac quiet L := eapply wp_seq; [apply L|]; intros ? [] ? _.

Ltac guard_step :=
  first
  [ wp_step
  | match goal with
    | |- wp _ _ (authorized _ _ _ _) _ => apply wp_signed_authorized; [still | intros ?]
    | |- wp _ _ (logAuditEntry _ ≫= _) _ => quiet wp_logAuditEntry
    | |- wp _ _ (limited _ _ _ ≫= _) _ => apply wp_bind, wp_limited; [done | intros ? ? ? ?]
    | |- True => exact I
    | |- guarded _ _ _ _ => cbn [guarded with_principal Body]
    end ].
Ltac guards := repeat guard_step; simplify_eq; eauto; try still.
Ltac justify :=
  repeat match goal with
  | |- exists _, _ => eexists
  | |- _ /\ _ => split
  | |- password_user _ _ _ => unfold password_user
  | |- invited _ _ _ => unfold invited
  end; first [eassumption | still | eauto].

Lemma handleAuthLogin_guarded h : runs h (handleAuthLogin cfg r).
Proof.
  unfold handleAuthLogin, login, createSessionCookie. guards.
  exists a. split; [done|]. left. by justify.
Qed.

Lemma handleAuthOptions_guarded h : runs h (handleAuthOptions r).
Proof.
  unfold handleAuthOptions, resolveTenantForAuthRequest, first_hint, ensureName, resolveTenantByHintValue. guards.
Qed.

Lemma handleTenantLookup_guarded h : runs h (handleTenantLookup r).
Proof. unfold handleTenantLookup, resolveTenantByHintValue. guards. Qed.

Lemma handleAgentAuthCallbackValidate_guarded h : runs h (handleAgentAuthCallbackValidate r).
Proof. unfold handleAgentAuthCallbackValidate, validateAgentCallbackToken. guards. Qed.

Lemma handlePasswordPolicy_guarded h : runs h (handlePasswordPolicy cfg r).
Proof. unfold handlePasswordPolicy. guards. Qed.

Lemma handlePasswordResetRequest_guarded h : runs h (handlePasswordResetRequest cfg r).
Proof.
  unfold handlePasswordResetRequest, requestReset. guards.
  justify. intros Hl. specialize (H1 Hl). still.
Qed.

Lemma handlePasswordResetConfirm_guarded h : runs h (handlePasswordResetConfirm r).
Proof.
  unfold handlePasswordResetConfirm. guards; [right|]; by justify.
Qed.

Lemma handleInviteValidate_guarded h : runs h (handleInviteValidate r).
Proof. unfold handleInviteValidate, tenant_name. guards. Qed.

Lemma handleInviteAccept_guarded h : runs h (handleInviteAccept r).
Proof.
  unfold handleInviteAccept, acceptInvite. guards; [right | right; left |]; by justify.
Qed.

(** *** Behind the session check *)

Section SignedIn.
Context (h : list (event op)) (u : User) (Hu : signed_in r u h).
Notation r' := (with_principal r u).

Lemma handleAuthLogout_guarded : runs h (handleAuthLogout cfg r').
Proof. unfold handleAuthLogout. guards. Qed.

Lemma handleAuthMe_guarded : runs h (handleAuthMe token_hash r').
Proof. unfold handleAuthMe. guards. Qed.

Lemma handleAgentAuthCallback_guarded : runs h (handleAgentAuthCallback r').
Proof.
  unfold handleAgentAuthCallback, createCallback, generateAgentCallbackToken. guards.
  match goal with E : principal _ = Some _ |- _ => injection E as <- end.
  exists u. split; [left; still|]. by justify.
Qed.

Lemma handleUsers_guarded : runs h (handleUsers cfg r').
Proof.
  unfold handleUsers, listUsers, createUser. guards.
  left. by justify.
Qed.

Lemma handleUser_guarded : runs h (handleUser cfg parseInt r').
Proof.
  unfold handleUser, getUser, deleteUser, updateUser, found_user, rotatePassword. guards.
  all: first [by justify | left; by justify].
Qed.

Lemma handleListSessions_guarded : runs h (handleListSessions parseInt r').
Proof. unfold handleListSessions. guards. Qed.

Lemma handleDeleteSession_guarded : runs h (handleDeleteSession r').
Proof. unfold handleDeleteSession. guards. Qed.

Lemma handleUserInvite_guarded : runs h (handleUserInvite r').
Proof.
  unfold handleUserInvite, invite, sendInvite, tenant_name. guards. by justify.
Qed.

Lemma handleOIDCProviders_guarded : runs h (handleOIDCProviders range r').
Proof. unfold handleOIDCProviders, createProvider. guards. Qed.

Lemma handleOIDCProvider_guarded : runs h (handleOIDCProvider range r').
Proof. unfold handleOIDCProvider, updateProvider, deleteProvider. guards. Qed.
End SignedIn.

(** *** Single sign-on *)

Lemma wp_cachedOIDCProvider h issuer : runs h (cachedOIDCProvider issuer).
Proof. unfold cachedOIDCProvider. guards. Qed.

Lemma effective_tenant_own p wanted t :
  effective_tenant p wanted = Some t -> Provider_TenantID p <> "" -> t = Provider_TenantID p.
Proof.
  unfold effective_tenant. intros Ht Hne. apply String.eqb_neq in Hne. rewrite Hne in Ht.
  repeat case_match; simplify_eq; reflect_bools; congruence.
Qed.

Lemma handleOIDCStart_guarded h : runs h (handleOIDCStart cfg AuthCodeURL r).
Proof.
  unfold handleOIDCStart, startLogin. guards.
  eapply wp_seq; [apply wp_cachedOIDCProvider|]. intros h' e Hp _. guards.
  do 2 eexists. split; [still|]. split; [done|]. split; [still|]. split; [still|].
  by eapply effective_tenant_own.
Qed.

(** The result of a step that finds a user. *)
Definition finds (h : list (event op)) (res : option User) : Prop :=
  forall u, res = Some u -> sso_user cfg r u h.

Lemma wp_provision p c h username i n :
  identified cfg r p c h -> wp P h (provision p username (ToLower (TrimSpace (Email c))) i n) finds.
Proof.
  intros Hid. revert h i Hid. induction n as [|n IH]; intros h i Hid; cbn [provision]; [by intros u|].
  guards; try by intros u.
  - right; right. exists p, c. by justify.
  - intros u [= ->]. exists p, c. split; [still|]. right; right. by justify.
  - apply IH. still.
Qed.

Lemma wp_newUser p c h :
  identified cfg r p c h -> wp P h (newUser p c (ToLower (TrimSpace (Email c)))) finds.
Proof.
  intros Hid. unfold newUser. eapply wp_seq; [by apply wp_provision|]. intros h' [u|] Hp Hu; [|by intros u].
  pose proof (Hu u eq_refl). guards; try by (exists p, c; justify).
  destruct b; [by intros ?|]. intros ? [= <-]. still.
Qed.

Lemma wp_userByEmail p c h : identified cfg r p c h -> wp P h (userByEmail p c) finds.
Proof.
  intros Hid. unfold userByEmail. guards; try (by apply wp_newUser; still); try by intros ?.
  - exists p, c. by justify.
  - intros ? [= <-]. exists p, c. split; [still|]. right; left. still.
Qed.

Lemma wp_resolveOIDCUser p c h : identified cfg r p c h -> wp P h (resolveOIDCUser p c) finds.
Proof.
  intros Hid. unfold resolveOIDCUser. guards; try (by apply wp_userByEmail; still); try by intros ?.
  intros ? [= <-]. exists p, c. split; [still|]. left. by justify.
Qed.

Lemma wp_identify sess p e code h :
  Did (GetOIDCSession (query r "state")) (Ok sess) ∈ h -> code = query r "code" ->
  Did (GetOIDCProvider (State_ProviderSlug sess)) (Ok p) ∈ h ->
  wp P h (identify cfg r sess p e code) (fun h' res => forall c, res = Ok c -> identified cfg r p c h').
Proof.
  intros Hs -> Hp. unfold identify. guards; try by intros ?.
  intros c Hc. repeat case_match; simplify_eq. reflect_bools.
  do 5 eexists. split_and!; try still; eauto.
Qed.

Lemma wp_signIn sess u h : sso_user cfg r u h -> runs h (signIn cfg r sess u).
Proof.
  intros Hu. unfold signIn, createSessionCookie, finishRedirect, generateAgentCallbackToken. guards.
  exists u. split; [right; still | split; [done | still]].
Qed.

Lemma wp_completeLogin sess h :
  Did (GetOIDCSession (query r "state")) (Ok sess) ∈ h -> runs h (completeLogin cfg r sess (query r "code")).
Proof.
  intros Hs. unfold completeLogin. apply wp_ask_bind; [done|]. intros [p|]; [|done].
  eapply wp_seq; [apply wp_cachedOIDCProvider|]. intros h1 [e|] Hp1 _; [|done].
  eapply wp_seq; [apply wp_identify; [in_history | done | in_history]|]. intros h2 [c|] Hp2 Hc; [|done].
  eapply wp_seq; [apply wp_resolveOIDCUser, Hc, eq_refl|]. intros h3 [u|] Hp3 Hu; [|done].
  apply wp_signIn, Hu, eq_refl.
Qed.

Lemma handleOIDCCallback_guarded h : runs h (handleOIDCCallback cfg r).
Proof.
  unfold handleOIDCCallback. guards.
  eapply wp_seq; [apply wp_completeLogin; in_history|]. intros h1 res Hp1 _. guards.
Qed.

Lemma account_serve_guarded ep h : runs h (serve cfg range AuthCodeURL token_hash parseInt ep r).
Proof.
  destruct ep; simpl; auto using handleAuthLogin_guarded, handleAuthOptions_guarded, handleTenantLookup_guarded,
    handleAgentAuthCallbackValidate_guarded, handleInviteValidate_guarded, handleInviteAccept_guarded,
    handlePasswordPolicy_guarded, handlePasswordResetRequest_guarded, handlePasswordResetConfirm_guarded,
    handleOIDCStart_guarded, handleOIDCCallback_guarded.
  all: apply wp_requireWebAuth; intros h' u Hu.
  all: auto using handleAuthLogout_guarded, handleAuthMe_guarded, handleAgentAuthCallback_guarded,
    handleOIDCProviders_guarded, handleOIDCProvider_guarded, handleUsers_guarded, handleUserInvite_guarded,
    handleUser_guarded, handleListSessions_guarded, handleDeleteSession_guarded.
Qed.
End Guarded.

(** ** Properties *)

Section Properties.
Context `{GoUnicode} (cfg : Config) (range : gset string -> list string).
Context (AuthCodeURL : oauthConfig -> string -> string -> string).
Context (token_hash : string -> string) (parseInt : string -> option Z).
Notation serve := (serve cfg range AuthCodeURL token_hash parseInt).

(** C13: Every call of every account route comes after what allows it. A session is
    created only for the user whose password the store accepted, or whom the identity
    token of the pending login names by link, address or as a new user; an account, a
    password, an invitation, a session or an identity provider is changed only when a
    signed-in user is authorized for it, or by the invitation or reset token that the
    request shows, or for a token that the provider verified, with the role and tenant of
    the invitation or provider; a reset token is made only when the limiter let the
    address through. *)
Theorem account_calls_guarded {W} (env : environment op W) ep r w e :
  e ∈ history env (serve ep r) w ->
  exists before after, history env (serve ep r) w = before ++ e :: after /\ guarded cfg r before e.
Proof. apply wp_call with (Q := fun _ _ => True), account_serve_guarded. Qed.

(** What held before a call of a history holds of it all. *)
Lemma served_guarded {W} (env : environment op W) ep r w e :
  let h := history env (serve ep r) w in
  e ∈ h -> exists before, before `prefix_of` h /\ guarded cfg r before e.
Proof.
  intros h He.
  destruct (wp_call (guarded cfg r) env (serve ep r) (fun _ _ => True) w e) as (b & a & Hh & Hg); [by apply account_serve_guarded | done |].
  exists b. split; [|done]. exists (e :: a). exact Hh.
Qed.

(** The session of the request is an administrator's. *)
Definition by_admin (r : request) (h : list (event op)) : Prop :=
  exists u, signed_in r u h /\ NormalizeRole (User_Role u) = RoleAdmin.

Lemma may_admin r action h : bool_decide (action ∈ admin_only) = true -> may r action h -> by_admin r h.
Proof.
  intros Ha (u & Hu & HA). exists u. split; [done|].
  exact (Authorize_admin_only _ _ _ (admin_action _ Ha) HA).
Qed.

Lemma by_admin_prefix r h h' : h `prefix_of` h' -> by_admin r h -> by_admin r h'.
Proof. intros Hp (u & Hu & Hr). exists u. split; [by eapply signed_in_prefix | done]. Qed.

Lemma served_admin r action h h' :
  bool_decide (action ∈ admin_only) = true -> h `prefix_of` h' -> may r action h -> by_admin r h'.
Proof. intros Ha Hp Hm. eapply by_admin_prefix, may_admin; eauto. Qed.

(** C14: Administrators come from administrators. In one request an account is made an
    administrator only for a signed-in administrator, for an invitation that names the
    role, or by an identity provider whose default role it is; invitations and providers
    are written, and accounts updated or deleted, only by a signed-in administrator, and
    passwords changed only by one or with a valid reset token of the account. *)
Theorem admins_made_by_admins {W} (env : environment op W) ep r w :
  let h := history env (serve ep r) w in
  (forall u password a, Did (CreateUser u password) a ∈ h -> User_Role u = RoleAdmin ->
     by_admin r h \/ (exists inv, invited r inv h /\ Inv_Role inv = RoleAdmin)
     \/ (exists p c, identified cfg r p c h /\ DefaultRole p = RoleAdmin)) /\
  (forall inv minutes a, Did (CreateUserInvitation inv minutes) a ∈ h -> by_admin r h) /\
  (forall p a, Did (CreateOIDCProvider p) a ∈ h \/ Did (UpdateOIDCProvider p) a ∈ h -> by_admin r h) /\
  (forall u a, Did (UpdateUser u) a ∈ h -> by_admin r h) /\
  (forall id a, Did (DeleteUser id) a ∈ h -> by_admin r h) /\
  (forall id password a, Did (UpdateUserPassword id password) a ∈ h ->
     by_admin r h \/ exists token, Did (ValidatePasswordResetToken token) (Ok id) ∈ h).
Proof.
  intros h. pose proof (served_guarded env ep r w) as Hserved. fold h in Hserved. cbv zeta in Hserved.
  split_and!.
  - intros u pw a He Hrole. destruct (Hserved _ He) as (b & Hb & Hg). cbn [guarded] in Hg.
    destruct Hg as [(Hm & _)|[(inv & Hi & Hr & _)|(p & c & name & Hi & ->)]].
    + left. by eapply (served_admin _ ActionSettingsServerWrite).
    + right; left. exists inv. split; [by eapply invited_prefix | congruence].
    + right; right. exists p, c. split; [by eapply identified_prefix|].
      revert Hrole. unfold provisioned_user, provision_role. cbn [User_Role].
      destruct (_ && _); [done|]. done.
  - intros inv m a He. destruct (Hserved _ He) as (b & Hb & Hm & _). by eapply (served_admin _ ActionUsersWrite).
  - intros p a [He|He]; destruct (Hserved _ He) as (b & Hb & Hm); by eapply (served_admin _ ActionSSOProvidersWrite).
  - intros u a He. destruct (Hserved _ He) as (b & Hb & Hm & _). by eapply (served_admin _ ActionUsersWrite).
  - intros id a He. destruct (Hserved _ He) as (b & Hb & Hm). by eapply (served_admin _ ActionUsersWrite).
  - intros id pw a He. destruct (Hserved _ He) as (b & Hb & [(Hm & _)|(i & _ & _ & Hv)]).
    + left. by eapply (served_admin _ ActionUsersWrite).
    + right. exists (reset_Token i). by eapply prefix_elem_of.
Qed.
End Properties.

(** ** Tenants *)

Section Tenants.
Context `{GoUnicode}.

Lemma elem_of_distinct_ids seen ids t :
  t ∈ distinct_ids seen ids <-> t <> "" /\ t ∉ seen /\ t ∈ map TrimSpace ids.
Proof.
  revert seen. induction ids as [|id ids IH]; intros seen; cbn [distinct_ids map].
  - split; [by intros ?%not_elem_of_nil | by intros (_ & _ & ?%not_elem_of_nil)].
  - destruct (decide (t = TrimSpace id)) as [->|Ht].
    + destruct (String.eqb_spec (TrimSpace id) "") as [He|Hne]; [|case_bool_decide as Hs]; cbn [orb].
      * rewrite IH. intuition.
      * rewrite IH. intuition.
      * rewrite !elem_of_cons. intuition.
    + destruct (_ || _); rewrite !elem_of_cons, IH; [intuition|].
      rewrite not_elem_of_union, not_elem_of_singleton. intuition.
Qed.

Lemma distinct_ids_NoDup seen ids : NoDup (distinct_ids seen ids).
Proof.
  revert seen. induction ids as [|id ids IH]; intros seen; cbn [distinct_ids]; [constructor|].
  destruct (_ || _); [done|]. constructor; [|done]. rewrite elem_of_distinct_ids, not_elem_of_union, not_elem_of_singleton. tauto.
Qed.

Lemma elem_of_SortTenantIDs ids t : t ∈ SortTenantIDs ids <-> t <> "" /\ t ∈ map TrimSpace ids.
Proof.
  unfold SortTenantIDs, sort_strings. rewrite merge_sort_Permutation, elem_of_distinct_ids.
  pose proof (not_elem_of_empty (C := gset string) t). tauto.
Qed.

(** The listings show what belongs to the tenant. *)
Definition listings_show (p : Principal) (t : string) : bool :=
  let scope := tenantScope (Some p) in scope.2 && tenantAllowed scope.1 t.

(** The three checks of a tenant agree: the one of a single tenant, the filter of the
    listings, and the authorizer's; the last lets a resource without a tenant pass. *)
Theorem tenant_checks_agree u action t :
  let p := newPrincipal u in
  listings_show p t = CanAccessTenant (Some p) t /\
  (Authorize (subject_of p) action {| TenantIDs := [t] |} = Ok tt <->
   roleAllows (P_Role p) action = true /\ (t = "" \/ CanAccessTenant (Some p) t = true)).
Proof.
  intros p.
  assert (Hblank : "" ∉ P_TenantIDs p) by (unfold p; cbn; rewrite elem_of_SortTenantIDs; tauto).
  split.
  - unfold listings_show, tenantScope, CanAccessTenant, P_AllowedTenantIDs.
    destruct (P_IsAdmin p) eqn:Hadm; [by destruct (String.eqb t "")|].
    destruct (String.eqb_spec t "") as [->|Ht].
    + destruct (Nat.eqb _ 0); [done|]. cbn. apply bool_decide_eq_false. set_solver.
    + apply eq_true_iff_eq. rewrite mem_str_spec.
      destruct (P_TenantIDs p) as [|x l]; cbn; [set_solver|]. rewrite bool_decide_eq_true. set_solver.
  - rewrite Authorize_ok. cbn [TenantIDs]. 
    assert (Hok : (forall tid, tid ∈ [t] -> tid <> "" -> tid ∈ AllowedTenantIDs (subject_of p))
      <-> (t = "" \/ t ∈ AllowedTenantIDs (subject_of p))).
    { destruct (decide (t = "")); set_solver. }
    rewrite Hok. unfold CanAccessTenant, subject_of, P_AllowedTenantIDs. cbn [IsAdmin AllowedTenantIDs Role].
    destruct (P_IsAdmin p) eqn:Hadm; destruct (String.eqb_spec t "") as [->|Ht]; rewrite ?mem_str_spec;
      clear Hok; intuition; congruence.
Qed.
End Tenants.

(** ** Examples *)

Definition demo_user (id : Z) (role : string) (tenants : list string) : User :=
  {| User_ID := id; User_Username := "u"; User_PasswordHash := "h"; User_Role := role; User_TenantID := "";
     User_TenantIDs := tenants; User_Email := "u@example.com"; User_CreatedAt := 0 |}.

Definition demo_session (id : Z) : Session :=
  {| Session_Token := "tok"; Session_UserID := id; Session_ExpiresAt := 90; Session_CreatedAt := 0; Session_Username := "u" |}.

Definition demo_provider : OIDCProvider :=
  {| Slug := "corp"; DisplayName := "Corp"; Issuer := "https://id.example.com"; ClientID := "cid"; ClientSecret := "sec";
     Scopes := ["openid"]; Icon := ""; ButtonText := "Corp"; ButtonStyle := ""; AutoLogin := false;
     Provider_TenantID := "t1"; DefaultRole := "viewer"; Provider_CreatedAt := 0; Provider_UpdatedAt := 0 |}.

Definition demo_endpoint : Endpoint := {| Endpoint_Issuer := "https://id.example.com"; AuthURL := "a"; TokenURL := "t" |}.

Definition demo_pending (redirect : string) : OIDCSession :=
  {| State_ID := "st"; State_ProviderSlug := "corp"; State_TenantID := "t1"; State_Nonce := "n"; State_State := "st";
     State_RedirectURL := redirect; State_CreatedAt := 0 |}.

(** A store with the user [u], a provider whose tokens carry the address of [u], which
    nobody verified, and a pending login that goes on to [redirect]. *)
Definition demo_env (u : User) (redirect : string) : environment op unit := fun B o w =>
  (match o in op A return A with
   | GetSessionByToken _ => Ok (demo_session (User_ID u))
   | GetUserByID _ | GetUserByEmail _ | AuthenticateUser _ _ => Ok u
   | CreateSession id _ => Ok (demo_session id)
   | CreateUser u _ => Ok u
   | CreatePasswordResetToken _ _ => Ok "reset"
   | ValidatePasswordResetToken _ => Ok (User_ID u)
   | GetOIDCProvider _ => Ok demo_provider
   | GetOIDCSession _ => Ok (demo_pending redirect)
   | CachedIssuer _ | DiscoverIssuer _ => Some demo_endpoint
   | ExchangeCode _ _ => Some (Some "raw")
   | VerifyToken _ _ _ => Some {| id_Subject := "sub"; id_Nonce := "n";
       id_Claims := Some {| Subject := ""; Email := User_Email u; EmailVerified := false; PreferredUsername := "x"; Claims_Name := "X" |} |}
   | RandomText _ => Some "rnd"
   | CreateOIDCProvider p | UpdateOIDCProvider p => Ok p
   | GetAgentByToken _ | GetTenantName _ | CreateUserInvitation _ _ => Ok "x"
   | GetOIDCLink _ _ | GetUserInvitation _ => Err NoRows
   | ListSessions | ListUsers | ListOIDCProviders _ => Ok []
   | DeleteSessionByHash _ => Ok 1%Z
   | FindTenantByDomain _ => Ok None
   | IsBlocked _ _ => false
   | RecordFailure _ _ => (false, true, 1%Z)
   | Now => 1%Z
   | DeleteSession _ | DeletePasswordResetToken _ | MarkInvitationUsed _ | DeleteOIDCSession _ | DeleteOIDCLink _ _
   | SaveAudit _ | RecordSuccess _ _ | PutCallback _ _ | CacheIssuer _ _ => tt
   | UpdateUser _ | UpdateUserPassword _ _ | DeleteUser _ | DeleteOIDCProvider _ | CreateOIDCSession _
   | CreateOIDCLink _ | SendMail _ _ _ | TakeCallback _ => None
   end, w).

Definition demo_config : Config :=
  {| security := Some {| PasswordMinLength := 8; PasswordRequireUpper := true; PasswordRequireLower := false;
       PasswordRequireNumber := false; PasswordRequireSpecial := false |};
     ProxyUseHTTPS := false; has_limiter := true |}.

Definition no_body : body :=
  {| as_login := None; as_user := None; as_callback := None; as_validate := None; as_email := None; as_reset := None;
     as_invite := None; as_accept := None; as_provider := None; as_hint := None |}.

Definition demo_request (m : method) (path : string) (q : gmap string string) (b : body) : request :=
  {| Method := m; Path := path; RequestURI := path; Query := q; Body := b; Host := "pm.example.com"; TLS := true;
     Authorization := ""; SessionCookie := Some "tok"; TenantCookie := None; ForwardedProto := ""; ForwardedHost := "";
     UserAgent := "ua"; clientIP := "10.0.0.9"; principal := None |}.

Definition login_request : request := demo_request POST "/api/v1/auth/login" ∅
  {| as_login := Some {| login_Username := "u"; login_Password := "pw" |}; as_user := None; as_callback := None;
     as_validate := None; as_email := None; as_reset := None; as_invite := None; as_accept := None; as_provider := None;
     as_hint := None |}.

(** An administrator gives [u] the role and the password. *)
Definition edit_request (role password : string) : request := demo_request PUT "/api/v1/users/7" ∅
  {| as_login := None; as_user := Some {| new_Username := ""; new_Password := password; new_Role := role; new_TenantID := "";
       new_TenantIDs := []; new_Email := "" |}; as_callback := None; as_validate := None; as_email := None;
     as_reset := None; as_invite := None; as_accept := None; as_provider := None; as_hint := None |}.

Definition callback_request : request :=
  demo_request GET "/auth/oidc/callback" {[ "state" := "st"; "code" := "c" ]} no_body.

Definition reset_request : request := demo_request POST "/api/v1/users/reset/confirm" ∅
  {| as_login := None; as_user := None; as_callback := None; as_validate := None; as_email := None;
     as_reset := Some {| reset_Token := "reset"; reset_Password := "x" |}; as_invite := None; as_accept := None;
     as_provider := None; as_hint := None |}.

Notation demo_serve := (serve demo_config elements (fun _ s _ => s) (fun t => t) (fun _ => Some 7%Z)).

Lemma account_calls_guarded_witness :
  let h := history (demo_env (demo_user 7 "viewer" ["t1"]) "/") (demo_serve Login login_request) tt in
  let e := Did (CreateSession 7 1440) (Ok (demo_session 7)) in
  e ∈ h /\ exists before after, h = before ++ e :: after /\ guarded demo_config login_request before e.
Proof.
  assert (He : Did (CreateSession 7 1440) (Ok (demo_session 7))
    ∈ history (demo_env (demo_user 7 "viewer" ["t1"]) "/") (demo_serve Login login_request) tt).
  { vm_compute. right. left. }
  split; [exact He|].
  exact (account_calls_guarded demo_config elements (fun _ s _ => s) (fun t => t) (fun _ => Some 7%Z) _ Login _ tt _ He).
Defined.

Lemma admins_made_by_admins_witness :
  let h := history (demo_env (demo_user 7 "admin" []) "/") (demo_serve UserByID (edit_request "admin" "")) tt in
  (exists u a, Did (UpdateUser u) a ∈ h /\ User_Role u = RoleAdmin) /\ by_admin (edit_request "admin" "") h.
Proof.
  assert (He : Did (UpdateUser (edited_user (demo_user 7 "admin" []) {| new_Username := ""; new_Password := "";
      new_Role := "admin"; new_TenantID := ""; new_TenantIDs := []; new_Email := "" |})) None
    ∈ history (demo_env (demo_user 7 "admin" []) "/") (demo_serve UserByID (edit_request "admin" "")) tt).
  { vm_compute. do 3 right. left. }
  split; [eexists _, _; split; [exact He | reflexivity]|].
  destruct (admins_made_by_admins demo_config elements (fun _ s _ => s) (fun t => t) (fun _ => Some 7%Z)
    (demo_env (demo_user 7 "admin" []) "/") UserByID (edit_request "admin" "") tt) as (_ & _ & _ & Hupdate & _).
  exact (Hupdate _ _ He).
Defined.

(** An identity provider that puts somebody's address into its tokens, verified or not,
    signs in as that user, here an administrator, whatever the tenant of the provider. *)
Lemma sso_signs_in_by_address :
  outcome (demo_env (demo_user 7 "admin" []) "/") (demo_serve OIDCCallback callback_request) tt
    = Redirect "/" [SetSession "tok" 90 true; ClearTenantHint true].
Proof. reflexivity. Qed.

(** The address after the login may be on another host, which then gets a callback token
    of the user. *)
Lemma redirect_to_other_host :
  let target := sanitizeRedirectTarget "//evil.com/api/v1/auth/callback" in
  outcome (demo_env (demo_user 7 "admin" []) target) (demo_serve OIDCCallback callback_request) tt
    = Redirect "//evil.com/api/v1/auth/callback?token=rnd" [SetSession "tok" 90 true; ClearTenantHint true].
Proof. reflexivity. Qed.

(** A password that the policy refuses: the answer is an error, but the role has changed. *)
Lemma refused_update_applied :
  outcome (demo_env (demo_user 7 "admin" ["t1"]) "/") (demo_serve UserByID (edit_request "viewer" "x")) tt
    = http_error 400 "password must be at least 8 characters" /\
  exists u, Did (UpdateUser u) None
      ∈ history (demo_env (demo_user 7 "admin" ["t1"]) "/") (demo_serve UserByID (edit_request "viewer" "x")) tt
    /\ User_Role u = "viewer" /\ User_TenantIDs u = [].
Proof.
  split; [reflexivity|]. eexists. split; [vm_compute; do 3 right; left | done].
Qed.

(** A reset takes any password and leaves the sessions of the user. *)
Lemma reset_ignores_policy :
  policy_error demo_config "x" = Some "password must be at least 8 characters"%string /\
  outcome (demo_env (demo_user 7 "admin" []) "/") (demo_serve ResetConfirm reset_request) tt
    = ok_json [("success", FBool true)] /\
  Did (UpdateUserPassword 7 "x") None
    ∈ history (demo_env (demo_user 7 "admin" []) "/") (demo_serve ResetConfirm reset_request) tt.
Proof. split; [reflexivity|]. split; [reflexivity|]. vm_compute. do 2 right. left. Qed.

(** The login does not ask the limiter, to which it reports. *)
Lemma login_never_asks_limiter {W} (env : environment op W) cfg r w ip key a :
  Did (IsBlocked ip key) a ∉ history env (handleAuthLogin cfg r) w.
Proof.
  intros He.
  destruct (wp_call (fun _ e => forall ip key a, e <> Did (IsBlocked ip key) a) env
    (handleAuthLogin cfg r) (fun _ _ => True) w (Did (IsBlocked ip key) a)) as (b & c & _ & Hne); [|exact He | by eapply Hne].
  unfold handleAuthLogin, login, createSessionCookie, limited, logAuditEntry.
  repeat (wp_step || exact I || (intros ?)); discriminate.
Qed.

(** A viewer as the default role of a provider becomes an operator. *)
Lemma default_viewer_is_operator :
  DefaultRole <$> (match buildProviderFromPayload elements
    {| p_Slug := "corp"; p_DisplayName := "Corp"; p_Issuer := "i"; p_ClientID := "c"; p_ClientSecret := "s"; p_Scopes := [];
       p_Icon := ""; p_ButtonText := ""; p_ButtonStyle := ""; p_AutoLogin := false; p_TenantID := "";
       p_DefaultRole := "viewer" |} None "" with Ok p => Some p | Err _ => None end) = Some RoleOperator.
Proof. reflexivity. Qed.
