(* ===== verification/AccountTokens.v ===== *)
(** * Guessed tokens and callback tokens.

    The calls of the handlers meet the state behind them through two interfaces: the
    environment may answer the calls of the limiter as RateLimit does ([Limits]), and keep
    the callback tokens in a table ([CallbackTable]), while other requests come in between.
    Against them: an address that guesses agent tokens, in requests and in connections,
    gets a bounded number of lookups, and a callback token is good once, for five minutes. *)
From S2P Require Import Prelude GoStrings GoTime Effects Programs Authz AuditLog AccountCalls Sessions AccountAccess.
From S2P Require RateLimit.

(** ** Guessing agent tokens *)

(** The same settings, and the same record of the client [k]. *)
Definition same_client (k : string) (l l' : RateLimit.AuthRateLimiter) : Prop :=
  RateLimit.attempts l' !! k = RateLimit.attempts l !! k /\ RateLimit.maxAttempts l' = RateLimit.maxAttempts l /\
  RateLimit.blockDuration l' = RateLimit.blockDuration l /\ RateLimit.attemptsWindow l' = RateLimit.attemptsWindow l.

Definition asks_limiter {B} (o : op B) : bool :=
  match o with IsBlocked _ _ | RecordFailure _ _ | RecordSuccess _ _ => true | _ => false end.

(** The limiter of the environment, as the client with this address and key sees it; other
    clients may use it meanwhile. *)
Class Limits {W} (env : environment op W) (lim : W -> RateLimit.AuthRateLimiter) (clock : W -> Time)
    (ip key : string) : Prop := {
  limits_clock : forall B (o : op B) w, clock w <= clock (env B o w).2;
  limits_blocked : forall w,
    (env _ (IsBlocked ip key) w).1 = (RateLimit.IsBlocked (lim w) ip key (clock w)).1 /\
    same_client (RateLimit.makeKey ip key) (lim w) (lim (env _ (IsBlocked ip key) w).2);
  limits_failure : forall w,
    (env _ (RecordFailure ip key) w).1 = (RateLimit.RecordFailure (lim w) ip key (clock w)).2 /\
    same_client (RateLimit.makeKey ip key) (RateLimit.RecordFailure (lim w) ip key (clock w)).1
      (lim (env _ (RecordFailure ip key) w).2);
  limits_other : forall B (o : op B) w, asks_limiter o = false ->
    same_client (RateLimit.makeKey ip key) (lim w) (lim (env B o w).2);
}.

Definition is_lookup (e : event op) : bool :=
  match e with Did o _ => match o with GetAgentByToken _ => true | _ => false end end.
Definition lookups (h : list (event op)) : nat := length (List.filter is_lookup h).

Lemma lookups_app h h' : lookups (h ++ h') = (lookups h + lookups h')%nat.
Proof. unfold lookups. by rewrite List.filter_app, length_app. Qed.

Section Guessing.
Context `{GoUnicode} {W : Type} (env : environment op W) (lim : W -> RateLimit.AuthRateLimiter) (clock : W -> Time).
Context (ip key : string) `{!Limits env lim clock ip key} (cfg : Config) (next : string -> M response).
Notation k := (RateLimit.makeKey ip key).

(** A request with a token in its header, or a connection with one in its address. *)
Inductive attempt := ByHeader (r : request) | BySocket (r : request).
Definition try (a : attempt) : M unit :=
  match a with
  | ByHeader r => _ ← requireAuth cfg next r; mret tt
  | BySocket r => _ ← authenticateWebSocket cfg r; mret tt
  end.

(** An attempt of the client with a token that starts with the key. *)
Definition guess (a : attempt) : Prop :=
  match a with
  | ByHeader r => clientIP r = ip /\ exists token, bearer r = Some token /\ token_prefix token = key
  | BySocket r => clientIP r = ip /\ exists token, Query r !! "token" = Some token /\ token <> "" /\ token_prefix token = key
  end.

Lemma clock_run {A} (m : M A) w : clock w <= clock (after env m w).
Proof.
  unfold after. revert w. induction m as [a|B o f IH]; intros w; simpl; [lia|].
  pose proof (limits_clock B o w) as Hc. destruct (env B o w) as [b w']. specialize (IH b w').
  destruct (run env (f b) w') as [a [tr w'']]. simpl in *. lia.
Qed.

Lemma same_client_trans l1 l2 l3 : same_client k l1 l2 -> same_client k l2 l3 -> same_client k l1 l3.
Proof. unfold same_client. intuition congruence. Qed.

(** What both do with a wrong token. *)
Definition limited_lookup {A} (token : string) (entry : Z -> db_error -> AuditEntry) (refused : bool -> A) (found : string -> M A)
  : M A :=
  blocked ← ask (IsBlocked ip key);
  if (blocked : bool) then mret (refused true)
  else
    agent ← ask (GetAgentByToken token);
    match agent with
    | Ok a => found a
    | Err e =>
        '(isBlocked, shouldLog, attemptCount) ← ask (RecordFailure ip key);
        _ ← (if (shouldLog : bool) && (isBlocked : bool) then logAuditEntry (entry attemptCount e) else mret tt);
        mret (refused isBlocked)
    end.

(** A wrong guess is turned away, or makes one lookup and is counted. *)
Lemma limited_lookup_step {A} token entry refused (found : string -> M A) w :
  (forall token v, exists e, (env _ (GetAgentByToken token) v).1 = Err e) ->
  let w' := after env (limited_lookup token entry refused found) w in
  let n := lookups (history env (limited_lookup token entry refused found) w) in
  ((RateLimit.IsBlocked (lim w) ip key (clock w)).1 = true /\ n = 0%nat /\ same_client k (lim w) (lim w')) \/
  ((RateLimit.IsBlocked (lim w) ip key (clock w)).1 = false /\ n = 1%nat /\
   exists l t, clock w <= t <= clock w' /\ same_client k (lim w) l /\
     same_client k (RateLimit.RecordFailure l ip key t).1 (lim w')).
Proof.
  intros Hinvalid. cbv zeta.
  pose proof (limits_clock _ (IsBlocked ip key) w) as Hc0. destruct (limits_blocked w) as [Hq Hs0].
  unfold limited_lookup, logAuditEntry, history, after.
  cbn [run mbind prog_bind ask mret prog_ret].
  destruct (env _ (IsBlocked ip key) w) as [blocked w1]. cbn [fst snd] in *. subst blocked.
  destruct (RateLimit.IsBlocked (lim w) ip key (clock w)).1 eqn:Hbl.
  { left. done. }
  right. split; [done|].
  pose proof (limits_clock _ (GetAgentByToken token) w1) as Hc1.
  pose proof (limits_other _ (GetAgentByToken token) w1 eq_refl) as Hs1.
  destruct (Hinvalid token w1) as [e He].
  cbn [run mbind prog_bind ask mret prog_ret].
  destruct (env _ (GetAgentByToken token) w1) as [agent w2]. cbn [fst snd] in *. subst agent.
  pose proof (limits_clock _ (RecordFailure ip key) w2) as Hc2. destruct (limits_failure w2) as [_ Hs2].
  cbn [run mbind prog_bind ask mret prog_ret].
  destruct (env _ (RecordFailure ip key) w2) as [[[isBlocked shouldLog] count] w3]. cbn [fst snd] in *.
  pose proof (limits_clock _ (SaveAudit (audit_entry (entry count e))) w3) as Hc3.
  pose proof (limits_other _ (SaveAudit (audit_entry (entry count e))) w3 eq_refl) as Hs3.
  destruct (shouldLog && isBlocked); cbn [run mbind prog_bind ask mret prog_ret fst snd].
  - destruct (env _ (SaveAudit (audit_entry (entry count e))) w3) as [u w4]. cbn [fst snd] in *.
    split; [done|]. exists (lim w2), (clock w2). split; [lia|].
    split; eapply same_client_trans; eauto.
  - split; [done|]. exists (lim w2), (clock w2). split; [lia|]. split; [by eapply same_client_trans | done].
Qed.

Lemma after_then {A} (m : M A) w :
  after env (_ ← m; mret tt) w = after env m w /\ history env (_ ← m; mret tt) w = history env m w.
Proof.
  destruct (run_bind env m (fun _ => mret tt) w) as (_ & Hh & Ha). rewrite Hh, Ha. cbn. by rewrite app_nil_r.
Qed.

Lemma guess_step a w :
  has_limiter cfg = true -> guess a ->
  (forall token v, exists e, (env _ (GetAgentByToken token) v).1 = Err e) ->
  let w' := after env (try a) w in
  let n := lookups (history env (try a) w) in
  ((RateLimit.IsBlocked (lim w) ip key (clock w)).1 = true /\ n = 0%nat /\ same_client k (lim w) (lim w')) \/
  ((RateLimit.IsBlocked (lim w) ip key (clock w)).1 = false /\ n = 1%nat /\
   exists l t, clock w <= t <= clock w' /\ same_client k (lim w) l /\
     same_client k (RateLimit.RecordFailure l ip key t).1 (lim w')).
Proof.
  intros Hlim Hg Hinvalid. destruct a as [r|r]; cbn [try]; cbv zeta.
  - destruct (after_then (requireAuth cfg next r) w) as [-> ->]. destruct Hg as (Hip & token & Hb & Hk).
    assert (Hauth : String.eqb (Authorization r) "" = false).
    { destruct (String.eqb_spec (Authorization r) "") as [He|]; [|done]. unfold bearer in Hb. by rewrite He in Hb. }
    unfold requireAuth, rejectToken, limited. rewrite Hauth, Hb, Hip, Hk, Hlim.
    exact (limited_lookup_step token (blocked_audit r key) _ _ w Hinvalid).
  - destruct (after_then (authenticateWebSocket cfg r) w) as [-> ->]. destruct Hg as (Hip & token & Hq & Hne & Hk).
    unfold authenticateWebSocket, limited. rewrite Hq. apply String.eqb_neq in Hne.
    change (default ""%string (Some token)) with token. rewrite Hne, Hip, Hk, Hlim.
    exact (limited_lookup_step token (blocked_websocket_audit r key) _ _ w Hinvalid).
Qed.

(** The record of the client after [n] lookups between [t0] and [now], given that no block
    that started ends by [T]. *)
Definition counted (rl : RateLimit.AuthRateLimiter) (t0 now T : Time) (n : nat) : Prop :=
  match RateLimit.attempts rl !! k with
  | None => n = 0%nat
  | Some rec =>
      (T < RateLimit.blockedUntil rec /\ Z.of_nat n <= Z.max 2 (RateLimit.maxAttempts rl)) \/
      (RateLimit.blockedUntil rec = zero_time /\ RateLimit.failureCount rec = Z.of_nat n /\
       t0 <= RateLimit.firstAttempt rec <= now /\ Z.of_nat n < Z.max 2 (RateLimit.maxAttempts rl))
  end.

Lemma counted_same l l' t0 now now' T n :
  same_client k l l' -> now <= now' -> counted l t0 now T n -> counted l' t0 now' T n.
Proof.
  unfold counted. intros (-> & -> & _ & _) Hn. destruct (RateLimit.attempts l !! k) as [rec|]; [|done].
  intros [?|?]; [by left | right; intuition lia].
Qed.

Lemma counted_blocked l t0 now T n :
  zero_time <= now -> now <= T -> counted l t0 now T n ->
  (RateLimit.IsBlocked l ip key now).1 = false ->
  match RateLimit.attempts l !! k with
  | None => n = 0%nat
  | Some rec => RateLimit.blockedUntil rec = zero_time /\ RateLimit.failureCount rec = Z.of_nat n /\
      t0 <= RateLimit.firstAttempt rec <= now /\ Z.of_nat n < Z.max 2 (RateLimit.maxAttempts l)
  end.
Proof.
  unfold counted, RateLimit.IsBlocked. intros H0 HT. destruct (RateLimit.attempts l !! k) as [rec|]; [|done].
  intros [[Hb _]|?]; [|done]. unfold Before. destruct (Z.ltb_spec now (RateLimit.blockedUntil rec)); [done | lia].
Qed.

(** A counted failure. *)
Lemma counted_failure l t0 t T n :
  zero_time <= t0 -> t0 <= t <= T -> 0 <= RateLimit.attemptsWindow l < int64_max ->
  T <= t0 + RateLimit.attemptsWindow l -> T < t0 + RateLimit.blockDuration l ->
  match RateLimit.attempts l !! k with
  | None => n = 0%nat
  | Some rec => RateLimit.blockedUntil rec = zero_time /\ RateLimit.failureCount rec = Z.of_nat n /\
      t0 <= RateLimit.firstAttempt rec <= t /\ Z.of_nat n < Z.max 2 (RateLimit.maxAttempts l)
  end ->
  counted (RateLimit.RecordFailure l ip key t).1 t0 t T (S n).
Proof.
  intros H0 Ht Hw HT Hb. unfold counted, RateLimit.RecordFailure.
  destruct (RateLimit.attempts l !! k) as [rec|].
  - intros (Hz & Hc & Hf & Hn).
    destruct (RateLimit.fail_record l t rec) as [rec' out] eqn:Hfail. cbn [fst RateLimit.with_attempts RateLimit.attempts].
    rewrite lookup_insert_eq. cbn [RateLimit.maxAttempts].
    unfold RateLimit.fail_record, Before, Add in Hfail.
    rewrite Hz, (proj2 (Z.ltb_ge t zero_time)) in Hfail by lia.
    rewrite (proj2 (Z.ltb_ge _ _)) in Hfail by (apply Sub_le; lia).
    destruct (Z.leb_spec (RateLimit.maxAttempts l) (RateLimit.failureCount rec + 1)); injection Hfail as <- _; cbn.
    + left. lia.
    + right. lia.
  - intros ->. cbn [fst RateLimit.with_attempts RateLimit.attempts]. rewrite lookup_insert_eq. right. cbn. lia.
Qed.

Lemma RecordFailure_settings l t :
  RateLimit.maxAttempts (RateLimit.RecordFailure l ip key t).1 = RateLimit.maxAttempts l /\
  RateLimit.blockDuration (RateLimit.RecordFailure l ip key t).1 = RateLimit.blockDuration l /\
  RateLimit.attemptsWindow (RateLimit.RecordFailure l ip key t).1 = RateLimit.attemptsWindow l.
Proof. by destruct (RateLimit.apply_event_config (RateLimit.EvFailure ip key) t l _ eq_refl) as (? & ? & ?). Qed.

(** One guess after another. *)
Definition guesses (rs : list attempt) : M unit := each rs try.

Lemma counted_step r w t0 T n :
  has_limiter cfg = true -> guess r ->
  (forall token v, exists e, (env _ (GetAgentByToken token) v).1 = Err e) ->
  zero_time <= t0 -> t0 <= clock w -> 0 <= RateLimit.attemptsWindow (lim w) < int64_max ->
  let w' := after env (try r) w in
  clock w' <= T -> T <= t0 + RateLimit.attemptsWindow (lim w) -> T < t0 + RateLimit.blockDuration (lim w) ->
  counted (lim w) t0 (clock w) T n ->
  counted (lim w') t0 (clock w') T (n + lookups (history env (try r) w)) /\
  RateLimit.maxAttempts (lim w') = RateLimit.maxAttempts (lim w) /\
  RateLimit.blockDuration (lim w') = RateLimit.blockDuration (lim w) /\
  RateLimit.attemptsWindow (lim w') = RateLimit.attemptsWindow (lim w).
Proof.
  intros Hlim Hr Hinvalid H0 Ht0 Hwin w' HT HTw HTb Hn.
  pose proof (clock_run (try r) w) as Hc. fold w' in Hc.
  destruct (guess_step r w Hlim Hr Hinvalid) as [(_ & -> & Hs)|(Hb & -> & l & t & Ht & Hl & Hs)]; fold w' in Hs.
  - rewrite Nat.add_0_r. split; [by eapply counted_same | apply Hs].
  - fold w' in Ht. destruct (RecordFailure_settings l t) as (E1 & E2 & E3).
    destruct Hl as (Hrec & Hl). destruct Hs as (Hrec' & Hs).
    split; [|intuition congruence].
    rewrite Nat.add_1_r. eapply (counted_same (RateLimit.RecordFailure l ip key t).1 _ t0 t); [split; done | lia |].
    assert (Hl1 : RateLimit.maxAttempts l = RateLimit.maxAttempts (lim w)) by apply Hl.
    assert (Hl2 : RateLimit.blockDuration l = RateLimit.blockDuration (lim w)) by apply Hl.
    assert (Hl3 : RateLimit.attemptsWindow l = RateLimit.attemptsWindow (lim w)) by apply Hl.
    apply counted_failure; rewrite ?Hl1, ?Hl2, ?Hl3; try lia.
    pose proof (counted_blocked (lim w) t0 (clock w) T n ltac:(lia) ltac:(lia) Hn Hb) as Hrecord.
    rewrite Hrec. destruct (RateLimit.attempts (lim w) !! k); [|done]. intuition lia.
Qed.

Lemma guesses_cons r rs w :
  let w' := after env (try r) w in
  history env (guesses (r :: rs)) w = history env (try r) w ++ history env (guesses rs) w' /\
  after env (guesses (r :: rs)) w = after env (guesses rs) w'.
Proof.
  intros w'. unfold guesses. cbn [each]. by destruct (run_bind env (try r) (fun _ => each rs try) w) as (_ & -> & ->).
Qed.

Lemma counted_guesses rs w t0 T n :
  has_limiter cfg = true -> Forall guess rs ->
  (forall token v, exists e, (env _ (GetAgentByToken token) v).1 = Err e) ->
  zero_time <= t0 -> t0 <= clock w -> 0 <= RateLimit.attemptsWindow (lim w) < int64_max ->
  clock (after env (guesses rs) w) <= T ->
  T <= t0 + RateLimit.attemptsWindow (lim w) -> T < t0 + RateLimit.blockDuration (lim w) ->
  counted (lim w) t0 (clock w) T n ->
  Z.of_nat (n + lookups (history env (guesses rs) w)) <= Z.max 2 (RateLimit.maxAttempts (lim w)).
Proof.
  intros Hlim Hrs Hinvalid H0. revert w n. induction Hrs as [|r rs Hr _ IH]; intros w n Ht0 Hwin HT HTw HTb Hn.
  - cbn. rewrite Nat.add_0_r. unfold counted in Hn. destruct (_ !! _); [destruct Hn; lia | lia].
  - destruct (guesses_cons r rs w) as [Hh Ha]. rewrite Hh, lookups_app, Nat.add_assoc. rewrite Ha in HT.
    pose proof (clock_run (try r) w) as Hc.
    pose proof (clock_run (guesses rs) (after env (try r) w)) as Hc'.
    destruct (counted_step r w t0 T n) as (Hn' & E1 & E2 & E3); try done; [lia|].
    rewrite <- E1. apply IH; rewrite ?E2, ?E3; try done; lia.
Qed.

End Guessing.

(** Failures under one prefix of the token do not block another: an address whose guesses
    all start differently is never blocked. *)
Lemma prefixes_counted_apart l ip key key' t t' :
  RateLimit.makeKey ip key <> RateLimit.makeKey ip key' ->
  (RateLimit.IsBlocked (RateLimit.RecordFailure l ip key t).1 ip key' t').1 = (RateLimit.IsBlocked l ip key' t').1.
Proof.
  intros Hk. unfold RateLimit.IsBlocked, RateLimit.RecordFailure.
  destruct (RateLimit.attempts l !! RateLimit.makeKey ip key) as [rec|] eqn:Hrec.
  - destruct (RateLimit.fail_record l t rec) as [rec' out]. cbn.
    by rewrite lookup_insert_ne by done.
  - cbn. by rewrite lookup_insert_ne by done.
Qed.

(** ** Callback tokens *)

(** The token expired, or the table still has what it had. *)
Definition kept (now : Time) (x y : option agentCallbackToken) : Prop :=
  y = x \/ (y = None /\ exists act, x = Some act /\ After now (Callback_ExpiresAt act) = true).

Definition touches (token : string) {B} (o : op B) : bool :=
  match o with PutCallback t _ | TakeCallback t => String.eqb t token | _ => false end.
Definition event_touches (token : string) (e : event op) : bool := match e with Did o _ => touches token o end.

(** The table of the tokens, which a sweep may run over between any two calls. *)
Class CallbackTable {W} (env : environment op W) (tbl : W -> gmap string agentCallbackToken) (clock : W -> Time) : Prop := {
  table_clock : forall B (o : op B) w, clock w <= clock (env B o w).2;
  table_now : forall w, clock w <= (env _ Now w).1 <= clock (env _ Now w).2;
  table_put : forall t act w, tbl (env _ (PutCallback t act) w).2 !! t = Some act;
  table_take : forall t w, kept (clock (env _ (TakeCallback t) w).2) (tbl w !! t) (env _ (TakeCallback t) w).1 /\
    tbl (env _ (TakeCallback t) w).2 !! t = None;
  table_other : forall B (o : op B) w t, touches t o = false ->
    kept (clock (env B o w).2) (tbl w !! t) (tbl (env B o w).2 !! t);
}.

(** The sweep is one of the things that may happen. *)
Lemma sweep_keeps now m t : kept now (m !! t) (cleanupExpiredAgentCallbackTokens now m !! t).
Proof.
  unfold cleanupExpiredAgentCallbackTokens, kept. rewrite map_lookup_filter.
  destruct (m !! t) as [act|]; [|by left]. cbn. destruct (After now (Callback_ExpiresAt act)) eqn:Ha.
  - right. split; [by rewrite option_guard_False | eauto].
  - left. by rewrite option_guard_True.
Qed.

Section Callbacks.
Context `{GoUnicode} {W : Type} (env : environment op W) (tbl : W -> gmap string agentCallbackToken) (clock : W -> Time).
Context `{!CallbackTable env tbl clock}.

(** Calls that do not concern a token keep it while it has not expired, and do not bring
    one back. *)
Lemma table_run {A} (m : M A) w t :
  (forall e, e ∈ history env m w -> event_touches t e = false) ->
  clock w <= clock (after env m w) /\ kept (clock (after env m w)) (tbl w !! t) (tbl (after env m w) !! t).
Proof.
  unfold history, after. revert w. induction m as [a|B o f IH]; intros w Hh; simpl in *; [split; [lia | by left]|].
  pose proof (table_clock B o w) as Hc. pose proof (table_other B o w t) as Ho.
  destruct (env B o w) as [b w']. specialize (IH b w').
  destruct (run env (f b) w') as [a [tr w'']]. simpl in *.
  destruct IH as [Hc' Hk']; [intros e He; apply Hh; by right|].
  specialize (Ho (Hh _ (list_elem_of_here _ _))). split; [lia|].
  destruct Ho as [Ho|(Ho & act & Hs & Ha)]; rewrite Ho in Hk'; [done|].
  right. split; [by destruct Hk' as [|[]]|]. exists act. split; [done|].
  unfold After in *. apply Z.ltb_lt in Ha. apply Z.ltb_lt. lia.
Qed.

Lemma generate_spec u agentID url w act :
  outcome env (generateAgentCallbackToken u agentID url) w = Some act ->
  tbl (after env (generateAgentCallbackToken u agentID url) w) !! Callback_Token act = Some act /\
  Callback_UserID act = User_ID u /\ Callback_ExpiresAt act = Add (Callback_CreatedAt act) (dmul 5 Minute).
Proof.
  unfold generateAgentCallbackToken, outcome, after. cbn [run mbind prog_bind ask mret prog_ret].
  destruct (env _ (RandomText 32) w) as [[token|] w1]; [|done].
  cbn [run mbind prog_bind ask mret prog_ret]. destruct (env _ Now w1) as [now w2].
  cbn [run mbind prog_bind ask mret prog_ret].
  match goal with |- context [PutCallback token ?a] => set (made := a) end.
  pose proof (table_put token made w2) as Hput.
  destruct (env _ (PutCallback token made) w2) as [[] w3]. cbn. intros [= <-]. done.
Qed.

Lemma validate_spec t w :
  let w' := after env (validateAgentCallbackToken t) w in
  tbl w' !! t = None /\ clock w <= clock w' /\
  (forall act, outcome env (validateAgentCallbackToken t) w = Some act -> tbl w !! t = Some act) /\
  (forall act, tbl w !! t = Some act -> clock w' <= Callback_ExpiresAt act ->
     outcome env (validateAgentCallbackToken t) w = Some act).
Proof.
  unfold validateAgentCallbackToken, outcome, after. cbn [run mbind prog_bind ask mret prog_ret].
  destruct (table_take t w) as [Hk Hn]. pose proof (table_clock _ (TakeCallback t) w) as Hc.
  destruct (env _ (TakeCallback t) w) as [[act|] w1]; cbn [run mbind prog_bind ask mret prog_ret fst snd] in *.
  - pose proof (table_now w1) as Hnow. pose proof (table_other _ Now w1 t eq_refl) as Ho.
    destruct (env _ Now w1) as [now w2]. cbn [fst snd] in *.
    assert (Hw : tbl w !! t = Some act) by (destruct Hk as [Hk|[]]; [by symmetry | done]).
    split; [|split; [lia|split]].
    + rewrite Hn in Ho. destruct Ho as [|(? & ? & ? & _)]; done.
    + intros act' Ha. destruct (After _ _); congruence.
    + intros act' Ha Hle. rewrite Hw in Ha. injection Ha as <-. unfold After.
      destruct (Z.ltb_spec (Callback_ExpiresAt act) now); [lia | done].
  - split; [done|]. split; [done|]. split; [done|]. intros act Ha Hle.
    destruct Hk as [Hk|(_ & act' & Hs & He)]; [congruence|].
    rewrite Ha in Hs. injection Hs as <-. unfold After in He. apply Z.ltb_lt in He. lia.
Qed.

(** A callback token is good once, for five minutes. Whatever requests come between
    that do not use it, a token made for a user is accepted within five minutes with
    exactly what was stored for that user; after it was shown once, in time or late, it is
    not accepted again, unless the random source makes the same token anew. *)
Theorem callback_token_once {A B} (m : M A) (m' : M B) u agentID url w act :
  outcome env (generateAgentCallbackToken u agentID url) w = Some act ->
  let t := Callback_Token act in
  let made := after env (generateAgentCallbackToken u agentID url) w in
  (forall e, e ∈ history env m made -> event_touches t e = false) ->
  let shown := after env m made in
  let used := after env (validateAgentCallbackToken t) shown in
  (forall e, e ∈ history env m' used -> event_touches t e = false) ->
  Callback_UserID act = User_ID u /\
  (clock used <= Add (Callback_CreatedAt act) (dmul 5 Minute) ->
     outcome env (validateAgentCallbackToken t) shown = Some act) /\
  outcome env (validateAgentCallbackToken t) (after env m' used) = None.
Proof.
  intros Hact t made Hm shown used Hm'.
  destruct (generate_spec u agentID url w act Hact) as (Hput & Huser & Hexp). fold t made in Hput.
  destruct (table_run m made t Hm) as [_ Hkept]. fold shown in Hkept. rewrite Hput in Hkept.
  destruct (validate_spec t shown) as (Hgone & Hc & _ & Hok). fold used in Hgone, Hc, Hok.
  destruct (table_run m' used t Hm') as [_ Hkept']. rewrite Hgone in Hkept'.
  split; [done|]. split.
  - rewrite <- Hexp. intros Hle. apply Hok; [|done].
    destruct Hkept as [Hk|(_ & a & [= <-] & Ha)]; [done|]. unfold After in Ha. apply Z.ltb_lt in Ha. lia.
  - destruct (validate_spec t (after env m' used)) as (_ & _ & Hin & _).
    destruct (outcome env (validateAgentCallbackToken t) (after env m' used)) as [a|]; [|done].
    specialize (Hin a eq_refl). destruct Hkept' as [Hk|(? & ? & ? & _)]; congruence.
Qed.
End Callbacks.

(** ** An environment with a limiter and a table *)

Record world := { w_lim : RateLimit.AuthRateLimiter; w_tokens : gmap string agentCallbackToken; w_clock : Time }.

(** The world one second later. *)
Definition later (l : RateLimit.AuthRateLimiter) (m : gmap string agentCallbackToken) (w : world) : world :=
  {| w_lim := l; w_tokens := m; w_clock := w_clock w + Second |}.

(** Every call takes a second; the table is swept at each; no agent token is valid; what
    the rest answers is as in the examples of AccountAccess. *)
Definition world_env : environment op world := fun B o w =>
  let rest := cleanupExpiredAgentCallbackTokens (w_clock w + Second) in
  match o in op A return A * world with
  | IsBlocked ip key => ((RateLimit.IsBlocked (w_lim w) ip key (w_clock w)).1, later (w_lim w) (rest (w_tokens w)) w)
  | RecordFailure ip key =>
      let '(l, out) := RateLimit.RecordFailure (w_lim w) ip key (w_clock w) in (out, later l (rest (w_tokens w)) w)
  | RecordSuccess ip key => (tt, later (RateLimit.RecordSuccess (w_lim w) ip key) (rest (w_tokens w)) w)
  | PutCallback t act => (tt, later (w_lim w) (<[t := act]> (rest (w_tokens w))) w)
  | TakeCallback t => (w_tokens w !! t, later (w_lim w) (delete t (rest (w_tokens w))) w)
  | Now => (w_clock w, later (w_lim w) (rest (w_tokens w)) w)
  | GetAgentByToken _ => (Err NoRows, later (w_lim w) (rest (w_tokens w)) w)
  | o' => ((demo_env (demo_user 7 "viewer" ["t1"]) "/" _ o' tt).1, later (w_lim w) (rest (w_tokens w)) w)
  end.

Lemma world_clock B (o : op B) w : w_clock (world_env B o w).2 = w_clock w + Second.
Proof. destruct o; cbn; try done. by destruct (RateLimit.RecordFailure _ _ _ _). Qed.

Lemma world_lim B (o : op B) w : asks_limiter o = false -> w_lim (world_env B o w).2 = w_lim w.
Proof. by destruct o. Qed.

#[export] Instance world_limits ip key : Limits world_env w_lim w_clock ip key.
Proof.
  split.
  - intros B o w. rewrite world_clock. unfold Second. lia.
  - by intros w.
  - intros w. cbn. by destruct (RateLimit.RecordFailure _ _ _ _).
  - intros B o w Ho. unfold same_client. by rewrite world_lim.
Qed.

#[export] Instance world_table : CallbackTable world_env w_tokens w_clock.
Proof.
  split.
  - intros B o w. rewrite world_clock. unfold Second. lia.
  - intros w. cbn. unfold Second. lia.
  - intros t act w. cbn. by rewrite lookup_insert_eq.
  - intros t w. cbn. split; [by left | by rewrite lookup_delete_eq].
  - intros B o w t Ho. rewrite world_clock.
    assert (Hrest : w_tokens (world_env B o w).2 !! t
      = cleanupExpiredAgentCallbackTokens (w_clock w + Second) (w_tokens w) !! t).
    { destruct o; cbn; try done.
      - by destruct (RateLimit.RecordFailure _ _ _ _).
      - cbn in Ho. apply String.eqb_neq in Ho. by rewrite lookup_insert_ne.
      - cbn in Ho. apply String.eqb_neq in Ho. by rewrite lookup_delete_ne. }
    rewrite Hrest. apply sweep_keeps.
Qed.

Definition demo_world : world :=
  {| w_lim := RateLimit.NewAuthRateLimiter 2 (5 * Minute) (2 * Minute); w_tokens := ∅; w_clock := 0 |}.

Definition guess_request (token : string) : request :=
  {| Method := GET; Path := "/api/v1/agents/heartbeat"; RequestURI := ""; Query := ∅; Body := no_body; Host := "";
     TLS := true; Authorization := ("Bearer " +:+ token)%string; SessionCookie := None; TenantCookie := None;
     ForwardedProto := ""; ForwardedHost := ""; UserAgent := ""; clientIP := "10.0.0.9"; principal := None |}.

Definition guess_connection (token : string) : request :=
  {| Method := GET; Path := "/api/v1/agents/ws"; RequestURI := ""; Query := {["token" := token]}; Body := no_body; Host := "";
     TLS := true; Authorization := ""; SessionCookie := None; TenantCookie := None;
     ForwardedProto := ""; ForwardedHost := ""; UserAgent := ""; clientIP := "10.0.0.9"; principal := None |}.

Definition demo_guesses : list attempt :=
  [ByHeader (guess_request "abcdefgh1"); BySocket (guess_connection "abcdefgh2"); BySocket (guess_connection "abcdefgh3");
   ByHeader (guess_request "abcdefgh4")].


Definition demo_callback : agentCallbackToken :=
  {| Callback_Token := "rnd"; Callback_UserID := 7; Callback_Username := "u"; Callback_Role := "viewer";
     Callback_TenantID := ""; Callback_TenantIDs := ["t1"]; Callback_AgentID := "a1"; CallbackURL := "http://localhost/cb";
     Callback_ExpiresAt := 301 * Second; Callback_CreatedAt := 1 * Second |}.

Lemma callback_token_once_witness :
  let gen := generateAgentCallbackToken (demo_user 7 "viewer" ["t1"]) "a1" "http://localhost/cb" in
  let made := after world_env gen demo_world in
  outcome world_env gen demo_world = Some demo_callback /\
  outcome world_env (validateAgentCallbackToken "rnd") made = Some demo_callback /\
  outcome world_env (validateAgentCallbackToken "rnd") (after world_env (validateAgentCallbackToken "rnd") made) = None.
Proof.
  assert (Hact : outcome world_env (generateAgentCallbackToken (demo_user 7 "viewer" ["t1"]) "a1" "http://localhost/cb")
    demo_world = Some demo_callback) by (vm_compute; reflexivity).
  split; [exact Hact|].
  destruct (callback_token_once world_env w_tokens w_clock (mret tt) (mret tt) _ _ _ _ _ Hact
    ltac:(intros e He; by inversion He) ltac:(intros e He; by inversion He)) as (_ & Hin & Hout).
  split; [|exact Hout]. apply Hin. vm_compute. discriminate.
Defined.
