(* ===== verification/AccountUsers.v ===== *)
(** * What the account handlers write is well formed.

    Roles are among the three declared ones, the tenants of a user are sorted, distinct
    and not blank and the first is the primary one, and providers have a usable slug and
    credentials, provided that what the store reads back was. *)
From S2P Require Import Prelude GoStrings GoTime GoUrl Effects Programs Authz OverrideMap AuditLog AccountCalls Sessions Users Sso AccountAccess.
From stdpp Require Import sorting.

Definition role_ok (role : string) : Prop := role ∈ [RoleAdmin; RoleOperator; RoleViewer].

Definition tenants_ok (ids : list string) (primary : string) : Prop :=
  Sorted str_le ids /\ NoDup ids /\ "" ∉ ids /\ (ids = [] \/ head ids = Some primary).

Definition user_ok (u : User) : Prop := role_ok (User_Role u) /\ tenants_ok (User_TenantIDs u) (User_TenantID u).

Definition provider_ok (p : OIDCProvider) : Prop :=
  role_ok (DefaultRole p) /\ slug_ok (Slug p) = true /\ Issuer p <> "" /\ ClientID p <> "" /\ ClientSecret p <> "".

(** What the store answered. *)
Definition answer_ok (e : event op) : Prop :=
  match e with Did o a =>
    match o in op A return A -> Prop with
    | GetUserByID _ => fun a => forall u, a = Ok u -> user_ok u
    | GetUserInvitation _ => fun a => forall inv, a = Ok inv -> role_ok (Inv_Role inv)
    | GetOIDCProvider _ => fun a => forall p, a = Ok p -> provider_ok p
    | _ => fun _ => True
    end a
  end.

(** What a call writes. *)
Definition write_ok (e : event op) : Prop :=
  match e with Did o _ =>
    match o with
    | CreateUser u _ | UpdateUser u => user_ok u
    | CreateUserInvitation inv _ => role_ok (Inv_Role inv)
    | CreateOIDCProvider p | UpdateOIDCProvider p => provider_ok p
    | _ => True
    end
  end.

Section Normal.
Context `{GoUnicode}.

Lemma NormalizeRole_ok s : role_ok (NormalizeRole s).
Proof.
  unfold NormalizeRole, role_ok. repeat case_match; apply (bool_decide_unpack _); vm_compute; exact I.
Qed.

#[export] Instance str_le_total : Total str_le.
Proof. intros s t. apply String.leb_total. Qed.

Lemma SortTenantIDs_ok ids : tenants_ok (SortTenantIDs ids) (default "" (head (SortTenantIDs ids))).
Proof.
  unfold tenants_ok. split_and!.
  - unfold SortTenantIDs, sort_strings. apply Sorted_merge_sort, _.
  - unfold SortTenantIDs, sort_strings. rewrite merge_sort_Permutation. apply distinct_ids_NoDup.
  - rewrite elem_of_SortTenantIDs. tauto.
  - destruct (SortTenantIDs ids); [by left | by right].
Qed.

Lemma nil_tenants_ok primary : tenants_ok [] primary.
Proof. split_and!; [constructor | constructor | apply not_elem_of_nil | by left]. Qed.

Lemma one_tenant_ok t : t <> "" -> tenants_ok [t] t.
Proof.
  intros Ht. split_and!; [by repeat constructor | apply NoDup_singleton | | by right].
  intros Hin%list_elem_of_singleton. congruence.
Qed.

Lemma requested_tenants_ok ids id :
  tenants_ok (requested_tenants ids id) (default "" (head (requested_tenants ids id))).
Proof.
  unfold requested_tenants. destruct (Nat.eqb _ 0); [|apply SortTenantIDs_ok].
  destruct (String.eqb_spec (TrimSpace id) ""); [apply nil_tenants_ok | by apply one_tenant_ok].
Qed.

Lemma new_user_ok i : user_ok (new_user i).
Proof. split; [apply NormalizeRole_ok | apply requested_tenants_ok]. Qed.

Lemma edited_user_ok u i : user_ok u -> user_ok (edited_user u i).
Proof.
  intros [Hr _]. split; cbn [edited_user User_Role User_TenantIDs User_TenantID].
  - destruct (String.eqb _ ""); [done | apply NormalizeRole_ok].
  - destruct (negb _); [apply SortTenantIDs_ok|].
    destruct (String.eqb_spec (TrimSpace (new_TenantID i)) ""); [apply nil_tenants_ok | by apply one_tenant_ok].
Qed.

Lemma provisioned_user_ok p name email : user_ok (provisioned_user p name email).
Proof.
  split; cbn [provisioned_user User_Role User_TenantIDs User_TenantID].
  - unfold provision_role, role_ok.
    destruct (String.eqb_spec (DefaultRole p) RoleAdmin) as [->|]; [by left|].
    destruct (String.eqb_spec (DefaultRole p) RoleOperator) as [->|]; [by right; left | by right; right; left].
  - destruct (String.eqb_spec (Provider_TenantID p) ""); [apply nil_tenants_ok | by apply one_tenant_ok].
Qed.

Lemma kept_nonblank existing old value x :
  kept existing old value = Some x -> (forall p, existing = Some p -> old p <> "") -> x <> "".
Proof.
  unfold kept. intros Hk Hold. destruct (String.eqb_spec value ""); simpl in Hk; [|by injection Hk as <-].
  destruct existing as [p|]; [|done]. injection Hk as <-. by apply Hold.
Qed.

Lemma buildProviderFromPayload_ok range p existing slug q :
  (forall p, existing = Some p -> provider_ok p) ->
  buildProviderFromPayload range p existing slug = Ok q -> provider_ok q.
Proof.
  intros He. unfold buildProviderFromPayload.
  destruct (slug_ok _) eqn:Hs; simpl; [|done]. destruct (String.eqb _ ""); [done|].
  destruct (kept existing Issuer _) eqn:H1; [|done]. destruct (kept existing ClientID _) eqn:H2; [|done].
  destruct (kept existing ClientSecret _) eqn:H3; [|done]. intros [= <-].
  split_and!; cbn; [apply NormalizeRole_ok | done | ..].
  all: eapply kept_nonblank; [eassumption|]; intros q Hq; by destruct (He q Hq) as (? & ? & ? & ? & ?).
Qed.
End Normal.

(** ** The handlers *)

Section Writes.
Context `{GoUnicode} (cfg : Config) (range : gset string -> list string).
Context (AuthCodeURL : oauthConfig -> string -> string -> string).
Context (token_hash : string -> string) (parseInt : string -> option Z).

Definition writes_ok (h : list (event op)) (e : event op) : Prop := Forall answer_ok h -> write_ok e.
Notation runs h m := (wp writes_ok h m (fun _ _ => True)).

(** What an answer in the history says. *)
Lemma answered_ok h e : Forall answer_ok h -> e ∈ h -> answer_ok e.
Proof. rewrite Forall_forall. auto. Qed.

Lemma wp_limited' {A} h (absent : A) (o : op A) (Q : list (event op) -> A -> Prop) :
  (forall a, write_ok (Did o a)) -> (forall h' a, h `prefix_of` h' -> Q h' a) ->
  wp writes_ok h (limited cfg absent o) Q.
Proof.
  intros HP HQ. unfold limited. destruct (has_limiter cfg).
  - apply wp_ask. intros a. split; [by intros _ | by apply HQ, prefix_app_r].
  - by apply wp_ret, HQ.
Qed.

Ltac write_step :=
  first
  [ wp_step
  | match goal with
    | |- wp _ _ (limited _ _ _ ≫= _) _ => apply wp_bind, wp_limited'; [done | intros ? ? ?]
    | |- wp _ _ (authorized _ _ _ _) _ => unfold authorized
    | |- True => exact I
    | |- writes_ok _ _ => intros ?; cbn [write_ok]
    end ].

(** An answer that the history has. *)
Ltac known o :=
  match goal with
  | Hh : Forall answer_ok ?h |- _ =>
      let Ha := fresh in
      assert (Ha : answer_ok o) by (apply (answered_ok h); [exact Hh | in_history]); cbn [answer_ok] in Ha
  end.
Ltac writes := unfold logAuditEntry; repeat write_step; subst; eauto using new_user_ok, provisioned_user_ok.

Lemma wp_provision' h p username email i n : runs h (provision p username email i n).
Proof. revert h i. induction n as [|n IH]; intros h i; cbn [provision]; writes. Qed.

Lemma wp_resolveOIDCUser' h p c : runs h (resolveOIDCUser p c).
Proof.
  assert (Hnew : forall h email, runs h (newUser p c email)).
  { intros h' email. unfold newUser. eapply wp_seq; [apply wp_provision'|]. intros h2 [u|] _ _; writes. }
  unfold resolveOIDCUser, userByEmail. writes.
Qed.

Lemma completeLogin_writes h r sess code : runs h (completeLogin cfg r sess code).
Proof.
  unfold completeLogin, cachedOIDCProvider, identify. repeat write_step.
  all: eapply wp_seq; [apply wp_resolveOIDCUser'|]; intros ? [u|] _ _; [|done].
  all: unfold signIn, createSessionCookie, finishRedirect, generateAgentCallbackToken; writes.
Qed.

Lemma requireWebAuth_writes h next r :
  (forall h' r', runs h' (next r')) -> runs h (requireWebAuth next r).
Proof. intros Hn. unfold requireWebAuth, loadUserForSessionToken. writes. Qed.

Lemma handleUser_writes h r : runs h (handleUser cfg parseInt r).
Proof.
  unfold handleUser, getUser, deleteUser, updateUser, found_user, rotatePassword. writes.
  all: match goal with |- user_ok (edited_user ?u _) => apply edited_user_ok end.
  all: match goal with Hh : Forall answer_ok (?g ++ [?e]) |- _ => known e end; eauto.
Qed.

Lemma providers_writes h r : runs h (handleOIDCProviders range r).
Proof.
  unfold handleOIDCProviders, createProvider. writes.
  eapply buildProviderFromPayload_ok; [|eassumption]. done.
Qed.

Lemma provider_writes h r : runs h (handleOIDCProvider range r).
Proof.
  unfold handleOIDCProvider, updateProvider, deleteProvider. writes.
  eapply buildProviderFromPayload_ok; [|eassumption].
  match goal with Hh : Forall answer_ok (?g ++ [?e]) |- _ => known e end. intros q [= <-]; eauto.
Qed.

Lemma invite_writes h r : runs h (handleUserInvite r).
Proof. unfold handleUserInvite, invite, sendInvite, tenant_name. writes. apply NormalizeRole_ok. Qed.

Lemma accept_writes h r : runs h (handleInviteAccept r).
Proof.
  unfold handleInviteAccept, acceptInvite. writes.
  match goal with |- user_ok (invited_user ?inv _ _) => split; [|apply nil_tenants_ok];
    known (Did (GetUserInvitation (accept_Token a)) (Ok inv)) end. cbn. eauto.
Qed.

Lemma serve_writes ep h r : runs h (serve cfg range AuthCodeURL token_hash parseInt ep r).
Proof.
  destruct ep; cbn [serve]; try (apply requireWebAuth_writes; clear h r; intros h r);
    auto using handleUser_writes, providers_writes, provider_writes, invite_writes, accept_writes.
  - unfold handleAuthLogin, login, createSessionCookie. writes.
  - unfold handleAuthOptions, resolveTenantForAuthRequest, first_hint, ensureName, resolveTenantByHintValue. writes.
  - unfold handleTenantLookup, resolveTenantByHintValue. writes.
  - unfold handleAuthLogout. writes.
  - unfold handleAuthMe. writes.
  - unfold handleAgentAuthCallback, createCallback, generateAgentCallbackToken. writes.
  - unfold handleAgentAuthCallbackValidate, validateAgentCallbackToken. writes.
  - unfold handleUsers, listUsers, createUser. writes.
  - unfold handleInviteValidate, tenant_name. writes.
  - unfold handlePasswordPolicy. writes.
  - unfold handleListSessions. writes.
  - unfold handleDeleteSession. writes.
  - unfold handlePasswordResetRequest, requestReset. writes.
  - unfold handlePasswordResetConfirm. writes.
  - unfold handleOIDCStart, startLogin, cachedOIDCProvider. writes.
  - unfold handleOIDCCallback. repeat write_step. eapply wp_seq; [apply completeLogin_writes|]. intros h' res _ _. writes.
Qed.

(** C16: What the account routes write is well formed if what they read is: when every
    user, invitation and provider that the store answers in a request has a declared role
    and, for a user, sorted, distinct tenants of which the first is the primary one, every
    user, invitation and provider that the request writes has, and a provider has a slug
    of the required form and all its credentials. *)
Theorem written_accounts_ok {W} (env : environment op W) ep r w e :
  let h := history env (serve cfg range AuthCodeURL token_hash parseInt ep r) w in
  Forall answer_ok h -> e ∈ h -> write_ok e.
Proof.
  intros h Hh He.
  destruct (wp_call writes_ok env (serve cfg range AuthCodeURL token_hash parseInt ep r) (fun _ _ => True) w e)
    as (before & rest & Hs & Hw); [apply serve_writes | done |].
  apply Hw. fold h in Hs. rewrite Hs in Hh. by apply Forall_app in Hh as [? _].
Qed.
End Writes.

(** An administrator makes a viewer. *)
Lemma written_accounts_ok_witness :
  let h := history (demo_env (demo_user 7 "admin" []) "/") (demo_serve UserByID (edit_request " Viewer " "")) tt in
  Forall answer_ok h /\ exists u a, Did (UpdateUser u) a ∈ h /\ User_Role u = "viewer" /\ write_ok (Did (UpdateUser u) a).
Proof.
  assert (Hh : Forall answer_ok
    (history (demo_env (demo_user 7 "admin" []) "/") (demo_serve UserByID (edit_request " Viewer " "")) tt)).
  { assert (Hu : user_ok (demo_user 7 "admin" [])) by (split; [by left | apply nil_tenants_ok]).
    match goal with |- Forall _ ?h => let h' := eval vm_compute in h in change (Forall answer_ok h') end.
    repeat (apply Forall_nil_2 || apply Forall_cons_2); cbn [answer_ok]; try exact I; intros u [= <-]; exact Hu. }
  split; [exact Hh|].
  assert (He : Did (UpdateUser (edited_user (demo_user 7 "admin" []) {| new_Username := ""; new_Password := "";
      new_Role := " Viewer "; new_TenantID := ""; new_TenantIDs := []; new_Email := "" |})) None
    ∈ history (demo_env (demo_user 7 "admin" []) "/") (demo_serve UserByID (edit_request " Viewer " "")) tt).
  { vm_compute. do 3 right. left. }
  eexists _, _. split; [exact He|]. split; [reflexivity|].
  exact (written_accounts_ok demo_config elements (fun _ s _ => s) (fun t => t) (fun _ => Some 7%Z) _ _ _ tt _ Hh He).
Defined.
