(* ===== verification/GoText.v ===== *)
(** * More of Go's text functions: [strings.ReplaceAll], the package [path],
    [html.EscapeString], [encoding/base64] and the canonical names of headers. *)
From S2P Require Import Prelude GoStrings.
From Stdlib Require Import Ascii.

(** ** [strings.ReplaceAll] of a non-empty text *)

(** [skip] counts the bytes of the last match that are still to be passed over. *)
Fixpoint replace_go (skip : nat) (old new s : string) : string :=
  match s with
  | EmptyString => EmptyString
  | String c s' =>
      match skip with
      | S k => replace_go k old new s'
      | O => if HasPrefix s old
             then (new +:+ replace_go (String.length old - 1) old new s')%string
             else String c (replace_go 0 old new s')
      end
  end.
Definition ReplaceAll (s old new : string) : string := replace_go 0 old new s.

(** ** [path] *)

(** The elements kept, last first. *)
Fixpoint clean_go (rooted : bool) (stack parts : list string) : list string :=
  match parts with
  | [] => stack
  | p :: rest =>
      if String.eqb p "" || String.eqb p "." then clean_go rooted stack rest
      else if String.eqb p ".." then
        match stack with
        | [] => clean_go rooted (if rooted then [] else [".."]) rest
        | top :: below => if String.eqb top ".." then clean_go rooted (".." :: stack) rest
                          else clean_go rooted below rest
        end
      else clean_go rooted (p :: stack) rest
  end.

Definition Clean (p : string) : string :=
  let rooted := HasPrefix p "/" in
  let elements := rev (clean_go rooted [] (Split p "/")) in
  if rooted then ("/" +:+ Join elements "/")%string
  else match elements with [] => "." | _ => Join elements "/" end.

Definition path_join (a b : string) : string :=
  match a, b with
  | "", "" => ""
  | "", _ => Clean b
  | _, "" => Clean a
  | _, _ => Clean (a +:+ "/" +:+ b)
  end%string.

(** What precedes the last slash, with it. *)
Definition dir_part (p : string) : string :=
  match LastIndexByte p "/" with Some i => stake (S i) p | None => "" end.
Definition path_dir (p : string) : string := Clean (dir_part p).

(** From the last dot of the last element. *)
Definition path_ext (p : string) : string :=
  let last := match LastIndexByte p "/" with Some i => sdrop (S i) p | None => p end in
  match LastIndexByte last "." with Some i => sdrop i last | None => "" end.

(** ** [html.EscapeString] *)

Definition escape_html (c : ascii) : string :=
  if Ascii.eqb c "&" then "&amp;"
  else if Ascii.eqb c "'" then "&#39;"
  else if Ascii.eqb c "<" then "&lt;"
  else if Ascii.eqb c ">" then "&gt;"
  else if Ascii.eqb c "034" then "&#34;"
  else String c "".

Fixpoint EscapeString (s : string) : string :=
  match s with EmptyString => EmptyString | String c s' => (escape_html c +:+ EscapeString s')%string end.

(** ** [base64.StdEncoding] *)

Definition b64_digit (z : Z) : ascii :=
  if z <? 26 then chr (65 + z) else if z <? 52 then chr (71 + z) else if z <? 62 then chr (z - 4)
  else if z =? 62 then "+" else "/".

Definition b64_value (c : ascii) : option Z :=
  let b := byte_of c in
  if (65 <=? b) && (b <=? 90) then Some (b - 65)
  else if (97 <=? b) && (b <=? 122) then Some (b - 71)
  else if (48 <=? b) && (b <=? 57) then Some (b + 4)
  else if b =? 43 then Some 62 else if b =? 47 then Some 63 else None.

Fixpoint EncodeToString (s : string) : string :=
  match s with
  | String a (String b (String c s')) =>
      let n := byte_of a * 65536 + byte_of b * 256 + byte_of c in
      String (b64_digit (n / 262144)) (String (b64_digit (n / 4096 mod 64))
        (String (b64_digit (n / 64 mod 64)) (String (b64_digit (n mod 64)) (EncodeToString s'))))
  | String a (String b EmptyString) =>
      let n := byte_of a * 65536 + byte_of b * 256 in
      String (b64_digit (n / 262144)) (String (b64_digit (n / 4096 mod 64))
        (String (b64_digit (n / 64 mod 64)) "="))
  | String a EmptyString =>
      let n := byte_of a * 65536 in
      String (b64_digit (n / 262144)) (String (b64_digit (n / 4096 mod 64)) "==")
  | EmptyString => EmptyString
  end.

Fixpoint without_newlines (s : string) : string :=
  match s with
  | EmptyString => EmptyString
  | String c s' => if Ascii.eqb c "010" || Ascii.eqb c "013" then without_newlines s' else String c (without_newlines s')
  end.

(** Groups of four; padding only at the end. *)
Fixpoint decode_go (s : string) : option string :=
  match s with
  | EmptyString => Some EmptyString
  | String a (String b (String c (String d s'))) =>
      match b64_value a, b64_value b with
      | Some x, Some y =>
          if Ascii.eqb c "=" then
            if Ascii.eqb d "=" && String.eqb s' "" then Some (String (chr (x * 4 + y / 16)) "") else None
          else
            match b64_value c with
            | None => None
            | Some z =>
                if Ascii.eqb d "=" then
                  if String.eqb s' "" then Some (String (chr (x * 4 + y / 16)) (String (chr (y mod 16 * 16 + z / 4)) "")) else None
                else
                  match b64_value d with
                  | None => None
                  | Some w =>
                      t ← decode_go s';
                      Some (String (chr (x * 4 + y / 16)) (String (chr (y mod 16 * 16 + z / 4)) (String (chr (z mod 4 * 64 + w)) t)))
                  end
            end
      | _, _ => None
      end
  | _ => None
  end.
Definition DecodeString (s : string) : option string := decode_go (without_newlines s).

(** ** Names of headers *)

(** The bytes of a token of RFC 7230. *)
Definition token_byte (c : ascii) : bool :=
  let b := byte_of c in
  (48 <=? b) && (b <=? 57) || (65 <=? b) && (b <=? 90) || (97 <=? b) && (b <=? 122)
  || existsb (Ascii.eqb c) ["!"; "#"; "$"; "%"; "&"; "'"; "*"; "+"; "-"; "."; "^"; "_"; "`"; "|"; "~"]%char.

Fixpoint canonical_go (upper : bool) (s : string) : string :=
  match s with
  | EmptyString => EmptyString
  | String c s' =>
      String (if upper then upper_byte c else lower_byte c) (canonical_go (Ascii.eqb c "-") s')
  end.
Definition CanonicalHeaderKey (s : string) : string :=
  if all_bytes token_byte s then canonical_go true s else s.

(** [http.Header] with one value for each name. *)
Notation headers := (list (string * string)).
Definition hDel (k : string) (h : headers) : headers :=
  filter (fun kv => kv.1 <> CanonicalHeaderKey k) h.
Definition hSet (k v : string) (h : headers) : headers := hDel k h ++ [(CanonicalHeaderKey k, v)].
Definition hGet (k : string) (h : headers) : string :=
  match list_find (fun kv => kv.1 = CanonicalHeaderKey k) h with Some (_, kv) => kv.2 | None => "" end.

Example clean_parent : Clean "/a/b/../../../c/./d//" = "/c/d". Proof. reflexivity. Qed.
Example encode_text : EncodeToString "Hello" = "SGVsbG8=". Proof. reflexivity. Qed.
Example decode_text : DecodeString "SGVsbG8=" = Some "Hello". Proof. reflexivity. Qed.
Example canonical_key : CanonicalHeaderKey "x-printmaster-agent-ID" = "X-Printmaster-Agent-Id". Proof. reflexivity. Qed.

(** ** Base64, decoded again *)

Lemma b64_digit_ok z :
  0 <= z < 64 ->
  b64_value (b64_digit z) = Some z /\ Ascii.eqb (b64_digit z) "=" = false
  /\ Ascii.eqb (b64_digit z) "010" = false /\ Ascii.eqb (b64_digit z) "013" = false /\ byte_of (b64_digit z) <? 128 = true.
Proof.
  intros Hz.
  assert (Hall : forallb (fun z => bool_decide (b64_value (b64_digit z) = Some z) && negb (Ascii.eqb (b64_digit z) "=")
    && negb (Ascii.eqb (b64_digit z) "010") && negb (Ascii.eqb (b64_digit z) "013") && (byte_of (b64_digit z) <? 128))
    (map Z.of_nat (List.seq 0 64)) = true) by (vm_compute; reflexivity).
  rewrite forallb_forall in Hall. specialize (Hall z).
  rewrite !andb_true_iff, !negb_true_iff, bool_decide_eq_true in Hall. destruct Hall as [[[[? ?] ?] ?] ?]; [|done].
  apply in_map_iff. exists (Z.to_nat z). split; [lia|]. apply in_seq. lia.
Qed.

Lemma string_ind3 (P : string -> Prop) :
  P "" -> (forall a, P (String a "")) -> (forall a b, P (String a (String b ""))) ->
  (forall a b c s, P s -> P (String a (String b (String c s)))) -> forall s, P s.
Proof.
  intros H0 H1 H2 H3. assert (Hall : forall n s, (String.length s <= n)%nat -> P s).
  { induction n as [|n IH]; intros [|a [|b [|c s]]] Hn; try done; cbn in Hn; try lia. apply H3, IH. lia. }
  intros s. by apply (Hall (String.length s)).
Qed.

(** The bytes that four digits hold. *)
Lemma three_bytes a b c :
  0 <= a < 256 -> 0 <= b < 256 -> 0 <= c < 256 ->
  let n := a * 65536 + b * 256 + c in
  let x := n / 262144 in let y := n / 4096 mod 64 in let z := n / 64 mod 64 in let w := n mod 64 in
  (0 <= x < 64 /\ 0 <= y < 64 /\ 0 <= z < 64 /\ 0 <= w < 64)
  /\ x * 4 + y / 16 = a /\ y mod 16 * 16 + z / 4 = b /\ z mod 4 * 64 + w = c.
Proof. intros Ha Hb Hc. cbn zeta. Z.to_euclidean_division_equations. lia. Qed.

(** What is encoded is decoded again, and the encoded text has only ASCII bytes. *)
Lemma Encode_Decode s :
  DecodeString (EncodeToString s) = Some s /\ is_ascii (EncodeToString s) = true.
Proof.
  assert (Hnl : forall z, 0 <= z < 64 -> forall r, without_newlines (String (b64_digit z) r) = String (b64_digit z) (without_newlines r)).
  { intros z Hz r. destruct (b64_digit_ok z Hz) as (_ & _ & H1 & H2 & _). cbn. by rewrite H1, H2. }
  unfold DecodeString. induction s as [|a|a b|a b c s [IH IHa]] using string_ind3; [done|..].
  - destruct (three_bytes (byte_of a) 0 0) as ((Hx & Hy & Hz & Hw) & E1 & E2 & E3); [apply byte_of_range|done..|].
    rewrite !Z.add_0_r in *. cbn [EncodeToString].
    rewrite !Hnl by done. 
    destruct (b64_digit_ok _ Hx) as (V1 & _ & _ & _ & A1), (b64_digit_ok _ Hy) as (V2 & _ & _ & _ & A2).
    cbn. rewrite V1, V2, A1, A2. cbn. by rewrite E1, chr_byte_of.
  - destruct (three_bytes (byte_of a) (byte_of b) 0) as ((Hx & Hy & Hz & Hw) & E1 & E2 & E3); [apply byte_of_range..|done|].
    rewrite !Z.add_0_r in *. cbn [EncodeToString].
    rewrite !Hnl by done.
    destruct (b64_digit_ok _ Hx) as (V1 & _ & _ & _ & A1), (b64_digit_ok _ Hy) as (V2 & _ & _ & _ & A2),
      (b64_digit_ok _ Hz) as (V3 & N3 & _ & _ & A3).
    cbn. rewrite V1, V2, V3, N3, A1, A2, A3. cbn. by rewrite E1, E2, !chr_byte_of.
  - destruct (three_bytes (byte_of a) (byte_of b) (byte_of c)) as ((Hx & Hy & Hz & Hw) & E1 & E2 & E3); [apply byte_of_range..|].
    cbn [EncodeToString]. rewrite !Hnl by done.
    destruct (b64_digit_ok _ Hx) as (V1 & _ & _ & _ & A1), (b64_digit_ok _ Hy) as (V2 & _ & _ & _ & A2),
      (b64_digit_ok _ Hz) as (V3 & N3 & _ & _ & A3), (b64_digit_ok _ Hw) as (V4 & N4 & _ & _ & A4).
    cbn [decode_go is_ascii]. rewrite V1, V2, V3, V4, N3, N4, A1, A2, A3, A4, IH. cbn. by rewrite E1, E2, E3, !chr_byte_of.
Qed.
