(* ===== verification/FleetCalls.v ===== *)
(** * Agents, devices and the calls of the fleet handlers ([server/main.go],
    [server/websocket.go], [server/storage/types.go], [common/storage/types.go]).

    The handlers are programs over these calls (Programs). A request is one of
    AccountCalls with what these handlers read besides: the agent that the token
    middleware found, the decoded bodies, the headers. *)
From S2P Require Import Prelude GoStrings GoTime GoNet GoFloat GoText Effects Programs Authz AuditLog AccountCalls.
From Stdlib Require Import Ascii.

(** ** Data *)

Record Agent := {
  Agent_RowID : Z;
  Agent_ID : string;
  Agent_Name : string;
  Agent_Hostname : string;
  Agent_IP : string;
  Agent_Platform : string;
  Agent_Version : string;
  Agent_ProtocolVersion : string;
  Agent_Token : string;
  Agent_RegisteredAt : Time;
  Agent_LastSeen : Time;
  Agent_Status : string;
  Agent_OSVersion : string;
  Agent_GoVersion : string;
  Agent_Architecture : string;
  Agent_NumCPU : Z;
  Agent_TotalMemoryMB : Z;
  Agent_BuildType : string;
  Agent_GitCommit : string;
  Agent_LastHeartbeat : Time;
  Agent_DeviceCount : Z;
  Agent_LastDeviceSync : Time;
  Agent_LastMetricsSync : Time;
  Agent_TenantID : string;
  Agent_SiteIDs : list string;
}.

(** [agent.DeviceCount = n] and [agent.Token = ""] *)
Definition with_view (n : Z) (token : string) (a : Agent) : Agent :=
  {| Agent_RowID := Agent_RowID a; Agent_ID := Agent_ID a; Agent_Name := Agent_Name a; Agent_Hostname := Agent_Hostname a;
     Agent_IP := Agent_IP a; Agent_Platform := Agent_Platform a; Agent_Version := Agent_Version a;
     Agent_ProtocolVersion := Agent_ProtocolVersion a; Agent_Token := token; Agent_RegisteredAt := Agent_RegisteredAt a;
     Agent_LastSeen := Agent_LastSeen a; Agent_Status := Agent_Status a; Agent_OSVersion := Agent_OSVersion a;
     Agent_GoVersion := Agent_GoVersion a; Agent_Architecture := Agent_Architecture a; Agent_NumCPU := Agent_NumCPU a;
     Agent_TotalMemoryMB := Agent_TotalMemoryMB a; Agent_BuildType := Agent_BuildType a;
     Agent_GitCommit := Agent_GitCommit a; Agent_LastHeartbeat := Agent_LastHeartbeat a; Agent_DeviceCount := n;
     Agent_LastDeviceSync := Agent_LastDeviceSync a; Agent_LastMetricsSync := Agent_LastMetricsSync a;
     Agent_TenantID := Agent_TenantID a; Agent_SiteIDs := Agent_SiteIDs a |}.
Definition without_token (a : Agent) : Agent := with_view (Agent_DeviceCount a) "" a.

Record HeartbeatData := {
  hb_Status : string;
  hb_Version : string;
  hb_ProtocolVersion : string;
  hb_Hostname : string;
  hb_IP : string;
  hb_Platform : string;
  hb_OSVersion : string;
  hb_GoVersion : string;
  hb_Architecture : string;
  hb_BuildType : string;
  hb_GitCommit : string;
  hb_DeviceCount : Z;
}.

Definition has_metadata (h : HeartbeatData) : bool :=
  existsb (fun s => negb (String.eqb s ""))
    [hb_Version h; hb_ProtocolVersion h; hb_Hostname h; hb_IP h; hb_Platform h; hb_OSVersion h; hb_GoVersion h;
     hb_Architecture h; hb_BuildType h; hb_GitCommit h].

(** [BuildAgentUpdate] at the time [now]. *)
Definition BuildAgentUpdate (now : Time) (h : HeartbeatData) (agentID : string) : option Agent :=
  if negb (has_metadata h) then None
  else Some {|
    Agent_RowID := 0; Agent_ID := agentID; Agent_Name := ""; Agent_Hostname := hb_Hostname h; Agent_IP := hb_IP h;
    Agent_Platform := hb_Platform h; Agent_Version := hb_Version h; Agent_ProtocolVersion := hb_ProtocolVersion h;
    Agent_Token := ""; Agent_RegisteredAt := zero_time; Agent_LastSeen := now;
    Agent_Status := if String.eqb (hb_Status h) "" then "active" else hb_Status h;
    Agent_OSVersion := hb_OSVersion h; Agent_GoVersion := hb_GoVersion h; Agent_Architecture := hb_Architecture h;
    Agent_NumCPU := 0; Agent_TotalMemoryMB := 0; Agent_BuildType := hb_BuildType h; Agent_GitCommit := hb_GitCommit h;
    Agent_LastHeartbeat := now; Agent_DeviceCount := hb_DeviceCount h; Agent_LastDeviceSync := zero_time;
    Agent_LastMetricsSync := zero_time; Agent_TenantID := ""; Agent_SiteIDs := [] |}.

(** A device of the server: the shared structure and the agent that found it. *)
Record Device := {
  Serial : string;
  IP : string;
  Manufacturer : string;
  Model : string;
  Device_Hostname : string;
  Firmware : string;
  MACAddress : string;
  SubnetMask : string;
  Gateway : string;
  Consumables : list string;
  StatusMessages : list string;
  Device_LastSeen : Time;
  Device_CreatedAt : Time;
  FirstSeen : Time;
  DiscoveryMethod : string;
  AssetNumber : string;
  Device_Location : string;
  Description : string;
  WebUIURL : string;
  RawData : option fields;
  DeviceType : string;
  SourceType : string;
  IsUSB : bool;
  InitialPageCount : Z;
  PortName : string;
  DriverName : string;
  IsDefault : bool;
  IsShared : bool;
  SpoolerStatus : string;
  UsbWebUIAvailable : bool;
  Device_AgentID : string;
}.

Record MetricsSnapshot := {
  Metrics_ID : Z;
  Metrics_Serial : string;
  Metrics_AgentID : string;
  Metrics_Timestamp : Time;
  PageCount : Z;
  ColorPages : Z;
  MonoPages : Z;
  ScanCount : Z;
  FaxPages : Z;
  TonerLevels : fields;
  Tier : string;
}.

Record DeviceWithMetrics := {
  dm_Device : Device;
  dm_TonerLevels : fields;
  dm_PageCount : Z;
  dm_ColorPages : Z;
  dm_MonoPages : Z;
  dm_ScanCount : Z;
  dm_LastMetricsAt : option Time;
}.

Record DeviceCredentials := {
  Cred_Serial : string;
  Cred_Username : string;
  EncryptedPassword : string;
  AuthType : string;
  Cred_AutoLogin : bool;
  Cred_TenantID : string;
}.

(** What the dashboard reads of a site. *)
Record SiteInfo := { Site_ID : string; Site_Name : string; Site_Description : string; Site_Address : string }.

Record SeriesPoint := { Point_Timestamp : Time; Point_Value : Z }.
Record FleetHistory := {
  TotalImpressions : list SeriesPoint;
  MonoImpressions : list SeriesPoint;
  ColorImpressions : list SeriesPoint;
  ScanVolume : list SeriesPoint;
}.
Record FleetTotals := {
  Totals_Agents : Z;
  Totals_Devices : Z;
  Totals_PageCount : Z;
  Totals_ColorPages : Z;
  Totals_MonoPages : Z;
  Totals_ScanCount : Z;
}.
Record FleetStatuses := { Status_Error : Z; Status_Warning : Z; Status_Jam : Z }.
Record FleetConsumables := { Level_Critical : Z; Level_Low : Z; Level_Medium : Z; Level_High : Z; Level_Unknown : Z }.
Record FleetMetrics := {
  Fleet_Totals : FleetTotals;
  Fleet_Statuses : FleetStatuses;
  Fleet_Consumables : FleetConsumables;
  Fleet_History : FleetHistory;
}.
Record DatabaseStats := {
  Db_Agents : Z;
  Db_Devices : Z;
  Db_MetricsSnapshots : Z;
  Db_Sessions : Z;
  Db_Users : Z;
  Db_AuditEntries : Z;
  Db_ReleaseArtifacts : Z;
  Db_ReleaseBytes : Z;
  Db_SizeBytes : Z;
}.
Record MemoryStats := { HeapAlloc : Z; HeapSys : Z; StackInUse : Z; StackSys : Z; TotalAlloc : Z; Mem_Sys : Z }.
Record RuntimeStats := {
  Runtime_GoVersion : string;
  NumCPU : Z;
  NumGoroutine : Z;
  StartTime : Time;
  Memory : MemoryStats;
}.
Record ServerStats := {
  Stats_Hostname : string;
  UptimeSeconds : Z;
  Stats_GeneratedAt : Time;
  Stats_Runtime : RuntimeStats;
  Database : option DatabaseStats;
}.
Record AggregatedMetrics := {
  Agg_GeneratedAt : Time;
  RangeStart : Time;
  RangeEnd : Time;
  Agg_Fleet : FleetMetrics;
  Agg_Server : option ServerStats;
}.
Record ServerMetricsQuery := {
  Query_Start : Time;
  Query_End : Time;
  Resolution : string;
  Series : list string;
  MaxPoints : Z;
}.

(** [Message] of [common/ws]; its data may be nil. *)
Record Message := { Msg_Type : string; Msg_Data : option fields; Msg_Timestamp : Time }.
Definition msg_data (m : Message) : fields := default [] (Msg_Data m).

(** The part of a settings snapshot that is compared, and the rest. *)
Record Snapshot := { Snapshot_Version : string; Snapshot_Settings : fields }.

(** The bodies of the requests. *)
Record heartbeatBody := { hb_data : HeartbeatData; hb_SettingsVersion : string }.
Record commandBody := { cmd_Command : string; cmd_Data : option fields }.
Record credentialsBody := {
  cred_Serial : string;
  cred_Username : string;
  cred_Password : string;
  cred_AuthType : string;
  cred_AutoLogin : bool;
}.
Record deleteBody := {
  del_Serial : string;
  del_AgentID : string;
  del_DeleteMetrics : bool;
  del_DeleteFromAgent : bool;
}.
Record reportBody := { report_DeviceIP : string; report_DeviceSerial : string }.
(** Both uploads: the agent, the time and the items. *)
Record batchBody := { batch_AgentID : string; batch_Timestamp : Time; batch_Items : list fields }.

Record fbody := {
  as_heartbeat : option heartbeatBody;
  as_command : option commandBody;
  as_name : option string;
  as_credentials : option credentialsBody;
  as_serial : option string;
  as_report : option reportBody;
  as_delete : option deleteBody;
  as_batch : option batchBody;
  as_map : option fields;
}.

(** [MethodName] is the text of the method; [RawBody] is [None] when reading the body fails; [Headers] has the first value of each
    header; [preset] has the headers of the response that the middleware has set. *)
Record frequest := {
  base :> request;
  MethodName : string;
  RawQuery : string;
  Referer : string;
  Headers : headers;
  RawBody : option string;
  fleet_body : fbody;
  agent_of : option Agent;
  preset : headers;
}.

(** ** Responses *)

Record DashboardDeviceSummary := {
  sum_Serial : string;
  sum_Manufacturer : string;
  sum_Model : string;
  sum_IP : string;
  sum_Status : string;
  LowestSupply : Z;
  SupplyStatus : string;
  sum_PageCount : Z;
  sum_Location : string;
  sum_LastSeen : Time;
}.

(** The counts of a node of the tree. *)
Record NodeMetrics := {
  nm_Devices : Z;
  nm_Critical : Z;
  nm_Low : Z;
  nm_Pages : Z;
}.

Record DashboardAgent := {
  da_AgentID : string;
  da_Name : string;
  da_Status : string;
  da_ConnectionType : string;
  da_Version : string;
  da_Platform : string;
  da_Metrics : NodeMetrics;
  da_LastSeen : Time;
  da_Devices : option (list DashboardDeviceSummary);
}.

Record DashboardSite := {
  ds_Site : SiteInfo;
  ds_AgentCount : Z;
  ds_OnlineAgents : Z;
  ds_Metrics : NodeMetrics;
  ds_Agents : list DashboardAgent;
}.

Record DashboardTenant := {
  dt_ID : string;
  dt_Name : string;
  dt_SiteCount : Z;
  dt_AgentCount : Z;
  dt_OnlineAgents : Z;
  dt_Metrics : NodeMetrics;
  dt_Sites : list DashboardSite;
  dt_Agents : list DashboardAgent;
}.

Record DashboardTree := {
  tree_TenantCount : Z;
  tree_SiteCount : Z;
  tree_AgentCount : Z;
  tree_Metrics : NodeMetrics;
  tree_Tenants : list DashboardTenant;
}.

Record AgentView := { view_Agent : Agent; view_ConnectionType : string; view_SiteIDs : list string }.

Inductive fpayload :=
| FText (s : string)
| FJson (m : fields)
| FAgents (l : list AgentView) (page : option (Z * bool * Z * Z))
| FAgent (a : Agent) (connection : string) (ping_failures disconnects : Z)
| FDevices (l : list DeviceWithMetrics) (page : option (Z * bool * Z * Z))
| FTree (t : DashboardTree)
| FHistory (l : list MetricsSnapshot)
| FAggregated (a : AggregatedMetrics)
| FBytes (body : string)
| FEvents (l : list string).

(** The headers are those of a proxied response; a panic cuts the connection. *)
Inductive reply :=
| FReply (status : Z) (h : headers) (p : fpayload)
| FRedirect (target : string)
| FCrash.

Definition deny (status : Z) (message : string) : reply := FReply status [] (FText message).
Definition json_reply (m : fields) : reply := FReply 200 [] (FJson m).
Definition not_found : reply := deny 404 "404 page not found".

(** ** Calls *)

(** The store; the agents' connections, numbered as they are made; the table of pending
    proxy requests ([AwaitStream] answers with what arrives before the time is up); the subscribers of the user interface; the settings resolver; the
    clock; the encryption of passwords; the log of the server; the
    name of the host and the statistics of the Go runtime (version, processors, goroutines,
    memory). The time series of the server are JSON. *)
Inductive fop : Type -> Type :=
| GetAgent (id : string) : fop (db Agent)
| ListAgents : fop (db (list Agent))
| CountAgents (tenants : list string) : fop (db Z)
| ListAgentsPaginated (limit offset : Z) (tenants : list string) : fop (db (list Agent))
| GetAgentSiteIDs (id : string) : fop (db (list string))
| UpdateAgentInfo (a : Agent) : fop (option db_error)
| UpdateAgentHeartbeat (id status : string) : fop (option db_error)
| UpdateAgentName (id name : string) : fop (option db_error)
| DeleteAgent (id : string) : fop (option db_error)
| GetDevice (serial : string) : fop (db Device)
| ListDevices (agentID : string) : fop (db (list Device))
| ListAllDevices : fop (db (list Device))
| CountDevices (agents : list string) : fop (db Z)
| ListAllDevicesPaginated (limit offset : Z) (agents : list string) : fop (db (list Device))
| UpsertDevice (d : Device) : fop (option db_error)
| DeleteDevice (serial : string) (metrics : bool) : fop (option db_error)
| GetDeviceCredentials (serial : string) : fop (db DeviceCredentials)
| UpsertDeviceCredentials (c : DeviceCredentials) : fop (option db_error)
| GetLatestMetricsBatch (serials : list string) : fop (db (gmap string MetricsSnapshot))
| SaveMetrics (m : MetricsSnapshot) : fop (option db_error)
| GetMetricsBounds (serial : string) : fop (db (Time * Time * Z))
| GetMetricsHistory (serial : string) (since : Time) : fop (db (list MetricsSnapshot))
| GetAggregatedMetrics (since : Time) (tenants : list string) : fop (db AggregatedMetrics)
| GetDatabaseStats : fop (db DatabaseStats)
| GetServerMetrics (q : ServerMetricsQuery) : fop (db fields)
| GetLatestServerMetrics : fop (db (option fields))
| ListTenants : fop (db (list TenantName))
| ListSitesByTenant (tenantID : string) : fop (db (list SiteInfo))
| SaveAuditEntry (e : AuditEntry) : fop unit
| Connection (agentID : string) : fop (option nat)
| WriteRaw (conn : nat) (m : Message) : fop (option string)
| CloseConnection (agentID : string) : fop unit
| Diagnostics (agentID : string) : fop (Z * Z)
| ForgetDiagnostics (agentID : string) : fop unit
| RegisterProxy (requestID : string) : fop unit
| UnregisterProxy (requestID : string) : fop unit
| AwaitProxy (requestID : string) (timeout : Duration) : fop (option Message)
| AwaitStream (requestID : string) (timeout : Duration) : fop (list Message)
| Broadcast (event : string) (data : fields) : fop unit
| BuildSnapshot (tenantID agentID : string) : fop (option Snapshot)
| Clock : fop Time
| Encrypt (password : string) : fop (option string)
| Decrypt (text : string) : fop (option string)
| TailLog (n : Z) : fop (list string)
| OsHostname : fop (option string)
| ReadRuntime : fop (string * Z * Z * MemoryStats).

Notation M := (prog fop).

Record FleetConfig := {
  has_resolver : bool;
  has_credentials_key : bool;
}.

(** ** Helpers *)

Definition q (r : frequest) (key : string) : string := default "" (Query r !! key).

(** [strconv.Atoi]: the value of the error cases too, and whether there is none. *)
Definition Atoi (s : string) : Z * bool :=
  let body (neg : bool) t :=
    match decimal t with
    | None => (0, false)
    | Some v =>
        let v' := if neg then - v else v in
        if v' <? int64_min then (int64_min, false)
        else if int64_max <? v' then (int64_max, false)
        else (v', true)
    end in
  match s with
  | String "-" t => body true t
  | String "+" t => body false t
  | _ => body false s
  end.

(** [limit] and [offset] of a page. *)
Definition page_of (r : frequest) : Z * Z :=
  let limit := (Atoi (q r "limit")).1 in
  let offset := (Atoi (q r "offset")).1 in
  let limit := if limit <=? 0 then 50 else limit in
  let limit := if 200 <? limit then 200 else limit in
  (limit, if offset <? 0 then 0 else offset).

Definition has_more (offset : Z) (n : nat) (total : Z) : bool := wrap64 (offset + Z.of_nat n) <? total.

(** The scope of the user, for the rest of the handler. *)
Definition scoped (r : frequest) (k : option (gset string) -> M reply) : M reply :=
  match principal r with
  | None => mret (deny 401 "unauthenticated")
  | Some _ =>
      match tenantScope (principal r) with
      | (_, false) => mret (deny 403 "forbidden")
      | (scope, true) => k scope
      end
  end.

(** [if !authorizeOrReject(...) { return }] *)
Definition guarded (r : frequest) (action : string) (tenants : list string) (k : M reply) : M reply :=
  match authorizeRequest r action tenants with
  | None => k
  | Some status => mret (deny status (if status =? 401 then "Unauthorized" else "Forbidden"))
  end.

Definition isAgentConnectedWS (agentID : string) : M bool :=
  c ← ask (Connection agentID); mret (match c with Some _ => true | None => false end).

Definition httpRecencyThreshold : Duration := 90 * Second.

Definition deriveAgentConnectionType (a : Agent) : M string :=
  ws ← isAgentConnectedWS (Agent_ID a);
  if ws : bool then mret "ws"
  else if IsZero (Agent_LastSeen a) then mret "none"
  else now ← ask Clock;
       mret (if Since now (Agent_LastSeen a) <=? httpRecencyThreshold then "http" else "none").

Section Audit.
Context `{GoUnicode}.

Definition audit (e : AuditEntry) : M unit := ask (SaveAuditEntry (audit_entry e)).

Definition logRequestAudit (r : frequest) (e : AuditEntry) : M unit :=
  let '(actorType, actorID, actorName, actorTenant) := auditActorFromPrincipal r in
  let dflt x y := if String.eqb x "" then y else x in
  audit {| Audit_ActorType := dflt (Audit_ActorType e) actorType;
           Audit_ActorID := if String.eqb (Audit_ActorID e) "" || String.eqb (Audit_ActorID e) "UNKNOWN"
                            then actorID else Audit_ActorID e;
           Audit_ActorName := dflt (Audit_ActorName e) actorName; Audit_Action := Audit_Action e;
           Audit_TargetType := Audit_TargetType e; Audit_TargetID := Audit_TargetID e;
           Audit_TenantID := dflt (Audit_TenantID e) actorTenant; Audit_Severity := Audit_Severity e;
           Audit_Details := Audit_Details e; Audit_Metadata := Audit_Metadata e;
           Audit_IPAddress := dflt (Audit_IPAddress e) (clientIP r);
           Audit_UserAgent := dflt (Audit_UserAgent e) (UserAgent r) |}.

Definition displayNameForAgent (a : Agent) : string :=
  let name := TrimSpace (Agent_Name a) in
  let host := TrimSpace (Agent_Hostname a) in
  if negb (String.eqb name "") then name
  else if negb (String.eqb host "") then host
  else Agent_ID a.

Definition metadataWithCommandPayload (payload : fields) : fields :=
  match payload with [] => [] | _ => [("command_payload", FMap payload)] end.

Definition getCommandStringField (payload : fields) (key : string) : string :=
  TrimSpace (get_str key payload).

Definition buildAgentUpdateAuditEntry (a : Agent) (action details : string) (metadata : fields) : AuditEntry :=
  let put k v m := if String.eqb v "" then m else fset k (FStr v) m in
  let meta := fset "agent_id" (FStr (Agent_ID a)) metadata in
  let meta := put "agent_name" (Agent_Name a) meta in
  let meta := put "hostname" (Agent_Hostname a) meta in
  let meta := put "agent_version" (Agent_Version a) meta in
  let meta := fset "agent_display_name" (FStr (displayNameForAgent a)) meta in
  {| Audit_ActorType := ""; Audit_ActorID := ""; Audit_ActorName := ""; Audit_Action := action;
     Audit_TargetType := "agent"; Audit_TargetID := Agent_ID a; Audit_TenantID := Agent_TenantID a;
     Audit_Severity := "info"; Audit_Details := details; Audit_Metadata := meta; Audit_IPAddress := "";
     Audit_UserAgent := "" |}.

Definition logAgentUpdateAuditFromRequest (r : frequest) (a : Agent) (action details : string) (metadata : fields)
  : M unit := logRequestAudit r (buildAgentUpdateAuditEntry a action details metadata).

(** The entry of an action of an agent. *)
Definition agent_entry (r : frequest) (a : Agent) (action details : string) (metadata : fields) : AuditEntry :=
  {| Audit_ActorType := "agent"; Audit_ActorID := Agent_ID a; Audit_ActorName := Agent_Name a; Audit_Action := action;
     Audit_TargetType := ""; Audit_TargetID := ""; Audit_TenantID := Agent_TenantID a; Audit_Severity := "";
     Audit_Details := details; Audit_Metadata := metadata; Audit_IPAddress := clientIP r; Audit_UserAgent := "" |}.
End Audit.
