(* ===== verification/AgentsApi.v ===== *)
(** * The handlers of agents ([server/main.go]): heartbeats, the credentials an agent may
    fetch, the list, one agent, and the commands sent to it. *)
From S2P Require Import Prelude GoStrings GoTime Effects Programs Authz AuditLog AccountCalls FleetCalls.

(** The agent of the request, which [requireAuth] puts there. *)
Definition with_agent (r : frequest) (k : Agent -> M reply) : M reply :=
  match agent_of r with None => mret (deny 401 "unauthenticated") | Some a => k a end.

(** The store is told all, or that the agent is there. *)
Definition record_heartbeat (h : HeartbeatData) (agentID : string) : M (option db_error) :=
  if has_metadata h then
    now ← ask Clock;
    match BuildAgentUpdate now h agentID with
    | Some a => ask (UpdateAgentInfo a)
    | None => ask (UpdateAgentHeartbeat agentID (hb_Status h))
    end
  else ask (UpdateAgentHeartbeat agentID (hb_Status h)).

Section Agents.
Context `{GoUnicode} (cfg : FleetConfig).

Definition snapshot_fields (s : option Snapshot) (version : string) : fields :=
  match s with
  | Some s =>
      if String.eqb (Snapshot_Version s) "" then []
      else ("settings_version", FStr (Snapshot_Version s))
           :: (if String.eqb version (Snapshot_Version s) then []
               else [("settings_snapshot", FMap (Snapshot_Settings s))])
  | None => []
  end.

Definition handleAgentHeartbeat (r : frequest) : M reply :=
  match Method r with
  | POST =>
      match as_heartbeat (fleet_body r) with
      | None => mret (deny 400 "Invalid JSON")
      | Some req =>
          with_agent r (fun a =>
          let h := hb_data req in
          _ ← record_heartbeat h (Agent_ID a);
          snapshot ← (if has_resolver cfg then ask (BuildSnapshot (Agent_TenantID a) (Agent_ID a)) else mret None);
          _ ← audit (agent_entry r a "heartbeat" ("Status: " +:+ hb_Status h) [("status", FStr (hb_Status h))]);
          _ ← ask (Broadcast "agent_heartbeat" [("agent_id", FStr (Agent_ID a)); ("status", FStr (hb_Status h))]);
          mret (json_reply (("success", FBool true) :: snapshot_fields snapshot (hb_SettingsVersion req))))
      end
  | _ => mret (deny 405 "POST only")
  end.

(** The password as the agent gets it: empty when it cannot be decrypted. *)
Definition plain_password (c : DeviceCredentials) : M string :=
  if negb (String.eqb (EncryptedPassword c) "") && has_credentials_key cfg then
    p ← ask (Decrypt (EncryptedPassword c)); mret (default "" p)
  else mret "".

Definition handleAgentDeviceCredentials (r : frequest) : M reply :=
  match Method r with
  | GET =>
      with_agent r (fun a =>
      let serial := q r "serial" in
      if String.eqb serial "" then mret (json_reply [("error", FStr "serial required")])
      else
        d ← ask (GetDevice serial);
        match d with
        | Err _ => mret (json_reply [("exists", FBool false)])
        | Ok d =>
            if negb (String.eqb (Device_AgentID d) (Agent_ID a))
            then mret (json_reply [("exists", FBool false); ("error", FStr "device not owned by this agent")])
            else
              c ← ask (GetDeviceCredentials serial);
              match c with
              | Err _ => mret (json_reply [("exists", FBool false)])
              | Ok c =>
                  password ← plain_password c;
                  mret (json_reply [("exists", FBool true); ("username", FStr (Cred_Username c));
                    ("password", FStr password); ("auth_type", FStr (AuthType c)); ("auto_login", FBool (Cred_AutoLogin c))])
              end
        end)
  | _ => mret (deny 405 "GET only")
  end.

(** The error of [GetAgentSiteIDs] is dropped. *)
Definition agentView (a : Agent) : M AgentView :=
  let a := without_token a in
  conn ← deriveAgentConnectionType a;
  sites ← ask (GetAgentSiteIDs (Agent_ID a));
  mret {| view_Agent := a; view_ConnectionType := conn;
          view_SiteIDs := match sites with Ok l => l | Err _ => [] end |}.

Fixpoint agentViews (l : list Agent) : M (list AgentView) :=
  match l with
  | [] => mret []
  | a :: l' => v ← agentView a; vs ← agentViews l'; mret (v :: vs)
  end.

(** The keys of a scope, in the order in which Go visits them. *)
Context (range : gset string -> list string).

Definition handleAgentsList (r : frequest) : M reply :=
  match Method r with
  | GET =>
      guarded r ActionAgentsRead [] (
      scoped r (fun scope =>
      if negb (String.eqb (q r "limit") "") then
        let '(limit, offset) := page_of r in
        let tenantIDs := match scope with Some s => range s | None => [] end in
        total ← ask (CountAgents tenantIDs);
        match total with
        | Err _ => mret (deny 500 "Failed to count agents")
        | Ok total =>
            agents ← ask (ListAgentsPaginated limit offset tenantIDs);
            match agents with
            | Err _ => mret (deny 500 "Failed to list agents")
            | Ok agents =>
                items ← agentViews agents;
                mret (FReply 200 [] (FAgents items (Some (total, has_more offset (length agents) total, limit, offset))))
            end
        end
      else
        agents ← ask ListAgents;
        match agents with
        | Err _ => mret (deny 500 "Failed to list agents")
        | Ok agents =>
            items ← agentViews (filter (fun a => tenantAllowed scope (Agent_TenantID a) = true) agents);
            mret (FReply 200 [] (FAgents items None))
        end))
  | _ => mret (deny 405 "GET only")
  end.

(** What follows the prefix; the path itself without it. *)
Definition agentID_of (r : frequest) (prefix : string) : string := TrimPrefix (Path r) prefix.
Definition no_agentID (r : frequest) (prefix : string) : bool :=
  String.eqb (agentID_of r prefix) "" || String.eqb (agentID_of r prefix) (Path r).

(** [for k, v := range req.Data { msg.Data[k] = v }] *)
Definition command_data (c : commandBody) : fields :=
  foldl (fun m kv => fset kv.1 kv.2 m) [("command", FStr (cmd_Command c))] (default [] (cmd_Data c)).

Definition audit_command (r : frequest) (a : Agent) (c : commandBody) : M unit :=
  let data := default [] (cmd_Data c) in
  let meta := metadataWithCommandPayload data in
  if String.eqb (cmd_Command c) "check_update" then
    let trigger := getCommandStringField data "origin" in
    let meta := fset "trigger" (FStr (if String.eqb trigger "" then "manual" else trigger)) meta in
    logAgentUpdateAuditFromRequest r a "agent.update.check" ("Update check triggered for " +:+ displayNameForAgent a) meta
  else if String.eqb (cmd_Command c) "force_update" then
    let reason := getCommandStringField data "reason" in
    let meta := if String.eqb reason "" then meta else fset "reason" (FStr reason) meta in
    logAgentUpdateAuditFromRequest r a "agent.update.force" ("Forced reinstall triggered for " +:+ displayNameForAgent a) meta
  else mret tt.

(** The message holds decoded JSON, which is always encoded again. *)
Definition handleAgentCommand (r : frequest) : M reply :=
  let agentID := agentID_of r "/api/v1/agents/command/" in
  match Method r with
  | POST =>
      if no_agentID r "/api/v1/agents/command/" then mret (deny 400 "Agent ID required")
      else match principal r with
      | None => mret (deny 401 "unauthenticated")
      | Some _ =>
      match as_command (fleet_body r) with
      | None => mret (deny 400 "Invalid JSON")
      | Some req =>
          if String.eqb (cmd_Command req) "" then mret (deny 400 "command required")
          else
            agent ← ask (GetAgent agentID);
            match agent with
            | Err _ => mret (deny 404 "Agent not found")
            | Ok agent =>
                scoped r (fun scope =>
                if negb (tenantAllowed scope (Agent_TenantID agent)) then mret (deny 403 "forbidden")
                else guarded r ActionAgentsWrite [Agent_TenantID agent] (
                conn ← ask (Connection agentID);
                match conn with
                | None => mret (deny 503 "Agent not connected via WebSocket")
                | Some conn =>
                    now ← ask Clock;
                    sent ← ask (WriteRaw conn {| Msg_Type := "command"; Msg_Data := Some (command_data req); Msg_Timestamp := now |});
                    match sent with
                    | Some _ => mret (deny 500 "Failed to send command")
                    | None =>
                        _ ← audit_command r agent req;
                        mret (json_reply [("success", FBool true);
                          ("message", FStr ("Command '" +:+ cmd_Command req +:+ "' sent to agent"))])
                    end
                end))
            end
      end end
  | _ => mret (deny 405 "POST only")
  end.

(** The agent as the interface shows it. *)
Definition agent_object (a : Agent) (conn : string) : M fpayload :=
  diag ← ask (Diagnostics (Agent_ID a)); mret (FAgent a conn diag.1 diag.2).

Definition getAgent (r : frequest) (agentID : string) (scope : option (gset string)) : M reply :=
  agent ← ask (GetAgent agentID);
  match agent with
  | Err _ => mret (deny 404 "Agent not found")
  | Ok agent =>
      if negb (tenantAllowed scope (Agent_TenantID agent)) then mret (deny 403 "forbidden")
      else guarded r ActionAgentsRead [Agent_TenantID agent] (
      devices ← ask (ListDevices agentID);
      let n := match devices with Ok l => Z.of_nat (length l) | Err _ => Agent_DeviceCount agent end in
      let agent := with_view n "" agent in
      conn ← deriveAgentConnectionType agent;
      obj ← agent_object agent conn;
      mret (FReply 200 [] obj))
  end.

Definition renameAgent (r : frequest) (agentID : string) (scope : option (gset string)) : M reply :=
  match as_name (fleet_body r) with
  | None => mret (deny 400 "Invalid JSON")
  | Some name =>
      if (512 <? String.length name)%nat then mret (deny 400 "Name too long")
      else
        agent ← ask (GetAgent agentID);
        match agent with
        | Err _ => mret (deny 404 "Agent not found")
        | Ok agent =>
            if negb (tenantAllowed scope (Agent_TenantID agent)) then mret (deny 403 "forbidden")
            else guarded r ActionAgentsWrite [Agent_TenantID agent] (
            err ← ask (UpdateAgentName agentID name);
            match err with
            | Some _ => mret (deny 500 "Failed to update agent")
            | None =>
                agent ← ask (GetAgent agentID);
                match agent with
                | Err _ => mret (deny 404 "Agent not found")
                | Ok agent =>
                    let agent := without_token agent in
                    conn ← deriveAgentConnectionType agent;
                    obj ← agent_object agent conn;
                    _ ← ask (Broadcast "agent_updated" [("agent_id", FStr (Agent_ID agent)); ("name", FStr (Agent_Name agent));
                      ("hostname", FStr (Agent_Hostname agent)); ("ip", FStr (Agent_IP agent));
                      ("status", FStr (Agent_Status agent)); ("connection_type", FStr conn)]);
                    mret (FReply 200 [] obj)
                end
            end)
        end
  end.

Definition lookup_failure (e : db_error) : reply :=
  if match e with NoRows => true | DbErr _ => Contains (ToLower (err_text e)) "not found" end
  then deny 404 "Agent not found" else deny 500 "Failed to delete agent".

Definition deleteAgent (r : frequest) (agentID : string) (scope : option (gset string)) : M reply :=
  agent ← ask (GetAgent agentID);
  match agent with
  | Err e => mret (lookup_failure e)
  | Ok agent =>
      if negb (tenantAllowed scope (Agent_TenantID agent)) then mret (deny 403 "forbidden")
      else guarded r ActionAgentsDelete [Agent_TenantID agent] (
      err ← ask (DeleteAgent agentID);
      match err with
      | Some e => mret (if String.eqb (err_text e) "agent not found" then deny 404 "Agent not found"
                        else deny 500 "Failed to delete agent")
      | None =>
          _ ← ask (CloseConnection agentID);
          _ ← ask (ForgetDiagnostics agentID);
          _ ← ask (Broadcast "agent_deleted" [("agent_id", FStr agentID)]);
          mret (json_reply [("message", FStr "Agent deleted successfully")])
      end)
  end.

Definition handleAgentDetails (r : frequest) : M reply :=
  let agentID := agentID_of r "/api/v1/agents/" in
  if no_agentID r "/api/v1/agents/" then mret (deny 400 "Agent ID required")
  else scoped r (fun scope =>
    match Method r with
    | GET => getAgent r agentID scope
    | POST => renameAgent r agentID scope
    | DELETE => deleteAgent r agentID scope
    | _ => mret (deny 405 "Method not allowed")
    end).
End Agents.
