(* ===== verification/ProxyText.v ===== *)
(** * Paths of the proxy and the rewriting of proxied pages ([server/main.go]). *)
From S2P Require Import Prelude GoStrings GoUrl GoText.
From Stdlib Require Import Ascii.
#[local] Open Scope string_scope.

(** ** Paths *)

Definition device_prefix : string := "/api/v1/proxy/device/".

(** [strings.TrimLeft(s, "/")] *)
Definition trim_slashes (s : string) : string := trim_byte_front "/" s.

Inductive path_error := invalid_prefix | serial_required.
Definition path_error_text (e : path_error) : string :=
  match e with invalid_prefix => "invalid proxy prefix" | serial_required => "device serial required" end.

(** The serial number and the path on the device. *)
Definition parseDeviceProxyPath (fullPath prefix : string) : result path_error (string * string) :=
  if negb (HasPrefix fullPath prefix) then Err invalid_prefix
  else
    let trimmed := trim_slashes (TrimPrefix fullPath prefix) in
    let trimmed := if HasPrefix trimmed "device/" then trim_slashes (TrimPrefix trimmed "device/") else trimmed in
    if String.eqb trimmed "" then Err serial_required
    else let '(serial, rest) := SplitN2 trimmed "/" in
         Ok (serial, match rest with Some p => if String.eqb p "" then "/" else "/" +:+ p | None => "/" end).

Definition appendQueryToPath (path rawQuery : string) : string :=
  if String.eqb rawQuery "" then path
  else path +:+ (if Contains path "?" then "&" else "?") +:+ rawQuery.

Section Resources.
Context `{GoUnicode}.

Definition isProxyResourceDirectory (segment : string) : bool :=
  mem_str (ToLower segment)
    ["js"; "css"; "images"; "strings"; "lib"; "fonts"; "assets"; "static"; "startwlm"; "wlmeng"].

(** The path with the serial number of the page that asked. *)
Definition recoverDeviceProxyResourcePath (path rawQuery referer : string) : option string :=
  let resourcePath := TrimPrefix path device_prefix in
  if String.eqb resourcePath path then None
  else
    match SplitN2 resourcePath "/" with
    | (_, None) => None
    | (dir, Some _) =>
        if negb (isProxyResourceDirectory dir) then None
        else
          match Parse referer with
          | None => None
          | Some u =>
              if negb (HasPrefix (UPath u) device_prefix) then None
              else
                let serial := (SplitN2 (TrimPrefix (UPath u) device_prefix) "/").1 in
                if String.eqb serial "" || isProxyResourceDirectory serial then None
                else
                  let corrected := device_prefix +:+ serial +:+ "/" +:+ resourcePath in
                  Some (if String.eqb rawQuery "" then corrected else corrected +:+ "?" +:+ rawQuery)
          end
    end.
End Resources.

Definition with_slash (path : string) : string := if HasSuffix path "/" then path else path +:+ "/".

Definition computeProxyBaseFromRequest (path : string) : string :=
  let prefix := "/api/v1/proxy/" in
  match Index path prefix with
  | None => with_slash path
  | Some idx =>
      let rest := sdrop (idx + String.length prefix) path in
      match SplitN2 rest "/" with
      | (kind, Some more) => prefix +:+ kind +:+ "/" +:+ (SplitN2 more "/").1 +:+ "/"
      | (_, None) => with_slash path
      end
  end.

(** ** Pages *)

(** [http://host] and [//host] *)
Definition replace_origin (targetURL proxyBase s : string) : string :=
  match Parse targetURL with
  | None => s
  | Some u =>
      let s := ReplaceAll s (Scheme u +:+ "://" +:+ UHost u) proxyBase in
      ReplaceAll s ("//" +:+ UHost u) proxyBase
  end.

Definition rewriteProxyJS (body proxyBase targetURL : string) : string := replace_origin targetURL proxyBase body.

Definition resolved_link (proxyBase basePath relPath : string) : string :=
  let resolved := Clean (path_join basePath relPath) in
  proxyBase +:+ (if HasPrefix resolved "/" then sdrop 1 resolved else resolved).

(** The loop over the rest of the page. [None]: out of fuel. *)
Fixpoint rewrite_attrs (fuel : nat) (attrPrefix quote proxyBase basePath s : string) : option string :=
  match fuel with
  | O => None
  | S fuel =>
      match Index s attrPrefix with
      | None => Some s
      | Some idx =>
          let n := (idx + String.length attrPrefix)%nat in
          let value := sdrop n s in
          if HasPrefix value "../" then
            match Index value quote with
            | None => String.append (stake n s) <$> rewrite_attrs fuel attrPrefix quote proxyBase basePath value
            | Some e =>
                String.append (stake n s +:+ resolved_link proxyBase basePath (stake e value) +:+ quote)
                  <$> rewrite_attrs fuel attrPrefix quote proxyBase basePath (sdrop (S e) value)
            end
          else String.append (stake n s) <$> rewrite_attrs fuel attrPrefix quote proxyBase basePath value
      end
  end.
Definition rewriteAttrParentPaths (s attrPrefix quote proxyBase basePath : string) : option string :=
  rewrite_attrs (S (String.length s)) attrPrefix quote proxyBase basePath s.

Definition dq : string := String "034" "".

Definition parent_patterns : list (string * string) :=
  [("href=" +:+ dq, dq); ("href='", "'"); ("src=" +:+ dq, dq); ("src='", "'"); ("action=" +:+ dq, dq); ("action='", "'")].

Definition rewriteParentRelativePaths (s proxyBase targetURL : string) : option string :=
  let basePath := match Parse targetURL with Some u => path_dir (UPath u) | None => "" end in
  foldl (fun s p => s ← s; rewriteAttrParentPaths s p.1 p.2 proxyBase basePath) (Some s) parent_patterns.

(** The attributes with a root-absolute value, in the order in which they are replaced. *)
Definition root_patterns : list string :=
  ["src=" +:+ dq; "src='"; "href=" +:+ dq; "href='"; "action=" +:+ dq; "action='"; "data-src=" +:+ dq; "data-src='";
   "url(" +:+ dq; "url('"].

Definition rewrite_roots (proxyBase s : string) : string :=
  foldl (fun s p => ReplaceAll s (p +:+ "/") (p +:+ proxyBase)) s root_patterns.

Section Inject.
Context `{GoUnicode}.

Definition meta_tag (proxyBase agentID : string) : string :=
  "<meta http-equiv=" +:+ dq +:+ "X-PrintMaster-Proxied" +:+ dq +:+ " content=" +:+ dq +:+ "true" +:+ dq +:+ ">"
  +:+ "<meta http-equiv=" +:+ dq +:+ "X-PrintMaster-Agent-ID" +:+ dq +:+ " content=" +:+ dq
  +:+ EscapeString agentID +:+ dq +:+ ">"
  +:+ "<base href=" +:+ dq +:+ proxyBase +:+ dq +:+ ">".

Inductive page :=
| Page (s : string)
| Diverges
| SlicePanics.

(** The position of the tag is the one in the lower-case page. *)
Definition injectProxyMetaAndBase (body proxyBase agentID targetURL : string) : page :=
  let base := EscapeString proxyBase in
  let s := rewrite_roots base (replace_origin targetURL base body) in
  match rewriteParentRelativePaths s base targetURL with
  | None => Diverges
  | Some s =>
      match Index (ToLower s) "<head>" with
      | None => Page s
      | Some i =>
          let pos := (i + 6)%nat in
          if (String.length s <? pos)%nat then SlicePanics
          else Page (stake pos s +:+ meta_tag base agentID +:+ sdrop pos s)
      end
  end.
End Inject.

(** The prefix of the agent in a page of a device becomes the one of the server. *)
Definition agent_prefix (serial : string) : string := "/proxy/" +:+ serial.
Definition server_prefix (serial : string) : string := device_prefix +:+ serial.
Definition translate (serial s : string) : string := ReplaceAll s (agent_prefix serial) (server_prefix serial).

(** ** Examples *)

Example parse_paths :
  (parseDeviceProxyPath "/proxy/SN1/a/b" "/proxy/", parseDeviceProxyPath "/proxy//device/SN1" "/proxy/",
   parseDeviceProxyPath "/proxy/" "/proxy/", parseDeviceProxyPath "/x" "/proxy/")
  = (Ok ("SN1", "/a/b"), Ok ("SN1", "/"), Err serial_required, Err invalid_prefix).
Proof. reflexivity. Qed.

Example recovered_path :
  recoverDeviceProxyResourcePath "/api/v1/proxy/device/js/app.js" "v=1" "https://h/api/v1/proxy/device/SN1/index.html"
  = Some "/api/v1/proxy/device/SN1/js/app.js?v=1".
Proof. vm_compute. reflexivity. Qed.

(** A [data-src] is rewritten twice: by the pattern of [src] and by its own. *)
Example data_src_prefixed_twice :
  injectProxyMetaAndBase "<img data-src='/a.png'>" "/api/v1/proxy/agent/A/" "A" "http://localhost:8080/"
  = Page "<img data-src='/api/v1/proxy/agent/A/api/v1/proxy/agent/A/a.png'>".
Proof. vm_compute. reflexivity. Qed.

Example page_rewritten :
  injectProxyMetaAndBase "<html><HEAD></HEAD><a href='../x/y'>" "/p/" "<A>" "http://localhost:8080/u/v/w"
  = Page ("<html><HEAD>" +:+ meta_tag "/p/" "<A>" +:+ "</HEAD><a href='/p/u/x/y'>").
Proof. vm_compute. reflexivity. Qed.

(** ** What holds of the paths and of the rewritten pages *)

(** The rewriting of a page ends. *)
Definition ends (p : page) : Prop := p <> Diverges.

(** A path that the proxy reads as a file of a device, without a redirection. *)
Definition settled `{GoUnicode} (path serial file : string) : Prop :=
  path = device_prefix +:+ serial +:+ "/" +:+ file
  /\ (serial <> "device" -> parseDeviceProxyPath path device_prefix = Ok (serial, "/" +:+ file))
  /\ forall rawQuery referer, recoverDeviceProxyResourcePath path rawQuery referer = None.

(** ** The loop over a page *)

Lemma sdrop_length n s : String.length (sdrop n s) = (String.length s - n)%nat.
Proof. revert s. induction n as [|n IH]; intros [|c s]; cbn; auto. Qed.

Lemma Index_bound s sub i : Index s sub = Some i -> (i + String.length sub <= String.length s)%nat.
Proof.
  revert i. induction s as [|c s IH]; intros i; cbn [Index];
    (destruct (HasPrefix _ sub) eqn:Hp; [intros [= <-]; apply prefix_split in Hp as [t ->]; rewrite string_length_app; lia|]);
    [done|].
  intros Hi. apply fmap_Some in Hi as (j & Hj & ->). specialize (IH j Hj). cbn. lia.
Qed.

Lemma rewrite_attrs_ends fuel attr quote base dir s :
  attr <> "" -> (String.length s < fuel)%nat -> is_Some (rewrite_attrs fuel attr quote base dir s).
Proof.
  intros Hattr. revert s. induction fuel as [|fuel IH]; intros s Hs; [lia|]. cbn [rewrite_attrs].
  destruct (Index s attr) as [i|] eqn:Hi; [|done]. apply Index_bound in Hi.
  assert (1 <= String.length attr)%nat by (destruct attr; [done | cbn; lia]).
  assert (Hv : (String.length (sdrop (i + String.length attr) s) < fuel)%nat) by (rewrite sdrop_length; lia).
  destruct (HasPrefix _ "../"); [|by apply fmap_is_Some, IH].
  destruct (Index (sdrop _ s) quote) as [e|]; apply fmap_is_Some, IH; [|done]. rewrite !sdrop_length in *. lia.
Qed.

(** C19: Rewriting a page ends, whatever the page, its address and the prefix are. *)
Theorem pages_end `{GoUnicode} body base agentID url : ends (injectProxyMetaAndBase body base agentID url).
Proof.
  unfold ends, injectProxyMetaAndBase, rewriteParentRelativePaths.
  set (dir := match Parse url with Some _ => _ | None => _ end). set (s := rewrite_roots _ _).
  assert (Hpat : Forall (fun p => p.1 <> "") parent_patterns) by (repeat constructor; discriminate).
  assert (Hsome : forall ps o, Forall (fun p => p.1 <> "") ps -> is_Some o ->
    is_Some (foldl (fun s p => s ← s; rewriteAttrParentPaths s p.1 p.2 (EscapeString base) dir) o ps)).
  { induction ps as [|p ps IH]; intros o Hps Ho; [done|]. apply Forall_cons in Hps as [Hp Hps]. cbn [foldl].
    apply IH; [done|]. destruct Ho as [t ->]. cbn [mbind option_bind]. apply rewrite_attrs_ends; [done | lia]. }
  destruct (Hsome parent_patterns (Some s) Hpat ltac:(done)) as [t ->]. repeat case_match; discriminate.
Qed.

(** ** The recovered path *)

Lemma splitN2_go_first sep cur s :
  all_bytes (not_byte sep) cur = true -> all_bytes (not_byte sep) (splitN2_go sep cur s).1 = true.
Proof.
  revert cur. induction s as [|c s IH]; intros cur Hc; cbn [splitN2_go]; [by apply rev_all|].
  destruct (Ascii.eqb c sep) eqn:E; [by apply rev_all|]. apply IH. cbn. unfold not_byte at 1. by rewrite E.
Qed.

Lemma trim_slashes_id s t : s <> "" -> all_bytes (not_byte "/") s = true -> trim_slashes (s +:+ t) = s +:+ t.
Proof.
  destruct s as [|c s]; [done|]. intros _ Hs. cbn in Hs. apply andb_true_iff in Hs as [Hc _].
  unfold not_byte in Hc. apply negb_true_iff in Hc. unfold trim_slashes. rewrite append_cons. cbn [trim_byte_front]. by rewrite Hc.
Qed.

(** A path of the proxy is read as the serial number and the rest. *)
Lemma parse_device_path prefix serial rest :
  serial <> "" -> serial <> "device" -> all_bytes (not_byte "/") serial = true -> rest <> "" ->
  parseDeviceProxyPath (prefix +:+ serial +:+ "/" +:+ rest) prefix = Ok (serial, "/" +:+ rest).
Proof.
  intros Hne Hdev Hs Hrest. unfold parseDeviceProxyPath. rewrite HasPrefix_app, TrimPrefix_app. cbn [negb].
  rewrite trim_slashes_id by done.
  destruct (HasPrefix (serial +:+ "/" +:+ rest) "device/") eqn:Hp.
  { exfalso. apply prefix_split in Hp as [t Ht]. apply Hdev.
    pose proof (SplitN2_sep "/" serial rest Hs) as H1. pose proof (SplitN2_sep "/" "device" t eq_refl) as H2.
    change ("device/" +:+ t) with ("device" +:+ String "/" t) in Ht. change ("/" +:+ rest) with (String "/" rest) in Ht.
    rewrite Ht, H2 in H1. congruence. }
  change ("/" +:+ rest) with (String "/" rest) at 1 2.
  destruct (String.eqb_spec (serial +:+ String "/" rest) "") as [He|_].
  { exfalso. destruct serial; [done | discriminate He]. }
  rewrite SplitN2_sep by done. apply String.eqb_neq in Hrest. by rewrite Hrest.
Qed.

(** A request for a static file that lacks the serial number is redirected once: the
    new path names the device of the referring page and the same file, the proxy reads it
    so, and it is not redirected again. *)
Theorem redirected_once `{GoUnicode} path referer target :
  recoverDeviceProxyResourcePath path "" referer = Some target ->
  exists serial file, path = device_prefix +:+ file /\ settled target serial file.
Proof.
  unfold recoverDeviceProxyResourcePath at 1. intros Hr.
  destruct (String.eqb (TrimPrefix path device_prefix) path) eqn:Hpre; [done|].
  assert (exists file, path = device_prefix +:+ file) as [file ->].
  { unfold TrimPrefix in Hpre. destruct (HasPrefix path device_prefix) eqn:Hp; [|by rewrite String.eqb_refl in Hpre].
    by apply prefix_split in Hp. }
  rewrite TrimPrefix_app in Hr. destruct (SplitN2 file "/") as [dir [more|]] eqn:Hdir; [|done].
  destruct (negb _); [done|]. destruct (Parse referer) as [u|]; [|done]. destruct (negb _); [done|].
  set (serial := (SplitN2 (TrimPrefix (UPath u) device_prefix) "/").1) in *.
  destruct (String.eqb serial "" || isProxyResourceDirectory serial) eqn:Hser; [done|]. reflect_bools.
  cbn in Hr. injection Hr as <-.
  assert (Hs : all_bytes (not_byte "/") serial = true) by (by apply splitN2_go_first).
  exists serial, file. split; [done|]. split; [done|]. split.
  - intros Hdev. apply parse_device_path; try done. intros ->. discriminate Hdir.
  - intros rawQuery referer'. unfold recoverDeviceProxyResourcePath. rewrite TrimPrefix_app.
    destruct (String.eqb _ _); [done|]. change ("/" +:+ file) with (String "/" file).
    by rewrite SplitN2_sep, H1 by done.
Qed.

Lemma redirected_once_witness :
  let M := ascii_only in
  recoverDeviceProxyResourcePath "/api/v1/proxy/device/js/app.js" "" "https://h/api/v1/proxy/device/SN1/index.html"
    = Some "/api/v1/proxy/device/SN1/js/app.js"
  /\ exists serial file, "/api/v1/proxy/device/js/app.js" = device_prefix +:+ file
    /\ settled "/api/v1/proxy/device/SN1/js/app.js" serial file.
Proof.
  intros M. split; [vm_compute; reflexivity|].
  apply (redirected_once _ "https://h/api/v1/proxy/device/SN1/index.html"). vm_compute. reflexivity.
Defined.
