(* ===== verification/ProxyApi.v ===== *)
(** * Requests proxied through the connection of an agent ([server/main.go],
    [sendProxyRequest] of [server/websocket.go]). *)
From S2P Require Import Prelude GoStrings GoTime GoUrl GoText Effects Programs Authz AuditLog AccountCalls FleetCalls AgentsApi ProxyText.
From Stdlib Require Import Ascii.
#[local] Open Scope string_scope.

Definition agent_origin : string := "http://localhost:8080".

(** ** The round trip *)

Definition UnixNano (t : Time) : Z := (t - unix_epoch * Second)%Z.
Definition request_id (agentID : string) (now : Time) : string := agentID +:+ "-" +:+ pretty (UnixNano now).

Definition header_fields (h : headers) : fields := map (fun kv => (kv.1, FStr kv.2)) h.

(** [headers[k] = v] on a plain map: the name stays as it is. *)
Definition put_header (k v : string) (h : headers) : headers := filter (fun kv => kv.1 <> k) h ++ [(k, v)].

(** The headers of the request, and who sent it. *)
Definition forwarded_headers (r : frequest) : headers :=
  match principal r with
  | Some p => put_header "X-PrintMaster-Role" (P_Role p) (put_header "X-PrintMaster-User" (User_Username (P_User p)) (Headers r))
  | None => Headers r
  end.

Definition proxy_fields (requestID targetURL method : string) (h : headers) (body : string) : fields :=
  [("request_id", FStr requestID); ("url", FStr targetURL); ("method", FStr method);
   ("headers", FMap (header_fields h)); ("body", FStr body)].

(** The error, if any. *)
Definition sendProxyRequest (agentID requestID targetURL method : string) (h : headers) (body : string)
  : M (option string) :=
  conn ← ask (Connection agentID);
  match conn with
  | None => mret (Some "agent not connected via WebSocket")
  | Some conn =>
      now ← ask Clock;
      ask (WriteRaw conn {| Msg_Type := "proxy_request"; Msg_Data := Some (proxy_fields requestID targetURL method h body);
                            Msg_Timestamp := now |})
  end.

Definition encoded_body (body : option string) : string := match body with Some b => EncodeToString b | None => "" end.

(** The answer of the agent. *)
Inductive answer := NotSent | TimedOut | Answered (m : Message).

Definition roundTrip (r : frequest) (agentID targetURL : string) (h : headers) (body : option string) (timeout : Duration)
  : M answer :=
  now ← ask Clock;
  let requestID := request_id agentID now in
  _ ← ask (RegisterProxy requestID);
  err ← sendProxyRequest agentID requestID targetURL (MethodName r) h (encoded_body body);
  match err with
  | Some _ => _ ← ask (UnregisterProxy requestID); mret NotSent
  | None =>
      m ← ask (AwaitProxy requestID timeout);
      _ ← ask (UnregisterProxy requestID);
      mret (match m with Some m => Answered m | None => TimedOut end)
  end.

(** ** The response *)

Definition status_of (m : Message) : Z :=
  match fget "status_code" (msg_data m) with Some (FNum f) => GoFloat.int_of_float f | _ => 200%Z end.

(** The headers that are texts, set one after another. *)
Definition answer_headers (m : Message) (h : headers) : headers :=
  match fget "headers" (msg_data m) with
  | Some (FMap l) => foldl (fun h kv => match kv.2 with FStr v => hSet kv.1 v h | _ => h end) h l
  | _ => h
  end.

(** [None]: no body, or one that cannot be decoded. *)
Definition answer_body (m : Message) : option string :=
  match fget "body" (msg_data m) with Some (FStr b) => DecodeString b | _ => None end.

Definition is_gzip (body : string) : bool := HasPrefix body (String "031" (String "139" "")).

(** The serial number in the address of the agent's own proxy. *)
Definition agentProxySerial (targetURL : string) : option string :=
  let prefix := agent_origin +:+ "/proxy/" in
  if HasPrefix targetURL prefix then
    let rest := TrimPrefix targetURL prefix in
    Some (match Index rest "/" with Some (S _ as i) => stake i rest | _ => rest end)
  else None.

Definition static_types : list (string * string) :=
  [(".js", "application/javascript"); (".css", "text/css"); (".json", "application/json");
   (".wasm", "application/wasm"); (".svg", "image/svg+xml")].

Section Response.
Context `{GoUnicode}.
(** Compression, the types of file names that the system knows, JSON. *)
Context (gunzip : string -> option string) (gzip : string -> string) (mime_type : string -> string).
Context (json_parse : string -> option (option fields)) (json_print : option fields -> string).

Definition extension (targetURL : string) : option string :=
  match Parse targetURL with Some u => Some (ToLower (path_ext (UPath u))) | None => None end.

(** The headers with a type for static files, and that type. *)
Definition typed_headers (targetURL : string) (h : headers) : headers * string :=
  let ext := extension targetURL in
  let h := match ext with Some ".jq" => hSet "Content-Type" "application/javascript" h | _ => h end in
  let contentType := hGet "Content-Type" h in
  if String.eqb contentType "" || HasPrefix (ToLower contentType) "text/plain" then
    match ext with
    | None | Some "" => (h, contentType)
    | Some ext =>
        let mt := mime_type ext in
        if negb (String.eqb mt "") then (hSet "Content-Type" mt h, mt)
        else match list_find (fun p => p.1 = ext) static_types with
             | Some (_, p) => (hSet "Content-Type" p.2 h, p.2)
             | None => (h, contentType)
             end
    end
  else (h, contentType).

Definition sent_body (status : Z) (h : headers) (body : string) : reply :=
  FReply status (hSet "Content-Length" (pretty (Z.of_nat (String.length body))) h) (FBytes body).

Definition translated (serial : string) (status : Z) (h : headers) (body : string) : reply :=
  let '(body, h) :=
    if is_gzip body then
      match gunzip body with
      | Some plain => (gzip (translate serial plain), hSet "Content-Encoding" "gzip" h)
      | None => (body, h)
      end
    else (translate serial body, hDel "Content-Encoding" h) in
  let loc := hGet "Location" h in
  let h := if String.eqb loc "" then h else hSet "Location" (translate serial loc) h in
  let c := hGet "Set-Cookie" h in
  let h := if Contains c (agent_prefix serial) then hSet "Set-Cookie" (translate serial c) h else h in
  sent_body status h body.

(** The text of a page through [f], compressed again when it was. *)
Definition through (f : string -> page) (drop_encoding : bool) (body : string) (h : headers) : option (string * headers) :=
  if is_gzip body then
    match gunzip body with
    | Some plain => match f plain with Page t => Some (gzip t, hSet "Content-Encoding" "gzip" h) | _ => None end
    | None => Some (body, h)
    end
  else match f body with Page t => Some (t, if drop_encoding then hDel "Content-Encoding" h else h) | _ => None end.

Definition agent_page (r : frequest) (agentID targetURL contentType : string) (status : Z) (h : headers) (body : string)
  : reply :=
  let ct := ToLower contentType in
  let base := computeProxyBaseFromRequest (Path r) in
  let step1 := if Contains ct "text/html" then through (fun s => injectProxyMetaAndBase s base agentID targetURL) true body h
               else Some (body, h) in
  let step2 := '(body, h) ← step1;
    if Contains ct "javascript" || Contains ct "application/json"
    then through (fun s => Page (rewriteProxyJS s base targetURL)) false body h else Some (body, h) in
  match step2 with Some (body, h) => sent_body status h body | None => FCrash end.

Definition proxied (r : frequest) (agentID targetURL : string) (m : Message) : reply :=
  let h := hDel "Content-Security-Policy" (hDel "X-Frame-Options" (preset r)) in
  let h := answer_headers m h in
  let h := hSet "X-PrintMaster-Agent-ID" agentID (hSet "X-PrintMaster-Proxied" "true" h) in
  let '(h, contentType) := typed_headers targetURL h in
  let h := hDel "X-Frame-Options" (hDel "Content-Security-Policy" h) in
  match answer_body m with
  | None => FReply (status_of m) (hDel "Content-Length" h) (FBytes "")
  | Some body =>
      match agentProxySerial targetURL with
      | Some serial =>
          if negb (String.eqb serial "") then translated serial (status_of m) h body
          else agent_page r agentID targetURL contentType (status_of m) h body
      | None => agent_page r agentID targetURL contentType (status_of m) h body
      end
  end.

Definition proxyThroughWebSocketWithTimeout (r : frequest) (agentID targetURL : string) (body : option string)
  (timeout : Duration) : M reply :=
  a ← roundTrip r agentID targetURL (forwarded_headers r) body timeout;
  mret (match a with
        | NotSent => deny 500 "Failed to send proxy request"
        | TimedOut => deny 504 "Proxy request timeout"
        | Answered m => proxied r agentID targetURL m
        end).
Definition proxyThroughWebSocket (r : frequest) (agentID targetURL : string) : M reply :=
  proxyThroughWebSocketWithTimeout r agentID targetURL (RawBody r) (30 * Second).

(** ** The interface of an agent and of a device *)

Definition agent_timeout (targetPath : string) : Duration :=
  let path := (SplitN2 (TrimPrefix targetPath "/") "?").1 in
  if String.eqb path "discover" || String.eqb path "discover_now" then 120 * Second else 30 * Second.

Definition agent_target (rest : option string) (rawQuery : string) : string :=
  let path := match rest with Some p => "/" +:+ p | None => "/" end in
  if String.eqb rawQuery "" then path else path +:+ "?" +:+ rawQuery.

Definition handleAgentProxy (r : frequest) : M reply :=
  let '(agentID, rest) := SplitN2 (TrimPrefix (Path r) "/api/v1/proxy/agent/") "/" in
  if String.eqb agentID "" then mret (deny 400 "Agent ID required")
  else scoped r (fun scope =>
    let targetPath := agent_target rest (RawQuery r) in
    connected ← isAgentConnectedWS agentID;
    if negb connected then mret (deny 503 "Agent not connected via WebSocket")
    else
      agent ← ask (GetAgent agentID);
      match agent with
      | Err _ => mret (deny 404 "Agent not found")
      | Ok agent =>
          if negb (tenantAllowed scope (Agent_TenantID agent)) then mret (deny 403 "forbidden")
          else guarded r ActionProxyAgentConnect [Agent_TenantID agent]
            (proxyThroughWebSocketWithTimeout r agentID (agent_origin +:+ targetPath) (RawBody r) (agent_timeout targetPath))
      end).

Definition device_missing (e : db_error) : bool :=
  match e with NoRows => true | DbErr _ => Contains (ToLower (err_text e)) "not found" end.

Definition device_url (serial targetPath : string) : string := agent_origin +:+ "/proxy/" +:+ serial +:+ targetPath.

Definition proxyDeviceRequest (r : frequest) (serial targetPath : string) : M reply :=
  scoped r (fun scope =>
    d ← ask (GetDevice serial);
    match d with
    | Err e => mret (if device_missing e then deny 404 "Device not found" else deny 500 "Failed to query devices")
    | Ok d =>
        if String.eqb (IP d) "" && negb (IsUSB d) && negb (String.eqb (DeviceType d) "usb")
        then mret (deny 400 "Device has no IP address")
        else if String.eqb (Device_AgentID d) "" then mret (deny 400 "Device has no associated agent")
        else
          connected ← isAgentConnectedWS (Device_AgentID d);
          if negb connected then mret (deny 503 "Device's agent not connected via WebSocket")
          else
            agent ← ask (GetAgent (Device_AgentID d));
            match agent with
            | Err _ => mret (deny 404 "Agent not found")
            | Ok agent =>
                if negb (tenantAllowed scope (Agent_TenantID agent)) then mret (deny 403 "forbidden")
                else guarded r ActionProxyDeviceConnect [Agent_TenantID agent]
                  (proxyThroughWebSocket r (Device_AgentID d) (device_url serial targetPath))
            end
    end).

Definition handleDeviceProxy (r : frequest) : M reply :=
  match recoverDeviceProxyResourcePath (Path r) (RawQuery r) (Referer r) with
  | Some corrected => mret (FRedirect corrected)
  | None =>
      match parseDeviceProxyPath (Path r) device_prefix with
      | Err e => mret (deny 400 (path_error_text e))
      | Ok (serial, targetPath) => proxyDeviceRequest r serial (appendQueryToPath targetPath (RawQuery r))
      end
  end.

Definition handleLegacyDeviceProxy (r : frequest) : M reply :=
  match parseDeviceProxyPath (Path r) "/proxy/" with
  | Err _ => mret not_found
  | Ok (serial, targetPath) => proxyDeviceRequest r serial (appendQueryToPath targetPath (RawQuery r))
  end.

(** ** Actions on devices, forwarded to their agent *)

(** The agent of a device found by its serial number, when it is connected. *)
Definition with_device_agent (d : result reply Device) (offline : string) (k : string -> M reply) : M reply :=
  match d with
  | Err e => mret e
  | Ok d =>
      if String.eqb (Device_AgentID d) "" then mret (deny 400 "Device has no associated agent")
      else
        connected ← isAgentConnectedWS (Device_AgentID d);
        if negb connected then mret (deny 503 offline) else k (Device_AgentID d)
  end.

Definition device_by_serial (serial : string) : M (result reply Device) :=
  d ← ask (GetDevice serial);
  mret (match d with Ok d => Ok d | Err _ => Err (deny 404 "Device not found") end).

(** The body, read and decoded. *)
Definition posted {B} (r : frequest) (decoded : option B) (k : string -> B -> M reply) : M reply :=
  match Method r with
  | POST =>
      match RawBody r with
      | None => mret (deny 400 "Failed to read request body")
      | Some body => match decoded with None => mret (deny 400 "Invalid JSON") | Some b => k body b end
      end
  | _ => mret (deny 405 "POST only")
  end.

Definition handleDevicePreviewProxy (r : frequest) : M reply :=
  posted r (as_serial (fleet_body r)) (fun body serial =>
    d ← device_by_serial serial;
    with_device_agent d "Device's agent not connected" (fun agentID =>
      proxyThroughWebSocketWithTimeout r agentID (agent_origin +:+ "/devices/preview") (Some body) (60 * Second))).

Definition handleDeviceUpdateProxy (r : frequest) : M reply :=
  posted r (as_serial (fleet_body r)) (fun body serial =>
    if String.eqb serial "" then mret (deny 400 "Serial number required")
    else
      d ← device_by_serial serial;
      with_device_agent d "Device's agent not connected" (fun agentID =>
        proxyThroughWebSocketWithTimeout r agentID (agent_origin +:+ "/devices/update") (Some body) (30 * Second))).

(** Adding to the map of the body [null] panics. *)
Definition handleDeviceMetricsCollectProxy (r : frequest) : M reply :=
  posted r (as_serial (fleet_body r)) (fun _ serial =>
    d ← device_by_serial serial;
    with_device_agent d "Device's agent not connected" (fun agentID =>
      match as_map (fleet_body r) with
      | None => mret FCrash
      | Some m =>
          proxyThroughWebSocketWithTimeout r agentID (agent_origin +:+ "/devices/metrics/collect?async=true")
            (Some (json_print (Some (fset "async" (FBool true) m)))) (15 * Second)
      end)).

(** The device by its serial number, else the first one with the address. *)
Definition device_of_report (b : reportBody) : M (result reply Device) :=
  d ← (if String.eqb (report_DeviceSerial b) "" then mret None
       else d ← ask (GetDevice (report_DeviceSerial b)); mret (match d with Ok d => Some d | Err _ => None end));
  d ← (match d with
       | Some d => mret (Some d)
       | None =>
           if String.eqb (report_DeviceIP b) "" then mret None
           else
             l ← ask ListAllDevices;
             mret (match l with
                   | Ok l => snd <$> list_find (fun d => IP d = report_DeviceIP b) l
                   | Err _ => None
                   end)
       end);
  mret (match d with Some d => Ok d | None => Err (deny 404 "Device not found") end).

(** The report of a response that holds one, with the log of the server. *)
Definition put_logs (logs : list string) (m : fields) : fields :=
  match fget "report" m with
  | Some (FMap report) => fset "report" (FMap (fset "server_logs" (FStrs logs) report)) m
  | _ => m
  end.

(** Here the log is read for every response that is a JSON object. *)
Definition proxyReportWithServerLogs (r : frequest) (agentID targetURL body : string) : M reply :=
  a ← roundTrip r agentID targetURL (Headers r) (Some body) (60 * Second);
  match a with
  | NotSent => mret (deny 500 "Failed to send proxy request")
  | TimedOut => mret (deny 504 "Agent request timeout")
  | Answered m =>
      match fget "body" (msg_data m), answer_body m with
      | Some (FStr _), None => mret (deny 502 "Invalid agent response body")
      | _, answered =>
          let bytes := default "" answered in
          bytes ← (match json_parse bytes with
                   | None => mret bytes
                   | Some data =>
                       logs ← ask (TailLog 200);
                       mret (json_print (put_logs logs <$> data))
                   end);
          mret (FReply (status_of m) (hSet "Content-Type" "application/json" (answer_headers m (preset r))) (FBytes bytes))
      end
  end.

Definition report_offline : string := "Device's agent not connected - please submit from agent UI".

Definition handleDeviceReportProxy (r : frequest) : M reply :=
  posted r (as_report (fleet_body r)) (fun body b =>
    d ← device_of_report b;
    with_device_agent d report_offline (fun agentID =>
      proxyReportWithServerLogs r agentID (agent_origin +:+ "/api/report") body)).

Definition LF_ : string := String "010" "".
Definition sse (event data : string) : string := "event: " +:+ event +:+ LF_ +:+ "data: " +:+ data +:+ LF_ +:+ LF_.

Definition stream_error (error : string) : string :=
  sse "error" ("{" +:+ dq +:+ "error" +:+ dq +:+ ":" +:+ dq +:+ error +:+ dq +:+ "," +:+ dq +:+ "fallback" +:+ dq +:+ ":true}").

(** A buffered answer in place of a stream. *)
Definition buffered_event (m : Message) : M (list string) :=
  match answer_body m with
  | None => mret []
  | Some bytes =>
      bytes ← (match json_parse bytes with
               | Some (Some data) =>
                   match fget "report" data with
                   | Some (FMap _) => logs ← ask (TailLog 200); mret (json_print (Some (put_logs logs data)))
                   | _ => mret bytes
                   end
               | _ => mret bytes
               end);
      let status := status_of m in
      mret [if (200 <=? status)%Z && (status <? 300)%Z then sse "complete" bytes
            else stream_error ("Agent returned status " +:+ pretty status)]
  end.

(** The events sent for the messages, until the stream ends or the time is up. *)
Fixpoint stream_events (l : list Message) : M (list string) :=
  match l with
  | [] => mret [stream_error "Request timed out"]
  | m :: rest =>
      if String.eqb (Msg_Type m) "proxy_stream_chunk" then
        let chunk := if get_bool "is_start" (msg_data m) then None
                     else match fget "chunk" (msg_data m) with Some (FStr c) => DecodeString c | _ => None end in
        events ← stream_events rest;
        mret (match chunk with Some c => c :: events | None => events end)
      else if String.eqb (Msg_Type m) "proxy_stream_end" then mret []
      else if String.eqb (Msg_Type m) "proxy_response" then buffered_event m
      else stream_events rest
  end.

Definition stream_reply (events : list string) : reply := FReply 200 [] (FEvents events).

Definition proxyReportWithTrueStreaming (r : frequest) (agentID targetURL body : string) : M reply :=
  now ← ask Clock;
  let requestID := request_id agentID now in
  _ ← ask (RegisterProxy requestID);
  events ← (
    conn ← ask (Connection agentID);
    match conn with
    | None => mret [stream_error "Agent not connected"]
    | Some conn =>
        stamp ← ask Clock;
        err ← ask (WriteRaw conn {| Msg_Type := "proxy_request";
          Msg_Data := Some (fset "streaming" (FBool true)
            (proxy_fields requestID targetURL (MethodName r) (Headers r) (EncodeToString body)));
          Msg_Timestamp := stamp |});
        match err with
        | Some _ => mret [stream_error "Failed to contact agent"]
        | None => l ← ask (AwaitStream requestID (120 * Second)); stream_events l
        end
    end);
  _ ← ask (UnregisterProxy requestID);
  mret (stream_reply events).

Definition handleDeviceReportStreamProxy (r : frequest) : M reply :=
  posted r (as_report (fleet_body r)) (fun body b =>
    d ← device_of_report b;
    with_device_agent d report_offline (fun agentID =>
      proxyReportWithTrueStreaming r agentID (agent_origin +:+ "/api/report/stream") body)).
End Response.
