(* ===== verification/DevicesApi.v ===== *)
(** * The handlers of devices ([server/main.go]): their credentials, uploads, lists and
    deletion. *)
From S2P Require Import Prelude GoStrings GoTime GoText Effects Programs Authz AuditLog AccountCalls FleetCalls ProxyText ProxyApi.
#[local] Open Scope string_scope.

Section Devices.
Context `{GoUnicode} (cfg : FleetConfig).

(** ** Credentials *)

(** The tenant of the agent of the device, when there is such an agent; [None]: the tenant
    is not one of the user's. *)
Definition device_tenant (scope : option (gset string)) (d : Device) : M (option string) :=
  if String.eqb (Device_AgentID d) "" then mret (Some "")
  else
    agent ← ask (GetAgent (Device_AgentID d));
    mret (match agent with
          | Ok a => if tenantAllowed scope (Agent_TenantID a) then Some (Agent_TenantID a) else None
          | Err _ => Some ""
          end).

Definition readCredentials (r : frequest) (scope : option (gset string)) : M reply :=
  let serial := q r "serial" in
  if String.eqb serial "" then mret (json_reply [("error", FStr "serial required")])
  else
    d ← ask (GetDevice serial);
    match d with
    | Err _ => mret (json_reply [("exists", FBool false)])
    | Ok d =>
        tenant ← device_tenant scope d;
        match tenant with
        | None => mret (deny 403 "forbidden")
        | Some _ =>
            c ← ask (GetDeviceCredentials serial);
            mret (match c with
                  | Err _ => json_reply [("exists", FBool false)]
                  | Ok c => json_reply [("exists", FBool true); ("username", FStr (Cred_Username c));
                      ("auth_type", FStr (AuthType c)); ("auto_login", FBool (Cred_AutoLogin c))]
                  end)
        end
    end.

Definition encrypted (password : string) : M string :=
  if negb (String.eqb password "") && has_credentials_key cfg then
    e ← ask (Encrypt password); mret (default "" e)
  else mret "".

Definition new_credentials (b : credentialsBody) (secret tenantID : string) : DeviceCredentials :=
  let authType := ToLower (cred_AuthType b) in
  {| Cred_Serial := cred_Serial b; Cred_Username := TrimSpace (cred_Username b); EncryptedPassword := secret;
     AuthType := if String.eqb authType "" then "basic" else authType; Cred_AutoLogin := cred_AutoLogin b;
     Cred_TenantID := tenantID |}.

Definition unsaved (error : string) : reply := json_reply [("success", FBool false); ("error", FStr error)].

Definition saveCredentials (r : frequest) (scope : option (gset string)) : M reply :=
  match as_credentials (fleet_body r) with
  | None => mret (deny 400 "invalid json")
  | Some b =>
      if String.eqb (cred_Serial b) "" then mret (json_reply [("error", FStr "serial required")])
      else
        d ← ask (GetDevice (cred_Serial b));
        match d with
        | Err _ => mret (unsaved "device not found")
        | Ok d =>
            tenant ← device_tenant scope d;
            match tenant with
            | None => mret (deny 403 "forbidden")
            | Some tenantID =>
                secret ← encrypted (cred_Password b);
                err ← ask (UpsertDeviceCredentials (new_credentials b secret tenantID));
                mret (match err with Some _ => unsaved "save failed" | None => json_reply [("success", FBool true)] end)
            end
        end
  end.

Definition handleDeviceCredentials (r : frequest) : M reply :=
  scoped r (fun scope =>
    match Method r with
    | GET => readCredentials r scope
    | POST => saveCredentials r scope
    | _ => mret (deny 405 "method not allowed")
    end).

(** ** Deletion *)

Section Delete.
Context (gunzip : string -> option string) (gzip : string -> string) (mime_type : string -> string).
Context (json_print : option fields -> string).

(** The request for the agent, without a user. *)
Definition delete_request (r : frequest) : frequest :=
  {| base := {| Method := POST; Path := "/devices/delete"; RequestURI := ""; Query := ∅; Body := Body r; Host := "";
       TLS := false; Authorization := ""; SessionCookie := None; TenantCookie := None; ForwardedProto := "";
       ForwardedHost := ""; UserAgent := ""; clientIP := ""; principal := None |};
     MethodName := "POST"; RawQuery := ""; Referer := "";
     Headers := [("Content-Type", "application/json"); ("X-Printmaster-Server-Request", "true")];
     RawBody := None; fleet_body := fleet_body r; agent_of := None; preset := [] |}.

Definition deleted_by_agent (a : reply) : bool :=
  match a with FReply status _ _ => (status =? 200)%Z || (status =? 0)%Z | _ => false end.

Definition deleteFromAgent (r : frequest) (serial agentID : string) : M (option bool) :=
  connected ← isAgentConnectedWS agentID;
  if negb connected then mret (Some false)
  else
    a ← proxyThroughWebSocketWithTimeout gunzip gzip mime_type (delete_request r) agentID
          (agent_origin +:+ "/devices/delete") (Some (json_print (Some [("serial", FStr serial)]))) (15 * Second);
    mret (match a with FCrash => None | _ => Some (deleted_by_agent a) end).

Definition deleted_fields (b : deleteBody) (fromAgent : bool) : fields :=
  [("deleted_from_agent", FBool fromAgent); ("deleted_metrics", FBool (del_DeleteMetrics b))].

Definition deleteDevice (r : frequest) (b : deleteBody) : M reply :=
  d ← ask (GetDevice (del_Serial b));
  let agentID := match d with Ok d => Device_AgentID d | Err _ => del_AgentID b end in
  fromAgent ← (if del_DeleteFromAgent b && negb (String.eqb agentID "")
               then deleteFromAgent r (del_Serial b) agentID else mret (Some false));
  match fromAgent with
  | None => mret FCrash
  | Some fromAgent =>
      let finish fromServer : M reply :=
        if negb fromServer && negb fromAgent then mret (deny 404 "Device not found on server or agent")
        else
          _ ← ask (Broadcast "device_deleted" ([("serial", FStr (del_Serial b)); ("agent_id", FStr agentID)] ++ deleted_fields b fromAgent)%list);
          mret (json_reply ([("message", FStr "Device deleted successfully"); ("serial", FStr (del_Serial b))] ++ deleted_fields b fromAgent)%list) in
      match d with
      | Err _ => finish false
      | Ok _ =>
          err ← ask (DeleteDevice (del_Serial b) (del_DeleteMetrics b));
          match err with
          | Some e => mret (deny 500 ("Failed to delete device: " +:+ err_text e))
          | None => finish true
          end
      end
  end.

Definition handleDeviceDelete (r : frequest) : M reply :=
  match Method r with
  | POST | DELETE =>
      match RawBody r with
      | None => mret (deny 400 "Failed to read request body")
      | Some _ =>
          match as_delete (fleet_body r) with
          | None => mret (deny 400 "Invalid JSON")
          | Some b => if String.eqb (del_Serial b) "" then mret (deny 400 "Serial number required") else deleteDevice r b
          end
      end
  | _ => mret (deny 405 "POST or DELETE only")
  end.
End Delete.

(** ** Uploads *)

(** The device of an item: the texts and flags it has, of the agent that the body names. *)
Definition uploaded_device (b : batchBody) (m : fields) : Device :=
  {| Serial := get_str "serial" m; IP := get_str "ip" m; Manufacturer := get_str "manufacturer" m;
     Model := get_str "model" m; Device_Hostname := get_str "hostname" m; Firmware := get_str "firmware" m;
     MACAddress := get_str "mac_address" m; SubnetMask := ""; Gateway := ""; Consumables := []; StatusMessages := [];
     Device_LastSeen := batch_Timestamp b; Device_CreatedAt := batch_Timestamp b; FirstSeen := batch_Timestamp b;
     DiscoveryMethod := ""; AssetNumber := ""; Device_Location := ""; Description := ""; WebUIURL := "";
     RawData := Some m; DeviceType := get_str "device_type" m; SourceType := get_str "source_type" m;
     IsUSB := get_bool "is_usb" m; InitialPageCount := 0; PortName := get_str "port_name" m;
     DriverName := get_str "driver_name" m; IsDefault := get_bool "is_default" m; IsShared := get_bool "is_shared" m;
     SpoolerStatus := get_str "spooler_status" m; UsbWebUIAvailable := get_bool "usb_webui_available" m;
     Device_AgentID := batch_AgentID b |}.

Definition device_event (d : Device) : fields :=
  [("agent_id", FStr (Device_AgentID d)); ("serial", FStr (Serial d)); ("ip", FStr (IP d));
   ("manufacturer", FStr (Manufacturer d)); ("model", FStr (Model d)); ("hostname", FStr (Device_Hostname d))].

(** The number of devices stored. *)
Fixpoint store_devices (b : batchBody) (items : list fields) : M nat :=
  match items with
  | [] => mret O
  | m :: rest =>
      let d := uploaded_device b m in
      if String.eqb (Serial d) "" then store_devices b rest
      else
        err ← ask (UpsertDevice d);
        match err with
        | Some _ => store_devices b rest
        | None =>
            _ ← ask (Broadcast "device_updated" (device_event d));
            n ← store_devices b rest;
            mret (S n)
        end
  end.

Definition counts (b : batchBody) (stored : nat) : fields :=
  [("received", FInt (Z.of_nat (length (batch_Items b)))); ("stored", FInt (Z.of_nat stored))].

(** Without an agent the assertion of its type panics. *)
Definition uploaded (r : frequest) (b : batchBody) (action noun : string) (stored : nat) : M reply :=
  match agent_of r with
  | None => mret FCrash
  | Some a =>
      let received := Z.of_nat (length (batch_Items b)) in
      _ ← audit (agent_entry r a action
            ("Uploaded " +:+ pretty received +:+ " " +:+ noun +:+ " (" +:+ pretty (Z.of_nat stored) +:+ " stored)") (counts b stored));
      mret (json_reply (("success", FBool true) :: counts b stored))
  end.

Definition handleDevicesBatch (r : frequest) : M reply :=
  match Method r with
  | POST =>
      match as_batch (fleet_body r) with
      | None => mret (deny 400 "Invalid JSON")
      | Some b => n ← store_devices b (batch_Items b); uploaded r b "upload_devices" "devices" n
      end
  | _ => mret (deny 405 "POST only")
  end.

(** ** Lists *)

Definition enriched (metrics : gmap string MetricsSnapshot) (d : Device) : DeviceWithMetrics :=
  match metrics !! Serial d with
  | Some m => {| dm_Device := d; dm_TonerLevels := TonerLevels m; dm_PageCount := PageCount m; dm_ColorPages := ColorPages m;
                 dm_MonoPages := MonoPages m; dm_ScanCount := ScanCount m; dm_LastMetricsAt := Some (Metrics_Timestamp m) |}
  | None => {| dm_Device := d; dm_TonerLevels := []; dm_PageCount := 0; dm_ColorPages := 0; dm_MonoPages := 0;
               dm_ScanCount := 0; dm_LastMetricsAt := None |}
  end.

Definition enrichDevicesWithMetrics (devices : list Device) : M (list DeviceWithMetrics) :=
  match devices with
  | [] => mret []
  | _ =>
      metrics ← ask (GetLatestMetricsBatch (filter (fun s => s <> "") (map Serial devices)));
      mret (map (enriched (match metrics with Ok m => m | Err _ => ∅ end)) devices)
  end.

(** The identifiers of the agents of the scope. *)
Definition allowed_agents (scope : option (gset string)) (agents : list Agent) : list string :=
  map Agent_ID (filter (fun a => tenantAllowed scope (Agent_TenantID a) = true) agents).

(** An empty list of agents filters nothing. *)
Definition listed_devices (scope : option (gset string)) (allowed : list string) (devices : list Device) : list Device :=
  match scope, allowed with
  | Some _, _ :: _ => filter (fun d => Device_AgentID d ∈ allowed) devices
  | _, _ => devices
  end.

Definition listDevices (r : frequest) (scope : option (gset string)) (allowed : list string) : M reply :=
  if negb (String.eqb (q r "limit") "") then
    let '(limit, offset) := page_of r in
    total ← ask (CountDevices allowed);
    match total with
    | Err _ => mret (deny 500 "Failed to count devices")
    | Ok total =>
        devices ← ask (ListAllDevicesPaginated limit offset allowed);
        match devices with
        | Err _ => mret (deny 500 "Failed to list devices")
        | Ok devices =>
            items ← enrichDevicesWithMetrics devices;
            mret (FReply 200 [] (FDevices items (Some (total, has_more offset (length devices) total, limit, offset))))
        end
    end
  else
    devices ← ask ListAllDevices;
    match devices with
    | Err _ => mret (deny 500 "Failed to list devices")
    | Ok devices =>
        items ← enrichDevicesWithMetrics (listed_devices scope allowed devices);
        mret (FReply 200 [] (FDevices items None))
    end.

Definition handleDevicesList (r : frequest) : M reply :=
  match Method r with
  | GET =>
      guarded r ActionDevicesRead [] (
      scoped r (fun scope =>
        match scope with
        | None => listDevices r None []
        | Some _ =>
            agents ← ask ListAgents;
            match agents with
            | Err _ => mret (deny 500 "Failed to list devices")
            | Ok agents => listDevices r scope (allowed_agents scope agents)
            end
        end))
  | _ => mret (deny 405 "GET only")
  end.
End Devices.
