(* ===== verification/Dashboard.v ===== *)
(** * The tree of the dashboard ([handleDashboardTree] of [server/main.go]): tenants, their
    sites, the agents of a site, the devices of an agent, and their counts. *)
From stdpp Require Import sorting.
From S2P Require Import Prelude GoStrings GoTime GoFloat Effects Programs Authz OverrideMap AuditLog AccountCalls FleetCalls DevicesApi.

(** ** Supplies and states *)

Definition level_of (v : field) : option Z :=
  match v with FNum f => Some (int_of_float f) | FInt z => Some z | _ => None end.

Definition lower_level (lowest : Z) (kv : string * field) : Z :=
  match level_of kv.2 with
  | Some level => if (0 <=? level) && (level <? lowest) then level else lowest
  | None => lowest
  end.

(** -1 without a valid level; the levels are visited in any order. *)
Definition getLowestSupplyLevel (tonerLevels : fields) : Z :=
  let lowest := foldl lower_level 101 tonerLevels in
  if 100 <? lowest then -1 else lowest.

Definition deriveSupplyStatus (level : Z) : string :=
  if level <? 0 then "unknown"
  else if level <=? 10 then "critical"
  else if level <=? 25 then "low"
  else if level <=? 50 then "medium"
  else "high".

Definition deriveDeviceStatus (d : Device) : string :=
  match RawData d with
  | Some m =>
      if negb (String.eqb (get_str "error" m) "") then "error"
      else if get_bool "paper_jam" m then "jam"
      else "healthy"
  | None => "healthy"
  end.

(** ** Counts *)

Definition no_metrics : NodeMetrics := {| nm_Devices := 0; nm_Critical := 0; nm_Low := 0; nm_Pages := 0 |}.
Definition add_metrics (a b : NodeMetrics) : NodeMetrics :=
  {| nm_Devices := nm_Devices a + nm_Devices b; nm_Critical := nm_Critical a + nm_Critical b;
     nm_Low := nm_Low a + nm_Low b; nm_Pages := wrap64 (nm_Pages a + nm_Pages b) |}.
Definition total_metrics (l : list NodeMetrics) : NodeMetrics := foldl add_metrics no_metrics l.

Definition device_metrics (d : DeviceWithMetrics) : NodeMetrics :=
  let lowest := getLowestSupplyLevel (dm_TonerLevels d) in
  let critical := (0 <=? lowest) && (lowest <=? 10) in
  let low := negb critical && ((10 <? lowest) && (lowest <=? 25)) in
  {| nm_Devices := 1; nm_Critical := if critical then 1 else 0; nm_Low := if low then 1 else 0;
     nm_Pages := wrap64 (dm_PageCount d) |}.
Definition devices_metrics (l : list DeviceWithMetrics) : NodeMetrics := total_metrics (map device_metrics l).

(** ** Nodes *)

Definition device_summary (d : DeviceWithMetrics) : DashboardDeviceSummary :=
  let lowest := getLowestSupplyLevel (dm_TonerLevels d) in
  let dev := dm_Device d in
  {| sum_Serial := Serial dev; sum_Manufacturer := Manufacturer dev; sum_Model := Model dev; sum_IP := IP dev;
     sum_Status := deriveDeviceStatus dev; LowestSupply := lowest; SupplyStatus := deriveSupplyStatus lowest;
     sum_PageCount := dm_PageCount d; sum_Location := Device_Location dev; sum_LastSeen := Device_LastSeen dev |}.

Definition buildDashboardAgent (a : Agent) (devices : list DeviceWithMetrics) (includeDevices : bool) : M DashboardAgent :=
  conn ← deriveAgentConnectionType a;
  mret {| da_AgentID := Agent_ID a; da_Name := if String.eqb (Agent_Name a) "" then Agent_Hostname a else Agent_Name a;
          da_Status := Agent_Status a; da_ConnectionType := conn; da_Version := Agent_Version a;
          da_Platform := Agent_Platform a; da_Metrics := devices_metrics devices; da_LastSeen := Agent_LastSeen a;
          da_Devices := if includeDevices then Some (map device_summary devices) else None |}.

(** What the tree is built from. *)
Record fleet := {
  fl_Agents : list Agent;
  fl_Devices : list DeviceWithMetrics;
  fl_Sites : gmap string (list string);
  fl_Include : bool;
}.

Section Tree.
Context (f : fleet).

Definition devices_of (a : Agent) : list DeviceWithMetrics :=
  filter (fun d => Device_AgentID (dm_Device d) = Agent_ID a) (fl_Devices f).

Definition sites_of (a : Agent) : list string := default [] (fl_Sites f !! Agent_ID a).

Fixpoint build_agents (l : list Agent) : M (list DashboardAgent) :=
  match l with
  | [] => mret []
  | a :: l' =>
      da ← buildDashboardAgent a (devices_of a) (fl_Include f);
      rest ← build_agents l';
      mret (da :: rest)
  end.

(** The agents of a site, once for each time an agent names it. *)
Definition agents_at (siteID : string) (l : list Agent) : list Agent :=
  flat_map (fun a => map (fun _ => a) (filter (fun s => s = siteID) (sites_of a))) l.

Definition without_site (l : list Agent) : list Agent := filter (fun a => sites_of a = []) l.

Definition online (l : list Agent) : Z := Z.of_nat (length (filter (fun a => Agent_Status a = "active") l)).

Definition node_total (l : list DashboardAgent) : NodeMetrics := total_metrics (map da_Metrics l).

Fixpoint build_sites (sites : list SiteInfo) (agents : list Agent) : M (list DashboardSite) :=
  match sites with
  | [] => mret []
  | s :: sites' =>
      let here := agents_at (Site_ID s) agents in
      das ← build_agents here;
      rest ← build_sites sites' agents;
      mret ({| ds_Site := s; ds_AgentCount := Z.of_nat (length here); ds_OnlineAgents := online here;
               ds_Metrics := node_total das; ds_Agents := das |} :: rest)
  end.

Definition unassigned_id : string := "__unassigned__".

(** The tenant of the agents without one is added by the caller. *)
Definition agents_of_tenant (t : TenantName) : list Agent :=
  filter (fun a => Agent_TenantID a = if String.eqb (Tenant_ID t) unassigned_id then "" else Tenant_ID t) (fl_Agents f).

Definition build_tenant (t : TenantName) : M DashboardTenant :=
  sites ← (if String.eqb (Tenant_ID t) unassigned_id then mret []
           else s ← ask (ListSitesByTenant (Tenant_ID t)); mret (match s with Ok l => l | Err _ => [] end));
  let agents := agents_of_tenant t in
  dss ← build_sites sites agents;
  das ← build_agents (without_site agents);
  mret {| dt_ID := Tenant_ID t; dt_Name := Tenant_Name t; dt_SiteCount := Z.of_nat (length sites);
          dt_AgentCount := Z.of_nat (length agents);
          dt_OnlineAgents := foldl Z.add 0 (map ds_OnlineAgents dss) + online (without_site agents);
          dt_Metrics := add_metrics (total_metrics (map ds_Metrics dss)) (node_total das);
          dt_Sites := dss; dt_Agents := das |}.

Fixpoint build_tenants (l : list TenantName) : M (list DashboardTenant) :=
  match l with
  | [] => mret []
  | t :: l' => dt ← build_tenant t; rest ← build_tenants l'; mret (dt :: rest)
  end.
End Tree.

(** The sites of each agent; an error leaves none. *)
Fixpoint load_sites (l : list Agent) (m : gmap string (list string)) : M (gmap string (list string)) :=
  match l with
  | [] => mret m
  | a :: l' =>
      s ← ask (GetAgentSiteIDs (Agent_ID a));
      load_sites l' (<[Agent_ID a := match s with Ok s => s | Err _ => [] end]> m)
  end.

Section Sorting.
Context `{GoUnicode}.

(** The comparison of the sort, which puts the tenants of equal names in any order. *)
Definition tenant_less (x y : DashboardTenant) : bool :=
  if String.eqb (dt_ID x) unassigned_id then false
  else if String.eqb (dt_ID y) unassigned_id then true
  else negb (bool_decide (str_le (ToLower (dt_Name y)) (ToLower (dt_Name x)))).
Definition tenant_le (x y : DashboardTenant) : Prop := tenant_less y x = false.

#[export] Instance tenant_le_dec : RelDecision tenant_le.
Proof. intros x y. unfold tenant_le. apply _. Defined.

Definition sort_tenants (l : list DashboardTenant) : list DashboardTenant := merge_sort tenant_le l.

Definition unassigned : TenantName := {| Tenant_ID := unassigned_id; Tenant_Name := "Unassigned" |}.

(** The tenants shown. *)
Definition shown_tenants (scope : option (gset string)) (tenants : list TenantName) (agents : list Agent) : list TenantName :=
  filter (fun t => tenantAllowed scope (Tenant_ID t) = true) tenants
  ++ (if existsb (fun a => String.eqb (Agent_TenantID a) "") agents && tenantAllowed scope "" then [unassigned] else []).

Definition load_failed : reply := deny 500 "Failed to load dashboard data".

Definition dashboard (r : frequest) (scope : option (gset string)) (tenants : list TenantName) (agents : list Agent)
  (devices : list Device) : M reply :=
  let agents := filter (fun a => tenantAllowed scope (Agent_TenantID a) = true) agents in
  let ids : gset string := list_to_set (map Agent_ID agents) in
  let devices := filter (fun d => Device_AgentID d ∈ ids) devices in
  enriched ← enrichDevicesWithMetrics devices;
  sites ← load_sites agents ∅;
  let shown := shown_tenants scope tenants agents in
  let f := {| fl_Agents := agents; fl_Devices := enriched; fl_Sites := sites;
              fl_Include := negb (String.eqb (q r "include_devices") "false") |} in
  dts ← build_tenants f shown;
  mret (FReply 200 [] (FTree {| tree_TenantCount := Z.of_nat (length shown);
    tree_SiteCount := foldl Z.add 0 (map dt_SiteCount dts); tree_AgentCount := Z.of_nat (length agents);
    tree_Metrics := devices_metrics enriched; tree_Tenants := sort_tenants dts |})).

Definition handleDashboardTree (r : frequest) : M reply :=
  match Method r with
  | GET =>
      guarded r ActionDevicesRead [] (
      scoped r (fun scope =>
        tenants ← ask ListTenants;
        match tenants with
        | Err _ => mret load_failed
        | Ok tenants =>
            agents ← ask ListAgents;
            match agents with
            | Err _ => mret load_failed
            | Ok agents =>
                devices ← ask ListAllDevices;
                match devices with
                | Err _ => mret load_failed
                | Ok devices => dashboard r scope tenants agents devices
                end
            end
        end))
  | _ => mret (deny 405 "GET only")
  end.
End Sorting.
