(* ===== verification/MetricsApi.v ===== *)
(** * The handlers of metrics ([server/main.go]): summary, aggregation, history with its
    reduction to a number of points, and the upload. *)
From S2P Require Import Prelude GoStrings GoTime GoFloat Effects Programs Authz AuditLog AccountCalls FleetCalls DevicesApi.
From Stdlib Require Import Ascii Floats.SpecFloat.

Notation snap := MetricsSnapshot.

(** ** Reduction *)

Definition abs64 (x : float64) : float64 := if fltb x (float_of_Z 0) then SFopp x else x.
Definition fsub (x y : float64) : float64 := SFsub prec64 emax64 x y.

(** [data[i]], with the panic of an index out of range. *)
Definition at_index (data : list snap) (i : Z) : option snap := if i <? 0 then None else data !! Z.to_nat i.

(** How far the value at [j] is from the line through the ends of the bucket. *)
Definition deviation (first last : Z) (prev next actual : float64) (j : Z) : float64 :=
  let t := fdiv (float_of_Z (wrap64 (j - first + 1))) (float_of_Z (wrap64 (last - first + 1))) in
  abs64 (fsub actual (fadd prev (fmul t (fsub next prev)))).

(** The loop over a bucket of [n] points from [j]: the best index and its deviation. *)
Fixpoint best_in (data : list snap) (first last : Z) (prev next : float64) (n : nat) (j : Z) (best : Z * float64)
  : option Z :=
  match n with
  | O => Some best.1
  | S n =>
      match at_index data j with
      | None => None
      | Some m =>
          let d := deviation first last prev next (float_of_Z (PageCount m)) j in
          best_in data first last prev next n (j + 1) (if fltb best.2 d then (j, d) else best)
      end
  end.

(** The ends of the bucket [i]. *)
Definition bucket (bucketSize : float64) (n i : Z) : Z * Z :=
  let edge k := wrap64 (int_of_float (fmul (float_of_Z k) bucketSize) + 1) in
  (edge i, if n - 1 <? edge (i + 1) then n - 1 else edge (i + 1)).

(** Nothing for an empty bucket. *)
Definition from_bucket (data : list snap) (bucketSize : float64) (i : Z) : option (list snap) :=
  let '(first, last) := bucket bucketSize (Z.of_nat (length data)) i in
  if last <=? first then Some []
  else
    p ← at_index data (first - 1);
    x ← at_index data last;
    best ← best_in data first last (float_of_Z (PageCount p)) (float_of_Z (PageCount x)) (Z.to_nat (last - first)) first
             (first, float_of_Z 0);
    m ← at_index data best;
    Some [m].

Fixpoint from_buckets (data : list snap) (bucketSize : float64) (k : nat) (i : Z) : option (list snap) :=
  match k with
  | O => Some []
  | S k =>
      l ← from_bucket data bucketSize i;
      rest ← from_buckets data bucketSize k (i + 1);
      Some (l ++ rest)
  end.

(** [None]: an index out of range. *)
Definition downsampleMetrics (data : list snap) (targetPoints : Z) : option (list snap) :=
  let n := Z.of_nat (length data) in
  if (n <=? targetPoints) || (targetPoints <? 3) then Some data
  else
    let bucketSize := fdiv (float_of_Z (n - 2)) (float_of_Z (targetPoints - 2)) in
    first ← at_index data 0;
    middle ← from_buckets data bucketSize (Z.to_nat (targetPoints - 2)) 0;
    last ← at_index data (n - 1);
    Some ([first] ++ middle ++ [last]).

(** ** Handlers *)

Definition RFC3339 : string := "2006-01-02T15:04:05Z07:00".

Section Metrics.
Context `{GoUnicode}.
(** [time.Parse] and the start of the process. *)
Context (parse_time : string -> string -> option Time) (format_nano : Time -> string) (processStart : Time).

Definition summary_reply (agents : list Agent) (devices : list Device) : reply :=
  json_reply [("agents_count", FInt (Z.of_nat (length agents))); ("devices_count", FInt (Z.of_nat (length devices)));
    ("devices_with_metrics_24h", FInt 0); ("recent", FList [])].

Definition handleMetricsSummary (r : frequest) : M reply :=
  match Method r with
  | GET =>
      guarded r ActionMetricsSummaryRead [] (
      scoped r (fun scope =>
        agents ← ask ListAgents;
        match agents with
        | Err _ => mret (deny 500 "Failed to fetch metrics summary")
        | Ok agents =>
            devices ← ask ListAllDevices;
            match devices with
            | Err _ => mret (deny 500 "Failed to fetch metrics summary")
            | Ok devices =>
                mret (match scope with
                      | None => summary_reply agents devices
                      | Some _ =>
                          let agents := filter (fun a => tenantAllowed scope (Agent_TenantID a) = true) agents in
                          summary_reply agents (filter (fun d => Device_AgentID d ∈ map Agent_ID agents) devices)
                      end)
            end
        end))
  | _ => mret (deny 405 "GET only")
  end.

(** The tenants of the aggregation: an empty list is all of them. *)
Definition aggregated_tenants (p : Principal) (filterTenantID : string) : list string :=
  let tenantIDs := P_AllowedTenantIDs p in
  if String.eqb filterTenantID "" then tenantIDs
  else match tenantIDs with
       | [] => [filterTenantID]
       | _ => if mem_str filterTenantID tenantIDs then [filterTenantID] else tenantIDs
       end.

(** For now both filters keep everything. *)
Definition filterAggregatedMetricsByAgent (a : AggregatedMetrics) (agentID : string) : AggregatedMetrics := a.
Definition filterAggregatedMetricsByDevice (a : AggregatedMetrics) (serial : string) : AggregatedMetrics := a.

(** [d.Seconds()] *)
Definition Seconds (d : Duration) : float64 :=
  fadd (float_of_Z (Z.quot d Second)) (fdiv (float_of_Z (Z.rem d Second)) (float_of_Z 1000000000)).

Definition attachServerStats (a : AggregatedMetrics) : M AggregatedMetrics :=
  generated ← ask Clock;
  now ← ask Clock;
  host ← ask OsHostname;
  info ← ask ReadRuntime;
  database ← ask GetDatabaseStats;
  let '(version, cpus, goroutines, memory) := info in
  mret {| Agg_GeneratedAt := Agg_GeneratedAt a; RangeStart := RangeStart a; RangeEnd := RangeEnd a;
          Agg_Fleet := Agg_Fleet a;
          Agg_Server := Some {|
            Stats_Hostname := match host with Some h => if String.eqb h "" then "PrintMaster" else h | None => "PrintMaster" end;
            UptimeSeconds := int_of_float (Seconds (Since now processStart)); Stats_GeneratedAt := generated;
            Stats_Runtime := {| Runtime_GoVersion := version; NumCPU := cpus; NumGoroutine := goroutines;
                                StartTime := processStart; Memory := memory |};
            Database := match database with Ok s => Some s | Err _ => None end |} |}.

(** The beginning of the range; [None]: an invalid parameter. *)
Definition aggregated_since (since : string) : M (option Time) :=
  if String.eqb since "" then now ← ask Clock; mret (Some (Add now (- (24 * Hour))))
  else mret (match parse_time RFC3339 since with
             | Some t => Some t
             | None => parse_time "2006-01-02T15:04:05" since
             end).

Definition handleMetricsAggregated (r : frequest) : M reply :=
  match Method r with
  | GET =>
      guarded r ActionMetricsSummaryRead [] (
      match principal r with
      | None => mret (deny 401 "unauthenticated")
      | Some p =>
          since ← aggregated_since (q r "since");
          match since with
          | None => mret (deny 400 "invalid since parameter")
          | Some since =>
              agg ← ask (GetAggregatedMetrics since (aggregated_tenants p (q r "tenant_id")));
              match agg with
              | Err _ => mret (deny 500 "Internal Server Error")
              | Ok agg =>
                  let agg := if String.eqb (q r "agent_id") "" then agg else filterAggregatedMetricsByAgent agg (q r "agent_id") in
                  let agg := if String.eqb (q r "device_serial") "" then agg
                             else filterAggregatedMetricsByDevice agg (q r "device_serial") in
                  agg ← attachServerStats agg;
                  mret (FReply 200 [] (FAggregated agg))
              end
          end
      end)
  | _ => mret (deny 405 "GET only")
  end.

(** A parameter that is a time: absent, invalid or given. *)
Definition time_param (text : string) : result unit (option Time) :=
  if String.eqb text "" then Ok None
  else match parse_time RFC3339 text with Some t => Ok (Some t) | None => Err tt end.

Definition handleServerMetricsTimeSeries (r : frequest) : M reply :=
  match Method r with
  | GET =>
      guarded r ActionMetricsSummaryRead [] (
      now ← ask Clock;
      match time_param (q r "start"), time_param (q r "end") with
      | Err _, _ => mret (deny 400 "invalid start parameter (use RFC3339)")
      | _, Err _ => mret (deny 400 "invalid end parameter (use RFC3339)")
      | Ok start, Ok finish =>
          let '(max, ok) := Atoi (q r "max_points") in
          res ← ask (GetServerMetrics {|
            Query_Start := default (Add now (- (24 * Hour))) start; Query_End := default now finish;
            Resolution := q r "resolution";
            Series := if String.eqb (q r "series") "" then [] else Split (q r "series") ","%char;
            MaxPoints := if ok && (0 <? max) then max else 1000 |});
          mret (match res with Err _ => deny 500 "Internal Server Error" | Ok m => json_reply m end)
      end)
  | _ => mret (deny 405 "GET only")
  end.

(** Without data, an empty snapshot of the current time. *)
Definition handleServerMetricsLatest (r : frequest) : M reply :=
  match Method r with
  | GET =>
      guarded r ActionMetricsSummaryRead [] (
      res ← ask GetLatestServerMetrics;
      match res with
      | Err _ => mret (deny 500 "Internal Server Error")
      | Ok (Some m) => mret (json_reply m)
      | Ok None => now ← ask Clock;
                   mret (json_reply [("timestamp", FTime now); ("tier", FStr "raw"); ("fleet", FMap []); ("server", FMap [])])
      end)
  | _ => mret (deny 405 "GET only")
  end.

(** ** The history of a device *)

(** The tenant of the device's agent is checked for users with a scope. *)
Definition device_in_scope (r : frequest) (scope : option (gset string)) (serial : string) (k : M reply) : M reply :=
  match scope with
  | None => k
  | Some _ =>
      d ← ask (GetDevice serial);
      match d with
      | Err _ => mret (deny 404 "device not found")
      | Ok d =>
          if String.eqb (Device_AgentID d) "" then mret (deny 404 "device not found")
          else
            agent ← ask (GetAgent (Device_AgentID d));
            match agent with
            | Err _ => mret (deny 404 "device not found")
            | Ok agent =>
                if negb (tenantAllowed scope (Agent_TenantID agent)) then mret (deny 403 "forbidden")
                else guarded r ActionMetricsHistoryRead [Agent_TenantID agent] k
            end
      end
  end.

Definition handleMetricsBounds (r : frequest) : M reply :=
  match Method r with
  | GET =>
      guarded r ActionMetricsHistoryRead [] (
      scoped r (fun scope =>
        let serial := q r "serial" in
        if String.eqb serial "" then mret (deny 400 "serial parameter required")
        else device_in_scope r scope serial (
          res ← ask (GetMetricsBounds serial);
          mret (match res with
                | Err _ => deny 404 "no metrics found"
                | Ok (minTS, maxTS, count) =>
                    json_reply [("serial", FStr serial); ("min_timestamp", FStr (format_nano minTS));
                      ("max_timestamp", FStr (format_nano maxTS)); ("points", FInt count)]
                end))))
  | _ => mret (deny 405 "GET only")
  end.

Definition max_points (r : frequest) : Z :=
  let '(n, ok) := Atoi (q r "maxPoints") in
  if ok && (0 <? n) then (if 10000 <? n then 10000 else n) else 200.

Definition period_days (period : string) : Z :=
  if String.eqb period "day" then 1
  else if String.eqb period "month" then 30
  else if String.eqb period "year" then 365
  else 7.

Definition handleMetricsHistory (r : frequest) : M reply :=
  match Method r with
  | GET =>
      guarded r ActionMetricsHistoryRead [] (
      scoped r (fun scope =>
        let serial := q r "serial" in
        if String.eqb serial "" then mret (deny 400 "serial parameter required")
        else
          now ← ask Clock;
          match time_param (q r "since") with
          | Err _ => mret (deny 400 "invalid since parameter (use RFC3339)")
          | Ok since =>
              let since := default (Add now (- (period_days (q r "period") * 24 * Hour))) since in
              device_in_scope r scope serial (
                res ← ask (GetMetricsHistory serial since);
                mret (match res with
                      | Err _ => deny 500 "failed to get metrics history"
                      | Ok history =>
                          if negb (String.eqb (q r "raw") "true") && (max_points r <? Z.of_nat (length history))
                          then match downsampleMetrics history (max_points r) with
                               | Some l => FReply 200 [] (FHistory l)
                               | None => FCrash
                               end
                          else FReply 200 [] (FHistory history)
                      end))
          end))
  | _ => mret (deny 405 "GET only")
  end.

(** ** Uploads *)

Definition uploaded_metrics (b : batchBody) (m : fields) : snap :=
  {| Metrics_ID := 0; Metrics_Serial := get_str "serial" m; Metrics_AgentID := batch_AgentID b;
     Metrics_Timestamp := batch_Timestamp b; PageCount := get_num "page_count" m; ColorPages := get_num "color_pages" m;
     MonoPages := get_num "mono_pages" m; ScanCount := get_num "scan_count" m; FaxPages := 0;
     TonerLevels := match fget "toner_levels" m with Some (FMap l) => l | _ => [] end; Tier := "" |}.

Fixpoint store_metrics (b : batchBody) (items : list fields) : M nat :=
  match items with
  | [] => mret O
  | m :: rest =>
      let s := uploaded_metrics b m in
      if String.eqb (Metrics_Serial s) "" then store_metrics b rest
      else
        err ← ask (SaveMetrics s);
        match err with
        | Some _ => store_metrics b rest
        | None => n ← store_metrics b rest; mret (S n)
        end
  end.

Definition handleMetricsBatch (r : frequest) : M reply :=
  match Method r with
  | POST =>
      match as_batch (fleet_body r) with
      | None => mret (deny 400 "Invalid JSON")
      | Some b => n ← store_metrics b (batch_Items b); uploaded r b "upload_metrics" "metric snapshots" n
      end
  | _ => mret (deny 405 "POST only")
  end.
End Metrics.

Definition point (i v : Z) : snap :=
  {| Metrics_ID := i; Metrics_Serial := "S"; Metrics_AgentID := "A"; Metrics_Timestamp := i; PageCount := v; ColorPages := 0;
     MonoPages := 0; ScanCount := 0; FaxPages := 0; TonerLevels := []; Tier := "" |}.
Definition points (l : list Z) : list snap := imap (fun i v => point (Z.of_nat i) v) l.
Example peak_kept :
  option_map (map Metrics_ID) (downsampleMetrics (points [0; 1; 2; 900; 4; 5; 6; 7; 8; 9; 10; 11]) 5) = Some [0; 3; 4; 7; 11].
Proof. vm_compute. reflexivity. Qed.
