(* ===== verification/FleetRoutes.v ===== *)
(** * Routes of the fleet handlers ([setupRoutes] of [server/main.go]), and a small fleet to try them on. *)
From S2P Require Import Prelude GoStrings GoTime Effects Programs Authz AuditLog AccountCalls GoText FleetCalls AgentsApi ProxyText ProxyApi DevicesApi Dashboard MetricsApi.

Inductive endpoint :=
| Heartbeat | AgentCredentials | AgentList | AgentCommand | AgentDetails
| AgentProxy | DeviceProxy | LegacyProxy
| DeviceUpload | DeviceList | MetricsUpload | DashboardTree
| DevicePreview | DeviceUpdate | DeviceCollect | DeviceReport | DeviceReportStream | DeviceDelete
| MetricsSummary | MetricsAggregated | MetricsSeries | MetricsLatest | MetricsHistory | MetricsBounds
| WebCredentials.

Definition fleet_routes : list (string * endpoint) :=
  [("/api/v1/agents/heartbeat", Heartbeat); ("/api/v1/agents/device-credentials", AgentCredentials);
   ("/api/v1/agents/list", AgentList); ("/api/v1/agents/command/", AgentCommand); ("/api/v1/agents/", AgentDetails);
   ("/api/v1/proxy/agent/", AgentProxy); ("/api/v1/proxy/device/", DeviceProxy); ("/proxy/", LegacyProxy);
   ("/api/v1/devices/batch", DeviceUpload); ("/api/v1/devices/list", DeviceList); ("/api/v1/metrics/batch", MetricsUpload);
   ("/api/v1/dashboard/tree", DashboardTree);
   ("/devices/preview", DevicePreview); ("/devices/update", DeviceUpdate); ("/devices/metrics/collect", DeviceCollect);
   ("/api/report", DeviceReport); ("/api/report/stream", DeviceReportStream); ("/api/v1/devices/delete", DeviceDelete);
   ("/api/metrics", MetricsSummary); ("/api/metrics/aggregated", MetricsAggregated); ("/api/metrics/timeseries", MetricsSeries);
   ("/api/metrics/latest", MetricsLatest); ("/api/devices/metrics/history", MetricsHistory);
   ("/api/devices/metrics/bounds", MetricsBounds); ("/device/webui-credentials", WebCredentials)].

(** Behind [requireAuth]; the others are behind [requireWebAuth]. *)
Definition for_agents (ep : endpoint) : bool :=
  match ep with Heartbeat | AgentCredentials | DeviceUpload | MetricsUpload => true | _ => false end.

Section Serve.
Context `{GoUnicode} (cfg : FleetConfig) (range : gset string -> list string).
Context (gunzip : string -> option string) (gzip : string -> string) (mime_type : string -> string).
Context (json_parse : string -> option (option fields)) (json_print : option fields -> string).
Context (parse_time : string -> string -> option Time) (format_nano : Time -> string) (processStart : Time).

Definition handler (ep : endpoint) (r : frequest) : M reply :=
  match ep with
  | Heartbeat => handleAgentHeartbeat cfg r
  | AgentCredentials => handleAgentDeviceCredentials cfg r
  | AgentList => handleAgentsList range r
  | AgentCommand => handleAgentCommand r
  | AgentDetails => handleAgentDetails r
  | AgentProxy => handleAgentProxy gunzip gzip mime_type r
  | DeviceProxy => handleDeviceProxy gunzip gzip mime_type r
  | LegacyProxy => handleLegacyDeviceProxy gunzip gzip mime_type r
  | DeviceUpload => handleDevicesBatch r
  | DeviceList => handleDevicesList r
  | MetricsUpload => handleMetricsBatch r
  | DashboardTree => handleDashboardTree r
  | DevicePreview => handleDevicePreviewProxy gunzip gzip mime_type r
  | DeviceUpdate => handleDeviceUpdateProxy gunzip gzip mime_type r
  | DeviceCollect => handleDeviceMetricsCollectProxy gunzip gzip mime_type json_print r
  | DeviceReport => handleDeviceReportProxy json_parse json_print r
  | DeviceReportStream => handleDeviceReportStreamProxy json_parse json_print r
  | DeviceDelete => handleDeviceDelete gunzip gzip mime_type json_print r
  | MetricsSummary => handleMetricsSummary r
  | MetricsAggregated => handleMetricsAggregated parse_time processStart r
  | MetricsSeries => handleServerMetricsTimeSeries parse_time r
  | MetricsLatest => handleServerMetricsLatest r
  | MetricsHistory => handleMetricsHistory parse_time r
  | MetricsBounds => handleMetricsBounds format_nano r
  | WebCredentials => handleDeviceCredentials cfg r
  end.

(** The middleware has found the agent or the user, or it answers itself. *)
Definition serve_fleet (ep : endpoint) (r : frequest) : M reply :=
  if for_agents ep
  then match agent_of r with Some _ => handler ep r | None => mret (deny 401 "unauthenticated") end
  else match principal r with Some _ => handler ep r | None => mret (deny 401 "unauthenticated") end.
End Serve.

(** ** A small fleet

    The theorems about the fleet handlers are tried on it, and the examples show what the
    handlers allow in it that the rules of roles and tenants would not. *)

(** Agent A of tenant t1 with device S1 and agent B of tenant t2 with device S2. *)
Definition demo_agent (id tenant : string) : Agent :=
  {| Agent_RowID := 1; Agent_ID := id; Agent_Name := id; Agent_Hostname := "host"; Agent_IP := ""; Agent_Platform := "linux";
     Agent_Version := "1.0"; Agent_ProtocolVersion := "1"; Agent_Token := "secret"; Agent_RegisteredAt := 0; Agent_LastSeen := 0;
     Agent_Status := "active"; Agent_OSVersion := ""; Agent_GoVersion := ""; Agent_Architecture := ""; Agent_NumCPU := 1;
     Agent_TotalMemoryMB := 1; Agent_BuildType := ""; Agent_GitCommit := ""; Agent_LastHeartbeat := 0; Agent_DeviceCount := 0;
     Agent_LastDeviceSync := 0; Agent_LastMetricsSync := 0; Agent_TenantID := tenant; Agent_SiteIDs := [] |}.

Definition demo_device (serial agent : string) : Device :=
  uploaded_device {| batch_AgentID := agent; batch_Timestamp := 0; batch_Items := [] |}
    [("serial", FStr serial); ("ip", FStr "10.0.0.1")].

Definition demo_agents : list Agent := [demo_agent "A" "t1"; demo_agent "B" "t2"].
Definition demo_devices : list Device := [demo_device "S1" "A"; demo_device "S2" "B"].

Definition found {T} (key : T -> string) (k : string) (l : list T) (what : string) : db T :=
  match list_find (fun x => key x = k) l with Some (_, x) => Ok x | None => Err (DbErr (what +:+ " not found")) end.

Definition demo_history : list MetricsSnapshot := points [0; 1; 2; 900; 4; 5; 6; 7; 8; 9; 10; 11].

Definition demo_totals : AggregatedMetrics :=
  {| Agg_GeneratedAt := 0; RangeStart := 0; RangeEnd := 0;
     Agg_Fleet := {| Fleet_Totals := {| Totals_Agents := 2; Totals_Devices := 2; Totals_PageCount := 0; Totals_ColorPages := 0;
         Totals_MonoPages := 0; Totals_ScanCount := 0 |};
       Fleet_Statuses := {| Status_Error := 0; Status_Warning := 0; Status_Jam := 0 |};
       Fleet_Consumables := {| Level_Critical := 0; Level_Low := 0; Level_Medium := 0; Level_High := 0; Level_Unknown := 0 |};
       Fleet_History := {| TotalImpressions := []; MonoImpressions := []; ColorImpressions := []; ScanVolume := [] |} |};
     Agg_Server := None |}.

Definition page_of_devices (ids : list string) : list Device :=
  match ids with [] => demo_devices | _ => filter (fun d => Device_AgentID d ∈ ids) demo_devices end.
Definition page_of_agents (ts : list string) : list Agent :=
  match ts with [] => demo_agents | _ => filter (fun a => Agent_TenantID a ∈ ts) demo_agents end.

(** Agent A answers every proxied request with an empty response; [sites] has the sites of
    an agent. *)
Definition fleet_env (sites : string -> list string) : environment fop unit := fun B o w =>
  (match o in fop B return B with
   | GetAgent id => found Agent_ID id demo_agents "agent"
   | ListAgents => Ok demo_agents
   | CountAgents ts => Ok (Z.of_nat (length (page_of_agents ts)))
   | ListAgentsPaginated _ _ ts => Ok (page_of_agents ts)
   | GetAgentSiteIDs id => Ok (sites id)
   | GetDevice s => found Serial s demo_devices "device"
   | ListDevices id => Ok (filter (fun d => Device_AgentID d = id) demo_devices)
   | ListAllDevices => Ok demo_devices
   | CountDevices ids => Ok (Z.of_nat (length (page_of_devices ids)))
   | ListAllDevicesPaginated _ _ ids => Ok (page_of_devices ids)
   | GetDeviceCredentials s => Ok {| Cred_Serial := s; Cred_Username := "admin"; EncryptedPassword := "x"; AuthType := "basic";
                                     Cred_AutoLogin := true; Cred_TenantID := "" |}
   | GetLatestMetricsBatch _ => Ok ∅
   | GetMetricsBounds _ => Ok (0, 0, 0)%Z
   | GetMetricsHistory _ _ => Ok demo_history
   | GetAggregatedMetrics _ _ => Ok demo_totals
   | GetDatabaseStats => Err NoRows
   | GetServerMetrics _ => Ok []
   | GetLatestServerMetrics => Ok None
   | ListTenants => Ok [{| Tenant_ID := "t1"; Tenant_Name := "One" |}; {| Tenant_ID := "t2"; Tenant_Name := "Two" |}]
   | ListSitesByTenant t => Ok [{| Site_ID := t +:+ "-a"; Site_Name := "a"; Site_Description := ""; Site_Address := "" |};
                                {| Site_ID := t +:+ "-b"; Site_Name := "b"; Site_Description := ""; Site_Address := "" |}]
   | Connection id => if String.eqb id "A" then Some O else None
   | Diagnostics _ => (0, 0)%Z
   | AwaitProxy _ _ => Some {| Msg_Type := "proxy_response"; Msg_Data := None; Msg_Timestamp := 0 |}
   | AwaitStream _ _ => []
   | BuildSnapshot _ _ => None
   | Clock => (62135596800 * 1000000000)%Z
   | Encrypt p => Some p
   | Decrypt p => Some p
   | TailLog _ => []
   | OsHostname => None
   | ReadRuntime => ("go", 1, 1, {| HeapAlloc := 0; HeapSys := 0; StackInUse := 0; StackSys := 0; TotalAlloc := 0; Mem_Sys := 0 |})%Z
   | UpdateAgentInfo _ | UpdateAgentHeartbeat _ _ | UpdateAgentName _ _ | DeleteAgent _ | UpsertDevice _ | DeleteDevice _ _
   | UpsertDeviceCredentials _ | SaveMetrics _ | WriteRaw _ _ => None
   | SaveAuditEntry _ | CloseConnection _ | ForgetDiagnostics _ | RegisterProxy _ | UnregisterProxy _ | Broadcast _ _ => tt
   end, w).

(** ** Requests *)

Definition fleet_user (role : string) (tenants : list string) : Principal :=
  newPrincipal {| User_ID := 7; User_Username := "u"; User_PasswordHash := ""; User_Role := role; User_TenantID := "";
    User_TenantIDs := tenants; User_Email := ""; User_CreatedAt := 0 |}.

Definition empty_body : fbody :=
  {| as_heartbeat := None; as_command := None; as_name := None; as_credentials := None; as_serial := None; as_report := None;
     as_delete := None; as_batch := None; as_map := None |}.

Definition fleet_request (m : method) (path : string) (query : gmap string string) (p : option Principal) (a : option Agent)
  (b : fbody) : frequest :=
  {| base := {| Method := m; Path := path; RequestURI := path; Query := query;
       Body := {| as_login := None; as_user := None; as_callback := None; as_validate := None; as_email := None; as_reset := None;
         as_invite := None; as_accept := None; as_provider := None; as_hint := None |};
       Host := "pm"; TLS := true; Authorization := ""; SessionCookie := None; TenantCookie := None; ForwardedProto := "";
       ForwardedHost := ""; UserAgent := "ua"; clientIP := "10.0.0.9"; principal := p |};
     MethodName := "POST"; RawQuery := ""; Referer := ""; Headers := [("X-Printmaster-Role", "admin")]; RawBody := Some "body";
     fleet_body := b; agent_of := a; preset := [] |}.

Definition command_body (name : string) (data : fields) : fbody :=
  {| as_heartbeat := None; as_command := Some {| cmd_Command := name; cmd_Data := Some data |}; as_name := None;
     as_credentials := None; as_serial := None; as_report := None; as_delete := None; as_batch := None; as_map := None |}.
Definition delete_body (serial : string) : fbody :=
  {| as_heartbeat := None; as_command := None; as_name := None; as_credentials := None; as_serial := None; as_report := None;
     as_delete := Some {| del_Serial := serial; del_AgentID := ""; del_DeleteMetrics := true; del_DeleteFromAgent := false |};
     as_batch := None; as_map := None |}.
Definition upload_body (agent serial : string) : fbody :=
  {| as_heartbeat := None; as_command := None; as_name := None; as_credentials := None; as_serial := None; as_report := None;
     as_delete := None;
     as_batch := Some {| batch_AgentID := agent; batch_Timestamp := 5; batch_Items := [[("serial", FStr serial)]] |};
     as_map := None |}.
Definition credentials_body (serial : string) : fbody :=
  {| as_heartbeat := None; as_command := None; as_name := None;
     as_credentials := Some {| cred_Serial := serial; cred_Username := "evil"; cred_Password := "pw"; cred_AuthType := "";
                               cred_AutoLogin := true |};
     as_serial := None; as_report := None; as_delete := None; as_batch := None; as_map := None |}.

Notation demo_fleet := (serve_fleet {| has_resolver := false; has_credentials_key := true |} elements (fun _ => None)
  (fun s => s) (fun _ => "") (fun _ => None) (fun _ => "{}") (fun _ _ => None) (fun _ => "") 0%Z).
Notation demo_run ep r := (run (fleet_env (fun _ => [])) (demo_fleet ep r) tt).

Definition operator_command : frequest :=
  fleet_request POST "/api/v1/agents/command/A" ∅ (Some (fleet_user "operator" ["t1"])) None
    (command_body "check_update" [("command", FStr "restart")]).
Definition viewer_list (tenants : list string) : frequest :=
  fleet_request GET "/api/v1/devices/list" ∅ (Some (fleet_user "viewer" tenants)) None empty_body.

(** ** What the handlers allow *)

(** The field [command] of the data replaces the command that is answered and audited. *)
Lemma data_replaces_command :
  (outcome (fleet_env (fun _ => [])) (demo_fleet AgentCommand operator_command) tt,
   command_data {| cmd_Command := "check_update"; cmd_Data := Some [("command", FStr "restart")] |})
  = (json_reply [("success", FBool true); ("message", FStr "Command 'check_update' sent to agent")],
     [("command", FStr "restart")]).
Proof. vm_compute. reflexivity. Qed.

(** A viewer of another tenant deletes a device with its metrics. *)
Lemma viewer_deletes_any_device :
  let r := fleet_request POST "/api/v1/devices/delete" ∅ (Some (fleet_user "viewer" ["t2"])) None (delete_body "S1") in
  Did (DeleteDevice "S1" true) None ∈ (demo_run DeviceDelete r).2.1.
Proof. vm_compute. right. left. Qed.

(** A viewer replaces the credentials of a device. *)
Lemma viewer_writes_credentials :
  let r := fleet_request POST "/device/webui-credentials" ∅ (Some (fleet_user "viewer" ["t1"])) None (credentials_body "S1") in
  outcome (fleet_env (fun _ => [])) (demo_fleet WebCredentials r) tt = json_reply [("success", FBool true)].
Proof. vm_compute. reflexivity. Qed.

(** A user none of whose tenants has an agent is shown every device. *)
Lemma no_agents_sees_all :
  map Serial match outcome (fleet_env (fun _ => [])) (demo_fleet DeviceList (viewer_list ["t3"])) tt with
             | FReply _ _ (FDevices l _) => map dm_Device l | _ => [] end = ["S1"; "S2"].
Proof. vm_compute. reflexivity. Qed.

(** The token of agent A uploads devices of agent B. *)
Lemma uploads_for_another_agent :
  let r := fleet_request POST "/api/v1/devices/batch" ∅ None (Some (demo_agent "A" "t1")) (upload_body "B" "S9") in
  exists d, Did (UpsertDevice d) None ∈ (demo_run DeviceUpload r).2.1 /\ Serial d = "S9" /\ Device_AgentID d = "B".
Proof. eexists. split; [vm_compute; left | split; reflexivity]. Qed.

(** A user without tenants gets the metrics of all of them. *)
Lemma no_tenants_aggregates_all :
  let r := fleet_request GET "/api/metrics/aggregated" ∅ (Some (fleet_user "viewer" [])) None empty_body in
  exists since, Did (GetAggregatedMetrics since []) (Ok demo_totals) ∈ (demo_run MetricsAggregated r).2.1.
Proof. eexists. vm_compute. right. left. Qed.

(** Fewer than three points are not reduced to. *)
Lemma one_point_is_all :
  let r := fleet_request GET "/api/devices/metrics/history" {[ "serial" := "S1"; "maxPoints" := "1" ]}
             (Some (fleet_user "viewer" ["t1"])) None empty_body in
  outcome (fleet_env (fun _ => [])) (demo_fleet MetricsHistory r) tt = FReply 200 [] (FHistory demo_history).
Proof. vm_compute. reflexivity. Qed.
