(* ===== verification/FleetAccess.v ===== *)
(** * What each call of the fleet handlers comes after.

    [fleet_guarded ep r h e]: the call [e] of the endpoint [ep] on the request [r] is
    justified by the calls [h] before it. *)
From S2P Require Import Prelude GoStrings GoTime GoText Effects Programs Authz AuditLog AccountCalls FleetCalls AgentsApi ProxyText ProxyApi DevicesApi Dashboard MetricsApi FleetRoutes.

(** ** Guards *)

Section Guards.
Context (ep : endpoint) (r : frequest).
Implicit Types (h : list (event fop)).

(** The middleware in front of the route found a user, or an agent. *)
Definition authenticated : Prop := if for_agents ep then is_Some (agent_of r) else is_Some (principal r).

(** The tenant is one of the user's. *)
Definition tenant_visible (t : string) : Prop :=
  exists scope, tenantScope (principal r) = (scope, true) /\ tenantAllowed scope t = true.

(** The user has the permission for the tenant. *)
Definition user_may (action t : string) : Prop :=
  exists p, principal r = Some p /\ tenant_visible t
    /\ Authorize (subject_of p) action {| TenantIDs := [t] |} = Ok tt.

Definition agent_allowed (action a : string) h : Prop :=
  exists ag, Did (GetAgent a) (Ok ag) ∈ h /\ user_may action (Agent_TenantID ag).

(** A device was read, and it belongs to the agent. *)
Definition device_read (a : string) h : Prop :=
  exists d, Device_AgentID d = a /\
    ((exists s, Did (GetDevice s) (Ok d) ∈ h) \/ (exists l, Did ListAllDevices (Ok l) ∈ h /\ d ∈ l)).

(** The tenant of the device's agent was compared, unless there is no such agent. *)
Definition credentials_tenant (d : Device) (t : string) h : Prop :=
  (exists ag, Did (GetAgent (Device_AgentID d)) (Ok ag) ∈ h /\ tenant_visible (Agent_TenantID ag) /\ t = Agent_TenantID ag)
  \/ t = "" /\ (Device_AgentID d = "" \/ exists e, Did (GetAgent (Device_AgentID d)) (Err e) ∈ h).

Definition history_allowed (serial : string) h : Prop :=
  (exists p, principal r = Some p /\ P_IsAdmin p = true)
  \/ exists d, Did (GetDevice serial) (Ok d) ∈ h /\ agent_allowed ActionMetricsHistoryRead (Device_AgentID d) h.

(** A request that the agent serves at this address. *)
Definition asks_for (m : Message) (url : string) : Prop :=
  Msg_Type m = "proxy_request" /\ fget "url" (msg_data m) = Some (FStr url).

(** What may be sent to the agent. *)
Definition message_allowed (a : string) (m : Message) h : Prop :=
  match ep with
  | AgentCommand => Msg_Type m = "command" /\ agent_allowed ActionAgentsWrite a h
  | AgentProxy => agent_allowed ActionProxyAgentConnect a h /\ exists rest, asks_for m (agent_origin +:+ "/" +:+ rest)
  | DeviceProxy | LegacyProxy =>
      exists s d, Did (GetDevice s) (Ok d) ∈ h /\ Device_AgentID d = a /\ agent_allowed ActionProxyDeviceConnect a h
        /\ exists rest, asks_for m (agent_origin +:+ "/proxy/" +:+ s +:+ "/" +:+ rest)
  | DevicePreview => device_read a h /\ asks_for m (agent_origin +:+ "/devices/preview")
  | DeviceUpdate => device_read a h /\ asks_for m (agent_origin +:+ "/devices/update")
  | DeviceCollect => device_read a h /\ asks_for m (agent_origin +:+ "/devices/metrics/collect?async=true")
  | DeviceReport => device_read a h /\ asks_for m (agent_origin +:+ "/api/report")
  | DeviceReportStream => device_read a h /\ asks_for m (agent_origin +:+ "/api/report/stream")
  | DeviceDelete => asks_for m (agent_origin +:+ "/devices/delete")
  | _ => False
  end.

Definition fleet_guarded h (e : event fop) : Prop :=
  match e with Did o b =>
    match o in fop B return B -> Prop with
    | UpdateAgentInfo a => fun _ => exists g, agent_of r = Some g /\ Agent_ID a = Agent_ID g
    | UpdateAgentHeartbeat id _ => fun _ => exists g, agent_of r = Some g /\ id = Agent_ID g
    | UpdateAgentName id _ => fun _ => agent_allowed ActionAgentsWrite id h
    | DeleteAgent id => fun _ => agent_allowed ActionAgentsDelete id h
    | CloseConnection id | ForgetDiagnostics id => fun _ => Did (DeleteAgent id) None ∈ h
    | GetDeviceCredentials s => fun _ => exists d, Did (GetDevice s) (Ok d) ∈ h /\
        ((exists g, agent_of r = Some g /\ Device_AgentID d = Agent_ID g) \/ exists t, credentials_tenant d t h)
    | Decrypt _ => fun _ => exists g s d, agent_of r = Some g /\ Did (GetDevice s) (Ok d) ∈ h /\ Device_AgentID d = Agent_ID g
    | UpsertDeviceCredentials c => fun _ => exists d, Did (GetDevice (Cred_Serial c)) (Ok d) ∈ h
                                                      /\ credentials_tenant d (Cred_TenantID c) h
    | WriteRaw conn m => fun _ => exists a, Did (Connection a) (Some conn) ∈ h /\ message_allowed a m h
    | DeleteDevice s _ => fun _ => ep = DeviceDelete /\ exists d, Did (GetDevice s) (Ok d) ∈ h
    | UpsertDevice d => fun _ => exists b g, as_batch (fleet_body r) = Some b /\ Device_AgentID d = batch_AgentID b /\ agent_of r = Some g
    | SaveMetrics m => fun _ => exists b g, as_batch (fleet_body r) = Some b /\ Metrics_AgentID m = batch_AgentID b /\ agent_of r = Some g
    | GetMetricsHistory s _ | GetMetricsBounds s => fun _ => history_allowed s h
    | GetAggregatedMetrics _ ts => fun _ => exists p, principal r = Some p
        /\ (P_AllowedTenantIDs p <> [] -> ts <> [] /\ ts ⊆ P_AllowedTenantIDs p)
    | _ => fun _ => True
    end b
  end.

Lemma agent_allowed_prefix action a h h' : h `prefix_of` h' -> agent_allowed action a h -> agent_allowed action a h'.
Proof. intros Hp (ag & ? & ?). exists ag. eauto with history. Qed.
Lemma device_read_prefix a h h' : h `prefix_of` h' -> device_read a h -> device_read a h'.
Proof. intros Hp (d & Ha & [(s & ?)|(l & ? & ?)]); exists d; (split; [done|]); [left|right]; eauto with history. Qed.
Lemma credentials_tenant_prefix d t h h' : h `prefix_of` h' -> credentials_tenant d t h -> credentials_tenant d t h'.
Proof.
  intros Hp [(ag & ? & ? & ?)|(? & [?|(e & ?)])]; [left; exists ag|right|right]; eauto 8 with history.
Qed.
Lemma message_allowed_prefix a m h h' : h `prefix_of` h' -> message_allowed a m h -> message_allowed a m h'.
Proof.
  intros Hp. unfold message_allowed. destruct ep; try done;
    try (by intros [? ?]; split; eauto using agent_allowed_prefix, device_read_prefix);
    (by intros (s & d & ? & ? & ? & ?); exists s, d; repeat split; eauto using agent_allowed_prefix with history).
Qed.
End Guards.

Ltac fleet_still :=
  match goal with
  | H : agent_allowed ?r ?x ?a ?h |- agent_allowed ?r ?x ?a _ => apply (agent_allowed_prefix r x a h); [in_prefix | exact H]
  | H : device_read ?a ?h |- device_read ?a _ => apply (device_read_prefix a h); [in_prefix | exact H]
  | H : credentials_tenant ?r ?d ?t ?h |- credentials_tenant ?r ?d ?t _ =>
      apply (credentials_tenant_prefix r d t h); [in_prefix | exact H]
  | |- _ ∈ _ => in_history
  end.

(** ** Programs that any guard allows *)

Section Quiet.
Context (ep : endpoint) (r : frequest).
Notation P := (fleet_guarded ep r).
Notation runs h m := (wp P h m (fun _ _ => True)).

Ltac calls := repeat first [wp_step | match goal with |- True => exact I | |- fleet_guarded _ _ _ _ => exact I | |- _ /\ _ => split end].

Lemma wp_isAgentConnectedWS h a : runs h (isAgentConnectedWS a).
Proof. unfold isAgentConnectedWS. calls. Qed.
Lemma wp_connection_type h a : runs h (deriveAgentConnectionType a).
Proof. unfold deriveAgentConnectionType, isAgentConnectedWS. calls. Qed.
Lemma wp_agent_object h a conn : runs h (agent_object a conn).
Proof. unfold agent_object. calls. Qed.
Lemma wp_enrich h l : runs h (enrichDevicesWithMetrics l).
Proof. unfold enrichDevicesWithMetrics. calls. Qed.
Lemma wp_agentViews h l : runs h (agentViews l).
Proof.
  revert h. induction l as [|a l IH]; intros h; cbn [agentViews]; [done|].
  eapply wp_seq with (R := fun _ _ => True).
  { unfold agentView. apply wp_bind. eapply wp_weaken; [apply wp_connection_type|]. intros h' c Hp _. calls. }
  intros h' v Hp _. eapply wp_seq; [apply IH|]. by intros.
Qed.
Context `{GoUnicode}.
Lemma wp_audit h e : runs h (audit e).
Proof. unfold audit. calls. Qed.
Lemma wp_logRequestAudit h q e : runs h (logRequestAudit q e).
Proof. unfold logRequestAudit. destruct (auditActorFromPrincipal q) as [[[? ?] ?] ?]. apply wp_audit. Qed.
Lemma wp_audit_command h q a c : runs h (audit_command q a c).
Proof. unfold audit_command, logAgentUpdateAuditFromRequest. repeat case_match; try apply wp_logRequestAudit; done. Qed.
Lemma wp_uploaded h q b action noun n : runs h (uploaded q b action noun n).
Proof.
  unfold uploaded. destruct (agent_of q); [|done].
  eapply wp_seq; [apply wp_audit|]. by intros.
Qed.
End Quiet.

(** ** Shared steps *)

Section Steps.
Context (ep : endpoint) (r : frequest).
Notation P := (fleet_guarded ep r).
Notation runs h m := (wp P h m (fun _ _ => True)).

Lemma wp_scoped h k :
  (forall scope, tenantScope (principal r) = (scope, true) -> runs h (k scope)) -> runs h (scoped r k).
Proof.
  intros Hk. unfold scoped. destruct (principal r) as [p|] eqn:Hp; [|done].
  destruct (tenantScope (Some p)) as [scope []] eqn:Hs; [|done]. by apply Hk.
Qed.

Lemma wp_guarded h action ts k :
  (forall p, principal r = Some p -> Authorize (subject_of p) action {| TenantIDs := ts |} = Ok tt -> runs h k) ->
  runs h (guarded r action ts k).
Proof.
  intros Hk. unfold guarded, authorizeRequest. destruct (principal r) as [p|]; [|done].
  destruct (Authorize _ _ _) as [[]|] eqn:HA; [|done]. by eapply Hk.
Qed.

(** The checks of an agent that was read. *)
Lemma wp_checked h scope ag a action k :
  tenantScope (principal r) = (scope, true) -> Did (GetAgent a) (Ok ag) ∈ h ->
  (agent_allowed r action a h -> runs h k) ->
  runs h (if negb (tenantAllowed scope (Agent_TenantID ag)) then mret (deny 403 "forbidden")
          else guarded r action [Agent_TenantID ag] k).
Proof.
  intros Hs Ha Hk. destruct (tenantAllowed scope _) eqn:Ht; [|done].
  apply wp_guarded. intros p Hp HA. apply Hk. exists ag. split; [done|]. exists p. split; [done|].
  split; [by exists scope | done].
Qed.
End Steps.

(** ** The handlers *)

(** One step: the guards of the calls that any handler may make are trivial. *)
Ltac fleet_step :=
  first
  [ wp_step
  | match goal with
    | |- wp _ _ (scoped _ _) _ => apply wp_scoped; intros ? ?
    | |- wp _ _ (guarded _ _ _ _) _ => apply wp_guarded; intros ? ? ?
    | |- wp _ _ (isAgentConnectedWS _ ≫= _) _ => eapply wp_seq; [apply wp_isAgentConnectedWS|]; intros ? ? ? _
    | |- wp _ _ (deriveAgentConnectionType _ ≫= _) _ => eapply wp_seq; [apply wp_connection_type|]; intros ? ? ? _
    | |- wp _ _ (agent_object _ _ ≫= _) _ => eapply wp_seq; [apply wp_agent_object|]; intros ? ? ? _
    | |- wp _ _ (agentViews _ ≫= _) _ => eapply wp_seq; [apply wp_agentViews|]; intros ? ? ? _
    | |- wp _ _ (enrichDevicesWithMetrics _ ≫= _) _ => eapply wp_seq; [apply wp_enrich|]; intros ? ? ? _
    | |- wp _ _ (audit _ ≫= _) _ => eapply wp_seq; [apply wp_audit|]; intros ? ? ? _
    | |- wp _ _ (audit_command _ _ _ ≫= _) _ => eapply wp_seq; [apply wp_audit_command|]; intros ? ? ? _
    | |- True => exact I
    | |- fleet_guarded _ _ _ _ => cbn [fleet_guarded]
    | |- fleet_guarded _ _ _ _ /\ _ => split
    end ].
Ltac fleet := repeat fleet_step; simplify_eq; eauto; try fleet_still.

Section Agents.
Context `{GoUnicode} (cfg : FleetConfig) (range : gset string -> list string) (ep : endpoint) (r : frequest).
Notation P := (fleet_guarded ep r).
Notation runs h m := (wp P h m (fun _ _ => True)).

Lemma handleAgentHeartbeat_guarded h : runs h (handleAgentHeartbeat cfg r).
Proof.
  unfold handleAgentHeartbeat, with_agent, record_heartbeat. fleet.
  all: match goal with E : BuildAgentUpdate _ _ _ = Some _ |- _ => unfold BuildAgentUpdate in E; case_match; simplify_eq end.
  eauto.
Qed.

Lemma handleAgentDeviceCredentials_guarded h : runs h (handleAgentDeviceCredentials cfg r).
Proof.
  unfold handleAgentDeviceCredentials, with_agent, plain_password. fleet; reflect_bools.
  - eexists. split; [fleet_still|]. left. eauto.
  - eexists _, _, _. split; [done|]. split; [fleet_still | done].
Qed.

Lemma handleAgentsList_guarded h : runs h (handleAgentsList range r).
Proof. unfold handleAgentsList. fleet. Qed.

Lemma getAgent_guarded h a scope : tenantScope (principal r) = (scope, true) -> runs h (getAgent r a scope).
Proof.
  intros Hs. unfold getAgent. apply wp_ask_bind; [done|]. intros [ag|e]; [|done].
  eapply wp_checked; [done | fleet_still |]. intros Ha. fleet.
Qed.

Lemma renameAgent_guarded h a scope : tenantScope (principal r) = (scope, true) -> runs h (renameAgent r a scope).
Proof.
  intros Hs. unfold renameAgent. do 2 (fleet_step; try done).
  apply wp_ask_bind; [done|]. intros [ag|e]; [|done].
  eapply wp_checked; [done | fleet_still |]. intros Ha. fleet.
Qed.

Lemma deleteAgent_guarded h a scope : tenantScope (principal r) = (scope, true) -> runs h (deleteAgent r a scope).
Proof.
  intros Hs. unfold deleteAgent. apply wp_ask_bind; [done|]. intros [ag|e]; [|done].
  eapply wp_checked; [done | fleet_still |]. intros Ha. fleet.
Qed.

Lemma handleAgentDetails_guarded h : runs h (handleAgentDetails r).
Proof. unfold handleAgentDetails. fleet; eauto using getAgent_guarded, renameAgent_guarded, deleteAgent_guarded. Qed.

Lemma handleAgentCommand_guarded h : ep = AgentCommand -> runs h (handleAgentCommand r).
Proof.
  intros ->. unfold handleAgentCommand. do 5 (fleet_step; try done).
  apply wp_ask_bind; [done|]. intros [ag|e]; [|done]. apply wp_scoped. intros scope Hs.
  eapply wp_checked; [done | fleet_still |]. intros Ha. fleet.
  eexists. split; [fleet_still|]. split; [done | fleet_still].
Qed.
End Agents.

Section Proxy.
Context `{GoUnicode} (cfg : FleetConfig) (ep : endpoint) (r : frequest).
Context (gunzip : string -> option string) (gzip : string -> string) (mime_type : string -> string).
Context (json_parse : string -> option (option fields)) (json_print : option fields -> string).
Notation P := (fleet_guarded ep r).
Notation runs h m := (wp P h m (fun _ _ => True)).

Lemma wp_roundTrip h q a url hs body timeout :
  (forall m, asks_for m url -> message_allowed ep r a m h) -> runs h (roundTrip q a url hs body timeout).
Proof.
  intros Hm. unfold roundTrip, sendProxyRequest. fleet.
  exists a. split; [fleet_still|]. apply (message_allowed_prefix ep r a _ h); [in_prefix|]. by apply Hm.
Qed.

Lemma wp_proxyThrough h q a url body timeout :
  (forall m, asks_for m url -> message_allowed ep r a m h) ->
  runs h (proxyThroughWebSocketWithTimeout gunzip gzip mime_type q a url body timeout).
Proof. intros Hm. unfold proxyThroughWebSocketWithTimeout. eapply wp_seq; [by apply wp_roundTrip|]. by intros. Qed.

Lemma wp_report_logs h q a url body :
  (forall m, asks_for m url -> message_allowed ep r a m h) ->
  runs h (proxyReportWithServerLogs json_parse json_print q a url body).
Proof.
  intros Hm. unfold proxyReportWithServerLogs. eapply wp_seq; [by apply wp_roundTrip|]. intros h' b Hp _. fleet.
Qed.

Lemma wp_stream_events h l : runs h (stream_events json_parse json_print l).
Proof.
  revert h. induction l as [|m l IH]; intros h; cbn [stream_events]; [done|].
  unfold buffered_event. fleet. apply wp_bind. eapply wp_weaken; [apply IH|]. by intros.
Qed.

Lemma wp_stream h q a url body :
  (forall m, asks_for m url -> message_allowed ep r a m h) ->
  runs h (proxyReportWithTrueStreaming json_parse json_print q a url body).
Proof.
  intros Hm. unfold proxyReportWithTrueStreaming. fleet.
  - exists a. split; [fleet_still|]. apply (message_allowed_prefix ep r a _ h); [in_prefix|]. by apply Hm.
  - eapply wp_seq; [apply wp_stream_events|]. intros. fleet.
Qed.

(** *** Actions on devices *)

Lemma wp_posted {B} h q (decoded : option B) k :
  (forall body b, decoded = Some b -> runs h (k body b)) -> runs h (posted q decoded k).
Proof. intros Hk. unfold posted. fleet. Qed.

(** The device was read. *)
Definition found_device h (d : result reply Device) : Prop :=
  forall x, d = Ok x -> device_read (Device_AgentID x) h.

Lemma wp_device_by_serial h s : wp P h (device_by_serial s) found_device.
Proof.
  unfold device_by_serial. apply wp_ask_bind; [done|]. intros [d|e]; apply wp_ret; intros x [= <-].
  eexists. split; [done|]. left. eexists. fleet_still.
Qed.

Lemma device_read_list (l : db (list Device)) ip x h :
  match l with Ok l => snd <$> list_find (fun d => IP d = ip) l | Err _ => None end = Some x ->
  Did ListAllDevices l ∈ h -> device_read (Device_AgentID x) h.
Proof.
  intros Hx Hl. destruct l as [l|e]; [|done]. apply fmap_Some in Hx as ([i d] & (Hd & _)%list_find_Some & ->).
  exists d. split; [done|]. right. exists l. split; [done | by eapply list_elem_of_lookup_2].
Qed.

Lemma found_in (o : option Device) (e : reply) x : match o with Some d => Ok d | None => Err e end = Ok x -> o = Some x.
Proof. destruct o; congruence. Qed.

Lemma wp_device_of_report h b : wp P h (device_of_report b) found_device.
Proof.
  unfold device_of_report. fleet; intros x Hx; try discriminate Hx; try apply found_in in Hx;
    try (eapply device_read_list; [exact Hx | fleet_still]).
  case_match; simplify_eq. eexists. split; [done|]. left. eexists. fleet_still.
Qed.

(** From the device to its agent. *)
Lemma wp_for_device h d offline k :
  found_device h d -> (forall a h', h `prefix_of` h' -> device_read a h' -> runs h' (k a)) ->
  runs h (with_device_agent d offline k).
Proof.
  intros Hd Hk. unfold with_device_agent. destruct d as [d|e]; [|done]. pose proof (Hd d eq_refl). fleet.
  apply Hk; [done | fleet_still].
Qed.

Ltac as_allowed Hep := intros ? ?; unfold message_allowed; rewrite Hep; done.
Ltac to_device L :=
  apply wp_posted; intros body b Hb; eapply wp_seq; [apply L|]; intros h1 d Hp1 Hd;
  apply wp_for_device; [done|]; intros a h2 Hp2 Ha.

Lemma handleDevicePreviewProxy_guarded h : ep = DevicePreview -> runs h (handleDevicePreviewProxy gunzip gzip mime_type r).
Proof. intros Hep. unfold handleDevicePreviewProxy. to_device wp_device_by_serial. apply wp_proxyThrough. as_allowed Hep. Qed.

Lemma handleDeviceUpdateProxy_guarded h : ep = DeviceUpdate -> runs h (handleDeviceUpdateProxy gunzip gzip mime_type r).
Proof.
  intros Hep. unfold handleDeviceUpdateProxy. apply wp_posted. intros body b Hb. destruct (String.eqb b ""); [done|].
  eapply wp_seq; [apply wp_device_by_serial|]. intros h1 d Hp1 Hd. apply wp_for_device; [done|]. intros a h2 Hp2 Ha.
  apply wp_proxyThrough. as_allowed Hep.
Qed.

Lemma handleDeviceMetricsCollectProxy_guarded h :
  ep = DeviceCollect -> runs h (handleDeviceMetricsCollectProxy gunzip gzip mime_type json_print r).
Proof.
  intros Hep. unfold handleDeviceMetricsCollectProxy. to_device wp_device_by_serial.
  destruct (as_map _); [|done]. apply wp_proxyThrough. as_allowed Hep.
Qed.

Lemma handleDeviceReportProxy_guarded h : ep = DeviceReport -> runs h (handleDeviceReportProxy json_parse json_print r).
Proof. intros Hep. unfold handleDeviceReportProxy. to_device wp_device_of_report. apply wp_report_logs. as_allowed Hep. Qed.

Lemma handleDeviceReportStreamProxy_guarded h :
  ep = DeviceReportStream -> runs h (handleDeviceReportStreamProxy json_parse json_print r).
Proof. intros Hep. unfold handleDeviceReportStreamProxy. to_device wp_device_of_report. apply wp_stream. as_allowed Hep. Qed.

Lemma wp_deleteFromAgent h serial a :
  ep = DeviceDelete -> runs h (deleteFromAgent gunzip gzip mime_type json_print r serial a).
Proof.
  intros Hep. unfold deleteFromAgent. eapply wp_seq; [apply wp_isAgentConnectedWS|]. intros h1 c Hp _.
  destruct (negb c); [done|]. eapply wp_seq; [apply wp_proxyThrough; as_allowed Hep|]. by intros.
Qed.

Lemma handleDeviceDelete_guarded h : ep = DeviceDelete -> runs h (handleDeviceDelete gunzip gzip mime_type json_print r).
Proof.
  intros Hep. unfold handleDeviceDelete, deleteDevice.
  destruct (Method r); try done; (destruct (RawBody r); [|done]; destruct (as_delete _) as [b|]; [|done];
    destruct (String.eqb _ ""); [done|]; apply wp_ask_bind; [done|]; intros d;
    eapply wp_seq with (R := fun _ _ => True);
      [case_match; [by apply wp_deleteFromAgent | done] | intros h1 fromAgent Hp _; destruct fromAgent as [f|]; [|done]];
    destruct d as [d|e]; fleet; split; [done|]; eexists; fleet_still).
Qed.

(** *** Agents and devices *)

Lemma wp_checked_proxy h scope ag a action q url body timeout :
  tenantScope (principal r) = (scope, true) -> Did (GetAgent a) (Ok ag) ∈ h ->
  (forall m, agent_allowed r action a h -> asks_for m url -> message_allowed ep r a m h) ->
  runs h (if negb (tenantAllowed scope (Agent_TenantID ag)) then mret (deny 403 "forbidden")
          else guarded r action [Agent_TenantID ag]
                 (proxyThroughWebSocketWithTimeout gunzip gzip mime_type q a url body timeout)).
Proof.
  intros Hs Hag Hm. eapply wp_checked; [done..|]. intros Ha. apply wp_proxyThrough. eauto.
Qed.

Lemma agent_target_slash rest raw : exists p, agent_target rest raw = ("/" +:+ p)%string.
Proof.
  unfold agent_target. destruct rest as [p|], (String.eqb raw "");
    [exists p | exists (p +:+ "?" +:+ raw)%string | exists "" | exists ("?" +:+ raw)%string]; reflexivity.
Qed.

Lemma handleAgentProxy_guarded h : ep = AgentProxy -> runs h (handleAgentProxy gunzip gzip mime_type r).
Proof.
  intros Hep. unfold handleAgentProxy. destruct (SplitN2 _ _) as [agentID rest]. destruct (String.eqb _ ""); [done|].
  apply wp_scoped. intros scope Hs. eapply wp_seq; [apply wp_isAgentConnectedWS|]. intros h1 c Hp _.
  destruct (negb c); [done|]. apply wp_ask_bind; [done|]. intros [ag|e]; [|done].
  eapply wp_checked_proxy; [done | fleet_still |]. intros m Ha Hm. unfold message_allowed. rewrite Hep.
  split; [done|]. destruct (agent_target_slash rest (RawQuery r)) as [p Ht]. exists p. by rewrite <- Ht.
Qed.

Lemma parse_target_slash path prefix serial target :
  parseDeviceProxyPath path prefix = Ok (serial, target) -> exists p, target = ("/" +:+ p)%string.
Proof.
  unfold parseDeviceProxyPath. intros Hp. repeat case_match; simplify_eq; eauto; exists ""; reflexivity.
Qed.

Lemma appendQuery_slash p raw : exists p', appendQueryToPath ("/" +:+ p) raw = ("/" +:+ p')%string.
Proof. unfold appendQueryToPath. destruct (String.eqb raw ""); eexists; reflexivity. Qed.

Lemma wp_proxyDeviceRequest h serial path prefix target :
  ep = DeviceProxy \/ ep = LegacyProxy -> parseDeviceProxyPath path prefix = Ok (serial, target) ->
  runs h (proxyDeviceRequest gunzip gzip mime_type r serial (appendQueryToPath target (RawQuery r))).
Proof.
  intros Hep Hpath. unfold proxyDeviceRequest. apply wp_scoped. intros scope Hs.
  apply wp_ask_bind; [done|]. intros [d|e]; [|done].
  destruct (_ && _); [done|]. destruct (String.eqb _ ""); [done|].
  eapply wp_seq; [apply wp_isAgentConnectedWS|]. intros h1 c Hp _. destruct (negb c); [done|].
  apply wp_ask_bind; [done|]. intros [ag|e]; [|done].
  eapply wp_checked_proxy; [done | fleet_still |]. intros m Ha Hm.
  destruct (parse_target_slash _ _ _ _ Hpath) as [p ->]. destruct (appendQuery_slash p (RawQuery r)) as [p' Hq].
  assert (Hall : exists s d0, Did (GetDevice s) (Ok d0) ∈ h1 ++ [Did (GetAgent (Device_AgentID d)) (Ok ag)]
    /\ Device_AgentID d0 = Device_AgentID d
    /\ agent_allowed r ActionProxyDeviceConnect (Device_AgentID d) (h1 ++ [Did (GetAgent (Device_AgentID d)) (Ok ag)])
    /\ exists rest, asks_for m (agent_origin +:+ "/proxy/" +:+ s +:+ "/" +:+ rest)).
  { exists serial, d. split; [fleet_still|]. split; [done|]. split; [done|]. exists p'. by rewrite <- Hq. }
  unfold message_allowed. destruct Hep as [-> | ->]; exact Hall.
Qed.

Lemma handleDeviceProxy_guarded h : ep = DeviceProxy -> runs h (handleDeviceProxy gunzip gzip mime_type r).
Proof.
  intros Hep. unfold handleDeviceProxy. destruct (recoverDeviceProxyResourcePath _ _ _); [done|].
  destruct (parseDeviceProxyPath _ _) as [[serial target]|e] eqn:Hp; [|done]. eapply wp_proxyDeviceRequest; eauto.
Qed.

Lemma handleLegacyDeviceProxy_guarded h : ep = LegacyProxy -> runs h (handleLegacyDeviceProxy gunzip gzip mime_type r).
Proof.
  intros Hep. unfold handleLegacyDeviceProxy.
  destruct (parseDeviceProxyPath _ _) as [[serial target]|e] eqn:Hp; [|done]. eapply wp_proxyDeviceRequest; eauto.
Qed.
End Proxy.

Section Devices.
Context `{GoUnicode} (cfg : FleetConfig) (ep : endpoint) (r : frequest).
Context (parse_time : string -> string -> option Time) (format_nano : Time -> string) (processStart : Time).
Notation P := (fleet_guarded ep r).
Notation runs h m := (wp P h m (fun _ _ => True)).

Lemma wp_device_tenant h scope d :
  tenantScope (principal r) = (scope, true) ->
  wp P h (device_tenant scope d) (fun h' t => forall t', t = Some t' -> credentials_tenant r d t' h').
Proof.
  intros Hs. unfold device_tenant. destruct (String.eqb_spec (Device_AgentID d) "") as [He|He].
  - apply wp_ret. intros t' [= <-]. right. auto.
  - apply wp_ask_bind; [done|]. intros [ag|e].
    + destruct (tenantAllowed scope _) eqn:Ht; apply wp_ret; intros t' [= <-].
      left. exists ag. split; [fleet_still|]. split; [by exists scope | done].
    + apply wp_ret. intros t' [= <-]. right. split; [done|]. right. exists e. fleet_still.
Qed.

Lemma readCredentials_guarded h scope : tenantScope (principal r) = (scope, true) -> runs h (readCredentials r scope).
Proof.
  intros Hs. unfold readCredentials. destruct (String.eqb _ ""); [done|].
  apply wp_ask_bind; [done|]. intros [d|e]; [|done].
  eapply wp_seq; [by apply wp_device_tenant|]. intros h1 [t|] Hp Ht; [|done]. pose proof (Ht t eq_refl). fleet.
  eexists. split; [fleet_still|]. right. exists t. fleet_still.
Qed.

Lemma saveCredentials_guarded h scope : tenantScope (principal r) = (scope, true) -> runs h (saveCredentials cfg r scope).
Proof.
  intros Hs. unfold saveCredentials. destruct (as_credentials _) as [b|]; [|done]. destruct (String.eqb _ ""); [done|].
  apply wp_ask_bind; [done|]. intros [d|e]; [|done].
  eapply wp_seq; [by apply wp_device_tenant|]. intros h1 [t|] Hp Ht; [|done]. pose proof (Ht t eq_refl).
  unfold encrypted. fleet; eexists; (split; [fleet_still | fleet_still]).
Qed.

Lemma handleDeviceCredentials_guarded h : runs h (handleDeviceCredentials cfg r).
Proof. unfold handleDeviceCredentials. fleet; eauto using readCredentials_guarded, saveCredentials_guarded. Qed.

Lemma wp_store_devices h g b l :
  agent_of r = Some g -> as_batch (fleet_body r) = Some b -> runs h (store_devices b l).
Proof.
  intros Hg Hb. revert h. induction l as [|m l IH]; intros h; cbn [store_devices]; [done|].
  destruct (String.eqb _ ""); [apply IH|]. apply wp_ask_bind; [intros a; by exists b, g|]. intros [e|]; [apply IH|].
  apply wp_ask_bind; [done|]. intros u. eapply wp_seq; [apply IH|]. by intros.
Qed.

Lemma handleDevicesBatch_guarded h g : agent_of r = Some g -> runs h (handleDevicesBatch r).
Proof.
  intros Hg. unfold handleDevicesBatch. destruct (Method r); try done. destruct (as_batch _) as [b|] eqn:Hb; [|done].
  eapply wp_seq; [by eapply wp_store_devices|]. intros h1 n Hp _. apply wp_uploaded.
Qed.

Lemma wp_store_metrics h g b l :
  agent_of r = Some g -> as_batch (fleet_body r) = Some b -> runs h (store_metrics b l).
Proof.
  intros Hg Hb. revert h. induction l as [|m l IH]; intros h; cbn [store_metrics]; [done|].
  destruct (String.eqb _ ""); [apply IH|]. apply wp_ask_bind; [intros a; by exists b, g|]. intros [e|]; [apply IH|].
  eapply wp_seq; [apply IH|]. by intros.
Qed.

Lemma handleMetricsBatch_guarded h g : agent_of r = Some g -> runs h (handleMetricsBatch r).
Proof.
  intros Hg. unfold handleMetricsBatch. destruct (Method r); try done. destruct (as_batch _) as [b|] eqn:Hb; [|done].
  eapply wp_seq; [by eapply wp_store_metrics|]. intros h1 n Hp _. apply wp_uploaded.
Qed.

Lemma handleDevicesList_guarded h : runs h (handleDevicesList r).
Proof. unfold handleDevicesList, listDevices. fleet. Qed.

Lemma wp_build_agents h f l : runs h (build_agents f l).
Proof.
  revert h. induction l as [|a l IH]; intros h; cbn [build_agents]; [done|]. unfold buildDashboardAgent. fleet.
  eapply wp_seq; [apply IH|]. by intros.
Qed.

Lemma wp_build_sites h f sites l : runs h (build_sites f sites l).
Proof.
  revert h. induction sites as [|s sites IH]; intros h; cbn [build_sites]; [done|].
  eapply wp_seq; [apply wp_build_agents|]. intros h1 das Hp _. eapply wp_seq; [apply IH|]. by intros.
Qed.

Lemma wp_build_tenants h f l : runs h (build_tenants f l).
Proof.
  revert h. induction l as [|t l IH]; intros h; cbn [build_tenants]; [done|]. unfold build_tenant.
  apply wp_bind_assoc. eapply wp_seq with (R := fun _ _ => True); [fleet|]. intros h1 sites Hp1 _.
  apply wp_bind_assoc. eapply wp_seq; [apply wp_build_sites|]. intros h2 dss Hp2 _.
  apply wp_bind_assoc. eapply wp_seq; [apply wp_build_agents|]. intros h3 das Hp3 _.
  apply wp_ret_bind. eapply wp_seq; [apply IH|]. by intros.
Qed.

Lemma wp_load_sites h l m : runs h (load_sites l m).
Proof. revert h m. induction l as [|a l IH]; intros h m; cbn [load_sites]; [done|]. apply wp_ask_bind; [done|]. intros s. apply IH. Qed.

Lemma handleDashboardTree_guarded h : runs h (handleDashboardTree r).
Proof.
  unfold handleDashboardTree, dashboard. fleet.
  eapply wp_seq; [apply wp_load_sites|]. intros h1 m Hp _. eapply wp_seq; [apply wp_build_tenants|]. by intros.
Qed.

(** *** Metrics *)

Lemma handleMetricsSummary_guarded h : runs h (handleMetricsSummary r).
Proof. unfold handleMetricsSummary. fleet. Qed.

Lemma aggregated_tenants_own p t :
  P_AllowedTenantIDs p <> [] -> aggregated_tenants p t <> [] /\ aggregated_tenants p t ⊆ P_AllowedTenantIDs p.
Proof.
  intros Hne. unfold aggregated_tenants. destruct (P_AllowedTenantIDs p) as [|x l] eqn:El; [done|].
  destruct (String.eqb t ""); [split; [done | reflexivity]|].
  destruct (mem_str t (x :: l)) eqn:Hm; [|split; [done | reflexivity]].
  split; [done|]. intros y Hy. apply list_elem_of_singleton in Hy as ->. by apply mem_str_spec.
Qed.

Lemma handleMetricsAggregated_guarded h : runs h (handleMetricsAggregated parse_time processStart r).
Proof.
  unfold handleMetricsAggregated, aggregated_since, attachServerStats. fleet;
    eexists; (split; [done|]); apply aggregated_tenants_own.
Qed.

Lemma handleServerMetricsTimeSeries_guarded h : runs h (handleServerMetricsTimeSeries parse_time r).
Proof. unfold handleServerMetricsTimeSeries. fleet. Qed.

Lemma handleServerMetricsLatest_guarded h : runs h (handleServerMetricsLatest r).
Proof. unfold handleServerMetricsLatest. fleet. Qed.

Lemma history_allowed_prefix s h h' : h `prefix_of` h' -> history_allowed r s h -> history_allowed r s h'.
Proof. intros Hp [?|(d & ? & ?)]; [by left | right]. exists d. eauto using agent_allowed_prefix with history. Qed.

Lemma wp_device_in_scope h scope serial k :
  tenantScope (principal r) = (scope, true) ->
  (forall h', h `prefix_of` h' -> history_allowed r serial h' -> runs h' k) ->
  runs h (device_in_scope r scope serial k).
Proof.
  intros Hs Hk. unfold device_in_scope. destruct scope as [s|].
  - apply wp_ask_bind; [done|]. intros [d|e]; [|done]. destruct (String.eqb _ ""); [done|].
    apply wp_ask_bind; [done|]. intros [ag|e]; [|done]. eapply wp_checked; [done | fleet_still |]. intros Ha.
    apply Hk; [in_prefix|]. right. exists d. split; [fleet_still | done].
  - apply Hk; [done|]. left. unfold tenantScope in Hs. destruct (principal r) as [p|]; [|done].
    destruct (P_IsAdmin p) eqn:Hadm; [by exists p|]. by case_match.
Qed.

Lemma handleMetricsBounds_guarded h : runs h (handleMetricsBounds format_nano r).
Proof.
  unfold handleMetricsBounds. fleet. apply wp_device_in_scope; [done|]. intros h' Hp Ha. fleet.
Qed.

Lemma handleMetricsHistory_guarded h : runs h (handleMetricsHistory parse_time r).
Proof.
  unfold handleMetricsHistory. fleet. apply wp_device_in_scope; [done|]. intros h' Hp Ha. fleet.
Qed.
End Devices.

(** ** All endpoints *)

Section Served.
Context `{GoUnicode} (cfg : FleetConfig) (range : gset string -> list string).
Context (gunzip : string -> option string) (gzip : string -> string) (mime_type : string -> string).
Context (json_parse : string -> option (option fields)) (json_print : option fields -> string).
Context (parse_time : string -> string -> option Time) (format_nano : Time -> string) (processStart : Time).
Notation serve := (serve_fleet cfg range gunzip gzip mime_type json_parse json_print parse_time format_nano processStart).

Lemma serve_fleet_guarded ep r : wp (fleet_guarded ep r) [] (serve ep r) (fun _ _ => True).
Proof.
  unfold serve_fleet, handler. destruct ep; cbn [for_agents]; (case_match; [|done]);
    eauto using handleAgentHeartbeat_guarded, handleAgentDeviceCredentials_guarded, handleAgentsList_guarded,
      handleAgentCommand_guarded, handleAgentDetails_guarded, handleAgentProxy_guarded, handleDeviceProxy_guarded,
      handleLegacyDeviceProxy_guarded;
    eauto using handleDevicesBatch_guarded, handleDevicesList_guarded, handleMetricsBatch_guarded,
      handleDashboardTree_guarded, handleDevicePreviewProxy_guarded, handleDeviceUpdateProxy_guarded,
      handleDeviceMetricsCollectProxy_guarded, handleDeviceReportProxy_guarded, handleDeviceReportStreamProxy_guarded,
      handleDeviceDelete_guarded;
    eauto using handleMetricsSummary_guarded, handleMetricsAggregated_guarded, handleServerMetricsTimeSeries_guarded,
      handleServerMetricsLatest_guarded, handleMetricsHistory_guarded, handleMetricsBounds_guarded,
      handleDeviceCredentials_guarded.
Qed.

(** Any call at all is made only for a signed-in user, or on the routes for agents for
    the agent that the token belongs to. *)
Lemma serve_authenticated {W} (env : environment fop W) ep r w e :
  e ∈ history env (serve ep r) w -> authenticated ep r.
Proof.
  unfold serve_fleet, authenticated. destruct (for_agents ep).
  - destruct (agent_of r); [by eexists | by intros ?%not_elem_of_nil].
  - destruct (principal r); [by eexists | by intros ?%not_elem_of_nil].
Qed.

End Served.

