(* ===== verification/FleetListings.v ===== *)
(** * What the fleet listings show: only what belongs to the tenants of the user.

    The structure of the dashboard's tree is stated for all answers, so that DashboardTotals
    can count in it. *)
From stdpp Require Import sorting.
From S2P Require Import Prelude GoStrings GoTime GoText Effects Programs Authz AuditLog AccountCalls FleetCalls AgentsApi ProxyText ProxyApi DevicesApi Dashboard MetricsApi FleetRoutes FleetAccess.

Definition any_call (h : list (event fop)) (e : event fop) : Prop := True.
Notation wpa h m Q := (wp any_call h m Q).

Lemma wpa_true {A} h (m : prog fop A) : wpa h m (fun _ _ => True).
Proof. revert h. induction m as [a|B o k IH]; intros h; simpl; [done|]. intros b. split; [done | apply IH]. Qed.

(** A program of which only the answers matter. *)
Lemma wpa_seq {A B} h (m : prog fop A) (f : A -> prog fop B) Q :
  (forall h' a, h `prefix_of` h' -> wpa h' (f a) Q) -> wpa h (m ≫= f) Q.
Proof. intros Hf. eapply wp_seq; [apply wpa_true|]. intros h' a Hp _. by apply Hf. Qed.

Lemma elem_of_flat_map {A B} (f : A -> list B) l y : y ∈ flat_map f l <-> exists x, x ∈ l /\ y ∈ f x.
Proof.
  induction l as [|x l IH]; cbn [flat_map].
  - split; [by intros ?%not_elem_of_nil | by intros (? & ?%not_elem_of_nil & _)].
  - rewrite elem_of_app, IH. split.
    + intros [?|(z & ? & ?)]; [exists x | exists z]; split; try done; by constructor.
    + intros (z & [->|?]%elem_of_cons & ?); [by left | right; by exists z].
Qed.

(** ** The nodes of the tree *)

Section Nodes.
Context (f : fleet).

(** The node of an agent. *)
Definition agent_node (a : Agent) (da : DashboardAgent) : Prop :=
  da_AgentID da = Agent_ID a /\ da_Metrics da = devices_metrics (devices_of f a)
  /\ da_Devices da = if fl_Include f then Some (map device_summary (devices_of f a)) else None.

Definition site_node (agents : list Agent) (s : SiteInfo) (ds : DashboardSite) : Prop :=
  ds_Site ds = s /\ Forall2 agent_node (agents_at f (Site_ID s) agents) (ds_Agents ds)
  /\ ds_Metrics ds = node_total (ds_Agents ds).

Definition tenant_node (t : TenantName) (dt : DashboardTenant) : Prop :=
  dt_ID dt = Tenant_ID t
  /\ Forall2 (site_node (agents_of_tenant f t)) (map ds_Site (dt_Sites dt)) (dt_Sites dt)
  /\ Forall2 agent_node (without_site f (agents_of_tenant f t)) (dt_Agents dt)
  /\ dt_Metrics dt = add_metrics (total_metrics (map ds_Metrics (dt_Sites dt))) (node_total (dt_Agents dt)).

(** The sites of a tenant are those the store answered. *)
Definition sites_answered (h : list (event fop)) (t : TenantName) (dt : DashboardTenant) : Prop :=
  map ds_Site (dt_Sites dt) = []
  \/ Did (ListSitesByTenant (Tenant_ID t)) (Ok (map ds_Site (dt_Sites dt))) ∈ h.

Lemma build_agents_nodes h l : wpa h (build_agents f l) (fun _ das => Forall2 agent_node l das).
Proof.
  revert h. induction l as [|a l IH]; intros h; cbn [build_agents]; [constructor|].
  unfold buildDashboardAgent. apply wp_bind_assoc, wpa_seq. intros h1 conn Hp1. apply wp_ret_bind.
  eapply wp_seq; [apply IH|]. intros h2 das Hp2 Hd. by constructor.
Qed.

Lemma build_sites_nodes h sites l :
  wpa h (build_sites f sites l) (fun _ dss => Forall2 (site_node l) sites dss).
Proof.
  revert h. induction sites as [|s sites IH]; intros h; cbn [build_sites]; [constructor|].
  eapply wp_seq; [apply build_agents_nodes|]. intros h1 das Hp1 Hd.
  eapply wp_seq; [apply IH|]. intros h2 dss Hp2 Hs. by constructor.
Qed.

Lemma site_nodes_map l sites dss : Forall2 (site_node l) sites dss -> map ds_Site dss = sites.
Proof. induction 1 as [|s ds sites dss [Hs _] _ IH]; simpl; congruence. Qed.

Lemma build_tenant_node h t :
  wpa h (build_tenant f t) (fun h' dt => tenant_node t dt /\ sites_answered h' t dt).
Proof.
  unfold build_tenant.
  eapply wp_seq with (R := fun h' sites => sites = [] \/ Did (ListSitesByTenant (Tenant_ID t)) (Ok sites) ∈ h').
  { destruct (String.eqb _ _); [by left|]. apply wp_ask_bind; [done|]. intros [l|e]; [right; in_history | by left]. }
  intros h1 sites Hp1 Hs. eapply wp_seq; [apply build_sites_nodes|]. intros h2 dss Hp2 Hd.
  eapply wp_seq; [apply build_agents_nodes|]. intros h3 das Hp3 Ha. apply wp_ret.
  pose proof (site_nodes_map _ _ _ Hd) as Hm. split.
  - repeat split; cbn; [by rewrite Hm | done].
  - unfold sites_answered. cbn. rewrite Hm. destruct Hs as [|Hs]; [by left | right; in_history].
Qed.

Lemma build_tenants_nodes h l :
  wpa h (build_tenants f l) (fun h' dts => Forall2 (fun t dt => tenant_node t dt /\ sites_answered h' t dt) l dts).
Proof.
  revert h. induction l as [|t l IH]; intros h; cbn [build_tenants]; [constructor|].
  eapply wp_seq; [apply build_tenant_node|]. intros h1 dt Hp1 [Ht Hs].
  eapply wp_seq; [apply IH|]. intros h2 dts Hp2 Hd. constructor; [|done]. split; [done|].
  destruct Hs as [|Hs]; [by left | right; in_history].
Qed.

(** ** The agents in the tree *)

Definition nodes_of (dt : DashboardTenant) : list DashboardAgent := flat_map ds_Agents (dt_Sites dt) ++ dt_Agents dt.

Lemma elem_of_agents_at siteID l a : a ∈ agents_at f siteID l <-> a ∈ l /\ siteID ∈ sites_of f a.
Proof.
  unfold agents_at. rewrite elem_of_flat_map. split.
  - intros (b & Hb & Ha). apply list_elem_of_fmap in Ha as (s & -> & [-> Hs]%list_elem_of_filter). done.
  - intros [Ha Hs]. exists a. split; [done|]. apply list_elem_of_fmap. exists siteID. split; [done|].
    by apply list_elem_of_filter.
Qed.

(** Every node is one of an agent of the tenant. *)
Lemma node_agent t dt da :
  tenant_node t dt -> da ∈ nodes_of dt -> exists a, a ∈ agents_of_tenant f t /\ agent_node a da.
Proof.
  intros (_ & Hs & Ha & _) [Hin|Hin]%elem_of_app.
  - apply elem_of_flat_map in Hin as (ds & Hds & Hda).
    apply list_elem_of_lookup in Hds as [i Hi]. destruct (Forall2_lookup_r _ _ _ _ _ Hs Hi) as (s & _ & _ & Hn & _).
    apply list_elem_of_lookup in Hda as [j Hj]. destruct (Forall2_lookup_r _ _ _ _ _ Hn Hj) as (a & Hl & Hnode).
    exists a. split; [|done]. apply list_elem_of_lookup_2, elem_of_agents_at in Hl. tauto.
  - apply list_elem_of_lookup in Hin as [j Hj]. destruct (Forall2_lookup_r _ _ _ _ _ Ha Hj) as (a & Hl & Hnode).
    exists a. split; [|done]. apply list_elem_of_lookup_2, list_elem_of_filter in Hl. tauto.
Qed.
End Nodes.

(** ** What is shown *)

Section Confined.
Context `{GoUnicode} (cfg : FleetConfig) (range : gset string -> list string) (r : frequest).
Context (range_spec : forall s x, x ∈ range s <-> x ∈ s) (assumed : list (event fop) -> Prop).
Implicit Types (h : list (event fop)).

(** An agent of a visible tenant was read; an administrator may see any agent. *)
Definition agent_visible h (id : string) : Prop :=
  (exists p, principal r = Some p /\ P_IsAdmin p = true)
  \/ exists l a, Did ListAgents (Ok l) ∈ h /\ a ∈ l /\ Agent_ID a = id /\ tenant_visible r (Agent_TenantID a).

(** The node shows an agent and devices of that agent. *)
Definition node_confined h (da : DashboardAgent) : Prop :=
  (exists l a, Did ListAgents (Ok l) ∈ h /\ a ∈ l /\ Agent_ID a = da_AgentID da /\ tenant_visible r (Agent_TenantID a))
  /\ forall ss s, da_Devices da = Some ss -> s ∈ ss ->
     exists l d, Did ListAllDevices (Ok l) ∈ h /\ d ∈ l /\ Serial d = sum_Serial s /\ Device_AgentID d = da_AgentID da.

Definition confined h (x : reply) : Prop :=
  match x with
  | FReply _ _ (FAgents l _) => forall v, v ∈ l -> tenant_visible r (Agent_TenantID (view_Agent v))
  | FReply _ _ (FAgent a _ _ _) =>
      exists id ag, Did (GetAgent id) (Ok ag) ∈ h /\ tenant_visible r (Agent_TenantID ag)
        /\ exists a', Did (GetAgent id) (Ok a') ∈ h /\ Agent_ID a = Agent_ID a'
  | FReply _ _ (FDevices l _) => forall d, d ∈ l -> agent_visible h (Device_AgentID (dm_Device d))
  | FReply _ _ (FTree t) => forall dt, dt ∈ tree_Tenants t ->
      (dt_ID dt = unassigned_id \/ tenant_visible r (dt_ID dt)) /\ forall da, da ∈ nodes_of dt -> node_confined h da
  | _ => True
  end.

(** The store keeps to the filter of a page that has one. *)
Definition pages_filtered (e : event fop) : Prop :=
  match e with Did o b =>
    match o in fop B return B -> Prop with
    | ListAgentsPaginated _ _ ts => fun res => forall l a, res = Ok l -> ts <> [] -> a ∈ l -> Agent_TenantID a ∈ ts
    | ListAllDevicesPaginated _ _ ids => fun res => forall l d, res = Ok l -> ids <> [] -> d ∈ l -> Device_AgentID d ∈ ids
    | _ => fun _ => True
    end b
  end.

(** For a user with tenants, one of whose agents is listed. *)
Definition has_agents h : Prop :=
  (exists p, principal r = Some p /\ P_IsAdmin p = true)
  \/ forall l, Did ListAgents (Ok l) ∈ h -> exists a, a ∈ l /\ tenant_visible r (Agent_TenantID a).

Definition confined_if h (x : reply) : Prop := (forall e, e ∈ h -> pages_filtered e) -> assumed h -> confined h x.

Lemma wpa_denied h status msg : wpa h (mret (deny status msg)) confined_if.
Proof. by intros ? ?. Qed.

Lemma wpa_scoped h k :
  (forall scope, tenantScope (principal r) = (scope, true) -> wpa h (k scope) confined_if) ->
  wpa h (scoped r k) confined_if.
Proof.
  intros Hk. unfold scoped. destruct (principal r) as [p|] eqn:Hp; [|apply wpa_denied].
  destruct (tenantScope (Some p)) as [scope []] eqn:Hs; [|apply wpa_denied]. by apply Hk.
Qed.

Lemma wpa_guarded h action ts k : wpa h k confined_if -> wpa h (guarded r action ts k) confined_if.
Proof. intros Hk. unfold guarded. destruct (authorizeRequest _ _ _); [apply wpa_denied | done]. Qed.

Lemma in_scope_visible scope t :
  tenantScope (principal r) = (scope, true) -> tenantAllowed scope t = true -> tenant_visible r t.
Proof. intros Hs Ht. by exists scope. Qed.

(** *** Agents *)

Lemma agentViews_agents h l :
  wpa h (agentViews l) (fun _ vs => Forall2 (fun a v => view_Agent v = without_token a) l vs).
Proof.
  revert h. induction l as [|a l IH]; intros h; cbn [agentViews]; [constructor|].
  unfold agentView. apply wp_bind_assoc, wpa_seq. intros h1 conn Hp1. apply wp_bind_assoc, wpa_seq. intros h2 sites Hp2.
  apply wp_ret_bind. eapply wp_seq; [apply IH|]. intros h3 vs Hp3 Hv. by constructor.
Qed.

Lemma views_visible l vs :
  Forall2 (fun a v => view_Agent v = without_token a) l vs ->
  (forall a, a ∈ l -> tenant_visible r (Agent_TenantID a)) ->
  forall v, v ∈ vs -> tenant_visible r (Agent_TenantID (view_Agent v)).
Proof.
  intros Hv Hl v [i Hi]%list_elem_of_lookup. destruct (Forall2_lookup_r _ _ _ _ _ Hv Hi) as (a & Ha & ->).
  apply (Hl a). by eapply list_elem_of_lookup_2.
Qed.

(** The tenants of a page: none for an administrator. *)
Lemma page_tenants_visible scope t :
  tenantScope (principal r) = (scope, true) ->
  (match scope with Some s => range s | None => [] end <> [] -> t ∈ match scope with Some s => range s | None => [] end) ->
  tenant_visible r t.
Proof.
  intros Hs Ht. exists scope. split; [done|]. destruct scope as [s|]; [|done]. cbn.
  apply bool_decide_eq_true_2, range_spec, Ht. intros He.
  unfold tenantScope in Hs. destruct (principal r) as [p|]; [|done].
  destruct (P_IsAdmin p); [done|]. destruct (P_AllowedTenantIDs p) as [|x l]; [done|].
  injection Hs as <-. assert (Hx : x ∈ range ({[x]} ∪ list_to_set l)) by (apply range_spec; set_solver).
  cbn in He. rewrite He in Hx. by apply not_elem_of_nil in Hx.
Qed.

Lemma handleAgentsList_confined h : wpa h (handleAgentsList range r) confined_if.
Proof.
  unfold handleAgentsList. destruct (Method r); try apply wpa_denied.
  apply wpa_guarded, wpa_scoped. intros scope Hs. destruct (negb _).
  - destruct (page_of r) as [limit offset]. apply wpa_seq. intros h1 [total|e] Hp1; [|apply wpa_denied].
    apply wp_ask_bind; [done|]. intros [agents|e]; [|apply wpa_denied].
    eapply wp_seq; [apply agentViews_agents|]. intros h2 vs Hp2 Hv. apply wp_ret. intros Hf _. cbn.
    eapply views_visible; [exact Hv|]. intros a Ha. apply (page_tenants_visible scope); [done|]. intros Hne.
    eapply (Hf (Did (ListAgentsPaginated limit offset _) (Ok agents))); [in_history | done..].
  - apply wp_ask_bind; [done|]. intros [agents|e]; [|apply wpa_denied].
    eapply wp_seq; [apply agentViews_agents|]. intros h2 vs Hp2 Hv. apply wp_ret. intros _ _. cbn.
    eapply views_visible; [exact Hv|]. intros a [Ht _]%list_elem_of_filter. by eapply in_scope_visible.
Qed.

Lemma agent_object_agent h a conn :
  wpa h (agent_object a conn) (fun _ x => exists pf de, x = FAgent a conn pf de).
Proof. unfold agent_object. apply wp_ask_bind; [done|]. intros d. apply wp_ret. eauto. Qed.

Lemma handleAgentDetails_confined h : wpa h (handleAgentDetails r) confined_if.
Proof.
  unfold handleAgentDetails. destruct (no_agentID _ _); [apply wpa_denied|]. apply wpa_scoped. intros scope Hs.
  set (id := agentID_of r _). destruct (Method r); try apply wpa_denied.
  - unfold getAgent. apply wp_ask_bind; [done|]. intros [ag|e]; [|apply wpa_denied].
    destruct (tenantAllowed scope _) eqn:Ht; [cbn [negb] | apply wpa_denied]. apply wpa_guarded.
    apply wpa_seq. intros h1 devices Hp1. apply wpa_seq. intros h2 conn Hp2.
    eapply wp_seq; [apply agent_object_agent|]. intros h3 obj Hp3 (pf & de & ->). apply wp_ret. intros _ _. cbn.
    exists id, ag. split; [in_history|]. split; [by eapply in_scope_visible|]. exists ag. split; [in_history | done].
  - unfold renameAgent. destruct (as_name _); [|apply wpa_denied]. destruct (_ <? _)%nat; [apply wpa_denied|].
    apply wp_ask_bind; [done|]. intros [ag|e]; [|apply wpa_denied].
    destruct (tenantAllowed scope _) eqn:Ht; [cbn [negb] | apply wpa_denied]. apply wpa_guarded.
    apply wpa_seq. intros h1 [err|] Hp1; [apply wpa_denied|].
    apply wp_ask_bind; [done|]. intros [ag'|e]; [|apply wpa_denied]. apply wpa_seq. intros h2 conn Hp2.
    eapply wp_seq; [apply agent_object_agent|]. intros h3 obj Hp3 (pf & de & ->). apply wpa_seq. intros h4 u Hp4.
    apply wp_ret. intros _ _. cbn. exists id, ag. split; [in_history|]. split; [by eapply in_scope_visible|].
    exists ag'. split; [in_history | done].
  - unfold deleteAgent. apply wp_ask_bind; [done|]. intros [ag|e].
    2: { apply wp_ret. intros _ _. unfold lookup_failure. by case_match. }
    destruct (negb _); [apply wpa_denied|]. apply wpa_guarded. apply wpa_seq. intros h1 [err|] Hp1.
    { apply wp_ret. intros _ _. by case_match. }
    do 3 (apply wpa_seq; intros ? ? ?). by apply wp_ret.
Qed.

(** *** Devices *)

Lemma enrich_devices h l : wpa h (enrichDevicesWithMetrics l) (fun _ ds => map dm_Device ds = l).
Proof.
  unfold enrichDevicesWithMetrics. destruct l as [|d l]; [done|].
  apply wp_ask_bind; [done|]. intros m. apply wp_ret. rewrite map_map.
  set (ms := match m with Ok _ => _ | _ => _ end). rewrite <- (map_id (d :: l)) at 2. apply map_ext. intros x.
  unfold enriched. by case_match.
Qed.

Lemma elem_of_enriched ds l (d : DeviceWithMetrics) : map dm_Device ds = l -> d ∈ ds -> dm_Device d ∈ l.
Proof. intros <- Hd. by apply (list_elem_of_fmap_2 dm_Device). Qed.

Lemma allowed_visible scope l h id :
  tenantScope (principal r) = (scope, true) -> Did ListAgents (Ok l) ∈ h -> id ∈ allowed_agents scope l ->
  agent_visible h id.
Proof.
  intros Hs Hl Hid. apply list_elem_of_fmap in Hid as (a & -> & [Ht Ha]%list_elem_of_filter).
  right. exists l, a. repeat split; try done. by eapply in_scope_visible.
Qed.

Lemma listDevices_confined h scope allowed :
  (forall h' id, h `prefix_of` h' -> id ∈ allowed -> agent_visible h' id) ->
  (forall h' id, h `prefix_of` h' -> assumed h' -> allowed = [] -> agent_visible h' id) ->
  (scope = None -> forall h' id, agent_visible h' id) ->
  wpa h (listDevices r scope allowed) confined_if.
Proof.
  intros Hal Hno Hadm. unfold listDevices. destruct (negb _).
  - destruct (page_of r) as [limit offset]. apply wpa_seq. intros h1 [total|e] Hp1; [|apply wpa_denied].
    apply wp_ask_bind; [done|]. intros [devices|e]; [|apply wpa_denied].
    eapply wp_seq; [apply enrich_devices|]. intros h2 ds Hp2 Hds. apply wp_ret. intros Hf Hg d Hd.
    assert (Hp : h `prefix_of` h2) by in_prefix.
    destruct (decide (allowed = [])) as [He|Hne]; [by apply Hno|]. apply Hal; [done|].
    eapply (Hf (Did (ListAllDevicesPaginated limit offset allowed) (Ok devices))); [in_history | done | done |].
    by apply (elem_of_enriched _ _ _ Hds).
  - apply wp_ask_bind; [done|]. intros [devices|e]; [|apply wpa_denied].
    eapply wp_seq; [apply enrich_devices|]. intros h2 ds Hp2 Hds. apply wp_ret. intros _ Hg d Hd.
    assert (Hp : h `prefix_of` h2) by in_prefix.
    apply (elem_of_enriched _ _ _ Hds) in Hd. unfold listed_devices in Hd. destruct scope as [s|]; [|by apply Hadm].
    destruct allowed as [|x l]; [by apply Hno|]. apply list_elem_of_filter in Hd as [Hd _]. by apply Hal.
Qed.

Lemma admin_scope : tenantScope (principal r) = (None, true) -> exists p, principal r = Some p /\ P_IsAdmin p = true.
Proof.
  unfold tenantScope. destruct (principal r) as [p|]; [|done].
  destruct (P_IsAdmin p) eqn:Ha; [by exists p | by case_match].
Qed.

Lemma handleDevicesList_confined h :
  (forall h', assumed h' -> has_agents h') -> wpa h (handleDevicesList r) confined_if.
Proof.
  intros Has. unfold handleDevicesList. destruct (Method r); try apply wpa_denied. apply wpa_guarded, wpa_scoped. intros scope Hs.
  destruct scope as [s|].
  - apply wp_ask_bind; [done|]. intros [agents|e]; [|apply wpa_denied]. apply listDevices_confined; [| |done].
    + intros h' id Hp Hid. eapply allowed_visible; [exact Hs | in_history | done].
    + intros h' id Hp [Hadm|Hg]%Has Hno; [by left|]. destruct (Hg agents) as (a & Ha & Hv); [in_history|].
      destruct Hv as (s' & Hs' & Hall). rewrite Hs in Hs'. injection Hs' as <-.
      assert (Hin : Agent_ID a ∈ allowed_agents (Some s) agents).
      { apply (list_elem_of_fmap_2 Agent_ID). by apply list_elem_of_filter. }
      rewrite Hno in Hin. by apply not_elem_of_nil in Hin.
  - apply admin_scope in Hs. apply listDevices_confined; intros; left; done.
Qed.

(** *** The dashboard *)

Lemma shown_visible scope tenants agents t :
  tenantScope (principal r) = (scope, true) -> t ∈ shown_tenants scope tenants agents ->
  Tenant_ID t = unassigned_id \/ tenant_visible r (Tenant_ID t).
Proof.
  intros Hs [[Ht _]%list_elem_of_filter|Hu]%elem_of_app; [right; by eapply in_scope_visible|].
  case_match; [|by apply not_elem_of_nil in Hu]. apply list_elem_of_singleton in Hu as ->. by left.
Qed.

Lemma node_shown scope agents devices ds sites inc h a da :
  let agents' := filter (fun a => tenantAllowed scope (Agent_TenantID a) = true) agents in
  let f := {| fl_Agents := agents'; fl_Devices := ds; fl_Sites := sites; fl_Include := inc |} in
  tenantScope (principal r) = (scope, true) -> Did ListAgents (Ok agents) ∈ h -> Did ListAllDevices (Ok devices) ∈ h ->
  map dm_Device ds ⊆ devices -> a ∈ agents' -> agent_node f a da -> node_confined h da.
Proof.
  intros agents' f Hs Hla Hld Hsub Ha (Hid & _ & Hdev). split.
  - apply list_elem_of_filter in Ha as [Ht Ha]. exists agents, a. repeat split; try done. by eapply in_scope_visible.
  - intros ss s Hss Hin. rewrite Hdev in Hss. destruct (fl_Include f); [|done]. injection Hss as <-.
    apply list_elem_of_fmap in Hin as (d & -> & [Hd1 Hd2]%list_elem_of_filter).
    exists devices, (dm_Device d). split; [done|]. split; [by apply Hsub, (list_elem_of_fmap_2 dm_Device)|].
    split; [done|]. congruence.
Qed.

Lemma dashboard_confined h scope tenants agents devices :
  tenantScope (principal r) = (scope, true) -> Did ListAgents (Ok agents) ∈ h -> Did ListAllDevices (Ok devices) ∈ h ->
  wpa h (dashboard r scope tenants agents devices) confined_if.
Proof.
  intros Hs Hla Hld. unfold dashboard.
  eapply wp_seq; [apply enrich_devices|]. intros h1 ds Hp1 Hds. apply wpa_seq. intros h2 sites Hp2.
  eapply wp_seq; [apply build_tenants_nodes|]. intros h3 dts Hp3 Hn. apply wp_ret. intros _ _. cbn [confined tree_Tenants].
  intros dt Hdt. unfold sort_tenants in Hdt. rewrite merge_sort_Permutation in Hdt.
  apply list_elem_of_lookup in Hdt as [i Hi]. destruct (Forall2_lookup_r _ _ _ _ _ Hn Hi) as (t & Ht & Hnode & _).
  split.
  - destruct Hnode as [-> _]. eapply shown_visible; [done|]. by eapply list_elem_of_lookup_2.
  - intros da Hda. destruct (node_agent _ _ _ _ Hnode Hda) as (a & Ha & Han).
    eapply node_shown; [done | in_history | in_history | | | exact Han].
    + rewrite Hds. intros d [_ Hd]%list_elem_of_filter. done.
    + by apply list_elem_of_filter in Ha as [_ Ha].
Qed.

Lemma handleDashboardTree_confined h : wpa h (handleDashboardTree r) confined_if.
Proof.
  unfold handleDashboardTree. destruct (Method r); try apply wpa_denied. apply wpa_guarded, wpa_scoped. intros scope Hs.
  apply wpa_seq. intros h1 [tenants|e] Hp1; [|apply wpa_denied].
  apply wp_ask_bind; [done|]. intros [agents|e]; [|apply wpa_denied].
  apply wp_ask_bind; [done|]. intros [devices|e]; [|apply wpa_denied].
  apply dashboard_confined; [done | in_history | in_history].
Qed.
End Confined.

Section Shown.
Context `{GoUnicode} (cfg : FleetConfig) (range : gset string -> list string).
Context (gunzip : string -> option string) (gzip : string -> string) (mime_type : string -> string).
Context (json_parse : string -> option (option fields)) (json_print : option fields -> string).
Context (parse_time : string -> string -> option Time) (format_nano : Time -> string) (processStart : Time).
Notation serve := (serve_fleet cfg range gunzip gzip mime_type json_parse json_print parse_time format_nano processStart).

Definition is_listing (ep : endpoint) : bool :=
  match ep with AgentList | AgentDetails | DeviceList | DashboardTree => true | _ => false end.

(** C18: If the store keeps to the filter of a page, the list of agents, the page of an
    agent and the tree of the dashboard show a user who is not an administrator only agents
    of the user's tenants and devices of such agents. So does the list of devices, if one
    of the user's tenants has an agent when the agents are listed; without one it shows the
    devices of every tenant ([no_agents_sees_all]). Summaries of metrics are not among the
    lists. *)
Theorem fleet_listings_confined {W} (env : environment fop W) ep r w :
  (forall s x, x ∈ range s <-> x ∈ s) -> is_listing ep = true ->
  (forall e, e ∈ history env (serve ep r) w -> pages_filtered e) ->
  (ep = DeviceList -> has_agents r (history env (serve ep r) w)) ->
  confined r (history env (serve ep r) w) (outcome env (serve ep r) w).
Proof.
  intros Hrange Hep Hf Hg.
  assert (Hw : wpa [] (serve ep r) (confined_if r (fun h => ep = DeviceList -> has_agents r h))).
  { unfold serve_fleet, handler. destruct ep; try discriminate Hep; cbn [for_agents];
      (destruct (principal r); [|apply wpa_denied]);
      eauto using handleAgentsList_confined, handleAgentDetails_confined, handleDashboardTree_confined.
    apply handleDevicesList_confined. auto. }
  destruct (wp_run _ env _ _ _ w Hw) as [_ Hc]. exact (Hc Hf Hg).
Qed.
End Shown.

Lemma fleet_listings_confined_witness :
  let h := history (fleet_env (fun _ => [])) (demo_fleet DeviceList (viewer_list ["t1"])) tt in
  let x := outcome (fleet_env (fun _ => [])) (demo_fleet DeviceList (viewer_list ["t1"])) tt in
  x = FReply 200 [] (FDevices [enriched ∅ (demo_device "S1" "A")] None) /\ confined (viewer_list ["t1"]) h x.
Proof.
  split; [vm_compute; reflexivity|].
  apply (fleet_listings_confined {| has_resolver := false; has_credentials_key := true |} elements (fun _ => None)
    (fun s => s) (fun _ => "") (fun _ => None) (fun _ => "{}") (fun _ _ => None) (fun _ => "") 0%Z
    (fleet_env (fun _ => [])) DeviceList (viewer_list ["t1"]) tt).
  - intros. apply elem_of_elements.
  - reflexivity.
  - intros e He. apply (run_answers (fleet_env (fun _ => []))) in He. destruct e as [B o b].
    destruct o; try done; destruct He as [[] ->]; cbn; intros l x [= <-] Hne Hx.
    + destruct tenants; [done|]. by apply list_elem_of_filter in Hx as [? _].
    + destruct agents; [done|]. by apply list_elem_of_filter in Hx as [? _].
  - intros _. right. intros l Hl. apply (run_answers (fleet_env (fun _ => []))) in Hl as [[] [= ->]].
    exists (demo_agent "A" "t1"). split; [left|]. exists (Some {["t1"]}). split; vm_compute; reflexivity.
Defined.
