(* ===== verification/FloatBounds.v ===== *)
(** * Magnitudes of [float64] values.

    [small k f]: [f] is finite, not negative and below [2^k]. Rounding may double the
    bound; that is enough to convert products and quotients of small integers back to
    integers. *)
From S2P Require Import Prelude GoFloat.
From Stdlib Require Import Floats.SpecFloat.

Definition small (k : Z) (f : float64) : Prop :=
  match f with
  | S754_zero s => s = false
  | S754_finite s m e => s = false /\ e < k /\ Zpos m < 2 ^ (k - e)
  | _ => False
  end.

Lemma shr_1_m r : 0 <= shr_m r -> shr_m (shr_1 r) = shr_m r / 2.
Proof.
  destruct r as [m r s]. cbn. intros Hm. destruct m as [|[p|p|]|p]; cbn; try done.
  - rewrite <- (Z.div_unique (Zpos p~1) 2 (Zpos p) 1); lia.
  - rewrite <- (Z.div_unique (Zpos p~0) 2 (Zpos p) 0); lia.
Qed.

Lemma iter_shr_m p r : 0 <= shr_m r -> shr_m (iter_pos shr_1 p r) = shr_m r / 2 ^ Zpos p /\ 0 <= shr_m (iter_pos shr_1 p r).
Proof.
  revert r. induction p as [p IH|p IH|]; intros r Hr; cbn [iter_pos].
  - destruct (IH (shr_1 r)) as [H1 H1']; [rewrite shr_1_m by done; apply Z.div_pos; lia|].
    destruct (IH _ H1') as [H2 H2']. split; [|done].
    rewrite H2, H1, shr_1_m by done. rewrite !Z.div_div by lia. f_equal.
    replace (Zpos p~1) with (1 + Zpos p + Zpos p) by lia. rewrite !Z.pow_add_r by lia. change (2 ^ 1) with 2. ring.
  - destruct (IH r Hr) as [H1 H1']. destruct (IH _ H1') as [H2 H2']. split; [|done].
    rewrite H2, H1, Z.div_div by lia. f_equal. rewrite Pos2Z.inj_xO, <- Z.pow_add_r by lia. f_equal. lia.
  - rewrite shr_1_m by done. split; [done | apply Z.div_pos; lia].
Qed.

Lemma digits2_pos_bound p : Zpos p < 2 ^ Zpos (digits2_pos p) /\ 2 ^ (Zpos (digits2_pos p) - 1) <= Zpos p.
Proof.
  induction p as [p [IH1 IH2]|p [IH1 IH2]|]; cbn [digits2_pos]; [| |cbn; lia].
  all: rewrite Pos2Z.inj_succ; unfold Z.succ; rewrite Z.pow_add_r by lia; change (2 ^ 1) with 2.
  all: replace (Zpos (digits2_pos p) + 1 - 1) with ((Zpos (digits2_pos p) - 1) + 1) by lia.
  all: rewrite Z.pow_add_r by lia; change (2 ^ 1) with 2; lia.
Qed.

Lemma digits2_below m e k : 0 <= m -> m < 2 ^ (k - e) -> e <= k -> Zdigits2 m + e <= k.
Proof.
  intros Hm Hlt He. destruct m as [|p|p]; cbn [Zdigits2]; [lia| |lia].
  destruct (digits2_pos_bound p) as [_ Hlo].
  assert (Zpos (digits2_pos p) - 1 < k - e); [|lia].
  apply (Z.pow_lt_mono_r_iff 2); lia.
Qed.

Lemma shr_record_m m l : shr_m (shr_record_of_loc m l) = m.
Proof. by destruct l as [|[]]. Qed.

(** Shifting to the exponent of the format keeps the bound. *)
Lemma shr_fexp_small m e l k :
  0 <= m -> m < 2 ^ (k - e) -> e <= k -> 0 <= k ->
  let '(r, e') := shr_fexp prec64 emax64 m e l in 0 <= shr_m r /\ e' <= k /\ shr_m r < 2 ^ (k - e').
Proof.
  intros Hm Hlt He Hk. unfold shr_fexp, shr.
  pose proof (digits2_below _ _ _ Hm Hlt He) as Hd.
  assert (Hf : fexp prec64 emax64 (Zdigits2 m + e) <= k) by (unfold fexp, emin, prec64, emax64; lia).
  destruct (fexp prec64 emax64 (Zdigits2 m + e) - e) as [|p|p] eqn:Hn; rewrite ?shr_record_m; try (repeat split; assumption).
  destruct (iter_shr_m p (shr_record_of_loc m l)) as [H1 H2]; [by rewrite shr_record_m|].
  rewrite shr_record_m in H1. repeat split; [done | lia|].
  rewrite H1. apply Z.div_lt_upper_bound; [lia|]. rewrite <- Z.pow_add_r by lia.
  eapply Z.lt_le_trans; [exact Hlt|]. apply Z.pow_le_mono_r; lia.
Qed.

(** A rounding result is small. *)
Lemma round_small m e l k :
  0 <= m -> m < 2 ^ (k - e) -> e <= k -> 0 <= k <= 900 -> small (k + 1) (binary_round_aux prec64 emax64 false m e l).
Proof.
  intros Hm Hlt He Hk. unfold binary_round_aux.
  pose proof (shr_fexp_small m e l k Hm Hlt He ltac:(lia)) as H1.
  destruct (shr_fexp prec64 emax64 m e l) as [r e1]. destruct H1 as (Hr0 & He1 & Hr1).
  set (m2 := round_nearest_even (shr_m r) (loc_of_shr_record r)).
  assert (Hm2 : 0 <= m2 <= 2 ^ (k - e1)).
  { unfold m2, round_nearest_even. repeat case_match; lia. }
  assert (Hdbl : 2 ^ (k + 1 - e1) = 2 * 2 ^ (k - e1)).
  { replace (k + 1 - e1) with (1 + (k - e1)) by lia. rewrite Z.pow_add_r by lia. done. }
  assert (0 < 2 ^ (k - e1)) by (apply Z.pow_pos_nonneg; lia).
  pose proof (shr_fexp_small m2 e1 loc_Exact (k + 1) ltac:(lia) ltac:(lia) ltac:(lia) ltac:(lia)) as H2.
  destruct (shr_fexp prec64 emax64 m2 e1 loc_Exact) as [r' e2]. destruct H2 as (Hs0 & He2 & Hs1).
  destruct (shr_m r') as [|p|p] eqn:Hp; [done| |lia].
  assert (e2 < k + 1).
  { destruct (decide (e2 = k + 1)) as [->|]; [|lia]. rewrite Z.sub_diag in Hs1. cbn in Hs1. lia. }
  replace (e2 <=? emax64 - prec64) with true; [by repeat split|]. symmetry. apply Z.leb_le. unfold emax64, prec64. lia.
Qed.

Lemma small_mono j k f : j <= k -> small j f -> small k f.
Proof.
  destruct f as [s|s| |s m e]; cbn; try done. intros Hj (Hs & He & Hm). repeat split; [done | lia|].
  eapply Z.lt_le_trans; [exact Hm|]. apply Z.pow_le_mono_r; lia.
Qed.

Lemma fmul_small j k x y : 0 <= j -> 0 <= k -> j + k <= 900 -> small j x -> small k y -> small (j + k + 1) (fmul x y).
Proof.
  intros Hj Hk Hjk Hx Hy. unfold fmul.
  destruct x as [sx|sx| |sx mx ex], y as [sy|sy| |sy my ey]; try done; cbn [SFmul] in *.
  - cbn in *. subst. done.
  - destruct Hy as (-> & _). cbn in *. by subst.
  - destruct Hx as (-> & _). cbn in *. by subst.
  - destruct Hx as (-> & Hex & Hmx), Hy as (-> & Hey & Hmy). cbn [xorb].
    apply round_small; [lia | | lia | lia].
    replace (j + k - (ex + ey)) with ((j - ex) + (k - ey)) by lia. rewrite Z.pow_add_r by lia.
    rewrite Pos2Z.inj_mul. apply Z.mul_lt_mono_nonneg; lia.
Qed.

(** The integer of a small value. *)
Lemma int_of_small k f : 0 <= k <= 62 -> small k f -> 0 <= int_of_float f < 2 ^ k.
Proof.
  intros Hk Hf. assert (Hpos : 0 < 2 ^ k) by (apply Z.pow_pos_nonneg; lia).
  assert (Hmax : 2 ^ k <= 2 ^ 62) by (apply Z.pow_le_mono_r; lia).
  destruct f as [s|s| |s m e]; try done. destruct Hf as (-> & He & Hm). unfold int_of_float.
  set (mag := match e with Z0 => _ | Zpos p => _ | Zneg p => _ end).
  assert (Hmag : 0 <= mag < 2 ^ k).
  { unfold mag. destruct e as [|p|p].
    - by rewrite Z.sub_0_r in Hm.
    - split; [lia|]. replace k with ((k - Zpos p) + Zpos p) by lia. rewrite Z.pow_add_r by lia.
      apply Z.mul_lt_mono_pos_r; [apply Z.pow_pos_nonneg; lia | done].
    - split; [apply Z.div_pos; lia|]. apply Z.div_lt_upper_bound; [lia|]. rewrite <- Z.pow_add_r by lia.
      replace (Zpos p + k) with (k - Zneg p) by lia. done. }
  replace ((int64_min <=? mag) && (mag <=? int64_max)) with true; [done|].
  symmetry. apply andb_true_iff. rewrite !Z.leb_le. unfold int64_min, int64_max. change (2 ^ 62) with 4611686018427387904 in Hmax. lia.
Qed.

(** ** Small integers are exact *)

Lemma iter_xO m p : Zpos (Pos.iter xO m p) = Zpos m * 2 ^ Zpos p /\ Zpos (digits2_pos (Pos.iter xO m p)) = Zpos (digits2_pos m) + Zpos p.
Proof.
  induction p as [|p [IH1 IH2]] using Pos.peano_ind.
  - cbn. lia.
  - rewrite Pos.iter_succ. cbn [digits2_pos]. rewrite !Pos2Z.inj_succ, Pos2Z.inj_xO, IH1, IH2, Z.pow_succ_r by lia. lia.
Qed.

Lemma digits_range n b : 0 <= b -> Zpos n < 2 ^ b -> Zpos (digits2_pos n) <= b.
Proof.
  intros Hb Hn. destruct (digits2_pos_bound n) as [_ Hlo].
  assert (Zpos (digits2_pos n) - 1 < b); [|lia]. apply (Z.pow_lt_mono_r_iff 2); lia.
Qed.

Lemma float_of_Z_exact n :
  0 < n < 2 ^ 53 ->
  exists m e, float_of_Z n = S754_finite false m e /\ -53 <= e <= 0 /\ Zpos m = n * 2 ^ (- e) /\ Zpos (digits2_pos m) = 53.
Proof.
  intros Hn. destruct n as [|n|n]; [lia| |lia]. pose proof (digits_range n 53 ltac:(lia) ltac:(lia)) as Hd.
  set (d := Zpos (digits2_pos n)) in *. assert (1 <= d) by (unfold d; lia).
  assert (exists m e, float_of_Z (Zpos n) = binary_round_aux prec64 emax64 false (Zpos m) e loc_Exact
    /\ -53 <= e <= 0 /\ Zpos m = Zpos n * 2 ^ (- e) /\ Zpos (digits2_pos m) = 53) as (m & e & Hf & He & Hm & Hdm).
  { unfold float_of_Z, binary_normalize, binary_round, shl_align. fold d.
    replace (fexp prec64 emax64 (d + 0) - 0) with (d - 53) by (unfold fexp, emin, prec64, emax64; lia).
    replace (fexp prec64 emax64 (d + 0)) with (d - 53) by (unfold fexp, emin, prec64, emax64; lia).
    destruct (d - 53) as [|p|p] eqn:Hp; [|lia|].
    - exists n, 0. repeat split; [lia..|]. unfold d in *. lia.
    - exists (Pos.iter xO n p), (Zneg p). destruct (iter_xO n p) as [H1 H2]. repeat split; [lia | lia | done|]. fold d in H2. lia. }
  exists m, e. rewrite Hf. split; [|done]. unfold binary_round_aux.
  assert (Hs : shr_fexp prec64 emax64 (Zpos m) e loc_Exact = (shr_record_of_loc (Zpos m) loc_Exact, e)).
  { unfold shr_fexp, Zdigits2. rewrite Hdm.
    replace (fexp prec64 emax64 (53 + e) - e) with 0 by (unfold fexp, emin, prec64, emax64; lia). done. }
  rewrite Hs. cbn. rewrite Hs. cbn. replace (e <=? emax64 - prec64) with true; [done|].
  symmetry. apply Z.leb_le. unfold emax64, prec64. lia.
Qed.

Lemma float_of_Z_small n k : 0 <= k <= 53 -> 0 <= n < 2 ^ k -> small k (float_of_Z n).
Proof.
  intros Hk Hn. destruct (decide (n = 0)) as [->|Hne]; [done|].
  destruct (float_of_Z_exact n) as (m & e & -> & He & Hm & _).
  { split; [lia|]. eapply Z.lt_le_trans; [apply Hn|]. apply Z.pow_le_mono_r; lia. }
  cbn. repeat split.
  - destruct (decide (e < k)); [done|]. assert (k = 0 /\ e = 0) as [-> ->] by lia. cbn in Hn. lia.
  - rewrite Hm. replace (k - e) with (k + - e) by lia. rewrite Z.pow_add_r by lia.
    apply Z.mul_lt_mono_pos_r; [apply Z.pow_pos_nonneg; lia | lia].
Qed.

(** The quotient of small integers, before it is rounded. *)
Lemma fdiv_core n d k : 0 <= k <= 53 -> 0 < n < 2 ^ k -> 0 < d < 2 ^ 53 ->
  exists q e l, fdiv (float_of_Z n) (float_of_Z d) = binary_round_aux prec64 emax64 false q e l
    /\ 0 <= q < 2 ^ (k - e) /\ -106 <= e <= k - 53 /\ (d <= n -> 2 ^ (- e) <= q).
Proof.
  intros Hk Hn Hd.
  destruct (float_of_Z_exact n) as (m1 & e1 & -> & He1 & Hm1 & Hd1).
  { split; [lia|]. eapply Z.lt_le_trans; [apply Hn|]. apply Z.pow_le_mono_r; lia. }
  destruct (float_of_Z_exact d) as (m2 & e2 & -> & He2 & Hm2 & Hd2); [done|].
  unfold fdiv, SFdiv, SFdiv_core_binary, Zdigits2. rewrite Hd1, Hd2.
  replace (Z.min (fexp prec64 emax64 (53 + e1 - (53 + e2))) (e1 - e2)) with (e1 - e2 - 53)
    by (unfold fexp, emin, prec64, emax64; lia).
  replace (e1 - e2 - (e1 - e2 - 53)) with 53 by lia.
  pose proof (Z_div_mod (Z.shiftl (Zpos m1) 53) (Zpos m2) ltac:(lia)) as Hq.
  destruct (Z.div_eucl _ _) as [quot rest]. destruct Hq as [Hq Hr]. cbn [xorb].
  rewrite Z.shiftl_mul_pow2 in Hq by lia.
  assert (Hm2lo : 2 ^ (- e2) <= Zpos m2) by (rewrite Hm2; nia).
  assert (Hm1hi : Zpos m1 < 2 ^ (k - e1)).
  { rewrite Hm1. replace (k - e1) with (k + - e1) by lia. rewrite Z.pow_add_r by lia.
    apply Z.mul_lt_mono_pos_r; [apply Z.pow_pos_nonneg; lia | lia]. }
  assert (He1k : e1 <= k - 53).
  { pose proof (digits2_pos_bound m1) as [_ Hlo]. rewrite Hd1 in Hlo.
    assert (52 < k - e1); [|lia]. apply (Z.pow_lt_mono_r_iff 2); lia. }
  assert (Hq0 : 0 <= quot) by nia.
  eexists _, _, _. split; [reflexivity|]. split; [split; [done|] | split; [lia|]].
  - apply (Z.mul_lt_mono_pos_r (2 ^ (- e2))); [apply Z.pow_pos_nonneg; lia|].
    rewrite <- Z.pow_add_r by lia. replace (k - (e1 - e2 - 53) + - e2) with ((k - e1) + 53) by lia.
    rewrite Z.pow_add_r by lia. nia.
  - intros Hdn. replace (- (e1 - e2 - 53)) with ((53 - e1) + e2) by lia.
    assert (Zpos m2 * 2 ^ (53 - e1 + e2) <= Zpos m1 * 2 ^ 53).
    { rewrite Hm1, Hm2, <- !Z.mul_assoc, <- !Z.pow_add_r by lia.
      replace (- e2 + (53 - e1 + e2)) with (- e1 + 53) by lia. apply Z.mul_le_mono_nonneg_r; lia. }
    nia.
Qed.

Lemma fdiv_small n d k : 0 <= k <= 53 -> 0 < n < 2 ^ k -> 0 < d < 2 ^ 53 -> small (k + 1) (fdiv (float_of_Z n) (float_of_Z d)).
Proof.
  intros Hk Hn Hd. destruct (fdiv_core n d k Hk Hn Hd) as (q & e & l & -> & Hq & He & _). apply round_small; lia.
Qed.

(** ** Rounding errors

    [V f] is the value of [f] in units of 2^-200. *)

Definition V (f : float64) : Z :=
  match f with S754_finite false m e => Zpos m * 2 ^ (e + 200) | _ => 0 end.
Definition above (b : Z) (f : float64) : Prop := match f with S754_finite _ _ e => b <= e | _ => True end.

Lemma int_of_V k f : 0 <= k <= 62 -> small k f -> above (-200) f -> int_of_float f = V f / 2 ^ 200.
Proof.
  intros Hk Hf Ha. pose proof (int_of_small k f Hk Hf) as Hr.
  destruct f as [s|s| |s m e]; try done. destruct Hf as (-> & He & Hm). unfold int_of_float in *. cbn [V above] in *.
  set (mag := match e with Z0 => _ | Zpos p => _ | Zneg p => _ end) in *.
  assert (Hmag : mag = Zpos m * 2 ^ (e + 200) / 2 ^ 200).
  { unfold mag. destruct e as [|p|p].
    - by rewrite Z.div_mul.
    - rewrite Z.pow_add_r, Z.mul_assoc, Z.div_mul by lia. done.
    - replace (2 ^ 200) with (2 ^ Zpos p * 2 ^ (200 - Zpos p)) by (rewrite <- Z.pow_add_r by lia; f_equal; lia).
      replace (Zneg p + 200) with (200 - Zpos p) by lia. rewrite Z.div_mul_cancel_r; [done | lia|].
      apply Z.pow_nonzero; lia. }
  rewrite <- Hmag. case_match eqn:Hc; [done|]. exfalso.
  assert (Hb : 0 <= mag < 2 ^ k).
  { rewrite Hmag. split; [apply Z.div_pos; lia|]. apply Z.div_lt_upper_bound; [lia|]. rewrite <- Z.pow_add_r by lia.
    replace (200 + k) with ((k - e) + (e + 200)) by lia. rewrite (Z.pow_add_r 2 (k - e)) by lia.
    apply Z.mul_lt_mono_pos_r; [apply Z.pow_pos_nonneg; lia | done]. }
  assert (2 ^ k <= 2 ^ 62) by (apply Z.pow_le_mono_r; lia). change (2 ^ 62) with 4611686018427387904 in *.
  apply andb_false_iff in Hc as [Hc|Hc]; apply Z.leb_gt in Hc; unfold int64_min, int64_max in Hc; lia.
Qed.

(** A shift to the right loses less than one unit of the result. *)
Lemma shr_fexp_close m e l k :
  0 <= m -> m < 2 ^ (k - e) -> e <= k -> 53 <= k + 1074 ->
  let '(r, e') := shr_fexp prec64 emax64 m e l in
  e <= e' /\ (r = shr_record_of_loc m l /\ e' = e \/ e < e' <= k - 53)
  /\ shr_m r * 2 ^ (e' - e) <= m /\ m < (shr_m r + 1) * 2 ^ (e' - e).
Proof.
  intros Hm Hlt He Hk. unfold shr_fexp, shr. pose proof (digits2_below _ _ _ Hm Hlt He) as Hd.
  destruct (fexp prec64 emax64 (Zdigits2 m + e) - e) as [|p|p] eqn:Hn.
  1,3: rewrite shr_record_m, Z.sub_diag; cbn; repeat split; (lia || by left).
  destruct (iter_shr_m p (shr_record_of_loc m l)) as [H1 H2]; [by rewrite shr_record_m|]. rewrite shr_record_m in H1.
  replace (e + Zpos p - e) with (Zpos p) by lia. repeat split; [lia | right | |].
  - unfold fexp, emin, prec64, emax64 in Hn. lia.
  - rewrite H1, Z.mul_comm. apply Z.mul_div_le. lia.
  - rewrite H1. pose proof (Z.mul_succ_div_gt m (2 ^ Zpos p) ltac:(lia)). lia.
Qed.

(** The error is at most two units of the result; nothing is lost without a shift of an
    exact value. *)
Lemma round_close m e l k :
  0 <= m -> m < 2 ^ (k - e) -> e <= k -> 0 <= k <= 900 -> -200 <= e ->
  let f := binary_round_aux prec64 emax64 false m e l in
  exists e2, e <= e2 /\ above e f /\ (e2 = e \/ e2 <= k - 52)
    /\ Z.abs (V f - m * 2 ^ (e + 200)) <= 2 * 2 ^ (e2 + 200)
    /\ (e2 = e -> l = loc_Exact -> V f = m * 2 ^ (e + 200)).
Proof.
  intros Hm Hlt He Hk Hlow f.
  pose proof (shr_fexp_small m e l k Hm Hlt He ltac:(lia)) as H1.
  pose proof (shr_fexp_close m e l k Hm Hlt He ltac:(lia)) as C1.
  unfold f, binary_round_aux. destruct (shr_fexp prec64 emax64 m e l) as [r e1].
  destruct H1 as (Hr0 & He1 & Hr1), C1 as (Hle1 & Hsh1 & Hlo1 & Hhi1).
  set (m2 := round_nearest_even (shr_m r) (loc_of_shr_record r)).
  assert (Hm2 : shr_m r <= m2 <= shr_m r + 1) by (unfold m2, round_nearest_even; repeat case_match; lia).
  assert (Hdbl : 2 ^ (k + 1 - e1) = 2 * 2 ^ (k - e1)).
  { replace (k + 1 - e1) with (1 + (k - e1)) by lia. rewrite Z.pow_add_r by lia. done. }
  assert (0 < 2 ^ (k - e1)) by (apply Z.pow_pos_nonneg; lia).
  pose proof (shr_fexp_small m2 e1 loc_Exact (k + 1) ltac:(lia) ltac:(lia) ltac:(lia) ltac:(lia)) as H2.
  pose proof (shr_fexp_close m2 e1 loc_Exact (k + 1) ltac:(lia) ltac:(lia) ltac:(lia) ltac:(lia)) as C2.
  destruct (shr_fexp prec64 emax64 m2 e1 loc_Exact) as [r' e2].
  destruct H2 as (Hs0 & He2 & Hs1), C2 as (Hle2 & Hsh2 & Hlo2 & Hhi2).
  set (g := match shr_m r' with Z0 => _ | Zpos p => _ | Zneg p => _ end).
  assert (Hg : V g = shr_m r' * 2 ^ (e2 + 200) /\ above e g).
  { unfold g. destruct (shr_m r') as [|p|p] eqn:Hp; [done| |lia].
    assert (e2 < k + 1).
    { destruct (decide (e2 = k + 1)) as [->|]; [|lia]. rewrite Z.sub_diag in Hs1. cbn in Hs1. lia. }
    replace (e2 <=? emax64 - prec64) with true; [cbn; split; [done | lia]|].
    symmetry. apply Z.leb_le. unfold emax64, prec64. lia. }
  destruct Hg as [HV Hab]. exists e2. rewrite HV.
  split; [lia|]. split; [done|]. split; [lia|]. clearbody g.
  assert (HA : 2 ^ (e2 + 200) = 2 ^ (e1 - e) * 2 ^ (e2 - e1) * 2 ^ (e + 200)).
  { rewrite <- !Z.pow_add_r by lia. f_equal. lia. }
  assert (1 <= 2 ^ (e1 - e) /\ 1 <= 2 ^ (e2 - e1) /\ 0 < 2 ^ (e + 200)) as (HA1 & HB1 & HU).
  { repeat split; try (apply (Z.pow_le_mono_r 2 0); lia). apply Z.pow_pos_nonneg; lia. }
  split.
  - rewrite HA. set (A := 2 ^ (e1 - e)) in *. set (B := 2 ^ (e2 - e1)) in *. set (U := 2 ^ (e + 200)) in *.
    replace (shr_m r' * (A * B * U) - m * U) with ((shr_m r' * B * A - m) * U) by ring.
    rewrite Z.abs_mul, (Z.abs_eq U) by lia. replace (2 * (A * B * U)) with (2 * (A * B) * U) by ring.
    apply Z.mul_le_mono_nonneg_r; [lia|]. apply Z.abs_le. nia.
  - intros -> ->. assert (e1 = e) as -> by lia. destruct Hsh1 as [[-> _]|]; [|lia]. destruct Hsh2 as [[-> _]|]; [|lia]. done.
Qed.

Lemma fmul_close j k x y :
  0 <= j -> 0 <= k -> j + k <= 60 -> small j x -> small k y -> above (-53) x -> above (-120) y ->
  above (-200) (fmul x y) /\ Z.abs (V (fmul x y) * 2 ^ 200 - V x * V y) <= 2 ^ (j + k + 349).
Proof.
  intros Hj Hk Hjk Hx Hy Hax Hay. assert (0 < 2 ^ (j + k + 349)) by (apply Z.pow_pos_nonneg; lia).
  unfold fmul. destruct x as [sx|sx| |sx mx ex], y as [sy|sy| |sy my ey]; try done.
  - cbn [SFmul V]. split; [done|]. lia.
  - destruct Hy as (-> & _). cbn [SFmul V]. split; [done|]. lia.
  - destruct Hx as (-> & _). cbn [SFmul V]. split; [done|]. lia.
  - destruct Hx as (-> & Hex & Hmx), Hy as (-> & Hey & Hmy). cbn [above] in *. cbn [SFmul xorb].
    destruct (round_close (Zpos (mx * my)) (ex + ey) loc_Exact (j + k)) as (e2 & Hle & Hab & He2 & Hclose & Hexact);
      [lia | | lia..|].
    { replace (j + k - (ex + ey)) with ((j - ex) + (k - ey)) by lia. rewrite Z.pow_add_r by lia.
      rewrite Pos2Z.inj_mul. apply Z.mul_lt_mono_nonneg; lia. }
    set (f := binary_round_aux _ _ _ _ _ _) in *.
    split; [destruct f; try done; cbn in *; lia|]. cbn [V].
    assert (Hvv : Zpos mx * 2 ^ (ex + 200) * (Zpos my * 2 ^ (ey + 200)) = Zpos (mx * my) * 2 ^ (ex + ey + 200) * 2 ^ 200).
    { rewrite Pos2Z.inj_mul. replace (ex + ey + 200) with ((ex + 200) + ey) by lia.
      replace (Zpos mx * Zpos my * 2 ^ (ex + 200 + ey) * 2 ^ 200) with (Zpos mx * Zpos my * (2 ^ (ex + 200 + ey) * 2 ^ 200)) by ring.
      rewrite <- (Z.pow_add_r 2 (ex + 200 + ey)) by lia. replace (ex + 200 + ey + 200) with ((ex + 200) + (ey + 200)) by lia.
      rewrite (Z.pow_add_r 2 (ex + 200)) by lia. ring. }
    rewrite Hvv, <- Z.mul_sub_distr_r, Z.abs_mul, (Z.abs_eq (2 ^ 200)) by lia.
    destruct He2 as [He2|He2]; [rewrite (Hexact He2 eq_refl), Z.sub_diag; cbn [Z.abs Z.mul]; lia|].
    assert (2 ^ (j + k + 349) = 2 * 2 ^ (j + k + 148) * 2 ^ 200) as ->.
    { replace (j + k + 349) with (1 + (j + k + 148) + 200) by lia. rewrite !Z.pow_add_r by lia. done. }
    apply Z.mul_le_mono_nonneg_r; [lia|]. etrans; [exact Hclose|]. apply Z.mul_le_mono_nonneg_l; [lia|].
    apply Z.pow_le_mono_r; lia.
Qed.

Lemma fdiv_lower n d : 0 < d <= n -> n < 2 ^ 22 ->
  let f := fdiv (float_of_Z n) (float_of_Z d) in small 23 f /\ above (-120) f /\ 2 ^ 199 <= V f.
Proof.
  intros Hd Hn f. split; [apply (fdiv_small n d 22); lia|].
  destruct (fdiv_core n d 22) as (q & e & l & Hf & Hq & He & Hlow); [lia..|]. specialize (Hlow ltac:(lia)).
  unfold f. rewrite Hf. destruct (round_close q e l 22) as (e2 & Hle & Hab & He2 & Hclose & _); [lia..|].
  set (g := binary_round_aux _ _ _ _ _ _) in *. split; [destruct g; try done; cbn in *; lia|].
  assert (H1 : 2 ^ 200 <= q * 2 ^ (e + 200)).
  { etrans; [|apply Z.mul_le_mono_nonneg_r; [apply Z.pow_nonneg; lia | exact Hlow]].
    rewrite <- Z.pow_add_r by lia. apply Z.pow_le_mono_r; lia. }
  assert (H2 : 2 ^ (e2 + 200) <= 2 ^ 170) by (apply Z.pow_le_mono_r; lia).
  change (2 ^ 199) with (2 ^ 200 - 2 ^ 199). assert (2 * 2 ^ 170 <= 2 ^ 199) by done. lia.
Qed.

Lemma V_float_of_Z n : 0 <= n < 2 ^ 53 -> V (float_of_Z n) = n * 2 ^ 200 /\ above (-53) (float_of_Z n).
Proof.
  intros Hn. destruct (decide (n = 0)) as [->|Hne]; [done|].
  destruct (float_of_Z_exact n) as (m & e & -> & He & Hm & _); [lia|]. cbn. split; [|lia].
  rewrite Hm, <- Z.mul_assoc, <- Z.pow_add_r by lia. do 2 f_equal. lia.
Qed.

(** Multiples of a quotient of at least one, converted to integers, are in order. *)
Lemma multiples_ordered n d i :
  0 < d <= n -> n < 2 ^ 22 -> 0 <= i -> i + 1 < 2 ^ 22 ->
  let s := fdiv (float_of_Z n) (float_of_Z d) in
  let z k := int_of_float (fmul (float_of_Z k) s) in
  0 <= z i <= z (i + 1) /\ z (i + 1) < 2 ^ 46.
Proof.
  intros Hd Hn Hi Hi2 s z. destruct (fdiv_lower n d Hd Hn) as (Hs & Ha & Hlow). fold s in Hs, Ha, Hlow.
  assert (Hz : forall k, 0 <= k < 2 ^ 22 -> 0 <= z k < 2 ^ 46 /\ z k = V (fmul (float_of_Z k) s) / 2 ^ 200
    /\ Z.abs (V (fmul (float_of_Z k) s) * 2 ^ 200 - k * 2 ^ 200 * V s) <= 2 ^ 394).
  { intros k Hk. assert (Hk' : small 22 (float_of_Z k)) by (apply float_of_Z_small; lia).
    assert (Hm : small 46 (fmul (float_of_Z k) s)) by (apply (fmul_small 22 23); (lia || done)).
    destruct (V_float_of_Z k) as [HV Hk2]; [lia|].
    destruct (fmul_close 22 23 (float_of_Z k) s) as [Hab Hc]; [lia | lia | lia | done..|]. rewrite HV in Hc.
    split; [by apply int_of_small|]. split; [by apply (int_of_V 46) | exact Hc]. }
  destruct (Hz i) as (H1 & H2 & H3); [lia|]. destruct (Hz (i + 1)) as (H4 & H5 & H6); [lia|].
  split; [|lia]. split; [lia|]. rewrite H2, H5. apply Z.div_le_mono; [lia|].
  apply (Z.mul_le_mono_pos_r _ _ (2 ^ 200)); [done|].
  assert (2 ^ 394 + 2 ^ 394 <= 2 ^ 200 * 2 ^ 199) by done. nia.
Qed.
