(* ===== verification/Downsample.v ===== *)
(** * The reduction of a history to a number of points ([downsampleMetrics] of
    [server/main.go]), through the magnitudes and rounding errors of FloatBounds. *)
From S2P Require Import Prelude GoFloat FloatBounds FleetCalls MetricsApi.

(** What the reduction of a history to [target] points promises. *)
Definition reduction (data : list snap) (target : Z) (kept : list snap) : Prop :=
  kept `sublist_of` data
  /\ (Z.of_nat (length data) <= target \/ target < 3 -> kept = data)
  /\ (3 <= target < Z.of_nat (length data) ->
      Z.of_nat (length kept) <= target /\ head kept = head data /\ last kept = last data).

Lemma at_index_in (data : list snap) i : 0 <= i < Z.of_nat (length data) -> exists m, at_index data i = Some m /\ data !! Z.to_nat i = Some m.
Proof.
  intros Hi. unfold at_index. replace (i <? 0) with false by (symmetry; apply Z.ltb_ge; lia).
  destruct (lookup_lt_is_Some_2 data (Z.to_nat i)) as [m Hm]; [lia | by exists m].
Qed.

Lemma best_in_range data first last prev next k j best :
  first <= j -> j + Z.of_nat k <= last -> 0 <= first -> last <= Z.of_nat (length data) -> first <= best.1 < last ->
  exists b, best_in data first last prev next k j best = Some b /\ first <= b < last.
Proof.
  revert j best. induction k as [|k IH]; intros j best Hj Hk Hf Hl Hb; cbn [best_in]; [by exists best.1|].
  destruct (at_index_in data j) as (m & -> & _); [lia|]. apply IH; [lia..|]. case_match; cbn; lia.
Qed.

Lemma sublist_point {A} (X rest : list A) m (lo b hi : nat) :
  X !! b = Some m -> (lo <= b)%nat -> (b < hi)%nat -> rest `sublist_of` drop hi X -> (m :: rest) `sublist_of` drop lo X.
Proof.
  intros Hm Hlo Hhi Hr. transitivity (drop b X).
  - rewrite (drop_S _ _ _ Hm). apply sublist_skip. etrans; [exact Hr|].
    replace hi with (S b + (hi - S b))%nat by lia. rewrite <- drop_drop. apply sublist_drop.
  - replace b with (lo + (b - lo))%nat by lia. rewrite <- drop_drop. apply sublist_drop.
Qed.

Section Buckets.
Context (data : list snap) (n d : Z).
Context (Hlen : Z.of_nat (length data) = n + 2) (Hd : 0 < d <= n) (Hn : n < 2 ^ 21).
Notation size := (fdiv (float_of_Z n) (float_of_Z d)).
Notation len := (Z.of_nat (length data)).

(** The lower end of a bucket. *)
Definition edge (k : Z) : Z := int_of_float (fmul (float_of_Z k) size) + 1.

Lemma edge_range k : 0 <= k <= n -> 1 <= edge k <= edge (k + 1) /\ edge (k + 1) < 2 ^ 47.
Proof.
  intros Hk. unfold edge. destruct (multiples_ordered n d k) as [H1 H2]; [lia..|]. cbn in *. lia.
Qed.

Lemma bucket_edges k : 0 <= k <= n ->
  bucket size len k = (edge k, if len - 1 <? edge (k + 1) then len - 1 else edge (k + 1)).
Proof.
  intros Hk. destruct (edge_range k Hk) as [H1 H2]. unfold bucket.
  rewrite (wrap64_id (int_of_float (fmul (float_of_Z k) size) + 1)),
    (wrap64_id (int_of_float (fmul (float_of_Z (k + 1)) size) + 1)); [done| |];
    unfold in_int64, int64_min, int64_max, edge in *; lia.
Qed.

(** A bucket gives nothing or a point between its ends. *)
Lemma from_bucket_point i : 0 <= i <= n ->
  exists l, from_bucket data size i = Some l
    /\ (l = [] \/ exists b m, l = [m] /\ data !! Z.to_nat b = Some m /\ edge i <= b < edge (i + 1) /\ b < len - 1).
Proof.
  intros Hi. destruct (edge_range i Hi) as [[H1 H2] H3]. unfold from_bucket. rewrite bucket_edges by done.
  set (last := if len - 1 <? edge (i + 1) then len - 1 else edge (i + 1)).
  assert (Hlast : last <= edge (i + 1) /\ last <= len - 1) by (unfold last; case_match; reflect_bools; lia).
  destruct (last <=? edge i) eqn:Hle; reflect_bools; [eexists; split; [done | by left]|].
  destruct (at_index_in data (edge i - 1)) as (p & -> & _); [lia|]. destruct (at_index_in data last) as (x & -> & _); [lia|].
  cbn [mbind option_bind].
  destruct (best_in_range data (edge i) last (float_of_Z (PageCount p)) (float_of_Z (PageCount x)) (Z.to_nat (last - edge i))
    (edge i) (edge i, float_of_Z 0)) as (b & -> & Hb); [cbn; lia..|]. cbn [mbind option_bind].
  destruct (at_index_in data b) as (m & -> & Hm); [lia|]. cbn [mbind option_bind]. eexists. split; [done|]. right. exists b, m. repeat split; (done || lia).
Qed.

Lemma from_buckets_sublist k i : 0 <= i -> i + Z.of_nat k <= n + 1 ->
  exists l, from_buckets data size k i = Some l /\ (length l <= k)%nat
    /\ l `sublist_of` drop (Z.to_nat (edge i)) (take (length data - 1) data).
Proof.
  revert i. induction k as [|k IH]; intros i Hi Hk; cbn [from_buckets].
  { eexists. split; [done|]. split; [done | apply sublist_nil_l]. }
  destruct (edge_range i) as [[H1 H2] H3]; [lia|].
  destruct (from_bucket_point i) as (l & -> & Hl); [lia|]. destruct (IH (i + 1)) as (rest & -> & Hlen' & Hr); [lia..|].
  cbn [mbind option_bind].
  eexists. split; [done|]. destruct Hl as [->|(b & m & -> & Hm & Hb & Hb2)].
  - split; [cbn; lia|]. etrans; [exact Hr|].
    replace (Z.to_nat (edge (i + 1))) with (Z.to_nat (edge i) + Z.to_nat (edge (i + 1) - edge i))%nat by lia.
    rewrite <- drop_drop. apply sublist_drop.
  - split; [cbn; lia|]. apply (sublist_point _ _ m _ (Z.to_nat b) (Z.to_nat (edge (i + 1)))); [|lia..|exact Hr].
    rewrite lookup_take_lt by lia. exact Hm.
Qed.
End Buckets.

(** The reduction always succeeds. It gives points of the history in their order, at
    most as many as asked for, the first and the last among them; a history that is short
    enough, or a target below three, gives all points. *)
Theorem downsample_selects data target :
  Z.of_nat (length data) < 2 ^ 21 ->
  exists kept, downsampleMetrics data target = Some kept /\ reduction data target kept.
Proof.
  intros Hlen. unfold downsampleMetrics, reduction. destruct (_ || _) eqn:Hall.
  { exists data. repeat split; try done; apply orb_true_iff in Hall as [Ha|Ha]; reflect_bools; lia. }
  reflect_bools.
  destruct (from_buckets_sublist data (Z.of_nat (length data) - 2) (target - 2)) with (k := Z.to_nat (target - 2)) (i := 0)
    as (middle & Hm & Hk & Hsub); [lia..|].
  destruct (at_index_in data 0) as (x & Hx & Hx'); [lia..|].
  rewrite Hx. cbn [mbind option_bind]. rewrite Hm. cbn [mbind option_bind].
  destruct (at_index_in data (Z.of_nat (length data) - 1)) as (y & Hy & Hy'); [lia..|].
  rewrite Hy. cbn [mbind option_bind].
  destruct (edge_range data (Z.of_nat (length data) - 2) (target - 2)) with (k := 0) as [[He _] _]; [lia..|].
  replace (Z.to_nat (Z.of_nat (length data) - 1)) with (length data - 1)%nat in Hy' by lia.
  assert (Hdata : data = take (length data - 1) data ++ [y]).
  { rewrite <- (take_S_r _ _ _ Hy'). replace (S (length data - 1)) with (length data) by lia. by rewrite firstn_all. }
  assert (Hfront : x :: middle `sublist_of` take (length data - 1) data).
  { rewrite <- (drop_0 (take _ _)). eapply (sublist_point _ _ x 0 0); [| lia | |exact Hsub]; [|lia].
    rewrite lookup_take_lt by lia. exact Hx'. }
  eexists. split; [reflexivity|]. split; [|split; [lia | intros _; split]].
  - rewrite Hdata at 1. apply (sublist_app (x :: middle)); [exact Hfront | done].
  - rewrite !length_app. cbn. lia.
  - split.
    + destruct data as [|z l]; [done|]. cbn. by injection Hx' as ->.
    + rewrite Hdata at 1. by rewrite app_assoc, !last_snoc.
Qed.

Lemma downsample_selects_witness :
  Z.of_nat (length (points [0; 1; 2; 900; 4; 5; 6; 7; 8; 9; 10; 11])) < 2 ^ 21
  /\ exists kept, downsampleMetrics (points [0; 1; 2; 900; 4; 5; 6; 7; 8; 9; 10; 11]) 5 = Some kept
     /\ kept `sublist_of` points [0; 1; 2; 900; 4; 5; 6; 7; 8; 9; 10; 11].
Proof.
  split; [vm_compute; reflexivity|].
  destruct (downsample_selects (points [0; 1; 2; 900; 4; 5; 6; 7; 8; 9; 10; 11]) 5) as (kept & Hk & Hsub & _);
    [vm_compute; reflexivity|].
  exists kept. split; [exact Hk | exact Hsub].
Defined.
