(* ===== verification/AgentSettings.v ===== *)
(** * Settings on the agent ([agent/settings_manager.go]; [loadUnifiedSettings],
    [mapIntoStruct], [structToMap], [applyFeaturesSettingsEffects] and the [/settings]
    handler of [agent/main.go]; [handleHeartbeatSettings] of [agent/upload_worker.go]).

    The server's snapshot is kept in memory by the settings manager and in the
    configuration store; local settings are JSON objects in the store. Reads of the
    manager are calls too, since a heartbeat may replace the snapshot between two of
    them. *)
From S2P Require Import Prelude GoStrings GoTime Effects RangeParser Settings OverrideMap SettingsCodec SettingsResolver.

Open Scope string_scope.

(** ** Data *)

(** [agent.SettingsSnapshot] of a heartbeat: the sections are [None] for JSON null. *)
Record SettingsSnapshot := {
  Version : string;
  Snapshot_SchemaVersion : string;
  UpdatedAt : Time;
  Snapshot_ManagedSections : option (list string);
  Snapshot_Settings : Settings;
}.

Record serverManagedSettings := {
  M_Version : string;
  M_SchemaVersion : string;
  M_UpdatedAt : Time;
  M_ManagedSections : list string;
  M_Settings : Settings;
}.

(** The body of a request to [/settings], already decoded. *)
Record SettingsRequest := {
  Req_Discovery : option jobj;
  Req_SNMP : option jobj;
  Req_Features : option jobj;
  Req_Spooler : option jobj;
  Req_Logging : option jobj;
  Req_Web : option jobj;
  Req_Reset : bool;
}.

Inductive Reply :=
| InvalidJSON
| Conflict (locked_keys : list string)
| Reset (defaults : Settings)
| RangesRejected (err : string)
| RangesInvalid (res : ParseResult)
| SaveFailed (err : string)
| Saved (current : Settings)
| Hangs.

(** What a change of settings does to the running agent. *)
Inductive Effect :=
| StopDiscovery
| DiscoveryEffects (disc : jobj)
| SetEpsonRemoteMode (enabled : bool)
| RestartSpooler (s : SpoolerSettings)
| SetLogging (l : LoggingSettings).

(** ** Decoding into a struct that has values ([mapIntoStruct])

    The decoder reports the type error of a field after it has decoded the others,
    and the error is dropped. *)

Definition store_field {A} (one : jval -> option (option A)) (old : A) (vals : list jval) : A :=
  fold_left (fun acc v => match one v with Some (Some a) => a | _ => acc end) vals old.

Section Decode.
Context `{GoUnicode} `{GoFloatText}.

Definition store_bool (m : jobj) (name : string) (old : bool) : bool :=
  store_field one_bool old (field_values [m] name).
Definition store_str (m : jobj) (name old : string) : string :=
  store_field one_str old (field_values [m] name).
Definition store_int (m : jobj) (name : string) (old : Z) : Z :=
  store_field one_int old (field_values [m] name).

Definition into_discovery (m : jobj) (d : DiscoverySettings) : DiscoverySettings :=
  {| SubnetScan := store_bool m "subnet_scan" (SubnetScan d);
     ManualRanges := store_bool m "manual_ranges" (ManualRanges d);
     RangesText := store_str m "ranges_text" (RangesText d);
     DetectedSubnet := store_str m "detected_subnet" (DetectedSubnet d);
     IPScanningEnabled := store_bool m "ip_scanning_enabled" (IPScanningEnabled d);
     Concurrency := store_int m "concurrency" (Concurrency d);
     ARPEnabled := store_bool m "arp_enabled" (ARPEnabled d);
     ICMPEnabled := store_bool m "icmp_enabled" (ICMPEnabled d);
     TCPEnabled := store_bool m "tcp_enabled" (TCPEnabled d);
     SNMPEnabled := store_bool m "snmp_enabled" (SNMPEnabled d);
     MDNSEnabled := store_bool m "mdns_enabled" (MDNSEnabled d);
     AutoDiscoverEnabled := store_bool m "auto_discover_enabled" (AutoDiscoverEnabled d);
     AutosaveDiscoveredDevices :=
       store_bool m "autosave_discovered_devices" (AutosaveDiscoveredDevices d);
     ShowDiscoverButtonAnyway :=
       store_bool m "show_discover_button_anyway" (ShowDiscoverButtonAnyway d);
     ShowDiscoveredDevicesAnyway :=
       store_bool m "show_discovered_devices_anyway" (ShowDiscoveredDevicesAnyway d);
     PassiveDiscoveryEnabled := store_bool m "passive_discovery_enabled" (PassiveDiscoveryEnabled d);
     AutoDiscoverLiveMDNS := store_bool m "auto_discover_live_mdns" (AutoDiscoverLiveMDNS d);
     AutoDiscoverLiveWSD := store_bool m "auto_discover_live_wsd" (AutoDiscoverLiveWSD d);
     AutoDiscoverLiveSSDP := store_bool m "auto_discover_live_ssdp" (AutoDiscoverLiveSSDP d);
     AutoDiscoverLiveSNMPTrap :=
       store_bool m "auto_discover_live_snmptrap" (AutoDiscoverLiveSNMPTrap d);
     AutoDiscoverLiveLLMNR := store_bool m "auto_discover_live_llmnr" (AutoDiscoverLiveLLMNR d);
     MetricsRescanEnabled := store_bool m "metrics_rescan_enabled" (MetricsRescanEnabled d);
     MetricsRescanIntervalMinutes :=
       store_int m "metrics_rescan_interval_minutes" (MetricsRescanIntervalMinutes d);
     MetricsRescanIntervalSeconds :=
       store_int m "metrics_rescan_interval_seconds" (MetricsRescanIntervalSeconds d) |}.

Definition into_snmp (m : jobj) (s : SNMPSettings) : SNMPSettings :=
  {| SNMP_Version := store_str m "version" (SNMP_Version s);
     Community := store_str m "community" (Community s);
     TimeoutMS := store_int m "timeout_ms" (TimeoutMS s);
     Retries := store_int m "retries" (Retries s);
     SecurityLevel := store_str m "security_level" (SecurityLevel s);
     Username := store_str m "username" (Username s);
     AuthProtocol := store_str m "auth_protocol" (AuthProtocol s);
     AuthPassword := store_str m "auth_password" (AuthPassword s);
     PrivProtocol := store_str m "priv_protocol" (PrivProtocol s);
     PrivPassword := store_str m "priv_password" (PrivPassword s);
     ContextName := store_str m "context_name" (ContextName s) |}.

Definition into_features (m : jobj) (f : FeaturesSettings) : FeaturesSettings :=
  {| EpsonRemoteModeEnabled := store_bool m "epson_remote_mode_enabled" (EpsonRemoteModeEnabled f);
     CredentialsEnabled := store_bool m "credentials_enabled" (CredentialsEnabled f);
     AssetIDRegex := store_str m "asset_id_regex" (AssetIDRegex f) |}.

Definition into_spooler (m : jobj) (s : SpoolerSettings) : SpoolerSettings :=
  {| Spooler_Enabled := store_bool m "enabled" (Spooler_Enabled s);
     PollIntervalSeconds := store_int m "poll_interval_seconds" (PollIntervalSeconds s);
     IncludeNetworkPrinters := store_bool m "include_network_printers" (IncludeNetworkPrinters s);
     IncludeVirtualPrinters := store_bool m "include_virtual_printers" (IncludeVirtualPrinters s) |}.

Definition into_logging (m : jobj) (l : LoggingSettings) : LoggingSettings :=
  {| Level := store_str m "level" (Level l);
     DumpParseDebug := store_bool m "dump_parse_debug" (DumpParseDebug l) |}.

Definition into_web (m : jobj) (w : WebSettings) : WebSettings :=
  {| EnableHTTP := store_bool m "enable_http" (EnableHTTP w);
     EnableHTTPS := store_bool m "enable_https" (EnableHTTPS w);
     HTTPPort := store_str m "http_port" (HTTPPort w);
     HTTPSPort := store_str m "https_port" (HTTPSPort w);
     RedirectHTTPToHTTPS := store_bool m "redirect_http_to_https" (RedirectHTTPToHTTPS w);
     CustomCertPath := store_str m "custom_cert_path" (CustomCertPath w);
     CustomKeyPath := store_str m "custom_key_path" (CustomKeyPath w) |}.

(** [if raw, ok := m[name].(map[string]interface{}); ok { mapIntoStruct(raw, &x) }] *)
Definition object_at (m : option jobj) (name : string) : option jobj :=
  match m ≫= (.!! name) with Some (JObj o) => Some o | _ => None end.
Definition overlay {A} (into : jobj -> A -> A) (raw : option jobj) (x : A) : A :=
  match raw with Some m => into m x | None => x end.

End Decode.

(** [structToMap(updated)] without the two fields that are kept elsewhere. *)
Definition discovery_map (d : DiscoverySettings) : jobj :=
  delete "detected_subnet" (delete "ranges_text" (list_to_map (discovery_entries d))).

(** ** Helpers on settings *)

Definition with_ranges (text : option string) (d : DiscoverySettings) : DiscoverySettings :=
  match text with
  | None => d
  | Some t =>
      {| SubnetScan := SubnetScan d; ManualRanges := ManualRanges d; RangesText := t;
         DetectedSubnet := DetectedSubnet d; IPScanningEnabled := IPScanningEnabled d;
         Concurrency := Concurrency d; ARPEnabled := ARPEnabled d; ICMPEnabled := ICMPEnabled d;
         TCPEnabled := TCPEnabled d; SNMPEnabled := SNMPEnabled d; MDNSEnabled := MDNSEnabled d;
         AutoDiscoverEnabled := AutoDiscoverEnabled d;
         AutosaveDiscoveredDevices := AutosaveDiscoveredDevices d;
         ShowDiscoverButtonAnyway := ShowDiscoverButtonAnyway d;
         ShowDiscoveredDevicesAnyway := ShowDiscoveredDevicesAnyway d;
         PassiveDiscoveryEnabled := PassiveDiscoveryEnabled d;
         AutoDiscoverLiveMDNS := AutoDiscoverLiveMDNS d; AutoDiscoverLiveWSD := AutoDiscoverLiveWSD d;
         AutoDiscoverLiveSSDP := AutoDiscoverLiveSSDP d;
         AutoDiscoverLiveSNMPTrap := AutoDiscoverLiveSNMPTrap d;
         AutoDiscoverLiveLLMNR := AutoDiscoverLiveLLMNR d;
         MetricsRescanEnabled := MetricsRescanEnabled d;
         MetricsRescanIntervalMinutes := MetricsRescanIntervalMinutes d;
         MetricsRescanIntervalSeconds := MetricsRescanIntervalSeconds d |}
  end.

Definition with_subnet (subnet : option string) (d : DiscoverySettings) : DiscoverySettings :=
  match subnet with
  | None => d
  | Some t =>
      {| SubnetScan := SubnetScan d; ManualRanges := ManualRanges d; RangesText := RangesText d;
         DetectedSubnet := t; IPScanningEnabled := IPScanningEnabled d;
         Concurrency := Concurrency d; ARPEnabled := ARPEnabled d; ICMPEnabled := ICMPEnabled d;
         TCPEnabled := TCPEnabled d; SNMPEnabled := SNMPEnabled d; MDNSEnabled := MDNSEnabled d;
         AutoDiscoverEnabled := AutoDiscoverEnabled d;
         AutosaveDiscoveredDevices := AutosaveDiscoveredDevices d;
         ShowDiscoverButtonAnyway := ShowDiscoverButtonAnyway d;
         ShowDiscoveredDevicesAnyway := ShowDiscoveredDevicesAnyway d;
         PassiveDiscoveryEnabled := PassiveDiscoveryEnabled d;
         AutoDiscoverLiveMDNS := AutoDiscoverLiveMDNS d; AutoDiscoverLiveWSD := AutoDiscoverLiveWSD d;
         AutoDiscoverLiveSSDP := AutoDiscoverLiveSSDP d;
         AutoDiscoverLiveSNMPTrap := AutoDiscoverLiveSNMPTrap d;
         AutoDiscoverLiveLLMNR := AutoDiscoverLiveLLMNR d;
         MetricsRescanEnabled := MetricsRescanEnabled d;
         MetricsRescanIntervalMinutes := MetricsRescanIntervalMinutes d;
         MetricsRescanIntervalSeconds := MetricsRescanIntervalSeconds d |}
  end.

Definition with_features (f : FeaturesSettings) (s : Settings) : Settings :=
  {| Discovery := Discovery s; SNMP := SNMP s; Features := f; Spooler := Spooler s;
     Logging := Logging s; Web := Web s |}.

Definition with_discovery (d : DiscoverySettings) (s : Settings) : Settings :=
  {| Discovery := d; SNMP := SNMP s; Features := Features s; Spooler := Spooler s;
     Logging := Logging s; Web := Web s |}.

(** ** The environment *)

(** The configuration store, the memory of the settings manager, the network
    interfaces and the running services. [GetConfigMap] is [GetConfigValue] into a nil
    map, [GetManaged] the same into an empty [serverManagedSettings]; a missing key
    leaves them empty. *)
Class AgentEnv (W : Type) := {
  GetConfigMap : string -> W -> result string (option jobj) * W;
  SetConfigMap : string -> jobj -> W -> option string * W;
  GetManaged : W -> result string (option serverManagedSettings) * W;
  SetManaged : serverManagedSettings -> W -> option string * W;
  DeleteManaged : W -> option string * W;
  GetRanges : W -> result string string * W;
  SetRanges : string -> W -> option string * W;
  GetLocalSubnets : W -> result string (list string) * W;
  ReadManager : W -> option serverManagedSettings * W;
  WriteManager : option serverManagedSettings -> W -> unit * W;
  Perform : Effect -> W -> unit * W;
}.

Inductive Call :=
| CGetConfigMap (key : string) (r : result string (option jobj))
| CSetConfigMap (key : string) (v : jobj) (r : option string)
| CGetManaged (r : result string (option serverManagedSettings))
| CSetManaged (p : serverManagedSettings) (r : option string)
| CDeleteManaged (r : option string)
| CGetRanges (r : result string string)
| CSetRanges (text : string) (r : option string)
| CGetLocalSubnets (r : result string (list string))
| CReadManager (r : option serverManagedSettings)
| CWriteManager (p : option serverManagedSettings)
| CPerform (e : Effect).

Section Agent.
Context `{GoUnicode} `{GoFloatText} {W : Type} `{AgentEnv W}.
(** [configEpsonRemoteModeEnabled]: the feature is switched on in the configuration file. *)
Variable configEnabled : bool.
(** Fuel for the range parser: 4098 is enough for the limit of 4096 addresses. *)
Variable fuel : nat.

Definition get_map key := call (CGetConfigMap key) (GetConfigMap key).
Definition set_map key v := call (CSetConfigMap key v) (SetConfigMap key v).
Definition get_managed := call CGetManaged GetManaged.
Definition set_managed p := call (CSetManaged p) (SetManaged p).
Definition delete_managed := call CDeleteManaged DeleteManaged.
Definition get_ranges := call CGetRanges GetRanges.
Definition set_ranges text := call (CSetRanges text) (SetRanges text).
Definition local_subnets := call CGetLocalSubnets GetLocalSubnets.
Definition read_manager := call CReadManager ReadManager.
Definition write_manager p := call (fun _ : unit => CWriteManager p) (WriteManager p).
Definition perform e := call (fun _ : unit => CPerform e) (Perform e).

(** ** The settings manager *)

Definition sanitize_managed (p : serverManagedSettings) : serverManagedSettings :=
  {| M_Version := M_Version p; M_SchemaVersion := M_SchemaVersion p; M_UpdatedAt := M_UpdatedAt p;
     M_ManagedSections := M_ManagedSections p; M_Settings := Sanitize (M_Settings p) |}.

Definition reload : M Call W unit :=
  r ← get_managed;
  match r with
  | Ok (Some p) =>
      if String.eqb (TrimSpace (M_Version p)) "" then mret tt
      else write_manager (Some (sanitize_managed p))
  | _ => mret tt
  end.

Definition CurrentVersion : M Call W string :=
  m ← read_manager; mret (match m with Some p => M_Version p | None => "" end).

Definition HasManagedSnapshot : M Call W bool :=
  m ← read_manager; mret (bool_decide (is_Some m)).

Definition ManagedSections : M Call W (list string) :=
  m ← read_manager; mret (match m with Some p => M_ManagedSections p | None => [] end).

Definition baseSettings : M Call W (Settings * bool) :=
  m ← read_manager;
  mret (match m with Some p => (M_Settings p, true) | None => (DefaultSettings, false) end).

Definition features_effect (f : FeaturesSettings) : FeaturesSettings :=
  if configEnabled then
    {| EpsonRemoteModeEnabled := true; CredentialsEnabled := CredentialsEnabled f;
       AssetIDRegex := AssetIDRegex f |}
  else f.

Definition applyFeaturesSettingsEffects (f : FeaturesSettings) : M Call W FeaturesSettings :=
  _ ← perform (SetEpsonRemoteMode (EpsonRemoteModeEnabled f || configEnabled));
  mret (features_effect f).

(** The value of a read whose error is ignored. *)
Definition ok_or_none {A} (r : result string (option A)) : option A :=
  match r with Ok o => o | Err _ => None end.
Definition to_option {A} (r : result string A) : option A :=
  match r with Ok a => Some a | Err _ => None end.
Definition first_subnet (r : result string (list string)) : option string :=
  match r with Ok nets => head nets | Err _ => None end.

(** The layers of [loadUnifiedSettings] once everything is read: [disc] is the local
    discovery object, [unified] the object of the other sections. *)
Definition compose (base : Settings) (managed : bool) (disc : option jobj)
    (ranges subnet : option string) (unified : option jobj) : Settings :=
  let fleet name := if managed then None else object_at unified name in
  Sanitize
    {| Discovery := with_subnet subnet (with_ranges ranges
                      (overlay into_discovery (if managed then None else disc) (Discovery base)));
       SNMP := overlay into_snmp (fleet "snmp") (SNMP base);
       Features := overlay into_features (fleet "features") (Features base);
       Spooler := Spooler base;
       Logging := overlay into_logging (object_at unified "logging") (Logging base);
       Web := overlay into_web (object_at unified "web") (Web base) |}.

Definition loadUnifiedSettings : M Call W Settings :=
  '(base, managed) ← baseSettings;
  disc ← (if (managed : bool) then mret (Ok None) else get_map "discovery_settings");
  ranges ← get_ranges;
  subnets ← local_subnets;
  unified ← get_map "settings";
  let s := compose base managed (ok_or_none disc) (to_option ranges) (first_subnet subnets)
             (ok_or_none unified) in
  f ← applyFeaturesSettingsEffects (Features s);
  mret (with_features f s).

Definition managed_of (snapshot : SettingsSnapshot) : serverManagedSettings :=
  {| M_Version := Version snapshot; M_SchemaVersion := Snapshot_SchemaVersion snapshot;
     M_UpdatedAt := UpdatedAt snapshot;
     M_ManagedSections :=
       match Snapshot_ManagedSections snapshot with
       | Some l => l
       | None => ["discovery"; "snmp"; "features"; "spooler"]
       end;
     M_Settings := Sanitize (Snapshot_Settings snapshot) |}.

Definition ApplyServerSnapshot (snapshot : SettingsSnapshot) : M Call W (result string Settings) :=
  if String.eqb (TrimSpace (Version snapshot)) "" then mret (Err "invalid snapshot")
  else
    let payload := managed_of snapshot in
    e ← set_managed payload;
    match e with
    | Some err => mret (Err err)
    | None => _ ← write_manager (Some payload); s ← loadUnifiedSettings; mret (Ok s)
    end.

Definition ClearManagedSnapshot : M Call W (option string) :=
  e ← delete_managed;
  match e with
  | Some err => mret (Some ("failed to clear managed settings: " +:+ err))
  | None => _ ← write_manager None; mret None
  end.

Definition applyEffectiveSettingsSnapshot (cfg : Settings) : M Call W unit :=
  _ ← perform (DiscoveryEffects (discovery_map (Discovery cfg)));
  _ ← applyFeaturesSettingsEffects (Features cfg); mret tt.

(** The snapshot of a heartbeat, if it has one. *)
Definition handleHeartbeatSettings (snapshot : option SettingsSnapshot) : M Call W unit :=
  match snapshot with
  | None => mret tt
  | Some snap =>
      let newVersion := TrimSpace (Version snap) in
      if String.eqb newVersion "" then mret tt
      else
        current ← CurrentVersion;
        if String.eqb newVersion current then mret tt
        else
          r ← ApplyServerSnapshot snap;
          match r with
          | Err _ => mret tt
          | Ok effective => applyEffectiveSettingsSnapshot effective
          end
  end.

(** ** The [/settings] handler *)

(** The sections that may be locked, in the order in which they are reported. *)
Definition requested_fleet (req : SettingsRequest) : list string :=
  (if Req_Discovery req then ["discovery"] else []) ++ (if Req_SNMP req then ["snmp"] else []) ++
  (if Req_Features req then ["features"] else []) ++ (if Req_Spooler req then ["spooler"] else []).

Definition locked_sections (sections : list string) (req : SettingsRequest) : list string :=
  List.filter (fun s => bool_decide (s ∈ sections)) (requested_fleet req).

Definition get_settings : M Call W (Settings * bool * list string) :=
  snapshot ← loadUnifiedSettings;
  managed ← HasManagedSnapshot;
  sections ← (if (managed : bool) then ManagedSections else mret []);
  mret (snapshot, managed, sections).

Definition reset_settings : M Call W Reply :=
  _ ← set_map "discovery_settings" ∅;
  _ ← set_map "settings" ∅;
  _ ← perform StopDiscovery;
  ranges ← get_ranges;
  subnets ← local_subnets;
  let d := with_subnet (first_subnet subnets)
             (with_ranges (to_option ranges) (Discovery DefaultSettings)) in
  f ← applyFeaturesSettingsEffects (Features DefaultSettings);
  mret (Reset (with_features f (with_discovery d DefaultSettings))).

(** The discovery part: the ranges are stored apart, when they parse. [None] goes on. *)
Definition save_ranges (m : jobj) (updated : DiscoverySettings) : M Call W (option Reply) :=
  if bool_decide (is_Some (m !! "ranges_text")) then
    match ParseRangeText fuel (RangesText updated) 4096 with
    | None => mret (Some Hangs)
    | Some (_, Some err) => mret (Some (RangesRejected ("validation error: " +:+ err)))
    | Some (res, None) =>
        if Nat.eqb (length (Errors res)) 0 then
          e ← set_ranges (RangesText updated);
          mret (match e with Some err => Some (SaveFailed ("failed to save ranges: " +:+ err))
                | None => None end)
        else mret (Some (RangesInvalid res))
    end
  else mret None.

Definition save_discovery (m : jobj) (d : DiscoverySettings)
    : M Call W (Reply + DiscoverySettings) :=
  let updated := into_discovery m d in
  r ← save_ranges m updated;
  match r with
  | Some reply => mret (inl reply)
  | None =>
      let discMap := discovery_map updated in
      e ← set_map "discovery_settings" discMap;
      match e with
      | Some err => mret (inl (SaveFailed ("failed to save discovery settings: " +:+ err)))
      | None => _ ← perform (DiscoveryEffects discMap); mret (inr updated)
      end
  end.

(** One section of the envelope: its new value and the envelope with it. *)
Definition patch {A} (name : string) (into : jobj -> A -> A) (entries : A -> list (string * jval))
    (req : option jobj) (st : A * jobj) : A * jobj :=
  match req with
  | None => st
  | Some m =>
      let updated := into m st.1 in
      (updated, <[name := JObj (list_to_map (entries updated))]> st.2)
  end.

(** The settings with every requested section changed, and the envelope to store. *)
Definition patch_sections (req : SettingsRequest) (current : Settings) (envelope : jobj)
    : Settings * jobj :=
  let '(snmp, e) := patch "snmp" into_snmp snmp_entries (Req_SNMP req) (SNMP current, envelope) in
  let '(feat, e) := patch "features" into_features features_entries (Req_Features req) (Features current, e) in
  let '(spool, e) := patch "spooler" into_spooler spooler_entries (Req_Spooler req) (Spooler current, e) in
  let '(log, e) := patch "logging" into_logging logging_entries (Req_Logging req) (Logging current, e) in
  let '(web, e) := patch "web" into_web web_entries (Req_Web req) (Web current, e) in
  ({| Discovery := Discovery current; SNMP := snmp; Features := feat; Spooler := spool;
      Logging := log; Web := web |}, e).

(** The sections of the envelope, once discovery is saved. *)
Definition save_sections (req : SettingsRequest) (current : Settings) : M Call W Reply :=
  stored ← get_map "settings";
  let '(updated, envelope) := patch_sections req current (default ∅ (ok_or_none stored)) in
  _ ← (if Req_Spooler req then perform (RestartSpooler (Spooler updated)) else mret tt);
  _ ← (if Req_Logging req then perform (SetLogging (Logging updated)) else mret tt);
  e ← set_map "settings" envelope;
  match e with
  | Some err => mret (SaveFailed ("failed to save settings: " +:+ err))
  | None =>
      let final := Sanitize updated in
      f ← applyFeaturesSettingsEffects (Features final);
      mret (Saved (with_features f final))
  end.

Definition save_settings (req : SettingsRequest) : M Call W Reply :=
  current ← loadUnifiedSettings;
  d ← match Req_Discovery req with
      | None => mret (inr (Discovery current))
      | Some m => save_discovery m (Discovery current)
      end;
  match d with
  | inl reply => mret reply
  | inr disc => save_sections req (with_discovery disc current)
  end.

(** [None] is a body that does not decode. *)
Definition post_settings (body : option SettingsRequest) : M Call W Reply :=
  match body with
  | None => mret InvalidJSON
  | Some req =>
      managed ← HasManagedSnapshot;
      sections ← (if (managed : bool) then ManagedSections else mret []);
      let locked := locked_sections sections req in
      if negb (Nat.eqb (length locked) 0) then mret (Conflict locked)
      else if Req_Reset req then reset_settings
      else save_settings req
  end.

End Agent.

(** ** What a local save may write *)

(** The sections of the envelope that a request names. *)
Definition requested_local (req : SettingsRequest) : list string :=
  (if Req_SNMP req then ["snmp"] else []) ++ (if Req_Features req then ["features"] else []) ++
  (if Req_Spooler req then ["spooler"] else []) ++ (if Req_Logging req then ["logging"] else []) ++
  (if Req_Web req then ["web"] else []).

Definition sections_of (m : option serverManagedSettings) : list string :=
  match m with Some p => M_ManagedSections p | None => [] end.

(** The run began with a check that found none of the requested sections locked. *)
Definition unlocked (req : SettingsRequest) (h : list Call) : Prop :=
  match h with
  | CReadManager None :: _ => True
  | CReadManager (Some _) :: CReadManager m :: _ => forall x, x ∈ requested_fleet req -> x ∉ sections_of m
  | _ => False
  end.

(** What [post_settings] may call after the history [h]. *)
Definition save_ok (fuel : nat) (req : SettingsRequest) (h : list Call) (c : Call) : Prop :=
  match c with
  | CSetConfigMap key v _ =>
      unlocked req h /\
      ((Req_Reset req = true /\ v = ∅ /\ key ∈ ["discovery_settings"; "settings"]) \/
       (key = "discovery_settings" /\ is_Some (Req_Discovery req)) \/
       (key = "settings" /\ exists r, CGetConfigMap "settings" r ∈ h /\
          forall x, x ∉ requested_local req -> v !! x = default ∅ (ok_or_none r) !! x))
  | CSetRanges text _ =>
      unlocked req h /\ is_Some (Req_Discovery req) /\
      exists res, ParseRangeText fuel text 4096 = Some (res, None) /\ Errors res = []
  | CSetManaged _ _ | CDeleteManaged _ | CWriteManager _ => False
  | _ => True
  end.

Lemma unlocked_mono req h h' : h `prefix_of` h' -> unlocked req h -> unlocked req h'.
Proof.
  intros [k ->]. unfold unlocked.
  destruct h as [|[] h]; try done. destruct r; [|done]. by destruct h as [|[] h].
Qed.

Lemma locked_nothing req : locked_sections [] req = [].
Proof.
  unfold locked_sections. induction (requested_fleet req) as [|s l IH]; [done|].
  cbn [List.filter]. by rewrite bool_decide_eq_false_2 by apply not_elem_of_nil.
Qed.

Lemma locked_elem sections req x :
  x ∈ locked_sections sections req <-> x ∈ requested_fleet req /\ x ∈ sections.
Proof.
  unfold locked_sections. rewrite !list_elem_of_In, List.filter_In, bool_decide_eq_true.
  by rewrite list_elem_of_In.
Qed.

Section Confined.
Context `{GoUnicode} `{GoFloatText} {W : Type} `{AgentEnv W}.
Variable configEnabled : bool.
Variable fuel : nat.
Variable req : SettingsRequest.
Notation Allowed := (Spec (W := W) (save_ok fuel req)).

Lemma patch_keeps {A} name into entries o (st : A * jobj) x :
  (o = None \/ x <> name) -> (patch name into entries o st).2 !! x = st.2 !! x.
Proof.
  unfold patch. destruct o as [m|]; [|done]. simpl. intros [?|Hx]; [done|].
  by rewrite lookup_insert_ne by done.
Qed.

(** The envelope changes only under the names of the request. *)
Lemma patch_sections_keeps current envelope x :
  x ∉ requested_local req -> (patch_sections req current envelope).2 !! x = envelope !! x.
Proof.
  unfold requested_local. rewrite !not_elem_of_app. intros (Hn & Hf & Hs & Hl & Hw).
  assert (Hno : forall (o : option jobj) name,
    x ∉ (if o then [name] else []) -> o = None \/ x <> name).
  { intros [m|] name Hx; [right | by left]. by intros ->; apply Hx; left. }
  unfold patch_sections.
  destruct (patch "snmp" _ _ _ _) as [a1 e1] eqn:E1, (patch "features" _ _ _ _) as [a2 e2] eqn:E2,
    (patch "spooler" _ _ _ _) as [a3 e3] eqn:E3, (patch "logging" _ _ _ _) as [a4 e4] eqn:E4,
    (patch "web" _ _ _ _) as [a5 e5] eqn:E5. simpl.
  change e5 with (a5, e5).2. rewrite <- E5, patch_keeps by auto. simpl.
  change e4 with (a4, e4).2. rewrite <- E4, patch_keeps by auto. simpl.
  change e3 with (a3, e3).2. rewrite <- E3, patch_keeps by auto. simpl.
  change e2 with (a2, e2).2. rewrite <- E2, patch_keeps by auto. simpl.
  change e1 with (a1, e1).2. rewrite <- E1, patch_keeps by auto. done.
Qed.

(** A computation that only reads and performs effects. *)
Definition harmless {A} (m : M Call W A) : Prop := forall h, Allowed h m (fun _ _ => True).

Lemma call_harmless {A} (rec : A -> Call) op :
  (forall h a, save_ok fuel req h (rec a)) -> harmless (call rec op).
Proof. intros HP h. by apply Spec_call. Qed.

Lemma ret_harmless {A} (a : A) : harmless (mret a).
Proof. intros h. by apply Spec_ret. Qed.

Lemma bind_harmless {A B} (m : M Call W A) (f : A -> M Call W B) :
  harmless m -> (forall a, harmless (f a)) -> harmless (m ≫= f).
Proof. intros Hm Hf h. eapply Spec_bind; [apply Hm|]. intros h' a _ _. apply Hf. Qed.

Lemma features_effects_harmless f : harmless (applyFeaturesSettingsEffects configEnabled f).
Proof. apply bind_harmless; [by apply call_harmless | intros; apply ret_harmless]. Qed.

Lemma load_harmless : harmless (loadUnifiedSettings configEnabled).
Proof.
  apply bind_harmless; [|intros [base managed]].
  { apply bind_harmless; [by apply call_harmless | intros; apply ret_harmless]. }
  apply bind_harmless; [destruct managed; [apply ret_harmless | by apply call_harmless] | intros disc].
  do 3 (apply bind_harmless; [by apply call_harmless | intros ?]).
  apply bind_harmless; [apply features_effects_harmless | intros; apply ret_harmless].
Qed.

(** A call that writes the envelope or the discovery object. *)
Lemma set_map_allowed h key v (Q : list Call -> option string -> Prop) :
  (forall r, save_ok fuel req h (CSetConfigMap key v r)) ->
  (forall r, Q (h ++ [CSetConfigMap key v r])%list r) -> Allowed h (set_map key v) Q.
Proof. intros HP HQ. apply Spec_call. auto. Qed.

Definition no_conflict (r : Reply) : Prop := match r with Conflict _ => False | _ => True end.

Lemma reset_allowed h :
  unlocked req h -> Req_Reset req = true ->
  Allowed h (reset_settings configEnabled) (fun _ r => no_conflict r).
Proof.
  intros Hu Hr. unfold reset_settings, perform, get_ranges, local_subnets, set_map.
  repeat spec_step; try done.
  - split; [done|]. left. split_and!; [done | done | left].
  - split; [by eapply unlocked_mono; [apply prefix_app_r|]|]. left. split_and!; [done | done | right; left].
  - eapply Spec_bind; [apply features_effects_harmless|]. intros. by spec_step.
Qed.

Lemma save_discovery_allowed h m d :
  unlocked req h -> is_Some (Req_Discovery req) ->
  Allowed h (save_discovery fuel m d) (fun _ r => match r with inl reply => no_conflict reply | inr _ => True end).
Proof.
  intros Hu Hd. unfold save_discovery.
  eapply Spec_bind with (R := fun _ r => match r with Some reply => no_conflict reply | None => True end).
  - unfold save_ranges, set_ranges. repeat spec_step; try done.
    + split_and!; [done | done|].
      apply Nat.eqb_eq in Heqb0. apply nil_length_inv in Heqb0. eauto.
    + by destruct a.
  - intros h' r Hp Hr. pose proof (unlocked_mono _ _ _ Hp Hu) as Hu'.
    unfold set_map, perform. repeat spec_step; try done. split; [done|]. right. left. done.
Qed.

Lemma save_allowed h :
  unlocked req h -> Allowed h (save_settings configEnabled fuel req) (fun _ r => no_conflict r).
Proof.
  intros Hu. unfold save_settings. eapply Spec_bind; [apply load_harmless|].
  intros h1 current Hp1 _. pose proof (unlocked_mono _ _ _ Hp1 Hu) as Hu1.
  eapply Spec_bind with (R := fun _ r => match r with inl reply => no_conflict reply | inr _ => True end).
  { spec_step; [|by spec_step]. apply save_discovery_allowed; [done|]. by eexists. }
  intros h2 [reply|disc] Hp2 Hr; [by spec_step|].
  pose proof (unlocked_mono _ _ _ Hp2 Hu1) as Hu2. unfold save_sections, get_map. spec_step; [done|].
  pose proof (unlocked_mono _ _ _ (prefix_app_r _ _ [CGetConfigMap "settings" a] (reflexivity _)) Hu2) as Hu3.
  destruct (patch_sections _ _ _) as [updated envelope] eqn:Hpatch.
  assert (Heff : forall e (b : option jobj), harmless (if b then perform e else mret tt)).
  { intros e [|]; [by apply call_harmless | apply ret_harmless]. }
  eapply Spec_bind; [apply Heff|]. intros h4 _ Hp4 _.
  eapply Spec_bind; [apply Heff|]. intros h5 _ Hp5 _.
  assert (Hp : (h2 ++ [CGetConfigMap "settings" a])%list `prefix_of` h5) by (by etrans).
  eapply Spec_bind with (R := fun _ _ => True).
  - apply set_map_allowed; [|done]. intros r. split; [by eapply unlocked_mono|].
    right. right. split; [done|]. exists a. split; [by eauto with history|].
    intros x Hx. change envelope with (updated, envelope).2. rewrite <- Hpatch. by apply patch_sections_keeps.
  - intros h6 e _ _. spec_step; [by spec_step|].
    eapply Spec_bind; [apply features_effects_harmless|]. intros. by spec_step.
Qed.

(** A request to change the settings of an agent writes only after a check that
    found none of its sections locked by the server; a save changes only the sections
    that the request names, keeps every other entry of the stored object, and stores
    scan ranges only when they parse without an error; nothing of the server's
    snapshot is written. A request that names a locked section is answered with those
    sections, and nothing is written. *)
Theorem local_saves_confined w :
  calls_ok (save_ok fuel req) [] (trace (post_settings configEnabled fuel (Some req)) w) /\
  match value (post_settings configEnabled fuel (Some req)) w with
  | Conflict ls =>
      ls <> [] /\ exists p m,
        trace (post_settings configEnabled fuel (Some req)) w = [CReadManager (Some p); CReadManager m] /\
        forall x, x ∈ ls <-> x ∈ requested_fleet req /\ x ∈ sections_of m
  | _ => True
  end.
Proof.
  set (Q := fun h r => match r with
    | Conflict ls => ls <> [] /\ exists p m, h = [CReadManager (Some p); CReadManager m] /\
        forall x, x ∈ ls <-> x ∈ requested_fleet req /\ x ∈ sections_of m
    | _ => True end).
  assert (Hweak : forall h m, Allowed h m (fun _ r => no_conflict r) -> Allowed h m Q).
  { intros h m Hm. eapply Spec_weaken; [done|]. intros h' [] _ Hr; done. }
  assert (Hspec : Allowed [] (post_settings configEnabled fuel (Some req)) Q); [|apply Hspec].
  unfold post_settings, HasManagedSnapshot, ManagedSections, read_manager.
  assert (Hrest : forall h, unlocked req h ->
    Allowed h (if Req_Reset req then reset_settings configEnabled
               else save_settings configEnabled fuel req) Q).
  { intros h Hu. apply Hweak. destruct (Req_Reset req) eqn:?;
      [by apply reset_allowed | by apply save_allowed]. }
  spec_step. spec_step; [done|]. destruct a as [p|];
    [rewrite bool_decide_eq_true_2 by (by eexists) | rewrite bool_decide_eq_false_2 by (by intros [])].
  - do 4 (spec_step; try done). fold (sections_of a).
    destruct (length (locked_sections (sections_of a) req)) eqn:Hl.
    + apply Hrest. apply nil_length_inv in Hl. simpl. intros x Hx Hs.
      assert (Hx' : x ∈ locked_sections (sections_of a) req) by by apply locked_elem.
      rewrite Hl in Hx'. by apply not_elem_of_nil in Hx'.
    + apply Spec_ret. split; [intros Hnil; by rewrite Hnil in Hl|].
      exists p, a. split; [done|]. apply locked_elem.
  - do 2 apply Spec_bind_ret. rewrite locked_nothing. by apply Hrest.
Qed.
End Confined.

(** ** Reading stored sections back *)

(** Reads the fields of a section from the entries [l] of its map. *)
Ltac store_fields tags l :=
  unfold store_bool, store_str, store_int;
  repeat match goal with
  | |- context [field_values [?o] ?name] =>
      let H := fresh in
      assert (H : field_values [o] name = entry_values l name);
      [ apply (field_values_entries tags l name);
        [by vm_compute | first [reflexivity | assumption] | by apply (bool_decide_unpack (_ ∈ _)); vm_compute]
      | rewrite H; clear H ]
  end.

Section ReadBack.
Context `{GoUnicode} `{GoFloatText}.

Lemma store_int_entry k n old :
  - 2 ^ 53 <= n <= 2 ^ 53 -> store_field one_int old (entry_values (encode_int k n) k) = n.
Proof.
  intros Hn. unfold entry_values, encode_int. rewrite filter_cons_True by done.
  rewrite round53_id by done. unfold store_field. cbn [fmap list_fmap snd fold_left].
  unfold one_int. by rewrite int_of_number_id.
Qed.

Lemma into_features_entries f old : into_features (list_to_map (features_entries f)) old = f.
Proof. unfold into_features. store_fields features_tags (features_entries f). by destruct f. Qed.

Lemma into_logging_entries l old : into_logging (list_to_map (logging_entries l)) old = l.
Proof. unfold into_logging. store_fields logging_tags (logging_entries l). by destruct l. Qed.

Lemma into_web_entries w old : into_web (list_to_map (web_entries w)) old = w.
Proof. unfold into_web. store_fields web_tags (web_entries w). by destruct w. Qed.

Lemma store_omitempty k s : store_field one_str "" (entry_values (encode_omitempty k s) k) = s.
Proof.
  unfold entry_values, encode_omitempty. destruct (String.eqb_spec s "") as [->|]; [done|].
  by rewrite filter_cons_True.
Qed.

(** The empty fields that the map leaves out are empty in the defaults. *)
Lemma into_snmp_entries n :
  - 2 ^ 53 <= TimeoutMS n <= 2 ^ 53 -> - 2 ^ 53 <= Retries n <= 2 ^ 53 ->
  into_snmp (list_to_map (snmp_entries n)) (SNMP DefaultSettings) = n.
Proof.
  intros Ht Hr. pose proof (snmp_tags_sublist n) as Hsub. unfold snmp_entries in Hsub.
  unfold into_snmp, snmp_entries, store_bool, store_str, store_int. locate_fields snmp_tags.
  cbn [SNMP DefaultSettings SecurityLevel Username AuthProtocol AuthPassword PrivProtocol
    PrivPassword ContextName].
  rewrite !store_omitempty, !store_int_entry by done. by destruct n.
Qed.

Lemma delete_entries k (l : list (string * jval)) :
  delete k (list_to_map l : jobj) = list_to_map (filter (fun kv => kv.1 <> k) l).
Proof.
  induction l as [|[k' v] l IH]; [apply delete_empty|]. rewrite filter_cons. simpl.
  destruct (decide (k' = k)) as [->|Hne].
  - rewrite decide_False by tauto. by rewrite delete_insert_eq.
  - rewrite decide_True by done. simpl. by rewrite <- IH, delete_insert_ne.
Qed.

(** The discovery map keeps all but the ranges and the subnet. *)
Lemma into_discovery_map d old :
  - 2 ^ 53 <= Concurrency d <= 2 ^ 53 -> - 2 ^ 53 <= MetricsRescanIntervalMinutes d <= 2 ^ 53 ->
  - 2 ^ 53 <= MetricsRescanIntervalSeconds d <= 2 ^ 53 ->
  into_discovery (discovery_map d) old =
  with_ranges (Some (RangesText old)) (with_subnet (Some (DetectedSubnet old)) d).
Proof.
  intros Hc Hm Hs. unfold discovery_map. rewrite !delete_entries.
  set (l := filter _ _).
  assert (Hsub : l.*1 `sublist_of` discovery_tags).
  { change discovery_tags with ((discovery_entries d).*1). apply fmap_sublist.
    etrans; apply sublist_filter. }
  unfold into_discovery. store_fields discovery_tags l.
  change (entry_values l "concurrency")
    with (entry_values (encode_int "concurrency" (Concurrency d)) "concurrency").
  change (entry_values l "metrics_rescan_interval_minutes")
    with (entry_values (encode_int "metrics_rescan_interval_minutes" (MetricsRescanIntervalMinutes d))
            "metrics_rescan_interval_minutes").
  change (entry_values l "metrics_rescan_interval_seconds")
    with (entry_values (encode_int "metrics_rescan_interval_seconds" (MetricsRescanIntervalSeconds d))
            "metrics_rescan_interval_seconds").
  rewrite !store_int_entry by done. by destruct d.
Qed.
End ReadBack.

(** ** A store that keeps what is written *)

Record AgentWorld := {
  disc_value : option jobj;
  settings_value : option jobj;
  managed_value : option serverManagedSettings;
  ranges_value : string;
  manager : option serverManagedSettings;
}.

(** The object stored under a key: two of them are read here. *)
Definition table_get (key : string) (w : AgentWorld) : option jobj :=
  if String.eqb key "discovery_settings" then disc_value w
  else if String.eqb key "settings" then settings_value w else None.

Definition table_set (key : string) (v : jobj) (w : AgentWorld) : AgentWorld :=
  {| disc_value := if String.eqb key "discovery_settings" then Some v else disc_value w;
     settings_value := if String.eqb key "settings" then Some v else settings_value w;
     managed_value := managed_value w; ranges_value := ranges_value w; manager := manager w |}.

Definition table_manage (stored memory : option serverManagedSettings) (w : AgentWorld) : AgentWorld :=
  {| disc_value := disc_value w; settings_value := settings_value w; managed_value := stored;
     ranges_value := ranges_value w; manager := memory |}.

Definition table_ranges (text : string) (w : AgentWorld) : AgentWorld :=
  {| disc_value := disc_value w; settings_value := settings_value w;
     managed_value := managed_value w; ranges_value := text; manager := manager w |}.

Definition agent_table (subnets : list string) : AgentEnv AgentWorld :=
  {| GetConfigMap key w := (Ok (table_get key w), w);
     SetConfigMap key v w := (None, table_set key v w);
     GetManaged w := (Ok (managed_value w), w);
     SetManaged p w := (None, table_manage (Some p) (manager w) w);
     DeleteManaged w := (None, table_manage None (manager w) w);
     GetRanges w := (Ok (ranges_value w), w);
     SetRanges text w := (None, table_ranges text w);
     GetLocalSubnets w := (Ok subnets, w);
     ReadManager w := (manager w, w);
     WriteManager p w := (tt, table_manage (managed_value w) p w);
     Perform _ w := (tt, w) |}.

Section Table.
Context `{GoUnicode} `{GoFloatText}.
Variable configEnabled : bool.
Variable fuel : nat.
Variable subnets : list string.

#[local] Instance the_table : AgentEnv AgentWorld := agent_table subnets.

(** What [loadUnifiedSettings] gives in a world. *)
Definition effective (w : AgentWorld) : Settings :=
  let s := compose (match manager w with Some p => M_Settings p | None => DefaultSettings end)
             (match manager w with Some _ => true | None => false end) (disc_value w) (Some (ranges_value w))
             (head subnets) (settings_value w) in
  with_features (features_effect configEnabled (Features s)) s.

Lemma load_run w :
  value (loadUnifiedSettings configEnabled) w = effective w /\
  final (loadUnifiedSettings configEnabled) w = w.
Proof. unfold effective. destruct w as [d s m r [p|]]; split; reflexivity. Qed.

Lemma ranges_subnet_sanitize r n d :
  sanitize_discovery (with_subnet n (with_ranges r d)) = with_subnet n (with_ranges r (sanitize_discovery d)).
Proof. by destruct r, n. Qed.

Lemma sanitize_discovery_idem d : sanitize_discovery (sanitize_discovery d) = sanitize_discovery d.
Proof.
  pose proof (Sanitize_id (Sanitize (with_discovery d DefaultSettings)) (Sanitize_sanitized _)) as He.
  by apply (f_equal Discovery) in He.
Qed.

Lemma sanitize_snmp_idem n : sanitize_snmp (sanitize_snmp n) = sanitize_snmp n.
Proof.
  unfold sanitize_snmp. simpl. f_equal; apply clamp_id, clamp_range; lia.
Qed.

(** *** A save *)

(** The settings with the values of the request. *)
Definition changed (req : SettingsRequest) (current : Settings) : Settings :=
  {| Discovery := overlay into_discovery (Req_Discovery req) (Discovery current);
     SNMP := overlay into_snmp (Req_SNMP req) (SNMP current);
     Features := overlay into_features (Req_Features req) (Features current);
     Spooler := overlay into_spooler (Req_Spooler req) (Spooler current);
     Logging := overlay into_logging (Req_Logging req) (Logging current);
     Web := overlay into_web (Req_Web req) (Web current) |}.

Lemma patch_sections_changed req current e :
  (patch_sections req (with_discovery (Discovery (changed req current)) current) e).1 = changed req current.
Proof. by destruct req as [[] [] [] [] [] [] ?]. Qed.

(** What the envelope holds for a section after the save. *)
Definition saved_section (o : option jobj) (entries : list (string * jval)) (old : option jobj) : option jobj :=
  match o with Some _ => Some (list_to_map entries) | None => old end.

Lemma patch_object {A} name into entries o (a a' : A) e e' x :
  patch name into entries o (a, e) = (a', e') ->
  object_at (Some e') x =
    (if String.eqb x name then saved_section o (entries a') (object_at (Some e) x) else object_at (Some e) x).
Proof.
  unfold patch, object_at. intros Hp. destruct (String.eqb_spec x name) as [->|Hx], o as [m|]; simpl in *;
    injection Hp as <- <-; simpl; rewrite ?lookup_insert_eq, ?lookup_insert_ne by done; reflexivity.
Qed.

Lemma patch_sections_objects req current e :
  let c := changed req current in
  let e' := (patch_sections req (with_discovery (Discovery c) current) e).2 in
  object_at (Some e') "snmp" = saved_section (Req_SNMP req) (snmp_entries (SNMP c)) (object_at (Some e) "snmp") /\
  object_at (Some e') "features" =
    saved_section (Req_Features req) (features_entries (Features c)) (object_at (Some e) "features") /\
  object_at (Some e') "logging" =
    saved_section (Req_Logging req) (logging_entries (Logging c)) (object_at (Some e) "logging") /\
  object_at (Some e') "web" = saved_section (Req_Web req) (web_entries (Web c)) (object_at (Some e) "web").
Proof.
  cbv zeta. pose proof (patch_sections_changed req current e) as Hc. unfold patch_sections in *.
  destruct (patch "snmp" _ _ _ _) as [a1 e1] eqn:E1, (patch "features" _ _ _ _) as [a2 e2] eqn:E2,
    (patch "spooler" _ _ _ _) as [a3 e3] eqn:E3, (patch "logging" _ _ _ _) as [a4 e4] eqn:E4,
    (patch "web" _ _ _ _) as [a5 e5] eqn:E5. rewrite <- Hc. cbn [SNMP Features Logging Web fst snd].
  split_and!; rewrite ?(patch_object _ _ _ _ _ _ _ _ _ E5), ?(patch_object _ _ _ _ _ _ _ _ _ E4),
    ?(patch_object _ _ _ _ _ _ _ _ _ E3), ?(patch_object _ _ _ _ _ _ _ _ _ E2),
    ?(patch_object _ _ _ _ _ _ _ _ _ E1); reflexivity.
Qed.

Definition has_ranges (o : option jobj) : bool :=
  match o with Some m => bool_decide (is_Some (m !! "ranges_text")) | None => false end.

(** The world after a save of the settings [c] with the envelope [e]. *)
Definition saved_world (req : SettingsRequest) (c : Settings) (e : jobj) (w : AgentWorld) : AgentWorld :=
  {| disc_value := if Req_Discovery req then Some (discovery_map (Discovery c)) else disc_value w;
     settings_value := Some e; managed_value := managed_value w;
     ranges_value := if has_ranges (Req_Discovery req) then RangesText (Discovery c) else ranges_value w;
     manager := manager w |}.

Lemma save_discovery_run m d w :
  (exists reply, value (save_discovery fuel m d) w = inl reply /\ forall s, reply <> Saved s) \/
  (value (save_discovery fuel m d) w = inr (into_discovery m d) /\
   final (save_discovery fuel m d) w =
     {| disc_value := Some (discovery_map (into_discovery m d)); settings_value := settings_value w;
        managed_value := managed_value w;
        ranges_value := if has_ranges (Some m) then RangesText (into_discovery m d) else ranges_value w;
        manager := manager w |}).
Proof.
  unfold save_discovery, save_ranges, has_ranges. destruct (bool_decide _); [|right; split; reflexivity].
  destruct (ParseRangeText _ _ _) as [[res [err|]]|]; [left; eexists; split; [reflexivity | done] | |
    left; eexists; split; [reflexivity | done]].
  destruct (Nat.eqb _ _); [right; split; reflexivity | left; eexists; split; [reflexivity | done]].
Qed.

Lemma save_sections_run req cur w :
  let '(updated, e) := patch_sections req cur (default ∅ (settings_value w)) in
  value (save_sections configEnabled req cur) w =
    Saved (with_features (features_effect configEnabled (Features updated)) (Sanitize updated)) /\
  final (save_sections configEnabled req cur) w =
    {| disc_value := disc_value w; settings_value := Some e; managed_value := managed_value w;
       ranges_value := ranges_value w; manager := manager w |}.
Proof.
  destruct (patch_sections _ _ _) as [updated e] eqn:Hp. unfold save_sections, get_map.
  rewrite value_call, final_call. cbn [GetConfigMap the_table agent_table fst snd].
  change (ok_or_none (Ok (table_get "settings" w))) with (settings_value w). rewrite Hp.
  destruct (Req_Spooler req), (Req_Logging req), w; split; reflexivity.
Qed.

Lemma save_run req w s :
  value (save_settings configEnabled fuel req) w = Saved s ->
  let c := changed req (effective w) in
  let e := (patch_sections req (with_discovery (Discovery c) (effective w)) (default ∅ (settings_value w))).2 in
  s = with_features (features_effect configEnabled (Features c)) (Sanitize c) /\
  final (save_settings configEnabled fuel req) w = saved_world req c e w.
Proof.
  unfold save_settings. rewrite value_bind, final_bind.
  destruct (load_run w) as [-> ->]. intros Hv. cbv zeta.
  pose proof (patch_sections_changed req (effective w) (default ∅ (settings_value w))) as Hc.
  rewrite value_bind in Hv. rewrite final_bind. unfold saved_world.
  assert (Hsec : forall w1, settings_value w1 = settings_value w ->
    let e := (patch_sections req (with_discovery (Discovery (changed req (effective w))) (effective w))
                (default ∅ (settings_value w))).2 in
    let c := changed req (effective w) in
    let m := save_sections configEnabled req (with_discovery (Discovery c) (effective w)) in
    value m w1 = Saved (with_features (features_effect configEnabled (Features c)) (Sanitize c)) /\
    final m w1 = {| disc_value := disc_value w1; settings_value := Some e; managed_value := managed_value w1;
                    ranges_value := ranges_value w1; manager := manager w1 |}).
  { intros w1 Hw1. cbv zeta. pose proof (save_sections_run req
      (with_discovery (Discovery (changed req (effective w))) (effective w)) w1) as Hr.
    rewrite Hw1 in Hr. clear Hv. destruct (patch_sections _ _ _) as [u e]. simpl in Hc. by rewrite <- Hc in Hr |- *. }
  destruct (Req_Discovery req) as [m|] eqn:Hd.
  - assert (HD : into_discovery m (Discovery (effective w)) = Discovery (changed req (effective w)))
      by (unfold changed; by rewrite Hd).
    destruct (save_discovery_run m (Discovery (effective w)) w) as [(reply & Hr & Hno)|[Hr Hf]];
      rewrite Hr in Hv; [by apply Hno in Hv|].
    rewrite Hr, Hf, HD in *. edestruct Hsec as [Hval Hfin]; [|rewrite Hval in Hv; rewrite Hfin]; [done|].
    split; [by injection Hv as <- | done].
  - assert (HD : Discovery (effective w) = Discovery (changed req (effective w)))
      by (unfold changed; by rewrite Hd).
    rewrite !value_ret, HD in Hv. rewrite !value_ret, HD. destruct (Hsec w eq_refl) as [Hval Hfin].
    change (final (mret (inr (Discovery (changed req (effective w)))) : M Call AgentWorld (Reply + DiscoverySettings)) w) with w in *.
    rewrite Hval in Hv. rewrite Hfin. split; [by injection Hv as <- | done].
Qed.

(** The snapshot as it arrives: no sections may come as null or as an empty list. *)
Definition sent_as (p : AgentSnapshot) (s : SettingsSnapshot) : Prop :=
  Version s = Payload_Version p /\ Snapshot_SchemaVersion s = Payload_SchemaVersion p /\
  UpdatedAt s = Payload_UpdatedAt p /\ Snapshot_Settings s = Payload_Settings p /\
  default [] (Snapshot_ManagedSections s) = Payload_ManagedSections p.

Lemma apply_run s w :
  TrimSpace (Version s) <> "" ->
  let w' := table_manage (Some (managed_of s)) (Some (managed_of s)) w in
  value (ApplyServerSnapshot configEnabled s) w = Ok (effective w') /\
  final (ApplyServerSnapshot configEnabled s) w = w'.
Proof.
  intros Hblank%String.eqb_neq. unfold ApplyServerSnapshot. rewrite Hblank.
  destruct w; split; reflexivity.
Qed.

Lemma reload_run w p :
  managed_value w = Some p -> TrimSpace (M_Version p) <> "" ->
  value (_ ← reload; loadUnifiedSettings configEnabled) w =
  effective (table_manage (Some p) (Some (sanitize_managed p)) w).
Proof.
  intros Hp Hblank%String.eqb_neq. destruct w as [d st m r mem]. simpl in Hp. subst m.
  rewrite value_bind. rewrite (proj1 (load_run _)). f_equal.
  unfold reload, get_managed, write_manager. rewrite final_call. cbn -[TrimSpace].
  rewrite Hblank. reflexivity.
Qed.

Lemma sanitize_managed_of s : sanitize_managed (managed_of s) = managed_of s.
Proof. unfold sanitize_managed, managed_of. simpl. by rewrite Sanitize_id by apply Sanitize_sanitized. Qed.

(** C24: An agent that applies the snapshot the server built from resolved settings works
    with the resolved SNMP, feature and spooler settings and the resolved discovery
    settings, whatever is stored locally; only the scan ranges, the detected subnet,
    logging and web settings, and a feature switched on in its own configuration file
    are its own. It remembers the version, and a restart gives the same settings. *)
Theorem resolved_settings_reach_agent `{MaterialHash} (snap : Snapshot) (s : SettingsSnapshot) w :
  sent_as (agentSnapshotFromSnapshot snap) s -> TrimSpace (Version s) <> "" ->
  exists e, value (ApplyServerSnapshot configEnabled s) w = Ok e /\
  let w' := final (ApplyServerSnapshot configEnabled s) w in
  let resolved := Sanitize (Snap_Settings snap) in
  Discovery e = with_subnet (head subnets) (with_ranges (Some (ranges_value w)) (Discovery resolved)) /\
  SNMP e = SNMP resolved /\ Features e = features_effect configEnabled (Features resolved) /\
  Spooler e = Spooler resolved /\
  Logging e = overlay into_logging (object_at (settings_value w) "logging") (Logging DefaultSettings) /\
  Web e = sanitize_web (overlay into_web (object_at (settings_value w) "web") (Web DefaultSettings)) /\
  value CurrentVersion w' = Payload_Version (agentSnapshotFromSnapshot snap) /\
  value (_ ← reload; loadUnifiedSettings configEnabled) (table_manage (managed_value w') None w') = e.
Proof.
  intros (Hv & _ & _ & Hs & _) Hblank. destruct (apply_run s w Hblank) as [-> ->].
  eexists. split; [reflexivity|]. cbv zeta.
  rewrite reload_run with (p := managed_of s) by done. rewrite sanitize_managed_of.
  assert (HS : M_Settings (managed_of s) = StripAgentLocalFields (Sanitize (Snap_Settings snap))).
  { simpl. rewrite Hs. apply Sanitize_id, Strip_sanitized, Sanitize_sanitized. }
  unfold effective. cbn [manager table_manage]. rewrite HS. split_and!; try done.
  - cbn -[with_ranges with_subnet sanitize_discovery]. rewrite ranges_subnet_sanitize.
    by rewrite sanitize_discovery_idem.
  - apply sanitize_snmp_idem.
Qed.

(** Equal up to the detected subnet, which is read from the network each time. *)
Definition same_discovery (d d' : DiscoverySettings) : Prop :=
  with_subnet (Some "") d = with_subnet (Some "") d'.

Lemma features_effect_idem f : features_effect configEnabled (features_effect configEnabled f) = features_effect configEnabled f.
Proof. unfold features_effect. by destruct configEnabled. Qed.

Lemma Saved_unmanaged req w s :
  manager w = None -> value (post_settings configEnabled fuel (Some req)) w = Saved s ->
  value (save_settings configEnabled fuel req) w = Saved s /\
  final (post_settings configEnabled fuel (Some req)) w = final (save_settings configEnabled fuel req) w.
Proof.
  intros Hm. set (rest := if Req_Reset req then reset_settings configEnabled
                          else save_settings configEnabled fuel req).
  assert (Hpost : forall v f, value rest w = v -> final rest w = f ->
    value (post_settings configEnabled fuel (Some req)) w = v /\
    final (post_settings configEnabled fuel (Some req)) w = f).
  { intros v f <- <-. unfold post_settings. rewrite value_bind, final_bind.
    assert (Hread : value HasManagedSnapshot w = false /\ final HasManagedSnapshot w = w).
    { destruct w. simpl in Hm. subst. split; reflexivity. }
    destruct Hread as [-> ->]. rewrite value_bind, final_bind.
    change (value (if false then ManagedSections else mret []) w) with (@nil string).
    change (final (if false then ManagedSections else mret []) w) with w.
    by rewrite locked_nothing. }
  destruct (Hpost _ _ eq_refl eq_refl) as [-> ->]. unfold rest.
  destruct (Req_Reset req); [|done]. by destruct w.
Qed.

(** One section: stored, read back and sanitized it is what the reply has. *)
Lemma section_back {A} (into : jobj -> A -> A) (entries : A -> list (string * jval)) (san : A -> A)
    (zero cur : A) (o old_obj new_obj : option jobj) :
  let c := overlay into o cur in
  cur = san (overlay into old_obj zero) -> (forall x, san (san x) = san x) ->
  into (list_to_map (entries c)) zero = c -> new_obj = saved_section o (entries c) old_obj ->
  san (overlay into new_obj zero) = san c.
Proof.
  cbv zeta. intros Hcur Hidem Hback ->. destruct o as [m|]; simpl in *; [by rewrite Hback|].
  by rewrite Hcur, Hidem.
Qed.

Lemma sanitize_web_idem x : sanitize_web (sanitize_web x) = sanitize_web x.
Proof.
  destruct x as [? ? p ps ? ? ?]. unfold sanitize_web. simpl. f_equal.
  - by destruct (String.eqb p "") eqn:E; simpl; rewrite ?E.
  - by destruct (String.eqb ps "") eqn:E; simpl; rewrite ?E.
Qed.

(** The discovery section, whose ranges are stored apart. *)
Lemma discovery_back req w r :
  manager w = None -> json_safe (changed req (effective w)) ->
  let c := Discovery (changed req (effective w)) in
  (Req_Discovery req = None -> r = ranges_value w) ->
  same_discovery
    (sanitize_discovery (with_subnet (head subnets) (with_ranges (Some r)
       (overlay into_discovery (if Req_Discovery req then Some (discovery_map c) else disc_value w)
          (Discovery DefaultSettings)))))
    (with_ranges (Some r) (sanitize_discovery c)).
Proof.
  intros Hm [Hc Hmin Hsec _ _ _]. cbv zeta. unfold changed, overlay in *. cbn [Discovery] in *.
  destruct (Req_Discovery req) as [m|]; intros Hr.
  - rewrite into_discovery_map by done. unfold same_discovery. by destruct (head subnets).
  - rewrite (Hr eq_refl).
    assert (HD : Discovery (effective w) = with_subnet (head subnets) (with_ranges (Some (ranges_value w))
      (sanitize_discovery (overlay into_discovery (disc_value w) (Discovery DefaultSettings))))).
    { unfold effective. rewrite Hm. apply ranges_subnet_sanitize. }
    rewrite HD, !ranges_subnet_sanitize, sanitize_discovery_idem. by destruct (head subnets).
Qed.

(** Without a server snapshot, a save that is answered with the new settings is read
    back as answered, before and after a restart: SNMP, feature, logging and web
    settings exactly, discovery up to the detected subnet and with the stored ranges,
    which are the ranges of the request when it has any. Spooler settings are the
    exception: they are stored but read from the defaults. *)
Theorem saved_settings_read_back req w s :
  manager w = None ->
  value (post_settings configEnabled fuel (Some req)) w = Saved s ->
  json_safe (changed req (effective w)) ->
  let w' := final (post_settings configEnabled fuel (Some req)) w in
  let s' := value (loadUnifiedSettings configEnabled) w' in
  SNMP s' = SNMP s /\ Features s' = Features s /\ Logging s' = Logging s /\ Web s' = Web s /\
  same_discovery (Discovery s') (with_ranges (Some (ranges_value w')) (Discovery s)) /\
  ranges_value w' = (if has_ranges (Req_Discovery req) then RangesText (Discovery s) else ranges_value w) /\
  Spooler s' = Spooler DefaultSettings.
Proof.
  intros Hm Hv Hsafe. destruct (Saved_unmanaged req w s Hm Hv) as [Hsave Hfin].
  destruct (save_run req w s Hsave) as [-> Hw']. cbv zeta. rewrite Hfin, Hw'.
  rewrite (proj1 (load_run _)).
  pose proof (patch_sections_objects req (effective w) (default ∅ (settings_value w))) as (Hsn & Hfe & Hlo & Hwe).
  set (c := changed req (effective w)) in *. set (e := (patch_sections _ _ _).2) in *.
  assert (Hstored : forall x, object_at (Some (default ∅ (settings_value w))) x = object_at (settings_value w) x).
  { intros x. by destruct (settings_value w). }
  rewrite !Hstored in *.
  assert (Hcur : effective w = with_features (features_effect configEnabled
      (overlay into_features (object_at (settings_value w) "features") (Features DefaultSettings)))
      (compose DefaultSettings false (disc_value w) (Some (ranges_value w)) (head subnets) (settings_value w))).
  { unfold effective. by rewrite Hm. }
  unfold effective at 1 2 3 4 5 6. cbn [manager saved_world]. rewrite Hm.
  split_and!.
  - refine (section_back into_snmp snmp_entries sanitize_snmp _ (SNMP (effective w)) (Req_SNMP req) _ _
      _ sanitize_snmp_idem _ Hsn); [by rewrite Hcur | apply into_snmp_entries; apply Hsafe].
  - refine (section_back into_features features_entries (features_effect configEnabled) _
      (Features (effective w)) (Req_Features req) _ _ _ features_effect_idem _ Hfe);
      [by rewrite Hcur | apply into_features_entries].
  - refine (section_back into_logging logging_entries id _ (Logging (effective w)) (Req_Logging req) _ _
      _ (fun _ => eq_refl) _ Hlo); [by rewrite Hcur | apply into_logging_entries].
  - refine (section_back into_web web_entries sanitize_web _ (Web (effective w)) (Req_Web req) _ _
      _ sanitize_web_idem _ Hwe); [by rewrite Hcur | apply into_web_entries].
  - apply discovery_back; [done | done |]. intros Hd. simpl. by rewrite Hd.
  - simpl. by destruct (has_ranges _).
  - done.
Qed.

End Table.

(** ** Runs *)

Definition fresh_agent : AgentWorld :=
  {| disc_value := None; settings_value := None; managed_value := None; ranges_value := "";
     manager := None |}.

Definition community_request : SettingsRequest :=
  {| Req_Discovery := Some {[ "ranges_text" := JStr "10.0.0.1-3" ]};
     Req_SNMP := Some {[ "community" := JStr "office" ]}; Req_Features := None; Req_Spooler := None;
     Req_Logging := Some {[ "level" := JStr "debug" ]}; Req_Web := None; Req_Reset := false |}.

(** The post handler and the loader on the table. *)
Definition post_on (req : SettingsRequest) : M Call AgentWorld Reply :=
  @post_settings _ _ _ (agent_table []) false 4100 (Some req).
Definition load_on : M Call AgentWorld Settings := @loadUnifiedSettings _ _ _ (agent_table []) false.
Definition apply_on (s : SettingsSnapshot) : M Call AgentWorld (result string Settings) :=
  @ApplyServerSnapshot _ _ _ (agent_table []) false s.

Definition saved_community : Settings :=
  match value (post_on community_request) fresh_agent with Saved s => s | _ => DefaultSettings end.

Lemma saved_settings_read_back_witness :
  let w' := final (post_on community_request) fresh_agent in
  let s' := value load_on w' in
  SNMP s' = SNMP saved_community /\ Features s' = Features saved_community /\
  Logging s' = Logging saved_community /\ Web s' = Web saved_community /\
  same_discovery (Discovery s') (with_ranges (Some (ranges_value w')) (Discovery saved_community)) /\
  ranges_value w' = "10.0.0.1-3" /\ Spooler s' = Spooler DefaultSettings.
Proof.
  refine (saved_settings_read_back false 4100 [] community_request fresh_agent saved_community eq_refl _ _).
  - vm_compute. reflexivity.
  - constructor; vm_compute; split; discriminate.
Defined.

(** A snapshot with ranges of the server, and what the agent receives. *)
Definition fleet_snapshot (sections : list string) (s : Settings) : Snapshot :=
  {| Snap_SchemaVersion := SchemaVersion; Snap_Settings := s; Snap_ManagedSections := sections;
     Snap_UpdatedAt := 0; Snap_UpdatedBy := "admin" |}.

Definition fleet_settings : Settings :=
  with_discovery (with_ranges (Some "192.168.1.0/24") (Discovery DefaultSettings)) DefaultSettings.

Definition receive (sections : option (list string)) (p : AgentSnapshot) : SettingsSnapshot :=
  {| Version := Payload_Version p; Snapshot_SchemaVersion := Payload_SchemaVersion p;
     UpdatedAt := Payload_UpdatedAt p; Snapshot_ManagedSections := sections;
     Snapshot_Settings := Payload_Settings p |}.

Definition fleet_sections (sections : list string) : SettingsSnapshot :=
  receive (Some sections) (agentSnapshotFromSnapshot (fleet_snapshot sections fleet_settings)).

Lemma resolved_settings_reach_agent_witness :
  exists e, value (apply_on (fleet_sections ["snmp"])) fresh_agent = Ok e /\
  SNMP e = SNMP (Sanitize fleet_settings).
Proof.
  destruct (resolved_settings_reach_agent false [] (fleet_snapshot ["snmp"] fleet_settings)
    (fleet_sections ["snmp"]) fresh_agent) as (e & He & _ & Hs & _).
  - split_and!; reflexivity.
  - by apply (bool_decide_unpack (_ <> _)).
  - exists e. split; [exact He | exact Hs].
Defined.

(** The ranges of the server's discovery settings do not reach the agent: its own
    ranges always take their place, even when there are none. *)
Lemma server_ranges_ignored :
  exists e, value (apply_on (fleet_sections ["discovery"])) fresh_agent = Ok e /\
    RangesText (Discovery e) = "" /\ RangesText (Discovery fleet_settings) = "192.168.1.0/24".
Proof. eexists. split; [vm_compute; reflexivity|]. by split. Qed.

(** A section that the server does not manage is not locked while another is, so a
    save of it succeeds; but it is read from the snapshot. *)
Lemma unmanaged_section_lost :
  let w := final (apply_on (fleet_sections ["discovery"])) fresh_agent in
  let req := {| Req_Discovery := None; Req_SNMP := Some {[ "community" := JStr "office" ]};
                Req_Features := None; Req_Spooler := None; Req_Logging := None; Req_Web := None;
                Req_Reset := false |} in
  (exists s, value (post_on req) w = Saved s /\ Community (SNMP s) = "office") /\
  Community (SNMP (value load_on (final (post_on req) w))) = "".
Proof. cbv zeta. split; [eexists; split; vm_compute; reflexivity | vm_compute; reflexivity]. Qed.

(** No managed sections, sent as null, lock every fleet section. *)
Lemma null_sections_lock_all :
  sent_as (agentSnapshotFromSnapshot (fleet_snapshot [] fleet_settings))
    (receive None (agentSnapshotFromSnapshot (fleet_snapshot [] fleet_settings))) /\
  value (post_on community_request)
    (final (apply_on (receive None (agentSnapshotFromSnapshot (fleet_snapshot [] fleet_settings)))) fresh_agent) =
  Conflict ["discovery"; "snmp"].
Proof. split; [by split_and! | vm_compute; reflexivity]. Qed.

(** The answer to a reset are the defaults, also under a snapshot that prevails. *)
Lemma reset_answers_defaults :
  let w := final (apply_on (receive (Some ["snmp"]) (agentSnapshotFromSnapshot
    (fleet_snapshot ["snmp"] {| Discovery := Discovery DefaultSettings;
       SNMP := into_snmp {[ "community" := JStr "fleet" ]} (SNMP DefaultSettings);
       Features := Features DefaultSettings; Spooler := Spooler DefaultSettings;
       Logging := Logging DefaultSettings; Web := Web DefaultSettings |})))) fresh_agent in
  let req := {| Req_Discovery := None; Req_SNMP := None; Req_Features := None; Req_Spooler := None;
                Req_Logging := None; Req_Web := None; Req_Reset := true |} in
  value (post_on req) w = Reset DefaultSettings /\
  Community (SNMP (value load_on (final (post_on req) w))) = "fleet".
Proof. cbv zeta. split; vm_compute; reflexivity. Qed.

(** Ranges under a key in another case are answered, but neither checked nor stored. *)
Lemma ranges_in_other_case_lost :
  let req := {| Req_Discovery := Some {[ "Ranges_Text" := JStr "not an address" ]};
                Req_SNMP := None; Req_Features := None; Req_Spooler := None; Req_Logging := None;
                Req_Web := None; Req_Reset := false |} in
  (exists s, value (post_on req) fresh_agent = Saved s /\ RangesText (Discovery s) = "not an address") /\
  ranges_value (final (post_on req) fresh_agent) = "".
Proof. cbv zeta. split; [eexists; split; vm_compute; reflexivity | vm_compute; reflexivity]. Qed.
