(* ===== verification/UploadWorker.v ===== *)
(** * The upload worker of the agent ([agent/upload_worker.go]) and the calls of its
    server client ([agent/agent/server_client.go]).

    The server, the device store, the clock, the files and the WebSocket are
    operations of an environment. A timer that races with the stop channel answers
    whether it fired. *)
From S2P Require Import Prelude GoStrings GoTime Effects AuditLog AgentSettings.

Open Scope string_scope.
Open Scope list_scope.

(** ** Data *)

Record UploadWorkerConfig := {
  HeartbeatInterval : Duration;
  UploadInterval : Duration;
  RetryAttempts : Z;
  RetryBackoff : Duration;
  UseWebSocket : bool;
}.

(** The defaults of [NewUploadWorker]. *)
Definition or_default (zero default x : Z) : Z := if (x =? zero)%Z then default else x.
Definition NewUploadWorker (c : UploadWorkerConfig) : UploadWorkerConfig :=
  {| HeartbeatInterval := or_default 0 (60 * Second) (HeartbeatInterval c);
     UploadInterval := or_default 0 (300 * Second) (UploadInterval c);
     RetryAttempts := or_default 0 3 (RetryAttempts c);
     RetryBackoff := or_default 0 (2 * Second) (RetryBackoff c);
     UseWebSocket := UseWebSocket c |}.

Record JoinResponse := { Join_Success : bool; TenantID : string; AgentToken : string; Join_Message : string }.
Record HeartbeatResponse := { Success : bool; SettingsVersion : string; Snapshot : option SettingsSnapshot }.

(** ** What is uploaded

    The devices and metrics of the agent's store ([common/storage/types.go] with the
    fields that the agent adds in [agent/storage]), and the maps that the worker builds
    of them. A nil map is null in the body. *)

Record FieldLock := { Lock_Field : string; Lock_Reason : string; LockedAt : Time; LockedBy : string }.

Record PaperTray := {
  Tray_Index : Z;
  Tray_Name : string;
  MediaType : string;
  CurrentLevel : Z;
  MaxCapacity : Z;
  LevelPercent : Z;
  Tray_Status : string;
}.

Record Device := {
  Dev_Serial : string;
  Dev_IP : string;
  Dev_Manufacturer : string;
  Dev_Model : string;
  Dev_Hostname : string;
  Dev_Firmware : string;
  Dev_MACAddress : string;
  Dev_SubnetMask : string;
  Dev_Gateway : string;
  Dev_Consumables : list string;
  Dev_StatusMessages : list string;
  Dev_LastSeen : Time;
  Dev_CreatedAt : Time;
  Dev_FirstSeen : Time;
  Dev_DiscoveryMethod : string;
  Dev_AssetNumber : string;
  Dev_Location : string;
  Dev_Description : string;
  Dev_WebUIURL : string;
  Dev_RawData : option fields;
  Dev_DeviceType : string;
  Dev_SourceType : string;
  Dev_IsUSB : bool;
  Dev_InitialPageCount : Z;
  Dev_PortName : string;
  Dev_DriverName : string;
  Dev_IsDefault : bool;
  Dev_IsShared : bool;
  Dev_SpoolerStatus : string;
  Dev_UsbWebUIAvailable : bool;
  DNSServers : list string;
  DHCPServer : string;
  IsSaved : bool;
  Visible : bool;
  WalkFilename : string;
  LastScanID : Z;
  LockedFields : list FieldLock;
}.

Record MetricsSnapshot := {
  Met_ID : Z;
  Met_Serial : string;
  Met_Timestamp : Time;
  Met_PageCount : Z;
  Met_ColorPages : Z;
  Met_MonoPages : Z;
  Met_ScanCount : Z;
  Met_TonerLevels : option fields;
  Met_PaperTrays : list PaperTray;
  Met_FaxPages : Z;
  Met_CopyPages : Z;
  Met_OtherPages : Z;
  Met_CopyMonoPages : Z;
  Met_CopyFlatbedScans : Z;
  Met_CopyADFScans : Z;
  Met_FaxFlatbedScans : Z;
  Met_FaxADFScans : Z;
  Met_ScanToHostFlatbed : Z;
  Met_ScanToHostADF : Z;
  Met_DuplexSheets : Z;
  Met_JamEvents : Z;
  Met_ScannerJamEvents : Z;
  Met_Tier : string;
}.

Definition map_value (m : option fields) : field := match m with Some m => FMap m | None => FNull end.

(** The map of a device: neither its creation, its initial page count nor the fields of
    the agent alone are in it. *)
Definition device_map (d : Device) : fields :=
  [("serial", FStr (Dev_Serial d)); ("ip", FStr (Dev_IP d)); ("manufacturer", FStr (Dev_Manufacturer d));
   ("model", FStr (Dev_Model d)); ("hostname", FStr (Dev_Hostname d)); ("firmware", FStr (Dev_Firmware d));
   ("mac_address", FStr (Dev_MACAddress d)); ("subnet_mask", FStr (Dev_SubnetMask d));
   ("gateway", FStr (Dev_Gateway d)); ("consumables", FStrs (Dev_Consumables d));
   ("status_messages", FStrs (Dev_StatusMessages d)); ("last_seen", FTime (Dev_LastSeen d));
   ("first_seen", FTime (Dev_FirstSeen d)); ("discovery_method", FStr (Dev_DiscoveryMethod d));
   ("asset_number", FStr (Dev_AssetNumber d)); ("location", FStr (Dev_Location d));
   ("description", FStr (Dev_Description d)); ("web_ui_url", FStr (Dev_WebUIURL d));
   ("raw_data", map_value (Dev_RawData d)); ("device_type", FStr (Dev_DeviceType d));
   ("source_type", FStr (Dev_SourceType d)); ("is_usb", FBool (Dev_IsUSB d));
   ("port_name", FStr (Dev_PortName d)); ("driver_name", FStr (Dev_DriverName d));
   ("is_default", FBool (Dev_IsDefault d)); ("is_shared", FBool (Dev_IsShared d));
   ("spooler_status", FStr (Dev_SpoolerStatus d)); ("usb_webui_available", FBool (Dev_UsbWebUIAvailable d))].

(** The map of metrics: the counters of faxes, copies, sheets and jams and the paper trays
    are not in it. *)
Definition metrics_map (m : MetricsSnapshot) : fields :=
  [("serial", FStr (Met_Serial m)); ("timestamp", FTime (Met_Timestamp m)); ("page_count", FInt (Met_PageCount m));
   ("color_pages", FInt (Met_ColorPages m)); ("mono_pages", FInt (Met_MonoPages m));
   ("scan_count", FInt (Met_ScanCount m)); ("toner_levels", map_value (Met_TonerLevels m))].

(** ** Retries with exponential backoff *)

Section Retry.
Context {C W A : Type}.
Variable attempts : Z.
Variable base : Duration.
Variable fn : M C W (result string A).
Variable wait : Duration -> M C W bool.

(** [w.retryBackoff * time.Duration(1<<attempt)] *)
Definition backoff (attempt : nat) : Duration := dmul base (wrap64 (2 ^ Z.of_nat attempt)).

(** An error that is nil is printed as Go does. *)
Definition gave_up (lastErr : option string) : string :=
  "failed after " +:+ pretty attempts +:+ " attempts: " +:+ default "%!w(<nil>)" lastErr.

Fixpoint retry_loop (left attempt : nat) (lastErr : option string) : M C W (result string A) :=
  match left with
  | O => mret (Err (gave_up lastErr))
  | S left' =>
      r ← fn;
      match r with
      | Ok a => mret (Ok a)
      | Err err =>
          if Nat.eqb left' 0 then mret (Err (gave_up (Some err)))
          else
            fired ← wait (backoff attempt);
            if (fired : bool) then retry_loop left' (S attempt) (Some err)
            else mret (Err "stopped during retry")
      end
  end.

Definition retryWithBackoff : M C W (result string A) := retry_loop (Z.to_nat attempts) 0 None.
End Retry.

(** ** The environment *)

Section Worker.
Context `{GoUnicode} {W : Type}.

Inductive Call :=
| CGetToken (token : string)
| CSetToken (token : string)
| CGetenv (name value : string)
| CHeartbeat (settingsVersion : string) (r : result string HeartbeatResponse)
| CJoin (joinToken : string) (r : result string JoinResponse)
| CMarkSecretUsed (r : option string)
| CSaveServerToken (token : string) (r : option string)
| CLoadJoinToken (token : string)
| CCurrentVersion (v : string)
| CHandleSettings (snapshot : option SettingsSnapshot)
| CWebSocketConnected (b : bool)
| CWebSocketHeartbeat (deviceCount : nat) (settingsVersion : string) (r : option string)
| CList (r : result string (list Device))
| CGetLatestMetrics (serial : string) (r : result string (option MetricsSnapshot))
| CUploadDevices (devices : list fields) (r : result string unit)
| CUploadMetrics (metrics : list fields) (r : result string unit)
| CWait (d : Duration) (fired : bool)
| CStamp (what : string).

(** The interface of the server client, the store, the files and the manager.
    [ListDevices] asks for the visible devices. *)
Class WorkerEnv := {
  GetToken : W -> string * W;
  SetToken : string -> W -> unit * W;
  Getenv : string -> W -> string * W;
  PostHeartbeat : string -> W -> result string HeartbeatResponse * W;
  PostJoin : string -> W -> result string JoinResponse * W;
  MarkSecretUsed : W -> option string * W;
  WriteServerToken : string -> W -> option string * W;
  LoadServerJoinToken : W -> string * W;
  ManagerVersion : W -> string * W;
  HandleSettings : option SettingsSnapshot -> W -> unit * W;
  WebSocketConnected : W -> bool * W;
  WebSocketHeartbeat : nat -> string -> W -> option string * W;
  ListDevices : W -> result string (list Device) * W;
  GetLatestMetrics : string -> W -> result string (option MetricsSnapshot) * W;
  PostDevices : list fields -> W -> result string unit * W;
  PostMetrics : list fields -> W -> result string unit * W;
  Timer : Duration -> W -> bool * W;
  Stamp : string -> W -> unit * W;
}.
Context `{WorkerEnv}.
Variable config : UploadWorkerConfig.
Variable hasDataDir : bool.

Definition get_token := call CGetToken GetToken.
Definition set_token t := call (fun _ : unit => CSetToken t) (SetToken t).
Definition getenv name := call (CGetenv name) (Getenv name).
Definition current_version := call CCurrentVersion ManagerVersion.
Definition handle_settings s := call (fun _ : unit => CHandleSettings s) (HandleSettings s).
Definition list_devices := call CList ListDevices.
Definition timer d := call (CWait d) (Timer d).
Definition stamp what := call (fun _ : unit => CStamp what) (Stamp what).

(** [c.HeartbeatWithVersion]: an answer without success is an error too. *)
Definition Heartbeat (version : string) : M Call W (result string (option SettingsSnapshot)) :=
  r ← call (CHeartbeat version) (PostHeartbeat version);
  mret (match r with
        | Err e => Err ("heartbeat failed: " +:+ e)
        | Ok resp => if Success resp then Ok (Snapshot resp) else Err "heartbeat failed"
        end).

(** The agent's token, which the client keeps. *)
Definition RegisterWithToken (joinToken : string) : M Call W (result string string) :=
  r ← call (CJoin joinToken) (PostJoin joinToken);
  match r with
  | Err e => mret (Err ("register-with-token failed: " +:+ e))
  | Ok resp =>
      if negb (Join_Success resp) then mret (Err ("register-with-token failed: " +:+ Join_Message resp))
      else
        _ ← (if String.eqb (AgentToken resp) "" then mret tt else set_token (AgentToken resp));
        mret (Ok (AgentToken resp))
  end.

(** Empty tokens are not saved, and a failure is only logged. *)
Definition SaveServerToken (token : string) : M Call W unit :=
  if String.eqb token "" then mret tt
  else _ ← call (CSaveServerToken token) (WriteServerToken token); mret tt.

Definition save_token (token : string) : M Call W unit :=
  if hasDataDir then SaveServerToken token else mret tt.

(** ** Registration *)

(** Whether the token that the client has is accepted. *)
Definition token_accepted : M Call W bool :=
  token ← get_token;
  if String.eqb token "" then mret false
  else
    version ← current_version;
    r ← Heartbeat version;
    match r with
    | Ok _ => mret true
    | Err _ => _ ← set_token ""; mret false
    end.

(** Whether the secret of the environment registers the agent, and the secret. *)
Definition join_with_secret : M Call W (bool * string) :=
  initSecret ← getenv "INIT_SECRET";
  initSecret ← (if String.eqb initSecret "" then getenv "INIT_SERCRET" else mret initSecret);
  if String.eqb initSecret "" then mret (false, "")
  else
    r ← RegisterWithToken initSecret;
    match r with
    | Ok token =>
        if String.eqb token "" then mret (false, initSecret)
        else _ ← call CMarkSecretUsed MarkSecretUsed; _ ← save_token token; mret (true, initSecret)
    | Err _ => mret (false, initSecret)
    end.

Definition ensureRegistered : M Call W (option string) :=
  accepted ← token_accepted;
  if (accepted : bool) then mret None
  else
    '(joined, initSecret) ← join_with_secret;
    if (joined : bool) then mret None
    else
      joinToken ← (if hasDataDir then call CLoadJoinToken LoadServerJoinToken else mret initSecret);
      if String.eqb joinToken "" then
        mret (Some "no join token found; re-run agent onboarding to provision a new join token")
      else
        r ← RegisterWithToken joinToken;
        match r with
        | Err e => mret (Some ("register-with-token failed: " +:+ e))
        | Ok token => _ ← save_token token; mret None
        end.

(** ** Heartbeats and uploads *)

Definition retry {A} (fn : M Call W (result string A)) : M Call W (result string A) :=
  retryWithBackoff (RetryAttempts config) (RetryBackoff config) fn timer.

(** [true] when the WebSocket has taken the heartbeat. *)
Definition websocket_heartbeat : M Call W bool :=
  connected ← call CWebSocketConnected WebSocketConnected;
  if negb connected then mret false
  else
    devices ← list_devices;
    version ← current_version;
    let count := match devices with Ok l => length l | Err _ => 0%nat end in
    e ← call (CWebSocketHeartbeat count (TrimSpace version)) (WebSocketHeartbeat count (TrimSpace version));
    match e with
    | Some _ => mret false
    | None =>
        version ← current_version;
        r ← Heartbeat version;
        _ ← match r with Ok snapshot => handle_settings snapshot | Err _ => mret tt end;
        _ ← stamp "lastHeartbeat"; mret true
    end.

Definition sendHeartbeat : M Call W unit :=
  sent ← websocket_heartbeat;
  if (sent : bool) then mret tt
  else
    r ← retry (version ← current_version; Heartbeat version);
    match r with
    | Err _ => mret tt
    | Ok snapshot => _ ← handle_settings snapshot; stamp "lastHeartbeat"
    end.

Definition uploadDevices : M Call W (option string) :=
  devices ← list_devices;
  match devices with
  | Err e => mret (Some ("failed to list devices: " +:+ e))
  | Ok [] => mret None
  | Ok devices =>
      let deviceMaps := map device_map devices in
      r ← retry (call (CUploadDevices deviceMaps) (PostDevices deviceMaps));
      match r with
      | Err e => mret (Some ("failed to upload devices: " +:+ e))
      | Ok _ => _ ← stamp "lastDeviceUpload"; mret None
      end
  end.

(** The maps of the latest metrics of the devices that have some; errors skip the device. *)
Fixpoint latest_metrics (devices : list Device) : M Call W (list fields) :=
  match devices with
  | [] => mret []
  | d :: rest =>
      r ← call (CGetLatestMetrics (Dev_Serial d)) (GetLatestMetrics (Dev_Serial d));
      ms ← latest_metrics rest;
      mret (match r with Ok (Some m) => metrics_map m :: ms | _ => ms end)
  end.

Definition uploadMetrics : M Call W (option string) :=
  devices ← list_devices;
  match devices with
  | Err e => mret (Some ("failed to list devices for metrics: " +:+ e))
  | Ok [] => mret None
  | Ok devices =>
      ms ← latest_metrics devices;
      match ms with
      | [] => mret None
      | _ =>
          r ← retry (call (CUploadMetrics ms) (PostMetrics ms));
          match r with
          | Err e => mret (Some ("failed to upload metrics: " +:+ e))
          | Ok _ => _ ← stamp "lastMetricsUpload"; mret None
          end
      end
  end.

(** The errors are logged; metrics follow even when the devices failed. *)
Definition doUpload : M Call W unit :=
  _ ← uploadDevices; _ ← uploadMetrics; mret tt.

(** ** What the calls depend on *)

(** The server has given the agent this token. *)
Definition issued (token : string) (h : list Call) : Prop :=
  exists joinToken resp, CJoin joinToken (Ok resp) ∈ h /\ Join_Success resp = true /\ AgentToken resp = token.

(** A heartbeat with the token that the agent had was refused or did not arrive. *)
Definition refused (h : list Call) : Prop :=
  exists v r, CHeartbeat v r ∈ h /\ forall resp, r = Ok resp -> Success resp = false.

(** What registration may call after the history [h]. *)
Definition registration_ok (h : list Call) (c : Call) : Prop :=
  match c with
  | CJoin t _ =>
      t <> "" /\ (CLoadJoinToken t ∈ h \/ CGetenv "INIT_SECRET" t ∈ h \/ CGetenv "INIT_SERCRET" t ∈ h) /\
      (CGetToken "" ∈ h \/ refused h)
  | CSetToken t => (t = "" /\ refused h) \/ (t <> "" /\ issued t h)
  | CSaveServerToken t _ => t <> "" /\ issued t h
  | CUploadDevices _ _ | CUploadMetrics _ _ => False
  | _ => True
  end.

(** The end of a registration without an error. *)
Definition registered (h : list Call) : Prop :=
  (exists t v resp, t <> "" /\ CGetToken t ∈ h /\ CHeartbeat v (Ok resp) ∈ h /\ Success resp = true) \/
  (exists joinToken resp, CJoin joinToken (Ok resp) ∈ h /\ Join_Success resp = true).

Definition answered (r : result string (option MetricsSnapshot)) : option fields :=
  match r with Ok m => metrics_map <$> m | Err _ => None end.

(** What an upload may send after the history [h]. *)
Definition upload_ok (h : list Call) (c : Call) : Prop :=
  match c with
  | CUploadDevices maps _ => exists ds, ds <> [] /\ CList (Ok ds) ∈ h /\ maps = map device_map ds
  | CUploadMetrics ms _ => ms <> [] /\ exists ds, CList (Ok ds) ∈ h /\
      exists answers, Forall2 (fun d r => CGetLatestMetrics (Dev_Serial d) r ∈ h) ds answers /\
        ms = omap answered answers
  | CStamp what =>
      (what = "lastDeviceUpload" /\ exists ds, CUploadDevices ds (Ok tt) ∈ h) \/
      (what = "lastMetricsUpload" /\ exists ms, CUploadMetrics ms (Ok tt) ∈ h)
  | CSetToken _ | CHandleSettings _ | CJoin _ _ => False
  | _ => True
  end.
End Worker.

(** ** Properties *)

Section RetryProperties.
Context {C W A : Type}.
Variable attempts : Z.
Variable base : Duration.
Variable rec : result string A -> C.
Variable op : W -> result string A * W.
Variable recw : Duration -> bool -> C.
Variable fires : Duration -> W -> bool * W.

Definition attempt_call := call rec op.
Definition wait_call d := call (recw d) (fires d).

(** Failed attempts, each followed by a wait that ran out. *)
Fixpoint failures (attempt : nat) (errs : list string) : list C :=
  match errs with
  | [] => []
  | e :: errs' => rec (Err e) :: recw (backoff base attempt) true :: failures (S attempt) errs'
  end.

Lemma retry_loop_run left attempt lastErr w :
  let m := retry_loop attempts base attempt_call wait_call left attempt lastErr in
  exists errs,
    (left = 0%nat /\ errs = [] /\ trace m w = [] /\ value m w = Err (gave_up attempts lastErr)) \/
    ((length errs < left)%nat /\
     ((exists a, trace m w = failures attempt errs ++ [rec (Ok a)] /\ value m w = Ok a) \/
      (exists e, S (length errs) = left /\ trace m w = failures attempt errs ++ [rec (Err e)] /\
         value m w = Err (gave_up attempts (Some e))) \/
      (exists e, (S (length errs) < left)%nat /\
         trace m w = failures attempt errs ++
           [rec (Err e); recw (backoff base (attempt + length errs)) false] /\
         value m w = Err "stopped during retry"))).
Proof.
  cbv zeta. revert attempt lastErr w. induction left as [|left IH]; intros attempt lastErr w.
  { exists []. left. done. }
  cbn [retry_loop]. rewrite trace_bind, value_bind.
  destruct (call_run rec op w : value attempt_call w = _ /\ trace attempt_call w = _ /\ _) as (-> & -> & _).
  destruct (op w).1 as [a|err].
  { exists []. right. split; [simpl; lia|]. left. by exists a. }
  destruct (Nat.eqb_spec left 0) as [->|Hleft].
  { exists []. right. split; [simpl; lia|]. right. left. by exists err. }
  set (w1 := final attempt_call w). rewrite trace_bind, value_bind.
  destruct (call_run (recw (backoff base attempt)) (fires (backoff base attempt)) w1
    : value (wait_call _) w1 = _ /\ trace (wait_call _) w1 = _ /\ _) as (-> & -> & _).
  destruct (fires (backoff base attempt) w1).1.
  - edestruct (IH (S attempt) (Some err)) as (errs & [(? & _)|[Hlen Hcase]]); [done|].
    exists (err :: errs). right. split; [simpl; lia|]. cbn [failures length].
    destruct Hcase as [(a & Htr & Hval)|[(e & Hl & Htr & Hval)|(e & Hl & Htr & Hval)]].
    + left. exists a. rewrite Htr. split; [done | exact Hval].
    + right. left. exists e. rewrite Htr. split_and!; [lia | done | exact Hval].
    + right. right. exists e. rewrite Htr. split_and!; [lia | | exact Hval].
      by replace (attempt + S (length errs))%nat with (S attempt + length errs)%nat by lia.
  - exists []. right. split; [simpl; lia|]. right. right. exists err.
    split_and!; [simpl; lia | | done]. simpl. by rewrite Nat.add_0_r.
Qed.

Lemma backoff_exact i : 0 <= base -> base * 2 ^ Z.of_nat i <= int64_max -> backoff base i = base * 2 ^ Z.of_nat i.
Proof.
  intros Hb Hm. unfold backoff, dmul.
  assert (0 < 2 ^ Z.of_nat i) by (apply Z.pow_pos_nonneg; lia).
  unfold int64_max in Hm. destruct (Z.eq_dec base 0) as [->|Hne]; [by rewrite !Z.mul_0_l|].
  rewrite (wrap64_id (2 ^ Z.of_nat i)) by (unfold in_int64, int64_min, int64_max; nia).
  apply wrap64_id. unfold in_int64, int64_min, int64_max. nia.
Qed.

(** Retrying makes at most the configured number of attempts, each failed one but
    the last followed by a wait that doubles; it succeeds exactly when an attempt does,
    and otherwise fails after the last attempt or when it is stopped during a wait. The
    waits are the configured backoff times powers of two as long as that fits. *)
Theorem retryWithBackoff_bounded w :
  let m := retryWithBackoff attempts base attempt_call wait_call in
  exists errs,
    ((attempts <= 0 /\ trace m w = [] /\ value m w = Err (gave_up attempts None)) \/
     (Z.of_nat (length errs) < attempts /\
      ((exists a, trace m w = failures 0 errs ++ [rec (Ok a)] /\ value m w = Ok a) \/
       (exists e, Z.of_nat (length errs) = attempts - 1 /\ trace m w = failures 0 errs ++ [rec (Err e)] /\
          value m w = Err (gave_up attempts (Some e))) \/
       (exists e, trace m w = failures 0 errs ++ [rec (Err e); recw (backoff base (length errs)) false] /\
          value m w = Err "stopped during retry")))) /\
    (forall i, 0 <= base -> base * 2 ^ Z.of_nat i <= int64_max ->
       backoff base i = base * 2 ^ Z.of_nat i).
Proof.
  cbv zeta. unfold retryWithBackoff.
  destruct (retry_loop_run (Z.to_nat attempts) 0 None w) as (errs & Hcase). exists errs.
  split; [|apply backoff_exact].
  destruct Hcase as [(Hn & _ & Ht & Hv)|[Hlt Hcase]]; [left; split_and!; [lia | exact Ht | exact Hv]|].
  right. split; [lia|].
  destruct Hcase as [?|[(e & Hl & Ht & Hv)|(e & Hl & Ht & Hv)]]; [by left | right; left | right; right].
  - exists e. split_and!; [lia | done..].
  - exists e. split; done.
Qed.

End RetryProperties.

Section Properties.
Context `{GoUnicode} {W : Type} `{@WorkerEnv W}.
Variable config : UploadWorkerConfig.
Variable hasDataDir : bool.

Lemma refused_mono (h h' : list Call) : h `prefix_of` h' -> refused h -> refused h'.
Proof. intros Hp (v & r & Hc & Hr). exists v, r. split; [by eapply prefix_elem_of | done]. Qed.

Lemma issued_mono t (h h' : list Call) : h `prefix_of` h' -> issued t h -> issued t h'.
Proof. intros Hp (j & r & Hc & Hr). exists j, r. split; [by eapply prefix_elem_of | done]. Qed.

Notation Reg := (Spec (W := W) registration_ok).

Lemma save_token_allowed h t (Q : list Call -> unit -> Prop) :
  (t <> "" -> issued t h) -> (forall h', h `prefix_of` h' -> Q h' tt) -> Reg h (save_token hasDataDir t) Q.
Proof.
  intros Ht HQ. unfold save_token, SaveServerToken. destruct hasDataDir; [|by apply Spec_ret, HQ].
  destruct (String.eqb_spec t "") as [He|He]; [by apply Spec_ret, HQ|].
  spec_step; [by split; auto|]. apply Spec_ret, HQ. by apply prefix_app_r.
Qed.

(** Registering with a token: a success was given by the server. *)
Lemma RegisterWithToken_allowed h t (Q : list Call -> result string string -> Prop) :
  (forall r, registration_ok h (CJoin t r)) ->
  (forall h' token resp, h `prefix_of` h' -> CJoin t (Ok resp) ∈ h' -> Join_Success resp = true ->
     AgentToken resp = token -> Q h' (Ok token)) ->
  (forall h' e, h `prefix_of` h' -> Q h' (Err e)) ->
  Reg h (RegisterWithToken t) Q.
Proof.
  intros Hj Hok Herr. unfold RegisterWithToken. spec_step; [by apply Hj|].
  assert (Hp : h `prefix_of` h ++ [CJoin t a]) by by apply prefix_app_r.
  destruct a as [resp|e]; [|by apply Spec_ret, Herr].
  destruct (Join_Success resp) eqn:Hs; simpl; [|by apply Spec_ret, Herr].
  assert (Hin : CJoin t (Ok resp) ∈ h ++ [CJoin t (Ok resp)]) by eauto with history.
  destruct (String.eqb_spec (AgentToken resp) "") as [He|He].
  - apply Spec_bind_ret, Spec_ret. by eapply Hok.
  - unfold set_token. spec_step; [right; split; [done|]; by exists t, resp|].
    apply Spec_ret. eapply Hok; [|by eauto with history|done|done].
    etrans; [done|]. by apply prefix_app_r.
Qed.

Definition unaccepted (h : list Call) : Prop := CGetToken "" ∈ h \/ refused h.

Lemma unaccepted_mono h h' : h `prefix_of` h' -> unaccepted h -> unaccepted h'.
Proof. intros Hp [Hc|Hr]; [left; by eapply prefix_elem_of | right; by eapply refused_mono]. Qed.

Lemma token_accepted_allowed h :
  Reg h token_accepted (fun h' b => if b then registered h' else unaccepted h').
Proof.
  unfold token_accepted, get_token, current_version, Heartbeat, set_token.
  spec_step; [done|]. destruct (String.eqb_spec a "") as [->|Ha].
  { apply Spec_ret. left. eauto with history. }
  spec_step; [done|]. spec_step. spec_step; [done|]. spec_step. destruct a1 as [resp|e].
  - destruct (Success resp) eqn:Hs.
    + apply Spec_ret. left. exists a, a0, resp. split_and!; eauto 8 with history.
    + assert (Hr : forall l, refused (((h ++ [CGetToken a]) ++ [CCurrentVersion a0]) ++ CHeartbeat a0 (Ok resp) :: l)).
      { intros l. exists a0, (Ok resp). split; [|by intros ? [= <-]]. apply elem_of_app. right. left. }
      spec_step; [left; split; [done | apply Hr]|]. apply Spec_ret. right. rewrite <- app_assoc. apply Hr.
  - assert (Hr : forall l, refused (((h ++ [CGetToken a]) ++ [CCurrentVersion a0]) ++ CHeartbeat a0 (Err e) :: l)).
    { intros l. exists a0, (Err e). split; [|done]. apply elem_of_app. right. left. }
    spec_step; [left; split; [done | apply Hr]|]. apply Spec_ret. right. rewrite <- app_assoc. apply Hr.
Qed.

(** A token that came from the environment or the file. *)
Definition from_outside (t : string) (h : list Call) : Prop :=
  CLoadJoinToken t ∈ h \/ CGetenv "INIT_SECRET" t ∈ h \/ CGetenv "INIT_SERCRET" t ∈ h.

Lemma from_outside_mono t h h' : h `prefix_of` h' -> from_outside t h -> from_outside t h'.
Proof. unfold from_outside. intros Hp [?|[?|?]]; eauto using prefix_elem_of. Qed.

Definition joined (h : list Call) : Prop :=
  exists joinToken resp, CJoin joinToken (Ok resp) ∈ h /\ Join_Success resp = true.

Lemma joined_mono h h' : h `prefix_of` h' -> joined h -> joined h'.
Proof. intros Hp (j & r & Hc & Hr). exists j, r. split; [by eapply prefix_elem_of | done]. Qed.

(** Registering with a secret that is not empty, and saving what it gives. *)
Lemma join_secret_allowed h secret :
  unaccepted h -> secret <> "" -> from_outside secret h ->
  Reg h (r ← RegisterWithToken secret;
         match r with
         | Ok token =>
             if String.eqb token "" then mret (false, secret)
             else _ ← call CMarkSecretUsed MarkSecretUsed; _ ← save_token hasDataDir token; mret (true, secret)
         | Err _ => mret (false, secret)
         end)
    (fun h' r => if r.1 then joined h' else unaccepted h' /\ (r.2 = "" \/ from_outside r.2 h')).
Proof.
  intros Hun Hne Hfrom. eapply Spec_bind.
  { apply (RegisterWithToken_allowed h secret
      (fun h' r => forall token, r = Ok token -> joined h' /\ issued token h')).
    - intros r. done.
    - intros h' token resp Hp Hin Hs Ht ? [= <-]. split; [by exists secret, resp | by exists secret, resp].
    - done. }
  intros h' [token|e] Hp Hr.
  - destruct (Hr token eq_refl) as [Hj Hi]. destruct (String.eqb token "").
    { apply Spec_ret. simpl. eauto using unaccepted_mono, from_outside_mono. }
    spec_step; [done|]. eapply Spec_bind with (R := fun h' _ => joined h').
    + apply save_token_allowed; [intros _; eapply issued_mono; [|done]; by apply prefix_app_r|].
      intros h'' Hp''. eapply joined_mono; [|done]. etrans; [by apply prefix_app_r | done].
    + intros h'' [] _ Hj'. by apply Spec_ret.
  - apply Spec_ret. simpl. eauto using unaccepted_mono, from_outside_mono.
Qed.

Lemma join_with_secret_allowed h :
  unaccepted h ->
  Reg h (join_with_secret hasDataDir)
    (fun h' r => if r.1 then joined h' else unaccepted h' /\ (r.2 = "" \/ from_outside r.2 h')).
Proof.
  intros Hun. unfold join_with_secret, getenv. spec_step; [done|].
  eapply Spec_bind with (R := fun h' s => unaccepted h' /\ (s = "" \/ from_outside s h')).
  { destruct (String.eqb_spec a "") as [->|Ha].
    - apply Spec_call. intros s. split; [done|]. split.
      + eapply unaccepted_mono; [|done]. rewrite <- app_assoc. by apply prefix_app_r.
      + right. right. right. eauto with history.
    - apply Spec_ret. split; [eapply unaccepted_mono; [|done]; by apply prefix_app_r|].
      right. right. left. eauto with history. }
  intros h' s Hp [Hun' Hs]. destruct (String.eqb_spec s "") as [->|Hne].
  { apply Spec_ret. simpl. auto. }
  destruct Hs as [?|Hs]; [done|]. by apply join_secret_allowed.
Qed.

(** Registration presents a join token only when the agent has no token or a
    heartbeat with it failed, and only one that came from the environment or the token
    file; it forgets the agent's token only after a failed heartbeat, and keeps and
    saves only tokens that the server issued in answer to a join. When it reports
    success the server has accepted a heartbeat with the existing token or a join. *)
Theorem registration_justified w :
  calls_ok registration_ok [] (trace (ensureRegistered hasDataDir) w) /\
  match value (ensureRegistered hasDataDir) w with
  | None => registered (trace (ensureRegistered hasDataDir) w)
  | Some _ => True
  end.
Proof.
  assert (Hspec : Reg [] (ensureRegistered hasDataDir)
    (fun h v => match v with None => registered h | Some _ => True end)); [|apply Hspec].
  unfold ensureRegistered. eapply Spec_bind; [apply token_accepted_allowed|].
  intros h1 [|] _ H1; [by apply Spec_ret|].
  eapply Spec_bind; [by apply join_with_secret_allowed|].
  intros h2 [[|] secret] _ H2; [by apply Spec_ret; right|]. destruct H2 as [Hun Hs]. simpl in Hs.
  eapply Spec_bind with (R := fun h' t => unaccepted h' /\ (t = "" \/ from_outside t h')).
  { destruct hasDataDir; [|by apply Spec_ret]. apply Spec_call. intros t. split; [done|]. split.
    - eapply unaccepted_mono; [|done]. by apply prefix_app_r.
    - right. left. eauto with history. }
  intros h3 t Hp3 [Hun3 Ht]. destruct (String.eqb_spec t "") as [->|Hne]; [by apply Spec_ret|].
  destruct Ht as [?|Ht]; [done|]. eapply Spec_bind.
  { apply (RegisterWithToken_allowed h3 t
      (fun h' r => forall token, r = Ok token -> joined h' /\ issued token h')); [done| |done].
    intros h' token resp Hp Hin Hjs Hat ? [= <-]. split; by exists t, resp. }
  intros h4 [token|e] Hp4 Hr; [|by apply Spec_ret]. destruct (Hr token eq_refl) as [Hj Hi].
  eapply Spec_bind with (R := fun h' _ => joined h').
  - apply save_token_allowed; [done|]. intros. by eapply joined_mono.
  - intros h5 [] _ Hj5. apply Spec_ret. by right.
Qed.

Notation Up := (Spec (W := W) upload_ok).

(** A retried computation whose success gives [R]. *)
Lemma retry_allowed {A} h (fn : M Call W (result string A)) (R : list Call -> A -> Prop) :
  (forall h', h `prefix_of` h' -> Up h' fn (fun h'' r => forall a, r = Ok a -> R h'' a)) ->
  Up h (retry config fn) (fun h' r => forall a, r = Ok a -> R h' a).
Proof.
  unfold retry, retryWithBackoff. generalize 0%nat at 1 as attempt. generalize (@None string) as lastErr.
  generalize (Z.to_nat (RetryAttempts config)) as left. intros left. revert h.
  induction left as [|left IH]; intros h lastErr attempt Hfn; cbn [retry_loop]; [by apply Spec_ret|].
  eapply Spec_bind; [by apply Hfn|]. intros h1 [a|e] Hp1 Hr.
  - apply Spec_ret. by apply Hr.
  - destruct (Nat.eqb left 0); [by apply Spec_ret|]. unfold timer. spec_step; [done|].
    destruct a; [|by apply Spec_ret]. apply IH. intros h' Hp. apply Hfn.
    etrans; [done|]. etrans; [by apply prefix_app_r | done].
Qed.

Lemma latest_metrics_allowed h ds :
  Up h (latest_metrics ds) (fun h' ms => exists answers,
    Forall2 (fun d r => CGetLatestMetrics (Dev_Serial d) r ∈ h') ds answers /\ ms = omap answered answers).
Proof.
  revert h. induction ds as [|d ds IH]; intros h; simpl.
  { apply Spec_ret. by exists []. }
  spec_step; [done|]. eapply Spec_bind; [apply IH|]. intros h' ms Hp (answers & Hall & ->).
  apply Spec_ret. exists (a :: answers). split; [constructor; [|done]|].
  - eapply prefix_elem_of; [done|]. eauto with history.
  - by destruct a as [[m|]|].
Qed.

Lemma uploadDevices_allowed h : Up h (uploadDevices config) (fun _ _ => True).
Proof.
  unfold uploadDevices, list_devices, stamp. spec_step; [done|].
  destruct a as [[|d ds]|e]; [by apply Spec_ret| |by apply Spec_ret].
  eapply Spec_bind.
  { apply (retry_allowed _ _ (fun h' _ => CUploadDevices (map device_map (d :: ds)) (Ok tt) ∈ h')).
    intros h' Hp. apply Spec_call. intros r. split.
    - exists (d :: ds). split_and!; [done | | done]. eapply prefix_elem_of; [done|]. eauto with history.
    - intros [] ->. eauto with history. }
  intros h' [[]|e] Hp Hr; [|by apply Spec_ret].
  spec_step; [left; split; [done|]; eexists; by eapply Hr | by apply Spec_ret].
Qed.

Lemma uploadMetrics_allowed h : Up h (uploadMetrics config) (fun _ _ => True).
Proof.
  unfold uploadMetrics, list_devices, stamp. spec_step; [done|].
  destruct a as [[|d ds]|e]; [by apply Spec_ret| |by apply Spec_ret].
  eapply Spec_bind; [apply latest_metrics_allowed|].
  intros h1 [|m ms] Hp1 (answers & Hall & Hms); [by apply Spec_ret|].
  eapply Spec_bind.
  { apply (retry_allowed _ _ (fun h' _ => CUploadMetrics (m :: ms) (Ok tt) ∈ h')).
    intros h' Hp. apply Spec_call. intros r. split.
    - split; [done|]. exists (d :: ds). split.
      + eapply prefix_elem_of; [|]; [by etrans|]. eauto with history.
      + exists answers. split; [|done]. eapply Forall2_impl; [done|]. intros. by eapply prefix_elem_of.
    - intros [] ->. eauto with history. }
  intros h' [[]|e] Hp Hr; [|by apply Spec_ret].
  spec_step; [right; split; [done|]; exists (m :: ms); by apply (Hr tt) | by apply Spec_ret].
Qed.

Lemma doUpload_allowed : Up [] (doUpload config) (fun _ _ => True).
Proof.
  unfold doUpload. eapply Spec_bind; [apply uploadDevices_allowed|]. intros h1 r1 _ _.
  eapply Spec_bind; [apply uploadMetrics_allowed|]. intros h2 r2 _ _. by apply Spec_ret.
Qed.

(** With an attempt to make, the retried call is made. *)
Lemma retry_calls {A} (rec : result string A -> Call) op w :
  0 < RetryAttempts config ->
  exists r rest, trace (retry config (call rec op)) w = rec r :: rest.
Proof.
  intros Hpos. unfold retry, retryWithBackoff.
  destruct (Z.to_nat (RetryAttempts config)) as [|n] eqn:Hn; [lia|]. cbn [retry_loop].
  rewrite trace_bind. destruct (call_run rec op w) as (-> & -> & _). by do 2 eexists.
Qed.

Ltac first_attempt :=
  match goal with
  | |- context [trace (retry config (call ?rec ?op)) ?v] =>
      destruct (retry_calls rec op v ltac:(done)) as (? & ? & ->); by do 2 eexists
  end.

Lemma latest_metrics_run ds w :
  exists answers, length answers = length ds /\
    trace (latest_metrics ds) w = zip_with (fun d r => CGetLatestMetrics (Dev_Serial d) r) ds answers /\
    value (latest_metrics ds) w = omap answered answers.
Proof.
  revert w. induction ds as [|d ds IH]; intros w; [by exists []|]. cbn [latest_metrics].
  rewrite trace_bind, value_bind.
  destruct (call_run (CGetLatestMetrics (Dev_Serial d)) (GetLatestMetrics (Dev_Serial d)) w) as (-> & -> & ->).
  destruct (GetLatestMetrics (Dev_Serial d) w) as [r w1]. cbn [fst snd]. rewrite trace_bind, value_bind, value_ret.
  destruct (IH w1) as (answers & Hlen & -> & ->). exists (r :: answers). split; [by cbn; f_equal|].
  split; [cbn; by rewrite app_nil_r|]. by destruct r as [[m|]|].
Qed.

(** What an upload of devices and one of metrics start with. *)
Definition devices_sent (tr : list Call) : Prop :=
  exists r rest, tr = CList r :: rest /\
    forall ds, r = Ok ds -> ds <> [] -> exists answer rest', rest = CUploadDevices (map device_map ds) answer :: rest'.

Definition metrics_sent (tr : list Call) : Prop :=
  exists r rest, tr = CList r :: rest /\
    forall ds, r = Ok ds -> exists answers rest',
      length answers = length ds /\
      rest = zip_with (fun d a => CGetLatestMetrics (Dev_Serial d) a) ds answers ++ rest' /\
      (omap answered answers <> [] ->
       exists answer rest'', rest' = CUploadMetrics (omap answered answers) answer :: rest'').

Lemma uploadDevices_sends w : 0 < RetryAttempts config -> devices_sent (trace (uploadDevices config) w).
Proof.
  intros Hpos. unfold uploadDevices, list_devices. rewrite trace_bind.
  destruct (call_run CList ListDevices w) as (-> & -> & ->). destruct (ListDevices w) as [r w1]. cbn [fst snd].
  eexists r, _. split; [reflexivity|]. intros [|d ds] -> Hne; [done|].
  rewrite trace_bind. first_attempt.
Qed.

Lemma uploadMetrics_sends w : 0 < RetryAttempts config -> metrics_sent (trace (uploadMetrics config) w).
Proof.
  intros Hpos. unfold uploadMetrics, list_devices. rewrite trace_bind.
  destruct (call_run CList ListDevices w) as (-> & -> & ->). destruct (ListDevices w) as [r w1]. cbn [fst snd].
  eexists r, _. split; [reflexivity|]. intros [|d ds] ->; [by exists [], []|].
  rewrite trace_bind. destruct (latest_metrics_run (d :: ds) w1) as (answers & Hlen & -> & ->).
  exists answers. eexists. split; [done|]. split; [reflexivity|]. intros Hne.
  destruct (omap answered answers) as [|m ms]; [done|].
  rewrite trace_bind. first_attempt.
Qed.

(** C25: An upload cycle sends only the maps of the devices that the store listed, all of
    them and at least one, and only the maps of the metrics that the store answered for
    the devices of a listing, all of those in order and at least one; it records the time
    of an upload only after the server took it, and changes neither the token nor the
    settings. With at least one attempt configured, it does send them: when the store lists
    devices their upload is the next call, and whether that succeeds or not the devices are
    listed again, the metrics of each are asked for in order, and their upload is the next
    call if there are any. *)
Theorem uploads_justified w :
  let tr := trace (doUpload config) w in
  calls_ok upload_ok [] tr /\
  (0 < RetryAttempts config ->
   exists tr1 tr2, tr = tr1 ++ tr2 /\ devices_sent tr1 /\ metrics_sent tr2).
Proof.
  split; [apply doUpload_allowed|]. intros Hpos.
  exists (trace (uploadDevices config) w), (trace (uploadMetrics config) (final (uploadDevices config) w)).
  split; [|by split; [apply uploadDevices_sends | apply uploadMetrics_sends]].
  unfold doUpload. rewrite !trace_bind. f_equal. apply app_nil_r.
Qed.

End Properties.

(** ** Runs *)

(** An agent whose world is its token: the server answers heartbeats and joins as
    given, and the token file holds a join token. *)
Definition agent_world (hb : result string HeartbeatResponse) (join : result string JoinResponse)
    (joinToken : string) : @WorkerEnv string :=
  {| GetToken w := (w, w); SetToken t _ := (tt, t); Getenv _ w := ("", w);
     PostHeartbeat _ w := (hb, w); PostJoin _ w := (join, w); MarkSecretUsed w := (None, w);
     WriteServerToken _ w := (None, w); LoadServerJoinToken w := (joinToken, w);
     ManagerVersion w := ("", w); HandleSettings _ w := (tt, w); WebSocketConnected w := (false, w);
     WebSocketHeartbeat _ _ w := (None, w); ListDevices w := (Ok [], w);
     GetLatestMetrics _ w := (Ok None, w); PostDevices _ w := (Ok tt, w); PostMetrics _ w := (Ok tt, w);
     Timer _ w := (true, w); Stamp _ w := (tt, w) |}.

(** A printer with its metrics, and what the server is sent of them. *)
Definition demo_device : Device :=
  {| Dev_Serial := "S1"; Dev_IP := "10.0.0.1"; Dev_Manufacturer := "HP"; Dev_Model := "M1"; Dev_Hostname := ""; Dev_Firmware := "";
     Dev_MACAddress := ""; Dev_SubnetMask := ""; Dev_Gateway := ""; Dev_Consumables := []; Dev_StatusMessages := [];
     Dev_LastSeen := 5; Dev_CreatedAt := 1; Dev_FirstSeen := 1; Dev_DiscoveryMethod := "snmp"; Dev_AssetNumber := "";
     Dev_Location := ""; Dev_Description := ""; Dev_WebUIURL := ""; Dev_RawData := None; Dev_DeviceType := "network";
     Dev_SourceType := "snmp"; Dev_IsUSB := false; Dev_InitialPageCount := 100; Dev_PortName := ""; Dev_DriverName := "";
     Dev_IsDefault := false; Dev_IsShared := false; Dev_SpoolerStatus := ""; Dev_UsbWebUIAvailable := false;
     DNSServers := []; DHCPServer := ""; IsSaved := true; Visible := true; WalkFilename := ""; LastScanID := 0;
     LockedFields := [] |}.

Definition demo_metrics : MetricsSnapshot :=
  {| Met_ID := 1; Met_Serial := "S1"; Met_Timestamp := 5; Met_PageCount := 1200; Met_ColorPages := 200; Met_MonoPages := 1000;
     Met_ScanCount := 3; Met_TonerLevels := None; Met_PaperTrays := []; Met_FaxPages := 7; Met_CopyPages := 0;
     Met_OtherPages := 0; Met_CopyMonoPages := 0; Met_CopyFlatbedScans := 0; Met_CopyADFScans := 0; Met_FaxFlatbedScans := 0;
     Met_FaxADFScans := 0; Met_ScanToHostFlatbed := 0; Met_ScanToHostADF := 0; Met_DuplexSheets := 0; Met_JamEvents := 0;
     Met_ScannerJamEvents := 0; Met_Tier := "raw" |}.

(** A store with one printer. *)
Definition printer_world : @WorkerEnv string :=
  {| GetToken w := (w, w); SetToken t _ := (tt, t); Getenv _ w := ("", w); PostHeartbeat _ w := (Err "", w);
     PostJoin _ w := (Err "", w); MarkSecretUsed w := (None, w); WriteServerToken _ w := (None, w);
     LoadServerJoinToken w := ("", w); ManagerVersion w := ("", w); HandleSettings _ w := (tt, w);
     WebSocketConnected w := (false, w); WebSocketHeartbeat _ _ w := (None, w); ListDevices w := (Ok [demo_device], w);
     GetLatestMetrics _ w := (Ok (Some demo_metrics), w); PostDevices _ w := (Err "timeout", w);
     PostMetrics _ w := (Ok tt, w); Timer _ w := (false, w); Stamp _ w := (tt, w) |}.

Definition three_attempts : UploadWorkerConfig :=
  {| HeartbeatInterval := 60; UploadInterval := 300; RetryAttempts := 3; RetryBackoff := 2; UseWebSocket := false |}.

(** The devices fail and the worker is stopped while it waits: the metrics are sent. *)
Example upload_run :
  trace (@doUpload _ printer_world three_attempts) "" =
    [CList (Ok [demo_device]); CUploadDevices [device_map demo_device] (Err "timeout"); CWait 2 false;
     CList (Ok [demo_device]); CGetLatestMetrics "S1" (Ok (Some demo_metrics));
     CUploadMetrics [metrics_map demo_metrics] (Ok tt); CStamp "lastMetricsUpload"].
Proof. vm_compute. reflexivity. Qed.

Lemma uploads_justified_witness :
  exists tr1 tr2, trace (@doUpload _ printer_world three_attempts) "" = tr1 ++ tr2 /\ devices_sent tr1 /\ metrics_sent tr2.
Proof. apply (proj2 (@uploads_justified _ printer_world three_attempts "")). reflexivity. Defined.

(** The initial page count of a device and its fax counter are not sent. *)
Example not_uploaded :
  fget "initial_page_count" (device_map demo_device) = None /\ fget "fax_pages" (metrics_map demo_metrics) = None.
Proof. split; reflexivity. Qed.

(** A heartbeat that does not arrive makes the agent forget a token that may be good. *)
Lemma transient_error_forgets_token :
  let m := @ensureRegistered _ (agent_world (Err "connection refused") (Err "connection refused") "") true in
  final m "good token" = "" /\ is_Some (value m "good token").
Proof. cbv zeta. split; [vm_compute; reflexivity | by vm_compute; eexists]. Qed.

(** A join that succeeds without an agent token is taken for a registration. *)
Lemma registered_without_token :
  let resp := {| Join_Success := true; TenantID := "t"; AgentToken := ""; Join_Message := "" |} in
  let m := @ensureRegistered _ (agent_world (Err "") (Ok resp) "join") true in
  value m "" = None /\ final m "" = "".
Proof. cbv zeta. split; vm_compute; reflexivity. Qed.

(** A negative number of attempts makes none, and the error has no cause. *)
Lemma negative_attempts base w :
  value (retryWithBackoff (-1) base (fun w : string => (Ok tt, ([CStamp "x"], w)))
           (fun _ w => (true, ([], w)))) w = Err "failed after -1 attempts: %!w(<nil>)".
Proof. reflexivity. Qed.
