(* ===== verification/Hub.v ===== *)
(** * The WebSocket hub ([common/ws/hub.go]) and its user interface connections
    ([handleUIWebSocket] of [server/main.go]).

    The hub goroutine, the callers and the connections are steps on one state. The
    channels [register] and [unregister] are unbuffered: a call blocks until the
    goroutine receives it, so the callers that wait are part of the state. The
    mutex protects the map from readers; only the goroutine touches it here. *)
From S2P Require Import Prelude GoChan.

Section Hub.
Context {Message : Type}.

(** ** State *)

Record Hub := {
  clients : gmap string nat;
  register : list (string * nat);
  unregister : list string;
  broadcast : list Message;
  shutdown : bool;
  running : bool;
  chans : heap Message;
}.

Definition NewHub (h : heap Message) : Hub :=
  {| clients := ∅; register := []; unregister := []; broadcast := [];
     shutdown := false; running := true; chans := h |}.

Definition broadcast_cap : nat := 100.

(** ** The calls *)

Definition Register (id : string) (ch : nat) (s : Hub) : Hub :=
  {| clients := clients s; register := register s ++ [(id, ch)]; unregister := unregister s;
     broadcast := broadcast s; shutdown := shutdown s; running := running s;
     chans := chans s |}.

Definition Unregister (id : string) (s : Hub) : Hub :=
  {| clients := clients s; register := register s; unregister := unregister s ++ [id];
     broadcast := broadcast s; shutdown := shutdown s; running := running s;
     chans := chans s |}.

Definition Broadcast (msg : Message) (s : Hub) : Hub :=
  if (length (broadcast s) <? broadcast_cap)%nat then
    {| clients := clients s; register := register s; unregister := unregister s;
       broadcast := broadcast s ++ [msg]; shutdown := shutdown s; running := running s;
       chans := chans s |}
  else s.

Definition Stop (s : Hub) : result string Hub :=
  if shutdown s then Err "close of closed channel"
  else Ok {| clients := clients s; register := register s; unregister := unregister s;
             broadcast := broadcast s; shutdown := true; running := running s;
             chans := chans s |}.

(** ** The goroutine *)

(** The cases of its [select]. *)
Inductive branch := OnRegister | OnUnregister | OnBroadcast | OnShutdown.

Definition after_register (id : string) (ch : nat) (waiting : list (string * nat)) (s : Hub) : Hub :=
  {| clients := <[id := ch]> (clients s); register := waiting; unregister := unregister s;
     broadcast := broadcast s; shutdown := shutdown s; running := running s;
     chans := chans s |}.

Definition after_unregister (id : string) (waiting : list string) (s : Hub) : result string Hub :=
  match clients s !! id with
  | Some ch =>
      (h <-? close_chan ch (chans s);;
       Ok {| clients := delete id (clients s); register := register s; unregister := waiting;
             broadcast := broadcast s; shutdown := shutdown s; running := running s;
             chans := h |})%go
  | None => Ok {| clients := clients s; register := register s; unregister := waiting;
                  broadcast := broadcast s; shutdown := shutdown s; running := running s;
                  chans := chans s |}
  end.

(** [order] is the order in which [range] visits the map. *)
Definition after_broadcast (msg : Message) (rest : list Message) (order : list nat)
    (s : Hub) : result string Hub :=
  (h <-? send_all msg order (chans s);;
   Ok {| clients := clients s; register := register s; unregister := unregister s;
         broadcast := rest; shutdown := shutdown s; running := running s; chans := h |})%go.

Definition after_shutdown (order : list nat) (s : Hub) : result string Hub :=
  (h <-? close_all order (chans s);;
   Ok {| clients := ∅; register := register s; unregister := unregister s;
         broadcast := broadcast s; shutdown := shutdown s; running := false; chans := h |})%go.

Definition client_chans (s : Hub) : list nat := (map_to_list (clients s)).*2.

(** One turn of [run]: any case that is ready may be taken. *)
Inductive run : branch -> Hub -> result string Hub -> Prop :=
| run_register s l1 id ch l2 :
    running s = true -> register s = l1 ++ (id, ch) :: l2 ->
    run OnRegister s (Ok (after_register id ch (l1 ++ l2) s))
| run_unregister s l1 id l2 :
    running s = true -> unregister s = l1 ++ id :: l2 ->
    run OnUnregister s (after_unregister id (l1 ++ l2) s)
| run_broadcast s msg rest order :
    running s = true -> broadcast s = msg :: rest -> order ≡ₚ client_chans s ->
    run OnBroadcast s (after_broadcast msg rest order s)
| run_shutdown s order :
    running s = true -> shutdown s = true -> order ≡ₚ client_chans s ->
    run OnShutdown s (after_shutdown order s).

(** ** The connections *)

Definition set_chans (h : heap Message) (s : Hub) : Hub :=
  {| clients := clients s; register := register s; unregister := unregister s;
     broadcast := broadcast s; shutdown := shutdown s; running := running s; chans := h |}.

(** [handleUIWebSocket] makes a channel for 20 messages and registers it. *)
Definition connect (id : string) (s : Hub) : Hub :=
  let '(ch, h) := make_chan 20 (chans s) in Register id ch (set_chans h s).

Inductive step : Hub -> Hub -> Prop :=
| step_connect id s : step s (connect id s)
| step_disconnect id s : step s (Unregister id s)
| step_broadcast msg s : step s (Broadcast msg s)
| step_stop s s' : Stop s = Ok s' -> step s s'
| step_receive ch c c' s :
    chans s !! ch = Some c -> recv c c' -> step s (set_chans (<[ch := c']> (chans s)) s)
| step_run b s s' : run b s (Ok s') -> step s s'.

Inductive reachable : Hub -> Prop :=
| reach_new : reachable (NewHub [])
| reach_step s s' : reachable s -> step s s' -> reachable s'.

(** ** The invariant *)

(** Every registered channel is open and registered once, the ones that wait to be
    registered too; the queue and the buffers respect their capacities; a hub that
    has ended has no clients. *)
Record hub_ok (s : Hub) : Prop := {
  ok_open id ch : clients s !! id = Some ch -> is_open (chans s) ch;
  ok_inj id id' ch : clients s !! id = Some ch -> clients s !! id' = Some ch -> id = id';
  ok_nodup : NoDup (register s).*2;
  ok_waiting ch : ch ∈ (register s).*2 ->
    is_open (chans s) ch /\ forall id, clients s !! id <> Some ch;
  ok_queue : (length (broadcast s) <= broadcast_cap)%nat;
  ok_buffers : Forall chan_ok (chans s);
  ok_ended : running s = false -> clients s = ∅ /\ shutdown s = true;
}.

Lemma client_chans_elem s ch : ch ∈ client_chans s <-> exists id, clients s !! id = Some ch.
Proof.
  unfold client_chans. rewrite list_elem_of_fmap. split.
  - intros ([id ch'] & -> & Hin). exists id. by apply elem_of_map_to_list in Hin.
  - intros [id Hid]. exists (id, ch). split; [done|]. by apply elem_of_map_to_list.
Qed.

Lemma client_chans_NoDup s : hub_ok s -> NoDup (client_chans s).
Proof.
  intros Hok. apply NoDup_fmap_2_strong; [|apply NoDup_map_to_list].
  intros [i c] [j d] Hi%elem_of_map_to_list Hj%elem_of_map_to_list Heq. simpl in Heq. subst d.
  by rewrite (ok_inj s Hok i j c Hi Hj).
Qed.

(** The channels of the clients, in any order. *)
Lemma client_order_ok s order :
  hub_ok s -> order ≡ₚ client_chans s -> NoDup order /\ Forall (is_open (chans s)) order.
Proof.
  intros Hok Hp. split; [rewrite Hp; by apply client_chans_NoDup|].
  rewrite Hp. apply Forall_forall. intros ch [id Hid]%client_chans_elem. by eapply ok_open.
Qed.

(** *** Each step keeps it *)

Lemma NewHub_ok : hub_ok (NewHub []).
Proof.
  constructor; simpl; try done.
  - constructor.
  - intros ch []%not_elem_of_nil.
  - unfold broadcast_cap. lia.
Qed.

Lemma Unregister_ok id s : hub_ok s -> hub_ok (Unregister id s).
Proof. by intros []. Qed.

Lemma Broadcast_ok msg s : hub_ok s -> hub_ok (Broadcast msg s).
Proof.
  intros Hok. unfold Broadcast. destruct (_ <? _)%nat eqn:Hlt; [|done].
  apply Nat.ltb_lt in Hlt. destruct Hok. constructor; try done.
  simpl. rewrite length_app. simpl. lia.
Qed.

Lemma Stop_hub_ok s s' : Stop s = Ok s' -> hub_ok s -> hub_ok s'.
Proof.
  unfold Stop. destruct (shutdown s) eqn:Hs; [done|]. intros [= <-] Hok.
  destruct Hok. constructor; try done. simpl. intros Hr. by destruct (ok_ended0 Hr).
Qed.

Lemma connect_ok id s : hub_ok s -> hub_ok (connect id s).
Proof.
  intros Hok. unfold connect, make_chan. simpl.
  assert (Hlt : forall ch, is_open (chans s) ch -> ch <> length (chans s)).
  { intros ch ?%is_open_lt. lia. }
  constructor; simpl.
  - intros i ch Hi. by eapply is_open_app, ok_open.
  - by apply ok_inj.
  - rewrite fmap_app. apply NoDup_app. split_and!; [by apply ok_nodup | |apply NoDup_singleton].
    intros ch Hch ->%list_elem_of_singleton. destruct (ok_waiting s Hok _ Hch) as [Ho _].
    by apply Hlt in Ho.
  - intros ch. rewrite fmap_app, elem_of_app. intros [Hch| ->%list_elem_of_singleton].
    + destruct (ok_waiting s Hok _ Hch). split; [by apply is_open_app | done].
    + split.
      * exists (Chan [] 20 0 false). split; [|done]. simpl.
        by rewrite lookup_app_r, Nat.sub_diag by lia.
      * intros i Hi. by apply (Hlt _ (ok_open s Hok _ _ Hi)).
  - by apply ok_queue.
  - apply Forall_app. split; [by apply ok_buffers|]. repeat constructor.
  - by apply ok_ended.
Qed.

Lemma receive_ok ch c c' s :
  chans s !! ch = Some c -> recv c c' -> hub_ok s -> hub_ok (set_chans (<[ch := c']> (chans s)) s).
Proof.
  intros Hc Hr Hok. pose proof (recv_keeps_closed _ _ Hr) as Hcl.
  constructor; simpl; try (by destruct Hok).
  - intros id x Hx. apply (is_open_same _ _ _ c); [done | done |]. by eapply ok_open.
  - intros x Hx. destruct (ok_waiting s Hok _ Hx) as [Ho Hn]. split; [|done].
    by apply (is_open_same _ _ _ c).
  - apply Forall_insert; [by apply ok_buffers|]. eapply recv_ok; [done|].
    pose proof (ok_buffers s Hok) as Hb. rewrite Forall_lookup in Hb. by eapply Hb.
Qed.

Lemma after_register_ok s l1 id ch l2 :
  running s = true -> register s = l1 ++ (id, ch) :: l2 ->
  hub_ok s -> hub_ok (after_register id ch (l1 ++ l2) s).
Proof.
  intros Hrun Hreg Hok.
  assert (Hch : ch ∈ (register s).*2).
  { rewrite Hreg, fmap_app. apply elem_of_app. right. left. }
  pose proof (ok_nodup s Hok) as Hnd. rewrite Hreg, fmap_app in Hnd. simpl in Hnd.
  rewrite <- Permutation_middle in Hnd. apply NoDup_cons in Hnd as [Hni Hnd].
  rewrite <- fmap_app in Hni, Hnd.
  destruct (ok_waiting s Hok _ Hch) as [Ho Hn]. constructor; simpl.
  - intros i x [[<- <-]|[_ Hi]]%lookup_insert_Some; [done|]. by eapply ok_open.
  - intros i j x Hi Hj. apply lookup_insert_Some in Hi as [[<- <-]|[Hi Hi']];
      apply lookup_insert_Some in Hj as [[? ?]|[Hj Hj']]; subst; try done.
    + by destruct (Hn j).
    + by destruct (Hn i).
    + by eapply ok_inj.
  - done.
  - intros x Hx. assert (Hx' : x ∈ (register s).*2).
    { rewrite Hreg. rewrite !fmap_app, elem_of_app in *. simpl. rewrite elem_of_cons. tauto. }
    destruct (ok_waiting s Hok _ Hx') as [Hox Hnx]. split; [done|].
    intros i [[<- ->]|[_ Hi]]%lookup_insert_Some; [done | by apply (Hnx i)].
  - by apply ok_queue.
  - by apply ok_buffers.
  - intros Hr. by rewrite Hr in Hrun.
Qed.

Lemma after_unregister_ok s id l :
  running s = true -> hub_ok s ->
  exists s', after_unregister id l s = Ok s' /\ hub_ok s' /\
    clients s' = delete id (clients s) /\
    (forall ch, clients s !! id = Some ch ->
       exists c, chans s !! ch = Some c /\ chans s' !! ch = Some (shut c)).
Proof.
  intros Hrun Hok. unfold after_unregister. destruct (clients s !! id) as [ch|] eqn:Hid.
  2: { eexists. split; [done|]. split_and!; [|simpl; by rewrite delete_id|done].
       destruct Hok. by constructor. }
  destruct (close_chan_open (chans s) ch) as (c & Hc & ->); [by eapply ok_open|]. simpl.
  pose proof (lookup_lt_Some _ _ _ Hc) as Hlt.
  eexists. split; [done|]. split_and!; [|done|].
  2: { intros ch' [= <-]. exists c. split; [done|]. simpl. by apply list_lookup_insert_eq. }
  constructor; simpl; try (by destruct Hok).
  - intros i x [Hne Hi]%lookup_delete_Some. apply is_open_insert_ne; [|by eapply ok_open].
    intros ->. apply Hne. by eapply ok_inj.
  - intros i j x [_ Hi]%lookup_delete_Some [_ Hj]%lookup_delete_Some. by eapply ok_inj.
  - intros x Hx. destruct (ok_waiting s Hok _ Hx) as [Ho Hn]. split.
    + apply is_open_insert_ne; [|done]. intros ->. by apply (Hn id).
    + intros i [_ Hi]%lookup_delete_Some. by apply (Hn i).
  - apply Forall_insert; [by apply ok_buffers|].
    pose proof (ok_buffers s Hok) as Hb. rewrite Forall_lookup in Hb. exact (Hb ch c Hc).
  - intros Hr. by rewrite Hr in Hrun.
Qed.

(** What one client's channel looks like after a broadcast. *)
Definition offered (msg : Message) (s s' : Hub) : Prop :=
  forall id ch, clients s !! id = Some ch ->
    exists c, chans s !! ch = Some c /\ chans s' !! ch = Some (offer msg c).

Lemma after_broadcast_ok s msg rest order :
  running s = true -> broadcast s = msg :: rest -> order ≡ₚ client_chans s -> hub_ok s ->
  exists s', after_broadcast msg rest order s = Ok s' /\ hub_ok s' /\
    broadcast s' = rest /\ clients s' = clients s /\ offered msg s s'.
Proof.
  intros Hrun Hb Hp Hok. destruct (client_order_ok s order Hok Hp) as [Hnd Hop].
  destruct (send_all_spec msg order (chans s) Hnd Hop) as (h & Hs & Hlen & Hout & Hin).
  unfold after_broadcast. rewrite Hs. simpl. eexists. split; [done|].
  assert (Hopen : forall ch, is_open (chans s) ch -> is_open h ch).
  { intros ch (c & Hc & Hcl). destruct (decide (ch ∈ order)) as [Ho|Ho].
    - exists (offer msg c). split; [by apply Hin | by rewrite offer_closed].
    - exists c. by rewrite Hout. }
  split_and!; [|done|done|].
  - constructor; simpl; try (by destruct Hok).
    + intros id ch Hid. by eapply Hopen, ok_open.
    + intros ch Hch. destruct (ok_waiting s Hok ch Hch). split; [by apply Hopen | done].
    + pose proof (ok_queue s Hok) as Hq. rewrite Hb in Hq. simpl in Hq. lia.
    + eapply pointwise_Forall; [exact Hlen | exact Hout | exact Hin | | by apply ok_buffers].
      intros c. apply offer_ok.
  - intros id ch Hid. destruct (ok_open s Hok id ch Hid) as (c & Hc & _). exists c.
    split; [done|]. apply Hin; [|done]. rewrite Hp. apply client_chans_elem. by exists id.
Qed.

Lemma after_shutdown_ok s order :
  shutdown s = true -> order ≡ₚ client_chans s -> hub_ok s ->
  exists s', after_shutdown order s = Ok s' /\ hub_ok s' /\ clients s' = ∅ /\
    (forall id ch, clients s !! id = Some ch -> ~ is_open (chans s') ch).
Proof.
  intros Hsd Hp Hok. destruct (client_order_ok s order Hok Hp) as [Hnd Hop].
  destruct (close_all_spec order (chans s) Hnd Hop) as (h & Hs & Hlen & Hout & Hin).
  unfold after_shutdown. rewrite Hs. simpl. eexists. split; [done|]. split_and!; [|done|].
  - constructor; simpl; try (by destruct Hok); try done.
    + intros ch Hch. destruct (ok_waiting s Hok ch Hch) as [(c & Hc & Hcl) Hn].
      split; [|done]. exists c. split; [|done]. rewrite Hout; [done|].
      rewrite Hp. intros [id Hid]%client_chans_elem. by apply (Hn id).
    + eapply pointwise_Forall; [exact Hlen | exact Hout | exact Hin | | by apply ok_buffers].
      by intros c.
  - intros id ch Hid (c' & Hc' & Hcl). destruct (ok_open s Hok id ch Hid) as (c & Hc & _).
    simpl in Hc'. rewrite (Hin ch c) in Hc'; [|rewrite Hp; apply client_chans_elem; by exists id | done].
    by injection Hc' as <-.
Qed.

(** A turn of the goroutine does not panic. *)
Lemma hub_run_ok b s r : run b s r -> hub_ok s -> exists s', r = Ok s' /\ hub_ok s'.
Proof.
  intros Hr Hok.
  destruct Hr as [s l1 id ch l2 Hrun Hreg|s l1 id l2 Hrun Hun|s msg rest order Hrun Hb Hp|s order Hrun Hsd Hp].
  - eexists. split; [done|]. by eapply after_register_ok.
  - destruct (after_unregister_ok s id (l1 ++ l2) Hrun Hok) as (s' & -> & Hs' & _). by exists s'.
  - destruct (after_broadcast_ok s msg rest order Hrun Hb Hp Hok) as (s' & -> & Hs' & _). by exists s'.
  - destruct (after_shutdown_ok s order Hsd Hp Hok) as (s' & -> & Hs' & _). by exists s'.
Qed.

Lemma hub_step_ok s s' : step s s' -> hub_ok s -> hub_ok s'.
Proof.
  intros Hs Hok. destruct Hs as [id s|id s|msg s|s s' Hst|ch c c' s Hc Hr|b s s' Hr].
  - by apply connect_ok.
  - by apply Unregister_ok.
  - by apply Broadcast_ok.
  - by eapply Stop_hub_ok.
  - by eapply receive_ok.
  - destruct (hub_run_ok b s _ Hr Hok) as (s1 & [= <-] & Hok'). done.
Qed.

Lemma reachable_hub_ok s : reachable s -> hub_ok s.
Proof. induction 1; [apply NewHub_ok | by eapply hub_step_ok]. Qed.

(** ** Executions *)

(** A schedule of the goroutine, the callers and the connections, which may also
    pause. *)
Definition execution (e : nat -> Hub) : Prop :=
  e O = NewHub [] /\ forall n, step (e n) (e (S n)) \/ e (S n) = e n.

(** The goroutine takes a message from the queue in the [k]-th step. *)
Definition served (e : nat -> Hub) (k : nat) : Prop := run OnBroadcast (e k) (Ok (e (S k))).

(** The [select] does not pass over a message that waits for ever. *)
Definition fair (e : nat -> Hub) : Prop :=
  forall n, broadcast (e n) <> [] -> exists k, (n <= k)%nat /\ (served e k \/ running (e k) = false).

Lemma execution_reachable e n : execution e -> reachable (e n).
Proof.
  intros [H0 Hs]. induction n as [|n IH]; [rewrite H0; apply reach_new|].
  destruct (Hs n) as [Hst| ->]; [by eapply reach_step | done].
Qed.

Lemma execution_ok e n : execution e -> hub_ok (e n).
Proof. intros He. by apply reachable_hub_ok, execution_reachable. Qed.

(** Only the goroutine shortens the queue, from its head. *)
Lemma step_queue s s' :
  hub_ok s -> step s s' ->
  run OnBroadcast s (Ok s') \/ exists extra, broadcast s' = broadcast s ++ extra.
Proof.
  intros Hok Hs. assert (Hnil : broadcast s' = broadcast s -> exists extra, broadcast s' = broadcast s ++ extra).
  { intros ->. exists []. by rewrite app_nil_r. }
  destruct Hs as [id s|id s|msg s|s s' Hst|ch c c' s Hc Hr|b s s' Hr]; try (right; by apply Hnil).
  - right. unfold Broadcast. destruct (_ <? _)%nat; [by exists [msg] | exists []; by rewrite app_nil_r].
  - right. apply Hnil. unfold Stop in Hst. destruct (shutdown s); [done|]. by injection Hst as <-.
  - remember (Ok s') as r eqn:He.
    destruct Hr as [s l1 id ch l2 Hrun Hreg|s l1 id l2 Hrun Hun|s msg rest order Hrun Hb Hp|s order Hrun Hsd Hp].
    + right. apply Hnil. by injection He as <-.
    + right. apply Hnil. unfold after_unregister in He.
      destruct (clients s !! id); [|by injection He as <-].
      by apply rbind_Ok_inv in He as (h & _ & [= <-]).
    + left. by apply run_broadcast.
    + right. apply Hnil. by apply rbind_Ok_inv in He as (h & _ & [= <-]).
Qed.

Lemma broadcast_inv s r :
  run OnBroadcast s r ->
  exists msg rest order, running s = true /\ broadcast s = msg :: rest /\
    order ≡ₚ client_chans s /\ after_broadcast msg rest order s = r.
Proof.
  remember OnBroadcast as b eqn:Hb. intros Hr.
  destruct Hr as [| |s msg rest order Hrun Hq Hp|]; try done. by exists msg, rest, order.
Qed.

Lemma served_spec e k m :
  execution e -> served e k -> head (broadcast (e k)) = Some m ->
  broadcast (e (S k)) = tail (broadcast (e k)) /\ offered m (e k) (e (S k)).
Proof.
  intros He Hk Hm. apply broadcast_inv in Hk as (msg & rest & order & Hrun & Hb & Hp & Heq).
  destruct (after_broadcast_ok _ _ _ _ Hrun Hb Hp (execution_ok e k He)) as (s' & Hs' & _ & Hq & _ & Hoff).
  rewrite Heq in Hs'. injection Hs' as <-. rewrite Hb in Hm |- *. by injection Hm as ->.
Qed.

(** A message keeps its place in the queue until the next message is served. *)
Lemma queue_until_served e d n i m :
  execution e -> broadcast (e n) !! i = Some m ->
  served e (d + n) \/ running (e (d + n)%nat) = false ->
  exists k, (n <= k)%nat /\
    (running (e k) = false \/ served e k /\ broadcast (e k) !! i = Some m).
Proof.
  intros He. revert n. induction d as [|d IH]; intros n Hm Hd.
  { exists n. split; [done|]. destruct Hd as [Hd|Hd]; [by right | by left]. }
  assert (Hnext : broadcast (e (S n)) !! i = Some m \/ served e n).
  { destruct (proj2 He n) as [Hst| ->]; [|by left].
    destruct (step_queue _ _ (execution_ok e n He) Hst) as [?|[extra ->]]; [by right|].
    left. by apply lookup_app_l_Some. }
  destruct Hnext as [Hnext|Hsv]; [|by exists n; auto].
  destruct (IH (S n) Hnext) as (k & Hk & HR).
  { replace (d + S n)%nat with (S d + n)%nat by lia. done. }
  exists k. split; [lia | done].
Qed.

(** ** Properties *)

(** C22: in every reachable state the hub goroutine can take any of the cases that
    are ready without a panic, and afterwards every registered channel is open, no
    buffer is over its capacity and the queue is within its bound; a client that is
    unregistered has its channel closed. *)
Theorem hub_never_panics s b r :
  reachable s -> run b s r ->
  exists s', r = Ok s' /\
    (forall id ch, clients s' !! id = Some ch -> is_open (chans s') ch) /\
    Forall chan_ok (chans s') /\ (length (broadcast s') <= broadcast_cap)%nat /\
    (forall id ch, clients s !! id = Some ch -> clients s' !! id = None ->
       ~ is_open (chans s') ch).
Proof.
  intros Hre%reachable_hub_ok Hr. destruct (hub_run_ok b s r Hr Hre) as (s' & Hs' & Hok).
  exists s'. split_and!; [done | by intros; eapply ok_open | by apply ok_buffers | by apply ok_queue|].
  intros id ch Hid Hgone.
  destruct Hr as [s l1 i c l2 Hrun Hreg|s l1 i l2 Hrun Hun|s msg rest order Hrun Hb Hp|s order Hrun Hsd Hp].
  - injection Hs' as <-. simpl in Hgone. apply lookup_insert_None in Hgone as [Hgone _].
    by rewrite Hid in Hgone.
  - destruct (after_unregister_ok s i (l1 ++ l2) Hrun Hre) as (s1 & Hs1 & _ & Hcl & Hshut).
    rewrite Hs' in Hs1. injection Hs1 as <-. rewrite Hcl in Hgone.
    apply lookup_delete_None in Hgone as [<-|Hgone]; [|by rewrite Hid in Hgone].
    destruct (Hshut ch Hid) as (c & _ & Hc). intros (c' & Hc' & Ho). rewrite Hc in Hc'.
    by injection Hc' as <-.
  - destruct (after_broadcast_ok s msg rest order Hrun Hb Hp Hre) as (s1 & Hs1 & _ & _ & Hcl & _).
    rewrite Hs' in Hs1. injection Hs1 as <-. by rewrite Hcl, Hid in Hgone.
  - destruct (after_shutdown_ok s order Hsd Hp Hre) as (s1 & Hs1 & _ & _ & Hcl).
    rewrite Hs' in Hs1. injection Hs1 as <-. by eapply Hcl.
Qed.

(** C23: under a fair schedule every message that gets into the queue is either served
    or the hub ends first: when it is served it is offered to every client that is
    registered then, so each of them has it in its buffer unless that was full. *)
Theorem broadcast_delivered e n i m :
  execution e -> fair e -> broadcast (e n) !! i = Some m ->
  exists k, (n <= k)%nat /\
    (running (e k) = false \/
     head (broadcast (e k)) = Some m /\ offered m (e k) (e (S k))).
Proof.
  intros He Hf. revert n. induction i as [|i IH]; intros n Hm.
  all: destruct (Hf n) as (k0 & Hk0 & Hsv); [by intros Hnil; rewrite Hnil in Hm|].
  all: destruct (queue_until_served e (k0 - n) n _ m He Hm) as (k & Hk & Hq);
    [by replace (k0 - n + n)%nat with k0 by lia|].
  all: destruct Hq as [Hend|[Hs Hq]]; [by exists k; auto|].
  - assert (Hhd : head (broadcast (e k)) = Some m).
    { destruct (broadcast (e k)); [done | exact Hq]. }
    exists k. split; [done|]. right. split; [done|]. by apply served_spec.
  - destruct (broadcast (e k)) as [|m0 q] eqn:Hb; [done|]. simpl in Hq.
    destruct (served_spec e k m0 He Hs) as [Htl _]; [by rewrite Hb|].
    destruct (IH (S k)) as (k' & Hk' & HR); [by rewrite Htl, Hb|].
    exists k'. split; [lia | done].
Qed.

(** A call that comes after the end of the hub waits for ever: a handler whose
    deferred [Unregister] runs after [Stop] never returns. *)
Lemma calls_block_after_stop s s' :
  step s s' -> running s = false ->
  running s' = false /\ register s `prefix_of` register s' /\ unregister s `prefix_of` unregister s'.
Proof.
  intros Hs Hr. destruct Hs as [id s|id s|msg s|s s' Hst|ch c c' s Hc Hrc|b s s' Hrun]; simpl.
  - split_and!; [done | by apply prefix_app_r | done].
  - split_and!; [done | done | by apply prefix_app_r].
  - unfold Broadcast. by destruct (_ <? _)%nat.
  - unfold Stop in Hst. destruct (shutdown s); [done|]. by injection Hst as <-.
  - done.
  - inversion Hrun; congruence.
Qed.

(** [Stop] of a stopped hub panics. *)
Lemma Stop_twice s s' : Stop s = Ok s' -> Stop s' = Err "close of closed channel".
Proof. unfold Stop. destruct (shutdown s); [done|]. by intros [= <-]. Qed.

End Hub.

Arguments Hub : clear implicits.

(** ** Runs *)

(** One client connects, a message is broadcast and delivered. *)
Definition delivery_run (n : nat) : Hub string :=
  match n with
  | 0%nat => NewHub []
  | 1%nat => connect "ui-1" (NewHub [])
  | 2%nat => after_register "ui-1" 0%nat [] (connect "ui-1" (NewHub []))
  | 3%nat => Broadcast "alert" (after_register "ui-1" 0%nat [] (connect "ui-1" (NewHub [])))
  | _ => {| clients := {[ "ui-1" := 0%nat ]}; register := []; unregister := []; broadcast := [];
            shutdown := false; running := true; chans := [Chan ["alert"] 20 0 false] |}
  end.

Lemma delivery_serves : served delivery_run 3.
Proof.
  change (run OnBroadcast (delivery_run 3)
            (after_broadcast "alert" [] [0%nat] (delivery_run 3))).
  by apply run_broadcast.
Qed.

Lemma delivery_execution : execution delivery_run.
Proof.
  split; [done|]. intros [|[|[|[|n]]]]; [left..|by right].
  - apply (step_connect "ui-1").
  - apply (step_run OnRegister). exact (run_register (connect "ui-1" (NewHub [])) [] "ui-1" 0%nat [] eq_refl eq_refl).
  - apply (step_broadcast "alert").
  - apply (step_run OnBroadcast), delivery_serves.
Qed.

Lemma delivery_fair : fair delivery_run.
Proof.
  intros [|[|[|[|n]]]] Hq; try done. exists 3%nat. split; [done|]. left. apply delivery_serves.
Qed.

Lemma hub_never_panics_witness :
  exists s' : Hub string,
    after_broadcast "alert" [] [0%nat] (delivery_run 3) = Ok s' /\
    (forall id ch, clients s' !! id = Some ch -> is_open (chans s') ch) /\
    Forall chan_ok (chans s') /\ (length (broadcast s') <= broadcast_cap)%nat /\
    (forall id ch, clients (delivery_run 3) !! id = Some ch -> clients s' !! id = None ->
       ~ is_open (chans s') ch).
Proof.
  apply (hub_never_panics (delivery_run 3) OnBroadcast); [|by apply run_broadcast].
  apply (execution_reachable delivery_run 3), delivery_execution.
Defined.

Lemma broadcast_delivered_witness :
  exists k, (3 <= k)%nat /\
    (running (delivery_run k) = false \/
     head (broadcast (delivery_run k)) = Some "alert" /\
     offered "alert" (delivery_run k) (delivery_run (S k))).
Proof.
  apply (broadcast_delivered delivery_run 3 0 "alert" delivery_execution delivery_fair).
  reflexivity.
Defined.

(** Two connections in the same clock tick have the same identifier. The second takes
    the place of the first, whose channel stays open when it disconnects; that
    disconnection closes the channel of the second, and the hub forgets it. *)
Definition collision : Hub string :=
  connect "ui-1" (after_register "ui-1" 0%nat [] (connect "ui-1" (NewHub []))).

Lemma collision_reachable :
  reachable (Unregister "ui-1" (after_register "ui-1" 1%nat [] collision)).
Proof.
  eapply reach_step; [|apply step_disconnect].
  eapply reach_step; [|apply (step_run OnRegister); exact (run_register collision [] "ui-1" 1%nat [] eq_refl eq_refl)].
  eapply reach_step; [|apply step_connect].
  apply (execution_reachable delivery_run 2), delivery_execution.
Qed.

Lemma id_collision :
  exists s s' : Hub string, reachable s /\ run OnUnregister s (Ok s') /\
    clients s' = ∅ /\ is_open (chans s') 0 /\ ~ is_open (chans s') 1.
Proof.
  exists (Unregister "ui-1" (after_register "ui-1" 1%nat [] collision)). eexists.
  split; [apply collision_reachable|]. split.
  { exact (run_unregister (Unregister "ui-1" (after_register "ui-1" 1%nat [] collision))
             [] "ui-1" [] eq_refl eq_refl). }
  split_and!; [vm_compute; reflexivity | by eexists | intros (c & Hc & Ho)].
  vm_compute in Hc. injection Hc as <-. done.
Qed.
