(* ===== verification/AgentMessages.v ===== *)
(** * What the server does with the messages of an agent ([server/websocket.go]):
    heartbeats, progress and deletions. The messages that answer proxied requests are
    steps of AgentSockets. *)
From S2P Require Import Prelude GoStrings GoTime GoFloat Effects Programs AuditLog FleetCalls AgentsApi.
#[local] Open Scope string_scope.

(** ** Messages *)

Section Messages.
(** [fmt.Sprintf("%v", v)] of a value that is not a text. *)
Context `{GoUnicode} (print_v : field -> string).

Definition wsStringField (m : Message) (key : string) : string :=
  match fget key (msg_data m) with
  | None | Some FNull => ""
  | Some (FStr s) => TrimSpace s
  | Some v => TrimSpace (print_v v)
  end.

(** What follows a message: the next one, or the panic of writing to the nil map of a
    message without data, which ends the connection. *)
Inductive outcome := Continue | Panics.

Definition reply_to (conn : nat) (type : string) (data : option fields) : M outcome :=
  now ← ask Clock;
  _ ← ask (WriteRaw conn {| Msg_Type := type; Msg_Data := data; Msg_Timestamp := now |});
  mret Continue.

Definition sendWSError (conn : nat) (errorMsg : string) : M outcome :=
  reply_to conn "error" (Some [("message", FStr errorMsg)]).

Definition heartbeat_data (m : Message) : HeartbeatData :=
  let status := wsStringField m "status" in
  {| hb_Status := if String.eqb status "" then "active" else status; hb_Version := wsStringField m "version";
     hb_ProtocolVersion := wsStringField m "protocol_version"; hb_Hostname := wsStringField m "hostname";
     hb_IP := wsStringField m "ip"; hb_Platform := wsStringField m "platform"; hb_OSVersion := wsStringField m "os_version";
     hb_GoVersion := wsStringField m "go_version"; hb_Architecture := wsStringField m "architecture";
     hb_BuildType := wsStringField m "build_type"; hb_GitCommit := wsStringField m "git_commit";
     hb_DeviceCount := get_num "device_count" (msg_data m) |}.

Definition handleWSHeartbeat (conn : nat) (agentID : string) (m : Message) : M outcome :=
  let h := heartbeat_data m in
  err ← record_heartbeat h agentID;
  match err with
  | Some _ => sendWSError conn "Failed to process heartbeat"
  | None => reply_to conn "pong" None
  end.

(** [handleWSUpdateProgress] and [handleWSJobProgress] *)
Definition handleWSProgress (event agentID : string) (m : Message) : M outcome :=
  match Msg_Data m with
  | None => mret Panics
  | Some data => _ ← ask (Broadcast event (fset "agent_id" (FStr agentID) data)); mret Continue
  end.

Definition handleWSDeviceDeleted (agentID : string) (m : Message) : M outcome :=
  let serial := get_str "serial" (msg_data m) in
  if String.eqb serial "" then mret Continue
  else
    _ ← ask (DeleteDevice serial false);
    _ ← ask (Broadcast "device_deleted"
               [("serial", FStr serial); ("agent_id", FStr agentID); ("source", FStr "agent")]);
    mret Continue.

(** The messages that do not answer a request. *)
Definition handleMessage (conn : nat) (agentID : string) (m : Message) : M outcome :=
  let type := Msg_Type m in
  if String.eqb type "heartbeat" then handleWSHeartbeat conn agentID m
  else if mem_str type ["proxy_response"; "proxy_stream_chunk"; "proxy_stream_end"] then mret Continue
  else if String.eqb type "update_progress" then handleWSProgress "update_progress" agentID m
  else if String.eqb type "job_progress" then handleWSProgress "job_progress" agentID m
  else if String.eqb type "device_deleted" then handleWSDeviceDeleted agentID m
  else sendWSError conn "Unknown message type".

(** A text that is not a message is answered with an error. *)
Definition handleText (conn : nat) (agentID : string) (parsed : option Message) : M outcome :=
  match parsed with
  | None => sendWSError conn "Invalid message format"
  | Some m => handleMessage conn agentID m
  end.
End Messages.

(** ** Whom a message concerns *)

(** What a message of the agent [a] may do: update the record of the agent, answer on its
    connection, announce something of the agent, and delete any device. *)
Definition by_agent (a : string) (conn : nat) (h : list (event fop)) (e : event fop) : Prop :=
  match e with
  | Did o _ =>
      match o with
      | UpdateAgentInfo x => Agent_ID x = a
      | UpdateAgentHeartbeat id _ => id = a
      | WriteRaw c _ => c = conn
      | Broadcast _ data => fget "agent_id" data = Some (FStr a)
      | DeleteDevice _ metrics => metrics = false
      | Clock => True
      | _ => False
      end
  end.

(** The messages of an agent change the record of that agent only, and are answered and
    announced under its name. *)
Theorem messages_by_agent `{GoUnicode} print_v conn a parsed h :
  wp (by_agent a conn) h (handleText print_v conn a parsed) (fun _ _ => True).
Proof.
  assert (Hreply : forall h type data, wp (by_agent a conn) h (reply_to conn type data) (fun _ _ => True)).
  { intros h' type data. unfold reply_to. apply wp_ask_bind; [done|]. intros now. by apply wp_ask_bind. }
  destruct parsed as [m|]; cbn [handleText]; [|apply Hreply]. unfold handleMessage.
  destruct (String.eqb _ _); [|destruct (mem_str _ _); [done|]].
  - unfold handleWSHeartbeat. eapply wp_seq with (R := fun _ _ => True); [|intros h' [e|] _ _; apply Hreply].
    unfold record_heartbeat. destruct (has_metadata _) eqn:Hm; [|by apply wp_ask].
    apply wp_ask_bind; [done|]. intros now. unfold BuildAgentUpdate. rewrite Hm. by apply wp_ask.
  - assert (Hprogress : forall event h, wp (by_agent a conn) h (handleWSProgress event a m) (fun _ _ => True)).
    { intros event h'. unfold handleWSProgress. destruct (Msg_Data m) as [data|]; [|done].
      apply wp_ask_bind; [intros []; cbn; apply fget_fset | done]. }
    destruct (String.eqb _ _); [apply Hprogress|]. destruct (String.eqb _ _); [apply Hprogress|].
    destruct (String.eqb _ _); [|apply Hreply]. unfold handleWSDeviceDeleted. destruct (String.eqb _ _); [done|].
    apply wp_ask_bind; [done|]. intros b. by apply wp_ask_bind.
Qed.

(** A progress message without data ends the connection. *)
Example progress_without_data conn a :
  handleMessage (fun _ => "") conn a {| Msg_Type := "job_progress"; Msg_Data := None; Msg_Timestamp := 0 |} = mret Panics.
Proof. reflexivity. Qed.

(** The device of a deletion is not compared with the agent. *)
Example any_device_deleted conn a :
  exists k, handleMessage (fun _ => "") conn a {| Msg_Type := "device_deleted"; Msg_Data := Some [("serial", FStr "S2")]; Msg_Timestamp := 0 |}
  = Do (DeleteDevice "S2" false) k.
Proof. eexists. reflexivity. Qed.
