(* ===== verification/AgentSockets.v ===== *)
(** * The connections of agents and the proxied requests that wait for them
    ([server/websocket.go]), as one state and the steps of its goroutines.

    A connection has the goroutine that reads it, which runs [handleAgentWebSocket] from the
    upgrade to its deferred function, and the one that pings it. A proxied request has the
    goroutine of its HTTP handler. Both share the tables [wsConnections] and [proxyRequests]
    and the channels of the requests. What happens under a lock is one step. *)
From S2P Require Import Prelude GoStrings GoTime GoChan AuditLog FleetCalls.

(** ** State *)

(** Where the reader of a connection is. *)
Inductive phase :=
| Upgraded
| Reading
(** A message for the channel of a request; [final] waits for room, up to five seconds. *)
| Passing (ch : nat) (m : Message) (final : bool)
| Leaving
| Cleaned
| Gone.

Record socket := { so_agent : string; so_open : bool; so_pinging : bool; so_phase : phase }.

(** The goroutine that marks an agent offline: asleep, past its look at the connections, done. *)
Inductive debounce := Asleep (agent : string) | Marking (agent : string) | Over.

Record Connections := {
  wsConnections : gmap string nat;
  sockets : list socket;
  wsPingFailures : gmap string Z;
  wsDisconnectEvents : gmap string Z;
  debounces : list debounce;
}.

(** Where the handler of a request is: registered, waiting for messages, in its deferred
    function, past the lock, done. *)
Inductive stage := Registered | Waiting | Ending | Unregistered | Ended.

Record pending := {
  pd_id : string;
  pd_agent : string;
  pd_chan : nat;
  pd_stream : bool;
  pd_stage : stage;
  pd_socket : option nat;
  pd_received : list Message;
}.

Record Requests := { proxyRequests : gmap string nat; chans : heap Message; handlers : list pending }.

Record Server := { conns : Connections; reqs : Requests }.

(** ** Connections *)

Definition with_phase (p : phase) (k : socket) : socket :=
  {| so_agent := so_agent k; so_open := so_open k; so_pinging := so_pinging k; so_phase := p |}.
Definition closed (k : socket) : socket :=
  {| so_agent := so_agent k; so_open := false; so_pinging := so_pinging k; so_phase := so_phase k |}.
Definition silent (k : socket) : socket :=
  {| so_agent := so_agent k; so_open := so_open k; so_pinging := false; so_phase := so_phase k |}.
Definition started (k : socket) : socket :=
  {| so_agent := so_agent k; so_open := so_open k; so_pinging := true; so_phase := Reading |}.

Definition on_socket (f : socket -> socket) (c : nat) (t : Connections) : Connections :=
  {| wsConnections := wsConnections t; sockets := alter f c (sockets t); wsPingFailures := wsPingFailures t;
     wsDisconnectEvents := wsDisconnectEvents t; debounces := debounces t |}.
Definition set_table (m : gmap string nat) (t : Connections) : Connections :=
  {| wsConnections := m; sockets := sockets t; wsPingFailures := wsPingFailures t;
     wsDisconnectEvents := wsDisconnectEvents t; debounces := debounces t |}.

Definition bump (a : string) (m : gmap string Z) : gmap string Z := <[a := wrap64 (default 0 (m !! a) + 1)]> m.

Definition upgrade (a : string) (t : Connections) : Connections :=
  {| wsConnections := wsConnections t;
     sockets := sockets t ++ [{| so_agent := a; so_open := true; so_pinging := false; so_phase := Upgraded |}];
     wsPingFailures := wsPingFailures t; wsDisconnectEvents := wsDisconnectEvents t; debounces := debounces t |}.

(** The new connection takes the place of one that is still there. *)
Definition register (c : nat) (a : string) (t : Connections) : Connections :=
  let t := match wsConnections t !! a with Some old => on_socket closed old t | None => t end in
  on_socket started c (set_table (<[a := c]> (wsConnections t)) t).

(** A ping that fails. *)
Definition ping_failed (c : nat) (a : string) (t : Connections) : Connections :=
  let t := on_socket (fun k => silent (closed k)) c t in
  {| wsConnections := wsConnections t; sockets := sockets t; wsPingFailures := bump a (wsPingFailures t);
     wsDisconnectEvents := wsDisconnectEvents t; debounces := debounces t |}.

(** The deferred function, under its lock: only the connection of the table leaves it. *)
Definition cleanup (c : nat) (a : string) (t : Connections) : Connections :=
  let t := if decide (wsConnections t !! a = Some c)
           then {| wsConnections := delete a (wsConnections t); sockets := sockets t; wsPingFailures := wsPingFailures t;
                   wsDisconnectEvents := bump a (wsDisconnectEvents t); debounces := debounces t ++ [Asleep a] |}
           else t in
  on_socket (with_phase Cleaned) c t.

Definition isAgentConnected (a : string) (t : Connections) : bool := bool_decide (is_Some (wsConnections t !! a)).

Definition set_debounce (i : nat) (d : debounce) (t : Connections) : Connections :=
  {| wsConnections := wsConnections t; sockets := sockets t; wsPingFailures := wsPingFailures t;
     wsDisconnectEvents := wsDisconnectEvents t; debounces := <[i := d]> (debounces t) |}.

Definition closeAgentWebSocket (a : string) (t : Connections) : Connections :=
  match wsConnections t !! a with
  | Some c => set_table (delete a (wsConnections t)) (on_socket closed c t)
  | None => t
  end.

Definition cleanupAgentDiagnostics (a : string) (t : Connections) : Connections :=
  {| wsConnections := wsConnections t; sockets := sockets t; wsPingFailures := delete a (wsPingFailures t);
     wsDisconnectEvents := delete a (wsDisconnectEvents t); debounces := debounces t |}.

Definition GetConnectionCount (t : Connections) : nat := size (wsConnections t).

(** ** Requests *)

Definition with_stage (g : stage) (k : pending) : pending :=
  {| pd_id := pd_id k; pd_agent := pd_agent k; pd_chan := pd_chan k; pd_stream := pd_stream k; pd_stage := g;
     pd_socket := pd_socket k; pd_received := pd_received k |}.
Definition sent_to (c : nat) (g : stage) (k : pending) : pending :=
  {| pd_id := pd_id k; pd_agent := pd_agent k; pd_chan := pd_chan k; pd_stream := pd_stream k; pd_stage := g;
     pd_socket := Some c; pd_received := pd_received k |}.
Definition got (m : Message) (g : stage) (k : pending) : pending :=
  {| pd_id := pd_id k; pd_agent := pd_agent k; pd_chan := pd_chan k; pd_stream := pd_stream k; pd_stage := g;
     pd_socket := pd_socket k; pd_received := pd_received k ++ [m] |}.

Definition on_handler (f : pending -> pending) (i : nat) (q : Requests) : Requests :=
  {| proxyRequests := proxyRequests q; chans := chans q; handlers := alter f i (handlers q) |}.
Definition set_chans (h : heap Message) (q : Requests) : Requests :=
  {| proxyRequests := proxyRequests q; chans := h; handlers := handlers q |}.
Definition forget (id : string) (q : Requests) : Requests :=
  {| proxyRequests := delete id (proxyRequests q); chans := chans q; handlers := handlers q |}.

(** A handler makes its channel and registers it under its identifier. *)
Definition begin_request (id a : string) (stream : bool) (q : Requests) : Requests :=
  let '(ch, h) := make_chan (if stream then 100%nat else 1%nat) (chans q) in
  {| proxyRequests := <[id := ch]> (proxyRequests q); chans := h;
     handlers := handlers q ++ [{| pd_id := id; pd_agent := a; pd_chan := ch; pd_stream := stream; pd_stage := Registered;
                                   pd_socket := None; pd_received := [] |}] |}.

(** ** Messages of agents *)

Definition request_of (m : Message) : option string :=
  match fget "request_id" (msg_data m) with Some (FStr id) => Some id | _ => None end.

Definition stream_end_message (id : string) : Message :=
  {| Msg_Type := "proxy_stream_end"; Msg_Data := Some [("request_id", FStr id); ("stream_end", FBool true)];
     Msg_Timestamp := zero_time |}.

(** [handleWSProxyResponse], [handleWSProxyStreamChunk] and [handleWSProxyStreamEnd] up to the
    send: the new table and what is to be sent. The send itself is the step [send], which
    drops a chunk for which the channel has no room. The other messages leave the tables
    alone. *)
Definition proxy_message (m : Message) (q : Requests) : Requests * phase :=
  match request_of m with
  | None => (q, Reading)
  | Some id =>
      match proxyRequests q !! id with
      | None => (q, Reading)
      | Some ch =>
          if String.eqb (Msg_Type m) "proxy_response" then (forget id q, Passing ch m true)
          else if String.eqb (Msg_Type m) "proxy_stream_chunk" then (q, Passing ch m false)
          else if String.eqb (Msg_Type m) "proxy_stream_end" then (forget id q, Passing ch (stream_end_message id) true)
          else (q, Reading)
      end
  end.

(** The panic of [handleWSUpdateProgress] and [handleWSJobProgress], which write the
    identifier of the agent into the data of the message without looking whether there is
    a map. *)
Definition progress_panics (m : Message) : bool :=
  (String.eqb (Msg_Type m) "update_progress" || String.eqb (Msg_Type m) "job_progress")
  && match Msg_Data m with None => true | Some _ => false end.

(** ** Steps *)

Inductive label :=
| Upgrade (a : string)
| Register (c : nat)
| PingFails (c : nat)
| PingStops (c : nat)
| ReadMessage (c : nat) (m : Message)
| ReadFails (c : nat)
| Send (c : nat)
| GiveUp (c : nat)
| Cleanup (c : nat)
| CloseSocket (c : nat)
| Wake (i : nat)
| MarkOffline (i : nat)
| DeleteAgentSocket (a : string)
| ForgetDiagnostics (a : string)
| Begin (id a : string) (stream : bool)
| Dispatch (i : nat) (written : bool)
| Receive (i : nat)
| Expire (i : nat)
| Unregister (i : nat)
| CloseChannel (i : nat).

Definition set_conns (t : Connections) (s : Server) : Server := {| conns := t; reqs := reqs s |}.
Definition set_reqs (q : Requests) (s : Server) : Server := {| conns := conns s; reqs := q |}.
Definition move (c : nat) (p : phase) (s : Server) : Server := set_conns (on_socket (with_phase p) c (conns s)) s.
Definition advance (i : nat) (g : stage) (s : Server) : Server := set_reqs (on_handler (with_stage g) i (reqs s)) s.

(** The send of the reader: [None] while it is blocked. *)
Definition send (c ch : nat) (m : Message) (final : bool) (s : Server) : option (result string Server) :=
  match chans (reqs s) !! ch with
  | None => None
  | Some k =>
      if chan_closed k then Some (Err "send on closed channel")
      else if room k then Some (Ok (move c Reading (set_reqs (set_chans (<[ch := push m k]> (chans (reqs s))) (reqs s)) s)))
      else if final then None
      else Some (Ok (move c Reading s))
  end.

(** A message read by the handler: the end of a stream or a whole response ends it. *)
Definition next_stage (k : pending) (m : Message) : stage :=
  if pd_stream k && negb (String.eqb (Msg_Type m) "proxy_stream_end" || String.eqb (Msg_Type m) "proxy_response")
  then Waiting else Ending.

Definition receive (i : nat) (k : pending) (s : Server) : option (result string Server) :=
  match chans (reqs s) !! pd_chan k with
  | Some ch =>
      match buf ch with
      | m :: ms =>
          let h := <[pd_chan k := Chan ms (capacity ch) (receivers ch) (chan_closed ch)]> (chans (reqs s)) in
          Some (Ok (set_reqs (on_handler (got m (next_stage k m)) i (set_chans h (reqs s))) s))
      | [] => None
      end
  | None => None
  end.

(** [sendProxyRequest]: the connection of the table, and whether the write succeeds. *)
Definition dispatch (i : nat) (k : pending) (written : bool) (s : Server) : Server :=
  match wsConnections (conns s) !! pd_agent k with
  | None => advance i Ending s
  | Some c => set_reqs (on_handler (sent_to c (if written then Waiting else Ending)) i (reqs s)) s
  end.

Definition close_channel (i : nat) (k : pending) (s : Server) : result string Server :=
  if pd_stream k then Ok (advance i Ended s)
  else match close_chan (pd_chan k) (chans (reqs s)) with
       | Err e => Err e
       | Ok h => Ok (advance i Ended (set_reqs (set_chans h (reqs s)) s))
       end.

(** A step of a reader or of a handler in a given phase. *)
Definition socket_step (l : label) (c : nat) (k : socket) (s : Server) : option (result string Server) :=
  let a := so_agent k in
  match l, so_phase k with
  | Register _, Upgraded => Some (Ok (set_conns (register c a (conns s)) s))
  | ReadMessage _ m, Reading =>
      if progress_panics m then Some (Err "assignment to entry in nil map")
      else let '(q, p) := proxy_message m (reqs s) in Some (Ok (move c p (set_reqs q s)))
  | ReadFails _, Reading => Some (Ok (move c Leaving s))
  | Send _, Passing ch m final => send c ch m final s
  | GiveUp _, Passing ch m true => Some (Ok (move c Reading s))
  | Cleanup _, Leaving => Some (Ok (set_conns (cleanup c a (conns s)) s))
  | CloseSocket _, Cleaned => Some (Ok (set_conns (on_socket (fun k => with_phase Gone (closed k)) c (conns s)) s))
  | PingFails _, _ => if so_pinging k then Some (Ok (set_conns (ping_failed c a (conns s)) s)) else None
  | PingStops _, (Leaving | Cleaned | Gone) =>
      if so_pinging k then Some (Ok (set_conns (on_socket silent c (conns s)) s)) else None
  | _, _ => None
  end.

Definition handler_step (l : label) (i : nat) (k : pending) (s : Server) : option (result string Server) :=
  match l, pd_stage k with
  | Dispatch _ written, Registered => Some (Ok (dispatch i k written s))
  | Receive _, Waiting => receive i k s
  | Expire _, Waiting => Some (Ok (advance i Ending s))
  | Unregister _, Ending => Some (Ok (advance i Unregistered (set_reqs (forget (pd_id k) (reqs s)) s)))
  | CloseChannel _, Unregistered => Some (close_channel i k s)
  | _, _ => None
  end.

(** [None]: the step cannot be taken now; [Err]: it panics. *)
Definition act (l : label) (s : Server) : option (result string Server) :=
  match l with
  | Upgrade a => Some (Ok (set_conns (upgrade a (conns s)) s))
  | Wake i =>
      match debounces (conns s) !! i with
      | Some (Asleep a) =>
          Some (Ok (set_conns (set_debounce i (if isAgentConnected a (conns s) then Over else Marking a) (conns s)) s))
      | _ => None
      end
  | MarkOffline i =>
      match debounces (conns s) !! i with
      | Some (Marking a) => Some (Ok (set_conns (set_debounce i Over (conns s)) s))
      | _ => None
      end
  | DeleteAgentSocket a => Some (Ok (set_conns (closeAgentWebSocket a (conns s)) s))
  | ForgetDiagnostics a => Some (Ok (set_conns (cleanupAgentDiagnostics a (conns s)) s))
  | Begin id a stream => Some (Ok (set_reqs (begin_request id a stream (reqs s)) s))
  | Register c | PingFails c | PingStops c | ReadMessage c _ | ReadFails c | Send c | GiveUp c | Cleanup c | CloseSocket c =>
      k ← sockets (conns s) !! c; socket_step l c k s
  | Dispatch i _ | Receive i | Expire i | Unregister i | CloseChannel i =>
      k ← handlers (reqs s) !! i; handler_step l i k s
  end.

Definition start : Server :=
  {| conns := {| wsConnections := ∅; sockets := []; wsPingFailures := ∅; wsDisconnectEvents := ∅; debounces := [] |};
     reqs := {| proxyRequests := ∅; chans := []; handlers := [] |} |}.

(** The reader that takes a step. *)
Definition reader_of (l : label) : option nat :=
  match l with ReadMessage c _ | Send c => Some c | _ => None end.

(** [net/http] recovers a panic of the reader, whose deferred function then runs. *)
Inductive reachable : Server -> Prop :=
| reach_start : reachable start
| reach_act l s s' : reachable s -> act l s = Some (Ok s') -> reachable s'
| reach_panic l c s e :
    reachable s -> act l s = Some (Err e) -> reader_of l = Some c -> reachable (move c Leaving s).

(** A run of steps, until one panics. *)
Fixpoint run (ls : list label) (s : Server) : option (result string Server) :=
  match ls with
  | [] => Some (Ok s)
  | l :: ls' =>
      r ← act l s;
      match r with Ok s' => run ls' s' | Err e => Some (Err e) end
  end.

Lemma run_reaches ls s s' : reachable s -> run ls s = Some (Ok s') -> reachable s'.
Proof.
  revert s. induction ls as [|l ls IH]; intros s Hs Hr; [by injection Hr as <-|]. cbn in Hr.
  destruct (act l s) as [[s1|e]|] eqn:Ha; cbn in Hr; [|done|done]. apply (IH s1); [|done]. by eapply reach_act.
Qed.
