(* ===== verification/AgentSocketsSafe.v ===== *)
(** * What holds of the connections of agents and of the requests that wait for them. *)
From S2P Require Import Prelude GoStrings GoTime GoFloat GoChan Effects Programs AuditLog FleetCalls AgentsApi AgentMessages AgentSockets.

(** ** Connections *)

(** The reader of the connection will still run its deferred function. *)
Definition serving (p : phase) : bool :=
  match p with Reading | Passing _ _ _ | Leaving => true | _ => false end.

Record conns_ok (t : Connections) : Prop := {
  co_live a c : wsConnections t !! a = Some c ->
    exists k, sockets t !! c = Some k /\ so_agent k = a /\ serving (so_phase k) = true;
  co_open c k : sockets t !! c = Some k -> so_open k = true -> serving (so_phase k) = true ->
    wsConnections t !! so_agent k = Some c;
}.

Lemma on_socket_lookup f c t i :
  sockets (on_socket f c t) !! i = if decide (i = c) then f <$> sockets t !! c else sockets t !! i.
Proof.
  cbn. case_decide as Hi; [subst; apply list_lookup_alter_eq | by apply list_lookup_alter_ne].
Qed.

(** A change of one connection that keeps its agent and whether it is served and open. *)
Lemma on_socket_ok f c t :
  conns_ok t ->
  (forall k, sockets t !! c = Some k -> so_agent (f k) = so_agent k /\ serving (so_phase (f k)) = serving (so_phase k)
     /\ (so_open (f k) = true -> so_open k = true)) ->
  conns_ok (on_socket f c t).
Proof.
  intros [Hl Ho] Hf. split.
  - intros a i Hi. destruct (Hl _ _ Hi) as (k & Hk & <- & Hs). rewrite on_socket_lookup. case_decide as Hc; [subst i|by eauto].
    destruct (Hf k Hk) as (Ha & Hserv & _). rewrite Hk. exists (f k). cbn. rewrite Hserv. auto.
  - intros i k'. rewrite on_socket_lookup. case_decide as Hc; [subst i|by apply Ho].
    intros (k & Hk & ->)%fmap_Some. destruct (Hf k Hk) as (Ha & Hserv & Hop). rewrite Ha, Hserv. eauto.
Qed.

(** A connection whose reader is not running goes. *)
Lemma on_socket_gone f c t k :
  conns_ok t -> sockets t !! c = Some k -> serving (so_phase k) = false -> serving (so_phase (f k)) = false ->
  conns_ok (on_socket f c t).
Proof.
  intros [Hl Ho] Hk Hs Hs'. split.
  - intros a i Hi. destruct (Hl _ _ Hi) as (k' & Hk' & Ha & Hserv). rewrite on_socket_lookup.
    case_decide as Hc; [subst i; congruence | by eauto].
  - intros i k'. rewrite on_socket_lookup. case_decide as Hc; [subst i|by apply Ho]. rewrite Hk. intros [= <-]. congruence.
Qed.

Lemma upgrade_ok a t : conns_ok t -> conns_ok (upgrade a t).
Proof.
  intros [Hl Ho]. split.
  - intros b i Hi. destruct (Hl _ _ Hi) as (k & Hk & ?). exists k. split; [by apply lookup_app_l_Some | done].
  - intros i k [Hk|[_ Hk]]%lookup_app_Some; [by apply Ho|]. apply list_lookup_singleton_Some in Hk as [_ <-]. done.
Qed.

Lemma closed_ok c t : conns_ok t -> conns_ok (on_socket closed c t).
Proof. intros Ht. apply on_socket_ok; [done|]. by intros k _. Qed.

Lemma register_ok c k t :
  conns_ok t -> sockets t !! c = Some k -> so_phase k = Upgraded -> conns_ok (register c (so_agent k) t).
Proof.
  intros [Hl Ho] Hk Hp. unfold register. set (t1 := match wsConnections t !! so_agent k with Some old => _ | None => _ end).
  assert (Ht1 : wsConnections t1 = wsConnections t /\ sockets t1 !! c = Some k
                /\ forall i x, i <> c -> sockets t1 !! i = Some x -> exists y, sockets t !! i = Some y
                     /\ so_agent x = so_agent y /\ so_phase x = so_phase y /\ (so_open x = true -> so_open y = true /\ wsConnections t !! so_agent k <> Some i)).
  { subst t1. destruct (wsConnections t !! so_agent k) as [old|] eqn:Hold; [|by naive_solver].
    assert (old <> c) by (intros ->; destruct (Hl _ _ Hold) as (k' & Hk' & _ & Hs); rewrite Hk in Hk'; injection Hk' as <-; by rewrite Hp in Hs).
    split; [done|]. split; [by rewrite on_socket_lookup, decide_False|]. intros i x Hi. rewrite on_socket_lookup.
    case_decide as Ho1; [subst i|intros Hx; exists x; naive_solver]. intros (y & Hy & ->)%fmap_Some. exists y. by naive_solver. }
  destruct Ht1 as (Hw & Hc & Hrest). split.
  - intros a i. rewrite on_socket_lookup. cbn [wsConnections on_socket set_table sockets]. rewrite Hw.
    intros [[<- <-]|[Hne Hi]]%lookup_insert_Some.
    + rewrite decide_True, Hc by done. by exists (started k).
    + destruct (Hl _ _ Hi) as (y & Hy & Ha & Hs).
      assert (i <> c) by (intros ->; rewrite Hk in Hy; injection Hy as <-; congruence).
      rewrite decide_False by done. subst t1. destruct (wsConnections t !! so_agent k) as [old|]; [|by eauto].
      rewrite on_socket_lookup. case_decide; [subst|by eauto]. rewrite Hy. by exists (closed y).
  - intros i x. rewrite on_socket_lookup. cbn [wsConnections on_socket set_table sockets]. rewrite Hw.
    case_decide as Hi; [subst i; rewrite Hc; intros [= <-] _ _; apply lookup_insert_eq|].
    intros Hx Hop Hs. destruct (Hrest _ _ Hi Hx) as (y & Hy & Ha & Hph & Hopen). rewrite Ha, Hph in *. destruct (Hopen Hop) as [Hyo Hne].
    pose proof (Ho _ _ Hy Hyo Hs) as Hin. rewrite lookup_insert_ne; [done|]. intros Heq. rewrite Heq in Hne. congruence.
Qed.

Lemma cleanup_ok c k t :
  conns_ok t -> sockets t !! c = Some k -> conns_ok (cleanup c (so_agent k) t).
Proof.
  intros [Hl Ho] Hk. unfold cleanup. case_decide as Hc.
  - split; cbn [wsConnections on_socket].
    + intros a i [Hne Hi]%lookup_delete_Some. destruct (Hl _ _ Hi) as (y & Hy & Ha & Hs). rewrite on_socket_lookup. cbn [sockets].
      rewrite decide_False by (intros ->; congruence). eauto.
    + intros i x. rewrite on_socket_lookup. cbn [sockets]. case_decide as Hi; [subst i; rewrite Hk; by intros [= <-]|].
      intros Hx Hop Hs. pose proof (Ho _ _ Hx Hop Hs) as Hin. rewrite lookup_delete_ne; [done|]. intros Heq. rewrite Heq in Hc. congruence.
  - split; cbn [wsConnections on_socket].
    + intros a i Hi. destruct (Hl _ _ Hi) as (y & Hy & Ha & Hs). rewrite on_socket_lookup.
      rewrite decide_False by (intros ->; congruence). eauto.
    + intros i x. rewrite on_socket_lookup. case_decide as Hi; [subst i; rewrite Hk; by intros [= <-] | by apply Ho].
Qed.

Lemma close_agent_ok a t : conns_ok t -> conns_ok (closeAgentWebSocket a t).
Proof.
  intros Ht. unfold closeAgentWebSocket. destruct (wsConnections t !! a) as [c|] eqn:Ha; [|done].
  destruct Ht as [Hl Ho]. split; cbn [wsConnections set_table on_socket sockets].
  - intros b i [Hne Hi]%lookup_delete_Some. destruct (Hl _ _ Hi) as (y & Hy & Hb & Hs).
    destruct (Hl _ _ Ha) as (k & Hk & Hka & _).
    exists y. split; [|done]. rewrite list_lookup_alter_ne; [done|]. intros ->. congruence.
  - intros i x. destruct (decide (i = c)) as [->|Hi].
    + rewrite list_lookup_alter_eq. by intros (y & _ & ->)%fmap_Some.
    + rewrite list_lookup_alter_ne by done. intros Hx Hop Hs. pose proof (Ho _ _ Hx Hop Hs) as Hin.
      rewrite lookup_delete_ne; [done|]. intros Heq. rewrite Heq in Ha. congruence.
Qed.

Lemma ping_failed_ok c a t : conns_ok t -> conns_ok (ping_failed c a t).
Proof.
  intros Ht. destruct (on_socket_ok (fun k => silent (closed k)) c t Ht) as [Hl Ho]; [done|]. by split.
Qed.

Lemma dispatch_conns i k w s : conns (dispatch i k w s) = conns s.
Proof. unfold dispatch. by destruct (wsConnections _ !! _). Qed.

Lemma receive_conns i k s s' : receive i k s = Some (Ok s') -> conns s' = conns s.
Proof. unfold receive. repeat case_match; by intros [= <-]. Qed.

Lemma close_channel_conns i k s s' : close_channel i k s = Ok s' -> conns s' = conns s.
Proof. unfold close_channel. repeat case_match; by intros [= <-]. Qed.

Lemma move_ok c p s k :
  sockets (conns s) !! c = Some k -> serving (so_phase k) = serving p -> conns_ok (conns s) -> conns_ok (conns (move c p s)).
Proof.
  intros Hk Hp Ht. cbn. apply on_socket_ok; [done|]. intros k' Hk'. rewrite Hk in Hk'. by injection Hk' as <-.
Qed.

Lemma socket_step_conns l c k s s' :
  sockets (conns s) !! c = Some k -> socket_step l c k s = Some (Ok s') -> conns_ok (conns s) -> conns_ok (conns s').
Proof.
  intros Hk Hact Ht. unfold socket_step in Hact.
  assert (Hmv : forall p q, serving (so_phase k) = serving p -> conns_ok (conns (move c p (set_reqs q s))))
    by (intros p q Hp; by apply (move_ok _ _ (set_reqs q s) k)).
  assert (Hmove : forall p, serving (so_phase k) = serving p -> conns_ok (conns (move c p s)))
    by (intros p Hp; by apply (move_ok _ _ s k)).
  destruct l; try discriminate Hact; destruct (so_phase k) as [| |ch msg final| | |] eqn:Hp; try discriminate Hact.
  all: try (injection Hact as <-; by apply Hmove).
  all: try (destruct (so_pinging k); [|done]; injection Hact as <-; cbn).
  all: try (by apply ping_failed_ok).
  all: try (apply (on_socket_ok silent); [done|]; intros k' Hk'; done).
  - injection Hact as <-. by apply register_ok.
  - destruct (progress_panics m); [discriminate Hact|].
    destruct (proxy_message m (reqs s)) as [q p] eqn:Hm. injection Hact as <-. apply Hmv.
    unfold proxy_message in Hm. repeat case_match; by injection Hm as <- <-.
  - unfold send in Hact. repeat case_match; try discriminate Hact; injection Hact as <-; [by apply Hmv | by apply Hmove].
  - destruct final; [|done]. injection Hact as <-. by apply Hmove.
  - injection Hact as <-. by apply cleanup_ok.
  - injection Hact as <-. apply (on_socket_gone _ _ _ k); [done|done|by rewrite Hp|done].
Qed.

Lemma act_conns_ok l s s' : act l s = Some (Ok s') -> conns_ok (conns s) -> conns_ok (conns s').
Proof.
  intros Hact Ht. destruct l; cbn [act] in Hact.
  all: try (apply bind_Some in Hact as (k & Hk & Hact)).
  all: try (by eapply socket_step_conns).
  all: try (unfold handler_step in Hact; destruct (pd_stage k); try discriminate Hact).
  all: try (injection Hact as Hact; try (rewrite <- Hact; clear Hact s')).
  all: try done.
  - by apply upgrade_ok.
  - destruct k; try discriminate Hact. injection Hact as <-. by destruct Ht; split.
  - destruct k; try discriminate Hact. injection Hact as <-. by destruct Ht; split.
  - by apply close_agent_ok.
  - by destruct Ht; split.
  - by rewrite dispatch_conns.
  - by erewrite receive_conns.
  - by erewrite close_channel_conns.
Qed.

(** The reader that panics was served: it had read a message, or was about to send one. *)
Lemma panic_serving l c s e :
  act l s = Some (Err e) -> reader_of l = Some c ->
  exists k, sockets (conns s) !! c = Some k /\ serving (so_phase k) = true.
Proof.
  destruct l; cbn [act reader_of]; try discriminate 2; intros (k & Hk & Hact)%bind_Some [= <-];
    unfold socket_step in Hact; exists k; (split; [done|]); by destruct (so_phase k).
Qed.

Lemma reachable_conns_ok s : reachable s -> conns_ok (conns s).
Proof.
  induction 1 as [|l s s' Hs IH Ha|l c s e Hs IH Ha Hl]; [|by eapply act_conns_ok|].
  - split; cbn; [|done]. intros a c Hc. by rewrite lookup_empty in Hc.
  - destruct (panic_serving _ _ _ _ Ha Hl) as (k & Hk & Hp). by apply (move_ok _ _ _ k).
Qed.

(** C20: An agent's entry among the connections is a connection of that agent that is still
    read, and the only one of the agent that is read and open; when the reader of another
    connection ends, one that was replaced for example, the entry stays. *)
Theorem connections_tracked s a c :
  reachable s -> wsConnections (conns s) !! a = Some c ->
  (exists k, sockets (conns s) !! c = Some k /\ so_agent k = a /\ serving (so_phase k) = true)
  /\ (forall c' k, sockets (conns s) !! c' = Some k -> so_agent k = a -> so_open k = true -> serving (so_phase k) = true -> c' = c)
  /\ (forall c' s', c' <> c -> act (Cleanup c') s = Some (Ok s') -> wsConnections (conns s') !! a = Some c).
Proof.
  intros Hs Hc. apply reachable_conns_ok in Hs as [Hl Ho]. split; [by apply Hl|]. split.
  - intros c' k Hk <- Hop Hserv. pose proof (Ho _ _ Hk Hop Hserv). congruence.
  - intros c' s' Hne Hact. cbn in Hact. apply bind_Some in Hact as (k & Hk & Hact). unfold socket_step in Hact.
    destruct (so_phase k); try discriminate Hact. injection Hact as <-. cbn [conns set_conns]. unfold cleanup.
    case_decide as Hd; cbn [wsConnections on_socket]; [|done]. rewrite lookup_delete_ne; [done|].
    intros Heq. rewrite Heq in Hd. congruence.
Qed.

(** ** Requests *)

(** What a reader is about to send; the requests depend on the connections only by this and
    by the agent of each connection. *)
Definition passage (k : socket) : option (nat * Message * bool) :=
  match so_phase k with Passing ch m final => Some (ch, m, final) | _ => None end.

Definition is_final (m : Message) : bool :=
  String.eqb (Msg_Type m) "proxy_stream_end" || String.eqb (Msg_Type m) "proxy_response".
Definition final_for (i : nat) (x : option (nat * Message * bool)) : nat :=
  match x with Some (ch, _, true) => if decide (ch = i) then 1 else 0 | _ => 0 end.
Definition finals (l : list Message) : nat := length (filter (fun m => is_final m = true) l).
Definition listed (i : nat) (id : string) (q : Requests) : nat :=
  if decide (proxyRequests q !! id = Some i) then 1 else 0.

Definition registered (g : stage) : bool := match g with Registered | Waiting | Ending => true | _ => false end.
Definition unanswered (g : stage) : bool := match g with Registered | Waiting => true | _ => false end.

(** The handler has closed its channel. *)
Definition over (k : pending) : bool := match pd_stage k with Ended => negb (pd_stream k) | _ => false end.

Record reqs_ok (P : list (option (nat * Message * bool))) (A : list string) (q : Requests) : Prop := {
  ro_length : length (chans q) = length (handlers q);
  ro_table id ch : proxyRequests q !! id = Some ch ->
    exists k, handlers q !! ch = Some k /\ pd_id k = id /\ registered (pd_stage k) = true;
  ro_passing c ch m final : P !! c = Some (Some (ch, m, final)) ->
    final = is_final m /\ exists k, handlers q !! ch = Some k /\ request_of m = Some (pd_id k);
  ro_handler i k : handlers q !! i = Some k ->
    pd_chan k = i
    /\ (forall c, pd_socket k = Some c -> A !! c = Some (pd_agent k))
    /\ (pd_stream k = false -> (length (pd_received k) <= if unanswered (pd_stage k) then 0 else 1)%nat)
    /\ Forall (fun m => request_of m = Some (pd_id k)) (pd_received k)
    /\ exists ch, chans q !! i = Some ch
       /\ chan_closed ch = over k
       /\ Forall (fun m => request_of m = Some (pd_id k)) (buf ch)
       /\ (listed i (pd_id k) q + sum_list_with (final_for i) P + finals (buf ch) + finals (pd_received k) <= 1)%nat;
}.

Lemma finals_app l m : finals (l ++ [m]) = (finals l + if is_final m then 1 else 0)%nat.
Proof. unfold finals. rewrite filter_app, length_app. cbn. destruct (is_final m); cbn; reflexivity. Qed.

Lemma finals_cons l m : finals (m :: l) = (finals l + if is_final m then 1 else 0)%nat.
Proof. unfold finals. rewrite filter_cons. case_decide as Hm; [|apply not_true_is_false in Hm]; rewrite Hm; cbn; lia. Qed.

(** *** Steps of the connections *)

Definition state_ok (s : Server) : Prop :=
  reqs_ok (passage <$> sockets (conns s)) (so_agent <$> sockets (conns s)) (reqs s).

Lemma fmap_alter_same {A B} (g : A -> B) f (i : nat) (l : list A) :
  (forall x, l !! i = Some x -> g (f x) = g x) -> g <$> alter f i l = g <$> l.
Proof.
  intros Hf. apply list_eq. intros j. rewrite !list_lookup_fmap. destruct (decide (i = j)) as [->|Hne].
  - rewrite list_lookup_alter_eq. destruct (l !! j) as [x|] eqn:Hx; cbn; [|done]. by rewrite Hf.
  - by rewrite list_lookup_alter_ne.
Qed.

Lemma fmap_alter_insert {A B} (g : A -> B) f (i : nat) (l : list A) x :
  l !! i = Some x -> g <$> alter f i l = <[i := g (f x)]> (g <$> l).
Proof.
  intros Hx. apply list_eq. intros j. rewrite list_lookup_fmap. destruct (decide (i = j)) as [->|Hne].
  - rewrite list_lookup_alter_eq, Hx, list_lookup_insert_eq; [done|]. rewrite length_fmap. by eapply lookup_lt_Some.
  - by rewrite list_lookup_alter_ne, list_lookup_insert_ne, list_lookup_fmap.
Qed.

(** What a step of the connections leaves to the requests. *)
Definition quiet (t t' : Connections) : Prop :=
  passage <$> sockets t' = passage <$> sockets t /\ so_agent <$> sockets t' = so_agent <$> sockets t.

Lemma quiet_refl t : quiet t t.
Proof. done. Qed.

Lemma quiet_socket f c t :
  (forall k, sockets t !! c = Some k -> passage (f k) = passage k /\ so_agent (f k) = so_agent k) -> quiet t (on_socket f c t).
Proof. intros Hf. split; apply fmap_alter_same; intros k Hk; by apply Hf. Qed.

Lemma quiet_trans t1 t2 t3 : quiet t1 t2 -> quiet t2 t3 -> quiet t1 t3.
Proof. intros [H1 H2] [H3 H4]. split; congruence. Qed.

Lemma quiet_ok t' s : quiet (conns s) t' -> state_ok s -> state_ok (set_conns t' s).
Proof. intros [Hp Ha]. unfold state_ok. cbn [conns reqs set_conns]. by rewrite Hp, Ha. Qed.

Lemma upgrade_reqs_ok a s : state_ok s -> state_ok (set_conns (upgrade a (conns s)) s).
Proof.
  unfold state_ok. cbn [conns reqs set_conns sockets upgrade]. rewrite !fmap_app. cbn. intros [Hlen Ht Hp Hh]. split; [done|done| |].
  - intros c ch m final [H|[_ H]]%lookup_app_Some; [by apply (Hp c)|]. by apply list_lookup_singleton_Some in H as [_ ?].
  - intros i k Hk. destruct (Hh i k Hk) as (Hc & Hs & Hr & Hf & ch & Hch & Hcl & Hb & Hsum).
    repeat (split; [done|]). split; [intros c Hcs; apply lookup_app_l_Some; auto|]. repeat (split; [done|]).
    exists ch. repeat (split; [done|]). rewrite sum_list_with_app. cbn. lia.
Qed.

Lemma register_quiet c k t :
  sockets t !! c = Some k -> so_phase k = Upgraded -> quiet t (register c (so_agent k) t).
Proof.
  intros Hk Hp. unfold register. set (t1 := match wsConnections t !! so_agent k with Some old => _ | None => _ end).
  assert (Hq : quiet t t1) by (subst t1; destruct (wsConnections t !! so_agent k); [apply quiet_socket; done | apply quiet_refl]).
  apply (quiet_trans _ (set_table (<[so_agent k := c]> (wsConnections t1)) t1)); [exact Hq|].
  apply quiet_socket. cbn [sockets set_table]. intros k' Hk'.
  assert (passage k' = passage k) as Heq.
  { destruct Hq as [Hq _]. apply (f_equal (.!! c)) in Hq. rewrite !list_lookup_fmap, Hk, Hk' in Hq. cbn in Hq. congruence. }
  split; [|done]. rewrite Heq. unfold passage. by rewrite Hp.
Qed.

Lemma cleanup_quiet c k t : sockets t !! c = Some k -> so_phase k = Leaving -> quiet t (cleanup c (so_agent k) t).
Proof.
  intros Hk Hp. unfold cleanup. set (t1 := if decide _ then _ else t).
  assert (Hs : sockets t1 = sockets t) by (subst t1; by case_decide).
  assert (Hq : quiet t t1) by (unfold quiet; by rewrite Hs).
  apply (quiet_trans _ t1); [exact Hq|]. apply quiet_socket. rewrite Hs, Hk. intros k' [= <-]. split; [|done].
  unfold passage. by rewrite Hp.
Qed.

Lemma close_agent_quiet a t : quiet t (closeAgentWebSocket a t).
Proof.
  unfold closeAgentWebSocket. destruct (wsConnections t !! a); [|apply quiet_refl].
  destruct (quiet_socket closed n t) as [H1 H2]; [done|]. by split.
Qed.

(** *** Messages *)

Lemma listed_forget i id id' q : (listed i id (forget id' q) <= listed i id q)%nat.
Proof. unfold listed. cbn. case_decide as H; [|lia]. apply lookup_delete_Some in H as [_ H]. by rewrite decide_True. Qed.

Lemma listed_forgotten i id q : listed i id (forget id q) = 0%nat.
Proof. unfold listed. cbn. by rewrite lookup_delete_eq. Qed.

(** A reader that sends nothing more. *)
Lemma dropped_ok P A q c x : reqs_ok P A q -> P !! c = Some x -> reqs_ok (<[c := None]> P) A q.
Proof.
  intros [Hlen Ht Hp Hh] Hx. split; [done|done| |].
  - intros c' ch m final [(_ & [=] & _)|[_ H]]%list_lookup_insert_Some. by apply (Hp c').
  - intros i k Hk. destruct (Hh i k Hk) as (Hc & Hs & Hr & Hf & ch & Hch & Hcl & Hb & Hsum).
    repeat (split; [done|]). exists ch. repeat (split; [done|]).
    pose proof (sum_insert (final_for i) P c x None Hx). cbn [final_for] in *. lia.
Qed.

(** A message is taken from the table: [q'] is [forget id q] for a final one. *)
Lemma taken_ok P A q q' c id ch m final :
  reqs_ok P A q -> P !! c = Some None -> proxyRequests q !! id = Some ch -> request_of m = Some id -> final = is_final m ->
  q' = (if final then forget id q else q) -> reqs_ok (<[c := Some (ch, m, final)]> P) A q'.
Proof.
  intros [Hlen Ht Hp Hh] Hc Hid Hm Hfin ->. destruct (Ht _ _ Hid) as (k0 & Hk0 & Hid0 & _).
  set (q' := if final then forget id q else q).
  assert (Hq : chans q' = chans q /\ handlers q' = handlers q) by (subst q'; by destruct final). destruct Hq as [Hqc Hqh].
  split; rewrite ?Hqc, ?Hqh; [done| | |].
  - intros id' ch' H. apply Ht. subst q'. destruct final; [cbn in H; by apply lookup_delete_Some in H as [_ H] | done].
  - intros c' ch' m' f' [(<- & [= <- <- <-] & _)|[_ H]]%list_lookup_insert_Some; [|by apply (Hp c')].
    split; [done|]. exists k0. by rewrite Hid0.
  - intros i k Hk. destruct (Hh i k Hk) as (Hcc & Hs & Hr & Hf & x & Hx & Hcl & Hb & Hsum).
    repeat (split; [done|]). exists x. repeat (split; [done|]).
    pose proof (sum_insert (final_for i) P c None (Some (ch, m, final)) Hc) as Hs1. cbn [final_for] in Hs1.
    subst q'. destruct final; [|lia]. destruct (decide (ch = i)) as [->|Hne].
    + rewrite Hk0 in Hk. injection Hk as <-. rewrite Hid0 in *. rewrite listed_forgotten.
      unfold listed in Hsum. rewrite decide_True in Hsum by done. lia.
    + pose proof (listed_forget i (pd_id k) id q). lia.
Qed.

Lemma request_of_end id : request_of (stream_end_message id) = Some id.
Proof. reflexivity. Qed.

Lemma message_ok P A q q' c m p :
  reqs_ok P A q -> P !! c = Some None -> proxy_message m q = (q', p) ->
  reqs_ok (<[c := match p with Passing ch m final => Some (ch, m, final) | _ => None end]> P) A q'.
Proof.
  intros Hok Hc. unfold proxy_message.
  assert (Hnone : reqs_ok (<[c := None]> P) A q) by (by apply dropped_ok with (x := None)).
  destruct (request_of m) as [id|] eqn:Hid; [|by intros [= <- <-]].
  destruct (proxyRequests q !! id) as [ch|] eqn:Hch; [|by intros [= <- <-]].
  destruct (String.eqb (Msg_Type m) "proxy_response") eqn:H1.
  { intros [= <- <-]. eapply taken_ok; try done. unfold is_final. by rewrite H1, orb_true_r. }
  destruct (String.eqb (Msg_Type m) "proxy_stream_chunk") eqn:H2.
  { intros [= <- <-]. eapply taken_ok; try done. unfold is_final. apply String.eqb_eq in H2. by rewrite H2. }
  destruct (String.eqb (Msg_Type m) "proxy_stream_end"); intros [= <- <-]; [|done].
  eapply taken_ok; try done.
Qed.

Lemma sent_ok P A q c ch m final x :
  reqs_ok P A q -> P !! c = Some (Some (ch, m, final)) -> chans q !! ch = Some x ->
  reqs_ok (<[c := None]> P) A (set_chans (<[ch := push m x]> (chans q)) q).
Proof.
  intros Hok Hc Hx. pose proof (dropped_ok _ _ _ _ _ Hok Hc) as [Hlen Ht Hp Hh].
  destruct (ro_passing _ _ _ Hok _ _ _ _ Hc) as (Hfin & k0 & Hk0 & Hm).
  split; cbn [chans handlers proxyRequests set_chans]; [by rewrite length_insert|done|done|].
  intros i k Hk. destruct (Hh i k Hk) as (Hcc & Hs & Hr & Hf & y & Hy & Hcl & Hb & Hsum).
  repeat (split; [done|]). pose proof (sum_insert (final_for i) P c _ None Hc) as Hs1. cbn [final_for] in Hs1.
  destruct (decide (ch = i)) as [<-|Hne].
  - rewrite Hx in Hy. injection Hy as <-. rewrite Hk0 in Hk. injection Hk as <-.
    exists (push m x). split; [apply list_lookup_insert_eq; by eapply lookup_lt_Some|]. split; [done|].
    split; [apply Forall_app; by split; [|apply Forall_singleton]|]. cbn [buf push]. rewrite finals_app, <- Hfin.
    destruct (ro_handler _ _ _ Hok _ _ Hk0) as (_ & _ & _ & _ & z & Hz & _ & _ & Hsum0).
    rewrite Hx in Hz. injection Hz as <-. unfold listed in *. cbn [proxyRequests set_chans]. destruct final; lia.
  - exists y. rewrite list_lookup_insert_ne by done. repeat (split; [done|]).
    unfold listed in *. cbn [proxyRequests set_chans]. lia.
Qed.

(** *** Handlers *)

Definition facts (P : list (option (nat * Message * bool))) (A : list string) (q : Requests) (i : nat) (k : pending) : Prop :=
  (forall c, pd_socket k = Some c -> A !! c = Some (pd_agent k))
  /\ (pd_stream k = false -> (length (pd_received k) <= if unanswered (pd_stage k) then 0 else 1)%nat)
  /\ Forall (fun m => request_of m = Some (pd_id k)) (pd_received k)
  /\ exists ch, chans q !! i = Some ch
     /\ chan_closed ch = over k
     /\ Forall (fun m => request_of m = Some (pd_id k)) (buf ch)
     /\ (listed i (pd_id k) q + sum_list_with (final_for i) P + finals (buf ch) + finals (pd_received k) <= 1)%nat.

Lemma handler_facts P A q i k : reqs_ok P A q -> handlers q !! i = Some k -> pd_chan k = i /\ facts P A q i k.
Proof. intros Hok Hk. exact (ro_handler _ _ _ Hok _ _ Hk). Qed.

Lemma listed_mono i id q q' : proxyRequests q' ⊆ proxyRequests q -> (listed i id q' <= listed i id q)%nat.
Proof.
  intros Hsub. unfold listed. case_decide as H; [|lia]. rewrite decide_True; [done|]. by eapply lookup_weaken.
Qed.

(** One handler changes, and its channel with it. *)
Lemma handler_ok P A q q' i k k' :
  reqs_ok P A q -> handlers q !! i = Some k -> pd_id k' = pd_id k -> pd_chan k' = pd_chan k ->
  handlers q' = <[i := k']> (handlers q) -> proxyRequests q' ⊆ proxyRequests q ->
  (proxyRequests q' !! pd_id k = Some i -> registered (pd_stage k') = true) ->
  length (chans q') = length (chans q) -> (forall j, j <> i -> chans q' !! j = chans q !! j) ->
  facts P A q' i k' -> reqs_ok P A q'.
Proof.
  intros [Hlen Ht Hp Hh] Hk Hid Hchan Hq Hsub Hreg Hl Hother Hfacts. rewrite <- Hl in Hlen. split; rewrite Hq.
  - by rewrite length_insert.
  - intros id ch Hch. destruct (Ht id ch) as (k0 & Hk0 & <- & Hr); [by eapply lookup_weaken|].
    destruct (decide (ch = i)) as [->|Hne].
    + rewrite Hk in Hk0. injection Hk0 as <-. exists k'. rewrite list_lookup_insert_eq by (by eapply lookup_lt_Some). auto.
    + exists k0. by rewrite list_lookup_insert_ne by done.
  - intros c ch m final Hc. destruct (Hp c ch m final Hc) as (Hf & k0 & Hk0 & Hm). split; [done|].
    destruct (decide (ch = i)) as [->|Hne].
    + rewrite Hk in Hk0. injection Hk0 as <-. exists k'. rewrite list_lookup_insert_eq by (by eapply lookup_lt_Some).
      by rewrite Hid.
    + exists k0. by rewrite list_lookup_insert_ne by done.
  - intros j k0 [(<- & <- & _)|[Hne Hj]]%list_lookup_insert_Some.
    + split; [|done]. rewrite Hchan. by apply Hh.
    + destruct (Hh j k0 Hj) as (Hcc & Hs & Hr & Hf & x & Hx & Hcl & Hb & Hsum).
      repeat (split; [done|]). exists x. rewrite Hother by done. repeat (split; [done|]).
      pose proof (listed_mono j (pd_id k0) q q' Hsub). lia.
Qed.

Lemma alter_lookup_insert {B} (f : B -> B) i (l : list B) x : l !! i = Some x -> alter f i l = <[i := f x]> l.
Proof. intros Hx. rewrite <- (list_fmap_id (alter f i l)), (fmap_alter_insert id f i l x Hx). by rewrite list_fmap_id. Qed.

(** Only the stage of a handler changes, or the connection it wrote to. *)
Lemma stage_ok P A q i k g f :
  reqs_ok P A q -> handlers q !! i = Some k ->
  pd_id (f k) = pd_id k -> pd_chan (f k) = pd_chan k -> pd_agent (f k) = pd_agent k -> pd_stream (f k) = pd_stream k ->
  pd_received (f k) = pd_received k -> pd_stage (f k) = g ->
  (registered (pd_stage k) = true -> registered g = true) -> (unanswered g = true -> unanswered (pd_stage k) = true) ->
  over (f k) = over k -> (forall c, pd_socket (f k) = Some c -> A !! c = Some (pd_agent k)) ->
  reqs_ok P A (on_handler f i q).
Proof.
  intros Hok Hk Hid Hchan Hag Hst Hre Hsg Hreg Hun Hov Hso.
  eapply (handler_ok P A q _ i k (f k)); try done.
  - cbn. by apply alter_lookup_insert.
  - cbn. intros Hi. rewrite Hsg. apply Hreg. destruct (ro_table _ _ _ Hok _ _ Hi) as (k0 & Hk0 & _ & Hr). congruence.
  - destruct (handler_facts _ _ _ _ _ Hok Hk) as (_ & _ & Hr & Hf & x & Hx & Hcl & Hb & Hsum).
    unfold facts. rewrite Hid, Hag, Hst, Hre, Hsg, Hov. split; [done|]. split.
    { intros Hs. specialize (Hr Hs). destruct (unanswered g); [by rewrite Hun in Hr|]. destruct (unanswered (pd_stage k)); lia. }
    split; [done|]. exists x. done.
Qed.

Lemma received_ok P A q i k ch m ms :
  reqs_ok P A q -> handlers q !! i = Some k -> pd_stage k = Waiting -> chans q !! pd_chan k = Some ch -> buf ch = m :: ms ->
  reqs_ok P A (on_handler (got m (next_stage k m)) i
    (set_chans (<[pd_chan k := Chan ms (capacity ch) (receivers ch) (chan_closed ch)]> (chans q)) q)).
Proof.
  intros Hok Hk Hst Hch Hbuf. destruct (handler_facts _ _ _ _ _ Hok Hk) as (Hc & Hso & Hr & Hf & x & Hx & Hcl & Hb & Hsum).
  rewrite Hc in *. rewrite Hch in Hx. injection Hx as <-. rewrite Hbuf in *. rewrite finals_cons in Hsum.
  apply Forall_cons in Hb as [Hm Hms].
  eapply (handler_ok P A q _ i k (got m (next_stage k m) k)); try done.
  - cbn. by apply alter_lookup_insert.
  - intros _. cbn. unfold next_stage. by destruct (pd_stream k && _).
  - cbn. by rewrite length_insert.
  - intros j Hj. cbn. by rewrite list_lookup_insert_ne.
  - split; [done|]. cbn [got pd_stream pd_received pd_stage pd_id]. split.
    { intros Hs. specialize (Hr Hs). rewrite Hst in Hr. cbn in Hr. rewrite length_app. cbn. unfold next_stage. rewrite Hs. cbn. lia. }
    split; [apply Forall_app; by split; [|apply Forall_singleton]|].
    eexists. split; [cbn; apply list_lookup_insert_eq; by eapply lookup_lt_Some|]. split.
    { cbn [chan_closed]. rewrite Hcl. unfold over, next_stage. rewrite Hst. cbn. by destruct (pd_stream k && _). }
    split; [done|]. cbn [buf]. rewrite finals_app. unfold listed in *. cbn [proxyRequests on_handler set_chans]. lia.
Qed.

Lemma unregistered_ok P A q i k :
  reqs_ok P A q -> handlers q !! i = Some k -> pd_stage k = Ending ->
  reqs_ok P A (on_handler (with_stage Unregistered) i (forget (pd_id k) q)).
Proof.
  intros Hok Hk Hst. destruct (handler_facts _ _ _ _ _ Hok Hk) as (Hc & Hso & Hr & Hf & x & Hx & Hcl & Hb & Hsum).
  eapply (handler_ok P A q _ i k (with_stage Unregistered k)); try done.
  - cbn. by apply alter_lookup_insert.
  - cbn. apply delete_subseteq.
  - cbn. by rewrite lookup_delete_eq.
  - split; [done|]. cbn [with_stage pd_stream pd_received pd_stage pd_id]. split; [by rewrite Hst in Hr|]. split; [done|].
    exists x. split; [done|]. split; [unfold over in *; by rewrite Hst in Hcl|]. split; [done|].
    pose proof (listed_forget i (pd_id k) (pd_id k) q). unfold listed in *. cbn [proxyRequests on_handler forget] in *. lia.
Qed.

Lemma closed_channel_ok P A q i k x :
  reqs_ok P A q -> handlers q !! i = Some k -> pd_stage k = Unregistered -> pd_stream k = false -> chans q !! i = Some x ->
  reqs_ok P A (on_handler (with_stage Ended) i (set_chans (<[i := shut x]> (chans q)) q)).
Proof.
  intros Hok Hk Hst Hs Hx. destruct (handler_facts _ _ _ _ _ Hok Hk) as (Hc & Hso & Hr & Hf & y & Hy & Hcl & Hb & Hsum).
  rewrite Hx in Hy. injection Hy as <-.
  eapply (handler_ok P A q _ i k (with_stage Ended k)); try done.
  - cbn. by apply alter_lookup_insert.
  - cbn. intros Hi. destruct (ro_table _ _ _ Hok _ _ Hi) as (k0 & Hk0 & _ & Hr0). rewrite Hk in Hk0. injection Hk0 as <-. by rewrite Hst in Hr0.
  - cbn. by rewrite length_insert.
  - intros j Hj. cbn. by rewrite list_lookup_insert_ne.
  - split; [done|]. cbn [with_stage pd_stream pd_received pd_stage pd_id]. split; [by rewrite Hst in Hr|]. split; [done|].
    exists (shut x). split; [cbn; apply list_lookup_insert_eq; by eapply lookup_lt_Some|].
    split; [cbn; unfold over; cbn; by rewrite Hs|]. split; [done|]. unfold listed in *. done.
Qed.

Lemma begun_ok P A q id a stream : reqs_ok P A q -> reqs_ok P A (begin_request id a stream q).
Proof.
  intros [Hlen Ht Hp Hh]. unfold begin_request, make_chan. set (n := length (chans q)).
  assert (Hn : handlers q !! n = None) by (apply lookup_ge_None; lia).
  split; cbn [chans handlers proxyRequests].
  - rewrite !length_app. cbn. lia.
  - intros id' ch [[<- <-]|[Hne Hi]]%lookup_insert_Some.
    + eexists. split; [apply list_lookup_middle; lia|]. done.
    + destruct (Ht _ _ Hi) as (k & Hk & ?). exists k. split; [by apply lookup_app_l_Some | done].
  - intros c ch m final Hc. destruct (Hp _ _ _ _ Hc) as (Hf & k & Hk & Hm). split; [done|].
    exists k. split; [by apply lookup_app_l_Some | done].
  - intros i k [Hk|[Hge Hk]]%lookup_app_Some.
    + destruct (Hh i k Hk) as (Hcc & Hs & Hr & Hf & x & Hx & Hcl & Hb & Hsum). repeat (split; [done|]).
      exists x. split; [by apply lookup_app_l_Some|]. repeat (split; [done|]).
      assert (listed i (pd_id k) {| proxyRequests := <[id:=n]> (proxyRequests q); chans := []; handlers := [] |} <= listed i (pd_id k) q)%nat as Hl.
      { unfold listed. cbn. case_decide as Hd; [|lia]. apply lookup_insert_Some in Hd as [[_ Hi]|[_ Hd]]; [|by rewrite decide_True].
        apply lookup_lt_Some in Hk. lia. }
      unfold listed in *. cbn in *. lia.
    + apply list_lookup_singleton_Some in Hk as [Hi <-]. assert (i = n) as -> by lia. cbn. repeat (split; [done || (intros; lia)|]).
      eexists. split; [apply list_lookup_middle; done|]. split; [done|]. split; [constructor|].
      assert (sum_list_with (final_for n) P = 0)%nat as ->.
      { clear - Hp Hn. induction P as [|x P IH]; [done|]. cbn. rewrite IH; [|intros c; apply (Hp (S c))].
        destruct x as [[[ch m] [|]]|]; cbn; [|done|done]. case_decide as Hd; [|done].
        destruct (Hp 0%nat ch m true eq_refl) as (_ & k & Hk & _). congruence. }
      unfold listed, finals. cbn. case_decide; lia.
Qed.

(** *** Every step keeps it *)

Lemma move_state c p s k :
  sockets (conns s) !! c = Some k -> reqs_ok (<[c := passage (with_phase p k)]> (passage <$> sockets (conns s))) (so_agent <$> sockets (conns s)) (reqs s) ->
  state_ok (move c p s).
Proof.
  intros Hk Hok. unfold state_ok. cbn [conns reqs move set_conns sockets on_socket].
  rewrite (fmap_alter_insert passage _ _ _ k Hk), (fmap_alter_same so_agent) by done. exact Hok.
Qed.

Lemma passage_lookup c k s : sockets (conns s) !! c = Some k -> (passage <$> sockets (conns s)) !! c = Some (passage k).
Proof. intros Hk. by rewrite list_lookup_fmap, Hk. Qed.

Lemma socket_step_ok l c k s s' :
  sockets (conns s) !! c = Some k -> socket_step l c k s = Some (Ok s') -> state_ok s -> state_ok s'.
Proof.
  intros Hk Hact Hok. pose proof (passage_lookup c k s Hk) as HP. unfold socket_step in Hact.
  destruct l; try discriminate Hact.
  - destruct (so_phase k) eqn:Hp; try discriminate Hact. injection Hact as <-. apply quiet_ok; [by apply register_quiet | done].
  - destruct (so_pinging k); [|discriminate Hact]. injection Hact as <-. apply quiet_ok; [|done].
    exact (quiet_socket (fun k => silent (closed k)) c (conns s) (fun k _ => conj eq_refl eq_refl)).
  - assert (Hq : quiet (conns s) (on_socket silent c (conns s))) by (by apply quiet_socket).
    destruct (so_phase k), (so_pinging k); try discriminate Hact; injection Hact as <-; by apply quiet_ok.
  - destruct (so_phase k) eqn:Hp; try discriminate Hact. destruct (progress_panics m); [discriminate Hact|].
    destruct (proxy_message m (reqs s)) as [q p] eqn:Hm. injection Hact as <-.
    apply (move_state c p (set_reqs q s) k); [done|]. unfold passage in HP at 2. rewrite Hp in HP.
    exact (message_ok _ _ _ _ _ _ _ Hok HP Hm).
  - destruct (so_phase k) eqn:Hp; try discriminate Hact. injection Hact as <-. apply (move_state c _ s k); [done|].
    by eapply dropped_ok.
  - destruct (so_phase k) as [| |ch m final| | |] eqn:Hp; try discriminate Hact. unfold passage in HP at 2. rewrite Hp in HP.
    unfold send in Hact. destruct (chans (reqs s) !! ch) as [x|] eqn:Hx; [|done]. destruct (chan_closed x); [discriminate Hact|].
    destruct (room x); [|destruct final; [discriminate Hact|]]; injection Hact as <-.
    + apply (move_state c _ (set_reqs (set_chans (<[ch:=push m x]> (chans (reqs s))) (reqs s)) s) k); [done|]. by eapply sent_ok.
    + apply (move_state c _ s k); [done|]. by eapply dropped_ok.
  - destruct (so_phase k) as [| |ch m [|]| | |] eqn:Hp; try discriminate Hact. injection Hact as <-.
    apply (move_state c _ s k); [done|]. by eapply dropped_ok.
  - destruct (so_phase k) eqn:Hp; try discriminate Hact. injection Hact as <-. apply quiet_ok; [by apply cleanup_quiet | done].
  - destruct (so_phase k) eqn:Hp; try discriminate Hact. injection Hact as <-. apply quiet_ok; [|done].
    apply quiet_socket. rewrite Hk. intros k' [= <-]. unfold passage. by rewrite Hp.
Qed.

Lemma dispatch_ok i k written s :
  conns_ok (conns s) -> state_ok s -> handlers (reqs s) !! i = Some k -> pd_stage k = Registered ->
  state_ok (dispatch i k written s).
Proof.
  intros [Hlive _] Hok Hk Hst. destruct (handler_facts _ _ _ _ _ Hok Hk) as (_ & Hso & _). unfold dispatch.
  destruct (wsConnections (conns s) !! pd_agent k) as [c|] eqn:Hc; unfold state_ok.
  - eapply (stage_ok _ _ _ i k (if written then Waiting else Ending)); try done.
    + by destruct written.
    + intros _. by rewrite Hst.
    + unfold over. rewrite Hst. by destruct written.
    + cbn. intros c' [= <-]. destruct (Hlive _ _ Hc) as (x & Hx & Ha & _). by rewrite list_lookup_fmap, Hx, <- Ha.
  - eapply (stage_ok _ _ _ i k Ending); try done. unfold over. by rewrite Hst.
Qed.

Lemma close_channel_ok i k s s' :
  state_ok s -> handlers (reqs s) !! i = Some k -> pd_stage k = Unregistered -> close_channel i k s = Ok s' -> state_ok s'.
Proof.
  intros Hok Hk Hst Hcl. destruct (handler_facts _ _ _ _ _ Hok Hk) as (Hc & Hso & _ & _ & x & Hx & Hxc & _). unfold close_channel in Hcl.
  destruct (pd_stream k) eqn:Hs.
  - injection Hcl as <-. eapply (stage_ok _ _ _ i k Ended); try done; [by rewrite Hst|]. unfold over. cbn. by rewrite Hst, Hs.
  - unfold close_chan in Hcl. rewrite Hc, Hx in Hcl. unfold over in Hxc. rewrite Hst in Hxc. rewrite Hxc in Hcl.
    injection Hcl as <-. by eapply closed_channel_ok.
Qed.

Lemma act_state_ok l s s' : conns_ok (conns s) -> act l s = Some (Ok s') -> state_ok s -> state_ok s'.
Proof.
  intros Hc Hact Hok. destruct l; cbn [act] in Hact.
  all: try (apply bind_Some in Hact as (k & Hk & Hact)).
  all: try (by eapply socket_step_ok).
  all: try (unfold handler_step in Hact; destruct (pd_stage k) eqn:Hst; try discriminate Hact).
  all: try (injection Hact as Hact; try (rewrite <- Hact; clear Hact s')).
  - by apply upgrade_reqs_ok.
  - destruct k; try discriminate Hact. injection Hact as <-. by apply quiet_ok.
  - destruct k; try discriminate Hact. injection Hact as <-. by apply quiet_ok.
  - apply quiet_ok; [apply close_agent_quiet | done].
  - by apply quiet_ok.
  - by apply begun_ok.
  - by apply dispatch_ok.
  - unfold receive in Hact. destruct (chans (reqs s) !! pd_chan k) as [ch|] eqn:Hch; [|done].
    destruct (buf ch) as [|m ms] eqn:Hb; [done|]. injection Hact as <-. by eapply received_ok.
  - eapply (stage_ok _ _ _ i k Ending); try done; [unfold over; by rewrite Hst|].
    by destruct (handler_facts _ _ _ _ _ Hok Hk) as (_ & Hso & _).
  - by apply unregistered_ok.
  - by eapply close_channel_ok.
Qed.

Lemma reachable_state_ok s : reachable s -> state_ok s.
Proof.
  induction 1 as [|l s s' Hs IH Ha|l c s e Hs IH Ha Hl]; [by split| |].
  - eapply act_state_ok; [by apply reachable_conns_ok|done|done].
  - destruct (panic_serving _ _ _ _ Ha Hl) as (k & Hk & _). apply (move_state c _ s k); [done|].
    eapply dropped_ok; [done|]. by apply passage_lookup.
Qed.

(** The panics of the message handlers of AgentMessages are those of the steps. *)
Lemma progress_panics_message `{GoUnicode} print_v conn a m :
  progress_panics m = true -> handleMessage print_v conn a m = mret Panics.
Proof.
  unfold progress_panics, handleMessage, handleWSProgress.
  intros [Htype Hdata]%andb_true_iff. destruct (Msg_Data m); [done|].
  by apply orb_true_iff in Htype as [->%String.eqb_eq | ->%String.eqb_eq].
Qed.

(** C21: What the handler of a proxied request receives is for that request: each message
    carries its identifier, at most one ends the exchange, a request that is not a stream
    receives at most one message, and the request was written to a connection of its agent.
    Only readers panic, and in two ways: with the send to a handler that has given up and
    closed its channel after the message was taken from the table, and on a progress
    message without data. *)
Theorem responses_matched s :
  reachable s ->
  (forall i k, handlers (reqs s) !! i = Some k ->
     Forall (fun m => request_of m = Some (pd_id k)) (pd_received k)
     /\ (finals (pd_received k) <= 1)%nat
     /\ (pd_stream k = false -> (length (pd_received k) <= 1)%nat)
     /\ (forall c, pd_socket k = Some c -> exists x, sockets (conns s) !! c = Some x /\ so_agent x = pd_agent k))
  /\ (forall l e, act l s = Some (Err e) ->
     (exists c x ch m final k, l = Send c /\ sockets (conns s) !! c = Some x /\ so_phase x = Passing ch m final
       /\ handlers (reqs s) !! ch = Some k /\ pd_stage k = Ended /\ pd_stream k = false)
     \/ (exists c x m, l = ReadMessage c m /\ sockets (conns s) !! c = Some x /\ so_phase x = Reading
       /\ (Msg_Type m = "update_progress" \/ Msg_Type m = "job_progress") /\ Msg_Data m = None)).
Proof.
  intros Hs. apply reachable_state_ok in Hs as Hok. split.
  - intros i k Hk. destruct (handler_facts _ _ _ _ _ Hok Hk) as (_ & Hso & Hr & Hf & x & _ & _ & _ & Hsum).
    split; [done|]. split; [lia|]. split; [intros H; specialize (Hr H); destruct (unanswered _); lia|].
    intros c Hc. by apply Hso, list_lookup_fmap_Some in Hc as (y & -> & Hy); exists y.
  - intros l e Hact. destruct l; cbn [act] in Hact; try discriminate Hact.
    all: apply bind_Some in Hact as (k & Hk & Hact).
    all: try (destruct k; discriminate Hact).
    all: unfold socket_step, handler_step in Hact.
    all: try (destruct (so_phase k) as [| |ch m' final| | |] eqn:Hp; try discriminate Hact).
    all: try (destruct (so_pinging k); discriminate Hact).
    all: try (destruct (pd_stage k) eqn:Hst; try discriminate Hact).
    + right. destruct (progress_panics m) eqn:Hpp; [|destruct (proxy_message _ _); discriminate Hact].
      exists c, k, m. apply andb_true_iff in Hpp as [Ht%orb_true_iff Hd]. rewrite !String.eqb_eq in Ht.
      split_and!; try done. by destruct (Msg_Data m).
    + left. unfold send in Hact. destruct (chans (reqs s) !! ch) as [x|] eqn:Hx; [|done].
      destruct (chan_closed x) eqn:Hcl; [|destruct (room x), final; discriminate Hact].
      pose proof (passage_lookup c k s Hk) as HP. unfold passage in HP at 2. rewrite Hp in HP.
      destruct (ro_passing _ _ _ Hok _ _ _ _ HP) as (_ & h & Hh & _). exists c, k, ch, m', final, h. repeat (split; [done|]).
      destruct (handler_facts _ _ _ _ _ Hok Hh) as (_ & _ & _ & _ & y & Hy & Hyc & _). rewrite Hx in Hy. injection Hy as <-.
      rewrite Hcl in Hyc. unfold over in Hyc. destruct (pd_stage h); try discriminate Hyc. by destruct (pd_stream h).
    + destruct final; discriminate Hact.
    + unfold receive in Hact. repeat case_match; discriminate Hact.
    + destruct (handler_facts _ _ _ _ _ Hok Hk) as (Hc & _ & _ & _ & x & Hx & Hxc & _). unfold close_channel, close_chan in Hact.
      rewrite Hc, Hx in Hact. unfold over in Hxc. rewrite Hst in Hxc. rewrite Hxc in Hact. destruct (pd_stream k); discriminate Hact.
Qed.

(** ** Runs *)

Definition response (id : string) : Message :=
  {| Msg_Type := "proxy_response"; Msg_Data := Some [("request_id", FStr id)]; Msg_Timestamp := 0 |}.

(** Agent A connects twice; a request goes to the second connection, the first one leaves, the answer arrives. *)
Definition exchange : list label :=
  [Upgrade "A"; Register 0; Upgrade "A"; Register 1; Begin "A-1" "A" false; Dispatch 0 true; ReadFails 0; Cleanup 0;
   ReadMessage 1 (response "A-1"); Send 1; Receive 0; Unregister 0; CloseChannel 0]%nat.

Definition after (ls : list label) : Server := match run ls start with Some (Ok s) => s | _ => start end.

Lemma after_reachable ls : is_Some (run ls start) -> reachable (after ls).
Proof.
  intros [r Hr]. unfold after. rewrite Hr. destruct r as [s|e]; [|apply reach_start]. by apply (run_reaches ls start); [apply reach_start|].
Qed.

Lemma connections_tracked_witness :
  let s := after exchange in
  (exists k, sockets (conns s) !! 1%nat = Some k /\ so_agent k = "A" /\ serving (so_phase k) = true)
  /\ (forall c' k, sockets (conns s) !! c' = Some k -> so_agent k = "A" -> so_open k = true -> serving (so_phase k) = true -> c' = 1%nat)
  /\ (forall c' s', c' <> 1%nat -> act (Cleanup c') s = Some (Ok s') -> wsConnections (conns s') !! "A" = Some 1%nat).
Proof.
  apply connections_tracked; [apply after_reachable; vm_compute; eauto | vm_compute; reflexivity].
Defined.

Lemma responses_matched_witness :
  let s := after exchange in
  (forall i k, handlers (reqs s) !! i = Some k ->
     Forall (fun m => request_of m = Some (pd_id k)) (pd_received k)
     /\ (finals (pd_received k) <= 1)%nat
     /\ (pd_stream k = false -> (length (pd_received k) <= 1)%nat)
     /\ (forall c, pd_socket k = Some c -> exists x, sockets (conns s) !! c = Some x /\ so_agent x = pd_agent k))
  /\ (forall l e, act l s = Some (Err e) ->
     (exists c x ch m final k, l = Send c /\ sockets (conns s) !! c = Some x /\ so_phase x = Passing ch m final
       /\ handlers (reqs s) !! ch = Some k /\ pd_stage k = Ended /\ pd_stream k = false)
     \/ (exists c x m, l = ReadMessage c m /\ sockets (conns s) !! c = Some x /\ so_phase x = Reading
       /\ (Msg_Type m = "update_progress" \/ Msg_Type m = "job_progress") /\ Msg_Data m = None)).
Proof. apply responses_matched, after_reachable. vm_compute. eauto. Defined.

(** The answer was received. *)
Example exchange_answered : (pd_received <$> handlers (reqs (after exchange))) = [[response "A-1"]].
Proof. vm_compute. reflexivity. Qed.

(** An answer that is taken from the table just before its handler times out panics the
    reader, and with it the connection of the agent. *)
Lemma late_answer_panics :
  run [Upgrade "A"; Register 0; Begin "A-1" "A" false; Dispatch 0 true; ReadMessage 0 (response "A-1"); Expire 0;
       Unregister 0; CloseChannel 0; Send 0]%nat start = Some (Err "send on closed channel").
Proof. vm_compute. reflexivity. Qed.

(** The answer of agent B to a request to agent A is taken. *)
Lemma other_agent_answers :
  let s := after [Upgrade "A"; Register 0; Upgrade "B"; Register 1; Begin "A-1" "A" false; Dispatch 0 true;
                  ReadMessage 1 (response "A-1"); Send 1; Receive 0]%nat in
  (pd_agent <$> handlers (reqs s)) = ["A"] /\ (pd_received <$> handlers (reqs s)) = [[response "A-1"]].
Proof. vm_compute. split; reflexivity. Qed.

(** An agent that connects between the look at the connections and the write is marked
    offline although it is connected. *)
Lemma connected_marked_offline :
  let s := after [Upgrade "A"; Register 0; ReadFails 0; Cleanup 0; Wake 0; Upgrade "A"; Register 1]%nat in
  isAgentConnected "A" (conns s) = true /\ is_Some (act (MarkOffline 0) s).
Proof. vm_compute. eauto. Qed.
