(* ===== verification/WsClient.v ===== *)
(** * The connection of an agent to the server ([agent/agent/ws_client.go]), as one state and
    the steps of its goroutines.

    A client has the goroutine that manages the connection, and for each connection one that
    reads and one that pings. They share the fields of the client, under its lock, and the
    channel on which a new connection is asked for. What happens under the lock is one step,
    [connect] too, which holds it throughout. *)
From S2P Require Import Prelude GoStrings GoTime GoChan AuditLog FleetCalls GoUrl.
#[local] Open Scope string_scope.

(** ** The client *)

Record WSClient := {
  serverURL : string;
  token : string;
  reconnectDelay : Duration;
  pingInterval : Duration;
  writeTimeout : Duration;
  readTimeout : Duration;
  handshakeTimeout : Duration;
  maxReconnectDelay : Duration;
  insecureSkipVerify : bool;
}.

Definition NewWSClient (serverURL token : string) (insecureSkipVerify : bool) : WSClient :=
  {| serverURL := serverURL; token := token; reconnectDelay := dmul 5 Second; pingInterval := dmul 30 Second;
     writeTimeout := dmul 10 Second; readTimeout := dmul 60 Second; handshakeTimeout := dmul 10 Second;
     maxReconnectDelay := dmul 5 Minute; insecureSkipVerify := insecureSkipVerify |}.

Section Address.
Context `{GoUnicode}.

Definition with_address (u : URL) (scheme path query : string) : URL :=
  {| Scheme := scheme; Opaque := Opaque u; UUser := UUser u; UHost := UHost u; UPath := path; RawPath := RawPath u;
     OmitHost := OmitHost u; ForceQuery := ForceQuery u; RawQuery := query; Fragment := Fragment u;
     RawFragment := RawFragment u |}.

(** The address that [connect] dials; [None] is an error before the dial. *)
Definition connect_url (cfg : WSClient) : option URL :=
  u ← Parse (serverURL cfg);
  scheme ← (if String.eqb (Scheme u) "http" then Some "ws"
            else if String.eqb (Scheme u) "https" then Some "wss" else None);
  let basePath := TrimSuffix (UPath u) "/" in
  Some (with_address u scheme (basePath +:+ "/api/v1/agents/ws")
          (Encode (Set_ "token" (token cfg) (parseQuery (RawQuery u))))).

(** [q.Get] *)
Definition query_get (key : string) (q : list (string * string)) : string :=
  match list_find (fun kv => kv.1 = key) q with Some (_, kv) => kv.2 | None => "" end.

Definition maskTokenForLog (u : URL) : string :=
  let q := parseQuery (RawQuery u) in
  if negb (String.eqb (query_get "token" q) "") then String_ (with_query u (Encode (Set_ "token" "***" q)))
  else String_ u.
End Address.

(** ** State *)

(** Where the goroutine that manages the connection is: [Idle] before its [select], [Blocked]
    in it, [Delayed] before the next attempt, [Connecting] from the timer to the end of
    [connect], [Retrying] after an attempt that failed. *)
Inductive manager := NotStarted | Idle | Blocked | Delayed | Connecting | Retrying | Exited.

(** Where a reader is: at the top of its loop, in a read, in its deferred function before and
    after the lock, done. *)
Inductive reader := Looping | InRead (c : nat) | Leaving | Signalling | Gone.

(** A call of [Stop], after each of its steps. *)
Inductive stop := Cancelled | Closed | Stopped.

(** What a message starts a goroutine for. *)
Inductive job := RunCommand (m : Message) | RunProxy (m : Message).

Record Client := {
  conn : option nat;
  connected : bool;
  sockets : list bool;
  reconnectChan : chan unit;
  stopChan : chan unit;
  cancelled : bool;
  phase : manager;
  currentDelay : Duration;
  readers : list reader;
  pingers : list bool;
  stops : list stop;
  jobs : list job;
}.

Definition new (cfg : WSClient) : Client :=
  {| conn := None; connected := false; sockets := []; reconnectChan := Chan [] 1 0 false; stopChan := Chan [] 0 0 false;
     cancelled := false; phase := NotStarted; currentDelay := reconnectDelay cfg; readers := []; pingers := [];
     stops := []; jobs := [] |}.

(** *** Assignments *)

Definition set_conn (c : option nat) (b : bool) (l : list bool) (s : Client) : Client :=
  {| conn := c; connected := b; sockets := l; reconnectChan := reconnectChan s; stopChan := stopChan s;
     cancelled := cancelled s; phase := phase s; currentDelay := currentDelay s; readers := readers s;
     pingers := pingers s; stops := stops s; jobs := jobs s |}.
Definition set_loops (r : list reader) (p : list bool) (s : Client) : Client :=
  {| conn := conn s; connected := connected s; sockets := sockets s; reconnectChan := reconnectChan s;
     stopChan := stopChan s; cancelled := cancelled s; phase := phase s; currentDelay := currentDelay s; readers := r;
     pingers := p; stops := stops s; jobs := jobs s |}.
Definition set_phase (p : manager) (ch : chan unit) (d : Duration) (s : Client) : Client :=
  {| conn := conn s; connected := connected s; sockets := sockets s; reconnectChan := ch; stopChan := stopChan s;
     cancelled := cancelled s; phase := p; currentDelay := d; readers := readers s; pingers := pingers s;
     stops := stops s; jobs := jobs s |}.
Definition set_stops (l : list stop) (ch : chan unit) (b : bool) (s : Client) : Client :=
  {| conn := conn s; connected := connected s; sockets := sockets s; reconnectChan := reconnectChan s; stopChan := ch;
     cancelled := b; phase := phase s; currentDelay := currentDelay s; readers := readers s; pingers := pingers s;
     stops := l; jobs := jobs s |}.
Definition add_jobs (l : list job) (s : Client) : Client :=
  {| conn := conn s; connected := connected s; sockets := sockets s; reconnectChan := reconnectChan s;
     stopChan := stopChan s; cancelled := cancelled s; phase := phase s; currentDelay := currentDelay s;
     readers := readers s; pingers := pingers s; stops := stops s; jobs := jobs s ++ l |}.

Definition set_reader (i : nat) (r : reader) (s : Client) : Client := set_loops (<[i := r]> (readers s)) (pingers s) s.
Definition set_pinger (i : nat) (b : bool) (s : Client) : Client := set_loops (readers s) (<[i := b]> (pingers s)) s.

(** ** Operations *)

(** The old connection is closed before a new one is dialled. *)
Definition disconnect (s : Client) : Client :=
  match conn s with Some c => set_conn None false (<[c := false]> (sockets s)) s | None => s end.

(** The new connection, with its two goroutines. *)
Definition established (s : Client) : Client :=
  set_loops (readers s ++ [Looping]) (pingers s ++ [true])
    (set_conn (Some (length (sockets s))) true (sockets s ++ [true]) s).

Definition connect (ok : bool) (s : Client) : Client := if ok then established (disconnect s) else disconnect s.

Definition next_delay (cfg : WSClient) (d : Duration) : Duration :=
  let d := dmul d 2 in if (maxReconnectDelay cfg <? d)%Z then maxReconnectDelay cfg else d.

Definition stopping (s : Client) : bool := cancelled s || chan_closed (stopChan s).

(** What a message starts. *)
Definition job_of (m : Message) : list job :=
  if String.eqb (Msg_Type m) "command" then [RunCommand m]
  else if String.eqb (Msg_Type m) "proxy_request" then [RunProxy m] else [].

Definition IsConnected (s : Client) : bool := connected s.

(** The connection that a message is written to, if any. *)
Definition writable (s : Client) : option nat := if connected s then conn s else None.

(** ** Steps *)

Inductive label :=
| Start (dialled : bool)
| ManagerBlocks
| ManagerTakes
| ManagerExits
| TimerFires
| Connect (dialled : bool)
| Retry
| ReaderStops (i : nat)
| ReaderLoads (i : nat)
| ReadMessage (i : nat) (m : option Message)
| ReadFails (i : nat)
| ClearConnected (i : nat)
| Signal (i : nat)
| PingStops (i : nat)
| PingTick (i : nat) (written : bool)
| StopCancels
| StopCloses (i : nat)
| StopClears (i : nat).

Section Steps.
Context `{GoUnicode} (cfg : WSClient).

Definition succeeds (dialled : bool) : bool := dialled && bool_decide (is_Some (connect_url cfg)).

(** [connectionManager], and [Start] up to its [go] statement. *)
Definition manager_step (l : label) (s : Client) : option Client :=
  let ch := reconnectChan s in
  let d := currentDelay s in
  match l, phase s with
  | Start b, NotStarted => Some (set_phase Idle ch d (connect (succeeds b) s))
  | ManagerBlocks, Idle =>
      Some (set_phase Blocked (Chan (buf ch) (capacity ch) (S (receivers ch)) (chan_closed ch)) d s)
  | ManagerTakes, Blocked =>
      match buf ch with
      | _ :: q => Some (set_phase Delayed (Chan q (capacity ch) (pred (receivers ch)) (chan_closed ch)) d s)
      | [] => None
      end
  | ManagerExits, Blocked =>
      if stopping s then Some (set_phase Exited (Chan (buf ch) (capacity ch) (pred (receivers ch)) (chan_closed ch)) d s)
      else None
  | ManagerExits, Delayed => if stopping s then Some (set_phase Exited ch d s) else None
  | TimerFires, Delayed => Some (set_phase Connecting ch d s)
  | Connect b, Connecting =>
      if succeeds b then Some (set_phase Idle ch (reconnectDelay cfg) (connect true s))
      else Some (set_phase Retrying ch (next_delay cfg d) (connect false s))
  | Retry, Retrying => Some (set_phase Idle (offer tt ch) d s)
  | _, _ => None
  end.

(** [readLoop]. A read from a connection that was closed fails. *)
Definition reader_step (l : label) (i : nat) (r : reader) (s : Client) : option Client :=
  match l, r with
  | ReaderStops _, Looping => if stopping s then Some (set_reader i Leaving s) else None
  | ReaderLoads _, Looping =>
      if stopping s then None
      else Some (set_reader i (match conn s with Some c => InRead c | None => Leaving end) s)
  | ReadMessage _ m, InRead c =>
      if default false (sockets s !! c)
      then Some (add_jobs (match m with Some m => job_of m | None => [] end) (set_reader i Looping s))
      else None
  | ReadFails _, InRead _ => Some (set_reader i Leaving s)
  | ClearConnected _, Leaving => Some (set_conn (conn s) false (sockets s) (set_reader i Signalling s))
  | Signal _, Signalling =>
      Some (set_phase (phase s) (offer tt (reconnectChan s)) (currentDelay s) (set_reader i Gone s))
  | _, _ => None
  end.

(** [pingLoop]; a ping on a connection that was closed is not written. *)
Definition pinger_step (l : label) (i : nat) (s : Client) : option Client :=
  match l with
  | PingStops _ => if stopping s then Some (set_pinger i false s) else None
  | PingTick _ written =>
      match writable s with
      | Some c => if written && negb (default false (sockets s !! c)) then None else Some (set_pinger i written s)
      | None => Some (set_pinger i false s)
      end
  | _ => None
  end.

Definition stop_step (l : label) (i : nat) (p : stop) (s : Client) : option (result string Client) :=
  match l, p with
  | StopCloses _, Cancelled =>
      Some (if chan_closed (stopChan s) then Err "close of closed channel"
            else Ok (set_stops (<[i := Closed]> (stops s)) (shut (stopChan s)) (cancelled s) s))
  | StopClears _, Closed =>
      let s' := set_stops (<[i := Stopped]> (stops s)) (stopChan s) (cancelled s) s in
      Some (Ok (match conn s with
                | Some c => set_conn None false (<[c := false]> (sockets s)) s'
                | None => set_conn None false (sockets s) s'
                end))
  | _, _ => None
  end.

(** [None]: the step cannot be taken now; [Err]: it panics. *)
Definition act (l : label) (s : Client) : option (result string Client) :=
  match l with
  | Start _ | ManagerBlocks | ManagerTakes | ManagerExits | TimerFires | Connect _ | Retry => Ok <$> manager_step l s
  | ReaderStops i | ReaderLoads i | ReadMessage i _ | ReadFails i | ClearConnected i | Signal i =>
      r ← readers s !! i; Ok <$> reader_step l i r s
  | PingStops i | PingTick i _ =>
      b ← pingers s !! i; if (b : bool) then Ok <$> pinger_step l i s else None
  | StopCancels => Some (Ok (set_stops (stops s ++ [Cancelled]) (stopChan s) true s))
  | StopCloses i | StopClears i => p ← stops s !! i; stop_step l i p s
  end.

Inductive reachable : Client -> Prop :=
| reach_new : reachable (new cfg)
| reach_act l s s' : reachable s -> act l s = Some (Ok s') -> reachable s'.

(** A run of steps, until one panics. *)
Fixpoint run (ls : list label) (s : Client) : option (result string Client) :=
  match ls with
  | [] => Some (Ok s)
  | l :: ls' =>
      r ← act l s;
      match r with Ok s' => run ls' s' | Err e => Some (Err e) end
  end.

Lemma client_run_app ls ls' s :
  run (ls ++ ls')%list s = match run ls s with Some (Ok s1) => run ls' s1 | r => r end.
Proof.
  revert s. induction ls as [|l ls IH]; intros s; [done|]. cbn. by destruct (act l s) as [[s1|e]|]; cbn.
Qed.

Lemma client_run_reaches ls s s' : reachable s -> run ls s = Some (Ok s') -> reachable s'.
Proof.
  revert s. induction ls as [|l ls IH]; intros s Hs Hr; [by injection Hr as <-|]. cbn in Hr.
  destruct (act l s) as [[s1|e]|] eqn:Ha; cbn in Hr; [|done|done]. apply (IH s1); [|done]. by eapply reach_act.
Qed.
End Steps.

(** ** The invariant *)

Definition alive (r : reader) : nat := match r with Gone => 0 | _ => 1 end.
Definition busy (p : manager) : nat := match p with Delayed | Connecting | Retrying => 1 | _ => 0 end.

(** Everything that will lead to the next connection: a reader that has not asked for it, a
    request in the channel, an attempt of the manager. *)
Definition owed (s : Client) : nat :=
  sum_list_with alive (readers s) + length (buf (reconnectChan s)) + busy (phase s).

#[local] Arguments owed : simpl never.
#[local] Arguments stopping : simpl never.

Definition listening (r : reader) : bool := match r with Looping | InRead _ => true | _ => false end.
Definition uncleared (r : reader) : bool := match r with Looping | InRead _ | Leaving => true | _ => false end.

Record client_ok (s : Client) : Prop := {
  ck_chan : chan_closed (reconnectChan s) = false /\ capacity (reconnectChan s) = 1%nat
            /\ receivers (reconnectChan s) = match phase s with Blocked => 1%nat | _ => 0%nat end;
  ck_once : (owed s <= 1)%nat;
  ck_owed : stopping s = false -> sockets s <> [] -> owed s = 1%nat;
  ck_none : sockets s = [] -> owed s = 0%nat;
  ck_start : phase s = NotStarted -> sockets s = [];
  ck_conn c : conn s = Some c <-> sockets s !! c = Some true;
  ck_connected : connected s = true ->
    conn s <> None /\ exists i r, readers s !! i = Some r /\ uncleared r = true;
  ck_listening i r : readers s !! i = Some r -> listening r = true -> stopping s = false -> connected s = true;
  ck_inread i c : readers s !! i = Some (InRead c) -> conn s = Some c \/ conn s = None;
  ck_stops i p : stops s !! i = Some p -> cancelled s = true;
  ck_exited : phase s = Exited -> stopping s = true;
}.

Lemma sum_alive_lookup l i r : l !! i = Some r -> alive r = 1%nat -> (1 <= sum_list_with alive l)%nat.
Proof.
  revert i. induction l as [|x l IH]; intros [|i] Hi Hr; [done|done|cbn in *; injection Hi as ->; lia|].
  cbn in *. specialize (IH i Hi Hr). lia.
Qed.

Lemma sum_alive_zero l i r : sum_list_with alive l = 0%nat -> l !! i = Some r -> r = Gone.
Proof. intros Hz Hi. destruct r; [..|done]; apply (sum_alive_lookup l i) in Hi; cbn; lia. Qed.

(** Two readers that are alive are the same one. *)
Lemma one_reader l i j r r' :
  (sum_list_with alive l <= 1)%nat -> l !! i = Some r -> l !! j = Some r' -> alive r = 1%nat -> alive r' = 1%nat -> i = j.
Proof.
  revert i j. induction l as [|x l IH]; intros i j Hs Hi Hj Hr Hr'; [done|]. cbn in Hs.
  destruct i as [|i], j as [|j]; cbn in Hi, Hj.
  - done.
  - injection Hi as ->. pose proof (sum_alive_lookup l j r' Hj Hr'). lia.
  - injection Hj as ->. pose proof (sum_alive_lookup l i r Hi Hr). lia.
  - f_equal. eapply IH; eauto. lia.
Qed.

Lemma client_new_ok cfg : client_ok (new cfg).
Proof. split; cbn; try done; unfold owed; cbn; lia. Qed.

(** A state without a reader, before and after the dial. *)
Lemma disconnect_ok s :
  client_ok s -> (owed s = 1%nat \/ sockets s = []) -> sum_list_with alive (readers s) = 0%nat ->
  client_ok (disconnect s) /\ conn (disconnect s) = None /\ connected (disconnect s) = false
  /\ length (sockets (disconnect s)) = length (sockets s).
Proof.
  intros Hok Ho Hr.
  assert (Hgone : forall i r, readers s !! i = Some r -> r = Gone) by (intros i r; by apply sum_alive_zero).
  assert (Hoff : connected s = false).
  { destruct (connected s) eqn:Hc; [|done]. destruct (ck_connected s Hok Hc) as (_ & i & r & Hi & Hu).
    by rewrite (Hgone _ _ Hi) in Hu. }
  unfold disconnect. destruct (conn s) as [c|] eqn:Hc; [|by split_and!].
  assert (Hsock : sockets s <> []) by (intros He; apply (ck_conn s Hok) in Hc; by rewrite He in Hc).
  split; [|cbn; rewrite length_insert; by split_and!]. destruct Hok. split; cbn; try done.
  - intros Hs _. by apply ck_owed0.
  - intros He. apply (f_equal length) in He. rewrite length_insert in He. cbn in He.
    apply nil_length_inv in He. done.
  - intros Hp. by destruct (Hsock (ck_start0 Hp)).
  - intros c'. split; [done|]. intros [[-> Hb]|[Hne Hl]]%list_lookup_insert_Some; [naive_solver|].
    apply ck_conn0 in Hl. congruence.
  - intros i r Hi Hl. by rewrite (Hgone _ _ Hi) in Hl.
  - by right.
Qed.

Lemma established_ok s :
  client_ok s -> (owed s = 0%nat \/ busy (phase s) = 1%nat) -> conn s = None -> sum_list_with alive (readers s) = 0%nat ->
  forall p d ch, ch = reconnectChan s -> busy p = 0%nat -> p <> Blocked -> phase s <> Blocked -> p <> NotStarted -> p <> Exited ->
  client_ok (set_phase p ch d (established s)).
Proof.
  intros Hok Ho Hn Hr p d ch -> Hp Hb Hb' Hns Hex.
  assert (Hgone : forall i r, readers s !! i = Some r -> r = Gone) by (intros i r; by apply sum_alive_zero).
  assert (Hbuf : buf (reconnectChan s) = []).
  { apply nil_length_inv. pose proof (ck_once s Hok). unfold owed in *. lia. }
  assert (Howed : owed (set_phase p (reconnectChan s) d (established s)) = 1%nat).
  { unfold owed. cbn. rewrite sum_list_with_app, Hr, Hbuf, Hp. reflexivity. }
  destruct Hok. split.
  - cbn. destruct ck_chan0 as (? & ? & Hrc). repeat split; [done..|]. rewrite Hrc.
    destruct (phase s), p; try done.
  - lia.
  - done.
  - cbn. intros He. by apply app_nil in He as [_ ?].
  - done.
  - cbn. intros c. split.
    + intros [= <-]. by rewrite lookup_app_r, Nat.sub_diag by lia.
    + intros [Hl|[Hge Hl]]%lookup_app_Some; [apply ck_conn0 in Hl; congruence|].
      apply list_lookup_singleton_Some in Hl as [Hz _]. f_equal. lia.
  - intros _. split; [done|]. exists (length (readers s)), Looping. split; [|done]. cbn.
    by rewrite lookup_app_r, Nat.sub_diag by lia.
  - done.
  - cbn. intros i c [Hi|[_ Hi]]%lookup_app_Some; [by pose proof (Hgone _ _ Hi)|].
    by apply list_lookup_singleton_Some in Hi as [_ ?].
  - done.
  - done.
Qed.

(** A reader moves, with the request it may leave. *)
Lemma set_reader_owed i r r' s :
  readers s !! i = Some r -> (owed (set_reader i r' s) + alive r = owed s + alive r')%nat.
Proof. intros Hi. unfold owed. cbn. pose proof (sum_insert alive _ _ _ r' Hi). lia. Qed.

Lemma set_reader_ok i r r' s :
  client_ok s -> readers s !! i = Some r -> alive r = 1%nat -> alive r' = 1%nat ->
  (uncleared r' = true \/ connected s = false) ->
  (listening r' = true -> stopping s = false -> connected s = true) ->
  (forall c, r' = InRead c -> conn s = Some c) ->
  client_ok (set_reader i r' s).
Proof.
  intros Hok Hi Hr Hr' Hu Hl Hc. pose proof (set_reader_owed i r r' s Hi) as Ho.
  assert (Hsame : owed (set_reader i r' s) = owed s) by lia.
  destruct Hok. split; cbn; try done; try (rewrite Hsame; by auto).
  - intros Hcon. destruct (ck_connected0 Hcon) as [Hn (j & rj & Hj & Huj)]. split; [done|].
    destruct (decide (j = i)) as [->|Hne]; [|exists j, rj; by rewrite list_lookup_insert_ne].
    exists i, r'. destruct Hu as [Hu|Hu]; [|congruence].
    rewrite list_lookup_insert_eq; [done|by eapply lookup_lt_Some].
  - intros j rj [(-> & <- & _)|[_ Hj]]%list_lookup_insert_Some; [done | by eapply ck_listening0].
  - intros j c [(-> & -> & _)|[_ Hj]]%list_lookup_insert_Some; [left; by apply Hc | by eapply ck_inread0].
Qed.

(** The manager moves, with the channel. *)
Lemma set_phase_ok p ch d s :
  client_ok s -> chan_closed ch = false -> capacity ch = 1%nat ->
  receivers ch = match p with Blocked => 1%nat | _ => 0%nat end -> p <> NotStarted ->
  (p = Exited -> stopping s = true) ->
  (length (buf ch) + busy p = length (buf (reconnectChan s)) + busy (phase s)
   \/ stopping s = true /\ length (buf ch) + busy p <= length (buf (reconnectChan s)) + busy (phase s))%nat ->
  client_ok (set_phase p ch d s).
Proof.
  intros Hok Hcl Hcap Hrc Hp Hex Ho.
  assert (Hle : (owed (set_phase p ch d s) <= owed s)%nat) by (unfold owed; cbn; lia).
  assert (Heq : stopping s = false -> owed (set_phase p ch d s) = owed s).
  { intros Hst. unfold owed. cbn. destruct Ho as [?|[? _]]; [lia|congruence]. }
  destruct Hok. split; cbn; try done.
  - lia.
  - intros Hst Hs. rewrite Heq by done. by apply ck_owed0.
  - intros Hs. specialize (ck_none0 Hs). lia.
Qed.

Lemma offer_empty ch :
  buf ch = [] -> capacity ch = 1%nat -> offer tt ch = Chan [tt] (capacity ch) (receivers ch) (chan_closed ch).
Proof. intros Hb Hc. unfold offer, room, push. by rewrite Hb, Hc. Qed.

Lemma signal_ok i s :
  client_ok s -> readers s !! i = Some Signalling ->
  client_ok (set_phase (phase s) (offer tt (reconnectChan s)) (currentDelay s) (set_reader i Gone s)).
Proof.
  intros Hok Hi. destruct (ck_chan s Hok) as (Hcl & Hcap & Hrc).
  pose proof (sum_alive_lookup _ _ _ Hi eq_refl) as Ha.
  assert (Hbuf : buf (reconnectChan s) = []).
  { apply nil_length_inv. pose proof (ck_once s Hok). unfold owed in *. lia. }
  rewrite offer_empty by done. set (s' := set_phase _ _ _ _).
  assert (Hsame : owed s' = owed s).
  { unfold owed. subst s'. cbn. rewrite Hbuf. pose proof (sum_insert alive _ _ _ Gone Hi). cbn in *. lia. }
  destruct Hok. split; try (rewrite Hsame; by auto); try done; subst s'; cbn.
  - intros Hcon. destruct (ck_connected0 Hcon) as [Hn (j & rj & Hj & Hu)]. split; [done|]. exists j, rj.
    rewrite list_lookup_insert_ne; [done|]. intros <-. rewrite Hi in Hj. by injection Hj as <-.
  - intros j rj [(_ & <- & _)|[_ Hj]]%list_lookup_insert_Some; [done | by eapply ck_listening0].
  - intros j c [(_ & ? & _)|[_ Hj]]%list_lookup_insert_Some; [done | by eapply ck_inread0].
Qed.

Section Invariant.
Context `{GoUnicode} (cfg : WSClient).

Lemma manager_step_ok l s s' : client_ok s -> manager_step cfg l s = Some s' -> client_ok s'.
Proof.
  intros Hok Hstep. unfold manager_step in Hstep. destruct (ck_chan s Hok) as (Hcl & Hcap & Hrc).
  pose proof (ck_once s Hok) as Honce.
  destruct l; try discriminate Hstep; destruct (phase s) eqn:Hp; try discriminate Hstep.
  - pose proof (ck_start s Hok Hp) as Hsock. pose proof (ck_none s Hok Hsock) as Hz.
    assert (Hr : sum_list_with alive (readers s) = 0%nat) by (unfold owed in Hz; lia).
    assert (Hn : conn s = None).
    { destruct (conn s) as [c|] eqn:Hc; [|done]. apply (ck_conn s Hok) in Hc. by rewrite Hsock in Hc. }
    injection Hstep as <-. unfold connect, disconnect. rewrite Hn. destruct (succeeds cfg dialled).
    + apply established_ok; try done; [by left | by rewrite Hp].
    + apply set_phase_ok; try done. left. by rewrite Hp.
  - injection Hstep as <-. apply set_phase_ok; try done; cbn; [by rewrite Hrc|]. left. by rewrite Hp.
  - destruct (buf (reconnectChan s)) as [|t q] eqn:Hb; [done|]. injection Hstep as <-.
    apply set_phase_ok; try done; cbn; [by rewrite Hrc|]. left. rewrite Hb, Hp. cbn. lia.
  - destruct (stopping s) eqn:Hst; [|done]. injection Hstep as <-.
    apply set_phase_ok; try done; cbn; [by rewrite Hrc|]. left. by rewrite Hp.
  - destruct (stopping s) eqn:Hst; [|done]. injection Hstep as <-.
    apply set_phase_ok; try done. right. split; [done|]. rewrite Hp. cbn. lia.
  - injection Hstep as <-. apply set_phase_ok; try done. left. by rewrite Hp.
  - assert (Hr : sum_list_with alive (readers s) = 0%nat /\ buf (reconnectChan s) = [] /\ owed s = 1%nat).
    { unfold owed in *. rewrite Hp in *. cbn in *. split_and!; [lia|apply nil_length_inv; lia|lia]. }
    destruct Hr as (Hr & Hb & Ho).
    destruct (disconnect_ok s Hok (or_introl Ho) Hr) as (Hd & Hn & _ & _).
    assert (Hsame : phase (disconnect s) = phase s /\ readers (disconnect s) = readers s
                    /\ reconnectChan (disconnect s) = reconnectChan s).
    { unfold disconnect. by destruct (conn s). }
    destruct Hsame as (Hph & Hrd & Hrec). unfold connect in Hstep.
    destruct (succeeds cfg dialled); injection Hstep as <-.
    + apply established_ok; try done; [right; by rewrite Hph, Hp | by rewrite Hrd | by rewrite Hph, Hp].
    + apply set_phase_ok; try done. left. by rewrite Hrec, Hph, Hp.
  - injection Hstep as <-. assert (Hb : buf (reconnectChan s) = []).
    { apply nil_length_inv. unfold owed in *. rewrite Hp in *. cbn in *. lia. }
    rewrite offer_empty by done. apply set_phase_ok; try done. left. cbn. by rewrite Hb, Hp.
Qed.

Lemma reader_step_ok l i r s s' :
  client_ok s -> readers s !! i = Some r -> reader_step l i r s = Some s' -> client_ok s'.
Proof.
  intros Hok Hi Hstep. unfold reader_step in Hstep.
  destruct l; try discriminate Hstep; destruct r as [|c| | |]; try discriminate Hstep.
  - destruct (stopping s); [|done]. injection Hstep as <-. apply (set_reader_ok i Looping); try done. by left.
  - destruct (stopping s) eqn:Hst; [done|]. injection Hstep as <-.
    destruct (conn s) as [c|] eqn:Hc; apply (set_reader_ok i Looping); try done; try (by left).
    + intros _ _. by apply (ck_listening s Hok i Looping).
    + intros c' [= <-]. done.
  - destruct (sockets s !! c) as [[]|] eqn:Hc; try discriminate Hstep. injection Hstep as <-.
    assert (Hset : client_ok (set_reader i Looping s)).
    { apply (set_reader_ok i (InRead c)); try done; [by left|]. intros _ Hst.
      by apply (ck_listening s Hok i (InRead c)). }
    by destruct Hset.
  - injection Hstep as <-. apply (set_reader_ok i (InRead c)); try done. by left.
  - injection Hstep as <-.
    assert (Hset : client_ok (set_reader i Signalling (set_conn (conn s) false (sockets s) s))).
    { apply (set_reader_ok i Leaving); try done; [|by right].
      destruct Hok. split; cbn; try done. intros j rj Hj Hl _.
      assert (j = i); [|subst j; rewrite Hi in Hj; by injection Hj as <-].
      apply (one_reader (readers s) j i rj Leaving); try done; [unfold owed in *; lia|by destruct rj]. }
    by destruct Hset.
  - injection Hstep as <-. by apply signal_ok.
Qed.

Lemma pinger_step_ok l i s s' : client_ok s -> pinger_step l i s = Some s' -> client_ok s'.
Proof.
  intros Hok Hstep. unfold pinger_step in Hstep.
  assert (Hset : forall b, client_ok (set_pinger i b s)) by (intros b; by destruct Hok).
  repeat case_match; try discriminate Hstep; injection Hstep as <-; apply Hset.
Qed.

Lemma stop_step_ok l i p s s' :
  client_ok s -> stops s !! i = Some p -> stop_step l i p s = Some (Ok s') -> client_ok s'.
Proof.
  intros Hok Hi Hstep. unfold stop_step in Hstep. pose proof (ck_stops s Hok i p Hi) as Hcan.
  assert (Hstop : stopping s = true) by (unfold stopping; by rewrite Hcan).
  destruct l; try discriminate Hstep; destruct p; try discriminate Hstep.
  - destruct (chan_closed (stopChan s)); [done|]. injection Hstep as <-. destruct Hok. split; cbn; try done.
    + intros Hst. unfold stopping in Hst. cbn in Hst. by rewrite Hcan in Hst.
    + intros j rj _ _ Hst. unfold stopping in Hst. cbn in Hst. by rewrite Hcan in Hst.
    + intros _. unfold stopping. cbn. by rewrite Hcan.
  - injection Hstep as <-. destruct Hok.
    assert (Hrun : forall s1, cancelled s1 = cancelled s -> stopping s1 = false -> False).
    { intros s1 Hs1 Hst. unfold stopping in Hst. by rewrite Hs1, Hcan in Hst. }
    destruct (conn s) as [c|] eqn:Hc; split; cbn; try done.
    all: try (intros; exfalso; by eapply Hrun).
    all: try (by right).
    all: try (by intros _).
    + intros He. apply (f_equal length) in He. rewrite length_insert in He. by apply ck_none0, nil_length_inv.
    + intros Hp. by rewrite (ck_start0 Hp).
    + intros c'. split; [done|]. intros [[-> Hb]|[Hne Hl]]%list_lookup_insert_Some; [naive_solver|].
      apply ck_conn0 in Hl. congruence.
Qed.

Lemma act_ok l s s' : client_ok s -> act cfg l s = Some (Ok s') -> client_ok s'.
Proof.
  intros Hok Hact. destruct l; cbn [act] in Hact.
  all: try (apply fmap_Some in Hact as (x & Hx & [= ->]); by eapply manager_step_ok).
  all: try (apply bind_Some in Hact as (x & Hx & Hact)).
  all: try (apply fmap_Some in Hact as (s1 & Hact & [= ->]); by eapply reader_step_ok).
  all: try (destruct x; [apply fmap_Some in Hact as (s1 & Hact & [= ->]); by eapply pinger_step_ok | done]).
  all: try (by eapply stop_step_ok).
  injection Hact as <-. destruct Hok. split; cbn; try done; by intros ? ? _ _ ?.
Qed.

Lemma client_reachable_ok s : reachable cfg s -> client_ok s.
Proof. induction 1; [apply client_new_ok | by eapply act_ok]. Qed.
End Invariant.

(** C26: In every interleaving at most one reader is alive and at most one connection is open,
    the one of the client; a client that says it is connected has an open connection and a
    reader for it, and a reader never takes messages from a connection that was replaced. *)
Theorem one_connection `{GoUnicode} cfg s :
  reachable cfg s ->
  (forall i j r r', readers s !! i = Some r -> readers s !! j = Some r' -> alive r = 1%nat -> alive r' = 1%nat -> i = j)
  /\ (forall c, sockets s !! c = Some true <-> conn s = Some c)
  /\ (IsConnected s = true -> exists c i r, writable s = Some c /\ sockets s !! c = Some true
        /\ readers s !! i = Some r /\ uncleared r = true)
  /\ (forall i m s' c, readers s !! i = Some (InRead c) -> act cfg (ReadMessage i m) s = Some (Ok s') -> conn s = Some c).
Proof.
  intros Hs. apply client_reachable_ok in Hs as Hok. split_and!.
  - intros i j r r'. apply one_reader. pose proof (ck_once s Hok). unfold owed in *. lia.
  - intros c. split; apply (ck_conn s Hok).
  - unfold IsConnected, writable. intros Hc. rewrite Hc. destruct (ck_connected s Hok Hc) as (Hn & i & r & Hr).
    destruct (conn s) as [c|] eqn:Hconn; [|done]. exists c, i, r. split; [done|]. split; [by apply (ck_conn s Hok)|done].
  - intros i m s' c Hi Hact. cbn in Hact. rewrite Hi in Hact. cbn in Hact.
    destruct (sockets s !! c) as [[]|] eqn:Hc; try discriminate Hact. by apply (ck_conn s Hok).
Qed.

(** ** Reconnection *)

(** The steps that lead to the next connection: of the reader, then of the manager. *)
Definition attempt (s : Client) : list label :=
  (match phase s with Blocked => [] | _ => [ManagerBlocks] end) ++ [ManagerTakes; TimerFires; Connect true].

Definition chain_of_manager (s : Client) : list label :=
  match phase s with
  | Delayed => [TimerFires; Connect true]
  | Connecting => [Connect true]
  | Retrying => [Retry; ManagerBlocks; ManagerTakes; TimerFires; Connect true]
  | _ => attempt s
  end.

Definition chain (s : Client) : list label :=
  match list_find (fun r => alive r = 1%nat) (readers s) with
  | Some (i, Leaving) => ClearConnected i :: Signal i :: attempt s
  | Some (i, Signalling) => Signal i :: attempt s
  | Some _ => []
  | None => chain_of_manager s
  end.

(** A failure of the connection or of an attempt, and the calls of [Stop]. *)
Definition setback `{GoUnicode} (cfg : WSClient) (l : label) : bool :=
  match l with
  | ReadFails _ | StopCancels | StopCloses _ | StopClears _ => true
  | Connect b => negb (succeeds cfg b)
  | _ => false
  end.

Lemma chain_reader s i r :
  client_ok s -> readers s !! i = Some r -> alive r = 1%nat ->
  chain s = match r with
            | Leaving => ClearConnected i :: Signal i :: attempt s
            | Signalling => Signal i :: attempt s
            | _ => []
            end.
Proof.
  intros Hok Hi Hr. unfold chain. replace (list_find _ (readers s)) with (Some (i, r)); [by destruct r|].
  symmetry. apply list_find_Some. split_and!; [done|done|]. intros j y Hj Hlt Hy.
  assert (j = i); [|lia]. apply (one_reader (readers s) j i y r); try done.
  pose proof (ck_once s Hok). unfold owed in *. lia.
Qed.

Lemma chain_manager s : sum_list_with alive (readers s) = 0%nat -> chain s = chain_of_manager s.
Proof.
  intros Hz. unfold chain. replace (list_find _ (readers s)) with (@None (nat * reader)); [done|].
  symmetry. apply list_find_None, Forall_lookup. intros i r Hi Hr. by rewrite (sum_alive_zero _ _ _ Hz Hi) in Hr.
Qed.

(** The one that is alive: a reader, with the channel empty and the manager in its loop, or none. *)
Lemma who s :
  client_ok s ->
  (exists i r, readers s !! i = Some r /\ alive r = 1%nat /\ buf (reconnectChan s) = [] /\ busy (phase s) = 0%nat)
  \/ sum_list_with alive (readers s) = 0%nat.
Proof.
  intros Hok. destruct (sum_list_with alive (readers s)) as [|n] eqn:Hs; [by right|left].
  assert (exists i r, readers s !! i = Some r /\ alive r = 1%nat) as (i & r & Hi & Hr).
  { clear Hok. revert Hs. generalize (readers s). intros l. revert n. induction l as [|x l IH]; intros n Hl; [done|].
    cbn in Hl. destruct (alive x) as [|[|k]] eqn:Hx; [|by exists 0%nat, x|by destruct x].
    destruct (IH n Hl) as (i & r & ? & ?). by exists (S i), r. }
  exists i, r. pose proof (ck_once s Hok) as Ho. unfold owed in Ho. rewrite Hs in Ho.
  split_and!; [done|done|apply nil_length_inv; lia|lia].
Qed.

Lemma attempt_length s : (3 <= length (attempt s) <= 4)%nat.
Proof. unfold attempt. destruct (phase s); cbn; lia. Qed.

Lemma chain_length s : (length (chain s) <= 6)%nat.
Proof.
  pose proof (attempt_length s). unfold chain. destruct (list_find _ _) as [[i []]|]; cbn; try lia.
  unfold chain_of_manager. destruct (phase s); cbn; lia.
Qed.

(** Started, connected once, not stopped. *)
Definition in_service (s : Client) : Prop := stopping s = false /\ sockets s <> [].

Lemma in_service_phase s : client_ok s -> in_service s -> phase s <> Exited /\ phase s <> NotStarted.
Proof.
  intros Hok [Hst Hs]. split; intros Hp.
  - by rewrite (ck_exited s Hok Hp) in Hst.
  - by destruct Hs; apply (ck_start s Hok).
Qed.

Lemma signal_chain s i :
  client_ok s -> in_service s -> readers s !! i = Some Signalling ->
  chain (set_phase (phase s) (offer tt (reconnectChan s)) (currentDelay s) (set_reader i Gone s)) = attempt s.
Proof.
  intros Hok Hin Hi. pose proof (ck_once s Hok) as Ho. pose proof (sum_insert alive _ _ _ Gone Hi) as Hs. cbn [alive] in Hs.
  pose proof (sum_alive_lookup _ _ _ Hi eq_refl). destruct (in_service_phase s Hok Hin) as [? ?].
  unfold owed in Ho. assert (Hz : sum_list_with alive (<[i:=Gone]> (readers s)) = 0%nat) by lia.
  rewrite chain_manager by exact Hz. unfold chain_of_manager. cbn.
  unfold attempt. destruct (phase s) eqn:Hp; try done; cbn in Ho; lia.
Qed.

Section Reconnection.
Context `{GoUnicode} (cfg : WSClient).

Lemma established_chain ch d s :
  client_ok (set_phase Idle ch d (established s)) -> chain (set_phase Idle ch d (established s)) = [].
Proof.
  intros Hok. apply (chain_reader _ (length (readers s)) Looping) in Hok; [done| |done]. cbn.
  by rewrite lookup_app_r, Nat.sub_diag by lia.
Qed.

Lemma attempt_same s s' : phase s' = phase s -> attempt s' = attempt s.
Proof. unfold attempt. by intros ->. Qed.

Lemma in_service_step l s s' : in_service s -> setback cfg l = false -> act cfg l s = Some (Ok s') -> in_service s'.
Proof.
  intros [Hst Hs] Hl Hact.
  assert (Happ : forall (l : list bool) b, (l ++ [b])%list <> []) by (intros [] ?; done).
  assert (Hd : sockets (disconnect s) <> [] /\ stopping (disconnect s) = false).
  { unfold disconnect. destruct (conn s); [|done]. split; [|done]. cbn. intros He. apply (f_equal length) in He.
    rewrite length_insert in He. by apply nil_length_inv in He. }
  destruct l; try discriminate Hl; cbn [act] in Hact.
  all: try (apply fmap_Some in Hact as (x & Hx & [= ->]); unfold manager_step in Hx; destruct (phase s); try discriminate Hx).
  all: try (apply bind_Some in Hact as (x & Hx & Hact)).
  all: try (apply fmap_Some in Hact as (s1 & Hact & [= ->]); unfold reader_step in Hact; destruct x; try discriminate Hact).
  all: try (destruct x; [apply fmap_Some in Hact as (s1 & Hact & [= ->]); unfold pinger_step in Hact | done]).
  all: unfold connect in *; repeat case_match; simplify_eq; split; cbn; try done; try apply Happ; try apply Hd.
Qed.

(** What an attempt of the manager leaves: nothing to do after it succeeded, one more attempt
    after it failed. *)
Lemma connected_chain b s :
  client_ok s -> phase s = Connecting -> succeeds cfg b = true ->
  exists s', act cfg (Connect b) s = Some (Ok s') /\ chain s' = [].
Proof.
  intros Hok Hp Hb. cbn. unfold manager_step. rewrite Hp, Hb. cbn. eexists. split; [done|].
  apply established_chain. apply (act_ok cfg (Connect b) s); [done|]. cbn. unfold manager_step. by rewrite Hp, Hb.
Qed.

(** The first step of the chain can be taken, and leaves the rest of it. *)
Lemma chain_step l rest s :
  client_ok s -> in_service s -> succeeds cfg true = true -> chain s = l :: rest ->
  exists s', act cfg l s = Some (Ok s') /\ chain s' = rest.
Proof.
  intros Hok Hin Hs Hch. destruct (ck_chan s Hok) as (Hcl & Hcap & Hrc).
  destruct (who s Hok) as [(i & r & Hi & Hr & Hb & _)|Hz].
  - pose proof Hch as Hch'. rewrite (chain_reader s i r) in Hch' by done.
    destruct r; try discriminate Hch'; injection Hch' as <- <-; eexists; (split; [cbn; rewrite Hi; reflexivity|]).
    + assert (Hok' : client_ok (set_conn (conn s) false (sockets s) (set_reader i Signalling s))).
      { apply (act_ok cfg (ClearConnected i) s); [done|]. cbn. by rewrite Hi. }
      rewrite (chain_reader _ i Signalling Hok'); [done| |done]. cbn. apply list_lookup_insert_eq.
      by eapply lookup_lt_Some.
    + by apply signal_chain.
  - pose proof Hch as Hch'. rewrite chain_manager in Hch' by done. unfold chain_of_manager, attempt in Hch'.
    destruct (in_service_phase s Hok Hin) as [? ?]. pose proof (ck_owed s Hok (proj1 Hin) (proj2 Hin)) as Ho.
    unfold owed in Ho. rewrite Hz in Ho.
    destruct (phase s) eqn:Hp; try done; cbn in Hch'; injection Hch' as <- <-; cbn in Ho.
    all: try (apply (connected_chain true s Hok Hp Hs)).
    all: cbn; unfold manager_step; rewrite Hp.
    all: try (destruct (buf (reconnectChan s)); [discriminate Ho|]).
    all: eexists; (split; [reflexivity|]); by rewrite chain_manager.
Qed.

Lemma chain_runs n : forall s,
  client_ok s -> in_service s -> succeeds cfg true = true -> length (chain s) = n ->
  exists s', run cfg (chain s) s = Some (Ok s') /\ client_ok s' /\ in_service s' /\ chain s' = [].
Proof.
  induction n as [|n IH]; intros s Hok Hin Hs Hn; destruct (chain s) as [|l rest] eqn:Hch; try discriminate Hn.
  - by exists s.
  - destruct (chain_step l rest s) as (s1 & Hact & Hrest); try done.
    destruct (IH s1) as (s' & Hrun & Hs').
    + by eapply act_ok.
    + eapply in_service_step; [done| |done]. assert (Hl : l ∈ chain s) by (rewrite Hch; left).
      clear -Hl Hs. unfold chain, chain_of_manager, attempt in Hl.
      repeat case_match; set_unfold; destruct_or?; simplify_eq/=; try done; by rewrite Hs.
    + done.
    + rewrite Hrest. by injection Hn.
    + exists s'. split; [|done]. cbn. rewrite Hact. cbn. by rewrite <- Hrest.
Qed.

Lemma chain_done s : client_ok s -> in_service s -> chain s = [] -> connected s = true.
Proof.
  intros Hok [Hst Hs] Hch. destruct (who s Hok) as [(i & r & Hi & Hr & _)|Hz].
  - rewrite (chain_reader s i r) in Hch by done. apply (ck_listening s Hok i r); [done| |done]. by destruct r.
  - rewrite chain_manager in Hch by done. unfold chain_of_manager, attempt in Hch. by destruct (phase s).
Qed.

(** Any other step leaves the chain as it is, or shorter. *)
Lemma calm_manager l s s' :
  client_ok s -> in_service s -> setback cfg l = false -> manager_step cfg l s = Some s' -> client_ok s' ->
  (length (chain s') <= length (chain s))%nat.
Proof.
  intros Hok Hin Hl Hstep Hok'. destruct (in_service_phase s Hok Hin) as [_ Hns].
  unfold manager_step in Hstep. rewrite (proj1 Hin) in Hstep.
  destruct l; try discriminate Hstep; destruct (phase s) eqn:Hp; try done.
  - injection Hstep as <-. destruct (who s Hok) as [(i & r & Hi & Hr & _)|Hz].
    + rewrite (chain_reader s i r), (chain_reader _ i r) by done. unfold attempt. rewrite Hp. cbn. destruct r; cbn; lia.
    + rewrite !chain_manager by done. unfold chain_of_manager, attempt. rewrite Hp. cbn. lia.
  - destruct (who s Hok) as [(i & r & Hi & Hr & Hb & _)|Hz]; [by rewrite Hb in Hstep|].
    destruct (buf (reconnectChan s)); [done|]. injection Hstep as <-.
    rewrite !chain_manager by done. unfold chain_of_manager, attempt. rewrite Hp. cbn. lia.
  - injection Hstep as <-. destruct (who s Hok) as [(i & r & Hi & Hr & _ & Hb)|Hz]; [by rewrite Hp in Hb|].
    rewrite !chain_manager by done. unfold chain_of_manager. rewrite Hp. cbn. lia.
  - cbn in Hl. apply negb_false_iff in Hl. rewrite Hl in Hstep. injection Hstep as <-.
    unfold connect in *. rewrite established_chain by done. cbn. lia.
  - injection Hstep as <-. destruct (who s Hok) as [(i & r & Hi & Hr & _ & Hb)|Hz]; [by rewrite Hp in Hb|].
    rewrite !chain_manager by done. unfold chain_of_manager. rewrite Hp. cbn. lia.
Qed.

Lemma calm_reader l i r s s' :
  client_ok s -> in_service s -> setback cfg l = false -> readers s !! i = Some r -> reader_step l i r s = Some s' ->
  client_ok s' -> (length (chain s') <= length (chain s))%nat.
Proof.
  intros Hok Hin Hl Hi Hstep Hok'. pose proof (lookup_lt_Some _ _ _ Hi) as Hlt.
  unfold reader_step in Hstep. rewrite (proj1 Hin) in Hstep.
  destruct l; try discriminate Hstep; try discriminate Hl; destruct r as [|c| | |]; try discriminate Hstep.
  - injection Hstep as <-. pose proof (ck_listening s Hok i Looping Hi eq_refl (proj1 Hin)) as Hc.
    destruct (ck_connected s Hok Hc) as [Hn _]. destruct (conn s) as [c|]; [|done].
    rewrite (chain_reader _ i (InRead c)); [cbn; lia|done| |done]. cbn. by apply list_lookup_insert_eq.
  - destruct (default false _); [|done]. injection Hstep as <-.
    rewrite (chain_reader _ i Looping); [cbn; lia|done| |done]. cbn. by apply list_lookup_insert_eq.
  - injection Hstep as <-. rewrite (chain_reader s i Leaving) by done.
    rewrite (chain_reader _ i Signalling); [rewrite (attempt_same s) by done; cbn; lia|done| |done].
    cbn. by apply list_lookup_insert_eq.
  - injection Hstep as <-. rewrite (chain_reader s i Signalling), signal_chain by done. cbn. lia.
Qed.

Lemma calm_step l s s' :
  client_ok s -> in_service s -> setback cfg l = false -> act cfg l s = Some (Ok s') ->
  (length (chain s') <= length (chain s))%nat.
Proof.
  intros Hok Hin Hl Hact. pose proof (act_ok cfg l s s' Hok Hact) as Hok'.
  destruct l; try discriminate Hl; cbn [act] in Hact.
  all: try (apply fmap_Some in Hact as (x & Hx & [= ->]); by eapply calm_manager).
  all: try (apply bind_Some in Hact as (x & Hx & Hact)).
  all: try (apply fmap_Some in Hact as (s1 & Hact & [= ->]); by eapply calm_reader).
  all: destruct x; [|done]; apply fmap_Some in Hact as (s1 & Hact & [= ->]); unfold pinger_step in Hact.
  all: repeat case_match; simplify_eq; done.
Qed.

Lemma calm_run ls : forall s s',
  client_ok s -> in_service s -> forallb (fun l => negb (setback cfg l)) ls = true -> run cfg ls s = Some (Ok s') ->
  client_ok s' /\ in_service s' /\ (length (chain s') <= length (chain s))%nat.
Proof.
  induction ls as [|l ls IH]; intros s s' Hok Hin Hc Hrun; [injection Hrun as <-; by split_and!|].
  cbn in Hc. apply andb_true_iff in Hc as [Hl Hc]. apply negb_true_iff in Hl. cbn in Hrun.
  destruct (act cfg l s) as [[s1|e]|] eqn:Hact; cbn in Hrun; [|done|done].
  destruct (IH s1 s') as (? & ? & ?); [by eapply act_ok|by eapply in_service_step|done|done|].
  split_and!; [done|done|]. pose proof (calm_step l s s1 Hok Hin Hl Hact). lia.
Qed.
End Reconnection.

(** C27: A client that was connected once and is not stopped always gets back to the server:
    from every reachable state at most six steps, each of which can be taken in its turn, lead
    to a connection if the dial succeeds; whatever the other goroutines do in between, short of
    a failure, leaves no more than the remaining ones. *)
Theorem reconnects `{GoUnicode} cfg s ls s' :
  reachable cfg s -> stopping s = false -> sockets s <> [] -> is_Some (connect_url cfg) ->
  forallb (fun l => negb (setback cfg l)) ls = true -> run cfg ls s = Some (Ok s') ->
  (length (chain s') <= length (chain s) <= 6)%nat
  /\ exists s'', run cfg (chain s') s' = Some (Ok s'') /\ IsConnected s'' = true.
Proof.
  intros Hs Hst Hsock Hurl Hls Hrun. apply client_reachable_ok in Hs.
  destruct (calm_run cfg ls s s') as (Hok & Hin & Hle); try done.
  split; [split; [done|apply chain_length]|].
  assert (Hsucc : succeeds cfg true = true) by (unfold succeeds; cbn; by apply bool_decide_eq_true).
  destruct (chain_runs cfg (length (chain s')) s') as (s2 & Hr2 & Hok2 & Hin2 & Hc2); try done.
  exists s2. split; [done|]. unfold IsConnected. by apply chain_done.
Qed.

(** ** The delay between attempts *)

(** The attempts that failed since the last one that succeeded. *)
Definition failures `{GoUnicode} (cfg : WSClient) (ls : list label) : nat :=
  foldl (fun n l => match l with Connect b => if succeeds cfg b then 0%nat else S n | _ => n end) 0%nat ls.

Definition backoff (n : nat) : Duration := Z.min (5 * Second * 2 ^ Z.of_nat n) (5 * Minute).

Lemma next_delay_backoff serverURL token skip n :
  next_delay (NewWSClient serverURL token skip) (backoff n) = backoff (S n).
Proof.
  assert (Hb : (5 * Second <= backoff n <= 5 * Minute)%Z).
  { unfold backoff. pose proof (Z.pow_pos_nonneg 2 (Z.of_nat n)). unfold Minute, Second in *. lia. }
  unfold next_delay. replace (maxReconnectDelay _) with (5 * Minute)%Z by reflexivity.
  replace (dmul (backoff n) 2) with (backoff n * 2)%Z.
  2: { unfold dmul. symmetry. apply wrap64_id. unfold in_int64, int64_min, int64_max, Minute, Second in *. lia. }
  unfold backoff in *. rewrite Nat2Z.inj_succ, Z.pow_succ_r by lia.
  set (p := (2 ^ Z.of_nat n)%Z) in *. destruct (Z.ltb_spec (5 * Minute) (Z.min (5 * Second * p) (5 * Minute) * 2)%Z);
    unfold Minute, Second in *; lia.
Qed.

Lemma step_delay `{GoUnicode} cfg l s s' :
  act cfg l s = Some (Ok s') ->
  currentDelay s' = match l with
                    | Connect b => if succeeds cfg b then reconnectDelay cfg else next_delay cfg (currentDelay s)
                    | _ => currentDelay s
                    end.
Proof.
  intros Hact. destruct l; cbn [act] in Hact.
  all: try (apply fmap_Some in Hact as (x & Hx & [= ->]); unfold manager_step in Hx; destruct (phase s); try discriminate Hx).
  all: try (apply bind_Some in Hact as (x & Hx & Hact)).
  all: try (apply fmap_Some in Hact as (s1 & Hact & [= ->]); unfold reader_step in Hact; destruct x; try discriminate Hact).
  all: try (destruct x; [apply fmap_Some in Hact as (s1 & Hact & [= ->]); unfold pinger_step in Hact | done]).
  all: try (unfold stop_step in Hact; destruct x; try discriminate Hact).
  all: repeat case_match; simplify_eq; done.
Qed.

(** C0: Between two attempts the manager waits five seconds times two to the number of the
    attempts that failed in a row, at most five minutes; a connection resets it. *)
Theorem reconnects_back_off `{GoUnicode} serverURL token skip ls s :
  let cfg := NewWSClient serverURL token skip in
  run cfg ls (new cfg) = Some (Ok s) ->
  currentDelay s = backoff (failures cfg ls) /\ (5 * Second <= currentDelay s <= 5 * Minute)%Z.
Proof.
  intros cfg Hrun. assert (Hd : currentDelay s = backoff (failures cfg ls)).
  2: { split; [done|]. rewrite Hd. unfold backoff. pose proof (Z.pow_pos_nonneg 2 (Z.of_nat (failures cfg ls))).
       unfold Minute, Second in *. lia. }
  revert s Hrun. induction ls as [|l ls IH] using rev_ind; intros s Hrun; [by injection Hrun as <-|].
  rewrite client_run_app in Hrun. destruct (run cfg ls (new cfg)) as [[s1|e]|]; [|done|done]. cbn in Hrun.
  destruct (act cfg l s1) as [[s2|e]|] eqn:Ha; cbn in Hrun; [|done|done]. injection Hrun as <-.
  rewrite (step_delay cfg l s1 s2 Ha), (IH s1 eq_refl). unfold failures. rewrite foldl_snoc.
  destruct l; try done. destruct (succeeds cfg dialled); [done|]. apply next_delay_backoff.
Qed.

(** ** A first attempt that fails is the last one *)

Definition never_connected (s : Client) : Prop := client_ok s /\ sockets s = [] /\ phase s <> NotStarted.

Lemma never_connected_step `{GoUnicode} cfg l s s' :
  never_connected s -> act cfg l s = Some (Ok s') -> never_connected s'.
Proof.
  intros (Hok & Hs & Hp) Hact. split; [by eapply act_ok|]. pose proof (ck_none s Hok Hs) as Hz. unfold owed in Hz.
  assert (Hn : conn s = None).
  { destruct (conn s) as [c|] eqn:Hc; [|done]. apply (ck_conn s Hok) in Hc. by rewrite Hs in Hc. }
  destruct l; cbn [act] in Hact.
  all: try (apply fmap_Some in Hact as (x & Hx & [= ->]); unfold manager_step in Hx; destruct (phase s); try discriminate Hx).
  all: try (apply bind_Some in Hact as (x & Hx & Hact)).
  all: try (apply fmap_Some in Hact as (s1 & Hact & [= ->]); unfold reader_step in Hact; destruct x; try discriminate Hact).
  all: try (destruct x; [apply fmap_Some in Hact as (s1 & Hact & [= ->]); unfold pinger_step in Hact | done]).
  all: try (unfold stop_step in Hact; destruct x; try discriminate Hact).
  all: try (cbn in Hz; lia).
  all: repeat case_match; simplify_eq; done.
Qed.

(** After a first attempt that fails, which the log says is retried, no run connects. *)
Lemma first_failure_final `{GoUnicode} cfg ls s :
  run cfg (Start false :: ls) (new cfg) = Some (Ok s) -> IsConnected s = false /\ sockets s = [].
Proof.
  assert (Hrun : forall ls s0 s, never_connected s0 -> run cfg ls s0 = Some (Ok s) -> never_connected s).
  { clear. intros ls. induction ls as [|l ls IH]; intros s0 s Hn Hr; [by injection Hr as <-|]. cbn in Hr.
    destruct (act cfg l s0) as [[s1|e]|] eqn:Ha; cbn in Hr; [|done|done]. apply (IH s1); [|done].
    by eapply never_connected_step. }
  cbn. intros Hr. apply Hrun in Hr as (Hok & Hs & _).
  - split; [|done]. unfold IsConnected. destruct (connected s) eqn:Hc; [|done].
    destruct (ck_connected s Hok Hc) as [Hn _]. destruct (conn s) as [c|] eqn:Hcn; [|done].
    apply (ck_conn s Hok) in Hcn. by rewrite Hs in Hcn.
  - split; [|done]. apply (act_ok cfg (Start false) (new cfg)); [apply client_new_ok|done].
Qed.

(** ** Runs *)

Definition demo_client : WSClient := NewWSClient "https://print.example.com/base/" "secret" false.
Definition after (ls : list label) : Client :=
  match run demo_client ls (new demo_client) with Some (Ok s) => s | _ => new demo_client end.

Lemma after_reached ls :
  is_Some (run demo_client ls (new demo_client)) -> reachable demo_client (after ls).
Proof.
  intros [r Hr]. unfold after. rewrite Hr. destruct r as [s|e]; [|apply reach_new].
  by apply (client_run_reaches demo_client ls (new demo_client)); [apply reach_new|].
Qed.

Example demo_address :
  (String_ <$> connect_url demo_client) = Some "wss://print.example.com/base/api/v1/agents/ws?token=secret"
  /\ (maskTokenForLog <$> connect_url demo_client) = Some "wss://print.example.com/base/api/v1/agents/ws?token=%2A%2A%2A".
Proof. vm_compute. split; reflexivity. Qed.

(** Connected, and the connection lost. *)
Definition lost : list label := [Start true; ReaderLoads 0; ReadFails 0]%nat.

Lemma one_connection_witness :
  let s := after lost in
  (forall i j r r', readers s !! i = Some r -> readers s !! j = Some r' -> alive r = 1%nat -> alive r' = 1%nat -> i = j)
  /\ (forall c, sockets s !! c = Some true <-> conn s = Some c)
  /\ (IsConnected s = true -> exists c i r, writable s = Some c /\ sockets s !! c = Some true
        /\ readers s !! i = Some r /\ uncleared r = true)
  /\ (forall i m s' c, readers s !! i = Some (InRead c) -> act demo_client (ReadMessage i m) s = Some (Ok s') -> conn s = Some c).
Proof. apply one_connection, after_reached. vm_compute. eauto. Defined.

Lemma reconnects_witness :
  let s' := after (lost ++ [ClearConnected 0; PingTick 0 false])%nat%list in
  (length (chain s') <= length (chain (after lost)) <= 6)%nat
  /\ exists s'', run demo_client (chain s') s' = Some (Ok s'') /\ IsConnected s'' = true.
Proof.
  apply (reconnects demo_client (after lost) [ClearConnected 0; PingTick 0 false]%nat).
  - apply after_reached. vm_compute. eauto.
  - vm_compute. reflexivity.
  - vm_compute. discriminate.
  - vm_compute. eauto.
  - vm_compute. reflexivity.
  - vm_compute. reflexivity.
Defined.

(** The connection is lost and the next two attempts fail. *)
Definition two_failures : list label :=
  (lost ++ [ClearConnected 0; Signal 0; ManagerBlocks; ManagerTakes; TimerFires; Connect false;
            Retry; ManagerBlocks; ManagerTakes; TimerFires; Connect false])%nat%list.

Lemma reconnects_back_off_witness :
  currentDelay (after two_failures) = backoff (failures demo_client two_failures)
  /\ (5 * Second <= currentDelay (after two_failures) <= 5 * Minute)%Z.
Proof.
  apply (reconnects_back_off "https://print.example.com/base/" "secret" false two_failures). vm_compute. reflexivity.
Defined.

Example two_failures_delay : currentDelay (after two_failures) = (20 * Second)%Z.
Proof. vm_compute. reflexivity. Qed.

(** The connection comes back before the next ping is due: the old ping loop goes on beside
    the new one, on the new connection. *)
Lemma ping_loops_add_up :
  let s := after (lost ++ [ClearConnected 0; Signal 0; ManagerBlocks; ManagerTakes; TimerFires; Connect true;
                           PingTick 0 true; PingTick 1 true])%nat%list in
  pingers s = [true; true].
Proof. vm_compute. reflexivity. Qed.

(** [Stop] while the manager is about to connect: the connection is made afterwards, and when
    every goroutine has ended it is still open. *)
Lemma connection_survives_stop :
  let s := after (lost ++ [ClearConnected 0; Signal 0; ManagerBlocks; ManagerTakes; TimerFires;
                           StopCancels; StopCloses 0; StopClears 0; Connect true; ReaderStops 1; ClearConnected 1; Signal 1;
                           PingStops 0; PingStops 1; ManagerBlocks; ManagerExits])%nat%list in
  sockets s = [false; true] /\ readers s = [Gone; Gone] /\ pingers s = [false; false] /\ phase s = Exited.
Proof. vm_compute. repeat split. Qed.

(** A second call of [Stop] panics. *)
Lemma second_stop_panics :
  run demo_client [Start true; StopCancels; StopCloses 0; StopClears 0; StopCancels; StopCloses 1]%nat (new demo_client)
  = Some (Err "close of closed channel").
Proof. vm_compute. reflexivity. Qed.
