(* ===== verification/AgentProxy.v ===== *)
(** * The requests that the server proxies to an agent ([agent/agent/ws_client.go]): the agent's
    handling of a request, the messages it answers with, and what the server makes of them. *)
From S2P Require Import Prelude GoStrings GoTime GoFloat Effects Programs AuditLog AccountCalls GoText FleetCalls GoUrl ProxyApi FloatBounds.
From Stdlib Require Import Ascii.
#[local] Open Scope string_scope.

(** ** The local handler

    A handler of [net/http] is what it does with its [http.ResponseWriter]. Headers have
    canonical names and lists of values. *)

Notation header := (list (string * list string)).
Definition header_set (k v : string) (h : header) : header :=
  filter (fun kv => kv.1 <> CanonicalHeaderKey k) h ++ [(CanonicalHeaderKey k, [v])].
Definition header_add (k v : string) (h : header) : header :=
  match list_find (fun kv => kv.1 = CanonicalHeaderKey k) h with
  | Some (i, (k', vs)) => <[i := (k', (vs ++ [v])%list)]> h
  | None => (h ++ [(CanonicalHeaderKey k, [v])])%list
  end.

Inductive writer_call :=
| SetHeader (k v : string)
| AddHeader (k v : string)
| WriteHeader (code : Z)
| Write (data : string)
| Flush.

Record local_request := {
  lr_Method : string;
  lr_URL : URL;
  lr_Header : headers;
  lr_Body : string;
}.

Section Agent.
Context `{GoUnicode}.
(** The texts of errors, and the type of a content by its first bytes. *)
Context (parse_error request_error : string -> string) (DetectContentType : string -> string).
Context (now : Time).

(** *** [httptest.ResponseRecorder] *)

Record recorder := {
  rec_Header : header;
  rec_wroteHeader : bool;
  rec_Code : Z;
  rec_snapHeader : header;
  rec_Body : string;
}.
Definition NewRecorder : recorder :=
  {| rec_Header := []; rec_wroteHeader := false; rec_Code := 200; rec_snapHeader := []; rec_Body := "" |}.

Definition rec_set_header (h : header) (r : recorder) : recorder :=
  {| rec_Header := h; rec_wroteHeader := rec_wroteHeader r; rec_Code := rec_Code r; rec_snapHeader := rec_snapHeader r;
     rec_Body := rec_Body r |}.
(** A code that is not of three digits panics. *)
Definition rec_write_header (code : Z) (r : recorder) : option recorder :=
  if rec_wroteHeader r then Some r
  else if (code <? 100)%Z || (999 <? code)%Z then None
  else Some {| rec_Header := rec_Header r; rec_wroteHeader := true; rec_Code := code; rec_snapHeader := rec_Header r;
               rec_Body := rec_Body r |}.
(** A first write without a type sets one, by the data. *)
Definition rec_sniff (data : string) (r : recorder) : option recorder :=
  if rec_wroteHeader r then Some r
  else
    let has k := bool_decide (k ∈ (rec_Header r).*1) in
    let te := match list_find (fun kv => kv.1 = "Transfer-Encoding") (rec_Header r) with
              | Some (_, (_, v :: _)) => v | _ => "" end in
    rec_write_header 200
      (if negb (has "Content-Type") && String.eqb te ""
       then rec_set_header (header_set "Content-Type" (DetectContentType data) (rec_Header r)) r else r).
Definition rec_append (data : string) (r : recorder) : recorder :=
  {| rec_Header := rec_Header r; rec_wroteHeader := rec_wroteHeader r; rec_Code := rec_Code r;
     rec_snapHeader := rec_snapHeader r; rec_Body := rec_Body r +:+ data |}.

Definition rec_call (c : writer_call) (r : recorder) : option recorder :=
  match c with
  | SetHeader k v => Some (rec_set_header (header_set k v (rec_Header r)) r)
  | AddHeader k v => Some (rec_set_header (header_add k v (rec_Header r)) r)
  | WriteHeader code => rec_write_header code r
  | Write data => rec_append data <$> rec_sniff data r
  | Flush => rec_write_header 200 r
  end.
Definition recorded (l : list writer_call) : option recorder := foldl (fun r c => r ≫= rec_call c) (Some NewRecorder) l.

(** [Result]: the headers at the time of the first write, or the present ones. *)
Definition result_header (r : recorder) : header := if rec_wroteHeader r then rec_snapHeader r else rec_Header r.

(** *** Messages *)

(** [sendProxyResponse], [sendProxyStreamStart], [sendProxyStreamChunk] and [sendProxyStreamEnd]:
    the message, which is written if the agent is connected (WsClient). *)
Definition sendProxyResponse (requestID : string) (statusCode : Z) (h : headers) (body : string) : Message :=
  {| Msg_Type := "proxy_response";
     Msg_Data := Some [("request_id", FStr requestID); ("status_code", FInt statusCode);
                       ("headers", FMap (header_fields h)); ("body", FStr (EncodeToString body))];
     Msg_Timestamp := now |}.
Definition sendProxyError (requestID errorMsg : string) : Message :=
  sendProxyResponse requestID 502 [("Content-Type", "text/plain")] errorMsg.
Definition sendProxyStreamStart (requestID : string) (statusCode : Z) (h : headers) : Message :=
  {| Msg_Type := "proxy_stream_chunk";
     Msg_Data := Some [("request_id", FStr requestID); ("status_code", FInt statusCode);
                       ("headers", FMap (header_fields h)); ("is_start", FBool true)];
     Msg_Timestamp := now |}.
Definition sendProxyStreamChunk (requestID data : string) : Message :=
  {| Msg_Type := "proxy_stream_chunk";
     Msg_Data := Some [("request_id", FStr requestID); ("chunk", FStr (EncodeToString data))];
     Msg_Timestamp := now |}.
Definition sendProxyStreamEnd (requestID : string) : Message :=
  {| Msg_Type := "proxy_stream_end"; Msg_Data := Some [("request_id", FStr requestID)]; Msg_Timestamp := now |}.

(** The first value of each header, without the ones that forbid frames. *)
Definition named (names : list string) (k : string) : bool := existsb (fun n => EqualFold k n) names.
Definition frame_headers : list string :=
  ["X-Frame-Options"; "Content-Security-Policy"; "Content-Security-Policy-Report-Only"].
Definition sent_headers (h : header) : headers :=
  omap (fun kv => match kv.2 with v :: _ => if named frame_headers kv.1 then None else Some (kv.1, v) | [] => None end) h.

(** *** [streamingResponseWriter] *)

Record streamingResponseWriter := {
  sw_headers : header;
  sw_statusCode : Z;
  sw_wroteHeader : bool;
  sw_headersSent : bool;
  sw_sent : list Message;
}.
Definition newStreamingResponseWriter : streamingResponseWriter :=
  {| sw_headers := []; sw_statusCode := 200; sw_wroteHeader := false; sw_headersSent := false; sw_sent := [] |}.

Definition sw_set_headers (h : header) (w : streamingResponseWriter) : streamingResponseWriter :=
  {| sw_headers := h; sw_statusCode := sw_statusCode w; sw_wroteHeader := sw_wroteHeader w;
     sw_headersSent := sw_headersSent w; sw_sent := sw_sent w |}.
Definition sw_write_header (requestID : string) (code : Z) (w : streamingResponseWriter) : streamingResponseWriter :=
  if sw_wroteHeader w then w
  else {| sw_headers := sw_headers w; sw_statusCode := code; sw_wroteHeader := true; sw_headersSent := true;
          sw_sent := if sw_headersSent w then sw_sent w
                     else (sw_sent w ++ [sendProxyStreamStart requestID code (sent_headers (sw_headers w))])%list |}.
Definition sw_write (requestID data : string) (w : streamingResponseWriter) : streamingResponseWriter :=
  let w := if sw_wroteHeader w then w else sw_write_header requestID 200 w in
  {| sw_headers := sw_headers w; sw_statusCode := sw_statusCode w; sw_wroteHeader := sw_wroteHeader w;
     sw_headersSent := sw_headersSent w; sw_sent := (sw_sent w ++ [sendProxyStreamChunk requestID data])%list |}.

Definition sw_call (requestID : string) (w : streamingResponseWriter) (c : writer_call) : streamingResponseWriter :=
  match c with
  | SetHeader k v => sw_set_headers (header_set k v (sw_headers w)) w
  | AddHeader k v => sw_set_headers (header_add k v (sw_headers w)) w
  | WriteHeader code => sw_write_header requestID code w
  | Write data => sw_write requestID data w
  | Flush => w
  end.
Definition streamed (requestID : string) (l : list writer_call) : list Message :=
  sw_sent (foldl (sw_call requestID) newStreamingResponseWriter l).

(** *** The request *)

(** [http.NewRequest]: a method that is a token and an address that can be parsed. *)
Definition NewRequest (method reqPath body : string) : option local_request :=
  if negb (all_bytes token_byte method) then None
  else u ← Parse reqPath; Some {| lr_Method := method; lr_URL := u; lr_Header := []; lr_Body := body |}.

Definition hop_by_hop : list string :=
  ["Connection"; "Keep-Alive"; "Proxy-Authenticate"; "Proxy-Authorization"; "TE"; "Trailers"; "Transfer-Encoding"; "Upgrade"].

(** The headers of the request, and the mark of a request from the server. *)
Definition local_headers (l : headers) : headers :=
  hSet "X-PrintMaster-Proxy" "server"
    (foldl (fun h kv => if named hop_by_hop kv.1 then h else hSet kv.1 kv.2 h) [] l).

Definition request_path (path rawQuery : string) : string :=
  let reqPath := if String.eqb path "" then "/" else path in
  if String.eqb rawQuery "" then reqPath else reqPath +:+ "?" +:+ rawQuery.

Definition local_request_of (method path rawQuery body : string) (l : headers) : option local_request :=
  req ← NewRequest method (request_path path rawQuery) body;
  Some {| lr_Method := lr_Method req; lr_URL := lr_URL req; lr_Header := local_headers l; lr_Body := lr_Body req |}.

Definition handleStreamingProxyRequest (requestID method path rawQuery : string) (l : headers) (body : string)
  (handler : local_request -> list writer_call) : option (list Message) :=
  match local_request_of method path rawQuery body l with
  | None =>
      Some [sendProxyError requestID ("Failed to create streaming request: " +:+ request_error (request_path path rawQuery))]
  | Some req => Some (streamed requestID (handler req) ++ [sendProxyStreamEnd requestID])%list
  end.

Definition handleLocalProxyRequest (requestID method path rawQuery : string) (l : headers) (body : string)
  (handler : local_request -> list writer_call) : option (list Message) :=
  match local_request_of method path rawQuery body l with
  | None => Some [sendProxyError requestID ("Failed to create local request: " +:+ request_error (request_path path rawQuery))]
  | Some req =>
      r ← recorded (handler req);
      Some [sendProxyResponse requestID (rec_Code r) (sent_headers (result_header r)) (rec_Body r)]
  end.

(** [msg.Data[k].(string)] *)
Definition text_of (k : string) (d : fields) : option string :=
  match fget k d with Some (FStr s) => Some s | _ => None end.

Definition message_headers (d : fields) : headers :=
  match fget "headers" d with
  | Some (FMap l) => omap (fun kv => match kv.2 with FStr v => Some (kv.1, v) | _ => None end) l
  | _ => []
  end.

Definition is_local (hostname : string) : bool :=
  String.eqb hostname "localhost" || String.eqb hostname "127.0.0.1" || String.eqb hostname "::1".

(** [handler] is [None] if it is not registered within ten seconds. The result is [None] for a
    panic, which nothing recovers: it ends the agent. *)
Definition handleProxyRequest (handler : option (local_request -> list writer_call)) (m : Message) : option (list Message) :=
  let d := msg_data m in
  match text_of "request_id" d with
  | None => Some []
  | Some requestID =>
      match text_of "url" d with
      | None => Some [sendProxyError requestID "Missing target URL"]
      | Some targetURL =>
          let method := match text_of "method" d with Some "" | None => "GET" | Some s => s end in
          let body := match text_of "body" d with Some b => default "" (DecodeString b) | None => "" end in
          match Parse targetURL with
          | None => Some [sendProxyError requestID ("Invalid URL: " +:+ parse_error targetURL)]
          | Some u =>
              if negb (is_local (Hostname u)) then Some [sendProxyError requestID "Proxy only supports localhost targets"]
              else
                match handler with
                | None => Some [sendProxyError requestID "Local handler not available (server may be shutting down)"]
                | Some handler =>
                    (if get_bool "streaming" d then handleStreamingProxyRequest else handleLocalProxyRequest)
                      requestID method (UPath u) (GoUrl.RawQuery u) (message_headers d) body handler
                end
          end
      end
  end.

(** The command, and its data for the handler, if one is registered. *)
Definition handleCommand (registered : bool) (m : Message) : option (string * fields) :=
  let command := get_str "command" (msg_data m) in
  if String.eqb command "" then None else if registered then Some (command, msg_data m) else None.
End Agent.

(** ** Across the connection

    A message is marshalled and unmarshalled: numbers become floats, and [recode] is what JSON
    leaves of a text, whose bytes that are not UTF-8 it replaces. *)
Section Wire.
Context (recode : string -> string) (format_time : Time -> string).

Fixpoint wire (f : field) : field :=
  match f with
  | FStr s => FStr (recode s)
  | FInt z => FNum (float_of_Z z)
  | FBool b => FBool b
  | FTime t => FStr (format_time t)
  | FStrs l => FList (map (fun s => FStr (recode s)) l)
  | FMap m => FMap (map (fun kv => (recode kv.1, wire kv.2)) m)
  | FNull => FNull
  | FNum f => FNum f
  | FList l => FList (map wire l)
  end.

Definition wire_message (m : Message) : Message :=
  {| Msg_Type := Msg_Type m;
     Msg_Data := match Msg_Data m with
                 | None | Some [] => None
                 | Some d => Some (map (fun kv => (recode kv.1, wire kv.2)) d)
                 end;
     Msg_Timestamp := Msg_Timestamp m |}.
End Wire.

(** What of the messages is written: each one only if the agent is connected just then. *)
Fixpoint delivered (connected : list bool) (l : list Message) : list Message :=
  match connected, l with
  | b :: bs, m :: l => if b : bool then m :: delivered bs l else delivered bs l
  | _, _ => []
  end.

(** The data that a handler writes. *)
Definition written (l : list writer_call) : list string :=
  omap (fun c => match c with Write data => Some data | _ => None end) l.
Definition content (l : list string) : string := foldr String.append "" l.

(** ** Lemmas *)

Lemma int_of_float_of_Z n : (0 <= n < 2 ^ 53)%Z -> int_of_float (float_of_Z n) = n.
Proof.
  intros Hn. destruct (V_float_of_Z n Hn) as [HV Ha].
  rewrite (int_of_V 53); [|lia|by apply float_of_Z_small|].
  - rewrite HV. by apply Z.div_mul.
  - unfold above in *. destruct (float_of_Z n); try done. lia.
Qed.

Lemma content_snoc l d : content (l ++ [d])%list = content l +:+ d.
Proof.
  induction l as [|x l IH]; cbn; [by rewrite append_empty_r|]. unfold content in *. rewrite IH.
  by rewrite append_assoc.
Qed.

Lemma written_app l l' : written (l ++ l')%list = (written l ++ written l')%list.
Proof. apply omap_app. Qed.

(** *** The recorder *)

Section Recorder.
Context (DetectContentType : string -> string).
#[local] Notation recorded := (recorded DetectContentType).

Lemma recorded_snoc l c : recorded (l ++ [c])%list = recorded l ≫= rec_call DetectContentType c.
Proof. unfold AgentProxy.recorded. by rewrite foldl_snoc. Qed.

Lemma write_header_kept code r r' :
  rec_write_header code r = Some r' -> rec_Body r' = rec_Body r /\ rec_wroteHeader r' = true
  /\ (rec_Code r' = rec_Code r /\ rec_wroteHeader r = true \/ rec_Code r' = code /\ (100 <= code <= 999)%Z /\ rec_wroteHeader r = false).
Proof.
  unfold rec_write_header. destruct (rec_wroteHeader r) eqn:Hw; [intros [= <-]; by auto|].
  destruct (Z.ltb_spec code 100), (Z.ltb_spec 999 code); intros [= <-]; cbn. split_and!; [done..|]. right. lia.
Qed.

Lemma sniff_kept data r r' :
  rec_sniff DetectContentType data r = Some r' -> rec_Body r' = rec_Body r /\ rec_wroteHeader r' = true
  /\ (rec_Code r' = rec_Code r /\ rec_wroteHeader r = true \/ rec_Code r' = 200%Z /\ rec_wroteHeader r = false).
Proof.
  unfold rec_sniff. destruct (rec_wroteHeader r) eqn:Hw; [intros [= <-]; by auto|].
  intros (Hb & Hh & Hc)%write_header_kept. destruct (negb _ && _); cbn in *; naive_solver.
Qed.

Lemma recorded_body l r : recorded l = Some r -> content (written l) = rec_Body r.
Proof.
  revert r. induction l as [|c l IH] using rev_ind; intros r Hr; [by injection Hr as <-|].
  rewrite recorded_snoc in Hr. apply bind_Some in Hr as (r0 & Hr0 & Hc). specialize (IH r0 Hr0). rewrite written_app.
  destruct c; cbn [rec_call] in Hc.
  - injection Hc as <-. by rewrite app_nil_r.
  - injection Hc as <-. by rewrite app_nil_r.
  - apply write_header_kept in Hc as [-> _]. cbn. by rewrite app_nil_r.
  - apply fmap_Some in Hc as (r1 & [Hb _]%sniff_kept & ->). cbn. by rewrite content_snoc, IH, Hb.
  - apply write_header_kept in Hc as [-> _]. cbn. by rewrite app_nil_r.
Qed.

Lemma recorded_code l r : recorded l = Some r -> (100 <= rec_Code r <= 999)%Z.
Proof.
  revert r. induction l as [|c l IH] using rev_ind; intros r Hr; [injection Hr as <-; cbn; lia|].
  rewrite recorded_snoc in Hr. apply bind_Some in Hr as (r0 & Hr0 & Hc). specialize (IH r0 Hr0).
  destruct c; cbn [rec_call] in Hc.
  - by injection Hc as <-.
  - by injection Hc as <-.
  - apply write_header_kept in Hc as (_ & _ & Hc). lia.
  - apply fmap_Some in Hc as (r1 & (_ & _ & Hc)%sniff_kept & ->). cbn. lia.
  - apply write_header_kept in Hc as (_ & _ & Hc). lia.
Qed.
End Recorder.

(** *** The wire *)

Section Wired.
Context (recode : string -> string) (format_time : Time -> string).
(** JSON keeps a text of ASCII bytes. *)
Context (recode_ascii : forall s, is_ascii s = true -> recode s = s).
#[local] Notation wire := (wire recode format_time).
#[local] Notation wire_message := (wire_message recode format_time).

Lemma fget_wire k d :
  forallb (fun kv : string * field => is_ascii kv.1) d = true ->
  fget k (map (fun kv => (recode kv.1, wire kv.2)) d) = wire <$> fget k d.
Proof.
  induction d as [|[k' v] d IH]; intros Hd; [done|]. cbn in Hd. apply andb_true_iff in Hd as [Hk Hd].
  cbn. rewrite recode_ascii by done. destruct (String.eqb k' k); [done|by apply IH].
Qed.

Lemma data_wire k m :
  forallb (fun kv : string * field => is_ascii kv.1) (msg_data m) = true ->
  fget k (msg_data (wire_message m)) = wire <$> fget k (msg_data m).
Proof.
  intros Hd. unfold msg_data, AgentProxy.wire_message in *. cbn in *. destruct (Msg_Data m) as [[|kv d]|]; [done| |done].
  by apply fget_wire.
Qed.

Lemma headers_wire (h : headers) :
  omap (fun kv => match kv.2 with FStr v => Some (kv.1, v) | _ => None end)
    (map (fun kv => (recode kv.1, wire kv.2)) (header_fields h)) = map (fun kv => (recode kv.1, recode kv.2)) h.
Proof. induction h as [|[k v] h IH]; [done|]. cbn. by rewrite <- IH. Qed.

Lemma headers_ascii (h : headers) :
  forallb (fun kv : string * string => is_ascii kv.1 && is_ascii kv.2) h = true -> map (fun kv => (recode kv.1, recode kv.2)) h = h.
Proof.
  induction h as [|[k v] h IH]; intros Hh; [done|]. cbn in Hh. apply andb_true_iff in Hh as [[Hk Hv]%andb_true_iff Hh].
  cbn. by rewrite !recode_ascii, IH.
Qed.

Lemma token_ascii s : all_bytes token_byte s = true -> is_ascii s = true.
Proof.
  induction s as [|c s IH]; [done|]. cbn. intros [Hc Hs]%andb_true_iff. rewrite IH by done. rewrite andb_true_r.
  clear -Hc. revert Hc. destruct c as [[] [] [] [] [] [] [] []]; vm_compute; done.
Qed.

(** A response, when it arrives. *)
Lemma response_arrives now requestID code h body :
  is_ascii requestID = true -> (0 <= code < 2 ^ 53)%Z ->
  let m := wire_message (sendProxyResponse now requestID code h body) in
  text_of "request_id" (msg_data m) = Some requestID /\ status_of m = code /\ answer_body m = Some body
  /\ message_headers (msg_data m) = map (fun kv => (recode kv.1, recode kv.2)) h.
Proof.
  intros Hid Hcode m. unfold text_of, status_of, answer_body, message_headers. subst m. rewrite !data_wire by done. cbn.
  destruct (Encode_Decode body) as [Hd Ha]. rewrite !recode_ascii, int_of_float_of_Z, Hd by done.
  by rewrite headers_wire.
Qed.

(** The messages of a stream, and the data they carry. *)
Inductive carries (now : Time) (requestID : string) : list Message -> list string -> Prop :=
| carries_end : carries now requestID [] []
| carries_start code h l ds :
    carries now requestID l ds -> carries now requestID (sendProxyStreamStart now requestID code h :: l) ds
| carries_chunk d l ds :
    carries now requestID l ds -> carries now requestID (sendProxyStreamChunk now requestID d :: l) (d :: ds).

Lemma carries_app now requestID l ds l' ds' :
  carries now requestID l ds -> carries now requestID l' ds' -> carries now requestID (l ++ l') (ds ++ ds').
Proof. induction 1; intros Hl'; cbn; [done|constructor; auto..]. Qed.

(** What is left of a stream when messages are lost. *)
Lemma carries_sublist now requestID l ds l' :
  carries now requestID l ds -> l' `sublist_of` l ->
  exists ds', carries now requestID l' ds' /\ ds' `sublist_of` ds.
Proof.
  intros Hc. revert l'. induction Hc as [|code h l ds Hc IH|d l ds Hc IH]; intros l' Hl.
  - apply sublist_nil_r in Hl as ->. exists []. by repeat constructor.
  - apply sublist_cons_r in Hl as [Hl|(l0 & -> & Hl)]; destruct (IH _ Hl) as (ds' & Hc' & Hs).
    + by exists ds'.
    + exists ds'. split; [by constructor | done].
  - apply sublist_cons_r in Hl as [Hl|(l0 & -> & Hl)]; destruct (IH _ Hl) as (ds' & Hc' & Hs).
    + exists ds'. split; [done | by constructor].
    + exists (d :: ds'). split; by constructor.
Qed.

Lemma stream_carried json_parse json_print now requestID l ds rest :
  carries now requestID l ds -> forall es, stream_events json_parse json_print (map wire_message rest) = mret es ->
  stream_events json_parse json_print (map wire_message (l ++ rest)%list) = mret (ds ++ es)%list.
Proof.
  intros Hl es Hes. induction Hl as [|code h l ds Hl IH|d l ds Hl IH]; [done|..]; cbn [app map stream_events].
  - change (Msg_Type (wire_message (sendProxyStreamStart now requestID code h))) with "proxy_stream_chunk". cbn [String.eqb Ascii.eqb Bool.eqb].
    replace (get_bool "is_start" _) with true by (unfold get_bool; by rewrite data_wire).
    rewrite IH. done.
  - change (Msg_Type (wire_message (sendProxyStreamChunk now requestID d))) with "proxy_stream_chunk". cbn [String.eqb Ascii.eqb Bool.eqb].
    replace (get_bool "is_start" _) with false by (unfold get_bool; by rewrite data_wire).
    rewrite data_wire by done. cbn [fget sendProxyStreamChunk msg_data Msg_Data].
    destruct (Encode_Decode d) as [Hd Ha]. cbn. rewrite recode_ascii by done. rewrite Hd. rewrite IH. done.
Qed.
End Wired.

(** *** The streaming writer *)

Lemma streamed_snoc `{GoUnicode} now requestID l c :
  foldl (sw_call now requestID) newStreamingResponseWriter (l ++ [c])%list
  = sw_call now requestID (foldl (sw_call now requestID) newStreamingResponseWriter l) c.
Proof. by rewrite foldl_snoc. Qed.

Lemma streamed_carries `{GoUnicode} now requestID l :
  let w := foldl (sw_call now requestID) newStreamingResponseWriter l in
  sw_headersSent w = sw_wroteHeader w /\ carries now requestID (sw_sent w) (written l).
Proof.
  induction l as [|c l IH] using rev_ind; [split; [done|constructor]|]. cbn zeta in *. rewrite streamed_snoc, written_app.
  set (w := foldl _ _ l) in *. destruct IH as [Hs Hc].
  assert (Hstart : forall code, let w' := sw_write_header now requestID code w in
            sw_headersSent w' = sw_wroteHeader w' /\ carries now requestID (sw_sent w') (written l)).
  { intros code. unfold sw_write_header. destruct (sw_wroteHeader w) eqn:Hw; [by rewrite Hs, Hw|].
    split; [done|]. cbn. rewrite Hs.
    rewrite <- (app_nil_r (written l)). apply carries_app; [done|]. by repeat constructor. }
  destruct c as [k v|k v|code|data|]; cbn [sw_call written omap list_omap].
  - by rewrite app_nil_r.
  - by rewrite app_nil_r.
  - rewrite app_nil_r. apply Hstart.
  - unfold sw_write. assert (Hw : forall w0, sw_headersSent w0 = sw_wroteHeader w0 /\ carries now requestID (sw_sent w0) (written l) ->
      sw_headersSent w0 = sw_wroteHeader w0
      /\ carries now requestID (sw_sent w0 ++ [sendProxyStreamChunk now requestID data]) (written l ++ [data])).
    { intros w0 [H1 H2]. split; [done|]. apply carries_app; [done|]. by repeat constructor. }
    destruct (sw_wroteHeader w) eqn:He; [apply (Hw w); split; [congruence|done]|apply (Hw (sw_write_header now requestID 200 w)), Hstart].
  - by rewrite app_nil_r.
Qed.

(** ** Properties *)

(** C28: A request proxied to an agent reaches the local handler with its method, address,
    headers and body, and the status and the body that the handler makes are what the server
    reads from the answer, byte for byte, with the identifier of the request. *)
Theorem proxied_round_trip `{GoUnicode} parse_error request_error DetectContentType now recode format_time
  requestID targetURL method h body u req handler r :
  (forall s, is_ascii s = true -> recode s = s) ->
  is_ascii requestID = true -> is_ascii targetURL = true -> method <> "" -> is_ascii method = true ->
  forallb (fun kv : string * string => is_ascii kv.1 && is_ascii kv.2) h = true ->
  Parse targetURL = Some u -> is_local (Hostname u) = true ->
  local_request_of method (UPath u) (GoUrl.RawQuery u) body h = Some req ->
  recorded DetectContentType (handler req) = Some r ->
  lr_Method req = method /\ lr_Body req = body
  /\ exists m,
    handleProxyRequest parse_error request_error DetectContentType now (Some handler)
      (wire_message recode format_time
         {| Msg_Type := "proxy_request"; Msg_Data := Some (proxy_fields requestID targetURL method h (EncodeToString body));
            Msg_Timestamp := now |}) = Some [m]
    /\ let m' := wire_message recode format_time m in
       text_of "request_id" (msg_data m') = Some requestID /\ status_of m' = rec_Code r /\ answer_body m' = Some (rec_Body r)
       /\ message_headers (msg_data m') = map (fun kv => (recode kv.1, recode kv.2)) (sent_headers (result_header r)).
Proof.
  intros Hrec Hid Hurl Hne Hm Hh Hu Hl Hreq Hr.
  destruct (Encode_Decode body) as [Hd Ha]. pose proof (recorded_code DetectContentType _ r Hr) as Hcode.
  split; [|split].
  1,2: unfold local_request_of, NewRequest in Hreq; destruct (negb _); [done|];
       destruct (Parse (request_path _ _)); [|done]; by injection Hreq as <-.
  exists (sendProxyResponse now requestID (rec_Code r) (sent_headers (result_header r)) (rec_Body r)).
  split; [|apply response_arrives; [done|done|lia]].
  unfold handleProxyRequest, text_of, message_headers, get_bool. rewrite !(data_wire recode format_time Hrec) by done. cbn.
  rewrite !Hrec by done. rewrite Hu, Hl, Hd. cbn [negb default].
  assert (Hmethod : match method with "" => "GET" | String _ _ => method end = method) by (by destruct method).
  rewrite Hmethod, headers_wire, headers_ascii by done. unfold handleLocalProxyRequest. unfold id. rewrite Hreq. cbn. by rewrite Hr.
Qed.

(** C29: When every message of a stream arrives, what the server sends on is, write by write,
    what the local handler wrote, and together the body of the buffered answer to the same
    request; the stream ends without an error. Messages can be lost, when the agent cannot
    write one or the channel of the request is full: of any messages that arrive in their
    order, the server sends on what their writes carried, some of the writes of the handler
    in the order of the handler, none twice and none made up. A lost end shows as an error
    after them; a lost chunk does not show at all ([lost_chunk_unnoticed]). *)
Theorem streamed_like_buffered `{GoUnicode} DetectContentType now recode format_time json_parse json_print requestID l r :
  (forall s, is_ascii s = true -> recode s = s) ->
  recorded DetectContentType l = Some r ->
  stream_events json_parse json_print
    (map (wire_message recode format_time) (streamed now requestID l ++ [sendProxyStreamEnd now requestID])%list)
  = mret (written l)
  /\ content (written l) = rec_Body r
  /\ forall arrived, arrived `sublist_of` streamed now requestID l -> exists sent, sent `sublist_of` written l
     /\ stream_events json_parse json_print
          (map (wire_message recode format_time) (arrived ++ [sendProxyStreamEnd now requestID])%list) = mret sent
     /\ stream_events json_parse json_print (map (wire_message recode format_time) arrived)
        = mret (sent ++ [stream_error "Request timed out"])%list.
Proof.
  intros Hrec Hr. destruct (streamed_carries now requestID l) as [_ Hc].
  assert (Hends : forall l' ds, carries now requestID l' ds ->
    stream_events json_parse json_print
      (map (wire_message recode format_time) (l' ++ [sendProxyStreamEnd now requestID])%list) = mret ds).
  { intros l' ds Hc'. rewrite (stream_carried recode format_time Hrec json_parse json_print now requestID _ _
      [sendProxyStreamEnd now requestID] Hc' []); [by rewrite app_nil_r | done]. }
  split; [by apply Hends|]. split; [by apply (recorded_body DetectContentType)|].
  intros arrived Ha. destruct (carries_sublist _ _ _ _ _ Hc Ha) as (sent & Hs & Hsub).
  exists sent. split; [done|]. split; [by apply Hends|].
  rewrite <- (app_nil_r arrived).
  by apply (stream_carried recode format_time Hrec json_parse json_print now requestID _ _ [] Hs).
Qed.

(** ** On an example *)

(** The handler of a small agent: it answers with its status, in two writes. *)
Definition demo_handler (req : local_request) : list writer_call :=
  [SetHeader "Content-Type" "text/plain"; SetHeader "x-frame-options" "DENY"; WriteHeader 418;
   Write (lr_Method req +:+ " "); Write (UPath (lr_URL req) +:+ "?" +:+ GoUrl.RawQuery (lr_URL req))].

Definition demo_url (path : string) : string := "http://localhost:8080" +:+ path.
Definition demo_answer (path : string) : option (list Message) :=
  handleProxyRequest id id (fun _ => "text/plain; charset=utf-8") 0 (Some demo_handler)
    {| Msg_Type := "proxy_request"; Msg_Data := Some (proxy_fields "A-1" (demo_url path) "POST" [] ""); Msg_Timestamp := 0%Z |}.

Lemma proxied_round_trip_witness :
  exists u req r, Parse (demo_url "/status?a=1") = Some u
  /\ local_request_of "POST" (UPath u) (GoUrl.RawQuery u) "{}" [("Accept", "text/html")] = Some req
  /\ recorded (fun _ => "") (demo_handler req) = Some r
  /\ (lr_Method req = "POST" /\ lr_Body req = "{}"
  /\ exists m,
    handleProxyRequest id id (fun _ => "") 0 (Some demo_handler)
      (wire_message id (fun _ => "") {| Msg_Type := "proxy_request";
         Msg_Data := Some (proxy_fields "A-1" (demo_url "/status?a=1") "POST" [("Accept", "text/html")] (EncodeToString "{}"));
         Msg_Timestamp := 0%Z |}) = Some [m]
    /\ let m' := wire_message id (fun _ => "") m in
       text_of "request_id" (msg_data m') = Some "A-1" /\ status_of m' = rec_Code r /\ answer_body m' = Some (rec_Body r)
       /\ message_headers (msg_data m') = map (fun kv => (id kv.1, id kv.2)) (sent_headers (result_header r))).
Proof.
  eexists _, _, _. split; [vm_compute; reflexivity|]. split; [vm_compute; reflexivity|]. split; [vm_compute; reflexivity|].
  eapply (proxied_round_trip id id (fun _ => "") 0 id (fun _ => "") "A-1" (demo_url "/status?a=1") "POST" [("Accept", "text/html")] "{}").
  - done.
  - vm_compute. reflexivity.
  - vm_compute. reflexivity.
  - discriminate.
  - vm_compute. reflexivity.
  - vm_compute. reflexivity.
  - vm_compute. reflexivity.
  - vm_compute. reflexivity.
  - vm_compute. reflexivity.
  - vm_compute. reflexivity.
Defined.

(** The answer the server reads. *)
Example demo_answered :
  (m ← demo_answer "/status?a=1"; Some (map (fun m => let m := wire_message id (fun _ => "") m in
      (status_of m, answer_body m, message_headers (msg_data m))) m))
  = Some [(418%Z, Some "POST /status?a=1", [("Content-Type", "text/plain")])].
Proof. vm_compute. reflexivity. Qed.

(** The writes of the handler, as a stream. *)
Definition demo_writes : list writer_call := [WriteHeader 200; Write "one"; Write "two"; Write "three"].

Lemma streamed_like_buffered_witness :
  exists r, recorded (fun _ => "") demo_writes = Some r
  /\ (stream_events (fun _ => None) (fun _ => "")
        (map (wire_message id (fun _ => "")) (streamed 0 "A-1" demo_writes ++ [sendProxyStreamEnd 0 "A-1"])%list)
      = mret (written demo_writes)
  /\ content (written demo_writes) = rec_Body r
  /\ forall arrived, arrived `sublist_of` streamed 0 "A-1" demo_writes -> exists sent, sent `sublist_of` written demo_writes
     /\ stream_events (fun _ => None) (fun _ => "")
          (map (wire_message id (fun _ => "")) (arrived ++ [sendProxyStreamEnd 0 "A-1"])%list) = mret sent
     /\ stream_events (fun _ => None) (fun _ => "") (map (wire_message id (fun _ => "")) arrived)
        = mret (sent ++ [stream_error "Request timed out"])%list).
Proof.
  eexists. split; [vm_compute; reflexivity|]. apply (streamed_like_buffered (fun _ => "")); [done|vm_compute; reflexivity].
Defined.

(** A chunk that the agent could not write, because the connection was being replaced, is
    missing in what the server sends on, and the stream ends as if it were complete. *)
Lemma lost_chunk_unnoticed :
  stream_events (fun _ => None) (fun _ => "")
    (map (wire_message id (fun _ => ""))
       (delivered [true; true; false; true; true] (streamed 0 "A-1" demo_writes ++ [sendProxyStreamEnd 0 "A-1"])%list))
  = mret ["one"; "three"].
Proof. vm_compute. reflexivity. Qed.

(** The path is decoded for the local request and parsed again: an encoded percent sign is
    refused, an encoded question mark starts a query, and a path that begins with two slashes
    loses its first element. *)
Lemma path_parsed_again :
  (map (fun m => (status_of (wire_message id (fun _ => "") m)))) <$> demo_answer "/files/50%25" = Some [502%Z]
  /\ (l ← demo_answer "/files/a%3Fb"; Some (map answer_body l)) = Some [Some "POST /files/a?b"]
  /\ (l ← demo_answer "//files/b"; Some (map answer_body l)) = Some [Some "POST /b?"].
Proof. vm_compute. repeat split. Qed.
