(* ===== verification/ScanPool.v ===== *)
(** * Worker pools over unbuffered channels ([agent/scanner/pipeline.go]).

    A pool is a number of goroutines that receive items from a channel, handle each,
    and send what comes out of it to the pool's own unbuffered channel, which a further
    goroutine closes when all workers have returned. Pools are chained: the channel of
    one is the input of the next. A send on an unbuffered channel and the receive that
    takes it are one step of both goroutines. Any ready case of a [select] may be taken,
    and the goroutines interleave arbitrarily. *)
From S2P Require Import Prelude.

(** ** Data *)

Section Pools.
Context {World Item : Type}.

(** What a worker does with an item: nothing, one output, or a call of a function of
    the configuration in the world as it is then. *)
Inductive reaction :=
| Skip
| Emit (y : Item)
| Ask (f : World -> option Item).

(** [watches]: the goroutines start after a delay and every [select] has the case
    [<-ctx.Done()]. *)
Record Pool := { watches : bool; count : nat; react : Item -> reaction }.

Inductive worker :=
| Starting
| Idle
| Busy (f : World -> option Item) (x : Item)
| Sending (y : Item)
| Exited.

Record Stage := { pool : Pool; workers : list worker; closed : bool }.

(** The jobs are in a buffered channel that is closed already; [results] is what the
    loop over the last channel has received, [returned] that it has ended. *)
Record Pipeline := {
  jobs : list Item;
  stages : list Stage;
  results : list Item;
  returned : bool;
  cancelled : bool;
}.

Definition start_pool (p : Pool) : Stage :=
  {| pool := p; workers := replicate (count p) (if watches p then Starting else Idle);
     closed := false |}.

Definition start (input : list Item) (pools : list Pool) : Pipeline :=
  {| jobs := input; stages := map start_pool pools; results := []; returned := false;
     cancelled := false |}.

(** ** Steps *)

Definition set_worker_in (k : nat) (w : worker) (st : Stage) : Stage :=
  {| pool := pool st; workers := <[k := w]> (workers st); closed := closed st |}.

Definition set_worker (i k : nat) (w : worker) (s : Pipeline) : Pipeline :=
  {| jobs := jobs s; stages := alter (set_worker_in k w) i (stages s); results := results s;
     returned := returned s; cancelled := cancelled s |}.

Definition set_jobs (l : list Item) (s : Pipeline) : Pipeline :=
  {| jobs := l; stages := stages s; results := results s; returned := returned s;
     cancelled := cancelled s |}.

Definition add_result (y : Item) (s : Pipeline) : Pipeline :=
  {| jobs := jobs s; stages := stages s; results := results s ++ [y]; returned := returned s;
     cancelled := cancelled s |}.

Definition close_stage (st : Stage) : Stage :=
  {| pool := pool st; workers := workers st; closed := true |}.

Definition worker_at (s : Pipeline) (i k : nat) : option worker :=
  st ← stages s !! i; workers st !! k.

Definition pool_at (s : Pipeline) (i : nat) : option Pool := pool <$> stages s !! i.

(** The channel that stage [i] receives from is closed and has nothing left. *)
Definition input_closed (s : Pipeline) (i : nat) : bool :=
  match i with
  | O => match jobs s with [] => true | _ => false end
  | S i' => match stages s !! i' with Some st => closed st | None => false end
  end.

(** A worker that has received an item. *)
Definition received (p : Pool) (x : Item) : worker :=
  match react p x with
  | Skip => Idle
  | Emit y => Sending y
  | Ask f => Busy f x
  end.

Definition replied (r : option Item) : worker :=
  match r with Some y => Sending y | None => Idle end.

Definition exited (w : worker) : bool := match w with Exited => true | _ => false end.
Definition may_quit (w : worker) : bool :=
  match w with Starting | Idle | Sending _ => true | Busy _ _ | Exited => false end.

Inductive action :=
| Cancel                        (** the context is cancelled *)
| Begin (i k : nat)             (** the delay of a worker is over *)
| Quit (i k : nat)              (** a worker sees the cancelled context *)
| Take (k : nat)                (** a worker of the first stage receives a job *)
| Reply (i k : nat) (w : World) (** the function of the configuration returns *)
| Hand (i k l : nat)            (** a worker sends to a worker of the next stage *)
| Leave (i k : nat)             (** a worker finds its input closed *)
| Close (i : nat)               (** all workers have returned: the output is closed *)
| Collect (k : nat)             (** the loop receives from the last stage *)
| Return.                       (** the loop finds the last channel closed *)

Definition act (a : action) (s : Pipeline) : option Pipeline :=
  match a with
  | Cancel =>
      if cancelled s then None
      else Some {| jobs := jobs s; stages := stages s; results := results s;
                   returned := returned s; cancelled := true |}
  | Begin i k =>
      match worker_at s i k with Some Starting => Some (set_worker i k Idle s) | _ => None end
  | Quit i k =>
      match pool_at s i, worker_at s i k with
      | Some p, Some w =>
          if cancelled s && watches p && may_quit w then Some (set_worker i k Exited s) else None
      | _, _ => None
      end
  | Take k =>
      match jobs s, pool_at s 0, worker_at s 0 k with
      | x :: rest, Some p, Some Idle => Some (set_worker 0 k (received p x) (set_jobs rest s))
      | _, _, _ => None
      end
  | Reply i k w =>
      match worker_at s i k with
      | Some (Busy f _) => Some (set_worker i k (replied (f w)) s)
      | _ => None
      end
  | Hand i k l =>
      match worker_at s i k, pool_at s (S i), worker_at s (S i) l with
      | Some (Sending y), Some p, Some Idle =>
          Some (set_worker (S i) l (received p y) (set_worker i k Idle s))
      | _, _, _ => None
      end
  | Leave i k =>
      match worker_at s i k with
      | Some Idle => if input_closed s i then Some (set_worker i k Exited s) else None
      | _ => None
      end
  | Close i =>
      match stages s !! i with
      | Some st =>
          if negb (closed st) && forallb exited (workers st) then
            Some {| jobs := jobs s; stages := <[i := close_stage st]> (stages s);
                    results := results s; returned := returned s; cancelled := cancelled s |}
          else None
      | None => None
      end
  | Collect k =>
      match worker_at s (pred (length (stages s))) k with
      | Some (Sending y) =>
          if returned s then None
          else Some (add_result y (set_worker (pred (length (stages s))) k Idle s))
      | _ => None
      end
  | Return =>
      match last (stages s) with
      | Some st =>
          if negb (returned s) && closed st then
            Some {| jobs := jobs s; stages := stages s; results := results s;
                    returned := true; cancelled := cancelled s |}
          else None
      | None => None
      end
  end.

Definition step (s s' : Pipeline) : Prop := exists a, act a s = Some s'.

Inductive reachable (input : list Item) (pools : list Pool) : Pipeline -> Prop :=
| reach_start : reachable input pools (start input pools)
| reach_step s s' : reachable input pools s -> step s s' -> reachable input pools s'.

Fixpoint run_actions (l : list action) (s : Pipeline) : option Pipeline :=
  match l with [] => Some s | a :: l' => s' ← act a s; run_actions l' s' end.

Lemma run_reachable input pools l s s' :
  reachable input pools s -> run_actions l s = Some s' -> reachable input pools s'.
Proof.
  revert s. induction l as [|a l IH]; simpl; intros s Hr Hl; [by injection Hl as <-|].
  apply bind_Some in Hl as (s1 & Ha & Hl). apply (IH s1); [|done]. eapply reach_step; [done|]. by exists a.
Qed.

(** A send on a closed channel panics. *)
Definition panics (s : Pipeline) : Prop :=
  exists i k st y, stages s !! i = Some st /\ closed st = true /\ workers st !! k = Some (Sending y).
End Pools.
Arguments reaction : clear implicits.
Arguments Pool : clear implicits.
Arguments worker : clear implicits.
Arguments Stage : clear implicits.
Arguments Pipeline : clear implicits.
Arguments action : clear implicits.

(** ** Items and where they are *)

Section Tokens.
Context {World Item : Type}.
Implicit Types (p : Pool World Item) (s : Pipeline World Item) (st : Stage World Item)
  (w : worker World Item) (input : list Item).

(** [(i, x)]: [x] has been handled by the stages before [i] and not by [i]. *)
Definition held (i : nat) w : list (nat * Item) :=
  match w with
  | Busy _ x => [(i, x)]
  | Sending y => [(S i, y)]
  | Starting | Idle | Exited => []
  end.

Definition stage_tokens (i : nat) st : list (nat * Item) := workers st ≫= held i.

Definition tokens s : list (nat * Item) :=
  (pair 0%nat <$> jobs s) ++ concat (imap stage_tokens (stages s)) ++
  (pair (length (stages s)) <$> results s).

(** What handling an item may give. *)
Definition yields p (x : Item) (o : option Item) : Prop :=
  match react p x with
  | Skip => o = None
  | Emit y => o = Some y
  | Ask f => exists world, o = f world
  end.

(** One item passes one stage, ends there or, when [lossy], is given up. *)
Inductive passes (pools : list (Pool World Item)) (lossy : bool) :
    option (nat * Item) -> option (nat * Item) -> Prop :=
| passes_on i p x y :
    pools !! i = Some p -> yields p x (Some y) -> passes pools lossy (Some (i, x)) (Some (S i, y))
| passes_end i p x :
    pools !! i = Some p -> yields p x None -> passes pools lossy (Some (i, x)) None
| passes_lost t : lossy = true -> passes pools lossy (Some t) None.

(** The tokens are what became of the input, each item once. *)
Definition accounted pools lossy input (ts : list (nat * Item)) : Prop :=
  exists fates, Forall2 (fun x o => rtc (passes pools lossy) (Some (0%nat, x)) o) input fates /\
    ts ≡ₚ omap id fates.

#[export] Instance accounted_perm pools lossy input :
  Proper ((≡ₚ) ==> iff) (accounted pools lossy input).
Proof. intros ts ts' Hp. unfold accounted. by setoid_rewrite Hp. Qed.

Lemma accounted_mono pools lossy input ts :
  accounted pools false input ts -> accounted pools lossy input ts.
Proof.
  intros (fates & Hf & Hp). exists fates. split; [|done]. eapply Forall2_impl; [done|].
  intros x o Hr. simpl in *. induction Hr as [|a b c Hab _ IH]; [done|]. eapply rtc_l; [|done].
  destruct Hab; [by econstructor.. | done].
Qed.

Lemma omap_id_pick {A} (l : list (option A)) t rest :
  omap id l ≡ₚ t :: rest ->
  exists l1 l2, l = l1 ++ Some t :: l2 /\ rest ≡ₚ omap id l1 ++ omap id l2.
Proof.
  intros Hp. assert (Hin : Some t ∈ l).
  { assert (H : t ∈ omap id l) by (rewrite Hp; left).
    apply list_elem_of_omap in H as ([y|] & Hy & [= ->]). done. }
  apply list_elem_of_split in Hin as (l1 & l2 & ->). exists l1, l2. split; [done|].
  rewrite omap_app in Hp. simpl in Hp. rewrite <- Permutation_middle in Hp.
  symmetry. by eapply Permutation_cons_inv.
Qed.

(** The fate of one item continues. *)
Lemma accounted_step pools lossy input t o rest :
  accounted pools lossy input (t :: rest) -> passes pools lossy (Some t) o ->
  accounted pools lossy input (option_list o ++ rest).
Proof.
  intros (fates & Hf & Hp) Hs. symmetry in Hp.
  apply omap_id_pick in Hp as (l1 & l2 & -> & Hrest).
  apply Forall2_app_inv_r in Hf as (in1 & in2 & H1 & H2 & ->).
  apply Forall2_cons_inv_r in H2 as (x & in2' & Hx & H2 & ->).
  exists (l1 ++ o :: l2). split.
  - apply Forall2_app; [done|]. constructor; [|done]. by eapply rtc_r.
  - rewrite omap_app. destruct o as [t'|]; simpl; [|done].
    rewrite <- Permutation_middle. by rewrite Hrest.
Qed.

Lemma accounted_received pools lossy input i p x rest :
  pools !! i = Some p ->
  accounted pools lossy input ((i, x) :: rest) ->
  accounted pools lossy input (held i (received p x) ++ rest).
Proof.
  intros Hp Ha. unfold received. destruct (react p x) as [|y|f] eqn:Hr; simpl; [| |done].
  - apply (accounted_step _ _ _ _ None _ Ha). eapply passes_end; [done|]. unfold yields. by rewrite Hr.
  - apply (accounted_step _ _ _ _ (Some (S i, y)) _ Ha). eapply passes_on; [done|].
    unfold yields. by rewrite Hr.
Qed.

(** ** Updates of one worker *)

Lemma bind_insert {A B} (f : A -> list B) l k a :
  l !! k = Some a ->
  exists rest, (l ≫= f) ≡ₚ f a ++ rest /\ forall a', (<[k := a']> l ≫= f) ≡ₚ f a' ++ rest.
Proof.
  intros Hk. exists ((take k l ++ drop (S k) l) ≫= f).
  assert (H : forall a', (<[k := a']> l ≫= f) ≡ₚ f a' ++ ((take k l ++ drop (S k) l) ≫= f)).
  { intros a'. pose proof (lookup_lt_Some _ _ _ Hk). rewrite insert_take_drop by done.
    rewrite !bind_app. simpl. by rewrite Permutation_app_swap_app. }
  split; [|done]. rewrite <- H. by rewrite list_insert_id.
Qed.

Lemma concat_imap_insert {A B} (f : nat -> A -> list B) l i a :
  l !! i = Some a ->
  exists rest, concat (imap f l) ≡ₚ f i a ++ rest /\
    forall a', concat (imap f (<[i := a']> l)) ≡ₚ f i a' ++ rest.
Proof.
  intros Hi. pose proof (lookup_lt_Some _ _ _ Hi) as Hlt.
  assert (H : forall a', concat (imap f (<[i := a']> l)) ≡ₚ
    f i a' ++ concat (imap f (take i l)) ++ concat (imap (fun n => f (i + S n)%nat) (drop (S i) l))).
  { intros a'. rewrite insert_take_drop by done. rewrite imap_app, length_take_le by lia.
    simpl. rewrite concat_app. simpl. by rewrite Nat.add_0_r, Permutation_app_swap_app. }
  eexists. split; [|exact H]. rewrite <- H. by rewrite list_insert_id.
Qed.

Lemma alter_insert_stage (f : Stage World Item -> Stage World Item) (l : list (Stage World Item)) (i : nat) st :
  l !! i = Some st -> alter f i l = <[i := f st]> l.
Proof.
  intros Hi. apply list_eq. intros j. destruct (decide (i = j)) as [<-|Hne].
  - rewrite list_lookup_alter_eq, list_lookup_insert_eq, Hi; [done|]. by eapply lookup_lt_Some.
  - by rewrite list_lookup_alter_ne, list_lookup_insert_ne.
Qed.

Lemma tokens_set_worker s i k st w :
  stages s !! i = Some st -> workers st !! k = Some w ->
  exists rest, tokens s ≡ₚ held i w ++ rest /\
    forall w', tokens (set_worker i k w' s) ≡ₚ held i w' ++ rest.
Proof.
  intros Hi Hk.
  destruct (concat_imap_insert stage_tokens _ _ _ Hi) as (r1 & H1 & H1').
  destruct (bind_insert (held i) _ _ _ Hk) as (r2 & H2 & H2').
  exists (r2 ++ (pair 0%nat <$> jobs s) ++ r1 ++ (pair (length (stages s)) <$> results s)).
  split.
  - unfold tokens. rewrite H1. unfold stage_tokens at 1. rewrite H2. solve_Permutation.
  - intros w'. unfold tokens, set_worker. simpl. rewrite (alter_insert_stage _ _ _ _ Hi).
    rewrite length_insert, H1'. unfold stage_tokens at 1. simpl. rewrite H2'. solve_Permutation.
Qed.
End Tokens.

(** ** The invariant *)

Section Invariant.
Context {World Item : Type}.
Implicit Types (p : Pool World Item) (s : Pipeline World Item) (st : Stage World Item)
  (w : worker World Item) (input : list Item) (pools : list (Pool World Item)).

(** A worker that waits for an answer asked for its item; without cancellation a
    worker has returned only because its input is closed. *)
Definition worker_ok s (i : nat) p w : Prop :=
  match w with
  | Busy f x => react p x = Ask f
  | Exited => cancelled s = false -> input_closed s i = true
  | _ => True
  end.

Record stage_ok s (i : nat) st : Prop := {
  ok_count : length (workers st) = count (pool st);
  ok_workers : Forall (worker_ok s i (pool st)) (workers st);
  ok_closed : closed st = true -> Forall (fun w => w = Exited) (workers st);
}.

Record shape_ok pools s : Prop := {
  ok_pools : map pool (stages s) = pools;
  ok_stages i st : stages s !! i = Some st -> stage_ok s i st;
  ok_returned : returned s = true -> exists st, last (stages s) = Some st /\ closed st = true;
}.

Definition pipe_ok pools input s : Prop :=
  shape_ok pools s /\ accounted pools (cancelled s) input (tokens s).

Lemma worker_at_Some s i k w :
  worker_at s i k = Some w -> exists st, stages s !! i = Some st /\ workers st !! k = Some w.
Proof.
  unfold worker_at. intros H. apply bind_Some in H as (st & Hi & Hk). by exists st.
Qed.

Lemma pool_at_Some s i p :
  pool_at s i = Some p -> exists st, stages s !! i = Some st /\ pool st = p.
Proof. unfold pool_at. intros H. apply fmap_Some in H as (st & Hi & ->). by exists st. Qed.

Lemma stages_set_worker s i k w j st :
  stages (set_worker i k w s) !! j = Some st <->
  (j = i /\ exists st0, stages s !! i = Some st0 /\ st = set_worker_in k w st0) \/
  (j <> i /\ stages s !! j = Some st).
Proof.
  unfold set_worker. simpl. destruct (decide (j = i)) as [->|Hne].
  - rewrite list_lookup_alter_eq, fmap_Some. naive_solver.
  - rewrite list_lookup_alter_ne by done. naive_solver.
Qed.

Lemma input_closed_set_worker s i k w j : input_closed (set_worker i k w s) j = input_closed s j.
Proof.
  destruct j as [|j]; [done|]. simpl. destruct (decide (j = i)) as [->|Hne].
  - rewrite list_lookup_alter_eq. by destruct (stages s !! i).
  - by rewrite list_lookup_alter_ne.
Qed.

Lemma pools_set_worker s i k w : map pool (stages (set_worker i k w s)) = map pool (stages s).
Proof.
  simpl. apply list_eq. intros j. rewrite !list_lookup_fmap.
  destruct (decide (j = i)) as [->|Hne].
  - rewrite list_lookup_alter_eq. by destruct (stages s !! i).
  - by rewrite list_lookup_alter_ne.
Qed.

Lemma pool_lookup pools s i st :
  shape_ok pools s -> stages s !! i = Some st -> pools !! i = Some (pool st).
Proof. intros Hok Hi. rewrite <- (ok_pools _ _ Hok), list_lookup_fmap, Hi. done. Qed.

(** A closed channel has no worker left. *)
Lemma active_open s i st k w :
  stage_ok s i st -> workers st !! k = Some w -> w <> Exited -> closed st = false.
Proof.
  intros Hst Hk Hne. destruct (closed st) eqn:Hcl; [|done].
  pose proof (ok_closed _ _ _ Hst Hcl) as Hall. rewrite Forall_lookup in Hall.
  by apply Hall in Hk.
Qed.

(** The workers' conditions depend on the flags and the closed channels only. *)
Lemma stage_ok_ext s s' i st :
  (cancelled s' = false -> cancelled s = false) ->
  (input_closed s i = true -> input_closed s' i = true) ->
  stage_ok s i st -> stage_ok s' i st.
Proof.
  intros Hc Hi []. constructor; [done | | done].
  eapply Forall_impl; [done|]. intros [] Hw; simpl in *; auto.
Qed.

(** One worker goes on. *)
Lemma set_worker_shape pools s i k st w w' :
  shape_ok pools s -> stages s !! i = Some st -> workers st !! k = Some w ->
  w <> Exited -> worker_ok s i (pool st) w' -> shape_ok pools (set_worker i k w' s).
Proof.
  intros Hok Hi Hk Hne Hw'. pose proof (ok_stages _ _ Hok _ _ Hi) as Hst.
  pose proof (active_open _ _ _ _ _ Hst Hk Hne) as Hcl.
  constructor.
  - rewrite pools_set_worker. by apply (ok_pools _ _ Hok).
  - intros j st' Hj. apply stages_set_worker in Hj.
    apply (stage_ok_ext s); [done | by rewrite input_closed_set_worker|].
    destruct Hj as [(-> & st0 & Hi' & ->)|[Hji Hj]]; [|by apply (ok_stages _ _ Hok)].
    rewrite Hi in Hi'. injection Hi' as <-. constructor; simpl.
    + rewrite length_insert. apply (ok_count _ _ _ Hst).
    + apply Forall_insert; [apply (ok_workers _ _ _ Hst) | done].
    + congruence.
  - simpl. intros Hr. destruct (ok_returned _ _ Hok Hr) as (stl & Hl & Hcll).
    rewrite last_lookup in Hl |- *. rewrite length_alter.
    destruct (decide (pred (length (stages s)) = i)) as [<-|Hn].
    + rewrite Hi in Hl. injection Hl as <-. congruence.
    + exists stl. by rewrite list_lookup_alter_ne.
Qed.

(** The items that a worker held become those that it holds now. *)
Lemma set_worker_items pools input s i k st w w' :
  stages s !! i = Some st -> workers st !! k = Some w ->
  (forall rest, accounted pools (cancelled s) input (held i w ++ rest) ->
     accounted pools (cancelled s) input (held i w' ++ rest)) ->
  accounted pools (cancelled s) input (tokens s) ->
  accounted pools (cancelled s) input (tokens (set_worker i k w' s)).
Proof.
  intros Hi Hk Hacc. destruct (tokens_set_worker _ _ _ _ _ Hi Hk) as (rest & -> & H2).
  rewrite H2. apply Hacc.
Qed.

Lemma set_worker_ok pools input s i k st w w' :
  pipe_ok pools input s -> stages s !! i = Some st -> workers st !! k = Some w ->
  w <> Exited -> worker_ok s i (pool st) w' ->
  (forall rest, accounted pools (cancelled s) input (held i w ++ rest) ->
     accounted pools (cancelled s) input (held i w' ++ rest)) ->
  pipe_ok pools input (set_worker i k w' s).
Proof.
  intros [Hs Hi] ?????. split; [by eapply set_worker_shape|].
  change (cancelled (set_worker i k w' s)) with (cancelled s). by eapply set_worker_items.
Qed.

Lemma received_worker_ok s i p x : worker_ok s i p (received p x).
Proof. unfold received. by destruct (react p x) eqn:Hr. Qed.

Lemma received_not_exited p x : received p x <> Exited.
Proof. unfold received. by destruct (react p x). Qed.

Lemma replicate_held n i w : held i w = [] -> (replicate n w ≫= held i) = [].
Proof.
  intros Hw. induction n as [|n IH]; [done|]. change (held i w ++ (replicate n w ≫= held i) = []).
  by rewrite Hw, IH.
Qed.

Lemma start_ok pools input : pipe_ok pools input (start input pools).
Proof.
  split; [constructor|]; simpl.
  - rewrite map_map. apply map_id.
  - intros i st Hi. rewrite list_lookup_fmap in Hi. apply fmap_Some in Hi as (p & Hp & ->).
    constructor; simpl; [by rewrite length_replicate | | done].
    apply Forall_replicate. by destruct (watches p).
  - done.
  - exists (Some ∘ pair 0%nat <$> input). split.
    + apply Forall2_fmap_r. apply Forall_Forall2_diag. apply Forall_forall. intros. constructor.
    + unfold tokens. simpl.
      assert (H : forall j, concat (imap (fun n => stage_tokens (j + n)) (map start_pool pools)) = []).
      { induction pools as [|p ps IH]; intros j; simpl; [done|].
        rewrite (imap_ext _ (fun n => stage_tokens (S j + n)))
          by (intros; simpl; f_equal; f_equal; lia).
        rewrite IH, app_nil_r. unfold stage_tokens. simpl. apply replicate_held.
        by destruct (watches p). }
      replace (concat (imap stage_tokens (map start_pool pools))) with (@nil (nat * Item))
        by (symmetry; exact (H 0%nat)).
      rewrite app_nil_r. apply reflexive_eq.
      induction input as [|x l IH]; csimpl; [done|]. by rewrite <- IH.
Qed.

(** *** Each step keeps it *)

Lemma cancel_ok pools input s s' : act Cancel s = Some s' -> pipe_ok pools input s -> pipe_ok pools input s'.
Proof.
  simpl. destruct (cancelled s) eqn:Hc; [done|]. intros [= <-] [Hs Hi]. rewrite Hc in Hi. split.
  - destruct Hs. constructor; [done | | done]. intros i st Hst.
    apply (stage_ok_ext s); [done | done | by apply ok_stages0].
  - by apply accounted_mono.
Qed.

Lemma quit_ok pools input s s' i k : act (Quit i k) s = Some s' -> pipe_ok pools input s -> pipe_ok pools input s'.
Proof.
  simpl. destruct (pool_at s i) as [p|]; [|done]. destruct (worker_at s i k) as [w|] eqn:Hw; [|done].
  destruct (cancelled s) eqn:Hc; [|done]. simpl.
  destruct (watches p && may_quit w) eqn:Hq; [|done]. intros [= <-] Hok.
  apply andb_true_iff in Hq as [_ Hq]. apply worker_at_Some in Hw as (st & Hi & Hk).
  eapply set_worker_ok; [done | done | done | by intros -> | simpl; congruence|].
  intros rest. destruct w; simpl; try done.
  intros Ha. apply (accounted_step _ _ _ _ None _ Ha). by apply passes_lost.
Qed.

Lemma take_ok pools input s s' k : act (Take k) s = Some s' -> pipe_ok pools input s -> pipe_ok pools input s'.
Proof.
  simpl. destruct (jobs s) as [|x rest] eqn:Hj; [done|].
  destruct (pool_at s 0) as [p|] eqn:Hp; [|done]. destruct (worker_at s 0 k) as [[]|] eqn:Hw; try done.
  intros [= <-] [Hs Hi]. apply worker_at_Some in Hw as (st & Hst & Hk).
  assert (Hst' : stages (set_jobs rest s) !! 0%nat = Some st) by done.
  apply pool_at_Some in Hp as (st' & Hst'' & <-). rewrite Hst in Hst''. injection Hst'' as <-.
  assert (Hs' : shape_ok pools (set_jobs rest s)).
  { destruct Hs. constructor; [done | | done]. intros i st' Hst2. apply (stage_ok_ext s); [done | |].
    - destruct i; simpl; [by rewrite Hj | done].
    - by apply ok_stages0. }
  split; [eapply set_worker_shape; [done..|apply received_worker_ok]|].
  destruct (tokens_set_worker _ _ _ _ _ Hst' Hk) as (r & H1 & H2). rewrite H2.
  apply accounted_received; [by eapply pool_lookup|]. simpl in H1. rewrite <- H1.
  unfold tokens in Hi |- *. rewrite Hj in Hi. done.
Qed.

Lemma reply_ok pools input s s' i k (v : World) :
  act (Reply i k v) s = Some s' -> pipe_ok pools input s -> pipe_ok pools input s'.
Proof.
  simpl. destruct (worker_at s i k) as [[]|] eqn:Hw; try done. intros [= <-] Hok.
  apply worker_at_Some in Hw as (st & Hi & Hk). destruct Hok as [Hs Hacc].
  pose proof (ok_workers _ _ _ (ok_stages _ _ Hs _ _ Hi)) as Hwk. rewrite Forall_lookup in Hwk.
  specialize (Hwk _ _ Hk). simpl in Hwk.
  eapply set_worker_ok; [done | done | done | done | by destruct (f v)|].
  intros rest Ha. pose proof (pool_lookup _ _ _ _ Hs Hi) as Hp.
  destruct (f v) as [y|] eqn:Hf; simpl.
  - apply (accounted_step _ _ _ _ (Some (S i, y)) _ Ha). eapply passes_on; [done|].
    unfold yields. rewrite Hwk. by exists v.
  - apply (accounted_step _ _ _ _ None _ Ha). eapply passes_end; [done|].
    unfold yields. rewrite Hwk. by exists v.
Qed.

Lemma hand_ok pools input s s' i k l :
  act (Hand i k l) s = Some s' -> pipe_ok pools input s -> pipe_ok pools input s'.
Proof.
  simpl. destruct (worker_at s i k) as [[]|] eqn:Hw; try done.
  destruct (pool_at s (S i)) as [p|] eqn:Hp; [|done].
  destruct (worker_at s (S i) l) as [[]|] eqn:Hw2; try done. intros [= <-] [Hs Hacc].
  apply worker_at_Some in Hw as (st & Hi & Hk). apply worker_at_Some in Hw2 as (st2 & Hi2 & Hk2).
  apply pool_at_Some in Hp as (st' & Hi2' & <-). rewrite Hi2 in Hi2'. injection Hi2' as <-.
  assert (Hs1 : shape_ok pools (set_worker i k Idle s)) by (by eapply (set_worker_shape _ _ _ _ _ _ Idle Hs Hi Hk)).
  assert (Hi2' : stages (set_worker i k Idle s) !! S i = Some st2).
  { apply stages_set_worker. right. split; [lia | done]. }
  split; [eapply set_worker_shape; [done..|apply received_worker_ok]|].
  destruct (tokens_set_worker _ _ _ _ _ Hi Hk) as (r1 & H1 & H1').
  destruct (tokens_set_worker _ _ _ _ _ Hi2' Hk2) as (r2 & H2 & H2'). rewrite H2'.
  apply accounted_received; [by eapply pool_lookup|]. simpl in H2. rewrite <- H2, H1'. simpl.
  by rewrite H1 in Hacc.
Qed.

Lemma leave_ok pools input s s' i k : act (Leave i k) s = Some s' -> pipe_ok pools input s -> pipe_ok pools input s'.
Proof.
  simpl. destruct (worker_at s i k) as [[]|] eqn:Hw; try done.
  destruct (input_closed s i) eqn:Hc; [|done]. intros [= <-] Hok.
  apply worker_at_Some in Hw as (st & Hi & Hk).
  apply (set_worker_ok _ _ _ _ _ _ Idle _ Hok Hi Hk); [done | by intros _ | done].
Qed.

Lemma close_ok pools input s s' i : act (Close i) s = Some s' -> pipe_ok pools input s -> pipe_ok pools input s'.
Proof.
  simpl. destruct (stages s !! i) as [st|] eqn:Hi; [|done].
  destruct (negb (closed st) && forallb exited (workers st)) eqn:Hc; [|done].
  apply andb_true_iff in Hc as [Hopen Hall]. intros [= <-] [Hs Hacc].
  assert (Hex : Forall (fun w => w = Exited) (workers st)).
  { apply Forall_forall. intros w Hw. rewrite forallb_forall in Hall.
    apply list_elem_of_In, Hall in Hw. by destruct w. }
  split.
  - constructor; simpl.
    + rewrite list_fmap_insert. simpl. rewrite list_insert_id; [by apply (ok_pools _ _ Hs)|].
      by rewrite list_lookup_fmap, Hi.
    + intros j st' Hj. apply (stage_ok_ext s); [done | |].
      * destruct j as [|j]; simpl; [done|]. destruct (decide (i = j)) as [<-|Hne].
        -- rewrite list_lookup_insert_eq by (by eapply lookup_lt_Some). done.
        -- by rewrite list_lookup_insert_ne.
      * apply list_lookup_insert_Some in Hj as [(-> & <- & _)|[Hne Hj]]; [|by apply (ok_stages _ _ Hs)].
        destruct (ok_stages _ _ Hs _ _ Hi). by constructor.
    + intros Hr. destruct (ok_returned _ _ Hs Hr) as (stl & Hl & Hcl).
      rewrite last_lookup in Hl |- *. rewrite length_insert.
      destruct (decide (i = pred (length (stages s)))) as [->|Hne].
      * exists (close_stage st). by rewrite list_lookup_insert_eq by (by eapply lookup_lt_Some).
      * exists stl. by rewrite list_lookup_insert_ne.
  - unfold tokens. simpl. rewrite length_insert.
    destruct (concat_imap_insert stage_tokens _ _ _ Hi) as (r & H1 & H2).
    rewrite H2. unfold tokens in Hacc. by rewrite H1 in Hacc.
Qed.

Lemma collect_ok pools input s s' k : act (Collect k) s = Some s' -> pipe_ok pools input s -> pipe_ok pools input s'.
Proof.
  simpl. destruct (worker_at s _ k) as [[]|] eqn:Hw; try done.
  destruct (returned s) eqn:Hr; [done|]. intros [= <-] [Hs Hacc].
  apply worker_at_Some in Hw as (st & Hi & Hk).
  set (i := pred (length (stages s))) in *.
  assert (Hs1 : shape_ok pools (set_worker i k Idle s)) by (by eapply (set_worker_shape _ _ _ _ _ _ Idle Hs Hi Hk)).
  split.
  - destruct Hs1. constructor; [done | | done]. intros j st' Hj.
    apply (stage_ok_ext (set_worker i k Idle s)); [done | done | by apply ok_stages0].
  - destruct (tokens_set_worker _ _ _ _ _ Hi Hk) as (r & H1 & H2).
    rewrite H1 in Hacc. specialize (H2 Idle). simpl in H2.
    assert (Hn : S i = length (stages s)) by (pose proof (lookup_lt_Some _ _ _ Hi); subst i; lia).
    assert (Ht : tokens (add_result y (set_worker i k Idle s)) ≡ₚ (S i, y) :: r).
    { rewrite <- H2. unfold tokens. simpl. rewrite length_alter, Hn, fmap_app. simpl. solve_Permutation. }
    by rewrite Ht.
Qed.

Lemma step_pipe_ok pools input s s' : step s s' -> pipe_ok pools input s -> pipe_ok pools input s'.
Proof.
  intros [a Ha] Hok. destruct a.
  - by eapply cancel_ok.
  - simpl in Ha. destruct (worker_at s i k) as [[]|] eqn:Hw; try done. injection Ha as <-.
    apply worker_at_Some in Hw as (st & Hi & Hk). by eapply set_worker_ok.
  - by eapply quit_ok.
  - by eapply take_ok.
  - by eapply reply_ok.
  - by eapply hand_ok.
  - by eapply leave_ok.
  - by eapply close_ok.
  - by eapply collect_ok.
  - simpl in Ha. destruct (last (stages s)) as [st|] eqn:Hl; [|done].
    destruct (negb (returned s) && closed st) eqn:Hc; [|done]. injection Ha as <-.
    apply andb_true_iff in Hc as [_ Hc]. destruct Hok as [Hs Hacc]. split; [|done].
    destruct Hs. constructor; [done | | by intros; exists st]. intros i st' Hst.
    apply (stage_ok_ext s); [done | done | by apply ok_stages0].
Qed.

Lemma reachable_pipe_ok pools input s : reachable input pools s -> pipe_ok pools input s.
Proof. induction 1; [apply start_ok | by eapply step_pipe_ok]. Qed.
End Invariant.

(** ** What the pools do *)

Section Outcomes.
Context {World Item : Type}.
Implicit Types (p : Pool World Item) (s : Pipeline World Item) (st : Stage World Item)
  (w : worker World Item) (input : list Item) (pools : list (Pool World Item)).

(** [o] may come out of the last pool for [x]. *)
Fixpoint through pools (x : Item) (o : option Item) : Prop :=
  match pools with
  | [] => o = Some x
  | p :: pools' =>
      (yields p x None /\ o = None) \/ (exists y, yields p x (Some y) /\ through pools' y o)
  end.

(** [o] may have come out for [x], or nothing yet. *)
Definition may_come_out pools (x : Item) (o : option Item) : Prop :=
  match o with Some z => through pools x (Some z) | None => True end.

Lemma passes_through pools lossy t o :
  rtc (passes pools lossy) t o -> forall i x, t = Some (i, x) ->
  match o with
  | Some (j, z) => j = length pools -> through (drop i pools) x (Some z)
  | None => lossy = false -> through (drop i pools) x None
  end.
Proof.
  induction 1 as [t|t1 t2 t3 Hs Hr IH]; intros i x ->.
  { intros ->. by rewrite drop_all. }
  inversion Hs as [i' p x' y Hp Hy|i' p x' Hp Hy|t Hl]; subst.
  - specialize (IH _ _ eq_refl). rewrite (drop_S _ _ _ Hp).
    destruct t3 as [[j z]|]; intros H; right; exists y; auto.
  - inversion Hr as [|? ? ? Hn]; subst; [|by inversion Hn].
    intros _. rewrite (drop_S _ _ _ Hp). by left.
  - inversion Hr as [|? ? ? Hn]; subst; [|by inversion Hn]. done.
Qed.

Lemma shape_length pools s : shape_ok pools s -> length (stages s) = length pools.
Proof. intros Hs. rewrite <- (ok_pools _ _ Hs). by rewrite length_map. Qed.

Lemma reachable_no_panic pools input s : reachable input pools s -> ~ panics s.
Proof.
  intros Hr (i & k & st & y & Hi & Hc & Hk). apply reachable_pipe_ok in Hr as [Hs _].
  rewrite (active_open _ _ _ _ _ (ok_stages _ _ Hs _ _ Hi) Hk) in Hc; [done | done].
Qed.

Lemma omap_id_fmap {A B} (f : option A -> option B) (l : list (option A)) :
  f None = None -> omap id (f <$> l) = omap (fun a => f (Some a)) (omap id l).
Proof.
  intros Hf. induction l as [|[a|] l IH]; csimpl; [done | | by rewrite Hf].
  destruct (f (Some a)); simpl; [f_equal|]; exact IH.
Qed.

Definition at_end (n : nat) (o : option (nat * Item)) : option Item :=
  match o with Some (j, z) => if Nat.eqb j n then Some z else None | None => None end.

Lemma at_end_results n (l : list Item) : omap (fun t => at_end n (Some t)) (pair n <$> l) = l.
Proof. induction l as [|y l IH]; csimpl; [done|]. rewrite Nat.eqb_refl. by f_equal. Qed.

Lemma reachable_results_sound pools input s :
  reachable input pools s ->
  exists fates, Forall2 (may_come_out pools) input fates /\ results s ⊆+ omap id fates.
Proof.
  intros Hr. apply reachable_pipe_ok in Hr as [Hs (fates & Hf & Hp)].
  pose proof (shape_length _ _ Hs) as Hlen.
  exists (at_end (length pools) <$> fates). split.
  - apply Forall2_fmap_r. eapply Forall2_impl; [exact Hf|]. intros x [[j z]|] Hrt; [|done].
    simpl. destruct (Nat.eqb_spec j (length pools)) as [->|]; [|done].
    by apply (passes_through _ _ _ _ Hrt 0 x eq_refl).
  - rewrite omap_id_fmap, <- Hp by done. unfold tokens. rewrite !omap_app.
    apply submseteq_inserts_l, submseteq_inserts_l. by rewrite Hlen, at_end_results.
Qed.

(** A closed stage closes those before it: without cancellation workers return only
    when there is nothing left. *)
Lemma closed_empties pools s i st :
  shape_ok pools s -> Forall (fun p => 0 < count p)%nat pools -> cancelled s = false ->
  stages s !! i = Some st -> Forall (fun w => w = Exited) (workers st) ->
  jobs s = [] /\ forall j st', (j <= i)%nat -> stages s !! j = Some st' ->
    Forall (fun w => w = Exited) (workers st').
Proof.
  intros Hs Hcount Hc. revert st. induction i as [|i IH]; intros st Hi Hall.
  all: pose proof (ok_stages _ _ Hs _ _ Hi) as Hst.
  all: pose proof (pool_lookup _ _ _ _ Hs Hi) as Hp; rewrite Forall_lookup in Hcount;
       specialize (Hcount _ _ Hp); rewrite <- (ok_count _ _ _ Hst) in Hcount.
  all: destruct (workers st) as [|w ws] eqn:Hws; simpl in Hcount; [lia|].
  all: pose proof (ok_workers _ _ _ Hst) as Hwk; rewrite Hws in Hwk; apply Forall_cons in Hwk as [Hw _].
  all: apply Forall_cons in Hall as [-> Hall]; specialize (Hw Hc); simpl in Hw.
  - destruct (jobs s); [|done]. split; [done|]. intros j st' Hj Hst'.
    assert (j = 0)%nat as -> by lia. rewrite Hi in Hst'. injection Hst' as <-.
    rewrite Hws. by constructor.
  - destruct (stages s !! i) as [st0|] eqn:Hi0; [|done].
    destruct (IH _ eq_refl (ok_closed _ _ _ (ok_stages _ _ Hs _ _ Hi0) Hw)) as [Hj Hbelow].
    split; [done|]. intros j st' Hle Hst'. destruct (decide (j = S i)) as [->|Hne].
    + rewrite Hi in Hst'. injection Hst' as <-. rewrite Hws. by constructor.
    + apply (Hbelow j); [lia | done].
Qed.

Lemma exited_held l i : Forall (fun w => w = Exited) l -> (l ≫= held i) = [].
Proof. induction 1 as [|w l -> _ IH]; [done|]. exact IH. Qed.

Lemma returned_results pools input s :
  reachable input pools s -> Forall (fun p => 0 < count p)%nat pools ->
  returned s = true -> cancelled s = false ->
  exists fates, Forall2 (through pools) input fates /\ results s ≡ₚ omap id fates.
Proof.
  intros Hr Hcount Hret Hc. apply reachable_pipe_ok in Hr as [Hs (fates & Hf & Hp)]. rewrite Hc in Hf.
  destruct (ok_returned _ _ Hs Hret) as (st & Hl & Hcl). rewrite last_lookup in Hl.
  set (n := pred (length (stages s))) in Hl.
  destruct (closed_empties _ _ _ _ Hs Hcount Hc Hl (ok_closed _ _ _ (ok_stages _ _ Hs _ _ Hl) Hcl))
    as [Hj Hall].
  assert (Ht : tokens s = pair (length pools) <$> results s).
  { unfold tokens. rewrite Hj, (shape_length _ _ Hs). simpl.
    replace (concat (imap stage_tokens (stages s))) with (@nil (nat * Item)); [done|].
    assert (Hnil : forall l o, (forall j st', l !! j = Some st' -> Forall (fun w => w = Exited) (workers st')) ->
      concat (imap (fun n => @stage_tokens World Item (o + n)) l) = []).
    { clear. induction l as [|st l IH]; intros o Hl; simpl; [done|].
      rewrite (imap_ext _ (fun n => stage_tokens (S o + n)))
        by (intros; simpl; f_equal; f_equal; lia).
      rewrite IH by (intros j st' Hj; by apply (Hl (S j))). rewrite app_nil_r.
      apply exited_held. by apply (Hl 0%nat). }
    symmetry. apply (Hnil (stages s) 0%nat). intros j st' Hst'. apply (Hall j); [|done].
    pose proof (lookup_lt_Some _ _ _ Hst'). subst n. lia. }
  rewrite Ht in Hp.
  assert (Hends : Forall (fun o => match o with Some t => t.1 = length pools | None => True end) fates).
  { apply Forall_forall. intros [t|] Hin; [|done].
    assert (Hin' : t ∈ pair (length pools) <$> results s).
    { rewrite Hp. apply list_elem_of_omap. by exists (Some t). }
    apply list_elem_of_fmap in Hin' as (y & -> & _). done. }
  exists (at_end (length pools) <$> fates). split.
  - apply Forall2_fmap_r. rewrite Forall_forall in Hends.
    apply Forall2_same_length_lookup_2; [by apply Forall2_length in Hf|].
    intros k x o Hx Ho. rewrite Forall2_lookup in Hf. specialize (Hf k).
    rewrite Hx, Ho in Hf. inversion Hf as [? ? Hrt|]; subst.
    pose proof (passes_through _ _ _ _ Hrt 0 x eq_refl) as Hth.
    assert (Hin : o ∈ fates) by by eapply list_elem_of_lookup_2. specialize (Hends _ Hin).
    destruct o as [[j z]|]; simpl in *; [|by apply Hth].
    rewrite (proj2 (Nat.eqb_eq _ _) Hends). by apply Hth.
  - by rewrite omap_id_fmap, <- Hp, at_end_results.
Qed.
End Outcomes.

(** ** Termination *)

Section Termination.
Context {World Item : Type}.
Implicit Types (p : Pool World Item) (s : Pipeline World Item) (st : Stage World Item)
  (w : worker World Item) (input : list Item) (pools : list (Pool World Item)).
Local Open Scope nat_scope.

(** How many steps are left: an item costs three steps for each stage before it. *)
Definition worker_weight (left : nat) w : nat :=
  match w with
  | Starting => 2
  | Idle => 1
  | Busy _ _ => 3 * left
  | Sending _ => 3 * left - 1
  | Exited => 0
  end.

Definition stage_weight (n i : nat) st : nat :=
  sum_list_with (worker_weight (n - i)) (workers st) + if closed st then 0 else 1.

Definition measure s : nat :=
  3 * length (stages s) * length (jobs s) +
  sum_list (imap (stage_weight (length (stages s))) (stages s)) +
  (if returned s then 0 else 1) + (if cancelled s then 0 else 1).

Lemma sum_imap_insert {A} (f : nat -> A -> nat) l i a :
  l !! i = Some a ->
  exists rest, sum_list (imap f l) = f i a + rest /\
    forall a', sum_list (imap f (<[i := a']> l)) = f i a' + rest.
Proof.
  intros Hi. pose proof (lookup_lt_Some _ _ _ Hi) as Hlt.
  assert (H : forall a', sum_list (imap f (<[i := a']> l)) =
    f i a' + (sum_list (imap f (take i l)) + sum_list (imap (fun n => f (i + S n)) (drop (S i) l)))).
  { intros a'. rewrite insert_take_drop by done. rewrite imap_app, length_take_le by lia.
    simpl. rewrite Nat.add_0_r. rewrite sum_list_with_app. unfold compose. simpl. lia. }
  eexists. split; [|exact H]. rewrite <- H. by rewrite list_insert_id.
Qed.

Lemma sum_with_insert {A} (f : A -> nat) l k a :
  l !! k = Some a ->
  exists rest, sum_list_with f l = f a + rest /\
    forall a', sum_list_with f (<[k := a']> l) = f a' + rest.
Proof.
  intros Hk. exists (sum_list_with f (take k l) + sum_list_with f (drop (S k) l)).
  assert (H : forall a', sum_list_with f (<[k := a']> l) =
    f a' + (sum_list_with f (take k l) + sum_list_with f (drop (S k) l))).
  { intros a'. pose proof (lookup_lt_Some _ _ _ Hk). rewrite insert_take_drop by done.
    rewrite sum_list_with_app. simpl. lia. }
  split; [|done]. rewrite <- H. by rewrite list_insert_id.
Qed.

Lemma measure_set_worker s i k st w :
  stages s !! i = Some st -> workers st !! k = Some w ->
  exists rest, measure s = worker_weight (length (stages s) - i) w + rest /\
    forall w', measure (set_worker i k w' s) = worker_weight (length (stages s) - i) w' + rest.
Proof.
  intros Hi Hk. set (n := length (stages s)).
  destruct (sum_imap_insert (stage_weight n) _ _ _ Hi) as (r1 & H1 & H1').
  destruct (sum_with_insert (worker_weight (n - i)) _ _ _ Hk) as (r2 & H2 & H2').
  exists (3 * n * length (jobs s) + r1 + r2 + (if closed st then 0 else 1) +
    (if returned s then 0 else 1) + (if cancelled s then 0 else 1)).
  split.
  - unfold measure. fold n. rewrite H1. unfold stage_weight at 1. rewrite H2. lia.
  - intros w'. unfold measure, set_worker. simpl. rewrite length_alter. fold n.
    rewrite (alter_insert_stage _ _ _ _ Hi), H1'. unfold stage_weight at 1. simpl. rewrite H2'. lia.
Qed.

Lemma received_weight p x left : 1 <= left -> worker_weight left (received p x) <= 3 * left.
Proof. unfold received. destruct (react p x); simpl; lia. Qed.

Lemma step_measure s s' : step s s' -> measure s' < measure s.
Proof.
  intros [a Ha]. destruct a; simpl in Ha.
  - destruct (cancelled s) eqn:Hc; [done|]. injection Ha as <-. unfold measure. simpl. rewrite Hc. lia.
  - destruct (worker_at s i k) as [[]|] eqn:Hw; try done. injection Ha as <-.
    apply worker_at_Some in Hw as (st & Hi & Hk).
    destruct (measure_set_worker _ _ _ _ _ Hi Hk) as (r & -> & ->). simpl. lia.
  - destruct (pool_at s i) as [p|]; [|done]. destruct (worker_at s i k) as [w|] eqn:Hw; [|done].
    destruct (cancelled s && watches p && may_quit w) eqn:Hq; [|done]. injection Ha as <-.
    apply andb_true_iff in Hq as [_ Hq]. apply worker_at_Some in Hw as (st & Hi & Hk).
    pose proof (lookup_lt_Some _ _ _ Hi).
    destruct (measure_set_worker _ _ _ _ _ Hi Hk) as (r & -> & ->).
    destruct w; simpl in *; try done; lia.
  - destruct (jobs s) as [|x rest] eqn:Hj; [done|]. destruct (pool_at s 0) as [p|]; [|done].
    destruct (worker_at s 0 k) as [[]|] eqn:Hw; try done. injection Ha as <-.
    apply worker_at_Some in Hw as (st & Hi & Hk).
    assert (Hi' : stages (set_jobs rest s) !! 0 = Some st) by done.
    destruct (measure_set_worker _ _ _ _ _ Hi' Hk) as (r & H1 & ->).
    assert (Hm : measure s = measure (set_jobs rest s) + 3 * length (stages s)).
    { unfold measure. simpl. rewrite Hj. simpl. lia. }
    rewrite Hm, H1. simpl. pose proof (lookup_lt_Some _ _ _ Hi).
    pose proof (received_weight p x (length (stages s) - 0)). lia.
  - destruct (worker_at s i k) as [[| |f x|y|]|] eqn:Hk; try done. injection Ha as <-.
    apply worker_at_Some in Hk as (st & Hi & Hk). pose proof (lookup_lt_Some _ _ _ Hi).
    destruct (measure_set_worker _ _ _ _ _ Hi Hk) as (r & -> & ->).
    unfold replied. destruct (f w); simpl; lia.
  - destruct (worker_at s i k) as [[]|] eqn:Hw; try done.
    destruct (pool_at s (S i)) as [p|]; [|done].
    destruct (worker_at s (S i) l) as [[]|] eqn:Hw2; try done. injection Ha as <-.
    apply worker_at_Some in Hw as (st & Hi & Hk). apply worker_at_Some in Hw2 as (st2 & Hi2 & Hk2).
    assert (Hi2' : stages (set_worker i k Idle s) !! S i = Some st2).
    { apply stages_set_worker. right. split; [lia | done]. }
    destruct (measure_set_worker _ _ _ _ _ Hi Hk) as (r1 & -> & H1).
    destruct (measure_set_worker _ _ _ _ _ Hi2' Hk2) as (r2 & H2 & ->).
    specialize (H1 Idle). rewrite H2 in H1. pose proof (lookup_lt_Some _ _ _ Hi2).
    simpl in H1 |- *. rewrite length_alter in *.
    pose proof (received_weight p y (length (stages s) - S i)). lia.
  - destruct (worker_at s i k) as [[]|] eqn:Hw; try done.
    destruct (input_closed s i); [|done]. injection Ha as <-.
    apply worker_at_Some in Hw as (st & Hi & Hk).
    destruct (measure_set_worker _ _ _ _ _ Hi Hk) as (r & -> & ->). simpl. lia.
  - destruct (stages s !! i) as [st|] eqn:Hi; [|done].
    destruct (closed st) eqn:Hc; [done|]. simpl in Ha.
    destruct (forallb exited (workers st)); [|done]. injection Ha as <-.
    destruct (sum_imap_insert (stage_weight (length (stages s))) _ _ _ Hi) as (r & H1 & H2).
    unfold measure. simpl. rewrite length_insert, H1, H2. unfold stage_weight. simpl. rewrite Hc. lia.
  - destruct (worker_at s _ k) as [[]|] eqn:Hw; try done.
    destruct (returned s) eqn:Hr; [done|]. injection Ha as <-.
    apply worker_at_Some in Hw as (st & Hi & Hk). pose proof (lookup_lt_Some _ _ _ Hi).
    destruct (measure_set_worker _ _ _ _ _ Hi Hk) as (r & -> & H1). specialize (H1 Idle).
    assert (Hm : measure (add_result y (set_worker (Init.Nat.pred (length (stages s))) k Idle s)) =
      measure (set_worker (Init.Nat.pred (length (stages s))) k Idle s)) by done.
    rewrite Hm, H1. simpl. lia.
  - destruct (last (stages s)) as [st|]; [|done].
    destruct (returned s) eqn:Hr; [done|]. simpl in Ha. destruct (closed st); [|done].
    injection Ha as <-. unfold measure. simpl. rewrite Hr. lia.
Qed.

(** Every execution, whatever is scheduled and whether or not it is cancelled on the
    way, comes to a state that satisfies [P]. *)
Inductive always_reaches (P : Pipeline World Item -> Prop) s : Prop :=
| reaches_now : P s -> always_reaches P s
| reaches_later :
    (exists a s', a <> Cancel /\ act a s = Some s') ->
    (forall s', step s s' -> always_reaches P s') -> always_reaches P s.

(** Something other than a cancellation can happen. *)
Definition can_go s : Prop := exists a s', a <> Cancel /\ act a s = Some s'.

Lemma go_with s s' a : a <> Cancel -> act a s = Some s' -> can_go s.
Proof. intros. by exists a, s'. Qed.

Lemma worker_at_lookup s i st k w :
  stages s !! i = Some st -> workers st !! k = Some w -> worker_at s i k = Some w.
Proof. unfold worker_at. intros -> Hk. done. Qed.

Lemma all_exited_or l :
  Forall (fun w => w = Exited) l \/ exists k w, l !! k = Some w /\ w <> Exited.
Proof.
  induction l as [|w l [IH|(k & w' & Hk & Hw)]]; [by left| |right; by exists (S k), w'].
  destruct (decide (exited w = true)) as [He|He].
  - left. constructor; [by destruct w | done].
  - right. exists 0, w. split; [done|]. by intros ->.
Qed.

Lemma close_goes s i st :
  stages s !! i = Some st -> closed st = false -> Forall (fun w => w = Exited) (workers st) ->
  can_go s.
Proof.
  intros Hi Hc Hall. assert (Hb : forallb exited (workers st) = true).
  { apply forallb_forall. intros w Hw. rewrite Forall_forall in Hall.
    by rewrite (Hall w) by by apply list_elem_of_In. }
  eapply (go_with _ _ (Close i)); [done|]. simpl. by rewrite Hi, Hc, Hb.
Qed.

Lemma return_goes s st :
  last (stages s) = Some st -> closed st = true -> returned s = false -> can_go s.
Proof.
  intros Hl Hc Hr. eapply (go_with _ _ Return); [done|]. simpl. by rewrite Hl, Hr, Hc.
Qed.

Lemma starting_or_busy_goes (world : World) s i st k w :
  stages s !! i = Some st -> workers st !! k = Some w ->
  match w with Starting | Busy _ _ => True | _ => False end -> can_go s.
Proof.
  intros Hi Hk Hw. pose proof (worker_at_lookup _ _ _ _ _ Hi Hk) as Hat.
  destruct w as [| |f x|y|]; try done.
  - eapply (go_with _ _ (Begin i k)); [done|]. simpl. by rewrite Hat.
  - eapply (go_with _ _ (Reply i k world)); [done|]. simpl. by rewrite Hat.
Qed.

(** A worker that waits for input gets an item, or sees its input closed, or
    something before it goes on. *)
Lemma idle_goes (world : World) s i st k :
  stages s !! i = Some st -> workers st !! k = Some Idle -> can_go s.
Proof.
  revert st k. induction i as [|i IH]; intros st k Hi Hk;
    pose proof (worker_at_lookup _ _ _ _ _ Hi Hk) as Hat.
  - destruct (jobs s) as [|x l] eqn:Hj.
    + eapply (go_with _ _ (Leave 0 k)); [done|]. simpl. by rewrite Hat, Hj.
    + eapply (go_with _ _ (Take k)); [done|]. simpl. unfold pool_at. by rewrite Hj, Hi, Hat.
  - destruct (stages s !! i) as [st0|] eqn:Hi0.
    2: { apply lookup_ge_None in Hi0. apply lookup_lt_Some in Hi. lia. }
    destruct (closed st0) eqn:Hc.
    { eapply (go_with _ _ (Leave (S i) k)); [done|]. simpl. by rewrite Hat, Hi0, Hc. }
    destruct (all_exited_or (workers st0)) as [Hall|(k0 & w0 & Hk0 & Hw0)];
      [by apply (close_goes _ _ _ Hi0 Hc Hall)|].
    destruct w0 as [| |f x|y|]; [by apply (starting_or_busy_goes world _ _ _ _ _ Hi0 Hk0) |
      by apply (IH _ _ eq_refl Hk0) | by apply (starting_or_busy_goes world _ _ _ _ _ Hi0 Hk0) | | done].
    eapply (go_with _ _ (Hand i k0 k)); [done|]. simpl. unfold pool_at.
    by rewrite (worker_at_lookup _ _ _ _ _ Hi0 Hk0), Hi, Hat.
Qed.

Lemma not_returned_goes (world : World) s st :
  last (stages s) = Some st -> returned s = false -> can_go s.
Proof.
  intros Hl Hr. destruct (closed st) eqn:Hc; [by eapply return_goes|].
  pose proof Hl as Hi. rewrite last_lookup in Hi.
  destruct (all_exited_or (workers st)) as [Hall|(k & w & Hk & Hw)];
    [by apply (close_goes _ _ _ Hi Hc Hall)|].
  destruct w as [| |f x|y|]; [by apply (starting_or_busy_goes world _ _ _ _ _ Hi Hk) |
    by apply (idle_goes world _ _ _ _ Hi Hk) |
    by apply (starting_or_busy_goes world _ _ _ _ _ Hi Hk) | | done].
  eapply (go_with _ _ (Collect k)); [done|]. simpl.
  by rewrite (worker_at_lookup _ _ _ _ _ Hi Hk), Hr.
Qed.

Lemma reachable_returns (world : World) pools input s :
  reachable input pools s -> pools <> [] -> always_reaches (fun s' => returned s' = true) s.
Proof.
  intros Hr Hne. remember (measure s) as m eqn:Hm. revert s Hr Hm.
  induction (lt_wf m) as [m _ IH]. intros s Hr ->.
  destruct (returned s) eqn:Hret; [by apply reaches_now|]. apply reaches_later.
  - pose proof (shape_length _ _ (proj1 (reachable_pipe_ok _ _ _ Hr))) as Hlen.
    destruct (last (stages s)) as [st|] eqn:Hl; [by apply (not_returned_goes world _ st)|].
    apply last_None in Hl. rewrite Hl in Hlen. by destruct pools.
  - intros s' Hs. apply (IH (measure s')); [by apply step_measure | by eapply reach_step | done].
Qed.
End Termination.
