(* ===== verification/Evidence.v ===== *)
(** * Evidence for the capabilities of a device ([agent/scanner/capabilities]:
    [DetectionEvidence], its index and the accessors of [capabilities.go]).

    An evidence is never nil here: the accessors' nil checks guard callers that have
    none. The index is built on first use; every accessor reads it through
    [ensurePDUIndex], which is idempotent. *)
From S2P Require Import Prelude GoStrings GoFloat GoRegexp.

(** The dynamic type and value of [SnmpPDU.Value]. *)
Inductive PduValue :=
| VNil
| VInt (z : Z)
| VInt32 (z : Z)
| VInt64 (z : Z)
| VUint (z : Z)
| VUint32 (z : Z)
| VUint64 (z : Z)
| VBytes (s : string)
| VString (s : string)
| VOther.

Record SnmpPDU := { Name : string; Value : PduValue }.

Record DetectionEvidence := {
  PDUs : list SnmpPDU;
  PDUByOID : option (gmap string SnmpPDU);
  SysDescr : string;
  SysOID : string;
  Vendor : string;
  Model : string;
  Serial : string;
  Hostname : string;
  OpenPorts : list Z;
  Capabilities : option (gmap string float64);
}.

Definition normalizeOID (oid : string) : string := TrimPrefix oid ".".

(** A later PDU of the same name replaces an earlier one. *)
Definition index_pdus (pdus : list SnmpPDU) : gmap string SnmpPDU :=
  foldl (fun idx pdu => <[normalizeOID (Name pdu) := pdu]> idx) ∅ pdus.

Definition ensurePDUIndex (ev : DetectionEvidence) : DetectionEvidence :=
  match PDUByOID ev with
  | Some _ => ev
  | None =>
      {| PDUs := PDUs ev; PDUByOID := Some (index_pdus (PDUs ev)); SysDescr := SysDescr ev;
         SysOID := SysOID ev; Vendor := Vendor ev; Model := Model ev; Serial := Serial ev;
         Hostname := Hostname ev; OpenPorts := OpenPorts ev; Capabilities := Capabilities ev |}
  end.

Definition lookup_oid (ev : DetectionEvidence) (oid : string) : option SnmpPDU :=
  default ∅ (PDUByOID (ensurePDUIndex ev)) !! normalizeOID oid.

Definition HasOIDIn (ev : DetectionEvidence) (oid : string) : bool :=
  bool_decide (is_Some (lookup_oid ev oid)).

Definition HasAnyOIDIn (ev : DetectionEvidence) (oids : list string) : bool :=
  existsb (HasOIDIn ev) oids.

(** Unsigned values are converted; counters that gosnmp decodes to other types
    (32-bit ticks) and octet strings give 0. *)
Definition pduValueToInt64 (v : PduValue) : Z :=
  match v with
  | VInt z => z
  | VInt64 z => z
  | VUint z => wrap64 z
  | VUint64 z => wrap64 z
  | _ => 0
  end.

Definition GetOIDValueIn (ev : DetectionEvidence) (oid : string) : Z :=
  match lookup_oid ev oid with
  | Some pdu => pduValueToInt64 (Value pdu)
  | None => 0
  end.

Definition text_of (v : PduValue) : string :=
  match v with
  | VBytes s => s
  | VString s => s
  | _ => ""
  end.

Definition GetOIDStringIn (ev : DetectionEvidence) (oid : string) : string :=
  match lookup_oid ev oid with
  | Some pdu => text_of (Value pdu)
  | None => ""
  end.

(** *** The accessors over a list of PDUs, without an index *)

Definition find_pdu (pdus : list SnmpPDU) (oid : string) : option SnmpPDU :=
  List.find (fun pdu => String.eqb (normalizeOID (Name pdu)) (normalizeOID oid)) pdus.

Definition HasOID (pdus : list SnmpPDU) (oid : string) : bool :=
  existsb (fun pdu => String.eqb (normalizeOID (Name pdu)) (normalizeOID oid)) pdus.

Definition HasAnyOID (pdus : list SnmpPDU) (oids : list string) : bool :=
  existsb (HasOID pdus) oids.

Definition GetOIDValue (pdus : list SnmpPDU) (oid : string) : Z :=
  match find_pdu pdus oid with
  | Some pdu => pduValueToInt64 (Value pdu)
  | None => 0
  end.

Definition GetOIDString (pdus : list SnmpPDU) (oid : string) : string :=
  match find_pdu pdus oid with
  | Some pdu => match Value pdu with VBytes s => s | _ => "" end
  | None => ""
  end.

(** *** Text and numbers *)

Section Text.
Context `{GoUnicode}.

Definition ContainsAny (s : string) (substrings : list string) : bool :=
  let s := ToLower s in existsb (fun sub => Contains s (ToLower sub)) substrings.

Definition ContainsAll (s : string) (substrings : list string) : bool :=
  let s := ToLower s in forallb (fun sub => Contains s (ToLower sub)) substrings.

End Text.

Definition Min (a b : float64) : float64 := if fltb a b then a else b.
Definition Max (a b : float64) : float64 := if fltb b a then a else b.

(** The literals of the detectors are tenths. *)
Definition tenths (n : Z) : float64 := flit n 10.

(** [if c { score += w }] *)
Definition add (c : bool) (w : Z) (score : float64) : float64 :=
  if c then fadd score (tenths w) else score.

(** The first counter of [oids] that the device has. *)
Fixpoint first_counter (ev : DetectionEvidence) (oids : list string) : option Z :=
  match oids with
  | [] => None
  | oid :: oids' =>
      if HasOIDIn ev oid then Some (GetOIDValueIn ev oid) else first_counter ev oids'
  end.

(** The largest of the counters, at least 0, and whether there is one. *)
Definition max_counter (ev : DetectionEvidence) (oids : list string) : Z * bool :=
  foldl (fun '(m, has) oid =>
           if HasOIDIn ev oid then
             let n := GetOIDValueIn ev oid in (if m <? n then n else m, true)
           else (m, has)) (0, false) oids.

(** Supply descriptions are the entries of [prtMarkerSuppliesDescription]. *)
Definition is_supply_desc (pdu : SnmpPDU) : bool :=
  Contains (Name pdu) "1.3.6.1.2.1.43.11.1.1.6.1".

Definition supply_count (ev : DetectionEvidence) : nat :=
  length (filter (fun pdu =>
    Is_true (HasPrefix (normalizeOID (Name pdu)) "1.3.6.1.2.1.43.11.1.1.6.1")) (PDUs ev)).

(** ** Lemmas *)

Lemma ensurePDUIndex_idem ev : ensurePDUIndex (ensurePDUIndex ev) = ensurePDUIndex ev.
Proof. unfold ensurePDUIndex at 2 3. destruct (PDUByOID ev) eqn:H; [|done]. unfold ensurePDUIndex. by rewrite H. Qed.

Lemma index_pdus_snoc pdus pdu :
  index_pdus (pdus ++ [pdu]) = <[normalizeOID (Name pdu) := pdu]> (index_pdus pdus).
Proof. unfold index_pdus. by rewrite foldl_app. Qed.

(** An OID is in the index exactly when a PDU of the walk has it. *)
Lemma index_pdus_has pdus oid :
  is_Some (index_pdus pdus !! normalizeOID oid) <-> HasOID pdus oid = true.
Proof.
  unfold HasOID. induction pdus as [|pdu pdus IH] using rev_ind.
  - unfold index_pdus. cbn [foldl existsb]. rewrite lookup_empty. split; [by intros [] | done].
  - rewrite index_pdus_snoc, existsb_app, orb_true_iff, <- IH. cbn [existsb].
    rewrite orb_false_r. destruct (String.eqb_spec (normalizeOID (Name pdu)) (normalizeOID oid)) as [->|Hne].
    + rewrite lookup_insert_eq. split; [by right | by eexists].
    + rewrite lookup_insert_ne by done. split; [by left | by intros [?|?]].
Qed.

(** The two families of accessors agree on whether an OID is present. *)
Lemma HasOIDIn_HasOID ev oid :
  PDUByOID ev = None -> HasOIDIn ev oid = HasOID (PDUs ev) oid.
Proof.
  intros Hn. unfold HasOIDIn, lookup_oid, ensurePDUIndex. rewrite Hn. simpl.
  pose proof (index_pdus_has (PDUs ev) oid) as Hi.
  destruct (HasOID (PDUs ev) oid).
  - apply bool_decide_eq_true_2, Hi. done.
  - apply bool_decide_eq_false_2. intros Hs%Hi. done.
Qed.

(** ** The form factor of a device ([agent/scanner/capabilities/formfactor.go]) *)

From Stdlib Require Import Ascii.

Open Scope string_scope.

Section FormFactor.
Context `{GoUnicode}.

Definition FormFactorDesktop := "Desktop".
Definition FormFactorWideFormat := "Wide Format".
Definition FormFactorLabelPrint := "Label Printer".
Definition FormFactorProduction := "Production".
Definition FormFactorFloorCopier := "Floor Copier".
Definition FormFactorUnknown := "".

Definition contains_one (s : string) (keywords : list string) : bool := existsb (Contains s) keywords.

Definition wideFormatKeywords : list string :=
  ["wide format"; "large format"; "plotter"; "36-inch"; "44-inch"; "60-inch";
   "24-inch"; "42-inch"; "cad"; "gis printer"; "poster"; "blueprint"].
Definition labelVendors : list string := ["brady"; "datamax"; "intermec"; "honeywell label"; "bixolon"].
Definition labelKeywords : list string :=
  ["label printer"; "barcode"; "thermal transfer"; "direct thermal";
   "roll printer"; "ticket printer"; "wristband"].
Definition productionKeywords : list string := ["digital press"; "production printer"; "high volume"].

(** [pro\s*c?\d{4,5}], [bizhub\s*c?\d{3,4}], [(im|mp)\s*c?\d{4,5}] and
    [(hl|dcp|mfc)-[a-z]?\d{4}]: unanchored, so the smaller repetition decides. *)
Definition series (name : re) (digits : nat) : re :=
  Cat name (Cat (Star White) (Cat (Opt (Byte "c"%char)) (Times digits Digit))).
Definition ricoh_pro : re := series (Text "pro") 4.
Definition bizhub : re := series (Text "bizhub") 3.
Definition ricoh_im : re := series (Alt (Text "im") (Text "mp")) 4.
Definition brother_desktop : re :=
  Cat (Alt (Text "hl") (Alt (Text "dcp") (Text "mfc")))
      (Cat (Byte "-"%char) (Cat (Opt Letter) (Times 4 Digit))).

Section Classify.
Variable ev : DetectionEvidence.
Let model := ToLower (Model ev).
Let vendor := ToLower (Vendor ev).
Let sysDescr := ToLower (SysDescr ev).
Let combined := model +:+ " " +:+ vendor +:+ " " +:+ sysDescr.

Definition is_wide_format : bool :=
  Contains combined "designjet" ||
  contains_one model ["surecolor"; "sc-t"; "sc-p"; "sc-f"] ||
  (Contains combined "imageprograf" || Contains model "ipf-" || Contains model "pro-") ||
  contains_one combined wideFormatKeywords.

Definition is_label_printer : bool :=
  contains_one model ["cw-c"; "colorworks"] ||
  MatchAtWord "tm-" model ||
  (Contains vendor "zebra" || Contains model "zebra") ||
  (Contains vendor "sato" || Contains model "sato") ||
  (Contains vendor "tsc" && negb (Contains vendor "toshiba")) ||
  contains_one combined labelVendors ||
  contains_one combined labelKeywords.

Definition is_production : bool :=
  Contains combined "indigo" ||
  contains_one model ["bizhub press"; "accuriopress"] ||
  contains_one model ["igen"; "versant"; "nuvera"] ||
  Contains model "imagepress" ||
  (MatchString ricoh_pro model && Contains vendor "ricoh") ||
  contains_one combined productionKeywords.

Definition is_floor_copier : bool :=
  MatchString bizhub model ||
  contains_one model ["imagerunner advance"; "ir-adv"; "iradv"] ||
  (MatchString ricoh_im model && Contains vendor "ricoh") ||
  contains_one model ["workcentre"; "altalink"] ||
  (Contains model "mx-" && Contains vendor "sharp") ||
  Contains model "taskalfa" ||
  contains_one model ["e-studio"; "estudio"].

Definition is_desktop : bool :=
  Contains model "ecosys" ||
  (Contains model "laserjet" && negb (Contains model "enterprise mfp")) ||
  MatchString brother_desktop model ||
  contains_one model ["workforce"; "wf-"; "ecotank"; "et-"] ||
  Contains model "imageclass" ||
  contains_one model ["officejet"; "deskjet"; "envy"] ||
  Contains vendor "lexmark".

Definition ClassifyFormFactor : string :=
  if is_wide_format then FormFactorWideFormat
  else if is_label_printer then FormFactorLabelPrint
  else if is_production then FormFactorProduction
  else if is_floor_copier then FormFactorFloorCopier
  else if is_desktop then FormFactorDesktop
  else FormFactorUnknown.

End Classify.

Definition IsWideFormat (ev : DetectionEvidence) : bool :=
  String.eqb (ClassifyFormFactor ev) FormFactorWideFormat.
Definition IsLabelPrinter (ev : DetectionEvidence) : bool :=
  String.eqb (ClassifyFormFactor ev) FormFactorLabelPrint.
Definition IsProductionPrinter (ev : DetectionEvidence) : bool :=
  String.eqb (ClassifyFormFactor ev) FormFactorProduction.
Definition IsFloorCopier (ev : DetectionEvidence) : bool :=
  String.eqb (ClassifyFormFactor ev) FormFactorFloorCopier.
Definition IsDesktop (ev : DetectionEvidence) : bool :=
  String.eqb (ClassifyFormFactor ev) FormFactorDesktop.

(** The five predicates are exclusive and follow the order of precedence. *)
Lemma form_factor_cases ev :
  ClassifyFormFactor ev ∈ [FormFactorWideFormat; FormFactorLabelPrint; FormFactorProduction;
    FormFactorFloorCopier; FormFactorDesktop; FormFactorUnknown].
Proof.
  unfold ClassifyFormFactor. repeat case_match; repeat constructor.
Qed.

End FormFactor.

(** ** The rules on device names *)

(** Names as devices report them. *)
Definition named (vendor model : string) : DetectionEvidence :=
  {| PDUs := []; PDUByOID := None; SysDescr := ""; SysOID := ""; Vendor := vendor;
     Model := model; Serial := ""; Hostname := ""; OpenPorts := []; Capabilities := None |}.

Example floor_copiers :
  map (fun '(v, m) => ClassifyFormFactor (named v m))
    [("Konica Minolta", "KONICA MINOLTA bizhub C364e"); ("Ricoh", "RICOH IM C3500");
     ("Xerox", "Xerox WorkCentre 7845"); ("Kyocera", "TASKalfa 3252ci")] =
  replicate 4 FormFactorFloorCopier.
Proof. vm_compute. reflexivity. Qed.

Example desktops :
  map (fun '(v, m) => ClassifyFormFactor (named v m))
    [("Brother", "Brother HL-L2350DW series"); ("Brother", "MFC-J4535DW"); ("HP", "HP LaserJet Pro M404dn");
     ("Kyocera", "ECOSYS PA4000wx")] = replicate 4 FormFactorDesktop.
Proof. vm_compute. reflexivity. Qed.

(** The rule for Canon's wide format series asks for ["pro-"] in any model name: the
    Ricoh production and the desktop models that have it are wide format too. The
    desktop printers of the [pixma pro] series are an example. *)
Example pro_dash_is_wide_format :
  ClassifyFormFactor (named "HP" "HP LaserJet Pro-M404") = FormFactorWideFormat /\
  ClassifyFormFactor (named "Ricoh" "RICOH Pro-C5200") = FormFactorWideFormat.
Proof. vm_compute. done. Qed.

(** ["cad"] is a keyword of wide format devices, and occurs in place names. *)
Example cad_in_description :
  ClassifyFormFactor
    {| PDUs := []; PDUByOID := None; SysDescr := "Lexmark MS621 Arcadia office"; SysOID := "";
       Vendor := "Lexmark"; Model := "Lexmark MS621"; Serial := ""; Hostname := "";
       OpenPorts := []; Capabilities := None |} = FormFactorWideFormat.
Proof. vm_compute. reflexivity. Qed.
