(* ===== verification/Supplies.v ===== *)
(** * Names of supplies ([agent/supplies/normalize.go]).

    A printer describes its supplies in free text; the agent files them under a fixed
    set of metric names. Part numbers come first, then words. *)
From S2P Require Import Prelude GoStrings GoRegexp.
From Stdlib Require Import Ascii.

Open Scope string_scope.
Open Scope list_scope.

Definition sep : pat := PMaybe (POne (fun c => Ascii.eqb c "-" || Ascii.eqb c " ")).
Definition letter_digit (c : ascii) : pat := PSeq (Fold c) (POne digit_byte).

(** [(?i)^(tk|tn|ce|cf|w\d|cb|cc|q\d|c\d)[- ]?\d{3,5}([kcmy])$] *)
Definition partNumberPattern : pat :=
  PSeq PStart (PSeq (PGroup (PAny [FoldText "tk"; FoldText "tn"; FoldText "ce"; FoldText "cf";
      letter_digit "w"; FoldText "cb"; FoldText "cc"; letter_digit "q"; letter_digit "c"]))
  (PSeq sep (PSeq (PRun digit_byte 3 (Some 2%nat))
  (PSeq (PGroup (PAny [Fold "k"; Fold "c"; Fold "m"; Fold "y"])) PEnd)))).

(** [(?i)^(tk|tn)[- ]?\d{3,5}[slxh]?$] *)
Definition monoTonerPattern : pat :=
  PSeq PStart (PSeq (PGroup (PAny [FoldText "tk"; FoldText "tn"]))
  (PSeq sep (PSeq (PRun digit_byte 3 (Some 2%nat))
  (PSeq (PMaybe (PAny [Fold "s"; Fold "l"; Fold "x"; Fold "h"])) PEnd)))).

(** [(?i)SJIC\d+P?[- ]?(BK|C|M|Y)\b] *)
Definition epsonInkCartridgePattern : pat :=
  PSeq (FoldText "sjic") (PSeq (PRun digit_byte 1 None) (PSeq (PMaybe (Fold "p"))
  (PSeq sep (PSeq (PGroup (PAny [FoldText "bk"; Fold "c"; Fold "m"; Fold "y"])) PWord)))).

(** [(?i)[- ](BK|CY|MG|YL|C|M|Y)$] *)
Definition genericColorSuffixPattern : pat :=
  PSeq (POne (fun c => Ascii.eqb c "-" || Ascii.eqb c " "))
  (PSeq (PGroup (PAny [FoldText "bk"; FoldText "cy"; FoldText "mg"; FoldText "yl";
      Fold "c"; Fold "m"; Fold "y"])) PEnd).

Definition containsAny (haystack : string) (needles : list string) : bool :=
  existsb (Contains haystack) needles.

(** The first of some texts that a text is, and its name. *)
Fixpoint switch (s : string) (cases : list (list string * string)) : string :=
  match cases with
  | [] => ""
  | (labels, r) :: rest => if bool_decide (s ∈ labels) then r else switch s rest
  end.

Section Normalize.
Context `{GoUnicode}.

(** The colour that group [n] of a pattern names. *)
Definition color_of_group (p : pat) (n : nat) (mapping : string -> string)
    (cases : list (list string * string)) (desc : string) : string :=
  match FindStringSubmatch p desc with
  | Some groups =>
      match groups !! n with Some code => switch (mapping code) cases | None => "" end
  | None => ""
  end.

Definition epson_color : string -> string :=
  color_of_group epsonInkCartridgePattern 0 ToUpper
    [(["BK"], "toner_black"); (["C"], "toner_cyan"); (["M"], "toner_magenta"); (["Y"], "toner_yellow")].

Definition suffix_color : string -> string :=
  color_of_group genericColorSuffixPattern 0 ToUpper
    [(["BK"], "toner_black"); (["C"; "CY"], "toner_cyan"); (["M"; "MG"], "toner_magenta");
     (["Y"; "YL"], "toner_yellow")].

Definition letter_colors : list (list string * string) :=
  [(["k"], "toner_black"); (["c"], "toner_cyan"); (["m"], "toner_magenta"); (["y"], "toner_yellow")].

Definition part_number_color : string -> string :=
  color_of_group partNumberPattern 1 ToLower letter_colors.

(** A text of four bytes and more that ends in a digit and a colour letter. *)
Definition last_letter_color (desc : string) : string :=
  let lower := TrimSpace (TrimPrefix (ToLower desc) "supply ") in
  if (4 <=? String.length lower)%nat && negb (all_bytes (fun c => negb (digit_byte c)) lower) then
    match String.rev lower with
    | String l (String d _) => if digit_byte d then switch (String l "") letter_colors else ""
    | _ => ""
    end
  else "".

Definition or_name (a b : string) : string := if String.eqb a "" then b else a.

Definition extractColorFromPartNumber (desc : string) : string :=
  or_name (epson_color desc)
  (or_name (suffix_color desc)
  (or_name (part_number_color desc)
  (if is_match monoTonerPattern desc then "toner_black" else last_letter_color desc))).

(** [strings.ReplaceAll(s, old, " ")] for the four single bytes. *)
Definition blank (c : ascii) : ascii :=
  if bool_decide (c ∈ ["_"; "-"; chr 9; chr 10]%char) then " "%char else c.

Definition toner_words : list string := ["toner"; "ink"; "cartridge"; "developer"; "supply"].
Definition drum_words : list string := ["drum"; "imaging"; "image"; "opc"; "photoconductor"].
Definition black_words : list string :=
  ["black"; " bk"; "bk "; "blk"; "negro"; "noir"; "schwarz"; "nero";
   String "m" (String (chr 195) (String (chr 161) ""))].
Definition cyan_words : list string := ["cyan"; " cy"; "cy "; "cyn"].
Definition magenta_words : list string := ["magenta"; " mg"; "mg "; " mag"; "mag "].
Definition yellow_words : list string :=
  ["yellow"; " yl"; "yl "; "yel"; "amarillo"; "jaune"; "gelb"; "giallo"].

(** The words of a text in lower case without its separators. *)
Definition word_name (lower : string) : string :=
  if String.eqb lower "" then "" else
  let isTonerWord := containsAny lower toner_words in
  let isDrumWord := containsAny lower drum_words in
  let only_drum := isDrumWord && negb isTonerWord in
  if containsAny lower black_words || String.eqb lower "k" then
    if only_drum then "drum_life" else "toner_black"
  else if containsAny lower cyan_words || String.eqb lower "c" then
    if only_drum then "" else "toner_cyan"
  else if containsAny lower magenta_words || String.eqb lower "m" then
    if only_drum then "" else "toner_magenta"
  else if containsAny lower yellow_words || String.eqb lower "y" then
    if only_drum then "" else "toner_yellow"
  else if isDrumWord then "drum_life"
  else if containsAny lower ["waste"; "used"] then "waste_toner"
  else if containsAny lower ["fuser"; "fusing"] then "fuser_life"
  else if containsAny lower ["transfer"; "belt"] then "transfer_belt"
  else if containsAny lower ["maintenance"; "maint box"; "sjmb"] then "waste_toner"
  else "".

Definition NormalizeDescription (desc : string) : string :=
  let clean := TrimSpace desc in
  if String.eqb clean "" then "" else
  or_name (extractColorFromPartNumber clean)
    (word_name (TrimSpace (map_string blank (ToLower clean)))).
End Normalize.

(** ** The names *)

(** The metrics that a supply is filed under, and no name. *)
Definition supply_names : list string :=
  ["toner_black"; "toner_cyan"; "toner_magenta"; "toner_yellow"; "drum_life"; "waste_toner";
   "fuser_life"; "transfer_belt"; ""].

Lemma switch_names s cases :
  Forall (fun c => c.2 ∈ supply_names) cases -> switch s cases ∈ supply_names.
Proof.
  induction 1 as [|[labels r] cases Hr _ IH]; simpl; [by repeat constructor|].
  by destruct (bool_decide _).
Qed.

Ltac names := unfold supply_names; repeat constructor.

Lemma or_name_names a b : a ∈ supply_names -> b ∈ supply_names -> or_name a b ∈ supply_names.
Proof. unfold or_name. by destruct (String.eqb a ""). Qed.

Lemma color_of_group_names `{GoUnicode} p n mapping cases desc :
  Forall (fun c => c.2 ∈ supply_names) cases -> color_of_group p n mapping cases desc ∈ supply_names.
Proof.
  intros Hc. unfold color_of_group. destruct (FindStringSubmatch p desc) as [groups|]; [|names].
  destruct (groups !! n); [by apply switch_names | names].
Qed.

Lemma last_letter_names `{GoUnicode} desc : last_letter_color desc ∈ supply_names.
Proof.
  unfold last_letter_color. destruct (_ && _); [|names].
  destruct (String.rev _) as [|l [|d t]]; [names..|]. destruct (digit_byte d); [|names].
  apply switch_names. names.
Qed.

Lemma word_name_names `{GoUnicode} lower : word_name lower ∈ supply_names.
Proof. unfold word_name. repeat case_match; names. Qed.

Lemma NormalizeDescription_names `{GoUnicode} desc : NormalizeDescription desc ∈ supply_names.
Proof.
  unfold NormalizeDescription, extractColorFromPartNumber.
  destruct (String.eqb _ ""); [names|].
  apply or_name_names; [|apply word_name_names].
  repeat apply or_name_names; try (apply color_of_group_names; names).
  destruct (is_match _ _); [names | apply last_letter_names].
Qed.

(** ** The case of the text *)

Lemma lower_byte_high c : (128 <= byte_of c)%Z -> lower_byte c = c.
Proof. destruct c as [[] [] [] [] [] [] [] []]; first [done | intros Hc; by vm_compute in Hc]. Qed.

Lemma ascii_space_lower c : ascii_space (lower_byte c) = ascii_space c.
Proof. by destruct c as [[] [] [] [] [] [] [] []]. Qed.

Lemma low_byte_lower c : (byte_of c < 128)%Z -> (byte_of (lower_byte c) < 128)%Z.
Proof. intros Hc. apply Z.ltb_lt, lower_byte_ascii. by apply Z.ltb_lt. Qed.

Lemma space2_high a b : space2 a b = true -> (128 <= byte_of a)%Z /\ (128 <= byte_of b)%Z.
Proof.
  unfold space2. rewrite andb_true_iff, orb_true_iff, !Z.eqb_eq. lia.
Qed.

Lemma space3_high a b c :
  space3 a b c = true -> (128 <= byte_of a)%Z /\ (128 <= byte_of b)%Z /\ (128 <= byte_of c)%Z.
Proof.
  unfold space3. rewrite !orb_true_iff, !andb_true_iff, !orb_true_iff, !andb_true_iff, !Z.eqb_eq, !Z.leb_le.
  lia.
Qed.

Lemma lower_high c : (128 <= byte_of (lower_byte c))%Z -> lower_byte c = c.
Proof.
  intros Hc. destruct (Z.lt_ge_cases (byte_of c) 128) as [Hl|Hh]; [|by apply lower_byte_high].
  apply low_byte_lower in Hl. lia.
Qed.

Lemma space2_lower a b : space2 (lower_byte a) (lower_byte b) = space2 a b.
Proof.
  apply eq_true_iff_eq. split; intros Hs; pose proof (space2_high _ _ Hs) as [Ha Hb].
  - by rewrite (lower_high a), (lower_high b) in Hs.
  - by rewrite (lower_byte_high a), (lower_byte_high b).
Qed.

Lemma space3_lower a b c : space3 (lower_byte a) (lower_byte b) (lower_byte c) = space3 a b c.
Proof.
  apply eq_true_iff_eq. split; intros Hs; pose proof (space3_high _ _ _ Hs) as (Ha & Hb & Hc).
  - by rewrite (lower_high a), (lower_high b), (lower_high c) in Hs.
  - by rewrite (lower_byte_high a), (lower_byte_high b), (lower_byte_high c).
Qed.

Lemma trim_front_eq bwd c1 s1 :
  trim_front bwd (String c1 s1) =
  if ascii_space c1 then trim_front bwd s1
  else match s1 with
       | String c2 s2 =>
           if (if bwd then space2 c2 c1 else space2 c1 c2) then trim_front bwd s2
           else match s2 with
                | String c3 s3 =>
                    if (if bwd then space3 c3 c2 c1 else space3 c1 c2 c3)
                    then trim_front bwd s3 else String c1 s1
                | EmptyString => String c1 s1
                end
       | EmptyString => String c1 s1
       end.
Proof. by destruct s1 as [|c2 [|c3 s3]]. Qed.

Lemma trim_front_lower bwd s : trim_front bwd (lower_all s) = lower_all (trim_front bwd s).
Proof.
  remember (String.length s) as n eqn:Hn. revert s Hn.
  induction (lt_wf n) as [n _ IH]. intros [|c1 s1] ->; [done|].
  assert (IH' : forall t, (String.length t <= String.length s1)%nat ->
    trim_front bwd (lower_all t) = lower_all (trim_front bwd t)).
  { intros t Ht. eapply IH; [|done]. simpl. lia. }
  change (lower_all (String c1 s1)) with (String (lower_byte c1) (lower_all s1)).
  rewrite !trim_front_eq, ascii_space_lower. destruct (ascii_space c1); [by apply IH'|].
  destruct s1 as [|c2 s2]; [done|]. change (lower_all (String c2 s2)) with (String (lower_byte c2) (lower_all s2)).
  cbv iota beta. rewrite !space2_lower.
  destruct (if bwd then space2 c2 c1 else space2 c1 c2); [apply IH'; simpl; lia|].
  destruct s2 as [|c3 s3]; [done|]. change (lower_all (String c3 s3)) with (String (lower_byte c3) (lower_all s3)).
  cbv iota beta. rewrite !space3_lower.
  destruct (if bwd then space3 c3 c2 c1 else space3 c1 c2 c3); [apply IH'; simpl; lia | done].
Qed.

Lemma rev_map_string f s : String.rev (map_string f s) = map_string f (String.rev s).
Proof.
  unfold String.rev. change EmptyString with (map_string f EmptyString) at 1.
  generalize EmptyString. induction s as [|c s IH]; intros acc; simpl; [done|]. apply (IH (String c acc)).
Qed.

Lemma TrimSpace_lower s : TrimSpace (lower_all s) = lower_all (TrimSpace s).
Proof. unfold TrimSpace. by rewrite trim_front_lower, rev_map_string, trim_front_lower, rev_map_string. Qed.

Lemma Fold_caseless c : caseless (Fold c).
Proof.
  unfold Fold. destruct (Ascii.eqb c "k"); [|destruct (Ascii.eqb c "s")]; simpl;
    [split|split|]; try (intros d; by rewrite lower_byte_idem); unfold byte_of; simpl; lia.
Qed.

Lemma FoldText_caseless t : caseless (FoldText t).
Proof.
  induction t as [|c t IH]; [done|]. destruct t as [|d t]; [apply Fold_caseless|].
  split; [apply Fold_caseless | exact IH].
Qed.

Lemma PAny_caseless l : Forall caseless l -> caseless (PAny l).
Proof.
  induction 1 as [|p l Hp Hl IH]; [done|]. simpl. destruct l as [|q l]; [done | by split].
Qed.

Lemma digit_byte_lower c : digit_byte (lower_byte c) = digit_byte c.
Proof. by destruct c as [[] [] [] [] [] [] [] []]. Qed.

Lemma sep_byte_lower c :
  Ascii.eqb (lower_byte c) "-" || Ascii.eqb (lower_byte c) " " = Ascii.eqb c "-" || Ascii.eqb c " ".
Proof. by destruct c as [[] [] [] [] [] [] [] []]. Qed.

Ltac caseless_tac :=
  repeat match goal with
  | |- caseless (PSeq _ _) => split
  | |- caseless (POr _ _) => split
  | |- caseless (PGroup ?p) => change (caseless p)
  | |- caseless (PAny _) => apply PAny_caseless; repeat apply Forall_cons_2; try apply Forall_nil_2
  | |- caseless (FoldText _) => apply FoldText_caseless
  | |- caseless (Fold _) => apply Fold_caseless
  | |- caseless (PRun _ _ _) => exact digit_byte_lower
  | |- caseless (POne digit_byte) => exact digit_byte_lower
  | |- caseless (POne _) => exact sep_byte_lower
  | |- caseless _ => exact I
  end.

Lemma partNumber_caseless : caseless partNumberPattern.
Proof. unfold partNumberPattern, sep, PMaybe, letter_digit. caseless_tac. Qed.

Lemma monoToner_caseless : caseless monoTonerPattern.
Proof. unfold monoTonerPattern, sep, PMaybe. caseless_tac. Qed.

Lemma epsonInk_caseless : caseless epsonInkCartridgePattern.
Proof. unfold epsonInkCartridgePattern, sep, PMaybe. caseless_tac. Qed.

Lemma colorSuffix_caseless : caseless genericColorSuffixPattern.
Proof. unfold genericColorSuffixPattern. caseless_tac. Qed.

Lemma upper_lower_byte c : (byte_of c <? 128)%Z = true -> upper_byte (lower_byte c) = upper_byte c.
Proof. by destruct c as [[] [] [] [] [] [] [] []]. Qed.

Lemma map_upper_lower s : is_ascii s = true -> map_string upper_byte (lower_all s) = map_string upper_byte s.
Proof.
  induction s as [|c s IH]; simpl; [done|]. intros [Hc Hs]%andb_true_iff.
  by rewrite upper_lower_byte, IH.
Qed.

Section Case.
Context `{GoUnicode}.

Lemma ToUpper_lower s : is_ascii s = true -> ToUpper (lower_all s) = ToUpper s.
Proof.
  intros Hs. unfold ToUpper. rewrite Hs, is_ascii_map_lower by done. by apply map_upper_lower.
Qed.

Lemma ToLower_lower s : is_ascii s = true -> ToLower (lower_all s) = ToLower s.
Proof.
  intros Hs. unfold ToLower. rewrite Hs, is_ascii_map_lower by done.
  apply map_string_idem, lower_byte_idem.
Qed.

Lemma color_of_group_lower p n mapping cases desc :
  caseless p -> (forall s, is_ascii s = true -> mapping (lower_all s) = mapping s) ->
  is_ascii desc = true ->
  color_of_group p n mapping cases (lower_all desc) = color_of_group p n mapping cases desc.
Proof.
  intros Hp Hm Hd. unfold color_of_group. rewrite FindStringSubmatch_lower by done.
  destruct (FindStringSubmatch p desc) as [groups|] eqn:Hg; simpl; [|done].
  apply FindStringSubmatch_ascii in Hg; [|done]. rewrite list_lookup_fmap.
  destruct (groups !! n) as [code|] eqn:Hn; simpl; [|done].
  rewrite Forall_lookup in Hg. by rewrite Hm by by eapply Hg.
Qed.

Lemma is_match_lower p desc :
  caseless p -> is_ascii desc = true -> is_match p (lower_all desc) = is_match p desc.
Proof.
  intros Hp Hd. unfold is_match. rewrite FindStringSubmatch_lower by done.
  by destruct (FindStringSubmatch p desc).
Qed.

Lemma extractColor_lower desc :
  is_ascii desc = true ->
  extractColorFromPartNumber (lower_all desc) = extractColorFromPartNumber desc.
Proof.
  intros Hd. unfold extractColorFromPartNumber, epson_color, suffix_color, part_number_color.
  rewrite !color_of_group_lower by (first [apply epsonInk_caseless | apply colorSuffix_caseless |
    apply partNumber_caseless | apply ToUpper_lower | apply ToLower_lower | done]).
  rewrite is_match_lower by (apply monoToner_caseless || done).
  unfold last_letter_color. by rewrite ToLower_lower.
Qed.

Lemma NormalizeDescription_lower desc :
  is_ascii desc = true -> NormalizeDescription (lower_all desc) = NormalizeDescription desc.
Proof.
  intros Hd. unfold NormalizeDescription. rewrite TrimSpace_lower.
  assert (Ht : is_ascii (TrimSpace desc) = true).
  { rewrite is_ascii_all in Hd |- *. by apply TrimSpace_all. }
  rewrite extractColor_lower, ToLower_lower by done. by destruct (TrimSpace desc).
Qed.
End Case.

(** The supply that a description names does not depend on the case of its letters. *)
Lemma NormalizeDescription_fold `{GoUnicode} a b :
  is_ascii a = true -> is_ascii b = true -> EqualFold a b = true ->
  NormalizeDescription a = NormalizeDescription b.
Proof.
  intros Ha Hb Hf. rewrite EqualFold_ascii in Hf by done.
  rewrite <- (NormalizeDescription_lower a), <- (NormalizeDescription_lower b) by done.
  by rewrite Hf.
Qed.

(** The words guard drums from being filed as toner, the suffixes of part numbers,
    which come first, do not. *)
Lemma drum_filed_as_toner :
  NormalizeDescription "Cyan Drum Unit" = "" /\ NormalizeDescription "Drum Unit C" = "toner_cyan" /\
  NormalizeDescription "Fuser Kit 110C" = "toner_cyan".
Proof. split_and!; vm_compute; reflexivity. Qed.
