(* ===== verification/Detectors.v ===== *)
(** * The capability detectors ([agent/scanner/capabilities]: [printer.go], [color.go],
    [mono.go], [copier.go], [scanner.go], [fax.go], [duplex.go], [technology.go]).

    Each detector adds weights to a score for the tests that hold; [add c w] adds [w]
    tenths when [c] does. *)
From S2P Require Import Prelude GoStrings GoFloat Evidence.

Open Scope string_scope.
Open Scope Z_scope.

(** The interface [CapabilityDetector]. *)
Record CapabilityDetector := {
  DetectorName : string;
  Threshold : float64;
  Detect : DetectionEvidence -> float64;
}.

Section Detectors.
Context `{GoUnicode}.

(** ** Printer *)

Definition printerOIDs : list string :=
  ["1.3.6.1.2.1.43.5.1.1.17.1"; "1.3.6.1.2.1.43.10.2.1.4.1.1"; "1.3.6.1.2.1.25.3.2.1.3.1"].
Definition printerPorts : list Z := [9100; 515; 631].
Definition printerVendors : list string :=
  ["HP"; "Canon"; "Brother"; "Epson"; "Xerox"; "Kyocera"; "Ricoh"; "Lexmark"; "Samsung"].
Definition printerKeywords : list string :=
  ["printer"; "laserjet"; "deskjet"; "officejet"; "imagerunner"; "imageclass"].

Definition port_open (ev : DetectionEvidence) (port : Z) : bool :=
  existsb (fun openPort => port =? openPort) (OpenPorts ev).

Definition printer_score (ev : DetectionEvidence) : float64 :=
  let score := tenths 0 in
  let score := add (negb (String.eqb (Serial ev) "")) 5 score in
  let score := add (HasAnyOIDIn ev printerOIDs) 3 score in
  let score := add (port_open ev 9100) 1 score in
  let score := add (port_open ev 515) 1 score in
  let score := add (port_open ev 631) 1 score in
  let score := add (existsb (fun vendor => String.eqb (Vendor ev) vendor) printerVendors) 1 score in
  let score := add (ContainsAny (Model ev) printerKeywords ||
                    ContainsAny (SysDescr ev) printerKeywords) 1 score in
  Min score (tenths 10).

(** ** Color *)

Definition colorantOIDs : list string :=
  ["1.3.6.1.2.1.43.12.1.1.4.1.1"; "1.3.6.1.2.1.43.12.1.1.4.1.2";
   "1.3.6.1.2.1.43.12.1.1.4.1.3"; "1.3.6.1.2.1.43.12.1.1.4.1.4"].
Definition colorPageOIDs : list string :=
  ["1.3.6.1.4.1.11.2.3.9.4.2.1.4.1.2.7.0"; "1.3.6.1.4.1.1602.1.1.1.1.1.1.7.0";
   "1.3.6.1.4.1.2435.2.3.9.4.2.1.5.5.10.2.0"; "1.3.6.1.4.1.1248.1.2.2.27.1.1.4.1.1";
   "1.3.6.1.4.1.1347.42.3.1.2.1.1.1.3"].
Definition consumableKeywords : list string := ["cyan"; "magenta"; "yellow"; "cmy"; "color"].
Definition colorKeywords : list string := ["color"; "colour"; "clx"; "clp"; "c5"; "cp"].

Definition has_colorant (ev : DetectionEvidence) (name : string) : bool :=
  existsb (fun oid => Contains (ToLower (GetOIDStringIn ev oid)) name) colorantOIDs.

(** A counter that the device has weighs [hi] when it is positive and [lo] when not. *)
Definition add_counter (c : option Z) (hi lo : Z) (score : float64) : float64 :=
  match c with
  | Some n => if 0 <? n then fadd score (tenths hi) else fadd score (tenths lo)
  | None => score
  end.

Definition is_kyocera (ev : DetectionEvidence) : bool :=
  Contains (ToLower (Model ev)) "kyocera" || Contains (Vendor ev) "Kyocera".

Definition color_score (ev : DetectionEvidence) : float64 :=
  let score := tenths 0 in
  if has_colorant ev "cyan" && has_colorant ev "magenta" && has_colorant ev "yellow"
  then Min (fadd score (tenths 9)) (tenths 10)
  else
    let score := add_counter (first_counter ev colorPageOIDs) 8 3 score in
    let score := add (existsb (fun pdu => is_supply_desc pdu &&
                   ContainsAny (ToLower (text_of (Value pdu))) consumableKeywords) (PDUs ev)) 7 score in
    let score := add (ContainsAny (Model ev) colorKeywords) 6 score in
    let modelLower := ToLower (Model ev) in
    let epson := Contains modelLower "epson" in
    let score := add (epson && Contains modelLower "am-c") 9 score in
    let score := add (epson && Contains modelLower "wf-c") 9 score in
    let score := add (epson && Contains modelLower "cw-c") 9 score in
    let score := add (is_kyocera ev && (HasSuffix modelLower "ci" || Contains modelLower "ci ")) 9 score in
    let score := add (4 <=? supply_count ev)%nat 3 score in
    let score := add (ContainsAny (SysDescr ev) colorKeywords) 2 score in
    Min score (tenths 10).

(** ** Mono *)

Definition monoColorantOIDs : list string :=
  ["1.3.6.1.2.1.43.12.1.1.4.1.1"; "1.3.6.1.2.1.43.12.1.1.4.1.2"].
Definition monoKeywords : list string := ["mono"; "monochrome"; "b&w"; "black"; "ml-"; "slm"].

Definition mono_colorants (ev : DetectionEvidence) : list string :=
  map ToLower (List.filter (fun value => negb (String.eqb value ""))
                 (map (GetOIDStringIn ev) monoColorantOIDs)).

Definition score_of (ev : DetectionEvidence) (name : string) : option float64 :=
  default ∅ (Capabilities ev) !! name.

Definition color_excludes_mono (ev : DetectionEvidence) : bool :=
  match score_of ev "color" with
  | Some colorScore => fleb (tenths 5) colorScore
  | None => false
  end.

Definition mono_score (ev : DetectionEvidence) : float64 :=
  if color_excludes_mono ev then tenths 0
  else
    let score := tenths 0 in
    let colorants := mono_colorants ev in
    let score := add ((0 <? length colorants)%nat &&
                      forallb (fun colorant => Contains colorant "black") colorants) 9 score in
    let score := add (ContainsAny (Model ev) monoKeywords) 7 score in
    let score := add ((supply_count ev <=? 2)%nat && (0 <? supply_count ev)%nat) 3 score in
    let score := add (ContainsAny (SysDescr ev) monoKeywords) 2 score in
    Min score (tenths 10).

(** ** Copier *)

Definition copyPageOIDs : list string :=
  ["1.3.6.1.4.1.11.2.3.9.4.2.1.4.1.2.8.0"; "1.3.6.1.4.1.1602.1.1.1.1.1.1.8.0";
   "1.3.6.1.4.1.2435.2.3.9.4.2.1.5.5.10.3.0"; "1.3.6.1.4.1.1248.1.2.2.27.6.1.4.1.1.2";
   "1.3.6.1.4.1.1347.42.3.1.1.1.2"].
Definition copierScanOIDs : list string :=
  ["1.3.6.1.4.1.11.2.3.9.4.2.1.3.9.1.2.0"; "1.3.6.1.4.1.11.2.3.9.4.2.1.3.9.1.1.0";
   "1.3.6.1.4.1.1602.1.1.1.4.1.1.0"].
Definition mfpKeywords : list string :=
  ["mfp"; "multifunction"; "all-in-one"; "aio"; "multi function"].
Definition adfKeywords : list string := ["auto"; "adf"; "feeder"].
Definition adfOID : string := "1.3.6.1.2.1.43.8.2.1.2".

(** A positive counter in the Epson or the Kyocera subtree of copies. *)
Definition is_copy_counter (pdu : SnmpPDU) : bool :=
  let oidName := ToLower (Name pdu) in
  Contains oidName "1.3.6.1.4.1" &&
  ((Contains oidName ".27.6.1." && match Value pdu with VNil => false | _ => true end &&
    (0 <? pduValueToInt64 (Value pdu))) ||
   (Contains oidName ".42.3.1.1.1.2" && (0 <? pduValueToInt64 (Value pdu)))).

Definition copier_score (ev : DetectionEvidence) : float64 :=
  let score := tenths 0 in
  let score := add_counter (first_counter ev copyPageOIDs) 9 7 score in
  let score := add (existsb is_copy_counter (PDUs ev)) 8 score in
  let score := add (HasAnyOIDIn ev copierScanOIDs) 5 score in
  let score := add (ContainsAny (Model ev) mfpKeywords) 6 score in
  let modelLower := ToLower (Model ev) in
  let epson := Contains modelLower "epson" in
  let score := add (epson && Contains modelLower "am-c") 8 score in
  let score := add (epson && Contains modelLower "wf-m") 8 score in
  let score := add (epson && (Contains modelLower "wf-c17" || Contains modelLower "wf-c20")) 7 score in
  let score := add (is_kyocera ev && Contains modelLower "taskalfa") 9 score in
  let score := add (is_kyocera ev && HasSuffix modelLower "ci") 8 score in
  let score := add (ContainsAny (GetOIDStringIn ev adfOID) adfKeywords) 3 score in
  let score := add (ContainsAny (SysDescr ev) mfpKeywords) 2 score in
  Min score (tenths 10).

(** ** Scanner, fax, duplex: the largest of several counters *)

(** [hi] for a positive counter, [lo] for counters that are all 0. *)
Definition add_max (m : Z * bool) (hi lo : Z) (score : float64) : float64 :=
  if 0 <? m.1 then fadd score (tenths hi)
  else if m.2 then fadd score (tenths lo) else score.

Definition scanCounterOIDs : list string :=
  ["1.3.6.1.4.1.11.2.3.9.4.2.1.3.9.1.2.0"; "1.3.6.1.4.1.11.2.3.9.4.2.1.3.9.1.1.0";
   "1.3.6.1.4.1.1602.1.1.1.4.1.1.0"; "1.3.6.1.4.1.2435.2.3.9.4.2.1.5.5.8.1.3.0"].
Definition scannerOIDPrefixes : list string := ["1.3.6.1.4.1.367"; "1.3.6.1.4.1.1602"].
Definition scannerKeywords : list string := ["scanner"; "scanstation"; "scan"; "document scanner"].

Definition standalone_boost (printer : option float64) (score : float64) : float64 :=
  match printer with
  | Some printerScore =>
      if fltb printerScore (tenths 3) && fltb (tenths 5) score then fadd score (tenths 2) else score
  | None => score
  end.

Definition scanner_score (ev : DetectionEvidence) : float64 :=
  let score := tenths 0 in
  let score := add_max (max_counter ev scanCounterOIDs) 9 6 score in
  let score := add (existsb (fun prefix => HasPrefix (normalizeOID (SysOID ev)) (normalizeOID prefix))
                      scannerOIDPrefixes) 5 score in
  let score := add (ContainsAny (Model ev) scannerKeywords) 6 score in
  let score := standalone_boost (score_of ev "printer") score in
  let score := add (ContainsAny (GetOIDStringIn ev adfOID) adfKeywords) 2 score in
  let score := add (ContainsAny (SysDescr ev) scannerKeywords) 2 score in
  Min score (tenths 10).

Definition faxPageOIDs : list string :=
  ["1.3.6.1.4.1.11.2.3.9.4.2.1.4.1.2.5.0"; "1.3.6.1.4.1.11.2.3.9.4.2.1.4.1.2.6.0";
   "1.3.6.1.4.1.1602.1.1.1.1.1.1.9.0"; "1.3.6.1.4.1.2435.2.3.9.4.2.1.5.5.10.4.0"].
Definition faxScanOIDs : list string :=
  ["1.3.6.1.4.1.11.2.3.9.4.2.1.3.9.2.1.0"; "1.3.6.1.4.1.11.2.3.9.4.2.1.3.9.2.2.0"].
Definition faxKeywords : list string := ["fax"; "mfp"; "multifunction"].

Definition fax_score (ev : DetectionEvidence) : float64 :=
  let score := tenths 0 in
  let score := add_max (max_counter ev faxPageOIDs) 9 6 score in
  let score := add (HasAnyOIDIn ev faxScanOIDs) 5 score in
  let score := add (ContainsAny (Model ev) faxKeywords) 4 score in
  let score := add (ContainsAny (GetOIDStringIn ev "1.3.6.1.2.1.2.2.1.2") ["fax"; "modem"; "pstn"]) 3 score in
  let score := add (ContainsAny (SysDescr ev) faxKeywords) 2 score in
  Min score (tenths 10).

Definition duplexCounterOIDs : list string :=
  ["1.3.6.1.4.1.11.2.3.9.4.2.1.4.1.2.36.0"; "1.3.6.1.4.1.1602.1.1.1.1.1.1.10.0";
   "1.3.6.1.4.1.2435.2.3.9.4.2.1.5.5.10.6.0"].
Definition capacityOIDs : list string := ["1.3.6.1.2.1.43.9.2.1.13"; "1.3.6.1.2.1.43.8.2.1.13"].
Definition duplexKeywords : list string := ["duplex"; "2-sided"; "two-sided"; "double-sided"].

Definition duplex_score (ev : DetectionEvidence) : float64 :=
  let score := tenths 0 in
  let score := add_max (max_counter ev duplexCounterOIDs) 9 6 score in
  let score := add (existsb (fun oid => ContainsAny (GetOIDStringIn ev oid)
                                          ["duplex"; "2-sided"; "two-sided"]) capacityOIDs) 7 score in
  let modelLower := ToLower (Model ev) in
  let score := add (Contains modelLower "dn" || Contains modelLower "dw") 6 score in
  let score := add (ContainsAny (Model ev) duplexKeywords) 5 score in
  let score := add (ContainsAny (SysDescr ev) duplexKeywords) 2 score in
  Min score (tenths 10).

(** ** Laser and inkjet: two competing scores *)

(** [laserScore] and [inkjetScore] *)
Definition tech_scores : Type := float64 * float64.
Definition laser (c : bool) (w : Z) (s : tech_scores) : tech_scores := (add c w s.1, s.2).
Definition inkjet (c : bool) (w : Z) (s : tech_scores) : tech_scores := (s.1, add c w s.2).

Definition supply_technology (pdus : list SnmpPDU) (s : tech_scores) : tech_scores :=
  foldl (fun s pdu =>
    if is_supply_desc pdu then
      let descLower := ToLower (text_of (Value pdu)) in
      let s := laser (Contains descLower "toner" || Contains descLower "drum unit") 9 s in
      inkjet (Contains descLower "ink" && negb (Contains descLower "toner")) 9 s
    else s) s pdus.

Definition is_epson (ev : DetectionEvidence) : bool :=
  Contains (ToLower (Model ev)) "epson" || Contains (Vendor ev) "Epson".

(** The rules that the two detectors share, in their order. *)
Definition brand_technology (ev : DetectionEvidence) (s : tech_scores) : tech_scores :=
  let has := Contains (ToLower (Model ev)) in
  let kyocera := is_kyocera ev in
  let s := laser (kyocera && (has "ecosys" || has "taskalfa")) 8 s in
  let s := laser (kyocera && negb (has "ecosys" || has "taskalfa")) 6 s in
  let hp := has "hp " || Contains (Vendor ev) "HP" || Contains (Vendor ev) "Hewlett" in
  let s := laser (hp && has "laserjet") 9 s in
  let s := inkjet (hp && (has "officejet" || has "deskjet" || has "envy")) 8 s in
  let s := inkjet (hp && has "pagewide") 9 s in
  let canon := has "canon" || Contains (Vendor ev) "Canon" in
  let s := laser (canon && has "imageclass") 8 s in
  let s := inkjet (canon && has "pixma") 8 s in
  let s := inkjet (canon && has "maxify") 8 s in
  let brother := has "brother" || Contains (Vendor ev) "Brother" in
  let s := laser (brother && (has "hl-l" || has "dcp-l" || has "mfc-l")) 8 s in
  inkjet (brother && (has "hl-j" || has "dcp-j" || has "mfc-j")) 8 s.

Definition fsub (x y : float64) : float64 := SpecFloat.SFsub prec64 emax64 x y.

(** The loser of the two scores keeps what is left of its distance to the winner. *)
Definition losing_score (loser winner : float64) : float64 :=
  Max (tenths 0) (fadd (fsub loser winner) (tenths 3)).

Definition laser_scores (ev : DetectionEvidence) : tech_scores :=
  let has := Contains (ToLower (Model ev)) in
  let s := supply_technology (PDUs ev) (tenths 0, tenths 0) in
  let epson := is_epson ev in
  let s := laser (epson && (has "al-" || has "aculaser")) 9 s in
  let s := inkjet (epson && negb (has "al-" || has "aculaser")) 8 s in
  let s := inkjet (epson && has "wf-") 9 s in
  let s := inkjet (epson && has "cw-") 9 s in
  let s := inkjet (epson && has "am-c") 9 s in
  let s := inkjet (epson && (has "et-" || has "ecotank")) 9 s in
  let s := inkjet (epson && (has "sc-" || has "surecolor")) 9 s in
  brand_technology ev s.

Definition laser_score (ev : DetectionEvidence) : float64 :=
  let '(laserScore, inkjetScore) := laser_scores ev in
  if fltb laserScore inkjetScore then losing_score laserScore inkjetScore
  else Min laserScore (tenths 10).

Definition inkjet_scores (ev : DetectionEvidence) : tech_scores :=
  let has := Contains (ToLower (Model ev)) in
  let s := supply_technology (PDUs ev) (tenths 0, tenths 0) in
  let epson := is_epson ev in
  let s := laser (epson && (has "al-" || has "aculaser")) 9 s in
  let s := inkjet (epson && negb (has "al-" || has "aculaser")) 8 s in
  let s := inkjet (epson && (has "wf-" || has "workforce")) 9 s in
  let s := inkjet (epson && (has "cw-" || has "colorworks")) 9 s in
  let s := inkjet (epson && has "am-c") 9 s in
  let s := inkjet (epson && (has "et-" || has "ecotank")) 9 s in
  let s := inkjet (epson && (has "sc-" || has "surecolor")) 9 s in
  brand_technology ev s.

Definition inkjet_score (ev : DetectionEvidence) : float64 :=
  let '(laserScore, inkjetScore) := inkjet_scores ev in
  if fltb inkjetScore laserScore then losing_score inkjetScore laserScore
  else Min inkjetScore (tenths 10).

(** ** The detectors *)

Definition PrinterDetector := {| DetectorName := "printer"; Threshold := tenths 7; Detect := printer_score |}.
Definition ColorDetector := {| DetectorName := "color"; Threshold := tenths 7; Detect := color_score |}.
Definition MonoDetector := {| DetectorName := "mono"; Threshold := tenths 7; Detect := mono_score |}.
Definition CopierDetector := {| DetectorName := "copier"; Threshold := tenths 7; Detect := copier_score |}.
Definition ScannerDetector := {| DetectorName := "scanner"; Threshold := tenths 7; Detect := scanner_score |}.
Definition FaxDetector := {| DetectorName := "fax"; Threshold := tenths 7; Detect := fax_score |}.
Definition DuplexDetector := {| DetectorName := "duplex"; Threshold := tenths 7; Detect := duplex_score |}.
Definition LaserDetector := {| DetectorName := "laser"; Threshold := tenths 7; Detect := laser_score |}.
Definition InkjetDetector := {| DetectorName := "inkjet"; Threshold := tenths 7; Detect := inkjet_score |}.

(** ** The scores in exact arithmetic

    The same evidence counted in tenths, without rounding and without the cap at 1. *)

Definition weight (c : bool) (w : Z) : Z := if c then w else 0.
Definition counter_weight (c : option Z) (hi lo : Z) : Z :=
  match c with Some n => if 0 <? n then hi else lo | None => 0 end.
Definition max_weight (m : Z * bool) (hi lo : Z) : Z :=
  if 0 <? m.1 then hi else weight m.2 lo.

Definition printer_tenths (ev : DetectionEvidence) : Z :=
  0 + weight (negb (String.eqb (Serial ev) "")) 5 + weight (HasAnyOIDIn ev printerOIDs) 3 +
  weight (port_open ev 9100) 1 + weight (port_open ev 515) 1 + weight (port_open ev 631) 1 +
  weight (existsb (fun vendor => String.eqb (Vendor ev) vendor) printerVendors) 1 +
  weight (ContainsAny (Model ev) printerKeywords || ContainsAny (SysDescr ev) printerKeywords) 1.

Definition color_tenths (ev : DetectionEvidence) : Z :=
  let modelLower := ToLower (Model ev) in
  let epson := Contains modelLower "epson" in
  if has_colorant ev "cyan" && has_colorant ev "magenta" && has_colorant ev "yellow" then 9
  else
    0 + counter_weight (first_counter ev colorPageOIDs) 8 3 +
    weight (existsb (fun pdu => is_supply_desc pdu &&
      ContainsAny (ToLower (text_of (Value pdu))) consumableKeywords) (PDUs ev)) 7 +
    weight (ContainsAny (Model ev) colorKeywords) 6 +
    weight (epson && Contains modelLower "am-c") 9 +
    weight (epson && Contains modelLower "wf-c") 9 +
    weight (epson && Contains modelLower "cw-c") 9 +
    weight (is_kyocera ev && (HasSuffix modelLower "ci" || Contains modelLower "ci ")) 9 +
    weight (4 <=? supply_count ev)%nat 3 + weight (ContainsAny (SysDescr ev) colorKeywords) 2.

Definition mono_tenths (ev : DetectionEvidence) : Z :=
  if color_excludes_mono ev then 0
  else
    0 + weight ((0 <? length (mono_colorants ev))%nat &&
            forallb (fun colorant => Contains colorant "black") (mono_colorants ev)) 9 +
    weight (ContainsAny (Model ev) monoKeywords) 7 +
    weight ((supply_count ev <=? 2)%nat && (0 <? supply_count ev)%nat) 3 +
    weight (ContainsAny (SysDescr ev) monoKeywords) 2.

Definition copier_tenths (ev : DetectionEvidence) : Z :=
  let modelLower := ToLower (Model ev) in
  let epson := Contains modelLower "epson" in
  0 + counter_weight (first_counter ev copyPageOIDs) 9 7 +
  weight (existsb is_copy_counter (PDUs ev)) 8 + weight (HasAnyOIDIn ev copierScanOIDs) 5 +
  weight (ContainsAny (Model ev) mfpKeywords) 6 +
  weight (epson && Contains modelLower "am-c") 8 +
  weight (epson && Contains modelLower "wf-m") 8 +
  weight (epson && (Contains modelLower "wf-c17" || Contains modelLower "wf-c20")) 7 +
  weight (is_kyocera ev && Contains modelLower "taskalfa") 9 +
  weight (is_kyocera ev && HasSuffix modelLower "ci") 8 +
  weight (ContainsAny (GetOIDStringIn ev adfOID) adfKeywords) 3 +
  weight (ContainsAny (SysDescr ev) mfpKeywords) 2.

(** The boost for a standalone scanner looks at what the first three tests give. *)
Definition boost_weight (printer : option float64) (t : Z) : Z :=
  match printer with
  | Some printerScore => weight (fltb printerScore (tenths 3) && (5 <? t)) 2
  | None => 0
  end.

Definition scanner_tenths (ev : DetectionEvidence) : Z :=
  let base :=
    0 + max_weight (max_counter ev scanCounterOIDs) 9 6 +
    weight (existsb (fun prefix => HasPrefix (normalizeOID (SysOID ev)) (normalizeOID prefix))
              scannerOIDPrefixes) 5 +
    weight (ContainsAny (Model ev) scannerKeywords) 6 in
  base + boost_weight (score_of ev "printer") base +
  weight (ContainsAny (GetOIDStringIn ev adfOID) adfKeywords) 2 +
  weight (ContainsAny (SysDescr ev) scannerKeywords) 2.

Definition fax_tenths (ev : DetectionEvidence) : Z :=
  0 + max_weight (max_counter ev faxPageOIDs) 9 6 + weight (HasAnyOIDIn ev faxScanOIDs) 5 +
  weight (ContainsAny (Model ev) faxKeywords) 4 +
  weight (ContainsAny (GetOIDStringIn ev "1.3.6.1.2.1.2.2.1.2") ["fax"; "modem"; "pstn"]) 3 +
  weight (ContainsAny (SysDescr ev) faxKeywords) 2.

Definition duplex_tenths (ev : DetectionEvidence) : Z :=
  let modelLower := ToLower (Model ev) in
  0 + max_weight (max_counter ev duplexCounterOIDs) 9 6 +
  weight (existsb (fun oid => ContainsAny (GetOIDStringIn ev oid)
                                ["duplex"; "2-sided"; "two-sided"]) capacityOIDs) 7 +
  weight (Contains modelLower "dn" || Contains modelLower "dw") 6 +
  weight (ContainsAny (Model ev) duplexKeywords) 5 + weight (ContainsAny (SysDescr ev) duplexKeywords) 2.

(** A score is a confidence between 0 and 1, and every comparison that the code makes
    with a score (with 0.7, 0.5 and 0.3) comes out as in exact arithmetic. *)
Definition agrees (s : float64) (t : Z) : bool :=
  fleb (tenths 0) s && fleb s (tenths 10) && Bool.eqb (fleb (tenths 7) s) (7 <=? t) &&
  Bool.eqb (fleb (tenths 5) s) (5 <=? t) && Bool.eqb (fltb s (tenths 3)) (t <? 3).

(** *** The pairs of a score and its exact value that a sequence of tests can give *)

#[local] Instance float64_eq_dec : EqDecision float64.
Proof. solve_decision. Defined.

(** A test with the weights [alts] adds one of them or nothing. *)
Definition test_step (alts : list Z) (R : list (float64 * Z)) : list (float64 * Z) :=
  remove_dups (R ++ (w ← alts; map (fun '(s, t) => (fadd s (tenths w), t + w)) R)).

(** The last test comes first. *)
Fixpoint reach (tests : list (list Z)) : list (float64 * Z) :=
  match tests with
  | [] => [(tenths 0, 0)]
  | alts :: tests' => test_step alts (reach tests')
  end.

Lemma reach_skip alts tests s t : (s, t) ∈ reach tests -> (s, t + 0) ∈ reach (alts :: tests).
Proof.
  intros H'. rewrite Z.add_0_r. simpl. unfold test_step.
  apply elem_of_remove_dups, elem_of_app. by left.
Qed.

Lemma reach_take w alts tests s t :
  w ∈ alts -> (s, t) ∈ reach tests -> (fadd s (tenths w), t + w) ∈ reach (alts :: tests).
Proof.
  intros Hw H'. simpl. unfold test_step.
  apply elem_of_remove_dups, elem_of_app. right. apply list_elem_of_bind. exists w.
  split; [|done]. apply list_elem_of_fmap. by exists (s, t).
Qed.

Lemma reach_add b w tests s t :
  (s, t) ∈ reach tests -> (add b w s, t + weight b w) ∈ reach ([w] :: tests).
Proof. destruct b; [apply reach_take; left | apply reach_skip]. Qed.

Lemma reach_counter c hi lo tests s t :
  (s, t) ∈ reach tests ->
  (add_counter c hi lo s, t + counter_weight c hi lo) ∈ reach ([hi; lo] :: tests).
Proof.
  unfold add_counter, counter_weight. destruct c as [n|]; [|apply reach_skip].
  destruct (0 <? n); apply reach_take; repeat constructor.
Qed.

Lemma reach_max m hi lo tests s t :
  (s, t) ∈ reach tests ->
  (add_max m hi lo s, t + max_weight m hi lo) ∈ reach ([hi; lo] :: tests).
Proof.
  unfold add_max, max_weight, weight. destruct (0 <? m.1); [apply reach_take; left|].
  destruct m.2; [apply reach_take; repeat constructor | apply reach_skip].
Qed.

Lemma reach_start : (tenths 0, 0) ∈ reach [].
Proof. left. Qed.

(** A score that the tests give agrees with its exact value when all of them do. *)
Lemma reach_agrees tests s t :
  forallb (fun '(s, t) => agrees (Min s (tenths 10)) t) (reach tests) = true ->
  (s, t) ∈ reach tests -> agrees (Min s (tenths 10)) t = true.
Proof. intros Hall Hin. rewrite forallb_elem_of in Hall. exact (Hall _ Hin). Qed.

Lemma reach_boost p tests s t :
  forallb (fun '(s, t) => Bool.eqb (fltb (tenths 5) s) (5 <? t)) (reach tests) = true ->
  (s, t) ∈ reach tests ->
  (standalone_boost p s, t + boost_weight p t) ∈ reach ([2] :: tests).
Proof.
  intros Hall Hin. rewrite forallb_elem_of in Hall.
  specialize (Hall _ Hin) as Heq%Bool.eqb_prop. unfold standalone_boost, boost_weight.
  destruct p as [p|]; [|by apply reach_skip]. rewrite Heq. unfold weight.
  destruct (_ && _); [apply reach_take; [left | done] | by apply reach_skip].
Qed.

Ltac in_reach :=
  repeat first [apply reach_add | apply reach_counter | apply reach_max]; apply reach_start.

Ltac by_reach := eapply reach_agrees; [|in_reach]; vm_compute; reflexivity.

Lemma printer_exact ev : agrees (printer_score ev) (printer_tenths ev) = true.
Proof. unfold printer_score, printer_tenths. cbv zeta. by_reach. Qed.

Lemma color_exact ev : agrees (color_score ev) (color_tenths ev) = true.
Proof.
  unfold color_score, color_tenths. cbv zeta.
  destruct (has_colorant ev "cyan" && has_colorant ev "magenta" && has_colorant ev "yellow");
    [vm_compute; reflexivity | by_reach].
Qed.

Lemma mono_exact ev : agrees (mono_score ev) (mono_tenths ev) = true.
Proof.
  unfold mono_score, mono_tenths. cbv zeta.
  destruct (color_excludes_mono ev); [vm_compute; reflexivity | by_reach].
Qed.

Lemma copier_exact ev : agrees (copier_score ev) (copier_tenths ev) = true.
Proof. unfold copier_score, copier_tenths. cbv zeta. by_reach. Qed.

Lemma scanner_exact ev : agrees (scanner_score ev) (scanner_tenths ev) = true.
Proof.
  unfold scanner_score, scanner_tenths. cbv zeta.
  eapply reach_agrees; [|apply reach_add, reach_add, reach_boost; [|in_reach]];
    vm_compute; reflexivity.
Qed.

Lemma fax_exact ev : agrees (fax_score ev) (fax_tenths ev) = true.
Proof. unfold fax_score, fax_tenths. cbv zeta. by_reach. Qed.

Lemma duplex_exact ev : agrees (duplex_score ev) (duplex_tenths ev) = true.
Proof. unfold duplex_score, duplex_tenths. cbv zeta. by_reach. Qed.

(** The floating-point score of each of the seven detectors that count evidence is a
    confidence between 0 and 1, and each comparison made with it comes out as for the
    same evidence counted exactly in tenths: no rounding moves a device across a
    threshold. *)
Theorem scores_exact ev :
  agrees (printer_score ev) (printer_tenths ev) = true /\
  agrees (color_score ev) (color_tenths ev) = true /\
  agrees (mono_score ev) (mono_tenths ev) = true /\
  agrees (copier_score ev) (copier_tenths ev) = true /\
  agrees (scanner_score ev) (scanner_tenths ev) = true /\
  agrees (fax_score ev) (fax_tenths ev) = true /\
  agrees (duplex_score ev) (duplex_tenths ev) = true.
Proof.
  split_and!; [apply printer_exact | apply color_exact | apply mono_exact | apply copier_exact |
    apply scanner_exact | apply fax_exact | apply duplex_exact].
Qed.

End Detectors.
