(* ===== verification/CapabilityRegistry.v ===== *)
(** * Running the detectors and classifying the device
    ([agent/scanner/capabilities/capabilities.go], [detectCapabilities] of
    [agent/scanner/query.go]).

    [DetectAll] threads the evidence through the detectors: the score of each is
    visible to the later ones, which is how a color device is kept from being
    monochrome. *)
From S2P Require Import Prelude GoStrings GoFloat Evidence Detectors.

Open Scope string_scope.

Record DeviceCapabilities := {
  Scores : gmap string float64;
  IsPrinter : bool;
  IsColor : bool;
  IsMono : bool;
  IsCopier : bool;
  IsScanner : bool;
  IsFax : bool;
  HasDuplex : bool;
  IsLaser : bool;
  IsInkjet : bool;
  FormFactor : string;
  DeviceType : string;
}.

Definition no_capabilities : DeviceCapabilities :=
  {| Scores := ∅; IsPrinter := false; IsColor := false; IsMono := false; IsCopier := false;
     IsScanner := false; IsFax := false; HasDuplex := false; IsLaser := false;
     IsInkjet := false; FormFactor := ""; DeviceType := "" |}.

(** [caps.Scores[name] = score] and the [switch] on the name: [present] is
    [score >= detector.Threshold()]. *)
Definition record_score (name : string) (score : float64) (present : bool)
    (c : DeviceCapabilities) : DeviceCapabilities :=
  let on field old := old || (present && String.eqb name field) in
  {| Scores := <[name := score]> (Scores c);
     IsPrinter := on "printer" (IsPrinter c); IsColor := on "color" (IsColor c);
     IsMono := on "mono" (IsMono c); IsCopier := on "copier" (IsCopier c);
     IsScanner := on "scanner" (IsScanner c); IsFax := on "fax" (IsFax c);
     HasDuplex := on "duplex" (HasDuplex c); IsLaser := on "laser" (IsLaser c);
     IsInkjet := on "inkjet" (IsInkjet c); FormFactor := FormFactor c;
     DeviceType := DeviceType c |}.

(** [evidence.Capabilities[name] = score] *)
Definition share_score (name : string) (score : float64) (ev : DetectionEvidence)
    : DetectionEvidence :=
  {| PDUs := PDUs ev; PDUByOID := PDUByOID ev; SysDescr := SysDescr ev; SysOID := SysOID ev;
     Vendor := Vendor ev; Model := Model ev; Serial := Serial ev; Hostname := Hostname ev;
     OpenPorts := OpenPorts ev;
     Capabilities := Some (<[name := score]> (default ∅ (Capabilities ev))) |}.

Definition run_detector (d : CapabilityDetector) (st : DeviceCapabilities * DetectionEvidence)
    : DeviceCapabilities * DetectionEvidence :=
  let '(caps, ev) := st in
  let score := Detect d ev in
  (record_score (DetectorName d) score (fleb (Threshold d) score) caps,
   share_score (DetectorName d) score ev).

Definition classifyDeviceType (c : DeviceCapabilities) : string :=
  if String.eqb (FormFactor c) FormFactorWideFormat then
    if IsColor c then "Color Wide Format" else "Wide Format"
  else if String.eqb (FormFactor c) FormFactorLabelPrint then
    if IsColor c then "Color Label Printer" else "Label Printer"
  else if String.eqb (FormFactor c) FormFactorProduction then
    if IsColor c then "Color Production" else "Production"
  else if String.eqb (FormFactor c) FormFactorFloorCopier then
    if IsColor c then "Color MFP" else "Mono MFP"
  else if IsScanner c && negb (IsPrinter c) then "Scanner"
  else if IsPrinter c && (IsCopier c || IsScanner c) then
    if IsColor c then "Color MFP" else "Mono MFP"
  else if IsPrinter c && IsCopier c && negb (IsScanner c) then "Copier/Printer"
  else if IsPrinter c then if IsColor c then "Color Printer" else "Mono Printer"
  else "Unknown".

Definition with_form_factor (ff : string) (c : DeviceCapabilities) : DeviceCapabilities :=
  {| Scores := Scores c; IsPrinter := IsPrinter c; IsColor := IsColor c; IsMono := IsMono c;
     IsCopier := IsCopier c; IsScanner := IsScanner c; IsFax := IsFax c;
     HasDuplex := HasDuplex c; IsLaser := IsLaser c; IsInkjet := IsInkjet c;
     FormFactor := ff; DeviceType := DeviceType c |}.

Definition with_device_type (t : string) (c : DeviceCapabilities) : DeviceCapabilities :=
  {| Scores := Scores c; IsPrinter := IsPrinter c; IsColor := IsColor c; IsMono := IsMono c;
     IsCopier := IsCopier c; IsScanner := IsScanner c; IsFax := IsFax c;
     HasDuplex := HasDuplex c; IsLaser := IsLaser c; IsInkjet := IsInkjet c;
     FormFactor := FormFactor c; DeviceType := t |}.

Definition init_capabilities (ev : DetectionEvidence) : DetectionEvidence :=
  match Capabilities ev with
  | Some _ => ev
  | None =>
      {| PDUs := PDUs ev; PDUByOID := PDUByOID ev; SysDescr := SysDescr ev;
         SysOID := SysOID ev; Vendor := Vendor ev; Model := Model ev; Serial := Serial ev;
         Hostname := Hostname ev; OpenPorts := OpenPorts ev; Capabilities := Some ∅ |}
  end.

Section Registry.
Context `{GoUnicode}.

Definition NewCapabilityRegistry : list CapabilityDetector :=
  [PrinterDetector; ColorDetector; MonoDetector; CopierDetector; ScannerDetector;
   FaxDetector; DuplexDetector; LaserDetector; InkjetDetector].

Definition Register (d : CapabilityDetector) (r : list CapabilityDetector) : list CapabilityDetector :=
  (r ++ [d])%list.

(** The capabilities, and the evidence with the index and the scores filled in. *)
Definition DetectAll (r : list CapabilityDetector) (ev : DetectionEvidence)
    : DeviceCapabilities * DetectionEvidence :=
  let '(caps, ev') := foldl (fun st d => run_detector d st)
                        (no_capabilities, init_capabilities (ensurePDUIndex ev)) r in
  let caps := with_form_factor (ClassifyFormFactor ev') caps in
  (with_device_type (classifyDeviceType caps) caps, ev').

(** *** From the PDUs of a query ([agent/scanner/query.go]) *)

Definition extractOIDStringFromIndex (idx : gmap string SnmpPDU) (oid : string) : string :=
  match idx !! normalizeOID oid with
  | Some pdu => text_of (Value pdu)
  | None => ""
  end.

Definition query_evidence (pdus : list SnmpPDU) (vendorHint : string) : DetectionEvidence :=
  let idx := index_pdus pdus in
  let sysDescr := extractOIDStringFromIndex idx "1.3.6.1.2.1.1.1.0" in
  let model := extractOIDStringFromIndex idx "1.3.6.1.2.1.25.3.2.1.3.1" in
  {| PDUs := pdus; PDUByOID := Some idx; SysDescr := sysDescr;
     SysOID := extractOIDStringFromIndex idx "1.3.6.1.2.1.1.2.0"; Vendor := vendorHint;
     Model := if String.eqb model "" && negb (String.eqb sysDescr "") then sysDescr else model;
     Serial := extractOIDStringFromIndex idx "1.3.6.1.2.1.43.5.1.1.17.1";
     Hostname := ""; OpenPorts := []; Capabilities := None |}.

Definition detectCapabilities (pdus : list SnmpPDU) (vendorHint : string) : DeviceCapabilities :=
  (DetectAll NewCapabilityRegistry (query_evidence pdus vendorHint)).1.

(** ** The default registry *)

(** The same evidence with other scores. *)
Definition with_scores (c : option (gmap string float64)) (ev : DetectionEvidence) : DetectionEvidence :=
  {| PDUs := PDUs ev; PDUByOID := PDUByOID ev; SysDescr := SysDescr ev; SysOID := SysOID ev;
     Vendor := Vendor ev; Model := Model ev; Serial := Serial ev; Hostname := Hostname ev;
     OpenPorts := OpenPorts ev; Capabilities := c |}.

(** The scores in the order of the detectors, each computed on the evidence with the
    scores that the earlier ones left. *)
Record default_run (ev : DetectionEvidence) (caps : DeviceCapabilities) : Prop := {
  run_scores : exists printer color mono copier scanner fax duplex laser inkjet,
    let e0 := init_capabilities (ensurePDUIndex ev) in
    printer = printer_score e0 /\
    (exists c, color = color_score (with_scores c e0)) /\
    (exists c, score_of (with_scores c e0) "color" = Some color /\ mono = mono_score (with_scores c e0)) /\
    (exists c, copier = copier_score (with_scores c e0)) /\
    (exists c, score_of (with_scores c e0) "printer" = Some printer /\ scanner = scanner_score (with_scores c e0)) /\
    (exists c, fax = fax_score (with_scores c e0)) /\ (exists c, duplex = duplex_score (with_scores c e0)) /\
    (exists c, laser = laser_score (with_scores c e0)) /\ (exists c, inkjet = inkjet_score (with_scores c e0)) /\
    Scores caps = list_to_map [("inkjet", inkjet); ("laser", laser); ("duplex", duplex);
      ("fax", fax); ("scanner", scanner); ("copier", copier); ("mono", mono);
      ("color", color); ("printer", printer)] /\
IsPrinter caps = fleb (tenths 7) printer /\
    IsColor caps = fleb (tenths 7) color /\
    IsMono caps = fleb (tenths 7) mono /\
    IsCopier caps = fleb (tenths 7) copier /\
    IsScanner caps = fleb (tenths 7) scanner /\
    IsFax caps = fleb (tenths 7) fax /\
    HasDuplex caps = fleb (tenths 7) duplex /\
    IsLaser caps = fleb (tenths 7) laser /\
    IsInkjet caps = fleb (tenths 7) inkjet;
}.

Lemma score_of_share name s ev : score_of (share_score name s ev) name = Some s.
Proof. unfold score_of, share_score. cbn [Capabilities default]. apply lookup_insert_eq. Qed.

Lemma score_of_share_ne name name' s ev :
  name <> name' -> score_of (share_score name s ev) name' = score_of ev name'.
Proof.
  intros Hne. unfold score_of, share_score. cbn [Capabilities default]. by apply lookup_insert_ne.
Qed.

Lemma run_detector_pair d caps ev :
  run_detector d (caps, ev) =
  (record_score (DetectorName d) (Detect d ev) (fleb (Threshold d) (Detect d ev)) caps,
   share_score (DetectorName d) (Detect d ev) ev).
Proof. reflexivity. Qed.

Lemma DetectAll_default ev : default_run ev (DetectAll NewCapabilityRegistry ev).1.
Proof.
  unfold DetectAll, NewCapabilityRegistry. cbn [foldl].
  set (ev0 := init_capabilities (ensurePDUIndex ev)).
  rewrite !run_detector_pair.
  cbn [DetectorName Detect Threshold PrinterDetector ColorDetector MonoDetector CopierDetector
       ScannerDetector FaxDetector DuplexDetector LaserDetector InkjetDetector fst].
  set (e1 := share_score "printer" _ ev0). set (e2 := share_score "color" _ e1).
  set (e3 := share_score "mono" _ e2). set (e4 := share_score "copier" _ e3).
  set (e5 := share_score "scanner" _ e4). set (e6 := share_score "fax" _ e5).
  set (e7 := share_score "duplex" _ e6). set (e8 := share_score "laser" _ e7).
  constructor.
  exists (printer_score ev0), (color_score e1), (mono_score e2), (copier_score e3),
    (scanner_score e4), (fax_score e5), (duplex_score e6), (laser_score e7), (inkjet_score e8).
  split; [done|]. split; [by exists (Capabilities e1)|]. split.
  { exists (Capabilities e2). split; [exact (score_of_share "color" _ e1) | done]. }
  split; [by exists (Capabilities e3)|]. split.
  { exists (Capabilities e4). split; [|done]. change (score_of e4 "printer" = Some (printer_score ev0)).
    unfold e4, e3, e2. rewrite !score_of_share_ne by done. apply score_of_share. }
  split; [by exists (Capabilities e5)|]. split; [by exists (Capabilities e6)|].
  split; [by exists (Capabilities e7)|]. split; [by exists (Capabilities e8)|].
  split; [reflexivity|].
  repeat split; cbn -[fleb tenths printer_score color_score mono_score copier_score scanner_score
                fax_score duplex_score laser_score inkjet_score];
    rewrite ?andb_true_r, ?andb_false_r, ?orb_false_r; reflexivity.
Qed.

(** The branch for a copier that does not scan comes after one that takes every
    printer that copies. *)
Lemma never_copier_printer c : classifyDeviceType c <> "Copier/Printer".
Proof.
  unfold classifyDeviceType.
  repeat match goal with |- context [String.eqb ?a ?b] => destruct (String.eqb a b) end;
  destruct (IsPrinter c), (IsColor c), (IsCopier c), (IsScanner c); done.
Qed.

(** ** Properties *)

(** The flags by the names of their detectors. *)
Definition flags (caps : DeviceCapabilities) : list (string * bool) :=
  [("printer", IsPrinter caps); ("color", IsColor caps); ("mono", IsMono caps);
   ("copier", IsCopier caps); ("scanner", IsScanner caps); ("fax", IsFax caps);
   ("duplex", HasDuplex caps); ("laser", IsLaser caps); ("inkjet", IsInkjet caps)].

Definition in_unit (s : float64) : bool := fleb (tenths 0) s && fleb s (tenths 10).

Lemma agrees_spec s t :
  agrees s t = true ->
  in_unit s = true /\ fleb (tenths 7) s = (7 <=? t)%Z /\ fleb (tenths 5) s = (5 <=? t)%Z.
Proof.
  unfold agrees, in_unit. rewrite !andb_true_iff. intros [[[[Hlo Hhi] H7%Bool.eqb_prop] H5%Bool.eqb_prop] _].
  repeat split; assumption.
Qed.

Lemma agrees_in_unit s t : agrees s t = true -> in_unit s = true.
Proof. apply agrees_spec. Qed.

(** A score that makes the device a color device leaves 0 for monochrome. *)
Lemma color_not_mono ev s t :
  agrees s t = true -> score_of ev "color" = Some s -> fleb (tenths 7) s = true ->
  mono_score ev = tenths 0.
Proof.
  intros (_ & H7 & H5)%agrees_spec Hs Hcolor. rewrite Hcolor in H7.
  assert (Hhalf : fleb (tenths 5) s = true).
  { rewrite H5. symmetry in H7. apply Z.leb_le in H7. apply Z.leb_le. lia. }
  unfold mono_score, color_excludes_mono. rewrite Hs, Hhalf. reflexivity.
Qed.

(** With the default detectors every flag is the comparison of the score of that
    name with 0.7; the scores of the seven additive detectors are between 0 and 1; and
    a color device is not a monochrome device. *)
Lemma DetectAll_sound ev :
  let caps := (DetectAll NewCapabilityRegistry ev).1 in
  Forall (fun '(name, flag) => exists s, Scores caps !! name = Some s /\ flag = fleb (tenths 7) s)
    (flags caps) /\
  Forall (fun name => exists s, Scores caps !! name = Some s /\ in_unit s = true)
    ["printer"; "color"; "mono"; "copier"; "scanner"; "fax"; "duplex"] /\
  IsColor caps && IsMono caps = false.
Proof.
  cbv zeta.
  destruct (DetectAll_default ev) as [(printer & color & mono & copier & scanner & fax & duplex
    & laser & inkjet & -> & [e1 ->] & (e2 & Hc2 & ->) & [e3 ->] & (e4 & _ & ->) & [e5 ->] & [e6 ->]
    & [e7 ->] & [e8 ->] & Hscores & Hp & Hco & Hm & Hcp & Hsc & Hf & Hd & Hl & Hi)].
  split_and!.
  - unfold flags. rewrite Hp, Hco, Hm, Hcp, Hsc, Hf, Hd, Hl, Hi, Hscores.
    repeat constructor; eexists; (split; [|reflexivity]); reflexivity.
  - rewrite Hscores. repeat constructor; eexists; (split; [reflexivity|]);
      eapply agrees_in_unit;
      eauto using printer_exact, color_exact, mono_exact, copier_exact, scanner_exact, fax_exact, duplex_exact.
  - rewrite Hco, Hm. destruct (fleb (tenths 7) (color_score _)) eqn:Hcol; [|done].
    rewrite (color_not_mono _ _ _ (color_exact _) Hc2 Hcol). vm_compute. reflexivity.
Qed.

(** *** The flags in exact arithmetic *)

(** The evidence for monochrome, whatever the color detector says. *)
Definition mono_count (ev : DetectionEvidence) : Z :=
  weight ((0 <? length (mono_colorants ev))%nat &&
          forallb (fun colorant => Contains colorant "black") (mono_colorants ev)) 9 +
  weight (ContainsAny (Model ev) monoKeywords) 7 +
  weight ((supply_count ev <=? 2)%nat && (0 <? supply_count ev)%nat) 3 +
  weight (ContainsAny (SysDescr ev) monoKeywords) 2.

(** The evidence for a scanner: what the first three tests give counts 2 more if it is
    above 5 and there is little evidence for a printer. *)
Definition scanner_count (ev : DetectionEvidence) : Z :=
  let base :=
    max_weight (max_counter ev scanCounterOIDs) 9 6 +
    weight (existsb (fun prefix => HasPrefix (normalizeOID (SysOID ev)) (normalizeOID prefix))
              scannerOIDPrefixes) 5 +
    weight (ContainsAny (Model ev) scannerKeywords) 6 in
  base + weight ((printer_tenths ev <? 3)%Z && (5 <? base)%Z) 2 +
  weight (ContainsAny (GetOIDStringIn ev adfOID) adfKeywords) 2 +
  weight (ContainsAny (SysDescr ev) scannerKeywords) 2.

(** What the detectors read, apart from the scores. *)
Record same_evidence (e ev : DetectionEvidence) : Prop := {
  same_pdus : PDUs e = PDUs ev;
  same_oid oid : lookup_oid e oid = lookup_oid ev oid;
  same_sysdescr : SysDescr e = SysDescr ev;
  same_sysoid : SysOID e = SysOID ev;
  same_vendor : Vendor e = Vendor ev;
  same_model : Model e = Model ev;
  same_serial : Serial e = Serial ev;
  same_ports : OpenPorts e = OpenPorts ev;
}.

Lemma same_ready ev c : same_evidence (with_scores c (init_capabilities (ensurePDUIndex ev))) ev.
Proof. by destruct ev as [pdus [idx|] descr soid vendor model serial host ports [caps|]]. Qed.

Lemma same_scores ev c : same_evidence (with_scores c ev) ev.
Proof. by destruct ev as [pdus [idx|] descr soid vendor model serial host ports caps]. Qed.

Section Same.
Context (e ev : DetectionEvidence) (Hsame : same_evidence e ev).

Lemma same_string oid : GetOIDStringIn e oid = GetOIDStringIn ev oid.
Proof. unfold GetOIDStringIn. by rewrite (same_oid _ _ Hsame). Qed.

Lemma same_has oid : HasOIDIn e oid = HasOIDIn ev oid.
Proof. unfold HasOIDIn. by rewrite (same_oid _ _ Hsame). Qed.

Lemma same_value oid : GetOIDValueIn e oid = GetOIDValueIn ev oid.
Proof. unfold GetOIDValueIn. by rewrite (same_oid _ _ Hsame). Qed.

Lemma same_any oids : HasAnyOIDIn e oids = HasAnyOIDIn ev oids.
Proof. unfold HasAnyOIDIn. induction oids as [|oid oids IH]; simpl; [done|]. by rewrite same_has, IH. Qed.

Lemma same_first oids : first_counter e oids = first_counter ev oids.
Proof. induction oids as [|oid oids IH]; simpl; [done|]. by rewrite same_has, same_value, IH. Qed.

Lemma same_max oids : max_counter e oids = max_counter ev oids.
Proof.
  unfold max_counter. generalize (0, false)%Z. induction oids as [|oid oids IH]; intros [m has]; simpl; [done|].
  by rewrite same_has, same_value, IH.
Qed.

Lemma same_strings (f : string -> bool) oids :
  existsb (fun oid => f (GetOIDStringIn e oid)) oids = existsb (fun oid => f (GetOIDStringIn ev oid)) oids.
Proof. induction oids as [|oid oids IH]; simpl; [done|]. by rewrite same_string, IH. Qed.

Lemma same_colorant name : has_colorant e name = has_colorant ev name.
Proof. apply (same_strings (fun s => Contains (ToLower s) name)). Qed.

Lemma same_mono_colorants : mono_colorants e = mono_colorants ev.
Proof. unfold mono_colorants, monoColorantOIDs. cbn [map]. by rewrite !same_string. Qed.

Lemma same_port port : port_open e port = port_open ev port.
Proof. unfold port_open. by rewrite (same_ports _ _ Hsame). Qed.

Lemma same_supply_count : supply_count e = supply_count ev.
Proof. unfold supply_count. by rewrite (same_pdus _ _ Hsame). Qed.

Lemma same_kyocera : is_kyocera e = is_kyocera ev.
Proof. unfold is_kyocera. by rewrite (same_model _ _ Hsame), (same_vendor _ _ Hsame). Qed.

Ltac by_same :=
  rewrite ?same_any, ?same_first, ?same_max, ?same_colorant, ?same_mono_colorants, ?same_port, ?same_supply_count,
    ?same_kyocera, ?same_string, ?(same_pdus _ _ Hsame), ?(same_sysdescr _ _ Hsame), ?(same_sysoid _ _ Hsame),
    ?(same_vendor _ _ Hsame), ?(same_model _ _ Hsame), ?(same_serial _ _ Hsame); reflexivity.

(** What is counted depends on nothing else. *)
Lemma same_counts :
  printer_tenths e = printer_tenths ev /\ color_tenths e = color_tenths ev /\ mono_count e = mono_count ev /\
  copier_tenths e = copier_tenths ev /\ scanner_count e = scanner_count ev /\ fax_tenths e = fax_tenths ev /\
  duplex_tenths e = duplex_tenths ev /\ laser_score e = laser_score ev /\ inkjet_score e = inkjet_score ev.
Proof.
  assert (Hp : printer_tenths e = printer_tenths ev) by (unfold printer_tenths; by_same).
  assert (Hb : brand_technology e = brand_technology ev) by (unfold brand_technology; by_same).
  split_and!.
  - exact Hp.
  - unfold color_tenths. by_same.
  - unfold mono_count. by_same.
  - unfold copier_tenths. by_same.
  - unfold scanner_count. rewrite Hp. by_same.
  - unfold fax_tenths. by_same.
  - unfold duplex_tenths. rewrite (same_strings (fun s => ContainsAny s _)). by_same.
  - unfold laser_score, laser_scores, is_epson. rewrite Hb. by_same.
  - unfold inkjet_score, inkjet_scores, is_epson. rewrite Hb. by_same.
Qed.

(** The score of the printer detector uses no other score. *)
Lemma same_printer_score : printer_score e = printer_score ev.
Proof. unfold printer_score. by_same. Qed.
End Same.

Lemma mono_tenths_count ev s t :
  agrees s t = true -> score_of ev "color" = Some s -> mono_tenths ev = if (5 <=? t)%Z then 0%Z else mono_count ev.
Proof.
  intros (_ & _ & H5)%agrees_spec Hs. unfold mono_tenths, color_excludes_mono. by rewrite Hs, H5.
Qed.

Lemma scanner_tenths_count ev :
  score_of ev "printer" = Some (printer_score ev) -> scanner_tenths ev = scanner_count ev.
Proof.
  intros Hs. pose proof (printer_exact ev) as Ha. unfold agrees in Ha.
  apply andb_true_iff in Ha as [_ H3%Bool.eqb_prop].
  unfold scanner_tenths, scanner_count, boost_weight. by rewrite Hs, H3.
Qed.

(** C30: The flags of the default detectors are what counting the evidence in exact tenths
    gives: each of the seven additive ones holds exactly when its weights reach 7, a
    device counts as monochrome only if the color evidence is below 5 as well, and a
    scanner gets its bonus exactly when the printer evidence is below 3. No rounding, no
    capping of a score and no order of the detectors beyond these two references changes
    a flag. Laser and inkjet compare their floating-point scores with 0.7. *)
Theorem flags_exact ev :
  let caps := (DetectAll NewCapabilityRegistry ev).1 in
  IsPrinter caps = (7 <=? printer_tenths ev)%Z /\
  IsColor caps = (7 <=? color_tenths ev)%Z /\
  IsMono caps = (color_tenths ev <? 5)%Z && (7 <=? mono_count ev)%Z /\
  IsCopier caps = (7 <=? copier_tenths ev)%Z /\
  IsScanner caps = (7 <=? scanner_count ev)%Z /\
  IsFax caps = (7 <=? fax_tenths ev)%Z /\
  HasDuplex caps = (7 <=? duplex_tenths ev)%Z /\
  IsLaser caps = fleb (tenths 7) (laser_score ev) /\
  IsInkjet caps = fleb (tenths 7) (inkjet_score ev).
Proof.
  cbv zeta.
  destruct (DetectAll_default ev) as [(printer & color & mono & copier & scanner & fax & duplex
    & laser & inkjet & -> & [c1 ->] & (c2 & Hc2 & ->) & [c3 ->] & (c4 & Hc4 & ->) & [c5 ->] & [c6 ->]
    & [c7 ->] & [c8 ->] & _ & -> & -> & -> & -> & -> & -> & -> & -> & ->)].
  set (e0 := init_capabilities (ensurePDUIndex ev)) in *.
  assert (Hcount : forall c, _) by (intros c; exact (same_counts _ _ (same_ready ev c))). fold e0 in Hcount.
  assert (Hseven : forall s t, agrees s t = true -> fleb (tenths 7) s = (7 <=? t)%Z)
    by (intros s t (_ & H7 & _)%agrees_spec; exact H7).
  rewrite (Hseven _ _ (printer_exact e0)), (Hseven _ _ (color_exact _)), (Hseven _ _ (mono_exact _)),
    (Hseven _ _ (copier_exact _)), (Hseven _ _ (scanner_exact _)), (Hseven _ _ (fax_exact _)), (Hseven _ _ (duplex_exact _)).
  rewrite (mono_tenths_count _ _ _ (color_exact _) Hc2).
  rewrite <- (same_printer_score _ _ (same_scores e0 c4)) in Hc4. rewrite (scanner_tenths_count _ Hc4).
  destruct (Hcount c1) as (_ & -> & _). destruct (Hcount c2) as (_ & _ & -> & _).
  destruct (Hcount c3) as (_ & _ & _ & -> & _). destruct (Hcount c4) as (_ & _ & _ & _ & -> & _).
  destruct (Hcount c5) as (_ & _ & _ & _ & _ & -> & _). destruct (Hcount c6) as (_ & _ & _ & _ & _ & _ & -> & _).
  destruct (Hcount c7) as (_ & _ & _ & _ & _ & _ & _ & -> & _). destruct (Hcount c8) as (_ & _ & _ & _ & _ & _ & _ & _ & ->).
  destruct (Hcount (Capabilities e0)) as (Hp & _).
  assert (He : with_scores (Capabilities e0) e0 = e0) by (by destruct e0). rewrite He in Hp. rewrite Hp.
  split_and!; try done. rewrite Z.ltb_antisym. by destruct (5 <=? color_tenths ev)%Z.
Qed.

(** *** What a query detects *)

Lemma query_ready pdus vendor :
  exists ev, init_capabilities (ensurePDUIndex (query_evidence pdus vendor)) = ev /\
    PDUByOID ev = Some (index_pdus pdus) /\ OpenPorts ev = [] /\
    Serial ev = extractOIDStringFromIndex (index_pdus pdus) "1.3.6.1.2.1.43.5.1.1.17.1".
Proof. eexists. split; [reflexivity|]. split; [|split]; reflexivity. Qed.

Lemma weight_range b w : (0 <= w -> 0 <= weight b w <= w)%Z.
Proof. destruct b; simpl; lia. Qed.

(** A serial number comes from an OID that is itself evidence. *)
Lemma serial_is_evidence ev idx :
  PDUByOID ev = Some idx -> extractOIDStringFromIndex idx "1.3.6.1.2.1.43.5.1.1.17.1" <> "" ->
  HasAnyOIDIn ev printerOIDs = true.
Proof.
  intros Hidx Hs. unfold HasAnyOIDIn, printerOIDs. cbn [existsb]. apply orb_true_iff. left.
  unfold HasOIDIn, lookup_oid, ensurePDUIndex. rewrite Hidx. rewrite Hidx. cbn [default].
  apply bool_decide_eq_true_2. unfold extractOIDStringFromIndex in Hs.
  change (is_Some (idx !! normalizeOID "1.3.6.1.2.1.43.5.1.1.17.1")).
  destruct (idx !! normalizeOID "1.3.6.1.2.1.43.5.1.1.17.1") as [pdu|]; [by eexists | done].
Qed.

(** A query classifies a device as a printer exactly when the device reports a
    serial number in the Printer MIB: the other evidence that a query collects (the
    Printer MIB OIDs, the vendor and the names) never reaches the threshold, and open
    ports are not collected. *)
Theorem detect_printer_iff_serial pdus vendor :
  IsPrinter (detectCapabilities pdus vendor) =
  negb (String.eqb (extractOIDStringFromIndex (index_pdus pdus) "1.3.6.1.2.1.43.5.1.1.17.1") "").
Proof.
  unfold detectCapabilities.
  destruct (DetectAll_default (query_evidence pdus vendor)) as [(printer & color & mono & copier
    & scanner & fax & duplex & laser & inkjet & -> & _ & _ & _ & _ & _ & _ & _ & _ & _ & Hp & _)].
  rewrite Hp. destruct (query_ready pdus vendor) as (ev & -> & Hidx & Hports & Hserial).
  destruct (agrees_spec _ _ (printer_exact ev)) as (_ & -> & _).
  unfold printer_tenths, port_open. rewrite Hports, Hserial. cbn [existsb weight].
  pose proof (weight_range (HasAnyOIDIn ev printerOIDs) 3 ltac:(lia)).
  pose proof (weight_range (existsb (fun v => String.eqb (Vendor ev) v) printerVendors) 1 ltac:(lia)).
  pose proof (weight_range (ContainsAny (Model ev) printerKeywords ||
                            ContainsAny (SysDescr ev) printerKeywords) 1 ltac:(lia)).
  destruct (String.eqb_spec (extractOIDStringFromIndex (index_pdus pdus) "1.3.6.1.2.1.43.5.1.1.17.1") "") as [He|Hne];
    cbn [negb weight]; [apply Z.leb_gt; lia|].
  rewrite (serial_is_evidence ev _ Hidx Hne) in *. cbn [weight] in *. apply Z.leb_le. lia.
Qed.

End Registry.

(** ** Runs *)

Definition pdu (oid text : string) : SnmpPDU := {| Name := oid; Value := VBytes text |}.

(** A color laser printer as it answers a query. *)
Example color_laser :
  let caps := detectCapabilities
    [pdu ".1.3.6.1.2.1.1.1.0" "HP Color LaserJet MFP M479fdw";
     pdu ".1.3.6.1.2.1.25.3.2.1.3.1" "HP Color LaserJet MFP M479fdw";
     pdu ".1.3.6.1.2.1.43.5.1.1.17.1" "VNB3K12345";
     pdu ".1.3.6.1.2.1.43.12.1.1.4.1.1" "black"; pdu ".1.3.6.1.2.1.43.12.1.1.4.1.2" "cyan";
     pdu ".1.3.6.1.2.1.43.12.1.1.4.1.3" "magenta"; pdu ".1.3.6.1.2.1.43.12.1.1.4.1.4" "yellow"] "HP" in
  (map snd (flags caps), FormFactor caps, DeviceType caps) =
  ([true; true; false; true; false; false; false; true; false], "Desktop", "Color MFP").
Proof. vm_compute. reflexivity. Qed.

(** The same device without its serial number has no type that says printer. *)
Lemma no_serial_is_unknown :
  DeviceType (detectCapabilities
    [pdu ".1.3.6.1.2.1.25.3.2.1.3.1" "HP LaserJet Pro M404dn";
     pdu ".1.3.6.1.2.1.43.10.2.1.4.1.1" "HP LaserJet"] "HP") = "Unknown".
Proof. vm_compute. reflexivity. Qed.

(** Equal evidence for both technologies makes a device both: neither score is
    higher, so neither detector yields. *)
Lemma laser_and_inkjet :
  let caps := detectCapabilities
    [pdu ".1.3.6.1.2.1.43.11.1.1.6.1.1" "Toner"; pdu ".1.3.6.1.2.1.43.11.1.1.6.1.2" "Maintenance ink"] "X" in
  IsLaser caps = true /\ IsInkjet caps = true.
Proof. vm_compute. done. Qed.
