(* ===== verification/MetricRelevance.v ===== *)
(** * Which metrics are shown for which device ([agent/scanner/capabilities/metrics.go]).

    The registry is the table of the code; a metric is relevant when the device has
    every capability it requires, one of its alternatives, and none it excludes. *)
From S2P Require Import Prelude CapabilityRegistry.
From Stdlib Require Floats.SpecFloat.

Open Scope string_scope.

Record MetricDefinition := {
  MetricName : string;
  DisplayName : string;
  Category : string;
  RequiresAll : list string;
  RequiresAny : list string;
  ExcludesAny : list string;
  Description : string;
  VendorHint : string;
}.

(** Rows of the table leave [ExcludesAny] and [VendorHint] empty. *)
Definition metric (name display category : string) (all any : list string)
    (description : string) : MetricDefinition :=
  {| MetricName := name; DisplayName := display; Category := category; RequiresAll := all;
     RequiresAny := any; ExcludesAny := []; Description := description; VendorHint := "" |}.

Definition PageCounters : list MetricDefinition := [
  metric "total_pages" "Total Pages" "pages"
    ["printer"] [] "Total pages printed by the device";
  metric "page_count" "Page Count" "pages"
    ["printer"] [] "Total impressions (standard counter)";
  metric "color_pages" "Color Pages" "pages"
    ["printer"; "color"] [] "Total color pages printed";
  metric "mono_pages" "Mono Pages" "pages"
    ["printer"] [] "Total monochrome pages printed";
  metric "copy_pages" "Copy Pages" "pages"
    ["copier"] [] "Total pages copied";
  metric "copy_color_pages" "Copy Color Pages" "pages"
    ["copier"; "color"] [] "Total color pages copied";
  metric "copy_mono_pages" "Copy Mono Pages" "pages"
    ["copier"] [] "Total monochrome pages copied";
  metric "copy_flatbed_scans" "Copy Flatbed Scans" "pages"
    ["copier"] [] "Copy jobs from flatbed scanner";
  metric "copy_adf_scans" "Copy ADF Scans" "pages"
    ["copier"] [] "Copy jobs from automatic document feeder";
  metric "scan_count" "Scan Count" "pages"
    [] ["scanner"; "copier"] "Total scan operations";
  metric "scan_to_host_flatbed" "Flatbed Scans" "pages"
    [] ["scanner"; "copier"] "Scans from flatbed to computer";
  metric "scan_to_host_adf" "ADF Scans" "pages"
    [] ["scanner"; "copier"] "Scans from ADF to computer";
  metric "scan_adf_images" "ADF Images Scanned" "pages"
    [] ["scanner"; "copier"] "Total images scanned using the automatic document feeder";
  metric "scan_flatbed_images" "Flatbed Images Scanned" "pages"
    [] ["scanner"; "copier"] "Total images scanned using the flatbed";
  metric "scan_adf_to_host_images" "ADF Images to Host" "pages"
    [] ["scanner"; "copier"] "Images captured via ADF workflows that deliver directly to a host";
  metric "scan_flatbed_to_host_images" "Flatbed Images to Host" "pages"
    [] ["scanner"; "copier"] "Images captured via flatbed workflows that deliver directly to a host";
  metric "fax_pages" "Fax Pages" "pages"
    ["fax"] [] "Total fax pages sent/received";
  metric "fax_adf_scans" "Fax ADF Scans" "pages"
    ["fax"] [] "Fax pages sent via ADF";
  metric "fax_flatbed_scans" "Fax Flatbed Scans" "pages"
    ["fax"] [] "Fax pages sent via flatbed";
  metric "fax_impressions" "Fax Impressions" "pages"
    ["fax"] [] "Total fax impressions processed (ADF + flatbed)";
  metric "duplex_sheets" "Duplex Sheets" "pages"
    ["printer"; "duplex"] [] "Sheets printed on both sides";
  metric "other_pages" "Other Pages" "pages"
    ["printer"] [] "Pages not categorized as print/copy/fax"
].

Definition Supplies : list MetricDefinition := [
  metric "toner_black" "Black Toner" "supplies"
    ["printer"] [] "Black toner/ink level percentage";
  metric "toner_cyan" "Cyan Toner" "supplies"
    ["printer"; "color"] [] "Cyan toner/ink level percentage";
  metric "toner_magenta" "Magenta Toner" "supplies"
    ["printer"; "color"] [] "Magenta toner/ink level percentage";
  metric "toner_yellow" "Yellow Toner" "supplies"
    ["printer"; "color"] [] "Yellow toner/ink level percentage";
  metric "drum_life" "Drum/Imaging Unit" "supplies"
    ["printer"] [] "Drum or imaging unit remaining life";
  metric "waste_toner" "Waste Toner" "supplies"
    ["printer"] [] "Waste toner container level";
  metric "fuser_life" "Fuser Unit" "supplies"
    ["printer"] [] "Fuser unit remaining life";
  metric "transfer_belt" "Transfer Belt" "supplies"
    ["printer"; "color"] [] "Transfer belt remaining life";
  metric "toner_levels" "Toner Levels" "supplies"
    ["printer"] [] "Generic toner/ink levels"
].

Definition Usage : list MetricDefinition := [
  metric "jam_events" "Paper Jams" "usage"
    ["printer"] [] "Total paper jam events";
  metric "jam_events_total" "Paper Jams (Total)" "usage"
    ["printer"] [] "Device-reported aggregate jam counter when available";
  metric "scanner_jam_events" "Scanner Jams" "usage"
    [] ["scanner"; "copier"] "Scanner/ADF jam events";
  metric "serial" "Serial Number" "usage"
    ["printer"] [] "Device serial number"
].

Definition Status : list MetricDefinition := [
  metric "status" "Status" "status"
    ["printer"] [] "Current device status";
  metric "device_state" "Device State" "status"
    ["printer"] [] "Operational state of the device"
].

Definition getAllMetrics : list MetricDefinition :=
  (PageCounters ++ Supplies ++ Usage ++ Status)%list.

(** A name that is not in the map of the code is an absent capability. *)
Definition capMap (caps : DeviceCapabilities) (name : string) : bool :=
  if String.eqb name "printer" then IsPrinter caps
  else if String.eqb name "color" then IsColor caps
  else if String.eqb name "mono" then IsMono caps
  else if String.eqb name "copier" then IsCopier caps
  else if String.eqb name "scanner" then IsScanner caps
  else if String.eqb name "fax" then IsFax caps
  else if String.eqb name "duplex" then HasDuplex caps
  else false.

Definition is_empty {A} (l : list A) : bool := match l with [] => true | _ => false end.

Definition isMetricRelevant (m : MetricDefinition) (caps : DeviceCapabilities) : bool :=
  let has := capMap caps in
  if existsb has (ExcludesAny m) then false
  else if negb (forallb has (RequiresAll m)) then false
  else if negb (is_empty (RequiresAny m)) && negb (existsb has (RequiresAny m)) then false
  else true.

(** No capabilities at all ([nil]) means no filter. *)
Definition GetRelevantMetrics (caps : option DeviceCapabilities) : list MetricDefinition :=
  match caps with
  | None => getAllMetrics
  | Some c => List.filter (fun m => isMetricRelevant m c) getAllMetrics
  end.

Definition GetRelevantMetricNames (caps : option DeviceCapabilities) : list string :=
  map MetricName (GetRelevantMetrics caps).

Definition GetRelevantMetricsByCategory (caps : option DeviceCapabilities)
    : gmap string (list MetricDefinition) :=
  foldl (fun byCategory m =>
           <[Category m := (default [] (byCategory !! Category m) ++ [m])%list]> byCategory)
    ∅ (GetRelevantMetrics caps).

(** The first metric of that name decides. *)
Definition IsMetricRelevant (name : string) (caps : DeviceCapabilities) : bool :=
  match List.find (fun m => String.eqb (MetricName m) name) getAllMetrics with
  | Some m => isMetricRelevant m caps
  | None => false
  end.

(** ** Lemmas *)

Lemma metric_names_unique : NoDup (map MetricName getAllMetrics).
Proof. apply (bool_decide_unpack _). vm_compute. exact I. Qed.

Lemma find_unique (l : list MetricDefinition) m :
  NoDup (map MetricName l) -> m ∈ l ->
  List.find (fun m' => String.eqb (MetricName m') (MetricName m)) l = Some m.
Proof.
  induction l as [|m' l IH]; intros Hnd Hin; [by apply not_elem_of_nil in Hin|].
  simpl in *. apply NoDup_cons in Hnd as [Hni Hnd].
  destruct (String.eqb_spec (MetricName m') (MetricName m)) as [He|Hne].
  - apply elem_of_cons in Hin as [->|Hin]; [done|]. destruct Hni. rewrite He.
    apply list_elem_of_fmap. by exists m.
  - apply elem_of_cons in Hin as [->|Hin]; [done | by apply IH].
Qed.

Lemma find_named (l : list MetricDefinition) name m :
  List.find (fun m' => String.eqb (MetricName m') name) l = Some m -> m ∈ l /\ MetricName m = name.
Proof.
  intros Hf. apply List.find_some in Hf as [Hin Hn%String.eqb_eq].
  by apply list_elem_of_In in Hin.
Qed.

(** [d] has every capability that [c] has. *)
Definition extends (c d : DeviceCapabilities) : Prop :=
  forall name, capMap c name = true -> capMap d name = true.

Lemma relevant_mono m c d :
  ExcludesAny m = [] -> extends c d -> isMetricRelevant m c = true -> isMetricRelevant m d = true.
Proof.
  intros He Hext. unfold isMetricRelevant. rewrite He. cbn [existsb].
  destruct (forallb (capMap c) (RequiresAll m)) eqn:Hall; [|done]. cbn [negb].
  rewrite (proj2 (forallb_elem_of _ _)); cbn [negb].
  2: { intros x Hx. apply Hext. by apply (proj1 (forallb_elem_of _ _) Hall). }
  destruct (is_empty (RequiresAny m)); [done|]. cbn [negb andb].
  destruct (existsb (capMap c) (RequiresAny m)) eqn:Hany; [|done]. intros _.
  apply existsb_elem_of in Hany as (x & Hx & Hc).
  rewrite (proj2 (existsb_elem_of _ _)); [done|]. exists x. auto.
Qed.

Lemma no_exclusions m : m ∈ getAllMetrics -> ExcludesAny m = [].
Proof.
  assert (Hall : forallb (fun m => is_empty (ExcludesAny m)) getAllMetrics = true)
    by (vm_compute; reflexivity).
  intros Hm. rewrite forallb_elem_of in Hall. specialize (Hall m Hm).
  by destruct (ExcludesAny m).
Qed.

Lemma names_of_filter (p : MetricDefinition -> bool) (q : string -> bool) l :
  (forall m, m ∈ l -> p m = q (MetricName m)) ->
  map MetricName (List.filter p l) = List.filter q (map MetricName l).
Proof.
  induction l as [|m l IH]; intros Heq; [done|]. cbn [map List.filter].
  rewrite <- (Heq m) by left. destruct (p m); cbn [map];
    rewrite IH by (intros; apply Heq; by right); done.
Qed.

Lemma elem_of_names (p : MetricDefinition -> bool) l name :
  name ∈ map MetricName (List.filter p l) <-> exists m, MetricName m = name /\ m ∈ l /\ p m = true.
Proof.
  rewrite list_elem_of_In, in_map_iff. setoid_rewrite filter_In.
  by setoid_rewrite list_elem_of_In.
Qed.

Lemma elem_of_relevant m c :
  m ∈ getAllMetrics -> isMetricRelevant m c = true -> MetricName m ∈ GetRelevantMetricNames (Some c).
Proof. intros Hm Hr. apply elem_of_names. by exists m. Qed.

Lemma elem_of_relevant_inv name c :
  name ∈ GetRelevantMetricNames (Some c) ->
  exists m, MetricName m = name /\ m ∈ getAllMetrics /\ isMetricRelevant m c = true.
Proof. apply elem_of_names. Qed.

#[local] Opaque getAllMetrics.

Lemma by_category_fold l (byCategory : gmap string (list MetricDefinition)) cat :
  default [] (foldl (fun byCategory m =>
    <[Category m := (default [] (byCategory !! Category m) ++ [m])%list]> byCategory) byCategory l !! cat) =
  (default [] (byCategory !! cat) ++ List.filter (fun m => String.eqb (Category m) cat) l)%list.
Proof.
  revert byCategory. induction l as [|m l IH]; intros byCategory; cbn [foldl List.filter];
    [by rewrite app_nil_r|].
  rewrite IH. destruct (String.eqb_spec (Category m) cat) as [<-|Hne].
  - rewrite lookup_insert_eq. cbn. by rewrite <- app_assoc.
  - by rewrite lookup_insert_ne by done.
Qed.

Lemma by_category caps cat :
  default [] (GetRelevantMetricsByCategory caps !! cat) =
  List.filter (fun m => String.eqb (Category m) cat) (GetRelevantMetrics caps).
Proof. unfold GetRelevantMetricsByCategory. by rewrite by_category_fold, lookup_empty. Qed.

(** ** Properties *)

(** The two filters agree: the names of the relevant metrics are those that
    [IsMetricRelevant] accepts, in the order of the registry, and no other name is
    accepted; the metrics by category are the relevant metrics of that category. *)
Theorem metric_filters_agree c :
  GetRelevantMetricNames (Some c) =
    List.filter (fun name => IsMetricRelevant name c) (map MetricName getAllMetrics) /\
  (forall name, IsMetricRelevant name c = true -> name ∈ GetRelevantMetricNames (Some c)) /\
  (forall caps cat, default [] (GetRelevantMetricsByCategory caps !! cat) =
     List.filter (fun m => String.eqb (Category m) cat) (GetRelevantMetrics caps)).
Proof.
  split; [|split].
  - apply names_of_filter. intros m Hm. unfold IsMetricRelevant.
    by rewrite (find_unique _ m metric_names_unique Hm).
  - intros name. unfold IsMetricRelevant.
    destruct (List.find _ getAllMetrics) as [m|] eqn:Hf; [|done]. intros Hr.
    apply find_named in Hf as [Hm <-]. by apply elem_of_relevant.
  - intros caps cat. apply by_category.
Qed.

(** A device with more capabilities is shown every metric that one with fewer is
    shown. *)
Theorem more_capabilities_more_metrics c d :
  extends c d ->
  Forall (fun name => name ∈ GetRelevantMetricNames (Some d)) (GetRelevantMetricNames (Some c)).
Proof.
  intros Hext. apply Forall_forall. intros name (m & <- & Hm & Hr)%elem_of_relevant_inv.
  apply elem_of_relevant; [done|]. eapply relevant_mono; [by apply no_exclusions | done | done].
Qed.

(** A monochrome and a color printer. *)
Definition mono_printer : DeviceCapabilities := record_score "printer" (SpecFloat.S754_zero false) true no_capabilities.
Definition color_printer : DeviceCapabilities := record_score "color" (SpecFloat.S754_zero false) true mono_printer.

Lemma color_extends_mono : extends mono_printer color_printer.
Proof. intros name. unfold capMap. repeat case_match; try done. Qed.

Lemma more_capabilities_more_metrics_witness :
  Forall (fun name => name ∈ GetRelevantMetricNames (Some color_printer))
    (GetRelevantMetricNames (Some mono_printer)) /\
  length (GetRelevantMetricNames (Some mono_printer)) = 14%nat /\
  length (GetRelevantMetricNames (Some color_printer)) = 19%nat.
Proof.
  split; [apply (more_capabilities_more_metrics mono_printer color_printer color_extends_mono)|].
  vm_compute. done.
Defined.
