(* ===== verification/Oids.v ===== *)
(** * SNMP object identifiers ([common/snmp/oids/oids.go]).

    The names are those of the source. Import this file before a file that uses one of
    them for something else; [Oids.SysDescr] is the identifier. *)
From S2P Require Import Prelude.

Open Scope string_scope.

Definition SysDescr : string := "1.3.6.1.2.1.1.1.0".
Definition SysObjectID : string := "1.3.6.1.2.1.1.2.0".
Definition SysUpTime : string := "1.3.6.1.2.1.1.3.0".
Definition SysName : string := "1.3.6.1.2.1.1.5.0".
Definition SysLocation : string := "1.3.6.1.2.1.1.6.0".
Definition IfPhysAddress : string := "1.3.6.1.2.1.2.2.1.6.1".
Definition HrSystemUptime : string := "1.3.6.1.2.1.25.1.1.0".
Definition HrDeviceDescr : string := "1.3.6.1.2.1.25.3.2.1.3.1".
Definition HrDeviceType : string := "1.3.6.1.2.1.25.3.2.1.2".
Definition HrDeviceStatus : string := "1.3.6.1.2.1.25.3.2.1.5.1".
Definition PrtGeneralSerialNumber : string := "1.3.6.1.2.1.43.5.1.1.17.1".
Definition PrtGeneralPrinterName : string := "1.3.6.1.2.1.43.5.1.1.16.1".
Definition PrtGeneralCurrentLocalization : string := "1.3.6.1.2.1.43.5.1.1.1.1".
Definition PrtInputTable : string := "1.3.6.1.2.1.43.8.2.1".
Definition PrtInputType : string := "1.3.6.1.2.1.43.8.2.1.2".
Definition PrtInputDimUnit : string := "1.3.6.1.2.1.43.8.2.1.3".
Definition PrtInputMediaDimFeedDirDeclared : string := "1.3.6.1.2.1.43.8.2.1.4".
Definition PrtInputMediaDimXFeedDirDeclared : string := "1.3.6.1.2.1.43.8.2.1.5".
Definition PrtInputCapacityUnit : string := "1.3.6.1.2.1.43.8.2.1.8".
Definition PrtInputMaxCapacity : string := "1.3.6.1.2.1.43.8.2.1.9".
Definition PrtInputCurrentLevel : string := "1.3.6.1.2.1.43.8.2.1.10".
Definition PrtInputStatus : string := "1.3.6.1.2.1.43.8.2.1.11".
Definition PrtInputMediaName : string := "1.3.6.1.2.1.43.8.2.1.12".
Definition PrtInputName : string := "1.3.6.1.2.1.43.8.2.1.13".
Definition PrtInputDescription : string := "1.3.6.1.2.1.43.8.2.1.18".
Definition PrtMarkerLifeCount : string := "1.3.6.1.2.1.43.10.2.1.4.1".
Definition PrtMarkerPowerOnCount : string := "1.3.6.1.2.1.43.10.2.1.5".
Definition PrtMarkerProcessColorants : string := "1.3.6.1.2.1.43.10.2.1.6".
Definition PrtMarkerCounterUnit : string := "1.3.6.1.2.1.43.10.2.1.3".
Definition HrPrinterStatus : string := "1.3.6.1.2.1.25.3.5.1.1".
Definition HrPrinterDetectedErrorState : string := "1.3.6.1.2.1.25.3.5.1.2".
Definition PrtMarkerSuppliesEntry : string := "1.3.6.1.2.1.43.11.1.1".
Definition PrtMarkerSuppliesMarkerIndex : string := "1.3.6.1.2.1.43.11.1.1.2".
Definition PrtMarkerSuppliesColorID : string := "1.3.6.1.2.1.43.11.1.1.3".
Definition PrtMarkerSuppliesClass : string := "1.3.6.1.2.1.43.11.1.1.4".
Definition PrtMarkerSuppliesType : string := "1.3.6.1.2.1.43.11.1.1.5".
Definition PrtMarkerSuppliesDesc : string := "1.3.6.1.2.1.43.11.1.1.6".
Definition PrtMarkerSuppliesSupplyUnit : string := "1.3.6.1.2.1.43.11.1.1.7".
Definition PrtMarkerSuppliesMaxCap : string := "1.3.6.1.2.1.43.11.1.1.8".
Definition PrtMarkerSuppliesLevel : string := "1.3.6.1.2.1.43.11.1.1.9".
Definition PrtMarkerColorantTable : string := "1.3.6.1.2.1.43.12.1.1".
Definition PrtMarkerColorantMarkerIndex : string := "1.3.6.1.2.1.43.12.1.1.2".
Definition PrtMarkerColorantRole : string := "1.3.6.1.2.1.43.12.1.1.3".
Definition PrtMarkerColorantValue : string := "1.3.6.1.2.1.43.12.1.1.4".
Definition PrtMarkerColorantTonality : string := "1.3.6.1.2.1.43.12.1.1.5".
Definition PrtConsoleDisplayBufferText : string := "1.3.6.1.2.1.43.16.5.1.2".
Definition PrtAlertSeverityLevel : string := "1.3.6.1.2.1.43.17.6.1.2".
Definition PrtChannelTable : string := "1.3.6.1.2.1.43.18.1.1".
Definition PrtChannelType : string := "1.3.6.1.2.1.43.18.1.1.2".
Definition PrtChannelProtocolVersion : string := "1.3.6.1.2.1.43.18.1.1.3".
Definition PrtChannelState : string := "1.3.6.1.2.1.43.18.1.1.8".
Definition PpmPrinterIEEE1284DeviceID : string := "1.3.6.1.4.1.2699.1.2.1.2.1.3".
Definition EpsonEnterprise : string := "1.3.6.1.4.1.1248".
Definition EpsonModelName : string := "1.3.6.1.4.1.1248.1.2.2.1.1.1.2.1".
Definition EpsonSerialNumber : string := "1.3.6.1.4.1.1248.1.2.2.1.1.1.5.1".
Definition EpsonSuppliesStatus : string := "1.3.6.1.4.1.1248.1.2.2.2.1.1.2.1".
Definition EpsonSuppliesLevel : string := "1.3.6.1.4.1.1248.1.2.2.2.1.1.3.1".
Definition EpsonCounterTable : string := "1.3.6.1.4.1.1248.1.2.2.6.1.1".
Definition EpsonCounterName : string := "1.3.6.1.4.1.1248.1.2.2.6.1.1.2.1".
Definition EpsonTotalPages : string := "1.3.6.1.4.1.1248.1.2.2.27.1.1.33.1.1".
Definition EpsonColorPages : string := "1.3.6.1.4.1.1248.1.2.2.27.1.1.4.1.1".
Definition EpsonMonoPages : string := "1.3.6.1.4.1.1248.1.2.2.27.1.1.6.1.1".
Definition EpsonTotalPagesLegacy : string := "1.3.6.1.4.1.1248.1.2.2.27.1.1.30.1.1".
Definition EpsonMonoPagesLegacy : string := "1.3.6.1.4.1.1248.1.2.2.27.1.1.3.1.1".
Definition EpsonFunctionNames : string := "1.3.6.1.4.1.1248.1.2.2.27.6.1.2.1.1".
Definition EpsonFunctionBWCount : string := "1.3.6.1.4.1.1248.1.2.2.27.6.1.3.1.1".
Definition EpsonFunctionTotalCount : string := "1.3.6.1.4.1.1248.1.2.2.27.6.1.4.1.1".
Definition EpsonFunctionColorCount : string := "1.3.6.1.4.1.1248.1.2.2.27.6.1.5.1.1".
Definition KyoceraEnterprise : string := "1.3.6.1.4.1.1347".
Definition KyoceraModelName : string := "1.3.6.1.4.1.1347.40.1.1.1.1.1".
Definition KyoceraSerialNumber : string := "1.3.6.1.4.1.1347.40.10.1.1.5.1".
Definition KyoceraCounterTable : string := "1.3.6.1.4.1.1347.42.2.1.1.1".
Definition KyoceraPrintBW : string := "1.3.6.1.4.1.1347.42.3.1.2.1.1.1.1".
Definition KyoceraPrintColor : string := "1.3.6.1.4.1.1347.42.3.1.2.1.1.1.3".
Definition KyoceraCopyBW : string := "1.3.6.1.4.1.1347.42.3.1.2.1.1.2.1".
Definition KyoceraCopyColor : string := "1.3.6.1.4.1.1347.42.3.1.2.1.1.2.3".
Definition KyoceraFaxBW : string := "1.3.6.1.4.1.1347.42.3.1.2.1.1.4.1".
Definition KyoceraCopyScans : string := "1.3.6.1.4.1.1347.42.3.1.3.1.1.2".
Definition KyoceraFaxScans : string := "1.3.6.1.4.1.1347.42.3.1.3.1.1.4".
Definition KyoceraOtherScans : string := "1.3.6.1.4.1.1347.42.3.1.4.1.1.1".
Definition KyoceraDetailedCounters : string := "1.3.6.1.4.1.1347.42.5.4.1.2".
Definition KyoceraTotalPrinted : string := "1.3.6.1.4.1.1347.43.10.1.1.12.1.1".
Definition KyoceraStatusInfo : string := "1.3.6.1.4.1.1347.43.5.1.1.28.1".
