(* ===== verification/VendorModules.v ===== *)
(** * Vendor modules and their detection ([agent/scanner/vendor/registry.go], and the
    names, evidence and query lists of [generic.go], [hp.go], [kyocera.go] and
    [epson.go]; [agent/scanner/snmp_targets.go]).

    What the modules make of the answers is in VendorParse. The registry is filled by
    the [init] functions, which run in the order of the file names. *)
From S2P Require Import Prelude Oids GoStrings GoFloat Evidence Detectors CapabilityRegistry.
From Stdlib Require Import Ascii.

Open Scope string_scope.
Open Scope list_scope.

(** ** Modules *)

Record VendorModule := {
  vendor_name : string;
  Detect : string -> string -> string -> bool;
  BaseOIDs : list string;
  MetricOIDs : option DeviceCapabilities -> list string;
  SupplyOIDs : list string;
  PaperTrayOIDs : list string;
}.

Definition oid_child (oid n : string) : string := (oid +:+ "." +:+ n)%string.

Definition standard_supplies : list string :=
  [Oids.PrtMarkerSuppliesDesc; Oids.PrtMarkerSuppliesLevel; Oids.PrtMarkerSuppliesMaxCap;
   Oids.PrtMarkerSuppliesClass; Oids.PrtMarkerSuppliesType].

Definition paper_trays : list string :=
  [Oids.PrtInputName; Oids.PrtInputMediaName; Oids.PrtInputCurrentLevel; Oids.PrtInputMaxCapacity;
   Oids.PrtInputStatus; Oids.PrtInputType; Oids.PrtInputDescription].

Definition life_count : string := oid_child Oids.PrtMarkerLifeCount "1".

Definition GenericVendor : VendorModule :=
  {| vendor_name := "Generic";
     Detect _ _ _ := true;
     BaseOIDs :=
       [Oids.SysDescr; Oids.SysObjectID; Oids.SysUpTime; Oids.SysName; Oids.SysLocation;
        Oids.HrDeviceDescr; Oids.HrDeviceStatus; Oids.PrtGeneralPrinterName;
        Oids.PrtGeneralSerialNumber; oid_child Oids.HrPrinterStatus "1";
        oid_child Oids.HrPrinterDetectedErrorState "1";
        oid_child Oids.PpmPrinterIEEE1284DeviceID "1"];
     MetricOIDs _ := [life_count];
     SupplyOIDs := standard_supplies;
     PaperTrayOIDs := paper_trays |}.

Section Modules.
Context `{GoUnicode}.

(** The evidence of a module: its enterprise in the object id, or one of some words in
    the description and model. *)
Definition detect_by (enterprise : string) (words : list string)
    (sysObjectID sysDescr model : string) : bool :=
  if Contains sysObjectID enterprise then true
  else existsb (Contains (ToLower (sysDescr +:+ " " +:+ model)%string)) words.

Definition hpIEEE1284DeviceIDOID : string := "1.3.6.1.4.1.11.2.3.9.1.1.7.0".

(** The counters of HP are below 1.3.6.1.4.1.11.2.3.9.4.2.1. *)
Definition hp (n : string) : string := ("1.3.6.1.4.1.11.2.3.9.4.2.1." +:+ n)%string.

Definition hp_MetricOIDs (caps : option DeviceCapabilities) : list string :=
  let having f := match caps with Some c => f c : bool | None => false end in
  [life_count; hp "1.4.1.1"; hp "4.4.7.0"; hp "4.4.8.0"] ++
  (if having (fun c => IsCopier c || IsScanner c) then
     [hp "4.1.3.0"; hp "4.1.2.0"; hp "4.1.1.0"; hp "2.2.1.44.0"; hp "2.2.1.45.0";
      hp "2.2.1.73.0"; hp "2.2.1.74.0"; hp "2.2.1.43.0"] else []) ++
  (if having IsFax then
     [hp "4.2.1.0"; hp "4.2.2.0"; hp "3.7.1.31.0"; hp "3.7.1.36.0"; hp "3.7.1.32.0"] else []) ++
  (if having HasDuplex then [hp "4.4.6.0"] else []) ++
  [hp "3.9.0"; hp "4.1.2.34.0"].

Definition HPVendor : VendorModule :=
  {| vendor_name := "HP";
     Detect := detect_by ".1.3.6.1.4.1.11." ["hp "; "hewlett"; "laserjet"; "officejet"];
     BaseOIDs :=
       [Oids.SysDescr; Oids.SysObjectID; Oids.SysName; Oids.HrDeviceDescr;
        Oids.PrtGeneralPrinterName; Oids.PrtGeneralSerialNumber;
        oid_child Oids.HrPrinterStatus "1"; hpIEEE1284DeviceIDOID];
     MetricOIDs := hp_MetricOIDs;
     SupplyOIDs := standard_supplies;
     PaperTrayOIDs := paper_trays |}.

Definition identity_oids : list string :=
  [Oids.SysDescr; Oids.SysObjectID; Oids.SysUpTime; Oids.SysName; Oids.SysLocation;
   Oids.HrDeviceDescr; Oids.HrDeviceStatus; Oids.PrtGeneralPrinterName;
   Oids.PrtGeneralSerialNumber; oid_child Oids.HrPrinterStatus "1";
   oid_child Oids.HrPrinterDetectedErrorState "1"].

Definition kyocera_MetricOIDs : list string :=
  [life_count; Oids.KyoceraTotalPrinted; Oids.KyoceraPrintBW; Oids.KyoceraPrintColor;
   Oids.KyoceraCopyBW; Oids.KyoceraCopyColor] ++ [Oids.KyoceraFaxBW] ++
  [Oids.KyoceraCopyScans; Oids.KyoceraFaxScans; Oids.KyoceraOtherScans] ++
  map (fun i => oid_child Oids.KyoceraDetailedCounters (pretty i)) (seqZ 1 17).

Definition KyoceraVendor : VendorModule :=
  {| vendor_name := "Kyocera";
     Detect := detect_by ".1.3.6.1.4.1.1347." ["kyocera"; "taskalfa"; "ecosys"];
     BaseOIDs := identity_oids ++ [Oids.KyoceraModelName; Oids.KyoceraSerialNumber; Oids.KyoceraStatusInfo];
     MetricOIDs _ := kyocera_MetricOIDs;
     SupplyOIDs := standard_supplies;
     PaperTrayOIDs := paper_trays |}.

Definition epson_MetricOIDs : list string :=
  [life_count; Oids.EpsonTotalPages; Oids.EpsonColorPages; Oids.EpsonMonoPages;
   Oids.EpsonTotalPagesLegacy; Oids.EpsonMonoPagesLegacy] ++
  (column ← [Oids.EpsonFunctionNames; Oids.EpsonFunctionBWCount; Oids.EpsonFunctionTotalCount;
             Oids.EpsonFunctionColorCount];
   map (oid_child column) ["1"; "2"; "3"; "4"]).

Definition EpsonVendor : VendorModule :=
  {| vendor_name := "Epson";
     Detect := detect_by ".1.3.6.1.4.1.1248." ["epson"; "workforce"; "surecolor"];
     BaseOIDs := identity_oids ++ [Oids.EpsonModelName; Oids.EpsonSerialNumber];
     MetricOIDs _ := epson_MetricOIDs;
     SupplyOIDs := standard_supplies ++ [Oids.EpsonSuppliesStatus; Oids.EpsonSuppliesLevel];
     PaperTrayOIDs := paper_trays |}.

(** ** The registry *)

Definition EnterpriseOIDMap : list (string * string) :=
  [("11", "HP"); ("367", "Ricoh"); ("641", "Lexmark"); ("1347", "Kyocera"); ("1602", "Canon");
   ("2435", "Brother"); ("1248", "Epson"); ("236", "Samsung"); ("253", "Xerox"); ("9", "Dell")].

Definition ManufacturerForEnterprise (enterprise : string) : string :=
  default "" ((list_to_map EnterpriseOIDMap : gmap string string) !! enterprise).

Definition vendorModules : list VendorModule := [EpsonVendor; HPVendor; KyoceraVendor].

(** The component after 1.3.6.1.4.1. *)
Definition extractEnterpriseNumber (sysObjectID : string) : string :=
  match Split (TrimPrefix sysObjectID ".") "." with
  | "1" :: "3" :: "6" :: "1" :: "4" :: "1" :: enterprise :: _ => enterprise
  | _ => ""
  end.

Definition ManufacturerForSysObjectID (sysObjectID : string) : string :=
  ManufacturerForEnterprise (extractEnterpriseNumber sysObjectID).

Definition GetVendorByName (name : string) : option VendorModule :=
  List.find (fun m => EqualFold (vendor_name m) name) vendorModules.

(** The module of a known enterprise number, if there is one. *)
Definition vendor_of_enterprise (enterprise : string) : option VendorModule :=
  if String.eqb enterprise "" then None
  else match (list_to_map EnterpriseOIDMap : gmap string string) !! enterprise with
       | Some vendorName => GetVendorByName vendorName
       | None => None
       end.

Definition DetectVendor (sysObjectID sysDescr model : string) : VendorModule :=
  match vendor_of_enterprise (extractEnterpriseNumber sysObjectID) with
  | Some m => m
  | None =>
      default GenericVendor (List.find (fun m => Detect m sysObjectID sysDescr model) vendorModules)
  end.

Definition GetVendorName (sysObjectID sysDescr model : string) : string :=
  vendor_name (DetectVendor sysObjectID sysDescr model).

(** [enterpriseFromHint] of [query.go] *)
Definition enterpriseFromHint (name : string) : string :=
  default "" ((list_to_map
    [("hp", "11"); ("kyocera", "1347"); ("epson", "1248"); ("canon", "1602"); ("brother", "2435");
     ("lexmark", "641"); ("ricoh", "367"); ("samsung", "236"); ("xerox", "253")] : gmap string string)
    !! ToLower name).

(** The module of a query: a hint is compared with what the device reports. *)
Definition select_vendor (vendorHint sysObjectID sysDescr model : string) : VendorModule :=
  let detected := DetectVendor sysObjectID sysDescr model in
  if String.eqb vendorHint "" then detected
  else if negb (EqualFold (vendor_name detected) vendorHint) then
    DetectVendor ("." +:+ enterpriseFromHint vendorHint)%string sysDescr model
  else detected.
End Modules.

(** ** Device id objects *)

Record VendorIDTarget := { Key : string; OID : string; Description : string; Vendors : list string }.

Definition VendorIDTargets : list VendorIDTarget :=
  [ {| Key := "hp_ieee1284"; OID := "1.3.6.1.4.1.11.2.3.9.1.1.7.0";
       Description := "HP IEEE-1284 device ID (MFG/MDL/CMD payload)"; Vendors := ["hp"; "hewlett-packard"] |};
    {| Key := "lexmark_device_id"; OID := "1.3.6.1.4.1.641.2.1.2.1.3.1";
       Description := "Lexmark device ID / IEEE-1284 descriptor"; Vendors := ["lexmark"] |};
    {| Key := "ricoh_device_id"; OID := "1.3.6.1.4.1.367.3.2.1.1.1.11.0";
       Description := "Ricoh device ID payload (similar to IEEE-1284)"; Vendors := ["ricoh"; "lanier"; "savin"] |};
    {| Key := "xerox_device_id"; OID := "1.3.6.1.4.1.128.2.1.3.1.2.0";
       Description := "Xerox device ID descriptor"; Vendors := ["xerox"] |} ].

Definition VendorIDTargetOIDs : list string := map OID VendorIDTargets.

(** The index by object id; a later target of the same id would replace an earlier. *)
Definition vendorIDTargetIndex : gmap string VendorIDTarget :=
  foldl (fun idx t => <[TrimPrefix (OID t) "." := t]> idx) ∅ VendorIDTargets.

Definition LookupVendorIDTarget (oid : string) : option VendorIDTarget :=
  vendorIDTargetIndex !! TrimPrefix oid ".".

(** ** What a hint does *)

Section Hints.
Context `{GoUnicode}.

Lemma enterpriseFromHint_cases name :
  enterpriseFromHint name ∈ [""; "11"; "1347"; "1248"; "1602"; "2435"; "641"; "367"; "236"; "253"].
Proof.
  unfold enterpriseFromHint. destruct (_ !! ToLower name) as [e|] eqn:He; [|by repeat constructor].
  apply elem_of_list_to_map_2 in He. simpl.
  repeat (apply elem_of_cons in He as [[= _ ->]|He]; [by repeat constructor|]).
  by apply not_elem_of_nil in He.
Qed.

Lemma synthetic_oid e sysDescr model :
  e ∈ [""; "11"; "1347"; "1248"; "1602"; "2435"; "641"; "367"; "236"; "253"] ->
  DetectVendor ("." +:+ e)%string sysDescr model = DetectVendor "" sysDescr model.
Proof.
  intros He. repeat (apply elem_of_cons in He as [->|He]; [reflexivity|]).
  by apply not_elem_of_nil in He.
Qed.

(** A vendor hint never selects a module: when it is not the name of the module that
    the device's answers select, the device's object id is disregarded and the module
    is the one that the description and model alone select, for every hint. *)
Theorem hint_only_discards vendorHint sysObjectID sysDescr model :
  select_vendor vendorHint sysObjectID sysDescr model =
  if String.eqb vendorHint "" || EqualFold (GetVendorName sysObjectID sysDescr model) vendorHint
  then DetectVendor sysObjectID sysDescr model
  else DetectVendor "" sysDescr model.
Proof.
  unfold select_vendor, GetVendorName. destruct (String.eqb vendorHint ""); simpl; [done|].
  destruct (EqualFold _ vendorHint); simpl; [done|].
  apply synthetic_oid, enterpriseFromHint_cases.
Qed.

(** The registered modules are found by their names, whatever the case. *)
Lemma GetVendorByName_registered m : m ∈ vendorModules -> GetVendorByName (vendor_name m) = Some m.
Proof.
  intros Hm. repeat (apply elem_of_cons in Hm as [->|Hm]; [reflexivity|]).
  by apply not_elem_of_nil in Hm.
Qed.

(** A module is selected by its enterprise number or by its own evidence, else the
    generic one is. *)
Lemma DetectVendor_cases sysObjectID sysDescr model m :
  DetectVendor sysObjectID sysDescr model = m ->
  (exists e, e = extractEnterpriseNumber sysObjectID /\ EqualFold (vendor_name m) (ManufacturerForEnterprise e) = true /\ m ∈ vendorModules) \/
  (m ∈ vendorModules /\ Detect m sysObjectID sysDescr model = true) \/
  (m = GenericVendor /\ Forall (fun v => Detect v sysObjectID sysDescr model = false) vendorModules).
Proof.
  unfold DetectVendor. destruct (vendor_of_enterprise _) as [m'|] eqn:Hv; intros <-.
  - left. unfold vendor_of_enterprise in Hv. eexists. split; [done|].
    destruct (String.eqb _ ""); [done|].
    unfold ManufacturerForEnterprise. destruct (_ !! extractEnterpriseNumber sysObjectID); [|done].
    unfold GetVendorByName in Hv. apply List.find_some in Hv as [Hin Hf].
    split; [exact Hf | by apply list_elem_of_In].
  - right. destruct (List.find _ vendorModules) as [m'|] eqn:Hf; simpl.
    + left. apply List.find_some in Hf as [Hin Hd]. by rewrite list_elem_of_In.
    + right. split; [done|]. apply Forall_forall. intros v Hin.
      by apply (List.find_none _ _ Hf), list_elem_of_In.
Qed.
End Hints.

(** A Kyocera device that is queried with another hint is queried as a generic one. *)
Lemma hint_loses_vendor :
  vendor_name (select_vendor "" "1.3.6.1.4.1.1347.41" "" "") = "Kyocera" /\
  vendor_name (select_vendor "HP" "1.3.6.1.4.1.1347.41" "" "") = "Generic" /\
  vendor_name (select_vendor "Kyocera" "" "" "") = "Generic".
Proof. split_and!; vm_compute; reflexivity. Qed.

(** Device id objects are found with and without a leading dot. *)
Lemma LookupVendorIDTarget_found t :
  t ∈ VendorIDTargets ->
  LookupVendorIDTarget (OID t) = Some t /\ LookupVendorIDTarget ("." +:+ OID t)%string = Some t.
Proof.
  intros Ht. repeat (apply elem_of_cons in Ht as [->|Ht]; [by split; vm_compute|]).
  by apply not_elem_of_nil in Ht.
Qed.
