(* ===== verification/VendorParse.v ===== *)
(** * Vendor parsing of SNMP answers ([agent/scanner/vendor/generic.go], [hp.go],
    [kyocera.go], [epson.go]).

    The result of a parse is a finite map of metrics. The loops over Go maps visit
    their entries in an arbitrary order, which is an argument here. Counters are 64-bit
    integers. *)
From S2P Require Import Prelude Oids GoStrings GoNet GoFloat Evidence Detectors CapabilityRegistry Supplies VendorModules.
From Stdlib Require Import Ascii Sorted.

Open Scope string_scope.
Open Scope list_scope.

Inductive MetricValue := MInt (n : Z) | MFloat (f : float64) | MText (s : string) | MBool (b : bool).
Notation metrics := (gmap string MetricValue).

(** ** Values of objects *)

(** [coerceToInt]: -1 for what is no integer, octet strings and missing instances
    among them. *)
Definition coerceToInt (v : PduValue) : Z :=
  match v with
  | VInt z | VInt32 z | VInt64 z | VUint32 z => z
  | VUint z | VUint64 z => wrap64 z
  | VString s => match ParseInt10 s with Some i => i | None => -1 end
  | VNil | VBytes _ | VOther => -1
  end%Z.

(** The first object with the identifier or below it, 0 when there is none. *)
Fixpoint getOIDInt (pdus : list SnmpPDU) (oid : string) : Z :=
  match pdus with
  | [] => 0
  | pdu :: rest =>
      let name := normalizeOID (Name pdu) in
      if String.eqb name (normalizeOID oid) || HasPrefix name (normalizeOID oid +:+ ".")%string
      then coerceToInt (Value pdu) else getOIDInt rest oid
  end.

Definition getOIDIntIndexed (pdus : list SnmpPDU) (oid : string) : Z :=
  match index_pdus pdus !! normalizeOID oid with
  | Some pdu => coerceToInt (Value pdu)
  | None => getOIDInt pdus oid
  end.

(** [if n > 0 { result[k] = n }] *)
Definition put_positive (k : string) (n : Z) (m : metrics) : metrics :=
  if (0 <? n)%Z then <[k := MInt n]> m else m.

Definition put_when (b : bool) (k : string) (v : MetricValue) (m : metrics) : metrics :=
  if b then <[k := v]> m else m.

Definition iadd (a b : Z) : Z := wrap64 (a + b).

(** ** The supply table *)

Record SupplyEntry := { Descr : string; Level : Z; MaxCapacity : Z; SupplyClass : Z; SupplyType : Z }.

Definition new_entry : SupplyEntry :=
  {| Descr := ""; Level := -1; MaxCapacity := -1; SupplyClass := 0; SupplyType := 0 |}.

Inductive supply_field := FDescription | FLevel | FMaxCapacity | FClass | FType.

Definition supply_columns : list (string * supply_field) :=
  [(Oids.PrtMarkerSuppliesDesc, FDescription); (Oids.PrtMarkerSuppliesLevel, FLevel);
   (Oids.PrtMarkerSuppliesMaxCap, FMaxCapacity); (Oids.PrtMarkerSuppliesClass, FClass);
   (Oids.PrtMarkerSuppliesType, FType)].

(** The column of an object and the instance, which is not empty. *)
Fixpoint supply_cell (columns : list (string * supply_field)) (oid : string) : option (supply_field * string) :=
  match columns with
  | [] => None
  | (column, field) :: rest =>
      let prefix := (column +:+ ".1.")%string in
      if HasPrefix oid prefix then
        let instance := TrimPrefix oid prefix in
        if String.eqb instance "" then None else Some (field, instance)
      else supply_cell rest oid
  end.

(** A description that is no text leaves the entry as it is. *)
Definition set_supply (field : supply_field) (v : PduValue) (e : SupplyEntry) : SupplyEntry :=
  match field with
  | FDescription =>
      match v with
      | VBytes s | VString s =>
          {| Descr := s; Level := Level e; MaxCapacity := MaxCapacity e;
             SupplyClass := SupplyClass e; SupplyType := SupplyType e |}
      | _ => e
      end
  | FLevel => {| Descr := Descr e; Level := coerceToInt v; MaxCapacity := MaxCapacity e;
                 SupplyClass := SupplyClass e; SupplyType := SupplyType e |}
  | FMaxCapacity => {| Descr := Descr e; Level := Level e; MaxCapacity := coerceToInt v;
                       SupplyClass := SupplyClass e; SupplyType := SupplyType e |}
  | FClass => {| Descr := Descr e; Level := Level e; MaxCapacity := MaxCapacity e;
                 SupplyClass := coerceToInt v; SupplyType := SupplyType e |}
  | FType => {| Descr := Descr e; Level := Level e; MaxCapacity := MaxCapacity e;
                SupplyClass := SupplyClass e; SupplyType := coerceToInt v |}
  end.

Definition supply_entries (pdus : list SnmpPDU) : gmap string SupplyEntry :=
  foldl (fun entries pdu =>
    match supply_cell supply_columns (normalizeOID (Name pdu)) with
    | Some (field, instance) =>
        <[instance := set_supply field (Value pdu) (default new_entry (entries !! instance))]> entries
    | None => entries
    end) ∅ pdus.

(** The level as a percentage, -1 when it is not known. *)
Definition supply_percentage (e : SupplyEntry) : float64 :=
  if (0 <? MaxCapacity e)%Z && (0 <=? Level e)%Z then
    fmul (fdiv (float_of_Z (Level e)) (float_of_Z (MaxCapacity e))) (float_of_Z 100)
  else if (0 <=? Level e)%Z && (Level e <=? 100)%Z && (MaxCapacity e <=? 0)%Z then float_of_Z (Level e)
  else if (Level e =? -3)%Z then float_of_Z 10
  else float_of_Z (-1).

Section Parse.
Context `{GoUnicode}.

(** Described, of a class that is consumed or filled, or of no class and known. *)
Definition supply_accepted (e : SupplyEntry) : bool :=
  negb (String.eqb (Descr e) "") &&
  ((SupplyClass e =? 3)%Z || (SupplyClass e =? 4)%Z ||
   ((SupplyClass e =? 0)%Z && negb (String.eqb (NormalizeDescription (Descr e)) ""))).

Definition supply_metric (e : SupplyEntry) : string :=
  let name := NormalizeDescription (Descr e) in
  if (SupplyClass e =? 4)%Z && String.eqb name "" then "waste_toner" else name.

(** The name of a supply that is not known. *)
Definition raw_supply_key (e : SupplyEntry) : string :=
  ("supply_" +:+ map_string (fun c => if Ascii.eqb c " " then "_"%char else c) (ToLower (Descr e)))%string.

Definition is_100 (f : float64) : bool := feqb f (float_of_Z 100).

(** A full supply does not replace one that is known not to be full. *)
Definition keeps_existing (existing : option float64) (percentage : float64) : bool :=
  match existing with
  | Some old => is_100 percentage && negb (is_100 old) && fleb (float_of_Z 0) old
  | None => false
  end.

Definition add_supply (result : gmap string float64) (e : SupplyEntry) : gmap string float64 :=
  if negb (supply_accepted e) then result
  else
    let percentage := supply_percentage e in
    let name := supply_metric e in
    if negb (String.eqb name "") then
      if keeps_existing (result !! name) percentage then result else <[name := percentage]> result
    else if fleb (float_of_Z 0) percentage then <[raw_supply_key e := percentage]> result
    else result.

(** [order] is the order in which [range] visits the entries. *)
Definition parseSuppliesTable (order : list (string * SupplyEntry)) : gmap string float64 :=
  foldl add_supply ∅ order.*2.

Definition visits (order : list (string * SupplyEntry)) (pdus : list SnmpPDU) : Prop :=
  order ≡ₚ map_to_list (supply_entries pdus).

(** [for k, v := range supplies { result[k] = v }] *)
Definition with_supplies (supplies : gmap string float64) (m : metrics) : metrics :=
  (MFloat <$> supplies) ∪ m.

(** ** Paper trays *)

Record TrayEntry := {
  te_Name : string; te_MediaType : string; CurrentLevel : Z; te_MaxCapacity : Z;
  te_Status : Z; TrayType : Z; te_Description : string
}.

Definition new_tray : TrayEntry :=
  {| te_Name := ""; te_MediaType := ""; CurrentLevel := -1; te_MaxCapacity := -1; te_Status := 0;
     TrayType := 0; te_Description := "" |}.

(** [strconv.Atoi] with its error ignored: 0 for a text that is no number, the largest
    or smallest integer for one that does not fit. *)
Definition Atoi (s : string) : Z * bool :=
  let body (neg : bool) t :=
    match decimal t with
    | None => (0, false)
    | Some v =>
        let v := if neg then - v else v in
        if v <? int64_min then (int64_min, false)
        else if int64_max <? v then (int64_max, false) else (v, true)
    end%Z in
  match s with
  | String "-" t => body true t
  | String "+" t => body false t
  | _ => body false s
  end.

(** The column and the tray of an object of the input table. *)
Definition tray_cell (oid : string) : option (Z * Z) :=
  let root := "1.3.6.1.2.1.43.8.2.1." in
  if negb (HasPrefix oid root) then None
  else
    match Split (TrimPrefix oid root) "." with
    | [] | [_] => None
    | column :: second :: rest =>
        if negb (Atoi column).2 then None
        else
          let tray := (Atoi (match rest with [] => second | third :: _ => third end)).1 in
          if (tray <=? 0)%Z then None else Some ((Atoi column).1, tray)
    end.

Definition tray_text (v : PduValue) (old : string) : string :=
  match v with VBytes s | VString s => TrimSpace s | _ => old end.

Definition set_tray (column : Z) (v : PduValue) (e : TrayEntry) : TrayEntry :=
  {| te_Name := if (column =? 13)%Z then tray_text v (te_Name e) else te_Name e;
     te_MediaType := if (column =? 12)%Z then tray_text v (te_MediaType e) else te_MediaType e;
     CurrentLevel := if (column =? 10)%Z then coerceToInt v else CurrentLevel e;
     te_MaxCapacity := if (column =? 9)%Z then coerceToInt v else te_MaxCapacity e;
     te_Status := if (column =? 11)%Z then coerceToInt v else te_Status e;
     TrayType := if (column =? 2)%Z then coerceToInt v else TrayType e;
     te_Description := if (column =? 18)%Z then tray_text v (te_Description e) else te_Description e |}.

Definition tray_entries (pdus : list SnmpPDU) : gmap Z TrayEntry :=
  foldl (fun entries pdu =>
    match tray_cell (normalizeOID (Name pdu)) with
    | Some (column, tray) =>
        <[tray := set_tray column (Value pdu) (default new_tray (entries !! tray))]> entries
    | None => entries
    end) ∅ pdus.

Record PaperTray := {
  TrayIndex : Z; TrayName : string; MediaType : string; TrayLevel : Z; TrayCapacity : Z;
  LevelPercent : Z; TrayStatus : string; tray_Type : Z; TrayDescription : string
}.

Definition determineTrayStatus (currentLevel levelPercent : Z) : string :=
  (if (currentLevel =? -1) || (currentLevel =? -2) then "unknown"
   else if currentLevel =? -3 then "low"
   else if currentLevel =? 0 then "empty"
   else if 0 <=? levelPercent then
     if levelPercent =? 0 then "empty"
     else if levelPercent <=? 10 then "low"
     else if levelPercent <=? 25 then "medium" else "ok"
   else if 0 <? currentLevel then "ok" else "unknown")%Z.

Definition tray_percent (e : TrayEntry) : Z :=
  if (0 <? te_MaxCapacity e)%Z && (0 <=? CurrentLevel e)%Z then
    int_of_float (fmul (fdiv (float_of_Z (CurrentLevel e)) (float_of_Z (te_MaxCapacity e))) (float_of_Z 100))
  else if (CurrentLevel e =? -3)%Z then 10 else -1.

Definition paper_tray (entry : Z * TrayEntry) : PaperTray :=
  let '(idx, e) := entry in
  {| TrayIndex := idx;
     TrayName := if String.eqb (te_Name e) "" then ("Tray " +:+ pretty idx)%string else te_Name e;
     MediaType := te_MediaType e; TrayLevel := CurrentLevel e; TrayCapacity := te_MaxCapacity e;
     LevelPercent := tray_percent e;
     TrayStatus := determineTrayStatus (CurrentLevel e) (tray_percent e);
     tray_Type := TrayType e; TrayDescription := te_Description e |}.

(** The inner loop of the exchange sort: the least of [x] and the rest, and what is
    left in the places after it. *)
Fixpoint exchange (x : PaperTray) (l : list PaperTray) : PaperTray * list PaperTray :=
  match l with
  | [] => (x, [])
  | y :: l' =>
      if (TrayIndex y <? TrayIndex x)%Z then let '(m, r) := exchange y l' in (m, x :: r)
      else let '(m, r) := exchange x l' in (m, y :: r)
  end.

Fixpoint exchange_sort (n : nat) (l : list PaperTray) : list PaperTray :=
  match n, l with
  | S n', x :: l' => let '(m, r) := exchange x l' in m :: exchange_sort n' r
  | _, _ => l
  end.

Definition ParsePaperTrays (order : list (Z * TrayEntry)) : list PaperTray :=
  exchange_sort (length order) (map paper_tray order).
End Parse.

(** ** The modules *)

(** A counter that is present takes precedence over one that comes later. *)
Fixpoint first_positive (l : list Z) : Z :=
  match l with
  | [] => 0
  | n :: rest => if (0 <? n)%Z then n else first_positive rest
  end.

Definition put_total (n : Z) (m : metrics) : metrics :=
  put_positive "total_pages" n (put_positive "page_count" n m).

(** *** Firmware of HP devices *)

Definition flush (acc : string) : list string := if String.eqb acc "" then [] else [acc].

(** [strings.Fields] *)
Fixpoint fields_go (acc s : string) : list string :=
  match s with
  | EmptyString => flush acc
  | String c1 s1 =>
      if ascii_space c1 then flush acc ++ fields_go "" s1
      else match s1 with
           | String c2 s2 =>
               if space2 c1 c2 then flush acc ++ fields_go "" s2
               else match s2 with
                    | String c3 s3 =>
                        if space3 c1 c2 c3 then flush acc ++ fields_go "" s3
                        else fields_go (acc +:+ String c1 "")%string s1
                    | EmptyString => fields_go (acc +:+ String c1 "")%string s1
                    end
           | EmptyString => flush (acc +:+ String c1 "")%string
           end
  end.
Definition Fields (s : string) : list string := fields_go "" s.

(** [strings.Trim] for a set of ASCII bytes. *)
Fixpoint trim_left (cut : ascii -> bool) (s : string) : string :=
  match s with
  | String c s' => if cut c then trim_left cut s' else s
  | EmptyString => EmptyString
  end.
Definition Trim (cut : ascii -> bool) (s : string) : string :=
  String.rev (trim_left cut (String.rev (trim_left cut s))).

Definition isAllDigits (s : string) : bool := negb (String.eqb s "") && all_bytes is_digit s.

(** The first eight digits in a row. *)
Fixpoint digit_window (s : string) : option string :=
  if (8 <=? String.length s)%nat && isAllDigits (stake 8 s) then Some (stake 8 s)
  else match s with String _ s' => digit_window s' | EmptyString => None end.

Fixpoint date_code (s : string) : option string :=
  if (8 <? String.length s)%nat then
    match digit_window s with
    | Some d => Some d
    | None => match s with String _ s' => date_code s' | EmptyString => None end
    end
  else None.

Section Modules.
Context `{GoUnicode}.

Definition is_version_word (part : string) : bool :=
  let lp := ToLower part in
  bool_decide (lp ∈ ["rev"; "revision"; "version"]) || HasPrefix lp "rev".

Definition punctuation (c : ascii) : bool := bool_decide (c ∈ [":"; ";"; "("; ")"]%char).

(** The token after a word for a version. *)
Fixpoint version_token (parts : list string) : option string :=
  match parts with
  | part :: ((next :: _) as rest) =>
      if is_version_word part then
        let candidate := Trim punctuation next in
        if String.eqb candidate "" then version_token rest else Some candidate
      else version_token rest
  | _ => None
  end.

Definition firmware_in (s : string) : option string :=
  let ls := ToLower s in
  if negb (existsb (Contains ls) ["firmware"; "datecode"; "fw"; "rev"; "revision"]) then None
  else
    match (idx ← Index ls "firmware datecode"; date_code (sdrop idx s)) with
    | Some d => Some d
    | None => version_token (Fields s)
    end.

Fixpoint extractFirmwareVersion (pdus : list SnmpPDU) : string :=
  match pdus with
  | [] => ""
  | pdu :: rest =>
      match Value pdu with
      | VBytes s | VString s => match firmware_in s with Some v => v | None => extractFirmwareVersion rest end
      | _ => extractFirmwareVersion rest
      end
  end.

(** *** Generic *)

Definition generic_Parse (supplies : gmap string float64) (pdus : list SnmpPDU) : metrics :=
  with_supplies supplies (put_total (getOIDIntIndexed pdus life_count) ∅).

(** *** HP *)

Definition hp_Parse (supplies : gmap string float64) (pdus : list SnmpPDU) : metrics :=
  let get n := getOIDIntIndexed pdus (hp n) in
  let colorPages := get "4.4.7.0" in
  let monoPages := get "4.4.8.0" in
  let adfScans := get "4.1.2.0" in
  let flatbedScans := get "4.1.1.0" in
  let faxSent := get "4.2.1.0" in
  let faxReceived := get "4.2.2.0" in
  let faxAdfScans := get "3.7.1.31.0" in
  let faxFlatbedScans := get "3.7.1.36.0" in
  let m := put_positive "color_pages" colorPages ∅ in
  let m := put_positive "mono_pages" monoPages m in
  let finalTotal := first_positive
    [get "1.4.1.1"; getOIDIntIndexed pdus life_count; iadd colorPages monoPages] in
  let m := put_total finalTotal m in
  let m := put_positive "copy_pages" (get "4.1.3.0") m in
  let scanToHostTotal := iadd adfScans flatbedScans in
  let faxScanTotal := iadd faxAdfScans faxFlatbedScans in
  let m := put_positive "scan_to_host_adf" adfScans m in
  let m := put_positive "scan_to_host_flatbed" flatbedScans m in
  let m := put_positive "scan_count" (iadd scanToHostTotal faxScanTotal) m in
  let m := put_positive "scan_to_host_total" scanToHostTotal m in
  let fax := (0 <? faxSent)%Z || (0 <? faxReceived)%Z in
  let m := put_when fax "fax_pages" (MInt (iadd faxSent faxReceived)) m in
  let m := put_when fax "fax_sent" (MInt faxSent) m in
  let m := put_when fax "fax_received" (MInt faxReceived) m in
  let m := put_positive "fax_scans" faxScanTotal m in
  let m := put_positive "duplex_sheets" (get "4.4.6.0") m in
  let m := put_positive "jam_events" (get "3.9.0") m in
  let m := put_positive "jam_events_total" (get "4.1.2.34.0") m in
  let m := put_positive "scanner_jam_events" (get "2.2.1.43.0") m in
  let m := put_positive "scan_adf_to_host_images" (get "2.2.1.45.0") m in
  let m := put_positive "scan_flatbed_to_host_images" (get "2.2.1.73.0") m in
  let m := put_positive "scan_adf_images" (get "2.2.1.44.0") m in
  let m := put_positive "scan_flatbed_images" (get "2.2.1.74.0") m in
  let m := put_positive "fax_scan_adf" faxAdfScans m in
  let m := put_positive "fax_scan_flatbed" faxFlatbedScans m in
  let m := put_positive "fax_impressions" (get "3.7.1.32.0") m in
  let fw := extractFirmwareVersion pdus in
  let m := put_when (negb (String.eqb fw "")) "firmware_version" (MText fw) m in
  with_supplies supplies m.

(** *** Kyocera *)

Definition kyocera_Parse (supplies : gmap string float64) (pdus : list SnmpPDU) : metrics :=
  let get := getOIDIntIndexed pdus in
  let printerBW := get Oids.KyoceraPrintBW in
  let printerColor := get Oids.KyoceraPrintColor in
  let copyBW := get Oids.KyoceraCopyBW in
  let copyColor := get Oids.KyoceraCopyColor in
  let faxBW := get Oids.KyoceraFaxBW in
  let copyScan := get Oids.KyoceraCopyScans in
  let faxScan := get Oids.KyoceraFaxScans in
  let otherScan := get Oids.KyoceraOtherScans in
  let m := put_positive "print_mono_pages" printerBW ∅ in
  let m := put_positive "print_color_pages" printerColor m in
  let m := put_when ((0 <? printerBW)%Z || (0 <? printerColor)%Z) "print_pages"
             (MInt (iadd printerBW printerColor)) m in
  let copied := (0 <? copyBW)%Z || (0 <? copyColor)%Z in
  let m := put_when copied "copy_pages" (MInt (iadd copyBW copyColor)) m in
  let m := put_when copied "copy_mono_pages" (MInt copyBW) m in
  let m := put_when copied "copy_color_pages" (MInt copyColor) m in
  let m := put_positive "fax_pages" faxBW m in
  let m := put_positive "fax_mono_pages" faxBW m in
  let monoTotal := iadd (iadd printerBW copyBW) faxBW in
  let colorTotal := iadd printerColor copyColor in
  let m := put_positive "mono_pages" monoTotal m in
  let m := put_positive "color_pages" colorTotal m in
  let counted := first_positive [get Oids.KyoceraTotalPrinted; get life_count] in
  let m := if (0 <? counted)%Z then put_total counted m
           else if (0 <? monoTotal)%Z || (0 <? colorTotal)%Z then
             <["total_pages" := MInt (iadd monoTotal colorTotal)]>
               (<["page_count" := MInt (iadd monoTotal colorTotal)]> m)
           else m in
  let m := put_positive "copy_scans" copyScan m in
  let m := put_positive "fax_scans" faxScan m in
  let m := put_positive "other_scans" otherScan m in
  let m := put_positive "scan_count" (iadd (iadd copyScan faxScan) otherScan) m in
  with_supplies supplies m.

(** *** Epson *)

Definition epson_colors : list (string * string) :=
  [(".1", "ink_black"); (".2", "ink_cyan"); (".3", "ink_magenta"); (".4", "ink_yellow");
   (".5", "ink_light_cyan"); (".6", "ink_light_magenta")].

(** A level is put only from 0 to 100; a later object of a color replaces an earlier. *)
Definition epson_ink (result : metrics) (pdu : SnmpPDU) : metrics :=
  let oid := normalizeOID (Name pdu) in
  if HasPrefix oid "1.3.6.1.4.1.1248.1.2.2.2.1.1.3.1." then
    match (list_to_map epson_colors : gmap string string)
            !! TrimPrefix oid "1.3.6.1.4.1.1248.1.2.2.2.1.1.3.1" with
    | Some name =>
        let level := coerceToInt (Value pdu) in
        if (0 <=? level)%Z && (level <=? 100)%Z then <[name := MFloat (float_of_Z level)]> result else result
    | None => result
    end
  else result.

Definition parseEpsonSupplies (pdus : list SnmpPDU) : metrics := foldl epson_ink ∅ pdus.

(** The count in black and white, or what is left of the total. *)
Definition put_mono (k : string) (bw total color : Z) (m : metrics) : metrics :=
  if (0 <? bw)%Z then <[k := MInt bw]> m
  else put_when ((0 <? total)%Z && (0 <? color)%Z && (0 <? wrap64 (total - color))%Z) k
         (MInt (wrap64 (total - color))) m.

(** [or_else_zero]: the legacy counter when the first is 0. *)
Definition or_legacy (n legacy : Z) : Z := if (n =? 0)%Z then legacy else n.

Definition epson_Parse (supplies : gmap string float64) (pdus : list SnmpPDU) : metrics :=
  let get := getOIDIntIndexed pdus in
  let of_function column n := get (oid_child column n) in
  let totalPages := or_legacy (get Oids.EpsonTotalPages) (get Oids.EpsonTotalPagesLegacy) in
  let colorPages := get Oids.EpsonColorPages in
  let monoPages := or_legacy (get Oids.EpsonMonoPages) (get Oids.EpsonMonoPagesLegacy) in
  let m := put_total totalPages ∅ in
  let m := put_positive "mono_pages" monoPages m in
  let m := put_positive "color_pages" colorPages m in
  let printTotal := of_function Oids.EpsonFunctionTotalCount "1" in
  let printColor := of_function Oids.EpsonFunctionColorCount "1" in
  let m := put_positive "print_pages" printTotal m in
  let m := put_positive "print_color_pages" printColor m in
  let m := put_mono "print_mono_pages" (of_function Oids.EpsonFunctionBWCount "1") printTotal printColor m in
  let copyTotal := of_function Oids.EpsonFunctionTotalCount "2" in
  let copyColor := of_function Oids.EpsonFunctionColorCount "2" in
  let m := put_positive "copy_pages" copyTotal m in
  let m := put_positive "copy_scans" copyTotal m in
  let m := put_positive "copy_color_pages" copyColor m in
  let m := put_mono "copy_mono_pages" (of_function Oids.EpsonFunctionBWCount "2") copyTotal copyColor m in
  let faxTotal := of_function Oids.EpsonFunctionTotalCount "3" in
  let m := put_positive "fax_pages" faxTotal m in
  let m := put_positive "fax_mono_pages" faxTotal m in
  let m := put_positive "fax_mono_pages" (of_function Oids.EpsonFunctionBWCount "3") m in
  let scanTotal := of_function Oids.EpsonFunctionTotalCount "4" in
  let m := put_positive "other_scans" scanTotal m in
  let byFunction := iadd (iadd printTotal copyTotal) faxTotal in
  let m := if (totalPages =? 0)%Z then put_total byFunction m else m in
  let m := put_positive "scan_count" (iadd copyTotal scanTotal) m in
  let m := with_supplies supplies m in
  let m := m ∪ parseEpsonSupplies pdus in
  match m !! "page_count" with
  | Some _ => m
  | None => put_total (get life_count) m
  end.
End Modules.

(** ** The supply table: what is proved *)

Section Supplies.
Context `{GoUnicode}.
Implicit Types (e : SupplyEntry) (p : float64).

Definition supply_key e : string :=
  if String.eqb (supply_metric e) "" then raw_supply_key e else supply_metric e.

(** What an entry may add. *)
Definition reported e : bool :=
  supply_accepted e && (negb (String.eqb (supply_metric e) "") || fleb (float_of_Z 0) (supply_percentage e)).

Lemma raw_key_prefix e : HasPrefix (raw_supply_key e) "supply_" = true.
Proof. apply HasPrefix_app. Qed.

Lemma supply_metric_names e : supply_metric e ∈ supply_names.
Proof.
  unfold supply_metric. destruct (_ && _); [|apply NormalizeDescription_names].
  unfold supply_names. repeat constructor.
Qed.

(** Either the name of a known supply, or a name with the prefix of the unknown ones. *)
Definition is_supply_key (k : string) : bool := bool_decide (k ∈ supply_names) || HasPrefix k "supply_".

Lemma supply_key_kind e : is_supply_key (supply_key e) = true.
Proof.
  unfold is_supply_key, supply_key. destruct (String.eqb _ _).
  - by rewrite raw_key_prefix, orb_true_r.
  - by rewrite bool_decide_true by apply supply_metric_names.
Qed.

(** One step of the loop, by the key it is about. *)
Definition kept (result : gmap string float64) e : bool :=
  negb (String.eqb (supply_metric e) "") && keeps_existing (result !! supply_key e) (supply_percentage e).

Lemma add_supply_eq result e :
  add_supply result e =
    if reported e && negb (kept result e) then <[supply_key e := supply_percentage e]> result else result.
Proof.
  unfold add_supply, reported, kept, supply_key.
  destruct (supply_accepted e); simpl; [|done].
  destruct (String.eqb (supply_metric e) ""); simpl.
  - by destruct (fleb _ _).
  - by destruct (keeps_existing _ _).
Qed.

Lemma kept_some result e : kept result e = true -> is_Some (result !! supply_key e).
Proof.
  unfold kept, keeps_existing. destruct (result !! supply_key e); [by eexists|].
  by rewrite andb_false_r.
Qed.

(** What is in the result after the entries [es]. *)
Lemma supplies_sound_from es result k p :
  foldl add_supply result es !! k = Some p ->
  result !! k = Some p \/
  exists e, e ∈ es /\ reported e = true /\ supply_key e = k /\ supply_percentage e = p.
Proof.
  revert result. induction es as [|e es IH]; intros result; cbn [foldl]; [by left|].
  intros [Hr|(e' & Hin & Hr)]%IH; [|by right; exists e'; split; [by right|]].
  rewrite add_supply_eq in Hr. case_match eqn:Hb; [|by left].
  apply andb_true_iff in Hb as [Hrep _].
  apply lookup_insert_Some in Hr as [[Hk Hp]|[_ Hr]]; [|by left].
  right. exists e. by split; [left|].
Qed.

Lemma add_supply_key result e k :
  is_Some (add_supply result e !! k) <-> is_Some (result !! k) \/ (reported e = true /\ supply_key e = k).
Proof.
  rewrite add_supply_eq. destruct (reported e) eqn:Hrep; simpl; [|naive_solver].
  destruct (kept result e) eqn:Hk; simpl.
  - apply kept_some in Hk. split; [by left|]. by intros [|[_ <-]].
  - rewrite lookup_insert_is_Some'. naive_solver.
Qed.

Lemma supplies_keys_from es result k :
  is_Some (foldl add_supply result es !! k) <->
  is_Some (result !! k) \/ exists e, e ∈ es /\ reported e = true /\ supply_key e = k.
Proof.
  revert result. induction es as [|e es IH]; intros result; cbn [foldl].
  - split; [by left|]. intros [|(e & He & _)]; [done|]. by apply not_elem_of_nil in He.
  - rewrite IH, add_supply_key. setoid_rewrite elem_of_cons. naive_solver.
Qed.

(** A level that is known not to be full stays so. *)
Definition part_used p : bool := fleb (float_of_Z 0) p && negb (is_100 p).

Lemma part_used_from es result k p :
  (forall e, e ∈ es -> reported e = true -> supply_key e = k ->
     fleb (float_of_Z 0) (supply_percentage e) = true) ->
  k ∈ supply_names -> k <> "" ->
  result !! k = Some p -> part_used p = true ->
  exists q, foldl add_supply result es !! k = Some q /\ part_used q = true.
Proof.
  intros Hknown Hk Hk0. revert result p.
  induction es as [|e es IH]; intros result p Hr Hp; cbn [foldl]; [by exists p|].
  assert (Hes : forall e', e' ∈ es -> reported e' = true -> supply_key e' = k ->
    fleb (float_of_Z 0) (supply_percentage e') = true).
  { intros e' He'. apply Hknown. by right. }
  destruct (decide (supply_key e = k)) as [He|He].
  2:{ apply (IH Hes _ p); [|done]. rewrite add_supply_eq. case_match; [|done].
      by rewrite lookup_insert_ne. }
  rewrite add_supply_eq. case_match eqn:Hb; [|by apply (IH Hes _ p)].
  apply (IH Hes _ (supply_percentage e)); [by rewrite He, lookup_insert_eq|].
  apply andb_true_iff in Hb as [Hrep Hb].
  assert (He0 : fleb (float_of_Z 0) (supply_percentage e) = true) by (apply Hknown; [by left|done|done]).
  unfold part_used. rewrite He0. simpl.
  destruct (is_100 (supply_percentage e)) eqn:H100; [|done].
  apply andb_true_iff in Hp as [Hp0 Hp].
  unfold kept, keeps_existing in Hb.
  rewrite He, Hr, H100, Hp, Hp0, andb_true_r in Hb. rewrite negb_involutive in Hb. apply String.eqb_eq in Hb.
  exfalso. unfold supply_key in He. rewrite Hb in He. simpl in He. subst k.
  pose proof (raw_key_prefix e) as Hpre.
  unfold supply_names in Hk. repeat (apply elem_of_cons in Hk as [Hk|Hk]; [by rewrite Hk in Hpre|]).
  by apply not_elem_of_nil in Hk.
Qed.

Lemma part_used_wins es1 e0 es2 :
  reported e0 = true -> supply_key e0 ∈ supply_names -> supply_key e0 <> "" ->
  part_used (supply_percentage e0) = true ->
  (forall e, e ∈ es2 -> reported e = true -> supply_key e = supply_key e0 ->
     fleb (float_of_Z 0) (supply_percentage e) = true) ->
  exists q, foldl add_supply ∅ (es1 ++ e0 :: es2) !! supply_key e0 = Some q /\ part_used q = true.
Proof.
  intros Hrep Hk Hk0 Hpart Hknown. rewrite foldl_app. cbn [foldl].
  apply (part_used_from _ _ _ (supply_percentage e0)); [done|done|done| |done].
  apply andb_true_iff in Hpart as [_ H100]. apply negb_true_iff in H100.
  rewrite add_supply_eq, Hrep. unfold kept, keeps_existing.
  rewrite H100. destruct (foldl _ _ es1 !! _); simpl; rewrite andb_false_r; apply lookup_insert_eq.
Qed.

Lemma NoDup_fmap_inj {A B} (f : A -> B) l x y :
  NoDup (f <$> l) -> x ∈ l -> y ∈ l -> f x = f y -> x = y.
Proof.
  intros Hnd [i Hi]%list_elem_of_lookup [j Hj]%list_elem_of_lookup Hf.
  assert (i = j) as ->; [|congruence].
  eapply (NoDup_lookup _ _ _ (f x) Hnd); rewrite list_lookup_fmap; [by rewrite Hi|by rewrite Hj, Hf].
Qed.

Lemma supplies_order_from es es' :
  es ≡ₚ es' -> NoDup (supply_key <$> filter (fun e => reported e = true) es) ->
  foldl add_supply ∅ es = foldl add_supply ∅ es'.
Proof.
  intros Hp Hnd. apply map_eq. intros k.
  assert (Hs : forall l p, foldl add_supply ∅ l !! k = Some p ->
    exists e, e ∈ l /\ reported e = true /\ supply_key e = k /\ supply_percentage e = p).
  { intros l p [Hl|Hl]%supplies_sound_from; [by rewrite lookup_empty in Hl | done]. }
  assert (Hiff : is_Some (foldl add_supply ∅ es !! k) <-> is_Some (foldl add_supply ∅ es' !! k)).
  { rewrite !supplies_keys_from. by setoid_rewrite Hp. }
  destruct (foldl add_supply ∅ es !! k) as [p|] eqn:He; destruct (foldl add_supply ∅ es' !! k) as [p'|] eqn:He'.
  - apply Hs in He as (e & Hin & Hr & Hk & <-), He' as (e' & Hin' & Hr' & Hk' & <-).
    rewrite <- Hp in Hin'. do 2 f_equal.
    eapply NoDup_fmap_inj; [exact Hnd | | | congruence]; by apply list_elem_of_filter.
  - destruct (proj1 Hiff) as [? [=]]. by eexists.
  - destruct (proj2 Hiff) as [? [=]]. by eexists.
  - done.
Qed.

(** C32: the supply table. Every level that is reported is the percentage of an accepted row
    under the name of a known supply, or under [supply_] for an unknown one, and every row
    that can be reported has a level under its name. After a row of a known supply whose
    level is known and not 100, a full placeholder of the same name never hides it: the level
    reported is known and not 100 as long as no row of that name with an unknown level is
    visited later. (Such a row does replace the known level, and a placeholder after it then
    stands: [placeholder_hides_part_used].) The names do not depend on the order in which the
    rows are visited, and neither do the levels when no two rows share a name. *)
Theorem supply_levels_reported (order : list (string * SupplyEntry)) :
  (forall k p, parseSuppliesTable order !! k = Some p ->
     is_supply_key k = true /\
     exists e, e ∈ order.*2 /\ reported e = true /\ supply_key e = k /\ supply_percentage e = p) /\
  (forall e, e ∈ order.*2 -> reported e = true -> is_Some (parseSuppliesTable order !! supply_key e)) /\
  (forall es1 e0 es2, order.*2 = es1 ++ e0 :: es2 ->
     reported e0 = true -> supply_key e0 ∈ supply_names -> supply_key e0 <> "" ->
     part_used (supply_percentage e0) = true ->
     (forall e, e ∈ es2 -> reported e = true -> supply_key e = supply_key e0 ->
        fleb (float_of_Z 0) (supply_percentage e) = true) ->
     exists q, parseSuppliesTable order !! supply_key e0 = Some q /\ part_used q = true) /\
  (forall order', order ≡ₚ order' ->
     (forall k, is_Some (parseSuppliesTable order !! k) <-> is_Some (parseSuppliesTable order' !! k)) /\
     (NoDup (supply_key <$> filter (fun e => reported e = true) order.*2) ->
      parseSuppliesTable order = parseSuppliesTable order')).
Proof.
  unfold parseSuppliesTable. split_and!.
  - intros k p [Hk|(e & He & Hr & <- & <-)]%supplies_sound_from; [by rewrite lookup_empty in Hk|].
    split; [apply supply_key_kind | by exists e].
  - intros e He Hr. apply supplies_keys_from. right. by exists e.
  - intros es1 e0 es2 -> Hr Hk Hk0 Hpart Hknown. by apply part_used_wins.
  - intros order' Hp. split.
    + intros k. rewrite !supplies_keys_from. by setoid_rewrite Hp.
    + apply supplies_order_from. by rewrite Hp.
Qed.
End Supplies.

(** A level that is not known replaces one that is, whichever row is visited last. *)
Lemma unknown_level_replaces `{GoUnicode} :
  let row level := {| Descr := "Black Toner"; Level := level; MaxCapacity := 100; SupplyClass := 3; SupplyType := 3 |} in
  parseSuppliesTable [("1", row 40%Z); ("2", row (-2)%Z)] !! "toner_black" = Some (float_of_Z (-1)) /\
  parseSuppliesTable [("2", row (-2)%Z); ("1", row 40%Z)] !! "toner_black" = Some (supply_percentage (row 40%Z)).
Proof. split; vm_compute; reflexivity. Qed.

(** So a full placeholder hides a part-used level after all, when a row of the same name with
    an unknown level is visited between the two. *)
Lemma placeholder_hides_part_used `{GoUnicode} :
  let row level := {| Descr := "Black Toner"; Level := level; MaxCapacity := 100; SupplyClass := 3; SupplyType := 3 |} in
  parseSuppliesTable [("1", row 40%Z); ("2", row (-2)%Z); ("3", row 100%Z)] !! "toner_black" =
    Some (supply_percentage (row 100%Z)) /\
  is_100 (supply_percentage (row 100%Z)) = true /\ part_used (supply_percentage (row 40%Z)) = true.
Proof. split_and!; vm_compute; reflexivity. Qed.

(** ** Paper trays: what is proved *)

Section Trays.
Implicit Types (x : PaperTray) (l : list PaperTray).

Definition tray_le x y : Prop := (TrayIndex x <= TrayIndex y)%Z.

Lemma exchange_spec x l m r :
  exchange x l = (m, r) ->
  m :: r ≡ₚ x :: l /\ Forall (tray_le m) (x :: l) /\ length r = length l.
Proof.
  revert x m r. induction l as [|y l IH]; intros x m r; simpl.
  - intros [= -> <-]. split_and!; [done| |done]. repeat constructor. unfold tray_le. lia.
  - unfold tray_le. destruct (TrayIndex y <? TrayIndex x)%Z eqn:Hlt;
      destruct (exchange _ l) as [m' r'] eqn:He; intros [= <- <-];
      apply IH in He as (Hp & Hm & Hlen); apply Forall_cons in Hm as [Hhd Hm]; unfold tray_le in *.
    + split_and!; [by rewrite perm_swap, Hp, perm_swap| |simpl; lia].
      repeat constructor; [lia|lia|done].
    + split_and!; [by rewrite perm_swap, Hp, perm_swap| |simpl; lia].
      repeat constructor; [lia|lia|done].
Qed.

Lemma exchange_sort_spec n l :
  length l = n -> exchange_sort n l ≡ₚ l /\ StronglySorted tray_le (exchange_sort n l).
Proof.
  revert l. induction n as [|n IH]; intros [|x l] Hl; try done; [split; [done|constructor]|].
  simpl. destruct (exchange x l) as [m r] eqn:He. apply exchange_spec in He as (Hp & Hm & Hlen).
  destruct (IH r) as [Hpr Hs]; [simpl in Hl; lia|]. split; [by rewrite Hpr|].
  constructor; [done|]. rewrite Hpr. rewrite <- Hp in Hm. by apply Forall_cons in Hm as [_ Hm].
Qed.

(** The list sorted by distinct indices is determined by its elements. *)
Lemma sorted_trays_unique l l' :
  StronglySorted tray_le l -> StronglySorted tray_le l' -> NoDup (TrayIndex <$> l) -> l ≡ₚ l' -> l = l'.
Proof.
  intros Hs. revert l'. induction Hs as [|x l Hs IH Hx]; intros l' Hs' Hnd Hp.
  { symmetry. by apply Permutation_nil. }
  destruct Hs' as [|x' l' Hs' Hx']; [by symmetry in Hp; apply Permutation_nil_cons in Hp|].
  assert (x = x') as <-.
  { assert (x' ∈ x :: l) as Hin' by (rewrite Hp; by left).
    assert (x ∈ x' :: l') as Hin by (rewrite <- Hp; by left).
    eapply (NoDup_fmap_inj TrayIndex); [done|by left|done|].
    apply elem_of_cons in Hin' as [->|Hin']; [done|]. apply elem_of_cons in Hin as [->|Hin]; [done|].
    rewrite Forall_forall in Hx, Hx'. specialize (Hx _ Hin'). specialize (Hx' _ Hin).
    unfold tray_le in *. lia. }
  f_equal. apply IH; [done| |by apply Permutation_cons_inv in Hp].
  by apply NoDup_cons in Hnd as [_ Hnd].
Qed.

Lemma sorted_strictly l :
  StronglySorted tray_le l -> NoDup (TrayIndex <$> l) -> StronglySorted Z.lt (TrayIndex <$> l).
Proof.
  induction 1 as [|x l Hs IH Hx]; intros Hnd; simpl; [constructor|].
  apply NoDup_cons in Hnd as [Hx' Hnd]. constructor; [by apply IH|].
  apply Forall_fmap, Forall_forall. intros y Hy. rewrite Forall_forall in Hx.
  specialize (Hx y Hy). unfold tray_le in Hx. simpl.
  assert (TrayIndex x <> TrayIndex y); [|lia]. intros He. apply Hx'. rewrite He. by apply list_elem_of_fmap_2.
Qed.

(** Only trays with a positive number are entered. *)
Lemma tray_cell_positive oid column tray : tray_cell oid = Some (column, tray) -> (0 < tray)%Z.
Proof.
  unfold tray_cell. intros Hc. repeat case_match; try done.
  all: injection Hc as <- <-; rewrite Z.leb_gt in *; done.
Qed.

Lemma tray_entries_positive pdus : map_Forall (fun i _ => 0 < i)%Z (tray_entries pdus).
Proof.
  unfold tray_entries. generalize (map_Forall_empty (M := gmap Z) (A := TrayEntry) (fun i _ => 0 < i)%Z).
  generalize (∅ : gmap Z TrayEntry).
  induction pdus as [|pdu pdus IH]; intros entries He; simpl; [done|]. apply IH.
  destruct (tray_cell _) as [[column tray]|] eqn:Hc; [|done].
  apply map_Forall_insert_2; [by eapply tray_cell_positive | done].
Qed.

Lemma paper_tray_index entry : TrayIndex (paper_tray entry) = entry.1.
Proof. by destruct entry. Qed.

Lemma trays_indices (order : list (Z * TrayEntry)) : TrayIndex <$> map paper_tray order = order.*1.
Proof. induction order as [|[i e] order IH]; [done | exact (f_equal (cons i) IH)]. Qed.

Lemma ParsePaperTrays_sorted pdus order :
  order ≡ₚ map_to_list (tray_entries pdus) ->
  ParsePaperTrays order ≡ₚ map paper_tray (map_to_list (tray_entries pdus)) /\
  StronglySorted tray_le (ParsePaperTrays order) /\ NoDup (TrayIndex <$> ParsePaperTrays order).
Proof.
  intros Ho. destruct (exchange_sort_spec (length order) (map paper_tray order)) as [Hp Hs];
    [by rewrite length_map|].
  fold (ParsePaperTrays order) in Hp, Hs. split_and!; [by rewrite Hp, Ho | done |].
  rewrite Hp, trays_indices, Ho. apply NoDup_fst_map_to_list.
Qed.

Lemma ParsePaperTrays_order pdus order order' :
  order ≡ₚ map_to_list (tray_entries pdus) -> order' ≡ₚ map_to_list (tray_entries pdus) ->
  ParsePaperTrays order = ParsePaperTrays order'.
Proof.
  intros (Hp & Hs & Hnd)%ParsePaperTrays_sorted (Hp' & Hs' & _)%ParsePaperTrays_sorted.
  apply sorted_trays_unique; [done..|]. by rewrite Hp, Hp'.
Qed.

(** The paper trays. Whatever the order in which the entries are visited, the result
    has one tray for each tray number that the answer mentions, the numbers are positive
    and increase from one tray to the next, and the result is the same list for every
    order. *)
Theorem paper_trays_in_order pdus order :
  order ≡ₚ map_to_list (tray_entries pdus) ->
  StronglySorted Z.lt (TrayIndex <$> ParsePaperTrays order) /\
  ParsePaperTrays order ≡ₚ map paper_tray (map_to_list (tray_entries pdus)) /\
  Forall (fun x => 0 < TrayIndex x)%Z (ParsePaperTrays order) /\
  forall order', order' ≡ₚ order -> ParsePaperTrays order' = ParsePaperTrays order.
Proof.
  intros Ho. pose proof (ParsePaperTrays_sorted _ _ Ho) as (Hp & Hs & Hnd). split_and!.
  - by apply sorted_strictly.
  - done.
  - rewrite Hp. apply Forall_fmap, Forall_forall. intros [i e] Hin. simpl.
    apply elem_of_map_to_list in Hin. by apply (tray_entries_positive pdus _ e).
  - intros o Hpo. apply (ParsePaperTrays_order pdus); by rewrite ?Hpo.
Qed.
End Trays.

(** The trays of an answer that lists the second tray first. *)
Definition tray_answer : list SnmpPDU :=
  [{| Name := ".1.3.6.1.2.1.43.8.2.1.10.1.2"; Value := VInt 30%Z |}; {| Name := "1.3.6.1.2.1.43.8.2.1.9.1.2"; Value := VInt 250%Z |};
   {| Name := "1.3.6.1.2.1.43.8.2.1.10.1.1"; Value := VInt (-3)%Z |}; {| Name := "1.3.6.1.2.1.43.8.2.1.13.1.1"; Value := VString " Bypass " |}].

Lemma paper_trays_in_order_witness :
  StronglySorted Z.lt (TrayIndex <$> ParsePaperTrays (map_to_list (tray_entries tray_answer))) /\
  (fun x => (TrayName x, TrayStatus x, LevelPercent x)) <$>
    ParsePaperTrays (map_to_list (tray_entries tray_answer)) =
    [("Bypass", "low", 10%Z); ("Tray 2", "medium", 12%Z)].
Proof.
  split; [|vm_compute; reflexivity].
  apply (paper_trays_in_order tray_answer (map_to_list (tray_entries tray_answer))). reflexivity.
Defined.

(** ** Counters: what is proved *)

Definition positive (n : Z) : option MetricValue := if (0 <? n)%Z then Some (MInt n) else None.

Lemma put_positive_eq k n m : m !! k = None -> put_positive k n m !! k = positive n.
Proof. intros Hm. unfold put_positive, positive. destruct (0 <? n)%Z; [apply lookup_insert_eq | done]. Qed.

Lemma put_positive_ne k k' n m : k <> k' -> put_positive k n m !! k' = m !! k'.
Proof. intros Hk. unfold put_positive. destruct (0 <? n)%Z; [by apply lookup_insert_ne | done]. Qed.

Lemma put_when_ne k k' b v m : k <> k' -> put_when b k v m !! k' = m !! k'.
Proof. intros Hk. unfold put_when. destruct b; [by apply lookup_insert_ne | done]. Qed.

Lemma put_mono_ne k k' bw total color m : k <> k' -> put_mono k bw total color m !! k' = m !! k'.
Proof. intros Hk. unfold put_mono. destruct (0 <? bw)%Z; [by apply lookup_insert_ne | by apply put_when_ne]. Qed.

Lemma put_total_ne k n m : k <> "page_count" -> k <> "total_pages" -> put_total n m !! k = m !! k.
Proof. intros. unfold put_total. by rewrite !put_positive_ne. Qed.

(** The keys under which the pages of a device's life are reported. *)
Definition total_key (k : string) : Prop := k = "page_count" \/ k = "total_pages".

Lemma put_total_eq k n m : total_key k -> m !! k = None -> put_total n m !! k = positive n.
Proof.
  intros [->| ->] Hm; unfold put_total; [rewrite put_positive_ne by done|];
    rewrite put_positive_eq; try done. by rewrite put_positive_ne.
Qed.

#[local] Hint Rewrite put_positive_ne put_when_ne put_mono_ne using done : put.

(** No supply is reported under the name of a counter. *)
Lemma with_supplies_other `{GoUnicode} order m k :
  is_supply_key k = false -> with_supplies (parseSuppliesTable order) m !! k = m !! k.
Proof.
  intros Hk. unfold with_supplies. rewrite lookup_union_r; [done|].
  rewrite lookup_fmap. destruct (parseSuppliesTable order !! k) as [p|] eqn:Hp; [|done].
  unfold parseSuppliesTable in Hp. apply supplies_sound_from in Hp as [Hp|(e & _ & _ & He & _)].
  { by rewrite lookup_empty in Hp. }
  pose proof (supply_key_kind e) as Hkind. by rewrite He, Hk in Hkind.
Qed.

Lemma with_supplies_total `{GoUnicode} order m k :
  total_key k -> with_supplies (parseSuppliesTable order) m !! k = m !! k.
Proof. intros Hk. apply with_supplies_other. by destruct Hk as [-> | ->]. Qed.

Lemma epson_supplies_total pdus k : total_key k -> parseEpsonSupplies pdus !! k = None.
Proof.
  intros Hk. unfold parseEpsonSupplies. generalize (lookup_empty (M := gmap string) (A := MetricValue) k).
  generalize (∅ : metrics). induction pdus as [|pdu pdus IH]; intros m Hm; simpl; [done|]. apply IH.
  unfold epson_ink. destruct (HasPrefix _ _); [|done].
  destruct (_ !! TrimPrefix _ _) as [name|] eqn:Hname; [|done].
  destruct (_ && _); [|done]. rewrite lookup_insert_ne; [done|]. intros ->.
  apply elem_of_list_to_map_2 in Hname. unfold epson_colors in Hname.
  repeat (apply elem_of_cons in Hname as [[= _ ->]|Hname]; [by destruct Hk|]).
  by apply not_elem_of_nil in Hname.
Qed.

Lemma generic_total `{GoUnicode} order pdus k :
  total_key k ->
  generic_Parse (parseSuppliesTable order) pdus !! k = positive (getOIDIntIndexed pdus life_count).
Proof. intros Hk. unfold generic_Parse. by rewrite with_supplies_total, put_total_eq. Qed.

Lemma hp_total `{GoUnicode} order pdus k :
  total_key k ->
  hp_Parse (parseSuppliesTable order) pdus !! k =
    positive (first_positive
      [getOIDIntIndexed pdus (hp "1.4.1.1"); getOIDIntIndexed pdus life_count;
       iadd (getOIDIntIndexed pdus (hp "4.4.7.0")) (getOIDIntIndexed pdus (hp "4.4.8.0"))]).
Proof.
  intros Hk. unfold hp_Parse. rewrite with_supplies_total by done.
  destruct Hk as [-> | ->]; autorewrite with put; rewrite put_total_eq; try done; try by constructor.
  all: by autorewrite with put.
Qed.

Lemma total_ne k k' :
  total_key k -> negb (String.eqb k' "page_count") && negb (String.eqb k' "total_pages") = true -> k' <> k.
Proof. intros Hk Hb ->. by destruct Hk as [-> | ->]. Qed.

(** Looks past what is put under other names than those of the total. *)
Ltac skip_puts :=
  repeat first [ rewrite put_positive_ne by (by apply total_ne)
               | rewrite put_when_ne by (by apply total_ne)
               | rewrite put_mono_ne by (by apply total_ne) ].

(** The total that the Kyocera counters give when no total is reported. *)
Definition kyocera_sums (pdus : list SnmpPDU) : option MetricValue :=
  let get := getOIDIntIndexed pdus in
  let mono := iadd (iadd (get Oids.KyoceraPrintBW) (get Oids.KyoceraCopyBW)) (get Oids.KyoceraFaxBW) in
  let color := iadd (get Oids.KyoceraPrintColor) (get Oids.KyoceraCopyColor) in
  if (0 <? mono)%Z || (0 <? color)%Z then Some (MInt (iadd mono color)) else None.

Lemma kyocera_total `{GoUnicode} order pdus k :
  total_key k ->
  kyocera_Parse (parseSuppliesTable order) pdus !! k =
    let counted := first_positive [getOIDIntIndexed pdus Oids.KyoceraTotalPrinted; getOIDIntIndexed pdus life_count] in
    if (0 <? counted)%Z then Some (MInt counted) else kyocera_sums pdus.
Proof.
  intros Hk. unfold kyocera_Parse. rewrite with_supplies_total by done.
  cbv zeta. skip_puts.
  unfold kyocera_sums. cbv zeta. destruct (0 <? first_positive _)%Z eqn:Hc.
  - rewrite put_total_eq; [by unfold positive; rewrite Hc | done | by skip_puts].
  - destruct (_ || _)%bool.
    + destruct Hk as [-> | ->]; [|apply lookup_insert_eq].
      rewrite lookup_insert_ne by done. apply lookup_insert_eq.
    + by skip_puts.
Qed.

(** What the Epson counters give: the total, else the sum by function, else the standard
    counter. *)
Definition epson_counts (pdus : list SnmpPDU) : list Z :=
  let get := getOIDIntIndexed pdus in
  let by_function n := get (oid_child Oids.EpsonFunctionTotalCount n) in
  let total := or_legacy (get Oids.EpsonTotalPages) (get Oids.EpsonTotalPagesLegacy) in
  [total; if (total =? 0)%Z then iadd (iadd (by_function "1") (by_function "2")) (by_function "3") else 0;
   get life_count].

Lemma positive_first l n :
  positive (first_positive (l ++ [n])) =
    match positive (first_positive l) with Some v => Some v | None => positive n end.
Proof.
  unfold positive. induction l as [|x l IH]; simpl.
  - by destruct (0 <? n)%Z eqn:Hn; rewrite ?Hn.
  - destruct (0 <? x)%Z eqn:Hx; [by rewrite Hx | done].
Qed.

Lemma put_total_or_else (n n' : Z) m k :
  total_key k -> m !! k = positive n ->
  (if (n =? 0)%Z then put_total n' m else m) !! k =
    positive (first_positive [n; if (n =? 0)%Z then n' else 0%Z]).
Proof.
  intros Hk Hm. destruct (Z.eqb_spec n 0) as [->|Hn]; [rewrite put_total_eq by done|rewrite Hm]; unfold positive; simpl.
  - by destruct (0 <? n')%Z eqn:Hn'; rewrite ?Hn'.
  - by destruct (0 <? n)%Z eqn:Hn'; rewrite ?Hn'.
Qed.

Lemma epson_total `{GoUnicode} order pdus k :
  total_key k ->
  epson_Parse (parseSuppliesTable order) pdus !! k = positive (first_positive (epson_counts pdus)).
Proof.
  intros Hk. unfold epson_Parse, epson_counts. cbv zeta.
  match goal with |- context [?m ∪ parseEpsonSupplies pdus] => set (m1 := m ∪ parseEpsonSupplies pdus) end.
  set (total := or_legacy _ _). set (by_function := iadd (iadd _ _) _).
  set (life := getOIDIntIndexed pdus life_count).
  change [total; ?x; life] with ([total; x] ++ [life]).
  assert (Hm1 : forall k', total_key k' -> m1 !! k' =
    positive (first_positive [total; if (total =? 0)%Z then by_function else 0%Z])).
  { intros k' Hk'. unfold m1. rewrite lookup_union_l by (by apply epson_supplies_total).
    rewrite with_supplies_total by done. skip_puts. apply put_total_or_else; [done|].
    skip_puts. by apply put_total_eq. }
  rewrite (positive_first [_; _]), <- (Hm1 k Hk), Hm1 by (by left). rewrite (Hm1 k Hk).
  destruct (positive (first_positive [_; _])) eqn:Hp; [by rewrite Hm1|].
  apply put_total_eq; [done|]. by rewrite Hm1.
Qed.

(** The page count. Under [page_count] and [total_pages] every module reports the same
    number, the first of its counters that is positive, in the order of the module (the
    device's own total, the total of the standard MIB, the sum by color or by function), and
    nothing when no counter is positive; no supply, whatever the device calls it, replaces
    it. Only Kyocera's sums are reported whatever their sign, when one of them is positive. *)
Theorem page_count_by_priority `{GoUnicode} (order : list (string * SupplyEntry)) pdus :
  let get := getOIDIntIndexed pdus in
  let supplies := parseSuppliesTable order in
  forall k, k = "page_count" \/ k = "total_pages" ->
  generic_Parse supplies pdus !! k = positive (get life_count) /\
  hp_Parse supplies pdus !! k =
    positive (first_positive [get (hp "1.4.1.1"); get life_count; iadd (get (hp "4.4.7.0")) (get (hp "4.4.8.0"))]) /\
  kyocera_Parse supplies pdus !! k =
    (let counted := first_positive [get Oids.KyoceraTotalPrinted; get life_count] in
     if (0 <? counted)%Z then Some (MInt counted) else kyocera_sums pdus) /\
  epson_Parse supplies pdus !! k = positive (first_positive (epson_counts pdus)).
Proof.
  intros get supplies k Hk. split_and!;
    [by apply generic_total | by apply hp_total | by apply kyocera_total | by apply epson_total].
Qed.

Lemma page_count_by_priority_witness :
  let pdus := [{| Name := life_count; Value := VUint 1234%Z |}] in
  hp_Parse (parseSuppliesTable []) pdus !! "page_count" = Some (MInt 1234).
Proof.
  intros pdus. destruct (page_count_by_priority [] pdus "page_count") as (_ & Hhp & _); [by left|].
  rewrite Hhp. vm_compute. reflexivity.
Defined.

(** A counter that the device does not have is -1 when the answer says so, and the sums are
    one too small: 100 pages from the glass and no feeder give 99 scans. *)
Lemma missing_counter_subtracts `{GoUnicode} :
  let pdus := [{| Name := hp "4.1.2.0"; Value := VNil |}; {| Name := hp "4.1.1.0"; Value := VInt 100%Z |};
               {| Name := hp "4.2.1.0"; Value := VNil |}; {| Name := hp "4.2.2.0"; Value := VInt 7%Z |}] in
  hp_Parse ∅ pdus !! "scan_to_host_total" = Some (MInt 99) /\
  hp_Parse ∅ pdus !! "scan_to_host_flatbed" = Some (MInt 100) /\
  hp_Parse ∅ pdus !! "fax_sent" = Some (MInt (-1)) /\ hp_Parse ∅ pdus !! "fax_pages" = Some (MInt 6).
Proof. split_and!; vm_compute; reflexivity. Qed.
