(* ===== verification/SnmpQuery.v ===== *)
(** * SNMP queries ([agent/scanner/snmp.go], [snmp_batch.go], [query.go], [detector.go]).

    The SNMP library, the context and the device are operations of an environment. A
    walk answers with the objects that the device would deliver, each with whether the
    context is done by then; the function of the walk sees them in order and ends the
    walk with its first error, as the library does. *)
From S2P Require Import Prelude Oids GoStrings GoTime GoFloat Effects Evidence Detectors CapabilityRegistry VendorModules.
From Stdlib Require Import Ascii.

Open Scope string_scope.
Open Scope list_scope.

(** ** Configuration *)

Inductive SnmpVersion := Version1 | Version2c | Version3.
Inductive SnmpV3MsgFlags := FlagsUnset | NoAuthNoPriv | AuthNoPriv | AuthPriv.
Inductive SnmpV3AuthProtocol := AuthUnset | NoAuth | MD5 | SHA | SHA224 | SHA256 | SHA384 | SHA512.
Inductive SnmpV3PrivProtocol := PrivUnset | NoPriv | DES | AES | AES192 | AES256 | AES192C | AES256C.

Record SNMPConfig := {
  Community : string;
  Version : SnmpVersion;
  SecurityLevel : SnmpV3MsgFlags;
  Username : string;
  AuthProtocol : SnmpV3AuthProtocol;
  AuthPassword : string;
  PrivProtocol : SnmpV3PrivProtocol;
  PrivPassword : string;
  ContextName : string;
}.

(** A [switch] on texts. *)
Fixpoint switch_text {A} (s : string) (cases : list (list string * A)) (other : A) : A :=
  match cases with
  | [] => other
  | (labels, a) :: rest => if bool_decide (s ∈ labels) then a else switch_text s rest other
  end.

Section Config.
Context `{GoUnicode}.

(** [getenv] is [os.Getenv]. *)
Definition snmp_version (getenv : string -> string) : option SnmpVersion :=
  switch_text (ToLower (getenv "SNMP_VERSION"))
    [([""; "2c"; "v2c"; "2"], Some Version2c); (["1"; "v1"], Some Version1); (["3"; "v3"], Some Version3)]
    None.

Definition GetSNMPConfig (getenv : string -> string) : result string SNMPConfig :=
  let community := if String.eqb (getenv "SNMP_COMMUNITY") "" then "public" else getenv "SNMP_COMMUNITY" in
  match snmp_version getenv with
  | None => Err ("unsupported SNMP version: " +:+ ToLower (getenv "SNMP_VERSION") +:+ " (use 1, 2c, or 3)")%string
  | Some Version3 =>
      Ok {| Community := community; Version := Version3;
            SecurityLevel := switch_text (ToLower (getenv "SNMP_SECURITY_LEVEL"))
              [(["authpriv"], AuthPriv); (["authnopriv"], AuthNoPriv)] NoAuthNoPriv;
            Username := getenv "SNMP_USERNAME";
            AuthProtocol := switch_text (ToUpper (getenv "SNMP_AUTH_PROTOCOL"))
              [(["MD5"], MD5); (["SHA"; "SHA1"], SHA); (["SHA224"], SHA224); (["SHA256"], SHA256);
               (["SHA384"], SHA384); (["SHA512"], SHA512)] NoAuth;
            AuthPassword := getenv "SNMP_AUTH_PASSWORD";
            PrivProtocol := switch_text (ToUpper (getenv "SNMP_PRIV_PROTOCOL"))
              [(["DES"], DES); (["AES"; "AES128"], AES); (["AES192"], AES192); (["AES256"], AES256);
               (["AES192C"], AES192C); (["AES256C"], AES256C)] NoPriv;
            PrivPassword := getenv "SNMP_PRIV_PASSWORD";
            ContextName := getenv "SNMP_CONTEXT_NAME" |}
  | Some v =>
      Ok {| Community := community; Version := v; SecurityLevel := FlagsUnset; Username := "";
            AuthProtocol := AuthUnset; AuthPassword := ""; PrivProtocol := PrivUnset;
            PrivPassword := ""; ContextName := "" |}
  end.
End Config.

(** The connection that [newSNMPClientImpl] sets up. *)
Record GoSNMP := {
  Target : string;
  Port : Z;
  conn_Version : SnmpVersion;
  Timeout : Duration;
  Retries : Z;
  conn_Community : string;
  Security : option (SnmpV3MsgFlags * string * SnmpV3AuthProtocol * string * SnmpV3PrivProtocol * string * string);
}.

Definition connection (cfg : SNMPConfig) (target : string) (timeoutSeconds : Z) : GoSNMP :=
  let timeout := if (timeoutSeconds =? 0)%Z then 30 else timeoutSeconds in
  {| Target := target; Port := 161; conn_Version := Version cfg;
     Timeout := dmul timeout Second; Retries := 3;
     conn_Community := match Version cfg with Version3 => "" | _ => Community cfg end;
     Security := match Version cfg with
                 | Version3 => Some (SecurityLevel cfg, Username cfg, AuthProtocol cfg, AuthPassword cfg,
                                     PrivProtocol cfg, PrivPassword cfg, ContextName cfg)
                 | _ => None
                 end |}.

(** ** Batches *)

Definition defaultOIDBatchSize : Z := 15.

Fixpoint batches {A} (fuel n : nat) (l : list A) : list (list A) :=
  match fuel, l with
  | _, [] => []
  | O, _ => []
  | S fuel', _ => take n l :: batches fuel' n (drop n l)
  end.

(** A batch takes at least one object, so the length of the list is fuel enough. *)
Definition clusterOIDs (oids : list string) (batchSize : Z) : list (list string) :=
  let n := if (batchSize <=? 0)%Z then defaultOIDBatchSize else batchSize in
  batches (length oids) (Z.to_nat n) oids.

(** ** Profiles and their objects *)

Inductive QueryProfile := QueryMinimal | QueryEssential | QueryFull | QueryMetrics | QueryOther.

#[export] Instance QueryProfile_eq_dec : EqDecision QueryProfile.
Proof. solve_decision. Defined.

Definition QueryProfile_String (q : QueryProfile) : string :=
  match q with
  | QueryMinimal => "QueryMinimal"
  | QueryEssential => "QueryEssential"
  | QueryFull => "QueryFull"
  | QueryMetrics => "QueryMetrics"
  | QueryOther => "Unknown"
  end.

(** Extras that are empty or there already are left out. *)
Definition appendUniqueOIDs (base extras : list string) : list string :=
  foldl (fun acc extra =>
    if String.eqb extra "" || bool_decide (extra ∈ acc) then acc else acc ++ [extra]) base extras.

Definition buildQueryOIDsWithModule (profile : QueryProfile) (caps : option DeviceCapabilities)
    (m : VendorModule) : list string :=
  match profile with
  | QueryMinimal => appendUniqueOIDs [Oids.PrtGeneralSerialNumber] VendorIDTargetOIDs
  | QueryEssential =>
      appendUniqueOIDs (BaseOIDs m ++ SupplyOIDs m ++ PaperTrayOIDs m ++ [Oids.PrtMarkerLifeCount])
        VendorIDTargetOIDs
  | QueryMetrics => BaseOIDs m ++ MetricOIDs m caps ++ SupplyOIDs m ++ PaperTrayOIDs m
  | QueryFull | QueryOther => []
  end.

(** The tables among the objects, which are walked, and the others. *)
Definition is_table (m : VendorModule) (oid : string) : bool :=
  bool_decide (oid ∈ SupplyOIDs m ++ PaperTrayOIDs m).

Definition split_tables (profile : QueryProfile) (m : VendorModule) (oids : list string) :
    list string * list string :=
  match profile with
  | QueryMetrics | QueryEssential =>
      (List.filter (fun oid => negb (is_table m oid)) oids, List.filter (is_table m) oids)
  | _ => (oids, [])
  end.

(** The digits that a text starts with. *)
Fixpoint digits_of (s : string) : string :=
  match s with
  | String c s' => if (48 <=? byte_of c)%Z && (byte_of c <=? 57)%Z then String c (digits_of s') else ""
  | EmptyString => ""
  end.

Definition enterprisePrefixFromSysObjectID (sysObjectID : string) : string :=
  let s := TrimPrefix (TrimSpace sysObjectID) "." in
  let prefix := "1.3.6.1.4.1." in
  if negb (HasPrefix s prefix) then ""
  else
    let rest := TrimPrefix s prefix in
    if String.eqb rest "" then ""
    else if String.eqb (digits_of rest) "" then ""
    else (prefix +:+ digits_of rest)%string.

(** The roots of a full walk. *)
Definition full_roots (sysObjectID : string) : list string :=
  let enterprise := enterprisePrefixFromSysObjectID sysObjectID in
  ["1.3.6.1.2.1"; "1.3.6.1.2.1.43"] ++ (if String.eqb enterprise "" then [] else [enterprise]).

(** ** Queries *)

Record QueryResult := {
  IP : string;
  Result_PDUs : list SnmpPDU;
  Profile : QueryProfile;
  VendorHint : string;
  Result_Capabilities : option DeviceCapabilities;
}.

Section Query.
Context `{GoUnicode} {W : Type}.

Inductive Call :=
| CConnect (conn : GoSNMP) (err : option string)
| CDone (err : option string)
| CGet (oids : list string) (r : result string (option (list SnmpPDU)))
| CWalk (root : string) (events : list (SnmpPDU * option string)) (err : option string)
| CClose.

(** [Done]: the error of the context, if it is done. *)
Class SnmpEnv := {
  Connect : GoSNMP -> W -> option string * W;
  Done : W -> option string * W;
  Get : list string -> W -> result string (option (list SnmpPDU)) * W;
  Walk : string -> W -> (list (SnmpPDU * option string) * option string) * W;
  Close : W -> unit * W;
}.
Context `{SnmpEnv}.

Definition done := call CDone Done.
Definition get oids := call (CGet oids) (Get oids).
Definition walk root :=
  call (fun r : list (SnmpPDU * option string) * option string => CWalk root r.1 r.2) (Walk root).

(** The function of a walk: the objects after [pdus], and the error that ends it. *)
Fixpoint walk_events (pdus : list SnmpPDU) (events : list (SnmpPDU * option string)) :
    list SnmpPDU * option string :=
  match events with
  | [] => (pdus, None)
  | (pdu, cancelled) :: rest =>
      match cancelled with
      | Some e => (pdus, Some e)
      | None =>
          let pdus := pdus ++ [pdu] in
          if (10000 <=? Z.of_nat (length pdus))%Z then (pdus, Some "walk limit exceeded")
          else walk_events pdus rest
      end
  end.

(** A walk ends with the error of its function, or with its own. *)
Definition after_walk (pdus : list SnmpPDU) (r : list (SnmpPDU * option string) * option string) :
    list SnmpPDU * option string :=
  let '(pdus, err) := walk_events pdus r.1 in
  (pdus, match err with Some e => Some e | None => r.2 end).

Fixpoint get_batches (bs : list (list string)) (all : list SnmpPDU) :
    M Call W (result string (list SnmpPDU)) :=
  match bs with
  | [] => mret (Ok all)
  | batch :: rest =>
      e ← done;
      match e with
      | Some e => mret (Err e)
      | None =>
          r ← get batch;
          match r with
          | Err e => mret (Err ("SNMP GET failed for batch (first oid " +:+ hd "" batch +:+ "): " +:+ e)%string)
          | Ok None => get_batches rest all
          | Ok (Some vars) => get_batches rest (all ++ vars)
          end
      end
  end.

Definition batchedGet (oids : list string) (batchSize : Z) : M Call W (result string (list SnmpPDU)) :=
  get_batches (clusterOIDs oids batchSize) [].

(** The walks of a full query: an error counts while nothing was received. *)
Fixpoint walk_roots (roots : list string) (pdus : list SnmpPDU) :
    M Call W (result string (list SnmpPDU)) :=
  match roots with
  | [] => mret (Ok pdus)
  | root :: rest =>
      e ← done;
      match e with
      | Some e => mret (Err e)
      | None =>
          r ← walk root;
          match after_walk pdus r with
          | ([], Some e) => mret (Err ("SNMP walk failed: " +:+ e)%string)
          | (pdus, _) => walk_roots rest pdus
          end
      end
  end.

(** The walks of tables: errors are only logged. *)
Fixpoint walk_tables (roots : list string) (pdus : list SnmpPDU) :
    M Call W (result string (list SnmpPDU)) :=
  match roots with
  | [] => mret (Ok pdus)
  | root :: rest =>
      e ← done;
      match e with
      | Some e => mret (Err e)
      | None => r ← walk root; walk_tables rest (after_walk pdus r).1
      end
  end.

Definition preOIDs : list string := [Oids.SysObjectID; Oids.SysDescr; Oids.HrDeviceDescr].

(** The identity from the first answers: object id, description and model. A value
    that is no text is skipped; a later one replaces an earlier. *)
Definition identify (vars : list SnmpPDU) : string * string * string :=
  foldl (fun '(sysObjectID, sysDescr, model) pdu =>
    let name := TrimPrefix (Name pdu) "." in
    match Value pdu with
    | VBytes s | VString s =>
        if String.eqb name Oids.SysObjectID then (s, sysDescr, model)
        else if String.eqb name Oids.SysDescr then (sysObjectID, s, model)
        else if String.eqb name Oids.HrDeviceDescr then (sysObjectID, sysDescr, s)
        else (sysObjectID, sysDescr, model)
    | _ => (sysObjectID, sysDescr, model)
    end) ("", "", "") vars.

Definition fetch (profile : QueryProfile) (m : VendorModule) (queryOIDs : list string)
    (sysObjectID : string) : M Call W (result string (list SnmpPDU)) :=
  match profile with
  | QueryFull => walk_roots (full_roots sysObjectID) []
  | _ =>
      match queryOIDs with
      | [] => mret (Err ("no OIDs to query for profile " +:+ QueryProfile_String profile)%string)
      | _ =>
          let '(scalarOIDs, tableRoots) := split_tables profile m queryOIDs in
          r ← (match scalarOIDs with
               | [] => mret (Ok [])
               | _ => batchedGet scalarOIDs defaultOIDBatchSize
               end);
          match r with
          | Err e => mret (Err e)
          | Ok pdus => walk_tables tableRoots pdus
          end
      end
  end.

Definition finish (ip : string) (profile : QueryProfile) (vendorHint : string)
    (pdus : list SnmpPDU) : result string QueryResult :=
  match pdus with
  | [] => Err ("no SNMP data received from " +:+ ip)%string
  | _ =>
      Ok {| IP := ip; Result_PDUs := pdus; Profile := profile; VendorHint := vendorHint;
            Result_Capabilities :=
              match profile with
              | QueryFull | QueryEssential => Some (detectCapabilities pdus vendorHint)
              | _ => None
              end |}
  end.

(** With an open connection. *)
Definition query_connected (ip : string) (profile : QueryProfile) (vendorHint : string)
    (caps : option DeviceCapabilities) : M Call W (result string QueryResult) :=
  preRes ← get preOIDs;
  let '(sysObjectID, sysDescr, model) :=
    match preRes with Ok (Some vars) => identify vars | _ => ("", "", "") end in
  let m := select_vendor vendorHint sysObjectID sysDescr model in
  r ← fetch profile m (buildQueryOIDsWithModule profile caps m) sysObjectID;
  mret (match r with Err e => Err e | Ok pdus => finish ip profile vendorHint pdus end).

Definition queryDeviceWithCapabilitiesAndClient (getenv : string -> string) (ip : string)
    (profile : QueryProfile) (vendorHint : string) (timeoutSeconds : Z)
    (caps : option DeviceCapabilities) : M Call W (result string QueryResult) :=
  if String.eqb ip "" then mret (Err "ip address required")
  else
    e ← done;
    match e with
    | Some e => mret (Err e)
    | None =>
        match GetSNMPConfig getenv with
        | Err e => mret (Err ("failed to get SNMP config: " +:+ e)%string)
        | Ok cfg =>
            let conn := connection cfg ip timeoutSeconds in
            e ← call (CConnect conn) (Connect conn);
            match e with
            | Some e =>
                mret (Err ("failed to create SNMP client: failed to connect to " +:+ ip +:+ ": " +:+ e)%string)
            | None =>
                r ← query_connected ip profile vendorHint caps;
                _ ← call (fun _ : unit => CClose) Close;
                mret r
            end
        end
    end.

Definition QueryDevice getenv ip profile vendorHint timeoutSeconds : M Call W (result string QueryResult) :=
  queryDeviceWithCapabilitiesAndClient getenv ip profile vendorHint timeoutSeconds None.

(** ** Detection and deep scans ([detector.go]) *)

(** The cache of the saved devices answers with a value of the caller. *)
Context {Cached : Type}.

Record DetectorConfig := {
  SavedDeviceChecker : option (string -> option Cached);
  SNMPTimeout : Z;
  SkipSavedDevices : bool;
}.

(** What a detection passes on: a cached value or the result of a query. *)
Inductive Info := CachedInfo (c : Cached) | QueryInfo (r : QueryResult).

Definition or_timeout (default t : Z) : Z := if (t =? 0)%Z then default else t.

Definition has_text (pdu : SnmpPDU) : bool :=
  match Value pdu with
  | VBytes s | VString s => negb (String.eqb s "")
  | _ => false
  end.

Definition known_device (cfg : DetectorConfig) (ip : string) : option Cached :=
  if SkipSavedDevices cfg then check ← SavedDeviceChecker cfg; check ip else None.

(** The error is always nil. *)
Definition DetectFunc (getenv : string -> string) (cfg : DetectorConfig) (ip : string)
    (openPorts : list Z) : M Call W (option Info * bool) :=
  match known_device cfg ip with
  | Some c => mret (Some (CachedInfo c), true)
  | None =>
      match openPorts with
      | [] => mret (None, false)
      | _ =>
          r ← QueryDevice getenv ip QueryMinimal "" (or_timeout 5 (SNMPTimeout cfg));
          mret (match r with
                | Err _ => (None, false)
                | Ok q =>
                    match Result_PDUs q with
                    | [] => (None, false)
                    | pdus => (Some (QueryInfo q), existsb has_text pdus)
                    end
                end)
      end
  end.

Definition hint_of (info : option Info) : string :=
  match info with Some (QueryInfo q) => VendorHint q | _ => "" end.

Definition DeepScanFunc (getenv : string -> string) (cfg : DetectorConfig) (ip : string)
    (info : option Info) : M Call W (result string QueryResult) :=
  r ← QueryDevice getenv ip QueryFull (hint_of info) (or_timeout 30 (SNMPTimeout cfg));
  mret (match r with
        | Err e => Err ("deep scan failed for " +:+ ip +:+ ": " +:+ e)%string
        | Ok q => Ok q
        end).

Definition EnrichFunc (getenv : string -> string) (cfg : DetectorConfig) (ip vendorHint : string) :
    M Call W (result string QueryResult) :=
  r ← QueryDevice getenv ip QueryEssential vendorHint (or_timeout 10 (SNMPTimeout cfg));
  mret (match r with
        | Err e => Err ("enrichment failed for " +:+ ip +:+ ": " +:+ e)%string
        | Ok q => Ok q
        end).
End Query.

(** ** Batches cover the list *)

Lemma batches_concat {A} fuel n (l : list A) :
  (1 <= n)%nat -> (length l <= fuel)%nat -> concat (batches fuel n l) = l.
Proof.
  intros Hn. revert l. induction fuel as [|fuel IH]; intros [|a l] Hl; [done | simpl in Hl; lia | done |].
  cbn [batches concat]. rewrite IH; [by rewrite take_drop|].
  rewrite length_drop. simpl in *. lia.
Qed.

Lemma batches_sizes {A} fuel n (l : list A) :
  (1 <= n)%nat -> Forall (fun b => (1 <= length b <= n)%nat) (batches fuel n l).
Proof.
  intros Hn. revert l. induction fuel as [|fuel IH]; intros [|a l]; simpl; try by constructor.
  constructor; [|apply IH]. rewrite length_take. change (length (a :: l)) with (S (length l)). lia.
Qed.

Lemma batches_full {A} fuel n (l : list A) i b :
  batches fuel n l !! i = Some b -> is_Some (batches fuel n l !! S i) -> length b = n.
Proof.
  revert l i. induction fuel as [|fuel IH]; intros [|a l] i Hi Hs; try done. cbn [batches] in Hi, Hs.
  destruct i as [|i]; [|by eapply (IH (drop n (a :: l)))]. injection Hi as <-.
  simpl lookup in Hs. destruct (drop n (a :: l)) as [|a' l'] eqn:Hd.
  - destruct fuel; by destruct Hs.
  - apply (f_equal length) in Hd. rewrite length_drop in Hd. rewrite length_take. simpl in *. lia.
Qed.

(** The batches of a list of objects, put together, are the list; each has at least
    one object and at most the batch size, which is 15 where none is given; only the
    last can be smaller. *)
Theorem clusterOIDs_partition oids batchSize :
  let n := Z.to_nat (if (batchSize <=? 0)%Z then 15 else batchSize) in
  let bs := clusterOIDs oids batchSize in
  concat bs = oids /\ Forall (fun b => (1 <= length b <= n)%nat) bs /\
  forall i b, bs !! i = Some b -> is_Some (bs !! S i) -> length b = n.
Proof.
  cbv zeta. unfold clusterOIDs, defaultOIDBatchSize.
  assert (Hn : (1 <= Z.to_nat (if (batchSize <=? 0)%Z then 15 else batchSize))%nat).
  { destruct (Z.leb_spec batchSize 0); lia. }
  split_and!; [by apply batches_concat | by apply batches_sizes | intros i b; apply batches_full].
Qed.

(** ** What a query asks for and gives *)

Section Properties.
Context `{GoUnicode} {W : Type} `{!@SnmpEnv W}.
Implicit Types (h : list Call) (pdus : list SnmpPDU).

Notation Any := (Spec (W := W) (fun (_ : list Call) (_ : Call) => True)).

Notation len l := (Z.of_nat (length l)).

Lemma walk_events_length pdus events :
  (len (walk_events pdus events).1 <= Z.max 10000 (len pdus + 1))%Z.
Proof.
  revert pdus. induction events as [|[pdu [e|]] events IH]; intros pdus; cbn [walk_events fst]; [lia..|].
  specialize (IH (pdus ++ [pdu])). rewrite length_app in *. cbn [length] in *.
  destruct (Z.leb_spec 10000 (Z.of_nat (length pdus + 1))); cbn [fst]; [rewrite length_app; simpl|]; lia.
Qed.

Lemma after_walk_length pdus r : (len (after_walk pdus r).1 <= Z.max 10000 (len pdus + 1))%Z.
Proof.
  unfold after_walk. pose proof (walk_events_length pdus r.1) as Hl.
  by destruct (walk_events pdus r.1).
Qed.

Lemma walk_roots_bounded h roots pdus j :
  (0 <= j)%Z -> (len pdus <= 9999 + j)%Z ->
  Any h (walk_roots roots pdus)
    (fun _ r => forall l, r = Ok l -> (len l <= 9999 + j + len roots)%Z).
Proof.
  revert h pdus j. induction roots as [|root roots IH]; intros h pdus j Hj0 Hj; cbn [walk_roots].
  { apply Spec_ret. intros l [= <-]. simpl. lia. }
  unfold done, walk. spec_step; [done|]. destruct a as [e|]; [by apply Spec_ret|].
  spec_step; [done|]. pose proof (after_walk_length pdus a) as Hl.
  destruct (after_walk pdus a) as [pdus' err]. cbn [fst] in Hl.
  assert (Hrest : forall h', Any h' (walk_roots roots pdus')
    (fun _ r => forall l, r = Ok l -> (len l <= 9999 + j + len (root :: roots))%Z)).
  { intros h'. eapply Spec_weaken; [apply (IH _ _ (j + 1)%Z); lia|]. intros h'' r _ Hr l Hlr.
    specialize (Hr l Hlr). cbn [length]. lia. }
  destruct pdus' as [|p ps]; [destruct err|]; [by apply Spec_ret | apply Hrest | apply Hrest].
Qed.

Lemma full_roots_length sysObjectID : (len (full_roots sysObjectID) <= 3)%Z.
Proof. unfold full_roots. by destruct (String.eqb _ ""); simpl; lia. Qed.

(** A full query returns at most 10,002 objects, whatever the device delivers: the
    walk that reaches 10,000 is ended there, and each walk after it adds one more. *)
Theorem full_query_bounded getenv ip vendorHint timeoutSeconds q (w : W) :
  value (QueryDevice getenv ip QueryFull vendorHint timeoutSeconds) w = Ok q ->
  (len (Result_PDUs q) <= 10002)%Z.
Proof.
  intros Hq. assert (Hspec : Any [] (QueryDevice getenv ip QueryFull vendorHint timeoutSeconds)
    (fun _ r => forall q', r = Ok q' -> (len (Result_PDUs q') <= 10002)%Z));
    [|by eapply (Hspec w)].
  unfold QueryDevice, queryDeviceWithCapabilitiesAndClient.
  destruct (String.eqb ip ""); [by apply Spec_ret|]. unfold done. spec_step; [done|].
  destruct a; [by apply Spec_ret|]. destruct (GetSNMPConfig getenv) as [cfg|]; [|by apply Spec_ret].
  spec_step; [done|]. destruct a; [by apply Spec_ret|].
  eapply Spec_bind; [|intros h' r _ Hr; spec_step; [done|]; apply Spec_ret; exact Hr].
  unfold query_connected, get. spec_step; [done|].
  destruct (match a with Ok (Some vars) => identify vars | _ => _ end) as [[oid descr] model].
  eapply Spec_bind; [apply (walk_roots_bounded _ _ _ 0); simpl; lia|].
  intros h' r _ Hr. apply Spec_ret. intros q' Hq'. destruct r as [pdus|]; [|done].
  specialize (Hr pdus eq_refl). pose proof (full_roots_length oid).
  unfold finish in Hq'. destruct pdus as [|p ps]; [done|]. injection Hq' as <-.
  cbn [Result_PDUs]. lia.
Qed.

(** *** The requests of a query *)

(** The connection is open, and the context was not seen done since. *)
Definition connected h : Prop := (exists conn, CConnect conn None ∈ h) /\ CClose ∉ h.
Definition cancelled h : Prop := exists e, CDone (Some e) ∈ h.

(** The module that the first answer and the hint select. *)
Definition vendor_of (vendorHint : string) (pre : result string (option (list SnmpPDU))) : VendorModule :=
  let '(sysObjectID, sysDescr, model) :=
    match pre with Ok (Some vars) => identify vars | _ => ("", "", "") end in
  select_vendor vendorHint sysObjectID sysDescr model.

Definition selected (vendorHint : string) h (m : VendorModule) : Prop :=
  exists pre, CGet preOIDs pre ∈ h /\ m = vendor_of vendorHint pre.

(** A value objects of the profile of a module, at most a batch of them. *)
Definition scalars (profile : QueryProfile) caps m (oids : list string) : Prop :=
  (1 <= length oids <= 15)%nat /\
  forall oid, oid ∈ oids -> oid ∈ buildQueryOIDsWithModule profile caps m /\
    (profile = QueryMetrics \/ profile = QueryEssential -> is_table m oid = false).

Definition table_of (profile : QueryProfile) caps m (root : string) : Prop :=
  (profile = QueryMetrics \/ profile = QueryEssential) /\
  root ∈ buildQueryOIDsWithModule profile caps m /\ is_table m root = true.

(** What a query may call after the history [h]. *)
Definition query_ok (ip : string) (profile : QueryProfile) (vendorHint : string) caps h (c : Call) : Prop :=
  match c with
  | CConnect conn _ => Target conn = ip /\ ip <> "" /\ h = [CDone None]
  | CDone _ => ~ cancelled h
  | CGet oids _ =>
      connected h /\ ~ cancelled h /\
      (oids = preOIDs \/
       profile <> QueryFull /\ exists m, selected vendorHint h m /\ scalars profile caps m oids)
  | CWalk root _ _ =>
      connected h /\ ~ cancelled h /\
      ((profile = QueryFull /\ exists sysObjectID, root ∈ full_roots sysObjectID) \/
       exists m, selected vendorHint h m /\ table_of profile caps m root)
  | CClose => connected h
  end.

(** The device delivered the object. *)
Definition delivered h (pdu : SnmpPDU) : Prop :=
  (exists oids vars, CGet oids (Ok (Some vars)) ∈ h /\ pdu ∈ vars) \/
  (exists root events err, CWalk root events err ∈ h /\ pdu ∈ events.*1).

Lemma delivered_mono h h' pdu : h `prefix_of` h' -> delivered h pdu -> delivered h' pdu.
Proof.
  intros Hp [(o & v & Hc & Hin)|(r & ev & e & Hc & Hin)].
  - left. exists o, v. split; [by eapply prefix_elem_of | done].
  - right. exists r, ev, e. split; [by eapply prefix_elem_of | done].
Qed.

Lemma delivered_mono_all h h' pdus :
  h `prefix_of` h' -> Forall (delivered h) pdus -> Forall (delivered h') pdus.
Proof. intros Hp Hd. eapply Forall_impl; [done|]. intros x. by apply delivered_mono. Qed.

(** The state of a query with an open connection: going on, or seen done. *)
Record going h : Prop := { go_conn : connected h; go_on : ~ cancelled h }.

Definition not_close (c : Call) : Prop := c <> CClose /\ forall e, c <> CDone (Some e).

Lemma connected_snoc h c : c <> CClose -> connected h -> connected (h ++ [c]).
Proof.
  intros Hc [(conn & Hconn) Hn]. split; [exists conn; eauto with history|].
  rewrite elem_of_app, list_elem_of_singleton. by intros [?|<-].
Qed.

Lemma going_snoc h c : not_close c -> going h -> going (h ++ [c]).
Proof.
  intros [Hc Hd] [Hconn Hon]. split; [by apply connected_snoc|].
  intros (e & He). apply elem_of_app in He as [He|He]; [apply Hon; by exists e|].
  apply list_elem_of_singleton in He. by apply (Hd e).
Qed.

Lemma selected_mono vendorHint h h' m : h `prefix_of` h' -> selected vendorHint h m -> selected vendorHint h' m.
Proof. intros Hp (pre & Hc & Hm). exists pre. split; [by eapply prefix_elem_of | done]. Qed.

Lemma walk_events_from pdus events :
  exists taken, (walk_events pdus events).1 = pdus ++ taken /\ taken ⊆ events.*1.
Proof.
  revert pdus. induction events as [|[pdu [e|]] events IH]; intros pdus; cbn [walk_events].
  - exists []. by rewrite app_nil_r.
  - exists []. rewrite app_nil_r. split; [done | by intros ? ?%not_elem_of_nil].
  - destruct (10000 <=? _)%Z.
    + exists [pdu]. split; [done|]. intros x ->%list_elem_of_singleton. left.
    + destruct (IH (pdus ++ [pdu])) as (taken & -> & Hsub). exists (pdu :: taken).
      rewrite <- app_assoc. split; [done|]. csimpl. intros x [->|Hx]%elem_of_cons; [left | right; by apply Hsub].
Qed.

Lemma after_walk_delivered h pdus root r :
  Forall (delivered h) pdus ->
  Forall (delivered (h ++ [CWalk root r.1 r.2])) (after_walk pdus r).1.
Proof.
  intros Hd. unfold after_walk. destruct (walk_events_from pdus r.1) as (taken & Ht & Hsub).
  destruct (walk_events pdus r.1) as [l e]. simpl in Ht |- *. rewrite Ht.
  apply Forall_app. split; [eapply delivered_mono_all; [|done]; by apply prefix_app_r|].
  apply Forall_forall. intros x Hx. right. exists root, r.1, r.2. split; [|by apply Hsub].
  eauto with history.
Qed.

Section Disciplined.
Variable ip : string.
Variable profile : QueryProfile.
Variable vendorHint : string.
Variable caps : option DeviceCapabilities.

Notation Asks := (Spec (W := W) (query_ok ip profile vendorHint caps)).

(** The connection is still open; objects were delivered, and the context is not done. *)
Definition fetched h (r : result string (list SnmpPDU)) : Prop :=
  connected h /\ forall pdus, r = Ok pdus -> ~ cancelled h /\ Forall (delivered h) pdus.

Lemma fetched_ok h pdus : going h -> Forall (delivered h) pdus -> fetched h (Ok pdus).
Proof. intros [Hc Hn] Hd. split; [done|]. by intros l [= <-]. Qed.

Lemma fetched_err h e : connected h -> fetched h (Err e).
Proof. intros Hc. by split. Qed.

(** Asking whether the context is done, when it was not seen done before. *)
Lemma Asks_done h (f : option string -> M Call W (result string (list SnmpPDU))) :
  going h ->
  (forall e, Asks (h ++ [CDone (Some e)]) (f (Some e)) fetched) ->
  (going (h ++ [CDone None]) -> Asks (h ++ [CDone None]) (f None) fetched) ->
  Asks h (done ≫= f) fetched.
Proof.
  intros Hg He Hn. unfold done. spec_step; [apply Hg|]. destruct a as [e|]; [apply He|].
  apply Hn. by apply going_snoc.
Qed.

Lemma get_batches_asks h m bs all :
  going h -> profile <> QueryFull -> selected vendorHint h m ->
  Forall (scalars profile caps m) bs -> Forall (delivered h) all ->
  Asks h (get_batches bs all) fetched.
Proof.
  intros Hg Hp Hm Hbs. revert h all Hg Hm.
  induction Hbs as [|b bs Hb _ IH]; intros h all Hg Hm Hall; cbn [get_batches].
  { apply Spec_ret. by apply fetched_ok. }
  apply Asks_done; [done | |].
  { intros e. apply Spec_ret, fetched_err. apply connected_snoc; [done | apply Hg]. }
  intros Hg1. assert (Hm1 : selected vendorHint (h ++ [CDone None]) m).
  { eapply selected_mono; [|done]. by apply prefix_app_r. }
  unfold get. spec_step; [split_and!; [apply Hg1 | apply Hg1 | right; split; [done | by exists m]]|].
  set (h2 := (h ++ [CDone None]) ++ [CGet b a]).
  assert (Hg2 : going h2) by by apply going_snoc.
  assert (Hpre : h `prefix_of` h2) by (unfold h2; rewrite <- app_assoc; by apply prefix_app_r).
  assert (Hm2 : selected vendorHint h2 m) by by eapply selected_mono.
  destruct a as [[vars|]|e].
  - apply IH; [done..|]. apply Forall_app. split; [by eapply delivered_mono_all|].
    apply Forall_forall. intros x Hx. left. exists b, vars. split; [|done].
    unfold h2. eauto with history.
  - apply IH; [done..|]. by eapply delivered_mono_all.
  - apply Spec_ret, fetched_err, Hg2.
Qed.

(** A walk of an allowed root after the context was asked for. *)
Lemma walk_roots_asks h roots pdus :
  going h -> (profile = QueryFull /\ exists oid, roots ⊆ full_roots oid) -> Forall (delivered h) pdus ->
  Asks h (walk_roots roots pdus) fetched.
Proof.
  revert h pdus. induction roots as [|root roots IH]; intros h pdus Hg Hr Hd; cbn [walk_roots].
  { apply Spec_ret. by apply fetched_ok. }
  apply Asks_done; [done | |].
  { intros e. apply Spec_ret, fetched_err. apply connected_snoc; [done | apply Hg]. }
  intros Hg1. destruct Hr as [Hp (oid & Hsub)]. unfold walk. spec_step.
  { split_and!; [apply Hg1 | apply Hg1 | left; split; [done|]]. exists oid. apply Hsub. left. }
  assert (Hd2 := after_walk_delivered _ _ root a
    (delivered_mono_all _ _ _ (prefix_app_r h h [CDone None] ltac:(done)) Hd)).
  assert (Hg2 : going ((h ++ [CDone None]) ++ [CWalk root a.1 a.2])) by by apply going_snoc.
  destruct (after_walk pdus a) as [pdus' err]. cbn [fst] in Hd2.
  assert (Hr' : profile = QueryFull /\ exists oid, roots ⊆ full_roots oid).
  { split; [done|]. exists oid. intros x Hx. apply Hsub. by right. }
  destruct pdus' as [|p ps]; [destruct err|]; [apply Spec_ret, fetched_err, Hg2 | by apply IH | by apply IH].
Qed.

Lemma walk_tables_asks h m roots pdus :
  going h -> selected vendorHint h m -> Forall (table_of profile caps m) roots -> Forall (delivered h) pdus ->
  Asks h (walk_tables roots pdus) fetched.
Proof.
  intros Hg Hm Hr. revert h pdus Hg Hm.
  induction Hr as [|root roots Hroot _ IH]; intros h pdus Hg Hm Hd; cbn [walk_tables].
  { apply Spec_ret. by apply fetched_ok. }
  apply Asks_done; [done | |].
  { intros e. apply Spec_ret, fetched_err. apply connected_snoc; [done | apply Hg]. }
  intros Hg1. assert (Hm1 : selected vendorHint (h ++ [CDone None]) m).
  { eapply selected_mono; [|done]. by apply prefix_app_r. }
  unfold walk. spec_step; [split_and!; [apply Hg1 | apply Hg1 | right; by exists m]|].
  apply IH; [by apply going_snoc | eapply selected_mono; [by apply prefix_app_r | done]|].
  apply after_walk_delivered. eapply delivered_mono_all; [|done]. by apply prefix_app_r.
Qed.

Lemma cluster_scalars m oids :
  (forall oid, oid ∈ oids -> oid ∈ buildQueryOIDsWithModule profile caps m /\
    (profile = QueryMetrics \/ profile = QueryEssential -> is_table m oid = false)) ->
  Forall (scalars profile caps m) (clusterOIDs oids defaultOIDBatchSize).
Proof.
  intros Hoids.
  apply Forall_forall. intros b Hb. split.
  - pose proof (batches_sizes (length oids) 15 oids ltac:(lia)) as Hs. rewrite Forall_forall in Hs.
    exact (Hs b Hb).
  - intros oid Ho. apply Hoids. rewrite <- (batches_concat (length oids) 15 oids) by lia.
    apply list_elem_of_In, in_concat. exists b. by rewrite <- !list_elem_of_In.
Qed.

Lemma fetch_asks h m oid :
  going h -> selected vendorHint h m ->
  Asks h (fetch profile m (buildQueryOIDsWithModule profile caps m) oid) fetched.
Proof.
  intros Hg Hm. set (oids := buildQueryOIDsWithModule profile caps m).
  destruct (decide (profile = QueryFull)) as [Hp|Hp].
  { assert (He : fetch profile m oids oid = walk_roots (full_roots oid) []) by (unfold fetch; by rewrite Hp).
    rewrite He. apply walk_roots_asks; [done | |constructor]. split; [done|]. by exists oid. }
  unfold fetch.
  assert (Hscal : Forall (scalars profile caps m) (clusterOIDs (split_tables profile m oids).1 defaultOIDBatchSize)).
  { apply cluster_scalars. intros o Ho. destruct profile; simpl in Ho;
      try (apply list_elem_of_In, List.filter_In in Ho as [Ho Hb];
           split; [by apply list_elem_of_In | intros _; by apply negb_true_iff in Hb]);
      (split; [done | intros [?|?]; done]). }
  assert (Htab : Forall (table_of profile caps m) (split_tables profile m oids).2).
  { apply Forall_forall. intros o Ho. destruct profile; simpl in Ho; try (by apply not_elem_of_nil in Ho);
      apply list_elem_of_In, List.filter_In in Ho as [Ho Hb];
      (split; [tauto | split; [by apply list_elem_of_In | done]]). }
  assert (Hbody : Asks h
    match oids with
    | [] => mret (Err ("no OIDs to query for profile " +:+ QueryProfile_String profile)%string)
    | _ =>
        let '(scalarOIDs, tableRoots) := split_tables profile m oids in
        r ← (match scalarOIDs with
             | [] => mret (Ok [])
             | _ => batchedGet scalarOIDs defaultOIDBatchSize
             end);
        match r with
        | Err e => mret (Err e)
        | Ok pdus => walk_tables tableRoots pdus
        end
    end fetched); [|by destruct profile].
  destruct (split_tables profile m oids) as [scalarOIDs tableRoots]. simpl in Hscal, Htab.
  destruct oids as [|o os]; [apply Spec_ret, fetched_err, Hg|].
  eapply Spec_bind with (R := fetched).
  - destruct scalarOIDs as [|s ss]; [apply Spec_ret; by apply fetched_ok|].
    unfold batchedGet. by apply (get_batches_asks h m).
  - intros h' [pdus|e] Hpre [Hc Hok]; [|by apply Spec_ret, fetched_err].
    destruct (Hok pdus eq_refl) as [Hn Hd]. apply (walk_tables_asks h' m); [by split | |done..].
    by eapply selected_mono.
Qed.

(** The result of a query, and that the connection is closed at the end. *)
Definition result_of h (r : result string QueryResult) : Prop :=
  forall q, r = Ok q ->
    IP q = ip /\ Profile q = profile /\ VendorHint q = vendorHint /\
    Result_PDUs q <> [] /\ Forall (delivered h) (Result_PDUs q).

Definition left_closed h : Prop := forall conn, CConnect conn None ∈ h -> last h = Some CClose.

Lemma query_connected_asks h :
  going h ->
  Asks h (query_connected ip profile vendorHint caps) (fun h' r => connected h' /\ result_of h' r).
Proof.
  intros Hg. unfold query_connected, get. spec_step; [split_and!; [apply Hg | apply Hg | by left]|].
  set (h1 := h ++ [CGet preOIDs a]).
  assert (Hsel : selected vendorHint h1 (vendor_of vendorHint a)).
  { exists a. split; [unfold h1; eauto with history | done]. }
  unfold vendor_of in Hsel.
  destruct (match a with Ok (Some vars) => identify vars | _ => _ end) as [[oid descr] model].
  eapply Spec_bind; [apply fetch_asks; [by apply going_snoc | exact Hsel]|].
  intros h2 [pdus|e] Hp [Hc Hok]; apply Spec_ret; (split; [done|]); intros q Hq; [|done].
  destruct (Hok pdus eq_refl) as [_ Hd]. unfold finish in Hq.
  destruct pdus as [|p ps]; [done|]. injection Hq as <-. by split_and!.
Qed.

Lemma query_asks getenv timeoutSeconds :
  Asks [] (queryDeviceWithCapabilitiesAndClient getenv ip profile vendorHint timeoutSeconds caps)
    (fun h r => left_closed h /\ result_of h r).
Proof.
  unfold queryDeviceWithCapabilitiesAndClient.
  destruct (String.eqb_spec ip "") as [Hip|Hip].
  { apply Spec_ret. by split; [intros conn ?%not_elem_of_nil|]. }
  unfold done. spec_step; [by intros (e & ?%not_elem_of_nil)|]. destruct a as [e|].
  { apply Spec_ret. split; [|done]. intros conn Hc. by apply list_elem_of_singleton in Hc. }
  destruct (GetSNMPConfig getenv) as [cfg|e].
  2: { apply Spec_ret. split; [|done]. intros conn Hc. by apply list_elem_of_singleton in Hc. }
  spec_step; [by split_and!|]. destruct a as [e|].
  { apply Spec_ret. split; [|done]. intros conn Hc.
    apply elem_of_cons in Hc as [?|Hc]; [done|]. by apply list_elem_of_singleton in Hc. }
  eapply Spec_bind.
  - apply query_connected_asks. split; [split|].
    + exists (connection cfg ip timeoutSeconds). eauto with history.
    + intros Hc. apply elem_of_cons in Hc as [?|Hc]; [done|]. by apply list_elem_of_singleton in Hc.
    + intros (e & Hc). apply elem_of_cons in Hc as [?|Hc]; [done|]. by apply list_elem_of_singleton in Hc.
  - intros h r Hp [Hc Hr]. spec_step; [exact Hc|]. apply Spec_ret. split.
    + intros conn _. by rewrite last_snoc.
    + intros q Hq. destruct (Hr q Hq) as (? & ? & ? & ? & Hd). split_and!; [done..|].
      eapply delivered_mono_all; [|done]. by apply prefix_app_r.
Qed.
End Disciplined.

(** C33: A query connects once, to its device, after it has seen the context open, and
    asks nothing after the context was seen done or the connection closed. It gets only
    the three identifying objects and, outside full queries, batches of at most 15 of
    the profile's objects that are no tables of the selected module, and walks only
    those tables or, in a full query, the roots. A connection that was made is closed
    at the end, whatever fails. *)
Theorem queries_disciplined getenv ip profile vendorHint timeoutSeconds caps (w : W) :
  let m := queryDeviceWithCapabilitiesAndClient getenv ip profile vendorHint timeoutSeconds caps in
  calls_ok (query_ok ip profile vendorHint caps) [] (trace m w) /\ left_closed (trace m w).
Proof. cbv zeta. destruct (query_asks ip profile vendorHint caps getenv timeoutSeconds w) as [Hc [Hl _]]. done. Qed.

(** A query that succeeds returns at least one object, and only objects that the
    device delivered to it, under the address, profile and hint that were given. *)
Theorem results_delivered getenv ip profile vendorHint timeoutSeconds caps (w : W) q :
  let m := queryDeviceWithCapabilitiesAndClient getenv ip profile vendorHint timeoutSeconds caps in
  value m w = Ok q ->
  IP q = ip /\ Profile q = profile /\ VendorHint q = vendorHint /\
  Result_PDUs q <> [] /\ Forall (delivered (trace m w)) (Result_PDUs q).
Proof.
  cbv zeta. intros Hq. destruct (query_asks ip profile vendorHint caps getenv timeoutSeconds w) as [_ [_ Hr]].
  by apply Hr.
Qed.
End Properties.

(** ** Runs *)

(** A device that answers every request with the same objects, under a context that
    stays open. *)
Definition steady_device (vars : list SnmpPDU) : @SnmpEnv unit :=
  {| Connect _ w := (None, w); Done w := (None, w); Get _ w := (Ok (Some vars), w);
     Walk _ w := ((map (fun v => (v, None)) vars, None), w); Close w := (tt, w) |}.

Definition one_serial : list SnmpPDU :=
  [{| Name := ".1.3.6.1.2.1.43.5.1.1.17.1"; Value := VString "ABC" |}].

Lemma full_query_bounded_witness :
  let run := @QueryDevice _ _ (steady_device one_serial) (fun _ => "") "10.0.0.1" QueryFull "" 0 in
  exists q, value run tt = Ok q /\ (Z.of_nat (length (Result_PDUs q)) <= 10002)%Z.
Proof.
  eexists. split; [vm_compute; reflexivity|].
  eapply (@full_query_bounded _ _ (steady_device one_serial) (fun _ => "") "10.0.0.1" "" 0 _ tt).
  vm_compute. reflexivity.
Defined.

Lemma results_delivered_witness :
  let run := @queryDeviceWithCapabilitiesAndClient _ _ (steady_device one_serial)
    (fun _ => "") "10.0.0.1" QueryMinimal "" 0 None in
  exists q, value run tt = Ok q /\ Result_PDUs q <> [].
Proof.
  eexists. split; [vm_compute; reflexivity|].
  eapply (@results_delivered _ _ (steady_device one_serial) (fun _ => "") "10.0.0.1" QueryMinimal "" 0 None tt).
  vm_compute. reflexivity.
Defined.

(** The two standard roots of a full walk overlap: the printer objects are walked twice. *)
Lemma roots_overlap sysObjectID :
  exists r1 r2 rest, full_roots sysObjectID = r1 :: r2 :: rest /\ HasPrefix r2 (r1 +:+ ".")%string = true.
Proof. eexists _, _, _. split; [reflexivity | reflexivity]. Qed.

(** An essential query gets the column of the page counter, not the instance that the
    modules list among their metrics. *)
Lemma essential_gets_a_column :
  Oids.PrtMarkerLifeCount ∈ buildQueryOIDsWithModule QueryEssential None GenericVendor /\
  life_count ∉ buildQueryOIDsWithModule QueryEssential None GenericVendor /\
  life_count ∈ MetricOIDs GenericVendor None.
Proof.
  split_and!; apply (bool_decide_unpack _); by vm_compute.
Qed.
