(* ===== verification/ScanPipeline.v ===== *)
(** * Discovery: the stages of a scan and their composition ([agent/scanner/pipeline.go],
    [agent/scanner_api.go]).

    ScanPool has the goroutines and channels; here are what the workers of each stage do
    with an item, the chains that a quick and a full discovery set up, and what comes out
    of them. The functions of the configuration run in an arbitrary world. *)
From S2P Require Import Prelude GoStrings GoTime GoNet Effects RangeParser ScanPool Evidence CapabilityRegistry VendorModules SnmpQuery.
From Stdlib Require Import Ascii.

Open Scope string_scope.
Open Scope list_scope.

Section Scan.
Context `{GoUnicode} {World Cached : Type}.
Notation Info := (@Info Cached).

(** ** Data *)

(** [Meta] is an arbitrary value of the caller. *)
Record ScanJob := { Job_IP : string; Source : string; Meta : option Cached }.

Record LivenessResult := {
  Live_Job : ScanJob;
  Alive : bool;
  OpenPorts : list Z;
  Live_Err : option string;
}.

Record DetectionResult := {
  Det_Job : ScanJob;
  IsPrinter : bool;
  Det_Info : option Info;
  Det_Err : option string;
}.

Definition DetectAnswer : Type := option Info * bool * option string.
Definition DeepAnswer : Type := option QueryResult * option string.

Record ScannerConfig := {
  LivenessWorkers : Z;
  LivenessTimeout : Duration;
  LivenessPorts : list Z;
  DetectionWorkers : Z;
  cfg_DetectFunc : option (World -> ScanJob -> list Z -> DetectAnswer);
  ProbeFunc : option (World -> string -> list Z -> Duration -> list Z * option string);
  DeepScanWorkers : Z;
  cfg_DeepScanFunc : option (World -> DetectionResult -> DeepAnswer);
}.

(** What travels through the channels. The last stage sends results and errors. *)
Inductive Item :=
| IJob (j : ScanJob)
| ILive (l : LivenessResult)
| IDet (d : DetectionResult)
| IDeep (r : result string QueryResult).

(** ** The stages *)

(** [net.JoinHostPort] *)
Definition JoinHostPort (host port : string) : string :=
  if Contains host ":" then ("[" +:+ host +:+ "]:" +:+ port)%string else (host +:+ ":" +:+ port)%string.

(** [dial] is whether a connection is made in time. *)
Definition tcpProbe (dial : World -> string -> Duration -> bool) (w : World) (ip : string)
    (ports : list Z) (timeout : Duration) : list Z * option string :=
  (List.filter (fun p => dial w (JoinHostPort ip (pretty p)) timeout) ports, None).

Definition liveness_result (j : ScanJob) (answer : list Z * option string) : LivenessResult :=
  match answer with
  | (p :: ports, None) => {| Live_Job := j; Alive := true; OpenPorts := p :: ports; Live_Err := None |}
  | (_, err) => {| Live_Job := j; Alive := false; OpenPorts := []; Live_Err := err |}
  end.

(** A worker count that is not positive is replaced. *)
Definition worker_count (default n : Z) : nat := Z.to_nat (if (n <=? 0)%Z then default else n).

Variable dial : World -> string -> Duration -> bool.
Variable cfg : ScannerConfig.

Definition probe (w : World) (j : ScanJob) : list Z * option string :=
  let ports := match LivenessPorts cfg with [] => [80; 443; 9100]%Z | ports => ports end in
  let timeout := if (LivenessTimeout cfg <=? 0)%Z then (500 * Millisecond)%Z else LivenessTimeout cfg in
  match ProbeFunc cfg with
  | Some f => f w (Job_IP j) ports timeout
  | None => tcpProbe dial w (Job_IP j) ports timeout
  end.

Definition StartLivenessPool : Pool World Item :=
  {| watches := true; count := worker_count 10 (LivenessWorkers cfg);
     react x := match x with
                | IJob j => Ask (fun w => Some (ILive (liveness_result j (probe w j))))
                | _ => Skip
                end |}.

Definition detection_result (lr : LivenessResult) (answer : DetectAnswer) : DetectionResult :=
  {| Det_Job := Live_Job lr; IsPrinter := answer.1.2; Det_Info := answer.1.1; Det_Err := answer.2 |}.

Definition not_detected (lr : LivenessResult) : DetectionResult :=
  {| Det_Job := Live_Job lr; IsPrinter := false; Det_Info := None; Det_Err := None |}.

Definition StartDetectionPool : Pool World Item :=
  {| watches := true; count := worker_count 5 (DetectionWorkers cfg);
     react x := match x with
                | ILive lr =>
                    match cfg_DetectFunc cfg with
                    | None => Emit (IDet (not_detected lr))
                    | Some f => Ask (fun w => Some (IDet (detection_result lr (f w (Live_Job lr) (OpenPorts lr)))))
                    end
                | _ => Skip
                end |}.

(** An error is sent in place of a result; an absent result is not sent. *)
Definition deep_output (answer : DeepAnswer) : option (result string QueryResult) :=
  match answer with
  | (_, Some err) => Some (Err err)
  | (Some res, None) => Some (Ok res)
  | (None, None) => None
  end.

Definition StartDeepScanPool : Pool World Item :=
  {| watches := true; count := worker_count 5 (DeepScanWorkers cfg);
     react x := match x with
                | IDet dr =>
                    if negb (IsPrinter dr) then Skip
                    else match cfg_DeepScanFunc cfg with
                         | None => Skip
                         | Some f => Ask (fun w => IDeep <$> deep_output (f w dr))
                         end
                | _ => Skip
                end |}.

(** The goroutines that count what passes: they do not look at the context. *)
Definition tap : Pool World Item := {| watches := false; count := 1; react x := Emit x |}.

Definition quick_pools : list (Pool World Item) := [StartLivenessPool; StartDetectionPool].
Definition full_pools : list (Pool World Item) :=
  [StartLivenessPool; tap; StartDetectionPool; tap; StartDeepScanPool].

(** ** What the stages may give *)

Definition probed (j : ScanJob) (lr : LivenessResult) : Prop :=
  exists w, lr = liveness_result j (probe w j).

Definition detected (lr : LivenessResult) (dr : DetectionResult) : Prop :=
  match cfg_DetectFunc cfg with
  | None => dr = not_detected lr
  | Some f => exists w, dr = detection_result lr (f w (Live_Job lr) (OpenPorts lr))
  end.

Definition deep_scanned (dr : DetectionResult) (o : option (result string QueryResult)) : Prop :=
  match cfg_DeepScanFunc cfg with
  | Some f => if IsPrinter dr then exists w, o = deep_output (f w dr) else o = None
  | None => o = None
  end.

(** One stage at a time. *)
Lemma through_ask (p : Pool World Item) pools (f : World -> Item) x o :
  react p x = Ask (fun w => Some (f w)) ->
  through (p :: pools) x o <-> exists w : World, through pools (f w) o.
Proof.
  intros Hr. cbn [through]. unfold yields. rewrite Hr. split.
  - intros [[(w & ?) _]|(y & (w & [= ->]) & Ho)]; [done | by exists w].
  - intros (w & Ho). right. exists (f w). split; [by exists w | done].
Qed.

Lemma through_emit (p : Pool World Item) pools x y o :
  react p x = Emit y -> through (p :: pools) x o <-> through pools y o.
Proof.
  intros Hr. cbn [through]. unfold yields. rewrite Hr. split.
  - by intros [[? _]|(y' & [= ->] & Ho)].
  - intros Ho. right. by exists y.
Qed.

Lemma through_liveness pools j o :
  through (StartLivenessPool :: pools) (IJob j) o <-> exists lr, probed j lr /\ through pools (ILive lr) o.
Proof.
  rewrite (through_ask _ _ (fun w => ILive (liveness_result j (probe w j)))) by done. unfold probed.
  split; [intros (w & Ho); eauto | intros (lr & (w & ->) & Ho); eauto].
Qed.

Lemma through_detection pools lr o :
  through (StartDetectionPool :: pools) (ILive lr) o <-> exists dr, detected lr dr /\ through pools (IDet dr) o.
Proof.
  unfold detected. destruct (cfg_DetectFunc cfg) as [f|] eqn:Hf.
  - rewrite (through_ask _ _ (fun w => IDet (detection_result lr (f w (Live_Job lr) (OpenPorts lr)))))
      by (cbn; by rewrite Hf).
    split; [intros (w & Ho); eauto | intros (dr & (w & ->) & Ho); eauto].
  - rewrite (through_emit _ _ _ (IDet (not_detected lr))) by (cbn; by rewrite Hf).
    split; [eauto | by intros (dr & -> & Ho)].
Qed.

Lemma through_tap pools x o : through (tap :: pools) x o <-> through pools x o.
Proof. by apply through_emit. Qed.

Lemma through_deep dr o :
  through [StartDeepScanPool] (IDet dr) o <-> exists r, deep_scanned dr r /\ o = IDeep <$> r.
Proof.
  cbn [through]. unfold yields, deep_scanned. cbn. destruct (IsPrinter dr); cbn.
  2: { destruct (cfg_DeepScanFunc cfg); (split; [intros [[_ ->]|(y & ? & _)]; [by exists None | done] |
       intros (r & -> & ->); by left]). }
  destruct (cfg_DeepScanFunc cfg) as [f|].
  2: { split; [intros [[_ ->]|(y & ? & _)]; [by exists None | done] | intros (r & -> & ->); by left]. }
  split.
  - intros [[(w & Hw) ->]|(y & (w & Hw) & ->)]; exists (deep_output (f w dr)); (split; [by exists w | done]).
  - intros (r & (w & ->) & ->). destruct (deep_output (f w dr)) as [r|] eqn:Hr.
    + right. exists (IDeep r). split; [exists w; by rewrite Hr | done].
    + left. split; [exists w; by rewrite Hr | done].
Qed.

Lemma through_quick j o :
  through quick_pools (IJob j) o <-> exists lr dr, probed j lr /\ detected lr dr /\ o = Some (IDet dr).
Proof.
  unfold quick_pools. rewrite through_liveness. setoid_rewrite through_detection. cbn [through].
  naive_solver.
Qed.

Lemma through_full j o :
  through full_pools (IJob j) o <->
  exists lr dr r, probed j lr /\ detected lr dr /\ deep_scanned dr r /\ o = IDeep <$> r.
Proof.
  unfold full_pools. rewrite through_liveness. setoid_rewrite through_tap.
  setoid_rewrite through_detection. setoid_rewrite through_tap. setoid_rewrite through_deep.
  naive_solver.
Qed.
End Scan.

(** ** Discovery ([scanner_api.go]) *)

Section Discovery.
Context `{GoUnicode} {W Cached : Type} `{!@SnmpEnv W}.
Notation Config := (@ScannerConfig W Cached).

(** The addresses of the ranges; a range that does not parse is skipped. [None]: the
    parser does not return. *)
Fixpoint gather (fuel : nat) (ranges : list string) : option (list string) :=
  match ranges with
  | [] => Some []
  | r :: rest =>
      '(parsed, err) ← ParseRangeText fuel r 10000;
      ips ← gather fuel rest;
      Some (match err : option string with None => IPs parsed | Some _ => [] end ++ ips)
  end.

(** Without ranges the first local subnet is scanned. *)
Definition ranges_or_subnet (ranges : list string) (subnets : result string (list string)) :
    result string (list string) :=
  match ranges with
  | [] =>
      match subnets with
      | Ok (s :: _) => Ok [s]
      | _ => Err "no ranges provided and could not auto-detect subnet"
      end
  | _ => Ok ranges
  end.

Definition discovery_ips (fuel : nat) (ranges : list string) (subnets : result string (list string)) :
    option (result string (list string)) :=
  match ranges_or_subnet ranges subnets with
  | Err e => Some (Err e)
  | Ok ranges =>
      ips ← gather fuel ranges;
      Some (match ips with [] => Err "no IPs to scan after parsing ranges" | _ => Ok ips end)
  end.

Definition job_of (source ip : string) : @ScanJob Cached :=
  {| Job_IP := ip; Source := source; Meta := None |}.

(** The functions of [detector.go] as functions of the configuration. *)
Definition detect_with (getenv : string -> string) (d : @DetectorConfig Cached) (w : W)
    (j : @ScanJob Cached) (ports : list Z) : DetectAnswer :=
  (value (DetectFunc getenv d (Job_IP j) ports) w, None).

Definition deep_with (getenv : string -> string) (d : @DetectorConfig Cached) (w : W)
    (dr : @DetectionResult Cached) : DeepAnswer :=
  match value (DeepScanFunc getenv d (Job_IP (Det_Job dr)) (Det_Info dr)) w with
  | Ok q => (Some q, None)
  | Err e => (None, Some e)
  end.

Definition quick_config (concurrency : Z) (getenv : string -> string) (d : @DetectorConfig Cached) : Config :=
  {| LivenessWorkers := concurrency; LivenessTimeout := (500 * Millisecond)%Z;
     LivenessPorts := [9100; 80; 443]%Z; DetectionWorkers := 10;
     cfg_DetectFunc := Some (detect_with getenv d); ProbeFunc := None; DeepScanWorkers := 0;
     cfg_DeepScanFunc := None |}.

Definition with_timeout (t : Z) (d : @DetectorConfig Cached) : @DetectorConfig Cached :=
  {| SavedDeviceChecker := SavedDeviceChecker d; SNMPTimeout := t; SkipSavedDevices := SkipSavedDevices d |}.

Definition full_config (snmpEnabled : bool) (concurrency : Z) (getenv : string -> string)
    (d : @DetectorConfig Cached) : Config :=
  {| LivenessWorkers := concurrency; LivenessTimeout := (500 * Millisecond)%Z;
     LivenessPorts := [9100; 80; 443; 515; 631]%Z; DetectionWorkers := Z.quot concurrency 5;
     cfg_DetectFunc := Some (detect_with getenv d); ProbeFunc := None;
     DeepScanWorkers := Z.quot concurrency 10;
     cfg_DeepScanFunc := Some (deep_with getenv (with_timeout (if snmpEnabled then 30%Z else 5%Z) d)) |}.

(** The saved devices by address, and the detector that uses them without SNMP. *)
Definition detector_config (saved : gmap string Cached) (snmpEnabled : bool) (timeout : Z) :
    @DetectorConfig Cached :=
  {| SavedDeviceChecker := Some (fun ip => saved !! ip); SNMPTimeout := timeout;
     SkipSavedDevices := negb snmpEnabled |}.

(** The scan that [Discover] starts: its addresses, its source and its stages. *)
Record Plan := { plan_ips : list string; plan_source : string; plan_pools : list (Pool W (@Item Cached)) }.

Definition plan_jobs (p : Plan) : list (@Item Cached) :=
  map (fun ip => IJob (job_of (plan_source p) ip)) (plan_ips p).

(** [None]: a range does not end; [scanning]: the switch [ip_scanning_enabled]. *)
Definition Discover (dial : W -> string -> Duration -> bool) (getenv : string -> string) (fuel : nat)
    (scanning : bool) (subnets : result string (list string)) (saved : gmap string Cached)
    (ranges : list string) (mode : string) (snmpEnabled : bool) (concurrency timeout : Z) :
    option (result string Plan) :=
  if negb scanning then Some (Err "ip scanning is disabled in agent settings")
  else
    let concurrency := if (concurrency <=? 0)%Z then 50%Z else concurrency in
    let timeout := if (timeout <=? 0)%Z then 5%Z else timeout in
    let d := detector_config saved snmpEnabled timeout in
    let start prefix source pools :=
      r ← discovery_ips fuel ranges subnets;
      Some (match r with
            | Err e => Err (prefix +:+ e)%string
            | Ok ips => Ok {| plan_ips := ips; plan_source := source; plan_pools := pools |}
            end) in
    if String.eqb mode "quick" then
      start "quick discovery failed: " "quick-discovery" (quick_pools dial (quick_config concurrency getenv d))
    else if String.eqb mode "full" then
      start "full discovery failed: " "full-discovery"
        (full_pools dial (full_config snmpEnabled concurrency getenv d))
    else Some (Err ("invalid discovery mode: " +:+ mode +:+ " (must be 'quick' or 'full')")%string).

(** What the loops over the last channels keep: detections of printers with the result
    of a query; deep scans without an error. *)
Definition quick_kept (x : @Item Cached) : option QueryResult :=
  match x with
  | IDet dr => if IsPrinter dr then match Det_Info dr with Some (QueryInfo q) => Some q | _ => None end else None
  | _ => None
  end.

Definition full_kept (x : @Item Cached) : option QueryResult :=
  match x with IDeep (Ok q) => Some q | _ => None end.
End Discovery.

(** ** Properties *)

Section Properties.
Context `{GoUnicode} {World Cached : Type}.
Variable dial : World -> string -> Duration -> bool.
Variable cfg : @ScannerConfig World Cached.
Notation Item := (@Item Cached).
Notation run input pools := (reachable (World := World) (map IJob input) pools).

Lemma worker_count_pos default n : (0 < default)%Z -> (0 < worker_count default n)%nat.
Proof. unfold worker_count. intros Hd. destruct (Z.leb_spec n 0); lia. Qed.

Lemma quick_pools_staffed : Forall (fun p => 0 < count p)%nat (quick_pools dial cfg).
Proof. repeat constructor; simpl; apply worker_count_pos; lia. Qed.

Lemma full_pools_staffed : Forall (fun p => 0 < count p)%nat (full_pools dial cfg).
Proof. repeat constructor; simpl; try (apply worker_count_pos; lia); lia. Qed.

Lemma Forall2_split3 {A B C D} (R : A -> D -> Prop) (P : A -> B -> Prop) (Q : B -> C -> Prop)
    (S : C -> D -> Prop) l k :
  (forall a d, R a d -> exists b c, P a b /\ Q b c /\ S c d) -> Forall2 R l k ->
  exists bs cs, Forall2 P l bs /\ Forall2 Q bs cs /\ Forall2 S cs k.
Proof.
  intros HR. induction 1 as [|a d l k Had _ (bs & cs & H1 & H2 & H3)].
  - exists [], []. by repeat constructor.
  - destruct (HR _ _ Had) as (b & c & Hab & Hbc & Hcd). exists (b :: bs), (c :: cs).
    by repeat constructor.
Qed.

Lemma Forall2_map_l {A B C} (f : A -> B) (R : B -> C -> Prop) l k :
  Forall2 R (map f l) k <-> Forall2 (fun a c => R (f a) c) l k.
Proof. apply Forall2_fmap_l. Qed.

(** C34: A full discovery that ends without having been cancelled has probed every
    address once, detected on every probe once and scanned every detection once: its
    results are those of the scans of the detected printers, in some order, and nothing
    else. *)
Theorem full_discovery_complete input s :
  run input (full_pools dial cfg) s -> returned s = true -> ScanPool.cancelled s = false ->
  exists lrs drs rs,
    Forall2 (probed dial cfg) input lrs /\ Forall2 (detected cfg) lrs drs /\
    Forall2 (deep_scanned cfg) drs rs /\ results s ≡ₚ IDeep <$> omap id rs.
Proof.
  intros Hr Hret Hc.
  destruct (returned_results _ _ _ Hr full_pools_staffed Hret Hc) as (fates & Hf & Hp).
  apply (proj1 (Forall2_map_l IJob _ _ _)) in Hf.
  assert (Hsplit : Forall2 (fun j o => exists lr dr r, probed dial cfg j lr /\ detected cfg lr dr /\
    (deep_scanned cfg dr r /\ o = IDeep <$> r)) input fates).
  { eapply Forall2_impl; [exact Hf|]. intros j o Ho. apply through_full in Ho. naive_solver. }
  apply (Forall2_split3 _ (probed dial cfg) (detected cfg)
    (fun dr o => exists r, deep_scanned cfg dr r /\ o = IDeep <$> r)) in Hsplit as (lrs & drs & H1 & H2 & H3).
  2: { intros j o (lr & dr & r & ?). naive_solver. }
  assert (Hrs : exists rs, Forall2 (deep_scanned cfg) drs rs /\ fates = map (fun r => @IDeep Cached <$> r) rs).
  { clear -H3. induction H3 as [|dr o drs fates (r & Hr & ->) _ (rs & Hrs & ->)]; [by exists []|].
    exists (r :: rs). by split; [constructor|]. }
  destruct Hrs as (rs & H4 & ->). exists lrs, drs, rs. split_and!; [done..|]. rewrite Hp.
  apply reflexive_eq. clear. induction rs as [|[r|] rs IH]; csimpl; [done | by rewrite IH | done].
Qed.

(** A quick discovery that ends without having been cancelled has probed every
    address once and detected on every probe once: its results are the detections, one
    for each address, in some order. *)
Theorem quick_discovery_complete input s :
  run input (quick_pools dial cfg) s -> returned s = true -> ScanPool.cancelled s = false ->
  exists lrs drs,
    Forall2 (probed dial cfg) input lrs /\ Forall2 (detected cfg) lrs drs /\
    results s ≡ₚ IDet <$> drs.
Proof.
  intros Hr Hret Hc.
  destruct (returned_results _ _ _ Hr quick_pools_staffed Hret Hc) as (fates & Hf & Hp).
  apply (proj1 (Forall2_map_l IJob _ _ _)) in Hf.
  apply (Forall2_split3 _ (probed dial cfg) (detected cfg) (fun dr o => o = Some (IDet dr))) in Hf
    as (lrs & drs & H1 & H2 & H3).
  2: { intros j o (lr & dr & ?)%through_quick. by exists lr, dr. }
  exists lrs, drs. split_and!; [done..|]. rewrite Hp. apply reflexive_eq.
  clear -H3. induction H3 as [|dr o drs fates -> _ IH]; csimpl; [done | by rewrite IH].
Qed.

(** The items found belong to different jobs, and each is one that its job gives. *)
Definition reported (gives : @ScanJob Cached -> Item -> Prop) (input : list (@ScanJob Cached)) (found : list Item) : Prop :=
  exists fates, Forall2 (fun j o => forall z, o = Some z -> gives j z) input fates /\ found ⊆+ omap id fates.

Lemma reachable_reported pools (gives : @ScanJob Cached -> Item -> Prop) input s :
  (forall j z, through pools (IJob j) (Some z) -> gives j z) ->
  run input pools s -> reported gives input (results s).
Proof.
  intros Hg (fates & Hf & Hs)%reachable_results_sound. exists fates. split; [|done].
  apply (proj1 (Forall2_map_l IJob _ _ _)) in Hf. eapply Forall2_impl; [exact Hf|].
  intros j o Ho z ->. by apply Hg.
Qed.

(** C35: Whatever the goroutines do in which order, and however a discovery is cancelled,
    no goroutine sends on a closed channel, and the results at any time belong to
    different jobs: each is a detection, in a full discovery a deep scan, that its job's
    own probe and detection led to. None is reported twice and none made up. *)
Theorem scan_results_sound input s :
  (run input (quick_pools dial cfg) s -> ~ panics s /\
     reported (fun j z => exists lr dr, probed dial cfg j lr /\ detected cfg lr dr /\ z = IDet dr) input (results s)) /\
  (run input (full_pools dial cfg) s -> ~ panics s /\
     reported (fun j z => exists lr dr r, probed dial cfg j lr /\ detected cfg lr dr /\
       deep_scanned cfg dr (Some r) /\ z = IDeep r) input (results s)).
Proof.
  split; intros Hr; (split; [by eapply reachable_no_panic|]); eapply reachable_reported; try exact Hr; intros j z Hz.
  - apply through_quick in Hz as (lr & dr & ? & ? & [= ->]). eauto.
  - apply through_full in Hz as (lr & dr & r & ? & ? & ? & Hz). destruct r as [r|]; [|done].
    injection Hz as ->. eauto 8.
Qed.

(** C36: Every scan ends: from every state, whatever is scheduled next and whether or not
    it is cancelled on the way, the loop over the last channel ends after finitely many
    steps, if the functions of the configuration return. *)
Theorem discovery_returns (w : World) input s pools :
  pools = quick_pools dial cfg \/ pools = full_pools dial cfg ->
  run input pools s -> always_reaches (fun s' => returned s' = true) s.
Proof. intros Hp Hr. eapply reachable_returns; [exact w | exact Hr|]. by destruct Hp as [-> | ->]. Qed.
End Properties.

(** *** Addresses *)

Lemma parsed_bounded fuel r parsed err :
  ParseRangeText fuel r 10000 = Some (parsed, err) ->
  NoDup (IPs parsed) /\ (Z.of_nat (length (IPs parsed)) <= 10000)%Z.
Proof.
  unfold ParseRangeText. intros Hp.
  pose proof (parse_lines_within fuel 10000 1 (Split r "010"%char) init_state
    ltac:(lia) (within_init 10000 ltac:(lia))) as Hw.
  destruct (parse_lines _ _ _ _ _); try done; injection Hp as <- <-;
    destruct Hw as [(Hc & Hnd & _) Hle]; (split; [done | lia]).
Qed.

Lemma gather_bounded fuel ranges ips :
  gather fuel ranges = Some ips ->
  (Z.of_nat (length ips) <= 10000 * Z.of_nat (length ranges))%Z.
Proof.
  revert ips. induction ranges as [|r ranges IH]; intros ips Hg; cbn [gather] in Hg.
  { injection Hg as <-. done. }
  apply bind_Some in Hg as ([parsed err] & Hp & Hg). apply bind_Some in Hg as (rest & Hr & Hg).
  injection Hg as <-. apply parsed_bounded in Hp as [_ Hp]. specialize (IH _ Hr).
  rewrite length_app. cbn [length]. destruct err; cbn [length]; lia.
Qed.

(** Ranges that overlap give an address twice, and it is scanned twice. *)
Lemma overlapping_ranges_scanned_twice :
  gather 100 ["10.0.0.1-2"; "10.0.0.2"] = Some ["10.0.0.1"; "10.0.0.2"; "10.0.0.2"].
Proof. vm_compute. reflexivity. Qed.

(** ** Runs *)

Section Runs.

(** One worker for each stage; every port is open and every host a printer whose deep
    scan fails. *)
Definition small_config : @ScannerConfig unit unit :=
  {| LivenessWorkers := 1; LivenessTimeout := 0; LivenessPorts := []; DetectionWorkers := 1;
     cfg_DetectFunc := Some (fun _ _ _ => (None, true, None)); ProbeFunc := None;
     DeepScanWorkers := 1; cfg_DeepScanFunc := Some (fun _ _ => (None, Some "timeout")) |}.

Definition any_port (_ : unit) (_ : string) (_ : Duration) : bool := true.
Definition one_job : list (@ScanJob unit) := [job_of "full-discovery" "10.0.0.1"].

Definition full_start := start (map IJob one_job) (full_pools any_port small_config).
Definition quick_start := start (map IJob one_job) (quick_pools any_port small_config).

Definition run_full : list (action unit) :=
  [Begin 0 0; Begin 2 0; Begin 4 0; Take 0; Reply 0 0 tt; Hand 0 0 0; Hand 1 0 0; Reply 2 0 tt;
   Hand 2 0 0; Hand 3 0 0; Reply 4 0 tt; Collect 0; Leave 0 0; ScanPool.Close 0; Leave 1 0; ScanPool.Close 1;
   Leave 2 0; ScanPool.Close 2; Leave 3 0; ScanPool.Close 3; Leave 4 0; ScanPool.Close 4; Return].

Definition run_quick : list (action unit) :=
  [Begin 0 0; Begin 1 0; Take 0; Reply 0 0 tt; Hand 0 0 0; Reply 1 0 tt; Collect 0;
   Leave 0 0; ScanPool.Close 0; Leave 1 0; ScanPool.Close 1; Return].

Lemma full_discovery_complete_witness :
  exists s, run_actions run_full full_start = Some s /\
    exists lrs drs rs,
      Forall2 (probed any_port small_config) one_job lrs /\ Forall2 (detected small_config) lrs drs /\
      Forall2 (deep_scanned small_config) drs rs /\ results s ≡ₚ IDeep <$> omap id rs.
Proof.
  eexists. split; [vm_compute; reflexivity|].
  apply full_discovery_complete; [|reflexivity..].
  apply (run_reachable _ _ run_full full_start); [constructor | vm_compute; reflexivity].
Defined.

Lemma quick_discovery_complete_witness :
  exists s, run_actions run_quick quick_start = Some s /\
    exists lrs drs,
      Forall2 (probed any_port small_config) one_job lrs /\ Forall2 (detected small_config) lrs drs /\
      results s ≡ₚ IDet <$> drs.
Proof.
  eexists. split; [vm_compute; reflexivity|].
  apply quick_discovery_complete; [|reflexivity..].
  apply (run_reachable _ _ run_quick quick_start); [constructor | vm_compute; reflexivity].
Defined.

(** A quick discovery that is cancelled after its first result. *)
Definition run_interrupted : list (action unit) :=
  [Begin 0 0; Begin 1 0; Take 0; Reply 0 0 tt; Hand 0 0 0; Reply 1 0 tt; Collect 0; Cancel].

Lemma scan_results_sound_witness :
  exists s, run_actions run_interrupted quick_start = Some s /\ ScanPool.cancelled s = true /\
    length (results s) = 1%nat /\ ~ panics s /\
    reported (fun j z => exists lr dr, probed any_port small_config j lr /\ detected small_config lr dr /\ z = IDet dr)
      one_job (results s).
Proof.
  eexists. split; [vm_compute; reflexivity|]. do 2 (split; [reflexivity|]).
  apply (scan_results_sound any_port small_config one_job).
  apply (run_reachable _ _ run_interrupted quick_start); [constructor | vm_compute; reflexivity].
Defined.

Lemma discovery_returns_witness : always_reaches (fun s => returned s = true) full_start.
Proof.
  apply (discovery_returns any_port small_config tt one_job _ (full_pools any_port small_config));
    [by right | constructor].
Defined.

(** A cancelled full discovery can end while the goroutine that counts the probes
    still sends: nobody receives, and it stays for ever. *)
Definition run_cancelled : list (action unit) :=
  [Begin 0 0; Take 0; Reply 0 0 tt; Hand 0 0 0; Cancel; Quit 0 0; Quit 2 0; Quit 4 0; ScanPool.Close 0;
   ScanPool.Close 2; Leave 3 0; ScanPool.Close 3; ScanPool.Close 4; Return].

Definition stuck (s : Pipeline unit (@Item unit)) : Prop := forall s', ~ step s s'.

Lemma cancelled_scan_leaks :
  exists s, reachable (map IJob one_job) (full_pools any_port small_config) s /\
    returned s = true /\ (exists y, worker_at s 1 0 = Some (Sending y)) /\ stuck s.
Proof.
  destruct (run_actions run_cancelled full_start) as [s|] eqn:Hs; [|by vm_compute in Hs].
  exists s. split; [by apply (run_reachable _ _ run_cancelled full_start); [constructor|]|].
  vm_compute in Hs. injection Hs as <-. split; [done|]. split; [by eexists|].
  intros s' [a Ha]. destruct a as [|i k|i k|k|i k w|i k l|i k|i|k|]; try done.
  all: try (destruct i as [|[|[|[|[|i]]]]]; destruct k as [|k]; done).
  - destruct i as [|[|[|[|[|i]]]]]; destruct k as [|k]; destruct l as [|l]; done.
  - destruct i as [|[|[|[|[|i]]]]]; done.
  - destruct k as [|k]; done.
Qed.
End Runs.

(** *** Saved devices *)

Section Saved.
Context `{GoUnicode} {W Cached : Type} `{!@SnmpEnv W}.

(** Without SNMP a saved device is taken from the cache, and the loop of a quick
    discovery, which keeps only results of queries, drops it. *)
Lemma saved_device_dropped getenv (saved : gmap string Cached) timeout c j ports (w : W) lr :
  saved !! Job_IP j = Some c ->
  quick_kept (IDet (detection_result lr
    (detect_with getenv (detector_config saved false timeout) w j ports))) = None.
Proof.
  intros Hc. unfold detect_with, DetectFunc, known_device, detector_config. cbn.
  by rewrite Hc.
Qed.
End Saved.
