(* ===== verification/PduText.v ===== *)
(** * Texts and integers of SNMP values ([common/util/helpers.go], [pduToString] of
    [agent/agent/helpers.go], [toInt] of [ParsePDUs]).

    Octet strings are decoded as UTF-8, or else as Latin-1; integers are read from
    numbers and texts in the syntax of [strconv.ParseInt]. *)
From S2P Require Import Prelude GoStrings GoNet GoFloat Evidence.
From Stdlib Require Import Ascii.

Open Scope string_scope.
Open Scope Z_scope.

(** ** UTF-8 ([unicode/utf8.Valid]) *)

Definition between (lo hi : Z) (c : ascii) : bool := (lo <=? byte_of c) && (byte_of c <=? hi).
Definition continuation : ascii -> bool := between 128 191.

(** The well-formed sequences: no overlong encodings, no surrogates, no runes above
    10FFFF. *)
Fixpoint utf8_valid (s : string) : bool :=
  match s with
  | EmptyString => true
  | String c1 s1 =>
      if byte_of c1 <? 128 then utf8_valid s1
      else match s1 with
      | EmptyString => false
      | String c2 s2 =>
          if between 194 223 c1 then continuation c2 && utf8_valid s2
          else match s2 with
          | EmptyString => false
          | String c3 s3 =>
              if between 224 239 c1 then
                between (if byte_of c1 =? 224 then 160 else 128) (if byte_of c1 =? 237 then 159 else 191) c2 &&
                continuation c3 && utf8_valid s3
              else match s3 with
              | EmptyString => false
              | String c4 s4 =>
                  between 240 244 c1 &&
                  between (if byte_of c1 =? 240 then 144 else 128) (if byte_of c1 =? 244 then 143 else 191) c2 &&
                  continuation c3 && continuation c4 && utf8_valid s4
              end
          end
      end
  end.

(** [string([]rune{rune(b), ...})]: a byte above 127 is two bytes. *)
Fixpoint latin1 (s : string) : string :=
  match s with
  | EmptyString => EmptyString
  | String c s' =>
      if byte_of c <? 128 then String c (latin1 s')
      else String (chr (192 + byte_of c / 64)) (String (chr (128 + byte_of c mod 64)) (latin1 s'))
  end.

(** ** [DecodeOctetString] *)

Definition printable (c : ascii) : bool :=
  (byte_of c =? 10) || (byte_of c =? 13) || (byte_of c =? 9) || (32 <=? byte_of c).

Fixpoint filter_bytes (f : ascii -> bool) (s : string) : string :=
  match s with
  | EmptyString => EmptyString
  | String c s' => if f c then String c (filter_bytes f s') else filter_bytes f s'
  end.

(** The bytes of a rune above 127 are above 31. *)
Definition sanitizeString (s : string) : string := TrimSpace (filter_bytes printable s).

Definition DecodeOctetString (b : string) : string :=
  sanitizeString (if utf8_valid b then b else latin1 b).

(** The text [fmt.Sprintf] gives for a value that is no integer and no text. *)
Class GoFormat := { format_other : string }.

Definition pduToString `{GoFormat} (v : PduValue) : string :=
  match v with
  | VNil => ""
  | VBytes b => DecodeOctetString b
  | VString s => s
  | VInt z | VInt32 z | VInt64 z | VUint z | VUint32 z | VUint64 z => pretty z
  | VOther => format_other
  end.

(** ** [strconv.ParseInt(s, 0, 64)] *)

Definition digit_in (base : Z) (c : ascii) : option Z :=
  match hex_digit c with Some d => if d <? base then Some d else None | None => None end.

(** The digits, with underscores skipped. *)
Fixpoint digits_in (base acc : Z) (s : string) : option Z :=
  match s with
  | EmptyString => Some acc
  | String c s' =>
      if Ascii.eqb c "_" then digits_in base acc s'
      else match digit_in base c with Some d => digits_in base (acc * base + d) s' | None => None end
  end.

(** [underscoreOK], after the sign and the prefix of the base: an underscore follows a
    digit (or the prefix) and precedes one. *)
Fixpoint underscores_ok (hex digit_before : bool) (s : string) : bool :=
  match s with
  | EmptyString => true
  | String c s' =>
      if Ascii.eqb c "_" then
        digit_before && match s' with
                        | String d _ => match digit_in (if hex then 16 else 10) d with Some _ => true | None => false end
                        | EmptyString => false
                        end && underscores_ok hex false s'
      else underscores_ok hex (match digit_in (if hex then 16 else 10) c with Some _ => true | None => false end) s'
  end.

(** The base of an unsigned literal, its digits, and whether there was a prefix. *)
Definition literal_base (s : string) : Z * string * bool :=
  match s with
  | String "0" (String x (String _ _ as rest)) =>
      if Ascii.eqb (lower_byte x) "b" then (2, rest, true)
      else if Ascii.eqb (lower_byte x) "o" then (8, rest, true)
      else if Ascii.eqb (lower_byte x) "x" then (16, rest, true)
      else (8, String x rest, false)
  | String "0" rest => (8, rest, false)
  | _ => (10, s, false)
  end.

Definition parse_uint0 (s : string) : option Z :=
  match s with
  | EmptyString => None
  | _ =>
      let '(base, digits, prefixed) := literal_base s in
      v ← digits_in base 0 digits;
      if underscores_ok (base =? 16) (prefixed || (base =? 8)) digits then Some v else None
  end.

Definition ParseInt0 (s : string) : option Z :=
  let '(neg, body) :=
    match s with String "-" t => (true, t) | String "+" t => (false, t) | _ => (false, s) end in
  v ← parse_uint0 body;
  let v := if (neg : bool) then - v else v in
  if (int64_min <=? v) && (v <=? int64_max) then Some v else None.

(** ** [CoerceToInt] *)

Definition parseStringInt (s : string) : option Z :=
  let s := TrimSpace s in
  if String.eqb s "" then None
  else
    match (if HasPrefix s "0x" || HasPrefix s "0X" then ParseInt0 s else None) with
    | Some i => Some i
    | None => match ParseInt10 s with Some i => Some i | None => ParseInt0 s end
    end.

Definition CoerceToInt (v : PduValue) : option Z :=
  match v with
  | VInt z | VInt32 z | VInt64 z | VUint32 z => Some z
  | VUint z | VUint64 z => Some (wrap64 z)
  | VString s | VBytes s => parseStringInt s
  | VNil | VOther => None
  end.

(** [toInt] of [ParsePDUs]: an [int64] is in the range of [int]. *)
Definition toInt (v : PduValue) : option Z := CoerceToInt v.

(** ** Correctness of the decoding *)

Lemma filter_bytes_all f s : all_bytes f (filter_bytes f s) = true.
Proof. induction s as [|c s IH]; simpl; [done|]. destruct (f c) eqn:Hf; simpl; by rewrite ?Hf. Qed.

Lemma TrimSpace_keeps f s : all_bytes f s = true -> all_bytes f (TrimSpace s) = true.
Proof. apply TrimSpace_all. Qed.

(** No control byte is left, apart from line ends and tabs. *)
Lemma DecodeOctetString_printable b : all_bytes printable (DecodeOctetString b) = true.
Proof. apply TrimSpace_keeps, filter_bytes_all. Qed.

Lemma filter_bytes_id f s : all_bytes f s = true -> filter_bytes f s = s.
Proof.
  induction s as [|c s IH]; simpl; [done|]. intros [Hc Hs]%andb_true_iff. by rewrite Hc, IH.
Qed.

Lemma is_ascii_utf8 s : is_ascii s = true -> utf8_valid s = true.
Proof. induction s as [|c s IH]; simpl; [done|]. intros [-> Hs]%andb_true_iff. by apply IH. Qed.

(** The fallback always gives UTF-8: what it produces is not decoded a second time. *)
Lemma latin1_utf8 s : utf8_valid (latin1 s) = true.
Proof.
  induction s as [|c s IH]; [done|]. cbn [latin1]. destruct (byte_of c <? 128) eqn:Hc.
  - cbn [utf8_valid]. by rewrite Hc.
  - revert IH Hc. generalize (latin1 s). intros t Ht.
    destruct c as [[] [] [] [] [] [] [] []]; first [done | intros _; vm_compute; exact Ht].
Qed.
