(* ===== verification/DeviceText.v ===== *)
(** * Texts that a device reports about itself ([agent/agent/parse.go]: the helpers of
    [ParsePDUs]): IEEE-1284 descriptors, addresses, masks, and what is taken for an
    identifier, an object id or the number of a supply. *)
From S2P Require Import Prelude GoStrings GoNet GoFloat Evidence VendorParse.
From Stdlib Require Import Ascii.

Open Scope string_scope.
Open Scope Z_scope.
Open Scope list_scope.

Section Text.
Context `{GoUnicode}.

(** ** Descriptors *)

(** [key:value] or [key=value], between semicolons; a later field replaces an earlier. *)
Definition payload_field (part : string) : option (string * string) :=
  let part := TrimSpace part in
  if String.eqb part "" then None
  else
    sepIdx ← IndexAny part [":"; "="]%char;
    let key := ToLower (TrimSpace (stake sepIdx part)) in
    let val := TrimSpace (sdrop (S sepIdx) part) in
    if String.eqb key "" || String.eqb val "" then None else Some (key, val).

Definition parseDeviceIDPayload (raw : string) : gmap string string :=
  foldl (fun fields part =>
    match payload_field part with Some (key, val) => <[key := val]> fields | None => fields end)
    ∅ (Split raw ";").

Fixpoint firstNonEmpty (vals : list string) : string :=
  match vals with
  | [] => ""
  | v :: rest => if String.eqb (TrimSpace v) "" then firstNonEmpty rest else TrimSpace v
  end.

(** The first of some fields that has a value. *)
Definition first_field (fields : gmap string string) (keys : list string) : string :=
  firstNonEmpty (map (fun k => default "" (fields !! k)) keys).

(** ** Addresses *)

(** A component of an address: what [Atoi] reads, from 0 to 255. *)
Definition octet (part : string) : option Z :=
  let '(v, ok) := Atoi part in
  if (ok : bool) && (0 <=? v) && (v <=? 255) then Some v else None.

(** The last four components of an object id. *)
Definition extractIPv4FromOID (oid : string) : option string :=
  let parts := Split (TrimPrefix oid ".") "." in
  nums ← mapM octet (drop (length parts - 4) parts);
  if (length parts <? 4)%nat then None else Some (Join (map pretty nums) ".").

Definition isValidIPv4 (ip : string) : bool :=
  if String.eqb ip "" || String.eqb ip "0.0.0.0" then false
  else
    let parts := Split ip "." in
    Nat.eqb (length parts) 4 && forallb (fun part => bool_decide (is_Some (octet part))) parts.

(** [binary |= uint32(num) << uint(24-i*8)] *)
Definition mask_bits (nums : list Z) : Z :=
  foldl (fun binary '(i, num) => Z.lor binary (wrapU32 (Z.shiftl num (24 - i * 8)))) 0
    (zip (seqZ 0 (Z.of_nat (length nums))) nums).

(** [^x] for [uint32] *)
Definition invert32 (x : Z) : Z := 2 ^ 32 - 1 - x.

Definition isValidSubnetMask (mask : string) : bool :=
  if negb (isValidIPv4 mask) then false
  else
    match mapM octet (Split mask ".") with
    | Some nums =>
        let inverted := invert32 (mask_bits nums) in
        Z.land inverted (wrapU32 (inverted + 1)) =? 0
    | None => false
    end.

Definition separator (c : ascii) : bool := bool_decide (c ∈ [":"; "-"; "."; " "]%char).

Fixpoint without (cut : ascii -> bool) (s : string) : string :=
  match s with
  | EmptyString => EmptyString
  | String c s' => if cut c then without cut s' else String c (without cut s')
  end.

Definition isValidMACAddress (mac : string) : bool :=
  let cleaned := without separator mac in
  negb (String.eqb mac "") && Nat.eqb (String.length cleaned) 12 &&
  all_bytes (fun c => bool_decide (is_Some (hex_digit c))) cleaned.

Inductive field_type := FIp | FSubnet | FMac.

Definition normalizeNetworkValue (value : string) (fieldType : field_type) : string :=
  let value := Trim (Ascii.eqb (chr 34)) (TrimSpace value) in
  if match fieldType with
     | FIp => isValidIPv4 value
     | FSubnet => isValidSubnetMask value
     | FMac => isValidMACAddress value
     end
  then value else "".

(** ** What is no serial number *)

Fixpoint count_byte (c : ascii) (s : string) : Z :=
  match s with
  | EmptyString => 0
  | String d s' => (if Ascii.eqb d c then 1 else 0) + count_byte c s'
  end.

Definition lower_letter (c : ascii) : bool := (97 <=? byte_of c) && (byte_of c <=? 122).

Definition looksLikeUUID (s : string) : bool :=
  let s := ToLower (TrimSpace s) in
  let n := Z.of_nat (String.length s) in
  negb (Contains s " ") && (20 <=? n) && (n <=? 64) && (3 <=? count_byte "-" s) &&
  all_bytes (fun c => is_digit c || lower_letter c || Ascii.eqb c "-") s.

Definition looksLikeOID (s : string) : bool :=
  let s := TrimSpace s in
  (5 <=? String.length s)%nat &&
  let s := TrimPrefix s "." in
  all_bytes (fun c => is_digit c || Ascii.eqb c ".") s &&
  (2 <=? count_byte "." s) && (count_byte "." s <? Z.of_nat (String.length s) - count_byte "." s).

Definition starts_with_digit (s : string) : bool :=
  match s with String c _ => is_digit c | EmptyString => false end.

Definition looksLikeSupplyModel (s : string) : bool :=
  let s := ToUpper (TrimSpace s) in
  existsb (HasPrefix s) ["TK-"; "TN-"; "DR-"] ||
  ((4 <=? String.length s)%nat && existsb (HasPrefix s) ["CF"; "CE"; "Q"] &&
   starts_with_digit (if HasPrefix s "Q" then sdrop 1 s else sdrop 2 s)) ||
  existsb (HasPrefix s) ["GPR-"; "CRG-"] ||
  existsb (HasPrefix s) ["50F"; "60F"; "70C"] ||
  existsb (Contains (ToLower s)) ["toner"; "cartridge"; "drum"; "waste"].
End Text.

(** ** Subnet masks: ones, then zeros *)

Lemma pos_land_succ p : Pos.land p (Pos.succ p) = 0%N -> exists k, Zpos (Pos.succ p) = 2 ^ Z.of_nat k.
Proof.
  induction p as [p IH|p _|]; simpl; intros Hl.
  - change (Pos.Ndouble (Pos.land p (Pos.succ p)) = 0%N) in Hl.
    destruct (Pos.land p (Pos.succ p)) eqn:He; [|done]. destruct IH as [k Hk]; [done|].
    exists (S k). rewrite Nat2Z.inj_succ, Z.pow_succ_r by lia. lia.
  - change (Pos.Ndouble (Pos.land p p) = 0%N) in Hl.
    assert (Pos.land p p = Npos p) as He by apply (N.land_diag (Npos p)). by rewrite He in Hl.
  - by exists 1%nat.
Qed.

Lemma pos_land_pow p k : Zpos (Pos.succ p) = 2 ^ Z.of_nat k -> Pos.land p (Pos.succ p) = 0%N.
Proof.
  revert k. induction p as [p IH|p _|]; simpl; intros k Hk; [|exfalso|done].
  - destruct k as [|k]; [done|]. rewrite Nat2Z.inj_succ, Z.pow_succ_r in Hk by lia.
    change (Pos.Ndouble (Pos.land p (Pos.succ p)) = 0%N). rewrite (IH k) by lia. done.
  - destruct k as [|k]; [simpl in Hk; lia|]. rewrite Nat2Z.inj_succ, Z.pow_succ_r in Hk by lia. lia.
Qed.

(** The test on the inverted mask. *)
Lemma land_succ_pow x :
  0 <= x < 2 ^ 32 ->
  (Z.land x (wrapU32 (x + 1)) =? 0) = true <-> exists n, 0 <= n <= 32 /\ x + 1 = 2 ^ n.
Proof.
  intros Hx. rewrite Z.eqb_eq. destruct (Z.eq_dec x (2 ^ 32 - 1)) as [->|Hne].
  { split; [intros _; by exists 32 | done]. }
  rewrite wrapU32_id by lia. destruct x as [|p|p]; [|clear Hne|lia].
  { split; [intros _; by exists 0 | done]. }
  replace (Zpos p + 1) with (Zpos (Pos.succ p)) by lia.
  change (Z.land (Zpos p) (Zpos (Pos.succ p))) with (Z.of_N (Pos.land p (Pos.succ p))).
  split.
  - intros Hl. destruct (pos_land_succ p) as [k Hk]; [by destruct (Pos.land _ _)|].
    exists (Z.of_nat k). split; [|done]. split; [lia|].
    apply (Z.pow_le_mono_r_iff 2); lia.
  - intros (n & Hn & He). rewrite (pos_land_pow p (Z.to_nat n)); [done|]. by rewrite Z2Nat.id by lia.
Qed.

(** The value of a mask as a number of 32 bits. *)
Definition mask_value (nums : list Z) : Z :=
  match nums with [a; b; c; d] => ((a * 256 + b) * 256 + c) * 256 + d | _ => 0 end.

Lemma octet_range part v : octet part = Some v -> 0 <= v <= 255.
Proof. unfold octet. destruct (Atoi part) as [z ok]. case_match eqn:Hc; [|done]. intros [= <-]. reflect_bools. lia. Qed.

Lemma mapM_octets parts nums : mapM octet parts = Some nums -> Forall (fun v => 0 <= v <= 255) nums.
Proof. intros Hm%mapM_Some. induction Hm as [|p v ps vs Hv _ IH]; constructor; [by eapply octet_range|done]. Qed.

Lemma mask_bits_value a b c d :
  Forall (fun v => 0 <= v <= 255) [a; b; c; d] -> mask_bits [a; b; c; d] = mask_value [a; b; c; d].
Proof.
  rewrite !Forall_cons. intros (Ha & Hb & Hc & Hd & _). unfold mask_bits, mask_value.
  change (seqZ 0 (Z.of_nat (length [a; b; c; d]))) with [0; 1; 2; 3]. simpl.
  change (24 - 0 * 8) with 24. change (24 - 1 * 8) with 16. change (24 - 2 * 8) with 8. change (24 - 3 * 8) with 0.
  rewrite !wrapU32_id by (rewrite Z.shiftl_mul_pow2 by lia; lia). rewrite Z.lor_0_l, Z.shiftl_0_r.
  rewrite <- !Z.lor_assoc, (lor_shiftl_low c d 8) by lia.
  rewrite (lor_shiftl_low b _ 16), (lor_shiftl_low a _ 24) by lia. lia.
Qed.

Lemma isValidIPv4_octets ip :
  isValidIPv4 ip = true -> exists a b c d, mapM octet (Split ip ".") = Some [a; b; c; d].
Proof.
  unfold isValidIPv4. destruct (_ || _); [done|]. intros [Hlen Hall]%andb_true_iff.
  apply Nat.eqb_eq in Hlen. rewrite forallb_elem_of in Hall.
  assert (exists nums, mapM octet (Split ip ".") = Some nums) as [nums Hn].
  { apply mapM_is_Some, Forall_forall. intros x Hx. by apply (bool_decide_eq_true_1 _), Hall. }
  rewrite Hn. apply mapM_Some, Forall2_length in Hn. rewrite Hlen in Hn.
  destruct nums as [|a [|b [|c [|d [|e nums]]]]]; try done. by exists a, b, c, d.
Qed.

(** A subnet mask is accepted exactly when it is an address whose 32 bits are ones
    followed by zeros. *)
Theorem isValidSubnetMask_iff mask :
  isValidSubnetMask mask = true <->
  isValidIPv4 mask = true /\
  exists nums n, mapM octet (Split mask ".") = Some nums /\ 0 <= n <= 32 /\ mask_value nums = 2 ^ 32 - 2 ^ n.
Proof.
  unfold isValidSubnetMask. destruct (isValidIPv4 mask) eqn:Hip; simpl; [|by split; [|intros [? _]]].
  apply isValidIPv4_octets in Hip as (a & b & c & d & Hm). rewrite Hm.
  pose proof (mapM_octets _ _ Hm) as Hr. rewrite (mask_bits_value a b c d Hr).
  assert (0 <= mask_value [a; b; c; d] < 2 ^ 32) as Hv.
  { rewrite !Forall_cons in Hr. destruct Hr as (? & ? & ? & ? & _). unfold mask_value. lia. }
  unfold invert32. rewrite land_succ_pow by lia. split.
  - intros (n & Hn & He). split; [done|]. exists [a; b; c; d], n. split_and!; [done|lia|lia|lia].
  - intros (_ & nums & n & [= <-] & Hn & He). exists n. split; [done|lia].
Qed.

(** What is reported as an address is one, or nothing. *)
Lemma normalizeNetworkValue_valid value :
  (normalizeNetworkValue value FIp = "" \/ isValidIPv4 (normalizeNetworkValue value FIp) = true) /\
  (normalizeNetworkValue value FSubnet = "" \/ isValidSubnetMask (normalizeNetworkValue value FSubnet) = true) /\
  (normalizeNetworkValue value FMac = "" \/ isValidMACAddress (normalizeNetworkValue value FMac) = true).
Proof. unfold normalizeNetworkValue. split_and!; case_match; auto. Qed.

(** Signs and leading zeros pass for an address. *)
Lemma signed_address_accepted :
  isValidIPv4 "+192.0168.-0.1" = true /\ ParseIP "+192.0168.-0.1" = None.
Proof. split; vm_compute; reflexivity. Qed.
