(* ===== verification/ParsePdus.v ===== *)
(** * What a device is, from the objects it delivered ([ParsePDUs] of
    [agent/agent/parse.go]).

    The local variables of the scan over the objects are a valuation of [var]; the
    provenance and the debug log, which do not reach the result, are left out. The
    loops over Go maps visit their entries in the order of a [MapOrder], at each place
    in the code its own. The probe of a web page is an argument. *)
From S2P Require Import Prelude Oids GoStrings GoNet GoFloat GoRegexp Evidence Detectors CapabilityRegistry Supplies VendorModules VendorParse PduText DeviceText.
From stdpp Require Import functions.
From Stdlib Require Import Ascii.

Open Scope string_scope.
Open Scope Z_scope.
Open Scope list_scope.

(** The order in which a loop, given by its place, visits a map. *)
Class MapOrder := {
  visit : forall {K A : Type} `{Countable K}, nat -> gmap K A -> list (K * A);
  visit_perm : forall {K A : Type} `{Countable K} n (m : gmap K A), visit n m ≡ₚ map_to_list m;
}.

(** Two orders, and a format that gives no text, for the examples. *)
#[export] Instance listed_order : MapOrder | 100.
Proof. refine {| visit := fun _ _ _ _ _ m => map_to_list m |}. done. Defined.

Definition reverse_order : MapOrder.
Proof. refine {| visit := fun _ _ _ _ _ m => reverse (map_to_list m) |}. intros. by rewrite reverse_Permutation. Defined.

#[export] Instance silent_format : GoFormat | 100 := {| format_other := EmptyString |}.

(** ** Patterns *)

Definition mfgRe : pat :=
  PSeq PWord (PSeq (PGroup (PAny
    [FoldText "hp";
     PSeq (FoldText "hewlett") (PSeq (PMaybe (POne (fun c => Ascii.eqb c "-" || white_byte c))) (FoldText "packard"));
     FoldText "canon"; FoldText "brother"; FoldText "epson"; FoldText "lexmark"; FoldText "kyocera";
     FoldText "konica"; FoldText "xerox"; FoldText "ricoh"; FoldText "sharp"; FoldText "okidata";
     FoldText "dell"; FoldText "minolta"; FoldText "toshiba"; FoldText "samsung"])) PWord).

Definition label_end : pat := PRun (fun c => Ascii.eqb c ":" || Ascii.eqb c "=" || white_byte c) 0 None.

Definition pidRe : pat :=
  PSeq PWord (PSeq (PAny
    [FoldText "pid"; FoldText "product"; FoldText "product id";
     PSeq (FoldText "model") (PMaybe (FoldText " name")); FoldText "model:"])
  (PSeq label_end
    (PGroup (Rep (FoldClass (fun c => alnum_byte c || Ascii.eqb c "-" || white_byte c)) 2 58)))).

Definition tag_class : pat := FoldClass (fun c => alnum_byte c || Ascii.eqb c "-").

Definition snRe : pat :=
  PSeq PWord (PSeq (PAny
    [FoldText "sn"; FoldText "s/n"; PSeq (FoldText "serial") (PMaybe (FoldText "number"));
     PSeq (FoldText "serial") (POne (fun c => Ascii.eqb c ":" || Ascii.eqb c "="))])
  (PSeq label_end (PGroup (Rep tag_class 4 36)))).

(** The asset pattern for a text of [n] bytes. Its backslashes are doubled inside a raw
    string, so they stand for themselves: the text must contain [\b] literally, and
    [\\s*] repeats the letter. A repetition takes at most [n] steps. *)
Definition backslash : pat := PText "\".
Definition defaultAssetRe (n : nat) : pat :=
  let letter_b := Fold "b" in
  PSeq backslash (PSeq letter_b (PSeq (PAny
    [PSeq (FoldText "asset") (PMaybe (PSeq backslash (PSeq (Upto (Fold "s") n) (FoldText "id"))));
     FoldText "asset#"; FoldText "asset:"; FoldText "tag"; FoldText "tag#"; FoldText "asset-num";
     FoldText "assetno"])
  (PSeq (Upto (PAny [POne (fun c => bool_decide (c ∈ ["\"; ":"; "#"; "-"]%char)); Fold "s"]) n)
  (PSeq (PGroup (Rep (FoldClass (fun c => alnum_byte c || Ascii.eqb c "\" || Ascii.eqb c "-")) 3 37))
  (PSeq backslash letter_b))))).

Definition epsonAssetRe : pat :=
  PSeq (FoldText "asset") (PSeq (PMaybe (PSeq (PRun white_byte 0 None) (FoldText "id")))
  (PSeq (PRun (fun c => white_byte c || bool_decide (c ∈ [":"; "#"; "-"]%char)) 0 None)
    (PGroup (Rep tag_class 3 37)))).

Definition epsonAssetRe2 : pat :=
  PSeq (FoldText "asset")
  (PSeq (Upto (FoldClass (fun c => word_byte c || white_byte c || bool_decide (c ∈ [":"; "#"; "-"]%char))) 20)
    (PGroup (Rep tag_class 3 37))).

Definition modelKeywords : list string :=
  ["laserjet"; "mfp"; "printer"; "series"; "deskjet"; "workcentre"; "color"; "mono"].

(** [m[1]] of [re.FindStringSubmatch(s)], when there is a match. *)
Definition first_group (p : pat) (s : string) : option string :=
  groups ← FindStringSubmatch p s; head groups.

(** ** Guesses from the texts *)

Section Parse.
Context `{GoUnicode} `{GoFormat}.

Notation text_of v := (pduToString (Value v)).
Notation name_of v := (TrimPrefix (Name v) ".").

Definition guess_model (sval : string) : string :=
  match first_group pidRe sval with
  | Some m => TrimSpace m
  | None =>
      if existsb (Contains (ToLower sval)) modelKeywords &&
         (3 <? Z.of_nat (String.length sval)) && (Z.of_nat (String.length sval) <? 120)
      then TrimSpace sval else ""
  end.

(** A text that could be a serial number. *)
Definition acceptable_serial (cand : string) : bool :=
  negb (looksLikeUUID cand) && negb (looksLikeOID cand) && negb (looksLikeSupplyModel cand).

Definition prtGeneralServicePerson : string := "1.3.6.1.2.1.43.5.1.1.16.1".

Definition guess_serial (name sval : string) : string :=
  if String.eqb name prtGeneralServicePerson then ""
  else
    match first_group snRe sval with
    | Some m => if acceptable_serial (TrimSpace m) then TrimSpace m else ""
    | None => ""
    end.

Record guesses := { mfgGuess0 : string; modelGuess : string; serialGuess : string }.
Definition no_guesses : guesses := {| mfgGuess0 := ""; modelGuess := ""; serialGuess := "" |}.

(** A guess stays once it is made. *)
Definition guess_step (g : guesses) (v : SnmpPDU) : guesses :=
  {| mfgGuess0 :=
       if String.eqb (mfgGuess0 g) "" then
         match first_group mfgRe (text_of v) with Some m => ToLower m | None => "" end
       else mfgGuess0 g;
     modelGuess := if String.eqb (modelGuess g) "" then guess_model (text_of v) else modelGuess g;
     serialGuess :=
       if String.eqb (serialGuess g) "" then guess_serial (name_of v) (text_of v) else serialGuess g |}.

(** The loop ends when all three are made. *)
Fixpoint guess (g : guesses) (vars : list SnmpPDU) : guesses :=
  match vars with
  | [] => g
  | v :: rest =>
      let g := guess_step g v in
      if negb (String.eqb (mfgGuess0 g) "") && negb (String.eqb (modelGuess g) "") &&
         negb (String.eqb (serialGuess g) "")
      then g else guess g rest
  end.

(** ** The scan over the objects *)

Inductive var :=
| model | serial | adminContact | assetID | description | location | mfgGuess | ModelOID | SerialOID.

#[export] Instance var_eq_dec : EqDecision var.
Proof. solve_decision. Defined.

Notation valuation := (var -> string).

Definition set_if_empty (x : var) (v : string) (vals : valuation) : valuation :=
  if String.eqb (vals x) "" && negb (String.eqb v "") then <[x := v]> vals else vals.

(** [if x == "" { if v != "" { x = TrimSpace(v); learned.x = name } }] *)
Definition learn_if_empty (x oid : var) (v name : string) (vals : valuation) : valuation :=
  if String.eqb (vals x) "" && negb (String.eqb v "")
  then <[oid := name]> (<[x := TrimSpace v]> vals) else vals.

(** A descriptor names the device; its serial number is not a UUID. *)
Definition device_id_step (name raw : string) (vals : valuation) : valuation :=
  if String.eqb raw "" then vals
  else
    let fields := parseDeviceIDPayload raw in
    let sn := first_field fields ["sn"; "serial"; "ser"] in
    let vals := learn_if_empty model ModelOID (first_field fields ["mdl"; "model"; "md"]) name vals in
    let vals := learn_if_empty serial SerialOID (if looksLikeUUID sn then "" else sn) name vals in
    let vals := set_if_empty description (first_field fields ["des"; "description"]) vals in
    let vals := set_if_empty assetID (first_field fields ["asset"; "assetid"]) vals in
    set_if_empty mfgGuess (ToLower (first_field fields ["mfg"; "manufacturer"])) vals.

(** The text after [PID:], which replaces a model, or else what the pattern finds. *)
Definition sys_descr_step (name raw : string) (vals : valuation) : valuation :=
  match Index raw "PID:" with
  | Some idx =>
      let rest := TrimSpace (sdrop (idx + 4) raw) in
      let rest := match IndexAny rest [","; ";"; "010"]%char with Some e => stake e rest | None => rest end in
      if String.eqb rest "" then vals else <[ModelOID := name]> (<[model := rest]> vals)
  | None =>
      if String.eqb (vals model) "" then
        match first_group pidRe raw with
        | Some m => <[ModelOID := name]> (<[model := TrimSpace m]> vals)
        | None => vals
        end
      else vals
  end.

(** [custom] is the pattern of the settings, when there is one that compiles. *)
Definition asset_in (custom : option (string -> option (list string))) (contact : string) : option string :=
  match custom with
  | Some find => groups ← find contact; head groups
  | None => first_group (defaultAssetRe (String.length contact)) contact
  end.

Definition contact_step custom (contact : string) (vals : valuation) : valuation :=
  let vals := <[adminContact := contact]> vals in
  if String.eqb (vals assetID) "" && negb (String.eqb contact "") then
    match asset_in custom contact with Some m => <[assetID := TrimSpace m]> vals | None => vals end
  else vals.

Definition service_person_step (name sval : string) (vals : valuation) : valuation :=
  if String.eqb (vals description) "" && looksLikeUUID sval then <[description := TrimSpace sval]> vals
  else if String.eqb (vals model) "" && (is_match pidRe sval || Contains (ToLower sval) " ") then
    <[ModelOID := name]> (<[model := TrimSpace sval]> vals)
  else vals.

(** The objects with a meaning of their own. *)
Definition ident_step custom (v : SnmpPDU) (vals : valuation) : valuation :=
  let name := name_of v in
  let sval := text_of v in
  match LookupVendorIDTarget name with
  | Some _ => device_id_step name sval vals
  | None =>
      if String.eqb name "1.3.6.1.2.1.1.1.0" then sys_descr_step name sval vals
      else if String.eqb name "1.3.6.1.2.1.1.4.0" then contact_step custom sval vals
      else if String.eqb name prtGeneralServicePerson then service_person_step name sval vals
      else if String.eqb name "1.3.6.1.2.1.43.5.1.1.17.1" then
        learn_if_empty serial SerialOID sval name vals
      else if String.eqb name "1.3.6.1.4.1.11.2.3.9.4.2.1.1.3.12.0" then
        if String.eqb sval "" then vals
        else if String.eqb (vals assetID) "" then <[assetID := TrimSpace sval]> vals else vals
      else if String.eqb name "1.3.6.1.2.1.1.6.0" then
        if String.eqb sval "" then vals else <[location := TrimSpace sval]> vals
      else vals
  end.

Definition learned_targets (vars : list SnmpPDU) : gmap string string :=
  foldl (fun learned v =>
    match LookupVendorIDTarget (name_of v) with
    | Some target => <[Key target := name_of v]> learned
    | None => learned
    end) ∅ vars.

(** *** Tables *)

Record tables := {
  markerCounts : gmap Z Z;
  markerOIDs : gmap Z string;
  supplyDesc : gmap string string;
  supplyLevels : gmap string Z;
  supplyMaxCap : gmap string Z;
  ifMacs : gmap string string;
  statusMsgs : list string;
}.

Definition no_tables : tables :=
  {| markerCounts := ∅; markerOIDs := ∅; supplyDesc := ∅; supplyLevels := ∅; supplyMaxCap := ∅;
     ifMacs := ∅; statusMsgs := [] |}.

Definition prtMarkerLifeCount : string := "1.3.6.1.2.1.43.10.2.1.4.1.".
Definition prtSuppliesDesc : string := "1.3.6.1.2.1.43.11.1.1.6.1.".
Definition prtSuppliesLevel : string := "1.3.6.1.2.1.43.11.1.1.9.1.".
Definition prtSuppliesMaxCap : string := "1.3.6.1.2.1.43.11.1.1.8.1.".
Definition ifPhysAddress : string := "1.3.6.1.2.1.2.2.1.6.".

(** The index of a supply: a first component that is a number is written as [%d]. *)
Definition supply_index (suf : string) : string :=
  match Split suf "." with
  | first :: ((_ :: _) as rest) =>
      let '(hrIdx, ok) := Atoi first in
      if (ok : bool) then (pretty hrIdx +:+ "." +:+ GoStrings.Join rest ".")%string else suf
  | _ => suf
  end.

Definition hex_char (n : Z) : ascii := if n <? 10 then chr (48 + n) else chr (87 + n).
(** [%02x] *)
Definition hex_byte (c : ascii) : string :=
  String (hex_char (byte_of c / 16)) (String (hex_char (byte_of c mod 16)) EmptyString).

(** At most six bytes, between colons. *)
Definition mac_text (b : string) : string := GoStrings.Join (map hex_byte (Stdlib.Strings.String.list_ascii_of_string (stake 6 b))) ":".

Definition status_words : list string := ["error"; "toner"; "paper"; "ready"; "warning"].

(** The type tag of an object, which nothing else reads. *)
Context (is_octet_string : SnmpPDU -> bool).

Definition add_marker (name : string) (v : SnmpPDU) (t : tables) : tables :=
  let '(idx, ok) := Atoi (hd "" (Split (TrimPrefix name prtMarkerLifeCount) ".")) in
  match (if (ok : bool) then toInt (Value v) else None) with
  | Some iv =>
      {| markerCounts := <[idx := iv]> (markerCounts t); markerOIDs := <[idx := name]> (markerOIDs t);
         supplyDesc := supplyDesc t; supplyLevels := supplyLevels t; supplyMaxCap := supplyMaxCap t;
         ifMacs := ifMacs t; statusMsgs := statusMsgs t |}
  | None => t
  end.

Definition add_desc (name : string) (v : SnmpPDU) (t : tables) : tables :=
  {| markerCounts := markerCounts t; markerOIDs := markerOIDs t;
     supplyDesc := <[supply_index (TrimPrefix name prtSuppliesDesc) := text_of v]> (supplyDesc t);
     supplyLevels := supplyLevels t; supplyMaxCap := supplyMaxCap t; ifMacs := ifMacs t;
     statusMsgs := statusMsgs t |}.

Definition put_int (k : string) (v : SnmpPDU) (m : gmap string Z) : gmap string Z :=
  match toInt (Value v) with Some iv => <[k := iv]> m | None => m end.

Definition add_level (name : string) (v : SnmpPDU) (t : tables) : tables :=
  {| markerCounts := markerCounts t; markerOIDs := markerOIDs t; supplyDesc := supplyDesc t;
     supplyLevels := put_int (supply_index (TrimPrefix name prtSuppliesLevel)) v (supplyLevels t);
     supplyMaxCap := supplyMaxCap t; ifMacs := ifMacs t; statusMsgs := statusMsgs t |}.

Definition add_max_cap (name : string) (v : SnmpPDU) (t : tables) : tables :=
  {| markerCounts := markerCounts t; markerOIDs := markerOIDs t; supplyDesc := supplyDesc t;
     supplyLevels := supplyLevels t;
     supplyMaxCap := put_int (supply_index (TrimPrefix name prtSuppliesMaxCap)) v (supplyMaxCap t);
     ifMacs := ifMacs t; statusMsgs := statusMsgs t |}.

Definition mac_of (v : SnmpPDU) : option string :=
  match Value v with
  | VBytes b =>
      if String.eqb b "" || String.eqb (mac_text b) "00:00:00:00:00:00" then None else Some (mac_text b)
  | _ => None
  end.

Definition is_status (v : SnmpPDU) : bool :=
  is_octet_string v && existsb (Contains (ToLower (text_of v))) status_words.

Definition add_other (name : string) (v : SnmpPDU) (t : tables) : tables :=
  {| markerCounts := markerCounts t; markerOIDs := markerOIDs t; supplyDesc := supplyDesc t;
     supplyLevels := supplyLevels t; supplyMaxCap := supplyMaxCap t;
     ifMacs :=
       match (if HasPrefix name ifPhysAddress then mac_of v else None) with
       | Some mac => <[TrimPrefix name ifPhysAddress := mac]> (ifMacs t)
       | None => ifMacs t
       end;
     statusMsgs := if is_status v then statusMsgs t ++ [text_of v] else statusMsgs t |}.

Definition table_step (t : tables) (v : SnmpPDU) : tables :=
  let name := name_of v in
  match LookupVendorIDTarget name with
  | Some _ => t
  | None =>
      if HasPrefix name prtMarkerLifeCount then add_marker name v t
      else if HasPrefix name prtSuppliesDesc then add_desc name v t
      else if HasPrefix name prtSuppliesLevel then add_level name v t
      else if HasPrefix name prtSuppliesMaxCap then add_max_cap name v t
      else add_other name v t
  end.

Definition scan_tables (vars : list SnmpPDU) : tables := foldl table_step no_tables vars.
Definition scan_idents custom (vals : valuation) (vars : list SnmpPDU) : valuation :=
  foldl (fun vals v => ident_step custom v vals) vals vars.

(** ** What the scan amounts to *)

Context `{MapOrder}.

(** *** Supplies *)

(** The percentage of a supply; none when the level says nothing. *)
Definition level_percent (lvl maxCap : Z) : option Z :=
  if (0 <? maxCap) && (0 <=? lvl) then
    Some (int_of_float (fmul (fdiv (float_of_Z lvl) (float_of_Z maxCap)) (float_of_Z 100)))
  else if (0 <=? lvl) && (lvl <=? 100) && (maxCap <=? 0) then Some lvl
  else if lvl =? -3 then Some 10
  else None.

Record supplies_found := {
  tonerLevels0 : gmap string Z;
  consumables : list string;
  color_descs : gmap string string; (** [descBlack] and the others, by the name of the supply *)
}.

Definition toner_colors : list string := ["toner_black"; "toner_cyan"; "toner_magenta"; "toner_yellow"].

(** A supply without a description goes by its index. *)
Definition supply_step (t : tables) (s : supplies_found) (entry : string * Z) : supplies_found :=
  let '(idx, lvl) := entry in
  let percentage := level_percent lvl (default 0 (supplyMaxCap t !! idx)) in
  let put key (m : gmap string Z) := match percentage with Some p => <[key := p]> m | None => m end in
  match supplyDesc t !! idx with
  | Some desc =>
      let normalized := NormalizeDescription desc in
      {| tonerLevels0 := put (if String.eqb normalized "" then desc else normalized) (tonerLevels0 s);
         consumables := consumables s ++ [desc];
         color_descs :=
           if bool_decide (normalized ∈ toner_colors) &&
              String.eqb (default "" (color_descs s !! normalized)) ""
           then <[normalized := desc]> (color_descs s) else color_descs s |}
  | None =>
      {| tonerLevels0 := put idx (tonerLevels0 s); consumables := consumables s ++ [idx];
         color_descs := color_descs s |}
  end.

Definition find_supplies (t : tables) : supplies_found :=
  foldl (supply_step t) {| tonerLevels0 := ∅; consumables := []; color_descs := ∅ |}
    (visit 1 (supplyLevels t)).

(** *** The model from the host resources *)

Definition hrDeviceType : string := "1.3.6.1.2.1.25.3.2.1.2.".
Definition hrDeviceDescr : string := "1.3.6.1.2.1.25.3.2.1.3.".

Definition is_printer_row (entry : string * SnmpPDU) : bool :=
  HasPrefix entry.1 hrDeviceType &&
  (Contains (ToLower (text_of entry.2)) "25.3.1.5" || Contains (ToLower (text_of entry.2)) "printer").

(** The index of the first row that is a printer. *)
Definition hrPrinterIdx (pduByOid : gmap string SnmpPDU) : string :=
  match List.find is_printer_row (visit 2 pduByOid) with
  | Some (k, _) => TrimPrefix k hrDeviceType
  | None => ""
  end.

Definition model_at (pduByOid : gmap string SnmpPDU) (idx : string) : option (string * string) :=
  let oid := (hrDeviceDescr +:+ idx)%string in
  p ← pduByOid !! oid;
  let cand := TrimSpace (text_of p) in
  if negb (String.eqb cand "") && negb (looksLikeUUID cand) then Some (cand, oid) else None.

Definition set_model_at (found : option (string * string)) (vals : valuation) : valuation :=
  match found with
  | Some (cand, oid) => <[ModelOID := oid]> (<[model := cand]> vals)
  | None => vals
  end.

Definition host_model (pduByOid : gmap string SnmpPDU) (vals : valuation) : valuation :=
  if negb (String.eqb (vals model) "") then vals
  else
    let idx := hrPrinterIdx pduByOid in
    let vals := if String.eqb idx "" then vals else set_model_at (model_at pduByOid idx) vals in
    if String.eqb (vals model) "" then set_model_at (model_at pduByOid "1") vals else vals.

Definition apply_guesses (g : guesses) (vals : valuation) : valuation :=
  set_if_empty serial (serialGuess g) (set_if_empty model (modelGuess g) vals).

(** *** Printer or not *)

Definition detection_reasons (t : tables) (vals : valuation) : list string :=
  (if bool_decide (markerCounts t = ∅) then [] else ["marker_counts"]) ++
  (if bool_decide (supplyDesc t = ∅) then [] else ["supply_descriptions"]) ++
  (if String.eqb (vals serial) "" then [] else ["serial"]) ++
  (if existsb (Contains (ToLower (vals model))) ["printer"; "laserjet"] then ["sysDescr"] else []).

Definition isPrinter (reasons : list string) : bool := match reasons with [] => false | _ => true end.

(** *** The manufacturer *)

Definition described_manufacturers : list (list string * string) :=
  [(["hp"; "laserjet"], "HP"); (["brother"], "Brother"); (["canon"], "Canon"); (["kyocera"], "Kyocera");
   (["lexmark"], "Lexmark"); (["epson"], "Epson"); (["dell"], "Dell")].

Definition described_manufacturer (sdesc : string) : string :=
  match List.find (fun c => existsb (Contains sdesc) c.1) described_manufacturers with
  | Some (_, name) => name
  | None => ""
  end.

Definition guessed_manufacturer (mfg : string) : string :=
  let known := [(["hp"; "hewlett-packard"; "hewlett packard"], "HP"); (["brother"], "Brother");
    (["canon"], "Canon"); (["epson"], "Epson"); (["lexmark"], "Lexmark"); (["kyocera"], "Kyocera");
    (["dell"], "Dell")] in
  if String.eqb mfg "" then ""
  else
    match List.find (fun c => bool_decide (ToLower mfg ∈ c.1)) known with
    | Some (_, name) => name
    | None => (ToUpper (stake 1 mfg) +:+ ToLower (sdrop 1 mfg))%string
    end.

(** The first object below a known enterprise. *)
Fixpoint enterprise_manufacturer (vars : list SnmpPDU) : string :=
  match vars with
  | [] => ""
  | v :: rest =>
      let m := ManufacturerForSysObjectID (name_of v) in
      if String.eqb m "" then enterprise_manufacturer rest else m
  end.

Definition find_manufacturer (vars : list SnmpPDU) (pduByOid : gmap string SnmpPDU) (mfg : string) : string :=
  or_name (match pduByOid !! "1.3.6.1.2.1.1.2.0" with
           | Some p => ManufacturerForSysObjectID (text_of p) | None => "" end)
  (or_name (match pduByOid !! "1.3.6.1.2.1.1.1.0" with
            | Some p => described_manufacturer (ToLower (text_of p)) | None => "" end)
  (or_name (guessed_manufacturer mfg) (enterprise_manufacturer vars))).

Definition asset_trim (c : ascii) : bool := bool_decide (c ∈ [" "; "#"; ":"; "-"; "."; ","; ";"]%char).

(** An Epson's asset number may be in the contact. *)
Definition epson_asset (manufacturer : string) (vals : valuation) : valuation :=
  if String.eqb (vals assetID) "" && negb (String.eqb (vals adminContact) "") &&
     EqualFold manufacturer "Epson"
  then
    match first_group epsonAssetRe (vals adminContact) with
    | Some m => <[assetID := Trim asset_trim m]> vals
    | None =>
        match first_group epsonAssetRe2 (vals adminContact) with
        | Some m => <[assetID := Trim asset_trim m]> vals
        | None => vals
        end
    end
  else vals.

(** *** The network *)

(** A loop that ends at the first value it finds. *)
Definition first_found (l : list string) : string :=
  match List.find (fun v => negb (String.eqb v "")) l with Some v => v | None => "" end.

Definition ipAdEntNetMask : string := "1.3.6.1.2.1.4.20.1.3.".

(** The mask of the address, or of a row whose object id ends with it. *)
Definition find_mask (scanIP : string) (pduByOid : gmap string SnmpPDU) : string :=
  let direct :=
    match pduByOid !! (ipAdEntNetMask +:+ scanIP)%string with
    | Some p => normalizeNetworkValue (text_of p) FSubnet
    | None => ""
    end in
  let row '(k, p) :=
    if bool_decide (extractIPv4FromOID k = Some scanIP) && HasPrefix k ipAdEntNetMask
    then normalizeNetworkValue (text_of p) FSubnet else "" in
  if String.eqb direct "" then first_found (map row (visit 3 pduByOid)) else direct.

Record network := { gateway : string; dnsServers : list string; dhcpServer : string }.

Definition hp_network (n : string) : string := ("1.3.6.1.4.1.11.2.3.9.4.2.1.1." +:+ n)%string.

(** [if cond && x == "" { if v := normalize(val); v != "" { x = v } }] *)
Definition fill (cond : bool) (old v : string) : string :=
  if cond && String.eqb old "" then v else old.

Definition network_step (n : network) (entry : string * SnmpPDU) : network :=
  let '(k, p) := entry in
  let lk := ToLower k in
  let val := TrimSpace (text_of p) in
  let ip := normalizeNetworkValue val FIp in
  let named := existsb (Contains lk) ["dns"; "nameserver"; "name_server"] in
  let dns := if named && negb (String.eqb ip "") then dnsServers n ++ [ip] else dnsServers n in
  let dhcp := fill (Contains lk "dhcp" && (Contains lk "server" || Contains lk "srv")) (dhcpServer n) ip in
  let hp_dns := HasPrefix k (hp_network "6.") || HasPrefix k (hp_network "7.") in
  {| gateway := fill (HasPrefix k (hp_network "1.")) (gateway n) ip;
     dnsServers :=
       if hp_dns && negb (String.eqb ip "") && negb (mem_str ip dns) then dns ++ [ip] else dns;
     dhcpServer := fill (HasPrefix k (hp_network "4.")) dhcp ip |}.

Definition find_network (pduByOid : gmap string SnmpPDU) : network :=
  foldl network_step {| gateway := ""; dnsServers := []; dhcpServer := "" |} (visit 4 pduByOid).

(** The last two components of the object ids of the route table: the field, and what
    is taken for the row. *)
Definition route_cell (k : string) : option (string * string) :=
  if HasPrefix k "1.3.6.1.2.1.4.21.1." then
    match rev (Split k ".") with idx :: field :: _ => Some (field, idx) | _ => None end
  else None.

Definition route_column (column : string) (pduByOid : gmap string SnmpPDU) : gmap string string :=
  foldl (fun rows '(k, p) =>
    match route_cell k with
    | Some (field, idx) => if String.eqb field column then <[idx := text_of p]> rows else rows
    | None => rows
    end) ∅ (visit 5 pduByOid).

(** The next hop of the first default route that has an address. *)
Definition default_route (pduByOid : gmap string SnmpPDU) : string :=
  let nexthops := route_column "7" pduByOid in
  first_found (map (fun '(idx, d) =>
    if String.eqb d "0.0.0.0" || String.eqb d "" then
      match nexthops !! idx with Some nh => normalizeNetworkValue nh FIp | None => "" end
    else "") (visit 6 (route_column "1" pduByOid))).

Record ScanMeta := {
  Meta_MAC : string;
  Meta_OpenPorts : list Z;
  Meta_DiscoveryMethods : list string;
}.

(** The address of the scan, or else the first of the interfaces. *)
Definition chosen_mac (meta : option ScanMeta) (t : tables) : string :=
  let given := match meta with Some m => normalizeNetworkValue (Meta_MAC m) FMac | None => "" end in
  if String.eqb given "" then
    first_found (map (fun entry => normalizeNetworkValue entry.2 FMac) (visit 7 (ifMacs t)))
  else given.

(** In the end the address of the scan is taken as it is. *)
Definition final_mac (meta : option ScanMeta) (t : tables) : string :=
  match meta with
  | Some m => if String.eqb (Meta_MAC m) "" then chosen_mac meta t else Meta_MAC m
  | None => chosen_mac meta t
  end.

(** *** Meters *)

Definition marker_sum (entries : list (Z * Z)) : Z := foldl (fun sum '(_, v) => iadd sum v) 0 entries.

Definition color_name (idx : Z) : option string :=
  if idx =? 3 then Some "cyan" else if idx =? 4 then Some "magenta"
  else if idx =? 5 then Some "yellow" else None.

Definition put_color (m : gmap string Z) '((idx, v) : Z * Z) : gmap string Z :=
  match color_name idx with Some name => <[name := v]> m | None => m end.

(** [pageCount], when it is there, before the sum of the markers. *)
Definition counter_meters (markers : gmap Z Z) : gmap string Z :=
  let pageCount := default 0 (markers !! 1) in
  let total := if pageCount =? 0 then marker_sum (visit 8 markers) else pageCount in
  let m : gmap string Z := {["total_pages" := total]} in
  let m := match markers !! 1 with Some v => <["black" := v]> (<["mono_pages" := v]> m) | None => m end in
  let others := List.filter (fun '(idx, _) => negb (idx =? 1)) (visit 9 markers) in
  let m := foldl put_color m others in
  <["color_pages" := marker_sum others]> m.

(** A larger value replaces a smaller. *)
Definition assign (cond : bool) (key : string) (v : Z) (m : gmap string Z) : gmap string Z :=
  if cond && match m !! key with Some existing => existing <? v | None => true end
  then <[key := v]> m else m.

(** The labels in the object id or in the text of a counter. *)
Definition labelled_step (m : gmap string Z) (entry : string * SnmpPDU) : gmap string Z :=
  let '(oid, p) := entry in
  match toInt (Value p) with
  | None => m
  | Some iv =>
      let valStr := ToLower (text_of p) in
      let nameStr := ToLower oid in
      let either w := Contains nameStr w || Contains valStr w in
      let m := assign (Contains nameStr "total" && Contains nameStr "page" ||
                       Contains valStr "total" && Contains valStr "page") "total_pages" iv m in
      let m := assign (either "mono" || either "black") "mono_pages" iv m in
      let m := assign (either "mono" || either "black") "black" iv m in
      let m := assign (either "copier") "copier_pages" iv m in
      let m := assign (Contains nameStr "printer" && Contains nameStr "total" || Contains valStr "printer")
                 "printer_pages" iv m in
      let m := assign (either "fax") "fax_pages" iv m in
      let m := assign (either "scan") "scan_pages" iv m in
      let m := assign (either "local") "local_pages" iv m in
      assign (either "banner") "banner_pages" iv m
  end.

Definition find_meters (t : tables) (pduByOid : gmap string SnmpPDU) : gmap string Z :=
  foldl labelled_step (counter_meters (markerCounts t)) (visit 10 pduByOid).

(** *** The rest *)

Definition prtInputDescription : string := "1.3.6.1.2.1.43.8.2.1.18.".

Definition tray_texts (pduByOid : gmap string SnmpPDU) : gmap string string :=
  foldl (fun trays '(k, p) =>
    if HasPrefix k prtInputDescription then <[TrimPrefix k prtInputDescription := text_of p]> trays else trays)
    ∅ (visit 11 pduByOid).

Definition find_firmware (pduByOid : gmap string SnmpPDU) : string :=
  match List.find (fun entry => existsb (Contains (ToLower (text_of entry.2)))
                     ["firmware"; "fw"; "firmware version"; "fwv"]) (visit 11 pduByOid) with
  | Some (_, p) => text_of p
  | None => ""
  end.

Definition find_duplex (pduByOid : gmap string SnmpPDU) : bool :=
  existsb (fun entry => existsb (Contains (ToLower (text_of entry.2))) ["duplex"; "two-sided"; "duplex_unit"])
    (visit 11 pduByOid).

Definition toner_alerts (msgs : list string) : list string :=
  List.filter (fun m => existsb (Contains (ToLower m)) ["toner"; "ink"; "supply"]) msgs.

(** [probe]: the address under which a web page answered, or nothing. *)
Definition detectWebUIURL (probe : string -> string) (ip : string) (meta : option ScanMeta)
    (pduByOid : gmap string SnmpPDU) : string :=
  let open p := match meta with Some m => bool_decide (p ∈ Meta_OpenPorts m) | None => false end in
  let channel (secure : bool) (entry : string * SnmpPDU) :=
    HasPrefix entry.1 "1.3.6.1.2.1.43.14." &&
    Contains (ToLower (text_of entry.2)) "http" &&
    Bool.eqb (Contains (ToLower (text_of entry.2)) "https") secure in
  let infer := negb (open 80) && negb (open 443) in
  let hasHTTP := open 80 || (infer && existsb (channel false) (visit 12 pduByOid)) in
  let hasHTTPS := open 443 || (infer && existsb (channel true) (visit 12 pduByOid)) in
  let https := ("https://" +:+ ip)%string in
  let http := ("http://" +:+ ip)%string in
  let candidates := (if hasHTTPS then [https] else []) ++ (if hasHTTP then [http] else []) in
  let candidates := match candidates with [] => [https; http] | _ => candidates end in
  match List.find (fun url => negb (String.eqb (probe url) "")) candidates with
  | Some url => probe url
  | None => http
  end.

(** ** The result *)

Record LearnedOIDMap := {
  PageCountOID : string; MonoPagesOID : string; ColorPagesOID : string; CyanOID : string;
  MagentaOID : string; YellowOID : string; Learned_SerialOID : string; Learned_ModelOID : string;
  VendorSpecificOIDs : gmap string string;
}.

(** The fields that the vendor metrics are merged into. *)
Record Metering := {
  PageCount : Z; MonoImpressions : Z; ColorImpressions : Z;
  TonerLevelBlack : Z; TonerLevelCyan : Z; TonerLevelMagenta : Z; TonerLevelYellow : Z;
  TonerLevels : gmap string Z; Meters : gmap string Z;
}.

Record PrinterInfo := {
  Info_IP : string; Manufacturer : string; Info_Model : string; Info_Serial : string;
  AdminContact : string; AssetID : string; Info_Description : string; Info_Location : string;
  TotalMonoImpressions : Z; BlackImpressions : Z; CyanImpressions : Z; MagentaImpressions : Z;
  YellowImpressions : Z; metering : Metering;
  TonerDescBlack : string; TonerDescCyan : string; TonerDescMagenta : string; TonerDescYellow : string;
  MAC : string; Info_OpenPorts : list Z; DiscoveryMethods : list string; DetectionReasons : list string;
  Consumables : list string; StatusMessages : list string; Firmware : string; UptimeSeconds : Z;
  DuplexSupported : bool; PaperTrayStatus : gmap string string; PaperTrays : list PaperTray;
  TonerAlerts : list string; SubnetMask : string; Gateway : string; DNSServers : list string;
  DHCPServer : string; Info_Hostname : string; WebUIURL : string; LearnedOIDs : LearnedOIDMap;
}.

Definition learned_oids (t : tables) (vals : valuation) (targets : gmap string string) : LearnedOIDMap :=
  let at_marker i := default "" (markerOIDs t !! i) in
  {| PageCountOID := at_marker 1; MonoPagesOID := at_marker 1; ColorPagesOID := at_marker 2;
     CyanOID := at_marker 3; MagentaOID := at_marker 4; YellowOID := at_marker 5;
     Learned_SerialOID := vals SerialOID; Learned_ModelOID := vals ModelOID;
     VendorSpecificOIDs := targets |}.

(** The level of a color that has a description. *)
Definition toner_level (s : supplies_found) (color : string) : Z :=
  if String.eqb (default "" (color_descs s !! color)) "" then 0
  else default 0 (tonerLevels0 s !! color).

Definition find_metering (t : tables) (s : supplies_found) (pduByOid : gmap string SnmpPDU) : Metering :=
  let marker i := default 0 (markerCounts t !! i) in
  {| PageCount := marker 1; MonoImpressions := marker 1; ColorImpressions := marker 2;
     TonerLevelBlack := toner_level s "toner_black"; TonerLevelCyan := toner_level s "toner_cyan";
     TonerLevelMagenta := toner_level s "toner_magenta"; TonerLevelYellow := toner_level s "toner_yellow";
     TonerLevels := tonerLevels0 s; Meters := find_meters t pduByOid |}.

(** The identity: the scan, then the host resources, then the guesses. *)
Definition find_identity custom (vars : list SnmpPDU) : valuation :=
  let g := guess no_guesses vars in
  let start : valuation := <[mfgGuess := mfgGuess0 g]> (fun _ => "") in
  apply_guesses g (host_model (index_pdus vars) (scan_idents custom start vars)).

Definition ParsePDUs (probe : string -> string) custom (scanIP : string) (vars : list SnmpPDU)
    (meta : option ScanMeta) : PrinterInfo * bool :=
  let pduByOid := index_pdus vars in
  let t := scan_tables vars in
  let s := find_supplies t in
  let vals := find_identity custom vars in
  let reasons := detection_reasons t vals in
  let manufacturer := find_manufacturer vars pduByOid (vals mfgGuess) in
  let final := epson_asset manufacturer vals in
  let n := find_network pduByOid in
  let route := default_route pduByOid in
  let marker i := default 0 (markerCounts t !! i) in
  let desc color := default "" (color_descs s !! color) in
  let info :=
    {| Info_IP := scanIP; Manufacturer := manufacturer; Info_Model := final model;
       Info_Serial := final serial; AdminContact := final adminContact; AssetID := final assetID;
       Info_Description := final description; Info_Location := final location;
       TotalMonoImpressions := marker 1; BlackImpressions := marker 1; CyanImpressions := marker 3;
       MagentaImpressions := marker 4; YellowImpressions := marker 5;
       metering := find_metering t s pduByOid;
       TonerDescBlack := desc "toner_black"; TonerDescCyan := desc "toner_cyan";
       TonerDescMagenta := desc "toner_magenta"; TonerDescYellow := desc "toner_yellow";
       MAC := final_mac meta t;
       Info_OpenPorts := match meta with Some m => Meta_OpenPorts m | None => [] end;
       DiscoveryMethods := match meta with Some m => Meta_DiscoveryMethods m | None => [] end;
       DetectionReasons := reasons; Consumables := consumables s; StatusMessages := statusMsgs t;
       Firmware := find_firmware pduByOid;
       UptimeSeconds := match (p ← pduByOid !! "1.3.6.1.2.1.1.3.0"; toInt (Value p)) with
                        | Some iv => Z.quot iv 100 | None => 0 end;
       DuplexSupported := find_duplex pduByOid; PaperTrayStatus := tray_texts pduByOid;
       PaperTrays := ParsePaperTrays (visit 13 (tray_entries vars));
       TonerAlerts := toner_alerts (statusMsgs t); SubnetMask := find_mask scanIP pduByOid;
       Gateway := or_name route (gateway n); DNSServers := dnsServers n; DHCPServer := dhcpServer n;
       Info_Hostname := match pduByOid !! "1.3.6.1.2.1.1.5.0" with Some p => text_of p | None => "" end;
       WebUIURL := detectWebUIURL probe scanIP meta pduByOid;
       LearnedOIDs := learned_oids t final (learned_targets vars) |} in
  (info, isPrinter reasons).

(** ** Vendor metrics ([MergeVendorMetrics]) *)

(** The identity that the vendor is detected from; the last object counts, for the
    model the first with a text. *)
Definition vendor_identity (pdus : list SnmpPDU) : string * string * string :=
  foldl (fun '(sysObjectID, sysDescr, m) pdu =>
    let oid := name_of pdu in
    if String.eqb oid "1.3.6.1.2.1.1.2.0" then (text_of pdu, sysDescr, m)
    else if String.eqb oid "1.3.6.1.2.1.1.1.0" then (sysObjectID, text_of pdu, m)
    else if String.eqb oid "1.3.6.1.2.1.25.3.2.1.3.1" then
      (sysObjectID, sysDescr, if String.eqb m "" then text_of pdu else m)
    else (sysObjectID, sysDescr, m)) ("", "", "") pdus.

(** The module of the hint or manufacturer, or the detected one. *)
Definition metrics_module (hint manufacturer : string) (pdus : list SnmpPDU) : VendorModule :=
  let '(sysObjectID, sysDescr, m) := vendor_identity pdus in
  let hint := if String.eqb hint "" then manufacturer else hint in
  match (if String.eqb hint "" then None else GetVendorByName hint) with
  | Some v => v
  | None => DetectVendor sysObjectID sysDescr m
  end.

Definition toIntValue (v : MetricValue) : option Z :=
  match v with MInt n => Some n | MFloat f => Some (int_of_float f) | MText _ | MBool _ => None end.

End Parse.

(** ** Where a serial number comes from *)

Section Provenance.
Context `{GoUnicode} `{GoFormat}.
Notation text_of v := (pduToString (Value v)).
Notation name_of v := (TrimPrefix (Name v) ".").
Notation valuation := (var -> string).

Definition prtGeneralSerialNumber : string := "1.3.6.1.2.1.43.5.1.1.17.1".

Definition descriptor_serial (v : SnmpPDU) : string :=
  first_field (parseDeviceIDPayload (text_of v)) ["sn"; "serial"; "ser"].

(** The object that a serial number was read from. *)
Definition read_from (v : SnmpPDU) (s : string) : Prop :=
  (name_of v = prtGeneralSerialNumber /\ s = TrimSpace (text_of v)) \/
  (is_Some (LookupVendorIDTarget (name_of v)) /\ s = TrimSpace (descriptor_serial v) /\
   looksLikeUUID (descriptor_serial v) = false).

(** A serial number and its object id were learned together. *)
Definition serial_read (vars : list SnmpPDU) (vals : valuation) : Prop :=
  vals serial <> "" -> exists v, v ∈ vars /\ vals SerialOID = name_of v /\ read_from v (vals serial).

Lemma set_if_empty_ne x y v vals : x <> y -> set_if_empty x v vals y = vals y.
Proof. intros Hne. unfold set_if_empty. case_match; [by rewrite fn_lookup_insert_ne | done]. Qed.

Lemma set_if_empty_eq x v vals : set_if_empty x v vals x = or_name (vals x) v.
Proof.
  unfold set_if_empty, or_name. destruct (String.eqb_spec (vals x) "") as [He|]; simpl; [|done].
  destruct (String.eqb_spec v "") as [->|]; simpl; [done | by rewrite fn_lookup_insert].
Qed.

Lemma learn_if_empty_ne x oid y v name vals :
  x <> y -> oid <> y -> learn_if_empty x oid v name vals y = vals y.
Proof. intros Hx Ho. unfold learn_if_empty. case_match; [by rewrite !fn_lookup_insert_ne | done]. Qed.

Lemma learn_serial v name vals :
  let vals' := learn_if_empty serial SerialOID v name vals in
  (vals' serial = vals serial /\ vals' SerialOID = vals SerialOID) \/
  (vals' serial = TrimSpace v /\ vals' SerialOID = name /\ v <> "").
Proof.
  unfold learn_if_empty. case_match eqn:Hc; [right|by left].
  rewrite fn_lookup_insert_ne, !fn_lookup_insert by done.
  apply andb_true_iff in Hc as [_ Hv]. apply negb_true_iff, String.eqb_neq in Hv. done.
Qed.

(** A step leaves the serial number and its object id, or reads both from the object. *)
Lemma ident_step_serial custom v vals :
  (ident_step custom v vals serial = vals serial /\ ident_step custom v vals SerialOID = vals SerialOID) \/
  (ident_step custom v vals SerialOID = name_of v /\ read_from v (ident_step custom v vals serial)).
Proof.
  unfold ident_step. destruct (LookupVendorIDTarget (name_of v)) as [target|] eqn:Ht.
  { unfold device_id_step. case_match; [by left|].
    rewrite !set_if_empty_ne by done.
    match goal with |- context [learn_if_empty serial SerialOID ?s ?n ?vs] =>
      destruct (learn_serial s n vs) as [[-> ->]|(-> & -> & Hs)] end.
    - left. by rewrite !learn_if_empty_ne.
    - right. split; [done|]. right. destruct (looksLikeUUID _) eqn:Hu; [done|]. by split_and!. }
  unfold sys_descr_step, contact_step, service_person_step.
  repeat case_match; rewrite ?fn_lookup_insert_ne by done; try (by left).
  all: match goal with |- context [learn_if_empty serial SerialOID ?s ?n ?vs] =>
      destruct (learn_serial s n vs) as [[-> ->]|(-> & -> & Hs)] end; [by left|].
  right. split; [done|]. left. split; [by apply String.eqb_eq | done].
Qed.

Lemma scan_idents_serial custom seen vals vars :
  serial_read seen vals -> serial_read (seen ++ vars) (scan_idents custom vals vars).
Proof.
  revert seen vals. induction vars as [|v vars IH]; intros seen vals Hv; [by rewrite app_nil_r|].
  replace (seen ++ v :: vars) with ((seen ++ [v]) ++ vars) by by rewrite <- app_assoc.
  apply (IH (seen ++ [v])). intros Hne.
  destruct (ident_step_serial custom v vals) as [[Hs Ho]|[Ho Hr]].
  - rewrite Hs in Hne |- *. rewrite Ho. destruct (Hv Hne) as (u & Hu & Huo & Hur). exists u.
    split; [by apply elem_of_app; left | done].
  - exists v. split; [apply elem_of_app; right; by left | done].
Qed.

Lemma guess_serial_acceptable name sval :
  guess_serial name sval <> "" ->
  name <> prtGeneralServicePerson /\
  exists m, first_group snRe sval = Some m /\ guess_serial name sval = TrimSpace m /\
    acceptable_serial (TrimSpace m) = true.
Proof.
  unfold guess_serial. destruct (String.eqb_spec name prtGeneralServicePerson); [done|].
  destruct (first_group snRe sval) as [m|]; [|done]. destruct (acceptable_serial _) eqn:Ha; [|done].
  intros _. split; [done|]. by exists m.
Qed.

Lemma guess_from g vars :
  serialGuess (guess g vars) = serialGuess g \/
  exists v, v ∈ vars /\ serialGuess (guess g vars) = guess_serial (name_of v) (text_of v).
Proof.
  revert g. induction vars as [|v vars IH]; intros g; [by left|]. cbn [guess].
  assert (Hstep : serialGuess (guess_step g v) = serialGuess g \/
    serialGuess (guess_step g v) = guess_serial (name_of v) (text_of v)).
  { unfold guess_step. simpl. case_match; [by right | by left]. }
  case_match.
  - destruct Hstep as [->| ->]; [by left | right; exists v; by split; [left|]].
  - destruct (IH (guess_step g v)) as [->|(u & Hu & ->)]; [|right; exists u; by split; [right|]].
    destruct Hstep as [->| ->]; [by left | right; exists v; by split; [left|]].
Qed.

Lemma set_model_at_ne found vals y : y <> model -> y <> ModelOID -> set_model_at found vals y = vals y.
Proof. intros. destruct found as [[cand oid]|]; simpl; [by rewrite !fn_lookup_insert_ne | done]. Qed.

Context `{MapOrder}.

Lemma host_model_ne pduByOid vals y : y <> model -> y <> ModelOID -> host_model pduByOid vals y = vals y.
Proof. intros. unfold host_model. repeat case_match; by rewrite ?set_model_at_ne. Qed.

Lemma epson_asset_ne manufacturer vals y : y <> assetID -> epson_asset manufacturer vals y = vals y.
Proof. intros. unfold epson_asset. repeat case_match; by rewrite ?fn_lookup_insert_ne. Qed.

Lemma find_identity_serial custom vars :
  let vals := find_identity custom vars in
  vals serial <> "" ->
  (exists v, v ∈ vars /\ vals SerialOID = name_of v /\ read_from v (vals serial)) \/
  (exists v m, v ∈ vars /\ name_of v <> prtGeneralServicePerson /\ first_group snRe (text_of v) = Some m /\
    vals serial = TrimSpace m /\ acceptable_serial (TrimSpace m) = true).
Proof.
  cbv zeta. unfold find_identity, apply_guesses.
  set (g := guess no_guesses vars). set (start := <[mfgGuess := _]> _).
  set (vals := host_model _ _).
  assert (Hread : serial_read vars vals).
  { assert (serial_read ([] ++ vars) (scan_idents custom start vars)) as Hs
      by (apply scan_idents_serial; intros Hne; by destruct Hne).
    unfold serial_read, vals in *. by rewrite !host_model_ne. }
  assert (Hoid : forall gs gm, set_if_empty serial gs (set_if_empty model gm vals) SerialOID = vals SerialOID)
    by (intros; by rewrite !set_if_empty_ne).
  rewrite Hoid, set_if_empty_eq, set_if_empty_ne by done. clear Hoid. unfold or_name.
  destruct (String.eqb_spec (vals serial) "") as [He|Hne]; [|intros _; left; by apply Hread].
  intros Hg. right.
  destruct (guess_from no_guesses vars) as [Hn|(v & Hv & Hs)]; [done|].
  fold g in Hs. rewrite Hs in Hg |- *. apply guess_serial_acceptable in Hg as (Hn & m & Hm & -> & Ha).
  by exists v, m.
Qed.

(** C37: where a serial number comes from. A serial number that is reported was read from
    the object of the standard MIB or from the descriptor of a known vendor, where it does
    not look like a UUID, and the object is the one that is learned for later queries; or
    it follows a label for serial numbers in some text, and looks neither like a UUID nor
    like an object id nor like the number of a supply. It never comes from a text without
    a label. *)
Theorem serial_provenance octets probe custom scanIP vars meta :
  let info := (ParsePDUs octets probe custom scanIP vars meta).1 in
  Info_Serial info <> "" ->
  (exists v, v ∈ vars /\ Learned_SerialOID (LearnedOIDs info) = name_of v /\ read_from v (Info_Serial info)) \/
  (exists v m, v ∈ vars /\ name_of v <> prtGeneralServicePerson /\ first_group snRe (text_of v) = Some m /\
    Info_Serial info = TrimSpace m /\ acceptable_serial (TrimSpace m) = true).
Proof.
  unfold ParsePDUs. cbn [fst Info_Serial LearnedOIDs Learned_SerialOID learned_oids].
  rewrite !epson_asset_ne by done. apply find_identity_serial.
Qed.
End Provenance.

Lemma serial_provenance_witness :
  let vars := [{| Name := ".1.3.6.1.2.1.43.5.1.1.17.1"; Value := VBytes "VNB3K12345" |}] in
  let info := (ParsePDUs (fun _ => true) (fun _ => "") None "10.0.0.7" vars None).1 in
  Info_Serial info = "VNB3K12345" /\
  ((exists v, v ∈ vars /\ Learned_SerialOID (LearnedOIDs info) = TrimPrefix (Name v) "." /\
      read_from v (Info_Serial info)) \/
   (exists v m, v ∈ vars /\ TrimPrefix (Name v) "." <> prtGeneralServicePerson /\
      first_group snRe (pduToString (Value v)) = Some m /\
      Info_Serial info = TrimSpace m /\ acceptable_serial (TrimSpace m) = true)).
Proof.
  cbv zeta. split; [vm_compute; reflexivity|].
  apply (serial_provenance (fun _ => true) (fun _ => "") None "10.0.0.7"). vm_compute. discriminate.
Defined.

(** ** Examples *)

(** The label may be followed by a blank, so the word behind it is taken for the number. *)
Lemma serial_label_taken : first_group snRe "Serial Number: ABC123" = Some "Number".
Proof. vm_compute. reflexivity. Qed.

(** The escapes of the default pattern are doubled in a raw string: it asks for backslashes. *)
Lemma default_asset_misses : asset_in None "Asset ID: 1234" = None.
Proof. vm_compute. reflexivity. Qed.

(** The first pattern of Epson skips any characters, digits included. *)
Lemma asset_digits_skipped : first_group epsonAssetRe2 "Asset number is 03027" = Some "027".
Proof. vm_compute. reflexivity. Qed.
