(* ===== verification/DeviceReport.v ===== *)
(** * What [ParsePDUs] reports: the network, and what the order of the Go maps can
    change. *)
From S2P Require Import Prelude GoStrings GoNet GoFloat Evidence Supplies VendorModules VendorParse PduText DeviceText ParsePdus.
From Stdlib Require Import Ascii.
From stdpp Require Import functions list.

Open Scope string_scope.
Open Scope Z_scope.
Open Scope list_scope.

(** ** The network *)

Section Network.
Context `{GoUnicode} `{GoFormat} `{MapOrder}.

Definition empty_or (valid : string -> bool) (s : string) : Prop := s = "" \/ valid s = true.

Lemma first_found_or valid l : Forall (empty_or valid) l -> empty_or valid (first_found l).
Proof.
  intros Hl. unfold first_found. destruct (List.find _ l) as [s|] eqn:Hf; [|by left].
  apply List.find_some in Hf as [Hin _]. rewrite List.Forall_forall in Hl. by apply Hl.
Qed.

Lemma normalize_ip v : empty_or isValidIPv4 (normalizeNetworkValue v FIp).
Proof. apply normalizeNetworkValue_valid. Qed.
Lemma normalize_mask v : empty_or isValidSubnetMask (normalizeNetworkValue v FSubnet).
Proof. apply normalizeNetworkValue_valid. Qed.
Lemma normalize_mac v : empty_or isValidMACAddress (normalizeNetworkValue v FMac).
Proof. apply normalizeNetworkValue_valid. Qed.

Lemma find_mask_valid scanIP pduByOid : empty_or isValidSubnetMask (find_mask scanIP pduByOid).
Proof.
  unfold find_mask. destruct (String.eqb _ "").
  - apply first_found_or, Forall_fmap, Forall_forall. intros [k p] _. simpl.
    case_match; [apply normalize_mask | by left].
  - case_match; [apply normalize_mask | by left].
Qed.

Definition network_ok (n : network) : Prop :=
  empty_or isValidIPv4 (gateway n) /\ Forall (fun s => isValidIPv4 s = true) (dnsServers n) /\
  empty_or isValidIPv4 (dhcpServer n).

Lemma fill_ok cond old v : empty_or isValidIPv4 old -> empty_or isValidIPv4 v -> empty_or isValidIPv4 (fill cond old v).
Proof. unfold fill. by destruct (_ && _). Qed.

Lemma append_ok (b : bool) l v :
  empty_or isValidIPv4 v -> Forall (fun s => isValidIPv4 s = true) l ->
  Forall (fun s => isValidIPv4 s = true) (if b && negb (String.eqb v "") then l ++ [v] else l).
Proof.
  intros [->|Hv] Hl; [by rewrite andb_false_r|]. case_match; [|done].
  apply Forall_app. by rewrite Forall_singleton.
Qed.

Lemma network_step_ok n entry : network_ok n -> network_ok (network_step n entry).
Proof.
  destruct entry as [k p]. intros (Hg & Hd & Hs). unfold network_step. cbv zeta.
  set (ip := normalizeNetworkValue _ FIp). assert (Hip : empty_or isValidIPv4 ip) by apply normalize_ip.
  split_and!; simpl; [by apply fill_ok | | by repeat apply fill_ok].
  set (dns := if _ && negb (String.eqb ip "") then _ else _).
  assert (Forall (fun s => isValidIPv4 s = true) dns) as Hdns by by apply append_ok.
  case_match eqn:Hc; [|done]. apply andb_true_iff in Hc as [Hc _]. apply andb_true_iff in Hc as [_ Hc].
  apply Forall_app. rewrite Forall_singleton. split; [done|].
  destruct Hip as [He|]; [by rewrite He in Hc | done].
Qed.

Lemma find_network_ok pduByOid : network_ok (find_network pduByOid).
Proof.
  unfold find_network. generalize (visit 4 pduByOid).
  assert (Hstart : network_ok {| gateway := ""; dnsServers := []; dhcpServer := "" |}) by (split_and!; [by left|done|by left]).
  revert Hstart. generalize {| gateway := ""; dnsServers := []; dhcpServer := "" |}.
  intros n Hn l. revert n Hn. induction l as [|e l IH]; intros n Hn; simpl; [done|]. by apply IH, network_step_ok.
Qed.

Lemma default_route_ok pduByOid : empty_or isValidIPv4 (default_route pduByOid).
Proof.
  unfold default_route. apply first_found_or, Forall_fmap, Forall_forall. intros [idx d] _. simpl.
  repeat case_match; try (by left). apply normalize_ip.
Qed.

Lemma chosen_mac_ok meta t : empty_or isValidMACAddress (chosen_mac meta t).
Proof.
  unfold chosen_mac. destruct (String.eqb _ "").
  - apply first_found_or, Forall_fmap, Forall_forall. intros entry _. apply normalize_mac.
  - case_match; [apply normalize_mac | by left].
Qed.

(** The network of a device. The mask, gateway, name servers and DHCP server that are
    reported are valid addresses, or missing, for every answer of the device and every
    order of the maps. A hardware address is valid when it is not the one of the scan,
    which is taken as it is. *)
Theorem reported_network_valid octets probe custom scanIP vars meta :
  let info := (ParsePDUs octets probe custom scanIP vars meta).1 in
  empty_or isValidSubnetMask (SubnetMask info) /\ empty_or isValidIPv4 (Gateway info) /\
  Forall (fun s => isValidIPv4 s = true) (DNSServers info) /\ empty_or isValidIPv4 (DHCPServer info) /\
  ((exists m, meta = Some m /\ MAC info = Meta_MAC m) \/ empty_or isValidMACAddress (MAC info)).
Proof.
  unfold ParsePDUs. cbn [fst SubnetMask Gateway DNSServers DHCPServer MAC].
  destruct (find_network_ok (index_pdus vars)) as (Hg & Hd & Hs). split_and!; [apply find_mask_valid| |done|done|].
  - unfold or_name. case_match; [done | apply default_route_ok].
  - unfold final_mac. destruct meta as [m|]; [|right; apply chosen_mac_ok].
    case_match; [right; apply chosen_mac_ok | left; by exists m].
Qed.
End Network.

(** The columns of the route table are read from the last but one component of the object
    id, which is part of the row: a complete default route gives no gateway. *)
Lemma default_route_missed `{GoUnicode} `{GoFormat} `{MapOrder} :
  default_route (index_pdus
    [{| Name := "1.3.6.1.2.1.4.21.1.1.0.0.0.0"; Value := VString "0.0.0.0" |};
     {| Name := "1.3.6.1.2.1.4.21.1.7.0.0.0.0"; Value := VString "10.0.0.1" |}]) = "".
Proof.
  unfold default_route. assert (route_column "1" (index_pdus
    [{| Name := "1.3.6.1.2.1.4.21.1.1.0.0.0.0"; Value := VString "0.0.0.0" |};
     {| Name := "1.3.6.1.2.1.4.21.1.7.0.0.0.0"; Value := VString "10.0.0.1" |}]) = ∅) as ->.
  - unfold route_column. set (idx := index_pdus _). pose proof (visit_perm 5 idx) as Hp.
    assert (Hl : Forall (fun e : string * SnmpPDU => match route_cell e.1 with Some (f, _) => String.eqb f "1" | None => false end = false)
      (visit 5 idx)).
    { rewrite Hp. vm_compute. by repeat constructor. }
    revert Hl. generalize (visit 5 idx). generalize (∅ : gmap string string). intros m l. revert m.
    induction l as [|[k p] l IH]; intros m Hl; simpl; [done|]. apply Forall_cons_1 in Hl as [Hk Hl]. simpl in Hk.
    destruct (route_cell k) as [[f i]|]; [rewrite Hk|]; by apply IH.
  - pose proof (visit_perm 6 (∅ : gmap string string)) as Hp. rewrite map_to_list_empty in Hp.
    apply Permutation_nil_r in Hp. by rewrite Hp.
Qed.

(** ** The order of the maps *)

Section Order.
Context `{GoUnicode} `{GoFormat}.
Notation text_of v := (pduToString (Value v)).

(** *** Meters *)

Definition raise (old : option Z) (v : Z) : option Z :=
  Some (match old with Some e => Z.max e v | None => v end).

Lemma assign_lookup cond key v m k :
  assign cond key v m !! k = if cond && String.eqb key k then raise (m !! k) v else m !! k.
Proof.
  unfold assign, raise. destruct cond; simpl; [|done].
  destruct (String.eqb_spec key k) as [->|Hne].
  - destruct (m !! k) as [e|] eqn:He; [|apply lookup_insert_eq].
    destruct (Z.ltb_spec e v); [rewrite lookup_insert_eq | rewrite He]; f_equal; lia.
  - case_match; [by apply lookup_insert_ne | done].
Qed.

Definition label : Type := bool * string * Z.
Definition put_label (m : gmap string Z) '((c, k, v) : label) : gmap string Z := assign c k v m.

Lemma put_label_comm m l1 l2 : put_label (put_label m l1) l2 = put_label (put_label m l2) l1.
Proof.
  destruct l1 as [[c1 k1] v1], l2 as [[c2 k2] v2]. apply map_eq. intros k. simpl.
  rewrite !assign_lookup. destruct (c1 && String.eqb k1 k), (c2 && String.eqb k2 k); try done.
  unfold raise. f_equal. destruct (m !! k); lia.
Qed.

(** The labels of a counter. *)
Definition labels_of (entry : string * SnmpPDU) : list label :=
  let '(oid, p) := entry in
  match toInt (Value p) with
  | None => []
  | Some iv =>
      let valStr := ToLower (text_of p) in
      let nameStr := ToLower oid in
      let either w := Contains nameStr w || Contains valStr w in
      [(Contains nameStr "total" && Contains nameStr "page" ||
        Contains valStr "total" && Contains valStr "page", "total_pages", iv);
       (either "mono" || either "black", "mono_pages", iv); (either "mono" || either "black", "black", iv);
       (either "copier", "copier_pages", iv);
       (Contains nameStr "printer" && Contains nameStr "total" || Contains valStr "printer", "printer_pages", iv);
       (either "fax", "fax_pages", iv); (either "scan", "scan_pages", iv);
       (either "local", "local_pages", iv); (either "banner", "banner_pages", iv)]
  end.

Lemma labelled_step_labels m entry : labelled_step m entry = foldl put_label m (labels_of entry).
Proof. destruct entry as [oid p]. unfold labelled_step, labels_of. by destruct (toInt (Value p)). Qed.

Lemma labelled_steps m l : foldl labelled_step m l = foldl put_label m (l ≫= labels_of).
Proof.
  revert m. induction l as [|e l IH]; intros m; [done|].
  rewrite bind_cons, foldl_app. cbn [foldl]. by rewrite IH, labelled_step_labels.
Qed.

Lemma labelled_perm m l1 l2 : l1 ≡ₚ l2 -> foldl labelled_step m l1 = foldl labelled_step m l2.
Proof.
  intros Hp. rewrite !labelled_steps. apply foldl_perm; [intros; apply put_label_comm | by rewrite Hp].
Qed.

Lemma marker_sum_perm l1 l2 : l1 ≡ₚ l2 -> marker_sum l1 = marker_sum l2.
Proof.
  apply foldl_perm. intros [i1 v1] [i2 v2] s _ _. unfold iadd. rewrite !wrap64_add_l. f_equal. lia.
Qed.

Lemma color_name_inj i1 i2 name : color_name i1 = Some name -> color_name i2 = Some name -> i1 = i2.
Proof. unfold color_name. intros H1 H2. repeat case_match; reflect_bools; try lia; simplify_eq. Qed.

Lemma colors_perm m l1 l2 :
  NoDup l1.*1 -> l1 ≡ₚ l2 ->
  foldl put_color m l1 = foldl put_color m l2.
Proof.
  intros Hnd. apply foldl_perm. intros [i1 v1] [i2 v2] b Hx Hy. unfold put_color.
  destruct (color_name i1) as [n1|] eqn:H1; [|done]. destruct (color_name i2) as [n2|] eqn:H2; [|done].
  destruct (decide (n1 = n2)) as [->|Hne]; [|by rewrite insert_insert_ne].
  pose proof (color_name_inj _ _ _ H1 H2) as ->.
  assert ((i2, v1) = (i2, v2)) as [= ->]; [|done]. by eapply (NoDup_fmap_inj fst).
Qed.

Lemma NoDup_keys_filter {A} (f : Z * A -> bool) l : NoDup l.*1 -> NoDup (List.filter f l).*1.
Proof.
  induction l as [|[k a] l IH]; simpl; [done|]. intros [Hk Hnd]%NoDup_cons.
  destruct (f (k, a)); simpl; [|by apply IH]. apply NoDup_cons. split; [|by apply IH].
  intros Hin. apply Hk. apply list_elem_of_fmap in Hin as ([k' a'] & -> & Hin). simpl.
  apply list_elem_of_In, List.filter_In in Hin as [Hin _]. apply list_elem_of_fmap.
  exists (k', a'). by rewrite list_elem_of_In.
Qed.

Lemma find_only {A} (f : A -> bool) l x :
  (forall y, y ∈ l -> f y = true -> y = x) ->
  List.find f l = if existsb f l then Some x else None.
Proof.
  induction l as [|y l IH]; intros Hu; [done|]. simpl. destruct (f y) eqn:Hf; simpl.
  - f_equal. apply Hu; [by left | done].
  - apply IH. intros z Hz. apply Hu. by right.
Qed.

Lemma find_perm {A} (f : A -> bool) l1 l2 :
  (forall x y, x ∈ l1 -> y ∈ l1 -> f x = true -> f y = true -> x = y) ->
  l1 ≡ₚ l2 -> List.find f l1 = List.find f l2.
Proof.
  intros Hu Hp. destruct (List.find f l1) as [x|] eqn:Hf.
  - pose proof (List.find_some _ _ Hf) as [Hin Hx]. apply list_elem_of_In in Hin.
    rewrite (find_only f l2 x), <- (existsb_perm f _ _ Hp).
    + by rewrite (proj2 (existsb_elem_of f l1)) by (by exists x).
    + intros y Hy Hfy. rewrite <- Hp in Hy. by apply Hu.
  - symmetry. destruct (List.find f l2) as [y|] eqn:Hf2; [|done].
    apply List.find_some in Hf2 as [Hin Hy]. apply list_elem_of_In in Hin. rewrite <- Hp in Hin.
    apply list_elem_of_In in Hin. by rewrite (List.find_none _ _ Hf _ Hin) in Hy.
Qed.

Section Two.
Context (o1 o2 : MapOrder).

Lemma visits_perm {K A} `{Countable K} n (m : gmap K A) : @visit o1 K A _ _ n m ≡ₚ @visit o2 K A _ _ n m.
Proof. by rewrite !visit_perm. Qed.

Lemma counter_meters_order markers : @counter_meters o1 markers = @counter_meters o2 markers.
Proof.
  unfold counter_meters. cbv zeta.
  rewrite (marker_sum_perm _ _ (visits_perm 8 markers)).
  pose proof (filter_perm (fun '(idx, _) => negb (idx =? 1)) _ _ (visits_perm 9 markers)) as Hp.
  rewrite (marker_sum_perm _ _ Hp). f_equal. apply colors_perm; [|exact Hp].
  apply NoDup_keys_filter. rewrite visit_perm. apply NoDup_fst_map_to_list.
Qed.

Lemma find_meters_order t pduByOid : @find_meters _ _ o1 t pduByOid = @find_meters _ _ o2 t pduByOid.
Proof. unfold find_meters. rewrite counter_meters_order. apply labelled_perm, visits_perm. Qed.

(** At most one of the devices behind a host is a printer. *)
Definition one_printer_row (pduByOid : gmap string SnmpPDU) : Prop :=
  forall k1 p1 k2 p2, pduByOid !! k1 = Some p1 -> pduByOid !! k2 = Some p2 ->
    is_printer_row (k1, p1) = true -> is_printer_row (k2, p2) = true -> k1 = k2.

Lemma hrPrinterIdx_order pduByOid :
  one_printer_row pduByOid -> @hrPrinterIdx _ _ o1 pduByOid = @hrPrinterIdx _ _ o2 pduByOid.
Proof.
  intros Hone. unfold hrPrinterIdx. rewrite (find_perm _ _ (@visit o2 _ _ _ _ 2 pduByOid)); [done| |apply visits_perm].
  intros [k1 p1] [k2 p2] H1 H2 Hr1 Hr2. rewrite visit_perm in H1, H2.
  apply elem_of_map_to_list in H1, H2. pose proof (Hone _ _ _ _ H1 H2 Hr1 Hr2) as ->. congruence.
Qed.

Lemma find_identity_order custom vars :
  one_printer_row (index_pdus vars) -> @find_identity _ _ o1 custom vars = @find_identity _ _ o2 custom vars.
Proof. intros Hone. unfold find_identity, host_model. by rewrite (hrPrinterIdx_order _ Hone). Qed.

Lemma find_duplex_order pduByOid : @find_duplex _ _ o1 pduByOid = @find_duplex _ _ o2 pduByOid.
Proof. apply existsb_perm, visits_perm. Qed.
End Two.

(** C38: what the order of the maps cannot change. For any two orders, the page count, the
    impressions and all meters of a device are the same, and so are its paper trays and the
    duplex flag. When at most one device behind the host is a printer, its manufacturer,
    model, serial number and asset number, the reasons of the detection and whether it is a
    printer are the same too. *)
Theorem report_order_free (o1 o2 : MapOrder) octets probe custom scanIP vars meta :
  let r1 := @ParsePDUs _ _ octets o1 probe custom scanIP vars meta in
  let r2 := @ParsePDUs _ _ octets o2 probe custom scanIP vars meta in
  Meters (metering r1.1) = Meters (metering r2.1) /\
  PageCount (metering r1.1) = PageCount (metering r2.1) /\
  MonoImpressions (metering r1.1) = MonoImpressions (metering r2.1) /\
  ColorImpressions (metering r1.1) = ColorImpressions (metering r2.1) /\
  PaperTrays r1.1 = PaperTrays r2.1 /\ DuplexSupported r1.1 = DuplexSupported r2.1 /\
  (one_printer_row (index_pdus vars) ->
   Manufacturer r1.1 = Manufacturer r2.1 /\ Info_Model r1.1 = Info_Model r2.1 /\
   Info_Serial r1.1 = Info_Serial r2.1 /\ AssetID r1.1 = AssetID r2.1 /\
   DetectionReasons r1.1 = DetectionReasons r2.1 /\ r1.2 = r2.2).
Proof.
  cbv zeta. unfold ParsePDUs.
  cbn [fst snd metering Meters PageCount MonoImpressions ColorImpressions PaperTrays DuplexSupported
       Manufacturer Info_Model Info_Serial AssetID DetectionReasons find_metering].
  split_and!; try done.
  - apply find_meters_order.
  - apply (ParsePaperTrays_order vars); by rewrite visit_perm.
  - apply find_duplex_order.
  - intros Hone. rewrite (find_identity_order o1 o2 custom vars Hone). by split_and!.
Qed.
End Order.
