(* ===== verification/MergeMetrics.v ===== *)
(** * Vendor metrics in the report of a device ([MergeVendorMetrics] of
    [agent/agent/parse.go]).

    The loop visits the map of metrics in an arbitrary order. Each branch of its switch
    is an [effect] on the metering of the device. *)
From S2P Require Import Prelude Oids GoStrings GoFloat Evidence Supplies VendorModules VendorParse PduText DeviceText ParsePdus DeviceReport.
From Stdlib Require Import Ascii.
From stdpp Require Import functions list.

Open Scope string_scope.
Open Scope Z_scope.
Open Scope list_scope.

Inductive toner := Black | Cyan | Magenta | Yellow.

#[export] Instance toner_eq_dec : EqDecision toner.
Proof. solve_decision. Defined.

Definition toner_name (c : toner) : string :=
  match c with Black => "black" | Cyan => "cyan" | Magenta => "magenta" | Yellow => "yellow" end.

(** What a metric changes: the page count, the impressions, a meter, the level of a
    color, or another level. *)
Inductive effect := EPages | EMono | EColor | EMeter (name : string) | EToner (c : toner) | ELevel (name : string).

#[export] Instance effect_eq_dec : EqDecision effect.
Proof. solve_decision. Defined.

Definition counters : list string :=
  ["print_pages"; "print_mono_pages"; "print_color_pages"; "copy_pages"; "copy_mono_pages";
   "copy_color_pages"; "fax_pages"; "fax_mono_pages"].

Definition effect_of (key : string) : effect :=
  if bool_decide (key ∈ ["total_pages"; "page_count"]) then EPages
  else if String.eqb key "mono_pages" then EMono
  else if String.eqb key "color_pages" then EColor
  else if bool_decide (key ∈ counters) then EMeter key
  else if String.eqb key "scan_count" then EMeter "scans"
  else if bool_decide (key ∈ ["toner_black"; "ink_black"]) then EToner Black
  else if bool_decide (key ∈ ["toner_cyan"; "ink_cyan"]) then EToner Cyan
  else if bool_decide (key ∈ ["toner_magenta"; "ink_magenta"]) then EToner Magenta
  else if bool_decide (key ∈ ["toner_yellow"; "ink_yellow"]) then EToner Yellow
  else if existsb (HasPrefix key) ["supply_"; "toner_"; "ink_"] then ELevel key
  else EMeter key.

Definition set_meter (name : string) (v : Z) (m : Metering) : Metering :=
  {| PageCount := PageCount m; MonoImpressions := MonoImpressions m; ColorImpressions := ColorImpressions m;
     TonerLevelBlack := TonerLevelBlack m; TonerLevelCyan := TonerLevelCyan m;
     TonerLevelMagenta := TonerLevelMagenta m; TonerLevelYellow := TonerLevelYellow m;
     TonerLevels := TonerLevels m; Meters := <[name := v]> (Meters m) |}.

Definition set_level (name : string) (v : Z) (m : Metering) : Metering :=
  {| PageCount := PageCount m; MonoImpressions := MonoImpressions m; ColorImpressions := ColorImpressions m;
     TonerLevelBlack := TonerLevelBlack m; TonerLevelCyan := TonerLevelCyan m;
     TonerLevelMagenta := TonerLevelMagenta m; TonerLevelYellow := TonerLevelYellow m;
     TonerLevels := <[name := v]> (TonerLevels m); Meters := Meters m |}.

(** The page count only grows. *)
Definition set_pages (v : Z) (m : Metering) : Metering :=
  {| PageCount := if (PageCount m =? 0) || (PageCount m <? v) then v else PageCount m;
     MonoImpressions := MonoImpressions m; ColorImpressions := ColorImpressions m;
     TonerLevelBlack := TonerLevelBlack m; TonerLevelCyan := TonerLevelCyan m;
     TonerLevelMagenta := TonerLevelMagenta m; TonerLevelYellow := TonerLevelYellow m;
     TonerLevels := TonerLevels m; Meters := Meters m |}.

Definition set_impressions (color : bool) (v : Z) (m : Metering) : Metering :=
  {| PageCount := PageCount m; MonoImpressions := if color then MonoImpressions m else v;
     ColorImpressions := if color then v else ColorImpressions m;
     TonerLevelBlack := TonerLevelBlack m; TonerLevelCyan := TonerLevelCyan m;
     TonerLevelMagenta := TonerLevelMagenta m; TonerLevelYellow := TonerLevelYellow m;
     TonerLevels := TonerLevels m; Meters := Meters m |}.

Definition set_toner (c : toner) (v : Z) (m : Metering) : Metering :=
  {| PageCount := PageCount m; MonoImpressions := MonoImpressions m; ColorImpressions := ColorImpressions m;
     TonerLevelBlack := match c with Black => v | _ => TonerLevelBlack m end;
     TonerLevelCyan := match c with Cyan => v | _ => TonerLevelCyan m end;
     TonerLevelMagenta := match c with Magenta => v | _ => TonerLevelMagenta m end;
     TonerLevelYellow := match c with Yellow => v | _ => TonerLevelYellow m end;
     TonerLevels := TonerLevels m; Meters := Meters m |}.

(** Counters are positive, levels are not negative. *)
Definition counts (e : effect) (v : Z) : bool :=
  match e with EToner _ | ELevel _ => 0 <=? v | _ => 0 <? v end.

Definition apply_effect (e : effect) (v : Z) (m : Metering) : Metering :=
  match e with
  | EPages => set_meter "total_pages" v (set_pages v m)
  | EMono => set_meter "mono_pages" v (set_impressions false v m)
  | EColor => set_meter "color_pages" v (set_impressions true v m)
  | EMeter name => set_meter name v m
  | EToner c => set_level (toner_name c) v (set_toner c v m)
  | ELevel name => set_level name v m
  end.

Definition merge_metric (m : Metering) (metric : string * MetricValue) : Metering :=
  let '(key, value) := metric in
  match toIntValue value with
  | Some v => if counts (effect_of key) v then apply_effect (effect_of key) v m else m
  | None => m
  end.

Definition merge_metrics (m : Metering) (order : list (string * MetricValue)) : Metering :=
  foldl merge_metric m order.

Section Merge.
Context `{GoUnicode} `{GoFormat} `{MapOrder}.

(** The [Parse] method of a module. *)
Definition module_Parse (vendor : VendorModule) (pdus : list SnmpPDU) : gmap string MetricValue :=
  let supplies := parseSuppliesTable (visit 14 (supply_entries pdus)) in
  if String.eqb (vendor_name vendor) "HP" then hp_Parse supplies pdus
  else if String.eqb (vendor_name vendor) "Kyocera" then kyocera_Parse supplies pdus
  else if String.eqb (vendor_name vendor) "Epson" then epson_Parse supplies pdus
  else generic_Parse supplies pdus.

(** Without an address there is no remote mode. *)
Definition MergeVendorMetrics (manufacturer : string) (m : Metering) (pdus : list SnmpPDU)
    (vendorHint : string) : Metering :=
  match pdus with
  | [] => m
  | _ =>
      let vendor := metrics_module vendorHint manufacturer pdus in
      if String.eqb (vendor_name vendor) "Generic" then m
      else merge_metrics m (visit 15 (module_Parse vendor pdus))
  end.
End Merge.

(** ** The order of the metrics *)

(** A meter with a branch of its own is not reached under its name. *)
Definition own_meters : list string := ["total_pages"; "mono_pages"; "color_pages"].

Definition proper_effect (e : effect) : Prop :=
  match e with
  | EMeter name => name ∉ own_meters
  | ELevel name => forall c, name <> toner_name c
  | _ => True
  end.

Lemma effect_of_proper key : proper_effect (effect_of key).
Proof.
  assert (Hc : forallb (fun k => bool_decide (k ∉ own_meters)) counters = true) by reflexivity.
  unfold effect_of. repeat (case_match; try exact I); unfold proper_effect.
  - rewrite forallb_elem_of in Hc. by apply (bool_decide_eq_true_1 _), Hc, (bool_decide_eq_true_1 _).
  - by apply (bool_decide_eq_true_1 _).
  - intros c ->. by destruct c.
  - unfold own_meters. rewrite !elem_of_cons, elem_of_nil.
    intros [->|[->|[->|[]]]]; discriminate.
Qed.

Lemma apply_effect_comm e1 e2 v1 v2 m :
  proper_effect e1 -> proper_effect e2 -> (e1 = e2 -> v1 = v2) ->
  apply_effect e1 v1 (apply_effect e2 v2 m) = apply_effect e2 v2 (apply_effect e1 v1 m).
Proof.
  intros Hp1 Hp2 Heq. destruct (decide (e1 = e2)) as [->|Hne]; [by rewrite Heq|].
  destruct e1 as [| | |n1|c1|n1], e2 as [| | |n2|c2|n2]; simpl in Hp1, Hp2; try done;
    unfold apply_effect, set_meter, set_level, set_pages, set_impressions, set_toner; simpl; try done.
  all: try (f_equal; rewrite insert_insert_ne; [done|]; unfold own_meters in *; set_solver).
  all: try (destruct c1, c2; try done; f_equal; by rewrite insert_insert_ne).
Qed.

Lemma merge_metrics_perm m l1 l2 :
  (forall k1 v1 k2 v2, (k1, v1) ∈ l1 -> (k2, v2) ∈ l1 ->
     effect_of k1 = effect_of k2 -> toIntValue v1 = toIntValue v2) ->
  l1 ≡ₚ l2 -> merge_metrics m l1 = merge_metrics m l2.
Proof.
  intros Hagree. apply foldl_perm. intros [k1 v1] [k2 v2] b H1 H2. unfold merge_metric.
  pose proof (Hagree _ _ _ _ H1 H2) as Heq.
  destruct (toIntValue v1) as [n1|], (toIntValue v2) as [n2|]; try done.
  destruct (counts (effect_of k1) n1), (counts (effect_of k2) n2); try done.
  symmetry. apply apply_effect_comm; [apply effect_of_proper..|]. intros He. by injection (Heq He).
Qed.

(** The metrics with an effect. *)
Definition keys_of (e : effect) : list string :=
  match e with
  | EPages => ["total_pages"; "page_count"]
  | EMono => ["mono_pages"]
  | EColor => ["color_pages"]
  | EMeter name => if String.eqb name "scans" then ["scan_count"; "scans"] else [name]
  | EToner Black => ["toner_black"; "ink_black"]
  | EToner Cyan => ["toner_cyan"; "ink_cyan"]
  | EToner Magenta => ["toner_magenta"; "ink_magenta"]
  | EToner Yellow => ["toner_yellow"; "ink_yellow"]
  | ELevel name => [name]
  end.

Lemma keys_of_effect key : key ∈ keys_of (effect_of key).
Proof.
  unfold effect_of.
  repeat (case_match; [first [ by apply (bool_decide_eq_true_1 _)
                             | match goal with Hb : String.eqb key ?n = true |- _ => apply String.eqb_eq in Hb as ->; vm_compute; repeat constructor end
                             | idtac ]|]).
  all: unfold keys_of; try (case_match; [|by left]); try by left.
  all: match goal with Hb : String.eqb _ "scans" = true |- _ => apply String.eqb_eq in Hb; rewrite Hb; right; left end.
Qed.

(** The metrics that would compete with others. *)
Definition rivals : list string := ["scans"; "ink_black"; "ink_cyan"; "ink_magenta"; "ink_yellow"].

Lemma metrics_agree (metrics : gmap string MetricValue) k1 v1 k2 v2 :
  metrics !! "total_pages" = metrics !! "page_count" ->
  (forall k, k ∈ rivals -> metrics !! k = None) ->
  metrics !! k1 = Some v1 -> metrics !! k2 = Some v2 -> effect_of k1 = effect_of k2 -> v1 = v2.
Proof.
  intros Hpages Hrivals H1 H2 He. pose proof (keys_of_effect k1) as K1. pose proof (keys_of_effect k2) as K2.
  rewrite <- He in K2. clear He.
  assert (Hno : forall k v, metrics !! k = Some v -> k ∉ rivals) by (intros k v Hk Hin; by rewrite (Hrivals k Hin) in Hk).
  assert (Hpair : forall a b, b ∈ rivals -> k1 ∈ [a; b] -> k2 ∈ [a; b] -> v1 = v2).
  { clear K1 K2. intros a b Hb K1 K2. rewrite !elem_of_cons, elem_of_nil in K1, K2.
    assert (k1 <> b) by (intros ->; exact (Hno _ _ H1 Hb)).
    assert (k2 <> b) by (intros ->; exact (Hno _ _ H2 Hb)).
    assert (k1 = a) as -> by tauto. assert (k2 = a) as -> by tauto. congruence. }
  assert (Hone : forall a, k1 ∈ [a] -> k2 ∈ [a] -> v1 = v2).
  { clear K1 K2. intros a K1 K2. apply list_elem_of_singleton in K1 as ->, K2 as ->. congruence. }
  destruct (effect_of k1) as [| | |name|c|name]; simpl in K1, K2.
  - rewrite !elem_of_cons, elem_of_nil in K1, K2.
    destruct K1 as [->|[->|[]]], K2 as [->|[->|[]]]; congruence.
  - eauto.
  - eauto.
  - destruct (String.eqb name "scans"); [|eauto]. apply (Hpair "scan_count" "scans"); [repeat constructor|done..].
  - destruct c; (eapply Hpair; [|exact K1|exact K2]); unfold rivals; repeat constructor.
  - eauto.
Qed.

(** A part of the metering that only the metrics of one effect change, each by a step that
    makes no difference when it is taken again. *)
Record counter_part (X : Type) := {
  part : Metering -> X;
  part_effect : effect;
  part_step : option Z -> X -> X;
}.
Arguments part {X}.
Arguments part_effect {X}.
Arguments part_step {X}.

(** ** What is merged *)

Section Merged.
Context `{GoUnicode}.

Lemma hp_no_rivals order pdus k : k ∈ rivals -> hp_Parse (parseSuppliesTable order) pdus !! k = None.
Proof.
  unfold rivals. rewrite !elem_of_cons, elem_of_nil. intros Hk. unfold hp_Parse. cbv zeta.
  destruct Hk as [->|[->|[->|[->|[->|[]]]]]]; rewrite with_supplies_other by reflexivity;
    repeat first [ rewrite put_positive_ne by done | rewrite put_when_ne by done | rewrite put_total_ne by done ];
    apply lookup_empty.
Qed.

Lemma kyocera_no_rivals order pdus k : k ∈ rivals -> kyocera_Parse (parseSuppliesTable order) pdus !! k = None.
Proof.
  unfold rivals. rewrite !elem_of_cons, elem_of_nil. intros Hk. unfold kyocera_Parse. cbv zeta.
  destruct Hk as [->|[->|[->|[->|[->|[]]]]]]; rewrite with_supplies_other by reflexivity;
    rewrite !put_positive_ne by done;
    (destruct (0 <? first_positive _); [rewrite put_total_ne by done | destruct (_ || _); [rewrite !lookup_insert_ne by done|]]);
    repeat first [ rewrite put_positive_ne by done | rewrite put_when_ne by done ]; apply lookup_empty.
Qed.

Context `{GoFormat}.

(** The supplies of an answer have names of their own. *)
Definition distinct_supplies (pdus : list SnmpPDU) : Prop :=
  NoDup (supply_key <$> filter (fun e => reported e = true) (map_to_list (supply_entries pdus)).*2).

Lemma module_Parse_order (o1 o2 : MapOrder) vendor pdus :
  distinct_supplies pdus -> @module_Parse _ o1 vendor pdus = @module_Parse _ o2 vendor pdus.
Proof.
  intros Hd. unfold module_Parse. cbv zeta.
  assert (Hs : forall o : MapOrder, parseSuppliesTable (@visit o _ _ _ _ 14 (supply_entries pdus)) =
    parseSuppliesTable (map_to_list (supply_entries pdus))).
  { intros o. symmetry. apply supplies_order_from; [by rewrite visit_perm | exact Hd]. }
  by rewrite !Hs.
Qed.

Lemma module_Parse_agree (o : MapOrder) vendor pdus k1 v1 k2 v2 :
  vendor_name vendor ∈ ["HP"; "Kyocera"] ->
  @module_Parse _ o vendor pdus !! k1 = Some v1 -> @module_Parse _ o vendor pdus !! k2 = Some v2 ->
  effect_of k1 = effect_of k2 -> v1 = v2.
Proof.
  intros Hv. unfold module_Parse. cbv zeta. rewrite !elem_of_cons, elem_of_nil in Hv.
  destruct Hv as [->|[->|[]]]; simpl; apply metrics_agree.
  - rewrite !hp_total by (unfold total_key; auto). done.
  - apply hp_no_rivals.
  - rewrite !kyocera_total by (unfold total_key; auto). done.
  - apply kyocera_no_rivals.
Qed.

(** The vendor metrics of HP and Kyocera devices. When the supplies of the answer have
    names of their own, the merged report is the same for every order in which the maps are
    visited: no two metrics of these modules compete for a field with different values. *)
Theorem vendor_metrics_order_free (o1 o2 : MapOrder) manufacturer m pdus vendorHint :
  vendor_name (metrics_module vendorHint manufacturer pdus) ∈ ["HP"; "Kyocera"] ->
  distinct_supplies pdus ->
  @MergeVendorMetrics _ _ o1 manufacturer m pdus vendorHint = @MergeVendorMetrics _ _ o2 manufacturer m pdus vendorHint.
Proof.
  intros Hv Hd. unfold MergeVendorMetrics. destruct pdus as [|pdu pdus]; [done|].
  set (vendor := metrics_module _ _ _) in *. destruct (String.eqb (vendor_name vendor) "Generic"); [done|].
  rewrite (module_Parse_order o2 o1) by done. apply merge_metrics_perm; [|by rewrite !visit_perm].
  intros k1 v1 k2 v2 Hk1 Hk2 He. rewrite visit_perm in Hk1, Hk2. apply elem_of_map_to_list in Hk1, Hk2.
  f_equal. by eapply (module_Parse_agree o1 vendor).
Qed.

(** *** The counters *)

Definition has_key (metrics : gmap string MetricValue) (k : string) : bool := bool_decide (is_Some (metrics !! k)).

Definition part_ok {X} (c : counter_part X) : Prop :=
  (forall k, k ∈ keys_of (part_effect c) -> effect_of k = part_effect c) /\
  (forall o x, part_step c o (part_step c o x) = part_step c o x) /\
  (forall m k v, part c (merge_metric m (k, v)) =
     if bool_decide (effect_of k = part_effect c) then part_step c (toIntValue v) (part c m) else part c m).

Lemma merge_metrics_part {X} (c : counter_part X) order o m :
  part_ok c -> (forall k v, (k, v) ∈ order -> effect_of k = part_effect c -> toIntValue v = o) ->
  part c (merge_metrics m order) =
    if existsb (fun metric => bool_decide (effect_of metric.1 = part_effect c)) order
    then part_step c o (part c m) else part c m.
Proof.
  intros (_ & Hidem & Hstep). revert m. induction order as [|[k v] order IH]; intros m Ho; [done|].
  unfold merge_metrics. cbn [foldl existsb fst]. fold (merge_metrics (merge_metric m (k, v)) order).
  rewrite IH by (intros; eapply Ho; [by right|done]). rewrite Hstep.
  destruct (bool_decide_reflect (effect_of k = part_effect c)) as [He|He]; [|done]. cbn [orb].
  rewrite (Ho k v) by (done || by left). destruct (existsb _ order); [apply Hidem|done].
Qed.

Lemma merged_part {X} (c : counter_part X) (metrics : gmap string MetricValue) order o m :
  part_ok c -> order ≡ₚ map_to_list metrics ->
  (forall k v, k ∈ keys_of (part_effect c) -> metrics !! k = Some v -> toIntValue v = o) ->
  part c (merge_metrics m order) =
    if existsb (has_key metrics) (keys_of (part_effect c)) then part_step c o (part c m) else part c m.
Proof.
  intros Hc Horder Ho.
  assert (Hkey : forall k v, (k, v) ∈ order -> effect_of k = part_effect c -> k ∈ keys_of (part_effect c) /\ metrics !! k = Some v).
  { intros k v Hin <-. rewrite Horder in Hin. split; [apply keys_of_effect | by apply elem_of_map_to_list]. }
  rewrite (merge_metrics_part c order o m Hc) by (intros k v Hin He; destruct (Hkey k v Hin He); eauto).
  assert (existsb (fun metric => bool_decide (effect_of metric.1 = part_effect c)) order =
          existsb (has_key metrics) (keys_of (part_effect c))) as ->; [|done].
  apply eq_true_iff_eq. rewrite !existsb_elem_of. split.
  - intros ([k v] & Hin & He). apply (bool_decide_eq_true_1 _) in He. destruct (Hkey k v Hin He) as [Hk Hv].
    exists k. split; [done|]. apply bool_decide_eq_true_2. by eexists.
  - intros (k & Hk & Hv). apply (bool_decide_eq_true_1 _) in Hv as [v Hv]. exists (k, v). split.
    + rewrite Horder. by apply elem_of_map_to_list.
    + apply bool_decide_eq_true_2. by apply Hc.
Qed.

(** The page count with its meter, and the impressions with theirs. *)
Definition max_pages (n old : Z) : Z := if 0 <? n then Z.max old n else old.

Definition if_positive {X} (o : option Z) (f : Z -> X -> X) (x : X) : X :=
  match o with Some n => if 0 <? n then f n x else x | None => x end.

Definition pages_part : counter_part (Z * option Z) :=
  {| part := fun m => (PageCount m, Meters m !! "total_pages"); part_effect := EPages;
     part_step := fun o => if_positive o (fun n x => (max_pages n x.1, Some n)) |}.

Definition impressions_part (color : bool) : counter_part (Z * option Z) :=
  {| part := fun m => (if color then ColorImpressions m else MonoImpressions m,
                       Meters m !! if color then "color_pages" else "mono_pages");
     part_effect := if color then EColor else EMono;
     part_step := fun o => if_positive o (fun n _ => (n, Some n)) |}.

Lemma pages_part_ok : part_ok pages_part.
Proof.
  split_and!; simpl.
  - intros k. rewrite !elem_of_cons, elem_of_nil. by intros [->|[->|[]]].
  - intros [n|] [p t]; simpl; [|done]. unfold max_pages. destruct (Z.ltb_spec 0 n); [|done]. simpl. f_equal. lia.
  - intros m k v. pose proof (effect_of_proper k) as Hp. unfold merge_metric, if_positive, max_pages.
    destruct (toIntValue v) as [n|]; [|by case_bool_decide].
    destruct (effect_of k) as [| | |name|c|name]; simpl in *; destruct (Z.ltb_spec 0 n); try (by destruct (0 <=? n)); try done; simpl.
    + rewrite lookup_insert_eq. f_equal. destruct (Z.eqb_spec (PageCount m) 0), (Z.ltb_spec (PageCount m) n); simpl; lia.
    + by rewrite lookup_insert_ne.
    + by rewrite lookup_insert_ne.
    + rewrite lookup_insert_ne; [done|]. intros ->. apply Hp. by left.
Qed.

Lemma impressions_part_ok color : part_ok (impressions_part color).
Proof.
  split_and!; simpl.
  - intros k. destruct color; simpl; by intros ->%list_elem_of_singleton.
  - intros [n|] [p t]; simpl; [|done]. by destruct (Z.ltb_spec 0 n).
  - intros m k v. pose proof (effect_of_proper k) as Hp. unfold merge_metric, if_positive.
    destruct (toIntValue v) as [n|]; [|by destruct color; case_bool_decide].
    destruct (effect_of k) as [| | |name|c|name]; destruct color; simpl in *; destruct (Z.ltb_spec 0 n); try (by destruct (0 <=? n)); try done; simpl.
    all: rewrite ?lookup_insert_eq, ?lookup_insert_ne; try done.
    all: intros ->; apply Hp; unfold own_meters; repeat constructor.
Qed.

(** The number of pages that the module reports. *)
Definition reported_pages (metrics : gmap string MetricValue) : option Z :=
  match metrics !! "page_count" with Some (MInt n) => Some n | _ => None end.

Lemma merged_pages (metrics : gmap string MetricValue) m order :
  metrics !! "total_pages" = metrics !! "page_count" ->
  (forall v, metrics !! "page_count" = Some v -> exists n, v = MInt n) ->
  order ≡ₚ map_to_list metrics ->
  part pages_part (merge_metrics m order) =
    part_step pages_part (reported_pages metrics) (part pages_part m).
Proof.
  intros Heq Hint Ho. rewrite (merged_part pages_part metrics order (reported_pages metrics) m pages_part_ok Ho).
  - unfold reported_pages. simpl. unfold has_key. rewrite Heq.
    destruct (metrics !! "page_count") as [v|] eqn:Hv; simpl; [|done]. by destruct (Hint v eq_refl) as [n ->].
  - intros k v Hk Hv. unfold reported_pages. simpl in Hk. rewrite !elem_of_cons, elem_of_nil in Hk.
    assert (metrics !! "page_count" = Some v) as Hp by (destruct Hk as [->|[->|[]]]; congruence).
    rewrite Hp. by destruct (Hint v Hp) as [n ->].
Qed.

Lemma module_pages (o : MapOrder) vendor pdus :
  let metrics := @module_Parse _ o vendor pdus in
  metrics !! "total_pages" = metrics !! "page_count" /\
  forall v, metrics !! "page_count" = Some v -> exists n, v = MInt n.
Proof.
  cbv zeta. unfold module_Parse. cbv zeta.
  repeat match goal with |- context [String.eqb (vendor_name vendor) ?n] => destruct (String.eqb (vendor_name vendor) n) end;
    first [ rewrite !hp_total by (unfold total_key; auto) | rewrite !kyocera_total by (unfold total_key; auto)
          | rewrite !epson_total by (unfold total_key; auto) | rewrite !generic_total by (unfold total_key; auto) ];
    (split; [done|]); unfold VendorParse.positive, kyocera_sums; intros v Hv; cbv zeta in Hv; repeat case_match; simplify_eq; by eexists.
Qed.

(** The page count after the vendor metrics are merged. When the vendor's module reports
    a positive number of pages, the meter of all pages is that number and the page count is
    the larger of it and the one known before; otherwise both stay as they are, whatever
    else the module reports and in whichever order. *)
Theorem merged_page_count (o : MapOrder) manufacturer m pdus vendorHint :
  pdus <> [] -> vendor_name (metrics_module vendorHint manufacturer pdus) <> "Generic" ->
  let merged := @MergeVendorMetrics _ _ o manufacturer m pdus vendorHint in
  match reported_pages (@module_Parse _ o (metrics_module vendorHint manufacturer pdus) pdus) with
  | Some n => PageCount merged = max_pages n (PageCount m) /\
              (Meters merged !! "total_pages" = if 0 <? n then Some n else Meters m !! "total_pages")
  | None => PageCount merged = PageCount m /\ Meters merged !! "total_pages" = Meters m !! "total_pages"
  end.
Proof.
  intros Hne Hv. unfold MergeVendorMetrics. destruct pdus as [|pdu pdus]; [done|].
  set (vendor := metrics_module _ _ _) in *. apply String.eqb_neq in Hv. rewrite Hv.
  destruct (module_pages o vendor (pdu :: pdus)) as [Heq Hint]. cbv zeta.
  set (metrics := module_Parse vendor (pdu :: pdus)) in *.
  pose proof (merged_pages metrics m (visit 15 metrics) Heq Hint (visit_perm _ _)) as Hp.
  simpl in Hp. unfold if_positive, max_pages in *.
  destruct (reported_pages metrics) as [n|]; [destruct (0 <? n)|]; by injection Hp.
Qed.
End Merged.

Definition kyocera_answer : list SnmpPDU :=
  [{| Name := ".1.3.6.1.2.1.43.10.2.1.4.1.1"; Value := VUint 4200 |};
   {| Name := ".1.3.6.1.2.1.43.11.1.1.6.1.1"; Value := VBytes "Black Toner" |};
   {| Name := ".1.3.6.1.2.1.43.11.1.1.8.1.1"; Value := VInt 100 |};
   {| Name := ".1.3.6.1.2.1.43.11.1.1.9.1.1"; Value := VInt 50 |}].

Definition no_metering : Metering :=
  {| PageCount := 0; MonoImpressions := 0; ColorImpressions := 0; TonerLevelBlack := 0; TonerLevelCyan := 0;
     TonerLevelMagenta := 0; TonerLevelYellow := 0; TonerLevels := ∅; Meters := ∅ |}.

Lemma vendor_metrics_order_free_witness :
  @MergeVendorMetrics _ _ listed_order "Kyocera" no_metering kyocera_answer "" =
  @MergeVendorMetrics _ _ reverse_order "Kyocera" no_metering kyocera_answer "" /\
  TonerLevelBlack (@MergeVendorMetrics _ _ reverse_order "Kyocera" no_metering kyocera_answer "") = 50.
Proof.
  split; [|vm_compute; reflexivity]. apply (vendor_metrics_order_free listed_order reverse_order).
  - apply (bool_decide_eq_true_1 _). vm_compute. reflexivity.
  - unfold distinct_supplies. apply (bool_decide_eq_true_1 _). vm_compute. reflexivity.
Defined.

Lemma merged_page_count_witness :
  PageCount (@MergeVendorMetrics _ _ reverse_order "Kyocera" no_metering kyocera_answer "") = max_pages 4200 0 /\
  Meters (@MergeVendorMetrics _ _ reverse_order "Kyocera" no_metering kyocera_answer "") !! "total_pages" = Some 4200.
Proof.
  refine (merged_page_count reverse_order "Kyocera" no_metering kyocera_answer "" _ _); [discriminate|].
  vm_compute. discriminate.
Defined.

(** ** Examples *)

(** The metrics of Epson devices name a cartridge twice, and the last one visited wins. *)
Lemma ink_level_by_order :
  TonerLevelBlack (merge_metrics no_metering [("toner_black", MInt 80); ("ink_black", MInt 12)]) = 12 /\
  TonerLevelBlack (merge_metrics no_metering [("ink_black", MInt 12); ("toner_black", MInt 80)]) = 80.
Proof. split; vm_compute; reflexivity. Qed.

(** The percentages of drums and fusers are stored among the counters, and not at all when
    nothing is left. *)
Lemma drum_percentage_is_meter :
  map_to_list (Meters (merge_metric no_metering ("drum_life", MInt 40))) = [("drum_life", 40)] /\
  merge_metric no_metering ("drum_life", MInt 0) = no_metering.
Proof. split; vm_compute; reflexivity. Qed.

(** A text is never merged. *)
Lemma firmware_not_merged m v : merge_metric m ("firmware_version", MText v) = m.
Proof. done. Qed.
