(* ===== verification/EpsonSt2.v ===== *)
(** * The status frame of Epson printers ([agent/scanner/vendor/epson_st2_parser.go])

    A frame has a header, a length of two bytes and fields of a type, a length and an
    item. Reads and slices of Go are checked: one out of range is a panic, which is
    [None] here, as is a loop that runs out of fuel. *)
From S2P Require Import Prelude GoStrings GoFloat Evidence VendorParse.
From Stdlib Require Import Ascii ZifyBool.
From stdpp Require Import functions list.

Open Scope string_scope.
Open Scope Z_scope.
Open Scope list_scope.

Notation bytes := (list ascii).

Definition len {A} (l : list A) : Z := Z.of_nat (length l).

(** [l[i]] *)
Definition at_index {A} (l : list A) (i : Z) : option A := if 0 <=? i then l !! Z.to_nat i else None.

(** [l[lo:hi]], for which Go asks less of [hi]. *)
Definition slice {A} (l : list A) (lo hi : Z) : option (list A) :=
  if (0 <=? lo) && (lo <=? hi) && (hi <=? len l)
  then Some (take (Z.to_nat (hi - lo)) (drop (Z.to_nat lo) l)) else None.

(** ** [findBytes] *)

Fixpoint match_at (haystack needle : bytes) (i : Z) : option bool :=
  match needle with
  | [] => Some true
  | c :: rest =>
      d ← at_index haystack i;
      if Ascii.eqb d c then match_at haystack rest (i + 1) else Some false
  end.

Fixpoint find_from (fuel : nat) (haystack needle : bytes) (i : Z) : option Z :=
  match fuel with
  | O => None
  | S fuel =>
      if i <=? len haystack - len needle then
        found ← match_at haystack needle i;
        if (found : bool) then Some i else find_from fuel haystack needle (i + 1)
      else Some (-1)
  end.

Definition findBytes (haystack needle : bytes) : option Z :=
  find_from (S (length haystack)) haystack needle 0.

(** ** The status *)

Record ST2Status := {
  StatusCode : Z;
  StatusText : string;
  Ready : bool;
  ErrorCode : string;
  WarningCodes : list string;
  SelfPrintCode : string;
  InkLevels : gmap string Z;
  MaintenanceBoxes : gmap Z string;
  RawFields : gmap Z bytes;
}.

Definition empty_status : ST2Status :=
  {| StatusCode := 0; StatusText := ""; Ready := false; ErrorCode := ""; WarningCodes := [];
     SelfPrintCode := ""; InkLevels := ∅; MaintenanceBoxes := ∅; RawFields := ∅ |}.

Definition inkColorIDs : gmap Z string := list_to_map
  [(1, "Black"); (3, "Cyan"); (4, "Magenta"); (5, "Yellow"); (6, "Light Cyan"); (7, "Light Magenta");
   (10, "Light Black"); (11, "Matte Black"); (15, "Light Light Black"); (16, "Orange"); (17, "Green")].

Definition inkColorNames : gmap Z string := list_to_map
  [(0, "Black"); (1, "Cyan"); (2, "Magenta"); (3, "Yellow"); (4, "Light Cyan"); (5, "Light Magenta");
   (6, "Dark Yellow"); (7, "Grey"); (8, "Light Black"); (9, "Red"); (10, "Blue");
   (11, "Gloss Optimizer"); (12, "Light Grey"); (13, "Orange")].

Definition statusCodes : gmap Z string := list_to_map
  [(0, "Error"); (1, "Self Printing"); (2, "Busy"); (3, "Waiting"); (4, "Idle"); (5, "Paused");
   (7, "Cleaning"); (8, "Not Initialized"); (10, "Shutdown"); (15, "Nozzle Check"); (17, "Charging")].

Definition errorCodes : gmap Z string := list_to_map
  [(1, "Other interface selected"); (2, "Cover open"); (3, "Fatal error"); (4, "Paper jam");
   (5, "Ink out"); (6, "Paper out"); (12, "Paper size/type/path error"); (16, "Waste ink pad overflow");
   (17, "Wait return from tear-off"); (18, "Double feed"); (26, "Cartridge cover open");
   (28, "Cutter error (fatal)"); (29, "Cutter jam (recoverable)"); (34, "Maintenance cartridge missing");
   (37, "Rear cover open"); (41, "CD-R tray out"); (42, "Memory card error"); (43, "Tray cover open");
   (44, "Ink cartridge overflow"); (47, "Battery voltage error"); (48, "Battery temperature error");
   (49, "Battery empty"); (51, "Initial filling impossible"); (54, "Maintenance cartridge cover open");
   (55, "Scanner/front cover open"); (65, "Maintenance request"); (71, "Printing disabled");
   (74, "Maintenance box near end"); (75, "Driver mismatch")].

Definition warningCodes : gmap Z string := list_to_map
  [(16, "Ink low (Black or Yellow)"); (17, "Ink low (Magenta)"); (18, "Ink low (Yellow or Cyan)");
   (19, "Ink low (Cyan or Matte Black)"); (20, "Ink low (Photo Black)"); (21, "Ink low (Red)");
   (22, "Ink low (Blue)"); (23, "Ink low (Gloss Optimizer)"); (68, "Black print mode");
   (81, "Cleaning disabled (Cyan)"); (82, "Cleaning disabled (Magenta)");
   (83, "Cleaning disabled (Yellow)"); (84, "Cleaning disabled (Black)")].

(** [fmt.Sprintf(text+" (%d)", code)] *)
Definition numbered (text : string) (code : ascii) : string :=
  (text +:+ " (" +:+ pretty (byte_of code) +:+ ")")%string.

Definition put_raw (t : Z) (item : bytes) (s : ST2Status) : ST2Status :=
  {| StatusCode := StatusCode s; StatusText := StatusText s; Ready := Ready s; ErrorCode := ErrorCode s;
     WarningCodes := WarningCodes s; SelfPrintCode := SelfPrintCode s; InkLevels := InkLevels s;
     MaintenanceBoxes := MaintenanceBoxes s; RawFields := <[t := item]> (RawFields s) |}.

Definition put_status (code : ascii) (s : ST2Status) : ST2Status :=
  {| StatusCode := byte_of code;
     StatusText := default (numbered "Unknown" code) (statusCodes !! byte_of code);
     Ready := (byte_of code =? 3) || (byte_of code =? 4);
     ErrorCode := ErrorCode s; WarningCodes := WarningCodes s; SelfPrintCode := SelfPrintCode s;
     InkLevels := InkLevels s; MaintenanceBoxes := MaintenanceBoxes s; RawFields := RawFields s |}.

(** No error leaves an earlier one. *)
Definition put_error (code : ascii) (s : ST2Status) : ST2Status :=
  {| StatusCode := StatusCode s; StatusText := StatusText s; Ready := Ready s;
     ErrorCode :=
       match errorCodes !! byte_of code with
       | Some text => text
       | None => if byte_of code =? 0 then ErrorCode s else numbered "Unknown error" code
       end;
     WarningCodes := WarningCodes s; SelfPrintCode := SelfPrintCode s; InkLevels := InkLevels s;
     MaintenanceBoxes := MaintenanceBoxes s; RawFields := RawFields s |}.

Definition warning_text (code : ascii) : list string :=
  match warningCodes !! byte_of code with
  | Some text => [text]
  | None => if byte_of code =? 0 then [] else [numbered "Unknown warning" code]
  end.

Definition put_warnings (codes : bytes) (s : ST2Status) : ST2Status :=
  {| StatusCode := StatusCode s; StatusText := StatusText s; Ready := Ready s; ErrorCode := ErrorCode s;
     WarningCodes := WarningCodes s ++ mjoin (warning_text <$> codes); SelfPrintCode := SelfPrintCode s;
     InkLevels := InkLevels s; MaintenanceBoxes := MaintenanceBoxes s; RawFields := RawFields s |}.

Definition put_self_print (s : ST2Status) : ST2Status :=
  {| StatusCode := StatusCode s; StatusText := StatusText s; Ready := Ready s; ErrorCode := ErrorCode s;
     WarningCodes := WarningCodes s; SelfPrintCode := "Nozzle test printing"; InkLevels := InkLevels s;
     MaintenanceBoxes := MaintenanceBoxes s; RawFields := RawFields s |}.

Definition set_inks (inks : gmap string Z) (s : ST2Status) : ST2Status :=
  {| StatusCode := StatusCode s; StatusText := StatusText s; Ready := Ready s; ErrorCode := ErrorCode s;
     WarningCodes := WarningCodes s; SelfPrintCode := SelfPrintCode s; InkLevels := inks;
     MaintenanceBoxes := MaintenanceBoxes s; RawFields := RawFields s |}.

Definition set_boxes (boxes : gmap Z string) (s : ST2Status) : ST2Status :=
  {| StatusCode := StatusCode s; StatusText := StatusText s; Ready := Ready s; ErrorCode := ErrorCode s;
     WarningCodes := WarningCodes s; SelfPrintCode := SelfPrintCode s; InkLevels := InkLevels s;
     MaintenanceBoxes := boxes; RawFields := RawFields s |}.

(** The primary identifier of a color, then the secondary. *)
Definition color_name (colour inkColor : ascii) : string :=
  match inkColorIDs !! byte_of colour with
  | Some name => name
  | None => default "Unknown" (inkColorNames !! byte_of inkColor)
  end.

Definition ink_level (level : ascii) : Z := if 100 <? byte_of level then -1 else byte_of level.

(** [for offset+colorLen <= len(item)] *)
Fixpoint ink_cells (fuel : nat) (item : bytes) (colorLen offset : Z) (inks : gmap string Z) : option (gmap string Z) :=
  match fuel with
  | O => None
  | S fuel =>
      if offset + colorLen <=? len item then
        colour ← at_index item offset;
        inkColor ← at_index item (offset + 1);
        level ← at_index item (offset + 2);
        ink_cells fuel item colorLen (offset + colorLen) (<[color_name colour inkColor := ink_level level]> inks)
      else Some inks
  end.

Definition ink_info (item : bytes) (s : ST2Status) : option ST2Status :=
  if len item <? 1 then Some s
  else
    first ← at_index item 0;
    let colorLen := if byte_of first <? 3 then 3 else byte_of first in
    inks ← ink_cells (S (length item)) item colorLen 1 (InkLevels s);
    Some (set_inks inks s).

Definition box_status (b : ascii) : string :=
  if byte_of b =? 0 then "OK" else if byte_of b =? 1 then "Near Full"
  else if byte_of b =? 2 then "Full" else numbered "Unknown" b.

(** [for i := 1; i < len(item); i += numBytes] *)
Fixpoint box_cells (fuel : nat) (item : bytes) (numBytes i boxNum : Z) (boxes : gmap Z string) : option (gmap Z string) :=
  match fuel with
  | O => None
  | S fuel =>
      if i <? len item then
        b ← at_index item i;
        box_cells fuel item numBytes (i + numBytes) (boxNum + 1) (<[boxNum := box_status b]> boxes)
      else Some boxes
  end.

Definition box_info (item : bytes) (s : ST2Status) : option ST2Status :=
  if len item <? 1 then Some s
  else
    first ← at_index item 0;
    let numBytes := byte_of first in
    if (numBytes <? 1) || (2 <? numBytes) then Some s
    else
      boxes ← box_cells (S (length item)) item numBytes 1 1 (MaintenanceBoxes s);
      Some (set_boxes boxes s).

Definition st2FieldStatus : Z := 1.
Definition st2FieldError : Z := 2.
Definition st2FieldSelfPrint : Z := 3.
Definition st2FieldWarning : Z := 4.
Definition st2FieldInkInfo : Z := 15.
Definition st2FieldMaintenanceBox : Z := 55.

(** One turn of the loop over the fields. *)
Definition parse_field (fieldType : ascii) (item : bytes) (s : ST2Status) : option ST2Status :=
  let t := byte_of fieldType in
  let s := put_raw t item s in
  if t =? st2FieldStatus then
    if 1 <=? len item then code ← at_index item 0; Some (put_status code s) else Some s
  else if t =? st2FieldError then
    if 1 <=? len item then code ← at_index item 0; Some (put_error code s) else Some s
  else if t =? st2FieldWarning then Some (put_warnings item s)
  else if t =? st2FieldInkInfo then ink_info item s
  else if t =? st2FieldMaintenanceBox then box_info item s
  else if t =? st2FieldSelfPrint then
    if 1 <=? len item then
      code ← at_index item 0; Some (if byte_of code =? 0 then put_self_print s else s)
    else Some s
  else Some s.

Fixpoint parse_fields (fuel : nat) (buf : bytes) (s : ST2Status) : option ST2Status :=
  match fuel with
  | O => None
  | S fuel =>
      if 2 <=? len buf then
        fieldType ← at_index buf 0;
        l ← at_index buf 1;
        let fieldLen := byte_of l in
        buf ← slice buf 2 (len buf);
        if len buf <? fieldLen then Some s
        else
          item ← slice buf 0 fieldLen;
          buf ← slice buf fieldLen (len buf);
          s ← parse_field fieldType item s;
          parse_fields fuel buf s
      else Some s
  end.

Inductive st2_error := TooShort | NoHeader | NoLength | Truncated.

Definition header : bytes := ["B"; "D"; "C"; " "; "S"; "T"; "2"; "013"; "010"]%char.

Definition ParseST2Response (data : bytes) : option (result st2_error ST2Status) :=
  if len data <? 16 then Some (Err TooShort)
  else
    headerIdx ← findBytes data header;
    if headerIdx <? 0 then Some (Err NoHeader)
    else
      data ← slice data (headerIdx + len header) (len data);
      if len data <? 2 then Some (Err NoLength)
      else
        lo ← at_index data 0;
        hi ← at_index data 1;
        let payloadLen := byte_of lo + 256 * byte_of hi in
        data ← slice data 2 (len data);
        if len data <? payloadLen then Some (Err Truncated)
        else
          buf ← slice data 0 payloadLen;
          s ← parse_fields (S (length buf)) buf empty_status;
          Some (Ok s).

(** ** [ToMetrics] *)

Section Metrics.
Context `{GoUnicode}.

Definition underscored (color : string) : string :=
  map_string (fun c => if Ascii.eqb c " " then "_"%char else c) color.

Definition ink_key (color : string) : string := ("ink_" +:+ ToLower (underscored color))%string.

Definition put_ink (m : metrics) (ink : string * Z) : metrics :=
  if ink.2 <? 0 then m else <[ink_key ink.1 := MFloat (float_of_Z ink.2)]> m.

Definition box_key (n : Z) : string := ("maintenance_box_" +:+ pretty n)%string.
Definition waste_key (n : Z) : string := ("waste_box_" +:+ pretty n +:+ "_status")%string.

Definition waste_level (status : string) : option Z :=
  if String.eqb status "OK" then Some 0 else if String.eqb status "Near Full" then Some 80
  else if String.eqb status "Full" then Some 100 else None.

Definition put_box (m : metrics) (box : Z * string) : metrics :=
  let m := <[box_key box.1 := MText box.2]> m in
  match waste_level box.2 with Some n => <[waste_key box.1 := MInt n]> m | None => m end.

(** [inks] and [boxes] are the maps of the status in the order in which they are visited. *)
Definition ToMetrics (inks : list (string * Z)) (boxes : list (Z * string)) (s : ST2Status) : metrics :=
  let m := put_when (negb (String.eqb (StatusText s) "")) "epson_status" (MText (StatusText s)) ∅ in
  let m := <["epson_ready" := MBool (Ready s)]> m in
  let m := put_when (negb (String.eqb (ErrorCode s) "")) "epson_error" (MText (ErrorCode s)) m in
  let m := put_when (0 <? len (WarningCodes s)) "epson_warnings"
             (MText (GoStrings.Join (WarningCodes s) "; ")) m in
  foldl put_box (foldl put_ink m inks) boxes.
End Metrics.

(** ** Reads in range *)

Lemma len_app {A} (l1 l2 : list A) : len (l1 ++ l2) = len l1 + len l2.
Proof. unfold len. rewrite length_app. lia. Qed.

Lemma len_cons {A} (a : A) l : len (a :: l) = 1 + len l.
Proof. unfold len. simpl. lia. Qed.

Lemma len_nonneg {A} (l : list A) : 0 <= len l.
Proof. unfold len. lia. Qed.

#[local] Hint Rewrite @len_app @len_cons : len.

Lemma at_index_some {A} (l : list A) i : 0 <= i < len l -> exists a, at_index l i = Some a.
Proof.
  intros Hi. unfold at_index, len in *. replace (0 <=? i) with true by lia.
  apply lookup_lt_is_Some. lia.
Qed.

Lemma at_index_app {A} (pre l : list A) i : 0 <= i -> at_index (pre ++ l) (len pre + i) = at_index l i.
Proof.
  intros Hi. unfold at_index, len. replace (0 <=? Z.of_nat (length pre) + i) with true by lia.
  replace (0 <=? i) with true by lia. rewrite lookup_app_r by lia. f_equal. lia.
Qed.

Lemma slice_app {A} (l1 l2 l3 : list A) : slice (l1 ++ l2 ++ l3) (len l1) (len l1 + len l2) = Some l2.
Proof.
  unfold slice. autorewrite with len.
  pose proof (len_nonneg l1). pose proof (len_nonneg l2). pose proof (len_nonneg l3).
  replace (_ && _ && _) with true by lia. unfold len. f_equal.
  rewrite Nat2Z.id, drop_app_length. replace (Z.to_nat _) with (length l2) by lia.
  apply take_app_length.
Qed.

Lemma slice_prefix {A} (l1 l2 : list A) : slice (l1 ++ l2) 0 (len l1) = Some l1.
Proof. apply (slice_app [] l1 l2). Qed.

Lemma slice_suffix {A} (l1 l2 : list A) : slice (l1 ++ l2) (len l1) (len (l1 ++ l2)) = Some l2.
Proof. rewrite len_app. pose proof (slice_app l1 l2 []) as H. by rewrite app_nil_r in H. Qed.

(** What a slice does not panic on is a split. *)
Lemma split_at {A} (l : list A) n : 0 <= n <= len l -> exists l1 l2, l = l1 ++ l2 /\ len l1 = n.
Proof.
  intros Hn. exists (take (Z.to_nat n) l), (drop (Z.to_nat n) l). split; [by rewrite take_drop|].
  unfold len in *. rewrite length_take. lia.
Qed.

(** ** The header *)

Definition occurs (haystack needle : bytes) (i : Z) : Prop :=
  i + len needle <= len haystack /\ needle `prefix_of` drop (Z.to_nat i) haystack.

Lemma match_at_spec haystack needle i :
  0 <= i -> i + len needle <= len haystack ->
  match_at haystack needle i = Some (bool_decide (needle `prefix_of` drop (Z.to_nat i) haystack)).
Proof.
  revert i. induction needle as [|c needle IH]; intros i Hi Hl; simpl.
  { done. }
  rewrite len_cons in Hl. pose proof (len_nonneg needle).
  destruct (at_index_some haystack i) as [d Hd]; [lia|]. rewrite Hd. simpl.
  unfold at_index in Hd. replace (0 <=? i) with true in Hd by lia.
  rewrite (drop_S haystack d) by done. rewrite IH by lia.
  replace (Z.to_nat (i + 1)) with (S (Z.to_nat i)) by lia.
  destruct (Ascii.eqb_spec d c) as [->|Hne]; apply (f_equal Some).
  - apply bool_decide_ext. split; [apply prefix_cons | apply prefix_cons_inv_2].
  - symmetry. apply bool_decide_eq_false_2. intros Hp. by apply prefix_cons_inv_1 in Hp.
Qed.

Lemma find_from_spec fuel haystack needle i :
  0 <= i -> Z.max 0 (len haystack - len needle - i + 1) < Z.of_nat fuel ->
  (exists k, find_from fuel haystack needle i = Some k /\ i <= k /\ occurs haystack needle k /\
     forall j, i <= j < k -> ~ occurs haystack needle j) \/
  (find_from fuel haystack needle i = Some (-1) /\ forall j, i <= j -> ~ occurs haystack needle j).
Proof.
  revert i. induction fuel as [|fuel IH]; intros i Hi Hf; [lia|]. simpl.
  destruct (Z.leb_spec i (len haystack - len needle)) as [Hle|Hgt].
  - rewrite match_at_spec by lia. simpl.
    destruct (bool_decide_reflect (needle `prefix_of` drop (Z.to_nat i) haystack)) as [Hp|Hp].
    + left. exists i. split_and!; [done|lia|split; [lia|done]|lia].
    + destruct (IH (i + 1)) as [(k & -> & Hk & Hocc & Hfirst)|[-> Hnone]]; [lia..| |].
      * left. exists k. split_and!; [done|lia|done|]. intros j Hj. destruct (decide (j = i)) as [->|]; [by intros [_ ?]|].
        apply Hfirst. lia.
      * right. split; [done|]. intros j Hj. destruct (decide (j = i)) as [->|]; [by intros [_ ?]|].
        apply Hnone. lia.
  - right. split; [done|]. intros j Hj [Hl _]. lia.
Qed.

(** The first occurrence is found, and -1 when there is none. *)
Lemma findBytes_spec haystack needle :
  needle <> [] ->
  (exists pre suf, findBytes haystack needle = Some (len pre) /\ haystack = pre ++ needle ++ suf /\
     forall j, 0 <= j < len pre -> ~ occurs haystack needle j) \/
  (findBytes haystack needle = Some (-1) /\ forall j, 0 <= j -> ~ occurs haystack needle j).
Proof.
  intros Hne. assert (1 <= len needle) by (destruct needle; [done|rewrite len_cons; pose proof (len_nonneg needle); lia]).
  unfold findBytes.
  destruct (find_from_spec (S (length haystack)) haystack needle 0) as [(k & -> & Hk & [Hl [suf Hsuf]] & Hfirst)|H0];
    [lia|unfold len in *; lia| |by right].
  left. exists (take (Z.to_nat k) haystack), suf.
  assert (len (take (Z.to_nat k) haystack) = k) as Hlen by (unfold len in *; rewrite length_take; lia).
  split_and!; [by rewrite Hlen| |by rewrite Hlen]. by rewrite <- Hsuf, take_drop.
Qed.

(** ** No panic, no endless loop *)

Lemma ink_cells_total fuel item w off inks :
  3 <= w -> 0 <= off -> Z.max 0 (len item - off) < Z.of_nat fuel -> exists m, ink_cells fuel item w off inks = Some m.
Proof.
  intros Hw. revert off inks. induction fuel as [|fuel IH]; intros off inks Hoff Hf; [lia|]. simpl.
  destruct (Z.leb_spec (off + w) (len item)); [|by eexists].
  destruct (at_index_some item off) as [a ->]; [lia|]. destruct (at_index_some item (off + 1)) as [b ->]; [lia|].
  destruct (at_index_some item (off + 2)) as [c ->]; [lia|]. apply IH; lia.
Qed.

Lemma box_cells_total fuel item n i num boxes :
  1 <= n -> 0 <= i -> Z.max 0 (len item - i) < Z.of_nat fuel -> exists m, box_cells fuel item n i num boxes = Some m.
Proof.
  intros Hn. revert i num boxes. induction fuel as [|fuel IH]; intros i num boxes Hi Hf; [lia|]. simpl.
  destruct (Z.ltb_spec i (len item)); [|by eexists].
  destruct (at_index_some item i) as [a ->]; [lia|]. apply IH; lia.
Qed.

Lemma first_byte (a : ascii) l : (len (a :: l) <? 1) = false /\ (1 <=? len (a :: l)) = true /\ at_index (a :: l) 0 = Some a.
Proof. rewrite len_cons. pose proof (len_nonneg l). split_and!; [lia..|done]. Qed.

Lemma parse_field_total t item s : exists s', parse_field t item s = Some s'.
Proof.
  unfold parse_field, ink_info, box_info. cbv zeta. destruct item as [|a item]; [change (@len ascii []) with 0; simpl; repeat case_match; eexists; reflexivity|].
  destruct (first_byte a item) as (-> & -> & ->). pose proof (byte_of_range a).
  cbn [mbind option_bind]. repeat case_match; try (eexists; reflexivity).
  all: match goal with
    | |- context [ink_cells ?fuel ?l ?w ?off ?m] =>
        destruct (ink_cells_total fuel l w off m) as [? ->]; [lia|lia|unfold len; lia|eexists; reflexivity]
    | |- context [box_cells ?fuel ?l ?n ?i ?num ?m] =>
        destruct (box_cells_total fuel l n i num m) as [? ->]; [lia|lia|unfold len; lia|eexists; reflexivity]
    end.
Qed.

(** A buffer with a whole first field. *)
Lemma parse_fields_cons fuel t l item rest s :
  len item = byte_of l ->
  parse_fields (S fuel) (t :: l :: item ++ rest) s = parse_field t item s ≫= parse_fields fuel rest.
Proof.
  intros Hl. simpl. pose proof (len_nonneg item). pose proof (len_nonneg rest). rewrite !len_cons.
  replace (2 <=? _) with true by (rewrite len_app; lia). simpl.
  pose proof (slice_suffix [t; l] (item ++ rest)) as Hs. change (len [t; l]) with 2 in Hs. simpl in Hs.
  rewrite !len_cons in Hs. rewrite Hs. simpl. rewrite len_app.
  replace (_ <? byte_of l) with false by lia. rewrite <- Hl, slice_prefix. simpl.
  by rewrite <- len_app, slice_suffix.
Qed.

(** What is left when the loop over the fields ends: less than a type and a length, or a
    field that is not complete. *)
Definition incomplete (buf : bytes) : Prop :=
  len buf < 2 \/ exists t l item, buf = t :: l :: item /\ len item < byte_of l.

Lemma parse_fields_end fuel buf s : incomplete buf -> parse_fields (S fuel) buf s = Some s.
Proof.
  intros [Hlen|(t & l & item & -> & Hl)]; simpl; [by replace (2 <=? len buf) with false by lia|].
  pose proof (len_nonneg item). rewrite !len_cons. replace (2 <=? _) with true by lia. simpl.
  pose proof (slice_suffix [t; l] item) as Hs. change (len [t; l]) with 2 in Hs. simpl in Hs.
  rewrite !len_cons in Hs. rewrite Hs. simpl. by replace (_ <? byte_of l) with true by lia.
Qed.

Lemma first_field buf : incomplete buf \/ exists t l item rest, buf = t :: l :: item ++ rest /\ len item = byte_of l.
Proof.
  destruct buf as [|t [|l buf]]; [by left; left|by left; left|].
  destruct (Z.lt_ge_cases (len buf) (byte_of l)); [left; right; by exists t, l, buf|].
  right. pose proof (byte_of_range l). destruct (split_at buf (byte_of l)) as (item & rest & -> & Hl); [lia|].
  by exists t, l, item, rest.
Qed.

Lemma parse_fields_total fuel buf s : (length buf < fuel)%nat -> exists s', parse_fields fuel buf s = Some s'.
Proof.
  revert buf s. induction fuel as [|fuel IH]; intros buf s Hf; [lia|].
  destruct (first_field buf) as [He|(t & l & item & rest & -> & Hl)]; [rewrite parse_fields_end by done; eauto|].
  rewrite parse_fields_cons by done. destruct (parse_field_total t item s) as [s' ->]. simpl. apply IH.
  simpl in Hf. rewrite length_app in Hf. lia.
Qed.

(** A length of two bytes, the lower first. *)
Definition le16 (n : Z) : bytes := [chr (n mod 256); chr (n / 256)].

Lemma le16_value n : 0 <= n < 65536 -> byte_of (chr (n mod 256)) + 256 * byte_of (chr (n / 256)) = n.
Proof.
  intros Hn. pose proof (Z.mod_pos_bound n 256). rewrite !byte_of_chr; [rewrite Z.mod_eq by lia; lia| |lia].
  split; [apply Z.div_pos; lia|apply Z.div_lt_upper_bound; lia].
Qed.

Lemma byte_pair lo hi : [lo; hi] = le16 (byte_of lo + 256 * byte_of hi).
Proof.
  pose proof (byte_of_range lo). pose proof (byte_of_range hi). unfold le16.
  rewrite (Z.mul_comm 256), Z.mod_add, Z.div_add, Z.mod_small, Z.div_small by lia.
  unfold chr, byte_of in *. rewrite Z.add_0_l, !N2Z.id. by rewrite !ascii_N_embedding.
Qed.

(** A frame with its payload, behind other data that does not hold the header. *)
Definition framed (data payload : bytes) : Prop :=
  16 <= len data /\ len payload < 65536 /\
  exists pre rest, data = pre ++ header ++ le16 (len payload) ++ payload ++ rest /\
    forall j, 0 <= j < len pre -> ~ occurs data header j.

(** Behind the header. *)
Definition parse_payload (data : bytes) : option (result st2_error ST2Status) :=
  if len data <? 2 then Some (Err NoLength)
  else
    lo ← at_index data 0;
    hi ← at_index data 1;
    let payloadLen := byte_of lo + 256 * byte_of hi in
    data ← slice data 2 (len data);
    if len data <? payloadLen then Some (Err Truncated)
    else
      buf ← slice data 0 payloadLen;
      s ← parse_fields (S (length buf)) buf empty_status;
      Some (Ok s).

Lemma parse_payload_ok payload rest :
  len payload < 65536 ->
  exists s, parse_fields (S (length payload)) payload empty_status = Some s /\
            parse_payload (le16 (len payload) ++ payload ++ rest) = Some (Ok s).
Proof.
  intros Hp. destruct (parse_fields_total (S (length payload)) payload empty_status) as [s Hs]; [lia|].
  exists s. split; [done|]. unfold parse_payload. pose proof (len_nonneg payload). pose proof (len_nonneg rest).
  pose proof (slice_suffix (le16 (len payload)) (payload ++ rest)) as Hsuf. change (len (le16 _)) with 2 in Hsuf.
  rewrite Hsuf. replace (len (le16 _ ++ _) <? 2) with false by (rewrite !len_app; change (len (le16 _)) with 2; lia).
  change (at_index (le16 (len payload) ++ payload ++ rest) 0) with (Some (chr (len payload mod 256))).
  change (at_index (le16 (len payload) ++ payload ++ rest) 1) with (Some (chr (len payload / 256))).
  cbn [mbind option_bind]. rewrite le16_value by lia. replace (len (payload ++ rest) <? _) with false by (rewrite len_app; lia).
  rewrite slice_prefix. cbn [mbind option_bind]. by rewrite Hs.
Qed.

Lemma parse_payload_total data :
  exists r, parse_payload data = Some r /\
    (is_ok r = true -> exists payload rest, len payload < 65536 /\ data = le16 (len payload) ++ payload ++ rest).
Proof.
  destruct data as [|lo [|hi data]]; [by eexists|by eexists|].
  destruct (Z.lt_ge_cases (len data) (byte_of lo + 256 * byte_of hi)) as [Hlt|Hge].
  - exists (Err Truncated). split; [|done]. unfold parse_payload.
    pose proof (slice_suffix [lo; hi] data) as Hs. change (len [lo; hi]) with 2 in Hs. simpl in Hs. rewrite Hs.
    pose proof (len_nonneg data). rewrite !len_cons. replace (_ <? 2) with false by lia. simpl.
    by replace (_ <? _) with true by lia.
  - pose proof (byte_of_range lo). pose proof (byte_of_range hi).
    destruct (split_at data (byte_of lo + 256 * byte_of hi)) as (payload & rest & -> & Hl); [lia|].
    assert (Hd : lo :: hi :: payload ++ rest = le16 (len payload) ++ payload ++ rest) by (rewrite Hl, <- byte_pair; done).
    rewrite Hd. destruct (parse_payload_ok payload rest) as (s & _ & ->); [lia|].
    eexists; split; [done|]. intros _. exists payload, rest. split; [lia|done].
Qed.

Lemma occurs_app pre needle rest : occurs (pre ++ needle ++ rest) needle (len pre).
Proof.
  split; [rewrite !len_app; pose proof (len_nonneg rest); lia|].
  unfold len. rewrite Nat2Z.id, drop_app_length. by apply prefix_app_r.
Qed.

(** The header of a frame is found. *)
Lemma findBytes_first pre rest :
  (forall j, 0 <= j < len pre -> ~ occurs (pre ++ header ++ rest) header j) ->
  findBytes (pre ++ header ++ rest) header = Some (len pre).
Proof.
  intros Hfirst. pose proof (occurs_app pre header rest) as Hocc. pose proof (len_nonneg pre).
  destruct (findBytes_spec (pre ++ header ++ rest) header) as [(pre' & suf & -> & Heq & Hfirst')|[_ Hnone]];
    [done| |by destruct (Hnone (len pre))].
  f_equal. pose proof (len_nonneg pre').
  destruct (Z.lt_total (len pre) (len pre')) as [Hlt|[->|Hgt]]; [|done|].
  - by destruct (Hfirst' (len pre)).
  - destruct (Hfirst (len pre')); [lia|]. rewrite Heq. apply occurs_app.
Qed.

Lemma ParseST2Response_found pre rest :
  16 <= len (pre ++ header ++ rest) ->
  findBytes (pre ++ header ++ rest) header = Some (len pre) ->
  ParseST2Response (pre ++ header ++ rest) = parse_payload rest.
Proof.
  intros Hl Hf. unfold ParseST2Response. pose proof (len_nonneg pre).
  replace (_ <? 16) with false by lia. rewrite Hf. cbn [mbind option_bind].
  replace (len pre <? 0) with false by lia. rewrite <- len_app, app_assoc, slice_suffix. done.
Qed.

Lemma framed_parsed data payload :
  framed data payload -> exists s,
    parse_fields (S (length payload)) payload empty_status = Some s /\ ParseST2Response data = Some (Ok s).
Proof.
  intros (Hl & Hp & pre & rest & -> & Hfirst). destruct (parse_payload_ok payload rest Hp) as (s & Hs & Hok).
  exists s. split; [done|]. by rewrite ParseST2Response_found by (done || by apply findBytes_first).
Qed.

Lemma ParseST2Response_returns data :
  exists r, ParseST2Response data = Some r /\ (is_ok r = true -> exists payload, framed data payload).
Proof.
  destruct (Z.ltb_spec (len data) 16) as [Hs|Hl].
  { exists (Err TooShort). unfold ParseST2Response. by replace (_ <? 16) with true by lia. }
  destruct (findBytes_spec data header) as [(pre & suf & Hf & -> & Hfirst)|[Hf Hnone]]; [done| |].
  - rewrite ParseST2Response_found by done. destruct (parse_payload_total suf) as (r & -> & Hr).
    exists r. split; [done|]. intros Hok. destruct (Hr Hok) as (payload & rest & Hp & ->).
    exists payload. split_and!; [done..|]. by exists pre, rest.
  - exists (Err NoHeader). unfold ParseST2Response. replace (_ <? 16) with false by lia. by rewrite Hf.
Qed.

(** C39: the parser of status frames on any data. It returns, without a read or slice out of
    range; it accepts exactly the data that is long enough and has, behind the first header,
    a length and that many bytes; and then the status is what these bytes say. *)
Theorem ParseST2Response_total data :
  exists r, ParseST2Response data = Some r /\
    (is_ok r = true <-> exists payload, framed data payload) /\
    (forall payload s, framed data payload -> r = Ok s ->
       parse_fields (S (length payload)) payload empty_status = Some s).
Proof.
  destruct (ParseST2Response_returns data) as (r & Hr & Hok). exists r. split_and!; [done| |].
  - split; [done|]. intros [payload Hf]. destruct (framed_parsed data payload Hf) as (s & _ & Hs).
    assert (r = Ok s) as -> by congruence. done.
  - intros payload s Hf ->. destruct (framed_parsed data payload Hf) as (s' & Hs' & Heq). congruence.
Qed.

(** ** The reports of a device *)

Record cell := { colour : ascii; inkColor : ascii; level : ascii; padding : bytes }.

Inductive report :=
| RStatus (code : ascii)
| RError (code : ascii)
| RWarnings (codes : bytes)
| RSelfPrint (code : ascii)
| RInks (extra : Z) (cells : list cell)
| RBoxes (wide : bool) (boxes : bytes)
| ROther (t : ascii) (item : bytes).

Definition type_of (r : report) : Z :=
  match r with
  | RStatus _ => st2FieldStatus | RError _ => st2FieldError | RWarnings _ => st2FieldWarning
  | RSelfPrint _ => st2FieldSelfPrint | RInks _ _ => st2FieldInkInfo
  | RBoxes _ _ => st2FieldMaintenanceBox | ROther t _ => byte_of t
  end.

Definition cell_bytes (c : cell) : bytes := colour c :: inkColor c :: level c :: padding c.

Definition item_of (r : report) : bytes :=
  match r with
  | RStatus code | RError code | RSelfPrint code => [code]
  | RWarnings codes => codes
  | RInks extra cells => chr (3 + extra) :: mjoin (cell_bytes <$> cells)
  | RBoxes wide boxes => chr (if wide then 2 else 1) :: mjoin ((fun b => b :: if wide then [chr 0] else []) <$> boxes)
  | ROther _ item => item
  end.

Definition known_types : list Z :=
  [st2FieldStatus; st2FieldError; st2FieldWarning; st2FieldSelfPrint; st2FieldInkInfo; st2FieldMaintenanceBox].

Definition report_ok (r : report) : Prop :=
  len (item_of r) < 256 /\
  match r with
  | RInks extra cells => 0 <= extra < 253 /\ Forall (fun c => len (padding c) = extra) cells
  | ROther t _ => byte_of t ∉ known_types
  | _ => True
  end.

Definition put_cell (inks : gmap string Z) (c : cell) : gmap string Z :=
  <[color_name (colour c) (inkColor c) := ink_level (level c)]> inks.

(** The boxes are numbered from one. *)
Fixpoint number_boxes (n : Z) (boxes : bytes) (m : gmap Z string) : gmap Z string :=
  match boxes with
  | [] => m
  | b :: rest => number_boxes (n + 1) rest (<[n := box_status b]> m)
  end.

Definition put_report (s : ST2Status) (r : report) : ST2Status :=
  let s := put_raw (type_of r) (item_of r) s in
  match r with
  | RStatus code => put_status code s
  | RError code => put_error code s
  | RWarnings codes => put_warnings codes s
  | RSelfPrint code => if byte_of code =? 0 then put_self_print s else s
  | RInks _ cells => set_inks (foldl put_cell (InkLevels s) cells) s
  | RBoxes _ boxes => set_boxes (number_boxes 1 boxes (MaintenanceBoxes s)) s
  | ROther _ _ => s
  end.

Definition encode (r : report) : bytes := chr (type_of r) :: chr (len (item_of r)) :: item_of r.

Lemma ink_cells_read fuel pre cells extra inks :
  0 <= extra -> Forall (fun c => len (padding c) = extra) cells -> (length cells < fuel)%nat ->
  ink_cells fuel (pre ++ mjoin (cell_bytes <$> cells)) (3 + extra) (len pre) inks = Some (foldl put_cell inks cells).
Proof.
  intros He Hpad. revert fuel pre inks. induction Hpad as [|c cells Hc Hpad IH]; intros [|fuel] pre inks Hf; simpl in Hf; try lia.
  - simpl. rewrite app_nil_r. by replace (len pre + (3 + extra) <=? len pre) with false by lia.
  - simpl. change (list_fmap _ _ cell_bytes cells) with (cell_bytes <$> cells).
    set (rest := mjoin (cell_bytes <$> cells)) in *. rewrite !len_app, !len_cons, len_app, Hc.
    pose proof (len_nonneg rest). replace (_ <=? _) with true by lia.
    rewrite <- (Z.add_0_r (len pre)) at 1. rewrite !at_index_app by lia. simpl.
    replace (colour c :: inkColor c :: level c :: padding c ++ rest) with (cell_bytes c ++ rest) by done.
    rewrite app_assoc. replace (len pre + (3 + extra)) with (len (pre ++ cell_bytes c))
      by (rewrite len_app; unfold cell_bytes; rewrite !len_cons; lia).
    apply IH. lia.
Qed.

Lemma box_cells_read fuel pre (wide : bool) boxes n m :
  (length boxes < fuel)%nat ->
  box_cells fuel (pre ++ mjoin ((fun b => b :: if wide then [chr 0] else []) <$> boxes)) (if wide then 2 else 1) (len pre) n m =
    Some (number_boxes n boxes m).
Proof.
  revert fuel pre n m. induction boxes as [|b boxes IH]; intros [|fuel] pre n m Hf; simpl in Hf; try lia.
  - simpl. rewrite app_nil_r. by rewrite Z.ltb_irrefl.
  - simpl. change (list_fmap _ _ ?f boxes) with (f <$> boxes). set (rest := mjoin _). rewrite len_app, len_cons. pose proof (len_nonneg ((if wide then [chr 0] else []) ++ rest)).
    replace (_ <? _) with true by lia. rewrite <- (Z.add_0_r (len pre)) at 1. rewrite at_index_app by lia. simpl.
    replace (pre ++ b :: (if wide then [chr 0] else []) ++ rest) with ((pre ++ b :: if wide then [chr 0] else []) ++ rest)
      by (by rewrite <- app_assoc).
    replace (len pre + _) with (len (pre ++ b :: if wide then [chr 0] else [])); [apply IH; lia|].
    rewrite len_app, len_cons. by destruct wide.
Qed.

Lemma mjoin_length {A B} (f : A -> list B) l :
  (forall a, (1 <= length (f a))%nat) -> (length l <= length (mjoin (f <$> l)))%nat.
Proof.
  intros Hf. induction l as [|a l IH]; [done|]. rewrite fmap_cons.
  change (mjoin (f a :: (f <$> l))) with (f a ++ mjoin (f <$> l)).
  rewrite length_app. simpl length. specialize (Hf a). lia.
Qed.

Lemma type_of_range r : 0 <= type_of r < 256.
Proof. destruct r; simpl; unfold st2FieldStatus, st2FieldError, st2FieldWarning, st2FieldSelfPrint, st2FieldInkInfo, st2FieldMaintenanceBox; try lia. apply byte_of_range. Qed.

Lemma parse_field_report r s : report_ok r -> parse_field (chr (type_of r)) (item_of r) s = Some (put_report s r).
Proof.
  intros [Hl Hok]. unfold parse_field. rewrite byte_of_chr by apply type_of_range. cbv zeta.
  destruct r as [code|code|codes|code|extra cells|wide boxes|t item]; try done.
  - destruct Hok as [He Hpad]. change (type_of _) with st2FieldInkInfo. simpl (_ =? _). cbv iota.
    unfold ink_info, put_report. simpl item_of. set (item := mjoin _) in *.
    destruct (first_byte (chr (3 + extra)) item) as (-> & _ & ->). cbn [mbind option_bind].
    rewrite byte_of_chr by lia. replace (3 + extra <? 3) with false by lia.
    pose proof (ink_cells_read (S (length (chr (3 + extra) :: item))) [chr (3 + extra)] cells extra
      (InkLevels (put_raw st2FieldInkInfo (chr (3 + extra) :: item) s))) as Hread.
    change (len [_]) with 1 in Hread. simpl app in Hread. fold item in Hread. rewrite Hread; [done|lia|done|].
    assert (length cells <= length item)%nat; [|simpl; lia]. apply mjoin_length. intros; simpl; lia.
  - change (type_of _) with st2FieldMaintenanceBox. simpl (_ =? _). cbv iota.
    unfold box_info, put_report. simpl item_of. set (item := mjoin _) in *.
    destruct (first_byte (chr (if wide then 2 else 1)) item) as (-> & _ & ->). cbn [mbind option_bind].
    rewrite byte_of_chr by (destruct wide; lia). replace (_ || _) with false by (destruct wide; done).
    pose proof (box_cells_read (S (length (chr (if wide then 2 else 1) :: item))) [chr (if wide then 2 else 1)] wide boxes 1
      (MaintenanceBoxes (put_raw st2FieldMaintenanceBox (chr (if wide then 2 else 1) :: item) s))) as Hread.
    change (len [_]) with 1 in Hread. simpl app in Hread. fold item in Hread. rewrite Hread; [done|].
    assert (length boxes <= length item)%nat; [|simpl; lia]. apply mjoin_length. intros; simpl; lia.
  - simpl in Hok |- *. unfold known_types in Hok. rewrite !not_elem_of_cons in Hok.
    destruct Hok as (H1 & H2 & H4 & H3 & H15 & H55 & _).
    by rewrite (proj2 (Z.eqb_neq _ _) H1), (proj2 (Z.eqb_neq _ _) H2), (proj2 (Z.eqb_neq _ _) H4),
      (proj2 (Z.eqb_neq _ _) H15), (proj2 (Z.eqb_neq _ _) H55), (proj2 (Z.eqb_neq _ _) H3).
Qed.

Lemma parse_fields_reports fuel rs tail s :
  Forall report_ok rs -> incomplete tail -> (length (mjoin (encode <$> rs) ++ tail) < fuel)%nat ->
  parse_fields fuel (mjoin (encode <$> rs) ++ tail) s = Some (foldl put_report s rs).
Proof.
  intros Hok Htail. revert fuel s. induction Hok as [|r rs Hr Hok IH]; intros [|fuel] s Hf; [lia|by apply parse_fields_end|lia|].
  assert (Heq : mjoin (encode <$> r :: rs) ++ tail =
    chr (type_of r) :: chr (len (item_of r)) :: item_of r ++ mjoin (encode <$> rs) ++ tail)
    by (rewrite fmap_cons; simpl; by rewrite <- app_assoc).
  rewrite Heq in Hf |- *. pose proof (len_nonneg (item_of r)).
  rewrite parse_fields_cons by (rewrite byte_of_chr; [done|split; [done|apply Hr]]).
  rewrite parse_field_report by done. simpl. apply IH. simpl in Hf. rewrite length_app in Hf. lia.
Qed.

(** C40: the reports of a device are read back from its frame, whatever stands before the
    header (without holding it) and behind the payload, and with an incomplete field at the
    end of the payload. The levels of all inks and boxes are those of the frame, the later
    ones over the earlier. *)
Theorem st2_reports_read pre rs tail rest :
  let payload := mjoin (encode <$> rs) ++ tail in
  let data := pre ++ header ++ le16 (len payload) ++ payload ++ rest in
  Forall report_ok rs -> incomplete tail -> len payload < 65536 -> 16 <= len data ->
  (forall j, 0 <= j < len pre -> ~ occurs data header j) ->
  ParseST2Response data = Some (Ok (foldl put_report empty_status rs)).
Proof.
  cbv zeta. intros Hok Htail Hp Hl Hfirst.
  rewrite ParseST2Response_found by (done || by apply findBytes_first).
  destruct (parse_payload_ok (mjoin (encode <$> rs) ++ tail) rest Hp) as (s & Hs & ->).
  rewrite parse_fields_reports in Hs by (done || lia). congruence.
Qed.

Lemma st2_reports_read_witness :
  let rs := [RStatus (chr 4); RWarnings [chr 16]; ROther (chr 25) [chr 65];
             RInks 1 [{| colour := chr 1; inkColor := chr 0; level := chr 80; padding := [chr 9] |};
                      {| colour := chr 99; inkColor := chr 1; level := chr 105; padding := [chr 0] |}];
             RBoxes true [chr 0; chr 1]] in
  let payload := mjoin (encode <$> rs) ++ [chr 2; chr 1] in
  ParseST2Response ([chr 0; chr 64] ++ header ++ le16 (len payload) ++ payload ++ []) =
    Some (Ok (foldl put_report empty_status rs)) /\
  map_to_list (InkLevels (foldl put_report empty_status rs)) = [("Cyan", -1); ("Black", 80)] /\
  map_to_list (MaintenanceBoxes (foldl put_report empty_status rs)) = [(2, "Near Full"); (1, "OK")].
Proof.
  cbv zeta. split; [|split; vm_compute; reflexivity].
  apply (st2_reports_read [chr 0; chr 64] [RStatus (chr 4); RWarnings [chr 16]; ROther (chr 25) [chr 65];
    RInks 1 [{| colour := chr 1; inkColor := chr 0; level := chr 80; padding := [chr 9] |};
             {| colour := chr 99; inkColor := chr 1; level := chr 105; padding := [chr 0] |}];
    RBoxes true [chr 0; chr 1]] [chr 2; chr 1] []).
  - repeat (apply Forall_cons; split; [split; [reflexivity|]|]); try exact I; [|split|apply Forall_nil; exact I].
    + apply (bool_decide_eq_true_1 _). vm_compute. reflexivity.
    + split; [intros H; discriminate H | reflexivity].
    + repeat constructor.
  - right. exists (chr 2), (chr 1), []. split; reflexivity.
  - reflexivity.
  - intros H. discriminate H.
  - intros j Hj [_ Hp]. revert Hp. change (len [chr 0; chr 64]) with 2 in Hj.
    assert (j = 0 \/ j = 1) as [-> | ->] by lia;
      refine (bool_decide_eq_false_1 (_ `prefix_of` _) _); vm_compute; reflexivity.
Defined.

(** ** The metrics of a status *)

Definition colors : list string := "Unknown" :: (map_to_list inkColorIDs).*2 ++ (map_to_list inkColorNames).*2.

(** Every ink has a known name and a level from -1 to 100. *)
Definition inks_ok (s : ST2Status) : Prop := map_Forall (fun color n => color ∈ colors /\ -1 <= n <= 100) (InkLevels s).

Lemma color_name_known a b : color_name a b ∈ colors.
Proof.
  assert (Hval : forall (m : gmap Z string) k v, m !! k = Some v -> v ∈ (map_to_list m).*2).
  { intros m k v Hk. apply list_elem_of_fmap. exists (k, v). split; [done|by apply elem_of_map_to_list]. }
  unfold color_name, colors. destruct (inkColorIDs !! _) eqn:H1; [right; apply elem_of_app; left; by eapply Hval|].
  destruct (inkColorNames !! _) eqn:H2; [right; apply elem_of_app; right; by eapply Hval|by left].
Qed.

Lemma ink_level_range a : -1 <= ink_level a <= 100.
Proof. unfold ink_level. pose proof (byte_of_range a). destruct (Z.ltb_spec 100 (byte_of a)); lia. Qed.

Lemma ink_cells_ok fuel item w off inks m :
  map_Forall (fun color n => color ∈ colors /\ -1 <= n <= 100) inks ->
  ink_cells fuel item w off inks = Some m -> map_Forall (fun color n => color ∈ colors /\ -1 <= n <= 100) m.
Proof.
  revert off inks. induction fuel as [|fuel IH]; intros off inks Hok; simpl; [done|].
  destruct (off + w <=? len item); [|by intros [= ->]].
  destruct (at_index item off) as [a|]; [|done]. destruct (at_index item (off + 1)) as [b|]; [|done].
  destruct (at_index item (off + 2)) as [c|]; [|done]. apply IH. apply map_Forall_insert_2; [|done].
  split; [apply color_name_known | apply ink_level_range].
Qed.

Lemma ink_info_ok item s s' : inks_ok s -> ink_info item s = Some s' -> inks_ok s'.
Proof.
  intros Hok. unfold ink_info. destruct (len item <? 1); [by intros [= <-]|].
  destruct (at_index item 0) as [first|]; [|done]. cbn [mbind option_bind].
  destruct (ink_cells _ _ _ _ _) as [m|] eqn:Hm; [|done]. intros [= <-]. by apply (ink_cells_ok _ _ _ _ _ _ Hok Hm).
Qed.

Lemma box_info_ok item s s' : inks_ok s -> box_info item s = Some s' -> inks_ok s'.
Proof.
  intros Hok. unfold box_info. destruct (len item <? 1); [by intros [= <-]|].
  destruct (at_index item 0) as [first|]; [|done]. cbn [mbind option_bind].
  destruct (_ || _); [by intros [= <-]|]. destruct (box_cells _ _ _ _ _ _) as [m|]; [|done]. by intros [= <-].
Qed.

Lemma parse_field_ok t item s s' : inks_ok s -> parse_field t item s = Some s' -> inks_ok s'.
Proof.
  intros Hok. unfold parse_field. cbv zeta.
  assert (Hraw : inks_ok (put_raw (byte_of t) item s)) by done. revert Hraw.
  generalize (put_raw (byte_of t) item s). clear s Hok. intros s Hok.
  destruct (at_index item 0) as [code|]; simpl; repeat case_match; intros Hp;
    first [by injection Hp as <- | by apply (ink_info_ok item s) | by apply (box_info_ok item s) | done].
Qed.

Lemma parse_fields_ok fuel buf s s' : inks_ok s -> parse_fields fuel buf s = Some s' -> inks_ok s'.
Proof.
  revert buf s. induction fuel as [|fuel IH]; intros buf s Hok; [done|].
  destruct (first_field buf) as [He|(t & l & item & rest & -> & Hl)]; [rewrite parse_fields_end by done; by intros [= <-]|].
  rewrite parse_fields_cons by done. destruct (parse_field t item s) as [s1|] eqn:H1; [|done]. simpl.
  apply IH. by eapply parse_field_ok.
Qed.

Lemma parsed_inks_ok data s : ParseST2Response data = Some (Ok s) -> inks_ok s.
Proof.
  intros Hp. destruct (ParseST2Response_returns data) as (r & Hr & Hok). rewrite Hp in Hr. injection Hr as <-.
  destruct (Hok eq_refl) as [payload Hf]. destruct (framed_parsed data payload Hf) as (s' & Hs & Heq).
  assert (s' = s) as -> by congruence. eapply parse_fields_ok; [|exact Hs]. apply map_Forall_empty.
Qed.

(** *** Entries *)

Section Entries.
Context {K A : Type} `{Countable K}.
Implicit Types (l : list (K * A)) (m : gmap K A).

Definition put_all l m : gmap K A := foldl (fun m e => <[e.1 := e.2]> m) m l.

Lemma put_all_cons k v l m : put_all ((k, v) :: l) m = put_all l (<[k := v]> m).
Proof. done. Qed.

Lemma put_all_app l1 l2 m : put_all (l1 ++ l2) m = put_all l2 (put_all l1 m).
Proof. apply foldl_app. Qed.

Lemma put_all_other l m k : k ∉ l.*1 -> put_all l m !! k = m !! k.
Proof.
  revert m. induction l as [|[k' v] l IH]; intros m Hk; [done|]. rewrite fmap_cons in Hk.
  rewrite not_elem_of_cons in Hk. destruct Hk as [Hne Hk]. rewrite put_all_cons, IH by done.
  by rewrite lookup_insert_ne.
Qed.

Lemma put_all_lookup l m k v :
  (k, v) ∈ l -> (forall v', (k, v') ∈ l -> v' = v) -> put_all l m !! k = Some v.
Proof.
  revert m. induction l as [|[k' v'] l IH]; intros m Hin Huniq; [by apply elem_of_nil in Hin|].
  rewrite put_all_cons. destruct (decide (k ∈ l.*1)) as [Hk|Hk].
  - apply list_elem_of_fmap in Hk as ([k1 v1] & -> & Hin1). simpl in *.
    assert (v1 = v) as -> by (apply Huniq; by right). apply IH; [done|]. intros v2 H2. apply Huniq. by right.
  - rewrite (put_all_other l _ k Hk). apply elem_of_cons in Hin as [[= -> ->]|Hin]; [apply lookup_insert_eq|].
    destruct Hk. apply list_elem_of_fmap. by exists (k, v).
Qed.

Lemma put_all_inv l m k v : put_all l m !! k = Some v -> (k, v) ∈ l \/ m !! k = Some v.
Proof.
  revert m. induction l as [|[k' v'] l IH]; intros m Hl; [by right|]. rewrite put_all_cons in Hl.
  destruct (IH _ Hl) as [Hin|Hm]; [left; by right|]. destruct (decide (k' = k)) as [->|Hne].
  - rewrite lookup_insert_eq in Hm. injection Hm as ->. left. by left.
  - rewrite lookup_insert_ne in Hm by done. by right.
Qed.
End Entries.

Section Read.
Context `{GoUnicode}.

Definition state_entries (s : ST2Status) : list (string * MetricValue) :=
  (if String.eqb (StatusText s) "" then [] else [("epson_status", MText (StatusText s))]) ++
  [("epson_ready", MBool (Ready s))] ++
  (if String.eqb (ErrorCode s) "" then [] else [("epson_error", MText (ErrorCode s))]) ++
  (if 0 <? len (WarningCodes s) then [("epson_warnings", MText (GoStrings.Join (WarningCodes s) "; "))] else []).

Definition ink_entry (ink : string * Z) : list (string * MetricValue) :=
  if ink.2 <? 0 then [] else [(ink_key ink.1, MFloat (float_of_Z ink.2))].

Definition box_entry (box : Z * string) : list (string * MetricValue) :=
  (box_key box.1, MText box.2) ::
  match waste_level box.2 with Some n => [(waste_key box.1, MInt n)] | None => [] end.

Lemma ToMetrics_entries inks boxes s :
  ToMetrics inks boxes s =
    put_all (state_entries s ++ mjoin (ink_entry <$> inks) ++ mjoin (box_entry <$> boxes)) ∅.
Proof.
  assert (Hinks : forall m, foldl put_ink m inks = put_all (mjoin (ink_entry <$> inks)) m).
  { induction inks as [|ink inks IH]; intros m; [done|]. rewrite fmap_cons.
    change (mjoin (?a :: ?l)) with (a ++ mjoin l). rewrite put_all_app, <- IH. simpl. f_equal.
    unfold put_ink, ink_entry. by destruct (ink.2 <? 0). }
  assert (Hboxes : forall m, foldl put_box m boxes = put_all (mjoin (box_entry <$> boxes)) m).
  { induction boxes as [|box boxes IH]; intros m; [done|]. rewrite fmap_cons.
    change (mjoin (?a :: ?l)) with (a ++ mjoin l). rewrite put_all_app, <- IH. simpl. f_equal.
    unfold put_box, box_entry. by destruct (waste_level box.2). }
  unfold ToMetrics. cbv zeta. rewrite !put_all_app, Hinks, Hboxes. do 2 f_equal.
  unfold state_entries, put_when. rewrite !put_all_app.
  destruct (String.eqb (StatusText s) ""), (String.eqb (ErrorCode s) ""), (0 <? len (WarningCodes s)); done.
Qed.

Lemma elem_of_entries inks boxes s k v :
  (k, v) ∈ state_entries s ++ mjoin (ink_entry <$> inks) ++ mjoin (box_entry <$> boxes) <->
  (k, v) ∈ state_entries s \/
  (exists color n, (color, n) ∈ inks /\ 0 <= n /\ k = ink_key color /\ v = MFloat (float_of_Z n)) \/
  (exists i t, (i, t) ∈ boxes /\ k = box_key i /\ v = MText t) \/
  (exists i t n, (i, t) ∈ boxes /\ waste_level t = Some n /\ k = waste_key i /\ v = MInt n).
Proof.
  rewrite !elem_of_app, !list_elem_of_join. split.
  - intros [Hs|[(l & Hkv & Hl)|(l & Hkv & Hl)]]; [by left| |]; right.
    + left. apply list_elem_of_fmap in Hl as ([color n] & -> & Hin). unfold ink_entry in Hkv. simpl in Hkv.
      destruct (Z.ltb_spec n 0); [by apply elem_of_nil in Hkv|].
      apply list_elem_of_singleton in Hkv as [= -> ->]. by exists color, n.
    + right. apply list_elem_of_fmap in Hl as ([i t] & -> & Hin). unfold box_entry in Hkv. simpl in Hkv.
      apply elem_of_cons in Hkv as [[= -> ->]|Hkv]; [left; by exists i, t|]. right.
      destruct (waste_level t) as [n|] eqn:Hw; [|by apply elem_of_nil in Hkv].
      apply list_elem_of_singleton in Hkv as [= -> ->]. by exists i, t, n.
  - intros [Hs|[(color & n & Hin & Hn & -> & ->)|[(i & t & Hin & -> & ->)|(i & t & n & Hin & Hw & -> & ->)]]]; [by left| | |]; right.
    + left. exists (ink_entry (color, n)). split; [|by apply list_elem_of_fmap_2].
      unfold ink_entry. simpl. replace (n <? 0) with false by lia. by left.
    + right. exists (box_entry (i, t)). split; [by left|by apply list_elem_of_fmap_2].
    + right. exists (box_entry (i, t)). split; [|by apply list_elem_of_fmap_2].
      unfold box_entry. simpl. rewrite Hw. right. by left.
Qed.

(** The names of the inks stay apart. *)
Lemma ink_key_inj c1 c2 : c1 ∈ colors -> c2 ∈ colors -> ink_key c1 = ink_key c2 -> c1 = c2.
Proof.
  assert (Hall : forallb (fun c => forallb (fun d => implb (String.eqb (ink_key c) (ink_key d)) (String.eqb c d)) colors) colors = true)
    by (vm_compute; reflexivity).
  intros H1 H2 Heq. rewrite forallb_elem_of in Hall. specialize (Hall c1 H1).
  rewrite forallb_elem_of in Hall. specialize (Hall c2 H2).
  rewrite (proj2 (String.eqb_eq _ _) Heq) in Hall. by apply String.eqb_eq.
Qed.

Lemma box_key_inj i j : box_key i = box_key j -> i = j.
Proof. intros Heq. by apply (inj _) in Heq. Qed.

Lemma state_entries_key s k v : (k, v) ∈ state_entries s -> k ∈ ["epson_status"; "epson_ready"; "epson_error"; "epson_warnings"].
Proof.
  unfold state_entries. rewrite !elem_of_app. intros Hin.
  repeat (destruct Hin as [Hin|Hin]; [repeat case_match; by (apply elem_of_nil in Hin || (apply list_elem_of_singleton in Hin as [= -> _]; set_solver))|]).
  repeat case_match; by (apply elem_of_nil in Hin || (apply list_elem_of_singleton in Hin as [= -> _]; set_solver)).
Qed.

(** What the metrics say of a parsed status, for any order in which its maps are
    visited. Each ink with a level has a metric of its own with that level, an ink without
    one has none, and each maintenance box has its text; and there is nothing else but the
    state of the printer and the fill of a box, so every ink level is between 0 and 100. *)
Theorem st2_metrics_read data s inks boxes :
  ParseST2Response data = Some (Ok s) ->
  inks ≡ₚ map_to_list (InkLevels s) -> boxes ≡ₚ map_to_list (MaintenanceBoxes s) ->
  let m := ToMetrics inks boxes s in
  (forall color n, InkLevels s !! color = Some n ->
     m !! ink_key color = if n <? 0 then None else Some (MFloat (float_of_Z n))) /\
  (forall i t, MaintenanceBoxes s !! i = Some t -> m !! box_key i = Some (MText t)) /\
  (forall k v, m !! k = Some v ->
     k ∈ ["epson_status"; "epson_ready"; "epson_error"; "epson_warnings"] \/
     (exists color n, k = ink_key color /\ InkLevels s !! color = Some n /\ 0 <= n <= 100 /\ v = MFloat (float_of_Z n)) \/
     (exists i t, MaintenanceBoxes s !! i = Some t /\
        (k = box_key i /\ v = MText t \/ exists n, waste_level t = Some n /\ k = waste_key i /\ v = MInt n))).
Proof.
  intros Hp Hi Hb. pose proof (parsed_inks_ok data s Hp) as Hok. cbv zeta. rewrite ToMetrics_entries.
  assert (Hink : forall color n, (color, n) ∈ inks <-> InkLevels s !! color = Some n) by (intros; rewrite Hi; apply elem_of_map_to_list).
  assert (Hbox : forall i t, (i, t) ∈ boxes <-> MaintenanceBoxes s !! i = Some t) by (intros; rewrite Hb; apply elem_of_map_to_list).
  assert (Hkeys : forall color k, k = ink_key color -> k ∉ ["epson_status"; "epson_ready"; "epson_error"; "epson_warnings"]).
  { intros color k -> Hin. rewrite !elem_of_cons, elem_of_nil in Hin. by destruct Hin as [?|[?|[?|[?|[]]]]]. }
  assert (Honly : forall color n v, InkLevels s !! color = Some n ->
    (ink_key color, v) ∈ state_entries s ++ mjoin (ink_entry <$> inks) ++ mjoin (box_entry <$> boxes) ->
    0 <= n /\ v = MFloat (float_of_Z n)).
  { intros color n v Hn Hin. apply elem_of_entries in Hin as [Hs|[(c & n' & Hc & Hn' & Hk & ->)|[(i & t & _ & Hk & _)|(i & t & w & _ & _ & Hk & _)]]];
      [by apply state_entries_key in Hs; destruct (Hkeys color (ink_key color))| |done|done].
    apply Hink in Hc. assert (color = c) as ->; [|by simplify_eq].
    apply ink_key_inj; [by destruct (Hok _ _ Hn)|by destruct (Hok _ _ Hc)|done]. }
  split_and!.
  - intros color n Hn. destruct (Z.ltb_spec n 0) as [Hneg|Hpos].
    + rewrite put_all_other; [apply lookup_empty|]. intros Hin. apply list_elem_of_fmap in Hin as ([k v] & Hk & Hin).
      simpl in Hk. subst k. destruct (Honly color n v Hn Hin). lia.
    + apply put_all_lookup; [|by intros v' Hv'; destruct (Honly color n v' Hn Hv')].
      apply elem_of_entries. right. left. exists color, n. split_and!; [by apply Hink|done..].
  - intros i t Ht. apply put_all_lookup; [apply elem_of_entries; right; right; left; exists i, t; split_and!; [by apply Hbox|done..]|].
    intros v Hv. apply elem_of_entries in Hv as [Hs|[(c & n' & _ & _ & Hk & _)|[(j & t' & Hj & Hk & ->)|(j & t' & w & _ & _ & Hk & _)]]]; [|done| |done].
    + apply state_entries_key in Hs. rewrite !elem_of_cons, elem_of_nil in Hs. by destruct Hs as [?|[?|[?|[?|[]]]]].
    + apply box_key_inj in Hk as <-. apply Hbox in Hj. by simplify_eq.
  - intros k v Hv. apply put_all_inv in Hv as [Hin|Hv]; [|by rewrite lookup_empty in Hv].
    apply elem_of_entries in Hin as [Hs|[(c & n & Hc & Hn & -> & ->)|[(i & t & Ht & -> & ->)|(i & t & w & Ht & Hw & -> & ->)]]].
    + left. by eapply state_entries_key.
    + right. left. apply Hink in Hc. destruct (Hok _ _ Hc). exists c, n. split_and!; [done|done|lia|lia|done].
    + right. right. exists i, t. split; [by apply Hbox|by left].
    + right. right. exists i, t. split; [by apply Hbox|right; by exists w].
Qed.
End Read.

Definition idle_frame : bytes :=
  [chr 0; chr 64] ++ header ++ le16 12 ++
  [chr 1; chr 1; chr 4; chr 15; chr 4; chr 3; chr 1; chr 0; chr 85; chr 55; chr 2; chr 1] ++ [chr 1].

(** The payload ends within the field of the boxes, which is skipped. *)
Lemma st2_metrics_read_witness :
  exists s, ParseST2Response idle_frame = Some (Ok s) /\
    ToMetrics [("Black", 85)] [] s !! ink_key "Black" = Some (MFloat (float_of_Z 85)).
Proof.
  destruct (ParseST2Response idle_frame) as [[s|e]|] eqn:Hs;
    [|exfalso; revert Hs; vm_compute; discriminate|exfalso; revert Hs; vm_compute; discriminate].
  exists s. split; [reflexivity|].
  assert (Hinks : InkLevels s = {["Black" := 85]}) by (revert Hs; vm_compute; intros [= <-]; reflexivity).
  assert (Hboxes : MaintenanceBoxes s = ∅) by (revert Hs; vm_compute; intros [= <-]; reflexivity).
  refine (proj1 (st2_metrics_read idle_frame s [("Black", 85)] [] Hs _ _) "Black" 85 _).
  - by rewrite Hinks, map_to_list_singleton.
  - by rewrite Hboxes, map_to_list_empty.
  - by rewrite Hinks, lookup_singleton_eq.
Defined.
