(* ===== verification/EpsonRemote.v ===== *)
(** * The remote mode of Epson printers ([agent/scanner/vendor/epson_remote.go],
    [epson_remote_client.go], [ParseWithRemoteMode] of [epson.go], [ParseWithContext] of
    [registry.go])

    A command is an object identifier that carries its payload; the answer of the device
    is a value of the object. *)
From S2P Require Import Prelude GoStrings GoNet GoFloat Evidence Supplies VendorModules VendorParse PduText ParsePdus MergeMetrics EpsonSt2.
From Stdlib Require Import Ascii ZifyBool.
From stdpp Require Import functions list.

Open Scope string_scope.
Open Scope Z_scope.
Open Scope list_scope.

Definition epsonRemoteBaseOID : string := "1.3.6.1.4.1.1248.1.2.2.44.1.1.2.1".

Record EpsonRemoteCommand := { Command_Name : string; Code : ascii * ascii; BasePayload : bytes }.

Definition EpsonRemoteDeviceIDCommand : EpsonRemoteCommand :=
  {| Command_Name := "device_id"; Code := ("d", "i")%char; BasePayload := [chr 1] |}.
Definition EpsonRemoteStatusCommand : EpsonRemoteCommand :=
  {| Command_Name := "status"; Code := ("s", "t")%char; BasePayload := [chr 1] |}.
Definition EpsonRemoteInkActuatorCommand : EpsonRemoteCommand :=
  {| Command_Name := "ink_actuators"; Code := ("i", "a")%char; BasePayload := [chr 0] |}.
Definition EpsonRemoteInkSlotCommand : EpsonRemoteCommand :=
  {| Command_Name := "ink_slot"; Code := ("i", "i")%char; BasePayload := [chr 1] |}.
Definition EpsonRemoteEEPROMReadCommand : EpsonRemoteCommand :=
  {| Command_Name := "eeprom_read"; Code := ("|", "|")%char; BasePayload := [] |}.

(** [payload too large], [eeprom payload required] *)
Inductive oid_error := TooLarge | NoPayload.

Definition oid_numbers (code : ascii * ascii) (payload : bytes) : list Z :=
  [byte_of code.1; byte_of code.2; Z.land (len payload) 255; Z.land (Z.shiftr (len payload) 8) 255] ++
  (byte_of <$> payload).

Definition BuildEpsonRemoteOID (cmd : EpsonRemoteCommand) (dynamicPayload : bytes) : result oid_error string :=
  let payload := BasePayload cmd ++ dynamicPayload in
  if 65535 <? len payload then Err TooLarge
  else Ok (epsonRemoteBaseOID +:+ "." +:+ GoStrings.Join (pretty <$> oid_numbers (Code cmd) payload) ".")%string.

Definition BuildEpsonInkSlotOID (slot : ascii) : result oid_error string :=
  BuildEpsonRemoteOID EpsonRemoteInkSlotCommand [slot].

Definition BuildEpsonEEPROMReadOID (payload : bytes) : result oid_error string :=
  match payload with
  | [] => Err NoPayload
  | _ => BuildEpsonRemoteOID EpsonRemoteEEPROMReadCommand payload
  end.

(** ** The client *)

Definition value_bytes (v : PduValue) : option bytes :=
  match v with
  | VBytes s | VString s => Some (Stdlib.Strings.String.list_ascii_of_string s)
  | _ => None
  end.

Inductive status_error :=
| BadOid | GetFailed | NoResponse | UnexpectedType | EmptyResponse | BadFrame (e : st2_error).

(** The answer to a GET: nothing when it fails. *)
Definition device : Type := string -> option (list SnmpPDU).

(** A panic of the parser is [None]. *)
Definition GetStatus (get : device) : option (result status_error ST2Status) :=
  match BuildEpsonRemoteOID EpsonRemoteStatusCommand [] with
  | Err _ => Some (Err BadOid)
  | Ok oid =>
      match get oid with
      | None => Some (Err GetFailed)
      | Some [] => Some (Err NoResponse)
      | Some (pdu :: _) =>
          match value_bytes (Value pdu) with
          | None => Some (Err UnexpectedType)
          | Some [] => Some (Err EmptyResponse)
          | Some data =>
              r ← ParseST2Response data;
              Some (match r with Ok status => Ok status | Err e => Err (BadFrame e) end)
          end
      end
  end.

(** *** The device identification *)

Fixpoint split_bytes (sep : ascii) (current : string) (s : string) : list string :=
  match s with
  | EmptyString => if String.eqb current "" then [] else [current]
  | String c s' =>
      if Ascii.eqb c sep then current :: split_bytes sep "" s'
      else split_bytes sep (current +:+ String c "")%string s'
  end.

Definition splitSemicolon (s : string) : list string := split_bytes ";" "" s.
Definition splitColon (s : string) : list string := split_bytes ":" "" s.

Definition is_letter (c : ascii) : bool :=
  ((65 <=? byte_of c) && (byte_of c <=? 90)) || ((97 <=? byte_of c) && (byte_of c <=? 122)).

(** The text from its first letter; without one it stays as it is. *)
Fixpoint from_letter (s : string) : option string :=
  match s with
  | EmptyString => None
  | String c s' => if is_letter c then Some s else from_letter s'
  end.

Definition expand_key (key : string) : string :=
  if String.eqb key "MFG" then "Manufacturer" else if String.eqb key "MDL" then "Model"
  else if String.eqb key "CMD" then "Commands" else if String.eqb key "CLS" then "Class"
  else if String.eqb key "DES" then "Description" else key.

Definition put_pair (m : gmap string string) (pair : string) : gmap string string :=
  match splitColon pair with
  | key :: value :: _ => <[expand_key key := value]> m
  | _ => m
  end.

Definition GetDeviceID (get : device) : result status_error (gmap string string) :=
  match BuildEpsonRemoteOID EpsonRemoteDeviceIDCommand [] with
  | Err _ => Err BadOid
  | Ok oid =>
      match get oid with
      | None => Err GetFailed
      | Some [] => Err NoResponse
      | Some (pdu :: _) =>
          match Value pdu with
          | VBytes s | VString s => Ok (foldl put_pair ∅ (splitSemicolon (default s (from_letter s))))
          | _ => Err UnexpectedType
          end
      end
  end.

(** The status among the answers to an earlier query. *)
Fixpoint QueryEpsonRemoteStatus (pdus : list SnmpPDU) : option (option ST2Status) :=
  match pdus with
  | [] => Some None
  | pdu :: rest =>
      if String.eqb (TrimPrefix (Name pdu) ".") (value_or "" (BuildEpsonRemoteOID EpsonRemoteStatusCommand []))
      then
        match value_bytes (Value pdu) with
        | None | Some [] => QueryEpsonRemoteStatus rest
        | Some data =>
            r ← ParseST2Response data;
            match r with Ok status => Some (Some status) | Err _ => QueryEpsonRemoteStatus rest end
        end
      else QueryEpsonRemoteStatus rest
  end.

(** ** Remote metrics *)

Section Remote.
Context `{GoUnicode} `{GoFormat} `{MapOrder}.
(** The feature flag, and the connection to an address, with a community and a timeout. *)
Context (EpsonRemoteModeEnabled : bool).
Context (Connect : string -> string -> Z -> option device).

Definition NewVendorSNMPClient (ip community : string) (timeoutSeconds : Z) : option device :=
  if String.eqb ip "" then None
  else Connect ip (if String.eqb community "" then "public" else community)
         (if timeoutSeconds <=? 0 then 5 else timeoutSeconds).

(** [None] is a panic, [Some None] the nil map. *)
Definition FetchEpsonRemoteMetrics (client : option device) : option (option metrics) :=
  if negb EpsonRemoteModeEnabled then Some None
  else
    match client with
    | None => Some None
    | Some get =>
        r ← GetStatus get;
        match r with
        | Err _ => Some None
        | Ok s => Some (Some (ToMetrics (visit 16 (InkLevels s)) (visit 17 (MaintenanceBoxes s)) s))
        end
    end.

Definition FetchEpsonRemoteMetricsWithIP (ip : string) (timeoutSeconds : Z) : option (option metrics) :=
  if negb EpsonRemoteModeEnabled then Some None
  else if String.eqb ip "" then Some None
  else
    match NewVendorSNMPClient ip "public" timeoutSeconds with
    | None => Some None
    | Some client => FetchEpsonRemoteMetrics (Some client)
    end.

Definition remote_prefixes : list string := ["ink_"; "maintenance_"; "waste_"; "epson_"].

Definition merge_remote (m : metrics) (metric : string * MetricValue) : metrics :=
  let '(k, v) := metric in
  if existsb (HasPrefix k) remote_prefixes then <[k := v]> m
  else match m !! k with Some _ => m | None => <[k := v]> m end.

Definition ParseWithRemoteMode (standard : metrics) (ip : string) (timeoutSeconds : Z) : option metrics :=
  if EpsonRemoteModeEnabled && negb (String.eqb ip "") then
    remote ← FetchEpsonRemoteMetricsWithIP ip timeoutSeconds;
    match remote with
    | None => Some standard
    | Some m => Some (foldl merge_remote standard (visit 18 m))
    end
  else Some standard.

(** Only the Epson module has an extended parser. *)
Definition ParseWithContext (vendor : VendorModule) (pdus : list SnmpPDU) (ip : string) (timeoutSeconds : Z) : option metrics :=
  if String.eqb (vendor_name vendor) "Epson" && negb (String.eqb ip "")
  then ParseWithRemoteMode (module_Parse vendor pdus) ip timeoutSeconds
  else Some (module_Parse vendor pdus).

Definition MergeVendorMetricsWithContext (manufacturer : string) (m : Metering) (pdus : list SnmpPDU)
    (vendorHint ip : string) (timeoutSeconds : Z) : option Metering :=
  match pdus with
  | [] => Some m
  | _ =>
      let vendor := metrics_module vendorHint manufacturer pdus in
      if String.eqb (vendor_name vendor) "Generic" then Some m
      else
        metrics ← ParseWithContext vendor pdus ip timeoutSeconds;
        Some (merge_metrics m (visit 15 metrics))
  end.

(** ** What the remote mode cannot change *)

Definition is_remote (k : string) : bool := existsb (HasPrefix k) remote_prefixes.

Lemma metrics_are_remote inks boxes s k v : ToMetrics inks boxes s !! k = Some v -> is_remote k = true.
Proof.
  rewrite ToMetrics_entries. intros Hv. apply put_all_inv in Hv as [Hin|Hv]; [|by rewrite lookup_empty in Hv].
  apply elem_of_entries in Hin as [Hs|[(c & n & _ & _ & -> & _)|[(i & t & _ & -> & _)|(i & t & w & _ & _ & -> & _)]]]; try done.
  - apply state_entries_key in Hs. rewrite !elem_of_cons, elem_of_nil in Hs. by destruct Hs as [->|[->|[->|[->|[]]]]].
  - unfold is_remote, remote_prefixes. cbn [existsb]. unfold ink_key. by rewrite (HasPrefix_app "ink_" _).
Qed.

Lemma merge_remote_put standard k v : is_remote k = true -> merge_remote standard (k, v) = <[k := v]> standard.
Proof. unfold is_remote, merge_remote. by intros ->. Qed.

Lemma merge_remote_other order standard k :
  is_remote k = false -> (forall k' v, (k', v) ∈ order -> is_remote k' = true) ->
  foldl merge_remote standard order !! k = standard !! k.
Proof.
  intros Hk. revert standard. induction order as [|[k' v] order IH]; intros standard Hr; [done|]. cbn [foldl].
  assert (Hk' : is_remote k' = true) by (eapply Hr; by left).
  rewrite merge_remote_put, IH by (done || (intros; eapply Hr; by right)). rewrite lookup_insert_ne; [done|congruence].
Qed.

Lemma GetStatus_returns get : exists r, GetStatus get = Some r.
Proof.
  unfold GetStatus. destruct (BuildEpsonRemoteOID _ _) as [oid|]; [|by eexists].
  destruct (get oid) as [[|pdu rest]|]; try by eexists. destruct (value_bytes _) as [[|b data]|]; try by eexists.
  destruct (ParseST2Response_returns (b :: data)) as (r & -> & _). by eexists.
Qed.

(** The remote metrics are there or not, and have names of their own. *)
Lemma remote_metrics_return ip t :
  exists remote, FetchEpsonRemoteMetricsWithIP ip t = Some remote /\
    forall m k v, remote = Some m -> m !! k = Some v -> is_remote k = true.
Proof.
  unfold FetchEpsonRemoteMetricsWithIP, FetchEpsonRemoteMetrics.
  destruct (negb EpsonRemoteModeEnabled); [by exists None|]. destruct (String.eqb ip ""); [by exists None|].
  destruct (NewVendorSNMPClient _ _ _) as [get|]; [|by exists None].
  destruct (GetStatus_returns get) as [[s|e] ->]; [|by exists None].
  eexists; split; [done|]. intros m k v [= <-]. apply metrics_are_remote.
Qed.

Lemma ParseWithContext_confined vendor pdus ip t :
  exists m, ParseWithContext vendor pdus ip t = Some m /\
    forall k, is_remote k = false -> m !! k = module_Parse vendor pdus !! k.
Proof.
  unfold ParseWithContext, ParseWithRemoteMode. destruct (_ && negb (String.eqb ip "")); [|by eexists].
  destruct (EpsonRemoteModeEnabled && _); [|by eexists].
  destruct (remote_metrics_return ip t) as ([m|] & -> & Hm); [|by eexists].
  eexists; split; [done|]. intros k Hk. apply merge_remote_other; [done|].
  intros k' v Hin. rewrite visit_perm in Hin. by eapply Hm, elem_of_map_to_list.
Qed.

Lemma merged_part_agree {X} (c : counter_part X) (m1 m2 : metrics) order1 order2 o m :
  part_ok c -> order1 ≡ₚ map_to_list m1 -> order2 ≡ₚ map_to_list m2 ->
  (forall k, k ∈ keys_of (part_effect c) -> m1 !! k = m2 !! k) ->
  (forall k v, k ∈ keys_of (part_effect c) -> m2 !! k = Some v -> toIntValue v = o) ->
  part c (merge_metrics m order1) = part c (merge_metrics m order2).
Proof.
  intros Hc Ho1 Ho2 Hagree Ho. rewrite (merged_part c m2 order2 o) by done.
  rewrite (merged_part c m1 order1 o) by (done || (intros k v Hk Hv; rewrite Hagree in Hv by done; eauto)).
  assert (existsb (has_key m1) (keys_of (part_effect c)) = existsb (has_key m2) (keys_of (part_effect c))) as ->; [|done].
  induction (keys_of (part_effect c)) as [|k ks IH]; [done|]. simpl. unfold has_key at 1 3.
  rewrite Hagree by (by left). rewrite IH; [done|intros; apply Hagree; by right|intros k' v Hk'; apply Ho; by right].
Qed.

(** The remote mode of Epson devices, whatever the device answers and whether it
    answers at all. The report is merged, without a panic of the parser of its frames, and
    the page count, the impressions and their meters are those of the merge without the
    remote mode; without an address, or with the mode switched off, it is that merge. *)
Theorem remote_mode_keeps_counters manufacturer m pdus vendorHint ip t :
  exists merged, MergeVendorMetricsWithContext manufacturer m pdus vendorHint ip t = Some merged /\
    let standard := MergeVendorMetrics manufacturer m pdus vendorHint in
    PageCount merged = PageCount standard /\
    MonoImpressions merged = MonoImpressions standard /\
    ColorImpressions merged = ColorImpressions standard /\
    (forall k, k ∈ own_meters -> Meters merged !! k = Meters standard !! k) /\
    (EpsonRemoteModeEnabled = false \/ ip = "" -> merged = standard).
Proof.
  unfold MergeVendorMetricsWithContext, MergeVendorMetrics. destruct pdus as [|pdu pdus]; [by exists m|].
  set (vendor := metrics_module _ _ _). destruct (String.eqb (vendor_name vendor) "Generic"); [by exists m|].
  destruct (ParseWithContext_confined vendor (pdu :: pdus) ip t) as (m1 & Hparse & Hm1). rewrite Hparse.
  eexists; split; [done|]. cbv zeta. set (standard := module_Parse vendor (pdu :: pdus)) in *.
  destruct (module_pages _ vendor (pdu :: pdus)) as [Htotal Hint]. fold standard in Htotal, Hint.
  assert (Hpages : part pages_part (merge_metrics m (visit 15 m1)) = part pages_part (merge_metrics m (visit 15 standard))).
  { apply (merged_part_agree _ m1 standard _ _ (reported_pages standard)); [apply pages_part_ok|apply visit_perm|apply visit_perm| |].
    - intros k Hk. apply Hm1. simpl in Hk. rewrite !elem_of_cons, elem_of_nil in Hk. by destruct Hk as [->|[->|[]]].
    - intros k v Hk Hv. simpl in Hk. rewrite !elem_of_cons, elem_of_nil in Hk.
      assert (Hp : standard !! "page_count" = Some v) by (destruct Hk as [->|[->|[]]]; congruence).
      unfold reported_pages. rewrite Hp. by destruct (Hint v Hp) as [n ->]. }
  assert (Himp : forall color, part (impressions_part color) (merge_metrics m (visit 15 m1)) =
                               part (impressions_part color) (merge_metrics m (visit 15 standard))).
  { intros color. apply (merged_part_agree _ m1 standard _ _ (standard !! (if color then "color_pages" else "mono_pages") ≫= toIntValue));
      [apply impressions_part_ok|apply visit_perm|apply visit_perm| |]; intros k;
      [intros Hk; apply Hm1|intros v Hk Hv]; destruct color; simpl in Hk; apply list_elem_of_singleton in Hk as ->; try done; by rewrite Hv. }
  injection Hpages as ? ?. injection (Himp false) as ? ?. injection (Himp true) as ? ?.
  split_and!; [done..| |].
  - intros k Hk. unfold own_meters in Hk. rewrite !elem_of_cons, elem_of_nil in Hk. by destruct Hk as [->|[->|[->|[]]]].
  - unfold ParseWithContext, ParseWithRemoteMode in Hparse. intros [Hoff | ->].
    + rewrite Hoff in Hparse. simpl in Hparse. case_match; by injection Hparse as <-.
    + rewrite andb_false_r in Hparse. by injection Hparse as <-.
Qed.
End Remote.

(** ** The object identifiers of commands *)

(** What the device reads: the command, and as many bytes as announced. *)
Definition decode_oid (oid : string) : option ((ascii * ascii) * bytes) :=
  numbers ← mapM parse_octet (Split (TrimPrefix oid (epsonRemoteBaseOID +:+ ".")%string) ".");
  match numbers with
  | a :: b :: lo :: hi :: payload =>
      if Z.of_nat (length payload) =? lo + 256 * hi then Some ((chr a, chr b), chr <$> payload) else None
  | _ => None
  end.

Lemma pretty_octets (l : list Z) :
  Forall (fun b => 0 <= b <= 255) l ->
  Forall (fun s => all_bytes (not_byte ".") s = true) (pretty <$> l) /\ mapM parse_octet (pretty <$> l) = Some l.
Proof.
  induction 1 as [|b l Hb Hl [IH1 IH2]]; [done|]. destruct (pretty_octet b Hb) as [Hd Hp]. rewrite fmap_cons. split.
  - apply Forall_cons. split; [by apply digits_not_dot|done].
  - simpl. by rewrite Hp, IH2.
Qed.

Lemma byte_numbers l : Forall (fun b => 0 <= b <= 255) (byte_of <$> l) /\ chr <$> (byte_of <$> l) = l.
Proof.
  induction l as [|c l [IH1 IH2]]; [done|]. rewrite !fmap_cons. split.
  - apply Forall_cons. split; [|done]. pose proof (byte_of_range c). lia.
  - rewrite IH2. f_equal. unfold chr, byte_of. by rewrite N2Z.id, ascii_N_embedding.
Qed.

Lemma length_bytes n : 0 <= n <= 65535 ->
  0 <= Z.land n 255 <= 255 /\ 0 <= Z.land (Z.shiftr n 8) 255 <= 255 /\ Z.land n 255 + 256 * Z.land (Z.shiftr n 8) 255 = n.
Proof.
  intros Hn. change 255 with (Z.ones 8). rewrite !Z.land_ones, Z.shiftr_div_pow2 by lia. change (2 ^ 8) with 256.
  pose proof (Z.mod_pos_bound n 256). assert (0 <= n / 256 < 256) by (split; [apply Z.div_pos; lia|apply Z.div_lt_upper_bound; lia]).
  rewrite (Z.mod_small (n / 256)) by lia. pose proof (Z.div_mod n 256). change (Z.ones 8) with 255. lia.
Qed.

(** A command that has an object identifier is read back from it, with the whole payload
    and the length in two bytes: no two requests share an identifier. *)
Theorem remote_oid_roundtrip cmd p oid :
  BuildEpsonRemoteOID cmd p = Ok oid -> decode_oid oid = Some (Code cmd, BasePayload cmd ++ p).
Proof.
  unfold BuildEpsonRemoteOID, decode_oid. set (payload := BasePayload cmd ++ p).
  destruct (Z.ltb_spec 65535 (len payload)); [done|].
  remember (GoStrings.Join (pretty <$> oid_numbers (Code cmd) payload) ".") as text eqn:Htext. intros [= <-].
  change (TrimPrefix _ _) with (TrimPrefix (epsonRemoteBaseOID +:+ "." +:+ text) (epsonRemoteBaseOID +:+ "."))%string.
  rewrite <- append_assoc, TrimPrefix_app, Htext. pose proof (len_nonneg payload). destruct (length_bytes (len payload)) as (Hlo & Hhi & Hsum); [lia|].
  destruct (byte_numbers payload) as [Hrange Hback].
  assert (Hall : Forall (fun b => 0 <= b <= 255) (oid_numbers (Code cmd) payload)).
  { unfold oid_numbers. pose proof (byte_of_range (Code cmd).1). pose proof (byte_of_range (Code cmd).2).
    repeat (apply Forall_cons; split; [lia|]). exact Hrange. }
  destruct (pretty_octets _ Hall) as [Hdots Hnums]. rewrite Split_Join by done. rewrite Hnums.
  unfold oid_numbers. simpl. rewrite length_fmap. change (Z.of_nat (length payload)) with (len payload).
  rewrite Hsum, Z.eqb_refl, Hback. destruct (Code cmd) as [a b]. simpl.
  unfold chr, byte_of. by rewrite !N2Z.id, !ascii_N_embedding.
Qed.

Lemma remote_oid_roundtrip_witness :
  BuildEpsonRemoteOID EpsonRemoteStatusCommand [] = Ok "1.3.6.1.4.1.1248.1.2.2.44.1.1.2.1.115.116.1.0.1" /\
  decode_oid "1.3.6.1.4.1.1248.1.2.2.44.1.1.2.1.115.116.1.0.1" = Some (("s", "t")%char, [chr 1]).
Proof.
  split; [vm_compute; reflexivity|]. refine (remote_oid_roundtrip EpsonRemoteStatusCommand [] _ _). vm_compute. reflexivity.
Defined.

(** ** Examples *)

(** A value behind a second colon is cut off. *)
Lemma device_id_cut :
  GetDeviceID (fun _ => Some [{| Name := ""; Value := VString "@EJLMFG:EPSON;DES:A:B;" |}]) =
    Ok (<["Description" := "A"]> {["EJLMFG" := "EPSON"]}).
Proof. vm_compute. reflexivity. Qed.

(** The state and the boxes of a device do not reach its report: they are texts, or 0. *)
Lemma remote_state_not_merged :
  foldl merge_metric no_metering
    [("epson_status", MText "Idle"); ("epson_ready", MBool true); ("maintenance_box_1", MText "OK"); ("waste_box_1_status", MInt 0)]
  = no_metering.
Proof. vm_compute. reflexivity. Qed.
