(* ===== verification/ReportSchedule.v ===== *)
(** * When a scheduled report runs next ([server/reports/scheduler.go]:
    [calculateNextRun], [calculateTimeRange]; [server/api_reports.go]:
    [calculateInitialNextRun]).

    The current time is an argument. Hours and days beyond the range of [int] after
    normalization are not considered. *)
From S2P Require Import Prelude GoStrings GoTime GoFloat.

(** ** Data ([server/storage/report_types.go]) *)

Record ReportSchedule := {
  ScheduleID : Z;
  ReportID : Z;
  Enabled : bool;
  Frequency : string;
  DayOfWeek : Z;
  DayOfMonth : Z;
  TimeOfDay : string;
  Timezone : string;
  NextRunAt : Time;
  LastRunID : option Z;
  FailureCount : Z;
}.

Definition ScheduleFrequencyDaily := "daily".
Definition ScheduleFrequencyWeekly := "weekly".
Definition ScheduleFrequencyMonthly := "monthly".

Section NextRun.
Context `{TzDatabase}.

(** The empty name and names that the database does not know mean UTC. *)
Definition schedule_location (s : ReportSchedule) : Location :=
  if String.eqb (Timezone s) "" then UTC else default UTC (LoadLocation (Timezone s)).

Definition day_hours (days : Z) : Duration := dmul (dmul days 24) Hour.

(** The two functions differ in whether an occurrence that is now has passed. *)
Definition next_run (passed : Time -> bool) (s : ReportSchedule) (now : Time) : Time :=
  let '(hour, min) := sscanf_d_colon_d (TimeOfDay s) in
  let loc := schedule_location s in
  let '(year, month, day) := DateOf loc now in
  if String.eqb (Frequency s) ScheduleFrequencyDaily then
    let next := Date year month day hour min 0 0 loc in
    if passed next then Add next (24 * Hour) else next
  else if String.eqb (Frequency s) ScheduleFrequencyWeekly then
    let next := Date year month day hour min 0 0 loc in
    let daysUntil := Z.rem (wrap64 (wrap64 (DayOfWeek s - Weekday loc next) + 7)) 7 in
    let daysUntil := if (daysUntil =? 0) && passed next then 7 else daysUntil in
    Add next (day_hours daysUntil)
  else if String.eqb (Frequency s) ScheduleFrequencyMonthly then
    let next := Date year month (DayOfMonth s) hour min 0 0 loc in
    if passed next then AddDate loc next 0 1 0 else next
  else Add now (24 * Hour).

Definition calculateNextRun (s : ReportSchedule) (now : Time) : Time :=
  next_run (fun next => Before next now || (next =? now)) s now.

Definition calculateInitialNextRun (s : ReportSchedule) (now : Time) : Time :=
  next_run (fun next => Before next now) s now.

(** ** A schedule that says what it means *)

(** The fields in the ranges that the interface offers, in a zone of one offset. *)
Record valid_schedule (s : ReportSchedule) (off hour min : Z) : Prop := {
  valid_location : schedule_location s = fixed_zone off;
  valid_time : sscanf_d_colon_d (TimeOfDay s) = (hour, min);
  valid_hour : 0 <= hour < 24;
  valid_min : 0 <= min < 60;
  valid_day_of_week : 0 <= DayOfWeek s < 7;
  valid_day_of_month : 1 <= DayOfMonth s <= 31;
}.

(** [next] is at the given minute of the [days]-th day from now at the latest. *)
Definition on_schedule (off hour min : Z) (now next : Time) (days : Z) : Prop :=
  now < next <= now + days * 24 * Hour /\
  clock_hour (fixed_zone off) next = hour /\ clock_minute (fixed_zone off) next = min.

Definition frequency_kept (s : ReportSchedule) (off hour min : Z) (now next : Time) : Prop :=
  let loc := fixed_zone off in
  if String.eqb (Frequency s) ScheduleFrequencyDaily then on_schedule off hour min now next 1
  else if String.eqb (Frequency s) ScheduleFrequencyWeekly then
    on_schedule off hour min now next 7 /\ Weekday loc next = DayOfWeek s
  else if String.eqb (Frequency s) ScheduleFrequencyMonthly then
    on_schedule off hour min now next 62 /\
    (DayOfMonth s <= 28 -> exists y m, DateOf loc next = (y, m, DayOfMonth s))
  else next = now + 24 * Hour.

(** *** An instant given by its day and minute in a fixed zone *)

Definition at_minute (off day hour min : Z) : Time :=
  (day * 86400 + hour * 3600 + min * 60 - off) * Second.

Lemma at_minute_wall off day hour min :
  wall_seconds (fixed_zone off) (at_minute off day hour min) = day * 86400 + hour * 3600 + min * 60.
Proof.
  rewrite wall_seconds_fixed. unfold at_minute. rewrite Z.div_mul by done. lia.
Qed.

Lemma at_minute_clock off day hour min :
  0 <= hour < 24 -> 0 <= min < 60 ->
  let t := at_minute off day hour min in
  clock_hour (fixed_zone off) t = hour /\ clock_minute (fixed_zone off) t = min /\
  clock_second (fixed_zone off) t = 0 /\ wall_day (fixed_zone off) t = day /\ t mod Second = 0.
Proof.
  intros Hh Hm. cbv zeta. unfold clock_hour, clock_minute, clock_second, wall_day.
  rewrite at_minute_wall. split_and!.
  5: { unfold at_minute. by rewrite Z.mod_mul. }
  all: Z.to_euclidean_division_equations; lia.
Qed.

Lemma at_minute_add off day hour min k :
  Add (at_minute off day hour min) (k * 24 * Hour) = at_minute off (day + k) hour min.
Proof. unfold Add, at_minute, Hour, Second. lia. Qed.

Lemma day_hours_id k : -100 <= k <= 100 -> day_hours k = k * 24 * Hour.
Proof.
  intros Hk. unfold day_hours, dmul, Hour.
  rewrite (wrap64_id (k * 24)) by (unfold in_int64, int64_min, int64_max; lia).
  apply wrap64_id. unfold in_int64, int64_min, int64_max. lia.
Qed.

(** The day of now, and now between its ends. *)
Lemma now_in_day off now :
  let D := wall_day (fixed_zone off) now in
  at_minute off D 0 0 <= now < at_minute off (D + 1) 0 0.
Proof.
  cbv zeta. unfold wall_day, at_minute. rewrite wall_seconds_fixed. unfold Second.
  Z.to_euclidean_division_equations; lia.
Qed.

Lemma Date_at_minute off y m d hour min :
  Date y m d hour min 0 0 (fixed_zone off) = at_minute off (day_of_date y m d) hour min.
Proof. rewrite Date_fixed. unfold at_minute. lia. Qed.

Lemma at_minute_lt off d h m d' h' m' :
  0 <= h < 24 -> 0 <= m < 60 -> 0 <= h' -> 0 <= m' -> d < d' -> at_minute off d h m < at_minute off d' h' m'.
Proof. intros. unfold at_minute, Second. nia. Qed.

Lemma on_schedule_intro off hour min now day days :
  0 <= hour < 24 -> 0 <= min < 60 ->
  now < at_minute off day hour min <= now + days * 24 * Hour ->
  on_schedule off hour min now (at_minute off day hour min) days.
Proof.
  intros Hh Hm Hn. destruct (at_minute_clock off day hour min Hh Hm) as (? & ? & _).
  unfold on_schedule. auto.
Qed.

Lemma daily_occurrence off hour min now :
  0 <= hour < 24 -> 0 <= min < 60 ->
  let D := wall_day (fixed_zone off) now in
  on_schedule off hour min now
    (if Before (at_minute off D hour min) now || (at_minute off D hour min =? now)
     then Add (at_minute off D hour min) (24 * Hour) else at_minute off D hour min) 1.
Proof.
  intros Hh Hm D. pose proof (now_in_day off now) as Hn. fold D in Hn.
  destruct (Before _ _ || _) eqn:Hp.
  - change (24 * Hour) with (1 * 24 * Hour). rewrite at_minute_add.
    apply on_schedule_intro; [done | done |]. apply orb_true_iff in Hp.
    assert (Hle : at_minute off D hour min <= now).
    { destruct Hp as [Hp|Hp]; [apply Z.ltb_lt in Hp | apply Z.eqb_eq in Hp]; lia. }
    unfold at_minute, Hour, Second in *. nia.
  - apply on_schedule_intro; [done | done |]. apply orb_false_iff in Hp as [Hp1 Hp2].
    apply Z.ltb_ge in Hp1. apply Z.eqb_neq in Hp2. unfold at_minute, Hour, Second in *. nia.
Qed.

(** Days until the next [w], as the code computes it. *)
Lemma days_until w wd :
  0 <= w < 7 -> 0 <= wd < 7 ->
  Z.rem (wrap64 (wrap64 (w - wd) + 7)) 7 = (w - wd) mod 7.
Proof.
  intros Hw Hwd. rewrite (wrap64_id (w - wd)) by (unfold in_int64, int64_min, int64_max; lia).
  rewrite wrap64_id by (unfold in_int64, int64_min, int64_max; lia).
  rewrite Z.rem_mod_nonneg by lia. Z.to_euclidean_division_equations; lia.
Qed.

Lemma weekly_occurrence off hour min now w :
  0 <= hour < 24 -> 0 <= min < 60 -> 0 <= w < 7 ->
  let D := wall_day (fixed_zone off) now in
  let next := at_minute off D hour min in
  let k := (w - (D + 1) mod 7) mod 7 in
  let k := if (k =? 0) && (Before next now || (next =? now)) then 7 else k in
  on_schedule off hour min now (Add next (k * 24 * Hour)) 7 /\
  Weekday (fixed_zone off) (Add next (k * 24 * Hour)) = w.
Proof.
  intros Hh Hm Hw D next k0 k. pose proof (now_in_day off now) as Hn. fold D in Hn.
  assert (Hk : 0 <= k <= 7 /\ (D + k + 1) mod 7 = w /\ (k = 0 -> now < next) /\ (k = 7 -> next <= now)).
  { unfold k, k0. destruct (Z.eqb_spec ((w - (D + 1) mod 7) mod 7) 0) as [Hz|Hz]; simpl.
    - destruct (Before next now || (next =? now)) eqn:Hp.
      + split_and!; [lia | lia | | lia |].
        * Z.to_euclidean_division_equations; lia.
        * intros _. apply orb_true_iff in Hp as [Hp|Hp];
            [apply Z.ltb_lt in Hp | apply Z.eqb_eq in Hp]; lia.
      + apply orb_false_iff in Hp as [Hp1 Hp2]. apply Z.ltb_ge in Hp1. apply Z.eqb_neq in Hp2.
        rewrite Hz. split_and!; [lia | lia | | lia | lia].
        Z.to_euclidean_division_equations; lia.
    - split_and!; Z.to_euclidean_division_equations; lia. }
  destruct Hk as (Hk & Hwk & H0 & H7). unfold next. rewrite at_minute_add. split.
  - apply on_schedule_intro; [done | done |]. fold next in H0, H7.
    unfold next, at_minute, Hour, Second in *. nia.
  - unfold Weekday. destruct (at_minute_clock off (D + k) hour min Hh Hm) as (_ & _ & _ & -> & _).
    exact Hwk.
Qed.

(** The date of now. *)
Lemma today off now y m d :
  DateOf (fixed_zone off) now = (y, m, d) ->
  1 <= m <= 12 /\ 1 <= d <= days_in_month y m /\ wall_day (fixed_zone off) now = day_of_date y m d.
Proof.
  unfold DateOf. intros Hd. pose proof (date_of_day_spec (wall_day (fixed_zone off) now)) as Hs.
  rewrite Hd in Hs. destruct Hs as (? & ? & ?). auto.
Qed.

Lemma monthly_occurrence off hour min now y m d dom :
  0 <= hour < 24 -> 0 <= min < 60 -> 1 <= dom <= 31 ->
  DateOf (fixed_zone off) now = (y, m, d) ->
  let next := at_minute off (day_of_date y m dom) hour min in
  let next' := if Before next now || (next =? now) then AddDate (fixed_zone off) next 0 1 0 else next in
  on_schedule off hour min now next' 62 /\
  (dom <= 28 -> exists y' m', DateOf (fixed_zone off) next' = (y', m', dom)).
Proof.
  intros Hh Hm Hdom Hdate next. destruct (today off now y m d Hdate) as (Hmr & Hd & HD).
  pose proof (days_in_month_range y m Hmr) as Hlen. pose proof (now_in_day off now) as Hn.
  cbv zeta in Hn. rewrite HD in Hn.
  destruct (at_minute_clock off (day_of_date y m dom) hour min Hh Hm) as (Hch & Hcm & Hcs & Hcd & Hcn).
  fold next in Hch, Hcm, Hcs, Hcd, Hcn.
  destruct (Before next now || (next =? now)) eqn:Hp.
  - assert (Hle : next <= now).
    { apply orb_true_iff in Hp as [Hp|Hp]; [apply Z.ltb_lt in Hp | apply Z.eqb_eq in Hp]; lia. }
    assert (Hdd : dom <= d).
    { rewrite !day_of_date_in_range in * by done. unfold next in Hle.
      rewrite day_of_date_in_range in Hle by done. unfold at_minute, Second in *. nia. }
    unfold AddDate. unfold DateOf. rewrite Hcd, date_of_day_of_date by lia.
    rewrite Hch, Hcm, Hcs, Hcn. replace (y + 0) with y by lia. replace (dom + 0) with dom by lia.
    rewrite Date_at_minute. split.
    + apply on_schedule_intro; [done | done |].
      rewrite day_of_date_in_range in Hn by done. rewrite day_of_date_next_month by done.
      unfold days_in_month in *. unfold at_minute, Hour, Second in *. nia.
    + intros H28. destruct (at_minute_clock off (day_of_date y (m + 1) dom) hour min Hh Hm) as (_ & _ & _ & -> & _).
      apply date_of_next_month; lia.
  - apply orb_false_iff in Hp as [Hp1 Hp2]. apply Z.ltb_ge in Hp1. apply Z.eqb_neq in Hp2. split.
    + apply on_schedule_intro; [done | done |]. fold next.
      rewrite day_of_date_in_range in Hn by done. unfold next in *.
      rewrite day_of_date_in_range in * by done. unfold at_minute, Hour, Second in *. nia.
    + intros H28. exists y, m. unfold DateOf. rewrite Hcd. apply date_of_day_of_date; lia.
Qed.

Lemma next_run_kept s off hour min now :
  valid_schedule s off hour min -> frequency_kept s off hour min now (calculateNextRun s now).
Proof.
  intros [Hloc Htime Hh Hm Hw Hdom]. unfold frequency_kept, calculateNextRun, next_run.
  rewrite Htime, Hloc. destruct (DateOf (fixed_zone off) now) as [[y m] d] eqn:Hdate.
  destruct (today off now y m d Hdate) as (_ & _ & HD).
  repeat match goal with |- context [String.eqb ?a ?b] => destruct (String.eqb a b) end.
  - rewrite Date_at_minute, <- HD. by apply daily_occurrence.
  - rewrite Date_at_minute, <- HD.
    destruct (at_minute_clock off (wall_day (fixed_zone off) now) hour min Hh Hm) as (_ & _ & _ & Hday & _).
    assert (HW : Weekday (fixed_zone off) (at_minute off (wall_day (fixed_zone off) now) hour min) =
                 (wall_day (fixed_zone off) now + 1) mod 7) by (unfold Weekday; by rewrite Hday).
    rewrite HW, days_until; [|done | apply Z.mod_pos_bound; lia].
    pose proof (Z.mod_pos_bound (DayOfWeek s - (wall_day (fixed_zone off) now + 1) mod 7) 7 ltac:(lia)).
    rewrite day_hours_id by (destruct (_ && _); lia).
    by apply weekly_occurrence.
  - rewrite Date_at_minute. by apply monthly_occurrence with (d := d).
  - reflexivity.
Qed.

Lemma frequency_kept_future s off hour min now next :
  frequency_kept s off hour min now next -> now < next.
Proof.
  unfold frequency_kept, on_schedule, Hour.
  repeat match goal with |- context [String.eqb ?a ?b] => destruct (String.eqb a b) end; lia.
Qed.

(** ** Properties *)

(** For a schedule whose fields are in range, in a zone without offset changes, the
    next run is strictly in the future, at the hour and minute asked for: within a day
    for a daily schedule; within a week and on the day asked for when it is weekly;
    within 62 days when it is monthly, on the day asked for when every month has it. *)
Theorem next_run_on_schedule s off hour min now :
  valid_schedule s off hour min -> frequency_kept s off hour min now (calculateNextRun s now).
Proof. apply next_run_kept. Qed.

End NextRun.

(** ** Runs *)

Definition schedule (freq : string) (dow dom : Z) (time zone : string) : ReportSchedule :=
  {| ScheduleID := 1; ReportID := 1; Enabled := true; Frequency := freq; DayOfWeek := dow;
     DayOfMonth := dom; TimeOfDay := time; Timezone := zone; NextRunAt := zero_time;
     LastRunID := None; FailureCount := 0 |}.

(** An instant in UTC. *)
Definition utc (y m d hour min : Z) : Time := at_minute 0 (day_of_date y m d) hour min.

Lemma next_run_on_schedule_witness :
  let s := schedule "weekly" 1 1 "09:30" "" in
  frequency_kept s 0 9 30 (utc 2025 6 2 9 30) (calculateNextRun s (utc 2025 6 2 9 30)) /\
  calculateNextRun s (utc 2025 6 2 9 30) = utc 2025 6 9 9 30.
Proof.
  cbv zeta. split; [|vm_compute; reflexivity].
  apply (next_run_on_schedule (schedule "weekly" 1 1 "09:30" "") 0 9 30).
  constructor; try (vm_compute; reflexivity); simpl; lia.
Defined.

(** A report of day 31 that has just run in March runs next on May 1: the time in
    April overflows, and April 30 is passed over. *)
Lemma day_31_skips_april :
  calculateNextRun (schedule "monthly" 0 31 "09:00" "") (utc 2025 3 31 9 0) = utc 2025 5 1 9 0.
Proof. vm_compute. reflexivity. Qed.

(** A monthly schedule without a day of the month ([0]) counts from the last day of
    the month before: at the end of March it has no next run in the future, and is due
    at every check. *)
Lemma no_day_of_month_is_due_again :
  Before (calculateNextRun (schedule "monthly" 0 0 "09:00" "") (utc 2025 3 30 12 0))
    (utc 2025 3 30 12 0) = true.
Proof. vm_compute. reflexivity. Qed.

(** Central Europe around the end of summer time in 2025, October 26, 01:00 UTC. *)
Definition cet_2025 : Location :=
  {| zone_at u := if u <? 1761440400
       then {| zone_offset := 7200; zone_start := 1743296400; zone_end := 1761440400 |}
       else {| zone_offset := 3600; zone_start := 1761440400; zone_end := 1774746000 |} |}.

Definition cet_database : TzDatabase :=
  {| LoadLocation name := if String.eqb name "Europe/Berlin" then Some cet_2025 else None |}.

(** On the day of 25 hours the occurrence 24 hours after 00:15 is 23:15 of the same
    day. From then to midnight the next run of a daily report at 00:15 is in the past,
    and every check runs it again. *)
Lemma long_day_runs_twice :
  let s := schedule "daily" 0 0 "00:15" "Europe/Berlin" in
  let now := utc 2025 10 26 22 45 in
  clock_hour cet_2025 now = 23 /\
  @calculateNextRun cet_database s now = utc 2025 10 26 22 15.
Proof. vm_compute. done. Qed.
