(* ===== verification/ReportRuns.v ===== *)
(** * Running scheduled reports ([server/reports/scheduler.go]: [checkAndRun],
    [runSchedule], [RunNow], [calculateTimeRange]) over the schedule table
    ([server/storage/base_reports.go]).

    The generator, the formatter, the clock and the tables are operations of an
    environment; every call is recorded. *)
From stdpp Require Import sorting.
From S2P Require Import Prelude GoStrings GoTime GoNet GoFloat Effects ReportSchedule.
From Stdlib Require Import Ascii.

Open Scope string_scope.
Open Scope Z_scope.

(** ** Data

    The fields that a run reads or writes; columns, filters and recipients only pass
    through to the generator. *)

Record ReportDefinition := {
  DefinitionID : Z;
  DefinitionName : string;
  Format : string;
  TimeRangeType : string;
  TimeRangeDays : Z;
  TimeRangeStart : string;
  TimeRangeEnd : string;
}.

Definition ReportStatusRunning := "running".
Definition ReportStatusCompleted := "completed".
Definition ReportStatusFailed := "failed".

Record ReportRun := {
  RunID : Z;
  RunReportID : Z;
  RunScheduleID : option Z;
  Status : string;
  RunFormat : string;
  StartedAt : Time;
  CompletedAt : option Time;
  DurationMS : Z;
  RowCount : Z;
  ResultSize : Z;
  ResultData : string;
  ErrorMessage : string;
  RunBy : string;
}.

(** ** The time range *)

(** [time.Parse("2006-01-02", s)]: four, two and two digits, and a date that exists. *)
Definition parse_date (s : string) : option Time :=
  match s with
  | String a (String b (String c (String e (String "-" (String f (String g (String "-"
      (String h (String i EmptyString))))))))) =>
      match decimal (String a (String b (String c (String e "")))),
            decimal (String f (String g "")), decimal (String h (String i "")) with
      | Some y, Some m, Some d =>
          if (1 <=? m) && (m <=? 12) && (1 <=? d) && (d <=? days_in_month y m)
          then Some (day_of_date y m d * 86400 * Second) else None
      | _, _, _ => None
      end
  | _ => None
  end.

(** [now.Add(-time.Duration(days) * 24 * time.Hour)] *)
Definition days_ago (now : Time) (days : Z) : Time := Add now (day_hours (wrap64 (- days))).

Definition calculateTimeRange (r : ReportDefinition) (now : Time) : Time * Time :=
  let ty := TimeRangeType r in
  if String.eqb ty "current" then (now, now)
  else if String.eqb ty "last_24h" then (days_ago now 1, now)
  else if String.eqb ty "last_7d" then (days_ago now 7, now)
  else if String.eqb ty "last_30d" then (days_ago now 30, now)
  else if String.eqb ty "last_90d" then (days_ago now 90, now)
  else if String.eqb ty "custom" then
    if 0 <? TimeRangeDays r then (days_ago now (TimeRangeDays r), now)
    else if negb (String.eqb (TimeRangeStart r) "") && negb (String.eqb (TimeRangeEnd r) "") then
      match parse_date (TimeRangeStart r), parse_date (TimeRangeEnd r) with
      | Some start, Some finish => (start, finish)
      | _, _ => (days_ago now 30, now)
      end
    else (days_ago now 30, now)
  else (days_ago now 30, now).

(** ** The environment *)

(** What the generator returns and the formatters take. *)
Record GenerateResult := { Rows : string; ResultRows : Z }.

Inductive Call :=
| CNow (t : Time)
| CGetDueSchedules (before : Time) (r : result string (list ReportSchedule))
| CGetReport (id : Z) (r : result string (option ReportDefinition))
| CCreateReportRun (run : ReportRun) (r : result string Z)
| CGenerate (r : result string GenerateResult)
| CUpdateReportRun (run : ReportRun) (r : result string unit)
| CUpdateScheduleAfterRun (schedule run : Z) (nextRun : Time) (failed : bool) (r : result string unit).

Section Scheduler.
Context `{TzDatabase} {W : Type}.
Variable Now : W -> Time * W.
Variable GetDueSchedules : Time -> W -> result string (list ReportSchedule) * W.
Variable GetReport : Z -> W -> result string (option ReportDefinition) * W.
Variable CreateReportRun : ReportRun -> W -> result string Z * W.
Variable Generate : ReportDefinition -> Time * Time -> W -> result string GenerateResult * W.
Variable UpdateReportRun : ReportRun -> W -> result string unit * W.
Variable UpdateScheduleAfterRun : Z -> Z -> Time -> bool -> W -> result string unit * W.
Variable FormatJSON FormatCSV : GenerateResult -> result string string.
Variable FormatHTML : GenerateResult -> string -> result string string.

Definition now : M Call W Time := call CNow Now.
Definition get_report id := call (CGetReport id) (GetReport id).
Definition create_run run := call (CCreateReportRun run) (CreateReportRun run).
Definition generate report range := call CGenerate (Generate report range).
Definition update_run run := call (CUpdateReportRun run) (UpdateReportRun run).
Definition update_schedule sid rid next failed :=
  call (CUpdateScheduleAfterRun sid rid next failed) (UpdateScheduleAfterRun sid rid next failed).

(** ** One run *)

Definition new_run (report : ReportDefinition) (sid : option Z) (started : Time) (by_ : string) : ReportRun :=
  {| RunID := 0; RunReportID := DefinitionID report; RunScheduleID := sid;
     Status := ReportStatusRunning; RunFormat := Format report; StartedAt := started;
     CompletedAt := None; DurationMS := 0; RowCount := 0; ResultSize := 0; ResultData := "";
     ErrorMessage := ""; RunBy := by_ |}.

(** [CreateReportRun] sets the ID of the record. *)
Definition with_id (id : Z) (r : ReportRun) : ReportRun :=
  {| RunID := id; RunReportID := RunReportID r; RunScheduleID := RunScheduleID r;
     Status := Status r; RunFormat := RunFormat r; StartedAt := StartedAt r;
     CompletedAt := CompletedAt r; DurationMS := DurationMS r; RowCount := RowCount r;
     ResultSize := ResultSize r; ResultData := ResultData r; ErrorMessage := ErrorMessage r;
     RunBy := RunBy r |}.

Definition failed_run (t : Time) (message : string) (r : ReportRun) : ReportRun :=
  {| RunID := RunID r; RunReportID := RunReportID r; RunScheduleID := RunScheduleID r;
     Status := ReportStatusFailed; RunFormat := RunFormat r; StartedAt := StartedAt r;
     CompletedAt := Some t; DurationMS := Milliseconds (Sub t (StartedAt r));
     RowCount := RowCount r; ResultSize := ResultSize r; ResultData := ResultData r;
     ErrorMessage := message; RunBy := RunBy r |}.

Definition completed_run (t : Time) (rows : Z) (data : string) (r : ReportRun) : ReportRun :=
  {| RunID := RunID r; RunReportID := RunReportID r; RunScheduleID := RunScheduleID r;
     Status := ReportStatusCompleted; RunFormat := RunFormat r; StartedAt := StartedAt r;
     CompletedAt := Some t; DurationMS := Milliseconds (Sub t (StartedAt r));
     RowCount := rows; ResultSize := Z.of_nat (String.length data); ResultData := data;
     ErrorMessage := ErrorMessage r; RunBy := RunBy r |}.

Definition format_result (report : ReportDefinition) (res : GenerateResult) : result string string :=
  if String.eqb (Format report) "csv" then FormatCSV res
  else if String.eqb (Format report) "html" then FormatHTML res (DefinitionName report)
  else FormatJSON res.

(** [nextRun := s.calculateNextRun(schedule)] reads the clock itself. *)
Definition advance (s : ReportSchedule) (run : Z) (failed : bool) : M Call W (result string unit) :=
  t ← now; update_schedule (ScheduleID s) run (calculateNextRun s t) failed.

(** The failure of a step after the run was created: both updates are attempted, and
    their errors are dropped. *)
Definition fail_run (s : ReportSchedule) (run : ReportRun) (message err : string) : M Call W (option string) :=
  t ← now;
  _ ← update_run (failed_run t message run);
  _ ← advance s (RunID run) true;
  mret (Some err).

(** The error of the run, if any. *)
Definition runSchedule (s : ReportSchedule) : M Call W (option string) :=
  r ← get_report (ReportID s);
  match r with
  | Err e => mret (Some ("get report: " +:+ e))
  | Ok None => mret (Some ("report " +:+ pretty (ReportID s) +:+ " not found"))
  | Ok (Some report) =>
      started ← now;
      let run := new_run report (Some (ScheduleID s)) started "scheduler" in
      c ← create_run run;
      match c with
      | Err e => mret (Some ("create run: " +:+ e))
      | Ok id =>
          let run := with_id id run in
          t0 ← now;
          g ← generate report (calculateTimeRange report t0);
          match g with
          | Err e => fail_run s run e ("generate report: " +:+ e)
          | Ok res =>
              match format_result report res with
              | Err e => fail_run s run ("format error: " +:+ e) ("format report: " +:+ e)
              | Ok data =>
                  t ← now;
                  u ← update_run (completed_run t (ResultRows res) data run);
                  match u with
                  | Err e => mret (Some ("update run: " +:+ e))
                  | Ok _ =>
                      a ← advance s id false;
                      match a with
                      | Err e => mret (Some ("update schedule: " +:+ e))
                      | Ok _ => mret None
                      end
                  end
              end
          end
      end
  end.

(** The errors are logged. *)
Definition checkAndRun : M Call W unit :=
  t ← now;
  due ← call (CGetDueSchedules t) (GetDueSchedules t);
  match due with
  | Err _ => mret tt
  | Ok schedules => for_each schedules (fun s => _ ← runSchedule s; mret tt)
  end.

(** An immediate run has no schedule: the run record and the error. *)
Definition RunNow (reportID : Z) (runBy : string) : M Call W (option ReportRun * option string) :=
  r ← get_report reportID;
  match r with
  | Err e => mret (None, Some ("get report: " +:+ e))
  | Ok None => mret (None, Some ("report " +:+ pretty reportID +:+ " not found"))
  | Ok (Some report) =>
      started ← now;
      let run := new_run report None started runBy in
      c ← create_run run;
      match c with
      | Err e => mret (None, Some ("create run: " +:+ e))
      | Ok id =>
          let run := with_id id run in
          t0 ← now;
          g ← generate report (calculateTimeRange report t0);
          match g with
          | Err e =>
              t ← now;
              _ ← update_run (failed_run t e run);
              mret (Some (failed_run t e run), Some ("generate: " +:+ e))
          | Ok res =>
              match format_result report res with
              | Err e =>
                  t ← now;
                  _ ← update_run (failed_run t ("format error: " +:+ e) run);
                  mret (Some (failed_run t ("format error: " +:+ e) run), Some ("format: " +:+ e))
              | Ok data =>
                  t ← now;
                  u ← update_run (completed_run t (ResultRows res) data run);
                  match u with
                  | Err e => mret (Some (completed_run t (ResultRows res) data run), Some ("update run: " +:+ e))
                  | Ok _ => mret (Some (completed_run t (ResultRows res) data run), None)
                  end
              end
          end
      end
  end.

(** ** What a run leaves in the history *)

Definition creations (h : list Call) : list Z :=
  omap (fun c => match c with CCreateReportRun _ (Ok id) => Some id | _ => None end) h.
Definition run_updates (h : list Call) : list (ReportRun * result string unit) :=
  omap (fun c => match c with CUpdateReportRun run r => Some (run, r) | _ => None end) h.
Definition schedule_updates (h : list Call) : list (Z * Z * Time * bool) :=
  omap (fun c => match c with
                 | CUpdateScheduleAfterRun sid rid next failed _ => Some (sid, rid, next, failed)
                 | _ => None end) h.

Definition terminal (run : ReportRun) : Prop :=
  is_Some (CompletedAt run) /\
  (Status run = ReportStatusFailed \/ Status run = ReportStatusCompleted /\ ErrorMessage run = "").

(** Either no run was created, nothing was updated and there is an error; or one run
    was created, its record was brought to a terminal state once, and the schedule was
    moved once to the run that follows a reading of the clock; only a completed run
    whose update failed leaves the schedule where it was, with an error. *)
Definition accounted (s : ReportSchedule) (h : list Call) (err : option string) : Prop :=
  match creations h with
  | [] => run_updates h = [] /\ schedule_updates h = [] /\ is_Some err
  | [id] => exists run r, run_updates h = [(run, r)] /\ RunID run = id /\ terminal run /\
      ((exists t, CNow t ∈ h /\ schedule_updates h =
          [(ScheduleID s, id, calculateNextRun s t, bool_decide (Status run = ReportStatusFailed))]) \/
       Status run = ReportStatusCompleted /\ is_ok r = false /\ schedule_updates h = [] /\ is_Some err)
  | _ => False
  end.

Lemma runSchedule_accounted s :
  Spec (fun _ _ => True) [] (runSchedule s) (accounted s).
Proof.
  unfold runSchedule, fail_run, advance, now, get_report, create_run, generate, update_run, update_schedule.
  repeat (spec_step || (intros; exact I)).
  all: unfold accounted; cbn [app creations run_updates schedule_updates omap list_omap].
  all: try (split_and!; [done | done | by eexists]).
  all: do 2 eexists; split; [reflexivity|]; split; [reflexivity|].
  3: { split; [|right; split_and!; [done | done | done | by eexists]]. split; [by eexists | by right]. }
  all: split; [split; [by eexists | (by left) || by right]|].
  all: left; eexists; split; [|reflexivity]; set_solver.
Qed.

(** What [RunNow] returns is the record that it stored last. *)
Definition run_now_accounted (h : list Call) (v : option ReportRun * option string) : Prop :=
  schedule_updates h = [] /\
  match creations h with
  | [] => run_updates h = [] /\ v.1 = None /\ is_Some v.2
  | [id] => exists run r, run_updates h = [(run, r)] /\ v.1 = Some run /\ RunID run = id /\ terminal run /\
      (v.2 = None <-> Status run = ReportStatusCompleted /\ is_ok r = true)
  | _ => False
  end.

Lemma RunNow_spec reportID runBy :
  Spec (fun _ _ => True) [] (RunNow reportID runBy) run_now_accounted.
Proof.
  unfold RunNow, now, get_report, create_run, generate, update_run.
  repeat (spec_step || (intros; exact I)).
  all: unfold run_now_accounted; cbn [app creations run_updates schedule_updates omap list_omap fst snd];
    split; [done|].
  all: try (split_and!; [done | done | by eexists]).
  all: do 2 eexists; do 3 (split; [reflexivity|]);
    (split; [split; [by eexists | (by left) || by right]|]); cbn; naive_solver.
Qed.

(** ** Properties *)

(** However the tables, the clock and the generator behave, a scheduled run is
    accounted for: if no run record is created there is an error and nothing else is
    written; otherwise exactly one record is created, it is brought to a terminal
    state exactly once, and the schedule is moved exactly once, to the run after a
    reading of the clock, and counted as failed exactly when the run is; only when the
    update of a completed run fails does the schedule stay, with an error. *)
Theorem scheduled_run_accounted s w :
  accounted s (trace (runSchedule s) w) (value (runSchedule s) w).
Proof. exact (proj2 (runSchedule_accounted s w)). Qed.

(** An immediate run returns the record that it stored last, in a terminal state,
    never touches a schedule, and has no error exactly when it completed and the
    update succeeded. *)
Theorem immediate_run_accounted reportID runBy w :
  run_now_accounted (trace (RunNow reportID runBy) w) (value (RunNow reportID runBy) w).
Proof. exact (proj2 (RunNow_spec reportID runBy w)). Qed.

End Scheduler.

(** ** The scheduler over the schedule table

    The tables answer as the SQL of [base_reports.go] does, and their updates succeed;
    the report of a schedule may be missing; a run takes the time [tick] between two
    readings of the clock, and the generator and the formatters answer anything. *)

Record World := {
  schedules : gmap Z ReportSchedule;
  clock : Time;
  next_run_id : Z;
}.

Definition due (t : Time) (s : ReportSchedule) : bool := Enabled s && (NextRunAt s <=? t).

Definition earlier (s1 s2 : ReportSchedule) : Prop := NextRunAt s1 <= NextRunAt s2.

#[export] Instance earlier_dec : RelDecision earlier.
Proof. intros s1 s2. apply Z.le_dec. Defined.

(** [WHERE enabled = true AND next_run_at <= ? ORDER BY next_run_at] *)
Definition due_schedules (t : Time) (w : World) : list ReportSchedule :=
  merge_sort earlier (List.filter (due t) (map_to_list (schedules w)).*2).

(** [UPDATE report_schedules SET last_run_id, next_run_at, failure_count] *)
Definition after_run (run : Z) (next : Time) (failed : bool) (s : ReportSchedule) : ReportSchedule :=
  {| ScheduleID := ScheduleID s; ReportID := ReportID s; Enabled := Enabled s;
     Frequency := Frequency s; DayOfWeek := DayOfWeek s; DayOfMonth := DayOfMonth s;
     TimeOfDay := TimeOfDay s; Timezone := Timezone s; NextRunAt := next;
     LastRunID := Some run; FailureCount := if failed then FailureCount s + 1 else 0 |}.

Section Table.
Context `{TzDatabase}.
Variable tick : Duration.
Hypothesis tick_nonneg : 0 <= tick.
Variable report : Z -> option ReportDefinition.
Variable gen : ReportDefinition -> Time * Time -> result string GenerateResult.
Variable json csv : GenerateResult -> result string string.
Variable html : GenerateResult -> string -> result string string.

Definition table_now (w : World) : Time * World :=
  (clock w, {| schedules := schedules w; clock := clock w + tick; next_run_id := next_run_id w |}).
Definition table_due (t : Time) (w : World) : result string (list ReportSchedule) * World :=
  (Ok (due_schedules t w), w).
Definition table_report (id : Z) (w : World) : result string (option ReportDefinition) * World :=
  (Ok (report id), w).
Definition table_create (_ : ReportRun) (w : World) : result string Z * World :=
  (Ok (next_run_id w),
   {| schedules := schedules w; clock := clock w; next_run_id := next_run_id w + 1 |}).
Definition table_generate (r : ReportDefinition) (range : Time * Time) (w : World)
    : result string GenerateResult * World := (gen r range, w).
Definition table_update_run (_ : ReportRun) (w : World) : result string unit * World := (Ok tt, w).
Definition table_update_schedule (sid run : Z) (next : Time) (failed : bool) (w : World)
    : result string unit * World :=
  (Ok tt, {| schedules := alter (after_run run next failed) sid (schedules w); clock := clock w;
             next_run_id := next_run_id w |}).

Definition table_run (s : ReportSchedule) : M Call World (option string) :=
  runSchedule table_now table_report table_create table_generate table_update_run
    table_update_schedule json csv html s.
Definition table_check : M Call World unit :=
  checkAndRun table_now table_due table_report table_create table_generate table_update_run
    table_update_schedule json csv html.

(** The report of the schedule is there. *)
Definition has_report (s : ReportSchedule) : bool :=
  match report (ReportID s) with Some _ => true | None => false end.

(** Without its report a run does nothing. *)
Lemma table_run_missing s w : has_report s = false -> final (table_run s) w = w.
Proof.
  unfold has_report, table_run, runSchedule, get_report, final, mbind, M_bind, call, mret, M_ret, table_report.
  by destruct (report (ReportID s)).
Qed.

(** One run moves its schedule past the time it started at and leaves the others. *)
Lemma table_run_effect s w :
  has_report s = true ->
  exists t failed, clock w <= t /\ clock w <= clock (final (table_run s) w) /\
    next_run_id (final (table_run s) w) = next_run_id w + 1 /\
    schedules (final (table_run s) w) =
      alter (after_run (next_run_id w) (calculateNextRun s t) failed) (ScheduleID s) (schedules w).
Proof.
  unfold has_report, table_run, runSchedule, fail_run, advance, now, get_report, create_run, generate,
    update_run, update_schedule, final, mbind, M_bind, call, mret, M_ret, table_report. cbn.
  destruct (report (ReportID s)) as [r|]; [intros _|done]. cbn.
  destruct (gen _ _) as [res|e]; cbn; [destruct (format_result _ _ _ _ _) as [data|e]; cbn|];
    do 2 eexists; (split; [|split; [|split; [reflexivity | reflexivity]]]); cbn; lia.
Qed.

(** The table of the schedules by their identifiers, each in range. *)
Definition table_ok (w : World) : Prop :=
  forall id s, schedules w !! id = Some s ->
    ScheduleID s = id /\ exists off hour min, valid_schedule s off hour min.

Lemma due_schedules_elem w t s :
  table_ok w -> s ∈ due_schedules t w <-> schedules w !! ScheduleID s = Some s /\ due t s = true.
Proof.
  intros Hok. unfold due_schedules. rewrite merge_sort_Permutation.
  rewrite list_elem_of_In, filter_In, <- list_elem_of_In, list_elem_of_fmap.
  split.
  - intros [([id s'] & -> & Hin%elem_of_map_to_list) Hd]. simpl in *.
    by destruct (Hok id s' Hin) as [<- _].
  - intros [Hs Hd]. split; [|done]. exists (ScheduleID s, s). split; [done|].
    by apply elem_of_map_to_list.
Qed.

Lemma due_schedules_NoDup w t : table_ok w -> NoDup (map ScheduleID (due_schedules t w)).
Proof.
  intros Hok. unfold due_schedules. rewrite merge_sort_Permutation.
  assert (Hnd : NoDup (map ScheduleID (map_to_list (schedules w)).*2)).
  { rewrite <- list_fmap_compose. apply NoDup_fmap_2_strong; [|apply NoDup_map_to_list].
    intros [i s1] [j s2] Hi%elem_of_map_to_list Hj%elem_of_map_to_list. simpl. intros He.
    destruct (Hok i s1 Hi) as [<- _], (Hok j s2 Hj) as [<- _]. rewrite He, Hj in Hi. congruence. }
  revert Hnd. induction (map_to_list (schedules w)).*2 as [|s l IH]; intros Hnd; [constructor|].
  simpl in *. apply NoDup_cons in Hnd as [Hni Hnd]. destruct (due t s); [|by apply IH].
  simpl. apply NoDup_cons. split; [|by apply IH]. intros (s' & He & Hin)%list_elem_of_fmap.
  apply Hni. rewrite He. apply list_elem_of_fmap. exists s'. split; [done|].
  by apply list_elem_of_In, filter_In, proj1, list_elem_of_In in Hin.
Qed.

(** A pass over [l] gives every schedule of it that has its report a next run after the
    start. *)
Lemma pass_effect l w :
  NoDup (map ScheduleID l) ->
  (forall s, s ∈ l -> schedules w !! ScheduleID s = Some s /\ exists off hour min, valid_schedule s off hour min) ->
  let w' := final (for_each l (fun s => _ ← table_run s; mret tt)) w in
  next_run_id w' = next_run_id w + Z.of_nat (length (List.filter has_report l)) /\
  (forall id, id ∉ map ScheduleID (List.filter has_report l) -> schedules w' !! id = schedules w !! id) /\
  (forall s, s ∈ l -> has_report s = true ->
     exists s', schedules w' !! ScheduleID s = Some s' /\ clock w < NextRunAt s').
Proof.
  revert w. induction l as [|s l IH]; intros w Hnd Hl; cbv zeta.
  { change (final _ w) with w. split_and!; [cbn [length List.filter]; lia | done | by intros s []%not_elem_of_nil]. }
  simpl in Hnd. apply NoDup_cons in Hnd as [Hni Hnd]. cbn [for_each List.filter].
  rewrite final_bind, final_bind. destruct (has_report s) eqn:Hrep.
  2: { rewrite (table_run_missing s w Hrep). change (final (mret tt) w) with w.
    destruct (IH w Hnd) as (Hn & Hout & Hin); [intros s' Hs'; apply Hl; by right|]. split_and!; [done | done|].
    intros s' [->|Hs']%elem_of_cons Hr; [congruence | by apply Hin]. }
  destruct (table_run_effect s w Hrep) as (t & failed & Ht & Hclock & Hid & Hs).
  set (w1 := final (table_run s) w) in *. change (final (mret tt) w1) with w1.
  assert (Hkeep : forall id, id <> ScheduleID s -> schedules w1 !! id = schedules w !! id).
  { intros id Hne. rewrite Hs. by apply lookup_alter_ne. }
  destruct (IH w1 Hnd) as (Hn & Hout & Hin).
  { intros s' Hs'. destruct (Hl s' ltac:(by right)) as [Hlk Hv]. split; [|done].
    rewrite Hkeep; [done|]. intros He. apply Hni. rewrite <- He. by apply list_elem_of_fmap_2. }
  assert (Hns : ScheduleID s ∉ map ScheduleID (List.filter has_report l)).
  { intros (s' & He & Hs'%list_elem_of_In%filter_In)%list_elem_of_fmap. apply Hni. rewrite He.
    apply list_elem_of_fmap_2, list_elem_of_In. tauto. }
  split_and!.
  - rewrite Hn, Hid. cbn [length]. lia.
  - intros id Hid'. cbn [map] in Hid'. apply not_elem_of_cons in Hid' as [Hne Hid'].
    rewrite Hout by done. by apply Hkeep.
  - intros s' [->|Hs']%elem_of_cons Hr.
    + destruct (Hl s ltac:(left)) as [Hlk (off & hour & min & Hv)]. rewrite Hout by done.
      rewrite Hs, lookup_alter_eq, Hlk. eexists. split; [reflexivity|]. cbn [after_run NextRunAt].
      pose proof (frequency_kept_future _ _ _ _ _ _ (next_run_kept s off hour min t Hv)). lia.
    + destruct (Hin s' Hs' Hr) as (s2 & H2 & Hlt). exists s2. split; [done | lia].
Qed.

(** The check is a pass over the due schedules. *)
Lemma table_check_pass w :
  final table_check w = final (for_each (due_schedules (clock w) w) (fun s => _ ← table_run s; mret tt)) (table_now w).2.
Proof.
  unfold table_check, checkAndRun, now. rewrite final_call. cbn [table_now fst snd].
  rewrite final_call. reflexivity.
Qed.

Lemma filtered_elem w t s :
  table_ok w -> s ∈ List.filter has_report (due_schedules t w) <->
  schedules w !! ScheduleID s = Some s /\ due t s = true /\ has_report s = true.
Proof.
  intros Hok. rewrite list_elem_of_In, filter_In, <- list_elem_of_In, due_schedules_elem by done. tauto.
Qed.

(** C31: On tables whose updates succeed and whose schedules are in range, one check starts
    exactly one run for each schedule that is due and has its report, and changes no other
    schedule. Afterwards a schedule is due at the time of the check only if it was and its
    report is missing: no occurrence is run twice, however long the runs take and whether
    or not the generator and the formatter succeed, and a schedule whose report is gone
    stays due. *)
Theorem check_clears_due w :
  table_ok w ->
  let w' := final table_check w in
  let run s := due (clock w) s && has_report s in
  next_run_id w' = next_run_id w + Z.of_nat (length (List.filter has_report (due_schedules (clock w) w))) /\
  (forall id s, schedules w !! id = Some s -> run s = false -> schedules w' !! id = Some s) /\
  (forall id s', schedules w' !! id = Some s' -> due (clock w) s' = true ->
     schedules w !! id = Some s' /\ report (ReportID s') = None).
Proof.
  intros Hok. cbv zeta. rewrite table_check_pass.
  destruct (pass_effect (due_schedules (clock w) w) (table_now w).2) as (Hn & Hout & Hin).
  { by apply due_schedules_NoDup. }
  { intros s Hs. apply due_schedules_elem in Hs as [Hs _]; [|done]. split; [done|]. by destruct (Hok _ _ Hs). }
  set (w' := final _ (table_now w).2) in *. change (schedules (table_now w).2) with (schedules w) in Hout.
  assert (Hkeep : forall id s, schedules w !! id = Some s -> due (clock w) s && has_report s = false ->
    schedules w' !! id = Some s).
  { intros id s Hs Hd. rewrite Hout; [done|]. intros (s' & -> & Hs')%list_elem_of_fmap.
    apply filtered_elem in Hs' as (Hs' & Hd' & Hr'); [|done]. rewrite Hs in Hs'. injection Hs' as <-.
    by rewrite Hd', Hr' in Hd. }
  split_and!; [done | done |]. intros id s' Hs' Hdue.
  destruct (schedules w !! id) as [s|] eqn:Hs.
  - destruct (due (clock w) s && has_report s) eqn:Hd.
    + apply andb_true_iff in Hd as [Hd Hr]. destruct (Hok id s Hs) as [He _]. exfalso.
      destruct (Hin s) as (s2 & H2 & Hlt); [by apply due_schedules_elem; rewrite ?He | done|].
      rewrite He, Hs' in H2. injection H2 as <-. cbn [clock table_now snd] in Hlt.
      apply andb_true_iff in Hdue as [_ Hle%Z.leb_le]. lia.
    + pose proof (Hkeep id s Hs Hd) as Hs2. rewrite Hs' in Hs2. injection Hs2 as ->. split; [done|].
      rewrite Hdue in Hd. unfold has_report in Hd. by destruct (report (ReportID s)).
  - rewrite Hout in Hs'; [congruence|].
    intros (s & -> & Hs2)%list_elem_of_fmap. apply filtered_elem in Hs2 as (Hs2 & _); [|done]. congruence.
Qed.

End Table.

(** ** Runs *)

(** Up to 106751 days the start of a range is that many days before its end. *)
Lemma days_ago_id t days : 0 <= days <= 106751 -> days_ago t days = t - days * 24 * Hour.
Proof.
  intros Hd. unfold days_ago, Add, day_hours, dmul, Hour.
  rewrite (wrap64_id (- days)) by (unfold in_int64, int64_min, int64_max; lia).
  rewrite (wrap64_id (- days * 24)) by (unfold in_int64, int64_min, int64_max; lia).
  rewrite wrap64_id by (unfold in_int64, int64_min, int64_max; lia). lia.
Qed.

(** One day more overflows, and the range starts in the future. *)
Lemma time_range_overflow t : t < days_ago t 106752.
Proof.
  unfold days_ago, Add.
  assert (Hd : 0 < day_hours (wrap64 (Z.opp 106752))) by (vm_compute; done). lia.
Qed.

(** A daily schedule that is due at the time of the check, one that is not, and one that
    is due but whose report has been deleted. *)
Definition report_world : World :=
  {| schedules := list_to_map
       [(1, schedule "daily" 0 1 "09:30" "");
        (2, after_run 0 (utc 2025 7 1 6 0) false
              {| ScheduleID := 2; ReportID := 7; Enabled := true; Frequency := "monthly";
                 DayOfWeek := 0; DayOfMonth := 1; TimeOfDay := "06:00"; Timezone := "";
                 NextRunAt := zero_time; LastRunID := None; FailureCount := 2 |});
        (3, {| ScheduleID := 3; ReportID := 7; Enabled := true; Frequency := "daily"; DayOfWeek := 0;
               DayOfMonth := 1; TimeOfDay := "09:30"; Timezone := ""; NextRunAt := zero_time;
               LastRunID := None; FailureCount := 0 |})];
     clock := utc 2025 6 2 9 30; next_run_id := 1 |}.

(** Report 7 has been deleted. *)
Definition fleet_report (id : Z) : option ReportDefinition :=
  if id =? 7 then None else Some
  {| DefinitionID := id; DefinitionName := "fleet"; Format := "csv"; TimeRangeType := "last_7d";
     TimeRangeDays := 0; TimeRangeStart := ""; TimeRangeEnd := "" |}.

Definition report_check : M Call World unit :=
  table_check Second fleet_report (fun _ _ => Ok {| Rows := "a,b"; ResultRows := 1 |})
    (fun r => Ok (Rows r)) (fun r => Ok (Rows r)) (fun r _ => Ok (Rows r)).

Lemma report_world_ok : table_ok report_world.
Proof.
  intros id s Hs.
  assert (Hc : (id, s) ∈ map_to_list (schedules report_world)) by by apply elem_of_map_to_list.
  unfold report_world in Hc. cbn [schedules] in Hc. rewrite map_to_list_to_map in Hc.
  2: { apply (bool_decide_unpack _). vm_compute. exact I. }
  apply elem_of_cons in Hc as [[= -> ->]|Hc];
    [|apply elem_of_cons in Hc as [[= -> ->]|[= -> ->]%list_elem_of_singleton]].
  - split; [done|]. exists 0, 9, 30. constructor; (vm_compute; reflexivity) || (simpl; lia).
  - split; [done|]. exists 0, 6, 0. constructor; (vm_compute; reflexivity) || (simpl; lia).
  - split; [done|]. exists 0, 9, 30. constructor; (vm_compute; reflexivity) || (simpl; lia).
Qed.

Lemma check_clears_due_witness :
  let w' := final report_check report_world in
  let run s := due (clock report_world) s && has_report fleet_report s in
  (next_run_id w' = next_run_id report_world +
     Z.of_nat (length (List.filter (has_report fleet_report) (due_schedules (clock report_world) report_world))) /\
   (forall id s, schedules report_world !! id = Some s -> run s = false -> schedules w' !! id = Some s) /\
   (forall id s', schedules w' !! id = Some s' -> due (clock report_world) s' = true ->
      schedules report_world !! id = Some s' /\ fleet_report (ReportID s') = None)) /\
  map ScheduleID (due_schedules (clock report_world) report_world) = [3; 1] /\
  map ScheduleID (due_schedules (clock report_world) w') = [3].
Proof.
  split; [|split; vm_compute; reflexivity].
  apply (check_clears_due Second ltac:(done) fleet_report
    (fun _ _ => Ok {| Rows := "a,b"; ResultRows := 1 |})
    (fun r => Ok (Rows r)) (fun r => Ok (Rows r)) (fun r _ => Ok (Rows r)) report_world report_world_ok).
Defined.
